(* ===== verification/_CoqProject ===== *)
-Q . S2P
Prelude.v
Core.v
CString.v
Blocks.v
Base64.v
Headers.v
H2Alloc.v
H2.v
H2Spec.v
H2Run.v
H2Exact.v
Lifecycle.v
Framing.v
Capnp.v
Credentials.v
Rpc.v
RpcSession.v
Dns.v
Json.v
Config.v
Token.v
Effects.v
TunnelState.v
TunnelClient.v
TunnelClientSpec.v
EdgePick.v
Network.v
Tunnel.v
TunnelApi.v
TunnelSpec.v
TunnelRun.v
TunnelLoop.v
TunnelSafe.v
MonitorRemote.v
MonitorHead.v
MonitorTunnel.v
MonitorServe.v
MonitorApplication.v
MonitorOta.v
MonitorUpdate.v
MonitorStore.v
MonitorVault.v
MonitorNetwork.v
MonitorStation.v
MonitorDevices.v
MonitorJson.v
MonitorApi.v
MonitorAccess.v
MonitorHandlers.v
MonitorSession.v
MonitorDevice.v
