(* ===== verification/Prelude.v ===== *)
(** Verification of esp-cf-tunnel: a Cloudflare Tunnel connector for ESP32 in C.

    * The program

    The component src/components/esp_cf_tunnel opens one outgoing connection to
    Cloudflare's edge and serves HTTP requests that arrive on it.  One task
    (src/transport/esp_cf_tunnel.c) discovers an edge by DNS, connects by TLS and
    drives an HTTP/2 session (src/transport/cf_h2.c, around the vendored
    nghttp2).  On the session's control stream it registers by a Cap'n Proto RPC
    (src/protocol/cf_rpc.c over cf_capnp_framing.c and cf_capnp.c); on a second
    stream it receives its configuration as JSON (cf_config.c over cf_json.c and
    the vendored cJSON); the other streams carry requests, whose headers may be
    serialized (cf_headers.c over cf_base64.c), to the application.  The state of
    the connection is a pure reducer (src/cf_lifecycle.c); credentials come from
    a token (cf_credentials.c).

    src/examples/system_monitor is an application of that component, a device one
    sets up and updates from a browser.  It serves its pages and its API on the
    tunnel (main/monitor_tunnel.c, monitor_remote.c).  The API (monitor_api.c)
    answers one request at a time under a lock: it keeps the session, checks the
    password, and works the network (monitor_network.c), the stored settings
    (monitor_store.c), the firmware upload (monitor_ota.c), the pins and the light
    (monitor_io.c, monitor_led.c).  What a change takes effect on later is a set of
    flags that the main task applies ([monitor_api_tick]).

    Paths below are relative to src/components/esp_cf_tunnel, those of the system
    monitor to src/examples/system_monitor/main.

    * How the code is modelled

    Definitions keep the names of the sources and are executable: loops are
    Fixpoints on the number of rounds the code's own bounds leave, so no fuel is
    added to them, and a theorem says each returns.  An object of C is a list of
    bytes (as Z) with checked access: reading or writing outside it, an
    arithmetic that C leaves undefined, or an unbounded string gives [None], so
    that totality is memory safety.  Pointers that may be null are options;
    a view of an object ([cf_bytes]) is a pointer to its bytes with a length.
    Integers wrap where their C type does ([u8], [u16], [u32], [u64], [usize];
    size_t has 32 bits on the targets).  Entries that point into a shared arena
    or buffer are kept as offsets, so that later writes are seen through them.
    Stateful code of the transport runs in a state monad with failure (Effects.v).

    * Files

    Prelude.v    this file: integers, objects, loops, automation (hints [cf])
    Core.v       include/cf_core.h: results, byte views, [cf_secure_zero]
    CString.v    <string.h> on objects that hold a NUL
    Blocks.v     totals over live blocks, for the two heaps
    Base64.v     protocol/cf_base64.c, with a reference codec
    Headers.v    protocol/cf_headers.c
    Lifecycle.v  cf_lifecycle.c: the reducer, its steps and reachable states
    Framing.v    protocol/cf_capnp_framing.c: the stream framer; its client is the
                 class FrameConsumer
    Capnp.v      protocol/cf_capnp.c: reader and builder, each a monad of its own
    Credentials.v, Token.v
                 protocol/cf_credentials.c: the record, and the parser of tokens
    Rpc.v, RpcSession.v
                 protocol/cf_rpc.c: the calls, and the sessions they make
    Dns.v        protocol/cf_dns.c: queries, names, answers
    EdgePick.v   the choice among service records in [discover]
    Json.v       protocol/cf_json.c: the erasing heap, the lexical filter, the
                 entry point, the key check, and what is used of cJSON's tree
    Config.v     protocol/cf_config.c: the remote policy, its update and reply
    H2Alloc.v    the memory hooks of transport/cf_h2.c
    H2.v         transport/cf_h2.c: state, callbacks, operations
    H2Spec.v, H2Run.v, H2Exact.v
                 the session's invariant; calls as sequences of callbacks; what it
                 does exactly and its safety in every use
    Effects.v    the monad of the tunnel task, and postconditions ([runs])
    TunnelState.v, TunnelClient.v, TunnelClientSpec.v
                 the fields of [struct esp_cf_tunnel], its callbacks as the client
                 of the HTTP/2 session, and that they keep the tunnel in order
    Network.v    the system, and transport/cf_tls_diag.c
    Tunnel.v     discovery, connection, traffic and the loop of [run]
    TunnelApi.v  include/esp_cf_tunnel.h: creation, requests, destruction, and the
                 steps of the task among its callers
    TunnelSpec.v, TunnelRun.v, TunnelLoop.v, TunnelSafe.v
                 closing, discovery, connection and traffic, the loop, and the
                 task in every sequence of steps
    MonitorRemote.v, MonitorHead.v
                 monitor_remote.c: the head of a request, and exactly which are taken
    MonitorTunnel.v, MonitorServe.v
                 the callbacks of monitor_tunnel.c, and what each does exactly
    MonitorApplication.v
                 these callbacks as an instance of Application: the monitor composed
                 with the tunnel, and a request from its head to its answer
    MonitorOta.v, MonitorUpdate.v
                 monitor_ota.c, and an upload through any sequence of calls
    MonitorStore.v, MonitorVault.v
                 monitor_store.c, and what it keeps and gives out
    MonitorNetwork.v, MonitorStation.v
                 monitor_network.c, and its ticks and events in any interleaving
    MonitorDevices.v
                 monitor_io.c and monitor_led.c
    MonitorJson.v
                 what monitor_api.c builds of cJSON's items, and reads of a body
    MonitorApi.v monitor_api.c, handler by handler
    MonitorAccess.v, MonitorHandlers.v, MonitorSession.v
                 the device in order and who may change it; each handler; the
                 dispatch of a request, the login and the tick
    MonitorDevice.v
                 the API as the device behind the tunnel: the instance of Monitor
                 (below) that the files above compose

    * Interfaces

    Code outside the repository, and the vendored libraries, are classes with
    laws; each class has an instance that satisfies its laws, on which the
    witnesses evaluate.
    - JsonParser, JsonParserLaws: cJSON's parse and delete on the erasing heap.
      [ParseWithLengthOpts] builds a well-formed tree or fails, and allocates and
      frees through the hooks only.
    - Nghttp2: the functions of nghttp2 the session calls.  What the library does
      in [nghttp2_session_mem_recv2] and [nghttp2_session_mem_send2] is a run: the
      callbacks it makes, in order, the session and the result.  [run_ok] states
      the documented order and contents of callbacks.
    - H2Client, H2ClientLaws: what the session asks of its owner; the tunnel is an
      instance ([tunnel_client], [tunnel_client_laws]), proved from the next.
    - Application, ApplicationLaws: the callbacks of [esp_cf_tunnel_config] and the
      clock.  They return, keep their state in order and call only operations of
      the session.
    - Network, NetworkLaws: sockets, esp-tls, mbedTLS (CONFIG_ESP_TLS_USING_MBEDTLS
      is set), randomness, memory, FreeRTOS.  Any result is allowed, failures
      included, that fits the buffers.  SteadyClock: the clock does not run back,
      which only the deadline of a stop needs.
    - Memory, MemoryLaws: malloc and free, and what automatic arrays hold at first.
    - Monitor, MonitorLaws (with MonitorSystem for the clock and the JSON heap):
      what the responses of the system monitor ask of its API, the lock around it
      and its pages.  [whole_monitor] and [whole_monitor_laws] (MonitorDevice.v)
      implement it by the API; only the pages stay an argument (Pages).
    - ImageFormat, Updater, UpdaterLaws: esp_app_format, the OTA partitions and
      SHA-256.  MachineView says what of the machine an upload may not touch.
    - Nvs, NvsLaws: the key-value store in flash.
    - Radio, RadioLaws: esp_wifi, esp_netif, SNTP and the timer.  A Diary notes the
      calls of a tick with their answers; [recorded] gives one to any radio.
    - Drivers, DriversLaws: the GPIO, temperature and LED drivers.
    - JsonWriter, JsonWriterLaws, JsonBlocks: cJSON's construction and printing on
      the erasing heap.
    - Chip, ChipLaws: the clock, randomness, the lock and the counters of the chip.
    - Keeper, KeeperLaws: the owner of the tunnel, as the API and its tick use it.
    A heap's [malloc] may fail at every call; the size of a block's header and
    what automatic arrays hold at first are arguments.

    * What the theorems show

    - The task (TunnelSafe.v): in every sequence of starts, iterations, requests
      and ends no step is undefined; the state of the lifecycle says which
      resources there are; nothing of a connection, no credential included,
      outlives it; a request to stop ends the loop at once, or at the latest in the
      iteration that begins when the two seconds of the goodbye are over.
    - The session (H2Exact.v, H2Alloc.v): its invariant and admission limits in
      every use, and requests, responses, data and timeouts exactly; an exact
      account of the library's memory, erased when it is freed.
    - Parsers and codecs: total and memory safe on every input; round trips
      (Base64, headers, frames, RPC messages, queries); acceptance exactly of a
      declarative grammar (answers, host names, UUIDs, tokens, configurations, JSON
      lexemes); framing independent of how the bytes are cut into pieces.
    - Sessions and policy: the registration session follows its state machine and
      accepts only the answer to its own question; a configuration is applied as a
      whole or not at all, and versions never go back.
    - Lifecycle: online only when ready, registered and configured; the back-off
      within its bounds and kept until its time.

    - The system monitor (MonitorHead.v, MonitorApplication.v): exactly which
      requests are taken; its callbacks are safe in every order and keep to what
      the tunnel asks of an application; a posted request is executed once, with
      its whole body, or not at all; an answer is read back whole.
    - The device behind it (MonitorSession.v, MonitorDevice.v): every request is
      answered and leaves every part in order and no JSON behind; without the
      session nothing changes, from the tunnel as well; only the password opens a
      session, and between two logins at most five wrong ones are looked at in a
      window of a minute, and ten in any sixty seconds ([ten_guesses] reaches
      that bound); effects are applied once, when due, each as its flag says; the
      callbacks with the whole device behind them are safe in every order.
    - Its parts: a firmware image boots only if its digest is the announced one and
      the running image is never touched (MonitorUpdate.v); settings are read back
      as saved and credentials come only from a valid token (MonitorVault.v); the
      network keeps its bounds under any interleaving of ticks and events, and a
      tick tells the radio exactly what is due (MonitorStation.v); pins, light (MonitorDevices.v) and host names
      (MonitorAccess.v) are exactly the allowed ones.

    * Bounds

    Rounds of loops come from the code: 8 reads and 8 writes per iteration, 8
    segments per frame, 32 levels and 4096 words of traversal in the reader, 16
    DNS records and 16 hops, 48 header fields.  The traversal of a list or a name
    is bounded by the bytes that are left, which is enough because each round
    consumes one.

    * Not modelled

    Log output; the lock's effect on other cores (a call of another task is a
    step between two iterations of the loop, which is where the code releases
    what it shares); the stack, and what stays on it of dead objects;
    [secure_random], which the session passes to nghttp2; nghttp2 and most of cJSON
    (interfaces above).  Of the system monitor: the HTTP server on the local
    network (monitor_http.c), main.c, and what starts, restarts and observes the
    tunnel in monitor_tunnel.c (behind the class Keeper).
    src/examples/protocol_smoke, the tests, the tools and the patches.

    * This file

    C buffers, machine-width integers, automation. *)
From Stdlib Require Export ZArith Lia Bool ZifyBool.
From stdpp Require Export base tactics option list numbers strings.
#[global] Open Scope Z_scope.

(** ** Machine integers *)

(** Conversion to an unsigned type of [w] bits. *)
Definition wrap (w x : Z) : Z := x mod 2 ^ w.

Abbreviation u8 := (wrap 8).
Abbreviation u16 := (wrap 16).
Abbreviation u32 := (wrap 32).
Abbreviation u64 := (wrap 64).

(** [size_t] on the ESP32 targets has 32 bits. *)
Definition SIZE_MAX : Z := 4294967295.
Abbreviation usize := (wrap 32).

Definition UINT32_MAX : Z := 4294967295.
Definition UINT64_MAX : Z := 18446744073709551615.
Definition INT32_MAX : Z := 2147483647.

(** ** Buffers

    A C object of [n] bytes is a [list Z] of length [n].  Every access is
    checked: [None] is undefined behaviour (an access outside the object), so a
    function that returns [Some _] on an input touched no byte outside its
    buffers on that input. *)

Definition is_byte (b : Z) : Prop := 0 <= b < 256.
Abbreviation bytes_ok := (Forall is_byte).

Definition zlen {A} (l : list A) : Z := Z.of_nat (length l).

(** [p[i]], as a read. *)
Definition rd (m : list Z) (i : Z) : option Z :=
  if i <? 0 then None else m !! Z.to_nat i.

(** The bytes [p[off .. off+n-1]]; the source of a [memcpy]. *)
Definition slice (m : list Z) (off n : Z) : option (list Z) :=
  if (0 <=? off) && (0 <=? n) && (off + n <=? zlen m)
  then Some (take (Z.to_nat n) (drop (Z.to_nat off) m)) else None.

(** [memcpy(p + off, bs, len bs)]. *)
Definition blit (m : list Z) (off : Z) (bs : list Z) : option (list Z) :=
  if (0 <=? off) && (off + zlen bs <=? zlen m)
  then Some (take (Z.to_nat off) m ++ bs ++ drop (Z.to_nat off + length bs) m)
  else None.

(** [p[i] = v]. *)
Definition wr (m : list Z) (i v : Z) : option (list Z) := blit m i [v].

(** [memset(p + off, 0, n)]. *)
Definition zero_fill (m : list Z) (off n : Z) : option (list Z) :=
  if n <? 0 then None else blit m off (replicate (Z.to_nat n) 0).

(** Bytes of a string literal, without the terminating NUL. *)
Fixpoint lit (s : string) : list Z :=
  match s with
  | EmptyString => []
  | String c s' => Z.of_nat (Ascii.nat_of_ascii c) :: lit s'
  end.

(** ** Automation *)

Create HintDb cf.
Create Rewrite HintDb zlen.

Ltac bool_to_prop :=
  repeat match goal with
  | H : (_ && _) = true |- _ => apply andb_true_iff in H; destruct H
  | H : (_ || _) = false |- _ => apply orb_false_iff in H; destruct H
  | H : negb _ = true |- _ => apply negb_true_iff in H
  | H : negb _ = false |- _ => apply negb_false_iff in H
  | H : (_ <? _) = true |- _ => apply Z.ltb_lt in H
  | H : (_ <? _) = false |- _ => apply Z.ltb_ge in H
  | H : (_ <=? _) = true |- _ => apply Z.leb_le in H
  | H : (_ <=? _) = false |- _ => apply Z.leb_gt in H
  | H : (_ =? _) = true |- _ => apply Z.eqb_eq in H
  | H : (_ =? _) = false |- _ => apply Z.eqb_neq in H
  | H : (_ && _) = false |- _ => apply andb_false_iff in H
  | H : (_ || _) = true |- _ => apply orb_true_iff in H
  end.

(** Linear arithmetic with division and remainder by constants. *)
Ltac zdm := Z.to_euclidean_division_equations; lia.

Ltac case_if :=
  match goal with
  | |- context [if ?b then _ else _] =>
      lazymatch b with
      | context [if _ then _ else _] => fail
      | _ => let E := fresh "E" in destruct b eqn:E
      end
  end.

Ltac case_ifs := repeat (case_if; bool_to_prop; try lia).

(** Split the successful runs of the option monad. *)
Ltac inv_bind :=
  repeat match goal with
  | H : _ ≫= _ = Some _ |- _ =>
      let x := fresh "x" in let E := fresh "Hx" in apply bind_Some in H as (x & E & H)
  | H : (let '(_, _) := ?p in _) = Some _ |- _ => destruct p
  | H : Some _ = Some _ |- _ => injection H as H
  | H : None = Some _ |- _ => discriminate H
  end.

(** ** Lemmas *)

Lemma zlen_nonneg {A} (l : list A) : 0 <= zlen l.
Proof. unfold zlen; lia. Qed.

Lemma zlen_app {A} (l1 l2 : list A) : zlen (l1 ++ l2) = zlen l1 + zlen l2.
Proof. unfold zlen; rewrite length_app; lia. Qed.

Lemma zlen_cons {A} (x : A) l : zlen (x :: l) = 1 + zlen l.
Proof. unfold zlen; simpl length; lia. Qed.

Lemma zlen_nil : zlen (@nil Z) = 0.
Proof. reflexivity. Qed.

Lemma zlen_nil_any {A} : zlen (@nil A) = 0.
Proof. reflexivity. Qed.

Lemma zlen_replicate {A} n (x : A) : zlen (replicate n x) = Z.of_nat n.
Proof. unfold zlen; rewrite length_replicate; lia. Qed.

#[export] Hint Rewrite @zlen_app @zlen_cons @zlen_replicate zlen_nil : zlen.

(** Arithmetic about lengths. *)
Ltac pose_zlen l :=
  lazymatch goal with
  | _ : 0 <= zlen l |- _ => fail
  | _ => pose proof (zlen_nonneg l)
  end.

Ltac zlen_norm :=
  autorewrite with zlen in *;
  repeat match goal with
  | H : context [zlen ?l] |- _ => pose_zlen l
  | |- context [zlen ?l] => pose_zlen l
  end.

Ltac zlia := zlen_norm; first [lia | Z.to_euclidean_division_equations; lia].

(** Evaluate the length comparisons of the goal. *)
Ltac decide_ltb :=
  repeat match goal with
  | |- context [?a <? ?b] =>
      first [replace (a <? b) with true by zlia | replace (a <? b) with false by zlia]
  end; cbn [negb andb orb].

Ltac decide_leb :=
  repeat match goal with
  | |- context [?a <=? ?b] =>
      first [replace (a <=? b) with true by zlia | replace (a <=? b) with false by zlia]
  end; cbn [negb andb orb].

Lemma wrap_small w x : 0 <= x < 2 ^ w -> wrap w x = x.
Proof. apply Z.mod_small. Qed.

Lemma wrap_range w x : 0 <= w -> 0 <= wrap w x < 2 ^ w.
Proof. intros; apply Z.mod_pos_bound; lia. Qed.

Lemma blit_None_iff m off bs :
  blit m off bs = None <-> off < 0 \/ zlen m < off + zlen bs.
Proof. unfold blit; case_if; bool_to_prop; split; intros; try done; lia. Qed.

Lemma zlen_blit m off bs m' : blit m off bs = Some m' -> zlen m' = zlen m.
Proof.
  unfold blit; case_if; [|done]; bool_to_prop; intros [= <-].
  unfold zlen in *; rewrite !length_app, length_take, length_drop; lia.
Qed.

Lemma blit_app pre mid post bs :
  length bs = length mid ->
  blit (pre ++ mid ++ post) (zlen pre) bs = Some (pre ++ bs ++ post).
Proof.
  intros Hl; unfold blit, zlen.
  replace (_ && _) with true.
  - by rewrite Nat2Z.id, take_app_length, Hl, <- drop_drop, !drop_app_length.
  - rewrite !length_app; lia.
Qed.

(** A buffer can be cut at every range inside it. *)
Lemma cut_at (m : list Z) off n :
  0 <= off -> 0 <= n -> off + n <= zlen m ->
  exists pre mid post, m = pre ++ mid ++ post /\ zlen pre = off /\ zlen mid = n.
Proof.
  unfold zlen; intros.
  exists (take (Z.to_nat off) m), (take (Z.to_nat n) (drop (Z.to_nat off) m)),
    (drop (Z.to_nat n) (drop (Z.to_nat off) m)).
  rewrite !take_drop, !length_take, length_drop; split_and!; [done| |]; lia.
Qed.

Lemma blit_Some m off bs :
  0 <= off -> off + zlen bs <= zlen m -> exists m', blit m off bs = Some m'.
Proof.
  intros H1 H2; destruct (blit m off bs) eqn:E; [by eexists|].
  apply blit_None_iff in E; lia.
Qed.

Lemma blit_inv m off bs m' :
  blit m off bs = Some m' -> 0 <= off /\ off + zlen bs <= zlen m.
Proof.
  intros H; destruct (decide (0 <= off /\ off + zlen bs <= zlen m)); [done|].
  assert (blit m off bs = None) by (apply blit_None_iff; lia); congruence.
Qed.

(** Two adjacent writes are one write. *)
Lemma blit_blit m off a b m' :
  blit m off a = Some m' -> blit m' (off + zlen a) b = blit m off (a ++ b).
Proof.
  intros H; pose proof (blit_inv _ _ _ _ H) as [H0 H1].
  destruct (decide (off + zlen a + zlen b <= zlen m)) as [Hb|Hb].
  - destruct (cut_at m off (zlen a)) as (p & qa & r1 & -> & <- & Ha); [lia|apply zlen_nonneg|lia|].
    rewrite !zlen_app in Hb.
    destruct (cut_at r1 0 (zlen b)) as (e & qb & r & -> & He & Hqb);
      [lia|apply zlen_nonneg|lia|].
    destruct e; [|rewrite zlen_cons in He; pose proof (zlen_nonneg e); lia].
    unfold zlen in Ha, Hqb; simpl in *.
    rewrite blit_app in H by lia; injection H as <-.
    rewrite (app_assoc p a), <- zlen_app, blit_app by lia.
    rewrite (app_assoc qa qb r), blit_app by (rewrite !length_app; lia).
    by rewrite <- (app_assoc a b r), <- (app_assoc p a).
  - pose proof (zlen_blit _ _ _ _ H).
    transitivity (@None (list Z)); [|symmetry]; apply blit_None_iff; rewrite ?zlen_app; lia.
Qed.

Lemma blit_0 m bs m' : blit m 0 bs = Some m' -> m' = bs ++ drop (length bs) m.
Proof. unfold blit; case_if; [|done]; by intros [= <-]. Qed.

Lemma blit_0_intro m bs :
  zlen bs <= zlen m -> blit m 0 bs = Some (bs ++ drop (length bs) m).
Proof.
  intros H; destruct (blit_Some m 0 bs) as [m' Hm]; [lia|lia|].
  by rewrite Hm, (blit_0 _ _ _ Hm).
Qed.

(** Writing a prefix, then the bytes after it. *)
Lemma blit_0_app m a b r :
  zlen a <= zlen m -> blit (drop (length a) m) 0 b = Some r -> blit m 0 (a ++ b) = Some (a ++ r).
Proof.
  intros Ha Hb; pose proof (blit_inv _ _ _ _ Hb) as [_ Hl]; apply blit_0 in Hb as ->.
  assert (zlen (drop (length a) m) = zlen m - zlen a) as Hd
    by (unfold zlen in *; rewrite length_drop; lia).
  rewrite blit_0_intro by zlia.
  by rewrite length_app, drop_drop, <- app_assoc.
Qed.

Lemma blit_seq m off a b m1 m2 k :
  blit m off a = Some m1 -> k = off + zlen a -> blit m1 k b = Some m2 ->
  blit m off (a ++ b) = Some m2.
Proof. intros H1 -> H2; by rewrite <- H2, (blit_blit _ _ _ _ _ H1). Qed.

Lemma blit_nil m off : 0 <= off <= zlen m -> blit m off [] = Some m.
Proof.
  intros; unfold blit; replace (_ && _) with true.
  - simpl; by rewrite Nat.add_0_r, take_drop.
  - change (zlen (@nil Z)) with 0; lia.
Qed.

Lemma rd_app_r (l1 l2 : list Z) i : 0 <= i -> rd (l1 ++ l2) (zlen l1 + i) = rd l2 i.
Proof.
  intros; unfold rd, zlen; case_ifs.
  rewrite lookup_app_r by lia; f_equal; lia.
Qed.

Lemma rd_app_l (l1 l2 : list Z) i : i < zlen l1 -> rd (l1 ++ l2) i = rd l1 i.
Proof.
  intros; unfold rd, zlen in *; case_ifs; [done|].
  rewrite lookup_app_l by lia; done.
Qed.

Lemma rd_Some m i : 0 <= i < zlen m -> exists b, rd m i = Some b /\ b ∈ m.
Proof.
  intros; unfold rd; replace (i <? 0) with false by (symmetry; apply Z.ltb_ge; lia).
  destruct (lookup_lt_is_Some_2 m (Z.to_nat i)) as [b Hb]; [unfold zlen in *; lia|].
  exists b; split; [done|]. by eapply list_elem_of_lookup_2.
Qed.

Lemma rd_byte m i b : bytes_ok m -> rd m i = Some b -> is_byte b.
Proof.
  unfold rd; case_if; [done|]; intros Hm H; by eapply Forall_lookup_1.
Qed.

Lemma rd_inv m i b : rd m i = Some b -> 0 <= i < zlen m.
Proof.
  unfold rd; case_if; [done|]; bool_to_prop; intros H.
  apply lookup_lt_Some in H; unfold zlen; lia.
Qed.

(** ** Bits *)

Lemma land_shiftl_low x d k : 0 <= k -> 0 <= d < 2 ^ k -> Z.land (Z.shiftl x k) d = 0.
Proof.
  intros Hk Hd; apply Z.bits_inj'; intros n Hn.
  rewrite Z.land_spec, Z.bits_0, Z.shiftl_spec by lia.
  destruct (Z.ltb_spec n k).
  - by rewrite Z.testbit_neg_r by lia.
  - assert (Z.testbit d n = false) as ->; [|by rewrite andb_false_r].
    rewrite <- (Z.mod_small d (2 ^ k)) by lia; apply Z.mod_pow2_bits_high; lia.
Qed.

(** Shifted high part or low part: a disjunction without carries. *)
Lemma lor_shiftl x d k : 0 <= k -> 0 <= d < 2 ^ k -> Z.lor (Z.shiftl x k) d = x * 2 ^ k + d.
Proof.
  intros Hk Hd; rewrite <- Z.shiftl_mul_pow2 by lia.
  pose proof (Z.add_lor_land (Z.shiftl x k) d) as H.
  rewrite land_shiftl_low in H by lia; lia.
Qed.

Lemma lor_shiftr_low x d k : 0 <= k -> 0 <= d < 2 ^ k -> Z.lor d (Z.shiftl x k) = d + x * 2 ^ k.
Proof. intros; rewrite Z.lor_comm, lor_shiftl by lia; lia. Qed.

Lemma land_mask x k : 0 <= k -> Z.land x (2 ^ k - 1) = x mod 2 ^ k.
Proof. intros; rewrite <- Z.land_ones, Z.ones_equiv by lia; done. Qed.

(** ** Induction on the length of a list *)

Lemma list_len_ind {A} (P : list A -> Prop) :
  (forall l, (forall l', (length l' < length l)%nat -> P l') -> P l) -> forall l, P l.
Proof.
  intros H l; remember (length l) as n eqn:E; revert l E.
  induction (lt_wf n) as [n _ IH]; intros l ->; apply H; intros; by eapply IH.
Qed.

(** ** Little-endian integers *)

(** The value of a little-endian byte string. *)
Fixpoint le_val (l : list Z) : Z :=
  match l with [] => 0 | b :: l' => b + 256 * le_val l' end.

(** The [n] low bytes of [v], least significant first. *)
Fixpoint le_bytes (n : nat) (v : Z) : list Z :=
  match n with O => [] | S n' => v mod 256 :: le_bytes n' (v / 256) end.

(** The bytes [l[o .. o+n-1]], for statements. *)
Definition sub (l : list Z) (o n : Z) : list Z := take (Z.to_nat n) (drop (Z.to_nat o) l).

Lemma zlen_le_bytes n v : zlen (le_bytes n v) = Z.of_nat n.
Proof.
  revert v; induction n as [|n IH]; intros v; [done|].
  cbn [le_bytes]; rewrite zlen_cons, IH; lia.
Qed.

#[export] Hint Rewrite zlen_le_bytes : zlen.

Lemma le_bytes_ok n v : bytes_ok (le_bytes n v).
Proof.
  revert v; induction n as [|n IH]; intros v; simpl; constructor; [|apply IH].
  unfold is_byte; pose proof (Z.mod_pos_bound v 256); lia.
Qed.

Lemma le_val_bound l : bytes_ok l -> 0 <= le_val l < 256 ^ zlen l.
Proof.
  induction 1 as [|b l Hb Hl IH]; [done|].
  rewrite zlen_cons, Z.pow_add_r by (try apply zlen_nonneg; lia).
  unfold is_byte in Hb; cbn [le_val]; change (256 ^ 1) with 256; lia.
Qed.

Lemma le_val_bytes n v : 0 <= v < 256 ^ Z.of_nat n -> le_val (le_bytes n v) = v.
Proof.
  revert v; induction n as [|n IH]; intros v Hv; [simpl in *; lia|].
  rewrite Nat2Z.inj_succ, Z.pow_succ_r in Hv by lia.
  cbn [le_bytes le_val]; rewrite IH; [pose proof (Z_div_mod_eq_full v 256); lia|].
  split; [apply Z.div_pos; lia|apply Z.div_lt_upper_bound; lia].
Qed.

Lemma le_bytes_val l : bytes_ok l -> le_bytes (length l) (le_val l) = l.
Proof.
  induction 1 as [|b l Hb Hl IH]; [done|].
  unfold is_byte in Hb; cbn [length le_bytes le_val].
  assert (b + 256 * le_val l = le_val l * 256 + b) as -> by lia.
  rewrite Z.div_add_l, (Z.div_small b), Z.add_0_r, IH by lia; f_equal.
  rewrite Z.add_comm, Z_mod_plus_full; apply Z.mod_small; lia.
Qed.

Lemma le_val_app a b : le_val (a ++ b) = le_val a + 256 ^ zlen a * le_val b.
Proof.
  induction a as [|x a IH]; [rewrite app_nil_l; change (zlen []) with 0; simpl le_val; lia|].
  rewrite zlen_cons, Z.pow_add_r by (try apply zlen_nonneg; lia).
  cbn [app le_val]; rewrite IH; change (256 ^ 1) with 256; lia.
Qed.

Lemma sub_app (a b c : list Z) : sub (a ++ b ++ c) (zlen a) (zlen b) = b.
Proof. unfold sub, zlen; by rewrite !Nat2Z.id, drop_app_length, take_app_length. Qed.

Lemma sub_mid (a b c : list Z) o n : o = zlen a -> n = zlen b -> sub (a ++ b ++ c) o n = b.
Proof. intros -> ->; apply sub_app. Qed.

Lemma sub_head (a b : list Z) n : n = zlen a -> sub (a ++ b) 0 n = a.
Proof. apply (sub_mid []); done. Qed.

Lemma zlen_sub l o n : 0 <= o -> 0 <= n -> o + n <= zlen l -> zlen (sub l o n) = n.
Proof. unfold sub, zlen; intros; rewrite length_take, length_drop; lia. Qed.

Lemma sub_ok l o n : bytes_ok l -> bytes_ok (sub l o n).
Proof. intros; apply Forall_take, Forall_drop; done. Qed.

Lemma sub_app_l a b o n : 0 <= o -> 0 <= n -> o + n <= zlen a -> sub (a ++ b) o n = sub a o n.
Proof.
  intros; unfold sub, zlen in *.
  rewrite drop_app_le, take_app_le by (rewrite ?length_drop; lia); done.
Qed.

Lemma sub_app_r a b o n : 0 <= o -> sub (a ++ b) (zlen a + o) n = sub b o n.
Proof.
  intros; unfold sub, zlen in *; f_equal.
  rewrite drop_app_ge by lia; f_equal; lia.
Qed.

Lemma slice_sub l o n :
  0 <= o -> 0 <= n -> o + n <= zlen l -> slice l o n = Some (sub l o n).
Proof. intros; unfold slice; by replace ((0 <=? o) && _ && _) with true by lia. Qed.

(** [p[o] | p[o+1] << 8 | p[o+2] << 16 | p[o+3] << 24], each operand a
    [uint32_t]. *)
Definition get_u32 (p : list Z) (o : Z) : option Z :=
  b0 ← rd p o; b1 ← rd p (o + 1); b2 ← rd p (o + 2); b3 ← rd p (o + 3);
  Some (Z.lor (Z.lor (Z.lor b0 (u32 (Z.shiftl b1 8))) (u32 (Z.shiftl b2 16)))
          (u32 (Z.shiftl b3 24))).

Lemma rd_mid a b c j : 0 <= j < zlen b -> rd (a ++ b ++ c) (zlen a + j) = rd b j.
Proof. intros; by rewrite rd_app_r, rd_app_l by lia. Qed.

Lemma get_u32_spec l o :
  bytes_ok l -> 0 <= o -> o + 4 <= zlen l -> get_u32 l o = Some (le_val (sub l o 4)).
Proof.
  intros Hl Ho Hn; destruct (cut_at l o 4) as (a & b & c & -> & <- & Hb); [lia..|].
  rewrite <- Hb, sub_app; rewrite !Forall_app in Hl; destruct Hl as (_ & Hl & _).
  destruct b as [|b0 [|b1 [|b2 [|b3 [|? b]]]]]; try (exfalso; zlia); clear Hb.
  unfold get_u32; rewrite <- (Z.add_0_r (zlen a)) at 1; rewrite !rd_mid by (vm_compute; done).
  change (rd _ 0) with (Some b0); change (rd _ 1) with (Some b1).
  change (rd _ 2) with (Some b2); change (rd _ 3) with (Some b3).
  repeat (apply Forall_cons in Hl as [? Hl]); unfold is_byte in *; cbn [mbind option_bind]; f_equal.
  rewrite !(wrap_small 32) by (rewrite Z.shiftl_mul_pow2 by lia; simpl; lia).
  rewrite (lor_shiftr_low b1 b0 8), (lor_shiftr_low b2 _ 16), (lor_shiftr_low b3 _ 24) by (simpl; lia).
  simpl; lia.
Qed.

(** ** Deciding that concrete data are bytes *)

#[global] Instance is_byte_dec b : Decision (is_byte b).
Proof. unfold is_byte; apply _. Defined.

Ltac bytes_by_compute :=
  match goal with |- Forall is_byte ?l => refine (bool_decide_eq_true_1 (Forall is_byte l) _); vm_compute; reflexivity end.
