(* ===== verification/Core.v ===== *)
(** Result codes, byte views and memory erasure (include/cf_core.h, and
    [cf_secure_zero] of src/protocol/cf_base64.c). *)
From S2P Require Export Prelude.

Inductive cf_result :=
| CF_OK | CF_ERR_ARGUMENT | CF_ERR_FORMAT | CF_ERR_LIMIT
| CF_ERR_UNSUPPORTED | CF_ERR_STATE | CF_ERR_MEMORY | CF_ERR_TRUNCATED.

#[global] Instance cf_result_eq_dec : EqDecision cf_result.
Proof. solve_decision. Defined.

(** The numeric values of the enumeration. *)
Definition cf_result_code (r : cf_result) : Z :=
  match r with
  | CF_OK => 0 | CF_ERR_ARGUMENT => -1 | CF_ERR_FORMAT => -2
  | CF_ERR_LIMIT => -3 | CF_ERR_UNSUPPORTED => -4 | CF_ERR_STATE => -5
  | CF_ERR_MEMORY => -6 | CF_ERR_TRUNCATED => -7
  end.

Definition is_ok (r : cf_result) : bool := bool_decide (r = CF_OK).

(** A non-owning view.  [ptr] is the object the pointer refers to, from the
    pointed-to byte on; [None] is the null pointer. *)
Record cf_bytes := Bytes { ptr : option (list Z); len : Z }.

(** [(cf_bytes){NULL, 0}]. *)
Definition null_bytes : cf_bytes := Bytes None 0.

(** [b.ptr[i]]. *)
Definition bget (b : cf_bytes) (i : Z) : option Z :=
  m ← ptr b; rd m i.

(** [(cf_bytes){b.ptr + off, n}]: pointer arithmetic must stay in the object. *)
Definition badd (b : cf_bytes) (off n : Z) : option cf_bytes :=
  match ptr b with
  | None => if off =? 0 then Some (Bytes None n) else None
  | Some m => if (0 <=? off) && (off <=? zlen m)
              then Some (Bytes (Some (drop (Z.to_nat off) m)) n) else None
  end.

(** The test [!b.ptr && b.len] that guards every entry point. *)
Definition null_view (b : cf_bytes) : bool :=
  match ptr b with None => negb (len b =? 0) | Some _ => false end.

(** The view of exactly the bytes [l]. *)
Definition view (l : list Z) : cf_bytes := Bytes (Some l) (zlen l).

(** The view [b] denotes the bytes [l]: its first [len] bytes are [l]. *)
Definition denotes (b : cf_bytes) (l : list Z) : Prop :=
  bytes_ok l /\ len b = zlen l /\
  match ptr b with
  | None => l = []
  | Some m => exists rest, m = l ++ rest
  end.

(** [while (len--) *p++ = 0;] *)
Fixpoint cf_secure_zero_loop (m : list Z) (p : Z) (n : nat) : option (list Z) :=
  match n with
  | O => Some m
  | S n' => m' ← wr m p 0; cf_secure_zero_loop m' (p + 1) n'
  end.

Definition cf_secure_zero (m : list Z) (n : Z) : option (list Z) :=
  cf_secure_zero_loop m 0 (Z.to_nat n).

(** ** Lemmas *)

Lemma denotes_view l : bytes_ok l -> denotes (view l) l.
Proof. intros; repeat split; [done|]; exists []; by rewrite app_nil_r. Qed.

Lemma denotes_null_view b l : denotes b l -> null_view b = false.
Proof.
  destruct b as [[m|] n]; unfold null_view, denotes; simpl; [done|].
  intros (_ & -> & ->); done.
Qed.

Lemma denotes_get b l i : denotes b l -> 0 <= i < zlen l -> bget b i = rd l i.
Proof.
  destruct b as [[m|] n]; unfold denotes, bget; simpl.
  - intros (_ & _ & rest & ->) Hi; by rewrite rd_app_l by lia.
  - intros (_ & _ & ->) Hi; rewrite zlen_nil in Hi; lia.
Qed.

(** Reading the [j]-th byte of the middle part of a view. *)
Lemma denotes_nth b p q r j c :
  denotes b (p ++ q ++ r) -> 0 <= j -> rd q j = Some c -> bget b (zlen p + j) = Some c.
Proof.
  intros Hb Hj Hc; pose proof (rd_inv _ _ _ Hc).
  rewrite (denotes_get _ _ _ Hb) by zlia.
  by rewrite rd_app_r, rd_app_l by zlia.
Qed.

Lemma denotes_len b l : denotes b l -> len b = zlen l.
Proof. by intros (_ & ? & _). Qed.

Lemma denotes_bytes b l : denotes b l -> bytes_ok l.
Proof. by intros (? & _). Qed.

#[export] Hint Resolve denotes_view denotes_null_view denotes_bytes denotes_len : cf.

(** A sub-view denotes the corresponding middle part. *)
Lemma denotes_badd b p q r :
  denotes b (p ++ q ++ r) ->
  exists b', badd b (zlen p) (zlen q) = Some b' /\ denotes b' q.
Proof.
  destruct b as [[m|] n]; unfold denotes, badd; simpl.
  - intros (Hb & _ & rest & ->); rewrite !Forall_app in Hb.
    replace ((0 <=? zlen p) && _) with true.
    + eexists; split; [done|]; simpl; split_and!; [tauto|done|].
      exists (r ++ rest); unfold zlen.
      by rewrite Nat2Z.id, <- !app_assoc, drop_app_length.
    + zlia.
  - intros (_ & _ & Hn); destruct p, q, r; try discriminate Hn; simpl.
    eexists; repeat split; constructor.
Qed.

Lemma secure_zero_loop_spec n m p :
  0 <= p -> p + Z.of_nat n <= zlen m ->
  cf_secure_zero_loop m p n = blit m p (replicate n 0).
Proof.
  revert m p; induction n as [|n IH]; intros m p Hp Hn; simpl.
  - by rewrite blit_nil by lia.
  - unfold wr; destruct (blit_Some m p [0]) as [m' Hm']; [lia|rewrite zlen_cons, zlen_nil; lia|].
    rewrite Hm'; simpl; rewrite IH, (blit_blit _ _ [0] _ _ Hm'); [done|lia|].
    rewrite (zlen_blit _ _ _ _ Hm'); lia.
Qed.

(** Erasure overwrites the first [n] bytes and keeps the rest. *)
Lemma cf_secure_zero_spec m n :
  0 <= n <= zlen m -> cf_secure_zero m n = blit m 0 (replicate (Z.to_nat n) 0).
Proof. intros; apply secure_zero_loop_spec; lia. Qed.
