(* ===== verification/CString.v ===== *)
(** C strings: objects that hold a NUL byte, and the functions of <string.h>
    the sources use on them. *)
From S2P Require Export Core.

(** The object [s] holds the text [t]: [t], a NUL, anything. *)
Definition cstr (s t : list Z) : Prop := exists rest, s = t ++ 0 :: rest /\ 0 ∉ t.

(** [strlen]: undefined when no NUL is found inside the object. *)
Fixpoint strlen (s : list Z) : option Z :=
  match s with
  | [] => None
  | c :: s => if c =? 0 then Some 0 else n ← strlen s; Some (1 + n)
  end.

(** [!strcmp(a, b)]. *)
Fixpoint streq (a b : list Z) : option bool :=
  match a, b with
  | x :: a, y :: b => if negb (x =? y) then Some false else if x =? 0 then Some true else streq a b
  | _, _ => None
  end.

(** [!strncmp(a, b, n)]. *)
Fixpoint strneq (n : nat) (a b : list Z) : option bool :=
  match n with
  | O => Some true
  | S n =>
      match a, b with
      | x :: a, y :: b => if negb (x =? y) then Some false else if x =? 0 then Some true else strneq n a b
      | _, _ => None
      end
  end.

(** The bytes before the NUL. *)
Definition c_string (array : list Z) : option (list Z) := n ← strlen array; slice array 0 n.

(** The bytes a "%.*s" prints: up to a NUL. *)
Fixpoint until_nul (l : list Z) : list Z :=
  match l with [] => [] | c :: l => if c =? 0 then [] else c :: until_nul l end.

(** An array of [size] bytes that holds a C string. *)
Definition text_array (size : Z) (m : list Z) : Prop := zlen m = size /\ 0 ∈ m.

(** [snprintf(out, cap, ...)] of a text. *)
Definition snprintf (out : list Z) (cap : Z) (text : list Z) : option (list Z) :=
  blit out 0 (take (Z.to_nat (cap - 1)) text ++ [0]).

(** A string literal as the object it denotes. *)
Definition cstring (s : string) : list Z := lit s ++ [0].

(** ** Lemmas *)

Lemma cstr_cons c s t : cstr (c :: s) t -> (c = 0 /\ t = []) \/ (c <> 0 /\ exists t', t = c :: t' /\ cstr s t').
Proof.
  intros (rest & E & Hn); destruct t as [|x t]; [injection E as ->; by left|].
  injection E as -> ->; apply not_elem_of_cons in Hn as [H0 Hn]; right; split; [by intros ->|].
  exists t; split; [done|]; by exists rest.
Qed.

Lemma cstr_nil t : ~ cstr [] t.
Proof. by intros (rest & E & _); destruct t. Qed.

Lemma cstr_intro t rest : 0 ∉ t -> cstr (t ++ 0 :: rest) t.
Proof. by exists rest. Qed.

Lemma strlen_spec s t : cstr s t -> strlen s = Some (zlen t).
Proof.
  revert t; induction s as [|c s IH]; intros t Ht; [by apply cstr_nil in Ht|].
  cbn [strlen]; apply cstr_cons in Ht as [[-> ->]|(Hc & t' & -> & Ht)]; [done|].
  replace (c =? 0) with false by lia; by rewrite (IH _ Ht), zlen_cons.
Qed.

Lemma streq_spec a b s t : cstr a s -> cstr b t -> streq a b = Some (bool_decide (s = t)).
Proof.
  revert b s t; induction a as [|x a IH]; intros b s t Ha Hb; [by apply cstr_nil in Ha|].
  destruct b as [|y b]; [by apply cstr_nil in Hb|]; cbn [streq].
  apply cstr_cons in Ha as [[-> ->]|(Hx & s' & -> & Ha)], Hb as [[-> ->]|(Hy & t' & -> & Hb)]; try done.
  - by replace (0 =? y) with false by lia.
  - by replace (x =? 0) with false by lia.
  - destruct (Z.eqb_spec x y) as [->|Hne]; cbn [negb].
    + replace (y =? 0) with false by lia; rewrite (IH _ _ _ Ha Hb); f_equal; apply bool_decide_ext; split; congruence.
    + rewrite bool_decide_eq_false_2; [done|congruence].
Qed.

Lemma cstr_unique s t t' : cstr s t -> cstr s t' -> t = t'.
Proof.
  intros Ht Ht'; pose proof (streq_spec _ _ _ _ Ht Ht') as E; rewrite (streq_spec _ _ _ _ Ht Ht) in E.
  rewrite (bool_decide_eq_true_2 (t = t)) in E by done; injection E as E; symmetry in E; by apply bool_decide_eq_true_1 in E.
Qed.

Lemma cstr_drop s t k : cstr s t -> (k <= length t)%nat -> cstr (drop k s) (drop k t).
Proof.
  intros (rest & -> & Hn) Hk; exists rest; split; [|intros H; apply Hn; rewrite <- (take_drop k t); apply elem_of_app; by right].
  rewrite drop_app_le by done; done.
Qed.

Lemma c_string_spec s t : cstr s t -> c_string s = Some t.
Proof.
  intros Ht; unfold c_string; rewrite (strlen_spec _ _ Ht); destruct Ht as (rest & -> & _); cbn [mbind option_bind].
  pose proof (zlen_nonneg t); rewrite slice_sub by (rewrite ?zlen_app, ?zlen_cons; pose proof (zlen_nonneg rest); lia); by rewrite sub_head.
Qed.

Lemma until_nul_no_nul l : 0 ∉ until_nul l.
Proof.
  induction l as [|c l IH]; cbn [until_nul]; [apply not_elem_of_nil|]; destruct (Z.eqb_spec c 0); [apply not_elem_of_nil|].
  apply not_elem_of_cons; split; [congruence|done].
Qed.

Lemma zlen_until_nul l : zlen (until_nul l) <= zlen l.
Proof. induction l as [|c l IH]; cbn [until_nul]; [done|]; destruct (c =? 0); rewrite ?zlen_cons, ?zlen_nil; pose proof (zlen_nonneg l); lia. Qed.

Lemma snprintf_cstr out cap text : 0 ∉ text -> zlen text < cap <= zlen out -> exists out', snprintf out cap text = Some out' /\ cstr out' text /\ zlen out' = zlen out.
Proof.
  intros Hn Hc; unfold snprintf; rewrite take_ge by (unfold zlen in Hc; lia).
  destruct (blit_Some out 0 (text ++ [0])) as [m Hm]; [lia|rewrite zlen_app; change (zlen [0]) with 1; lia|]; exists m; split; [done|].
  split; [|by eapply zlen_blit]; rewrite (blit_0 _ _ _ Hm), <- app_assoc; by apply cstr_intro.
Qed.

Lemma snprintf_spec m cap text : 1 <= cap <= zlen m -> exists m', snprintf m cap text = Some m' /\ zlen m' = zlen m /\ 0 ∈ m'.
Proof.
  intros Hc; unfold snprintf; set (t := take (Z.to_nat (cap - 1)) text ++ [0]).
  assert (zlen t <= cap) as Ht by (unfold t, zlen in *; rewrite length_app, length_take; cbn; lia).
  destruct (blit_Some m 0 t) as [m' Hm]; [lia|lia|]; exists m'; split; [done|]; split; [by eapply zlen_blit|].
  rewrite (blit_0 _ _ _ Hm); unfold t; rewrite !elem_of_app, list_elem_of_singleton; auto.
Qed.

Lemma terminated_cstr s : 0 ∈ s -> exists t, cstr s t.
Proof.
  induction s as [|c s IH]; [by intros ?%not_elem_of_nil|]; destruct (decide (c = 0)) as [->|Hc].
  - intros _; exists []; exists s; split; [done|]; apply not_elem_of_nil.
  - intros [?|Hs]%elem_of_cons; [congruence|]; destruct (IH Hs) as (t & rest & -> & Hn); exists (c :: t), rest; split; [done|].
    rewrite elem_of_cons; intros [?|?]; [congruence|done].
Qed.

Lemma cstr_cstring s : 0 ∉ lit s -> cstr (cstring s) (lit s).
Proof. by exists []. Qed.

Lemma strlen_cstr s n : strlen s = Some n -> exists t, cstr s t /\ zlen t = n.
Proof.
  revert n; induction s as [|c s IH]; intros n H; [done|]; cbn [strlen] in H.
  destruct (Z.eqb_spec c 0) as [->|Hc].
  - injection H as <-; exists []; split; [|done]; exists s; split; [done|]; apply not_elem_of_nil.
  - inv_bind; destruct (IH _ Hx) as (t & (rest & -> & Hn) & <-); exists (c :: t); rewrite zlen_cons; split; [|lia].
    exists rest; split; [done|]; apply not_elem_of_cons; split; [congruence|done].
Qed.

(** Concrete text without NUL. *)
Ltac no_nul :=
  match goal with |- ~ (0 ∈ ?l) => refine (bool_decide_eq_true_1 (0 ∉ l) _); vm_compute; reflexivity end.
