(* ===== verification/Blocks.v ===== *)
(** Totals over the live blocks of an allocator, kept by address. *)
From stdpp Require Import gmap.
From S2P Require Export Core.
#[local] Open Scope Z_scope.

(** The sum of [f] over the blocks. *)
Definition total {A} (f : A -> Z) (m : gmap Z A) : Z := map_fold (λ _ a n, f a + n) 0 m.

Section Total.
Context {A : Type} (f : A -> Z).
Implicit Type m : gmap Z A.

Lemma total_insert p a m : m !! p = None -> total f (<[p := a]> m) = f a + total f m.
Proof. intros Hp; unfold total; apply (map_fold_insert_L (λ _ a n, f a + n)); [intros; lia|done]. Qed.

Lemma total_delete p a m : m !! p = Some a -> total f m = f a + total f (delete p m).
Proof. intros Hp; unfold total; apply (map_fold_delete_L (λ _ a n, f a + n)); [intros; lia|done]. Qed.

(** Writing into a block keeps the total. *)
Lemma total_update p a b m : m !! p = Some a -> f b = f a -> total f (<[p := b]> m) = total f m.
Proof.
  intros Hp Hf; rewrite <- (insert_delete_eq m), total_insert by apply lookup_delete_eq; by rewrite (total_delete p a m), Hf.
Qed.

Lemma total_nonneg m : map_Forall (λ _ a, 0 <= f a) m -> 0 <= total f m.
Proof.
  induction m as [|p a m Hp IH] using map_ind; [done|]; intros [Ha Hm]%map_Forall_insert; [|done].
  rewrite total_insert by done; specialize (IH Hm); lia.
Qed.

(** A block is at most the total. *)
Lemma total_ge p a m : map_Forall (λ _ a, 0 <= f a) m -> m !! p = Some a -> f a <= total f m.
Proof.
  intros Hm Hp; rewrite (total_delete p a m Hp); enough (0 <= total f (delete p m)) by lia; apply total_nonneg.
  by apply map_Forall_delete.
Qed.

End Total.

(** Erasing a whole object. *)
Lemma secure_zero_all bytes : cf_secure_zero bytes (zlen bytes) = Some (replicate (length bytes) 0).
Proof.
  pose proof (zlen_nonneg bytes); rewrite cf_secure_zero_spec by lia.
  rewrite blit_0_intro by (rewrite zlen_replicate; lia).
  rewrite length_replicate; unfold zlen; by rewrite Nat2Z.id, drop_all, app_nil_r.
Qed.
