(* ===== verification/Base64.v ===== *)
(** Strict standard Base64 (src/protocol/cf_base64.c): the decoder and the
    encoder as the loops of the code over checked buffers, a reference codec on
    byte lists, and the refinement between the two. *)
From S2P Require Export Core.

(** ** The code *)

Definition digit (c : Z) : Z :=
  if (65 <=? c) && (c <=? 90) then c - 65 else
  if (97 <=? c) && (c <=? 122) then c - 97 + 26 else
  if (48 <=? c) && (c <=? 57) then c - 48 + 52 else
  if c =? 43 then 62 else
  if c =? 47 then 63 else -1.

(** The body of [for (i = 0; i < n; ++i)]; [k] is [n - i].  [inl] is the early
    [return CF_ERR_FORMAT], with the buffer as it was left. *)
Fixpoint decode_loop (k : nat) (inp : cf_bytes) (i bits pending : Z)
    (out : list Z) (pos : Z) : option (list Z + Z * Z * list Z * Z) :=
  match k with
  | O => Some (inr (bits, pending, out, pos))
  | S k =>
      c ← bget inp i;
      let d := digit c in
      if d <? 0 then Some (inl out) else
      let bits := Z.lor (u32 (Z.shiftl bits 6)) d in
      let pending := pending + 6 in
      if 8 <=? pending then
        let pending := pending - 8 in
        out ← wr out pos (u8 (Z.shiftr bits pending));
        decode_loop k inp (i + 1) bits pending out (pos + 1)
      else decode_loop k inp (i + 1) bits pending out pos
  end.

(** [if (n && in.ptr[n - 1] == '=') --n;] *)
Definition strip_one (inp : cf_bytes) (n : Z) : option Z :=
  if n =? 0 then Some n else
  c ← bget inp (n - 1);
  Some (if c =? 61 then n - 1 else n).

(** [out] is the output object; [written] is the object [written] points to,
    [None] for a null pointer.  The result carries the return code and both
    objects as the call left them. *)
Definition b64_result : Type := cf_result * option Z * option (list Z).

Definition cf_base64_decode (inp : cf_bytes) (padded : bool)
    (out : option (list Z)) (cap : Z) (written : option Z) : option b64_result :=
  match written with
  | None => Some (CF_ERR_ARGUMENT, None, out)
  | Some _ =>
    let ret rc out := Some (rc, Some 0, out) in
    if null_view inp || (bool_decide (out = None) && negb (cap =? 0))
    then ret CF_ERR_ARGUMENT out else
    if padded && negb (len inp mod 4 =? 0) then ret CF_ERR_FORMAT out else
    n ← (if padded then n1 ← strip_one inp (len inp); strip_one inp n1
         else Some (len inp));
    if n mod 4 =? 1 then ret CF_ERR_FORMAT out else
    let count := n / 4 * 3 + (if n mod 4 =? 0 then 0 else n mod 4 - 1) in
    if cap <? count then ret CF_ERR_LIMIT out else
    r ← decode_loop (Z.to_nat n) inp 0 0 0 (default [] out) 0;
    match r with
    | inl m => ret CF_ERR_FORMAT ((λ _, m) <$> out)
    | inr (bits, pending, m, pos) =>
        if negb (pending =? 0) &&
           negb (Z.land bits (u32 (Z.shiftl 1 pending) - 1) =? 0)
        then ret CF_ERR_FORMAT ((λ _, m) <$> out)
        else Some (CF_OK, Some pos, (λ _, m) <$> out)
    end
  end.

Definition alphabet : list Z :=
  lit "ABCDEFGHIJKLMNOPQRSTUVWXYZabcdefghijklmnopqrstuvwxyz0123456789+/".

(** The body of [for (i = 0; i < in.len;)]; every iteration consumes at least
    one byte, so [fuel = in.len] is enough. *)
Fixpoint encode_loop (fuel : nat) (inp : cf_bytes) (padded : bool) (i : Z)
    (out : list Z) (pos : Z) : option (list Z * Z) :=
  if negb (i <? len inp) then Some (out, pos) else
  match fuel with
  | O => None
  | S fuel =>
      let left := len inp - i in
      b0 ← bget inp i;
      let word := Z.shiftl b0 16 in
      let i := i + 1 in
      '(word, i) ← (if 1 <? left then
                      b1 ← bget inp i; Some (Z.lor word (Z.shiftl b1 8), i + 1)
                    else Some (word, i));
      '(word, i) ← (if 2 <? left then
                      b2 ← bget inp i; Some (Z.lor word b2, i + 1)
                    else Some (word, i));
      let put out pos v := c ← rd alphabet v; wr out pos c in
      out ← put out pos (Z.land (Z.shiftr word 18) 63);
      out ← put out (pos + 1) (Z.land (Z.shiftr word 12) 63);
      let pos := pos + 2 in
      '(out, pos) ← (if 1 <? left then
                       out ← put out pos (Z.land (Z.shiftr word 6) 63); Some (out, pos + 1)
                     else if padded then out ← wr out pos 61; Some (out, pos + 1)
                     else Some (out, pos));
      '(out, pos) ← (if 2 <? left then
                       out ← put out pos (Z.land word 63); Some (out, pos + 1)
                     else if padded then out ← wr out pos 61; Some (out, pos + 1)
                     else Some (out, pos));
      encode_loop fuel inp padded i out pos
  end.

Definition cf_base64_encode (inp : cf_bytes) (padded : bool)
    (out : option (list Z)) (cap : Z) (written : option Z) : option b64_result :=
  let rem := len inp mod 3 in
  match written with
  | None => Some (CF_ERR_ARGUMENT, None, out)
  | Some _ =>
    if null_view inp || (bool_decide (out = None) && negb (cap =? 0))
    then Some (CF_ERR_ARGUMENT, Some 0, out) else
    if (SIZE_MAX - 4) / 4 <? len inp / 3 then Some (CF_ERR_LIMIT, Some 0, out) else
    let need := usize (len inp / 3 * 4 +
      (if rem =? 0 then 0 else if padded then 4 else rem + 1)) in
    if cap <? need then Some (CF_ERR_LIMIT, Some 0, out) else
    '(m, pos) ← encode_loop (Z.to_nat (len inp)) inp padded 0 (default [] out) 0;
    Some (CF_OK, Some pos, (λ _, m) <$> out)
  end.

(** ** The reference codec *)

(** The character of a sextet. *)
Definition alpha (v : Z) : Z := default 0 (rd alphabet v).

Fixpoint encode_ref (padded : bool) (l : list Z) : list Z :=
  match l with
  | [] => []
  | [a] => [alpha (a / 4); alpha (a mod 4 * 16)] ++ (if padded then [61; 61] else [])
  | [a; b] => [alpha (a / 4); alpha (a mod 4 * 16 + b / 16); alpha (b mod 16 * 4)]
              ++ (if padded then [61] else [])
  | a :: b :: c :: l' =>
      alpha (a / 4) :: alpha (a mod 4 * 16 + b / 16) ::
      alpha (b mod 16 * 4 + c / 64) :: alpha (c mod 64) :: encode_ref padded l'
  end.

(** The value of an alphabet character, [None] for any other byte. *)
Definition sextet (c : Z) : option Z := if digit c <? 0 then None else Some (digit c).

(** Bytes, value of the trailing bits and their number. *)
Fixpoint decode_raw (s : list Z) : option (list Z * Z * Z) :=
  match s with
  | [] => Some ([], 0, 0)
  | [c1] => d1 ← sextet c1; Some ([], d1, 6)
  | [c1; c2] => d1 ← sextet c1; d2 ← sextet c2;
      Some ([d1 * 4 + d2 / 16], d2 mod 16, 4)
  | [c1; c2; c3] => d1 ← sextet c1; d2 ← sextet c2; d3 ← sextet c3;
      Some ([d1 * 4 + d2 / 16; d2 mod 16 * 16 + d3 / 4], d3 mod 4, 2)
  | c1 :: c2 :: c3 :: c4 :: s' =>
      d1 ← sextet c1; d2 ← sextet c2; d3 ← sextet c3; d4 ← sextet c4;
      '(bs, r, p) ← decode_raw s';
      Some (d1 * 4 + d2 / 16 :: d2 mod 16 * 16 + d3 / 4 :: d3 mod 4 * 64 + d4 :: bs, r, p)
  end.

(** Drop one trailing [=]. *)
Definition drop_eq (s : list Z) : list Z :=
  match last s with Some c => if c =? 61 then take (length s - 1) s else s | None => s end.

(** The text without its padding, [None] when the padding is malformed. *)
Definition strip_padding (padded : bool) (s : list Z) : option (list Z) :=
  if padded then
    if negb (zlen s mod 4 =? 0) then None else
    Some (drop_eq (drop_eq s))
  else Some s.

(** What the decoder promises: a code and the decoded bytes. *)
Definition decode_ref (padded : bool) (s : list Z) (cap : Z) : cf_result * list Z :=
  match strip_padding padded s with
  | None => (CF_ERR_FORMAT, [])
  | Some t =>
      if zlen t mod 4 =? 1 then (CF_ERR_FORMAT, []) else
      if cap <? zlen t * 3 / 4 then (CF_ERR_LIMIT, []) else
      match decode_raw t with
      | Some (bs, r, _) => if r =? 0 then (CF_OK, bs) else (CF_ERR_FORMAT, [])
      | None => (CF_ERR_FORMAT, [])
      end
  end.

Definition encoded_len (padded : bool) (n : Z) : Z :=
  n / 3 * 4 + (if n mod 3 =? 0 then 0 else if padded then 4 else n mod 3 + 1).

Example decode_vector :
  cf_base64_decode (view (lit "Zm9vYg==")) true (Some (replicate 8 0)) 8 (Some 7)
  = Some (CF_OK, Some 4, Some (lit "foob" ++ replicate 4 0)).
Proof. vm_compute. reflexivity. Qed.

Example decode_noncanonical :
  cf_base64_decode (view (lit "Zh")) false (Some [0]) 1 (Some 7)
  = Some (CF_ERR_FORMAT, Some 0, Some [102]).
Proof. vm_compute. reflexivity. Qed.

Example encode_vector :
  cf_base64_encode (view (lit "foob")) true (Some (replicate 8 0)) 8 (Some 7)
  = Some (CF_OK, Some 8, Some (lit "Zm9vYg==")).
Proof. vm_compute. reflexivity. Qed.

(** ** Characters and sextets *)

Lemma digit_range c : -1 <= digit c < 64.
Proof. unfold digit; case_ifs. Qed.

Lemma sextet_Some c d : sextet c = Some d -> digit c = d /\ 0 <= d < 64.
Proof. unfold sextet; pose proof (digit_range c); case_if; [done|]; intros [= <-]; lia. Qed.

Lemma alpha_facts v :
  0 <= v < 64 -> rd alphabet v = Some (alpha v) /\ sextet (alpha v) = Some v /\ is_byte (alpha v).
Proof.
  intros Hv; assert (Hin : v ∈ seqZ 0 64) by (apply elem_of_seqZ; lia); clear Hv; revert v Hin.
  apply Forall_forall; repeat (constructor; [vm_compute; split_and!; congruence|]); constructor.
Qed.

Lemma alpha_digit c : 0 <= digit c -> alpha (digit c) = c.
Proof.
  intros H.
  assert (43 <= c < 123) as Hc by (revert H; unfold digit; case_ifs).
  assert (Hin : c ∈ seqZ 43 80) by (apply elem_of_seqZ; lia); clear Hc; revert c Hin H.
  apply (Forall_forall (fun c => 0 <= digit c -> alpha (digit c) = c)).
  repeat (constructor; [vm_compute; congruence|]); constructor.
Qed.

(** ** One step of the decoder's accumulator *)

Lemma bits_push b d : 0 <= d < 64 -> Z.lor (u32 (Z.shiftl b 6)) d = u32 (b * 64 + d).
Proof.
  intros Hd; rewrite Z.shiftl_mul_pow2 by lia.
  assert (u32 (b * 2 ^ 6) = Z.shiftl (b mod 2 ^ 26) 6) as ->
    by (rewrite Z.shiftl_mul_pow2 by lia; unfold wrap; zdm).
  rewrite lor_shiftl by lia; unfold wrap; zdm.
Qed.

Lemma bits_chain b d : u32 (u32 b * 64 + d) = u32 (b * 64 + d).
Proof. unfold wrap; zdm. Qed.

Lemma bits_pop b p : p = 0 \/ p = 2 \/ p = 4 -> u8 (Z.shiftr (u32 b) p) = u8 (b / 2 ^ p).
Proof.
  intros Hp; rewrite Z.shiftr_div_pow2 by lia; unfold wrap.
  destruct Hp as [-> | [-> | ->]]; zdm.
Qed.

(** ** The decoder loop computes [decode_raw] *)

Section DecodeLoop.
Variable inp : cf_bytes.

Lemma decode_loop_step k i b p out pos c :
  bget inp i = Some c -> p = 0 \/ p = 2 \/ p = 4 \/ p = 6 ->
  decode_loop (S k) inp i (u32 b) p out pos =
  match sextet c with
  | None => Some (inl out)
  | Some d =>
      if p =? 0 then decode_loop k inp (i + 1) (u32 (b * 64 + d)) 6 out pos
      else out ← wr out pos (u8 ((b * 64 + d) / 2 ^ (p - 2)));
           decode_loop k inp (i + 1) (u32 (b * 64 + d)) (p - 2) out (pos + 1)
  end.
Proof.
  intros Hc Hp; cbn [decode_loop]; rewrite Hc; cbn [mbind option_bind]; unfold sextet.
  pose proof (digit_range c) as Hd; case_if; [done|]; bool_to_prop.
  rewrite bits_push, bits_chain by lia.
  destruct Hp as [-> | [-> | [-> | ->]]]; cbn -[u8 wr Z.mul Z.div Z.shiftr wrap decode_loop];
    rewrite ?bits_pop by lia; done.
Qed.

(** The exit state of the loop, against the reference. *)
Definition loop_exit (s : list Z) (out : list Z) (pos : Z)
    (r : list Z + Z * Z * list Z * Z) : Prop :=
  match decode_raw s with
  | None => exists o, r = inl o /\ zlen o = zlen out
  | Some (bs, rem, pd) => exists b o, r = inr (b, pd, o, pos + zlen bs) /\
      blit out pos bs = Some o /\ Z.land b (u32 (Z.shiftl 1 pd) - 1) = rem
  end.

Lemma loop_mask b d k :
  k = 0 \/ k = 2 \/ k = 4 \/ k = 6 ->
  Z.land (u32 (b * 64 + d)) (u32 (Z.shiftl 1 k) - 1) = (b * 64 + d) mod 2 ^ k.
Proof.
  intros Hk; assert (u32 (Z.shiftl 1 k) = 2 ^ k) as ->
    by (destruct Hk as [-> | [-> | [-> | ->]]]; reflexivity).
  rewrite land_mask by lia; unfold wrap.
  destruct Hk as [-> | [-> | [-> | ->]]]; zdm.
Qed.

(** Writing one byte where there is room. *)
Lemma wr_room out pos v :
  0 <= pos < zlen out -> exists o, wr out pos v = Some o /\ zlen o = zlen out.
Proof.
  intros H; destruct (blit_Some out pos [v]) as [o Ho]; [lia|zlia|].
  exists o; split; [done|]. by eapply zlen_blit.
Qed.

Lemma group_byte1 b d1 d2 :
  0 <= d1 < 64 -> 0 <= d2 < 64 ->
  u8 (((b * 64 + d1) * 64 + d2) / 2 ^ 4) = d1 * 4 + d2 / 16.
Proof. intros; unfold wrap; zdm. Qed.

Lemma group_byte2 b d2 d3 :
  0 <= d2 < 64 -> 0 <= d3 < 64 ->
  u8 (((b * 64 + d2) * 64 + d3) / 2 ^ 2) = d2 mod 16 * 16 + d3 / 4.
Proof. intros; unfold wrap; zdm. Qed.

Lemma group_byte3 b d3 d4 :
  0 <= d3 < 64 -> 0 <= d4 < 64 ->
  u8 (((b * 64 + d3) * 64 + d4) / 2 ^ 0) = d3 mod 4 * 64 + d4.
Proof. intros; unfold wrap; zdm. Qed.

Lemma group_rest b d k :
  0 <= d < 64 -> k = 2 \/ k = 4 \/ k = 6 -> (b * 64 + d) mod 2 ^ k = d mod 2 ^ k.
Proof. intros Hd [-> | [-> | ->]]; zdm. Qed.

Ltac reduce_pending :=
  change (6 - 2) with 4; change (4 - 2) with 2; change (2 - 2) with 0; cbn [Z.eqb Pos.eqb].

(** Evaluate the reference on the characters read so far. *)
Ltac exit_with :=
  unfold loop_exit; cbn [decode_raw];
  repeat match goal with H : sextet _ = _ |- _ => rewrite H; clear H end;
  cbn [mbind option_bind].

(** One stage of the loop: read the next character, then go on or stop. *)
Ltac stage Hin pre j :=
  reduce_pending;
  lazymatch goal with
  | |- context [decode_loop _ inp ?e _ _ _ _] => replace e with (zlen pre + j) by lia
  end;
  erewrite decode_loop_step; [| eapply (denotes_nth _ _ _ _ j); [exact Hin|lia|reflexivity] | lia];
  match goal with
  | |- context [sextet ?c] =>
      let E := fresh "Hs" in let B := fresh "Hb" in
      destruct (sextet c) eqn:E;
      [ pose proof (proj2 (sextet_Some _ _ E)) as B
      | reduce_pending;
        eexists; split; [reflexivity|]; exit_with; eexists; split; [reflexivity|congruence] ]
  end.

(** Perform the pending write of the goal. *)
Ltac store o :=
  reduce_pending;
  rewrite ?group_byte1, ?group_byte2, ?group_byte3 by lia;
  lazymatch goal with
  | |- context [wr ?m ?p ?v] =>
      let Ho := fresh "Hw" in let Hl := fresh "Hl" in
      destruct (wr_room m p v) as (o & Ho & Hl);
        [zlia | rewrite Ho; unfold wr in Ho; cbn [mbind option_bind]]
  end.

Lemma blit2 m pos x y m1 m2 :
  blit m pos [x] = Some m1 -> blit m1 (pos + 1) [y] = Some m2 -> blit m pos [x; y] = Some m2.
Proof. intros H1 <-; symmetry; exact (blit_blit _ _ [x] [y] _ H1). Qed.

Lemma blit3 m pos x y z m1 m2 m3 :
  blit m pos [x] = Some m1 -> blit m1 (pos + 1) [y] = Some m2 ->
  blit m2 (pos + 1 + 1) [z] = Some m3 -> blit m pos [x; y; z] = Some m3.
Proof.
  intros H1 H2 H3; pose proof (blit2 _ _ _ _ _ _ H1 H2) as H12.
  rewrite <- H3, <- Z.add_assoc; symmetry; exact (blit_blit _ _ [x; y] [z] _ H12).
Qed.

Lemma loop_exit_cons c1 c2 c3 c4 d1 d2 d3 d4 s out pos m r :
  sextet c1 = Some d1 -> sextet c2 = Some d2 -> sextet c3 = Some d3 -> sextet c4 = Some d4 ->
  blit out pos [d1 * 4 + d2 / 16; d2 mod 16 * 16 + d3 / 4; d3 mod 4 * 64 + d4] = Some m ->
  loop_exit s m (pos + 3) r -> loop_exit (c1 :: c2 :: c3 :: c4 :: s) out pos r.
Proof.
  intros H1 H2 H3 H4 Hm; unfold loop_exit; cbn [decode_raw].
  rewrite H1, H2, H3, H4; cbn [mbind option_bind].
  destruct (decode_raw s) as [[[bs rem] pd]|]; cbn [mbind option_bind].
  - intros (b & o & -> & Ho & Hr); exists b, o; split_and!; [|by rewrite <- Ho; symmetry;
      exact (blit_blit _ _ [_; _; _] bs _ Hm)|done].
    rewrite !zlen_cons; do 2 f_equal; lia.
  - intros (o & -> & Ho); exists o; split; [done|]; by rewrite Ho, (zlen_blit _ _ _ _ Hm).
Qed.

Lemma decode_loop_spec s : forall pre suf i b out pos,
  denotes inp (pre ++ s ++ suf) -> i = zlen pre ->
  0 <= pos -> pos + zlen s * 3 / 4 <= zlen out ->
  exists r, decode_loop (length s) inp i (u32 b) 0 out pos = Some r /\ loop_exit s out pos r.
Proof.
  induction s as [s IH] using list_len_ind; intros pre suf i b out pos Hin -> Hpos Hroom.
  destruct s as [|c1 [|c2 [|c3 [|c4 s']]]]; cbn [length].
  - eexists; split; [reflexivity|]; exit_with; exists (u32 b), out; rewrite blit_nil by zlia.
    rewrite zlen_nil, Z.add_0_r, Z.land_0_r; done.
  - stage Hin pre 0.
    eexists; split; [reflexivity|]; exit_with; eexists _, out; split_and!; [by rewrite zlen_nil, Z.add_0_r| |].
    + rewrite blit_nil by zlia; done.
    + rewrite loop_mask, group_rest by lia; apply Z.mod_small; lia.
  - stage Hin pre 0. stage Hin pre 1. store o1.
    eexists; split; [reflexivity|]; exit_with; eexists _, o1; split_and!; [done|done|].
    by rewrite loop_mask, group_rest by lia.
  - stage Hin pre 0. stage Hin pre 1. store o1. stage Hin pre 2. store o2.
    eexists; split; [reflexivity|]; exit_with; eexists _, o2; split_and!; [by rewrite <- Z.add_assoc| |].
    + by eapply blit2.
    + by rewrite loop_mask, group_rest by lia.
  - stage Hin pre 0. stage Hin pre 1. store o1. stage Hin pre 2. store o2. stage Hin pre 3.
    store o3.
    destruct (IH s' ltac:(simpl; lia) (pre ++ [c1; c2; c3; c4]) suf (zlen pre + 3 + 1)
      ((((b * 64 + z) * 64 + z0) * 64 + z1) * 64 + z2) o3 (pos + 1 + 1 + 1)) as (r & Hr & Hx);
      [by rewrite <- app_assoc|zlia|lia|zlia|].
    exists r; split; [exact Hr|].
    eapply loop_exit_cons; [eassumption..|by eapply blit3|by rewrite <- !Z.add_assoc in Hx].
Qed.
End DecodeLoop.

(** ** The decoder refines its reference *)

Lemma strip_one_spec inp t suf :
  denotes inp (t ++ suf) ->
  strip_one inp (zlen t) = Some (zlen (drop_eq t)) /\
  exists suf', t ++ suf = drop_eq t ++ suf'.
Proof.
  intros Hin; unfold strip_one, drop_eq.
  destruct (last t) as [c|] eqn:E.
  - apply last_Some in E as [t' ->]; rewrite length_app, Nat.add_sub, take_app_length.
    assert (bget inp (zlen t' + 0) = Some c) as Hc
      by (apply (denotes_nth _ t' [c] suf); [by rewrite app_assoc|lia|done]).
    rewrite zlen_app; change (zlen [c]) with 1.
    replace (zlen t' + 1 =? 0) with false by zlia.
    replace (zlen t' + 1 - 1) with (zlen t' + 0) by lia; rewrite Hc; simpl.
    destruct (c =? 61); [split; [f_equal; lia|eexists; by rewrite <- app_assoc]|].
    split; [f_equal; zlia|by eexists].
  - apply last_None in E; subst; simpl; split; [done|by eexists].
Qed.

Lemma decode_raw_len t bs r p :
  decode_raw t = Some (bs, r, p) -> zlen t mod 4 <> 1 -> zlen bs = zlen t * 3 / 4.
Proof.
  revert bs r p; induction t as [t IH] using list_len_ind; intros bs r p.
  destruct t as [|c1 [|c2 [|c3 [|c4 t']]]]; cbn [decode_raw].
  - by intros [= <- <- <-].
  - intros _ H; by destruct H.
  - intros H _; inv_bind; subst; reflexivity.
  - intros H _; inv_bind; subst; reflexivity.
  - intros H Hm; inv_bind; subst.
    rewrite !zlen_cons in *.
    match goal with E : decode_raw t' = Some (?l, _, _) |- _ =>
      assert (zlen l = zlen t' * 3 / 4) by (eapply IH; [simpl; lia|exact E|zdm]) end.
    zdm.
Qed.

(** C-side length against the reference's. *)
Lemma decoded_count n :
  n mod 4 <> 1 -> n / 4 * 3 + (if n mod 4 =? 0 then 0 else n mod 4 - 1) = n * 3 / 4.
Proof. intros; case_ifs; zdm. Qed.

Lemma strip_one_prefix padded inp s t :
  denotes inp s -> strip_padding padded s = Some t ->
  (if padded then n1 ← strip_one inp (zlen s); strip_one inp n1 else Some (zlen s))
    = Some (zlen t) /\ exists suf, s = t ++ suf.
Proof.
  intros Hin; unfold strip_padding; destruct padded.
  - case_if; [done|]; intros [= <-].
    rewrite <- (app_nil_r s) in Hin.
    destruct (strip_one_spec inp s [] Hin) as (H1 & suf1 & E1).
    rewrite E1 in Hin; destruct (strip_one_spec _ _ _ Hin) as (H2 & suf2 & E2).
    rewrite H1; simpl; split; [done|]; exists suf2; by rewrite <- E2, <- E1, app_nil_r.
  - intros [= <-]; split; [done|]; exists []; by rewrite app_nil_r.
Qed.

(** The decoder on a non-null buffer, for every view and capacity. *)
Lemma decode_spec inp s padded m cap w :
  denotes inp s -> 0 <= cap <= zlen m ->
  exists m',
    cf_base64_decode inp padded (Some m) cap (Some w) =
      Some (fst (decode_ref padded s cap), Some (zlen (snd (decode_ref padded s cap))), Some m') /\
    zlen m' = zlen m /\
    (fst (decode_ref padded s cap) = CF_OK -> blit m 0 (snd (decode_ref padded s cap)) = Some m').
Proof.
  intros Hin Hcap; unfold cf_base64_decode, decode_ref.
  rewrite (denotes_null_view _ _ Hin), (denotes_len _ _ Hin); simpl orb; simpl default.
  destruct (strip_padding padded s) as [t|] eqn:Et.
  2: { unfold strip_padding in Et; destruct padded; [|done]; simpl andb.
       destruct (negb _); [|done]; by exists m. }
  replace (padded && _) with false.
  2: { unfold strip_padding in Et; destruct padded; [|done]; by destruct (negb _). }
  destruct (strip_one_prefix _ _ _ _ Hin Et) as [-> [suf ->]]; cbn [mbind option_bind].
  case_if; bool_to_prop; [by exists m|]; rewrite decoded_count by done.
  case_if; bool_to_prop; [by exists m|].
  destruct (decode_loop_spec inp t [] suf 0 0 m 0) as (r & Hr & Hx); [done..|lia|lia|].
  assert (decode_loop (Z.to_nat (zlen t)) inp 0 0 0 m 0 = Some r) as ->
    by (unfold zlen; rewrite Nat2Z.id; exact Hr).
  unfold loop_exit in Hx; cbn [mbind option_bind].
  destruct (decode_raw t) as [[[bs rem] pd]|] eqn:Er.
  - destruct Hx as (b & o & -> & Ho & Hrem).
    assert (negb (pd =? 0) && negb (Z.land b (u32 (Z.shiftl 1 pd) - 1) =? 0) = negb (rem =? 0))
      as ->.
    { rewrite Hrem; destruct (Z.eqb_spec pd 0) as [->|]; [|done].
      rewrite <- Hrem, Z.land_0_r; done. }
    exists o; destruct (rem =? 0); simpl; (split_and!; [done|by eapply zlen_blit|done]).
  - destruct Hx as (o & -> & Ho); exists o; done.
Qed.

(** ** The encoder refines its reference *)

Lemma encode_ref_len padded l : zlen (encode_ref padded l) = encoded_len padded (zlen l).
Proof.
  induction l as [l IH] using list_len_ind; unfold encoded_len in *.
  destruct l as [|a [|b [|c l']]]; cbn [encode_ref]; [done|by destruct padded..|].
  rewrite !zlen_cons, IH by (simpl; lia).
  replace ((1 + (1 + (1 + zlen l'))) mod 3) with (zlen l' mod 3) by zdm.
  case_ifs; zdm.
Qed.

Lemma word_sextets a b c :
  is_byte a -> is_byte b -> is_byte c ->
  let w := Z.lor (Z.lor (Z.shiftl a 16) (Z.shiftl b 8)) c in
  Z.land (Z.shiftr w 18) 63 = a / 4 /\
  Z.land (Z.shiftr w 12) 63 = a mod 4 * 16 + b / 16 /\
  Z.land (Z.shiftr w 6) 63 = b mod 16 * 4 + c / 64 /\
  Z.land w 63 = c mod 64.
Proof.
  intros Ha Hb Hc w; unfold is_byte in *.
  assert (w = a * 65536 + b * 256 + c) as ->.
  { subst w; rewrite (lor_shiftl a (Z.shiftl b 8) 16), Z.shiftl_mul_pow2 by
      (rewrite ?Z.shiftl_mul_pow2; lia).
    replace (a * 2 ^ 16 + b * 2 ^ 8) with ((a * 2 ^ 8 + b) * 2 ^ 8) by lia.
    rewrite <- Z.shiftl_mul_pow2, lor_shiftl by lia; lia. }
  change 63 with (2 ^ 6 - 1); rewrite !land_mask, !Z.shiftr_div_pow2 by lia.
  split_and!; zdm.
Qed.

Lemma sextet_ranges a b c :
  is_byte a -> is_byte b -> is_byte c ->
  0 <= a / 4 < 64 /\ 0 <= a mod 4 * 16 + b / 16 < 64 /\
  0 <= b mod 16 * 4 + c / 64 < 64 /\ 0 <= c mod 64 < 64.
Proof. unfold is_byte; intros; split_and!; zdm. Qed.

Lemma word_pad1 a : Z.lor (Z.lor (Z.shiftl a 16) (Z.shiftl 0 8)) 0 = Z.shiftl a 16.
Proof. by rewrite Z.shiftl_0_l, !Z.lor_0_r. Qed.

Lemma word_pad2 a b :
  Z.lor (Z.lor (Z.shiftl a 16) (Z.shiftl b 8)) 0 = Z.lor (Z.shiftl a 16) (Z.shiftl b 8).
Proof. by rewrite Z.lor_0_r. Qed.

Lemma put_room out pos v :
  0 <= v < 64 -> 0 <= pos < zlen out ->
  exists o, (c ← rd alphabet v; wr out pos c) = Some o /\
    blit out pos [alpha v] = Some o /\ zlen o = zlen out.
Proof.
  intros Hv Hp; rewrite (proj1 (alpha_facts v Hv)); simpl.
  destruct (wr_room out pos (alpha v) Hp) as (o & Ho & Hl); eauto.
Qed.

(** Perform the next table write of the goal. *)
Ltac put_next o H :=
  lazymatch goal with
  | |- context [rd alphabet ?v ≫= (λ c, wr ?m ?p c)] =>
      let Hl := fresh "Hl" in let E := fresh "Hp" in
      destruct (put_room m p v) as (o & E & H & Hl);
        [assumption | zlen_norm; lia | rewrite E; clear E; cbn [mbind option_bind]]
  end.

Ltac fetch Hget j c :=
  lazymatch type of Hget with
  | context [bget ?inp (?base + _) = _] =>
      lazymatch goal with
      | |- context [bget inp ?e ≫= _] =>
          replace (bget inp e) with (Some c)
            by (symmetry; replace e with (base + j) by lia; apply Hget; [reflexivity|lia]);
          cbn [mbind option_bind]
      end
  end.

Ltac inv_all := repeat match goal with H : Forall _ (_ :: _) |- _ => apply Forall_cons in H as [? H] end.

(** Name the four sextets of the word read from [a], [b] and [c]. *)
Ltac fill_word a b c :=
  destruct (sextet_ranges a b c) as (R1 & R2 & R3 & R4);
    [by inv_all | by inv_all | by inv_all |];
  destruct (word_sextets a b c) as (W1 & W2 & W3 & W4);
    [by inv_all | by inv_all | by inv_all |];
  rewrite ?W1, ?W2, ?W3, ?W4; clear W1 W2 W3 W4.

(** Write the padding character where there is room. *)
Ltac pad_next o H :=
  lazymatch goal with
  | |- context [wr ?m ?p 61] =>
      let Hl := fresh "Hl" in
      destruct (wr_room m p 61) as (o & H & Hl);
        [zlen_norm; lia | rewrite H; cbn [mbind option_bind]; unfold wr in H]
  end.

Lemma encode_loop_done fuel inp padded i out pos :
  len inp <= i -> encode_loop fuel inp padded i out pos = Some (out, pos).
Proof. intros; destruct fuel; cbn [encode_loop]; by replace (i <? len inp) with false by lia. Qed.

Lemma encode_loop_spec inp padded l : forall fuel pre i out pos,
  denotes inp (pre ++ l) -> i = zlen pre -> (length l <= fuel)%nat ->
  0 <= pos -> pos + zlen (encode_ref padded l) <= zlen out ->
  exists o, encode_loop fuel inp padded i out pos
              = Some (o, pos + zlen (encode_ref padded l)) /\
            blit out pos (encode_ref padded l) = Some o.
Proof.
  induction l as [l IH] using list_len_ind; intros fuel pre i out pos Hin -> Hf Hpos Hroom.
  pose proof (denotes_len _ _ Hin) as Hlen; rewrite zlen_app in Hlen.
  pose proof (denotes_bytes _ _ Hin) as Hby; apply Forall_app in Hby as [_ Hby].
  assert (is_byte 0) by (unfold is_byte; lia).
  assert (forall j c, rd l j = Some c -> 0 <= j -> bget inp (zlen pre + j) = Some c) as Hget.
  { intros j c Hc Hj; apply (denotes_nth inp pre l []); [by rewrite app_nil_r|done|done]. }
  destruct l as [|a [|b [|c l']]]; (destruct fuel as [|fuel]; [simpl in Hf; try lia|]);
    cbn [encode_loop]; rewrite Hlen; decide_ltb; cbn [encode_ref] in *.
  - exists out; rewrite blit_nil by zlia; split; [|done]; do 2 f_equal; zlia.
  - exists out; rewrite blit_nil by zlia; split; [|done]; do 2 f_equal; zlia.
  - fetch Hget 0 a. cbn [mbind option_bind].
    rewrite <- (word_pad1 a); fill_word a 0 0.
    put_next o1 H1; put_next o2 H2.
    assert (H12 := blit_seq _ _ _ _ _ _ _ H1 eq_refl H2).
    change (0 / 16) with 0 in H12; rewrite Z.add_0_r in H12.
    destruct padded; cbn [mbind option_bind].
    + pad_next o3 H3; pad_next o4 H4; rewrite encode_loop_done by zlia.
      exists o4; split; [do 2 f_equal; zlia|].
      assert (H34 := blit_seq _ _ _ _ _ _ _ H3 eq_refl H4).
      eapply blit_seq; [exact H12| |exact H34]; zlia.
    + rewrite encode_loop_done by zlia; by exists o2.
  - fetch Hget 0 a; fetch Hget 1 b; cbn [mbind option_bind].
    rewrite <- (word_pad2 a b); fill_word a b 0.
    put_next o1 H1; put_next o2 H2; put_next o3 H3.
    assert (H12 := blit_seq _ _ _ _ _ _ _ H1 eq_refl H2).
    assert (H13 := blit_seq _ _ _ _ _ _ _ H12 eq_refl H3).
    change (0 / 64) with 0 in H13; rewrite Z.add_0_r in H13.
    destruct padded; cbn [mbind option_bind].
    + pad_next o4 H4; rewrite encode_loop_done by zlia.
      exists o4; split; [do 2 f_equal; zlia|].
      eapply blit_seq; [exact H13| |exact H4]; zlia.
    + rewrite encode_loop_done by zlia; exists o3; split; [do 2 f_equal; zlia|done].
  - fetch Hget 0 a; fetch Hget 1 b; fetch Hget 2 c; cbn [mbind option_bind].
    fill_word a b c.
    put_next o1 H1; put_next o2 H2; put_next o3 H3; put_next o4 H4.
    assert (H12 := blit_seq _ _ _ _ _ _ _ H1 eq_refl H2).
    assert (H13 := blit_seq _ _ _ _ _ _ _ H12 eq_refl H3).
    rewrite <- Z.add_assoc in H4; assert (H14 := blit_seq _ _ _ _ _ _ _ H13 eq_refl H4).
    destruct (IH l' ltac:(simpl; lia) fuel (pre ++ [a; b; c]) (zlen pre + 1 + 1 + 1) o4
      (pos + 2 + 1 + 1)) as (o & Ho & Hb); [by rewrite <- app_assoc|zlia|simpl in Hf; lia|lia|zlia|].
    exists o; rewrite Ho; split; [do 2 f_equal; zlia|].
    assert (Hk : pos + 2 + 1 + 1 = pos + 4) by lia; rewrite Hk in Hb.
    exact (blit_seq _ _ _ _ _ _ _ H14 eq_refl Hb).
Qed.

(** The encoder on a non-null buffer, for every view and capacity. *)
Lemma encode_spec inp l padded m cap w :
  denotes inp l -> 0 <= cap <= zlen m -> zlen l / 3 <= (SIZE_MAX - 4) / 4 ->
  cf_base64_encode inp padded (Some m) cap (Some w) =
  (if cap <? encoded_len padded (zlen l) then Some (CF_ERR_LIMIT, Some 0, Some m)
   else (fun m' => (CF_OK, Some (encoded_len padded (zlen l)), Some m'))
        <$> blit m 0 (encode_ref padded l)).
Proof.
  intros Hin Hcap Hsize; unfold cf_base64_encode.
  rewrite (denotes_null_view _ _ Hin), (denotes_len _ _ Hin); simpl orb; simpl default.
  replace ((SIZE_MAX - 4) / 4 <? zlen l / 3) with false by lia.
  fold (encoded_len padded (zlen l)); rewrite wrap_small.
  2: { unfold encoded_len, SIZE_MAX in *; pose proof (zlen_nonneg l); split; case_ifs; zdm. }
  case_if; [done|]; bool_to_prop.
  destruct (encode_loop_spec inp padded l (length l) [] 0 m 0) as (o & Ho & Hb);
    [done|done|lia|lia|rewrite encode_ref_len; lia|].
  assert (encode_loop (Z.to_nat (zlen l)) inp padded 0 m 0 = Some (o, encoded_len padded (zlen l)))
    as -> by (unfold zlen at 1; by rewrite Nat2Z.id, Ho, encode_ref_len, Z.add_0_l).
  by rewrite Hb.
Qed.

(** ** The reference codec round-trips *)

Lemma sextet_alpha v : 0 <= v < 64 -> sextet (alpha v) = Some v.
Proof. intros; by apply alpha_facts. Qed.

Lemma alpha_byte v : 0 <= v < 64 -> is_byte (alpha v).
Proof. intros; by apply alpha_facts. Qed.

Lemma alpha_sextet c d : sextet c = Some d -> alpha d = c.
Proof. intros [<- H]%sextet_Some; apply alpha_digit; lia. Qed.

Lemma decode_raw_encode l :
  bytes_ok l -> exists p, decode_raw (encode_ref false l) = Some (l, 0, p).
Proof.
  induction l as [l IH] using list_len_ind; intros Hl.
  destruct l as [|a [|b [|c l']]]; cbn [encode_ref]; [by eexists|..]; inv_all;
    unfold is_byte in *; cbn [decode_raw app].
  - rewrite !sextet_alpha by zdm; cbn [mbind option_bind]; eexists; repeat f_equal; zdm.
  - rewrite !sextet_alpha by zdm; cbn [mbind option_bind]; eexists; repeat f_equal; zdm.
  - destruct (IH l') as [p Hp]; [simpl; lia|done|].
    rewrite !sextet_alpha by zdm; rewrite Hp; cbn [mbind option_bind].
    eexists; repeat f_equal; zdm.
Qed.

Ltac name_sextets :=
  repeat match goal with
  | E : sextet _ = Some _ |- _ =>
      let B := fresh "B" in
      pose proof (proj2 (sextet_Some _ _ E)) as B; apply alpha_sextet in E; subst
  end.

Lemma encode_decode_raw t bs p :
  decode_raw t = Some (bs, 0, p) -> zlen t mod 4 <> 1 ->
  encode_ref false bs = t /\ bytes_ok bs.
Proof.
  revert bs p; induction t as [t IH] using list_len_ind; intros bs p.
  destruct t as [|c1 [|c2 [|c3 [|c4 t']]]]; cbn [decode_raw].
  - intros [= <- <-]; done.
  - intros _ H; by destruct H.
  - intros H _; inv_bind; subst; name_sextets.
    split; [cbn [encode_ref app]; repeat f_equal; zdm|repeat constructor; zdm].
  - intros H _; inv_bind; subst; name_sextets.
    split; [cbn [encode_ref app]; repeat f_equal; zdm|repeat constructor; zdm].
  - intros H Hm; inv_bind; subst; rewrite !zlen_cons in Hm.
    match goal with E : decode_raw t' = Some (?l, _, _) |- _ =>
      destruct (IH t' ltac:(simpl; lia) l _ E) as [<- Hb]; [zdm|] end.
    name_sextets; split; [cbn [encode_ref]; repeat f_equal; zdm|].
    repeat (constructor; [unfold is_byte; zdm|]); done.
Qed.

Lemma encode_ref_pad l :
  exists k, encode_ref true l = encode_ref false l ++ replicate k 61 /\ (k <= 2)%nat /\
    (zlen (encode_ref false l) + Z.of_nat k) mod 4 = 0.
Proof.
  induction l as [l IH] using list_len_ind.
  destruct l as [|a [|b [|c l']]]; cbn [encode_ref].
  - exists 0%nat; split_and!; [done|lia|done].
  - exists 2%nat; split_and!; [done|lia|done].
  - exists 1%nat; split_and!; [done|lia|done].
  - destruct (IH l') as (k & -> & Hk & Hm); [simpl; lia|].
    exists k; split_and!; [done|done|rewrite !zlen_cons; zdm].
Qed.

Definition in_alphabet (c : Z) : Prop := is_Some (sextet c).

Lemma decode_raw_alphabet t r : decode_raw t = Some r -> Forall in_alphabet t.
Proof.
  unfold in_alphabet.
  revert r; induction t as [t IH] using list_len_ind; intros r.
  destruct t as [|c1 [|c2 [|c3 [|c4 t']]]]; cbn [decode_raw]; intros H; inv_bind;
    repeat (constructor; eauto).
  eapply IH; [simpl; lia|eauto].
Qed.

(** Text over the alphabet contains no character outside it. *)
Lemma alphabet_avoids x t :
  sextet x = None -> Forall in_alphabet t -> Forall (fun c => c <> x) t.
Proof.
  intros Hx Ht; eapply Forall_impl; [exact Ht|]; intros c [d Hd] ->; congruence.
Qed.

Lemma drop_eq_snoc t : drop_eq (t ++ [61]) = t.
Proof. unfold drop_eq; by rewrite last_snoc, length_app, Nat.add_sub, take_app_length. Qed.

Lemma drop_eq_id t : Forall (fun c => c <> 61) t -> drop_eq t = t.
Proof.
  intros Ht; unfold drop_eq; destruct (last t) as [c|] eqn:E; [|done].
  apply last_Some in E as [t' ->]; apply Forall_app in Ht as [_ Ht]; inv_all.
  by destruct (Z.eqb_spec c 61).
Qed.

(** Padding to a multiple of four and stripping are inverse on alphabet text. *)
Lemma strip_padded t k :
  Forall (fun c => c <> 61) t -> (k <= 2)%nat -> (zlen t + Z.of_nat k) mod 4 = 0 ->
  strip_padding true (t ++ replicate k 61) = Some t.
Proof.
  intros Ht Hk Hm; unfold strip_padding; rewrite zlen_app, zlen_replicate, Hm; simpl.
  destruct k as [|[|[|k]]]; [| | |lia]; cbn [replicate].
  - by rewrite app_nil_r, !drop_eq_id by (rewrite ?drop_eq_id; done).
  - by rewrite drop_eq_snoc, drop_eq_id.
  - change [61; 61] with ([61] ++ [61]); by rewrite app_assoc, !drop_eq_snoc.
Qed.

Lemma drop_eq_inv s : exists k, s = drop_eq s ++ replicate k 61 /\ (k <= 1)%nat.
Proof.
  unfold drop_eq; destruct (last s) as [c|] eqn:E; [|exists 0%nat; split; [by rewrite app_nil_r|lia]].
  destruct (Z.eqb_spec c 61) as [->|]; [|exists 0%nat; split; [by rewrite app_nil_r|lia]].
  apply last_Some in E as [s' ->]; exists 1%nat.
  split; [by rewrite length_app, Nat.add_sub, take_app_length|lia].
Qed.

Lemma strip_padding_inv s t :
  strip_padding true s = Some t ->
  exists k, s = t ++ replicate k 61 /\ (k <= 2)%nat /\ (zlen t + Z.of_nat k) mod 4 = 0.
Proof.
  unfold strip_padding; case_if; [done|]; bool_to_prop; intros [= <-].
  destruct (drop_eq_inv s) as (k1 & E1 & H1), (drop_eq_inv (drop_eq s)) as (k2 & E2 & H2).
  assert (s = drop_eq (drop_eq s) ++ replicate (k2 + k1) 61) as Hs
    by (rewrite E1 at 1; rewrite E2 at 1; by rewrite <- app_assoc, <- replicate_add).
  exists (k2 + k1)%nat; split_and!; [done|lia|].
  rewrite <- (zlen_replicate _ 61), <- zlen_app, <- Hs; lia.
Qed.

Lemma encode_ref_alphabet l : bytes_ok l -> Forall in_alphabet (encode_ref false l).
Proof. intros [p Hp]%decode_raw_encode; by eapply decode_raw_alphabet. Qed.

Lemma decode_encode_ref padded l cap :
  bytes_ok l -> zlen l <= cap -> decode_ref padded (encode_ref padded l) cap = (CF_OK, l).
Proof.
  intros Hl Hc; destruct (decode_raw_encode l Hl) as [p Hp].
  assert (strip_padding padded (encode_ref padded l) = Some (encode_ref false l)) as Hs.
  { destruct padded; [|done]; destruct (encode_ref_pad l) as (k & -> & Hk & Hm).
    apply strip_padded; auto using encode_ref_alphabet, alphabet_avoids. }
  unfold decode_ref; rewrite Hs, Hp, encode_ref_len; unfold encoded_len; pose proof (zlen_nonneg l).
  cbn [Z.eqb]; case_ifs; first [done | exfalso; zdm].
Qed.

Lemma decode_ref_fits padded s cap bs :
  decode_ref padded s cap = (CF_OK, bs) -> zlen bs <= cap.
Proof.
  unfold decode_ref; destruct (strip_padding padded s) as [t|]; [|done].
  case_if; [done|]; case_if; [done|]; bool_to_prop.
  destruct (decode_raw t) as [[[bs' r] p]|] eqn:Er; [|done].
  destruct (r =? 0); [|done]; intros [= ->].
  rewrite (decode_raw_len _ _ _ _ Er) by done; lia.
Qed.

Lemma encode_decode_ref padded s cap bs :
  decode_ref padded s cap = (CF_OK, bs) -> encode_ref padded bs = s /\ bytes_ok bs.
Proof.
  unfold decode_ref; destruct (strip_padding padded s) as [t|] eqn:Es; [|done].
  case_if; [done|]; case_if; [done|]; bool_to_prop.
  destruct (decode_raw t) as [[[bs' r] p]|] eqn:Er; [|done].
  destruct (Z.eqb_spec r 0) as [->|]; [|done]; intros [= ->].
  destruct (encode_decode_raw _ _ _ Er) as [Ht Hb]; [done|]; split; [|done].
  destruct padded; [|unfold strip_padding in Es; congruence].
  destruct (strip_padding_inv _ _ Es) as (k & -> & Hk & Hm), (encode_ref_pad bs) as (k' & -> & Hk' & Hm').
  rewrite Ht in *; do 2 f_equal; zdm.
Qed.

Lemma encode_ref_bytes padded l : bytes_ok l -> bytes_ok (encode_ref padded l).
Proof.
  induction l as [l IH] using list_len_ind; intros Hl.
  destruct l as [|a [|b [|c l']]]; cbn [encode_ref]; inv_all; unfold is_byte in *;
    repeat (constructor; [apply alpha_byte; zdm|]).
  - constructor.
  - destruct padded; repeat (constructor; [unfold is_byte; lia|]); constructor.
  - destruct padded; repeat (constructor; [unfold is_byte; lia|]); constructor.
  - apply IH; [simpl; lia|done].
Qed.

(** A buffer whose prefix was written denotes what was written. *)
Lemma denotes_blit m l m' :
  bytes_ok l -> blit m 0 l = Some m' -> denotes (Bytes (Some m') (zlen l)) l.
Proof. intros Hl ->%blit_0; repeat split; [done|]; by eexists. Qed.

(** ** Properties *)

(** Base64 round trip: for every byte string and either alphabet flavour,
    encoding into a buffer of at least the encoded length succeeds, and decoding
    the characters it wrote into any buffer of at least the original length
    succeeds and writes exactly the original bytes. *)
Theorem base64_roundtrip inp l padded wire out w1 w2 :
  denotes inp l -> zlen l / 3 <= (SIZE_MAX - 4) / 4 ->
  encoded_len padded (zlen l) <= zlen wire -> zlen l <= zlen out ->
  exists wire' out',
    cf_base64_encode inp padded (Some wire) (zlen wire) (Some w1) =
      Some (CF_OK, Some (encoded_len padded (zlen l)), Some wire') /\
    cf_base64_decode (Bytes (Some wire') (encoded_len padded (zlen l))) padded
      (Some out) (zlen out) (Some w2) = Some (CF_OK, Some (zlen l), Some out') /\
    blit out 0 l = Some out'.
Proof.
  intros Hin Hs Hw Ho; pose proof (denotes_bytes _ _ Hin) as Hl; pose proof (zlen_nonneg wire).
  rewrite (encode_spec inp l) by (done || lia).
  replace (zlen wire <? _) with false by lia.
  destruct (blit_Some wire 0 (encode_ref padded l)) as [wire' Hb];
    [lia|rewrite encode_ref_len; lia|rewrite Hb].
  pose proof (denotes_blit _ _ _ (encode_ref_bytes padded l Hl) Hb) as Hd.
  rewrite encode_ref_len in Hd.
  destruct (decode_spec _ _ padded out (zlen out) w2 Hd) as (out' & Hdec & _ & Hok); [zlia|].
  rewrite decode_encode_ref in Hdec, Hok by done; exists wire', out'; auto.
Qed.

Lemma base64_roundtrip_witness :
  exists wire' out',
    cf_base64_encode (view [0; 255]) true (Some [9; 9; 9; 9]) (zlen [9; 9; 9; 9]) (Some 0) =
      Some (CF_OK, Some (encoded_len true (zlen [0; 255])), Some wire') /\
    cf_base64_decode (Bytes (Some wire') (encoded_len true (zlen [0; 255]))) true
      (Some [7; 7; 7]) (zlen [7; 7; 7]) (Some 0) = Some (CF_OK, Some (zlen [0; 255]), Some out') /\
    blit [7; 7; 7] 0 [0; 255] = Some out'.
Proof.
  apply (base64_roundtrip (view [0; 255]) [0; 255] true [9; 9; 9; 9] [7; 7; 7] 0 0).
  - apply denotes_view; repeat constructor; discriminate.
  - vm_compute; discriminate.
  - vm_compute; discriminate.
  - vm_compute; discriminate.
Defined.

(** Base64 decoding is canonical: whatever the decoder accepts is exactly the
    encoding, with the same padding choice, of the bytes it wrote; so no two
    different texts decode to the same bytes. *)
Theorem base64_canonical inp s padded out cap w n out' :
  denotes inp s -> 0 <= cap <= zlen out ->
  cf_base64_decode inp padded (Some out) cap (Some w) = Some (CF_OK, Some n, Some out') ->
  exists bs, zlen bs = n /\ n <= cap /\ blit out 0 bs = Some out' /\ encode_ref padded bs = s.
Proof.
  intros Hin Hc H; destruct (decode_spec inp s padded out cap w Hin Hc) as (m' & E & Hm & Hok).
  rewrite H in E; injection E as E1 E2 E3; subst m'.
  destruct (decode_ref padded s cap) as [rc bs] eqn:Er; simpl in *; subst rc n.
  pose proof (decode_ref_fits _ _ _ _ Er); exists bs; split_and!; [done|done|auto|].
  by eapply encode_decode_ref.
Qed.

Lemma base64_canonical_witness :
  exists bs, zlen bs = 2 /\ 2 <= 3 /\
    blit [0; 0; 0] 0 bs = Some [0; 255; 0] /\ encode_ref true bs = lit "AP8=".
Proof.
  apply (base64_canonical (view (lit "AP8=")) (lit "AP8=") true [0; 0; 0] 3 0 2 [0; 255; 0]).
  - apply denotes_view; repeat constructor; discriminate.
  - vm_compute; split; discriminate.
  - vm_compute; reflexivity.
Defined.

(** The decoder is total and memory safe: for every byte string, padding flag
    and capacity not larger than the output object it returns without touching a
    byte outside its buffers, with the code and length of the reference decoder,
    length 0 on every failure, and on success exactly the reference bytes at the
    start of the buffer. *)
Theorem base64_decode_total inp s padded out cap w :
  denotes inp s -> 0 <= cap <= zlen out ->
  exists out', cf_base64_decode inp padded (Some out) cap (Some w) =
      Some (fst (decode_ref padded s cap), Some (zlen (snd (decode_ref padded s cap))), Some out') /\
    zlen out' = zlen out /\
    (fst (decode_ref padded s cap) = CF_OK -> blit out 0 (snd (decode_ref padded s cap)) = Some out').
Proof. apply decode_spec. Qed.

Lemma base64_decode_total_witness :
  exists out', cf_base64_decode (view (lit "A=A=")) true (Some [5; 6]) 2 (Some 1) =
      Some (fst (decode_ref true (lit "A=A=") 2),
            Some (zlen (snd (decode_ref true (lit "A=A=") 2))), Some out') /\
    zlen out' = zlen [5; 6] /\
    (fst (decode_ref true (lit "A=A=") 2) = CF_OK ->
     blit [5; 6] 0 (snd (decode_ref true (lit "A=A=") 2)) = Some out').
Proof.
  apply (base64_decode_total (view (lit "A=A=")) (lit "A=A=") true [5; 6] 2 1).
  - apply denotes_view; repeat constructor; discriminate.
  - vm_compute; split; discriminate.
Defined.
