(* ===== verification/Headers.v ===== *)
(** Serialized HTTP headers (src/protocol/cf_headers.c): pairs of unpadded Base64
    texts, [name:value], separated by semicolons. *)
From S2P Require Export Base64.

Definition CF_HEADER_COUNT_MAX : Z := 32.
Definition CF_HEADER_DECODED_MAX : Z := 4096.
Definition CF_HEADER_WIRE_MAX : Z := 6144.

Record cf_header := Header { h_name : cf_bytes; h_value : cf_bytes }.

(** ** The code *)

(** [for (i = 0; i < s.len; ++i) if (!ok(s.ptr[i])) return false; return true;] *)
Fixpoint all_bytes (ok : Z -> bool) (k : nat) (s : cf_bytes) (i : Z) : option bool :=
  match k with
  | O => Some true
  | S k => c ← bget s i; if ok c then all_bytes ok k s (i + 1) else Some false
  end.

(** [strchr] on a string literal, for a nonzero character. *)
Definition strchr (s : list Z) (c : Z) : bool := existsb (Z.eqb c) s.

Definition name_byte (c : Z) : bool :=
  ((97 <=? c) && (c <=? 122)) || ((65 <=? c) && (c <=? 90)) || ((48 <=? c) && (c <=? 57))
  || (negb (c =? 0) && (c <? 128) && strchr (lit "!#$%&'*+-.^_`|~") c).

Definition value_byte (c : Z) : bool :=
  negb (((c <? 32) && negb (c =? 9)) || (c =? 127)).

Definition valid_name (s : cf_bytes) : option bool :=
  if bool_decide (ptr s = None) || (len s =? 0) then Some false
  else all_bytes name_byte (Z.to_nat (len s)) s 0.

Definition valid_value (s : cf_bytes) : option bool :=
  if null_view s then Some false
  else all_bytes value_byte (Z.to_nat (len s)) s 0.

Definition ascii_lower (c : Z) : Z := if (65 <=? c) && (c <=? 90) then c + 32 else c.

Fixpoint prefix_loop (s : cf_bytes) (i : Z) (p : list Z) : option bool :=
  match p with
  | [] => Some true
  | x :: p => c ← bget s i; if ascii_lower c =? x then prefix_loop s (i + 1) p else Some false
  end.

Definition prefix (s : cf_bytes) (p : list Z) : option bool :=
  if (len s <? zlen p) || bool_decide (ptr s = None) then Some false
  else prefix_loop s 0 p.

Definition cf_header_is_control (name : cf_bytes) : option bool :=
  a ← prefix name (lit ":"); if a : bool then Some true else
  b ← prefix name (lit "cf-int-"); if b : bool then Some true else
  c ← prefix name (lit "cf-cloudflared-"); if c : bool then Some true else
  prefix name (lit "cf-proxy-").

(** [while (i < stop && s.ptr[i] != c) ++i;] *)
Fixpoint scan (k : nat) (s : cf_bytes) (i stop c : Z) : option Z :=
  if negb (i <? stop) then Some i else
  match k with
  | O => None
  | S k => b ← bget s i; if b =? c then Some i else scan k s (i + 1) stop c
  end.

(** An entry as [cf_headers_decode] stores it: two views into the arena, each an
    offset and a length. *)
Record arena_entry := Entry { e_name : Z * Z; e_value : Z * Z }.

(** [entries[i] = h;] *)
Definition set_entry (es : list arena_entry) (i : Z) (h : arena_entry) : option (list arena_entry) :=
  if (0 <=? i) && (i <? zlen es) then Some (<[Z.to_nat i := h]> es) else None.

(** A call of the decoder on [arena + used] with the capacity [cap - used]. *)
Definition decode_into (src : cf_bytes) (arena : list Z) (used cap : Z)
    : option (cf_result * Z * list Z) :=
  if negb ((0 <=? used) && (used <=? zlen arena)) then None else
  r ← cf_base64_decode src false (Some (drop (Z.to_nat used) arena)) (cap - used) (Some 0);
  match r with
  | (rc, Some n, Some m) => Some (rc, n, take (Z.to_nat used) arena ++ m)
  | _ => None
  end.

(** Decode [wire[start .. colon)] and [wire(colon .. fin)] into the arena,
    validate the pair and store it as entry [num]; the result holds the code,
    [used], the entries and the arena. *)
Definition decode_pair (wire : cf_bytes) (start colon fin cap used num : Z)
    (es : list arena_entry) (arena : list Z)
    : option (cf_result * Z * list arena_entry * list Z) :=
  src ← badd wire start (colon - start);
  '(rc, n, arena) ← decode_into src arena used cap;
  if negb (is_ok rc) then Some (rc, used, es, arena) else
  let hn := (used, n) in
  let used := used + n in
  src ← badd wire (colon + 1) (fin - colon - 1);
  '(rc, n, arena) ← decode_into src arena used cap;
  if negb (is_ok rc) then Some (rc, used, es, arena) else
  let hv := (used, n) in
  let used := used + n in
  nv ← badd (view arena) (fst hn) (snd hn);
  vv ← badd (view arena) (fst hv) (snd hv);
  ok1 ← valid_name nv;
  ok ← (if ok1 : bool then valid_value vv else Some false);
  if negb ok then Some (CF_ERR_FORMAT, used, es, arena) else
  es ← set_entry es num (Entry hn hv);
  Some (CF_OK, used, es, arena).

Definition headers_state : Type := cf_result * Z * list arena_entry * list Z.

(** [while (start < wire.len)]; every iteration advances [start], so
    [fuel = wire.len] is enough.  The result holds the code, [num], the entries
    and the arena. *)
Fixpoint headers_loop (fuel : nat) (wire : cf_bytes) (slots cap start used num : Z)
    (es : list arena_entry) (arena : list Z) : option headers_state :=
  if negb (start <? len wire) then Some (CF_OK, num, es, arena) else
  match fuel with
  | O => None
  | S fuel =>
      fin ← scan (Z.to_nat (len wire)) wire start (len wire) 59;
      if fin =? start then headers_loop fuel wire slots cap (fin + 1) used num es arena else
      if num =? slots then Some (CF_ERR_LIMIT, num, es, arena) else
      colon ← scan (Z.to_nat (len wire)) wire start fin 58;
      if colon =? fin then Some (CF_ERR_FORMAT, num, es, arena) else
      '(rc, used, es, arena) ← decode_pair wire start colon fin cap used num es arena;
      if negb (is_ok rc) then Some (rc, num, es, arena) else
      headers_loop fuel wire slots cap (fin + 1) used (num + 1) es arena
  end.

(** The result: code, [*count], entries, arena. *)
Definition cf_headers_decode (wire : cf_bytes) (entries : option (list arena_entry)) (slots : Z)
    (arena : option (list Z)) (cap : Z) (count : option Z)
    : option (cf_result * option Z * option (list arena_entry) * option (list Z)) :=
  match count with
  | None => Some (CF_ERR_ARGUMENT, None, entries, arena)
  | Some _ =>
    if null_view wire then Some (CF_ERR_ARGUMENT, Some 0, entries, arena) else
    match entries, arena with
    | Some es, Some m =>
        if CF_HEADER_WIRE_MAX <? len wire
        then Some (CF_ERR_LIMIT, Some 0, entries, arena) else
        let cap := if CF_HEADER_DECODED_MAX <? cap then CF_HEADER_DECODED_MAX else cap in
        let slots := if CF_HEADER_COUNT_MAX <? slots then CF_HEADER_COUNT_MAX else slots in
        '(rc, num, es, m) ← headers_loop (Z.to_nat (len wire)) wire slots cap 0 0 0 es m;
        Some (rc, Some (if is_ok rc then num else 0), Some es, Some m)
    | _, _ => Some (CF_ERR_ARGUMENT, Some 0, entries, arena)
    end
  end.

(** Encoded length of an unpadded text, as the first loop computes it. *)
Definition raw_len (a : Z) : Z := a / 3 * 4 + (if a mod 3 =? 0 then 0 else a mod 3 + 1).

(** [entries[i]] *)
Definition get_entry (es : list cf_header) (i : Z) : option cf_header :=
  if i <? 0 then None else es !! Z.to_nat i.

(** The first loop: limits, validity and the needed length; [k] is [count - i].
    [decoded] never exceeds its limit and [need] stays far below [SIZE_MAX], so
    no operation wraps. *)
Fixpoint measure_loop (k : nat) (es : list cf_header) (i decoded need : Z)
    : option (cf_result + Z) :=
  match k with
  | O => Some (inr need)
  | S k =>
      e ← get_entry es i;
      let a := len (h_name e) in
      let b := len (h_value e) in
      if CF_HEADER_DECODED_MAX - decoded <? a then Some (inl CF_ERR_LIMIT) else
      let decoded := decoded + a in
      if CF_HEADER_DECODED_MAX - decoded <? b then Some (inl CF_ERR_LIMIT) else
      let decoded := decoded + b in
      ok1 ← valid_name (h_name e);
      ok ← (if ok1 : bool then valid_value (h_value e) else Some false);
      if negb ok then Some (inl CF_ERR_FORMAT) else
      measure_loop k es (i + 1) decoded
        (need + raw_len a + (raw_len b + 1 + (if i =? 0 then 0 else 1)))
  end.

(** A call of the encoder on [wire + used] with the capacity [cap - used]; the
    return code is ignored, as in the code. *)
Definition encode_into (src : cf_bytes) (wire : list Z) (used cap : Z) : option (Z * list Z) :=
  if negb ((0 <=? used) && (used <=? zlen wire)) then None else
  r ← cf_base64_encode src false (Some (drop (Z.to_nat used) wire)) (cap - used) (Some 0);
  match r with
  | (_, Some n, Some m) => Some (n, take (Z.to_nat used) wire ++ m)
  | _ => None
  end.

(** The second loop. *)
Fixpoint emit_loop (k : nat) (es : list cf_header) (i : Z) (wire : list Z) (cap used : Z)
    : option (list Z * Z) :=
  match k with
  | O => Some (wire, used)
  | S k =>
      e ← get_entry es i;
      '(wire, used) ← (if i =? 0 then Some (wire, used)
                       else w ← wr wire used 59; Some (w, used + 1));
      '(n, wire) ← encode_into (h_name e) wire used cap;
      let used := used + n in
      wire ← wr wire used 58;
      let used := used + 1 in
      '(n, wire) ← encode_into (h_value e) wire used cap;
      emit_loop k es (i + 1) wire cap (used + n)
  end.

Definition cf_headers_encode (entries : option (list cf_header)) (count : Z)
    (wire : option (list Z)) (cap : Z) (written : option Z) : option b64_result :=
  match written with
  | None => Some (CF_ERR_ARGUMENT, None, wire)
  | Some _ =>
    if (bool_decide (entries = None) && negb (count =? 0))
       || (bool_decide (wire = None) && negb (cap =? 0))
    then Some (CF_ERR_ARGUMENT, Some 0, wire) else
    if CF_HEADER_COUNT_MAX <? count then Some (CF_ERR_LIMIT, Some 0, wire) else
    r ← measure_loop (Z.to_nat count) (default [] entries) 0 0 0;
    match r with
    | inl rc => Some (rc, Some 0, wire)
    | inr need =>
        if (cap <? need) || (CF_HEADER_WIRE_MAX <? need)
        then Some (CF_ERR_LIMIT, Some 0, wire) else
        '(m, used) ← emit_loop (Z.to_nat count) (default [] entries) 0 (default [] wire) cap 0;
        Some (CF_OK, Some used, (λ _, m) <$> wire)
    end
  end.

(** ** The reference *)

Definition name_ok (l : list Z) : bool := negb (zlen l =? 0) && forallb name_byte l.
Definition value_ok (l : list Z) : bool := forallb value_byte l.

(** The part before the first [c], and the part from it on. *)
Fixpoint break_at (c : Z) (l : list Z) : list Z * list Z :=
  match l with
  | [] => ([], [])
  | x :: l' => if x =? c then ([], l) else let '(a, b) := break_at c l' in (x :: a, b)
  end.

(** The segments between the separators [c]. *)
Fixpoint split_on (c : Z) (l : list Z) : list (list Z) :=
  match l with
  | [] => [[]]
  | x :: l' =>
      if x =? c then [] :: split_on c l' else
      match split_on c l' with
      | [] => [[x]]
      | s :: ss => (x :: s) :: ss
      end
  end.

Definition pair_bytes (h : list Z * list Z) : list Z := fst h ++ snd h.
Definition flatten (hs : list (list Z * list Z)) : list Z := concat (map pair_bytes hs).

(** One pair of texts, with [used] bytes of the arena taken. *)
Definition pair_ref (cap used : Z) (n64 v64 : list Z) : cf_result * (list Z * list Z) :=
  match decode_ref false n64 (cap - used) with
  | (CF_OK, name) =>
      match decode_ref false v64 (cap - (used + zlen name)) with
      | (CF_OK, value) =>
          if name_ok name && value_ok value then (CF_OK, (name, value))
          else (CF_ERR_FORMAT, ([], []))
      | (rc, _) => (rc, ([], []))
      end
  | (rc, _) => (rc, ([], []))
  end.

(** Decode the segments in order: [used] bytes and [num] entries are taken. *)
Fixpoint decode_segs (slots cap used num : Z) (segs : list (list Z))
    : cf_result * list (list Z * list Z) :=
  match segs with
  | [] => (CF_OK, [])
  | [] :: segs => decode_segs slots cap used num segs
  | seg :: segs =>
      if num =? slots then (CF_ERR_LIMIT, []) else
      match break_at 58 seg with
      | (_, []) => (CF_ERR_FORMAT, [])
      | (n64, _ :: v64) =>
          match pair_ref cap used n64 v64 with
          | (CF_OK, (name, value)) =>
              match decode_segs slots cap (used + zlen name + zlen value) (num + 1) segs with
              | (CF_OK, hs) => (CF_OK, (name, value) :: hs)
              | (rc, _) => (rc, [])
              end
          | (rc, _) => (rc, [])
          end
      end
  end.

(** Where the entries of [hs] lie when the first byte is stored at [used]. *)
Fixpoint layout (used : Z) (hs : list (list Z * list Z)) : list arena_entry :=
  match hs with
  | [] => []
  | (n, v) :: hs =>
      Entry (used, zlen n) (used + zlen n, zlen v) :: layout (used + zlen n + zlen v) hs
  end.

Definition headers_ref (s : list Z) (slots cap : Z) : cf_result * list (list Z * list Z) :=
  if CF_HEADER_WIRE_MAX <? zlen s then (CF_ERR_LIMIT, []) else
  decode_segs (Z.min slots CF_HEADER_COUNT_MAX) (Z.min cap CF_HEADER_DECODED_MAX) 0 0
    (split_on 59 s).

(** The wire text of a list of headers. *)
Definition wire_pair (h : list Z * list Z) : list Z :=
  encode_ref false (fst h) ++ 58 :: encode_ref false (snd h).

Fixpoint wire_ref (first : bool) (hs : list (list Z * list Z)) : list Z :=
  match hs with
  | [] => []
  | h :: hs => (if first then [] else [59]) ++ wire_pair h ++ wire_ref false hs
  end.

(** ** Scans and validity tests *)

Lemma break_at_spec c l :
  l = fst (break_at c l) ++ snd (break_at c l) /\ Forall (fun x => x <> c) (fst (break_at c l)) /\
  (snd (break_at c l) = [] \/ exists r, snd (break_at c l) = c :: r).
Proof.
  induction l as [|x l IH]; simpl; [repeat split; [constructor|by left]|].
  destruct (Z.eqb_spec x c) as [->|Hx]; simpl; [repeat split; [constructor|right; by eexists]|].
  destruct (break_at c l) as [a b]; simpl in *; destruct IH as (-> & H1 & H2).
  split_and!; [done|by constructor|done].
Qed.

Lemma break_at_app c a r :
  Forall (fun x => x <> c) a -> break_at c (a ++ c :: r) = (a, c :: r).
Proof.
  induction 1 as [|x a Hx Ha IH]; simpl; [by rewrite Z.eqb_refl|].
  by replace (x =? c) with false by lia; rewrite IH.
Qed.

Lemma split_on_break c l :
  split_on c l = fst (break_at c l) ::
    match snd (break_at c l) with [] => [] | _ :: r => split_on c r end.
Proof.
  induction l as [|x l IH]; simpl; [done|].
  destruct (x =? c); [done|]; rewrite IH; by destruct (break_at c l).
Qed.

Lemma scan_spec s c mid : forall k i pre suf stop,
  denotes s (pre ++ mid ++ suf) -> i = zlen pre -> stop = zlen pre + zlen mid ->
  (length mid <= k)%nat -> scan k s i stop c = Some (zlen pre + zlen (fst (break_at c mid))).
Proof.
  induction mid as [|x mid IH]; intros k i pre suf stop Hs -> -> Hk.
  - destruct k; simpl; replace (zlen pre <? _) with false by zlia; simpl; f_equal; zlia.
  - destruct k as [|k]; [simpl in Hk; lia|]; simpl.
    replace (zlen pre <? _) with true by zlia; simpl.
    replace (bget s (zlen pre)) with (Some x).
    2: { symmetry; rewrite <- (Z.add_0_r (zlen pre)); by eapply denotes_nth. }
    simpl; destruct (Z.eqb_spec x c) as [->|Hx]; simpl; [f_equal; zlia|].
    rewrite (IH k _ (pre ++ [x]) suf); [|by rewrite <- app_assoc|zlia|zlia|simpl in Hk; lia].
    destruct (break_at c mid) as [a b]; simpl; f_equal; zlia.
Qed.

Lemma all_bytes_spec ok s l : forall pre suf i,
  denotes s (pre ++ l ++ suf) -> i = zlen pre ->
  all_bytes ok (length l) s i = Some (forallb ok l).
Proof.
  induction l as [|x l IH]; intros pre suf i Hs ->; simpl; [done|].
  replace (bget s (zlen pre)) with (Some x).
  2: { symmetry; rewrite <- (Z.add_0_r (zlen pre)); by eapply denotes_nth. }
  simpl; destruct (ok x); [|done].
  by apply (IH (pre ++ [x]) suf); [rewrite <- app_assoc|zlia].
Qed.

Lemma valid_name_spec s l : denotes s l -> valid_name s = Some (name_ok l).
Proof.
  intros Hs; unfold valid_name, name_ok; rewrite (denotes_len _ _ Hs).
  destruct (zlen l =? 0) eqn:E; [by rewrite orb_true_r|]; rewrite orb_false_r; simpl.
  rewrite bool_decide_false.
  - unfold zlen; rewrite Nat2Z.id.
    apply (all_bytes_spec name_byte s l [] []); [by rewrite app_nil_r|done].
  - intros Hp; destruct Hs as (_ & _ & H); rewrite Hp in H; by subst l.
Qed.

Lemma valid_value_spec s l : denotes s l -> valid_value s = Some (value_ok l).
Proof.
  intros Hs; unfold valid_value, value_ok.
  rewrite (denotes_null_view _ _ Hs), (denotes_len _ _ Hs); unfold zlen; rewrite Nat2Z.id.
  apply (all_bytes_spec value_byte s l [] []); [by rewrite app_nil_r|done].
Qed.

(** ** The decoder refines its reference *)

Lemma decode_into_spec src t p q cap :
  denotes src t -> zlen p <= cap <= zlen (p ++ q) ->
  exists q', decode_into src (p ++ q) (zlen p) cap =
      Some (fst (decode_ref false t (cap - zlen p)),
            zlen (snd (decode_ref false t (cap - zlen p))), p ++ q') /\
    zlen q' = zlen q /\
    (fst (decode_ref false t (cap - zlen p)) = CF_OK ->
     exists z, q' = snd (decode_ref false t (cap - zlen p)) ++ z /\
               z = drop (length (snd (decode_ref false t (cap - zlen p)))) q).
Proof.
  intros Hs Hc; unfold decode_into; decide_leb.
  replace (Z.to_nat (zlen p)) with (length p) by (unfold zlen; lia).
  rewrite drop_app_length, take_app_length.
  destruct (decode_spec src t false q (cap - zlen p) 0 Hs) as (q' & -> & Hl & Hok); [zlia|].
  exists q'; simpl; split_and!; [done|done|]; intros H.
  apply Hok, blit_0 in H; eauto.
Qed.

(** A byte range of the arena as a view. *)
Lemma arena_view p l r :
  bytes_ok l -> exists b, badd (view (p ++ l ++ r)) (zlen p) (zlen l) = Some b /\ denotes b l.
Proof.
  intros Hl; unfold badd, view; simpl; decide_leb.
  eexists; split; [done|]; split_and!; [done|done|simpl].
  exists r; unfold zlen; by rewrite Nat2Z.id, drop_app_length.
Qed.

Lemma decode_pair_spec wire pre n64 v64 suf cap p q num es :
  denotes wire (pre ++ n64 ++ 58 :: v64 ++ suf) ->
  zlen p <= cap <= zlen (p ++ q) -> 0 <= num < zlen es ->
  exists used' es' m',
    decode_pair wire (zlen pre) (zlen pre + zlen n64) (zlen pre + zlen n64 + 1 + zlen v64)
      cap (zlen p) num es (p ++ q) = Some (fst (pair_ref cap (zlen p) n64 v64), used', es', m') /\
    zlen m' = zlen (p ++ q) /\ zlen es' = zlen es /\
    match pair_ref cap (zlen p) n64 v64 with
    | (CF_OK, (name, value)) =>
        used' = zlen p + zlen name + zlen value /\ used' <= cap /\
        es' = <[Z.to_nat num := Entry (zlen p, zlen name) (zlen p + zlen name, zlen value)]> es /\
        m' = (p ++ name ++ value) ++ drop (length value) (drop (length name) q)
    | _ => es' = es
    end.
Proof.
  intros Hw Hc Hn; unfold decode_pair, pair_ref.
  destruct (denotes_badd wire pre n64 (58 :: v64 ++ suf) Hw) as (src & Hsrc & Hd).
  replace (zlen pre + zlen n64 - zlen pre) with (zlen n64) by lia; rewrite Hsrc; cbn [mbind option_bind].
  destruct (decode_into_spec src n64 p q cap Hd Hc) as (q1 & -> & Hq1 & Hok1).
  destruct (decode_ref false n64 (cap - zlen p)) as [rc name] eqn:E1; cbn [fst snd mbind option_bind] in *.
  destruct (decide (rc = CF_OK)) as [->|Hrc].
  2: { destruct rc; try done; simpl; eexists _, es, _; split_and!; try done; zlia. }
  destruct (Hok1 eq_refl) as (z1 & -> & Hz1); cbn [is_ok bool_decide negb].
  assert (denotes wire ((pre ++ n64 ++ [58]) ++ v64 ++ suf)) as Hw2 by (by rewrite <- !app_assoc).
  destruct (denotes_badd _ _ _ _ Hw2) as (src2 & Hsrc2 & Hd2).
  replace (zlen pre + zlen n64 + 1) with (zlen (pre ++ n64 ++ [58])) by zlia.
  replace (_ - _ - 1) with (zlen v64) by zlia; simpl (is_ok CF_OK); cbn [negb].
  rewrite Hsrc2; cbn [mbind option_bind].
  assert (zlen (p ++ name) <= cap) as Hcap2 by (pose proof (decode_ref_fits _ _ _ _ E1); zlia).
  rewrite (app_assoc p name z1), <- (zlen_app p name).
  destruct (decode_into_spec src2 v64 (p ++ name) z1 cap Hd2) as (q2 & -> & Hq2 & Hok2);
    [rewrite <- app_assoc; zlia|].
  destruct (decode_ref false v64 (cap - zlen (p ++ name))) as [rc value] eqn:E2;
    cbn [fst snd mbind option_bind] in *.
  destruct (decide (rc = CF_OK)) as [->|Hrc].
  2: { destruct rc; try done; simpl; eexists _, es, _; split_and!; try done; zlia. }
  destruct (Hok2 eq_refl) as (z2 & -> & Hz2); simpl (is_ok CF_OK); cbn [negb].
  destruct (encode_decode_ref _ _ _ _ E1) as [_ Hb1], (encode_decode_ref _ _ _ _ E2) as [_ Hb2].
  rewrite <- (app_assoc p name (value ++ z2)).
  destruct (arena_view p name (value ++ z2) Hb1) as (nv & -> & Hnv); cbn [mbind option_bind].
  rewrite (app_assoc p name (value ++ z2)).
  destruct (arena_view (p ++ name) value z2 Hb2) as (vv & -> & Hvv); cbn [mbind option_bind].
  rewrite (valid_name_spec _ _ Hnv), (valid_value_spec _ _ Hvv); cbn [mbind option_bind].
  pose proof (decode_ref_fits _ _ _ _ E2).
  assert (zlen ((p ++ name) ++ value ++ z2) = zlen (p ++ q)) by zlia.
  destruct (name_ok name); cbn [mbind option_bind negb andb];
    [|by eexists _, es, _; split_and!].
  destruct (value_ok value); cbn [mbind option_bind negb];
    [|by eexists _, es, _; split_and!].
  unfold set_entry; replace ((0 <=? num) && (num <? zlen es)) with true by lia.
  eexists _, _, _; split; [done|]; split_and!; [done|unfold zlen; by rewrite length_insert|zlia|zlia| |].
  - by rewrite zlen_app.
  - subst z2 z1; by rewrite <- !app_assoc.
Qed.

Section DecodeLoop.
Variables (wire : cf_bytes) (slots cap : Z).

(** The exit state of the loop, against the reference. *)
Definition loop_result (ref : cf_result * list (list Z * list Z)) (p q : list Z)
    (es : list arena_entry) (num : Z) (r : headers_state) : Prop :=
  exists num' es' m', r = (fst ref, num', es', m') /\ zlen m' = zlen (p ++ q) /\
    zlen es' = zlen es /\
    (fst ref = CF_OK ->
       num' = num + zlen (snd ref) /\
       es' = take (Z.to_nat num) es ++ layout (zlen p) (snd ref) ++
             drop (Z.to_nat num + length (snd ref)) es /\
       exists q', blit q 0 (flatten (snd ref)) = Some q' /\ m' = p ++ q').

Lemma loop_result_stop rc p q es num m es' :
  rc <> CF_OK -> zlen m = zlen (p ++ q) -> zlen es' = zlen es ->
  loop_result (rc, []) p q es num (rc, num, es', m).
Proof. intros Hrc Hm He; exists num, es', m; by split_and!. Qed.

Lemma loop_result_done p q es num :
  0 <= num <= zlen es -> loop_result (CF_OK, []) p q es num (CF_OK, num, es, p ++ q).
Proof.
  intros Hn; exists num, es, (p ++ q); split_and!; [done..|intros _; simpl].
  split_and!; [rewrite zlen_nil_any; lia|by rewrite Nat.add_0_r, take_drop|].
  exists q; by rewrite blit_nil by zlia.
Qed.

(** The entries before and after one more pair. *)
Lemma entries_push (es : list arena_entry) num h l :
  0 <= num < zlen es ->
  take (Z.to_nat (num + 1)) (<[Z.to_nat num := h]> es) ++ l ++
    drop (Z.to_nat (num + 1) + length l) (<[Z.to_nat num := h]> es) =
  take (Z.to_nat num) es ++ (h :: l) ++ drop (Z.to_nat num + length (h :: l)) es.
Proof.
  intros Hn; replace (Z.to_nat (num + 1)) with (S (Z.to_nat num)) by lia.
  rewrite insert_take_drop by (unfold zlen in *; lia).
  set (n := Z.to_nat num); assert (length (take n es) = n) as Hlt
    by (rewrite length_take; unfold zlen in *; lia).
  rewrite take_app, Hlt, take_take, Nat.min_r by lia.
  replace (S n - n)%nat with 1%nat by lia; simpl take.
  rewrite drop_app, Hlt, (drop_ge (take n es)) by lia.
  replace (S n + length l - n)%nat with (S (length l)) by lia; simpl.
  by rewrite drop_drop, <- app_assoc, take_0, Nat.add_succ_r.
Qed.

Lemma length_layout used hs : length (layout used hs) = length hs.
Proof. revert used; induction hs as [|[n v] hs IH]; intros; simpl; auto. Qed.

Lemma loop_result_push name value p q es num r ref :
  0 <= num < zlen es -> zlen name + zlen value <= zlen q ->
  loop_result ref (p ++ name ++ value) (drop (length value) (drop (length name) q))
    (<[Z.to_nat num := Entry (zlen p, zlen name) (zlen p + zlen name, zlen value)]> es)
    (num + 1) r ->
  loop_result (match ref with (CF_OK, hs) => (CF_OK, (name, value) :: hs) | (rc, _) => (rc, []) end)
    p q es num r.
Proof.
  intros Hn Hq (num' & es' & m' & -> & Hm & He & Hok); exists num', es', m'.
  assert (zlen m' = zlen (p ++ q)) as Hm'.
  { rewrite Hm; unfold zlen in *; rewrite !length_app, !length_drop; lia. }
  assert (zlen es' = zlen es) as He' by (rewrite He; unfold zlen; by rewrite length_insert).
  destruct ref as [rc hs]; simpl in *.
  destruct (decide (rc = CF_OK)) as [->|Hrc];
    [|destruct rc; simpl; split_and!; done || (intros; by exfalso)].
  simpl; split_and!; [done..|intros _]; destruct (Hok eq_refl) as (-> & -> & q' & Hb & ->).
  split_and!; [rewrite zlen_cons; lia| |].
  - replace (zlen (p ++ name ++ value)) with (zlen p + zlen name + zlen value) by zlia.
    rewrite <- (length_layout (zlen p + zlen name + zlen value) hs), entries_push by lia.
    simpl; by rewrite length_layout.
  - exists ((name ++ value) ++ q'); split; [|by rewrite <- !app_assoc].
    unfold flatten; simpl map; simpl concat; unfold pair_bytes at 1; simpl fst; simpl snd.
    apply blit_0_app; [zlia|]; by rewrite length_app, <- drop_drop.
Qed.

Lemma headers_loop_done fuel start used num es m :
  len wire <= start -> headers_loop fuel wire slots cap start used num es m = Some (CF_OK, num, es, m).
Proof. intros; destruct fuel; cbn [headers_loop]; by replace (start <? len wire) with false by lia. Qed.

Lemma headers_loop_spec rest : forall fuel pre p q es start used num,
  denotes wire (pre ++ rest) -> start = zlen pre -> (length rest <= fuel)%nat ->
  used = zlen p -> used <= cap <= zlen (p ++ q) -> 0 <= num <= slots -> slots <= zlen es ->
  exists r, headers_loop fuel wire slots cap start used num es (p ++ q) = Some r /\
    loop_result (decode_segs slots cap used num (split_on 59 rest)) p q es num r.
Proof.
  induction rest as [rest IH] using list_len_ind.
  intros fuel pre p q es start used num Hw -> Hf -> Hcap Hnum Hes.
  pose proof (denotes_len _ _ Hw) as Hlen; rewrite zlen_app in Hlen.
  destruct rest as [|x0 rest0] eqn:Erest.
  { rewrite headers_loop_done by zlia; eexists; split; [done|]; apply loop_result_done; lia. }
  rewrite <- Erest in *.
  destruct fuel as [|fuel]; [subst; simpl in Hf; lia|]; cbn [headers_loop].
  replace (zlen pre <? len wire) with true by (subst; zlia); cbn [negb].
  destruct (break_at_spec 59 rest) as (Ebrk & Hseg & Htl).
  rewrite split_on_break.
  rewrite (scan_spec wire 59 rest _ _ pre []) by
    (rewrite ?app_nil_r; try done; unfold zlen in *; lia).
  destruct (break_at 59 rest) as [seg tl] eqn:Eb; cbn [fst snd mbind option_bind] in *.
  (* What follows the segment. *)
  assert (Hnext : forall p q es num, zlen p <= cap <= zlen (p ++ q) -> 0 <= num <= slots ->
    slots <= zlen es -> exists r,
      headers_loop fuel wire slots cap (zlen pre + zlen seg + 1) (zlen p) num es (p ++ q) = Some r /\
      loop_result (decode_segs slots cap (zlen p) num
        match tl with [] => [] | _ :: r => split_on 59 r end) p q es num r).
  { intros p' q' es' num' ? ? ?; destruct Htl as [->|[r ->]].
    - rewrite headers_loop_done by (rewrite Hlen, Ebrk; zlia).
      eexists; split; [done|]; apply loop_result_done; lia.
    - apply (IH r) with (pre := pre ++ seg ++ [59]); try done; try lia.
      + rewrite Ebrk, length_app; simpl; lia.
      + rewrite Ebrk in Hw; by rewrite <- !app_assoc.
      + zlia.
      + rewrite Ebrk, length_app in Hf; simpl in Hf; lia. }
  destruct seg as [|c seg'] eqn:Esegv; cbn [decode_segs].
  { rewrite zlen_nil, Z.add_0_r, Z.eqb_refl.
    destruct (Hnext p q es num) as (r & Hr & Hx); [done..|].
    rewrite zlen_nil, Z.add_0_r in Hr; eauto. }
  rewrite <- Esegv in *.
  replace (zlen pre + zlen seg =? zlen pre) with false by (subst seg; zlia).
  destruct (Z.eqb_spec num slots) as [->|Hns].
  { eexists; split; [done|]; by apply loop_result_stop. }
  rewrite Ebrk in Hw; rewrite (scan_spec wire 58 seg _ _ pre tl) by
    (done || (rewrite Hlen, Ebrk; unfold zlen; rewrite !length_app; lia)).
  destruct (break_at_spec 58 seg) as (Eseg & _ & Hv).
  destruct (break_at 58 seg) as [n64 [|c58 v64]]; cbn [fst snd mbind option_bind] in *.
  { rewrite app_nil_r in Eseg; subst n64; rewrite Z.eqb_refl.
    eexists; split; [done|]; by apply loop_result_stop. }
  destruct Hv as [Hv|[r [= -> ->]]]; [discriminate|]; rename r into v64.
  replace (zlen pre + zlen n64 =? zlen pre + zlen seg) with false by (rewrite Eseg; zlia).
  destruct (decode_pair_spec wire pre n64 v64 tl cap p q num es) as (used' & es' & m' & Hdp & Hm & He & Hp);
    [rewrite Eseg in Hw; by rewrite <- app_assoc in Hw|done|lia|].
  replace (zlen pre + zlen seg) with (zlen pre + zlen n64 + 1 + zlen v64) by (rewrite Eseg; zlia).
  rewrite Hdp; cbn [mbind option_bind].
  destruct (pair_ref cap (zlen p) n64 v64) as [rc [name value]]; cbn [fst snd] in *.
  destruct (decide (rc = CF_OK)) as [->|Hrc].
  2: { destruct rc; try done; eexists; (split; [done|]); apply loop_result_stop; done. }
  destruct Hp as (-> & Hcap' & -> & ->); simpl (is_ok CF_OK); cbn [negb].
  destruct (Hnext (p ++ name ++ value) (drop (length value) (drop (length name) q))
    (<[Z.to_nat num := Entry (zlen p, zlen name) (zlen p + zlen name, zlen value)]> es) (num + 1))
    as (r & Hr & Hx); [split; [zlia|rewrite Hm; lia]|lia|rewrite He; lia|].
  rewrite !zlen_app, Z.add_assoc in Hr, Hx.
  replace (zlen pre + zlen seg + 1) with (zlen pre + zlen n64 + 1 + zlen v64 + 1) in Hr
    by (rewrite Eseg; zlia).
  exists r; split; [exact Hr|]; apply loop_result_push; [lia|zlia|exact Hx].
Qed.
End DecodeLoop.

(** ** The encoder refines its reference *)

Definition entry_denotes (e : cf_header) (h : list Z * list Z) : Prop :=
  denotes (h_name e) (fst h) /\ denotes (h_value e) (snd h).

Definition pair_ok (h : list Z * list Z) : bool := name_ok (fst h) && value_ok (snd h).

Lemma zlen_wire_pair h : zlen (wire_pair h) = raw_len (zlen (fst h)) + (raw_len (zlen (snd h)) + 1).
Proof. unfold wire_pair; rewrite zlen_app, zlen_cons, !encode_ref_len; unfold raw_len, encoded_len; lia. Qed.

Lemma raw_len_nonneg n : 0 <= n -> 0 <= raw_len n.
Proof. unfold raw_len; intros; case_if; zdm. Qed.

(** The outcome of the first loop on the headers still to be measured. *)
Definition measured (hs : list (list Z * list Z)) (decoded need : Z) (first : bool)
    (r : cf_result + Z) : Prop :=
  if forallb pair_ok hs && (decoded + zlen (flatten hs) <=? CF_HEADER_DECODED_MAX)
  then r = inr (need + zlen (wire_ref first hs))
  else r = inl CF_ERR_LIMIT \/ r = inl CF_ERR_FORMAT.

Lemma flatten_cons h hs : flatten (h :: hs) = fst h ++ snd h ++ flatten hs.
Proof. unfold flatten; simpl; unfold pair_bytes; by rewrite <- app_assoc. Qed.

Lemma get_entry_spec es hs i e h :
  Forall2 entry_denotes es hs -> 0 <= i -> drop (Z.to_nat i) hs = e :: h ->
  exists x, get_entry es i = Some x /\ entry_denotes x e /\
    drop (Z.to_nat (i + 1)) hs = h.
Proof.
  intros HF Hi Hd; unfold get_entry; replace (i <? 0) with false by lia.
  assert (hs !! Z.to_nat i = Some e) as Hl.
  { rewrite <- (Nat.add_0_r (Z.to_nat i)), <- lookup_drop, Hd; done. }
  destruct (Forall2_lookup_r _ _ _ _ _ HF Hl) as (x & Hx & He); exists x; split_and!; [done..|].
  replace (Z.to_nat (i + 1)) with (Z.to_nat i + 1)%nat by lia; by rewrite <- drop_drop, Hd.
Qed.

Lemma measure_loop_spec es hs0 : Forall2 entry_denotes es hs0 -> forall hs i decoded need,
  0 <= i -> drop (Z.to_nat i) hs0 = hs -> decoded <= CF_HEADER_DECODED_MAX ->
  exists r, measure_loop (length hs) es i decoded need = Some r /\ measured hs decoded need (i =? 0) r.
Proof.
  intros HF; induction hs as [|[n v] hs IH]; intros i decoded need Hi Hd Hdec; cbn [length measure_loop].
  { eexists; split; [done|]; unfold measured; simpl; unfold flatten; simpl.
    replace (_ <=? _) with true by zlia; f_equal; zlia. }
  destruct (get_entry_spec _ _ _ _ _ HF Hi Hd) as (e & -> & [Hn Hv] & Hd'); cbn [mbind option_bind].
  cbn [fst snd] in *.
  rewrite (denotes_len _ _ Hn), (denotes_len _ _ Hv).
  unfold measured; rewrite flatten_cons; cbn [forallb fst snd].
  destruct (CF_HEADER_DECODED_MAX - decoded <? zlen n) eqn:E1.
  { eexists; split; [done|]; replace (_ <=? CF_HEADER_DECODED_MAX) with false by zlia.
    rewrite andb_false_r; by left. }
  destruct (CF_HEADER_DECODED_MAX - (decoded + zlen n) <? zlen v) eqn:E2.
  { eexists; split; [done|]; replace (_ <=? CF_HEADER_DECODED_MAX) with false by zlia.
    rewrite andb_false_r; by left. }
  rewrite (valid_name_spec _ _ Hn), (valid_value_spec _ _ Hv); cbn [mbind option_bind].
  unfold pair_ok; cbn [fst snd].
  destruct (name_ok n); cbn [mbind option_bind negb andb]; [|eexists; split; [done|by right]].
  destruct (value_ok v); cbn [mbind option_bind negb andb]; [|eexists; split; [done|by right]].
  edestruct (IH (i + 1)) as (r & -> & Hr); [lia|exact Hd'|lia|]; exists r; split; [done|].
  unfold measured in Hr; fold (pair_ok).
  replace (decoded + zlen (n ++ v ++ flatten hs)) with (decoded + zlen n + zlen v + zlen (flatten hs)) by zlia.
  case_if; [|done]; rewrite Hr; f_equal; cbn [wire_ref].
  replace (i + 1 =? 0) with false by lia.
  rewrite !zlen_app, zlen_wire_pair; cbn [fst snd]; destruct (i =? 0); simpl; zlia.
Qed.

Lemma encode_into_spec src l p q cap :
  denotes src l -> zlen l <= CF_HEADER_DECODED_MAX ->
  zlen p + raw_len (zlen l) <= cap -> cap <= zlen (p ++ q) ->
  encode_into src (p ++ q) (zlen p) cap =
  Some (raw_len (zlen l), (p ++ encode_ref false l) ++ drop (length (encode_ref false l)) q).
Proof.
  intros Hs Hl Hc Hq; unfold encode_into; pose proof (raw_len_nonneg (zlen l) (zlen_nonneg l)).
  rewrite zlen_app in Hq; decide_leb.
  replace (Z.to_nat (zlen p)) with (length p) by (unfold zlen; lia).
  rewrite drop_app_length, take_app_length.
  rewrite (encode_spec src l) by (done || zlia || (unfold CF_HEADER_DECODED_MAX, SIZE_MAX in *; zdm)).
  fold (raw_len (zlen l)); replace (cap - zlen p <? encoded_len false (zlen l)) with false
    by (unfold encoded_len, raw_len in *; lia).
  rewrite blit_0_intro by (rewrite encode_ref_len; unfold encoded_len, raw_len in *; lia).
  cbn; by rewrite <- app_assoc.
Qed.

Lemma wr_app p q v : 0 < zlen q -> wr (p ++ q) (zlen p) v = Some ((p ++ [v]) ++ drop 1 q).
Proof.
  destruct q as [|x q]; [done|]; intros _; unfold wr; change (x :: q) with ([x] ++ q).
  rewrite (blit_app p [x] q [v]) by done; by rewrite <- app_assoc.
Qed.

(** A write followed by the writes after it. *)
Lemma emitted_assoc (p a b q : list Z) :
  ((p ++ a) ++ b) ++ drop (length b) (drop (length a) q) = (p ++ a ++ b) ++ drop (length (a ++ b)) q.
Proof. by rewrite length_app, drop_drop, (app_assoc p). Qed.

Lemma zlen_drop {A} (l : list A) n : zlen (drop n l) = Z.max 0 (zlen l - Z.of_nat n).
Proof. unfold zlen; rewrite length_drop; lia. Qed.

(** The separator written before every pair but the first. *)
Definition separator (first : bool) : list Z := if first then [] else [59].

Lemma emit_pair_spec es hs0 cap i p q h hs :
  Forall2 entry_denotes es hs0 -> 0 <= i -> drop (Z.to_nat i) hs0 = h :: hs ->
  zlen (fst h) <= CF_HEADER_DECODED_MAX -> zlen (snd h) <= CF_HEADER_DECODED_MAX ->
  zlen p + zlen (separator (i =? 0) ++ wire_pair h) <= cap -> cap <= zlen (p ++ q) ->
  forall k, emit_loop (S k) es i (p ++ q) cap (zlen p) =
    emit_loop k es (i + 1) ((p ++ separator (i =? 0) ++ wire_pair h) ++
      drop (length (separator (i =? 0) ++ wire_pair h)) q) cap
      (zlen p + zlen (separator (i =? 0) ++ wire_pair h)).
Proof.
  intros HF Hi Hd Hn Hv Hcap Hq k; cbn [emit_loop].
  destruct (get_entry_spec _ _ _ _ _ HF Hi Hd) as (e & -> & [Hen Hev] & _); cbn [mbind option_bind].
  rewrite zlen_app, zlen_wire_pair in Hcap; rewrite zlen_app in Hq.
  pose proof (raw_len_nonneg (zlen (fst h)) (zlen_nonneg _)).
  pose proof (raw_len_nonneg (zlen (snd h)) (zlen_nonneg _)).
  assert ((if i =? 0 then Some (p ++ q, zlen p)
           else w ← wr (p ++ q) (zlen p) 59; Some (w, zlen p + 1)) =
          Some ((p ++ separator (i =? 0)) ++ drop (length (separator (i =? 0))) q,
                zlen (p ++ separator (i =? 0)))) as ->.
  { revert Hcap; destruct (i =? 0); unfold separator; intros Hcap; [by rewrite app_nil_r|].
    rewrite wr_app by zlia; cbn; do 2 f_equal; zlia. }
  set (sep := separator (i =? 0)) in *; cbn [mbind option_bind].
  rewrite (encode_into_spec _ _ _ _ _ Hen) by
    (done || (rewrite ?zlen_app, ?zlen_drop; unfold zlen in *; lia)); cbn [mbind option_bind].
  assert (zlen (encode_ref false (fst h)) = raw_len (zlen (fst h))) as E1
    by (rewrite encode_ref_len; done).
  assert (zlen (encode_ref false (snd h)) = raw_len (zlen (snd h))) as E2
    by (rewrite encode_ref_len; done).
  rewrite <- E1, <- zlen_app, wr_app by (rewrite !zlen_drop; unfold zlen in *; lia).
  cbn [mbind option_bind]; replace (zlen (_ ++ encode_ref false (fst h)) + 1) with
    (zlen (((p ++ sep) ++ encode_ref false (fst h)) ++ [58])) by zlia.
  rewrite (encode_into_spec _ _ _ _ _ Hev) by
    (done || (rewrite ?zlen_app, ?zlen_drop; unfold zlen in *; simpl length in *; lia)).
  cbn [mbind option_bind]; f_equal; [|rewrite !zlen_app, zlen_wire_pair; zlia].
  change 1%nat with (length [58]); rewrite !emitted_assoc; unfold wire_pair.
  by rewrite <- !app_assoc.
Qed.

Lemma wire_ref_cons first h hs :
  wire_ref first (h :: hs) = (separator first ++ wire_pair h) ++ wire_ref false hs.
Proof. simpl; unfold separator; by rewrite app_assoc. Qed.

Lemma emit_loop_spec es hs0 cap : Forall2 entry_denotes es hs0 -> forall hs i p q,
  0 <= i -> drop (Z.to_nat i) hs0 = hs -> zlen (flatten hs) <= CF_HEADER_DECODED_MAX ->
  zlen p + zlen (wire_ref (i =? 0) hs) <= cap -> cap <= zlen (p ++ q) ->
  emit_loop (length hs) es i (p ++ q) cap (zlen p) =
  Some ((p ++ wire_ref (i =? 0) hs) ++ drop (length (wire_ref (i =? 0) hs)) q,
        zlen p + zlen (wire_ref (i =? 0) hs)).
Proof.
  intros HF; induction hs as [|h hs IH]; intros i p q Hi Hd Hdec Hcap Hq.
  { cbn; do 2 f_equal; [by rewrite app_nil_r|zlia]. }
  rewrite flatten_cons in Hdec; rewrite wire_ref_cons, zlen_app in Hcap.
  destruct (get_entry_spec _ _ _ _ _ HF Hi Hd) as (_ & _ & _ & Hd').
  cbn [length]; rewrite (emit_pair_spec _ _ _ _ _ _ _ _ HF Hi Hd) by zlia.
  set (w := separator (i =? 0) ++ wire_pair h) in *.
  rewrite <- zlen_app, (IH (i + 1) (p ++ w) (drop (length w) q)); [|lia|exact Hd'|zlia|..].
  - replace (i + 1 =? 0) with false by lia.
    rewrite wire_ref_cons; fold w; rewrite emitted_assoc; do 2 f_equal; zlia.
  - replace (i + 1 =? 0) with false by lia; zlia.
  - rewrite !zlen_app, zlen_drop; rewrite zlen_app in Hq; unfold zlen in *; lia.
Qed.

(** What a list of headers must satisfy to be encoded within [cap] characters. *)
Definition encodable (hs : list (list Z * list Z)) (cap : Z) : bool :=
  (zlen hs <=? CF_HEADER_COUNT_MAX) && forallb pair_ok hs
  && (zlen (flatten hs) <=? CF_HEADER_DECODED_MAX)
  && (zlen (wire_ref true hs) <=? cap) && (zlen (wire_ref true hs) <=? CF_HEADER_WIRE_MAX).

Lemma headers_encode_spec es hs m cap w :
  Forall2 entry_denotes es hs -> 0 <= cap <= zlen m ->
  exists r, cf_headers_encode (Some es) (zlen hs) (Some m) cap (Some w) = Some r /\
    if encodable hs cap
    then exists m', blit m 0 (wire_ref true hs) = Some m' /\
           r = (CF_OK, Some (zlen (wire_ref true hs)), Some m')
    else r = (CF_ERR_LIMIT, Some 0, Some m) \/ r = (CF_ERR_FORMAT, Some 0, Some m).
Proof.
  intros HF Hcap; unfold cf_headers_encode, encodable; cbn [bool_decide orb andb].
  rewrite !bool_decide_false by done; cbn [andb orb].
  destruct (Z.ltb_spec CF_HEADER_COUNT_MAX (zlen hs)).
  { eexists; split; [done|]; replace (zlen hs <=? _) with false by lia; by left. }
  replace (zlen hs <=? _) with true by lia; cbn [andb default from_option id].
  replace (Z.to_nat (zlen hs)) with (length hs) by (unfold zlen; lia).
  destruct (measure_loop_spec es hs HF hs 0 0 0) as (r & -> & Hr); [done..|].
  cbn [mbind option_bind]; unfold measured in Hr; rewrite !Z.add_0_l in Hr; cbn [Z.eqb] in Hr.
  destruct (forallb pair_ok hs && _) eqn:E; cbn [andb].
  2: { destruct Hr as [-> | ->]; (eexists; split; [done|]); [by left|by right]. }
  subst r.
  destruct ((cap <? zlen (wire_ref true hs)) || (CF_HEADER_WIRE_MAX <? zlen (wire_ref true hs))) eqn:E2.
  { eexists; split; [done|]; replace ((zlen (wire_ref true hs) <=? cap) && _) with false by lia; by left. }
  replace ((zlen (wire_ref true hs) <=? cap) && _) with true by lia.
  apply andb_prop in E as [E E'].
  pose proof (emit_loop_spec es hs cap HF hs 0 [] m) as He.
  change (zlen (@nil Z)) with 0 in He; cbn [app Z.eqb] in He; rewrite !Z.add_0_l in He.
  rewrite He by (done || zlia); cbn [mbind option_bind].
  eexists; split; [done|]; eexists; split; [by apply blit_0_intro; zlia|done].
Qed.

(** ** The reference round-trips *)

Lemma wire_pair_break h :
  bytes_ok (fst h) -> break_at 58 (wire_pair h) = (encode_ref false (fst h), 58 :: encode_ref false (snd h)).
Proof. intros; apply break_at_app; auto using alphabet_avoids, encode_ref_alphabet. Qed.

Lemma wire_pair_no_semicolon h :
  bytes_ok (fst h) -> bytes_ok (snd h) -> Forall (fun c => c <> 59) (wire_pair h).
Proof.
  intros; unfold wire_pair; apply Forall_app; split; [|constructor; [lia|]];
    auto using alphabet_avoids, encode_ref_alphabet.
Qed.

Definition pair_bytes_ok (h : list Z * list Z) : Prop := bytes_ok (fst h) /\ bytes_ok (snd h).

Lemma split_wire h hs :
  Forall pair_bytes_ok (h :: hs) -> split_on 59 (wire_ref true (h :: hs)) = map wire_pair (h :: hs).
Proof.
  revert h; induction hs as [|h' hs IH]; intros h Hh; apply Forall_cons in Hh as [[H1 H2] Hh].
  - simpl; rewrite app_nil_r, split_on_break.
    pose proof (wire_pair_no_semicolon h H1 H2) as Hn; destruct (break_at_spec 59 (wire_pair h)) as (E & _ & [E2|[r E2]]).
    + rewrite E2 in *; rewrite app_nil_r in E; by rewrite <- E.
    + rewrite E, E2, Forall_app in Hn; destruct Hn as [_ Hn]; inv_all; done.
  - change (wire_ref true (h :: h' :: hs)) with (wire_pair h ++ 59 :: wire_ref true (h' :: hs)).
    rewrite split_on_break, break_at_app by (by apply wire_pair_no_semicolon).
    cbn [fst snd map]; by rewrite IH.
Qed.

Lemma decode_segs_wire slots cap hs : forall used num,
  Forall pair_bytes_ok hs -> forallb pair_ok hs = true ->
  num + zlen hs <= slots -> used + zlen (flatten hs) <= cap ->
  decode_segs slots cap used num (map wire_pair hs) = (CF_OK, hs).
Proof.
  induction hs as [|[n v] hs IH]; intros used num Hb Hok Hn Hc; [done|].
  apply Forall_cons in Hb as [[Hb1 Hb2] Hb]; simpl in Hok; apply andb_prop in Hok as [Hp Hok].
  rewrite flatten_cons in Hc; rewrite zlen_cons in Hn; pose proof (zlen_nonneg hs).
  cbn [map decode_segs fst snd] in *.
  destruct (wire_pair (n, v)) as [|c l] eqn:Ew.
  { exfalso; unfold wire_pair in Ew; by destruct (encode_ref false _). }
  replace (num =? slots) with false by lia.
  rewrite <- Ew, wire_pair_break by done; unfold pair_ref; cbn [fst snd].
  rewrite !zlen_app in Hc; pose proof (zlen_nonneg n); pose proof (zlen_nonneg v);
    pose proof (zlen_nonneg (flatten hs)).
  rewrite !decode_encode_ref by (done || lia); unfold pair_ok in Hp; cbn [fst snd] in Hp.
  by rewrite Hp, IH by (done || lia).
Qed.

(** ** The decoder's contract *)

Lemma decode_segs_error slots cap segs : forall used num,
  fst (decode_segs slots cap used num segs) <> CF_OK -> snd (decode_segs slots cap used num segs) = [].
Proof.
  induction segs as [|seg segs IH]; intros used num; [done|].
  destruct seg as [|c seg]; [apply IH|]; cbn [decode_segs].
  destruct (num =? slots); [done|].
  destruct (break_at 58 (c :: seg)) as [n64 [|x v64]]; [done|].
  destruct (pair_ref cap used n64 v64) as [[] [name value]]; try done.
  destruct (decode_segs _ _ _ _ segs) as [[] hs]; done.
Qed.

Lemma pair_ref_ok cap used n64 v64 name value :
  pair_ref cap used n64 v64 = (CF_OK, (name, value)) ->
  pair_ok (name, value) = true /\ used + zlen name + zlen value <= cap /\ pair_bytes_ok (name, value).
Proof.
  unfold pair_ref.
  destruct (decode_ref false n64 _) as [rc1 n] eqn:E1; destruct rc1; try done.
  destruct (decode_ref false v64 _) as [rc2 v] eqn:E2; destruct rc2; try done.
  destruct (name_ok n && value_ok v) eqn:E3; [|done]; intros [= <- <-].
  apply decode_ref_fits in E2 as ?; apply encode_decode_ref in E1 as [_ ?], E2 as [_ ?].
  split_and!; [done|lia|done].
Qed.

Lemma decode_segs_ok slots cap segs : forall used num hs,
  decode_segs slots cap used num segs = (CF_OK, hs) -> num <= slots -> used <= cap ->
  forallb pair_ok hs = true /\ Forall pair_bytes_ok hs /\
  num + zlen hs <= slots /\ used + zlen (flatten hs) <= cap.
Proof.
  induction segs as [|seg segs IH]; intros used num hs.
  { intros [= <-] ? ?; unfold flatten; simpl; rewrite zlen_nil_any, zlen_nil; split_and!; [done|done|lia|lia]. }
  destruct seg as [|c seg]; [apply IH|]; cbn [decode_segs].
  destruct (Z.eqb_spec num slots); [done|].
  destruct (break_at 58 (c :: seg)) as [n64 [|x v64]]; [done|].
  destruct (pair_ref cap used n64 v64) as [rc [name value]] eqn:Ep; destruct rc; try done.
  destruct (decode_segs _ _ _ _ segs) as [rc hs'] eqn:Es; destruct rc; try done; intros [= <-] ? ?.
  destruct (pair_ref_ok _ _ _ _ _ _ Ep) as (Hp & Hc & Hb).
  destruct (IH _ _ _ Es) as (? & ? & ? & ?); [lia|lia|].
  rewrite flatten_cons, zlen_cons; cbn [forallb fst snd].
  split_and!; [by rewrite Hp|by constructor|lia|zlia].
Qed.

(** An entry refers to the given pair of strings in the arena [m]. *)
Definition entry_holds (m : list Z) (e : arena_entry) (h : list Z * list Z) : Prop :=
  slice m (fst (e_name e)) (snd (e_name e)) = Some (fst h) /\
  slice m (fst (e_value e)) (snd (e_value e)) = Some (snd h).

Lemma slice_app p l r : slice (p ++ l ++ r) (zlen p) (zlen l) = Some l.
Proof.
  unfold slice; decide_leb; unfold zlen; by rewrite !Nat2Z.id, drop_app_length, take_app_length.
Qed.

Lemma layout_holds hs : forall p r,
  Forall2 (entry_holds (p ++ flatten hs ++ r)) (layout (zlen p) hs) hs.
Proof.
  induction hs as [|[n v] hs IH]; intros p r; [constructor|].
  rewrite flatten_cons; cbn [layout fst snd]; constructor.
  - split; cbn [e_name e_value fst snd].
    + rewrite <- app_assoc; apply slice_app.
    + rewrite <- zlen_app, <- !app_assoc, (app_assoc p n); apply slice_app.
  - specialize (IH (p ++ n ++ v) r); rewrite !zlen_app, Z.add_assoc in IH.
    by rewrite <- !app_assoc in *.
Qed.

Lemma headers_decode_spec wire s es slots m cap c :
  denotes wire s -> 0 <= slots <= zlen es -> 0 <= cap <= zlen m ->
  exists es' m',
    cf_headers_decode wire (Some es) slots (Some m) cap (Some c) =
      Some (fst (headers_ref s slots cap), Some (zlen (snd (headers_ref s slots cap))), Some es', Some m') /\
    zlen es' = zlen es /\ zlen m' = zlen m /\
    (fst (headers_ref s slots cap) = CF_OK ->
     Forall2 (entry_holds m') (take (length (snd (headers_ref s slots cap))) es')
       (snd (headers_ref s slots cap))).
Proof.
  intros Hw Hs Hc; unfold cf_headers_decode, headers_ref.
  rewrite (denotes_null_view _ _ Hw), (denotes_len _ _ Hw).
  destruct (Z.ltb_spec CF_HEADER_WIRE_MAX (zlen s)); [by exists es, m|].
  replace (if CF_HEADER_DECODED_MAX <? cap then CF_HEADER_DECODED_MAX else cap)
    with (Z.min cap CF_HEADER_DECODED_MAX) by (case_if; lia).
  replace (if CF_HEADER_COUNT_MAX <? slots then CF_HEADER_COUNT_MAX else slots)
    with (Z.min slots CF_HEADER_COUNT_MAX) by (case_if; lia).
  set (k := Z.min slots CF_HEADER_COUNT_MAX); set (l := Z.min cap CF_HEADER_DECODED_MAX).
  assert (0 <= k <= slots /\ 0 <= l <= cap)
    by (unfold k, l, CF_HEADER_COUNT_MAX, CF_HEADER_DECODED_MAX; lia).
  destruct (headers_loop_spec wire k l s (Z.to_nat (zlen s)) [] [] m es 0 0 0)
    as (r & Hr & num & es' & m' & -> & Hm & He & Hok);
    [done|done|unfold zlen; lia|done|simpl; lia|lia|lia|].
  cbn [app] in *; rewrite Hr; cbn [mbind option_bind].
  pose proof (decode_segs_error k l (split_on 59 s) 0 0) as Herr.
  destruct (decode_segs k l 0 0 (split_on 59 s)) as [rc hs]; cbn [fst snd] in *.
  exists es', m'; destruct (decide (rc = CF_OK)) as [->|Hrc].
  - destruct (Hok eq_refl) as (-> & -> & q' & Hb & Hq); cbn [app] in Hq; subst q'.
    split_and!; [done|done|done|intros _].
    rewrite take_0; cbn [app]; rewrite take_app_length' by (by rewrite length_layout).
    rewrite (blit_0 _ _ _ Hb); apply (layout_holds hs []).
  - rewrite (Herr Hrc); unfold is_ok; rewrite bool_decide_false by done.
    split_and!; done.
Qed.

(** The encoder's output is a valid wire text: bytes of the alphabet, colons and
    semicolons. *)
Lemma wire_ref_bytes first hs : Forall pair_bytes_ok hs -> bytes_ok (wire_ref first hs).
Proof.
  intros Hh; revert first; induction Hh as [|h hs [H1 H2] Hh IH]; intros first; [constructor|].
  simpl; unfold wire_pair; rewrite !Forall_app, Forall_cons; unfold is_byte.
  split_and!; try lia; auto using encode_ref_bytes.
  destruct first; repeat constructor; lia.
Qed.

Lemma entry_denotes_bytes es hs : Forall2 entry_denotes es hs -> Forall pair_bytes_ok hs.
Proof. induction 1 as [|e h es hs [H1 H2] _ IH]; constructor; [split; eauto with cf|done]. Qed.

(** The two validity tests, as statements about the bytes. *)
Lemma pair_ok_strict h :
  pair_ok h = true -> pair_bytes_ok h ->
  fst h <> [] /\ Forall (fun b => name_byte b = true) (fst h) /\
  Forall (fun b => b = 9 \/ 32 <= b < 127 \/ 128 <= b) (snd h).
Proof.
  destruct h as [n v]; unfold pair_ok, name_ok, value_ok; cbn [fst snd]; intros H [_ Hv].
  bool_to_prop; split_and!.
  - intros ->; done.
  - apply Forall_forall; intros x Hx%list_elem_of_In; by eapply forallb_forall in Hx.
  - apply Forall_forall; intros x Hx; rewrite Forall_forall in Hv; specialize (Hv x Hx).
    apply list_elem_of_In in Hx; eapply forallb_forall in Hx; [|done].
    unfold value_byte, is_byte in *; lia.
Qed.

(** ** Properties *)

(** Serialized headers round-trip: when the encoder succeeds on a list of
    headers, the decoder run on the text it wrote succeeds, reports the same
    number of headers, and its entries resolve in the final arena to exactly the
    original names and values, in order, duplicates and empty values included;
    later pairs do not overwrite the bytes of earlier ones. *)
Theorem headers_roundtrip ents hs wire w n wire' es arena c :
  Forall2 entry_denotes ents hs ->
  cf_headers_encode (Some ents) (zlen hs) (Some wire) (zlen wire) (Some w)
    = Some (CF_OK, Some n, Some wire') ->
  zlen hs <= zlen es -> zlen (flatten hs) <= zlen arena ->
  exists es' arena',
    cf_headers_decode (Bytes (Some wire') n) (Some es) (zlen es) (Some arena) (zlen arena) (Some c)
      = Some (CF_OK, Some (zlen hs), Some es', Some arena') /\
    Forall2 (entry_holds arena') (take (length hs) es') hs.
Proof.
  intros HF Henc Hes Har; pose proof (entry_denotes_bytes _ _ HF) as Hb.
  destruct (headers_encode_spec ents hs wire (zlen wire) w HF) as (r & Hr & Hx); [zlia|].
  rewrite Henc in Hr; injection Hr as <-.
  destruct (encodable hs (zlen wire)) eqn:E; [|destruct Hx as [Hx|Hx]; discriminate].
  destruct Hx as (m' & Hm & [= -> ->]).
  unfold encodable in E; bool_to_prop.
  assert (denotes (Bytes (Some m') (zlen (wire_ref true hs))) (wire_ref true hs)) as Hd
    by (apply denotes_blit with wire; auto using wire_ref_bytes).
  assert (headers_ref (wire_ref true hs) (zlen es) (zlen arena) = (CF_OK, hs)) as Hrt.
  { unfold headers_ref; replace (CF_HEADER_WIRE_MAX <? _) with false by lia.
    destruct hs as [|h hs]; [done|].
    rewrite split_wire, decode_segs_wire by (done || lia); done. }
  destruct (headers_decode_spec _ _ es (zlen es) arena (zlen arena) c Hd)
    as (es' & arena' & Hdec & _ & _ & Hok); [pose proof (zlen_nonneg es); lia|zlia|].
  rewrite Hrt in Hdec, Hok; exists es', arena'; auto.
Qed.

Definition sample_headers : list (list Z * list Z) := [(lit "a", lit "x"); (lit "a", [])].
Definition sample_entries : list cf_header :=
  map (fun h => Header (view (fst h)) (view (snd h))) sample_headers.

Lemma headers_roundtrip_witness :
  exists es' arena',
    cf_headers_decode (Bytes (Some (lit "YQ:eA;YQ:??")) 9)
      (Some (replicate 3 (Entry (0, 0) (0, 0)))) 3 (Some (replicate 4 7)) 4 (Some 9)
      = Some (CF_OK, Some 2, Some es', Some arena') /\
    Forall2 (entry_holds arena') (take 2 es') sample_headers.
Proof.
  apply (headers_roundtrip sample_entries sample_headers (replicate 9 63 ++ [63; 63]) 1 9
    (lit "YQ:eA;YQ:??")).
  - repeat constructor; try (exists []; reflexivity); vm_compute; try discriminate.
  - vm_compute; reflexivity.
  - vm_compute; discriminate.
  - vm_compute; discriminate.
Defined.

(** C40. The header decoder is total, memory safe and strict: for every input it
    returns without an access outside the wire view, the entry array or the
    arena; on failure the reported count is 0; on success at most
    [min(slots, 32)] headers and [min(capacity, 4096)] arena bytes are used,
    every entry lies inside the arena, every name is a nonempty HTTP token and no
    value contains a control character other than the tab (so no CR, LF or NUL). *)
Theorem headers_decode_sound wire s es slots arena cap c :
  denotes wire s -> 0 <= slots <= zlen es -> 0 <= cap <= zlen arena ->
  exists rc n es' arena',
    cf_headers_decode wire (Some es) slots (Some arena) cap (Some c)
      = Some (rc, Some n, Some es', Some arena') /\
    (rc <> CF_OK -> n = 0) /\
    (rc = CF_OK ->
       n <= Z.min slots CF_HEADER_COUNT_MAX /\
       exists hs, zlen hs = n /\ Forall2 (entry_holds arena') (take (Z.to_nat n) es') hs /\
         zlen (flatten hs) <= Z.min cap CF_HEADER_DECODED_MAX /\
         Forall (fun h => fst h <> [] /\ Forall (fun b => name_byte b = true) (fst h) /\
                          Forall (fun b => b = 9 \/ 32 <= b < 127 \/ 128 <= b) (snd h)) hs).
Proof.
  intros Hw Hs Hc; destruct (headers_decode_spec wire s es slots arena cap c Hw Hs Hc)
    as (es' & arena' & Hdec & _ & _ & Hok).
  unfold headers_ref in *; destruct (CF_HEADER_WIRE_MAX <? zlen s).
  { eexists _, _, es', arena'; split; [exact Hdec|]; done. }
  set (ref := decode_segs _ _ _ _ _) in *.
  assert (Hlim : 0 <= Z.min slots CF_HEADER_COUNT_MAX /\ 0 <= Z.min cap CF_HEADER_DECODED_MAX)
    by (unfold CF_HEADER_COUNT_MAX, CF_HEADER_DECODED_MAX; lia).
  pose proof (decode_segs_error (Z.min slots CF_HEADER_COUNT_MAX)
    (Z.min cap CF_HEADER_DECODED_MAX) (split_on 59 s) 0 0) as Herr; fold ref in Herr.
  destruct ref as [rc hs] eqn:Er; cbn [fst snd] in *.
  eexists _, _, es', arena'; split; [exact Hdec|]; split; [intros Hrc; by rewrite Herr|].
  intros ->; destruct (decode_segs_ok _ _ _ _ _ _ Er) as (Hp & Hb & Hn & Hf); [lia|lia|].
  split; [lia|]; exists hs; split_and!; [done| |lia|].
  - replace (Z.to_nat (zlen hs)) with (length hs) by (unfold zlen; lia); auto.
  - apply Forall_forall; intros h Hh.
    rewrite forallb_forall in Hp; specialize (Hp h (proj1 (list_elem_of_In _ _) Hh)).
    rewrite Forall_forall in Hb; apply pair_ok_strict; auto.
Qed.

Lemma headers_decode_sound_witness :
  exists rc n es' arena',
    cf_headers_decode (view (lit "YQ:eA;YQ:Cg")) (Some (replicate 3 (Entry (0, 0) (0, 0)))) 3
      (Some (replicate 4 7)) 4 (Some 9) = Some (rc, Some n, Some es', Some arena') /\
    (rc <> CF_OK -> n = 0) /\
    (rc = CF_OK ->
       n <= Z.min 3 CF_HEADER_COUNT_MAX /\
       exists hs, zlen hs = n /\ Forall2 (entry_holds arena') (take (Z.to_nat n) es') hs /\
         zlen (flatten hs) <= Z.min 4 CF_HEADER_DECODED_MAX /\
         Forall (fun h => fst h <> [] /\ Forall (fun b => name_byte b = true) (fst h) /\
                          Forall (fun b => b = 9 \/ 32 <= b < 127 \/ 128 <= b) (snd h)) hs).
Proof.
  apply (headers_decode_sound (view (lit "YQ:eA;YQ:Cg")) (lit "YQ:eA;YQ:Cg")
    (replicate 3 (Entry (0, 0) (0, 0))) 3 (replicate 4 7) 4 9).
  - apply denotes_view; repeat constructor; discriminate.
  - vm_compute; split; discriminate.
  - vm_compute; split; discriminate.
Defined.

(** The header encoder succeeds exactly when there are at most 32 headers,
    every pair is valid, the decoded size is at most 4096 and the wire text fits
    both the buffer and 6144 characters; it then writes exactly that text and its
    length.  Otherwise it reports a limit or format error with length 0 and has
    written nothing. *)
Theorem headers_encode_exact ents hs wire cap w :
  Forall2 entry_denotes ents hs -> 0 <= cap <= zlen wire ->
  exists r, cf_headers_encode (Some ents) (zlen hs) (Some wire) cap (Some w) = Some r /\
    if encodable hs cap
    then exists wire', blit wire 0 (wire_ref true hs) = Some wire' /\
           r = (CF_OK, Some (zlen (wire_ref true hs)), Some wire')
    else r = (CF_ERR_LIMIT, Some 0, Some wire) \/ r = (CF_ERR_FORMAT, Some 0, Some wire).
Proof. apply headers_encode_spec. Qed.

Lemma headers_encode_exact_witness :
  exists r, cf_headers_encode (Some sample_entries) (zlen sample_headers)
      (Some (replicate 9 63)) 9 (Some 1) = Some r /\
    if encodable sample_headers 9
    then exists wire', blit (replicate 9 63) 0 (wire_ref true sample_headers) = Some wire' /\
           r = (CF_OK, Some (zlen (wire_ref true sample_headers)), Some wire')
    else r = (CF_ERR_LIMIT, Some 0, Some (replicate 9 63)) \/
         r = (CF_ERR_FORMAT, Some 0, Some (replicate 9 63)).
Proof.
  apply (headers_encode_exact sample_entries sample_headers (replicate 9 63) 9 1).
  - repeat constructor; try (exists []; reflexivity); vm_compute; try discriminate.
  - vm_compute; split; discriminate.
Defined.
