(* ===== verification/H2Alloc.v ===== *)
(** The bounded erasing allocator of the HTTP/2 library (the memory hooks of
    src/transport/cf_h2.c). *)
From stdpp Require Import gmap.
From S2P Require Export Blocks.
#[local] Open Scope Z_scope.

(** A block of [malloc]: the header's [bytes] field, and all its bytes, the
    header's own included. *)
Record allocation := Allocation { bytes : Z; contents : list Z }.

(** The three heap fields of [cf_h2_stats], the live blocks by address, and what
    was handed back to the system. *)
Record ngheap := NgHeap {
  ngheap_current : Z;
  ngheap_peak : Z;
  ngheap_limit : Z;
  live : gmap Z allocation;
  freed : list (list Z)
}.

Section Hooks.
Context (header : Z).   (* [sizeof(allocation)] *)

(** [got] is what [malloc(total)] returns. *)
Definition allocate (size : Z) (got : option (Z * list Z)) (h : ngheap) : option Z * ngheap :=
  if usize (ngheap_limit h - header) <? size then (None, h) else
  let total := usize (size + header) in
  if usize (ngheap_limit h - ngheap_current h) <? total then (None, h) else
  match got with
  | None => (None, h)
  | Some (a, m) =>
      let current := usize (ngheap_current h + total) in
      (Some (a + header),
       NgHeap current (if ngheap_peak h <? current then current else ngheap_peak h) (ngheap_limit h)
         (<[a := Allocation total m]> (live h)) (freed h))
  end.

Definition deallocate (p : option Z) (h : ngheap) : option ngheap :=
  match p with
  | None => Some h
  | Some p =>
      let a := p - header in
      block ← live h !! a;
      m ← cf_secure_zero (contents block) (bytes block);
      Some (NgHeap (usize (ngheap_current h - bytes block)) (ngheap_peak h) (ngheap_limit h) (delete a (live h)) (m :: freed h))
  end.

(** [memcpy] from block [p] to block [q], both behind the header. *)
Definition copy_block (p q n : Z) (h : ngheap) : option ngheap :=
  src ← live h !! (p - header); dst ← live h !! (q - header);
  data ← slice (contents src) header n;
  m ← blit (contents dst) header data;
  Some (NgHeap (ngheap_current h) (ngheap_peak h) (ngheap_limit h) (<[q - header := Allocation (bytes dst) m]> (live h)) (freed h)).

Definition resize (p : option Z) (size : Z) (got : option (Z * list Z)) (h : ngheap) : option (option Z * ngheap) :=
  match p with
  | None => Some (allocate size got h)
  | Some q =>
      if size =? 0 then h ← deallocate p h; Some (None, h) else
      block ← live h !! (q - header);
      let old := usize (bytes block - header) in
      let '(next, h) := allocate size got h in
      match next with
      | None => Some (None, h)
      | Some r =>
          h ← copy_block q r (if old <? size then old else size) h;
          h ← deallocate p h;
          Some (next, h)
      end
  end.

Definition zero_allocate (n size : Z) (got : option (Z * list Z)) (h : ngheap) : option (option Z * ngheap) :=
  if negb (n =? 0) && (SIZE_MAX / n <? size) then Some (None, h) else
  let '(p, h) := allocate (usize (n * size)) got h in
  match p with
  | None => Some (None, h)
  | Some q =>
      block ← live h !! (q - header);
      m ← zero_fill (contents block) header (usize (n * size));
      Some (p, NgHeap (ngheap_current h) (ngheap_peak h) (ngheap_limit h) (<[q - header := Allocation (bytes block) m]> (live h)) (freed h))
  end.

(** ** Use of the hooks *)

(** The accounts are right, and everything handed back is erased. *)
Record ngheap_ok (h : ngheap) : Prop := {
  ng_live : ngheap_current h = total bytes (live h);
  ng_bounds : 0 <= ngheap_current h <= ngheap_peak h /\ ngheap_peak h <= ngheap_limit h;
  ng_limit : 8192 <= ngheap_limit h <= 65536;
  ng_blocks : map_Forall (λ _ a, header <= bytes a /\ zlen (contents a) = bytes a) (live h);
  ng_erased : Forall (Forall (λ c, c = 0)) (freed h)
}.

(** What [malloc(size + header)] gives: a fresh block of that size, or nothing. *)
Definition malloc_result (size : Z) (got : option (Z * list Z)) (h : ngheap) : Prop :=
  0 <= size <= SIZE_MAX /\
  forall a m, got = Some (a, m) -> live h !! a = None /\ zlen m = size + header.

(** The library's use of the hooks: sizes as they come, pointers that are live. *)
Inductive ngheap_step : ngheap -> ngheap -> Prop :=
| NgAllocate size got h : malloc_result size got h -> ngheap_step h (snd (allocate size got h))
| NgZeroAllocate n size got h p h' : 0 <= n <= SIZE_MAX -> 0 <= size <= SIZE_MAX -> malloc_result (usize (n * size)) got h ->
    zero_allocate n size got h = Some (p, h') -> ngheap_step h h'
| NgWrite a b m h : live h !! a = Some b -> zlen m = zlen (contents b) ->
    ngheap_step h (NgHeap (ngheap_current h) (ngheap_peak h) (ngheap_limit h) (<[a := Allocation (bytes b) m]> (live h)) (freed h))
| NgDeallocate a b h h' : live h !! a = Some b -> deallocate (Some (a + header)) h = Some h' -> ngheap_step h h'
| NgResize a b size got h p h' : live h !! a = Some b -> malloc_result size got h ->
    resize (Some (a + header)) size got h = Some (p, h') -> ngheap_step h h'.

Definition fresh_heap (limit : Z) : ngheap := NgHeap 0 0 limit ∅ [].

(** ** Lemmas *)

Context (Hheader : 0 < header <= 64).

Lemma blocks_nonneg h : ngheap_ok h -> map_Forall (λ _ a, 0 <= bytes a) (live h).
Proof. intros [_ _ _ Hb _]; eapply map_Forall_impl; [exact Hb|]; cbn; intros p a [? _]; lia. Qed.

Lemma allocate_spec size got h : ngheap_ok h -> malloc_result size got h ->
  ngheap_ok (snd (allocate size got h)) /\
  match fst (allocate size got h) with
  | None => snd (allocate size got h) = h
  | Some p => exists a m, got = Some (a, m) /\ p = a + header /\ ngheap_current h + size + header <= ngheap_limit h /\
      live (snd (allocate size got h)) = <[a := Allocation (size + header) m]> (live h) /\
      ngheap_current (snd (allocate size got h)) = ngheap_current h + size + header
  end.
Proof.
  intros Hok [Hsize Hgot]; pose proof Hok as [Hl Hbo Hli Hb He]; unfold allocate, SIZE_MAX in *.
  rewrite !(wrap_small 32 (ngheap_limit h - _)) by (simpl; lia); destruct (Z.ltb_spec (ngheap_limit h - header) size); [done|].
  rewrite (wrap_small 32 (size + header)) by (simpl; lia).
  destruct (Z.ltb_spec (ngheap_limit h - ngheap_current h) (size + header)); [done|].
  destruct got as [[a m]|]; [|done]; destruct (Hgot a m eq_refl) as [Hfresh Hm]; cbn [fst snd ngheap_current live].
  rewrite (wrap_small 32) by (simpl; lia); split.
  - split; cbn [ngheap_current ngheap_peak ngheap_limit live freed]; [|destruct (Z.ltb_spec (ngheap_peak h) (ngheap_current h + (size + header))); lia|lia| |done].
    + rewrite total_insert by done; cbn [bytes]; lia.
    + apply map_Forall_insert_2; [cbn; lia|done].
  - exists a, m; split; [done|]; split; [done|]; split; [lia|]; split; [done|lia].
Qed.

Lemma deallocate_spec h a b : ngheap_ok h -> live h !! a = Some b ->
  exists h', deallocate (Some (a + header)) h = Some h' /\ ngheap_ok h' /\
    ngheap_current h' = ngheap_current h - bytes b /\ live h' = delete a (live h) /\ ngheap_limit h' = ngheap_limit h.
Proof.
  intros Hok Ha; pose proof Hok as [Hl Hbo Hli Hb He]; unfold deallocate; replace (a + header - header) with a by lia.
  rewrite Ha; cbn [mbind option_bind]; destruct (Hb a b Ha) as [Hs Hz]; rewrite <- Hz, secure_zero_all, Hz; cbn [mbind option_bind].
  pose proof (total_ge bytes a b (live h) (blocks_nonneg h Hok) Ha); pose proof (total_delete bytes a b (live h) Ha).
  rewrite (wrap_small 32) by (simpl; lia); eexists; split; [done|]; split; [|done]; split; cbn [ngheap_current ngheap_peak ngheap_limit live freed]; try lia.
  - by apply map_Forall_delete.
  - constructor; [by apply Forall_replicate|done].
Qed.

Lemma write_ok h a b m : ngheap_ok h -> live h !! a = Some b -> zlen m = zlen (contents b) ->
  ngheap_ok (NgHeap (ngheap_current h) (ngheap_peak h) (ngheap_limit h) (<[a := Allocation (bytes b) m]> (live h)) (freed h)).
Proof.
  intros [Hl Hbo Hli Hb He] Ha Hm; destruct (Hb a b Ha) as [Hs Hz]; split; cbn [ngheap_current ngheap_peak ngheap_limit live freed]; try done.
  - rewrite Hl; symmetry; by apply (total_update bytes a b).
  - apply map_Forall_insert_2; [cbn; lia|done].
Qed.

(** The bytes behind the header. *)
Definition payload (b : allocation) : list Z := drop (Z.to_nat header) (contents b).

(** [resize] of a live block: it returns; the block stays when there is no room,
    and the new one starts with what the old one held. *)
Lemma resize_spec h a b size got : ngheap_ok h -> live h !! a = Some b -> malloc_result size got h -> size <> 0 ->
  exists p h', resize (Some (a + header)) size got h = Some (p, h') /\ ngheap_ok h' /\
    match p with
    | None => h' = h
    | Some p => exists q c, p = q + header /\ live h' = <[q := c]> (delete a (live h)) /\ bytes c = size + header /\
        ngheap_current h + bytes c <= ngheap_limit h /\
        take (Z.to_nat (Z.min size (bytes b - header))) (payload c) = take (Z.to_nat (Z.min size (bytes b - header))) (payload b)
    end.
Proof.
  intros Hok Ha Hgot Hsize; pose proof Hok as [Hl Hbo Hli Hb He]; destruct (Hb a b Ha) as [Hs Hz]; unfold resize.
  replace (size =? 0) with false by lia; replace (a + header - header) with a by lia; rewrite Ha; cbn [mbind option_bind].
  pose proof (total_ge bytes a b (live h) (blocks_nonneg h Hok) Ha) as Hge; rewrite (wrap_small 32) by (simpl; lia).
  destruct (allocate_spec size got h Hok Hgot) as [Hok1 Hp]; destruct (allocate size got h) as [[p|] h1]; cbn [fst snd] in *.
  2: { do 2 eexists; split; [done|]; split; [done|exact Hp]. }
  destruct Hp as (q & m & -> & -> & Hroom & Hlive & Hcur); destruct Hgot as [Hsz Hfresh]; destruct (Hfresh q m eq_refl) as [Hq Hm].
  assert (a <> q) as Hne by (intros ->; congruence).
  set (n := if bytes b - header <? size then bytes b - header else size).
  assert (n = Z.min size (bytes b - header) /\ 0 <= n) as [Hn Hn0] by (unfold n; destruct (Z.ltb_spec (bytes b - header) size); lia).
  unfold copy_block at 1; replace (a + header - header) with a by lia; replace (q + header - header) with q by lia.
  assert (live h1 !! a = Some b) as Ha1 by (rewrite Hlive; by rewrite lookup_insert_ne by done).
  assert (live h1 !! q = Some (Allocation (size + header) m)) as Hq1 by (by rewrite Hlive, lookup_insert_eq).
  rewrite Ha1, Hq1; cbn [mbind option_bind contents bytes].
  rewrite slice_sub by lia; cbn [mbind option_bind].
  destruct (cut_at m header n) as (m1 & m2 & m3 & Em & Hm1 & Hm2); [lia|lia|lia|].
  assert (zlen (sub (contents b) header n) = n) as Hsub by (apply zlen_sub; lia).
  set (data := sub (contents b) header n) in *.
  assert (blit m header data = Some (m1 ++ data ++ m3)) as -> by (rewrite Em, <- Hm1; apply blit_app; unfold zlen in *; lia); cbn [mbind option_bind].
  set (h2 := NgHeap _ _ _ _ _).
  assert (ngheap_ok h2) as Hok2.
  { apply (write_ok h1 q (Allocation (size + header) m)); [done|by rewrite Hlive, lookup_insert_eq|].
    cbn [contents]; rewrite Em, !zlen_app; lia. }
  destruct (deallocate_spec h2 a b Hok2) as (h3 & -> & Hok3 & Hcur3 & Hlive3 & _).
  { unfold h2; cbn [live]; by rewrite !lookup_insert_ne. }
  cbn [mbind option_bind]; do 2 eexists; split; [done|]; split; [done|]; exists q; eexists; split; [done|]; split.
  { rewrite Hlive3; unfold h2; cbn [live]; rewrite Hlive, insert_insert_eq, delete_insert_ne by done; done. }
  cbn [bytes]; split; [done|]; split; [lia|]; rewrite <- Hn; unfold payload; cbn [contents].
  replace (Z.to_nat header) with (length m1) by (unfold zlen in *; lia); rewrite drop_app_length.
  replace (Z.to_nat n) with (length data) at 1 by (unfold zlen in *; lia); rewrite take_app_length.
  unfold data, sub; do 2 f_equal; unfold zlen in *; lia.
Qed.
Lemma zero_allocate_spec n size got h : ngheap_ok h -> 0 <= n <= SIZE_MAX -> 0 <= size <= SIZE_MAX ->
  malloc_result (usize (n * size)) got h ->
  exists p h', zero_allocate n size got h = Some (p, h') /\ ngheap_ok h' /\
    match p with
    | None => h' = h
    | Some p => exists q c, p = q + header /\ n * size + header <= ngheap_limit h /\ live h' = <[q := c]> (live h) /\
        bytes c = n * size + header /\ payload c = replicate (Z.to_nat (n * size)) 0
    end.
Proof.
  intros Hok Hn Hsize Hgot; unfold zero_allocate, SIZE_MAX in *.
  destruct (negb (n =? 0) && (4294967295 / n <? size)) eqn:E; [by exists None, h|].
  assert (0 <= n * size <= 4294967295) as Hmul.
  { destruct (Z.eqb_spec n 0) as [->|Hne]; [lia|]; cbn [negb andb] in E; apply Z.ltb_ge in E.
    pose proof (Z.mul_div_le 4294967295 n); nia. }
  rewrite (wrap_small 32) in * by (simpl; lia).
  destruct (allocate_spec (n * size) got h Hok Hgot) as [Hok1 Hp]; destruct (allocate (n * size) got h) as [[p|] h1]; cbn [fst snd] in *.
  2: { by exists None, h1. }
  destruct Hp as (q & m & -> & -> & Hroom & Hlive & Hcur); destruct Hgot as [_ Hfresh]; destruct (Hfresh q m eq_refl) as [Hq Hm].
  replace (q + header - header) with q by lia; assert (live h1 !! q = Some (Allocation (n * size + header) m)) as Hq1 by (by rewrite Hlive, lookup_insert_eq).
  rewrite Hq1; cbn [mbind option_bind contents bytes]; unfold zero_fill; replace (n * size <? 0) with false by lia.
  destruct (cut_at m header (n * size)) as (m1 & m2 & m3 & Em & Hm1 & Hm2); [lia|lia|lia|].
  assert (m3 = []) as -> by (destruct m3; [done|]; rewrite Em, !zlen_app, zlen_cons in Hm; pose proof (zlen_nonneg m3); lia).
  rewrite Em, <- Hm1, blit_app by (rewrite length_replicate; unfold zlen in *; lia); cbn [mbind option_bind].
  do 2 eexists; split; [done|]; split.
  - replace (zlen m1) with header in * by lia; apply (write_ok h1 q (Allocation (n * size + header) m)); [done|done|].
    cbn [contents]; rewrite Em, !zlen_app, zlen_replicate; lia.
  - pose proof (ng_bounds h Hok); exists q; eexists; split; [lia|]; split; [lia|]; split; [cbn [live]; by rewrite Hlive, insert_insert_eq|]; cbn [bytes]; split; [lia|].
    unfold payload; cbn [contents]; replace (Z.to_nat header) with (length m1) by (unfold zlen in *; lia).
    by rewrite drop_app_length, app_nil_r.
Qed.

Lemma ngheap_step_ok h h' : ngheap_step h h' -> ngheap_ok h -> ngheap_ok h'.
Proof.
  intros Hstep Hok; destruct Hstep as [size got h Hgot|n size got h p h' Hn Hs Hgot E|a b m h Ha Hm|a b h h' Ha E|a b size got h p h' Ha Hgot E].
  - by apply allocate_spec.
  - destruct (zero_allocate_spec n size got h Hok Hn Hs Hgot) as (p' & h2 & E2 & Hok2 & _); rewrite E in E2; by injection E2 as _ ->.
  - by apply (write_ok h a b).
  - destruct (deallocate_spec h a b Hok Ha) as (h2 & E2 & Hok2 & _); rewrite E in E2; by injection E2 as ->.
  - destruct (Z.eqb_spec size 0) as [->|Hne].
    + unfold resize in E; cbn [Z.eqb] in E; destruct (deallocate_spec h a b Hok Ha) as (h2 & E2 & Hok2 & _); rewrite E2 in E.
      cbn [mbind option_bind] in E; by injection E as _ <-.
    + destruct (resize_spec h a b size got Hok Ha Hgot Hne) as (p' & h2 & E2 & Hok2 & _); rewrite E in E2; by injection E2 as _ ->.
Qed.

Lemma ngheap_steps_ok h h' : rtc ngheap_step h h' -> ngheap_ok h -> ngheap_ok h'.
Proof. induction 1; [done|]; intros; by eauto using ngheap_step_ok. Qed.

Lemma fresh_heap_ok limit : 8192 <= limit <= 65536 -> ngheap_ok (fresh_heap limit).
Proof. intros; split; cbn; [done|lia|lia|apply map_Forall_empty|constructor]. Qed.

End Hooks.

(** ** Properties *)

(** C36. The library's memory: after any sequence of the four hooks and writes
    from a fresh session, with a [malloc] that may fail at any time, the account
    equals the bytes of the live blocks, headers included, it never exceeded the
    limit, its peak is kept, and every block given back was erased.  There,
    freeing a live block is defined, and [resize] either gives a new block that
    starts with the old contents, having counted both at once, or leaves the
    old one untouched. *)
Theorem library_heap_bounded header limit h :
  0 < header <= 64 -> 8192 <= limit <= 65536 -> rtc (ngheap_step header) (fresh_heap limit) h ->
  ngheap_ok header h /\
  (forall a b, live h !! a = Some b -> exists h', deallocate header (Some (a + header)) h = Some h' /\ live h' = delete a (live h)) /\
  forall a b size got, live h !! a = Some b -> malloc_result header size got h -> size <> 0 ->
    exists p h', resize header (Some (a + header)) size got h = Some (p, h') /\ ngheap_ok header h' /\
      match p with
      | None => h' = h
      | Some p => exists q c, p = q + header /\ live h' = <[q := c]> (delete a (live h)) /\ bytes c = size + header /\
          ngheap_current h + bytes c <= ngheap_limit h /\
          take (Z.to_nat (Z.min size (bytes b - header))) (payload header c) = take (Z.to_nat (Z.min size (bytes b - header))) (payload header b)
      end.
Proof.
  intros Hh Hlim Hrun; assert (ngheap_ok header h) as Hok by (eapply ngheap_steps_ok; [done|exact Hrun|by apply fresh_heap_ok]).
  split; [done|]; split.
  - intros a b Ha; destruct (deallocate_spec header Hh h a b Hok Ha) as (h' & E & _ & _ & Hl & _); by exists h'.
  - intros a b size got Ha Hgot Hne; by apply resize_spec.
Qed.

Lemma library_heap_bounded_witness :
  let h := snd (allocate 8 2 (Some (100, replicate 10 7)) (fresh_heap 8192)) in
  rtc (ngheap_step 8) (fresh_heap 8192) h /\ ngheap_current h = 10 /\
  exists h', deallocate 8 (Some (100 + 8)) h = Some h' /\ live h' = delete 100 (live h).
Proof.
  intros h.
  assert (rtc (ngheap_step 8) (fresh_heap 8192) h) as Hrun.
  { apply rtc_once, NgAllocate; split; [unfold SIZE_MAX; lia|]; intros a m [= <- <-]; done. }
  split; [done|]; split; [done|]; destruct (library_heap_bounded 8 8192 h ltac:(lia) ltac:(lia) Hrun) as (_ & Hfree & _).
  apply (Hfree 100 (Allocation 10 (replicate 10 7))); reflexivity.
Defined.
