(* ===== verification/H2.v ===== *)
(** The HTTP/2 session (src/transport/cf_h2.c) around the vendored nghttp2: the
    state, the callbacks the library makes, and the operations. *)
From S2P Require Export Headers CString H2Alloc.
#[local] Open Scope Z_scope.

Definition CF_H2_APPLICATION_MAX : Z := 4.
Definition CF_H2_HEADER_MAX : Z := 48.
Definition CF_H2_HEADER_BYTES : Z := 8192.
Definition CF_H2_CHUNK : Z := 2048.
Definition CF_H2_NGHEAP_MAX : Z := 65536.

(** [CF_H2_APPLICATION_MAX + 2]. *)
Definition STREAMS : nat := 6.

(** Constants of nghttp2.h. *)
Definition NGHTTP2_NO_ERROR : Z := 0.
Definition NGHTTP2_PROTOCOL_ERROR : Z := 1.
Definition NGHTTP2_REFUSED_STREAM : Z := 7.
Definition NGHTTP2_CANCEL : Z := 8.
Definition NGHTTP2_ENHANCE_YOUR_CALM : Z := 11.
Definition NGHTTP2_ERR_DEFERRED : Z := -508.
Definition NGHTTP2_ERR_TEMPORAL_CALLBACK_FAILURE : Z := -521.
Definition NGHTTP2_ERR_NOMEM : Z := -901.
Definition NGHTTP2_ERR_CALLBACK_FAILURE : Z := -902.
Definition NGHTTP2_DATA : Z := 0.
Definition NGHTTP2_HEADERS : Z := 1.
Definition NGHTTP2_SETTINGS : Z := 4.
Definition NGHTTP2_GOAWAY : Z := 7.
Definition NGHTTP2_FLAG_END_STREAM : Z := 1.
Definition NGHTTP2_FLAG_ACK : Z := 1.
Definition NGHTTP2_HCAT_REQUEST : Z := 0.
Definition NGHTTP2_DATA_FLAG_EOF : Z := 1.

Inductive cf_h2_kind := CF_H2_HTTP | CF_H2_CONTROL | CF_H2_CONFIG.

#[global] Instance cf_h2_kind_eq_dec : EqDecision cf_h2_kind.
Proof. solve_decision. Defined.

(** ** State *)

Record stream := Stream {
  s_id : Z;
  s_kind : cf_h2_kind;
  s_headers_done : bool;
  s_response : bool;
  s_reset : bool;
  s_deferred : bool;
  s_progress_ms : Z
}.

(** A zeroed slot; the slots with [id] zero are free. *)
Definition free_stream : stream := Stream 0 CF_H2_HTTP false false false false 0.

Definition set_kind (k : cf_h2_kind) (s : stream) : stream :=
  Stream (s_id s) k (s_headers_done s) (s_response s) (s_reset s) (s_deferred s) (s_progress_ms s).
Definition set_headers_done (s : stream) : stream :=
  Stream (s_id s) (s_kind s) true (s_response s) (s_reset s) (s_deferred s) (s_progress_ms s).
Definition set_response (s : stream) : stream :=
  Stream (s_id s) (s_kind s) (s_headers_done s) true (s_reset s) (s_deferred s) (s_progress_ms s).
Definition set_reset (s : stream) : stream :=
  Stream (s_id s) (s_kind s) (s_headers_done s) (s_response s) true (s_deferred s) (s_progress_ms s).
Definition set_deferred (b : bool) (s : stream) : stream :=
  Stream (s_id s) (s_kind s) (s_headers_done s) (s_response s) (s_reset s) b (s_progress_ms s).
Definition set_progress (now : Z) (s : stream) : stream :=
  Stream (s_id s) (s_kind s) (s_headers_done s) (s_response s) (s_reset s) (s_deferred s) now.

(** Without the three heap fields: only the hooks of H2Alloc.v write them, and
    they are the [ngheap] of the session. *)
Record cf_h2_stats := Stats {
  engine_bytes : Z;
  active_streams : Z;
  rejected_streams : Z;
  last_error : Z;
  goaway_error : Z;
  peer_goaway_error : Z;
  peer_goaway_last_stream : Z;
  local_goaway_reason : list Z;
  local_goaway : bool;
  peer_settings : bool;
  goaway : bool
}.

Definition set_counts (active rejected : Z) (t : cf_h2_stats) : cf_h2_stats :=
  Stats (engine_bytes t) active rejected (last_error t) (goaway_error t)
    (peer_goaway_error t) (peer_goaway_last_stream t) (local_goaway_reason t) (local_goaway t) (peer_settings t) (goaway t).
Definition set_last_error (code : Z) (t : cf_h2_stats) : cf_h2_stats :=
  Stats (engine_bytes t) (active_streams t) (rejected_streams t) code (goaway_error t)
    (peer_goaway_error t) (peer_goaway_last_stream t) (local_goaway_reason t) (local_goaway t) (peer_settings t) (goaway t).
Definition set_peer_goaway (error last : Z) (t : cf_h2_stats) : cf_h2_stats :=
  Stats (engine_bytes t) (active_streams t) (rejected_streams t) (last_error t) (goaway_error t)
    error last (local_goaway_reason t) (local_goaway t) (peer_settings t) (goaway t).
Definition set_goaway (error : Z) (local : bool) (reason : list Z) (t : cf_h2_stats) : cf_h2_stats :=
  Stats (engine_bytes t) (active_streams t) (rejected_streams t) (last_error t) error
    (peer_goaway_error t) (peer_goaway_last_stream t) reason local (peer_settings t) true.
Definition set_peer_settings (t : cf_h2_stats) : cf_h2_stats :=
  Stats (engine_bytes t) (active_streams t) (rejected_streams t) (last_error t) (goaway_error t)
    (peer_goaway_error t) (peer_goaway_last_stream t) (local_goaway_reason t) (local_goaway t) true (goaway t).

(** An entry of [headers]: offset and length of the name and of the value in
    [header_bytes]. *)
Record header_ref := HeaderRef { n_off : Z; n_len : Z; v_off : Z; v_len : Z }.

(** A frame, as far as the callbacks look at it. *)
Record frame := Frame {
  hd_type : Z;
  hd_flags : Z;
  hd_stream_id : Z;
  headers_cat : Z;
  goaway_error_code : Z;
  goaway_last_stream_id : Z;
  goaway_opaque_data : list Z
}.

Definition has_flag (f : frame) (flag : Z) : bool := negb (Z.land (hd_flags f) flag =? 0).

(** [nghttp2_nv], without the flags. *)
Record nghttp2_nv := Nv { nv_name : cf_bytes; nv_value : cf_bytes }.

(** The calls into the library: they return its code and the new session, whose
    memory came from the hooks. *)
Class Nghttp2 := {
  session : Type;
  heap_of : session -> ngheap;
  nghttp2_submit_rst_stream : session -> Z -> Z -> Z * session;
  nghttp2_session_consume_connection : session -> Z -> Z * session;
  nghttp2_session_consume : session -> Z -> Z -> Z * session;
  nghttp2_submit_response2 : session -> Z -> list nghttp2_nv -> Z * session;
  nghttp2_session_resume_data : session -> Z -> Z * session;
  nghttp2_submit_goaway : session -> Z -> Z -> Z * session;
  nghttp2_session_get_last_proc_stream_id : session -> Z
}.

Section Session.
Context `{Nghttp2}.

(** [headers] holds the first [header_count] entries of the array. *)
Record cf_h2 := H2 {
  h_session : session;
  h_stats : cf_h2_stats;
  h_app_limit : Z;
  h_now_ms : Z;
  h_streams : list stream;
  h_header_bytes : list Z;
  h_headers : list header_ref;
  h_header_used : Z;
  h_header_stream : Z;
  h_serialized : list Z;
  h_pending : cf_bytes;
  h_error : cf_result
}.

Definition with_session (x : session) (h : cf_h2) : cf_h2 :=
  H2 x (h_stats h) (h_app_limit h) (h_now_ms h) (h_streams h) (h_header_bytes h) (h_headers h) (h_header_used h) (h_header_stream h)
    (h_serialized h) (h_pending h) (h_error h).
Definition with_stats (f : cf_h2_stats -> cf_h2_stats) (h : cf_h2) : cf_h2 :=
  H2 (h_session h) (f (h_stats h)) (h_app_limit h) (h_now_ms h) (h_streams h) (h_header_bytes h) (h_headers h) (h_header_used h) (h_header_stream h)
    (h_serialized h) (h_pending h) (h_error h).
Definition with_now (x : Z) (h : cf_h2) : cf_h2 :=
  H2 (h_session h) (h_stats h) (h_app_limit h) x (h_streams h) (h_header_bytes h) (h_headers h) (h_header_used h) (h_header_stream h)
    (h_serialized h) (h_pending h) (h_error h).
Definition with_streams (x : list stream) (h : cf_h2) : cf_h2 :=
  H2 (h_session h) (h_stats h) (h_app_limit h) (h_now_ms h) x (h_header_bytes h) (h_headers h) (h_header_used h) (h_header_stream h)
    (h_serialized h) (h_pending h) (h_error h).
Definition with_arena (bytes : list Z) (headers : list header_ref) (used : Z) (h : cf_h2) : cf_h2 :=
  H2 (h_session h) (h_stats h) (h_app_limit h) (h_now_ms h) (h_streams h) bytes headers used (h_header_stream h)
    (h_serialized h) (h_pending h) (h_error h).
Definition with_header_stream (x : Z) (h : cf_h2) : cf_h2 :=
  H2 (h_session h) (h_stats h) (h_app_limit h) (h_now_ms h) (h_streams h) (h_header_bytes h) (h_headers h) (h_header_used h) x
    (h_serialized h) (h_pending h) (h_error h).
Definition with_serialized (x : list Z) (h : cf_h2) : cf_h2 :=
  H2 (h_session h) (h_stats h) (h_app_limit h) (h_now_ms h) (h_streams h) (h_header_bytes h) (h_headers h) (h_header_used h) (h_header_stream h)
    x (h_pending h) (h_error h).
Definition with_pending (x : cf_bytes) (h : cf_h2) : cf_h2 :=
  H2 (h_session h) (h_stats h) (h_app_limit h) (h_now_ms h) (h_streams h) (h_header_bytes h) (h_headers h) (h_header_used h) (h_header_stream h)
    (h_serialized h) x (h_error h).
Definition with_error (x : cf_result) (h : cf_h2) : cf_h2 :=
  H2 (h_session h) (h_stats h) (h_app_limit h) (h_now_ms h) (h_streams h) (h_header_bytes h) (h_headers h) (h_header_used h) (h_header_stream h)
    (h_serialized h) (h_pending h) x.

(** [h->streams[i]] changed by [f]. *)
Definition update_stream (i : nat) (f : stream -> stream) (h : cf_h2) : cf_h2 :=
  with_streams (alter f i (h_streams h)) h.

(** The first slot with this identifier. *)
Definition find_stream (h : cf_h2) (id : Z) : option nat :=
  fst <$> list_find (λ s, s_id s = id) (h_streams h).

(** [h->streams[i]]. *)
Definition slot (h : cf_h2) (i : nat) : stream := default free_stream (h_streams h !! i).

(** ** Headers of a request *)

(** [b.len == strlen(s) && !memcmp(b.ptr, s, b.len)]. *)
Definition equals (b : cf_bytes) (s : list Z) : option bool :=
  if negb (len b =? zlen s) then Some false else
  m ← ptr b; x ← slice m 0 (len b); Some (bool_decide (x = s)).

Record cf_h2_request := Request {
  r_stream : Z;
  r_kind : cf_h2_kind;
  r_headers : list cf_header;
  r_end_stream : bool
}.

Fixpoint header_loop (headers : list cf_header) (name : list Z) : option cf_bytes :=
  match headers with
  | [] => Some null_bytes
  | e :: headers => same ← equals (h_name e) name; if (same : bool) then Some (h_value e) else header_loop headers name
  end.

Definition cf_h2_header (r : cf_h2_request) (name : list Z) : option cf_bytes := header_loop (r_headers r) name.

(** The views an entry stands for. *)
Definition header_view (h : cf_h2) (r : header_ref) : option cf_header :=
  n ← badd (Bytes (Some (h_header_bytes h)) 0) (n_off r) (n_len r);
  v ← badd (Bytes (Some (h_header_bytes h)) 0) (v_off r) (v_len r);
  Some (Header n v).

(** ** Operations on a session *)

Definition cf_h2_reset (h : option cf_h2) (id error : Z) : cf_result * option cf_h2 :=
  match h with
  | None => (CF_ERR_ARGUMENT, None)
  | Some h =>
      let s := find_stream h id in
      if match s with Some i => s_reset (slot h i) | None => false end then (CF_OK, Some h) else
      let '(rc, x) := nghttp2_submit_rst_stream (h_session h) id error in
      let h := with_session x h in
      if negb (rc =? 0) then (CF_ERR_MEMORY, Some (with_error CF_ERR_MEMORY h)) else
      let h := match s with Some i => update_stream i set_reset h | None => h end in
      (CF_OK, Some (with_stats (λ t, set_counts (active_streams t) (u32 (rejected_streams t + 1)) t) h))
  end.

(** [return cf_h2_reset(...) == CF_OK ? 0 : NGHTTP2_ERR_CALLBACK_FAILURE]. *)
Definition refuse (h : cf_h2) (id error : Z) : Z * cf_h2 :=
  let '(rc, h') := cf_h2_reset (Some h) id error in
  (if is_ok rc then 0 else NGHTTP2_ERR_CALLBACK_FAILURE, default h h').

(** ** The callbacks without a client *)

Definition begin_headers (h : cf_h2) (f : frame) : Z * cf_h2 :=
  let h := with_header_stream 0 h in
  if negb (headers_cat f =? NGHTTP2_HCAT_REQUEST) then refuse h (hd_stream_id f) NGHTTP2_PROTOCOL_ERROR else
  match find_stream h 0 with
  | None => refuse h (hd_stream_id f) NGHTTP2_REFUSED_STREAM
  | Some i =>
      let h := update_stream i (λ _, Stream (hd_stream_id f) CF_H2_HTTP false false false false (h_now_ms h)) h in
      let h := with_stats (λ t, set_counts (u32 (active_streams t + 1)) (rejected_streams t) t) h in
      (0, with_arena (h_header_bytes h) [] 0 (with_header_stream (hd_stream_id f) h))
  end.

Definition control_prefix : list Z := lit "cf-cloudflared-".

(** Fields that may occur once only. *)
Definition is_single (name : list Z) : bool :=
  (negb (zlen name =? 0) && bool_decide (head name = Some 58)) ||
  ((15 <=? zlen name) && bool_decide (take 15 name = control_prefix)).

(** The loop over the names so far. *)
Fixpoint seen (h : cf_h2) (headers : list header_ref) (name : list Z) : option bool :=
  match headers with
  | [] => Some false
  | r :: headers =>
      same ← (if n_len r =? zlen name then x ← slice (h_header_bytes h) (n_off r) (n_len r); Some (bool_decide (x = name)) else Some false);
      if (same : bool) then Some true else seen h headers name
  end.

Definition reject_header (h : cf_h2) (f : frame) : Z * cf_h2 :=
  refuse (with_header_stream 0 h) (hd_stream_id f) NGHTTP2_ENHANCE_YOUR_CALM.

Definition on_header (h : cf_h2) (f : frame) (name value : list Z) : option (Z * cf_h2) :=
  if negb (h_header_stream h =? hd_stream_id f) then Some (0, h) else
  if (zlen (h_headers h) =? CF_H2_HEADER_MAX) || (usize (CF_H2_HEADER_BYTES - h_header_used h) <? zlen name)
     || (usize (usize (CF_H2_HEADER_BYTES - h_header_used h) - zlen name) <? zlen value)
  then Some (reject_header h f) else
  again ← (if is_single name then seen h (h_headers h) name else Some false);
  if (again : bool) then Some (reject_header h f) else
  let used := h_header_used h in
  bytes ← blit (h_header_bytes h) used name;
  let used2 := usize (used + zlen name) in
  bytes ← blit bytes used2 value;
  Some (0, with_arena bytes (h_headers h ++ [HeaderRef used (zlen name) used2 (zlen value)]) (usize (used2 + zlen value)) h).

Definition closing_goaway (h : cf_h2) (f : frame) : option (list Z) :=
  let n := zlen (goaway_opaque_data f) in
  let n := if 64 <=? n then 63 else n in
  text ← slice (goaway_opaque_data f) 0 n;
  reason ← blit (local_goaway_reason (h_stats h)) 0 text;
  wr reason n 0.

Definition sent_frame (h : cf_h2) (f : frame) : option (Z * cf_h2) :=
  if hd_type f =? NGHTTP2_GOAWAY then
    reason ← closing_goaway h f; Some (0, with_stats (set_goaway (goaway_error_code f) true reason) h)
  else Some (0, h).

Definition protocol_error (h : cf_h2) (code : Z) : Z * cf_h2 := (0, with_stats (set_last_error code) h).

Definition invalid_frame (h : cf_h2) (f : frame) (code : Z) : Z * cf_h2 :=
  let h := if hd_type f =? NGHTTP2_GOAWAY
           then with_stats (set_peer_goaway (goaway_error_code f) (goaway_last_stream_id f)) h else h in
  (0, with_stats (set_last_error code) h).

End Session.

(** ** The client *)

(** The callbacks of [cf_h2_callbacks]: each may call operations of the session
    it is called for, and works on the client's own state. *)
Class H2Client `{Nghttp2} := {
  client : Type;
  client_request : client -> cf_h2 -> cf_h2_request -> option (cf_result * client * cf_h2);
  client_data : client -> cf_h2 -> Z -> cf_bytes -> bool -> option (cf_result * client * cf_h2);
  client_read : client -> cf_h2 -> Z -> list Z -> Z -> option (cf_result * list Z * Z * bool * client * cf_h2);
  client_closed : client -> cf_h2 -> Z -> Z -> option (client * cf_h2)
}.

Section Client.
Context `{H2Client}.

(** [if (callback != CF_OK) return cf_h2_reset(...)...; next]. *)
Definition unless_refused (r : cf_result) (a : client) (h : cf_h2) (id error : Z) (next : option (Z * client * cf_h2)) :
    option (Z * client * cf_h2) :=
  if negb (is_ok r) then let '(rc, h) := refuse h id error in Some (rc, a, h) else next.

(** Streams of a kind that were admitted and not reset. *)
Definition admitted_kind (k : cf_h2_kind) (s : stream) : bool :=
  negb (s_id s =? 0) && s_headers_done s && negb (s_reset s) && bool_decide (s_kind s = k).

Definition kind_count (h : cf_h2) (k : cf_h2_kind) : Z := zlen (filter (λ s, admitted_kind k s = true) (h_streams h)).

(** The kind a request's upgrade field asks for; [None] is an unknown one. *)
Definition request_kind (upgrade : cf_bytes) : option (option cf_h2_kind) :=
  control ← equals upgrade (lit "control-stream");
  if (control : bool) then Some (Some CF_H2_CONTROL) else
  config ← equals upgrade (lit "update-configuration");
  if (config : bool) then Some (Some CF_H2_CONFIG) else
  if negb (len upgrade =? 0) then Some None else Some (Some CF_H2_HTTP).

(** The end of [received_frame]: the end of a request body. *)
Definition end_of_stream (a : client) (h : cf_h2) (i : nat) (f : frame) : option (Z * client * cf_h2) :=
  if ((hd_type f =? NGHTTP2_HEADERS) || (hd_type f =? NGHTTP2_DATA)) && has_flag f NGHTTP2_FLAG_END_STREAM then
    let id := s_id (slot h i) in
    '(r, a, h) ← client_data a h id null_bytes true;
    unless_refused r a h (s_id (slot h i)) NGHTTP2_CANCEL (Some (0, a, h))
  else Some (0, a, h).

(** The headers of a request are complete. *)
Definition request_complete (a : client) (h : cf_h2) (i : nat) (f : frame) : option (Z * client * cf_h2) :=
  headers ← mapM (header_view h) (h_headers h);
  let id := s_id (slot h i) in
  let request := Request id CF_H2_HTTP headers (has_flag f NGHTTP2_FLAG_END_STREAM) in
  upgrade ← cf_h2_header request (lit "cf-cloudflared-proxy-connection-upgrade");
  kind ← request_kind upgrade;
  match kind with
  | None => let '(rc, h) := refuse h id NGHTTP2_REFUSED_STREAM in Some (rc, a, h)
  | Some kind =>
      let h := update_stream i (set_kind kind) h in
      let limit := match kind with CF_H2_HTTP => h_app_limit h | _ => 1 end in
      if limit <=? kind_count h kind then let '(rc, h) := refuse h id NGHTTP2_REFUSED_STREAM in Some (rc, a, h) else
      let h := update_stream i set_headers_done h in
      '(r, a, h) ← client_request a h (Request id kind headers (has_flag f NGHTTP2_FLAG_END_STREAM));
      unless_refused r a h id NGHTTP2_REFUSED_STREAM (
        bytes ← cf_secure_zero (h_header_bytes h) (h_header_used h);
        end_of_stream a (with_header_stream 0 (with_arena bytes (h_headers h) (h_header_used h) h)) i f)
  end.

Definition frame_stats (f : frame) (t : cf_h2_stats) : cf_h2_stats :=
  let t := if (hd_type f =? NGHTTP2_SETTINGS) && negb (has_flag f NGHTTP2_FLAG_ACK) then set_peer_settings t else t in
  if hd_type f =? NGHTTP2_GOAWAY
  then set_peer_goaway (goaway_error_code f) (goaway_last_stream_id f)
         (set_goaway (goaway_error_code f) (local_goaway t) (local_goaway_reason t) t)
  else t.

Definition received_frame (a : client) (h : cf_h2) (f : frame) : option (Z * client * cf_h2) :=
  let s := find_stream h (hd_stream_id f) in
  let h := with_stats (frame_stats f) h in
  match s with
  | None => Some (0, a, h)
  | Some i =>
      if s_reset (slot h i) then Some (0, a, h) else
      if (hd_type f =? NGHTTP2_HEADERS) && (h_header_stream h =? hd_stream_id f) then request_complete a h i f
      else end_of_stream a h i f
  end.

(** The loop over a chunk of data, with fuel. *)
Fixpoint data_loop (fuel : nat) (a : client) (h : cf_h2) (id : Z) (data : list Z) (offset : Z) : option (bool * client * cf_h2) :=
  if negb (offset <? zlen data) then Some (true, a, h) else
  match fuel with
  | O => None
  | S fuel =>
      let n := zlen data - offset in
      let n := if CF_H2_CHUNK <? n then CF_H2_CHUNK else n in
      view ← badd (Bytes (Some data) 0) offset n;
      '(r, a, h) ← client_data a h id view false;
      if negb (is_ok r) then
        let '(rc, h') := cf_h2_reset (Some h) id NGHTTP2_CANCEL in
        Some (is_ok rc, a, default h h')
      else data_loop fuel a h id data (offset + n)
  end.

Definition library_code (r : Z * session) (h : cf_h2) : Z * cf_h2 :=
  (if fst r =? 0 then 0 else NGHTTP2_ERR_CALLBACK_FAILURE, with_session (snd r) h).

Definition received_data (a : client) (h : cf_h2) (id : Z) (data : list Z) : option (Z * client * cf_h2) :=
  let s := find_stream h id in
  match s with
  | Some i =>
      if s_reset (slot h i)
      then let '(rc, h) := library_code (nghttp2_session_consume_connection (h_session h) (zlen data)) h in Some (rc, a, h)
      else
        '(ok, a, h) ← data_loop (length data) a h id data 0;
        if negb ok then Some (NGHTTP2_ERR_CALLBACK_FAILURE, a, h) else
        let h := update_stream i (set_progress (h_now_ms h)) h in
        let '(rc, h) := library_code (nghttp2_session_consume (h_session h) id (zlen data)) h in Some (rc, a, h)
  | None => let '(rc, h) := library_code (nghttp2_session_consume_connection (h_session h) (zlen data)) h in Some (rc, a, h)
  end.

Definition closed_stream (a : client) (h : cf_h2) (id error : Z) : option (Z * client * cf_h2) :=
  match find_stream h id with
  | None => Some (0, a, h)
  | Some i =>
      '(a, h) ← client_closed a h id error;
      let h := update_stream i (λ _, free_stream) h in
      Some (0, a, with_stats (λ t, set_counts (u32 (active_streams t - 1)) (rejected_streams t) t) h)
  end.

(** [read_response]: the returned size or code, the buffer and the flags. *)
Definition read_response (a : client) (h : cf_h2) (id : Z) (buf : list Z) (capacity flags : Z) :
    option (Z * list Z * Z * client * cf_h2) :=
  match find_stream h id with
  | None => Some (NGHTTP2_ERR_TEMPORAL_CALLBACK_FAILURE, buf, flags, a, h)
  | Some i =>
      if s_reset (slot h i) then Some (NGHTTP2_ERR_TEMPORAL_CALLBACK_FAILURE, buf, flags, a, h) else
      let h := update_stream i (set_deferred false) h in
      let capacity := if CF_H2_CHUNK <? capacity then CF_H2_CHUNK else capacity in
      '(rc, buf, n, eof, a, h) ← client_read a h id buf capacity;
      if bool_decide (rc = CF_ERR_STATE) || (is_ok rc && (n =? 0) && negb eof)
      then Some (NGHTTP2_ERR_DEFERRED, buf, flags, a, update_stream i (set_deferred true) h) else
      if negb (is_ok rc) || (capacity <? n) then Some (NGHTTP2_ERR_TEMPORAL_CALLBACK_FAILURE, buf, flags, a, h) else
      let flags := if (eof : bool) then Z.lor flags NGHTTP2_DATA_FLAG_EOF else flags in
      let h := if negb (n =? 0) || eof then update_stream i (set_progress (h_now_ms h)) h else h in
      Some (n, buf, flags, a, h)
  end.

(** ** What the library does during a call *)

(** A callback it makes. *)
Inductive event :=
| BeginHeaders (f : frame)
| HeaderField (f : frame) (name value : list Z)
| FrameReceived (f : frame)
| DataReceived (id : Z) (data : list Z)
| StreamClosed (id error : Z)
| FrameSent (f : frame)
| ProtocolError (code : Z)
| InvalidFrame (f : frame) (code : Z)
| ReadResponse (id : Z) (buf : list Z) (capacity flags : Z).

Definition callback (a : client) (h : cf_h2) (e : event) : option (Z * client * cf_h2) :=
  match e with
  | BeginHeaders f => let '(rc, h) := begin_headers h f in Some (rc, a, h)
  | HeaderField f name value => '(rc, h) ← on_header h f name value; Some (rc, a, h)
  | FrameReceived f => received_frame a h f
  | DataReceived id data => received_data a h id data
  | StreamClosed id error => closed_stream a h id error
  | FrameSent f => '(rc, h) ← sent_frame h f; Some (rc, a, h)
  | ProtocolError code => let '(rc, h) := protocol_error h code in Some (rc, a, h)
  | InvalidFrame f code => let '(rc, h) := invalid_frame h f code in Some (rc, a, h)
  | ReadResponse id buf capacity flags => '(rc, _, _, a, h) ← read_response a h id buf capacity flags; Some (rc, a, h)
  end.

(** The callbacks of one call into the library, in order; it stops at the
    first one that fails the session. *)
Fixpoint callbacks (a : client) (h : cf_h2) (events : list event) : option (client * cf_h2) :=
  match events with
  | [] => Some (a, h)
  | e :: events =>
      '(rc, a, h) ← callback a h e;
      if rc =? NGHTTP2_ERR_CALLBACK_FAILURE then Some (a, h) else callbacks a h events
  end.

(** A call into the library that moves bytes: the callbacks it makes, the new
    session, and the size or error it returns. *)
Record library_run := LibraryRun { lib_events : list event; lib_session : session; lib_result : Z }.

(** ** Operations *)

Definition cf_h2_receive (a : client) (h : option cf_h2) (input : cf_bytes) (consumed : bool) (now : Z) (run : library_run) :
    option (cf_result * option Z * client * option cf_h2) :=
  match h with
  | None => Some (CF_ERR_ARGUMENT, None, a, None)
  | Some h =>
      if negb consumed || null_view input then Some (CF_ERR_ARGUMENT, None, a, Some h) else
      let h := with_now now h in
      if negb (is_ok (h_error h)) then Some (h_error h, Some 0, a, Some h) else
      '(a, h) ← callbacks a h (lib_events run);
      let h := with_session (lib_session run) h in
      let n := lib_result run in
      if n <? 0 then
        let rc := if n =? NGHTTP2_ERR_NOMEM then CF_ERR_MEMORY else CF_ERR_FORMAT in
        Some (rc, Some 0, a, Some (with_error rc (with_stats (set_last_error n) h)))
      else Some (h_error h, Some n, a, Some h)
  end.

(** [p] is the object the library hands out. *)
Definition cf_h2_output (a : client) (h : option cf_h2) (out : bool) (run : library_run) (p : option (list Z)) :
    option (cf_result * cf_bytes * client * option cf_h2) :=
  match h with
  | None => Some (CF_ERR_ARGUMENT, null_bytes, a, None)
  | Some h =>
      if negb out then Some (CF_ERR_ARGUMENT, null_bytes, a, Some h) else
      if negb (is_ok (h_error h)) then Some (h_error h, null_bytes, a, Some h) else
      if len (h_pending h) =? 0 then
        '(a, h) ← callbacks a h (lib_events run);
        let h := with_session (lib_session run) h in
        let n := lib_result run in
        if n <? 0 then
          let rc := if n =? NGHTTP2_ERR_NOMEM then CF_ERR_MEMORY else CF_ERR_STATE in
          Some (rc, null_bytes, a, Some (with_error rc (with_stats (set_last_error n) h)))
        else Some (CF_OK, Bytes p n, a, Some (with_pending (Bytes p n) h))
      else Some (CF_OK, h_pending h, a, Some h)
  end.

(** The loop over the slots. *)
Fixpoint destroy_loop (a : client) (h : cf_h2) (k : nat) (i : nat) : option (client * cf_h2) :=
  match k with
  | O => Some (a, h)
  | S k =>
      if s_id (slot h i) =? 0 then destroy_loop a h k (S i) else
      '(a, h) ← client_closed a h (s_id (slot h i)) NGHTTP2_CANCEL; destroy_loop a h k (S i)
  end.

Definition cf_h2_destroy (a : client) (h : option cf_h2) : option client :=
  match h with None => Some a | Some h => '(a, _) ← destroy_loop a h STREAMS 0; Some a end.

End Client.

Section Operations.
Context `{Nghttp2}.

Definition cf_h2_sent (h : option cf_h2) (n : Z) : option (cf_result * option cf_h2) :=
  match h with
  | None => Some (CF_ERR_ARGUMENT, None)
  | Some h =>
      if len (h_pending h) <? n then Some (CF_ERR_ARGUMENT, Some h) else
      p ← (if negb (n =? 0) then badd (h_pending h) n (len (h_pending h)) else Some (h_pending h));
      Some (CF_OK, Some (with_pending (Bytes (ptr p) (usize (len p - n))) h))
  end.

Definition nv (name : list Z) (value : cf_bytes) : nghttp2_nv := Nv (view name) value.

(** [snprintf(code, 4, "%u", status)] of a three-digit status. *)
Definition status_code (status : Z) : list Z := [48 + status / 100; 48 + status / 10 mod 10; 48 + status mod 10; 0].

Definition CF_RESPONSE_HEADERS : list Z := lit "cf-cloudflared-response-headers".
Definition CF_RESPONSE_META : list Z := lit "cf-cloudflared-response-meta".
(** {"src":"origin"} and {"src":"cloudflared"}. *)
Definition meta_text (src : string) : list Z := [123; 34] ++ lit "src" ++ [34; 58; 34] ++ lit src ++ [34; 125].
Definition CF_RESPONSE_META_ORIGIN : list Z := meta_text "origin".
Definition CF_RESPONSE_META_CONNECTOR : list Z := meta_text "cloudflared".

(** [equals(name, "content-length") || equals(name, "Content-Length")]. *)
Definition is_content_length (name : cf_bytes) : option bool :=
  lower ← equals name (lit "content-length");
  if (lower : bool) then Some true else equals name (lit "Content-Length").

(** The loop that copies the content length; [None] is a second one. *)
Fixpoint length_loop (headers : list cf_header) (values : list nghttp2_nv) : option (option (list nghttp2_nv)) :=
  match headers with
  | [] => Some (Some values)
  | e :: headers =>
      yes ← is_content_length (h_name e);
      if negb yes then length_loop headers values else
      if zlen values =? 4 then Some None
      else length_loop headers (values ++ [nv (lit "content-length") (h_value e)])
  end.

Definition cf_h2_respond (h : option cf_h2) (id status : Z) (headers : option (list cf_header)) (count : Z) (origin : bool) :
    option (cf_result * option cf_h2) :=
  match h with
  | None => Some (CF_ERR_ARGUMENT, None)
  | Some h0 =>
      if (negb (count =? 0) && bool_decide (headers = None)) || (status <? 200) || (599 <? status) then Some (CF_ERR_ARGUMENT, h) else
      match find_stream h0 id with
      | None => Some (CF_ERR_STATE, h)
      | Some i =>
          let s := slot h0 i in
          if negb (s_headers_done s) || s_response s || s_reset s then Some (CF_ERR_STATE, h) else
          '(rc, n, wire) ← cf_headers_encode headers count (Some (h_serialized h0)) CF_HEADER_WIRE_MAX (Some 0);
          n ← n; wire ← wire;
          let h1 := with_serialized wire h0 in
          if negb (is_ok rc) then Some (rc, Some h1) else
          let meta := if origin then CF_RESPONSE_META_ORIGIN else CF_RESPONSE_META_CONNECTOR in
          let values := [nv (lit ":status") (Bytes (Some (status_code status)) 3);
                         nv CF_RESPONSE_HEADERS (Bytes (Some wire) n);
                         nv CF_RESPONSE_META (view meta)] in
          values ← length_loop (take (Z.to_nat count) (default [] headers)) values;
          match values with
          | None => Some (CF_ERR_FORMAT, Some h1)
          | Some values =>
              let '(rc, x) := nghttp2_submit_response2 (h_session h1) id values in
              let h1 := with_session x h1 in
              if negb (rc =? 0) then Some (CF_ERR_MEMORY, Some h1)
              else Some (CF_OK, Some (update_stream i set_response h1))
          end
      end
  end.

Definition cf_h2_resume (h : option cf_h2) (id : Z) : cf_result * option cf_h2 :=
  match h with
  | None => (CF_ERR_ARGUMENT, None)
  | Some h0 =>
      match find_stream h0 id with
      | None => (CF_ERR_STATE, h)
      | Some i =>
          let s := slot h0 i in
          if negb (s_response s) || s_reset s then (CF_ERR_STATE, h) else
          if negb (s_deferred s) then (CF_OK, h) else
          let '(rc, x) := nghttp2_session_resume_data (h_session h0) id in
          let h0 := with_session x h0 in
          if negb (rc =? 0) then (CF_ERR_STATE, Some h0)
          else (CF_OK, Some (update_stream i (set_deferred false) h0))
      end
  end.

Definition cf_h2_shutdown (h : option cf_h2) : cf_result * option cf_h2 :=
  match h with
  | None => (CF_ERR_ARGUMENT, None)
  | Some h =>
      let h := with_stats (λ t, set_goaway (goaway_error t) (local_goaway t) (local_goaway_reason t) t) h in
      let '(rc, x) := nghttp2_submit_goaway (h_session h) (nghttp2_session_get_last_proc_stream_id (h_session h)) NGHTTP2_NO_ERROR in
      (if rc =? 0 then CF_OK else CF_ERR_MEMORY, Some (with_session x h))
  end.

(** A stream that made no progress for fifteen seconds; the control stream may. *)
Definition stalled (now : Z) (s : stream) : bool :=
  negb (s_id s =? 0) && negb (s_reset s) && (negb (s_headers_done s) || negb (bool_decide (s_kind s = CF_H2_CONTROL))) &&
  (s_progress_ms s <=? now) && (15000 <? now - s_progress_ms s).

Fixpoint tick_loop (h : cf_h2) (now : Z) (k i : nat) : cf_h2 :=
  match k with
  | O => h
  | S k =>
      let s := slot h i in
      let h := if stalled now s then default h (snd (cf_h2_reset (Some h) (s_id s) NGHTTP2_CANCEL)) else h in
      tick_loop h now k (S i)
  end.

Definition cf_h2_tick (h : option cf_h2) (now : Z) : option cf_h2 :=
  match h with None => None | Some h => Some (tick_loop (with_now now h) now STREAMS 0) end.

Definition cf_h2_get_stats (h : option cf_h2) : option (cf_h2_stats * ngheap) :=
  match h with None => None | Some h => Some (h_stats h, heap_of (h_session h)) end.

(** The new session of [cf_h2_create]: [calloc], then the fields it sets;
    [sizeof_h] is [sizeof(cf_h2)]. *)
Definition fresh_session (sizeof_h apps : Z) (x : session) : cf_h2 :=
  H2 x (Stats sizeof_h 0 0 0 0 0 0 (replicate 64 0) false false false) apps 0 (replicate STREAMS free_stream)
    (replicate (Z.to_nat CF_H2_HEADER_BYTES) 0) [] 0 0 (replicate (Z.to_nat CF_HEADER_WIRE_MAX) 0) null_bytes CF_OK.

(** [callbacks_given]: all five are set.  [memory]: [calloc] succeeds;
    [upstream]: the session the library makes, when none of its calls fails. *)
Definition cf_h2_create (out callbacks_given : bool) (apps limit sizeof_h : Z) (memory : bool) (upstream : option session) :
    cf_result * option cf_h2 :=
  if negb out then (CF_ERR_ARGUMENT, None) else
  if negb callbacks_given || (negb (apps =? 2) && negb (apps =? 4)) || (limit <? 8192) || (CF_H2_NGHEAP_MAX <? limit)
  then (CF_ERR_ARGUMENT, None) else
  if negb memory then (CF_ERR_MEMORY, None) else
  match upstream with
  | None => (CF_ERR_MEMORY, None)
  | Some x => (CF_OK, Some (fresh_session sizeof_h apps x))
  end.

End Operations.
