(* ===== verification/H2Spec.v ===== *)
(** Proofs about the HTTP/2 session: its invariant under every use. *)
From stdpp Require Import gmap.
From S2P Require Export H2.
#[local] Open Scope Z_scope.

(** ** Reading around a write *)

Lemma blit_parts m off bs m' : blit m off bs = Some m' -> exists a b c, m = a ++ b ++ c /\ m' = a ++ bs ++ c /\ zlen a = off /\ length b = length bs.
Proof.
  intros Hb; pose proof (blit_inv _ _ _ _ Hb) as [H0 H1]; pose proof (zlen_nonneg bs).
  destruct (cut_at m off (zlen bs)) as (a & b & c & -> & <- & Hlen); [lia..|]; exists a, b, c.
  rewrite blit_app in Hb by (unfold zlen in *; lia); injection Hb as <-; split; [done|]; split; [done|]; split; [done|unfold zlen in *; lia].
Qed.

Lemma sub_blit_before m off bs m' o n : blit m off bs = Some m' -> 0 <= o -> 0 <= n -> o + n <= off -> sub m' o n = sub m o n.
Proof. intros Hb Ho Hn Hoff; destruct (blit_parts _ _ _ _ Hb) as (a & b & c & -> & -> & <- & _); by rewrite !sub_app_l by lia. Qed.

Lemma sub_blit_at m off bs m' : blit m off bs = Some m' -> sub m' off (zlen bs) = bs.
Proof. intros Hb; destruct (blit_parts _ _ _ _ Hb) as (a & b & c & -> & -> & <- & _); apply sub_app. Qed.

Lemma blit_bytes m off bs m' : blit m off bs = Some m' -> bytes_ok m -> bytes_ok bs -> bytes_ok m'.
Proof.
  intros Hb Hm Hbs; destruct (blit_parts _ _ _ _ Hb) as (a & b & c & -> & -> & _ & _); rewrite !Forall_app in *; tauto.
Qed.

Lemma erase_spec m n : 0 <= n <= zlen m -> exists m', cf_secure_zero m n = Some m' /\ zlen m' = zlen m /\ (bytes_ok m -> bytes_ok m') /\
  m' = replicate (Z.to_nat n) 0 ++ drop (Z.to_nat n) m.
Proof.
  intros Hn; rewrite cf_secure_zero_spec by done; destruct (blit_Some m 0 (replicate (Z.to_nat n) 0)) as [m' Hm]; [lia|unfold zlen in *; rewrite length_replicate; lia|].
  exists m'; rewrite Hm; split; [done|]; split; [by eapply zlen_blit|]; split; [intros Hb; eapply blit_bytes; [exact Hm|done|by apply Forall_replicate]|].
  rewrite (blit_0 _ _ _ Hm), length_replicate; done.
Qed.

(** ** Counting slots *)

Definition b2z (b : bool) : Z := if b then 1 else 0.

(** The slots that pass a test. *)
Definition count (p : stream -> bool) (l : list stream) : Z := zlen (filter (λ s, p s = true) l).

Lemma count_cons p s l : count p (s :: l) = b2z (p s) + count p l.
Proof. unfold count; rewrite filter_cons; destruct (p s) eqn:E; [rewrite decide_True by done|rewrite decide_False by done]; [apply zlen_cons|done]. Qed.

Lemma count_bounds p l : 0 <= count p l <= zlen l.
Proof. induction l as [|s l IH]; [done|]; rewrite count_cons, zlen_cons; destruct (p s); cbn; lia. Qed.

Lemma count_alter p f i l s : l !! i = Some s -> count p (alter f i l) = count p l - b2z (p s) + b2z (p (f s)).
Proof.
  revert i; induction l as [|x l IH]; intros i Hi; [done|]; destruct i as [|i].
  - injection Hi as ->; change (alter f 0%nat (s :: l)) with (f s :: l); rewrite !count_cons; lia.
  - change (alter f (S i) (x :: l)) with (x :: alter f i l); rewrite !count_cons, (IH i Hi); lia.
Qed.

Lemma count_mono p q l l' : Forall2 (λ s s', q s' = true -> p s = true) l l' -> count q l' <= count p l.
Proof.
  induction 1 as [|s s' l l' Hs _ IH]; [done|]; rewrite !count_cons; destruct (q s') eqn:E; [rewrite (Hs eq_refl); cbn; lia|].
  destruct (p s); cbn; lia.
Qed.

Definition in_use (s : stream) : bool := negb (s_id s =? 0).

(** No identifier is used twice. *)
Definition unique_ids (ids : list Z) : Prop := forall i j x, ids !! i = Some x -> ids !! j = Some x -> x <> 0 -> i = j.

Lemma unique_insert ids i x : unique_ids ids -> x = 0 \/ x ∉ ids -> unique_ids (<[i:=x]> ids).
Proof.
  intros Hu Hx j k y Hj Hk Hy; rewrite list_lookup_insert in Hj; rewrite list_lookup_insert in Hk.
  case_decide as Ej; case_decide as Ek; simplify_eq; [lia| | |by eapply Hu];
    destruct Hx as [->|Hx]; try done; destruct Hx; by eapply list_elem_of_lookup_2.
Qed.

Lemma ids_alter f i l : (forall s, l !! i = Some s -> s_id (f s) = s_id s) -> map s_id (alter f i l) = map s_id l.
Proof.
  revert i; induction l as [|s l IH]; intros i Hf; [done|]; destruct i as [|i]; cbn.
  - by rewrite (Hf s).
  - f_equal; by apply IH.
Qed.

Lemma ids_replace x i l : map s_id (alter (λ _, x) i l) = <[i:=s_id x]> (map s_id l).
Proof. revert i; induction l as [|s l IH]; intros i; [done|]; destruct i as [|i]; cbn; [done|]; f_equal; apply IH. Qed.

(** Slots before and after changes that keep the identifiers. *)
Lemma ids_rel (R : stream -> stream -> Prop) l l' : (forall s s', R s s' -> s_id s' = s_id s) -> Forall2 R l l' -> map s_id l' = map s_id l.
Proof. intros HR; induction 1 as [|s s' l l' Hs _ IH]; [done|]; cbn; by rewrite IH, (HR s s'). Qed.

(** ** What operations leave alone *)

(** A slot before and after calls a client may make. *)
Record slot_rel (s s' : stream) : Prop := {
  sr_id : s_id s' = s_id s;
  sr_kind : s_kind s' = s_kind s;
  sr_done : s_headers_done s' = s_headers_done s;
  sr_reset : s_reset s = true -> s_reset s' = true;
  sr_response : s_response s' = true -> s_response s = true \/ s_headers_done s = true
}.

#[export] Instance slot_rel_refl : Reflexive slot_rel.
Proof. intros s; split; auto. Qed.

#[export] Instance slot_rel_trans : Transitive slot_rel.
Proof.
  intros s t u [Hi Hk Hd Hr Hp] [Hi' Hk' Hd' Hr' Hp']; split; try congruence; [auto|].
  intros H; destruct (Hp' H); [auto|right; congruence].
Qed.

Section Spec.
Context `{Nghttp2}.

(** A session before and after such calls. *)
Record h2_rel (h h' : cf_h2) : Prop := {
  hr_streams : Forall2 slot_rel (h_streams h) (h_streams h');
  hr_limit : h_app_limit h' = h_app_limit h;
  hr_bytes : h_header_bytes h' = h_header_bytes h;
  hr_headers : h_headers h' = h_headers h;
  hr_used : h_header_used h' = h_header_used h;
  hr_stream : h_header_stream h' = h_header_stream h;
  hr_pending : h_pending h' = h_pending h;
  hr_serialized : zlen (h_serialized h') = zlen (h_serialized h);
  hr_active : active_streams (h_stats h') = active_streams (h_stats h);
  hr_reason : local_goaway_reason (h_stats h') = local_goaway_reason (h_stats h);
  hr_error : h_error h <> CF_OK -> h_error h' <> CF_OK
}.

#[export] Instance h2_rel_refl : Reflexive h2_rel.
Proof. intros h; by split. Qed.

#[export] Instance h2_rel_trans : Transitive h2_rel.
Proof.
  intros h h' h'' [H1 H2 H3 H4 H5 H6 H7 H8 H9 H10 H11] [G1 G2 G3 G4 G5 G6 G7 G8 G9 G10 G11].
  split; try congruence; [|auto]; by etrans.
Qed.

(** ** The invariant *)

(** The pieces of an entry lie in the part of the arena that is used. *)
Definition ref_in (used : Z) (r : header_ref) : Prop :=
  0 <= n_off r /\ 0 <= n_len r /\ n_off r + n_len r <= used /\ 0 <= v_off r /\ 0 <= v_len r /\ v_off r + v_len r <= used.

(** Admission: the fixed slots and limits, whatever the peer does. *)
Definition admission (h : cf_h2) : Prop :=
  kind_count h CF_H2_HTTP <= h_app_limit h /\ kind_count h CF_H2_CONTROL <= 1 /\ kind_count h CF_H2_CONFIG <= 1.

(** A view that lies in its object. *)
Definition in_object (b : cf_bytes) : Prop := 0 <= len b <= SIZE_MAX /\ len b <= match ptr b with Some m => zlen m | None => 0 end.

Record h2_inv (h : cf_h2) : Prop := {
  hi_slots : length (h_streams h) = STREAMS;
  hi_active : active_streams (h_stats h) = count in_use (h_streams h);
  hi_limit : h_app_limit h = 2 \/ h_app_limit h = 4;
  hi_admission : admission h;
  hi_bytes : zlen (h_header_bytes h) = CF_H2_HEADER_BYTES /\ bytes_ok (h_header_bytes h);
  hi_used : 0 <= h_header_used h <= CF_H2_HEADER_BYTES;
  hi_headers : zlen (h_headers h) <= CF_H2_HEADER_MAX /\ Forall (ref_in (h_header_used h)) (h_headers h);
  hi_serialized : zlen (h_serialized h) = CF_HEADER_WIRE_MAX;
  hi_reason : zlen (local_goaway_reason (h_stats h)) = 64 /\ 0 ∈ local_goaway_reason (h_stats h);
  hi_pending : in_object (h_pending h);
  hi_response : Forall (λ s, s_response s = true -> s_headers_done s = true) (h_streams h);
  hi_unique : unique_ids (map s_id (h_streams h))
}.

(** The stream whose headers arrive was not admitted yet, or was reset. *)
Definition arriving (h : cf_h2) : Prop :=
  Forall (λ s, s_id s = h_header_stream h -> s_id s <> 0 -> s_headers_done s = false \/ s_reset s = true) (h_streams h).

Lemma kind_count_rel h h' k : Forall2 slot_rel (h_streams h) (h_streams h') -> kind_count h' k <= kind_count h k.
Proof.
  intros Hr; apply count_mono; eapply Forall2_impl; [exact Hr|]; intros s s' [Hi Hk Hd Hre _]; unfold admitted_kind.
  rewrite Hi, Hk, Hd; destruct (s_reset s); [by rewrite Hre|]; destruct (s_reset s'); cbn; [|done]; by rewrite andb_false_r.
Qed.

Lemma in_use_rel l l' : Forall2 slot_rel l l' -> count in_use l' = count in_use l.
Proof. induction 1 as [|s s' l l' [Hi _ _ _ _] _ IH]; [done|]; rewrite !count_cons, IH; unfold in_use; by rewrite Hi. Qed.

Lemma inv_rel h h' : h2_rel h h' -> h2_inv h -> h2_inv h'.
Proof.
  intros [H1 H2 H3 H4 H5 H6 H7 H8 H9 H10 H11] [G1 G2 G3 G4 G5 G6 G7 G8 G9 G10 G11 G12].
  pose proof (kind_count_rel h h' CF_H2_HTTP H1); pose proof (kind_count_rel h h' CF_H2_CONTROL H1); pose proof (kind_count_rel h h' CF_H2_CONFIG H1).
  split; rewrite ?H2, ?H3, ?H4, ?H5, ?H7, ?H8, ?H10; try done.
  - by rewrite <- (Forall2_length _ _ _ H1).
  - by rewrite H9, (in_use_rel _ _ H1).
  - unfold admission in *; rewrite H2; lia.
  - clear -H1 G11; induction H1 as [|s s' l l' [_ _ Hd _ Hp] _ IH]; [constructor|]; apply Forall_cons in G11 as [Hs Hl].
    constructor; [|auto]; intros Hr; rewrite Hd; destruct (Hp Hr); auto.
  - by rewrite (ids_rel _ _ _ sr_id H1).
Qed.

Lemma arriving_rel h h' : h2_rel h h' -> arriving h -> arriving h'.
Proof.
  intros [H1 _ _ _ _ H6 _ _ _ _ _]; unfold arriving; rewrite H6; generalize (h_header_stream h); intros x; clear -H1.
  induction H1 as [|s s' l l' [Hi _ Hd Hr _] _ IH]; intros G; [constructor|]; apply Forall_cons in G as [Hs Hl].
  constructor; [|auto]; rewrite Hi, Hd; intros Hx H0; destruct (Hs Hx H0); auto.
Qed.

(** ** Slots *)

Lemma find_stream_Some h id i : find_stream h id = Some i -> exists s, h_streams h !! i = Some s /\ slot h i = s /\ s_id s = id.
Proof.
  unfold find_stream, slot; destruct (list_find _ _) as [[j s]|] eqn:E; [|done]; intros [= <-].
  apply list_find_Some in E as (Hj & Hs & _); exists s; by rewrite Hj.
Qed.

Lemma find_stream_None h id : find_stream h id = None -> Forall (λ s, s_id s <> id) (h_streams h).
Proof. unfold find_stream; destruct (list_find _ _) as [[j s]|] eqn:E; [done|]; intros _; by apply list_find_None in E. Qed.

(** The search looks at identifiers only. *)
Lemma find_stream_ids h h' id : map s_id (h_streams h') = map s_id (h_streams h) -> find_stream h' id = find_stream h id.
Proof.
  unfold find_stream; generalize (h_streams h) (h_streams h'); intros l; induction l as [|s l IH]; intros [|s' l'] E; try done.
  injection E as Ei El; cbn [list_find]; rewrite Ei; destruct (decide (s_id s = id)); [done|]; specialize (IH _ El).
  destruct (list_find _ l) as [[j x]|], (list_find _ l') as [[j' x']|]; cbn in *; congruence.
Qed.

Lemma find_stream_rel h h' id : Forall2 slot_rel (h_streams h) (h_streams h') -> find_stream h' id = find_stream h id.
Proof. intros Hr; apply find_stream_ids; eapply ids_rel; [apply sr_id|done]. Qed.

Lemma find_stream_update h i f id : (forall s, s_id (f s) = s_id s) -> find_stream (update_stream i f h) id = find_stream h id.
Proof. intros Hf; apply find_stream_ids, ids_alter; auto. Qed.

Lemma slot_rel_at h h' i s : h2_rel h h' -> h_streams h !! i = Some s -> exists s', h_streams h' !! i = Some s' /\ slot h' i = s' /\ slot_rel s s'.
Proof.
  intros Hr Hi; destruct (Forall2_lookup_l _ _ _ _ _ (hr_streams _ _ Hr) Hi) as (s' & Hs' & Hrel).
  exists s'; unfold slot; by rewrite Hs'.
Qed.

(** Changing a slot in an allowed way. *)
Lemma update_rel_at h i f : (forall s, h_streams h !! i = Some s -> slot_rel s (f s)) -> h2_rel h (update_stream i f h).
Proof.
  intros Hf; split; try done; cbn; revert Hf; generalize (h_streams h); intros l; revert i; induction l as [|s l IH]; intros i Hf; [constructor|].
  destruct i as [|i]; [constructor; [by apply Hf|reflexivity]|]; constructor; [done|]; by apply IH.
Qed.

Lemma update_rel h i f : (forall s, slot_rel s (f s)) -> h2_rel h (update_stream i f h).
Proof. intros Hf; by apply update_rel_at. Qed.

Lemma session_rel h x : h2_rel h (with_session x h).
Proof. by split. Qed.

Lemma stats_rel h f : active_streams (f (h_stats h)) = active_streams (h_stats h) ->
  local_goaway_reason (f (h_stats h)) = local_goaway_reason (h_stats h) -> h2_rel h (with_stats f h).
Proof. by split. Qed.

Lemma error_rel h e : e <> CF_OK -> h2_rel h (with_error e h).
Proof. by split. Qed.

Lemma slot_update h i f s : h_streams h !! i = Some s -> slot (update_stream i f h) i = f s.
Proof. intros Hi; unfold slot, update_stream; cbn [h_streams with_streams]; by rewrite list_lookup_alter, decide_True, Hi by done. Qed.

Lemma set_reset_rel s : slot_rel s (set_reset s).
Proof. split; auto. Qed.

Lemma set_deferred_rel b s : slot_rel s (set_deferred b s).
Proof. split; auto. Qed.

Lemma set_progress_rel x s : slot_rel s (set_progress x s).
Proof. split; auto. Qed.

(** [cf_h2_reset]: the stream is marked, or the session is in error. *)
Lemma reset_spec h id e : exists rc h', cf_h2_reset (Some h) id e = (rc, Some h') /\ h2_rel h h' /\
  (rc = CF_OK /\ (forall i, find_stream h id = Some i -> s_reset (slot h' i) = true) \/ rc = CF_ERR_MEMORY /\ h_error h' <> CF_OK).
Proof.
  unfold cf_h2_reset; destruct (match find_stream h id with Some i => s_reset (slot h i) | None => false end) eqn:Er.
  { exists CF_OK, h; split; [done|]; split; [done|]; left; split; [done|]; intros i Hi; by rewrite Hi in Er. }
  destruct (nghttp2_submit_rst_stream (h_session h) id e) as [rc x]; destruct (rc =? 0); cbn [negb].
  2: { do 2 eexists; split; [done|]; split; [|by right]; etrans; [apply session_rel|by apply error_rel]. }
  do 2 eexists; split; [done|]; destruct (find_stream h id) as [i|] eqn:Ef.
  - split; [|left; split; [done|]; intros j [= <-]].
    + etrans; [apply session_rel|]; etrans; [apply update_rel, set_reset_rel|]; by apply stats_rel.
    + destruct (find_stream_Some _ _ _ Ef) as (s & Hs & _ & _).
      change (s_reset (slot (update_stream i set_reset (with_session x h)) i) = true); by rewrite (slot_update _ _ _ s).
  - split; [|by left]; etrans; [apply session_rel|]; by apply stats_rel.
Qed.

(** The same as a return value of a callback. *)
Lemma refuse_spec h id e : exists h', h2_rel h h' /\
  (refuse h id e = (0, h') /\ (forall i, find_stream h id = Some i -> s_reset (slot h' i) = true) \/
   refuse h id e = (NGHTTP2_ERR_CALLBACK_FAILURE, h') /\ h_error h' <> CF_OK).
Proof.
  unfold refuse; destruct (reset_spec h id e) as (rc & h' & -> & Hr & [[-> Hi]|[-> He]]); exists h'; split; auto.
Qed.

Lemma resume_rel h id : exists rc h', cf_h2_resume (Some h) id = (rc, Some h') /\ h2_rel h h'.
Proof.
  unfold cf_h2_resume; destruct (find_stream h id) as [i|]; [|by do 2 eexists].
  destruct (negb (s_response (slot h i)) || s_reset (slot h i)); [by do 2 eexists|]; destruct (s_deferred (slot h i)); cbn [negb]; [|by do 2 eexists].
  destruct (nghttp2_session_resume_data (h_session h) id) as [rc x]; destruct (rc =? 0); cbn [negb]; do 2 eexists; (split; [done|]).
  - etrans; [apply session_rel|apply update_rel, set_deferred_rel].
  - apply session_rel.
Qed.

Lemma shutdown_rel h : exists rc h', cf_h2_shutdown (Some h) = (rc, Some h') /\ h2_rel h h'.
Proof.
  unfold cf_h2_shutdown; destruct (nghttp2_submit_goaway _ _ _) as [rc x]; do 2 eexists; split; [done|].
  etrans; [|apply session_rel]; by apply stats_rel.
Qed.

(** ** Responses *)

Lemma equals_spec b n s : denotes b n -> s <> [] -> equals b s = Some (bool_decide (n = s)).
Proof.
  intros Hb Hs; unfold equals; rewrite (denotes_len _ _ Hb); destruct (Z.eqb_spec (zlen n) (zlen s)) as [E|E]; cbn [negb].
  2: { rewrite bool_decide_eq_false_2; [done|congruence]. }
  destruct Hb as (_ & _ & Hp); destruct (ptr b) as [m|]; [|subst n; destruct s; [done|rewrite zlen_nil, zlen_cons in E; pose proof (zlen_nonneg s); lia]].
  destruct Hp as [rest ->]; cbn [mbind option_bind]; pose proof (zlen_nonneg n); pose proof (zlen_nonneg rest).
  rewrite slice_sub by (rewrite ?zlen_app; lia); by rewrite sub_head by done.
Qed.

(** The fields that are content lengths. *)
Definition is_length (p : list Z * list Z) : bool :=
  bool_decide (p.1 = lit "content-length") || bool_decide (p.1 = lit "Content-Length").

(** A library field denotes a name and a value. *)
Definition nv_denotes (x : nghttp2_nv) (p : list Z * list Z) : Prop := denotes (nv_name x) p.1 /\ denotes (nv_value x) p.2.

Lemma lit_bytes_ok (s : string) : bytes_ok (lit s).
Proof. induction s as [|c s IH]; constructor; [|done]; pose proof (Ascii.nat_ascii_bounded c); unfold is_byte; lia. Qed.

Lemma nv_intro (s : string) b v : denotes b v -> nv_denotes (nv (lit s) b) (lit s, v).
Proof. intros Hb; split; [apply denotes_view, lit_bytes_ok|done]. Qed.

Lemma length_loop_spec es hs : Forall2 entry_denotes es hs -> forall values texts,
  Forall2 nv_denotes values texts -> 3 <= zlen values <= 4 ->
  exists r, length_loop es values = Some r /\
    let lengths := filter (λ p, is_length p = true) hs in
    match r with
    | Some values' => zlen values + zlen lengths <= 4 /\ Forall2 nv_denotes values' (texts ++ map (λ p, (lit "content-length", p.2)) lengths)
    | None => 4 < zlen values + zlen lengths
    end.
Proof.
  induction 1 as [|e [n v] es hs [Hn Hv] _ IH]; intros values texts Hvals Hlen; cbn [length_loop].
  { eexists; split; [done|]; cbn; rewrite app_nil_r; split; [change (zlen []) with 0; lia|done]. }
  cbn [fst snd] in *; rewrite filter_cons.
  assert (is_content_length (h_name e) = Some (is_length (n, v))) as ->.
  { unfold is_content_length, is_length; cbn [fst]; rewrite !(equals_spec _ _ _ Hn) by done; cbn [mbind option_bind].
    destruct (bool_decide (n = lit "content-length")); done. }
  cbn [mbind option_bind]; destruct (is_length (n, v)) eqn:El; cbn [negb].
  - rewrite decide_True by done; set (lengths := filter _ hs) in *.
    destruct (Z.eqb_spec (zlen values) 4) as [E4|E4].
    + eexists; split; [done|]; cbn zeta; rewrite zlen_cons; pose proof (zlen_nonneg lengths); lia.
    + destruct (IH (values ++ [nv (lit "content-length") (h_value e)]) (texts ++ [(lit "content-length", v)])) as (r & Hr & Hspec).
      { apply Forall2_app; [done|]; constructor; [by apply nv_intro|constructor]. }
      { rewrite zlen_app; change (zlen [_]) with 1; lia. }
      exists r; split; [exact Hr|]; cbn zeta in *; rewrite zlen_app in Hspec; change (zlen [nv _ _]) with 1 in Hspec; rewrite zlen_cons.
      destruct r as [values'|]; [|lia]; destruct Hspec as [? Hv']; split; [lia|]; cbn [map snd]; by rewrite <- app_assoc in Hv'.
  - rewrite decide_False by congruence; by apply IH.
Qed.

(** The digits of a status. *)
Definition status_text (status : Z) : list Z := [48 + status / 100; 48 + status / 10 mod 10; 48 + status mod 10].

(** The fields of a response to the edge. *)
Definition response_fields (status : Z) (hs : list (list Z * list Z)) (origin : bool) : list (list Z * list Z) :=
  [(lit ":status", status_text status); (CF_RESPONSE_HEADERS, wire_ref true hs);
   (CF_RESPONSE_META, if origin then CF_RESPONSE_META_ORIGIN else CF_RESPONSE_META_CONNECTOR)] ++
  map (λ p, (lit "content-length", p.2)) (filter (λ p, is_length p = true) hs).

Lemma status_denotes status : 200 <= status <= 599 -> denotes (Bytes (Some (status_code status)) 3) (status_text status).
Proof.
  intros Hs; split; [|split; [done|by exists [0]]]; repeat constructor; unfold is_byte; cbn;
    pose proof (Z.mod_pos_bound status 10); pose proof (Z.mod_pos_bound (status / 10) 10);
    pose proof (Z.div_pos status 100); pose proof (Z.div_lt_upper_bound status 100 6); lia.
Qed.

(** [cf_h2_respond] to a stream that may be answered. *)
Lemma respond_spec h id i s status es hs origin :
  zlen (h_serialized h) = CF_HEADER_WIRE_MAX -> find_stream h id = Some i -> h_streams h !! i = Some s ->
  s_headers_done s = true -> s_response s = false -> s_reset s = false -> 200 <= status <= 599 -> Forall2 entry_denotes es hs ->
  exists rc h1, cf_h2_respond (Some h) id status (Some es) (zlen hs) origin = Some (rc, Some h1) /\
    if encodable hs CF_HEADER_WIRE_MAX then
      if zlen (filter (λ p, is_length p = true) hs) <=? 1 then
        exists values wire code x, Forall2 nv_denotes values (response_fields status hs origin) /\
          nghttp2_submit_response2 (h_session h) id values = (code, x) /\ zlen wire = CF_HEADER_WIRE_MAX /\
          h1 = (if code =? 0 then update_stream i set_response else λ h, h) (with_session x (with_serialized wire h)) /\
          rc = if code =? 0 then CF_OK else CF_ERR_MEMORY
      else rc = CF_ERR_FORMAT /\ exists wire, zlen wire = CF_HEADER_WIRE_MAX /\ h1 = with_serialized wire h
    else (rc = CF_ERR_LIMIT \/ rc = CF_ERR_FORMAT) /\ h1 = with_serialized (h_serialized h) h.
Proof.
  intros Hser Hfind Hs Hdone Hresp Hreset Hstatus Hes; unfold cf_h2_respond.
  rewrite (bool_decide_eq_false_2 (Some es = None)) by done; rewrite andb_false_r; replace (status <? 200) with false by lia; replace (599 <? status) with false by lia.
  cbn [orb]; rewrite Hfind; assert (slot h i = s) as -> by (unfold slot; by rewrite Hs); rewrite Hdone, Hresp, Hreset; cbn [negb orb].
  destruct (headers_encode_spec es hs (h_serialized h) CF_HEADER_WIRE_MAX 0 Hes) as (r & -> & Hr); [unfold CF_HEADER_WIRE_MAX in *; lia|]; cbn [mbind option_bind].
  destruct (encodable hs CF_HEADER_WIRE_MAX) eqn:Eenc.
  2: { destruct Hr as [-> | ->]; cbn [mbind option_bind is_ok]; do 2 eexists; (split; [reflexivity|]); auto. }
  destruct Hr as (wire & Hwire & ->); cbn [mbind option_bind]; change (negb (is_ok CF_OK)) with false; cbn iota.
  pose proof (zlen_blit _ _ _ _ Hwire) as Hzw; rewrite Hser in Hzw.
  replace (take (Z.to_nat (zlen hs)) (default [] (Some es))) with es
    by (symmetry; apply take_ge; rewrite (Forall2_length _ _ _ Hes); unfold zlen; lia).
  set (meta := if origin then CF_RESPONSE_META_ORIGIN else CF_RESPONSE_META_CONNECTOR).
  destruct (length_loop_spec es hs Hes [nv (lit ":status") (Bytes (Some (status_code status)) 3); nv CF_RESPONSE_HEADERS (Bytes (Some wire) (zlen (wire_ref true hs))); nv CF_RESPONSE_META (view meta)]
    [(lit ":status", status_text status); (CF_RESPONSE_HEADERS, wire_ref true hs); (CF_RESPONSE_META, meta)]) as (r & -> & Hr).
  { constructor; [by apply nv_intro, status_denotes|]; constructor; [apply nv_intro|constructor; [|constructor]].
    - apply denotes_blit with (h_serialized h); [apply wire_ref_bytes|done]; by eapply entry_denotes_bytes.
    - apply nv_intro, denotes_view; unfold meta; destruct origin; bytes_by_compute. }
  { done. }
  cbn [mbind option_bind]; cbn zeta in Hr; destruct r as [values|].
  - destruct Hr as [Hlen Hvals]; replace (zlen (filter _ hs) <=? 1) with true by (change (zlen [_; _; _]) with 3 in Hlen; lia).
    destruct (nghttp2_submit_response2 _ _ _) as [code x] eqn:Esub; destruct (code =? 0) eqn:Ecode; cbn [negb].
    + do 2 eexists; split; [done|]; exists values, wire, code, x; rewrite Ecode; auto.
    + do 2 eexists; split; [done|]; exists values, wire, code, x; rewrite Ecode; auto.
  - replace (zlen (filter _ hs) <=? 1) with false by (change (zlen [_; _; _]) with 3 in Hr; lia).
    do 2 eexists; split; [done|]; split; [done|]; by exists wire.
Qed.

(** The headers a client gives: an array with its length, or no array. *)
Definition given_headers (headers : option (list cf_header)) (count : Z) : Prop :=
  match headers with None => count = 0 | Some es => exists hs, Forall2 entry_denotes es hs /\ count = zlen hs end.

Lemma respond_none h id status origin : cf_h2_respond h id status None 0 origin = cf_h2_respond h id status (Some []) 0 origin.
Proof. unfold cf_h2_respond, cf_headers_encode; rewrite !andb_false_r; done. Qed.

Lemma respond_rel h id status headers count origin : zlen (h_serialized h) = CF_HEADER_WIRE_MAX -> given_headers headers count ->
  exists rc h', cf_h2_respond (Some h) id status headers count origin = Some (rc, Some h') /\ h2_rel h h'.
Proof.
  intros Hser Hgiven.
  assert (exists es hs, Forall2 entry_denotes es hs /\ cf_h2_respond (Some h) id status headers count origin =
    cf_h2_respond (Some h) id status (Some es) (zlen hs) origin) as (es & hs & Hes & ->).
  { destruct headers as [es|]; [destruct Hgiven as (hs & ? & ->); by exists es, hs|]; cbn in Hgiven; subst count; exists [], []; split; [constructor|apply respond_none]. }
  assert (forall rc : cf_result, exists (rc' : cf_result) h', Some (rc, Some h) = Some (rc', Some h') /\ h2_rel h h') as Hsame by (intros rc; by exists rc, h).
  destruct (decide (200 <= status <= 599)) as [Hstatus|Hstatus].
  2: { unfold cf_h2_respond; replace (_ || _ || _) with true by (symmetry; rewrite !orb_true_iff, !Z.ltb_lt; lia); apply Hsame. }
  destruct (find_stream h id) as [i|] eqn:Ef.
  2: { unfold cf_h2_respond; rewrite Ef; destruct (negb (zlen hs =? 0) && bool_decide (Some es = None) || (status <? 200) || (599 <? status)); apply Hsame. }
  destruct (find_stream_Some _ _ _ Ef) as (s & Hs & Hslot & _).
  destruct (negb (s_headers_done s) || s_response s || s_reset s) eqn:Est.
  { unfold cf_h2_respond; rewrite Ef, Hslot, Est; destruct (negb (zlen hs =? 0) && bool_decide (Some es = None) || (status <? 200) || (599 <? status)); apply Hsame. }
  apply orb_false_iff in Est as [Est Ere]; apply orb_false_iff in Est as [Ed Ers]; apply negb_false_iff in Ed.
  destruct (respond_spec h id i s status es hs origin Hser Ef Hs Ed Ers Ere Hstatus Hes) as (rc & h1 & -> & Hspec); exists rc, h1; split; [done|].
  assert (forall wire, zlen wire = CF_HEADER_WIRE_MAX -> h2_rel h (with_serialized wire h)) as Hwire by (intros wire Hw; split; try done; cbn; lia).
  destruct (encodable hs CF_HEADER_WIRE_MAX); [|destruct Hspec as [_ ->]; by apply Hwire].
  destruct (_ <=? 1); [|destruct Hspec as (_ & wire & Hw & ->); by apply Hwire].
  destruct Hspec as (values & wire & code & x & _ & _ & Hw & -> & _).
  assert (h2_rel h (with_session x (with_serialized wire h))) as Hrel by (etrans; [by apply (Hwire wire)|apply session_rel]).
  destruct (code =? 0); [|done]; etrans; [exact Hrel|]; apply update_rel_at; intros s' Hs'.
  cbn in Hs'; rewrite Hs in Hs'; injection Hs' as <-; split; auto.
Qed.

(** ** Clients *)

(** What a client may do to the session it is called for. *)
Inductive client_op : cf_h2 -> cf_h2 -> Prop :=
| OpReset h id e : client_op h (default h (snd (cf_h2_reset (Some h) id e)))
| OpRespond h id status headers count origin rc h' : given_headers headers count ->
    cf_h2_respond (Some h) id status headers count origin = Some (rc, Some h') -> client_op h h'
| OpResume h id : client_op h (default h (snd (cf_h2_resume (Some h) id)))
| OpShutdown h : client_op h (default h (snd (cf_h2_shutdown (Some h)))).

Lemma client_op_rel h h' : client_op h h' -> zlen (h_serialized h) = CF_HEADER_WIRE_MAX -> h2_rel h h'.
Proof.
  intros Hop Hser; destruct Hop as [h id e|h id status headers count origin rc h' Hg E|h id|h].
  - by destruct (reset_spec h id e) as (rc & h' & -> & ? & _).
  - destruct (respond_rel h id status headers count origin Hser Hg) as (rc' & h2 & E2 & Hr); rewrite E in E2; by injection E2 as -> ->.
  - by destruct (resume_rel h id) as (rc & h' & -> & ?).
  - by destruct (shutdown_rel h) as (rc & h' & -> & ?).
Qed.

Lemma client_ops_rel h h' : rtc client_op h h' -> zlen (h_serialized h) = CF_HEADER_WIRE_MAX -> h2_rel h h'.
Proof.
  induction 1 as [h|h h1 h' Hop _ IH]; intros Hser; [reflexivity|]; pose proof (client_op_rel _ _ Hop Hser) as Hr.
  etrans; [exact Hr|]; apply IH; by rewrite (hr_serialized _ _ Hr).
Qed.

(** ** Pieces of the invariant *)

Lemma inv_header_stream x h : h2_inv h -> h2_inv (with_header_stream x h).
Proof. by intros []. Qed.

Lemma inv_session x h : h2_inv h -> h2_inv (with_session x h).
Proof. apply inv_rel, session_rel. Qed.

Lemma inv_stats f h : active_streams (f (h_stats h)) = active_streams (h_stats h) ->
  zlen (local_goaway_reason (f (h_stats h))) = 64 /\ 0 ∈ local_goaway_reason (f (h_stats h)) -> h2_inv h -> h2_inv (with_stats f h).
Proof. intros Ha Hr [G1 G2 G3 G4 G5 G6 G7 G8 G9 G10 G11 G12]; split; cbn; try done; by rewrite Ha. Qed.

Lemma kind_count_update h i f s k : h_streams h !! i = Some s ->
  kind_count (update_stream i f h) k = kind_count h k - b2z (admitted_kind k s) + b2z (admitted_kind k (f s)).
Proof. apply count_alter. Qed.

Lemma active_update h i f s : h_streams h !! i = Some s ->
  count in_use (h_streams (update_stream i f h)) = count in_use (h_streams h) - b2z (in_use s) + b2z (in_use (f s)).
Proof. apply count_alter. Qed.

Lemma Forall_update (P : stream -> Prop) h i f : Forall P (h_streams h) -> (forall s, h_streams h !! i = Some s -> P s -> P (f s)) ->
  Forall P (h_streams (update_stream i f h)).
Proof.
  cbn; generalize (h_streams h); intros l Hl; revert i; induction Hl as [|s l Hs Hl IH]; intros i Hf; [constructor|].
  destruct i as [|i]; constructor; auto; try (by apply IH).
Qed.

(** A slot changed so that no admission count grows and no slot is gained or
    lost. *)
Lemma inv_update h i f s : h_streams h !! i = Some s -> s_id (f s) = s_id s ->
  admission (update_stream i f h) -> (s_response (f s) = true -> s_headers_done (f s) = true) -> h2_inv h -> h2_inv (update_stream i f h).
Proof.
  intros Hi Huse Hadm Hresp [G1 G2 G3 G4 G5 G6 G7 G8 G9 G10 G11 G12]; split; try done.
  - cbn; by rewrite length_alter.
  - change (active_streams (h_stats (update_stream i f h))) with (active_streams (h_stats h)); rewrite (active_update h i f s Hi).
    replace (in_use (f s)) with (in_use s) by (unfold in_use; by rewrite Huse); lia.
  - apply Forall_update; [done|]; intros s' Hs'; rewrite Hi in Hs'; by injection Hs' as <-.
  - cbn; rewrite ids_alter; [done|]; intros s' Hs'; rewrite Hi in Hs'; by injection Hs' as <-.
Qed.

(** Slots that are not admitted do not count. *)
Lemma admission_update h i f s : h_streams h !! i = Some s -> (forall k, admitted_kind k (f s) = true -> admitted_kind k s = true) ->
  admission h -> admission (update_stream i f h).
Proof.
  intros Hi Hk; unfold admission; rewrite !(kind_count_update h i f s) by done.
  change (h_app_limit (update_stream i f h)) with (h_app_limit h).
  pose proof (Hk CF_H2_HTTP); pose proof (Hk CF_H2_CONTROL); pose proof (Hk CF_H2_CONFIG).
  destruct (admitted_kind CF_H2_HTTP (f s)), (admitted_kind CF_H2_CONTROL (f s)), (admitted_kind CF_H2_CONFIG (f s));
    repeat match goal with H : true = true -> _ |- _ => rewrite (H eq_refl) end;
    destruct (admitted_kind CF_H2_HTTP s), (admitted_kind CF_H2_CONTROL s), (admitted_kind CF_H2_CONFIG s); cbn; lia.
Qed.

(** ** The callbacks without a client *)

(** What the documentation of the library promises about a callback: requests
    open new streams, and headers, data, responses and closings belong to a
    stream, never to the connection. *)
Definition event_ok (h : cf_h2) (e : event) : Prop :=
  match e with
  | BeginHeaders f => headers_cat f = NGHTTP2_HCAT_REQUEST -> hd_stream_id f <> 0 /\ Forall (λ s, s_id s <> hd_stream_id f) (h_streams h)
  | HeaderField _ name value => bytes_ok name /\ bytes_ok value
  | FrameReceived f => hd_type f = NGHTTP2_HEADERS \/ hd_type f = NGHTTP2_DATA -> hd_stream_id f <> 0
  | DataReceived id data => id <> 0 /\ bytes_ok data
  | StreamClosed id _ => id <> 0
  | ReadResponse id buf capacity _ => id <> 0 /\ 0 <= capacity <= zlen buf
  | _ => True
  end.

(** The state behind a callback that returned [rc]. *)
Definition after_event (rc : Z) (h : cf_h2) : Prop :=
  h2_inv h /\ (arriving h \/ rc = NGHTTP2_ERR_CALLBACK_FAILURE /\ h_error h <> CF_OK).

Lemma after_refuse h id e : h2_inv h -> arriving h -> after_event (fst (refuse h id e)) (snd (refuse h id e)).
Proof.
  intros Hi Ha; destruct (refuse_spec h id e) as (h' & Hr & [[-> _]|[-> He]]); cbn [fst snd]; (split; [by eapply inv_rel|]).
  - left; by eapply arriving_rel.
  - by right.
Qed.

Lemma arriving_none h : h2_inv h -> arriving (with_header_stream 0 h).
Proof. intros _; apply Forall_forall; intros s _ H0 Hne; by cbn in H0. Qed.

Lemma begin_headers_spec h f : h2_inv h -> arriving h -> event_ok h (BeginHeaders f) ->
  after_event (fst (begin_headers h f)) (snd (begin_headers h f)).
Proof.
  intros Hi Ha Hev; unfold begin_headers; cbn [event_ok] in Hev; pose proof (arriving_none h Hi) as Ha0.
  apply (inv_header_stream 0) in Hi; set (h0 := with_header_stream 0 h) in *.
  destruct (Z.eqb_spec (headers_cat f) NGHTTP2_HCAT_REQUEST) as [Hcat|]; cbn [negb]; [|by apply after_refuse].
  destruct (Hev Hcat) as [Hid Hfresh]; destruct (find_stream h0 0) as [i|] eqn:Ef; [|by apply after_refuse].
  destruct (find_stream_Some _ _ _ Ef) as (s & Hs & _ & Hs0); cbn [fst snd].
  set (new := Stream (hd_stream_id f) CF_H2_HTTP false false false false (h_now_ms h0)).
  assert (in_use s = false /\ in_use new = true) as [Hu Hu'] by (unfold in_use; cbn; lia).
  pose proof (active_update h0 i (λ _, new) s Hs) as Hact; rewrite Hu, Hu' in Hact; cbn in Hact.
  pose proof (count_bounds in_use (alter (λ _, new) i (h_streams h0))) as Hbound; unfold zlen in Hbound; rewrite length_alter in Hbound.
  assert (admission (update_stream i (λ _, new) h0)) as Hadm.
  { apply (admission_update h0 i _ s Hs); [intros k; unfold admitted_kind; cbn; by rewrite andb_false_r|apply Hi]. }
  destruct Hi as [G1 G2 G3 G4 G5 G6 G7 G8 G9 G10 G11 G12]; rewrite G1 in Hbound; unfold STREAMS in Hbound.
  split.
  - split; try done; cbn [h_streams h_stats h_headers h_header_used with_arena with_header_stream with_stats active_streams set_counts update_stream with_streams].
    + by rewrite length_alter.
    + change (h_streams h0) with (h_streams h) in *; change (h_stats h0) with (h_stats h) in *.
      rewrite (wrap_small 32) by (change (2 ^ 32) with 4294967296; lia); lia.
    + by apply (Forall_update _ h0).
    + rewrite ids_replace; apply unique_insert; [done|]; right; rewrite list_elem_of_fmap; intros (x & Hx & Hin); rewrite Forall_forall in Hfresh; by apply (Hfresh x).
  - left; unfold arriving; cbn [h_streams h_header_stream with_arena with_header_stream with_stats update_stream with_streams].
    apply (Forall_update _ h0); [|intros; by left]; eapply Forall_impl; [exact Hfresh|]; intros x Hx Hx'; done.
Qed.

(** The fields an entry stands for. *)
Definition ref_text (h : cf_h2) (r : header_ref) : list Z * list Z :=
  (sub (h_header_bytes h) (n_off r) (n_len r), sub (h_header_bytes h) (v_off r) (v_len r)).

Definition block (h : cf_h2) : list (list Z * list Z) := map (ref_text h) (h_headers h).

Lemma seen_spec h refs name used : zlen (h_header_bytes h) = CF_H2_HEADER_BYTES -> used <= CF_H2_HEADER_BYTES -> Forall (ref_in used) refs ->
  seen h refs name = Some (bool_decide (name ∈ map fst (map (ref_text h) refs))).
Proof.
  intros Hz Hu; induction 1 as [|r refs (H1 & H2 & H3 & _) _ IH]; cbn [seen map]; [by rewrite bool_decide_eq_false_2 by apply not_elem_of_nil|].
  cbn [ref_text fst]; assert ((if n_len r =? zlen name then x ← slice (h_header_bytes h) (n_off r) (n_len r); Some (bool_decide (x = name)) else Some false)
    = Some (bool_decide (sub (h_header_bytes h) (n_off r) (n_len r) = name))) as ->.
  { destruct (Z.eqb_spec (n_len r) (zlen name)) as [E|E].
    - by rewrite slice_sub by lia.
    - rewrite bool_decide_eq_false_2; [done|]; intros <-; apply E; symmetry; apply zlen_sub; lia. }
  cbn [mbind option_bind]; destruct (decide (sub (h_header_bytes h) (n_off r) (n_len r) = name)) as [E|E].
  - by rewrite (bool_decide_eq_true_2 _ E), bool_decide_eq_true_2 by (rewrite E; apply elem_of_cons; by left).
  - rewrite (bool_decide_eq_false_2 _ E), IH; f_equal; apply bool_decide_ext; rewrite elem_of_cons; split; [by right|intros [?|?]; [congruence|done]].
Qed.

(** The total size of fields. *)
Definition fields_size (hs : list (list Z * list Z)) : Z := foldr (λ p n, zlen p.1 + zlen p.2 + n) 0 hs.

(** Another field fits behind those of the block. *)
Definition fits (h : cf_h2) (name value : list Z) : Prop :=
  zlen (h_headers h) < CF_H2_HEADER_MAX /\ h_header_used h + zlen name + zlen value <= CF_H2_HEADER_BYTES /\
  (is_single name = true -> name ∉ map fst (block h)).

(** [on_header] on the stream whose headers arrive. *)
Lemma on_header_spec h f name value : h2_inv h -> hd_stream_id f = h_header_stream h -> bytes_ok name -> bytes_ok value ->
  (fits h name value /\ exists bytes r, on_header h f name value = Some (0, with_arena bytes (h_headers h ++ [r]) (h_header_used h + zlen name + zlen value) h) /\
     zlen bytes = CF_H2_HEADER_BYTES /\ bytes_ok bytes /\ ref_in (h_header_used h + zlen name + zlen value) r /\
     block (with_arena bytes (h_headers h ++ [r]) (h_header_used h + zlen name + zlen value) h) = block h ++ [(name, value)]) \/
  (~ fits h name value /\ on_header h f name value = Some (reject_header h f)).
Proof.
  intros [G1 G2 G3 G4 [G5 G5'] G6 [G7 G7'] G8 G9 G10 G11 G12] Hid Hn Hv; unfold on_header, fits, CF_H2_HEADER_BYTES, CF_H2_HEADER_MAX in *.
  rewrite Hid, Z.eqb_refl; cbn [negb]; pose proof (zlen_nonneg name); pose proof (zlen_nonneg value).
  rewrite !(wrap_small 32 (8192 - _)) by (change (2 ^ 32) with 4294967296; lia).
  destruct ((zlen (h_headers h) =? 48) || (8192 - h_header_used h <? zlen name)) eqn:E1; cbn [orb].
  { right; split; [intros (? & ? & _); lia|done]. }
  rewrite (wrap_small 32) by (change (2 ^ 32) with 4294967296; lia); destruct (Z.ltb_spec (8192 - h_header_used h - zlen name) (zlen value)) as [E2|E2].
  { right; split; [intros (? & ? & _); lia|done]. }
  assert ((if is_single name then seen h (h_headers h) name else Some false) =
    Some (is_single name && bool_decide (name ∈ map fst (block h)))) as ->.
  { destruct (is_single name); [|done]; by apply (seen_spec _ _ _ (h_header_used h)); [|unfold CF_H2_HEADER_BYTES; lia|]. }
  cbn [mbind option_bind]; destruct (is_single name && bool_decide (name ∈ map fst (block h))) eqn:Es.
  { right; apply andb_true_iff in Es as [Es Ein]; apply bool_decide_eq_true_1 in Ein; split; [|done]; intros (_ & _ & H'); by apply H'. }
  left; split.
  { split; [unfold zlen in *; lia|]; split; [lia|]; intros Hs Hin; rewrite Hs, bool_decide_eq_true_2 in Es by done; done. }
  destruct (blit_Some (h_header_bytes h) (h_header_used h) name) as [b1 Hb1]; [lia|lia|]; rewrite Hb1; cbn [mbind option_bind].
  pose proof (zlen_blit _ _ _ _ Hb1); rewrite !(wrap_small 32) by (change (2 ^ 32) with 4294967296; lia).
  destruct (blit_Some b1 (h_header_used h + zlen name) value) as [b2 Hb2]; [lia|lia|]; rewrite Hb2; cbn [mbind option_bind].
  pose proof (zlen_blit _ _ _ _ Hb2).
  do 2 eexists; split; [done|]; split; [lia|]; split; [by eapply blit_bytes, Hv; [exact Hb2|eapply blit_bytes; eauto]|]; split; [split; cbn; lia|].
  unfold block; cbn [h_headers with_arena]; rewrite map_app; cbn [map]; f_equal.
  - apply map_ext_in; intros r Hr; apply list_elem_of_In in Hr; rewrite Forall_forall in G7'; destruct (G7' r Hr) as (? & ? & ? & ? & ? & ?).
    unfold ref_text; cbn [h_header_bytes with_arena]; rewrite !(sub_blit_before _ _ _ _ _ _ Hb2), !(sub_blit_before _ _ _ _ _ _ Hb1) by lia; done.
  - unfold ref_text; cbn [h_header_bytes with_arena n_off n_len v_off v_len]; rewrite (sub_blit_before _ _ _ _ _ _ Hb2) by lia.
    by rewrite (sub_blit_at _ _ _ _ Hb1), (sub_blit_at _ _ _ _ Hb2).
Qed.

Lemma on_header_after h f name value : h2_inv h -> arriving h -> bytes_ok name -> bytes_ok value ->
  exists rc h', on_header h f name value = Some (rc, h') /\ after_event rc h'.
Proof.
  intros Hi Ha Hn Hv; destruct (Z.eqb_spec (h_header_stream h) (hd_stream_id f)) as [E|E].
  2: { exists 0, h; unfold on_header; replace (h_header_stream h =? hd_stream_id f) with false by lia; cbn [negb]; split; [done|]; split; auto. }
  destruct (on_header_spec h f name value Hi (eq_sym E) Hn Hv) as [[Hfit (bytes & r & -> & Hz & Hb & Hr & _)]|[_ ->]].
  - do 2 eexists; split; [done|]; split; [|by left]; destruct Hfit as (Hc & Hs & _); pose proof (zlen_nonneg name); pose proof (zlen_nonneg value).
    destruct Hi as [G1 G2 G3 G4 G5 G6 [G7 G7'] G8 G9 G10 G11 G12]; split; try done; cbn [h_header_used h_headers with_arena]; [lia|].
    split; [rewrite zlen_app; change (zlen [r]) with 1; lia|]; apply Forall_app; split; [|by constructor].
    eapply Forall_impl; [exact G7'|]; intros r' (? & ? & ? & ? & ? & ?); split_and!; lia.
  - unfold reject_header; pose proof (after_refuse (with_header_stream 0 h) (hd_stream_id f) NGHTTP2_ENHANCE_YOUR_CALM
      (inv_header_stream 0 h Hi) (arriving_none h Hi)) as H'.
    destruct (refuse _ _ _) as [rc h']; by exists rc, h'.
Qed.

Lemma sent_frame_after h f : h2_inv h -> arriving h -> exists h', sent_frame h f = Some (0, h') /\ after_event 0 h'.
Proof.
  intros Hi Ha; unfold sent_frame; destruct (hd_type f =? NGHTTP2_GOAWAY); [|exists h; split; [done|]; split; auto].
  unfold closing_goaway; set (n := if 64 <=? zlen (goaway_opaque_data f) then 63 else zlen (goaway_opaque_data f)).
  pose proof (zlen_nonneg (goaway_opaque_data f)); assert (0 <= n <= 63 /\ n <= zlen (goaway_opaque_data f)) as [Hn Hn'] by (unfold n; case_if; lia).
  pose proof (hi_reason h Hi) as [Hreason _]; rewrite slice_sub by lia; cbn [mbind option_bind].
  assert (zlen (sub (goaway_opaque_data f) 0 n) = n) as Hz by (apply zlen_sub; lia).
  destruct (blit_Some (local_goaway_reason (h_stats h)) 0 (sub (goaway_opaque_data f) 0 n)) as [r1 Hr1]; [lia|lia|]; rewrite Hr1; cbn [mbind option_bind].
  pose proof (zlen_blit _ _ _ _ Hr1); unfold wr; destruct (blit_Some r1 n [0]) as [r2 Hr2]; [lia|change (zlen [0]) with 1; lia|]; rewrite Hr2; cbn [mbind option_bind].
  pose proof (zlen_blit _ _ _ _ Hr2); eexists; split; [done|]; split; [apply inv_stats; cbn; [done| |done]|by left].
  split; [lia|]; destruct (blit_parts _ _ _ _ Hr2) as (a & b & c & _ & -> & _); rewrite !elem_of_app, list_elem_of_singleton; auto.
Qed.
End Spec.

(** ** What the session relies on in its client *)

(** The client keeps its own invariant, always returns, only calls operations
    of the session, and fills no more than the buffer it is given. *)
Class H2ClientLaws `{H2Client} := {
  client_ok : client -> Prop;
  request_law a h r hs : client_ok a -> h2_inv h -> r_stream r <> 0 -> Forall2 entry_denotes (r_headers r) hs ->
    exists rc a' h', client_request a h r = Some (rc, a', h') /\ client_ok a' /\ rtc client_op h h';
  data_law a h id b l e : client_ok a -> h2_inv h -> id <> 0 -> denotes b l -> zlen l <= CF_H2_CHUNK ->
    exists rc a' h', client_data a h id b e = Some (rc, a', h') /\ client_ok a' /\ rtc client_op h h';
  read_law a h id buf cap : client_ok a -> h2_inv h -> id <> 0 -> 0 <= cap <= zlen buf -> cap <= CF_H2_CHUNK ->
    exists rc buf' n eof a' h', client_read a h id buf cap = Some (rc, buf', n, eof, a', h') /\
      client_ok a' /\ rtc client_op h h' /\ zlen buf' = zlen buf;
  closed_law a h id e : client_ok a -> h2_inv h -> id <> 0 ->
    exists a' h', client_closed a h id e = Some (a', h') /\ client_ok a' /\ rtc client_op h h'
}.

Section ClientSpec.
Context `{H2ClientLaws}.

Lemma ops_rel h h' : rtc client_op h h' -> h2_inv h -> h2_rel h h'.
Proof. intros Hops Hi; exact (client_ops_rel _ _ Hops (hi_serialized h Hi)). Qed.

(** A callback that returns, with the client in order. *)
Definition event_post (r : option (Z * client * cf_h2)) : Prop :=
  exists rc a h, r = Some (rc, a, h) /\ client_ok a /\ after_event rc h.

Lemma post_ok a h rc : client_ok a -> h2_inv h -> arriving h -> event_post (Some (rc, a, h)).
Proof. intros Ha Hi Hr; exists rc, a, h; split; [done|]; split; [done|]; split; auto. Qed.

Lemma post_refuse a h id e : client_ok a -> h2_inv h -> arriving h -> event_post (let '(rc, h) := refuse h id e in Some (rc, a, h)).
Proof. intros Ha Hi Hr; pose proof (after_refuse h id e Hi Hr); destruct (refuse h id e) as [rc h']; by exists rc, a, h'. Qed.

Lemma denotes_null_bytes : denotes null_bytes [].
Proof. split; [constructor|by split]. Qed.

Lemma end_of_stream_post a h i f : client_ok a -> h2_inv h -> arriving h ->
  (hd_type f = NGHTTP2_HEADERS \/ hd_type f = NGHTTP2_DATA -> s_id (slot h i) <> 0) -> event_post (end_of_stream a h i f).
Proof.
  intros Ha Hi Hr Hid; unfold end_of_stream; destruct (_ && has_flag f NGHTTP2_FLAG_END_STREAM) eqn:E; [|by apply post_ok].
  apply andb_true_iff in E as [E%orb_true_iff _]; rewrite !Z.eqb_eq in E.
  destruct (data_law a h (s_id (slot h i)) null_bytes [] true Ha Hi (Hid E) denotes_null_bytes ltac:(done)) as (rc & a' & h' & -> & Ha' & Hops); cbn [mbind option_bind].
  pose proof (ops_rel _ _ Hops Hi) as Hrel; unfold unless_refused; destruct (is_ok rc); cbn [negb].
  - apply post_ok; [done|by eapply inv_rel|by eapply arriving_rel].
  - apply post_refuse; [done|by eapply inv_rel|by eapply arriving_rel].
Qed.

(** The upgrade field decides the kind. *)
Definition kind_of (upgrade : list Z) : option cf_h2_kind :=
  if bool_decide (upgrade = lit "control-stream") then Some CF_H2_CONTROL
  else if bool_decide (upgrade = lit "update-configuration") then Some CF_H2_CONFIG
  else if zlen upgrade =? 0 then Some CF_H2_HTTP else None.

Lemma request_kind_spec b l : denotes b l -> request_kind b = Some (kind_of l).
Proof.
  intros Hb; unfold request_kind, kind_of; rewrite !(equals_spec _ _ _ Hb) by done; cbn [mbind option_bind].
  destruct (bool_decide (l = lit "control-stream")); [done|]; cbn [mbind option_bind]; destruct (bool_decide (l = lit "update-configuration")); [done|].
  rewrite (denotes_len _ _ Hb); by destruct (zlen l =? 0).
Qed.

(** The first field of a name. *)
Definition first_field (hs : list (list Z * list Z)) (name : list Z) : list Z :=
  match list_find (λ p, p.1 = name) hs with Some (_, p) => p.2 | None => [] end.

Lemma header_loop_spec es hs name : Forall2 entry_denotes es hs -> name <> [] ->
  exists b, header_loop es name = Some b /\ denotes b (first_field hs name).
Proof.
  intros Hes Hne; unfold first_field; induction Hes as [|e [n v] es hs [Hn Hv] _ (b & Hb & IH)]; cbn [header_loop list_find].
  - exists null_bytes; split; [done|apply denotes_null_bytes].
  - cbn [fst snd] in *; rewrite (equals_spec _ _ _ Hn Hne); cbn [mbind option_bind]; destruct (decide (n = name)) as [E|E].
    + rewrite bool_decide_eq_true_2 by done; by exists (h_value e).
    + rewrite bool_decide_eq_false_2 by done; exists b; split; [done|]; destruct (list_find _ hs) as [[j p]|]; done.
Qed.

Lemma header_views h : h2_inv h -> exists es, mapM (header_view h) (h_headers h) = Some es /\ Forall2 entry_denotes es (block h).
Proof.
  intros [_ _ _ _ [Hz Hb] Hu [_ Hrefs] _ _ _ _ _]; unfold block; generalize (h_headers h), Hrefs; intros refs; clear Hrefs.
  induction 1 as [|r refs (Hr1 & Hr2 & Hr3 & Hr4 & Hr5 & Hr6) _ (es & Hes & IH)]; [by exists []|].
  assert (forall o n, 0 <= o -> 0 <= n -> o + n <= h_header_used h -> exists b, badd (Bytes (Some (h_header_bytes h)) 0) o n = Some b /\
    denotes b (sub (h_header_bytes h) o n)) as Hview.
  { intros o n Ho Hn Hon; unfold badd; cbn [ptr]; replace ((0 <=? o) && (o <=? zlen (h_header_bytes h))) with true by lia.
    eexists; split; [done|]; split; [by apply sub_ok|]; split; [cbn; symmetry; apply zlen_sub; lia|].
    exists (drop (Z.to_nat n) (drop (Z.to_nat o) (h_header_bytes h))); unfold sub; by rewrite take_drop. }
  destruct (Hview (n_off r) (n_len r)) as (bn & Hbn & Hdn); [lia..|]; destruct (Hview (v_off r) (v_len r)) as (bv & Hbv & Hdv); [lia..|].
  exists (Header bn bv :: es); split; [|constructor; [by split|done]].
  assert (header_view h r = Some (Header bn bv)) as Hhv by (unfold header_view; rewrite Hbn; cbn [mbind option_bind]; by rewrite Hbv).
  cbn [mapM]; rewrite Hhv; cbn [mbind option_bind]; by rewrite Hes.
Qed.

(** Admitting the stream whose headers are complete. *)
Lemma admit_inv h i s k : h2_inv h -> h_streams h !! i = Some s -> (s_id s <> 0 -> s_headers_done s = false) -> s_reset s = false ->
  kind_count (update_stream i (set_kind k) h) k < (match k with CF_H2_HTTP => h_app_limit h | _ => 1 end) ->
  h2_inv (update_stream i set_headers_done (update_stream i (set_kind k) h)).
Proof.
  intros Hi Hs Hdone Hreset Hroom.
  assert (h_streams (update_stream i (set_kind k) h) !! i = Some (set_kind k s)) as Hs1.
  { unfold update_stream; cbn [h_streams with_streams]; by rewrite list_lookup_alter, decide_True, Hs by done. }
  assert (forall k', admitted_kind k' (set_kind k s) = false /\ admitted_kind k' s = false) as Hnot.
  { intros k'; unfold admitted_kind; cbn; destruct (Z.eqb_spec (s_id s) 0); [done|]; by rewrite Hdone. }
  assert (h2_inv (update_stream i (set_kind k) h)) as Hi1.
  { apply (inv_update h i _ s Hs); [done| |apply (Forall_lookup_1 _ _ _ _ (hi_response h Hi) Hs)|done].
    apply (admission_update h i _ s Hs); [|apply Hi]; intros k'; by rewrite (proj1 (Hnot k')). }
  apply (inv_update _ i _ _ Hs1); [done| |done|done].
  pose proof (hi_admission _ Hi1) as Hadm; unfold admission in *; rewrite !(kind_count_update _ i _ _ _ Hs1), (proj1 (Hnot CF_H2_HTTP)), (proj1 (Hnot CF_H2_CONTROL)), (proj1 (Hnot CF_H2_CONFIG)).
  change (h_app_limit (update_stream i set_headers_done (update_stream i (set_kind k) h))) with (h_app_limit h).
  change (h_app_limit (update_stream i (set_kind k) h)) with (h_app_limit h) in Hadm.
  assert (forall k', b2z (admitted_kind k' (set_headers_done (set_kind k s))) <= b2z (bool_decide (k = k'))) as Hle.
  { intros k'; unfold admitted_kind; cbn; destruct (s_id s =? 0), (bool_decide (k = k')); cbn; try lia; destruct (s_reset s); cbn; lia. }
  pose proof (Hle CF_H2_HTTP); pose proof (Hle CF_H2_CONTROL); pose proof (Hle CF_H2_CONFIG).
  destruct k; repeat case_bool_decide; simplify_eq; cbn [b2z] in *; lia.
Qed.
End ClientSpec.
