(* ===== verification/H2Run.v ===== *)
(** The HTTP/2 session with its client: the callbacks that call it, calls into
    the library as sequences of callbacks, and what each operation keeps. *)
From stdpp Require Import gmap.
From S2P Require Export H2Spec.
#[local] Open Scope Z_scope.

Section Run.
Context `{H2ClientLaws}.

(** ** Requests *)

Definition upgrade_name : list Z := lit "cf-cloudflared-proxy-connection-upgrade".

(** Streams of a kind served at a time. *)
Definition kind_limit (h : cf_h2) (k : cf_h2_kind) : Z := match k with CF_H2_HTTP => h_app_limit h | _ => 1 end.

(** The slot [i] admitted as a stream of kind [k]. *)
Definition admitting (i : nat) (k : cf_h2_kind) (h : cf_h2) : cf_h2 := update_stream i set_headers_done (update_stream i (set_kind k) h).

(** The request a complete block of headers makes: refused for an unknown
    upgrade or when its kind is at its limit, and given to the client with the
    fields of the block otherwise. *)
Lemma request_complete_eq a h i f : h2_inv h -> exists es, Forall2 entry_denotes es (block h) /\
  request_complete a h i f =
    match kind_of (first_field (block h) upgrade_name) with
    | None => let '(rc, h) := refuse h (s_id (slot h i)) NGHTTP2_REFUSED_STREAM in Some (rc, a, h)
    | Some k =>
        let h1 := update_stream i (set_kind k) h in
        if kind_limit h k <=? kind_count h1 k
        then let '(rc, h) := refuse h1 (s_id (slot h i)) NGHTTP2_REFUSED_STREAM in Some (rc, a, h)
        else
          '(r, a, h2) ← client_request a (admitting i k h) (Request (s_id (slot h i)) k es (has_flag f NGHTTP2_FLAG_END_STREAM));
          unless_refused r a h2 (s_id (slot h i)) NGHTTP2_REFUSED_STREAM (
            bytes ← cf_secure_zero (h_header_bytes h2) (h_header_used h2);
            end_of_stream a (with_header_stream 0 (with_arena bytes (h_headers h2) (h_header_used h2) h2)) i f)
    end.
Proof.
  intros Hi; destruct (header_views h Hi) as (es & Hes & Hd); exists es; split; [done|].
  unfold request_complete; rewrite Hes; cbn [mbind option_bind]; unfold cf_h2_header; cbn [r_headers].
  destruct (header_loop_spec es (block h) upgrade_name Hd) as (b & Hb & Hdb); [done|]; unfold upgrade_name in Hb; rewrite Hb; cbn [mbind option_bind].
  rewrite (request_kind_spec _ _ Hdb); cbn [mbind option_bind]; by destruct (kind_of _) as [k|].
Qed.

(** A change of kind alone keeps the invariant of a slot that is not admitted. *)
Lemma kind_inv h i s k : h2_inv h -> h_streams h !! i = Some s -> s_headers_done s = false \/ s_id s = 0 ->
  h2_inv (update_stream i (set_kind k) h).
Proof.
  intros Hi Hs Hdone; apply (inv_update h i _ s Hs); [done| |apply (Forall_lookup_1 _ _ _ _ (hi_response h Hi) Hs)|done].
  apply (admission_update h i _ s Hs); [|apply Hi]; intros k'; unfold admitted_kind; cbn.
  destruct Hdone as [-> | ->]; [by rewrite andb_false_r|done].
Qed.

Lemma kind_arriving h i k : arriving h -> arriving (update_stream i (set_kind k) h).
Proof. intros Ha; apply (Forall_update _ h); auto. Qed.

(** The other slots keep what [arriving] says; the reset one has it too. *)
Lemma arriving_reset h h' i s : arriving h -> h_streams h !! i = Some s -> h2_rel (update_stream i set_headers_done h) h' ->
  s_reset (slot h' i) = true -> arriving h'.
Proof.
  intros Ha Hs Hrel Hre; unfold arriving in *; rewrite (hr_stream _ _ Hrel); change (h_header_stream (update_stream i set_headers_done h)) with (h_header_stream h).
  apply Forall_lookup; intros j t Ht Hid Hne.
  destruct (Forall2_lookup_r _ _ _ _ _ (hr_streams _ _ Hrel) Ht) as (u & Hu & [Ei _ Ed Er _]).
  destruct (decide (j = i)) as [->|Hj]; [right; unfold slot in Hre; by rewrite Ht in Hre|].
  unfold update_stream in Hu; cbn [h_streams with_streams] in Hu; rewrite list_lookup_alter, decide_False in Hu by done.
  rewrite Forall_lookup in Ha; destruct (Ha j u Hu) as [?|?]; [congruence..| |]; [left; congruence|right; auto].
Qed.

(** Erasing the block keeps the invariant. *)
Lemma erase_inv h bytes x : h2_inv h -> cf_secure_zero (h_header_bytes h) (h_header_used h) = Some bytes ->
  h2_inv (with_header_stream x (with_arena bytes (h_headers h) (h_header_used h) h)).
Proof.
  intros [G1 G2 G3 G4 [G5 G5'] G6 G7 G8 G9 G10 G11 G12] Hb; split; try done; cbn [h_header_bytes with_arena with_header_stream].
  rewrite cf_secure_zero_spec in Hb by lia; split; [by rewrite (zlen_blit _ _ _ _ Hb)|]; eapply blit_bytes; [exact Hb|done|].
  apply Forall_replicate; unfold is_byte; lia.
Qed.

Lemma erase_Some h : h2_inv h -> exists bytes, cf_secure_zero (h_header_bytes h) (h_header_used h) = Some bytes.
Proof.
  intros [_ _ _ _ [G5 _] G6 _ _ _ _ _ _]; rewrite cf_secure_zero_spec by lia; apply blit_Some; [lia|]; unfold zlen in *; rewrite length_replicate; lia.
Qed.

(** ** The callbacks keep the invariant *)

Lemma zero_arriving h : arriving (with_header_stream 0 h).
Proof. apply Forall_forall; intros s _ H' Hne; by cbn in H'. Qed.

Lemma request_complete_post a h i f : client_ok a -> h2_inv h -> arriving h -> find_stream h (hd_stream_id f) = Some i ->
  s_reset (slot h i) = false -> h_header_stream h = hd_stream_id f -> hd_stream_id f <> 0 -> event_post (request_complete a h i f).
Proof.
  intros Ha Hi Hr Hf Hre Hst Hnz; destruct (request_complete_eq a h i f Hi) as (es & Hes & ->).
  destruct (find_stream_Some _ _ _ Hf) as (s & Hs & Hslot & Hid); rewrite Hslot in *.
  destruct (kind_of _) as [k|]; [|by apply post_refuse].
  assert (s_id s <> 0 -> s_headers_done s = false) as Hdone.
  { intros Hne; unfold arriving in Hr; rewrite Forall_lookup in Hr; destruct (Hr i s Hs); congruence. }
  assert (h2_inv (update_stream i (set_kind k) h)) as Hik.
  { apply (kind_inv h i s); [done..|]; destruct (decide (s_id s = 0)); auto. }
  cbn zeta; destruct (Z.leb_spec (kind_limit h k) (kind_count (update_stream i (set_kind k) h) k)) as [Hfull|Hroom].
  { apply post_refuse; [done|done|by apply kind_arriving]. }
  pose proof (admit_inv h i s k Hi Hs Hdone Hre Hroom) as Hadm; fold (admitting i k h) in Hadm.
  destruct (request_law a (admitting i k h) (Request (s_id s) k es (has_flag f NGHTTP2_FLAG_END_STREAM)) (block h) Ha Hadm ltac:(cbn; congruence) Hes) as (r & a2 & h2 & -> & Ha2 & Hops).
  cbn [mbind option_bind]; pose proof (ops_rel _ _ Hops Hadm) as Hrel; pose proof (inv_rel _ _ Hrel Hadm) as Hi2.
  unfold unless_refused; destruct (is_ok r); cbn [negb].
  - destruct (erase_Some h2 Hi2) as [bytes Hb]; rewrite Hb; cbn [mbind option_bind].
    apply end_of_stream_post; [done|by apply erase_inv|apply zero_arriving|]; intros _.
    assert (h_streams (admitting i k h) !! i = Some (set_headers_done (set_kind k s))) as Hs'.
    { unfold admitting, update_stream; cbn [h_streams with_streams]; by rewrite list_lookup_alter, decide_True, list_lookup_alter, decide_True, Hs by done. }
    destruct (slot_rel_at _ _ _ _ Hrel Hs') as (s2 & _ & Hslot2 & [E2 _ _ _ _]); change (slot (with_header_stream 0 _) i) with (slot h2 i); cbn in E2; congruence.
  - destruct (refuse_spec h2 (s_id s) NGHTTP2_REFUSED_STREAM) as (h3 & Hr3 & [[-> Hset]|[-> He]]); do 3 eexists; (split; [done|]); (split; [done|]);
      (split; [by eapply inv_rel|]); [left|by right].
    assert (find_stream h2 (s_id s) = Some i) as Hf2.
    { rewrite (find_stream_rel _ _ _ (hr_streams _ _ Hrel)); unfold admitting; rewrite !find_stream_update by done; by rewrite Hid. }
    apply (arriving_reset (update_stream i (set_kind k) h) h3 i (set_kind k s)); [by apply kind_arriving| |by etrans|by apply Hset].
    unfold update_stream; cbn [h_streams with_streams]; by rewrite list_lookup_alter, decide_True, Hs by done.
Qed.

Lemma received_frame_post a h f : client_ok a -> h2_inv h -> arriving h -> event_ok h (FrameReceived f) -> event_post (received_frame a h f).
Proof.
  intros Ha Hi Hr Hev; unfold received_frame; set (g := with_stats (frame_stats f) h).
  assert (h2_rel h g) as Hg by (apply stats_rel; unfold frame_stats; destruct (_ && _), (hd_type f =? NGHTTP2_GOAWAY); done).
  assert (h2_inv g) as Hig by (by eapply inv_rel); assert (arriving g) as Hrg by (by eapply arriving_rel).
  change (find_stream h (hd_stream_id f)) with (find_stream g (hd_stream_id f)).
  destruct (find_stream g (hd_stream_id f)) as [i|] eqn:Ef; [|by apply post_ok].
  destruct (s_reset (slot g i)) eqn:Ere; [by apply post_ok|]; destruct (find_stream_Some _ _ _ Ef) as (s & Hs & Hslot & Hid).
  destruct (_ && _) eqn:E; [|apply end_of_stream_post; [done..|]; rewrite Hslot, Hid; exact Hev].
  apply andb_true_iff in E as [Et E]; apply request_complete_post; try done; [lia|]; apply Hev; left; lia.
Qed.

(** ** Data *)

(** Pieces given to the client in order, until it refuses one. *)
Fixpoint feed (a : client) (h : cf_h2) (id : Z) (pieces : list cf_bytes) : option (bool * client * cf_h2) :=
  match pieces with
  | [] => Some (true, a, h)
  | v :: pieces =>
      '(r, a, h) ← client_data a h id v false;
      if negb (is_ok r) then
        let '(rc, h') := cf_h2_reset (Some h) id NGHTTP2_CANCEL in Some (is_ok rc, a, default h h')
      else feed a h id pieces
  end.

(** The loop gives the data in pieces of at most a chunk. *)
Lemma data_loop_feed fuel id data offset : bytes_ok data -> 0 <= offset <= zlen data -> zlen data - offset <= Z.of_nat fuel ->
  exists views pieces, Forall2 denotes views pieces /\ concat pieces = drop (Z.to_nat offset) data /\
    Forall (λ l, 1 <= zlen l <= CF_H2_CHUNK) pieces /\ forall a h, data_loop fuel a h id data offset = feed a h id views.
Proof.
  intros Hd; revert offset; induction fuel as [|fuel IH]; intros offset Hoff Hfuel.
  - exists [], []; split; [constructor|]; assert (offset = zlen data) as -> by lia; split; [symmetry; apply drop_ge; unfold zlen; lia|].
    split; [constructor|]; intros a h; cbn [data_loop]; by rewrite Z.ltb_irrefl.
  - destruct (Z.ltb_spec offset (zlen data)) as [Hlt|].
    2: { exists [], []; split; [constructor|]; assert (offset = zlen data) as -> by lia; split; [symmetry; apply drop_ge; unfold zlen; lia|].
      split; [constructor|]; intros a h; cbn [data_loop]; by rewrite Z.ltb_irrefl. }
    set (n := if CF_H2_CHUNK <? zlen data - offset then CF_H2_CHUNK else zlen data - offset).
    assert (1 <= n <= CF_H2_CHUNK /\ n <= zlen data - offset) as [Hn Hn'] by (unfold n, CF_H2_CHUNK; case_if; lia).
    destruct (IH (offset + n)) as (views & pieces & Hv & Hc & Hp & Heq); [lia..|].
    exists (Bytes (Some (drop (Z.to_nat offset) data)) n :: views), (sub data offset n :: pieces).
    assert (zlen (sub data offset n) = n) as Hz by (apply zlen_sub; lia).
    split; [|split; [|split]].
    + constructor; [|done]; split; [by apply sub_ok|]; split; [by rewrite Hz|].
      exists (drop (Z.to_nat n) (drop (Z.to_nat offset) data)); unfold sub; by rewrite take_drop.
    + cbn [concat]; rewrite Hc; unfold sub; rewrite Z2Nat.inj_add by lia; rewrite <- drop_drop; apply take_drop.
    + constructor; [by rewrite Hz|done].
    + intros a h; cbn [data_loop feed]; replace (offset <? zlen data) with true by lia; cbn [negb]; fold n.
      unfold badd; cbn [ptr]; replace ((0 <=? offset) && (offset <=? zlen data)) with true by lia; cbn [mbind option_bind].
      destruct (client_data _ _ _ _ _) as [[[r a'] h']|]; [|done]; cbn [mbind option_bind]; destruct (is_ok r); cbn [negb]; [apply Heq|done].
Qed.

Lemma feed_post a h id views pieces : Forall2 denotes views pieces -> Forall (λ l, 1 <= zlen l <= CF_H2_CHUNK) pieces -> id <> 0 -> client_ok a -> h2_inv h ->
  exists ok a' h', feed a h id views = Some (ok, a', h') /\ client_ok a' /\ h2_rel h h' /\ (ok = false -> h_error h' <> CF_OK).
Proof.
  intros Hv Hp Hid; revert a h; induction Hv as [|v l views pieces Hl _ IH]; intros a h Ha Hi; cbn [feed].
  { exists true, a, h; split; [done|]; by split. }
  apply Forall_cons in Hp as [[_ Hz] Hp]; destruct (data_law a h id v l false Ha Hi Hid Hl Hz) as (r & a1 & h1 & -> & Ha1 & Hops); cbn [mbind option_bind].
  pose proof (ops_rel _ _ Hops Hi) as Hrel; destruct (is_ok r); cbn [negb].
  - destruct (IH Hp a1 h1 Ha1) as (ok & a2 & h2 & -> & Ha2 & Hrel2 & He); [by eapply inv_rel|].
    exists ok, a2, h2; split; [done|]; split; [done|]; split; [by etrans|done].
  - destruct (reset_spec h1 id NGHTTP2_CANCEL) as (rc & h2 & -> & Hrel2 & Hrc).
    exists (is_ok rc), a1, h2; split; [done|]; split; [done|]; split; [by etrans|]; destruct Hrc as [[-> _]|[-> ?]]; done.
Qed.

Lemma library_post a h r : client_ok a -> h2_inv h -> arriving h -> event_post (let '(rc, h) := library_code r h in Some (rc, a, h)).
Proof. intros Ha Hi Hr; unfold library_code; apply post_ok; [done|by apply inv_session|done]. Qed.

Lemma received_data_post a h id data : client_ok a -> h2_inv h -> arriving h -> id <> 0 -> bytes_ok data -> event_post (received_data a h id data).
Proof.
  intros Ha Hi Hr Hid Hd; unfold received_data; destruct (find_stream h id) as [i|]; [|by apply library_post].
  destruct (s_reset (slot h i)); [by apply library_post|].
  destruct (data_loop_feed (length data) id data 0 Hd) as (views & pieces & Hv & _ & Hp & Heq); [pose proof (zlen_nonneg data); lia|unfold zlen; lia|].
  rewrite Heq; destruct (feed_post a h id views pieces Hv Hp Hid Ha Hi) as (ok & a1 & h1 & -> & Ha1 & Hrel & He); cbn [mbind option_bind].
  pose proof (inv_rel _ _ Hrel Hi) as Hi1; destruct ok; cbn [negb].
  - assert (h2_rel h1 (update_stream i (set_progress (h_now_ms h1)) h1)) as Hup by (apply update_rel, set_progress_rel).
    apply library_post; [done|by eapply inv_rel|by eapply arriving_rel, arriving_rel].
  - exists NGHTTP2_ERR_CALLBACK_FAILURE, a1, h1; split; [done|]; split; [done|]; split; [done|]; right; auto.
Qed.

Lemma closed_stream_post a h id e : client_ok a -> h2_inv h -> arriving h -> id <> 0 -> event_post (closed_stream a h id e).
Proof.
  intros Ha Hi Hr Hid; unfold closed_stream; destruct (find_stream h id) as [i|] eqn:Ef; [|by apply post_ok].
  destruct (find_stream_Some _ _ _ Ef) as (s & Hs & _ & Hsid).
  destruct (closed_law a h id e Ha Hi Hid) as (a1 & h1 & -> & Ha1 & Hops); cbn [mbind option_bind].
  pose proof (ops_rel _ _ Hops Hi) as Hrel; pose proof (inv_rel _ _ Hrel Hi) as Hi1; pose proof (arriving_rel _ _ Hrel Hr) as Hr1.
  destruct (slot_rel_at h h1 i s Hrel Hs) as (s1 & Hs1 & _ & [Es1 _ _ _ _]).
  pose proof (active_update h1 i (λ _, free_stream) s1 Hs1) as Hact.
  pose proof (count_bounds in_use (h_streams (update_stream i (λ _, free_stream) h1))) as Hlo.
  pose proof (count_bounds in_use (h_streams h1)) as Hb.
  assert (in_use s1 = true) as Hu by (unfold in_use; lia); rewrite Hu in Hact; change (b2z (in_use free_stream)) with 0 in Hact; cbn in Hact.
  destruct Hi1 as [G1 G2 G3 G4 G5 G6 G7 G8 G9 G10 G11 G12]; unfold zlen in Hb; rewrite G1 in Hb; unfold STREAMS in Hb.
  apply post_ok; [done| |].
  - split; try done; cbn [h_streams h_stats with_stats update_stream with_streams active_streams set_counts].
    + by rewrite length_alter.
    + cbn in Hact, Hlo; rewrite (wrap_small 32) by (change (2 ^ 32) with 4294967296; lia); lia.
    + apply (admission_update h1 i _ s1 Hs1); [intros k; done|done].
    + by apply (Forall_update _ h1).
    + rewrite ids_replace; apply unique_insert; [done|by left].
  - unfold arriving; apply (Forall_update _ h1); [exact Hr1|]; intros x _ _ _ Hne; by destruct Hne.
Qed.

Lemma read_response_post a h id buf cap flags : client_ok a -> h2_inv h -> arriving h -> id <> 0 -> 0 <= cap <= zlen buf ->
  exists n buf' flags' a' h', read_response a h id buf cap flags = Some (n, buf', flags', a', h') /\ client_ok a' /\ after_event n h' /\ zlen buf' = zlen buf.
Proof.
  intros Ha Hi Hr Hid Hcap; unfold read_response.
  assert (forall n h', h2_rel h h' -> after_event n h') as Hafter by (intros n h' Hrel; split; [by eapply inv_rel|left; by eapply arriving_rel]).
  destruct (find_stream h id) as [i|]; [|by do 5 eexists; split_and!; [done|done|by apply Hafter|]].
  destruct (s_reset (slot h i)); [by do 5 eexists; split_and!; [done|done|by apply Hafter|]|].
  assert (h2_rel h (update_stream i (set_deferred false) h)) as Hd by (apply update_rel, set_deferred_rel).
  destruct (read_law a (update_stream i (set_deferred false) h) id buf (if CF_H2_CHUNK <? cap then CF_H2_CHUNK else cap)) as
    (rc & buf' & n & eof & a1 & h1 & -> & Ha1 & Hops & Hz); [done|by eapply inv_rel|done|unfold CF_H2_CHUNK; case_if; lia|case_if; lia|]; cbn [mbind option_bind].
  assert (h2_rel h h1) as Hrel by (etrans; [exact Hd|]; apply ops_rel; [done|by eapply inv_rel]).
  destruct (bool_decide (rc = CF_ERR_STATE) || (is_ok rc && (n =? 0) && negb eof)).
  { do 5 eexists; split; [done|]; split; [done|]; split; [|done]; apply Hafter; etrans; [exact Hrel|apply update_rel, set_deferred_rel]. }
  destruct (negb (is_ok rc) || _); [by do 5 eexists; split_and!; [done|done|by apply Hafter|]|].
  do 5 eexists; split; [done|]; split; [done|]; split; [|done]; apply Hafter; destruct (negb (n =? 0) || eof); [|done].
  etrans; [exact Hrel|apply update_rel, set_progress_rel].
Qed.

Lemma callback_post a h e : client_ok a -> h2_inv h -> arriving h -> event_ok h e -> event_post (callback a h e).
Proof.
  intros Ha Hi Hr He; destruct e as [f|f name value|f|id data|id error|f|code|f code|id buf cap flags]; cbn [callback].
  - pose proof (begin_headers_spec h f Hi Hr He) as Hpost; destruct (begin_headers h f) as [rc h']; by exists rc, a, h'.
  - destruct He as [Hn Hv]; destruct (on_header_after h f name value Hi Hr Hn Hv) as (rc & h' & -> & Hpost); by exists rc, a, h'.
  - by apply received_frame_post.
  - by apply received_data_post; destruct He.
  - by apply closed_stream_post.
  - destruct (sent_frame_after h f Hi Hr) as (h' & -> & Hpost); by exists 0, a, h'.
  - apply post_ok; [done|apply inv_stats; [done|apply Hi|done]|done].
  - unfold invalid_frame; destruct (hd_type f =? NGHTTP2_GOAWAY); (apply post_ok; [done|repeat (apply inv_stats; [done|apply Hi|]); done|done]).
  - destruct (read_response_post a h id buf cap flags Ha Hi Hr (proj1 He) (proj2 He)) as (n & buf' & flags' & a' & h' & -> & Ha' & Hpost & _); by exists n, a', h'.
Qed.

(** ** Calls into the library *)

(** The library makes every callback of a run in a state that fits it. *)
Fixpoint run_ok (a : client) (h : cf_h2) (events : list event) : Prop :=
  match events with
  | [] => True
  | e :: events => event_ok h e /\
      match callback a h e with
      | Some (rc, a', h') => if rc =? NGHTTP2_ERR_CALLBACK_FAILURE then True else run_ok a' h' events
      | None => True
      end
  end.

(** A session that is in order: headers may only be left half admitted when
    the session is in error and refuses input and output. *)
Definition session_ok (h : cf_h2) : Prop := h2_inv h /\ (arriving h \/ h_error h <> CF_OK).

Lemma callbacks_post events a h : client_ok a -> h2_inv h -> arriving h -> run_ok a h events ->
  exists a' h', callbacks a h events = Some (a', h') /\ client_ok a' /\ session_ok h'.
Proof.
  revert a h; induction events as [|e events IH]; intros a h Ha Hi Hr Hrun; cbn [callbacks]; [exists a, h; unfold session_ok; auto|].
  destruct Hrun as [He Hrun]; destruct (callback_post a h e Ha Hi Hr He) as (rc & a1 & h1 & Hcb & Ha1 & Hi1 & Hr1); rewrite Hcb in *; cbn [mbind option_bind].
  destruct (Z.eqb_spec rc NGHTTP2_ERR_CALLBACK_FAILURE) as [Hf|Hf]; [exists a1, h1; split; [done|]; split; [done|]; split; [done|]; destruct Hr1 as [?|[_ ?]]; auto|].
  destruct Hr1 as [Hr1|[? _]]; [by apply IH|done].
Qed.

Lemma ok_rel h h' : h2_rel h h' -> session_ok h -> session_ok h'.
Proof. intros Hrel [Hi Hr]; split; [by eapply inv_rel|]; destruct Hr; [left; by eapply arriving_rel|right; by eapply hr_error]. Qed.

Lemma ok_error h e : e <> CF_OK -> session_ok h -> session_ok (with_error e h).
Proof. intros He; by apply ok_rel, error_rel. Qed.

Lemma ok_session h x : session_ok h -> session_ok (with_session x h).
Proof. apply ok_rel, session_rel. Qed.

Lemma ok_now h x : session_ok h -> session_ok (with_now x h).
Proof. by apply ok_rel. Qed.

Lemma ok_last_error h n : session_ok h -> session_ok (with_stats (set_last_error n) h).
Proof. by apply ok_rel, stats_rel. Qed.

Lemma ok_arriving h : session_ok h -> is_ok (h_error h) = true -> arriving h.
Proof. intros [_ [?|He]] Hok; [done|]; by destruct (h_error h). Qed.

(** An operation with a session: it returns, and the session stays in order. *)
Definition op_post {A : Type} (r : option (A * client * option cf_h2)) : Prop :=
  exists x a h, r = Some (x, a, Some h) /\ client_ok a /\ session_ok h.

Lemma receive_post a h input now run : client_ok a -> session_ok h ->
  (is_ok (h_error h) = true -> run_ok a (with_now now h) (lib_events run)) ->
  op_post (cf_h2_receive a (Some h) input true now run).
Proof.
  intros Ha Hok Hrun; unfold cf_h2_receive; cbn [negb orb]; destruct (null_view input); [by do 3 eexists|].
  pose proof (ok_now h now Hok) as Hn; change (h_error (with_now now h)) with (h_error h); destruct (is_ok (h_error h)) eqn:Ee; cbn [negb]; [|by do 3 eexists].
  destruct (callbacks_post (lib_events run) a (with_now now h) Ha (proj1 Hn) (ok_arriving _ Hn Ee) (Hrun eq_refl)) as (a1 & h1 & -> & Ha1 & Hok1).
  cbn [mbind option_bind]; destruct (lib_result run <? 0); do 3 eexists; (split; [reflexivity|]); (split; [done|]); [|by apply ok_session].
  apply ok_error; [by destruct (_ =? _)|]; by apply ok_last_error, ok_session.
Qed.

Lemma ok_pending h p : in_object p -> session_ok h -> session_ok (with_pending p h).
Proof. intros Hp [[] Hr]; split; [by split|done]. Qed.

Lemma output_post a h run p : client_ok a -> session_ok h ->
  (is_ok (h_error h) = true -> len (h_pending h) = 0 -> run_ok a h (lib_events run)) -> (0 <= lib_result run -> in_object (Bytes p (lib_result run))) ->
  op_post (match cf_h2_output a (Some h) true run p with Some (rc, b, a, h) => Some ((rc, b), a, h) | None => None end).
Proof.
  intros Ha Hok Hrun Hp; unfold cf_h2_output; cbn [negb]; destruct (is_ok (h_error h)) eqn:Ee; cbn [negb]; [|by do 3 eexists].
  destruct (Z.eqb_spec (len (h_pending h)) 0) as [E|E]; [|by do 3 eexists].
  destruct (callbacks_post (lib_events run) a h Ha (proj1 Hok) (ok_arriving _ Hok Ee) (Hrun eq_refl E)) as (a1 & h1 & -> & Ha1 & Hok1).
  cbn [mbind option_bind]; destruct (Z.ltb_spec (lib_result run) 0); do 3 eexists; (split; [reflexivity|]); (split; [done|]).
  - apply ok_error; [by destruct (_ =? _)|]; by apply ok_last_error, ok_session.
  - apply ok_pending; [auto|by apply ok_session].
Qed.

(** What was sent is taken off the front of the pending output. *)
Lemma sent_spec h n : h2_inv h -> 0 <= n -> len (h_pending h) < 2 ^ 32 -> exists rc h', cf_h2_sent (Some h) n = Some (rc, Some h') /\
  if len (h_pending h) <? n then rc = CF_ERR_ARGUMENT /\ h' = h
  else rc = CF_OK /\ h' = with_pending (Bytes (if n =? 0 then ptr (h_pending h) else drop (Z.to_nat n) <$> ptr (h_pending h)) (len (h_pending h) - n)) h /\
       in_object (h_pending h').
Proof.
  intros Hi Hn Hmax; destruct (hi_pending h Hi) as [Hp0 Hp]; unfold cf_h2_sent.
  destruct (Z.ltb_spec (len (h_pending h)) n) as [|Hle]; [by do 2 eexists|].
  change (2 ^ 32) with 4294967296 in Hmax; destruct (Z.eqb_spec n 0) as [->|Hne]; cbn [negb mbind option_bind].
  - do 2 eexists; split; [done|]; split; [done|]; cbn; rewrite Z.sub_0_r, wrap_small by (change (2 ^ 32) with 4294967296; lia); split; [done|]; by split.
  - unfold badd; destruct (ptr (h_pending h)) as [m|]; [|lia]; replace ((0 <=? n) && (n <=? zlen m)) with true by lia; cbn [mbind option_bind ptr len].
    do 2 eexists; split; [done|]; split; [done|]; cbn; rewrite wrap_small by (change (2 ^ 32) with 4294967296; lia); split; [done|].
    split; cbn; [lia|]; unfold zlen in *; rewrite length_drop; lia.
Qed.
End Run.
