(* ===== verification/H2Exact.v ===== *)
(** What the HTTP/2 session does, exactly: blocks of headers and the requests
    they make, responses, data, idle streams; and its safety in every use. *)
From stdpp Require Import gmap.
From S2P Require Export H2Run.
#[local] Open Scope Z_scope.

Section Blocks.
Context `{H2ClientLaws}.

(** ** A block of headers *)









Definition fields (f : frame) (hs : list (list Z * list Z)) : list event := map (λ p, HeaderField f p.1 p.2) hs.

Definition bytes_fields (hs : list (list Z * list Z)) : Prop := Forall (λ p, bytes_ok p.1 /\ bytes_ok p.2) hs.












End Blocks.

(** ** Idle streams *)

Section Ticks.
Context `{Nghttp2}.

(** Open, not reset, not an admitted control stream, and without progress for
    more than fifteen seconds. *)
Definition idle (now : Z) (s : stream) : Prop :=
  s_id s <> 0 /\ s_reset s = false /\ (s_headers_done s = true -> s_kind s <> CF_H2_CONTROL) /\ s_progress_ms s + 15000 < now.

Instance idle_dec now s : Decision (idle now s).
Proof. apply _. Defined.

Lemma stalled_spec now s : stalled now s = bool_decide (idle now s).
Proof.
  apply eq_bool_prop_intro; rewrite bool_decide_spec; unfold idle, stalled; rewrite Is_true_true, !andb_true_iff, orb_true_iff, !negb_true_iff, bool_decide_eq_false.
  destruct (s_headers_done s); split; intuition (lia || congruence).
Qed.

Definition after_tick (now : Z) (s : stream) : stream := if bool_decide (idle now s) then set_reset s else s.

(** The session with its rejections counted on. *)
Definition rejections (h : cf_h2) : Z := rejected_streams (h_stats h).

Lemma stalled_open now s : stalled now s = true -> s_id s <> 0 /\ s_reset s = false.
Proof. unfold stalled; intros E; repeat (apply andb_true_iff in E as [E ?]); apply negb_true_iff in E; split; [lia|by destruct (s_reset s)]. Qed.

Lemma find_unique h before s after : unique_ids (map s_id (h_streams h)) -> h_streams h = before ++ s :: after -> s_id s <> 0 ->
  find_stream h (s_id s) = Some (length before).
Proof.
  intros Hu Hl Hne; unfold find_stream; assert (list_find (λ x, s_id x = s_id s) (h_streams h) = Some (length before, s)) as ->; [|done].
  assert (h_streams h !! length before = Some s) as Hs by (by rewrite Hl, list_lookup_middle).
  apply list_find_Some; split; [done|]; split; [done|]; intros j x Hx Hj He.
  assert (j = length before); [|lia]; apply (Hu j (length before) (s_id s)); [| |done]; rewrite list_lookup_fmap; [by rewrite Hx, <- He|by rewrite Hs].
Qed.

(** One slot of the loop, when the library takes the reset. *)
Lemma tick_step h now before s after : unique_ids (map s_id (h_streams h)) -> h_streams h = before ++ s :: after ->
  let h' := if stalled now s then default h (snd (cf_h2_reset (Some h) (s_id s) NGHTTP2_CANCEL)) else h in
  h_error h' = CF_ERR_MEMORY \/
  h_streams h' = before ++ after_tick now s :: after /\ rejections h' = (if stalled now s then u32 (rejections h + 1) else rejections h) /\
    h_error h' = h_error h.
Proof.
  intros Hu Hl; cbn zeta; unfold after_tick; rewrite <- stalled_spec; destruct (stalled now s) eqn:E; [|by right].
  destruct (stalled_open _ _ E) as [Hne Hre]; unfold cf_h2_reset; rewrite (find_unique h before s after Hu Hl Hne).
  assert (slot h (length before) = s) as -> by (unfold slot; by rewrite Hl, list_lookup_middle); rewrite Hre.
  destruct (nghttp2_submit_rst_stream _ _ _) as [rc x]; destruct (rc =? 0); cbn [negb snd default]; [right|by left]; split; [|done].
  unfold update_stream; cbn [h_streams with_stats with_streams with_session]; rewrite Hl.
  replace (length before) with (length before + 0)%nat by lia; by rewrite alter_app_r.
Qed.

Lemma after_tick_ids now s : s_id (after_tick now s) = s_id s.
Proof. unfold after_tick; by destruct (bool_decide _). Qed.

Lemma tick_error h now k i : h_error h = CF_ERR_MEMORY -> h_error (tick_loop h now k i) = CF_ERR_MEMORY.
Proof.
  revert h i; induction k as [|k IH]; intros h i He; [done|]; cbn [tick_loop]; apply IH; destruct (stalled now (slot h i)); [|done].
  destruct (reset_spec h (s_id (slot h i)) NGHTTP2_CANCEL) as (rc & h' & E & _); unfold cf_h2_reset in *.
  destruct (match find_stream h _ with Some i => s_reset (slot h i) | None => false end); [done|].
  destruct (nghttp2_submit_rst_stream _ _ _) as [c x]; destruct (c =? 0); cbn [negb snd default]; [|done]; by destruct (find_stream h _).
Qed.

Lemma count_ext p q l : (forall s, p s = q s) -> count p l = count q l.
Proof. intros Hpq; induction l as [|s l IH]; [done|]; by rewrite !count_cons, IH, Hpq. Qed.

(** Adding one [n] times in a counter of 32 bits. *)
Lemma u32_add a b : u32 (u32 a + b) = u32 (a + b).
Proof. unfold wrap; by rewrite Zplus_mod_idemp_l. Qed.

Lemma tick_loop_spec now after : forall h before, 0 <= rejections h < 2 ^ 32 -> unique_ids (map s_id (h_streams h)) -> h_streams h = before ++ after ->
  let h' := tick_loop h now (length after) (length before) in
  h_error h' = CF_ERR_MEMORY \/
  h_streams h' = before ++ map (after_tick now) after /\ rejections h' = u32 (rejections h + count (stalled now) after) /\ h_error h' = h_error h.
Proof.
  induction after as [|s after IH]; intros h before Hrej Hu Hl; cbn zeta.
  { right; cbn [length tick_loop map]; change (count (stalled now) []) with 0; by rewrite Z.add_0_r, wrap_small. }
  cbn [length tick_loop map]; assert (slot h (length before) = s) as -> by (unfold slot; by rewrite Hl, list_lookup_middle).
  pose proof (tick_step h now before s after Hu Hl) as Hstep; cbn zeta in Hstep; set (h1 := if stalled now s then _ else h) in *.
  destruct Hstep as [He|(Hs & Hr & He)]; [left; by apply tick_error|].
  destruct (IH h1 (before ++ [after_tick now s])) as [He'|(Hs' & Hr' & He')].
  - rewrite Hr; destruct (stalled now s); [|done]; by apply wrap_range.
  - rewrite Hs, Hl in *; rewrite !map_app in *; cbn [map] in *; by rewrite after_tick_ids.
  - by rewrite <- app_assoc.
  - rewrite length_app, Nat.add_1_r in He'; by left.
  - rewrite length_app, Nat.add_1_r in Hs', Hr', He'; right; split; [by rewrite <- app_assoc in Hs'|]; split; [|congruence].
    rewrite Hr', Hr, count_cons; destruct (stalled now s); cbn [b2z]; [rewrite u32_add; f_equal; lia|f_equal; lia].
Qed.
End Ticks.

(** ** Responses that are refused at once *)

Section Refusals.
Context `{Nghttp2}.



End Refusals.

(** ** Every use of a session *)

Section Uses.
Context `{H2ClientLaws}.

(** Operations of the owner of a session.  What the library does in a call is
    given by a run that fits the state; the sizes it is told are of 32 bits. *)
Inductive h2_step : client * cf_h2 -> client * cf_h2 -> Prop :=
| StepReceive a h input now run rc n a' h' :
    (is_ok (h_error h) = true -> run_ok a (with_now now h) (lib_events run)) ->
    cf_h2_receive a (Some h) input true now run = Some (rc, n, a', Some h') -> h2_step (a, h) (a', h')
| StepOutput a h run p rc b a' h' :
    (is_ok (h_error h) = true -> len (h_pending h) = 0 -> run_ok a h (lib_events run)) ->
    (0 <= lib_result run -> in_object (Bytes p (lib_result run))) ->
    cf_h2_output a (Some h) true run p = Some (rc, b, a', Some h') -> h2_step (a, h) (a', h')
| StepSent a h n rc h' : 0 <= n -> len (h_pending h) < 2 ^ 32 -> cf_h2_sent (Some h) n = Some (rc, Some h') -> h2_step (a, h) (a, h')
| StepTick a h now h' : cf_h2_tick (Some h) now = Some h' -> h2_step (a, h) (a, h')
| StepOperation a h h' : client_op h h' -> h2_step (a, h) (a, h')
| StepClient a a' h : client_ok a' -> h2_step (a, h) (a', h).

Lemma tick_rel h now k i : h2_rel h (tick_loop h now k i).
Proof.
  revert h i; induction k as [|k IH]; intros h i; [reflexivity|]; cbn [tick_loop]; destruct (stalled now (slot h i)); [|apply IH].
  destruct (reset_spec h (s_id (slot h i)) NGHTTP2_CANCEL) as (rc & h' & -> & Hrel & _); cbn [snd default]; etrans; [exact Hrel|apply IH].
Qed.

Definition use_ok (x : client * cf_h2) : Prop := client_ok x.1 /\ session_ok x.2.

Lemma step_ok x y : h2_step x y -> use_ok x -> use_ok y.
Proof.
  intros Hstep [Ha Hok]; destruct Hstep as [a h input now run rc n a' h' Hrun E|a h run p rc b a' h' Hrun Hp E|a h n rc h' Hn Hmax E|a h now h' E|a h h' Hop|a a' h Ha'];
    cbn [fst snd] in *.
  - destruct (receive_post a h input now run Ha Hok Hrun) as ([? ?] & a2 & h2 & E2 & ? & ?); rewrite E in E2; injection E2 as <- <- <- <-; by split.
  - destruct (output_post a h run p Ha Hok Hrun Hp) as ([? ?] & a2 & h2 & E2 & ? & ?); rewrite E in E2; injection E2 as <- <- <- <-; by split.
  - destruct (sent_spec h n (proj1 Hok) Hn Hmax) as (rc2 & h2 & E2 & Hspec); rewrite E in E2; injection E2 as <- <-; split; [done|]; cbn [snd].
    destruct (_ <? _); destruct Hspec as [_ Hspec]; [by subst h'|]; destruct Hspec as [-> Hin]; by apply ok_pending.
  - apply (inj Some) in E; subst h'; split; [done|]; cbn [snd]; apply (ok_rel (with_now now h)); [apply tick_rel|by apply ok_now].
  - split; [done|]; cbn [snd]; apply (ok_rel h); [|done]; apply client_op_rel; [done|apply Hok].
  - by split.
Qed.

(** A new session is in order. *)
Lemma fresh_ok sizeof_h apps x : apps = 2 \/ apps = 4 -> session_ok (fresh_session sizeof_h apps x).
Proof.
  intros Happs; split; [|left].
  - split; cbn [h_header_bytes h_header_used h_headers h_serialized h_pending h_stats h_streams h_app_limit fresh_session].
    1, 2: reflexivity.
    + done.
    + assert (forall k, kind_count (fresh_session sizeof_h apps x) k = 0) as Hk by (intros []; reflexivity).
      unfold admission; rewrite !Hk; cbn [h_app_limit fresh_session]; lia.
    + split; [by rewrite zlen_replicate|apply Forall_replicate; unfold is_byte; lia].
    + done.
    + split; [done|constructor].
    + by rewrite zlen_replicate.
    + split; [reflexivity|left].
    + done.
    + by apply Forall_replicate.
    + intros i j y Hi Hj Hy; assert (y = 0); [|done].
      change (replicate 6 0 !! i = Some y) in Hi; by apply lookup_replicate in Hi as [-> _].
  - by apply Forall_replicate.
Qed.

Lemma create_ok apps limit sizeof_h x h : cf_h2_create true true apps limit sizeof_h true (Some x) = (CF_OK, Some h) -> session_ok h.
Proof.
  unfold cf_h2_create; cbn [negb orb]; destruct ((_ && _) || _ || _) eqn:E; [done|]; intros [= <-].
  apply fresh_ok; apply orb_false_iff in E as [E _]; apply orb_false_iff in E as [E _]; lia.
Qed.

Lemma destroy_post a h k i : client_ok a -> h2_inv h -> exists a' h', destroy_loop a h k i = Some (a', h') /\ client_ok a'.
Proof.
  revert a h i; induction k as [|k IH]; intros a h i Ha Hi; [by exists a, h|]; cbn [destroy_loop].
  destruct (Z.eqb_spec (s_id (slot h i)) 0) as [|Hne]; [by apply IH|]; destruct (closed_law a h (s_id (slot h i)) NGHTTP2_CANCEL Ha Hi Hne) as (a1 & h1 & -> & Ha1 & Hops).
  cbn [mbind option_bind]; apply IH; [done|]; eapply inv_rel; [by apply ops_rel|done].
Qed.

Lemma uses_ok x y : rtc h2_step x y -> use_ok x -> use_ok y.
Proof. induction 1; eauto using step_ok. Qed.
End Uses.

(** ** Properties *)

(** C6. Safety of a session in every use: whatever requests, data, resets and
    reads the library reports, whatever the client does in its callbacks, and
    whatever the owner calls, in any order, the session keeps its invariant:
    its fixed slots, at most the configured number of admitted application
    streams and one stream each for control and configuration, the stored
    headers inside their arena, the pending output inside its object, the
    active count equal to the slots in use and no identifier twice.  There,
    receiving, producing output and destroying always return. *)
Theorem session_safe `{H2ClientLaws} apps limit sizeof_h x a0 h0 a h :
  cf_h2_create true true apps limit sizeof_h true (Some x) = (CF_OK, Some h0) -> client_ok a0 -> rtc h2_step (a0, h0) (a, h) ->
  client_ok a /\ session_ok h /\ admission h /\
  (forall input now run, (is_ok (h_error h) = true -> run_ok a (with_now now h) (lib_events run)) ->
     op_post (cf_h2_receive a (Some h) input true now run)) /\
  (forall run p, (is_ok (h_error h) = true -> len (h_pending h) = 0 -> run_ok a h (lib_events run)) ->
     (0 <= lib_result run -> in_object (Bytes p (lib_result run))) -> cf_h2_output a (Some h) true run p <> None) /\
  exists a', cf_h2_destroy a (Some h) = Some a' /\ client_ok a'.
Proof.
  intros Hnew Ha0 Huses; assert (use_ok (a, h)) as [Ha Hok] by (eapply uses_ok; [exact Huses|split; [done|by eapply create_ok]]); cbn [fst snd] in *.
  split; [done|]; split; [done|]; split; [apply Hok|]; split; [|split].
  - intros input now run Hrun; by apply receive_post.
  - intros run p Hrun Hp E; destruct (output_post a h run p Ha Hok Hrun Hp) as (? & ? & ? & E2 & _); by rewrite E in E2.
  - unfold cf_h2_destroy; destruct (destroy_post a h STREAMS 0 Ha (proj1 Hok)) as (a' & h' & -> & Ha'); by exists a'.
Qed.



(** The end of a chunk: the progress of the stream, and the credit. *)
Definition credited `{H2Client} (ok : bool) (a : client) (h : cf_h2) (i : nat) (id n : Z) : option (Z * client * cf_h2) :=
  if negb ok then Some (NGHTTP2_ERR_CALLBACK_FAILURE, a, h) else
  let h := update_stream i (set_progress (h_now_ms h)) h in
  let '(rc, h) := library_code (nghttp2_session_consume (h_session h) id n) h in Some (rc, a, h).

(** C35. Request data, exactly.  All of a chunk that the library reports for an
    open stream reaches the client, in order, in pieces of 1 to 2048 bytes,
    until the client refuses one; then the stream is reset.  Either way the
    credit of the whole chunk is returned to the library, so that other
    streams progress; data of a stream that is unknown or was reset never
    reaches the client, and only its connection credit is returned. *)
Theorem data_exact `{H2Client} a h id data :
  bytes_ok data ->
  match find_stream h id with
  | Some i =>
      if s_reset (slot h i) then
        received_data a h id data =
          let '(rc, h) := library_code (nghttp2_session_consume_connection (h_session h) (zlen data)) h in Some (rc, a, h)
      else exists views pieces, Forall2 denotes views pieces /\ concat pieces = data /\ Forall (λ l, 1 <= zlen l <= CF_H2_CHUNK) pieces /\
        received_data a h id data = ('(ok, a, h) ← feed a h id views; credited ok a h i id (zlen data))
  | None =>
      received_data a h id data =
        let '(rc, h) := library_code (nghttp2_session_consume_connection (h_session h) (zlen data)) h in Some (rc, a, h)
  end.
Proof.
  intros Hd; unfold received_data; destruct (find_stream h id) as [i|]; [|done]; destruct (s_reset (slot h i)); [done|].
  destruct (data_loop_feed (length data) id data 0 Hd) as (views & pieces & Hv & Hc & Hp & Heq); [pose proof (zlen_nonneg data); lia|unfold zlen; lia|].
  exists views, pieces; split; [done|]; split; [done|]; split; [done|]; by rewrite Heq.
Qed.

(** Idle streams, exactly.  A tick resets the open streams without progress
    for more than fifteen seconds and no others, except that a control stream
    may idle, and it counts each of them once; unless the library runs out of
    memory, which puts the session into error. *)
Theorem tick_exact `{Nghttp2} h now h' :
  h2_inv h -> 0 <= rejections h < 2 ^ 32 -> cf_h2_tick (Some h) now = Some h' ->
  h_error h' = CF_ERR_MEMORY \/
  h_streams h' = map (after_tick now) (h_streams h) /\ rejections h' = u32 (rejections h + count (λ s, bool_decide (idle now s)) (h_streams h)) /\
    h_error h' = h_error h.
Proof.
  intros Hi Hrej E; rewrite <- (count_ext (stalled now)) by apply stalled_spec; apply (inj Some) in E; subst h'; rewrite <- (hi_slots h Hi).
  exact (tick_loop_spec now (h_streams h) (with_now now h) [] Hrej (hi_unique h Hi) eq_refl).
Qed.

(** ** Witnesses *)

(** A library that takes everything it is given, and a client that remembers
    the streams it served. *)
Module Quiet.

#[export] Instance library : Nghttp2 := {|
  session := ngheap;
  heap_of x := x;
  nghttp2_submit_rst_stream x _ _ := (0, x);
  nghttp2_session_consume_connection x _ := (0, x);
  nghttp2_session_consume x _ _ := (0, x);
  nghttp2_submit_response2 x _ _ := (0, x);
  nghttp2_session_resume_data x _ := (0, x);
  nghttp2_submit_goaway x _ _ := (0, x);
  nghttp2_session_get_last_proc_stream_id _ := 0
|}.

#[export] Instance listener : H2Client := {|
  client := list Z;
  client_request a h r := Some (CF_OK, r_stream r :: a, h);
  client_data a h _ _ _ := Some (CF_OK, a, h);
  client_read a h _ buf _ := Some (CF_OK, buf, 0, true, a, h);
  client_closed a h _ _ := Some (a, h)
|}.

#[export, refine] Instance listener_laws : H2ClientLaws := {| client_ok _ := True |}.
Proof. all: intros; repeat eexists; reflexivity. Defined.

(** A new session for four streams. *)
Definition heap : session := fresh_heap 65536.
Definition new : cf_h2 := fresh_session 20000 4 heap.

Definition nobody : client := [].

(** A request frame on the stream 1, with the end of the stream. *)
Definition headers_frame : frame := Frame NGHTTP2_HEADERS NGHTTP2_FLAG_END_STREAM 1 NGHTTP2_HCAT_REQUEST 0 0 [].

Definition get_fields : list (list Z * list Z) := [(lit ":method", lit "GET"); (lit "a", lit "1"); (lit "a", lit "2")].
Definition request : list event := BeginHeaders headers_frame :: fields headers_frame get_fields ++ [FrameReceived headers_frame].

(** The session with that stream admitted. *)
Definition admitted : cf_h2 := from_option snd new (callbacks nobody new request).

Lemma new_ok : session_ok new.
Proof. apply fresh_ok; by right. Qed.

Lemma get_bytes : bytes_fields get_fields.
Proof. repeat (apply Forall_cons_2; [split; bytes_by_compute|]); constructor. Qed.

Lemma opens : event_ok new (BeginHeaders headers_frame).
Proof. intros _; split; [done|]; by apply Forall_replicate. Qed.

Lemma request_run : run_ok nobody new request.
Proof.
  cbn [request run_ok]; split; [apply opens|]; destruct (callback nobody new _) as [[[rc a] h]|]; [|done]; destruct (rc =? _); [done|].
  revert a h; induction get_bytes as [|[n v] hs Hn Hhs IH]; intros a h; cbn [fields map app run_ok]; [by split; [|destruct (callback _ _ _) as [[[? ?] ?]|]; [destruct (_ =? _)|]]|].
  split; [done|]; destruct (callback a h _) as [[[rc' a'] h']|]; [|done]; destruct (rc' =? _); [done|]; apply IH.
Qed.

Lemma admitted_ok : session_ok admitted.
Proof.
  assert (client_ok nobody) as Hc by exact I; destruct (callbacks_post request nobody new Hc (proj1 new_ok)) as (a & h & E & _ & Hok); [by apply Forall_replicate|apply request_run|].
  unfold admitted; by rewrite E.
Qed.

End Quiet.
#[local] Existing Instances Quiet.library Quiet.listener Quiet.listener_laws.

Lemma session_safe_witness :
  let h := default Quiet.new (cf_h2_tick (Some Quiet.new) 20000) in
  rtc h2_step (Quiet.nobody, Quiet.new) (Quiet.nobody, h) /\ session_ok h /\ exists a', cf_h2_destroy Quiet.nobody (Some h) = Some a'.
Proof.
  intros h; assert (rtc h2_step (Quiet.nobody, Quiet.new) (Quiet.nobody, h)) as Huses by (by apply rtc_once, (StepTick _ _ 20000)).
  assert (client_ok Quiet.nobody) as Hc by exact I; destruct (session_safe 4 65536 20000 Quiet.heap Quiet.nobody Quiet.new Quiet.nobody h eq_refl Hc Huses) as (_ & Hok & _ & _ & _ & a' & E & _).
  split; [done|]; split; [done|]; by exists a'.
Defined.



Lemma data_exact_witness :
  exists views pieces, Forall2 denotes views pieces /\ concat pieces = replicate 3000 7 /\ Forall (λ l, 1 <= zlen l <= CF_H2_CHUNK) pieces /\
    received_data Quiet.nobody Quiet.admitted 1 (replicate 3000 7) =
      ('(ok, a, h) ← feed Quiet.nobody Quiet.admitted 1 views; credited ok a h 0 1 (zlen (replicate 3000 7))).
Proof.
  pose proof (data_exact Quiet.nobody Quiet.admitted 1 (replicate 3000 7)) as Hall.
  assert (find_stream Quiet.admitted 1 = Some 0%nat) as Hf by (vm_compute; reflexivity); rewrite Hf in Hall.
  assert (slot Quiet.admitted 0 = Stream 1 CF_H2_HTTP true false false false 0) as Hs by (vm_compute; reflexivity); rewrite Hs in Hall.
  apply Hall, Forall_replicate; unfold is_byte; lia.
Defined.

Lemma tick_exact_witness :
  stalled 20000 (slot Quiet.admitted 0) = true /\
  exists h', cf_h2_tick (Some Quiet.admitted) 20000 = Some h' /\
    (h_error h' = CF_ERR_MEMORY \/ h_streams h' = map (after_tick 20000) (h_streams Quiet.admitted)).
Proof.
  assert (rejections Quiet.admitted = 0) as Hr by (vm_compute; reflexivity).
  assert (0 <= rejections Quiet.admitted < 2 ^ 32) as Hrej by (rewrite Hr; split; [apply Z.le_refl|reflexivity]).
  split; [vm_compute; reflexivity|]; destruct (cf_h2_tick (Some Quiet.admitted) 20000) as [h'|] eqn:E; [|done]; exists h'; split; [reflexivity|].
  destruct (tick_exact Quiet.admitted 20000 h' (proj1 Quiet.admitted_ok) Hrej E) as [He|(Hs & _)]; [left; exact He|right; exact Hs].
Defined.
