(* ===== verification/Lifecycle.v ===== *)
(** The connection lifecycle (src/cf_lifecycle.c): a pure reducer over the
    connection state, its reachable states, and the retry timer. *)
From S2P Require Export Core.

Inductive cf_state :=
| CF_STOPPED | CF_WAIT_NETWORK | CF_WAIT_TIME | CF_DISCOVERY | CF_CONNECT
| CF_TLS | CF_HTTP2 | CF_REGISTERING | CF_WAIT_CONFIG | CF_ONLINE
| CF_BACKOFF | CF_AUTH_FAILED | CF_CONFIG_FAILED | CF_STOPPING.

#[global] Instance cf_state_eq_dec : EqDecision cf_state.
Proof. solve_decision. Defined.

Inductive cf_lifecycle_event :=
| CF_EVENT_DISCOVERED | CF_EVENT_CONNECTED | CF_EVENT_TLS_READY
| CF_EVENT_HTTP2_READY | CF_EVENT_REGISTERED | CF_EVENT_CONFIG_APPLIED
| CF_EVENT_AUTH_REJECTED | CF_EVENT_CONFIG_REJECTED.

Record cf_lifecycle := Life {
  state : cf_state;
  network_ready : bool;
  time_ready : bool;
  registered : bool;
  configured : bool;
  failures : Z;      (* uint32_t *)
  retry_at_ms : Z    (* uint64_t *)
}.

(** ** The code

    The pointer argument of every operation is an [option]: [None] is the null
    pointer.  An operation returns its code and the object as it left it. *)

Definition set_state (l : cf_lifecycle) (s : cf_state) : cf_lifecycle :=
  Life s (network_ready l) (time_ready l) (registered l) (configured l) (failures l) (retry_at_ms l).

Definition set_flags (l : cf_lifecycle) (reg conf : bool) : cf_lifecycle :=
  Life (state l) (network_ready l) (time_ready l) reg conf (failures l) (retry_at_ms l).

Definition waiting (l : cf_lifecycle) : cf_state :=
  if negb (network_ready l) then CF_WAIT_NETWORK
  else if negb (time_ready l) then CF_WAIT_TIME else CF_DISCOVERY.

Definition terminal (s : cf_state) : bool :=
  bool_decide (s = CF_STOPPED) || bool_decide (s = CF_STOPPING) || bool_decide (s = CF_AUTH_FAILED).

Definition zero_lifecycle : cf_lifecycle := Life CF_STOPPED false false false false 0 0.

Definition cf_lifecycle_init (l : option cf_lifecycle) : option cf_lifecycle :=
  match l with None => None | Some _ => Some (set_state zero_lifecycle CF_STOPPED) end.

Definition cf_lifecycle_start (l : option cf_lifecycle) : cf_result * option cf_lifecycle :=
  match l with
  | None => (CF_ERR_ARGUMENT, None)
  | Some l =>
      if negb (bool_decide (state l = CF_STOPPED)) then (CF_ERR_STATE, Some l) else
      let l := Life (state l) (network_ready l) (time_ready l) false false 0 0 in
      (CF_OK, Some (set_state l (waiting l)))
  end.

Definition cf_lifecycle_environment (l : option cf_lifecycle) (network time_valid : bool)
    : option cf_lifecycle :=
  match l with
  | None => None
  | Some l =>
      let l := Life (state l) network time_valid (registered l) (configured l)
                 (failures l) (retry_at_ms l) in
      Some (if terminal (state l) then l else
            if negb network || negb time_valid then
              let l := set_flags l false false in
              if negb (bool_decide (state l = CF_BACKOFF)) then set_state l (waiting l) else l
            else if bool_decide (state l = CF_WAIT_NETWORK) || bool_decide (state l = CF_WAIT_TIME)
            then set_state l CF_DISCOVERY else l)
  end.

(** [event] ranges over the enumeration, so the [default:] arm of the switch
    has no counterpart. *)

(** The four states in which a configuration or an authentication verdict is
    accepted. *)
Definition serving (s : cf_state) : bool :=
  bool_decide (s = CF_REGISTERING) || bool_decide (s = CF_WAIT_CONFIG)
  || bool_decide (s = CF_ONLINE) || bool_decide (s = CF_CONFIG_FAILED).

Definition advance (l : cf_lifecycle) (event : cf_lifecycle_event) : cf_result * cf_lifecycle :=
  if terminal (state l) || negb (network_ready l) || negb (time_ready l) then (CF_ERR_STATE, l) else
  match event with
  | CF_EVENT_DISCOVERED =>
      if negb (bool_decide (state l = CF_DISCOVERY)) then (CF_ERR_STATE, l)
      else (CF_OK, set_state l CF_CONNECT)
  | CF_EVENT_CONNECTED =>
      if negb (bool_decide (state l = CF_CONNECT)) then (CF_ERR_STATE, l)
      else (CF_OK, set_state l CF_TLS)
  | CF_EVENT_TLS_READY =>
      if negb (bool_decide (state l = CF_TLS)) then (CF_ERR_STATE, l)
      else (CF_OK, set_state l CF_HTTP2)
  | CF_EVENT_HTTP2_READY =>
      if negb (bool_decide (state l = CF_HTTP2)) then (CF_ERR_STATE, l)
      else (CF_OK, set_state l CF_REGISTERING)
  | CF_EVENT_REGISTERED =>
      if negb (bool_decide (state l = CF_REGISTERING)) && negb (bool_decide (state l = CF_CONFIG_FAILED))
      then (CF_ERR_STATE, l) else
      let l := set_flags l true (configured l) in
      (CF_OK, set_state l (if configured l then CF_ONLINE
                           else if bool_decide (state l = CF_CONFIG_FAILED) then CF_CONFIG_FAILED
                           else CF_WAIT_CONFIG))
  | CF_EVENT_CONFIG_APPLIED =>
      if negb (serving (state l)) then (CF_ERR_STATE, l) else
      let l := set_flags l (registered l) true in
      (CF_OK, set_state l (if registered l then CF_ONLINE else CF_REGISTERING))
  | CF_EVENT_AUTH_REJECTED =>
      if negb (serving (state l)) then (CF_ERR_STATE, l) else
      (CF_OK, set_state (set_flags l false false) CF_AUTH_FAILED)
  | CF_EVENT_CONFIG_REJECTED =>
      if negb (serving (state l)) then (CF_ERR_STATE, l) else
      (CF_OK, if negb (configured l) then set_state l CF_CONFIG_FAILED else l)
  end.

Definition cf_lifecycle_advance (l : option cf_lifecycle) (event : cf_lifecycle_event)
    : cf_result * option cf_lifecycle :=
  match l with
  | None => (CF_ERR_ARGUMENT, None)
  | Some l => let '(rc, l) := advance l event in (rc, Some l)
  end.

(** [1000u << shift], capped. *)
Definition backoff_ceiling (n : Z) : Z :=
  let shift := if n <? 6 then n else 6 in
  let ceiling := u32 (Z.shiftl 1000 shift) in
  if 60000 <? ceiling then 60000 else ceiling.

(** The delay before the next attempt, all in [uint32_t]. *)
Definition backoff_delay (n hint random : Z) : Z :=
  let ceiling := backoff_ceiling n in
  let delay := u32 (ceiling / 2 + random mod u32 (ceiling / 2 + 1)) in
  if delay <? hint then hint else delay.

Definition cf_lifecycle_retry (l : option cf_lifecycle) (now hint random : Z)
    : cf_result * option cf_lifecycle :=
  match l with
  | None => (CF_ERR_ARGUMENT, None)
  | Some l =>
      if terminal (state l) || bool_decide (state l = CF_BACKOFF)
         || bool_decide (state l = CF_WAIT_NETWORK) || bool_decide (state l = CF_WAIT_TIME)
      then (CF_ERR_STATE, Some l) else
      let delay := backoff_delay (failures l) hint random in
      let at_ms := if UINT64_MAX - delay <? now then UINT64_MAX else u64 (now + delay) in
      let n := if failures l <? UINT32_MAX then failures l + 1 else failures l in
      (CF_OK, Some (Life CF_BACKOFF (network_ready l) (time_ready l) false false n at_ms))
  end.

Definition cf_lifecycle_tick (l : option cf_lifecycle) (now : Z) : option cf_lifecycle :=
  match l with
  | None => None
  | Some l => Some (if bool_decide (state l = CF_BACKOFF) && (retry_at_ms l <=? now)
                    then set_state l (waiting l) else l)
  end.

Definition cf_lifecycle_stop (l : option cf_lifecycle) : option cf_lifecycle :=
  match l with
  | None => None
  | Some l => Some (Life CF_STOPPED (network_ready l) (time_ready l) false false (failures l) 0)
  end.

(** ** Steps

    One step is one call by the owner of the object.  [OpStopping] is the
    assignment [t->life.state = CF_STOPPING] by which the transport begins a
    graceful shutdown. *)

Inductive life_op :=
| OpStart
| OpEnvironment (network time_valid : bool)
| OpAdvance (event : cf_lifecycle_event)
| OpRetry (now hint random : Z)
| OpTick (now : Z)
| OpStop
| OpStopping.

Definition life_step (l : cf_lifecycle) (op : life_op) : cf_lifecycle :=
  default l
    match op with
    | OpStart => snd (cf_lifecycle_start (Some l))
    | OpEnvironment n t => cf_lifecycle_environment (Some l) n t
    | OpAdvance e => snd (cf_lifecycle_advance (Some l) e)
    | OpRetry now hint random => snd (cf_lifecycle_retry (Some l) now hint random)
    | OpTick now => cf_lifecycle_tick (Some l) now
    | OpStop => cf_lifecycle_stop (Some l)
    | OpStopping => Some (set_state l CF_STOPPING)
    end.

(** The states reachable from initialization by any sequence of calls. *)
Inductive reachable : cf_lifecycle -> Prop :=
| reach_init l : cf_lifecycle_init (Some l) = Some zero_lifecycle -> reachable zero_lifecycle
| reach_step l op : reachable l -> reachable (life_step l op).

(** The flags each state stands for. *)
Definition life_inv (l : cf_lifecycle) : Prop :=
  let ready := network_ready l = true /\ time_ready l = true in
  match state l with
  | CF_STOPPED | CF_BACKOFF | CF_AUTH_FAILED => registered l = false /\ configured l = false
  | CF_WAIT_NETWORK => network_ready l = false /\ registered l = false /\ configured l = false
  | CF_WAIT_TIME => network_ready l = true /\ time_ready l = false /\
                    registered l = false /\ configured l = false
  | CF_DISCOVERY | CF_CONNECT | CF_TLS | CF_HTTP2 =>
      ready /\ registered l = false /\ configured l = false
  | CF_REGISTERING => ready /\ registered l = false
  | CF_WAIT_CONFIG => ready /\ registered l = true /\ configured l = false
  | CF_ONLINE => ready /\ registered l = true /\ configured l = true
  | CF_CONFIG_FAILED => ready /\ configured l = false
  | CF_STOPPING => True
  end.

(** ** Lemmas *)

Lemma advance_inv l e : life_inv l -> life_inv (snd (advance l e)).
Proof.
  destruct l as [s n t r c f a]; unfold advance, life_inv; simpl; intros H.
  destruct (terminal s) eqn:?; [done|]; destruct n; [|done]; destruct t; [|done].
  destruct e; simpl; destruct s; simpl in *; try done;
    destruct r, c; simpl; intuition congruence.
Qed.

Lemma life_step_inv l op : life_inv l -> life_inv (life_step l op).
Proof.
  intros H; destruct op as [|n t|e|now hint random|now| |]; unfold life_step; simpl.
  - unfold life_inv in *; destruct l as [s n t r c f a]; simpl in *.
    destruct s; simpl; try done; unfold waiting; simpl; destruct n, t; simpl; intuition congruence.
  - destruct l as [s n0 t0 r c f a]; unfold life_inv, waiting in *; simpl in *.
    destruct s, n, t; simpl in *; intuition congruence.
  - rewrite (surjective_pairing (advance l e)); simpl; by apply advance_inv.
  - case_if; [done|]; unfold life_inv; simpl; done.
  - case_if; [|done]; destruct l as [s n t r c f a]; simpl in *.
    apply andb_prop in E as [E _]; apply bool_decide_eq_true in E; subst s.
    unfold life_inv, waiting in *; simpl in *; destruct n, t; simpl; intuition congruence.
  - by split.
  - done.
Qed.

Lemma reachable_inv l : reachable l -> life_inv l.
Proof. induction 1; [by split|by apply life_step_inv]. Qed.

Lemma backoff_ceiling_bounds n :
  0 <= n -> backoff_ceiling n = Z.min 60000 (1000 * 2 ^ Z.min n 6).
Proof.
  intros Hn; unfold backoff_ceiling.
  assert (n = 0 \/ n = 1 \/ n = 2 \/ n = 3 \/ n = 4 \/ n = 5 \/ 6 <= n) as Hc by lia.
  destruct Hc as [-> | [-> | [-> | [-> | [-> | [-> | Hc]]]]]]; try reflexivity.
  replace (n <? 6) with false by lia; replace (Z.min n 6) with 6 by lia; reflexivity.
Qed.

Lemma backoff_delay_bounds n hint random :
  0 <= n -> 0 <= random -> 
  let c := Z.min 60000 (1000 * 2 ^ Z.min n 6) in
  500 <= c / 2 /\ Z.max hint (c / 2) <= backoff_delay n hint random <= Z.max hint c.
Proof.
  intros Hn Hr; pose proof (backoff_ceiling_bounds n Hn) as Hb; revert Hb; unfold backoff_delay.
  set (c := Z.min 60000 _); intros ->.
  assert (1000 <= c <= 60000) as Hc.
  { assert (1 <= 2 ^ Z.min n 6) by (apply (Z.pow_le_mono_r 2 0); lia); unfold c; lia. }
  rewrite (wrap_small 32 (c / 2 + 1)) by zdm.
  pose proof (Z.mod_pos_bound random (c / 2 + 1) ltac:(zdm)).
  rewrite wrap_small by zdm; case_ifs; zdm.
Qed.

(** The retry timer survives everything but the passage of time and the end of
    the connection. *)
Definition keeps_deadline (deadline : Z) (op : life_op) : bool :=
  match op with
  | OpTick now => now <? deadline
  | OpStop | OpStopping => false
  | _ => true
  end.

Lemma backoff_step l op :
  state l = CF_BACKOFF -> keeps_deadline (retry_at_ms l) op = true ->
  state (life_step l op) = CF_BACKOFF /\ retry_at_ms (life_step l op) = retry_at_ms l /\
  failures (life_step l op) = failures l.
Proof.
  destruct l as [s n t r c f a]; simpl; intros -> Hk.
  destruct op as [| n' t' | e | now h rnd | now | |]; unfold life_step; simpl in *; try done.
  - by case_if.
  - destruct n, t, e; done.
  - by replace (a <=? now) with false by lia.
Qed.

(** The states in which a retry may be scheduled. *)
Definition retryable (s : cf_state) : bool :=
  negb (terminal s || bool_decide (s = CF_BACKOFF) || bool_decide (s = CF_WAIT_NETWORK)
        || bool_decide (s = CF_WAIT_TIME)).

Lemma retry_spec l now hint random :
  retryable (state l) = true ->
  cf_lifecycle_retry (Some l) now hint random =
    (CF_OK, Some (Life CF_BACKOFF (network_ready l) (time_ready l) false false
       (if failures l <? UINT32_MAX then failures l + 1 else failures l)
       (let d := backoff_delay (failures l) hint random in
        if UINT64_MAX - d <? now then UINT64_MAX else u64 (now + d)))).
Proof.
  unfold retryable, cf_lifecycle_retry; intros H; apply negb_true_iff in H.
  by rewrite H.
Qed.

(** ** Properties *)

(** C26. Whatever the sequence of calls, the tunnel is only ever reported online
    when the network and the clock are ready, the registration succeeded and a
    configuration was applied.  Network and clock are ready in every state from
    the discovery on; a registration there is only in the states after it, and a
    configuration only from the registration on (it may come before its
    answer), so that waiting, connecting, a pending retry, a rejected token and a
    stop have cleared both; a graceful stop, which the transport enters by an
    assignment, keeps the flags it finds. *)
Theorem online_only_when_ready l :
  reachable l ->
  (state l = CF_ONLINE ->
     network_ready l = true /\ time_ready l = true /\ registered l = true /\ configured l = true) /\
  (state l ∈ [CF_DISCOVERY; CF_CONNECT; CF_TLS; CF_HTTP2; CF_REGISTERING; CF_WAIT_CONFIG; CF_ONLINE; CF_CONFIG_FAILED] ->
     network_ready l = true /\ time_ready l = true) /\
  (registered l = true -> state l ∈ [CF_WAIT_CONFIG; CF_ONLINE; CF_CONFIG_FAILED; CF_STOPPING]) /\
  (configured l = true -> state l ∈ [CF_REGISTERING; CF_ONLINE; CF_STOPPING]) /\
  (registered l = true -> configured l = true -> state l ∈ [CF_ONLINE; CF_STOPPING]) /\
  (state l ∈ [CF_DISCOVERY; CF_CONNECT; CF_TLS; CF_HTTP2; CF_WAIT_NETWORK; CF_WAIT_TIME; CF_BACKOFF; CF_AUTH_FAILED; CF_STOPPED] ->
     registered l = false /\ configured l = false).
Proof.
  intros H%reachable_inv; unfold life_inv in H; rewrite !elem_of_cons, !elem_of_nil.
  destruct (state l); intuition congruence.
Qed.

Definition run_ops (ops : list life_op) : cf_lifecycle := foldl life_step zero_lifecycle ops.

Lemma online_only_when_ready_witness :
  let l := run_ops [OpEnvironment true true; OpStart; OpAdvance CF_EVENT_DISCOVERED;
                    OpAdvance CF_EVENT_CONNECTED; OpAdvance CF_EVENT_TLS_READY;
                    OpAdvance CF_EVENT_HTTP2_READY; OpAdvance CF_EVENT_CONFIG_APPLIED;
                    OpAdvance CF_EVENT_REGISTERED] in
  state l = CF_ONLINE /\ registered l = true.
Proof.
  intros l; split; [reflexivity|].
  assert (reachable l) as Hl by (unfold l; simpl; repeat apply reach_step; by apply (reach_init zero_lifecycle)).
  exact (proj1 (proj2 (proj2 (proj1 (online_only_when_ready l Hl) eq_refl)))).
Defined.

(** Scheduling a retry: from every state in which it is accepted, the delay
    is at least half a second, between half the exponential ceiling
    [min(60000, 1000 * 2^min(failures,6))] and the ceiling, or the server's hint
    where that is longer; the deadline saturates instead of wrapping, so it is
    never before [now], and the failure count saturates at [UINT32_MAX]. *)
Theorem retry_backoff l now hint random :
  retryable (state l) = true -> 0 <= failures l <= UINT32_MAX ->
  0 <= now <= UINT64_MAX -> 0 <= hint <= UINT32_MAX -> 0 <= random <= UINT32_MAX ->
  exists l' delay,
    cf_lifecycle_retry (Some l) now hint random = (CF_OK, Some l') /\
    state l' = CF_BACKOFF /\ registered l' = false /\ configured l' = false /\
    failures l' = Z.min UINT32_MAX (failures l + 1) /\
    retry_at_ms l' = Z.min UINT64_MAX (now + delay) /\
    (let ceiling := Z.min 60000 (1000 * 2 ^ Z.min (failures l) 6) in
     500 <= delay /\ Z.max hint (ceiling / 2) <= delay <= Z.max hint ceiling).
Proof.
  intros Hs Hf Hn Hh Hr; rewrite retry_spec by done.
  pose proof (backoff_delay_bounds (failures l) hint random) as Hd; simpl in Hd.
  set (d := backoff_delay _ _ _) in *; set (c := Z.min _ _) in *.
  eexists _, d; split; [reflexivity|]; simpl; split_and!; try done; try lia;
    unfold UINT64_MAX, UINT32_MAX in *; case_ifs; rewrite wrap_small; unfold UINT64_MAX, UINT32_MAX in *; lia.
Qed.

Lemma retry_backoff_witness :
  exists l' delay,
    cf_lifecycle_retry (Some (Life CF_CONNECT true true false false 9 0)) 18446744073709551600 70000 123456
      = (CF_OK, Some l') /\ retry_at_ms l' = UINT64_MAX /\ delay = 70000.
Proof.
  destruct (retry_backoff (Life CF_CONNECT true true false false 9 0) 18446744073709551600 70000 123456)
    as (l' & d & H & _ & _ & _ & _ & _ & Hd); [reflexivity|by vm_compute..|].
  exists l', d; split; [exact H|]; split.
  - assert (snd (CF_OK, Some l') = Some l') as He by reflexivity; rewrite <- H in He.
    vm_compute in He; injection He as <-; reflexivity.
  - destruct Hd as [H1 H2]; change (70000 <= d <= 70000) in H2; lia.
Defined.

(** A pending retry cannot be hurried: through any sequence of network or
    clock changes, pipeline events, further retries, restarts and ticks before
    the deadline the connection stays in backoff with the same deadline and
    failure count; the first tick at or after the deadline leaves backoff. *)
Theorem backoff_holds l ops :
  state l = CF_BACKOFF -> forallb (keeps_deadline (retry_at_ms l)) ops = true ->
  let l' := foldl life_step l ops in
  state l' = CF_BACKOFF /\ retry_at_ms l' = retry_at_ms l /\ failures l' = failures l /\
  forall now, retry_at_ms l <= now -> state (life_step l' (OpTick now)) = waiting l'.
Proof.
  revert l; induction ops as [|op ops IH]; intros l Hs Hk; simpl in *.
  - split_and!; try done; intros now Hnow; unfold life_step; simpl.
    rewrite Hs; simpl; by replace (_ <=? _) with true by lia.
  - apply andb_prop in Hk as [Ho Hk].
    destruct (backoff_step l op Hs Ho) as (H1 & H2 & H3).
    specialize (IH _ H1); rewrite H2, H3 in IH; by apply IH.
Qed.

Lemma backoff_holds_witness :
  state (life_step (foldl life_step (Life CF_BACKOFF true true false false 1 5000)
    [OpEnvironment false false; OpTick 4999; OpStart; OpRetry 4000 0 0;
     OpAdvance CF_EVENT_DISCOVERED; OpEnvironment true true]) (OpTick 5000)) = CF_DISCOVERY.
Proof.
  destruct (backoff_holds (Life CF_BACKOFF true true false false 1 5000)
    [OpEnvironment false false; OpTick 4999; OpStart; OpRetry 4000 0 0;
     OpAdvance CF_EVENT_DISCOVERED; OpEnvironment true true]) as (_ & _ & _ & H);
    [reflexivity..|].
  exact (H 5000 ltac:(simpl; lia)).
Defined.
