(* ===== verification/Framing.v ===== *)
(** Unpacked Cap'n Proto stream framing (src/protocol/cf_capnp_framing.c). *)
From S2P Require Export Core.

Definition CF_CAPNP_MAX_SEGMENTS : Z := 8.
Definition CF_CAPNP_MESSAGE_MAX : Z := 16384.

(** [buffer] is the caller's object; [phase] is 0 while the segment count is
    read, 1 for the segment table and 2 for the body. *)
Record cf_capnp_framer := Framer {
  buffer : option (list Z);
  capacity : Z; used : Z; target : Z;   (* size_t *)
  segments : Z;                         (* uint32_t *)
  phase : Z;
  error : cf_result
}.

(** ** The code *)

Definition table_size (n : Z) : Z := usize (usize (n + 2) / 2 * 8).

(** The loop of [total_size]; [k] is [n - i]. *)
Fixpoint total_loop (p : list Z) (cap : Z) (k : nat) (i total : Z) : option (cf_result * option Z) :=
  match k with
  | O => Some (CF_OK, Some total)
  | S k' =>
      words ← get_u32 p (4 + i * 4);
      if usize (cap - total) / 8 <? words then Some (CF_ERR_LIMIT, None)
      else total_loop p cap k' (i + 1) (usize (total + usize (words * 8)))
  end.

(** The second component is the value stored in [*out], if any. *)
Definition total_size (p : list Z) (n cap : Z) : option (cf_result * option Z) :=
  let total := table_size n in
  if cap <? total then Some (CF_ERR_LIMIT, None) else
  w0 ← get_u32 p 4;
  if w0 =? 0 then Some (CF_ERR_FORMAT, None) else
  total_loop p cap (Z.to_nat n) 0 total.

Definition cf_capnp_framer_reset (f : option cf_capnp_framer) : option cf_capnp_framer :=
  match f with
  | None => None
  | Some f => Some (Framer (buffer f) (capacity f) 0 4 0 0 CF_OK)
  end.

Definition cf_capnp_framer_init (f : option cf_capnp_framer) (buf : option (list Z)) (cap : Z)
    : cf_result * option cf_capnp_framer :=
  match f, buf with
  | Some _, Some m =>
      if (cap <? 16) || (CF_CAPNP_MESSAGE_MAX <? cap) then (CF_ERR_ARGUMENT, f)
      else (CF_OK, cf_capnp_framer_reset (Some (Framer (Some m) cap 0 0 0 0 CF_OK)))
  | _, _ => (CF_ERR_ARGUMENT, f)
  end.

(** [return f->error = rc] *)
Definition set_error (f : cf_capnp_framer) (rc : cf_result) : cf_capnp_framer :=
  Framer (buffer f) (capacity f) (used f) (target f) (segments f) (phase f) rc.

Section Feed.
(** The consumer of complete frames ([cf_capnp_message_fn]) and its context. *)
Context {Ctx : Type} (callback : Ctx -> cf_bytes -> option (cf_result * Ctx)).

(** The work done when [used] has reached [target]. *)
Definition feed_stage (f : cf_capnp_framer) (m : list Z) (ctx : Ctx)
    : option (cf_result * cf_capnp_framer * Ctx) :=
  if phase f =? 0 then
    minus_one ← get_u32 m 0;
    if CF_CAPNP_MAX_SEGMENTS <=? minus_one then Some (CF_ERR_LIMIT, set_error f CF_ERR_LIMIT, ctx) else
    let n := u32 (minus_one + 1) in
    let t := table_size n in
    let f := Framer (buffer f) (capacity f) (used f) t n (phase f) (error f) in
    if capacity f <? t then Some (CF_ERR_LIMIT, set_error f CF_ERR_LIMIT, ctx) else
    Some (CF_OK, Framer (buffer f) (capacity f) (used f) (target f) (segments f) 1 (error f), ctx)
  else if phase f =? 1 then
    '(rc, t) ← total_size m (segments f) (capacity f);
    let f := Framer (buffer f) (capacity f) (used f) (default (target f) t)
               (segments f) (phase f) (error f) in
    if negb (is_ok rc) then Some (rc, set_error f rc, ctx) else
    Some (CF_OK, Framer (buffer f) (capacity f) (used f) (target f) (segments f) 2 (error f), ctx)
  else
    '(rc, ctx) ← callback ctx (Bytes (Some m) (used f));
    if negb (is_ok rc) then Some (rc, set_error f rc, ctx) else
    f' ← cf_capnp_framer_reset (Some f);
    Some (CF_OK, f', ctx).

(** One round of the [while] loop appends the bytes that are there, up to
    [target]; [fuel] bounds the number of rounds. *)
Fixpoint feed_loop (fuel : nat) (f : cf_capnp_framer) (input : cf_bytes) (consumed : Z) (ctx : Ctx)
    : option (cf_result * cf_capnp_framer * Z * Ctx) :=
  if negb (consumed <? len input) then Some (CF_OK, f, consumed, ctx) else
  match fuel with
  | O => None
  | S fuel' =>
      let n := usize (target f - used f) in
      let n := if len input - consumed <? n then len input - consumed else n in
      m ← buffer f; src ← ptr input;
      bytes ← slice src consumed n;
      m ← blit m (used f) bytes;
      let f := Framer (Some m) (capacity f) (usize (used f + n)) (target f) (segments f)
                 (phase f) (error f) in
      let consumed := usize (consumed + n) in
      if negb (used f =? target f) then feed_loop fuel' f input consumed ctx else
      '(rc, f, ctx) ← feed_stage f m ctx;
      if negb (is_ok rc) then Some (rc, f, consumed, ctx)
      else feed_loop fuel' f input consumed ctx
  end.
End Feed.

(** The result: code, framer, [*consumed], context. *)
Definition cf_capnp_feed {Ctx} (f : option cf_capnp_framer) (input : cf_bytes) (consumed : option Z)
    (callback : option (Ctx -> cf_bytes -> option (cf_result * Ctx))) (ctx : Ctx)
    : option (cf_result * option cf_capnp_framer * option Z * Ctx) :=
  match consumed with
  | None => Some (CF_ERR_ARGUMENT, f, None, ctx)
  | Some _ =>
      match f, callback with
      | Some fr, Some cb =>
          if bool_decide (buffer fr = None) || null_view input
          then Some (CF_ERR_ARGUMENT, f, Some 0, ctx) else
          if negb (is_ok (error fr)) then Some (error fr, f, Some 0, ctx) else
          '(rc, fr, k, ctx) ← feed_loop cb (Z.to_nat (len input)) fr input 0 ctx;
          Some (rc, Some fr, Some k, ctx)
      | _, _ => Some (CF_ERR_ARGUMENT, f, Some 0, ctx)
      end
  end.

Definition cf_capnp_eof (f : option cf_capnp_framer) : cf_result :=
  match f with
  | None => CF_ERR_ARGUMENT
  | Some f => if negb (is_ok (error f)) then error f
              else if negb (used f =? 0) then CF_ERR_TRUNCATED else CF_OK
  end.

(** The loop that skips the segments before [index]; [k] is [index - i]. *)
Fixpoint offset_loop (p : list Z) (k : nat) (i offset : Z) : option Z :=
  match k with
  | O => Some offset
  | S k' => w ← get_u32 p (4 + i * 4); offset_loop p k' (i + 1) (usize (offset + usize (w * 8)))
  end.

(** [out] is the previous value of [*out]; its new value is returned. *)
Definition cf_capnp_segment (frame : cf_bytes) (index : Z) (out : option cf_bytes)
    : option (cf_result * option cf_bytes) :=
  match out with
  | None => Some (CF_ERR_ARGUMENT, None)
  | Some _ =>
      if null_view frame then Some (CF_ERR_ARGUMENT, out) else
      let ret rc := Some (rc, Some null_bytes) in
      if len frame <? 8 then ret CF_ERR_TRUNCATED else
      p ← ptr frame;
      n ← get_u32 p 0;
      if CF_CAPNP_MAX_SEGMENTS <=? n then ret CF_ERR_LIMIT else
      let n := u32 (n + 1) in
      if n <=? index then ret CF_ERR_ARGUMENT else
      let offset := table_size n in
      if len frame <? offset then ret CF_ERR_TRUNCATED else
      '(rc, total) ← total_size p n CF_CAPNP_MESSAGE_MAX;
      if negb (is_ok rc) then ret rc else
      total ← total;
      if negb (total =? len frame)
      then ret (if len frame <? total then CF_ERR_TRUNCATED else CF_ERR_FORMAT) else
      offset ← offset_loop p (Z.to_nat index) 0 offset;
      w ← get_u32 p (4 + index * 4);
      seg ← badd frame offset (usize (w * 8));
      Some (CF_OK, Some seg)
  end.

(** ** Reference semantics

    The frame layout on plain byte lists, and a framer that takes one byte at a
    time. *)

Definition seg_count (l : list Z) : Z := le_val (sub l 0 4) + 1.
Definition seg_words (l : list Z) (i : Z) : Z := le_val (sub l (4 + i * 4) 4).

Fixpoint words_sum (l : list Z) (i : Z) (k : nat) : Z :=
  match k with O => 0 | S k' => seg_words l i + words_sum l (i + 1) k' end.

Definition table (n : Z) : Z := (n + 2) / 2 * 8.
Definition frame_len (l : list Z) : Z :=
  table (seg_count l) + 8 * words_sum l 0 (Z.to_nat (seg_count l)).

Definition total_ref (l : list Z) (cap : Z) : cf_result * option Z :=
  if cap <? table (seg_count l) then (CF_ERR_LIMIT, None)
  else if seg_words l 0 =? 0 then (CF_ERR_FORMAT, None)
  else if frame_len l <=? cap then (CF_OK, Some (frame_len l)) else (CF_ERR_LIMIT, None).

Inductive frame_status := More | Done | Bad (rc : cf_result).

(** What the bytes of an unfinished frame amount to. *)
Definition status (cap : Z) (p : list Z) : frame_status :=
  if zlen p <? 4 then More
  else if zlen p =? 4 then
    if (8 <? seg_count p) || (cap <? table (seg_count p)) then Bad CF_ERR_LIMIT else More
  else if zlen p <? table (seg_count p) then More
  else match total_ref p cap with
       | (CF_OK, Some t) => if zlen p =? t then Done else More
       | (rc, _) => Bad rc
       end.

(** What a consumer of complete frames promises: on the contexts it maintains it
    returns, and its result depends on the bytes of the frame only. *)
Class FrameConsumer {Ctx : Type} (callback : Ctx -> cf_bytes -> option (cf_result * Ctx)) := {
  ctx_ok : Ctx -> Prop;
  handle : Ctx -> list Z -> cf_result * Ctx;
  consumes ctx b l : ctx_ok ctx -> denotes b l -> callback ctx b = Some (handle ctx l);
  ctx_kept ctx l : ctx_ok ctx -> bytes_ok l -> ctx_ok (snd (handle ctx l))
}.

(** Code, pending bytes, bytes consumed, context. *)
Fixpoint feed_ref {Ctx} (hdl : Ctx -> list Z -> cf_result * Ctx) (cap : Z) (p l : list Z) (ctx : Ctx)
    : cf_result * list Z * Z * Ctx :=
  match l with
  | [] => (CF_OK, p, 0, ctx)
  | b :: l' =>
      let p := p ++ [b] in
      let next p ctx :=
        let '(rc, p', k, ctx') := feed_ref hdl cap p l' ctx in (rc, p', 1 + k, ctx') in
      match status cap p with
      | More => next p ctx
      | Bad rc => (rc, p, 1, ctx)
      | Done => let '(rc, ctx') := hdl ctx p in
                if is_ok rc then next [] ctx' else (rc, p, 1, ctx')
      end
  end.

(** The framer [f] of capacity [cap] has the bytes [p] of an unfinished frame. *)
Definition framer_rep (cap : Z) (f : cf_capnp_framer) (p : list Z) : Prop :=
  (exists rest, buffer f = Some (p ++ rest) /\ cap <= zlen (p ++ rest)) /\
  bytes_ok p /\ capacity f = cap /\ 16 <= cap <= CF_CAPNP_MESSAGE_MAX /\
  used f = zlen p /\ used f < target f <= cap /\ error f = CF_OK /\
  ((phase f = 0 /\ target f = 4) \/
   (phase f = 1 /\ segments f = seg_count p /\ seg_count p <= 8 /\
      4 <= zlen p /\ target f = table (seg_count p)) \/
   (phase f = 2 /\ segments f = seg_count p /\ seg_count p <= 8 /\
      table (seg_count p) <= zlen p /\ total_ref p cap = (CF_OK, Some (target f)))).

(** ** Lemmas *)

Lemma seg_count_pos l : bytes_ok l -> 1 <= seg_count l.
Proof.
  intros H; unfold seg_count; pose proof (le_val_bound (sub l 0 4) (sub_ok _ _ _ H)); lia.
Qed.

Lemma seg_count_bound l : bytes_ok l -> 4 <= zlen l -> seg_count l <= 4294967296.
Proof.
  intros H Hl; unfold seg_count; pose proof (le_val_bound (sub l 0 4) (sub_ok _ _ _ H)) as Hb.
  rewrite zlen_sub in Hb by lia; change (256 ^ 4) with 4294967296 in Hb; lia.
Qed.

Lemma seg_words_bound l i :
  bytes_ok l -> 0 <= i -> 4 + i * 4 + 4 <= zlen l -> 0 <= seg_words l i < 4294967296.
Proof.
  intros H Hi Hl; unfold seg_words; pose proof (le_val_bound (sub l (4 + i * 4) 4) (sub_ok _ _ _ H)) as Hb.
  rewrite zlen_sub in Hb by lia; exact Hb.
Qed.

Lemma seg_words_nonneg l i : bytes_ok l -> 0 <= seg_words l i.
Proof. intros H; apply le_val_bound, sub_ok, H. Qed.

Lemma words_sum_nonneg l i k : bytes_ok l -> 0 <= words_sum l i k.
Proof.
  intros H; revert i; induction k as [|k IH]; intros i; cbn [words_sum]; [lia|].
  pose proof (seg_words_nonneg l i H); specialize (IH (i + 1)); lia.
Qed.

Lemma table_size_spec n : 0 <= n <= 9 -> table_size n = table n.
Proof.
  intros; unfold table_size, table; rewrite (wrap_small 32 (n + 2)) by lia.
  by rewrite wrap_small by zdm.
Qed.

Lemma table_fits n : 1 <= n -> 4 + n * 4 <= table n /\ 8 <= table n.
Proof. intros; unfold table; zdm. Qed.

#[export] Hint Resolve seg_count_pos seg_words_nonneg words_sum_nonneg sub_ok : cf.

(** The header fields of a frame are those of its prefixes. *)
Lemma seg_count_app p x : 4 <= zlen p -> seg_count (p ++ x) = seg_count p.
Proof. intros; unfold seg_count; by rewrite sub_app_l by lia. Qed.

Lemma seg_words_app p x i : 0 <= i -> 8 + i * 4 <= zlen p -> seg_words (p ++ x) i = seg_words p i.
Proof. intros; unfold seg_words; by rewrite sub_app_l by lia. Qed.

Lemma words_sum_app p x k i :
  0 <= i -> 4 + (i + Z.of_nat k) * 4 <= zlen p -> words_sum (p ++ x) i k = words_sum p i k.
Proof.
  revert i; induction k as [|k IH]; intros i Hi Hk; cbn [words_sum]; [done|].
  rewrite seg_words_app, IH by lia; done.
Qed.

Lemma frame_len_app p x :
  bytes_ok p -> 4 <= zlen p -> table (seg_count p) <= zlen p -> frame_len (p ++ x) = frame_len p.
Proof.
  intros Hp H4 Ht; unfold frame_len; rewrite seg_count_app by lia.
  pose proof (seg_count_pos _ Hp); pose proof (table_fits (seg_count p)).
  rewrite words_sum_app by lia; done.
Qed.

Lemma total_ref_app p x cap :
  bytes_ok p -> 4 <= zlen p -> table (seg_count p) <= zlen p ->
  total_ref (p ++ x) cap = total_ref p cap.
Proof.
  intros Hp H4 Ht; pose proof (seg_count_pos _ Hp); pose proof (table_fits (seg_count p)).
  unfold total_ref; rewrite frame_len_app, seg_count_app, seg_words_app by first [done|lia]; done.
Qed.

(** ** The size computation *)

Lemma total_loop_spec p cap k i total :
  bytes_ok p -> cap <= CF_CAPNP_MESSAGE_MAX -> 0 <= total <= cap -> 0 <= i ->
  4 + (i + Z.of_nat k) * 4 <= zlen p ->
  total_loop p cap k i total =
    Some (if total + 8 * words_sum p i k <=? cap
          then (CF_OK, Some (total + 8 * words_sum p i k)) else (CF_ERR_LIMIT, None)).
Proof.
  unfold CF_CAPNP_MESSAGE_MAX; intros Hp Hcap; revert i total.
  induction k as [|k IH]; intros i total Ht Hi Hk; cbn [total_loop words_sum].
  - rewrite Z.mul_0_r, Z.add_0_r; by replace (total <=? cap) with true by lia.
  - rewrite get_u32_spec by (try done; lia); cbn [mbind option_bind].
    fold (seg_words p i); pose proof (words_sum_nonneg p (i + 1) k Hp).
    pose proof (seg_words_nonneg p i Hp); rewrite (wrap_small 32 (cap - total)) by lia.
    case_if; bool_to_prop.
    + replace (_ <=? cap) with false; [done|]; symmetry; apply Z.leb_gt; zdm.
    + assert (seg_words p i * 8 <= cap - total) by zdm.
      rewrite !wrap_small by (rewrite ?wrap_small; lia).
      rewrite IH by lia; f_equal; rewrite !Z.mul_add_distr_l, !Z.add_assoc.
      by rewrite (Z.mul_comm (seg_words p i)).
Qed.

Lemma total_size_spec p x cap :
  bytes_ok p -> cap <= CF_CAPNP_MESSAGE_MAX -> 4 <= zlen p -> seg_count p <= 8 ->
  table (seg_count p) <= zlen p ->
  total_size (p ++ x) (seg_count p) cap = Some (total_ref p cap).
Proof.
  intros Hp Hcap H4 H8 Ht; pose proof (seg_count_pos _ Hp) as H1.
  pose proof (table_fits (seg_count p) H1).
  assert (forall o, 0 <= o -> o + 4 <= zlen p -> get_u32 (p ++ x) o = get_u32 p o) as Hget.
  { intros o Ho Hz; unfold get_u32; by rewrite !rd_app_l by lia. }
  assert (forall k i total, 0 <= i -> 4 + (i + Z.of_nat k) * 4 <= zlen p ->
          total_loop (p ++ x) cap k i total = total_loop p cap k i total) as Hloop.
  { induction k as [|k IH]; intros i t Hi Hk; cbn [total_loop]; [done|].
    rewrite Hget by lia; destruct (get_u32 p _); cbn [mbind option_bind]; [|done].
    by rewrite IH by lia. }
  unfold total_size, total_ref; rewrite table_size_spec by lia.
  destruct (Z.ltb_spec cap (table (seg_count p))); [done|].
  rewrite Hget, get_u32_spec, Hloop, total_loop_spec by (try done; lia); cbn [mbind option_bind].
  change (le_val (sub p 4 4)) with (seg_words p 0); unfold frame_len; by case_ifs.
Qed.

(** ** The framer against the byte-at-a-time reference *)

(** What [feed_stage] does when [q] is what has been accumulated. *)
Lemma total_ref_cases p cap :
  bytes_ok p ->
  (exists t, total_ref p cap = (CF_OK, Some t) /\ table (seg_count p) < t <= cap /\ t = frame_len p) \/
  (exists rc, total_ref p cap = (rc, None) /\ is_ok rc = false).
Proof.
  intros Hp; unfold total_ref, frame_len; pose proof (seg_count_pos _ Hp) as H1.
  destruct (Z.ltb_spec cap (table (seg_count p))); [right; by eexists|].
  destruct (Z.eqb_spec (seg_words p 0) 0); [right; by eexists|].
  case_if; bool_to_prop; [left|right; by eexists].
  eexists; split_and!; [done| |lia|done].
  destruct (Z.to_nat (seg_count p)) as [|k] eqn:Ek; [lia|]; cbn [words_sum].
  pose proof (words_sum_nonneg p (0 + 1) k Hp); pose proof (seg_words_nonneg p 0 Hp); lia.
Qed.

Lemma zlen_snoc {A} (l : list A) x : zlen (l ++ [x]) = zlen l + 1.
Proof. rewrite zlen_app, zlen_cons, zlen_nil_any; lia. Qed.

(** Bytes short of the target only lengthen the pending frame. *)
Lemma rep_more cap f p x :
  framer_rep cap f p -> bytes_ok x -> zlen p < zlen (p ++ x) < target f -> status cap (p ++ x) = More.
Proof.
  intros (_ & Hp & _ & _ & Hu & Ht & _ & Hph) Hx Hl; unfold status.
  destruct Hph as [[_ E]|[(_ & _ & H8 & H4 & E)|(_ & _ & H8 & Htab & E)]].
  - by replace (zlen (p ++ x) <? 4) with true by lia.
  - rewrite seg_count_app by done.
    replace (zlen (p ++ x) <? 4) with false by lia; replace (zlen (p ++ x) =? 4) with false by lia.
    by replace (zlen (p ++ x) <? _) with true by lia.
  - pose proof (table_fits _ (seg_count_pos _ Hp)).
    rewrite seg_count_app by lia.
    replace (zlen (p ++ x) <? 4) with false by lia; replace (zlen (p ++ x) =? 4) with false by lia.
    replace (zlen (p ++ x) <? _) with false by lia.
    rewrite total_ref_app, E by (try done; lia); by replace (zlen (p ++ x) =? _) with false by lia.
Qed.

(** The framer after [x] was copied behind [p]. *)
Definition grown (f : cf_capnp_framer) (m : list Z) (n : Z) : cf_capnp_framer :=
  Framer (Some m) (capacity f) n (target f) (segments f) (phase f) (error f).

Lemma rep_grow cap f p x rest :
  framer_rep cap f p -> bytes_ok x -> zlen (p ++ x) < target f -> cap <= zlen ((p ++ x) ++ rest) ->
  framer_rep cap (grown f ((p ++ x) ++ rest) (zlen (p ++ x))) (p ++ x).
Proof.
  intros (_ & Hp & Hc & Hcap & Hu & Ht & He & Hph) Hx Hl Hr; unfold framer_rep, grown; simpl.
  split_and!; try done; try lia; [by exists rest|by apply Forall_app|].
  rewrite zlen_app in *; pose proof (zlen_nonneg x).
  destruct Hph as [Hz|[(? & ? & ? & ? & ?)|(? & ? & ? & ? & ?)]]; [by left|right; left|right; right].
  - rewrite seg_count_app by lia; split_and!; try done; lia.
  - pose proof (table_fits _ (seg_count_pos _ Hp)).
    rewrite seg_count_app, total_ref_app by (try done; lia); split_and!; try done; lia.
Qed.

Section Feed.
Context {Ctx : Type} (callback : Ctx -> cf_bytes -> option (cf_result * Ctx)) `{!FrameConsumer callback}.

Lemma feed_ref_app cap p x y ctx :
  (forall x1 x2, x = x1 ++ x2 -> x1 <> [] -> status cap (p ++ x1) = More) ->
  feed_ref handle cap p (x ++ y) ctx =
    let '(rc, p', k, ctx') := feed_ref handle cap (p ++ x) y ctx in (rc, p', zlen x + k, ctx').
Proof.
  revert p; induction x as [|b x IH]; intros p Hm; simpl.
  - rewrite app_nil_r; by destruct (feed_ref handle cap p y ctx) as [[[? ?] ?] ?].
  - rewrite (Hm [b] x) by done.
    assert (forall x1 x2, x = x1 ++ x2 -> x1 <> [] -> status cap ((p ++ [b]) ++ x1) = More) as Hm'.
    { intros x1 x2 -> Hx1; rewrite <- app_assoc; by apply (Hm (b :: x1) x2). }
    rewrite (IH _ Hm'), <- app_assoc; simpl; destruct (feed_ref handle cap (p ++ b :: x) y ctx) as [[[? ?] ?] ?].
    rewrite zlen_cons; do 2 f_equal; lia.
Qed.

Lemma feed_ref_rep cap f p x y ctx :
  framer_rep cap f p -> bytes_ok x -> zlen (p ++ x) < target f ->
  feed_ref handle cap p (x ++ y) ctx =
    let '(rc, p', k, ctx') := feed_ref handle cap (p ++ x) y ctx in (rc, p', zlen x + k, ctx').
Proof.
  intros Hf Hx Hl; apply feed_ref_app; intros x1 x2 -> Hx1.
  apply (rep_more cap f); [done|by apply Forall_app in Hx as [? _]|].
  destruct x1; [done|]; rewrite !zlen_app, !zlen_cons in *.
  pose proof (zlen_nonneg x1); pose proof (zlen_nonneg x2); lia.
Qed.

(** What a stage must leave when [q] has been accumulated. *)
Definition stage_post (cap : Z) (q : list Z) (ctx : Ctx)
    (r : option (cf_result * cf_capnp_framer * Ctx)) : Prop :=
  exists rc f' ctx', r = Some (rc, f', ctx') /\ error f' = rc /\ ctx_ok ctx' /\
    match status cap q with
    | More => rc = CF_OK /\ ctx' = ctx /\ framer_rep cap f' q
    | Bad e => rc = e /\ is_ok e = false /\ ctx' = ctx
    | Done => handle ctx q = (rc, ctx') /\ (rc = CF_OK -> framer_rep cap f' [])
    end.

(** The stages in terms of the bytes [q] accumulated; the framer is at its
    target. *)
Definition at_target (cap : Z) (f : cf_capnp_framer) (q rest : list Z) : Prop :=
  buffer f = Some (q ++ rest) /\ bytes_ok q /\ cap <= zlen (q ++ rest) /\ capacity f = cap /\
  16 <= cap <= CF_CAPNP_MESSAGE_MAX /\ used f = zlen q /\ target f = zlen q /\ zlen q <= cap /\
  error f = CF_OK.

Lemma stage_count cap f q rest ctx :
  at_target cap f q rest -> ctx_ok ctx -> phase f = 0 -> zlen q = 4 ->
  stage_post cap q ctx (feed_stage callback f (q ++ rest) ctx).
Proof.
  intros (Hb & Hq & Hr & Hc & Hcap & Hu & Ht & Hl & He) Hctx Hph H4.
  pose proof (seg_count_pos _ Hq) as H1; pose proof (table_fits _ H1) as [_ H8].
  unfold feed_stage, stage_post, status; rewrite Hph, H4; simpl (_ =? _); simpl (4 <? 4); cbn iota.
  assert (get_u32 (q ++ rest) 0 = Some (seg_count q - 1)) as ->.
  { unfold get_u32; rewrite !rd_app_l by lia; change (get_u32 q 0 = Some (seg_count q - 1)).
    rewrite get_u32_spec by first [done|lia]; unfold seg_count; f_equal; lia. }
  cbn [mbind option_bind]; unfold CF_CAPNP_MAX_SEGMENTS.
  destruct (Z.leb_spec 8 (seg_count q - 1)).
  { replace (8 <? seg_count q) with true by lia; cbn [orb]; by eexists _, _, _. }
  rewrite (wrap_small 32) by lia; rewrite Z.sub_add, table_size_spec by lia; cbn [capacity]; rewrite Hc.
  replace (8 <? seg_count q) with false by lia; cbn [orb].
  destruct (Z.ltb_spec cap (table (seg_count q))); [by eexists _, _, _|].
  eexists _, _, _; split; [reflexivity|]; simpl; split_and!; try done.
  unfold framer_rep; simpl; split_and!; try done; try lia; by exists rest.
Qed.

Lemma stage_table cap f q rest ctx :
  at_target cap f q rest -> ctx_ok ctx -> phase f = 1 -> segments f = seg_count q ->
  seg_count q <= 8 -> zlen q = table (seg_count q) ->
  stage_post cap q ctx (feed_stage callback f (q ++ rest) ctx).
Proof.
  intros (Hb & Hq & Hr & Hc & Hcap & Hu & Ht & Hl & He) Hctx Hph Hs Hn Htab.
  pose proof (table_fits _ (seg_count_pos _ Hq)) as [_ H8].
  unfold feed_stage, stage_post, status; rewrite Hph, Hs, Hc; simpl (_ =? 0); simpl (1 =? 1); cbn iota.
  rewrite total_size_spec by first [done|lia]; cbn [mbind option_bind].
  replace (zlen q <? 4) with false by lia; replace (zlen q =? 4) with false by lia.
  replace (zlen q <? table (seg_count q)) with false by lia.
  destruct (total_ref_cases q cap Hq) as [(t & Ht' & Htt & _)|(rc & Ht' & Hrc)]; rewrite Ht'.
  - simpl is_ok; cbn [negb]; replace (zlen q =? t) with false by lia.
    eexists _, _, _; split; [reflexivity|]; simpl; split_and!; try done.
    unfold framer_rep; simpl; split_and!; try done; try lia; [by exists rest|].
    right; right; split_and!; try done; lia.
  - rewrite Hrc; cbn [negb]; destruct rc; try done; by eexists _, _, _.
Qed.

Lemma stage_body cap f q rest ctx :
  at_target cap f q rest -> ctx_ok ctx -> phase f = 2 -> 4 < zlen q -> table (seg_count q) <= zlen q ->
  total_ref q cap = (CF_OK, Some (zlen q)) ->
  stage_post cap q ctx (feed_stage callback f (q ++ rest) ctx).
Proof.
  intros (Hb & Hq & Hr & Hc & Hcap & Hu & Ht & Hl & He) Hctx Hph H4 Htab Htot.
  unfold feed_stage, stage_post, status; rewrite Hph, Hu, Htot, Z.eqb_refl.
  simpl (_ =? 0); simpl (2 =? 1); cbn iota.
  replace (zlen q <? 4) with false by lia; replace (zlen q =? 4) with false by lia.
  replace (zlen q <? _) with false by lia.
  rewrite (consumes ctx _ q) by first [done | split_and!; [done|done|by exists rest]].
  pose proof (ctx_kept ctx q Hctx Hq) as Hk; destruct (handle ctx q) as [rc ctx'] eqn:Eh; simpl in Hk.
  cbn [mbind option_bind]; destruct rc; simpl is_ok; cbn [negb];
    eexists _, _, _; (split; [reflexivity|]); split_and!; try done.
  intros _; unfold framer_rep; simpl; split_and!; try done; try lia; by exists (q ++ rest).
Qed.

Lemma feed_stage_spec cap f p x rest ctx :
  framer_rep cap f p -> bytes_ok x -> ctx_ok ctx ->
  zlen (p ++ x) = target f -> cap <= zlen ((p ++ x) ++ rest) ->
  stage_post cap (p ++ x) ctx
    (feed_stage callback (grown f ((p ++ x) ++ rest) (zlen (p ++ x))) ((p ++ x) ++ rest) ctx).
Proof.
  intros (_ & Hp & Hc & Hcap & Hu & Ht & He & Hph) Hx Hctx Hl Hr.
  set (g := grown f _ _).
  assert (at_target cap g (p ++ x) rest) as Hg.
  { unfold at_target, g; simpl; split_and!; try done; try lia; by apply Forall_app. }
  pose proof (table_fits _ (seg_count_pos _ Hp)).
  destruct Hph as [[Hph E]|[(Hph & Hs & Hn & H4 & E)|(Hph & Hs & Hn & Htab & E)]].
  - apply (stage_count cap g); try done; lia.
  - apply (stage_table cap g); try done; rewrite seg_count_app by lia; try done; lia.
  - apply (stage_body cap g); try done; rewrite ?seg_count_app, ?total_ref_app by first [done|lia];
      try lia; by rewrite Hl.
Qed.
(** One round: the bytes that fit are copied behind [p]. *)
Lemma feed_copy cap f p input pre l ctx fuel :
  framer_rep cap f p -> denotes input (pre ++ l) -> zlen (pre ++ l) <= SIZE_MAX -> l <> [] ->
  exists x y rest, l = x ++ y /\ x <> [] /\ zlen (p ++ x) <= target f /\
    (y = [] \/ zlen (p ++ x) = target f) /\ cap <= zlen ((p ++ x) ++ rest) /\
    feed_loop callback (S fuel) f input (zlen pre) ctx =
      (let g := grown f ((p ++ x) ++ rest) (zlen (p ++ x)) in
       if negb (zlen (p ++ x) =? target f) then feed_loop callback fuel g input (zlen (pre ++ x)) ctx
       else
         '(rc, g, ctx) ← feed_stage callback g ((p ++ x) ++ rest) ctx;
         if negb (is_ok rc) then Some (rc, g, zlen (pre ++ x), ctx)
         else feed_loop callback fuel g input (zlen (pre ++ x)) ctx).
Proof.
  intros ((r & Hb & Hr) & Hp & Hc & Hcap & Hu & Ht & He & Hph) Hin Hsz Hl; unfold CF_CAPNP_MESSAGE_MAX in *.
  assert (0 < zlen l) as Hl0 by (destruct l; [done|]; rewrite zlen_cons; pose proof (zlen_nonneg l); lia).
  set (n := Z.min (target f - zlen p) (zlen l)).
  destruct (cut_at l 0 n) as (e & x & y & -> & Hz & Hx); [lia|lia|lia|].
  destruct e; [simpl app in *; clear Hz|exfalso; zlia].
  destruct (cut_at r 0 n) as (e & mid & rest & -> & Hz & Hmid); [lia|lia|zlia|].
  destruct e; [simpl app in *; clear Hz|exfalso; zlia].
  assert (n = zlen (x ++ y) \/ n = target f - zlen p) as Hn by lia.
  exists x, y, rest; rewrite !zlen_app in *; pose proof (zlen_nonneg y); pose proof (zlen_nonneg pre).
  unfold SIZE_MAX in *; split_and!; try done; try lia.
  - by intros ->; change (zlen []) with 0 in Hx; lia.
  - destruct Hn as [Hn|Hn]; [left|right; lia]; destruct y; [done|].
    rewrite zlen_cons in *; pose proof (zlen_nonneg y); lia.
  - cbn [feed_loop]; rewrite (denotes_len _ _ Hin), !zlen_app.
    replace (zlen pre <? _) with true by lia; cbn [negb].
    pose proof (zlen_nonneg p); rewrite (wrap_small 32 (target f - used f)) by lia.
    replace (if _ <? _ then _ else _) with (zlen x) by (case_if; lia).
    rewrite Hb; destruct Hin as (_ & _ & Hin); cbn [mbind option_bind].
    destruct (ptr input) as [m|]; [destruct Hin as [tl ->]|by destruct pre, x; try done; change (zlen []) with 0 in *; lia].
    cbn [mbind option_bind]; rewrite <- !app_assoc.
    rewrite slice_sub, sub_app by (rewrite ?zlen_app; pose proof (zlen_nonneg tl); lia).
    cbn [mbind option_bind]; rewrite Hu, blit_app by (unfold zlen in *; lia).
    rewrite !(wrap_small 32) by lia; cbn [mbind option_bind used target]; done.
Qed.

Lemma feed_loop_spec cap input : forall fuel f p pre l ctx,
  framer_rep cap f p -> ctx_ok ctx -> denotes input (pre ++ l) -> zlen (pre ++ l) <= SIZE_MAX ->
  (length l <= fuel)%nat ->
  exists f', let '(rc, p', k, ctx') := feed_ref handle cap p l ctx in
    feed_loop callback fuel f input (zlen pre) ctx = Some (rc, f', zlen pre + k, ctx') /\
    error f' = rc /\ ctx_ok ctx' /\ (rc = CF_OK -> framer_rep cap f' p').
Proof.
  induction fuel as [|fuel IH]; intros f p pre l ctx Hf Hctx Hin Hsz Hfuel.
  { destruct l; [|simpl in Hfuel; lia]; exists f; simpl; rewrite app_nil_r in Hin.
    rewrite (denotes_len _ _ Hin), Z.ltb_irrefl, Z.add_0_r; split_and!; try done; apply Hf. }
  destruct (decide (l = [])) as [->|Hl].
  { exists f; simpl; rewrite app_nil_r in Hin.
    rewrite (denotes_len _ _ Hin), Z.ltb_irrefl, Z.add_0_r; split_and!; try done; apply Hf. }
  destruct (feed_copy cap f p input pre l ctx fuel Hf Hin Hsz Hl)
    as (x & y & rest & -> & Hx & Hle & Hy & Hr & ->); cbv zeta.
  pose proof (denotes_bytes _ _ Hin) as Hok; rewrite !Forall_app in Hok; destruct Hok as (_ & Hxok & Hyok).
  rewrite app_assoc in Hin, Hsz.
  assert (length y <= fuel)%nat as Hfy.
  { rewrite length_app in Hfuel; destruct x; [done|]; simpl in Hfuel; lia. }
  destruct (Z.eqb_spec (zlen (p ++ x)) (target f)) as [Ht|Ht]; cbn [negb].
  - destruct (feed_stage_spec cap f p x rest ctx Hf Hxok Hctx Ht Hr)
      as (rc & f' & ctx' & -> & He & Hctx' & Hst); cbn [mbind option_bind].
    destruct x as [|b x' _] using rev_ind; [done|].
    apply Forall_app in Hxok as [Hx' _].
    rewrite <- (app_assoc x'), (feed_ref_rep cap f p x') by
      (try done; rewrite app_assoc, zlen_snoc in Ht; lia).
    cbn [app feed_ref]; rewrite <- (app_assoc p x' [b]).
    assert (forall k, zlen pre + (zlen x' + (1 + k)) = zlen (pre ++ x' ++ [b]) + k) as Hk
      by (intros; rewrite !zlen_app, zlen_cons, zlen_nil; lia).
    destruct (status cap (p ++ x' ++ [b])).
    + destruct Hst as (-> & -> & Hf'); simpl is_ok; cbn [negb].
      destruct (IH f' _ (pre ++ x' ++ [b]) y ctx Hf') as [g Hg]; try done.
      exists g; destruct (feed_ref handle cap _ y ctx) as [[[? ?] ?] ?]; by rewrite Hk.
    + destruct Hst as (Hh & Hf'); rewrite Hh; destruct (is_ok rc) eqn:Erc; cbn [negb].
      * apply bool_decide_eq_true in Erc; specialize (Hf' Erc).
        destruct (IH f' _ (pre ++ x' ++ [b]) y ctx' Hf') as [g Hg]; try done.
        exists g; destruct (feed_ref handle cap _ y ctx') as [[[? ?] ?] ?]; by rewrite Hk.
      * exists f'; rewrite <- (Z.add_0_r 1), Hk, Z.add_0_r; split_and!; try done; by intros ->.
    + destruct Hst as (-> & Hrc & ->); rewrite Hrc; cbn [negb].
      exists f'; rewrite <- (Z.add_0_r 1), Hk, Z.add_0_r; split_and!; try done; by intros ->.
  - destruct Hy as [->|?]; [|lia].
    rewrite (feed_ref_rep cap f p x []) by (try done; lia).
    destruct (IH (grown f ((p ++ x) ++ rest) (zlen (p ++ x))) (p ++ x) (pre ++ x) [] ctx) as [g Hg]; try done.
    { apply (rep_grow cap f); try done; lia. }
    exists g; simpl in *; rewrite Z.add_0_r in *; by rewrite <- zlen_app.
Qed.

Lemma feed_spec cap f p input l ctx c :
  framer_rep cap f p -> ctx_ok ctx -> denotes input l -> zlen l <= SIZE_MAX ->
  exists f', let '(rc, p', k, ctx') := feed_ref handle cap p l ctx in
    cf_capnp_feed (Some f) input (Some c) (Some callback) ctx = Some (rc, Some f', Some k, ctx') /\
    error f' = rc /\ ctx_ok ctx' /\ (rc = CF_OK -> framer_rep cap f' p').
Proof.
  intros Hf Hctx Hin Hsz.
  destruct (feed_loop_spec cap input (Z.to_nat (len input)) f p [] l ctx Hf Hctx Hin Hsz) as [f' H].
  { rewrite (denotes_len _ _ Hin); unfold zlen; lia. }
  exists f'; destruct (feed_ref handle cap p l ctx) as [[[rc p'] k] ctx'].
  destruct Hf as ((r & Hb & _) & _ & _ & _ & _ & _ & He & _), H as [H1 H2].
  unfold cf_capnp_feed; rewrite (denotes_null_view _ _ Hin), Hb, He; simpl.
  change (zlen []) with 0 in H1; by rewrite H1.
Qed.

(** Feeding two pieces is feeding their concatenation. *)
Lemma feed_ref_concat cap p x y ctx :
  feed_ref handle cap p (x ++ y) ctx =
    let '(rc, p', k, ctx') := feed_ref handle cap p x ctx in
    if is_ok rc then
      let '(rc2, p2, k2, ctx2) := feed_ref handle cap p' y ctx' in (rc2, p2, k + k2, ctx2)
    else (rc, p', k, ctx').
Proof.
  revert p ctx; induction x as [|b x IH]; intros p ctx; simpl.
  { by destruct (feed_ref handle cap p y ctx) as [[[? ?] ?] ?]. }
  destruct (status cap (p ++ [b])) as [| |rc] eqn:Es.
  - rewrite IH; destruct (feed_ref handle cap (p ++ [b]) x ctx) as [[[rc p'] k] ctx'].
    destruct (is_ok rc); [|done]; destruct (feed_ref handle cap p' y ctx') as [[[? ?] ?] ?].
    by rewrite Z.add_assoc.
  - destruct (handle ctx (p ++ [b])) as [rc ctx']; destruct (is_ok rc) eqn:E; [|by rewrite E].
    rewrite IH; destruct (feed_ref handle cap [] x ctx') as [[[rc' p'] k] ctx''].
    destruct (is_ok rc'); [|done]; destruct (feed_ref handle cap p' y ctx'') as [[[? ?] ?] ?].
    by rewrite Z.add_assoc.
  - destruct rc; try done; exfalso; revert Es; unfold status.
    repeat case_if; try done; unfold total_ref; repeat case_if; by intros.
Qed.
End Feed.

(** ** Frames built from segments *)

(** The frame with the given segments: segment count less one, sizes in words,
    padding to a word boundary, contents. *)
Definition seg_sizes (segs : list (list Z)) : list Z := concat ((λ s, le_bytes 4 (zlen s / 8)) <$> segs).
Definition frame_head (segs : list (list Z)) : list Z :=
  le_bytes 4 (zlen segs - 1) ++ seg_sizes segs ++
  replicate (Z.to_nat (table (zlen segs) - 4 - 4 * zlen segs)) 0.
Definition frame_of (segs : list (list Z)) : list Z := frame_head segs ++ concat segs.

Definition segment_ok (s : list Z) : Prop := bytes_ok s /\ zlen s mod 8 = 0.

(** Frames this framer takes, with buffers of [cap] bytes. *)
Definition segs_ok (cap : Z) (segs : list (list Z)) : Prop :=
  1 <= zlen segs <= 8 /\ Forall segment_ok segs /\
  (forall s, head segs = Some s -> s <> []) /\
  table (zlen segs) + zlen (concat segs) <= cap <= CF_CAPNP_MESSAGE_MAX.

(** A complete frame, read off its own header. *)
Definition frame_ok (cap : Z) (q : list Z) : Prop :=
  bytes_ok q /\ 4 < zlen q /\ seg_count q <= 8 /\ table (seg_count q) <= cap /\
  total_ref q cap = (CF_OK, Some (zlen q)).

Lemma zlen_seg_sizes segs : zlen (seg_sizes segs) = 4 * zlen segs.
Proof.
  unfold seg_sizes; induction segs as [|s segs IH]; [done|].
  rewrite fmap_cons; cbn [concat]; rewrite zlen_app, zlen_le_bytes, zlen_cons, IH; lia.
Qed.

Lemma zlen_frame_head segs : 1 <= zlen segs -> zlen (frame_head segs) = table (zlen segs).
Proof.
  intros H; pose proof (table_fits _ H); unfold frame_head.
  rewrite !zlen_app, zlen_seg_sizes, zlen_le_bytes, zlen_replicate; lia.
Qed.

Lemma seg_sizes_ok segs : bytes_ok (seg_sizes segs).
Proof.
  unfold seg_sizes; induction segs as [|s segs IH]; [constructor|].
  rewrite fmap_cons; cbn [concat]; apply Forall_app; split; [apply le_bytes_ok|done].
Qed.

Lemma concat_ok segs : Forall segment_ok segs -> bytes_ok (concat segs).
Proof.
  induction 1 as [|s segs [Hs _] _ IH]; [constructor|]; cbn [concat]; by apply Forall_app.
Qed.

Lemma frame_of_bytes segs : Forall segment_ok segs -> bytes_ok (frame_of segs).
Proof.
  intros H; unfold frame_of, frame_head; rewrite !Forall_app; split_and!;
    [apply le_bytes_ok|apply seg_sizes_ok| |by apply concat_ok].
  apply Forall_replicate; done.
Qed.

Lemma frame_of_count segs :
  1 <= zlen segs <= 8 -> seg_count (frame_of segs) = zlen segs.
Proof.
  intros H; unfold seg_count, frame_of, frame_head; rewrite <- !app_assoc.
  rewrite sub_head by (by rewrite zlen_le_bytes).
  rewrite le_val_bytes; [lia|change (256 ^ Z.of_nat 4) with 4294967296; lia].
Qed.

Lemma frame_of_words segs i s :
  Forall segment_ok segs -> zlen (concat segs) <= CF_CAPNP_MESSAGE_MAX ->
  segs !! i = Some s -> 8 * seg_words (frame_of segs) (Z.of_nat i) = zlen s.
Proof.
  intros Hs Hm Hi; pose proof (list_elem_of_split_length _ _ _ Hi) as (s1 & s2 & -> & ->).
  assert (Hseg : segment_ok s) by (by apply Forall_app in Hs as [_ [? _]%Forall_cons]).
  destruct Hseg as [_ Hmod]; rewrite concat_app, zlen_app in Hm; cbn [concat] in Hm.
  rewrite zlen_app in Hm; pose proof (zlen_nonneg (concat s1)); pose proof (zlen_nonneg (concat s2)).
  pose proof (zlen_nonneg s); unfold CF_CAPNP_MESSAGE_MAX in Hm.
  unfold seg_words, frame_of, frame_head, seg_sizes.
  rewrite fmap_app, fmap_cons, concat_app; cbn [concat].
  fold (seg_sizes s1) (seg_sizes s2); rewrite <- !app_assoc.
  set (hd := le_bytes 4 (zlen (s1 ++ s :: s2) - 1)).
  rewrite (app_assoc hd), sub_mid.
  - rewrite le_val_bytes; [zdm|]; change (256 ^ Z.of_nat 4) with 4294967296; zdm.
  - unfold hd; rewrite zlen_app, zlen_le_bytes, zlen_seg_sizes; unfold zlen; lia.
  - by rewrite zlen_le_bytes.
Qed.

Lemma frame_of_sum segs k i :
  Forall segment_ok segs -> zlen (concat segs) <= CF_CAPNP_MESSAGE_MAX -> (i + k <= length segs)%nat ->
  8 * words_sum (frame_of segs) (Z.of_nat i) k = zlen (concat (take k (drop i segs))).
Proof.
  intros Hs Hm; revert i; induction k as [|k IH]; intros i Hk; [done|]; cbn [words_sum].
  destruct (lookup_lt_is_Some_2 segs i) as [s Hi]; [lia|].
  rewrite (drop_S _ _ _ Hi); cbn [take concat]; rewrite zlen_app.
  rewrite <- (frame_of_words _ _ _ Hs Hm Hi).
  specialize (IH (S i)); rewrite <- IH, Nat2Z.inj_succ by lia; unfold Z.succ; lia.
Qed.

Lemma frame_of_len segs :
  1 <= zlen segs <= 8 -> Forall segment_ok segs -> zlen (concat segs) <= CF_CAPNP_MESSAGE_MAX ->
  frame_len (frame_of segs) = zlen (frame_of segs).
Proof.
  intros Hn Hs Hm; unfold frame_len; rewrite frame_of_count by done.
  replace (Z.to_nat (zlen segs)) with (length segs) by (unfold zlen; lia).
  rewrite (frame_of_sum segs _ 0), drop_0, firstn_all by first [done|lia].
  unfold frame_of; rewrite zlen_app, zlen_frame_head by lia; done.
Qed.

Lemma frame_of_ok cap segs : segs_ok cap segs -> frame_ok cap (frame_of segs).
Proof.
  intros (Hn & Hs & H0 & Hm); unfold frame_ok.
  pose proof (zlen_nonneg (concat segs)); pose proof (table_fits (zlen segs)) as Ht.
  assert (zlen (frame_of segs) = table (zlen segs) + zlen (concat segs)) as Hz
    by (unfold frame_of; rewrite zlen_app, zlen_frame_head; lia).
  assert (zlen (concat segs) <= CF_CAPNP_MESSAGE_MAX) by lia.
  split_and!; [by apply frame_of_bytes|lia|rewrite frame_of_count; lia|rewrite frame_of_count; lia|].
  unfold total_ref; rewrite frame_of_len, frame_of_count by done.
  replace (cap <? _) with false by lia; replace (_ <=? cap) with true by lia.
  destruct segs as [|s segs]; [rewrite zlen_nil_any in Hn; lia|].
  pose proof (frame_of_words (s :: segs) 0 s Hs ltac:(done) eq_refl) as Hw.
  specialize (H0 s eq_refl); change (Z.of_nat 0) with 0 in Hw.
  replace (_ =? 0) with false; [done|].
  destruct s; [done|]; rewrite zlen_cons in Hw; pose proof (zlen_nonneg s); lia.
Qed.

(** A complete frame is recognised at its last byte and not before. *)
Lemma status_done cap q : frame_ok cap q -> status cap q = Done.
Proof.
  intros (Hq & H4 & Hn & Hc & Ht); unfold status; rewrite Ht, Z.eqb_refl.
  assert (table (seg_count q) < zlen q).
  { destruct (total_ref_cases q cap Hq) as [(t & E & ? & _)|(rc & E & _)]; [|congruence].
    assert (t = zlen q) by congruence; lia. }
  by replace (zlen q <? 4) with false by lia; replace (zlen q =? 4) with false by lia;
    replace (zlen q <? _) with false by lia.
Qed.

Lemma status_prefix cap p x : frame_ok cap (p ++ x) -> x <> [] -> status cap p = More.
Proof.
  intros (Hq & H4 & Hn & Hc & Ht) Hx; pose proof Hq as Hq'; apply Forall_app in Hq' as [Hp _].
  unfold status; destruct (Z.ltb_spec (zlen p) 4); [done|].
  rewrite seg_count_app in Hn, Hc by lia.
  destruct (Z.eqb_spec (zlen p) 4); [by replace (8 <? _) with false by lia; replace (cap <? _) with false by lia|].
  destruct (Z.ltb_spec (zlen p) (table (seg_count p))); [done|].
  rewrite total_ref_app in Ht by first [done|lia]; rewrite Ht, zlen_app.
  destruct x; [done|]; rewrite zlen_cons; pose proof (zlen_nonneg x).
  by replace (zlen p =? _) with false by lia.
Qed.

(** A frame at the front of the stream is handed over whole. *)
Lemma feed_ref_frame {Ctx} callback `{!@FrameConsumer Ctx callback} cap q y ctx :
  frame_ok cap q ->
  feed_ref handle cap [] (q ++ y) ctx =
    let '(rc, ctx') := handle ctx q in
    if is_ok rc then
      let '(rc, p', k, ctx'') := feed_ref handle cap [] y ctx' in (rc, p', zlen q + k, ctx'')
    else (rc, q, zlen q, ctx').
Proof.
  intros Hq; destruct q as [|b q' _] using rev_ind.
  { destruct Hq as (_ & H4 & _); by change (zlen []) with 0 in H4. }
  rewrite <- app_assoc, feed_ref_app.
  - cbn [app feed_ref]; rewrite status_done by done.
    destruct (handle ctx (q' ++ [b])) as [rc ctx'].
    destruct (is_ok rc); [|by rewrite zlen_snoc].
    destruct (feed_ref handle cap [] y ctx') as [[[? ?] ?] ?]; rewrite zlen_snoc; do 2 f_equal; lia.
  - intros x1 x2 -> _; rewrite <- app_assoc in Hq; simpl; apply (status_prefix cap x1 _ Hq).
    by destruct x2.
Qed.

(** ** Segment views *)

(** The bytes of segment [index], or the code that refuses the frame. *)
Definition segment_ref (l : list Z) (index : Z) : cf_result + list Z :=
  let n := seg_count l in
  if zlen l <? 8 then inl CF_ERR_TRUNCATED
  else if 8 <? n then inl CF_ERR_LIMIT
  else if n <=? index then inl CF_ERR_ARGUMENT
  else if zlen l <? table n then inl CF_ERR_TRUNCATED
  else match total_ref l CF_CAPNP_MESSAGE_MAX with
       | (CF_OK, Some t) =>
           if t =? zlen l
           then inr (sub l (table n + 8 * words_sum l 0 (Z.to_nat index)) (8 * seg_words l index))
           else inl (if zlen l <? t then CF_ERR_TRUNCATED else CF_ERR_FORMAT)
       | (rc, _) => inl rc
       end.

Lemma words_sum_add l a b i :
  words_sum l i (a + b) = words_sum l i a + words_sum l (i + Z.of_nat a) b.
Proof.
  revert i; induction a as [|a IH]; intros i; cbn [words_sum Nat.add].
  - by rewrite Z.add_0_r.
  - rewrite IH, Nat2Z.inj_succ; replace (i + 1 + Z.of_nat a) with (i + Z.succ (Z.of_nat a)) by lia; lia.
Qed.

Lemma words_sum_split l n k :
  0 <= k < n ->
  words_sum l 0 (Z.to_nat n) =
    words_sum l 0 (Z.to_nat k) + seg_words l k + words_sum l (k + 1) (Z.to_nat (n - k - 1)).
Proof.
  intros H; replace (Z.to_nat n) with (Z.to_nat k + S (Z.to_nat (n - k - 1)))%nat by lia.
  rewrite words_sum_add; cbn [words_sum]; rewrite Z2Nat.id, Z.add_0_l by lia; lia.
Qed.

Lemma offset_loop_spec p k i offset :
  bytes_ok p -> 0 <= i -> 0 <= offset -> 4 + (i + Z.of_nat k) * 4 <= zlen p ->
  offset + 8 * words_sum p i k <= CF_CAPNP_MESSAGE_MAX ->
  offset_loop p k i offset = Some (offset + 8 * words_sum p i k).
Proof.
  unfold CF_CAPNP_MESSAGE_MAX; intros Hp; revert i offset.
  induction k as [|k IH]; intros i o Hi Ho Hk Hm; cbn [offset_loop words_sum] in *; [f_equal; lia|].
  rewrite get_u32_spec by first [done|lia]; cbn [mbind option_bind]; fold (seg_words p i).
  pose proof (words_sum_nonneg p (i + 1) k Hp); pose proof (seg_words_nonneg p i Hp).
  rewrite (wrap_small 32 (seg_words p i * 8)), wrap_small by lia; rewrite IH by lia; f_equal; lia.
Qed.

Lemma get_u32_prefix l r o : o + 4 <= zlen l -> get_u32 (l ++ r) o = get_u32 l o.
Proof. intros; unfold get_u32; by rewrite !rd_app_l by lia. Qed.

Lemma offset_loop_prefix l r k i o :
  4 + (i + Z.of_nat k) * 4 <= zlen l -> offset_loop (l ++ r) k i o = offset_loop l k i o.
Proof.
  revert i o; induction k as [|k IH]; intros i o Hk; cbn [offset_loop]; [done|].
  rewrite get_u32_prefix by lia; destruct (get_u32 l _); cbn [mbind option_bind]; [|done].
  apply IH; lia.
Qed.

Lemma segment_spec b l index o :
  denotes b l -> 0 <= index ->
  match segment_ref l index with
  | inl rc => is_ok rc = false /\ cf_capnp_segment b index (Some o) = Some (rc, Some null_bytes)
  | inr s => exists v, cf_capnp_segment b index (Some o) = Some (CF_OK, Some v) /\ denotes v s
  end.
Proof.
  intros Hb Hi; unfold cf_capnp_segment, segment_ref, CF_CAPNP_MAX_SEGMENTS.
  rewrite (denotes_null_view _ _ Hb), (denotes_len _ _ Hb); pose proof (denotes_bytes _ _ Hb) as Hl.
  destruct (Z.ltb_spec (zlen l) 8); [done|].
  assert (exists m, ptr b = Some m) as [m Hm].
  { destruct Hb as (_ & _ & Hb); destruct (ptr b); [by eexists|subst l; rewrite zlen_nil in *; lia]. }
  assert (exists r, m = l ++ r) as [r ->] by (destruct Hb as (_ & _ & Hb); by rewrite Hm in Hb).
  pose proof (seg_count_pos _ Hl) as H1; pose proof (table_fits _ H1).
  rewrite Hm; cbn [mbind option_bind].
  rewrite (get_u32_prefix l r 0), (get_u32_spec l 0) by first [done|lia]; cbn [mbind option_bind].
  replace (le_val (sub l 0 4)) with (seg_count l - 1) by (unfold seg_count; lia).
  destruct (Z.leb_spec 8 (seg_count l - 1)); [by replace (8 <? _) with true by lia|].
  replace (8 <? _) with false by lia; rewrite (wrap_small 32), Z.sub_add by lia.
  destruct (Z.leb_spec (seg_count l) index); [done|].
  rewrite table_size_spec by lia; destruct (Z.ltb_spec (zlen l) (table (seg_count l))); [done|].
  rewrite total_size_spec by first [done|lia]; cbn [mbind option_bind].
  destruct (total_ref_cases l CF_CAPNP_MESSAGE_MAX Hl) as [(t & -> & Ht & Hf)|(rc & -> & Hrc)];
    [|rewrite Hrc; by destruct rc].
  simpl is_ok; cbn [negb mbind option_bind].
  destruct (Z.eqb_spec t (zlen l)) as [->|]; cbn [negb]; [|by case_if].
  unfold frame_len in Hf; rewrite (words_sum_split l _ index) in Hf by lia.
  pose proof (words_sum_nonneg l 0 (Z.to_nat index) Hl).
  pose proof (words_sum_nonneg l (index + 1) (Z.to_nat (seg_count l - index - 1)) Hl).
  pose proof (seg_words_nonneg l index Hl); unfold CF_CAPNP_MESSAGE_MAX in *.
  rewrite offset_loop_prefix, offset_loop_spec by (unfold CF_CAPNP_MESSAGE_MAX; first [done|lia]).
  cbn [mbind option_bind]; rewrite get_u32_prefix, get_u32_spec by first [done|lia].
  cbn [mbind option_bind]; fold (seg_words l index); rewrite wrap_small by lia.
  destruct (cut_at l (table (seg_count l) + 8 * words_sum l 0 (Z.to_nat index)) (8 * seg_words l index))
    as (x & y & z & El & Hx & Hy); [lia..|].
  rewrite (Z.mul_comm _ 8), <- Hx, <- Hy; clear Hx Hy.
  replace (sub l (zlen x) (zlen y)) with y by (rewrite El; symmetry; apply sub_app).
  rewrite El in Hb.
  destruct (denotes_badd b x y z Hb) as (v & -> & Hv); by exists v.
Qed.

Lemma segment_ref_ok l index s :
  bytes_ok l -> segment_ref l index = inr s ->
  index < seg_count l <= 8 /\ frame_len l = zlen l /\ zlen l <= CF_CAPNP_MESSAGE_MAX /\
  sub l (table (seg_count l) + 8 * words_sum l 0 (Z.to_nat index)) (8 * seg_words l index) = s.
Proof.
  intros Hl; unfold segment_ref; repeat case_if; bool_to_prop; try done.
  destruct (total_ref_cases l CF_CAPNP_MESSAGE_MAX Hl) as [(t & -> & Ht & ->)|(rc & -> & Hrc)]; [|by destruct rc].
  case_if; bool_to_prop; [|done]; intros [= <-]; split_and!; [lia..|done].
Qed.

Lemma segment_ref_frame segs index :
  segs_ok CF_CAPNP_MESSAGE_MAX segs -> 0 <= index ->
  segment_ref (frame_of segs) index =
    match segs !! Z.to_nat index with Some s => inr s | None => inl CF_ERR_ARGUMENT end.
Proof.
  intros Hs Hi; pose proof (frame_of_ok _ _ Hs) as (_ & _ & _ & _ & Htot); destruct Hs as (Hn & Hs & H0 & Hm).
  pose proof (zlen_nonneg (concat segs)); pose proof (table_fits (zlen segs)).
  assert (zlen (frame_of segs) = table (zlen segs) + zlen (concat segs)) as Hz
    by (unfold frame_of; rewrite zlen_app, zlen_frame_head; lia).
  assert (zlen (concat segs) <= CF_CAPNP_MESSAGE_MAX) as Hc by lia.
  unfold segment_ref; rewrite frame_of_count, Htot, Z.eqb_refl by done.
  replace (zlen _ <? 8) with false by lia; replace (8 <? _) with false by lia.
  replace (zlen (frame_of segs) <? _) with false by lia.
  destruct (segs !! Z.to_nat index) as [s|] eqn:E.
  - pose proof (lookup_lt_Some _ _ _ E) as Hlt.
    replace (zlen segs <=? index) with false by (unfold zlen in *; lia); f_equal.
    pose proof (frame_of_words _ _ _ Hs Hc E) as Hw; rewrite Z2Nat.id in Hw by done; rewrite Hw.
    rewrite (frame_of_sum segs _ 0), drop_0 by first [done|lia].
    pose proof (list_elem_of_split_length _ _ _ E) as (s1 & s2 & -> & ->).
    rewrite take_app_length; unfold frame_of; rewrite concat_app; cbn [concat].
    rewrite app_assoc; apply sub_mid; [|done]; rewrite (zlen_app (frame_head _)), zlen_frame_head by lia; done.
  - apply lookup_ge_None in E; replace (zlen segs <=? index) with true by (unfold zlen in *; lia); done.
Qed.

(** ** Streams *)

Lemma init_rep f0 m cap :
  16 <= cap <= CF_CAPNP_MESSAGE_MAX -> cap <= zlen m ->
  exists f, cf_capnp_framer_init (Some f0) (Some m) cap = (CF_OK, Some f) /\ framer_rep cap f [].
Proof.
  intros Hc Hm; unfold cf_capnp_framer_init.
  replace ((cap <? 16) || _) with false by lia; simpl; eexists; split; [reflexivity|].
  unfold framer_rep; simpl; split_and!; try done; try lia; by exists m.
Qed.

(** The owner of a connection feeds each received piece in turn and gives up at
    the first error. *)
Fixpoint feed_all {Ctx} (callback : Ctx -> cf_bytes -> option (cf_result * Ctx)) (f : cf_capnp_framer)
    (pieces : list (list Z)) (ctx : Ctx) : option (cf_result * cf_capnp_framer * Ctx) :=
  match pieces with
  | [] => Some (CF_OK, f, ctx)
  | l :: rest =>
      '(rc, f, _, ctx) ← cf_capnp_feed (Some f) (view l) (Some 0) (Some callback) ctx;
      f ← f;
      if is_ok rc then feed_all callback f rest ctx else Some (rc, f, ctx)
  end.

Definition piece_ok (l : list Z) : Prop := bytes_ok l /\ zlen l <= SIZE_MAX.

Lemma feed_all_spec {Ctx} callback `{!@FrameConsumer Ctx callback} cap pieces f p ctx :
  framer_rep cap f p -> ctx_ok ctx -> Forall piece_ok pieces ->
  exists f', let '(rc, p', _, ctx') := feed_ref handle cap p (concat pieces) ctx in
    feed_all callback f pieces ctx = Some (rc, f', ctx') /\ error f' = rc /\
    ctx_ok ctx' /\ (rc = CF_OK -> framer_rep cap f' p').
Proof.
  intros Hf Hctx Hp; revert f p ctx Hf Hctx; induction Hp as [|l pieces [Hl Hz] _ IH]; intros f p ctx Hf Hctx.
  - exists f; simpl; split_and!; try done; apply Hf.
  - cbn [feed_all concat]; rewrite feed_ref_concat.
    destruct (feed_spec callback cap f p (view l) l ctx 0) as [f' Hfeed]; [done|done|by apply denotes_view|done|].
    destruct (feed_ref handle cap p l ctx) as [[[rc p'] k] ctx']; destruct Hfeed as (-> & He & Hc & Hr).
    cbn [mbind option_bind]; destruct (is_ok rc) eqn:Erc; [|exists f'; split_and!; try done; by intros ->].
    apply bool_decide_eq_true in Erc; specialize (Hr Erc).
    destruct (IH f' p' ctx' Hr Hc) as [f2 H2]; exists f2.
    by destruct (feed_ref handle cap p' (concat pieces) ctx') as [[[? ?] ?] ?].
Qed.

(** The framer never loses its buffer. *)
Lemma feed_stage_buffer {Ctx} callback f m (ctx : Ctx) rc f' ctx' :
  feed_stage callback f m ctx = Some (rc, f', ctx') -> buffer f' = buffer f.
Proof.
  unfold feed_stage; repeat case_if; intros H; inv_bind; repeat case_match; simplify_eq/=; try done;
    by inv_bind; repeat case_match; simplify_eq/=.
Qed.

Lemma feed_loop_buffer {Ctx} callback fuel f input k (ctx : Ctx) rc f' k' ctx' :
  feed_loop callback fuel f input k ctx = Some (rc, f', k', ctx') ->
  buffer f <> None -> buffer f' <> None.
Proof.
  revert f k ctx; induction fuel as [|fuel IH]; intros f k ctx; cbn [feed_loop].
  - case_if; [by intros [= <- <- <- <-]|done].
  - destruct (negb (k <? len input)); [by intros [= <- <- <- <-]|]; intros H Hb.
    inv_bind; case_match; [by eapply IH|].
    apply bind_Some in H as ([[rc1 f1] c1] & Hs & H); apply feed_stage_buffer in Hs.
    assert (buffer f1 <> None) by (rewrite Hs; done).
    case_match; [by simplify_eq|by eapply IH].
Qed.

Lemma feed_all_buffer {Ctx} callback pieces f (ctx : Ctx) rc f' ctx' :
  feed_all callback f pieces ctx = Some (rc, f', ctx') -> buffer f <> None -> buffer f' <> None.
Proof.
  revert f ctx; induction pieces as [|l ps IH]; intros f ctx; cbn [feed_all]; [by intros [= <- <- <-]|].
  unfold cf_capnp_feed; intros H Hb; apply bind_Some in H as ([[[rc1 f1] k1] c1] & Hf & H).
  apply bind_Some in H as (f2 & -> & H); assert (buffer f2 <> None).
  { clear H; repeat case_match; simplify_eq; try done.
    apply bind_Some in Hf as ([[[? ?] ?] ?] & Hl & Hf); simplify_eq; by eapply feed_loop_buffer. }
  case_match; [by eapply IH|by simplify_eq].
Qed.

(** A consumer that keeps what it is given. *)
Definition record_frame (seen : list (list Z)) (b : cf_bytes) : option (cf_result * list (list Z)) :=
  l ← slice (default [] (ptr b)) 0 (len b); Some (CF_OK, seen ++ [l]).

#[global, program] Instance record_consumer : FrameConsumer record_frame := {
  ctx_ok _ := True;
  handle seen l := (CF_OK, seen ++ [l])
}.
Next Obligation.
  intros seen b l _ (_ & Hlen & Hp); unfold record_frame; rewrite Hlen.
  destruct (ptr b) as [m|]; [destruct Hp as [r ->]|subst l].
  - cbn [default from_option id]; pose proof (zlen_nonneg r); pose proof (zlen_nonneg l).
    by rewrite slice_sub, sub_head by (rewrite ?zlen_app; lia).
  - done.
Qed.
Next Obligation. done. Qed.

(** A consumer that ignores every frame. *)
Definition record_nothing (ctx : unit) (b : cf_bytes) : option (cf_result * unit) := Some (CF_OK, tt).

#[global, program] Instance nothing_consumer : FrameConsumer record_nothing := { ctx_ok _ := True; handle _ _ := (CF_OK, tt) }.
Next Obligation. by intros [] b l _ _. Qed.
Next Obligation. done. Qed.

(** ** Consumers known by a postcondition only

    The consumer keeps [K]; nothing else is known about its answers. *)
Section SafeFeed.
Context {Ctx : Type} (callback : Ctx -> cf_bytes -> option (cf_result * Ctx)) (K : Ctx -> Prop).
Hypothesis callback_keeps : forall ctx b l, K ctx -> denotes b l -> exists rc ctx', callback ctx b = Some (rc, ctx') /\ K ctx'.

(** A framer between two feeds: in the middle of a frame, or stopped by an
    error; its buffer has at least its capacity. *)
Definition framer_ok (cap : Z) (f : cf_capnp_framer) : Prop := error f <> CF_OK \/ exists p, framer_rep cap f p.

(** The stages before the consumer do not depend on it. *)
Lemma feed_stage_early (f : cf_capnp_framer) m ctx : phase f = 0 \/ phase f = 1 ->
  feed_stage callback f m ctx = '(rc, f', _) ← feed_stage record_nothing f m tt; Some (rc, f', ctx).
Proof.
  intros [E|E]; unfold feed_stage; rewrite E; cbn [Z.eqb].
  - destruct (get_u32 m 0); [|done]; cbn [mbind option_bind]; by repeat case_if.
  - destruct (total_size m (segments f) (capacity f)) as [[rc t]|]; [|done]; cbn [mbind option_bind]; by destruct (is_ok rc).
Qed.

Lemma feed_stage_safe cap f p x rest ctx :
  framer_rep cap f p -> bytes_ok x -> K ctx -> zlen (p ++ x) = target f -> cap <= zlen ((p ++ x) ++ rest) ->
  exists rc f' ctx', feed_stage callback (grown f ((p ++ x) ++ rest) (zlen (p ++ x))) ((p ++ x) ++ rest) ctx = Some (rc, f', ctx') /\
    K ctx' /\ error f' = rc /\ (rc = CF_OK -> exists q, framer_rep cap f' q).
Proof.
  intros Hf Hx HK Ht Hr; assert (ctx_ok tt) as Htt by exact I; destruct (feed_stage_spec record_nothing cap f p x rest tt Hf Hx Htt Ht Hr) as (rc & f' & u & Hst & He & _ & Hpost).
  set (g := grown f _ _) in *; destruct (decide (phase f = 2)) as [E2|E2].
  - assert (denotes (Bytes (Some ((p ++ x) ++ rest)) (zlen (p ++ x))) (p ++ x)) as Hd.
    { split; [apply Forall_app; split; [apply Hf|done]|]; split; [done|by exists rest]. }
    unfold feed_stage in Hst |- *; change (phase g) with (phase f) in *; rewrite E2 in *; cbn [Z.eqb] in *; change (used g) with (zlen (p ++ x)) in *.
    destruct (callback_keeps ctx _ _ HK Hd) as (rc2 & ctx2 & -> & HK2); cbn [mbind option_bind record_nothing is_ok] in *.
    destruct (is_ok rc2) eqn:E; cbn [negb]; [|do 3 eexists; split; [done|]; split; [done|]; split; [done|]; by intros ->].
    apply bool_decide_eq_true in E as ->; change (is_ok CF_OK) with true in Hst; cbn [negb] in Hst; cbn [cf_capnp_framer_reset mbind option_bind] in *.
    injection Hst as <- <- <-; do 3 eexists; split; [done|]; split; [done|]; split; [done|]; intros _.
    destruct (status cap (p ++ x)) as [| |e]; [exists (p ++ x); apply Hpost|exists []; by apply (proj2 Hpost)|destruct Hpost as (<- & ? & _); done].
  - assert (phase g = 0 \/ phase g = 1) as Hph by (destruct Hf as (_ & _ & _ & _ & _ & _ & _ & [[? _]|[[? _]|[? _]]]); cbn; tauto).
    rewrite feed_stage_early by done; rewrite Hst; cbn [mbind option_bind]; exists rc, f', ctx; split; [done|]; split; [done|]; split; [done|].
    intros ->; destruct (status cap (p ++ x)) as [| |e]; [exists (p ++ x); apply Hpost|exists []; by apply (proj2 Hpost)|destruct Hpost as (<- & ? & _); done].
Qed.

Lemma feed_loop_safe cap input : forall fuel f p pre l ctx,
  framer_rep cap f p -> K ctx -> denotes input (pre ++ l) -> zlen (pre ++ l) <= SIZE_MAX -> (length l <= fuel)%nat ->
  exists rc f' k ctx', feed_loop callback fuel f input (zlen pre) ctx = Some (rc, f', k, ctx') /\ K ctx' /\ error f' = rc /\
    (rc = CF_OK -> (exists q, framer_rep cap f' q) /\ k = zlen (pre ++ l)).
Proof.
  induction fuel as [|fuel IH]; intros f p pre l ctx Hf HK Hin Hsz Hfuel.
  1: assert (l = []) as -> by (destruct l; [done|cbn in Hfuel; lia]).
  2: destruct (decide (l = [])) as [->|Hl].
  1, 2: rewrite app_nil_r in *; exists CF_OK, f, (zlen pre), ctx; cbn [feed_loop]; rewrite (denotes_len _ _ Hin), Z.ltb_irrefl; cbn [negb];
    split; [done|]; split; [done|]; split; [apply Hf|]; intros _; split; [by exists p|done].
  destruct (feed_copy callback cap f p input pre l ctx fuel Hf Hin Hsz Hl) as (x & y & rest & -> & Hx & Hle & Hy & Hr & ->); cbv zeta.
  pose proof (denotes_bytes _ _ Hin) as Hok; rewrite !Forall_app in Hok; destruct Hok as (_ & Hxok & Hyok).
  rewrite app_assoc in Hin, Hsz |- *.
  assert (length y <= fuel)%nat as Hfy by (rewrite length_app in Hfuel; destruct x; [done|]; simpl in Hfuel; lia).
  destruct (Z.eqb_spec (zlen (p ++ x)) (target f)) as [Ht|Ht]; cbn [negb].
  - destruct (feed_stage_safe cap f p x rest ctx Hf Hxok HK Ht Hr) as (rc & f' & ctx' & -> & HK' & He & Hrep); cbn [mbind option_bind].
    destruct (is_ok rc) eqn:E; cbn [negb]; [|exists rc, f', (zlen (pre ++ x)), ctx'; split; [done|]; split; [done|]; split; [done|]; by intros ->].
    apply bool_decide_eq_true in E; destruct (Hrep E) as [q Hq]; by apply (IH f' q).
  - destruct Hy as [->|?]; [|lia]; apply (IH _ (p ++ x)); try done; apply (rep_grow cap f); try done; lia.
Qed.

(** The buffer is written, never replaced. *)
Lemma feed_loop_length fuel : forall f input k ctx rc f' k' ctx' m, feed_loop callback fuel f input k ctx = Some (rc, f', k', ctx') ->
  buffer f = Some m -> exists m', buffer f' = Some m' /\ zlen m' = zlen m.
Proof.
  induction fuel as [|fuel IH]; intros f input k ctx rc f' k' ctx' m; cbn [feed_loop].
  - case_if; [intros [= <- <- <- <-] Hb; by exists m|done].
  - destruct (negb (k <? len input)); [intros [= <- <- <- <-] Hb; by exists m|]; intros E Hb; rewrite Hb in E; cbn [mbind option_bind] in E.
    inv_bind; match goal with Hw : blit m _ _ = Some _ |- _ => pose proof (zlen_blit _ _ _ _ Hw) as Hlen end.
    case_match.
    + edestruct IH as (m' & ? & ?); [eassumption|done|]; exists m'; split; [done|congruence].
    + match goal with E : _ ≫= _ = Some _ |- _ => apply bind_Some in E as ([[rc1 f1] c1] & Hs & E') end; apply feed_stage_buffer in Hs; cbn [buffer] in Hs.
      case_match; [simplify_eq; eexists; split; [exact Hs|done]|]; edestruct IH as (m' & ? & ?); [exact E'|exact Hs|]; exists m'; split; [done|congruence].
Qed.

Lemma feed_safe cap f input l c ctx :
  framer_ok cap f -> buffer f <> None -> K ctx -> denotes input l -> zlen l <= SIZE_MAX ->
  exists rc f' k ctx', cf_capnp_feed (Some f) input (Some c) (Some callback) ctx = Some (rc, Some f', Some k, ctx') /\
    K ctx' /\ framer_ok cap f' /\ exists m, buffer f' = Some m /\ zlen m = zlen (default [] (buffer f)).
Proof.
  intros Hf Hb HK Hin Hsz; unfold cf_capnp_feed; rewrite (bool_decide_eq_false_2 _ Hb), (denotes_null_view _ _ Hin); cbn [orb].
  destruct Hf as [He|[p Hf]].
  { assert (is_ok (error f) = false) as -> by (by apply bool_decide_eq_false_2); cbn [negb]; exists (error f), f, 0, ctx; split; [done|]; split; [done|]; split; [by left|]; destruct (buffer f) as [m|]; [by exists m|done]. }
  assert (is_ok (error f) = true) as -> by (apply bool_decide_eq_true_2; apply Hf); cbn [negb].
  destruct (feed_loop_safe cap input (Z.to_nat (len input)) f p [] l ctx) as (rc & f' & k & ctx' & E & HK' & He & Hok); try done.
  { rewrite (denotes_len _ _ Hin); unfold zlen; lia. }
  change (zlen []) with 0 in E; rewrite E; cbn [mbind option_bind]; exists rc, f', k, ctx'; split; [done|]; split; [done|].
  split; [|destruct (buffer f) as [m|] eqn:Eb; [by eapply feed_loop_length|done]].
  destruct (decide (rc = CF_OK)) as [E1|]; [right; by apply Hok|left; congruence].
Qed.
End SafeFeed.

(** ** Properties *)

(** C11. A stream of frames survives any fragmentation: whatever pieces the
    concatenation of well-formed frames is cut into, feeding them one after
    another returns [CF_OK] every time and hands the consumer exactly those
    frames, in order and whole, when it accepts each; afterwards the framer is
    between frames, so [cf_capnp_eof] reports no truncation. *)
Theorem stream_delivery {Ctx} callback `{!@FrameConsumer Ctx callback} cap m f0 frames pieces ctx :
  16 <= cap <= CF_CAPNP_MESSAGE_MAX -> cap <= zlen m ->
  Forall (segs_ok cap) frames -> Forall piece_ok pieces ->
  concat pieces = concat (frame_of <$> frames) ->
  ctx_ok ctx -> (forall c l, fst (handle c l) = CF_OK) ->
  exists f f',
    cf_capnp_framer_init (Some f0) (Some m) cap = (CF_OK, Some f) /\
    feed_all callback f pieces ctx =
      Some (CF_OK, f', foldl (λ c segs, snd (handle c (frame_of segs))) ctx frames) /\
    cf_capnp_eof (Some f') = CF_OK.
Proof.
  intros Hcap Hm Hfr Hp Heq Hctx Hok; destruct (init_rep f0 m cap Hcap Hm) as (f & Hi & Hf).
  destruct (feed_all_spec callback cap pieces f [] ctx Hf Hctx Hp) as [f' Hall].
  assert (exists k, feed_ref handle cap [] (concat (frame_of <$> frames)) ctx =
    (CF_OK, [], k, foldl (λ c segs, snd (handle c (frame_of segs))) ctx frames)) as [k Hk].
  { clear - Hfr Hok; revert ctx; induction Hfr as [|segs frames Hs _ IH]; intros ctx; [by eexists|].
    rewrite fmap_cons; cbn [concat foldl]; rewrite feed_ref_frame by (by apply frame_of_ok).
    specialize (Hok ctx (frame_of segs)); destruct (handle ctx (frame_of segs)) as [rc c]; simpl in Hok.
    subst rc; simpl; destruct (IH c) as [k ->]; by eexists. }
  rewrite Heq, Hk in Hall; destruct Hall as (Hfd & He & _ & Hr); exists f, f'; split_and!; try done.
  destruct (Hr eq_refl) as (_ & _ & _ & _ & Hu & _); unfold cf_capnp_eof; by rewrite He, Hu.
Qed.

Definition sample_segs : list (list Z) := [lit "abcdefgh"; []; lit "0123456789ABCDEF"].

Lemma sample_segs_ok : segs_ok 64 sample_segs.
Proof.
  unfold segs_ok, segment_ok; split_and!; try by vm_compute.
  - repeat constructor; try (vm_compute; split; congruence); by vm_compute.
  - by intros s [= <-].
Qed.

Lemma stream_delivery_witness :
  exists f f',
    cf_capnp_framer_init (Some f) (Some (replicate 64 0)) 64 = (CF_OK, Some f) /\
    feed_all record_frame f
      [take 5 (frame_of sample_segs); drop 5 (frame_of sample_segs) ++ take 20 (frame_of sample_segs);
       drop 20 (frame_of sample_segs)] [] = Some (CF_OK, f', [frame_of sample_segs; frame_of sample_segs]).
Proof.
  destruct (stream_delivery record_frame 64 (replicate 64 0)
    (Framer None 0 0 0 0 0 CF_OK) [sample_segs; sample_segs]
    [take 5 (frame_of sample_segs); drop 5 (frame_of sample_segs) ++ take 20 (frame_of sample_segs);
     drop 20 (frame_of sample_segs)] []) as (f & f' & Hi & Hf & _); try done.
  - repeat constructor; apply sample_segs_ok.
  - repeat constructor; try bytes_by_compute; by vm_compute.
  - exists f, f'; split; [by injection Hi as <-|exact Hf].
Defined.

(** Fragmentation is invisible even for malformed streams and refusing
    consumers: two ways of cutting the same bytes give the same result code and
    the same calls of the consumer, and every call returns without touching
    memory outside the buffer and the input.  The first error is kept: a later
    feed consumes nothing, calls nobody and returns it again. *)
Theorem framer_chunking {Ctx} callback `{!@FrameConsumer Ctx callback} cap m f0 ps qs ctx :
  16 <= cap <= CF_CAPNP_MESSAGE_MAX -> cap <= zlen m ->
  Forall piece_ok ps -> Forall piece_ok qs -> concat ps = concat qs -> ctx_ok ctx ->
  exists f rc ctx' f1 f2,
    cf_capnp_framer_init (Some f0) (Some m) cap = (CF_OK, Some f) /\
    feed_all callback f ps ctx = Some (rc, f1, ctx') /\
    feed_all callback f qs ctx = Some (rc, f2, ctx') /\
    (rc <> CF_OK -> forall input l c, denotes input l ->
       cf_capnp_feed (Some f1) input (Some c) (Some callback) ctx' = Some (rc, Some f1, Some 0, ctx')).
Proof.
  intros Hcap Hm Hp Hq Heq Hctx; destruct (init_rep f0 m cap Hcap Hm) as (f & Hi & Hf).
  destruct (feed_all_spec callback cap ps f [] ctx Hf Hctx Hp) as [f1 Hall1].
  destruct (feed_all_spec callback cap qs f [] ctx Hf Hctx Hq) as [f2 Hall2].
  rewrite Heq in Hall1; destruct (feed_ref handle cap [] (concat qs) ctx) as [[[rc p'] k] ctx'].
  destruct Hall1 as (Hall1 & He & _), Hall2 as (Hall2 & _).
  exists f, rc, ctx', f1, f2; split_and!; try done; intros Hrc input l c Hin.
  pose proof (feed_all_buffer _ _ _ _ _ _ _ Hall1) as Hb; destruct Hf as ((r & Hbf & _) & _).
  rewrite Hbf in Hb; specialize (Hb ltac:(done)).
  unfold cf_capnp_feed; rewrite (denotes_null_view _ _ Hin), He.
  rewrite bool_decide_eq_false_2 by done; cbn [orb].
  by replace (is_ok rc) with false by (symmetry; by apply bool_decide_eq_false).
Qed.

Lemma framer_chunking_witness :
  exists f f1 f2,
    cf_capnp_framer_init (Some f) (Some (replicate 64 0)) 64 = (CF_OK, Some f) /\
    feed_all record_frame f [[9; 0]; [0; 0; 1; 2]] [] = Some (CF_ERR_LIMIT, f1, []) /\
    feed_all record_frame f [[9; 0; 0; 0; 1; 2]] [] = Some (CF_ERR_LIMIT, f2, []) /\
    cf_capnp_feed (Some f1) (view [1]) (Some 7) (Some record_frame) [] =
      Some (CF_ERR_LIMIT, Some f1, Some 0, []).
Proof.
  destruct (framer_chunking record_frame 64 (replicate 64 0) (Framer None 0 0 0 0 0 CF_OK)
    [[9; 0]; [0; 0; 1; 2]] [[9; 0; 0; 0; 1; 2]] []) as (f & rc & c & f1 & f2 & Hi & H1 & H2 & H3);
    try done; [repeat constructor; try bytes_by_compute; by vm_compute..|].
  injection Hi as <-.
  assert (rc = CF_ERR_LIMIT /\ c = []) as [-> ->] by (vm_compute in H1; by simplify_eq).
  eexists _, f1, f2; split; [reflexivity|]; split; [exact H1|]; split; [exact H2|].
  apply (H3 ltac:(done) (view [1]) [1]); apply denotes_view; bytes_by_compute.
Defined.

(** Segment views are exact: on the frame of any list of segments the
    function returns, for each index, a view of exactly that segment, and
    refuses every index past the last; and whatever the bytes, it returns
    without reading outside the frame, and if it accepts them then they are a
    segment table of at most eight segments followed by segment contents that
    fill the frame exactly. *)
Theorem segment_views b l index o :
  denotes b l -> 0 <= index ->
  (exists rc v, cf_capnp_segment b index (Some o) = Some (rc, Some v) /\
     (rc <> CF_OK -> v = null_bytes) /\
     (rc = CF_OK -> index < seg_count l <= 8 /\ frame_len l = zlen l /\ zlen l <= CF_CAPNP_MESSAGE_MAX /\
        denotes v (sub l (table (seg_count l) + 8 * words_sum l 0 (Z.to_nat index)) (8 * seg_words l index)))) /\
  (forall segs, l = frame_of segs -> segs_ok CF_CAPNP_MESSAGE_MAX segs ->
     match segs !! Z.to_nat index with
     | Some s => exists v, cf_capnp_segment b index (Some o) = Some (CF_OK, Some v) /\ denotes v s
     | None => cf_capnp_segment b index (Some o) = Some (CF_ERR_ARGUMENT, Some null_bytes)
     end).
Proof.
  intros Hb Hi; pose proof (segment_spec b l index o Hb Hi) as Hspec; pose proof (denotes_bytes _ _ Hb) as Hl.
  split.
  - destruct (segment_ref l index) as [rc|s] eqn:Es.
    + destruct Hspec as [Hrc ->]; exists rc, null_bytes; split_and!; try done; by intros ->.
    + destruct Hspec as (v & -> & Hv); exists CF_OK, v; split_and!; try done; intros _.
      by apply segment_ref_ok in Es as (? & ? & ? & <-).
  - intros segs -> Hs; rewrite (segment_ref_frame segs index Hs Hi) in Hspec.
    destruct (segs !! Z.to_nat index); [done|by destruct Hspec].
Qed.

Lemma segment_views_witness :
  exists v, cf_capnp_segment (view (frame_of sample_segs)) 2 (Some null_bytes) = Some (CF_OK, Some v) /\
            denotes v (lit "0123456789ABCDEF").
Proof.
  destruct (segment_views (view (frame_of sample_segs)) (frame_of sample_segs) 2 null_bytes) as [_ H];
    [apply denotes_view; bytes_by_compute|done|].
  apply (H sample_segs eq_refl); unfold segs_ok, segment_ok; split_and!; try by vm_compute.
  - repeat constructor; try bytes_by_compute; by vm_compute.
  - by intros s [= <-].
Defined.
