(* ===== verification/Capnp.v ===== *)
(** Cap'n Proto object reader and single-segment builder
    (src/protocol/cf_capnp.c). *)
From S2P Require Export Framing.

Definition CF_CAPNP_DEPTH_MAX : Z := 32.
Definition CF_CAPNP_TRAVERSAL_WORDS : Z := 4096.

Inductive cf_cp_kind := CF_CP_NULL | CF_CP_STRUCT | CF_CP_LIST | CF_CP_CAP.

#[global] Instance cf_cp_kind_eq_dec : EqDecision cf_cp_kind.
Proof. solve_decision. Defined.

Record cf_cp_value := CpValue {
  v_kind : cf_cp_kind;
  v_segment : Z; v_word : Z; v_count : Z; v_cap : Z;   (* uint32_t *)
  v_data_words : Z; v_pointers : Z;                    (* uint16_t *)
  v_element_size : Z; v_depth : Z                      (* uint8_t *)
}.

(** [(cf_cp_value){0}] *)
Definition null_value : cf_cp_value := CpValue CF_CP_NULL 0 0 0 0 0 0 0 0.

Record cf_cp_reader := CpReader {
  r_segments : list cf_bytes;   (* CF_CAPNP_MAX_SEGMENTS entries *)
  r_count : Z; r_budget : Z;    (* uint32_t *)
  r_error : cf_result
}.

(** ** Bytes and words *)

(** The loop of [le], from byte [i] on; [n] bytes are left. *)
Fixpoint le_loop (p : list Z) (o : Z) (n : nat) (i v : Z) : option Z :=
  match n with
  | O => Some v
  | S n' => b ← rd p (o + i); le_loop p o n' (i + 1) (Z.lor v (u64 (Z.shiftl b (8 * i))))
  end.

(** [le(p + o, n)] *)
Definition le (p : list Z) (o n : Z) : option Z := le_loop p o (Z.to_nat n) 0 0.

Fixpoint put_loop (p : list Z) (o : Z) (n : nat) (i v : Z) : option (list Z) :=
  match n with
  | O => Some p
  | S n' => p ← wr p (o + i) (u8 (Z.shiftr v (8 * i))); put_loop p o n' (i + 1) v
  end.

(** [put(p + o, n, v)] *)
Definition put (p : list Z) (o n v : Z) : option (list Z) := put_loop p o (Z.to_nat n) 0 v.

(** ** The reader

    Reader operations are computations over the reader, in a state monad with
    undefined behaviour. *)

Definition RM (A : Type) : Type := cf_cp_reader -> option (A * cf_cp_reader).
#[global] Instance RM_ret : MRet RM := λ A x r, Some (x, r).
#[global] Instance RM_bind : MBind RM := λ A B k m r, '(x, r) ← m r; k x r.

Definition gets {A} (f : cf_cp_reader -> A) : RM A := λ r, Some (f r, r).
Definition lift {A} (o : option A) : RM A := λ r, x ← o; Some (x, r).

(** [r->error], and [r->error = e]. *)
Definition get_error : RM cf_result := gets r_error.
Definition raise (e : cf_result) : RM () :=
  λ r, Some ((), CpReader (r_segments r) (r_count r) (r_budget r) e).

(** [r->segments[i]] *)
Definition segment_at (i : Z) : RM cf_bytes :=
  segs ← gets r_segments; lift (if i <? 0 then None else segs !! Z.to_nat i).

(** [le(r->segments[i].ptr + o, n)] *)
Definition segment_le (i o n : Z) : RM Z :=
  s ← segment_at i; p ← lift (ptr s); lift (le p o n).

(** [r->budget -= (uint32_t)words] *)
Definition spend (words : Z) : RM () :=
  λ r, Some ((), CpReader (r_segments r) (r_count r) (u32 (r_budget r - u32 words)) (r_error r)).

Definition range (seg word words : Z) : RM bool :=
  e ← get_error;
  if negb (is_ok e) then mret false else
  count ← gets r_count;
  if count <=? seg then (raise CF_ERR_FORMAT;; mret false) else
  s ← segment_at seg;
  if (len s / 8 <? word) || (len s / 8 - word <? words)
  then (raise CF_ERR_FORMAT;; mret false) else mret true.

Definition charge (words : Z) : RM bool :=
  let words := if words =? 0 then 1 else words in
  budget ← gets r_budget;
  if budget <? words then (raise CF_ERR_LIMIT;; mret false) else (spend words;; mret true).

Definition word_at (seg word : Z) : RM Z :=
  ok ← range seg word 1;
  if negb ok then mret 0 else segment_le seg (word * 8) 8.

(** [return (cf_cp_value){0}] after setting the error. *)
Definition reject (e : cf_result) : RM cf_cp_value := raise e;; mret null_value.

(** A far pointer: the landing pad's segment, slot, pointer, and whether the
    slot is the object itself; [None] if the reader stopped. *)
Definition follow_far (p : Z) : RM (option (Z * Z * Z * bool)) :=
  let two := negb (Z.land p 4 =? 0) in
  let slot := Z.shiftr (u32 p) 3 in
  let seg := u32 (Z.shiftr p 32) in
  ok ← range seg slot (if two then 2 else 1);
  if negb ok then mret None else
  ok ← charge (if two then 2 else 1);
  if negb ok then mret None else
  p ← word_at seg slot;
  if two then
    tag ← word_at seg (slot + 1);
    if negb (Z.land p 7 =? 2) || negb (Z.shiftr (u32 tag) 2 =? 0) || (1 <? Z.land tag 3)
    then (raise CF_ERR_FORMAT;; mret None)
    else mret (Some (u32 (Z.shiftr p 32), Z.shiftr (u32 p) 3, tag, true))
  else if (1 <? Z.land p 3) || (p =? 0)
  then (raise CF_ERR_FORMAT;; mret None)
  else mret (Some (seg, slot, p, false)).

Definition bits_of (size : Z) : option Z := [0; 1; 8; 16; 32; 64; 64] !! Z.to_nat size.

(** The end of [follow]: the object must lie in its segment and is paid for. *)
Definition take_object (v : cf_cp_value) (words : Z) : RM cf_cp_value :=
  ok ← range (v_segment v) (v_word v) words;
  if negb ok then mret null_value else
  ok ← charge words;
  if negb ok then mret null_value else mret v.

(** A list of structs: [words] is the declared size plus the tag. *)
Definition follow_composite (seg word count depth : Z) : RM cf_cp_value :=
  let words := count + 1 in
  ok ← range seg word words;
  if negb ok then mret null_value else
  tag ← word_at seg word;
  if negb (Z.land tag 3 =? 0) then reject CF_ERR_FORMAT else
  let v := CpValue CF_CP_LIST seg (u32 (word + 1)) (Z.shiftr (u32 tag) 2) 0
             (u16 (Z.shiftr tag 32)) (u16 (Z.shiftr tag 48)) 7 depth in
  if words - 1 <? u64 (v_count v * u32 (v_data_words v + v_pointers v)) then reject CF_ERR_FORMAT else
  ok ← charge words;
  if negb ok then mret null_value else mret v.

(** The pointer [p] found in [slot] of [seg]. *)
Definition follow_near (seg slot p : Z) (direct_target : bool) (depth : Z) : RM cf_cp_value :=
  if Z.land p 3 =? 3 then
    if negb (u32 p =? 3) then reject CF_ERR_UNSUPPORTED
    else mret (CpValue CF_CP_CAP 0 0 0 (u32 (Z.shiftr p 32)) 0 0 0 depth)
  else
  let offset := Z.shiftr (u32 p) 2 in
  let offset := if negb (Z.land offset 536870912 =? 0) then offset - 1073741824 else offset in
  let target := if direct_target then slot else slot + 1 + offset in
  if (target <? 0) || (UINT32_MAX <? target) then reject CF_ERR_FORMAT else
  if Z.land p 3 =? 0 then
    let v := CpValue CF_CP_STRUCT seg (u32 target) 0 0 (u16 (Z.shiftr p 32)) (u16 (Z.shiftr p 48)) 0 depth in
    take_object v (u32 (v_data_words v + v_pointers v))
  else if Z.land p 3 =? 1 then
    let size := u8 (Z.land (Z.shiftr p 32) 7) in
    let count := u32 (Z.shiftr p 35) in
    if size =? 7 then follow_composite seg (u32 target) count depth else
    b ← lift (bits_of size);
    take_object (CpValue CF_CP_LIST seg (u32 target) count 0 0 0 size depth)
      (u64 (u64 (count * b) + 63) / 64)
  else reject CF_ERR_FORMAT.

Definition follow (seg slot depth : Z) : RM cf_cp_value :=
  e ← get_error;
  if negb (is_ok e) then mret null_value else
  if CF_CAPNP_DEPTH_MAX <? depth then reject CF_ERR_LIMIT else
  p ← word_at seg slot;
  e ← get_error;
  if negb (is_ok e) then mret null_value else
  ok ← charge 1;
  if negb ok || (p =? 0) then mret null_value else
  if Z.land p 3 =? 2 then
    far ← follow_far p;
    match far with
    | None => mret null_value
    | Some (seg, slot, p, direct_target) => follow_near seg slot p direct_target depth
    end
  else follow_near seg slot p false depth.

Definition cf_cp_root : RM cf_cp_value := follow 0 0 1.

Definition cf_cp_field (s : cf_cp_value) (index : Z) : RM cf_cp_value :=
  e ← get_error;
  if negb (is_ok e) || bool_decide (v_kind s = CF_CP_NULL) then mret null_value else
  if negb (bool_decide (v_kind s = CF_CP_STRUCT)) then reject CF_ERR_FORMAT else
  if v_pointers s <=? index then mret null_value else
  follow (v_segment s) (u32 (v_word s + v_data_words s + index)) (u8 (v_depth s + 1)).

Definition cf_cp_at (list : cf_cp_value) (index : Z) : RM cf_cp_value :=
  e ← get_error;
  if negb (is_ok e) then mret null_value else
  if negb (bool_decide (v_kind list = CF_CP_LIST)) || (v_count list <=? index)
  then reject CF_ERR_FORMAT else
  if v_element_size list =? 6
  then follow (v_segment list) (u32 (v_word list + index)) (u8 (v_depth list + 1)) else
  if negb (v_element_size list =? 7) then reject CF_ERR_UNSUPPORTED else
  if CF_CAPNP_DEPTH_MAX <=? v_depth list then reject CF_ERR_LIMIT else
  ok ← charge 1;
  if negb ok then reject CF_ERR_LIMIT else
  mret (CpValue CF_CP_STRUCT (v_segment list)
          (u32 (v_word list + u32 (index * u32 (v_data_words list + v_pointers list))))
          (v_count list) (v_cap list) (v_data_words list) (v_pointers list)
          (v_element_size list) (u8 (v_depth list + 1))).

Definition word_width (width : Z) : bool :=
  (width =? 1) || (width =? 2) || (width =? 4) || (width =? 8).

Definition cf_cp_uint (s : cf_cp_value) (byte width : Z) : RM Z :=
  e ← get_error;
  if negb (is_ok e) || bool_decide (v_kind s = CF_CP_NULL) then mret 0 else
  if negb (bool_decide (v_kind s = CF_CP_STRUCT)) || negb (word_width width)
  then (raise CF_ERR_FORMAT;; mret 0) else
  if u32 (v_data_words s * 8) <? u32 (byte + width) then mret 0 else
  ok ← range (v_segment s) (v_word s) (v_data_words s);
  if negb ok then mret 0 else
  ok ← charge 1;
  if negb ok then mret 0 else
  segment_le (v_segment s) (usize (v_word s * 8) + byte) width.

Definition cf_cp_data (v : cf_cp_value) (text : bool) : RM cf_bytes :=
  e ← get_error;
  if negb (is_ok e) || bool_decide (v_kind v = CF_CP_NULL) then mret null_bytes else
  if negb (bool_decide (v_kind v = CF_CP_LIST)) || negb (v_element_size v =? 2)
  then (raise CF_ERR_FORMAT;; mret null_bytes) else
  ok ← range (v_segment v) (v_word v) ((v_count v + 7) / 8);
  if negb ok then mret null_bytes else
  s ← segment_at (v_segment v);
  b ← lift (badd s (usize (v_word v * 8)) (v_count v));
  if text then
    if len b =? 0 then (raise CF_ERR_FORMAT;; mret null_bytes) else
    last ← lift (bget b (len b - 1));
    if negb (last =? 0) then (raise CF_ERR_FORMAT;; mret null_bytes)
    else mret (Bytes (ptr b) (len b - 1))
  else mret b.

(** [r->segments[i]] is assigned, whatever the code returned. *)
Fixpoint init_loop (frame : cf_bytes) (n : nat) (i : Z) (segs : list cf_bytes)
    : option (cf_result * list cf_bytes) :=
  match n with
  | O => Some (CF_OK, segs)
  | S n' =>
      s ← segs !! Z.to_nat i;
      '(rc, s) ← cf_capnp_segment frame i (Some s);
      s ← s;
      let segs := <[Z.to_nat i := s]> segs in
      if negb (is_ok rc) then Some (rc, segs) else init_loop frame n' (i + 1) segs
  end.

Definition no_segments : list cf_bytes := replicate (Z.to_nat CF_CAPNP_MAX_SEGMENTS) null_bytes.

Definition cf_cp_read_init (r : option cf_cp_reader) (frame : cf_bytes)
    : option (cf_result * option cf_cp_reader) :=
  match r with
  | None => Some (CF_ERR_ARGUMENT, None)
  | Some _ =>
      '(rc, s) ← cf_capnp_segment frame 0 (Some null_bytes);
      s ← s;
      let segs := <[0%nat := s]> no_segments in
      if negb (is_ok rc) then Some (rc, Some (CpReader segs 0 CF_CAPNP_TRAVERSAL_WORDS rc)) else
      p ← ptr frame; n ← le p 0 4;
      let count := u32 (u32 n + 1) in
      '(rc, segs) ← init_loop frame (Z.to_nat (count - 1)) 1 segs;
      Some (rc, Some (CpReader segs count CF_CAPNP_TRAVERSAL_WORDS rc))
  end.

(** ** The builder *)

Record cf_cp_builder := CpBuilder {
  b_buffer : option (list Z);
  b_capacity : Z;            (* size_t *)
  b_words : Z;               (* uint32_t *)
  b_error : cf_result
}.

Definition BM (A : Type) : Type := cf_cp_builder -> option (A * cf_cp_builder).
#[global] Instance BM_ret : MRet BM := λ A x b, Some (x, b).
#[global] Instance BM_bind : MBind BM := λ A B k m b, '(x, b) ← m b; k x b.

Definition bgets {A} (f : cf_cp_builder -> A) : BM A := λ b, Some (f b, b).
Definition berror (e : cf_result) : BM () :=
  λ b, Some ((), CpBuilder (b_buffer b) (b_capacity b) (b_words b) e).

(** A store into the buffer. *)
Definition bstore (f : list Z -> option (list Z)) : BM () :=
  λ b, m ← b_buffer b; m ← f m;
    Some ((), CpBuilder (Some m) (b_capacity b) (b_words b) (b_error b)).
Definition bgrow (n : Z) : BM () :=
  λ b, Some ((), CpBuilder (b_buffer b) (b_capacity b) (u32 (b_words b + n)) (b_error b)).

Definition alloc_words (n : Z) : BM Z :=
  b ← bgets id;
  let at_ := b_words b in
  if negb (is_ok (b_error b)) then mret 0 else
  if usize (usize (b_capacity b - 8) / 8 - b_words b) <? n then (berror CF_ERR_LIMIT;; mret 0) else
  bstore (λ m, zero_fill m (8 + at_ * 8) (n * 8));; bgrow n;; mret at_.

Definition set_word (slot value : Z) : BM () :=
  b ← bgets id;
  if negb (is_ok (b_error b)) then mret () else
  if b_words b <=? slot then berror CF_ERR_ARGUMENT else
  bstore (λ m, put m (8 + slot * 8) 8 value).

Definition cf_cp_build_init (b : option cf_cp_builder) (out : option (list Z)) (capacity : Z)
    : option (cf_result * option cf_cp_builder) :=
  match b with
  | None => Some (CF_ERR_ARGUMENT, None)
  | Some _ =>
      match out with
      | Some m =>
          if (capacity <? 16) || (CF_CAPNP_MESSAGE_MAX <? capacity)
          then Some (CF_ERR_ARGUMENT, Some (CpBuilder None 0 0 CF_ERR_ARGUMENT)) else
          m ← zero_fill m 0 8;
          '(_, b) ← alloc_words 1 (CpBuilder (Some m) capacity 0 CF_OK);
          Some (CF_OK, Some b)
      | None => Some (CF_ERR_ARGUMENT, Some (CpBuilder None 0 0 CF_ERR_ARGUMENT))
      end
  end.

Definition cf_cp_struct (slot data_words pointers : Z) : BM Z :=
  at_ ← alloc_words (u32 (data_words + pointers));
  let delta := at_ - slot - 1 in
  let delta := if (data_words =? 0) && (pointers =? 0) then -1 else delta in
  set_word slot
    (Z.lor (Z.lor (u64 (Z.shiftl (Z.land delta 1073741823) 2)) (u64 (Z.shiftl data_words 32)))
       (u64 (Z.shiftl pointers 48)));;
  mret at_.

Definition cf_cp_set_uint (object byte width value : Z) : BM () :=
  let offset := usize (usize (object * 8) + byte) in
  b ← bgets id;
  if negb (is_ok (b_error b)) then mret () else
  let size := usize (b_words b * 8) in
  if negb (word_width width) || (size <? offset) || (usize (size - offset) <? width)
  then berror CF_ERR_ARGUMENT else
  bstore (λ m, put m (8 + offset) width value).

(** The list pointer written by [cf_cp_pointer_list] and [cf_cp_blob]. *)
Definition list_word (at_ slot size count : Z) : Z :=
  Z.lor (Z.lor (Z.lor (u64 (Z.shiftl (u32 (at_ - slot - 1)) 2)) 1) (Z.shiftl size 32))
    (u64 (Z.shiftl count 35)).

Definition cf_cp_pointer_list (slot count : Z) : BM Z :=
  at_ ← alloc_words count;
  set_word slot (list_word at_ slot 6 count);; mret at_.

Definition cf_cp_blob (slot : Z) (value : cf_bytes) (text : bool) : BM () :=
  b ← bgets id;
  if negb (is_ok (b_error b)) then mret () else
  if null_view value || (CF_CAPNP_MESSAGE_MAX - 1 <? len value) then berror CF_ERR_ARGUMENT else
  let n := u32 (u32 (len value) + (if text then 1 else 0)) in
  at_ ← alloc_words (u32 (n + 7) / 8);
  set_word slot (list_word at_ slot 2 n);;
  b ← bgets id;
  if is_ok (b_error b) && negb (len value =? 0)
  then bstore (λ m, src ← ptr value; bs ← slice src 0 (len value); blit m (8 + at_ * 8) bs)
  else mret ().

Definition cf_cp_build_end (b : option cf_cp_builder) (written : option Z)
    : option (cf_result * option cf_cp_builder * option Z) :=
  match written, b with
  | Some _, Some b =>
      if negb (is_ok (b_error b)) then Some (b_error b, Some b, Some 0) else
      '(_, b) ← bstore (λ m, put m 4 4 (b_words b)) b;
      Some (CF_OK, Some b, Some (8 + usize (b_words b * 8)))
  | _, _ => Some (CF_ERR_ARGUMENT, b, written)
  end.

(** ** Words *)

Lemma pow_bytes k : 0 <= k -> 2 ^ (8 * k) = 256 ^ k.
Proof. intros; rewrite Z.pow_mul_r by lia; done. Qed.

Lemma le_loop_spec a x y c :
  bytes_ok (x ++ y) -> zlen (x ++ y) <= 8 ->
  le_loop (a ++ x ++ y ++ c) (zlen a) (length y) (zlen x) (le_val x) = Some (le_val (x ++ y)).
Proof.
  revert x; induction y as [|b y IH]; intros x Hb Hl; cbn [length le_loop]; [by rewrite app_nil_r|].
  rewrite rd_app_r by apply zlen_nonneg; rewrite <- (Z.add_0_r (zlen x)), rd_app_r by done.
  change (rd ((b :: y) ++ c) 0) with (Some b); cbn [mbind option_bind].
  apply Forall_app in Hb as [Hx Hby]; apply Forall_cons in Hby as [Hb Hy].
  rewrite zlen_app, zlen_cons in Hl; pose proof (zlen_nonneg x); pose proof (zlen_nonneg y).
  pose proof (le_val_bound _ Hx) as Hv; rewrite <- pow_bytes in Hv by done; unfold is_byte in Hb.
  assert (Z.lor (le_val x) (u64 (Z.shiftl b (8 * (zlen x + 0)))) = le_val (x ++ [b])) as ->.
  { rewrite Z.add_0_r, wrap_small.
    - rewrite lor_shiftr_low, le_val_app, <- pow_bytes by first [done|lia]; cbn [le_val]; ring.
    - rewrite Z.shiftl_mul_pow2 by lia; split; [lia|].
      assert (2 ^ (8 * zlen x) <= 2 ^ 56) by (apply Z.pow_le_mono_r; lia); nia. }
  rewrite Z.add_0_r; specialize (IH (x ++ [b])); rewrite zlen_snoc, <- !app_assoc in IH; apply IH.
  - cbn [app]; rewrite Forall_app; split; [done|by constructor].
  - cbn [app]; rewrite zlen_app, zlen_cons; lia.
Qed.

Lemma le_spec l o n :
  bytes_ok l -> 0 <= o -> 0 <= n <= 8 -> o + n <= zlen l -> le l o n = Some (le_val (sub l o n)).
Proof.
  intros Hl Ho Hn Hb; destruct (cut_at l o n) as (a & b & c & -> & <- & <-); [lia..|].
  rewrite sub_app; unfold le; unfold zlen at 2; rewrite Nat2Z.id.
  rewrite !Forall_app in Hl; apply (le_loop_spec a [] b c); [apply Hl|cbn [app]; lia].
Qed.

Lemma put_loop_spec n m o i v :
  0 <= o -> 0 <= i -> o + i + Z.of_nat n <= zlen m ->
  put_loop m o n i v = blit m (o + i) (le_bytes n (v / 2 ^ (8 * i))).
Proof.
  intros Ho; revert m i; induction n as [|n IH]; intros m i Hi Hm; cbn [put_loop le_bytes].
  - by rewrite blit_nil by lia.
  - unfold wr; rewrite Z.shiftr_div_pow2 by lia.
    set (w := v / 2 ^ (8 * i)); change (u8 w) with (w mod 256).
    destruct (blit_Some m (o + i) [w mod 256]) as [m' Hm']; [lia|rewrite zlen_cons, zlen_nil; lia|].
    rewrite Hm'; cbn [mbind option_bind].
    rewrite IH by (rewrite ?(zlen_blit _ _ _ _ Hm'); lia).
    assert (v / 2 ^ (8 * (i + 1)) = w / 256) as ->.
    { unfold w; rewrite Z.div_div by lia; f_equal.
      by rewrite Z.mul_add_distr_l, Z.pow_add_r by lia. }
    rewrite Z.add_assoc; exact (blit_blit _ _ [w mod 256] _ _ Hm').
Qed.

Lemma put_spec m o n v :
  0 <= o -> 0 <= n -> o + n <= zlen m -> put m o n v = blit m o (le_bytes (Z.to_nat n) v).
Proof.
  intros; unfold put; rewrite put_loop_spec by lia.
  by rewrite Z.mul_0_r, Z.pow_0_r, Z.div_1_r, Z.add_0_r.
Qed.

(** ** Reasoning about reader computations *)

(** [m] runs from [r] and ends with [Q]. *)
Definition wp {A} (m : RM A) (Q : A -> cf_cp_reader -> Prop) (r : cf_cp_reader) : Prop :=
  exists x r', m r = Some (x, r') /\ Q x r'.

Lemma wp_ret {A} (x : A) Q r : Q x r -> wp (mret x) Q r.
Proof. intros; by exists x, r. Qed.

Lemma wp_bind {A B} (m : RM A) (k : A -> RM B) Q r : wp m (λ x, wp (k x) Q) r -> wp (m ≫= k) Q r.
Proof.
  intros (x & r1 & Hm & y & r2 & Hk & HQ); exists y, r2; split; [|done].
  unfold mbind, RM_bind; by rewrite Hm.
Qed.

Lemma wp_mono {A} (m : RM A) (Q Q' : A -> cf_cp_reader -> Prop) r :
  wp m Q r -> (forall x r', Q x r' -> Q' x r') -> wp m Q' r.
Proof. intros (x & r' & Hm & HQ) HQ'; exists x, r'; by auto. Qed.

Lemma wp_gets {A} (f : cf_cp_reader -> A) Q r : Q (f r) r -> wp (gets f) Q r.
Proof. intros; by exists (f r), r. Qed.

Lemma wp_raise e Q r :
  Q () (CpReader (r_segments r) (r_count r) (r_budget r) e) -> wp (raise e) Q r.
Proof. intros; by eexists (), _. Qed.

Lemma wp_lift {A} (o : option A) x Q r : o = Some x -> Q x r -> wp (lift o) Q r.
Proof. intros -> ?; by exists x, r. Qed.

(** The segments of the frame being read, and the reader over them. *)
Definition reader_ok (ss : list (list Z)) (r : cf_cp_reader) : Prop :=
  length (r_segments r) = Z.to_nat CF_CAPNP_MAX_SEGMENTS /\
  r_count r = zlen ss /\ 1 <= zlen ss <= 8 /\
  (forall i s, ss !! i = Some s -> exists v, r_segments r !! i = Some v /\ denotes v s /\
     zlen s <= CF_CAPNP_MESSAGE_MAX /\ zlen s mod 8 = 0) /\
  0 <= r_budget r <= CF_CAPNP_TRAVERSAL_WORDS.

(** [words] words at [word] are inside segment [seg]. *)
Definition in_segment (ss : list (list Z)) (seg word words : Z) : Prop :=
  exists s, ss !! Z.to_nat seg = Some s /\ 0 <= seg /\ word + words <= zlen s / 8.

Definition same_view (r r' : cf_cp_reader) : Prop :=
  r_segments r' = r_segments r /\ r_count r' = r_count r.

Lemma reader_ok_same ss r r' :
  reader_ok ss r -> same_view r r' -> 0 <= r_budget r' <= r_budget r -> reader_ok ss r'.
Proof.
  unfold reader_ok, same_view; intros (H1 & H2 & H3 & H4 & H5) [-> ->] Hb; split_and!; try done; lia.
Qed.

Lemma wp_segment_at ss seg s r Q :
  reader_ok ss r -> 0 <= seg -> ss !! Z.to_nat seg = Some s ->
  (forall v, denotes v s -> Q v r) -> wp (segment_at seg) Q r.
Proof.
  intros (_ & _ & _ & Hs & _) Hseg Hl HQ; destruct (Hs _ _ Hl) as (v & Hv & Hd & _).
  apply wp_bind, wp_gets, (wp_lift _ v); [|by apply HQ].
  by replace (seg <? 0) with false by lia.
Qed.

Lemma wp_range ss seg word words r :
  reader_ok ss r -> 0 <= seg -> 0 <= word -> 0 <= words ->
  wp (range seg word words)
    (λ ok r', reader_ok ss r' /\ r_budget r' = r_budget r /\
       if ok : bool then r' = r /\ r_error r = CF_OK /\ in_segment ss seg word words
       else r_error r' <> CF_OK) r.
Proof.
  intros Hr Hseg Hw Hws; apply wp_bind, wp_gets; destruct (is_ok (r_error r)) eqn:He.
  - apply wp_bind, wp_gets; apply bool_decide_eq_true in He.
    destruct (Z.leb_spec (r_count r) seg); cbn [negb].
    + apply wp_bind, wp_raise, wp_ret; split_and!; try done; by apply (reader_ok_same ss r).
    + destruct Hr as (H1 & Hc & Hr).
      destruct (lookup_lt_is_Some_2 ss (Z.to_nat seg)) as [s Hs]; [unfold zlen in *; lia|].
      apply wp_bind, (wp_segment_at ss seg s); try done; intros v Hv.
      rewrite (denotes_len _ _ Hv); case_if; bool_to_prop.
      * apply wp_bind, wp_raise, wp_ret; split_and!; try done; by apply (reader_ok_same ss r).
      * apply wp_ret; split_and!; try done; exists s; split_and!; try done; lia.
  - apply wp_ret; split_and!; try done; by apply bool_decide_eq_false in He.
Qed.

Lemma wp_charge ss words r :
  reader_ok ss r -> 0 <= words < 4294967296 ->
  wp (charge words)
    (λ ok r', reader_ok ss r' /\
       if ok : bool then r_budget r' = r_budget r - Z.max 1 words /\ r_error r' = r_error r
       else r_budget r' = r_budget r /\ r_error r' = CF_ERR_LIMIT) r.
Proof.
  intros Hr Hw; pose proof Hr as (_ & _ & _ & _ & Hb).
  apply wp_bind, wp_gets; replace (if words =? 0 then 1 else words) with (Z.max 1 words) by (case_ifs).
  unfold CF_CAPNP_TRAVERSAL_WORDS in *; destruct (Z.ltb_spec (r_budget r) (Z.max 1 words)).
  - apply wp_bind, wp_raise, wp_ret; split_and!; try done; by apply (reader_ok_same ss r).
  - apply wp_bind; eexists (), _; split; [reflexivity|]; apply wp_ret; simpl.
    rewrite (wrap_small 32 (Z.max 1 words)), wrap_small by lia.
    split_and!; try done; apply (reader_ok_same ss r); [done|done|simpl; lia].
Qed.

Definition u32_ok (x : Z) : Prop := 0 <= x < 4294967296.
Definition u16_ok (x : Z) : Prop := 0 <= x < 65536.

(** The fields hold values of their types; nothing else is assumed. *)
Definition typed (v : cf_cp_value) : Prop :=
  u32_ok (v_segment v) /\ u32_ok (v_word v) /\ u32_ok (v_count v) /\
  u16_ok (v_data_words v) /\ u16_ok (v_pointers v) /\ is_byte (v_element_size v) /\ is_byte (v_depth v).

Definition element_bits (size : Z) : Z := default 0 (bits_of size).

(** The words a list occupies after its (tag) word. *)
Definition list_words (v : cf_cp_value) : Z :=
  if v_element_size v =? 7 then v_count v * (v_data_words v + v_pointers v)
  else (v_count v * element_bits (v_element_size v) + 63) / 64.

(** What the values handed out by the reader satisfy: the object is inside its
    segment. *)
Definition value_ok (ss : list (list Z)) (v : cf_cp_value) : Prop :=
  typed v /\ v_depth v <= CF_CAPNP_DEPTH_MAX /\
  match v_kind v with
  | CF_CP_NULL | CF_CP_CAP => True
  | CF_CP_STRUCT => in_segment ss (v_segment v) (v_word v) (v_data_words v + v_pointers v)
  | CF_CP_LIST => v_element_size v <= 7 /\ in_segment ss (v_segment v) (v_word v) (list_words v)
  end.

(** A step of the reader started without error: it stays sound, pays for what it
    returns, and returns only checked objects. *)
Definition step_post (ss : list (list Z)) (r : cf_cp_reader) (v : cf_cp_value) (r' : cf_cp_reader) : Prop :=
  reader_ok ss r' /\ r_budget r' <= r_budget r /\ value_ok ss v /\
  (v_kind v <> CF_CP_NULL -> r_error r' = CF_OK).

Lemma null_value_ok ss : value_ok ss null_value.
Proof. by unfold value_ok, typed, u32_ok, u16_ok, is_byte. Qed.

#[export] Hint Resolve null_value_ok : cf.

Lemma is_ok_false e : is_ok e = false <-> e <> CF_OK.
Proof. apply bool_decide_eq_false. Qed.

Lemma is_ok_true e : is_ok e = true <-> e = CF_OK.
Proof. apply bool_decide_eq_true. Qed.

Lemma wp_reject ss e r r0 :
  reader_ok ss r -> r_budget r <= r_budget r0 -> wp (reject e) (step_post ss r0) r.
Proof.
  intros Hr Hb; apply wp_bind, wp_raise, wp_ret; unfold step_post; split; [|split; [done|split; [apply null_value_ok|done]]].
  apply (reader_ok_same ss r); try done; destruct Hr as (_ & _ & _ & _ & ?); simpl; lia.
Qed.

Lemma step_null ss r r0 :
  reader_ok ss r -> r_budget r <= r_budget r0 -> step_post ss r0 null_value r.
Proof. intros; split; [done|]; split; [done|]; split; [apply null_value_ok|done]. Qed.

Lemma wp_segment_le ss seg o n r Q s :
  reader_ok ss r -> 0 <= seg -> ss !! Z.to_nat seg = Some s -> 0 <= o -> 0 < n <= 8 -> o + n <= zlen s ->
  (0 <= le_val (sub s o n) < 256 ^ n -> Q (le_val (sub s o n)) r) -> wp (segment_le seg o n) Q r.
Proof.
  intros Hr Hseg Hs Ho Hn Hl HQ; apply wp_bind, (wp_segment_at ss seg s); try done; intros v Hv.
  pose proof (denotes_bytes _ _ Hv) as Hb.
  assert (Q (le_val (sub s o n)) r) as HQ'.
  { apply HQ; pose proof (le_val_bound _ (sub_ok s o n Hb)) as H; by rewrite zlen_sub in H by lia. }
  destruct Hv as (_ & _ & Hp); destruct (ptr v) as [m|].
  - destruct Hp as [rest ->]; apply wp_bind, (wp_lift _ (s ++ rest)); [done|].
    apply (wp_lift _ (le_val (sub s o n))); [|done].
    rewrite <- (le_spec s o n) by first [done|lia]; unfold le.
    assert (forall k i w, 0 <= o + i -> o + i + Z.of_nat k <= zlen s ->
              le_loop (s ++ rest) o k i w = le_loop s o k i w) as Hloop.
    { induction k as [|k IH]; intros i w Hi Hk; cbn [le_loop]; [done|].
      rewrite rd_app_l by lia; destruct (rd s (o + i)); cbn [mbind option_bind]; [apply IH; lia|done]. }
    apply Hloop; lia.
  - subst s; rewrite zlen_nil in Hl; lia.
Qed.

(** *** Successful runs *)

Lemma range_in ss seg word words r Q :
  reader_ok ss r -> r_error r = CF_OK -> in_segment ss seg word words -> 0 <= words ->
  Q true r -> wp (range seg word words) Q r.
Proof.
  intros Hr He (s & Hs & Hseg & Hl) Hw HQ; pose proof Hr as (_ & Hc & _).
  apply wp_bind, wp_gets; rewrite He; cbn [is_ok negb]; apply wp_bind, wp_gets.
  apply lookup_lt_Some in Hs as Hlt; replace (r_count r <=? seg) with false by (unfold zlen in *; lia).
  apply wp_bind, (wp_segment_at ss seg s); try done; intros v Hv; rewrite (denotes_len _ _ Hv).
  replace ((zlen s / 8 <? word) || _) with false by lia; by apply wp_ret.
Qed.

Lemma word_at_in ss seg word r s Q :
  reader_ok ss r -> r_error r = CF_OK -> ss !! Z.to_nat seg = Some s -> 0 <= seg -> 0 <= word ->
  word + 1 <= zlen s / 8 ->
  (0 <= le_val (sub s (word * 8) 8) < 2 ^ 64 -> Q (le_val (sub s (word * 8) 8)) r) ->
  wp (word_at seg word) Q r.
Proof.
  intros Hr He Hs Hseg Hw Hl HQ.
  apply wp_bind, (range_in ss); try done; [by exists s|]; cbn [negb].
  eapply wp_segment_le; try done; [lia|zdm].
Qed.

Lemma charge_in ss words r Q :
  reader_ok ss r -> 0 <= words -> Z.max 1 words <= r_budget r ->
  (forall r', r' = CpReader (r_segments r) (r_count r) (r_budget r - Z.max 1 words) (r_error r) ->
     reader_ok ss r' -> Q true r') -> wp (charge words) Q r.
Proof.
  intros Hr Hw Hb HQ; pose proof Hr as (_ & _ & _ & _ & Hb'); unfold CF_CAPNP_TRAVERSAL_WORDS in *.
  apply wp_bind, wp_gets; replace (if words =? 0 then 1 else words) with (Z.max 1 words) by case_ifs.
  replace (r_budget r <? _) with false by lia; apply wp_bind; eexists (), _; split; [reflexivity|].
  apply wp_ret; rewrite (wrap_small 32 (Z.max 1 words)), wrap_small by lia; apply HQ; [done|].
  apply (reader_ok_same ss r); [done|done|simpl; lia].
Qed.

(** *** Dereferencing *)

(** [word_at] on any position. *)
Lemma wp_word_at ss seg word r :
  reader_ok ss r -> 0 <= seg -> 0 <= word ->
  wp (word_at seg word)
    (λ v r', reader_ok ss r' /\ r_budget r' = r_budget r /\ 0 <= v < 2 ^ 64 /\
       (r_error r' = CF_OK -> r' = r)) r.
Proof.
  intros Hr Hseg Hw; apply wp_bind; eapply wp_mono; [by apply (wp_range ss)|].
  intros ok r' (Hr' & Hb & Hok); destruct ok; cbn [negb].
  - destruct Hok as (-> & He & s & Hs & _ & Hl); eapply wp_segment_le; try done; [lia|zdm].
  - apply wp_ret; split_and!; try done; by intros.
Qed.

Lemma wp_take_object ss v words r r0 :
  reader_ok ss r -> r_error r = CF_OK -> r_budget r <= r_budget r0 -> 0 <= words < 4294967296 ->
  0 <= v_segment v -> 0 <= v_word v ->
  (in_segment ss (v_segment v) (v_word v) words -> value_ok ss v) ->
  wp (take_object v words) (step_post ss r0) r.
Proof.
  intros Hr He Hb Hw Hs Hv Hok; apply wp_bind; eapply wp_mono; [apply (wp_range ss); first [done|lia]|].
  intros ok r1 (Hr1 & Hb1 & H1); destruct ok; cbn [negb]; [|apply wp_ret, step_null; [done|lia]].
  destruct H1 as (-> & _ & Hin); apply wp_bind; eapply wp_mono; [by apply (wp_charge ss)|].
  intros ok r2 (Hr2 & H2); destruct ok; cbn [negb]; [|apply wp_ret, step_null; [done|lia]].
  apply wp_ret; destruct H2 as [Hb2 He2]; split; [done|]; split; [lia|]; split; [by apply Hok|congruence].
Qed.

Lemma u16_wrap x : u16_ok (u16 x).
Proof. apply (wrap_range 16); lia. Qed.
Lemma u32_wrap x : u32_ok (u32 x).
Proof. apply (wrap_range 32); lia. Qed.

Lemma shiftr_bound x k n : 0 <= k -> 0 <= x < 2 ^ (n + k) -> 0 <= n -> 0 <= Z.shiftr x k < 2 ^ n.
Proof.
  intros Hk Hx Hn; rewrite Z.shiftr_div_pow2 by done; rewrite Z.pow_add_r in Hx by done.
  split; [apply Z.div_pos; lia|apply Z.div_lt_upper_bound; lia].
Qed.

#[export] Hint Resolve u16_wrap u32_wrap : cf.

Lemma wp_composite ss seg word count depth r r0 :
  reader_ok ss r -> r_error r = CF_OK -> r_budget r <= r_budget r0 -> u32_ok seg -> u32_ok word ->
  0 <= count < 536870912 -> 0 <= depth <= CF_CAPNP_DEPTH_MAX ->
  wp (follow_composite seg word count depth) (step_post ss r0) r.
Proof.
  unfold u32_ok; intros Hr He Hb Hseg Hw Hc Hd; unfold CF_CAPNP_DEPTH_MAX in *.
  apply wp_bind; eapply wp_mono; [apply (wp_range ss); first [done|lia]|].
  intros ok r1 (Hr1 & Hb1 & H1); destruct ok; cbn [negb]; [|apply wp_ret, step_null; [done|lia]].
  destruct H1 as (-> & _ & s & Hs & _ & Hl).
  apply wp_bind, (word_at_in ss _ _ _ s); try done; try lia; set (tag := le_val _); intros Ht.
  case_if; [apply wp_reject; [done|lia]|]; cbv zeta; cbn [v_count v_data_words v_pointers].
  case_if; [apply wp_reject; [done|lia]|]; bool_to_prop.
  pose proof (u16_wrap (Z.shiftr tag 32)) as H32; pose proof (u16_wrap (Z.shiftr tag 48)) as H48.
  assert (0 <= Z.shiftr (u32 tag) 2 < 2 ^ 30) as Hcnt.
  { apply shiftr_bound; [lia| |lia]; pose proof (u32_wrap tag); unfold u32_ok in *; simpl; lia. }
  unfold u16_ok in H32, H48; rewrite (wrap_small 32 (_ + _)), (wrap_small 64) in * by nia.
  assert (word + 1 <= 2048).
  { pose proof Hr as (_ & _ & _ & Hss & _); destruct (Hss _ _ Hs) as (_ & _ & _ & Hm & _).
    unfold CF_CAPNP_MESSAGE_MAX in Hm; zdm. }
  apply wp_bind; eapply wp_mono; [apply (wp_charge ss); [done|lia]|].
  intros ok r2 (Hr2 & H2); destruct ok; cbn [negb]; [|apply wp_ret, step_null; [done|lia]].
  apply wp_ret; destruct H2 as [Hb2 He2]; split; [done|]; split; [lia|]; split; [|congruence].
  rewrite (wrap_small 32 (word + 1)) by lia.
  unfold value_ok, typed, list_words, u32_ok, u16_ok, is_byte, CF_CAPNP_DEPTH_MAX; simpl.
  split_and!; try lia; exists s; split_and!; try done; lia.
Qed.

Lemma u32_lo2 p : 0 <= Z.shiftr (u32 p) 2 < 1073741824.
Proof. pose proof (u32_wrap p); apply (shiftr_bound _ 2 30); unfold u32_ok in *; simpl; lia. Qed.

Lemma u32_lo3 p : 0 <= Z.shiftr (u32 p) 3 < 536870912.
Proof. pose proof (u32_wrap p); apply (shiftr_bound _ 3 29); unfold u32_ok in *; simpl; lia. Qed.

Lemma land_7 x : 0 <= Z.land x 7 < 8.
Proof. change 7 with (2 ^ 3 - 1); rewrite land_mask by lia; apply Z.mod_pos_bound; lia. Qed.

Lemma bits_of_Some size : 0 <= size < 7 -> exists b, bits_of size = Some b /\ 0 <= b <= 64.
Proof.
  intros H; assert (size ∈ seqZ 0 7) as Hin by (apply elem_of_seqZ; lia); clear H; revert size Hin.
  apply Forall_forall; repeat (constructor; [by eexists|]); constructor.
Qed.

Lemma value_intro ss k seg word count cap dw pc size depth :
  u32_ok seg -> u32_ok word -> u32_ok count -> u16_ok dw -> u16_ok pc -> 0 <= size <= 7 ->
  0 <= depth <= 32 ->
  (let v := CpValue k seg word count cap dw pc size depth in
   match k with
   | CF_CP_NULL | CF_CP_CAP => True
   | CF_CP_STRUCT => in_segment ss seg word (dw + pc)
   | CF_CP_LIST => v_element_size v <= 7 /\ in_segment ss seg word (list_words v)
   end) -> value_ok ss (CpValue k seg word count cap dw pc size depth).
Proof.
  intros H1 H2 H3 H4 H5 H6 H7 H8; unfold value_ok, typed, is_byte, CF_CAPNP_DEPTH_MAX.
  cbn [v_segment v_word v_count v_data_words v_pointers v_element_size v_depth v_kind].
  split_and!; try done; lia.
Qed.

Lemma wp_follow_near ss seg slot p direct depth r r0 :
  reader_ok ss r -> r_error r = CF_OK -> r_budget r <= r_budget r0 -> u32_ok seg -> u32_ok slot ->
  0 <= p < 2 ^ 64 -> 0 <= depth <= CF_CAPNP_DEPTH_MAX ->
  wp (follow_near seg slot p direct depth) (step_post ss r0) r.
Proof.
  intros Hr He Hb Hseg Hslot Hp Hd; unfold CF_CAPNP_DEPTH_MAX in Hd; unfold follow_near; cbv zeta.
  assert (forall e, wp (reject e) (step_post ss r0) r) as Hrej by (intros; by apply wp_reject).
  case_if; [case_if; [done|]|].
  { apply wp_ret; split; [done|]; split; [done|]; split; [|done]; pose proof (u32_wrap (Z.shiftr p 32)).
    unfold value_ok, typed, u32_ok, u16_ok, is_byte, CF_CAPNP_DEPTH_MAX in *; simpl; lia. }
  set (target := if direct then _ else _).
  case_if; [done|]; bool_to_prop; unfold UINT32_MAX in *.
  rewrite (wrap_small 32 target) by lia.
  assert (u32_ok target) as Ht by (unfold u32_ok; lia).
  case_if; [|case_if; [|done]].
  - pose proof (u16_wrap (Z.shiftr p 32)) as H32; pose proof (u16_wrap (Z.shiftr p 48)) as H48.
    set (dw := u16 (Z.shiftr p 32)) in *; set (pc := u16 (Z.shiftr p 48)) in *; clearbody dw pc.
    unfold u16_ok in H32, H48; cbn [v_data_words v_pointers]; rewrite (wrap_small 32 (dw + pc)) by lia.
    unfold u32_ok in Hseg, Ht; apply wp_take_object; try done; cbn [v_segment v_word]; try lia; intros Hin.
    apply value_intro; try done; unfold u16_ok; lia.
  - pose proof (land_7 (Z.shiftr p 32)) as H7; rewrite (wrap_small 8) by lia.
    assert (0 <= Z.shiftr p 35 < 536870912) as H35 by (apply (shiftr_bound _ 35 29); [lia|exact Hp|lia]).
    rewrite (wrap_small 32 (Z.shiftr p 35)) by lia.
    destruct (Z.eqb_spec (Z.land (Z.shiftr p 32) 7) 7); [by apply wp_composite|].
    destruct (bits_of_Some (Z.land (Z.shiftr p 32) 7)) as (b & Hbits & Hb64); [lia|].
    apply wp_bind, (wp_lift _ b); [done|]; rewrite (wrap_small 64 (_ * b)), (wrap_small 64) by nia.
    assert (0 <= (Z.shiftr p 35 * b + 63) / 64 < 4294967296)
      by (split; [apply Z.div_pos; nia|apply Z.div_lt_upper_bound; nia]).
    unfold u32_ok in Hseg, Ht; apply wp_take_object; try done; cbn [v_segment v_word]; try lia; intros Hin.
    apply value_intro; try done; try (unfold u32_ok; lia); split; [cbn [v_element_size]; lia|].
    unfold list_words, element_bits; cbn [v_element_size v_count]; rewrite Hbits.
    by rewrite (proj2 (Z.eqb_neq _ 7)).
Qed.

Lemma wp_follow_far ss p r r0 :
  reader_ok ss r -> r_error r = CF_OK -> r_budget r <= r_budget r0 ->
  wp (follow_far p)
    (λ o r', reader_ok ss r' /\ r_budget r' <= r_budget r0 /\
       match o with
       | None => True
       | Some (seg, slot, p, _) => r_error r' = CF_OK /\ u32_ok seg /\ u32_ok slot /\ 0 <= p < 2 ^ 64
       end) r.
Proof.
  intros Hr He Hb; unfold follow_far; cbv zeta.
  set (two := negb (Z.land p 4 =? 0)); set (k := if two then 2 else 1).
  assert (1 <= k <= 2) as Hk by (unfold k; case_if; lia).
  pose proof (u32_lo3 p) as Hslot; pose proof (u32_wrap (Z.shiftr p 32)) as Hseg; unfold u32_ok in Hseg.
  set (slot := Z.shiftr (u32 p) 3) in *; set (seg := u32 (Z.shiftr p 32)) in *.
  apply wp_bind; eapply wp_mono; [apply (wp_range ss); first [done|lia]|].
  intros ok r1 (Hr1 & Hb1 & H1); destruct ok; cbn [negb]; [|apply wp_ret; split_and!; try done; lia].
  destruct H1 as (-> & _ & s & Hs & _ & Hl).
  apply wp_bind; eapply wp_mono; [apply (wp_charge ss); [done|lia]|].
  intros ok r2 (Hr2 & H2); destruct ok; cbn [negb]; [|apply wp_ret; split_and!; try done; lia].
  destruct H2 as [Hb2 He2].
  assert (forall e, wp (raise e;; mret None) (λ (o : option (Z * Z * Z * bool)) r', reader_ok ss r' /\
    r_budget r' <= r_budget r0 /\ match o with None => True | Some (seg, slot, p, _) =>
      r_error r' = CF_OK /\ u32_ok seg /\ u32_ok slot /\ 0 <= p < 2 ^ 64 end) r2) as Hrej.
  { intros e; apply wp_bind, wp_raise, wp_ret; split_and!; [|simpl; lia|done].
    apply (reader_ok_same ss r2); try done; destruct Hr2 as (_ & _ & _ & _ & ?); simpl; lia. }
  apply wp_bind, (word_at_in ss _ _ _ s); try done; [congruence|lia..|]; set (q := le_val _); intros Hq.
  destruct two; unfold k in *.
  - apply wp_bind, (word_at_in ss _ _ _ s); try done; [congruence|lia..|]; set (tag := le_val _); intros Ht.
    case_if; [done|]; apply wp_ret; pose proof (u32_lo3 q); pose proof (u32_wrap (Z.shiftr q 32)).
    unfold u32_ok in *; split_and!; first [done|lia|congruence].
  - case_if; [done|]; apply wp_ret; unfold u32_ok; split_and!; first [done|lia|congruence].
Qed.

(** Dereferencing from any state: an error is kept, and a successful
    dereference costs at least one unit of budget. *)
Definition op_post (ss : list (list Z)) (r : cf_cp_reader) (v : cf_cp_value) (r' : cf_cp_reader) : Prop :=
  reader_ok ss r' /\ r_budget r' <= r_budget r /\ value_ok ss v /\
  (v_kind v <> CF_CP_NULL -> r_error r' = CF_OK /\ r_budget r' < r_budget r) /\
  (r_error r <> CF_OK -> v = null_value /\ r' = r).

Lemma op_stuck ss r : reader_ok ss r -> op_post ss r null_value r.
Proof. intros; unfold op_post; split_and; [done|split; [lia|split; [apply null_value_ok|done]]]. Qed.

(** A failure raised by an operation itself. *)
Lemma wp_reject_op ss e r r1 :
  r_error r = CF_OK -> reader_ok ss r1 -> r_budget r1 <= r_budget r -> wp (reject e) (op_post ss r) r1.
Proof.
  intros He Hr Hb; apply wp_bind, wp_raise, wp_ret; unfold op_post; split.
  - apply (reader_ok_same ss r1); try done; destruct Hr as (_ & _ & _ & _ & ?); simpl; lia.
  - split; [done|]; split; [apply null_value_ok|]; by split.
Qed.

(** A step after at least one unit was paid. *)
Lemma step_op ss r r1 v r' :
  r_error r = CF_OK -> r_budget r1 < r_budget r -> step_post ss r1 v r' -> op_post ss r v r'.
Proof.
  intros He Hb (H1 & H2 & H3 & H4); unfold op_post; split; [done|]; split; [lia|]; split; [done|].
  split; [|done]; intros Hk; split; [by apply H4|lia].
Qed.

Lemma wp_follow ss seg slot depth r :
  reader_ok ss r -> u32_ok seg -> u32_ok slot -> 0 <= depth ->
  wp (follow seg slot depth) (op_post ss r) r.
Proof.
  intros Hr Hseg Hslot Hd; pose proof Hseg as Hseg'; pose proof Hslot as Hslot'; unfold u32_ok in Hseg', Hslot'.
  apply wp_bind, wp_gets; destruct (is_ok (r_error r)) eqn:He; cbn [negb]; [|by apply wp_ret, op_stuck].
  apply is_ok_true in He.
  destruct (Z.ltb_spec CF_CAPNP_DEPTH_MAX depth); [by apply wp_reject_op|].
  apply wp_bind; eapply wp_mono; [apply (wp_word_at ss); first [done|lia]|].
  intros p r1 (Hr1 & Hb1 & Hp & H1); apply wp_bind, wp_gets.
  assert (forall r', reader_ok ss r' -> r_budget r' <= r_budget r -> op_post ss r null_value r') as Hnull.
  { intros r' Hr' Hb'; unfold op_post; split; [done|]; split; [done|]; split; [apply null_value_ok|done]. }
  destruct (is_ok (r_error r1)) eqn:He1; cbn [negb]; [|apply wp_ret, Hnull; [done|lia]].
  apply is_ok_true in He1; specialize (H1 He1); subst r1.
  apply wp_bind; eapply wp_mono; [apply (wp_charge ss); [done|lia]|].
  intros ok r2 (Hr2 & H2); destruct ok; cbn [negb orb]; [|apply wp_ret, Hnull; [done|lia]].
  destruct H2 as [Hb2 He2]; destruct (p =? 0); [apply wp_ret, Hnull; [done|lia]|].
  case_if.
  - apply wp_bind; eapply wp_mono; [apply (wp_follow_far ss p r2 r2); [done|congruence|lia]|].
    intros [[[[seg' slot'] p'] direct]|] r3 (Hr3 & Hb3 & H3); [|apply wp_ret, Hnull; [done|lia]].
    destruct H3 as (He3 & ? & ? & ?); eapply wp_mono; [by apply (wp_follow_near ss _ _ _ _ _ r3 r2)|].
    intros v r' Hv; apply (step_op ss r r2); [done|lia|done].
  - eapply wp_mono; [apply (wp_follow_near ss _ _ _ _ _ r2 r2); try done; congruence|].
    intros v r' Hv; apply (step_op ss r r2); [done|lia|done].
Qed.

Lemma wp_root ss r : reader_ok ss r -> wp cf_cp_root (op_post ss r) r.
Proof. intros; by apply wp_follow. Qed.

Lemma wp_field ss s index r :
  reader_ok ss r -> typed s -> wp (cf_cp_field s index) (op_post ss r) r.
Proof.
  intros Hr (Hseg & _ & _ & _ & _ & _ & Hd); apply wp_bind, wp_gets.
  destruct (is_ok (r_error r)) eqn:He; cbn [negb orb]; [|by apply wp_ret, op_stuck].
  apply is_ok_true in He; case_if; [by apply wp_ret, op_stuck|].
  case_if; [by apply wp_reject_op|]; case_if; [by apply wp_ret, op_stuck|].
  apply wp_follow; [done|done|apply u32_wrap|apply (wrap_range 8); lia].
Qed.

(** The element of a struct list lies in the list. *)
Lemma element_ok ss r l index :
  reader_ok ss r -> value_ok ss l -> v_kind l = CF_CP_LIST -> v_element_size l = 7 ->
  0 <= index < v_count l -> v_depth l < CF_CAPNP_DEPTH_MAX ->
  value_ok ss (CpValue CF_CP_STRUCT (v_segment l)
    (u32 (v_word l + u32 (index * u32 (v_data_words l + v_pointers l))))
    (v_count l) (v_cap l) (v_data_words l) (v_pointers l) (v_element_size l) (u8 (v_depth l + 1))).
Proof.
  intros (_ & _ & _ & Hss & _) (Ht & _ & Hv) Hk Hs Hi Hd; rewrite Hk in Hv.
  destruct Ht as (H1 & H2 & H3 & H4 & H5 & _ & H7), Hv as [_ (s & Hseg & Hs0 & Hl)].
  destruct (Hss _ _ Hseg) as (_ & _ & _ & Hm & _); unfold list_words in Hl; rewrite Hs, Z.eqb_refl in Hl.
  unfold u32_ok, u16_ok, is_byte, CF_CAPNP_DEPTH_MAX, CF_CAPNP_MESSAGE_MAX in *.
  set (sz := v_data_words l + v_pointers l) in *.
  assert (zlen s / 8 <= 2048) by zdm.
  assert (index * sz + sz <= v_count l * sz) by nia.
  assert (0 <= index * sz) by nia.
  rewrite (wrap_small 32 sz), (wrap_small 32 (index * sz)), (wrap_small 32), (wrap_small 8), Hs by lia.
  apply value_intro; unfold u32_ok, u16_ok; try lia; exists s; split_and!; try done.
  fold sz; lia.
Qed.

Lemma wp_at ss l index r :
  reader_ok ss r -> value_ok ss l -> 0 <= index -> wp (cf_cp_at l index) (op_post ss r) r.
Proof.
  intros Hr Hl Hi; pose proof Hl as ((Hseg & _ & _ & _ & _ & _ & Hd) & _); apply wp_bind, wp_gets.
  destruct (is_ok (r_error r)) eqn:He; cbn [negb orb]; [|by apply wp_ret, op_stuck].
  apply is_ok_true in He; case_if; [by apply wp_reject_op|]; bool_to_prop.
  case_if; [apply wp_follow; [done|done|apply u32_wrap|apply (wrap_range 8); lia]|].
  case_if; [by apply wp_reject_op|]; case_if; [by apply wp_reject_op|]; bool_to_prop.
  apply wp_bind; eapply wp_mono; [apply (wp_charge ss); [done|lia]|].
  intros ok r2 (Hr2 & H2); destruct ok; cbn [negb]; [|apply wp_reject_op; [done|done|lia]].
  destruct H2 as [Hb2 He2]; apply wp_ret; unfold op_post; split; [done|]; split; [lia|].
  split; [|split; [|done]].
  - apply (element_ok ss r); try done. by apply bool_decide_eq_true in H.
  - intros _; split; [congruence|lia].
Qed.

Lemma wp_raise_keep {A} ss e (x : A) (Q : A -> cf_cp_reader -> Prop) r :
  reader_ok ss r ->
  (forall r', reader_ok ss r' -> r_budget r' = r_budget r -> r_error r' = e -> Q x r') ->
  wp (raise e;; mret x) Q r.
Proof.
  intros Hr HQ; by apply wp_bind, wp_raise, wp_ret, HQ.
Qed.

(** A scalar is zero or bytes of a segment. *)
Definition uint_post (ss : list (list Z)) (v : cf_cp_value) (byte width : Z) (r : cf_cp_reader)
    (x : Z) (r' : cf_cp_reader) : Prop :=
  reader_ok ss r' /\ r_budget r' <= r_budget r /\ (r_error r <> CF_OK -> x = 0 /\ r' = r) /\
  (x = 0 \/ exists s, ss !! Z.to_nat (v_segment v) = Some s /\
     v_word v * 8 + byte + width <= zlen s /\ x = le_val (sub s (v_word v * 8 + byte) width)).

Lemma wp_uint ss v byte width r :
  reader_ok ss r -> typed v -> u16_ok byte -> is_byte width ->
  wp (cf_cp_uint v byte width) (uint_post ss v byte width r) r.
Proof.
  intros Hr (Hseg & Hw & _ & Hdw & _) Hby Hwd; unfold u32_ok, u16_ok, is_byte in *.
  assert (uint_post ss v byte width r 0 r) as Hzero by (split_and!; try done; by left).
  apply wp_bind, wp_gets; destruct (is_ok (r_error r)) eqn:He; cbn [negb orb]; [|by apply wp_ret].
  apply is_ok_true in He; case_if; [by apply wp_ret|].
  case_if; [apply (wp_raise_keep ss); [done|]; intros r' ? Hb ?; split_and!; try done; [lia|by left]|].
  case_if; [by apply wp_ret|]; bool_to_prop.
  apply wp_bind; eapply wp_mono; [apply (wp_range ss); [done|lia..]|].
  intros ok r1 (Hr1 & Hb1 & H1); destruct ok; cbn [negb];
    [|apply wp_ret; split_and!; try done; [lia|by left]].
  destruct H1 as (-> & _ & s & Hs & _ & Hl).
  apply wp_bind; eapply wp_mono; [apply (wp_charge ss); [done|lia]|].
  intros ok r2 (Hr2 & H2); destruct ok; cbn [negb];
    [|apply wp_ret; split_and!; try done; [lia|by left]].
  pose proof Hr as (_ & _ & _ & Hss & _); destruct (Hss _ _ Hs) as (_ & _ & _ & Hm & _).
  unfold CF_CAPNP_MESSAGE_MAX in Hm; rewrite (wrap_small 32 (byte + width)), (wrap_small 32 (_ * 8)) in * by lia.
  assert (v_word v * 8 <= 16384) by zdm; rewrite (wrap_small 32 (v_word v * 8)) by lia.
  assert (v_word v * 8 + byte + width <= zlen s) by zdm.
  assert (0 < width <= 8) by (unfold word_width in *; lia).
  eapply wp_segment_le; try done; [lia..|].
  intros _; destruct H2; split_and!; try done; [lia|right; by exists s].
Qed.

(** A blob is empty or a view of bytes of a segment, for a text followed by a
    NUL. *)
Definition data_post (ss : list (list Z)) (v : cf_cp_value) (text : bool) (r : cf_cp_reader)
    (b : cf_bytes) (r' : cf_cp_reader) : Prop :=
  reader_ok ss r' /\ r_budget r' = r_budget r /\ (r_error r <> CF_OK -> b = null_bytes /\ r' = r) /\
  (b = null_bytes \/
   exists s x d y, ss !! Z.to_nat (v_segment v) = Some s /\ s = x ++ d ++ y /\
     zlen x = v_word v * 8 /\ denotes b d /\
     (if text then zlen d = v_count v - 1 /\ head y = Some 0 else zlen d = v_count v)).

Lemma wp_data ss v text r :
  reader_ok ss r -> typed v -> wp (cf_cp_data v text) (data_post ss v text r) r.
Proof.
  intros Hr (Hseg & Hw & Hc & _); unfold u32_ok in *.
  assert (forall r', reader_ok ss r' -> r_budget r' = r_budget r -> r_error r = CF_OK ->
    data_post ss v text r null_bytes r') as Hnull by (intros; split_and!; try done; by left).
  apply wp_bind, wp_gets; destruct (is_ok (r_error r)) eqn:He; cbn [negb orb];
    [apply is_ok_true in He|apply wp_ret; split_and!; try done; by left].
  case_if; [by apply wp_ret, Hnull|].
  case_if; [apply (wp_raise_keep ss); [done|]; intros; by apply Hnull|].
  apply wp_bind; eapply wp_mono; [apply (wp_range ss); [done|zdm..]|].
  intros ok r1 (Hr1 & Hb1 & H1); destruct ok; cbn [negb]; [|by apply wp_ret, Hnull].
  destruct H1 as (-> & _ & s & Hs & _ & Hl).
  pose proof Hr as (_ & _ & _ & Hss & _); destruct (Hss _ _ Hs) as (_ & _ & _ & Hm & _).
  unfold CF_CAPNP_MESSAGE_MAX in Hm.
  assert (v_word v * 8 + v_count v <= zlen s) by zdm; rewrite (wrap_small 32) by lia.
  destruct (cut_at s (v_word v * 8) (v_count v)) as (x & d & y & Ecut & Hx & Hd); [lia..|].
  apply wp_bind, (wp_segment_at ss _ s); try done; [lia|]; intros sv Hsv; rewrite Ecut in Hsv.
  destruct (denotes_badd sv x d y Hsv) as (b & Hb & Hbd); rewrite Hx, Hd in Hb.
  apply wp_bind, (wp_lift _ b); [done|].
  destruct text; [|apply wp_ret; split_and!; try done; right; by exists s, x, d, y].
  rewrite (denotes_len _ _ Hbd).
  destruct d as [|c d _] using rev_ind; [apply (wp_raise_keep ss); [done|]; intros; by apply Hnull|].
  rewrite zlen_snoc in *; pose proof (zlen_nonneg d); replace (zlen d + 1 =? 0) with false by lia.
  apply wp_bind, (wp_lift _ c).
  { rewrite (denotes_get _ _ _ Hbd) by (rewrite zlen_snoc; lia).
    rewrite Z.add_simpl_r, <- (Z.add_0_r (zlen d)); by rewrite rd_app_r by done. }
  destruct (Z.eqb_spec c 0) as [->|]; cbn [negb]; [|apply (wp_raise_keep ss); [done|]; intros; by apply Hnull].
  apply wp_ret; split_and!; try done; right; exists s, x, d, (0 :: y).
  rewrite <- app_assoc in Ecut; split_and!; try done; [|lia].
  destruct Hbd as (Hok & _ & Hp); apply Forall_app in Hok as [Hok _]; split_and!; try done; [simpl; lia|].
  simpl; destruct (ptr b); [|by destruct d].
  destruct Hp as [tl ->]; exists (0 :: tl); by rewrite <- app_assoc.
Qed.

(** *** Opening a frame *)

Definition segment_bytes (l : list Z) (i : nat) : list Z :=
  sub l (table (seg_count l) + 8 * words_sum l 0 i) (8 * seg_words l (Z.of_nat i)).
Definition segments_of (l : list Z) : list (list Z) := segment_bytes l <$> seq 0 (Z.to_nat (seg_count l)).

Lemma segments_of_lookup l i s :
  segments_of l !! i = Some s -> s = segment_bytes l i /\ (i < Z.to_nat (seg_count l))%nat.
Proof.
  unfold segments_of; rewrite list_lookup_fmap; intros H; apply fmap_Some in H as (j & Hj & ->).
  by apply lookup_seq in Hj as [-> ?].
Qed.

Lemma segment_bytes_len l i :
  bytes_ok l -> (i < Z.to_nat (seg_count l))%nat -> frame_len l = zlen l ->
  zlen (segment_bytes l i) = 8 * seg_words l (Z.of_nat i).
Proof.
  intros Hl Hi Hf; unfold segment_bytes; pose proof (table_fits _ (seg_count_pos _ Hl)).
  unfold frame_len in Hf; rewrite (words_sum_split l _ (Z.of_nat i)) in Hf by lia; rewrite Nat2Z.id in Hf.
  pose proof (words_sum_nonneg l 0 i Hl); pose proof (seg_words_nonneg l (Z.of_nat i) Hl).
  pose proof (words_sum_nonneg l (Z.of_nat i + 1) (Z.to_nat (seg_count l - Z.of_nat i - 1)) Hl).
  apply zlen_sub; lia.
Qed.

Lemma segment_ref_same l i s j :
  bytes_ok l -> segment_ref l i = inr s -> 0 <= j < seg_count l ->
  segment_ref l j = inr (segment_bytes l (Z.to_nat j)).
Proof.
  intros Hl Hi Hj; destruct (segment_ref_ok l i s Hl Hi) as (Hn & Hf & Hm & _); revert Hi.
  unfold segment_ref; repeat (case_if; [done|]); bool_to_prop.
  replace (seg_count l <=? j) with false by lia.
  destruct (total_ref l CF_CAPNP_MESSAGE_MAX) as [[] [t|]]; try done.
  case_if; [|done]; intros _; unfold segment_bytes; by rewrite Z2Nat.id by lia.
Qed.

Lemma init_loop_spec b l n i segs :
  denotes b l -> (exists s, segment_ref l 0 = inr s) -> 0 <= i -> i + Z.of_nat n = seg_count l ->
  (Z.to_nat (seg_count l) <= length segs)%nat ->
  exists segs', init_loop b n i segs = Some (CF_OK, segs') /\ length segs' = length segs /\
    (forall j, (j < Z.to_nat i)%nat -> segs' !! j = segs !! j) /\
    (forall j, (Z.to_nat i <= j < Z.to_nat (seg_count l))%nat ->
       exists v, segs' !! j = Some v /\ denotes v (segment_bytes l j)).
Proof.
  intros Hb [s0 H0]; pose proof (denotes_bytes _ _ Hb) as Hl; revert i segs.
  induction n as [|n IH]; intros i segs Hi Hn Hlen; cbn [init_loop].
  { exists segs; split_and!; try done; intros j Hj; lia. }
  destruct (lookup_lt_is_Some_2 segs (Z.to_nat i)) as [o Ho]; [lia|]; rewrite Ho; cbn [mbind option_bind].
  pose proof (segment_spec b l i o Hb Hi) as Hs; rewrite (segment_ref_same l 0 s0 i) in Hs by first [done|lia].
  destruct Hs as (v & -> & Hv); cbn [mbind option_bind]; cbn [is_ok negb].
  change (negb (bool_decide (CF_OK = CF_OK))) with false; cbn iota.
  destruct (IH (i + 1) (<[Z.to_nat i:=v]> segs)) as (segs' & -> & Hlen' & Hlo & Hhi);
    [lia|lia|by rewrite length_insert|].
  rewrite length_insert in Hlen'; exists segs'; split_and!; try done.
  - intros j Hj; rewrite Hlo by lia; apply list_lookup_insert_ne; lia.
  - intros j Hj; destruct (decide (j = Z.to_nat i)) as [->|]; [|apply Hhi; lia].
    exists v; split; [|done]; rewrite Hlo by lia; apply list_lookup_insert_eq; lia.
Qed.

Lemma read_init_spec b l r0 :
  denotes b l -> exists rc r, cf_cp_read_init (Some r0) b = Some (rc, Some r) /\ r_error r = rc /\
    match segment_ref l 0 with
    | inl e => rc = e /\ is_ok e = false
    | inr _ => rc = CF_OK /\ reader_ok (segments_of l) r /\ r_budget r = CF_CAPNP_TRAVERSAL_WORDS
    end.
Proof.
  intros Hb; pose proof (denotes_bytes _ _ Hb) as Hl; unfold cf_cp_read_init.
  pose proof (segment_spec b l 0 null_bytes Hb ltac:(done)) as Hs.
  destruct (segment_ref l 0) as [e|s] eqn:E.
  { destruct Hs as [He ->]; cbn [mbind option_bind]; rewrite He; cbn [negb]; by eexists _, _. }
  destruct Hs as (v & -> & Hv); cbn [mbind option_bind]; simpl is_ok; cbn [negb].
  destruct (segment_ref_ok l 0 s Hl E) as (Hn & Hf & Hm & _).
  assert (4 <= zlen l) by (pose proof (table_fits _ (seg_count_pos _ Hl)); unfold frame_len in Hf;
    pose proof (words_sum_nonneg l 0 (Z.to_nat (seg_count l)) Hl); lia).
  assert (exists m, ptr b = Some m /\ le m 0 4 = Some (seg_count l - 1)) as (m & -> & Hle).
  { destruct Hb as (_ & _ & Hp); destruct (ptr b) as [m|]; [|subst l; rewrite zlen_nil in *; lia].
    destruct Hp as [rest ->]; exists (l ++ rest); split; [done|].
    destruct (cut_at l 0 4) as (e & x & y & E4 & He & Hx); [lia..|].
    destruct e; [|exfalso; zlia]; unfold seg_count; rewrite E4 at 2; cbn [app] in *.
    rewrite sub_head, Z.add_simpl_r, E4, <- app_assoc by done; unfold le.
    assert (Z.to_nat 4 = length x) as -> by (unfold zlen in Hx; lia).
    rewrite E4 in Hl; apply Forall_app in Hl as [Hx' _].
    apply (le_loop_spec [] [] x (y ++ rest)); [done|cbn [app]; lia]. }
  cbn [mbind option_bind]; rewrite Hle; cbn [mbind option_bind].
  rewrite (wrap_small 32 (_ - 1)), Z.sub_add, (wrap_small 32) by lia.
  destruct (init_loop_spec b l (Z.to_nat (seg_count l - 1)) 1 (<[0%nat:=v]> no_segments))
    as (segs & -> & Hlen & Hlo & Hhi); [done|by exists s|lia|lia|simpl; lia|].
  cbn [mbind option_bind]; eexists _, _; split; [reflexivity|]; split; [done|]; split; [done|]; split; [|done].
  split_and!; try done; cbn [r_count r_segments]; try (unfold segments_of, zlen; rewrite length_fmap, length_seq; lia).
  intros i x Hi; apply segments_of_lookup in Hi as [-> Hi].
  assert (exists v, segs !! i = Some v /\ denotes v (segment_bytes l i)) as (w & Hw & Hd).
  { destruct i as [|i]; [|apply Hhi; lia]; rewrite Hlo by lia; exists v; split; [done|].
    by rewrite (segment_ref_same l 0 s 0 Hl E) in E by lia; injection E as <-. }
  exists w; split_and!; try done; pose proof (segment_bytes_len l i Hl Hi Hf) as ->.
  - unfold frame_len in Hf; rewrite (words_sum_split l _ (Z.of_nat i)) in Hf by lia.
    pose proof (words_sum_nonneg l 0 (Z.to_nat (Z.of_nat i)) Hl); pose proof (table_fits _ (seg_count_pos _ Hl)).
    pose proof (words_sum_nonneg l (Z.of_nat i + 1) (Z.to_nat (seg_count l - Z.of_nat i - 1)) Hl); lia.
  - rewrite Z.mul_comm; by apply Z_mod_mult.
Qed.

(** *** Any client of the reader *)

(** The readers and values a program can have obtained from [frame] by calling
    the interface, in any order, on values it obtained before. *)
Inductive client (frame : cf_bytes) : cf_cp_reader -> list cf_cp_value -> Prop :=
| client_open r0 r : cf_cp_read_init (Some r0) frame = Some (CF_OK, Some r) -> client frame r []
| client_root r vs v r' :
    client frame r vs -> cf_cp_root r = Some (v, r') -> client frame r' (v :: vs)
| client_field r vs s i v r' :
    client frame r vs -> s ∈ vs -> u16_ok i -> cf_cp_field s i r = Some (v, r') -> client frame r' (v :: vs)
| client_at r vs s i v r' :
    client frame r vs -> s ∈ vs -> u32_ok i -> cf_cp_at s i r = Some (v, r') -> client frame r' (v :: vs)
| client_uint r vs s byte width x r' :
    client frame r vs -> s ∈ vs -> u16_ok byte -> is_byte width ->
    cf_cp_uint s byte width r = Some (x, r') -> client frame r' vs
| client_data r vs s text b r' :
    client frame r vs -> s ∈ vs -> cf_cp_data s text r = Some (b, r') -> client frame r' vs.

(** The values that are not null. *)
Definition live (vs : list cf_cp_value) : list cf_cp_value :=
  filter (λ v, v_kind v <> CF_CP_NULL) vs.

Lemma wp_run {A} (m : RM A) Q r x r' : wp m Q r -> m r = Some (x, r') -> Q x r'.
Proof. intros (y & r1 & Hm & HQ) H; rewrite Hm in H; injection H as <- <-; done. Qed.

Lemma live_push ss r r' v vs :
  op_post ss r v r' -> zlen (live vs) + r_budget r <= CF_CAPNP_TRAVERSAL_WORDS ->
  zlen (live (v :: vs)) + r_budget r' <= CF_CAPNP_TRAVERSAL_WORDS.
Proof.
  intros (_ & Hb & _ & Hk & _) Hl; unfold live in *; rewrite filter_cons.
  case_decide as Hv; [|lia]; rewrite zlen_cons; destruct (Hk Hv); lia.
Qed.

Lemma client_ok frame l r vs :
  denotes frame l -> client frame r vs ->
  reader_ok (segments_of l) r /\ Forall (value_ok (segments_of l)) vs /\
  zlen (live vs) + r_budget r <= CF_CAPNP_TRAVERSAL_WORDS.
Proof.
  intros Hf; induction 1 as [r0 r H|r vs v r' _ (Hr & Hv & Hl) H|r vs s i v r' _ (Hr & Hv & Hl) Hs Hi H
    |r vs s i v r' _ (Hr & Hv & Hl) Hs Hi H|r vs s byte width x r' _ (Hr & Hv & Hl) Hs Hb Hw H
    |r vs s text b r' _ (Hr & Hv & Hl) Hs H].
  - destruct (read_init_spec frame l r0 Hf) as (rc & r1 & H1 & _ & Hok); rewrite H1 in H; injection H as -> ->.
    destruct (segment_ref l 0); [by destruct Hok as [<- ?]|]; destruct Hok as (_ & Hr & Hb).
    split_and!; try done; change (zlen (live [])) with 0; lia.
  - apply (wp_run _ _ _ _ _ (wp_root _ _ Hr)) in H as Hp; pose proof Hp as (? & _ & ? & _).
    split_and!; [done|by constructor|by eapply live_push].
  - rewrite Forall_forall in Hv; pose proof (Hv _ Hs) as [Ht _]; rewrite <- Forall_forall in Hv.
    apply (wp_run _ _ _ _ _ (wp_field _ _ i _ Hr Ht)) in H as Hp; pose proof Hp as (? & _ & ? & _).
    split_and!; [done|by constructor|by eapply live_push].
  - rewrite Forall_forall in Hv; pose proof (Hv _ Hs) as Ht; rewrite <- Forall_forall in Hv.
    apply (wp_run _ _ _ _ _ (wp_at _ _ i _ Hr Ht (proj1 Hi))) in H as Hp; pose proof Hp as (? & _ & ? & _).
    split_and!; [done|by constructor|by eapply live_push].
  - rewrite Forall_forall in Hv; pose proof (Hv _ Hs) as [Ht _]; rewrite <- Forall_forall in Hv.
    apply (wp_run _ _ _ _ _ (wp_uint _ _ _ _ _ Hr Ht Hb Hw)) in H as (? & ? & _); split_and!; try done; lia.
  - rewrite Forall_forall in Hv; pose proof (Hv _ Hs) as [Ht _]; rewrite <- Forall_forall in Hv.
    apply (wp_run _ _ _ _ _ (wp_data _ _ text _ Hr Ht)) in H as (? & ? & _); split_and!; try done; lia.
Qed.

Lemma wp_total {A} (m : RM A) Q r : wp m Q r -> exists x r', m r = Some (x, r').
Proof. intros (x & r' & Hm & _); by exists x, r'. Qed.

(** A segment is a part of the frame. *)
Lemma segment_infix l i s : segments_of l !! i = Some s -> exists x y, l = x ++ s ++ y.
Proof.
  intros [-> _]%segments_of_lookup; unfold segment_bytes, sub.
  generalize (Z.to_nat (table (seg_count l) + 8 * words_sum l 0 i)) (Z.to_nat (8 * seg_words l (Z.of_nat i))).
  intros o n; exists (take o l), (drop n (drop o l)); by rewrite !take_drop.
Qed.

(** ** The builder *)

(** The builder over a buffer of [size] bytes holds the words [body]. *)
Definition builder_rep (cap size : Z) (b : cf_cp_builder) (body : list Z) : Prop :=
  (exists head rest, b_buffer b = Some (head ++ body ++ rest) /\ zlen head = 8 /\
     zlen (head ++ body ++ rest) = size /\ take 4 head = [0; 0; 0; 0]) /\
  bytes_ok body /\ b_capacity b = cap /\ 16 <= cap <= CF_CAPNP_MESSAGE_MAX /\ cap <= size /\
  zlen body = 8 * b_words b /\ 0 <= b_words b <= (cap - 8) / 8 /\ b_error b = CF_OK.

(** After an error the buffer is all that is left of it. *)
Definition builder_failed (size : Z) (b : cf_cp_builder) : Prop :=
  (exists m, b_buffer b = Some m /\ zlen m = size) /\ b_error b <> CF_OK.

Definition zeros (n : Z) : list Z := replicate (Z.to_nat n) 0.

(** [body] with the bytes at [o] replaced. *)
Definition patch (body : list Z) (o : Z) (bs : list Z) : list Z := default body (blit body o bs).

Lemma zlen_patch body o bs : zlen (patch body o bs) = zlen body.
Proof. unfold patch; destruct (blit body o bs) eqn:E; [exact (zlen_blit _ _ _ _ E)|done]. Qed.

Lemma blit_ok m o bs m' : bytes_ok m -> bytes_ok bs -> blit m o bs = Some m' -> bytes_ok m'.
Proof.
  unfold blit; case_if; [|done]; intros Hm Hbs [= <-]; rewrite !Forall_app; split_and!;
    [by apply Forall_take|done|by apply Forall_drop].
Qed.

Lemma patch_ok body o bs : bytes_ok body -> bytes_ok bs -> bytes_ok (patch body o bs).
Proof.
  intros Hb Hbs; unfold patch; destruct (blit body o bs) eqn:E; [|done]; exact (blit_ok _ _ _ _ Hb Hbs E).
Qed.

(** Writing inside the body. *)
Lemma blit_inside head body rest o bs :
  0 <= o -> o + zlen bs <= zlen body ->
  blit (head ++ body ++ rest) (zlen head + o) bs = Some (head ++ patch body o bs ++ rest).
Proof.
  intros Ho Hl; destruct (cut_at body o (zlen bs)) as (x & y & z & -> & <- & Hy); [lia|apply zlen_nonneg|lia|].
  assert (length bs = length y) by (unfold zlen in *; lia).
  unfold patch; rewrite blit_app by done; cbn [default from_option id].
  rewrite <- zlen_app, <- !app_assoc, (app_assoc head x), blit_app by done; by rewrite <- !app_assoc.
Qed.

Lemma bbind {A B} (m : BM A) (k : A -> BM B) b x b' : m b = Some (x, b') -> (m ≫= k) b = k x b'.
Proof. unfold mbind, BM_bind; by intros ->. Qed.

Lemma bbind_gets {A B} (f : cf_cp_builder -> A) (k : A -> BM B) b : (bgets f ≫= k) b = k (f b) b.
Proof. done. Qed.

Lemma bret {A} (x : A) b : (mret x : BM A) b = Some (x, b).
Proof. done. Qed.

Lemma alloc_words_spec cap size b body n :
  builder_rep cap size b body -> u32_ok n ->
  if b_words b + n <=? (cap - 8) / 8
  then exists b', alloc_words n b = Some (b_words b, b') /\ builder_rep cap size b' (body ++ zeros (8 * n)) /\
         b_words b' = b_words b + n
  else exists b', alloc_words n b = Some (0, b') /\ builder_failed size b' /\ b_error b' = CF_ERR_LIMIT.
Proof.
  intros ((hd & rest & Hb & Hh & Hsz & Hz) & Hok & Hc & Hcap & Hs & Hlen & Hw & He) Hn.
  unfold alloc_words, u32_ok, CF_CAPNP_MESSAGE_MAX in *; rewrite bbind_gets; cbv zeta; cbn [id].
  rewrite He, Hc; change (is_ok CF_OK) with true; cbn [negb].
  rewrite (wrap_small 32 (cap - 8)), wrap_small by (rewrite ?wrap_small by lia; zdm).
  destruct (Z.leb_spec (b_words b + n) ((cap - 8) / 8)).
  - replace (_ <? n) with false by lia; rewrite !zlen_app in Hsz.
    destruct (cut_at rest 0 (8 * n)) as (e & x & y & -> & Hz0 & Hx); [lia|lia|zdm|].
    destruct e; [clear Hz0; cbn [app] in *|exfalso; zlia].
    erewrite (bbind (bstore _)).
    2:{ unfold bstore; rewrite Hb; cbn [mbind option_bind]; unfold zero_fill.
        replace (n * 8 <? 0) with false by lia; rewrite (app_assoc hd body).
        replace (8 + b_words b * 8) with (zlen (hd ++ body)) by (rewrite zlen_app; lia).
        rewrite blit_app by (rewrite length_replicate; unfold zlen in *; lia); reflexivity. }
    erewrite bbind by reflexivity; rewrite bret; cbn [b_buffer b_capacity b_words b_error].
    rewrite (wrap_small 32) by zdm; eexists; split; [reflexivity|]; unfold builder_rep; cbn [b_buffer b_capacity b_words b_error].
    unfold zeros; rewrite (Z.mul_comm n 8); split_and!; try done; try lia.
    + exists hd, y; rewrite <- !app_assoc; split_and!; try done.
      rewrite !zlen_app, zlen_replicate; rewrite zlen_app in Hsz; lia.
    + apply Forall_app; split; [done|]; by apply Forall_replicate.
    + unfold CF_CAPNP_MESSAGE_MAX; lia.
    + rewrite zlen_app, zlen_replicate; lia.
  - replace (_ <? n) with true by lia; eexists; split; [reflexivity|]; split; [split|]; try done.
    eexists; split; [done|done].
Qed.

(** A computation that only stores inside the body. *)
Lemma bstore_spec cap size b body o bs f :
  builder_rep cap size b body -> 0 <= o -> o + zlen bs <= zlen body -> bytes_ok bs ->
  (forall m, zlen m = size -> f m = blit m (8 + o) bs) ->
  exists b', bstore f b = Some ((), b') /\ builder_rep cap size b' (patch body o bs) /\ b_words b' = b_words b.
Proof.
  intros ((hd & rest & Hb & Hh & Hsz & Hz) & Hok & Hc & Hcap & Hs & Hlen & Hw & He) Ho Hl Hbs Hf.
  unfold bstore; rewrite Hb; cbn [mbind option_bind]; rewrite Hf, <- Hh, blit_inside by done.
  cbn [mbind option_bind]; eexists; split; [reflexivity|].
  unfold builder_rep; cbn [b_buffer b_capacity b_words b_error]; rewrite zlen_patch; split_and!; try done; try lia.
  - exists hd, rest; split_and!; try done; rewrite <- Hsz, !zlen_app, zlen_patch; done.
  - by apply patch_ok.
Qed.

Lemma set_word_spec cap size b body slot v :
  builder_rep cap size b body -> 0 <= slot -> slot < b_words b ->
  exists b', set_word slot v b = Some ((), b') /\
    builder_rep cap size b' (patch body (slot * 8) (le_bytes 8 v)) /\ b_words b' = b_words b.
Proof.
  intros Hr Hs Hw; pose proof Hr as (_ & _ & _ & _ & Hsz & Hlen & Hcap & He).
  unfold set_word; rewrite bbind_gets; cbn [id]; rewrite He; change (is_ok CF_OK) with true; cbn [negb].
  replace (b_words b <=? slot) with false by lia.
  apply bstore_spec; try done; [lia|rewrite zlen_le_bytes; lia|apply le_bytes_ok|].
  intros m Hm; rewrite put_spec by zdm; done.
Qed.

Lemma blit_app_l a b o bs m :
  blit a o bs = Some m -> blit (a ++ b) o bs = Some (m ++ b).
Proof.
  intros H; pose proof (blit_inv _ _ _ _ H) as [Ho Hl].
  destruct (cut_at a o (zlen bs)) as (x & y & z & -> & <- & Hy); [lia|apply zlen_nonneg|lia|].
  assert (length bs = length y) by (unfold zlen in *; lia).
  rewrite blit_app in H by done; injection H as <-; rewrite <- !app_assoc, blit_app by done; done.
Qed.

Lemma patch_app a b o bs :
  0 <= o -> o + zlen bs <= zlen a -> patch (a ++ b) o bs = patch a o bs ++ b.
Proof.
  intros Ho Hl; unfold patch; destruct (blit_Some a o bs Ho Hl) as [m Hm].
  by rewrite Hm, (blit_app_l _ _ _ _ _ Hm).
Qed.

Lemma patch_tail a b bs :
  zlen bs <= zlen b -> patch (a ++ b) (zlen a) bs = a ++ bs ++ drop (length bs) b.
Proof.
  intros Hl; destruct (cut_at b 0 (zlen bs)) as (e & x & y & -> & He & Hx);
    [lia|apply zlen_nonneg|lia|].
  destruct e; [cbn [app]|exfalso; zlia]; assert (length bs = length x) as Hlx by (unfold zlen in *; lia).
  unfold patch; rewrite blit_app by done; cbn [default from_option id]; by rewrite Hlx, drop_app_length.
Qed.

Definition ceil8 (n : Z) : Z := (n + 7) / 8.

Lemma alloc_link cap size b body n slot v :
  builder_rep cap size b body -> u32_ok n -> 0 <= slot < b_words b -> b_words b + n <= (cap - 8) / 8 ->
  exists b1 b2, alloc_words n b = Some (b_words b, b1) /\ set_word slot v b1 = Some ((), b2) /\
    builder_rep cap size b2 (patch body (slot * 8) (le_bytes 8 v) ++ zeros (8 * n)) /\
    b_words b2 = b_words b + n.
Proof.
  intros Hr Hn Hs Hfit; pose proof (alloc_words_spec cap size b body n Hr Hn) as Ha.
  replace (_ <=? _) with true in Ha by lia; destruct Ha as (b1 & Ha & Hr1 & Hw1).
  unfold u32_ok in Hn; destruct (set_word_spec cap size b1 _ slot v Hr1) as (b2 & Hset & Hr2 & Hw2); [lia..|].
  exists b1, b2; split_and!; try done; [|lia].
  rewrite patch_app in Hr2; [done|lia|]; rewrite zlen_le_bytes.
  destruct Hr as (_ & _ & _ & _ & _ & Hlen & _); lia.
Qed.

(** The pointer words, as the code computes them. *)
Definition struct_word (at_ slot data_words pointers : Z) : Z :=
  let delta := if (data_words =? 0) && (pointers =? 0) then -1 else at_ - slot - 1 in
  Z.lor (Z.lor (u64 (Z.shiftl (Z.land delta 1073741823) 2)) (u64 (Z.shiftl data_words 32)))
    (u64 (Z.shiftl pointers 48)).

Lemma struct_spec cap size b body slot dw pc :
  builder_rep cap size b body -> u16_ok dw -> u16_ok pc -> 0 <= slot < b_words b ->
  b_words b + (dw + pc) <= (cap - 8) / 8 ->
  exists b', cf_cp_struct slot dw pc b = Some (b_words b, b') /\
    builder_rep cap size b'
      (patch body (slot * 8) (le_bytes 8 (struct_word (b_words b) slot dw pc)) ++ zeros (8 * (dw + pc))) /\
    b_words b' = b_words b + (dw + pc).
Proof.
  unfold u16_ok; intros Hr Hdw Hpc Hs Hfit; unfold cf_cp_struct; rewrite (wrap_small 32) by lia.
  destruct (alloc_link cap size b body (dw + pc) slot (struct_word (b_words b) slot dw pc) Hr)
    as (b1 & b2 & Ha & Hset & Hr2 & Hw2); [unfold u32_ok; lia|lia|lia|].
  rewrite (bbind _ _ _ _ _ Ha), (bbind _ _ _ () b2), bret by done; by exists b2.
Qed.

Lemma pointer_list_spec cap size b body slot count :
  builder_rep cap size b body -> u32_ok count -> 0 <= slot < b_words b ->
  b_words b + count <= (cap - 8) / 8 ->
  exists b', cf_cp_pointer_list slot count b = Some (b_words b, b') /\
    builder_rep cap size b'
      (patch body (slot * 8) (le_bytes 8 (list_word (b_words b) slot 6 count)) ++ zeros (8 * count)) /\
    b_words b' = b_words b + count.
Proof.
  intros Hr Hc Hs Hfit; unfold cf_cp_pointer_list.
  destruct (alloc_link cap size b body count slot (list_word (b_words b) slot 6 count) Hr)
    as (b1 & b2 & Ha & Hset & Hr2 & Hw2); [done..|].
  rewrite (bbind _ _ _ _ _ Ha), (bbind _ _ _ _ _ Hset), bret; by exists b2.
Qed.

Lemma set_uint_spec cap size b body object byte width v :
  builder_rep cap size b body -> 0 <= object -> 0 <= byte -> word_width width = true ->
  object * 8 + byte + width <= zlen body ->
  exists b', cf_cp_set_uint object byte width v b = Some ((), b') /\
    builder_rep cap size b' (patch body (object * 8 + byte) (le_bytes (Z.to_nat width) v)) /\
    b_words b' = b_words b.
Proof.
  intros Hr Ho Hb Hw Hl; pose proof Hr as (_ & _ & _ & Hcap & Hsz & Hlen & Hwd & He).
  assert (0 < width <= 8) by (unfold word_width in Hw; lia); unfold CF_CAPNP_MESSAGE_MAX in Hcap.
  assert (zlen body <= 16384) by zdm.
  unfold cf_cp_set_uint; rewrite bbind_gets; cbv zeta; cbn [id]; rewrite He.
  change (is_ok CF_OK) with true; cbn [negb]; rewrite Hw; cbn [negb].
  rewrite (wrap_small 32 (object * 8)), (wrap_small 32 (object * 8 + byte)), (wrap_small 32 (b_words b * 8)),
    (wrap_small 32) by lia.
  replace (_ || _) with false by lia; apply bstore_spec; try done; [lia| |apply le_bytes_ok|].
  - rewrite zlen_le_bytes; lia.
  - intros m Hm; rewrite put_spec by zdm; done.
Qed.

(** The source of the copy of a non-empty view. *)
Lemma denotes_src value l :
  denotes value l -> l <> [] -> exists m, ptr value = Some m /\ slice m 0 (zlen l) = Some l.
Proof.
  intros (_ & _ & Hp) Hl; destruct (ptr value) as [m|]; [|done].
  destruct Hp as [r ->]; exists (l ++ r); split; [done|].
  by rewrite slice_sub, sub_head by (rewrite ?zlen_app; pose proof (zlen_nonneg r); pose proof (zlen_nonneg l); lia).
Qed.

Lemma blob_spec cap size b body slot value l text :
  builder_rep cap size b body -> denotes value l -> 0 <= slot < b_words b ->
  let n := zlen l + (if text : bool then 1 else 0) in
  b_words b + ceil8 n <= (cap - 8) / 8 ->
  exists b', cf_cp_blob slot value text b = Some ((), b') /\
    builder_rep cap size b'
      (patch body (slot * 8) (le_bytes 8 (list_word (b_words b) slot 2 n)) ++
       l ++ zeros (8 * ceil8 n - zlen l)) /\
    b_words b' = b_words b + ceil8 n.
Proof.
  intros Hr Hv Hs n Hfit; pose proof Hr as (_ & _ & _ & Hcap & Hsz & Hlen & Hwd & He).
  unfold ceil8, CF_CAPNP_MESSAGE_MAX in *; pose proof (zlen_nonneg l) as Hl0.
  assert (zlen l <= n <= zlen l + 1) by (unfold n; destruct text; lia).
  assert (n <= 16376) by zdm.
  unfold cf_cp_blob; rewrite bbind_gets; cbn [id]; rewrite He; change (is_ok CF_OK) with true; cbn [negb].
  rewrite (denotes_null_view _ _ Hv), (denotes_len _ _ Hv); unfold CF_CAPNP_MESSAGE_MAX; cbn [orb].
  replace (_ <? zlen l) with false by lia; rewrite (wrap_small 32 (zlen l)), (wrap_small 32) by lia; fold n.
  rewrite (wrap_small 32 (n + 7)) by lia; cbv zeta.
  destruct (alloc_link cap size b body ((n + 7) / 8) slot (list_word (b_words b) slot 2 n) Hr)
    as (b1 & b2 & Ha & Hset & Hr2 & Hw2); [unfold u32_ok; zdm|lia|lia|].
  rewrite (bbind _ _ _ _ _ Ha), (bbind _ _ _ _ _ Hset), bbind_gets; cbn [id].
  pose proof Hr2 as (_ & _ & _ & _ & _ & Hlen2 & _ & ->); change (is_ok CF_OK) with true; cbn [andb].
  set (body1 := patch body _ _) in *; rewrite zlen_app in Hlen2; unfold zeros in Hlen2.
  rewrite zlen_replicate in Hlen2.
  assert (8 * ((n + 7) / 8) >= zlen l) by zdm.
  assert (drop (length l) (zeros (8 * ((n + 7) / 8))) = zeros (8 * ((n + 7) / 8) - zlen l)) as Hdrop.
  { unfold zeros; rewrite drop_replicate; f_equal; unfold zlen in *; lia. }
  destruct (Z.eqb_spec (zlen l) 0) as [Hz|Hz]; cbn [negb].
  - assert (l = []) as -> by (destruct l; [done|rewrite zlen_cons in *; pose proof (zlen_nonneg l); lia]).
    exists b2; split_and!; try done; by rewrite Hz, Z.sub_0_r.
  - destruct (denotes_src value l Hv) as (m & Hm & Hsl); [by intros ->|].
    destruct (bstore_spec cap size b2 _ (b_words b * 8) l
      (λ m, src ← ptr value; bs ← slice src 0 (zlen l); blit m (8 + b_words b * 8) bs) Hr2)
      as (b3 & -> & Hr3 & Hw3); [lia| |by eapply denotes_bytes| |].
    + rewrite zlen_app; unfold zeros; rewrite zlen_replicate; lia.
    + intros m' _; rewrite Hm; cbn [mbind option_bind]; by rewrite Hsl.
    + exists b3; split_and!; [done| |lia]; replace (b_words b * 8) with (zlen body1) in Hr3 by lia.
      rewrite patch_tail, Hdrop in Hr3; [done|]; unfold zeros; rewrite zlen_replicate; lia.
Qed.

Lemma build_init_spec b0 m cap :
  16 <= cap <= CF_CAPNP_MESSAGE_MAX -> cap <= zlen m ->
  exists b, cf_cp_build_init (Some b0) (Some m) cap = Some (CF_OK, Some b) /\
    builder_rep cap (zlen m) b (zeros 8) /\ b_words b = 1.
Proof.
  intros Hc Hl; unfold cf_cp_build_init.
  replace ((cap <? 16) || _) with false by lia.
  destruct (cut_at m 0 8) as (e & x & y & -> & He & Hx); [lia..|].
  destruct e; [clear He; cbn [app] in *|exfalso; zlia].
  unfold zero_fill; rewrite blit_0_intro by zlia.
  replace (drop _ (x ++ y)) with y by (rewrite length_replicate;
    replace (Z.to_nat 8) with (length x) by (unfold zlen in *; lia); by rewrite drop_app_length).
  cbn [Z.ltb Z.compare mbind option_bind].
  set (b1 := CpBuilder _ _ _ _).
  assert (builder_rep cap (zlen (x ++ y)) b1 []) as Hr.
  { unfold builder_rep, b1; cbn [b_buffer b_capacity b_words b_error]; split_and!; try done; try lia; [|zdm].
    exists (zeros 8), y; unfold zeros; split_and!; try done; zlia. }
  pose proof (alloc_words_spec cap _ b1 [] 1 Hr ltac:(done)) as Ha; cbn [b_words b1] in Ha.
  replace (_ <=? _) with true in Ha by (unfold b1; cbn [b_words]; zdm).
  destruct Ha as (b & -> & Hb & Hw); cbn [mbind option_bind]; by exists b.
Qed.

(** The finished message is the one-segment frame over the body. *)
Lemma build_end_spec cap size b body w :
  builder_rep cap size b body -> 1 <= b_words b ->
  exists b' m rest, cf_cp_build_end (Some b) (Some w) =
      Some (CF_OK, Some b', Some (zlen (frame_of [body]))) /\
    b_buffer b' = Some m /\ m = frame_of [body] ++ rest /\ zlen m = size /\ zlen (frame_of [body]) <= cap.
Proof.
  intros ((hd & rest & Hb & Hh & Hsz & Hz) & Hok & Hc & Hcap & Hs & Hlen & Hw & He) H1.
  unfold CF_CAPNP_MESSAGE_MAX in *; unfold cf_cp_build_end; rewrite He.
  change (is_ok CF_OK) with true; cbn [negb]; unfold bstore; rewrite Hb; cbn [mbind option_bind].
  rewrite put_spec by (rewrite ?Hsz; zdm).
  assert (hd = [0; 0; 0; 0] ++ drop 4 hd) as Ehd by (rewrite <- Hz; symmetry; apply take_drop).
  assert (zlen (drop 4 hd) = 4) as H4 by (unfold zlen in *; rewrite length_drop; lia).
  rewrite Ehd, <- !app_assoc; change 4 with (zlen [0; 0; 0; 0]) at 1.
  rewrite blit_app by (change (Z.to_nat 4) with 4%nat; unfold zlen in H4; simpl; lia).
  cbn [mbind option_bind b_words]; rewrite (wrap_small 32) by zdm.
  assert (frame_of [body] = [0; 0; 0; 0] ++ le_bytes (Z.to_nat 4) (b_words b) ++ body) as Hf.
  { unfold frame_of, frame_head, seg_sizes; cbn [fmap list_fmap concat]; rewrite Hlen.
    rewrite !app_nil_r, (Z.mul_comm 8), Z.div_mul by lia; change (zlen [body]) with 1.
    change (table 1) with 8; cbn [Z.sub Z.mul Z.add Z.opp Z.to_nat Pos.mul Pos.add replicate].
    by rewrite <- ?app_assoc. }
  rewrite Hf; eexists (CpBuilder (Some _) _ _ _), _, rest; split; [|split; [reflexivity|split; [by rewrite <- !app_assoc|]]].
  - rewrite !zlen_app, zlen_le_bytes, Hlen; change (zlen [0; 0; 0; 0]) with 4.
    replace (4 + (Z.of_nat (Z.to_nat 4) + 8 * b_words b)) with (8 + b_words b * 8) by lia; reflexivity.
  - rewrite !zlen_app, zlen_le_bytes in *; change (zlen [0;0;0;0]) with 4 in *; zdm.
Qed.

(** *** Pointer words, read back *)

Lemma struct_word_value at_ slot dw pc :
  u16_ok dw -> u16_ok pc ->
  struct_word at_ slot dw pc =
    4 * ((if (dw =? 0) && (pc =? 0) then -1 else at_ - slot - 1) mod 1073741824)
    + dw * 4294967296 + pc * 281474976710656.
Proof.
  unfold u16_ok, struct_word; intros Hd Hp; cbv zeta.
  set (delta := if (dw =? 0) && (pc =? 0) then -1 else at_ - slot - 1).
  change 1073741823 with (2 ^ 30 - 1); rewrite land_mask by lia; change (2 ^ 30) with 1073741824.
  pose proof (Z.mod_pos_bound delta 1073741824 ltac:(lia)); set (d := delta mod _) in *.
  assert (u64 (Z.shiftl d 2) = 4 * d) as -> by (rewrite Z.shiftl_mul_pow2, wrap_small by lia; lia).
  rewrite !(wrap_small 64) by (rewrite Z.shiftl_mul_pow2 by lia; simpl; lia).
  rewrite (lor_shiftr_low dw (4 * d) 32), (lor_shiftr_low pc _ 48) by (simpl; lia); simpl; lia.
Qed.

Lemma list_word_value at_ slot size count :
  0 <= at_ - slot - 1 < 1073741824 -> 0 <= size < 8 -> 0 <= count < 536870912 ->
  list_word at_ slot size count = 4 * (at_ - slot - 1) + 1 + size * 4294967296 + count * 34359738368.
Proof.
  intros Ha Hs Hc; unfold list_word; rewrite (wrap_small 32) by lia; set (d := at_ - slot - 1) in *.
  assert (u64 (Z.shiftl d 2) = Z.shiftl d 2) as -> by (apply wrap_small; rewrite Z.shiftl_mul_pow2 by lia; simpl; lia).
  rewrite (lor_shiftl d 1 2) by (simpl; lia).
  rewrite (wrap_small 64) by (rewrite Z.shiftl_mul_pow2 by lia; simpl; lia).
  rewrite (lor_shiftr_low size _ 32), (lor_shiftr_low count _ 35) by (simpl; lia); simpl; lia.
Qed.

Lemma shiftr_div x k d : 0 <= k -> d = 2 ^ k -> Z.shiftr x k = x / d.
Proof. intros; subst; by apply Z.shiftr_div_pow2. Qed.

Lemma land_mod x m d : d = m + 1 -> (exists k, 0 <= k /\ d = 2 ^ k) -> Z.land x m = x mod d.
Proof.
  intros Hd (k & Hk & E); replace m with (2 ^ k - 1) by lia; rewrite land_mask by done; by rewrite E.
Qed.

Ltac word_arith :=
  repeat first
  [ rewrite (shiftr_div _ 2 4) by (reflexivity || lia)
  | rewrite (shiftr_div _ 32 4294967296) by (reflexivity || lia)
  | rewrite (shiftr_div _ 35 34359738368) by (reflexivity || lia)
  | rewrite (shiftr_div _ 48 281474976710656) by (reflexivity || lia)
  | rewrite (land_mod _ 3 4) by first [reflexivity | exists 2; done]
  | rewrite (land_mod _ 7 8) by first [reflexivity | exists 3; done] ];
  unfold wrap; change (2 ^ 8) with 256; change (2 ^ 16) with 65536; change (2 ^ 32) with 4294967296.

Lemma offset_sign d :
  0 <= d < 536870912 -> Z.land d 536870912 = 0.
Proof.
  intros; rewrite Z.land_comm; change 536870912 with (Z.shiftl 1 29); apply land_shiftl_low; simpl; lia.
Qed.

(** The fields of a struct pointer word. *)
Lemma struct_word_fields d dw pc :
  u16_ok dw -> u16_ok pc -> 0 <= d < 1073741824 ->
  let p := 4 * d + dw * 4294967296 + pc * 281474976710656 in
  Z.land p 3 = 0 /\ Z.shiftr (u32 p) 2 = d /\ u16 (Z.shiftr p 32) = dw /\ u16 (Z.shiftr p 48) = pc.
Proof.
  intros Hd Hp Hdd p; unfold u16_ok, p in *; word_arith; split_and!; zdm.
Qed.

Lemma list_word_fields d size count :
  0 <= d < 1073741824 -> 0 <= size < 8 -> 0 <= count < 536870912 ->
  let p := 4 * d + 1 + size * 4294967296 + count * 34359738368 in
  Z.land p 3 = 1 /\ Z.shiftr (u32 p) 2 = d /\ u8 (Z.land (Z.shiftr p 32) 7) = size /\ u32 (Z.shiftr p 35) = count.
Proof.
  intros Hd Hs Hc p; unfold p; word_arith; split_and!; zdm.
Qed.

(** The reader over [ss] without error and with budget [n] left. *)
Definition reading (ss : list (list Z)) (n : Z) (r : cf_cp_reader) : Prop :=
  reader_ok ss r /\ r_error r = CF_OK /\ r_budget r = n.

Lemma reading_charge ss n words r Q :
  reading ss n r -> 0 <= words -> Z.max 1 words <= n ->
  (forall r', reading ss (n - Z.max 1 words) r' -> Q true r') -> wp (charge words) Q r.
Proof.
  intros (Hr & He & Hb) Hw Hn HQ; apply (charge_in ss); [done|done|lia|].
  intros r' -> Hr'; apply HQ; split_and!; [done|done|simpl; lia].
Qed.

Lemma reading_follow ss n seg slot depth s r Q :
  reading ss n r -> 1 <= n -> ss !! Z.to_nat seg = Some s -> 0 <= seg -> 0 <= slot -> slot + 1 <= zlen s / 8 ->
  depth <= CF_CAPNP_DEPTH_MAX ->
  let p := le_val (sub s (slot * 8) 8) in
  p <> 0 -> Z.land p 3 <> 2 ->
  (forall r', reading ss (n - 1) r' -> wp (follow_near seg slot p false depth) Q r') ->
  wp (follow seg slot depth) Q r.
Proof.
  intros Hr Hn Hs Hseg Hslot Hl Hd p Hp0 Hp2 HQ; pose proof Hr as (Hrk & He & Hb).
  apply wp_bind, wp_gets; rewrite He; change (is_ok CF_OK) with true; cbn [negb].
  replace (CF_CAPNP_DEPTH_MAX <? depth) with false by lia.
  apply wp_bind, (word_at_in ss _ _ _ s); try done; fold p; intros _.
  apply wp_bind, wp_gets; rewrite He; change (is_ok CF_OK) with true; cbn [negb].
  apply wp_bind, (reading_charge ss n); [done|lia|lia|]; intros r' Hr'; cbn [negb orb].
  rewrite (proj2 (Z.eqb_neq p 0)), (proj2 (Z.eqb_neq (Z.land p 3) 2)) by done; by apply HQ.
Qed.

Lemma reading_take ss n v words r Q :
  reading ss n r -> in_segment ss (v_segment v) (v_word v) words -> 0 <= words -> Z.max 1 words <= n ->
  (forall r', reading ss (n - Z.max 1 words) r' -> Q v r') -> wp (take_object v words) Q r.
Proof.
  intros Hr Hin Hw Hn HQ; pose proof Hr as (Hrk & He & Hb).
  apply wp_bind, (range_in ss); try done; cbn [negb].
  apply wp_bind, (reading_charge ss n); try done; intros r' Hr'; by apply wp_ret, HQ.
Qed.

(** Dereferencing a struct pointer written by [cf_cp_struct]. *)
Lemma follow_struct n body slot at_ dw pc depth r Q :
  reading [body] n r -> u16_ok dw -> u16_ok pc -> 0 <= slot -> slot + 1 <= at_ ->
  at_ + (dw + pc) <= zlen body / 8 ->
  sub body (slot * 8) 8 = le_bytes 8 (struct_word at_ slot dw pc) -> (0 < dw + pc) ->
  depth <= CF_CAPNP_DEPTH_MAX -> 1 + (dw + pc) <= n ->
  (forall r', reading [body] (n - 1 - (dw + pc)) r' ->
     Q (CpValue CF_CP_STRUCT 0 at_ 0 0 dw pc 0 depth) r') ->
  wp (follow 0 slot depth) Q r.
Proof.
  intros Hr Hdw Hpc Hs Hat Hl Hw Hpos Hd Hn HQ; pose proof Hdw as Hdw'; pose proof Hpc as Hpc'.
  unfold u16_ok in Hdw', Hpc'.
  assert (zlen body <= 16384) as Hmax.
  { destruct Hr as ((_ & _ & _ & Hss & _) & _); by destruct (Hss 0%nat body eq_refl) as (_ & _ & _ & Hm & _). }
  assert (struct_word at_ slot dw pc = 4 * (at_ - slot - 1) + dw * 4294967296 + pc * 281474976710656) as Hsw.
  { rewrite struct_word_value by done; replace ((dw =? 0) && (pc =? 0)) with false by lia.
    rewrite Z.mod_small; [done|zdm]. }
  assert (le_val (sub body (slot * 8) 8) = struct_word at_ slot dw pc) as Hp.
  { rewrite Hw; apply le_val_bytes; rewrite Hsw; change (256 ^ Z.of_nat 8) with (2 ^ 64); zdm. }
  destruct (struct_word_fields (at_ - slot - 1) dw pc Hdw Hpc) as (F1 & F2 & F3 & F4); [zdm|].
  rewrite <- Hsw in F1, F2, F3, F4.
  eapply (reading_follow [body] n 0 slot depth body); try done; try lia; rewrite ?Hp, ?F1; try lia.
  intros r' Hr'; unfold follow_near; cbv zeta; rewrite F1, F2, F3, F4; cbn [Z.eqb Pos.eqb].
  rewrite offset_sign by zdm; cbn [Z.eqb negb]; unfold UINT32_MAX.
  replace (slot + 1 + (at_ - slot - 1)) with at_ by lia; replace (_ || _) with false by zdm.
  cbn [v_data_words v_pointers]; rewrite !(wrap_small 32) by zdm.
  apply (reading_take [body] (n - 1)); cbn [v_segment v_word]; try done; try lia; [by exists body|].
  intros r2 Hr2; apply HQ; replace (Z.max 1 (dw + pc)) with (dw + pc) in Hr2 by lia; done.
Qed.

(** Dereferencing a list pointer written by [cf_cp_blob] or
    [cf_cp_pointer_list]. *)
Lemma follow_list n body slot at_ size count bits depth r Q :
  reading [body] n r -> 0 <= size < 7 -> bits_of size = Some bits -> 0 <= count < 536870912 ->
  0 <= slot -> slot + 1 <= at_ -> let words := (count * bits + 63) / 64 in at_ + words <= zlen body / 8 ->
  sub body (slot * 8) 8 = le_bytes 8 (list_word at_ slot size count) ->
  depth <= CF_CAPNP_DEPTH_MAX -> 1 + Z.max 1 words <= n ->
  (forall r', reading [body] (n - 1 - Z.max 1 words) r' ->
     Q (CpValue CF_CP_LIST 0 at_ count 0 0 0 size depth) r') ->
  wp (follow 0 slot depth) Q r.
Proof.
  intros Hr Hsize Hbits Hc Hs Hat words Hl Hw Hd Hn HQ.
  assert (zlen body <= 16384) as Hmax.
  { destruct Hr as ((_ & _ & _ & Hss & _) & _); by destruct (Hss 0%nat body eq_refl) as (_ & _ & _ & Hm & _). }
  destruct (bits_of_Some size Hsize) as (b & Hb & Hb64); rewrite Hbits in Hb; injection Hb as <-.
  assert (0 <= words) by (apply Z.div_pos; nia).
  assert (list_word at_ slot size count = 4 * (at_ - slot - 1) + 1 + size * 4294967296 + count * 34359738368)
    as Hlw by (apply list_word_value; zdm).
  assert (le_val (sub body (slot * 8) 8) = list_word at_ slot size count) as Hp.
  { rewrite Hw; apply le_val_bytes; rewrite Hlw; change (256 ^ Z.of_nat 8) with (2 ^ 64); zdm. }
  destruct (list_word_fields (at_ - slot - 1) size count) as (F1 & F2 & F3 & F4); [zdm|lia|lia|].
  rewrite <- Hlw in F1, F2, F3, F4.
  eapply (reading_follow [body] n 0 slot depth body); try done; try lia; rewrite ?Hp, ?F1; try lia.
  intros r' Hr'; unfold follow_near; cbv zeta; rewrite F1, F2, F3, F4; cbn [Z.eqb Pos.eqb].
  rewrite offset_sign by zdm; cbn [Z.eqb negb]; unfold UINT32_MAX.
  replace (slot + 1 + (at_ - slot - 1)) with at_ by lia; replace (_ || _) with false by zdm.
  rewrite (wrap_small 32 at_) by zdm; replace (size =? 7) with false by lia.
  apply wp_bind, (wp_lift _ bits); [done|]; rewrite (wrap_small 64 (count * bits)), (wrap_small 64) by nia.
  apply (reading_take [body] (n - 1)); cbn [v_segment v_word]; try done; try lia; by exists body.
Qed.

(** Scalars and blobs of a body. *)
Lemma read_uint n body at_ dw pc depth byte width r Q :
  reading [body] n r -> 0 <= at_ -> u16_ok dw -> at_ + dw <= zlen body / 8 -> 0 <= byte -> 
  word_width width = true -> byte + width <= dw * 8 -> 1 <= n ->
  (forall r', reading [body] (n - 1) r' -> Q (le_val (sub body (at_ * 8 + byte) width)) r') ->
  wp (cf_cp_uint (CpValue CF_CP_STRUCT 0 at_ 0 0 dw pc 0 depth) byte width) Q r.
Proof.
  intros Hr Hat Hdw Hl Hb Hwd Hbw Hn HQ; pose proof Hr as (Hrk & He & Hbd); unfold u16_ok in Hdw.
  assert (zlen body <= 16384) as Hmax.
  { destruct Hrk as (_ & _ & _ & Hss & _); by destruct (Hss 0%nat body eq_refl) as (_ & _ & _ & Hm & _). }
  assert (0 < width <= 8) by (unfold word_width in Hwd; lia).
  apply wp_bind, wp_gets; rewrite He; change (is_ok CF_OK) with true; cbn [negb orb v_kind].
  rewrite bool_decide_eq_false_2, bool_decide_eq_true_2 by done; cbn [negb orb]; rewrite Hwd; cbn [negb].
  cbn [v_data_words v_segment v_word]; rewrite !(wrap_small 32) by zdm.
  replace (dw * 8 <? byte + width) with false by lia.
  apply wp_bind, (range_in [body]); try done; try lia; [by exists body|]; cbn [negb].
  apply wp_bind, (reading_charge [body] n); [done|lia|lia|]; intros r' Hr'; cbn [negb].
  change (Z.max 1 1) with 1 in Hr'; pose proof Hr' as (Hrk' & _).
  eapply (wp_segment_le [body] 0); try done; [lia|zdm|]; intros _; by apply HQ.
Qed.

Lemma read_data n body at_ count depth l text r Q :
  reading [body] n r -> 0 <= at_ -> count = zlen l + (if text : bool then 1 else 0) ->
  at_ * 8 + count <= zlen body -> sub body (at_ * 8) (zlen l) = l ->
  (text = true -> sub body (at_ * 8 + zlen l) 1 = [0]) ->
  (forall b, denotes b l -> Q b r) ->
  wp (cf_cp_data (CpValue CF_CP_LIST 0 at_ count 0 0 0 2 depth) text) Q r.
Proof.
  intros Hr Hat Hc Hl Hsub Hnul HQ; pose proof Hr as (Hrk & He & Hbd); pose proof (zlen_nonneg l) as Hl0.
  assert (zlen body <= 16384 /\ zlen body mod 8 = 0) as [Hmax Hmod].
  { destruct Hrk as (_ & _ & _ & Hss & _); by destruct (Hss 0%nat body eq_refl) as (_ & _ & _ & Hm & ?). }
  assert (0 <= count) by (destruct text; lia).
  apply wp_bind, wp_gets; rewrite He; change (is_ok CF_OK) with true; cbn [negb orb v_kind].
  rewrite bool_decide_eq_false_2, bool_decide_eq_true_2 by done; cbn [negb orb v_element_size Z.eqb Pos.eqb].
  cbn [v_segment v_word v_count].
  apply wp_bind, (range_in [body]); try done; [exists body; split_and!; try done; zdm|zdm|]; cbn [negb].
  destruct (cut_at body (at_ * 8) count) as (x & d & y & Ecut & Hx & Hd); [lia..|].
  apply wp_bind, (wp_segment_at [body] 0 body); try done; intros v Hv; rewrite Ecut in Hv.
  destruct (denotes_badd v x d y Hv) as (b & Hb & Hbd'); rewrite Hx, Hd in Hb; rewrite (wrap_small 32) by lia.
  apply wp_bind, (wp_lift _ b); [done|]; rewrite (denotes_len _ _ Hbd'), Hd.
  assert (d = l ++ if text then [0] else []) as ->.
  { destruct text.
    - destruct d as [|c d _] using rev_ind; [rewrite zlen_nil in *; lia|]; rewrite zlen_snoc in Hd.
      rewrite <- app_assoc in Ecut; specialize (Hnul eq_refl).
      rewrite Ecut, (sub_mid x d) in Hsub by lia; subst d.
      by rewrite Ecut, app_assoc, (sub_mid (x ++ l) [c]) in Hnul by (rewrite ?zlen_app; done || lia); simplify_eq.
    - rewrite Ecut, (sub_mid x d y) in Hsub by lia; by rewrite app_nil_r. }
  destruct text; [|apply wp_ret, HQ; by rewrite app_nil_r in Hbd'].
  replace (count =? 0) with false by lia; apply wp_bind, (wp_lift _ 0).
  - rewrite (denotes_get _ _ _ Hbd') by (rewrite zlen_snoc; lia).
    replace (count - 1) with (zlen l + 0) by lia; by rewrite rd_app_r.
  - cbn [Z.eqb negb]; apply wp_ret, HQ; destruct Hbd' as (Hok & _ & Hp); apply Forall_app in Hok as [Hok _].
    split_and!; [done|simpl; lia|]; simpl; destruct (ptr b); [|by destruct l].
    destruct Hp as [tl ->]; exists ([0] ++ tl); by rewrite <- app_assoc.
Qed.

Lemma read_field n body at_ dw pc depth index r Q :
  reading [body] n r -> 0 <= at_ -> at_ + dw + index < 4294967296 -> 0 <= dw -> 0 <= index < pc ->
  0 <= depth < CF_CAPNP_DEPTH_MAX ->
  wp (follow 0 (at_ + dw + index) (depth + 1)) Q r ->
  wp (cf_cp_field (CpValue CF_CP_STRUCT 0 at_ 0 0 dw pc 0 depth) index) Q r.
Proof.
  intros (_ & He & _) Hat Hl Hdw Hi Hd HQ; unfold CF_CAPNP_DEPTH_MAX in Hd.
  apply wp_bind, wp_gets; rewrite He; change (is_ok CF_OK) with true; cbn [negb orb v_kind].
  rewrite bool_decide_eq_false_2, bool_decide_eq_true_2 by done; cbn [negb v_pointers v_segment v_word v_data_words v_depth].
  replace (pc <=? index) with false by lia.
  by rewrite (wrap_small 32), (wrap_small 8) by lia.
Qed.

(** *** Builder totality *)

Definition builder_ok (cap size : Z) (b : cf_cp_builder) : Prop :=
  (exists body, builder_rep cap size b body /\ 1 <= b_words b) \/ builder_failed size b.

(** [m] returns, keeps the builder sound and, after an error, does nothing. *)
Definition bsafe {A} (cap size : Z) (m : BM A) : Prop :=
  forall b, builder_ok cap size b -> exists x b', m b = Some (x, b') /\ builder_ok cap size b' /\
    (b_error b <> CF_OK -> b' = b).

Lemma bsafe_bind {A B} cap size (m : BM A) (k : A -> BM B) :
  bsafe cap size m -> (forall x, bsafe cap size (k x)) -> bsafe cap size (m ≫= k).
Proof.
  intros Hm Hk b Hb; destruct (Hm b Hb) as (x & b1 & H1 & Hb1 & E1).
  destruct (Hk x b1 Hb1) as (y & b2 & H2 & Hb2 & E2); exists y, b2; rewrite (bbind _ _ _ _ _ H1).
  split_and!; try done; intros He; pose proof (E1 He); subst b1; by apply E2.
Qed.

Lemma bsafe_ret {A} cap size (x : A) : bsafe cap size (mret x).
Proof. intros b Hb; by exists x, b. Qed.

Lemma failed_error size b : builder_failed size b -> is_ok (b_error b) = false.
Proof. by intros [_ H%is_ok_false]. Qed.

Lemma rep_fail cap size b body e :
  builder_rep cap size b body -> e <> CF_OK ->
  builder_ok cap size (CpBuilder (b_buffer b) (b_capacity b) (b_words b) e).
Proof.
  intros ((hd & rest & Hb & _ & Hsz & _) & _) He; right; split; [|done]; by eexists.
Qed.

Lemma bsafe_alloc cap size n : u32_ok n -> bsafe cap size (alloc_words n).
Proof.
  intros Hn b [(body & Hb & H1)|Hf].
  - pose proof (alloc_words_spec cap size b body n Hb Hn) as H; case_match.
    + destruct H as (b' & -> & Hr & Hwd'); eexists _, b'; split_and!; [done|left; eexists; split; [done|unfold u32_ok in Hn; lia]|].
      intros He; by destruct Hb as (_ & _ & _ & _ & _ & _ & _ & ?).
    + destruct H as (b' & -> & Hr & _); eexists _, b'; split_and!; [done|by right|].
      intros He; by destruct Hb as (_ & _ & _ & _ & _ & _ & _ & ?).
  - unfold alloc_words; exists 0, b; rewrite bbind_gets; cbv zeta; cbn [id].
    rewrite (failed_error _ _ Hf); split_and!; try done; by right.
Qed.

Lemma bsafe_set_word cap size slot v : 0 <= slot -> bsafe cap size (set_word slot v).
Proof.
  intros Hs b [(body & Hb & H1)|Hf].
  - pose proof Hb as (_ & _ & _ & _ & _ & _ & _ & He).
    destruct (Z.ltb_spec slot (b_words b)) as [Hlt|Hge].
    + destruct (set_word_spec cap size b body slot v Hb Hs Hlt) as (b' & -> & Hr & Hwd').
      exists (), b'; split_and!; [done|left; eexists; split; [done|lia]|done].
    + unfold set_word; rewrite bbind_gets; cbn [id]; rewrite He; change (is_ok CF_OK) with true; cbn [negb].
      replace (b_words b <=? slot) with true by lia; eexists (), _; split; [reflexivity|].
      split; [by eapply rep_fail|done].
  - unfold set_word; exists (), b; rewrite bbind_gets; cbn [id].
    rewrite (failed_error _ _ Hf); split_and!; try done; by right.
Qed.

Lemma bsafe_set_uint cap size object byte width v :
  u32_ok object -> u16_ok byte -> bsafe cap size (cf_cp_set_uint object byte width v).
Proof.
  intros Ho Hby b [(body & Hb & H1)|Hf]; unfold cf_cp_set_uint; rewrite bbind_gets; cbv zeta; cbn [id].
  - pose proof Hb as (_ & _ & _ & Hcap & Hsz & Hlen & Hwd & He); rewrite He.
    change (is_ok CF_OK) with true; cbn [negb]; case_if.
    + eexists (), _; split; [reflexivity|]; split; [by eapply rep_fail|done].
    + apply orb_false_iff in E as [E1 E3]; apply orb_false_iff in E1 as [E1 E2]; bool_to_prop.
      unfold CF_CAPNP_MESSAGE_MAX in *; set (off := usize (usize (object * 8) + byte)) in *.
      assert (0 <= off) by (apply wrap_range; lia); assert (0 < width <= 8) by (unfold word_width in *; lia).
      assert (b_words b <= 2047) by zdm; rewrite (wrap_small 32 (b_words b * 8)) in * by lia.
      rewrite (wrap_small 32) in E3 by lia.
      destruct (bstore_spec cap size b body off (le_bytes (Z.to_nat width) v)
        (λ m, put m (8 + off) width v) Hb) as (b' & -> & Hr & Hwd'); [lia|rewrite zlen_le_bytes; lia|apply le_bytes_ok| |].
      * intros m Hm; by rewrite put_spec by zdm.
      * exists (), b'; split_and!; [done|left; eexists; split; [done|lia]|done].
  - exists (), b; rewrite (failed_error _ _ Hf); split_and!; try done; by right.
Qed.

Lemma bsafe_struct cap size slot dw pc :
  0 <= slot -> bsafe cap size (cf_cp_struct slot dw pc).
Proof.
  intros Hs; apply bsafe_bind; [apply bsafe_alloc, u32_wrap|]; intros at_; cbv zeta.
  apply bsafe_bind; [by apply bsafe_set_word|]; intros; apply bsafe_ret.
Qed.

Lemma bsafe_list cap size slot count :
  0 <= slot -> u32_ok count -> bsafe cap size (cf_cp_pointer_list slot count).
Proof.
  intros Hs Hc; apply bsafe_bind; [by apply bsafe_alloc|]; intros at_.
  apply bsafe_bind; [by apply bsafe_set_word|]; intros; apply bsafe_ret.
Qed.

Lemma bsafe_blob cap size slot value l text :
  0 <= slot -> denotes value l -> bsafe cap size (cf_cp_blob slot value text).
Proof.
  intros Hs Hv b Hb; unfold cf_cp_blob; rewrite bbind_gets; cbn [id].
  destruct (is_ok (b_error b)) eqn:He; cbn [negb];
    [|by exists (), b; split_and!].
  apply is_ok_true in He; destruct Hb as [(body & Hb & H1)|[_ Hf]]; [|done].
  rewrite (denotes_null_view _ _ Hv), (denotes_len _ _ Hv); cbn [orb].
  case_if; [eexists (), _; split; [reflexivity|]; split; [by eapply rep_fail|done]|]; bool_to_prop; cbv zeta.
  unfold CF_CAPNP_MESSAGE_MAX in *; pose proof (zlen_nonneg l).
  rewrite (wrap_small 32 (zlen l)), (wrap_small 32 (zlen l + _)), (wrap_small 32) by (destruct text; lia).
  set (n := zlen l + _); assert (zlen l <= n <= zlen l + 1) by (unfold n; destruct text; lia).
  pose proof (alloc_words_spec cap size b body ((n + 7) / 8) Hb ltac:(unfold u32_ok; zdm)) as Ha.
  case_match; destruct Ha as (b1 & Ha & Hr1 & Hw1); rewrite (bbind _ _ _ _ _ Ha).
  - destruct (Z.ltb_spec slot (b_words b1)) as [Hlt|Hge].
    + destruct (set_word_spec cap size b1 _ slot (list_word (b_words b) slot 2 n) Hr1 Hs Hlt) as (b2 & Hset & Hr2 & Hw2).
      rewrite (bbind _ _ _ _ _ Hset), bbind_gets; cbn [id].
      pose proof Hr2 as (_ & _ & _ & _ & _ & Hlen2 & _ & ->); change (is_ok CF_OK) with true; cbn [andb].
      assert (0 <= (n + 7) / 8) by zdm.
      case_if; [|exists (), b2; split_and!; [done|left; eexists; split; [done|lia]|done]].
      destruct (denotes_src value l Hv) as (m & Hm & Hsl); [intros ->; by rewrite zlen_nil in E0|].
      destruct (bstore_spec cap size b2 _ (b_words b * 8) l
        (λ m, src ← ptr value; bs ← slice src 0 (zlen l); blit m (8 + b_words b * 8) bs) Hr2)
        as (b3 & -> & Hr3 & Hw3); [|rewrite Hlen2, Hw2, Hw1; zdm|by eapply denotes_bytes| |].
      * destruct Hb as (_ & _ & _ & _ & _ & _ & ? & _); lia.
      * intros m' _; rewrite Hm; cbn [mbind option_bind]; by rewrite Hsl.
      * exists (), b3; split_and!; [done|left; eexists; split; [done|lia]|done].
    + pose proof Hr1 as (_ & _ & _ & _ & _ & _ & _ & He1).
      erewrite bbind by (unfold set_word; rewrite bbind_gets; cbn [id]; rewrite He1;
        change (is_ok CF_OK) with true; cbn [negb]; replace (b_words b1 <=? slot) with true by lia; reflexivity).
      rewrite bbind_gets; cbn [id b_error andb is_ok]; eexists (), _; split; [reflexivity|].
      split; [by eapply rep_fail|done].
  - rewrite (bbind (set_word _ _) _ b1 () b1) by
      (unfold set_word; rewrite bbind_gets; cbn [id]; by rewrite (failed_error _ _ Hr1)).
    rewrite bbind_gets; cbn [id]; rewrite (failed_error _ _ Hr1); exists (), b1; split_and!; [done|by right|done].
Qed.

Inductive build_op :=
| BStruct (slot data_words pointers : Z)
| BList (slot count : Z)
| BUint (object byte width value : Z)
| BBlob (slot : Z) (value : cf_bytes) (text : bool).

Definition run_op (op : build_op) : BM () :=
  match op with
  | BStruct slot dw pc => cf_cp_struct slot dw pc;; mret ()
  | BList slot count => cf_cp_pointer_list slot count;; mret ()
  | BUint object byte width v => cf_cp_set_uint object byte width v
  | BBlob slot value text => cf_cp_blob slot value text
  end.

Fixpoint run_ops (ops : list build_op) : BM () :=
  match ops with [] => mret () | op :: ops => run_op op;; run_ops ops end.

(** The arguments hold values of their types, and views are readable. *)
Definition op_typed (op : build_op) : Prop :=
  match op with
  | BStruct slot dw pc => u32_ok slot /\ u16_ok dw /\ u16_ok pc
  | BList slot count => u32_ok slot /\ u32_ok count
  | BUint object byte width v => u32_ok object /\ u16_ok byte
  | BBlob slot value text => u32_ok slot /\ exists l, denotes value l
  end.

Lemma bsafe_op cap size op : op_typed op -> bsafe cap size (run_op op).
Proof.
  unfold op_typed, u32_ok; destruct op; cbn [run_op].
  - intros (Hs & _); apply bsafe_bind; [apply bsafe_struct; lia|intros; apply bsafe_ret].
  - intros ([Hs _] & Hc); apply bsafe_bind; [by apply bsafe_list|intros; apply bsafe_ret].
  - intros (Ho & Hb); by apply bsafe_set_uint.
  - intros ([Hs _] & l & Hv); by apply (bsafe_blob cap size slot value l).
Qed.

Lemma bsafe_ops cap size ops : Forall op_typed ops -> bsafe cap size (run_ops ops).
Proof.
  induction 1 as [|op ops Hop _ IH]; [apply bsafe_ret|]; cbn [run_ops].
  apply bsafe_bind; [by apply bsafe_op|done].
Qed.

(** A finished message opens as a reader over its body. *)
Lemma body_segs cap size b body :
  builder_rep cap size b body -> 1 <= b_words b -> segs_ok CF_CAPNP_MESSAGE_MAX [body].
Proof.
  intros (_ & Hok & _ & Hcap & _ & Hlen & Hw & _) H1; unfold CF_CAPNP_MESSAGE_MAX in *.
  split_and!; try done; cbn [concat]; rewrite ?app_nil_r; change (table (zlen [body])) with 8.
  - constructor; [|constructor]; split; [done|]; by rewrite Hlen, Z.mul_comm, Z_mod_mult.
  - intros s [= <-]; intros ->; rewrite zlen_nil in Hlen; lia.
  - unfold CF_CAPNP_MESSAGE_MAX; zdm.
Qed.

Lemma read_message view body r0 :
  segs_ok CF_CAPNP_MESSAGE_MAX [body] -> denotes view (frame_of [body]) ->
  exists r, cf_cp_read_init (Some r0) view = Some (CF_OK, Some r) /\ reading [body] CF_CAPNP_TRAVERSAL_WORDS r.
Proof.
  intros Hs Hv.
  assert (segment_ref (frame_of [body]) 0 = inr body) as Href by exact (segment_ref_frame [body] 0 Hs ltac:(done)).
  destruct (read_init_spec view _ r0 Hv) as (rc & r & Hinit & He & H); rewrite Href in H.
  destruct H as (-> & Hr & Hb); exists r; split; [done|]; split_and!; try done.
  pose proof (denotes_bytes _ _ Hv) as Hl.
  assert (segments_of (frame_of [body]) = [body]) as <-; [|done].
  unfold segments_of; rewrite frame_of_count by done; change (Z.to_nat (zlen [body])) with 1%nat.
  change (segment_bytes (frame_of [body]) <$> seq 0 1) with [segment_bytes (frame_of [body]) 0].
  pose proof (segment_ref_same _ 0 _ 0 Hl Href) as H; rewrite frame_of_count in H by done.
  rewrite Href in H; specialize (H ltac:(done)); injection H as H; f_equal; symmetry; exact H.
Qed.

(** *** Regions of a body *)

(** The bytes [bs] are in the body at [o]. *)
Definition has (body : list Z) (o : Z) (bs : list Z) : Prop :=
  0 <= o /\ o + zlen bs <= zlen body /\ sub body o (zlen bs) = bs.

Lemma has_intro a bs c o : o = zlen a -> has (a ++ bs ++ c) o bs.
Proof.
  intros ->; split; [apply zlen_nonneg|]; split; [|by apply sub_mid].
  rewrite !zlen_app; pose proof (zlen_nonneg c); lia.
Qed.

Lemma has_elim body o bs : has body o bs -> exists a c, body = a ++ bs ++ c /\ o = zlen a.
Proof.
  intros (Ho & Hl & Hs); destruct (cut_at body o (zlen bs)) as (a & b & c & -> & <- & Hb);
    [lia|apply zlen_nonneg|lia|].
  rewrite <- Hb, sub_app in Hs; subst b; by exists a, c.
Qed.

Lemma has_app body ext o bs : has body o bs -> has (body ++ ext) o bs.
Proof.
  intros (a & c & -> & ->)%has_elim; rewrite <- !app_assoc; by apply has_intro.
Qed.

Lemma has_ext body ext y : zlen body = y -> forall tail, has (body ++ ext ++ tail) y ext.
Proof. intros <- tail; by apply has_intro. Qed.

Lemma has_patch body o bs : 0 <= o -> o + zlen bs <= zlen body -> has (patch body o bs) o bs.
Proof.
  intros Ho Hl; destruct (cut_at body o (zlen bs)) as (a & b & c & -> & <- & Hb);
    [lia|apply zlen_nonneg|lia|].
  unfold patch; rewrite blit_app by (unfold zlen in *; lia); cbn [default from_option id]; by apply has_intro.
Qed.

(** Writing elsewhere keeps a region. *)
Lemma has_other body o bs o' bs' :
  has body o bs -> 0 <= o' -> o' + zlen bs' <= zlen body -> (o' + zlen bs' <= o \/ o + zlen bs <= o') ->
  has (patch body o' bs') o bs.
Proof.
  intros (a & c & -> & ->)%has_elim Ho Hl Hd; rewrite !zlen_app in Hl.
  destruct Hd as [Hd|Hd].
  - rewrite patch_app by lia; rewrite <- (zlen_patch a o' bs'); by apply has_intro.
  - destruct (cut_at c (o' - zlen a - zlen bs) (zlen bs')) as (x & y & z & -> & Hx & Hy);
      [lia|apply zlen_nonneg|rewrite ?zlen_app in *; lia|].
    rewrite (app_assoc bs), (app_assoc a); replace o' with (zlen (a ++ bs ++ x)) by (rewrite !zlen_app; lia).
    unfold patch; rewrite blit_app by (unfold zlen in *; lia); cbn [default from_option id].
    rewrite <- !app_assoc; by apply has_intro.
Qed.

(** A part of a region. *)
Lemma has_sub body o bs a x c o' :
  has body o bs -> bs = a ++ x ++ c -> o' = o + zlen a -> has body o' x.
Proof.
  intros (p & q & -> & ->)%has_elim -> ->; rewrite <- zlen_app, <- !app_assoc, (app_assoc p a).
  by apply has_intro.
Qed.

(** *** Builder computations *)

(** [m] runs from [b] and ends with [Q]. *)
Definition bwp {A} (m : BM A) (Q : A -> cf_cp_builder -> Prop) (b : cf_cp_builder) : Prop :=
  exists x b', m b = Some (x, b') /\ Q x b'.

Lemma bwp_ret {A} (x : A) Q b : Q x b -> bwp (mret x) Q b.
Proof. intros; by exists x, b. Qed.

Lemma bwp_bind {A B} (m : BM A) (k : A -> BM B) Q b : bwp m (λ x, bwp (k x) Q) b -> bwp (m ≫= k) Q b.
Proof.
  intros (x & b1 & Hm & y & b2 & Hk & HQ); exists y, b2; by rewrite (bbind _ _ _ _ _ Hm).
Qed.

(** The builder holds [body], [w] words long. *)
Definition built (cap size : Z) (body : list Z) (w : Z) (b : cf_cp_builder) : Prop :=
  builder_rep cap size b body /\ b_words b = w /\ 1 <= w.

(** [body'] agrees with [body] outside [n] bytes at [o]. *)
Definition keeps (body body' : list Z) (o n : Z) : Prop :=
  forall o' bs, has body o' bs -> o + n <= o' \/ o' + zlen bs <= o -> has body' o' bs.

Lemma keeps_patch body o bs ext :
  0 <= o -> o + zlen bs <= zlen body -> keeps body (patch body o bs ++ ext) o (zlen bs).
Proof. intros Ho Hl o' bs' Hh Hd; apply has_app, has_other; done. Qed.

Lemma built_len cap size body w b : built cap size body w b -> zlen body = 8 * w.
Proof. by intros ((_ & _ & _ & _ & _ & Hl & _) & <- & _). Qed.

Lemma bwp_struct cap size body w slot dw pc b Q :
  built cap size body w b -> u16_ok dw -> u16_ok pc -> 0 <= slot < w -> w + (dw + pc) <= (cap - 8) / 8 ->
  (forall b' body', built cap size body' (w + (dw + pc)) b' ->
     has body' (slot * 8) (le_bytes 8 (struct_word w slot dw pc)) ->
     has body' (w * 8) (zeros (8 * (dw + pc))) -> keeps body body' (slot * 8) 8 -> Q w b') ->
  bwp (cf_cp_struct slot dw pc) Q b.
Proof.
  intros Hb Hdw Hpc Hs Hfit HQ; pose proof (built_len _ _ _ _ _ Hb) as Hlen; destruct Hb as (Hr & <- & H1).
  destruct (struct_spec cap size b body slot dw pc Hr Hdw Hpc Hs Hfit) as (b' & Hb' & Hr' & Hw').
  set (w := struct_word _ _ _ _) in *; unfold u16_ok in *.
  assert (zlen (patch body (slot * 8) (le_bytes 8 w)) = b_words b * 8) as Hp by (rewrite zlen_patch; lia).
  eexists _, b'; split; [done|]; eapply HQ; [split; [done|lia]| | |].
  - apply has_app, has_patch; rewrite ?zlen_le_bytes; lia.
  - pose proof (has_intro _ (zeros (8 * (dw + pc))) [] _ (eq_sym Hp)) as H; by rewrite app_nil_r in H.
  - pose proof (keeps_patch body (slot * 8) (le_bytes 8 w) (zeros (8 * (dw + pc)))) as H.
    rewrite zlen_le_bytes in H; apply H; lia.
Qed.

Lemma bwp_list cap size body w slot count b Q :
  built cap size body w b -> 0 <= count < 4294967296 -> 0 <= slot < w -> w + count <= (cap - 8) / 8 ->
  (forall b' body', built cap size body' (w + count) b' ->
     has body' (slot * 8) (le_bytes 8 (list_word w slot 6 count)) -> keeps body body' (slot * 8) 8 -> Q w b') ->
  bwp (cf_cp_pointer_list slot count) Q b.
Proof.
  intros Hb Hc Hs Hfit HQ; pose proof (built_len _ _ _ _ _ Hb) as Hlen; destruct Hb as (Hr & <- & H1).
  destruct (pointer_list_spec cap size b body slot count Hr Hc Hs Hfit) as (b' & Hb' & Hr' & Hw').
  set (w := list_word _ _ _ _) in *.
  eexists _, b'; split; [done|]; eapply HQ; [split; [done|lia]| |].
  - apply has_app, has_patch; rewrite ?zlen_le_bytes; lia.
  - pose proof (keeps_patch body (slot * 8) (le_bytes 8 w) (zeros (8 * count))) as H.
    rewrite zlen_le_bytes in H; apply H; lia.
Qed.

Lemma bwp_set_uint cap size body w object byte width v b Q :
  built cap size body w b -> 0 <= object -> 0 <= byte -> word_width width = true ->
  object * 8 + byte + width <= 8 * w ->
  (forall b' body', built cap size body' w b' ->
     has body' (object * 8 + byte) (le_bytes (Z.to_nat width) v) ->
     keeps body body' (object * 8 + byte) width -> Q () b') ->
  bwp (cf_cp_set_uint object byte width v) Q b.
Proof.
  intros Hb Ho Hby Hwd Hl HQ; pose proof (built_len _ _ _ _ _ Hb) as Hlen; destruct Hb as (Hr & <- & H1).
  assert (0 < width <= 8) by (unfold word_width in Hwd; lia).
  destruct (set_uint_spec cap size b body object byte width v Hr Ho Hby Hwd) as (b' & Hb' & Hr' & Hw'); [lia|].
  eexists (), b'; split; [done|]; eapply HQ; [split; [done|lia]| |].
  - apply has_patch; rewrite ?zlen_le_bytes; lia.
  - pose proof (keeps_patch body (object * 8 + byte) (le_bytes (Z.to_nat width) v) []) as Hk.
    rewrite app_nil_r, zlen_le_bytes, Z2Nat.id in Hk by lia; apply Hk; lia.
Qed.

(** A blob pointer and its bytes, as [cf_cp_blob] writes them, read back. *)
Definition blob_len (l : list Z) (text : bool) : Z := zlen l + (if text then 1 else 0).
Definition blob_words (l : list Z) (text : bool) : list Z := l ++ zeros (8 * ceil8 (blob_len l text) - zlen l).
Definition blob_ptr (at_ slot : Z) (l : list Z) (text : bool) : list Z :=
  le_bytes 8 (list_word at_ slot 2 (blob_len l text)).

Lemma blob_len_bounds l text : zlen l <= blob_len l text <= zlen l + 1 /\ 0 <= blob_len l text.
Proof. unfold blob_len; pose proof (zlen_nonneg l); destruct text; lia. Qed.

Lemma zlen_blob_words l text : zlen (blob_words l text) = 8 * ceil8 (blob_len l text).
Proof.
  pose proof (blob_len_bounds l text); unfold blob_words, zeros, ceil8 in *.
  rewrite zlen_app, zlen_replicate; zdm.
Qed.

Lemma zlen_blob_ptr at_ slot l text : zlen (blob_ptr at_ slot l text) = 8.
Proof. unfold blob_ptr; by rewrite zlen_le_bytes. Qed.

Lemma read_blob n body slot at_ l text depth r Q :
  reading [body] n r -> has body (slot * 8) (blob_ptr at_ slot l text) ->
  has body (at_ * 8) (blob_words l text) -> slot + 1 <= at_ ->
  depth <= CF_CAPNP_DEPTH_MAX -> 1 + Z.max 1 (ceil8 (blob_len l text)) <= n ->
  (forall b r', reading [body] (n - 1 - Z.max 1 (ceil8 (blob_len l text))) r' -> denotes b l -> Q b r') ->
  wp (follow 0 slot depth) (λ v, wp (cf_cp_data v text) Q) r.
Proof.
  intros Hr (Hs0 & Hs1 & Hslot) Hdata Hat Hd Hn HQ; pose proof Hr as (Hrk & _).
  assert (zlen body <= 16384) as Hmax.
  { destruct Hrk as (_ & _ & _ & Hss & _); by destruct (Hss 0%nat body eq_refl) as (_ & _ & _ & Hm & _). }
  pose proof Hdata as (Hd0 & Hd1 & _); rewrite zlen_blob_words in Hd1.
  pose proof (blob_len_bounds l text) as [Hlen Hlen0]; unfold blob_ptr in Hslot; rewrite zlen_le_bytes in Hslot.
  set (len := blob_len l text) in *; unfold ceil8 in *.
  assert ((len * 8 + 63) / 64 = (len + 7) / 8) as Hw by zdm.
  apply (follow_list n body slot at_ 2 len 8); try done; try lia; rewrite ?Hw; try done; try zdm.
  intros r' Hr'.
  assert (has body (at_ * 8) l) as (_ & _ & Hl).
  { apply (has_sub _ _ _ [] l (zeros (8 * ceil8 len - zlen l)) _ Hdata); [done|]; rewrite zlen_nil; lia. }
  eapply read_data; try done; [lia|zdm| |intros b Hb; by apply HQ].
  intros ->; assert (has body (at_ * 8 + zlen l) [0]) as (_ & _ & H0); [|done].
  apply (has_sub _ _ _ l [0] (zeros (8 * ceil8 len - zlen l - 1)) _ Hdata); [|done].
  unfold blob_words; f_equal; unfold zeros; fold len; unfold ceil8.
  replace (Z.to_nat (8 * ((len + 7) / 8) - zlen l)) with (S (Z.to_nat (8 * ((len + 7) / 8) - zlen l - 1)))
    by (unfold len, blob_len in *; zdm); done.
Qed.

Lemma bwp_blob cap size body w slot value l text b Q :
  built cap size body w b -> denotes value l -> 0 <= slot < w ->
  w + ceil8 (blob_len l text) <= (cap - 8) / 8 ->
  (forall b' body', built cap size body' (w + ceil8 (blob_len l text)) b' ->
     has body' (slot * 8) (blob_ptr w slot l text) -> has body' (w * 8) (blob_words l text) ->
     keeps body body' (slot * 8) 8 -> Q () b') ->
  bwp (cf_cp_blob slot value text) Q b.
Proof.
  intros Hb Hv Hs Hfit HQ; pose proof (built_len _ _ _ _ _ Hb) as Hlen; destruct Hb as (Hr & <- & H1).
  destruct (blob_spec cap size b body slot value l text Hr Hv Hs Hfit) as (b' & Hb' & Hr' & Hw').
  fold (blob_len l text) in Hr', Hw'.
  assert (0 <= ceil8 (blob_len l text)) by (pose proof (blob_len_bounds l text); unfold ceil8; zdm).
  set (w := list_word _ _ _ _) in *.
  assert (zlen (patch body (slot * 8) (le_bytes 8 w)) = b_words b * 8) as Hp by (rewrite zlen_patch; lia).
  eexists (), b'; split; [done|]; eapply HQ; [split; [done|lia]| | |].
  - change (blob_ptr (b_words b) slot l text) with (le_bytes 8 w).
    apply has_app, has_patch; rewrite ?zlen_le_bytes; lia.
  - pose proof (has_intro _ (blob_words l text) [] _ (eq_sym Hp)) as Hz; by rewrite app_nil_r in Hz.
  - pose proof (keeps_patch body (slot * 8) (le_bytes 8 w) (blob_words l text)) as Hk.
    rewrite zlen_le_bytes in Hk; apply Hk; lia.
Qed.

(** *** Navigating a finished body *)

(** A struct value of a single-segment message. *)
Definition svalue (at_ dw pc depth : Z) : cf_cp_value := CpValue CF_CP_STRUCT 0 at_ 0 0 dw pc 0 depth.

Definition struct_ptr (at_ slot dw pc : Z) : list Z := le_bytes 8 (struct_word at_ slot dw pc).

Lemma reading_len n body r : reading [body] n r -> zlen body <= 16384.
Proof.
  intros ((_ & _ & _ & Hss & _) & _); by destruct (Hss 0%nat body eq_refl) as (_ & _ & _ & Hm & _).
Qed.

Lemma wp_root_struct n body at_ dw pc r Q :
  reading [body] n r -> has body 0 (struct_ptr at_ 0 dw pc) -> u16_ok dw -> u16_ok pc -> 1 <= at_ ->
  8 * (at_ + (dw + pc)) <= zlen body -> 0 < dw + pc -> 1 + (dw + pc) <= n ->
  (forall r', reading [body] (n - 1 - (dw + pc)) r' -> Q (svalue at_ dw pc 1) r') ->
  wp cf_cp_root Q r.
Proof.
  intros Hr (_ & _ & Hs) Hdw Hpc Hat Hl Hpos Hn HQ; unfold struct_ptr in Hs; rewrite zlen_le_bytes in Hs.
  by apply (follow_struct n body 0 at_ dw pc); try done; zdm.
Qed.

Lemma wp_field_struct n body at_ dw pc depth index slot at2 dw2 pc2 r Q :
  reading [body] n r -> has body (slot * 8) (struct_ptr at2 slot dw2 pc2) -> slot = at_ + dw + index ->
  0 <= at_ -> 0 <= dw -> 0 <= index < pc -> 0 <= depth < CF_CAPNP_DEPTH_MAX ->
  u16_ok dw2 -> u16_ok pc2 -> slot + 1 <= at2 -> 8 * (at2 + (dw2 + pc2)) <= zlen body -> 0 < dw2 + pc2 ->
  1 + (dw2 + pc2) <= n ->
  (forall r', reading [body] (n - 1 - (dw2 + pc2)) r' -> Q (svalue at2 dw2 pc2 (depth + 1)) r') ->
  wp (cf_cp_field (svalue at_ dw pc depth) index) Q r.
Proof.
  intros Hr (H0 & H1 & Hs) -> Hat Hdw Hi Hd Hdw2 Hpc2 Hsl Hl Hpos Hn HQ; pose proof (reading_len _ _ _ Hr).
  unfold struct_ptr in *; rewrite zlen_le_bytes in *; unfold CF_CAPNP_DEPTH_MAX in Hd.
  apply (read_field n body); try done; [lia|].
  by apply (follow_struct n body _ at2 dw2 pc2); try done; unfold CF_CAPNP_DEPTH_MAX; zdm.
Qed.

(** The bytes of a blob field. *)
Definition field_data (v : cf_cp_value) (index : Z) (text : bool) : RM cf_bytes :=
  x ← cf_cp_field v index; cf_cp_data x text.

Lemma wp_field_data n body at_ dw pc depth index slot at2 l text r Q :
  reading [body] n r -> has body (slot * 8) (blob_ptr at2 slot l text) ->
  has body (at2 * 8) (blob_words l text) -> slot = at_ + dw + index ->
  0 <= at_ -> 0 <= dw -> 0 <= index < pc -> 0 <= depth < CF_CAPNP_DEPTH_MAX -> slot + 1 <= at2 ->
  1 + Z.max 1 (ceil8 (blob_len l text)) <= n ->
  (forall b r', reading [body] (n - 1 - Z.max 1 (ceil8 (blob_len l text))) r' -> denotes b l -> Q b r') ->
  wp (field_data (svalue at_ dw pc depth) index text) Q r.
Proof.
  intros Hr Hs Hdata -> Hat Hdw Hi Hd Hsl Hn HQ; pose proof (reading_len _ _ _ Hr).
  pose proof Hs as (H0 & H1 & _); unfold blob_ptr in H1; rewrite zlen_le_bytes in H1.
  apply wp_bind, (read_field n body); try done; [lia|].
  unfold CF_CAPNP_DEPTH_MAX in Hd; by apply (read_blob n body _ at2 l text); try done; unfold CF_CAPNP_DEPTH_MAX; lia.
Qed.

Lemma wp_uint_has n body at_ dw pc depth byte width k v o r Q :
  reading [body] n r -> has body o (le_bytes k v) -> o = at_ * 8 + byte -> Z.to_nat width = k ->
  0 <= at_ -> u16_ok dw -> 8 * (at_ + dw) <= zlen body -> 0 <= byte -> word_width width = true ->
  byte + width <= dw * 8 -> 1 <= n -> 0 <= v < 256 ^ width ->
  (forall r', reading [body] (n - 1) r' -> Q v r') ->
  wp (cf_cp_uint (svalue at_ dw pc depth) byte width) Q r.
Proof.
  intros Hr (H0 & H1 & Hs) -> <- Hat Hdw Hl Hb Hw Hbw Hn Hv HQ.
  assert (0 < width <= 8) by (unfold word_width in Hw; lia).
  rewrite zlen_le_bytes, Z2Nat.id in Hs by lia.
  eapply (read_uint n body at_ dw pc depth byte width); try done; [zdm|].
  intros r' Hr'; rewrite Hs, le_val_bytes by (by rewrite Z2Nat.id by lia); by apply HQ.
Qed.

(** The [index]-th element of a list of pointers to blobs. *)
Definition element_data (v : cf_cp_value) (index : Z) (text : bool) : RM cf_bytes :=
  x ← cf_cp_at v index; cf_cp_data x text.

Definition lvalue (at_ count size depth : Z) : cf_cp_value := CpValue CF_CP_LIST 0 at_ count 0 0 0 size depth.

Lemma wp_field_list n body at_ dw pc depth index slot at2 count r Q :
  reading [body] n r -> has body (slot * 8) (le_bytes 8 (list_word at2 slot 6 count)) -> slot = at_ + dw + index ->
  0 <= at_ -> 0 <= dw -> 0 <= index < pc -> 0 <= depth < CF_CAPNP_DEPTH_MAX -> slot + 1 <= at2 ->
  0 < count -> 8 * (at2 + count) <= zlen body -> 1 + count <= n ->
  (forall r', reading [body] (n - 1 - count) r' -> Q (lvalue at2 count 6 (depth + 1)) r') ->
  wp (cf_cp_field (svalue at_ dw pc depth) index) Q r.
Proof.
  intros Hr (H0 & H1 & Hs) -> Hat Hdw Hi Hd Hsl Hc Hl Hn HQ; pose proof (reading_len _ _ _ Hr).
  rewrite zlen_le_bytes in *; unfold CF_CAPNP_DEPTH_MAX in Hd; apply (read_field n body); try done; [lia|].
  assert ((count * 64 + 63) / 64 = count) as Hw by zdm.
  apply (follow_list n body _ at2 6 count 64); try done; rewrite ?Hw; unfold CF_CAPNP_DEPTH_MAX; try lia; [zdm|].
  intros r' Hr'; apply HQ; by replace (Z.max 1 count) with count in Hr' by lia.
Qed.

Lemma wp_element_data n body at_ count depth index slot at2 l text r Q :
  reading [body] n r -> has body (slot * 8) (blob_ptr at2 slot l text) ->
  has body (at2 * 8) (blob_words l text) -> slot = at_ + index ->
  0 <= at_ -> 0 <= index < count -> 0 <= depth < CF_CAPNP_DEPTH_MAX -> slot + 1 <= at2 ->
  1 + Z.max 1 (ceil8 (blob_len l text)) <= n ->
  (forall b r', reading [body] (n - 1 - Z.max 1 (ceil8 (blob_len l text))) r' -> denotes b l -> Q b r') ->
  wp (element_data (lvalue at_ count 6 depth) index text) Q r.
Proof.
  intros Hr Hs Hdata -> Hat Hi Hd Hsl Hn HQ; pose proof (reading_len _ _ _ Hr); pose proof Hr as (_ & He & _).
  pose proof Hs as (H0 & H1 & _); unfold blob_ptr in H1; rewrite zlen_le_bytes in H1.
  unfold CF_CAPNP_DEPTH_MAX in Hd.
  apply wp_bind, wp_bind, wp_gets; rewrite He; change (is_ok CF_OK) with true; cbn [negb lvalue v_kind v_count].
  rewrite bool_decide_eq_true_2 by done; cbn [negb orb]; replace (count <=? index) with false by lia.
  cbn [lvalue v_element_size v_segment v_word v_depth Z.eqb Pos.eqb]; rewrite (wrap_small 32), (wrap_small 8) by lia.
  by apply (read_blob n body _ at2 l text); try done; unfold CF_CAPNP_DEPTH_MAX; lia.
Qed.

(** ** Properties *)

(** What every call of the reader promises: the budget does not rise and stays
    within its bounds; and after an error it gives nothing and changes nothing,
    so that the error stays. *)
Definition call_post {A} (nothing : A) (r : cf_cp_reader) (x : A) (r' : cf_cp_reader) : Prop :=
  0 <= r_budget r' <= r_budget r /\ (r_error r <> CF_OK -> x = nothing /\ r' = r).

(** A call that gives an object or a capability is paid for, and leaves no error. *)
Definition object_post (r : cf_cp_reader) (v : cf_cp_value) (r' : cf_cp_reader) : Prop :=
  call_post null_value r v r' /\ (v_kind v <> CF_CP_NULL -> r_error r' = CF_OK /\ r_budget r' < r_budget r).

Lemma op_object ss r v r' : op_post ss r v r' -> object_post r v r'.
Proof. intros ((_ & _ & _ & _ & ?) & Hb & _ & Hk & He); split; [split; [lia|exact He]|exact Hk]. Qed.

Lemma wp_object {m : RM cf_cp_value} ss r : wp m (op_post ss r) r -> exists v r', m r = Some (v, r') /\ object_post r v r'.
Proof. intros (v & r' & H & Hp); exists v, r'; split; [done|by eapply op_object]. Qed.

(** C16. The reader is safe on hostile input: whatever the frame, opening it
    returns; and from any state reached by any sequence of calls on values the
    interface itself handed out, every further call returns, every value
    designates an object inside one segment of the frame at depth at most 32,
    every byte view is a part of the frame, and an error is kept and makes every
    later call return nothing.  Each object that is handed out lowers the budget,
    which no call raises, so that there are never more than
    [CF_CAPNP_TRAVERSAL_WORDS] of them. *)
Theorem reader_safe frame l r0 :
  denotes frame l ->
  (exists rc r, cf_cp_read_init (Some r0) frame = Some (rc, Some r)) /\
  forall r vs, client frame r vs ->
    zlen (live vs) + r_budget r <= CF_CAPNP_TRAVERSAL_WORDS /\
    (exists v r', cf_cp_root r = Some (v, r') /\ object_post r v r') /\
    forall s, s ∈ vs ->
      value_ok (segments_of l) s /\
      (forall i, u16_ok i -> exists v r', cf_cp_field s i r = Some (v, r') /\ object_post r v r') /\
      (forall i, u32_ok i -> exists v r', cf_cp_at s i r = Some (v, r') /\ object_post r v r') /\
      (forall byte width, u16_ok byte -> is_byte width -> exists x r', cf_cp_uint s byte width r = Some (x, r') /\ call_post 0 r x r') /\
      (forall text, exists b r', cf_cp_data s text r = Some (b, r') /\ call_post null_bytes r b r' /\
         (b = null_bytes \/ exists x d y, l = x ++ d ++ y /\ denotes b d)).
Proof.
  intros Hf; split.
  { destruct (read_init_spec frame l r0 Hf) as (rc & r & H & _); by exists rc, r. }
  intros r vs Hc; destruct (client_ok frame l r vs Hf Hc) as (Hr & Hv & Hl).
  split; [done|]; split; [by eapply wp_object, wp_root|]; intros s Hs.
  rewrite Forall_forall in Hv; pose proof (Hv _ Hs) as Hok; pose proof Hok as [Ht _]; split; [done|].
  split; [|split; [|split]].
  - intros i _; by eapply wp_object, wp_field.
  - intros i [Hi _]; by eapply wp_object, wp_at.
  - intros byte width Hby Hw; destruct (wp_uint _ s byte width r Hr Ht Hby Hw) as (x & r' & H & (_ & _ & _ & _ & ?) & Hb & Hst & _).
    exists x, r'; split; [done|]; split; [lia|exact Hst].
  - intros text; destruct (wp_data _ s text r Hr Ht) as (b & r' & H & (_ & _ & _ & _ & ?) & Hb & Hst & Hb').
    exists b, r'; split; [done|]; split; [split; [lia|exact Hst]|]; destruct Hb' as [->|(sg & x & d & y & Hsg & -> & _ & Hd & _)]; [by left|right].
    apply segment_infix in Hsg as (x0 & y0 & ->); exists (x0 ++ x), d, (y ++ y0); by rewrite <- !app_assoc.
Qed.

Definition far_frame : list Z :=
  le_bytes 4 1 ++ le_bytes 4 1 ++ le_bytes 4 2 ++ le_bytes 4 0 ++
  le_bytes 8 (4294967296 + 2) ++ le_bytes 8 4294967296 ++ le_bytes 8 42.

Lemma reader_safe_witness :
  exists r v r', client (view far_frame) r' [v] /\ cf_cp_root r = Some (v, r') /\
    exists x r'', cf_cp_uint v 0 8 r' = Some (x, r'') /\ x = 42.
Proof.
  assert (denotes (view far_frame) far_frame) as Hf by (apply denotes_view; bytes_by_compute).
  destruct (reader_safe (view far_frame) far_frame (CpReader [] 0 0 CF_OK) Hf) as [(rc & r & Hi) H].
  assert (rc = CF_OK) as -> by (vm_compute in Hi; by injection Hi as <- _).
  destruct (H r [] (client_open _ _ _ Hi)) as (_ & (v & r' & Hv & _) & _).
  pose proof (client_root _ _ _ _ _ (client_open _ _ _ Hi) Hv) as Hc.
  destruct (H r' [v] Hc) as (_ & _ & Hs); destruct (Hs v ltac:(by left)) as (_ & _ & _ & Hu & _).
  destruct (Hu 0 8 ltac:(done) ltac:(done)) as (x & r'' & Hx & _).
  exists r, v, r'; split; [done|]; split; [done|]; exists x, r''; split; [done|].
  vm_compute in Hi; injection Hi as <-; vm_compute in Hv; injection Hv as <- <-.
  vm_compute in Hx; by injection Hx as <- _.
Defined.

(** C33. The builder is safe for any sequence of calls with any arguments: every
    call returns and writes only inside the caller's buffer, whose size never
    changes; [cf_cp_build_end] then either reports the first error and no
    bytes, or yields a message within the capacity that is exactly a
    one-segment frame and that the reader opens. *)
Theorem builder_safe b0 m cap ops w r0 :
  16 <= cap <= CF_CAPNP_MESSAGE_MAX -> cap <= zlen m -> Forall op_typed ops ->
  exists b b' rc out n,
    cf_cp_build_init (Some b0) (Some m) cap = Some (CF_OK, Some b) /\
    run_ops ops b = Some ((), b') /\
    (exists b2, cf_cp_build_end (Some b') (Some w) = Some (rc, Some b2, Some n) /\ b_buffer b2 = Some out) /\
    zlen out = zlen m /\ rc = b_error b' /\
    (rc <> CF_OK -> n = 0) /\
    (rc = CF_OK -> n <= cap /\ exists body rest r, out = frame_of [body] ++ rest /\ n = zlen (frame_of [body]) /\
       cf_cp_read_init (Some r0) (Bytes (Some out) n) = Some (CF_OK, Some r)).
Proof.
  intros Hc Hm Hops; destruct (build_init_spec b0 m cap Hc Hm) as (b & Hi & Hb & Hw).
  destruct (bsafe_ops cap (zlen m) ops Hops b) as ([] & b' & Hrun & Hok & _); [left; eexists; split; [done|lia]|].
  destruct Hok as [(body & Hr & H1)|[(out & Ho & Hz) He]].
  - destruct (build_end_spec cap (zlen m) b' body w Hr H1) as (b2 & out & rest & He & Hb2 & -> & Hz & Hn).
    pose proof Hr as (_ & Hby & _ & _ & _ & _ & _ & Her); pose proof (body_segs _ _ _ _ Hr H1) as Hs.
    exists b, b', CF_OK, (frame_of [body] ++ rest), (zlen (frame_of [body])); split_and!; try done.
    + by exists b2.
    + intros _; split; [done|].
      destruct (read_message (Bytes (Some (frame_of [body] ++ rest)) (zlen (frame_of [body]))) body r0 Hs)
        as (r & Hr' & _); [|by exists body, rest, r].
      split_and!; [|done|by exists rest]; apply frame_of_bytes; apply Hs.
  - exists b, b', (b_error b'), out, 0; split_and!; try done; try by intros.
    exists b'; split; [|done]; unfold cf_cp_build_end; by rewrite (proj2 (is_ok_false _) He).
Qed.

Lemma builder_safe_witness :
  exists b b' n,
    cf_cp_build_init (Some (CpBuilder None 0 0 CF_OK)) (Some (replicate 32 7)) 32 = Some (CF_OK, Some b) /\
    run_ops [BStruct 0 1 1; BBlob 9 (view []) false; BUint 4294967295 3 8 1] b = Some ((), b') /\
    n = 0 /\ b_error b' = CF_ERR_ARGUMENT.
Proof.
  destruct (builder_safe (CpBuilder None 0 0 CF_OK) (replicate 32 7) 32
    [BStruct 0 1 1; BBlob 9 (view []) false; BUint 4294967295 3 8 1] 5 (CpReader [] 0 0 CF_OK))
    as (b & b' & rc & out & n & Hi & Hrun & _ & _ & Hrc & Hn & _); [done|done| |].
  - constructor; [done|constructor; [|constructor; [done|constructor]]].
    split; [done|exists []; apply denotes_view; constructor].
  - exists b, b', n; split; [exact Hi|]; split; [exact Hrun|].
    vm_compute in Hi; injection Hi as <-; vm_compute in Hrun; injection Hrun as <-.
    split; [|reflexivity]; apply Hn; rewrite Hrc; done.
Defined.

(** What the builder links, the reader finds: [cf_cp_struct] and
    [cf_cp_blob] return and, whatever is written later to other words, a reader
    over any later body dereferences the slot to exactly the struct that was
    allocated (zeroed, of the requested shape), respectively to a view of
    exactly the blob's bytes. *)
Theorem builder_links cap size b body slot :
  builder_rep cap size b body -> 0 <= slot < b_words b ->
  (forall dw pc, u16_ok dw -> u16_ok pc -> 0 < dw + pc -> b_words b + (dw + pc) <= (cap - 8) / 8 ->
     exists b' body', cf_cp_struct slot dw pc b = Some (b_words b, b') /\ builder_rep cap size b' body' /\
       has body' (b_words b * 8) (zeros (8 * (dw + pc))) /\
       forall final n r depth, has final (slot * 8) (sub body' (slot * 8) 8) -> zlen body' <= zlen final ->
         reading [final] n r -> depth <= CF_CAPNP_DEPTH_MAX -> 1 + (dw + pc) <= n ->
         exists r', follow 0 slot depth r = Some (CpValue CF_CP_STRUCT 0 (b_words b) 0 0 dw pc 0 depth, r') /\
           reading [final] (n - 1 - (dw + pc)) r') /\
  (forall value l text, denotes value l ->
     let len := zlen l + (if text : bool then 1 else 0) in b_words b + ceil8 len <= (cap - 8) / 8 ->
     exists b' body', cf_cp_blob slot value text b = Some ((), b') /\ builder_rep cap size b' body' /\
       forall final n r depth, has final (slot * 8) (sub body' (slot * 8) 8) ->
         has final (b_words b * 8) (sub body' (b_words b * 8) (8 * ceil8 len)) ->
         reading [final] n r -> depth <= CF_CAPNP_DEPTH_MAX -> 1 + Z.max 1 (ceil8 len) <= n ->
         exists v r1 d r2, follow 0 slot depth r = Some (v, r1) /\
           cf_cp_data v text r1 = Some (d, r2) /\ denotes d l /\
           reading [final] (n - 1 - Z.max 1 (ceil8 len)) r2).
Proof.
  intros Hr Hs; pose proof Hr as (_ & _ & _ & Hcap & _ & Hlen & Hw & _); split.
  - intros dw pc Hdw Hpc Hpos Hfit; destruct (struct_spec cap size b body slot dw pc) as (b' & Hb' & Hr' & Hw');
      try done.
    set (at_ := b_words b) in *; set (w := struct_word at_ slot dw pc) in *.
    assert (zlen (patch body (slot * 8) (le_bytes 8 w)) = at_ * 8) as Hp by (rewrite zlen_patch; lia).
    eexists b', _; split; [done|]; split; [done|]; split.
    { pose proof (has_intro _ (zeros (8 * (dw + pc))) [] _ (eq_sym Hp)) as H; by rewrite app_nil_r in H. }
    intros final n r depth Hslot Hl Hread Hd Hn.
    assert (has (patch body (slot * 8) (le_bytes 8 w) ++ zeros (8 * (dw + pc))) (slot * 8) (le_bytes 8 w)) as (_ & _ & Hsub)
      by (apply has_app, has_patch; rewrite ?zlen_le_bytes; lia).
    rewrite zlen_le_bytes in Hsub; change (Z.of_nat 8) with 8 in Hsub; rewrite Hsub in Hslot.
    destruct Hslot as (_ & _ & Hslot); rewrite zlen_le_bytes in Hslot.
    unfold u16_ok in Hdw, Hpc; rewrite zlen_app, Hp in Hl; unfold zeros in Hl; rewrite zlen_replicate in Hl.
    destruct (follow_struct n final slot at_ dw pc depth r
      (λ v r', v = CpValue CF_CP_STRUCT 0 at_ 0 0 dw pc 0 depth /\ reading [final] (n - 1 - (dw + pc)) r'))
      as (v & r' & Hf & -> & Hr2); try done; try lia; [zdm|by exists r'].
  - intros value l text Hv len Hfit.
    destruct (blob_spec cap size b body slot value l text Hr Hv Hs Hfit) as (b' & Hb' & Hr' & Hw'); fold len in Hr', Hw'.
    set (at_ := b_words b) in *; set (w := list_word at_ slot 2 len) in *.
    assert (zlen (patch body (slot * 8) (le_bytes 8 w)) = at_ * 8) as Hp by (rewrite zlen_patch; lia).
    eexists b', _; split; [done|]; split; [done|].
    intros final n r depth Hslot Hblob Hread Hd Hn.
    assert (has (patch body (slot * 8) (le_bytes 8 w) ++ l ++ zeros (8 * ceil8 len - zlen l)) (slot * 8)
      (le_bytes 8 w)) as (_ & _ & Hsub) by (apply has_app, has_patch; rewrite ?zlen_le_bytes; lia).
    rewrite zlen_le_bytes in Hsub; change (Z.of_nat 8) with 8 in Hsub; rewrite Hsub in Hslot.
    pose proof (has_intro _ (blob_words l text) [] _ (eq_sym Hp)) as (_ & _ & Hb).
    rewrite zlen_blob_words, app_nil_r in Hb; change (blob_len l text) with len in Hb.
    change (l ++ zeros (8 * ceil8 len - zlen l)) with (blob_words l text) in Hblob; rewrite Hb in Hblob.
    destruct (read_blob n final slot at_ l text depth r
      (λ d r', denotes d l /\ reading [final] (n - 1 - Z.max 1 (ceil8 len)) r') Hread Hslot Hblob)
      as (v & r1 & Hf & d & r2 & Hd2 & Hden & Hr2); try done; try lia.
    by exists v, r1, d, r2.
Qed.

Definition sample_builder : cf_cp_builder := CpBuilder (Some (replicate 64 0)) 64 2 CF_OK.

Lemma sample_builder_rep : builder_rep 64 64 sample_builder (zeros 16).
Proof.
  unfold builder_rep, sample_builder; cbn [b_buffer b_capacity b_words b_error]; split_and!; try done.
  - by exists (zeros 8), (zeros 40).
  - bytes_by_compute.
Qed.

Lemma builder_links_witness :
  exists b', cf_cp_blob 1 (view (lit "abc")) true sample_builder = Some ((), b') /\ b_words b' = 3.
Proof.
  destruct (builder_links 64 64 sample_builder (zeros 16) 1 sample_builder_rep ltac:(done)) as [_ H].
  destruct (H (view (lit "abc")) (lit "abc") true) as (b' & body' & Hb & _);
    [apply denotes_view; bytes_by_compute|done|].
  exists b'; split; [exact Hb|]; vm_compute in Hb; by injection Hb as <-.
Defined.
