(* ===== verification/Credentials.v ===== *)
(** Tunnel credentials (src/protocol/cf_credentials.c). *)
From S2P Require Export Base64.

Definition CF_TOKEN_MAX : Z := 1024.
Definition CF_TOKEN_JSON_MAX : Z := 768.
Definition CF_TUNNEL_SECRET_MIN : Z := 32.
Definition CF_TUNNEL_SECRET_MAX : Z := 128.

(** The arrays have their declared lengths: 33, 16 and
    [CF_TUNNEL_SECRET_MAX]. *)
Record cf_credentials := Credentials {
  account_tag : list Z;
  tunnel_id : list Z;
  tunnel_secret : list Z;
  tunnel_secret_len : Z
}.

Definition zero_credentials : cf_credentials :=
  Credentials (replicate 33 0) (replicate 16 0) (replicate 128 0) 0.

Definition hex (c : Z) : Z :=
  if (48 <=? c) && (c <=? 57) then c - 48
  else if (97 <=? c) && (c <=? 102) then c - 97 + 10
  else if (65 <=? c) && (c <=? 70) then c - 65 + 10
  else -1.

(** The bytes of a text of hexadecimal digits, for statements. *)
Fixpoint unhex (s : list Z) : list Z :=
  match s with a :: b :: s' => hex a * 16 + hex b :: unhex s' | _ => [] end.
