(* ===== verification/Rpc.v ===== *)
(** The registration RPC session (src/protocol/cf_rpc.c). *)
From S2P Require Export Capnp Credentials.

Definition CF_RPC_TX_MAX : Z := 1024.
Definition CF_REGISTRATION_INTERFACE : Z := 0xf71695ec7fe85497.
Definition CF_RPC_REMOTE_CONFIG : Z := 1.
Definition CF_RPC_SERIALIZED_HEADERS : Z := 2.

Inductive cf_rpc_state :=
| CF_RPC_IDLE | CF_RPC_BOOTSTRAPPING | CF_RPC_READY | CF_RPC_REGISTERING
| CF_RPC_REGISTERED | CF_RPC_UNREGISTERING | CF_RPC_CLOSED
| CF_RPC_REJECTED | CF_RPC_FAILED.

#[global] Instance cf_rpc_state_eq_dec : EqDecision cf_rpc_state.
Proof. solve_decision. Defined.

Record cf_rpc_options := RpcOptions {
  connector_id : list Z;            (* uint8_t[16] *)
  local_ip : cf_bytes; version : cf_bytes; arch : cf_bytes;
  connection_index : Z; previous_attempts : Z;   (* uint8_t *)
  replace_existing : bool;
  features : Z                      (* unsigned *)
}.

Record cf_rpc := Rpc {
  rpc_state : cf_rpc_state;
  capability : Z;
  have_capability : bool; remotely_managed : bool; should_retry : bool;
  retry_after_ms : Z;
  connection_id : list Z;           (* uint8_t[16] *)
  location : list Z;                (* char[32] *)
  rpc_error : cf_result
}.

Definition zero_rpc : cf_rpc :=
  Rpc CF_RPC_IDLE 0 false false false 0 (replicate 16 0) (replicate 32 0) CF_OK.

Definition set_rpc_state (r : cf_rpc) (s : cf_rpc_state) : cf_rpc :=
  Rpc s (capability r) (have_capability r) (remotely_managed r) (should_retry r)
    (retry_after_ms r) (connection_id r) (location r) (rpc_error r).
Definition set_rpc_error (r : cf_rpc) (e : cf_result) : cf_rpc :=
  Rpc (rpc_state r) (capability r) (have_capability r) (remotely_managed r) (should_retry r)
    (retry_after_ms r) (connection_id r) (location r) e.
Definition set_capability (r : cf_rpc) (c : Z) (have : bool) : cf_rpc :=
  Rpc (rpc_state r) c have (remotely_managed r) (should_retry r)
    (retry_after_ms r) (connection_id r) (location r) (rpc_error r).
Definition set_rejection (r : cf_rpc) (retry : bool) (after : Z) : cf_rpc :=
  Rpc (rpc_state r) (capability r) (have_capability r) (remotely_managed r) retry
    after (connection_id r) (location r) (rpc_error r).
Definition set_managed (r : cf_rpc) (managed : bool) : cf_rpc :=
  Rpc (rpc_state r) (capability r) (have_capability r) managed (should_retry r)
    (retry_after_ms r) (connection_id r) (location r) (rpc_error r).
Definition set_identity (r : cf_rpc) (id loc : list Z) : cf_rpc :=
  Rpc (rpc_state r) (capability r) (have_capability r) (remotely_managed r) (should_retry r)
    (retry_after_ms r) id loc (rpc_error r).

(** ** Messages to the peer *)

Definition message (kind dw pc : Z) : BM Z :=
  root ← cf_cp_struct 0 1 1;
  cf_cp_set_uint root 0 2 kind;;
  cf_cp_struct (root + 1) dw pc.

(** A complete message: [build_init], the calls, [build_end].  [out] starts at
    the pointer handed in; the result is the code, the buffer and [*n]. *)
Definition emit {A} (build : BM A) (out : list Z) (cap n : Z)
    : option (cf_result * list Z * Z) :=
  '(_, b) ← cf_cp_build_init (Some (CpBuilder None 0 0 CF_OK)) (Some out) cap;
  b ← b;
  '(_, b) ← build b;
  '(rc, b, n) ← cf_cp_build_end (Some b) (Some n);
  b ← b; n ← n;
  Some (rc, default out (b_buffer b), n).

(** The test of every entry point; [*n] is zeroed when [n] is not null. *)
Definition output_ok (r : option cf_rpc) (out : option (list Z)) (cap : Z) (n : option Z) : bool :=
  negb (bool_decide (r = None)) && negb (bool_decide (out = None)) && negb (bool_decide (n = None))
  && (CF_RPC_TX_MAX <=? cap).

(** The loop of [ascii]; [k] is [b.len - i]. *)
Fixpoint ascii_loop (b : cf_bytes) (k : nat) (i : Z) : option bool :=
  match k with
  | O => Some true
  | S k' => c ← bget b i; if (c <? 32) || (126 <? c) then Some false else ascii_loop b k' (i + 1)
  end.

Definition ascii (b : cf_bytes) (max : Z) : option bool :=
  if bool_decide (ptr b = None) || (len b =? 0) || (max <? len b) then Some false
  else ascii_loop b (Z.to_nat (len b)) 0.

Definition finish (id : Z) (release : bool) (out : list Z) (cap n : Z) : option (cf_result * list Z * Z) :=
  emit (s ← message 4 1 0;
        cf_cp_set_uint s 0 4 id;;
        cf_cp_set_uint s 4 1 (if release then 0 else 1)) out cap n.

Definition release_cap (r : cf_rpc) (out : list Z) (cap n : Z) : option (cf_result * list Z * Z) :=
  emit (s ← message 6 1 0;
        cf_cp_set_uint s 0 4 (capability r);;
        cf_cp_set_uint s 4 4 1) out cap n.

Definition reason : list Z := lit "Unsupported or invalid registration RPC".

(** The code, the session, the output and [*n]. *)
Definition rpc_result : Type := option (cf_result * cf_rpc * list Z * Z).

Definition fail (r : cf_rpc) (error : cf_result) (abort_peer : bool) (out : list Z) : rpc_result :=
  let r := set_rpc_state (set_rpc_error r error) CF_RPC_FAILED in
  if abort_peer then
    '(_, out, n) ← emit (s ← message 1 1 1;
      cf_cp_blob (s + 1) (Bytes (Some (reason ++ [0])) (zlen reason)) true) out CF_RPC_TX_MAX 0;
    Some (error, r, out, n)
  else Some (error, r, out, 0).

Definition cf_rpc_init (r : option cf_rpc) : option cf_rpc := match r with None => None | Some _ => Some zero_rpc end.
(** Erasure leaves the bytes of a zeroed object. *)
Definition cf_rpc_reset (r : option cf_rpc) : option cf_rpc := match r with None => None | Some _ => Some zero_rpc end.

(** The common shape of the entry points: the argument test, then the body on
    the objects. *)
Definition with_output (r : option cf_rpc) (out : option (list Z)) (cap : Z) (n : option Z)
    (body : cf_rpc -> list Z -> rpc_result)
    : option (cf_result * option cf_rpc * option (list Z) * option Z) :=
  if negb (output_ok r out cap n) then Some (CF_ERR_ARGUMENT, r, out, (λ _, 0) <$> n) else
  r ← r; out ← out;
  '(rc, r, out, n) ← body r out;
  Some (rc, Some r, Some out, Some n).

Definition cf_rpc_begin (r : option cf_rpc) (out : option (list Z)) (cap : Z) (n : option Z) :=
  with_output r out cap n (λ r out,
    if negb (bool_decide (rpc_state r = CF_RPC_IDLE)) then Some (CF_ERR_STATE, r, out, 0) else
    '(rc, out, n) ← emit (message 8 1 1) out CF_RPC_TX_MAX 0;
    Some (rc, if is_ok rc then set_rpc_state r CF_RPC_BOOTSTRAPPING else r, out, n)).

Definition call (cap question method : Z) : BM Z :=
  c ← message 2 3 3;
  cf_cp_set_uint c 0 4 question;;
  cf_cp_set_uint c 4 2 method;;
  cf_cp_set_uint c 8 8 CF_REGISTRATION_INTERFACE;;
  target ← cf_cp_struct (c + 3) 1 1;
  cf_cp_set_uint target 0 4 cap;;
  cf_cp_struct (c + 4) 0 2.

(** The loop over the account tag; [k] is [32 - i]. *)
Fixpoint tag_loop (tag : list Z) (k : nat) (i : Z) : option bool :=
  match k with
  | O => Some true
  | S k' =>
      c ← rd tag i;
      if ((48 <=? c) && (c <=? 57)) || ((97 <=? c) && (c <=? 102)) || ((65 <=? c) && (c <=? 70))
      then tag_loop tag k' (i + 1) else Some false
  end.

Definition has_feature (opt : cf_rpc_options) (f : Z) : bool := negb (Z.land (features opt) f =? 0).

(** The calls that build the registration request; C strings carry their NUL. *)
Definition register_message (r : cf_rpc) (cred : cf_credentials) (opt : cf_rpc_options) : BM () :=
  payload ← call (capability r) 1 0;
  params ← cf_cp_struct payload 1 3;
  cf_cp_set_uint params 0 1 (connection_index opt);;
  auth ← cf_cp_struct (params + 1) 0 2;
  cf_cp_blob auth (Bytes (Some (account_tag cred)) 32) true;;
  cf_cp_blob (auth + 1) (Bytes (Some (tunnel_secret cred)) (tunnel_secret_len cred)) false;;
  cf_cp_blob (params + 2) (Bytes (Some (tunnel_id cred)) 16) false;;
  options ← cf_cp_struct (params + 3) 1 2;
  cf_cp_set_uint options 0 1 (if replace_existing opt then 1 else 0);;
  cf_cp_set_uint options 2 1 (previous_attempts opt);;
  client ← cf_cp_struct (options + 1) 0 4;
  cf_cp_blob client (Bytes (Some (connector_id opt)) 16) false;;
  (if negb (features opt =? 0) then
     let count := (if has_feature opt CF_RPC_REMOTE_CONFIG then 1 else 0)
                  + (if has_feature opt CF_RPC_SERIALIZED_HEADERS then 1 else 0) in
     list ← cf_cp_pointer_list (client + 1) count;
     list ← (if has_feature opt CF_RPC_REMOTE_CONFIG then
               cf_cp_blob list (Bytes (Some (lit "allow_remote_config" ++ [0])) 19) true;;
               mret (list + 1)
             else mret list);
     if has_feature opt CF_RPC_SERIALIZED_HEADERS
     then cf_cp_blob list (Bytes (Some (lit "serialized_headers" ++ [0])) 18) true
     else mret ()
   else mret ());;
  cf_cp_blob (client + 2) (version opt) true;;
  cf_cp_blob (client + 3) (arch opt) true;;
  cf_cp_blob (options + 2) (local_ip opt) false.

Definition cf_rpc_register (r : option cf_rpc) (cred : option cf_credentials) (opt : option cf_rpc_options)
    (out : option (list Z)) (cap : Z) (n : option Z) :=
  match cred, opt with
  | Some cred, Some opt =>
    with_output r out cap n (λ r out,
      if negb (bool_decide (rpc_state r = CF_RPC_READY)) || negb (have_capability r)
      then Some (CF_ERR_STATE, r, out, 0) else
      v ← ascii (version opt) 63; a ← ascii (arch opt) 63; nul ← rd (account_tag cred) 32;
      if negb v || negb a || bool_decide (ptr (local_ip opt) = None)
         || (negb (len (local_ip opt) =? 4) && negb (len (local_ip opt) =? 16)) || negb (nul =? 0)
         || (tunnel_secret_len cred <? CF_TUNNEL_SECRET_MIN) || (CF_TUNNEL_SECRET_MAX <? tunnel_secret_len cred)
         || negb (Z.land (features opt) (u32 (Z.lnot (Z.lor CF_RPC_REMOTE_CONFIG CF_RPC_SERIALIZED_HEADERS))) =? 0)
      then Some (CF_ERR_ARGUMENT, r, out, 0) else
      tag ← tag_loop (account_tag cred) 32 0;
      if negb tag then Some (CF_ERR_ARGUMENT, r, out, 0) else
      '(rc, out, n) ← emit (register_message r cred opt) out CF_RPC_TX_MAX 0;
      if is_ok rc then Some (rc, set_rpc_state r CF_RPC_REGISTERING, out, n) else
      out ← cf_secure_zero out CF_RPC_TX_MAX;
      Some (rc, r, out, n))
  | _, _ => Some (CF_ERR_ARGUMENT, r, out, (λ _, 0) <$> n)
  end.

Definition cf_rpc_unregister (r : option cf_rpc) (out : option (list Z)) (cap : Z) (n : option Z) :=
  with_output r out cap n (λ r out,
    if negb (bool_decide (rpc_state r = CF_RPC_REGISTERED)) || negb (have_capability r)
    then Some (CF_ERR_STATE, r, out, 0) else
    '(rc, out, n) ← emit (payload ← call (capability r) 2 1; cf_cp_struct payload 0 0) out CF_RPC_TX_MAX 0;
    Some (rc, if is_ok rc then set_rpc_state r CF_RPC_UNREGISTERING else r, out, n)).

(** ** Answers from the peer *)

Definition required_struct (v : cf_cp_value) : RM cf_cp_value :=
  e ← get_error;
  if negb (bool_decide (v_kind v = CF_CP_STRUCT)) && is_ok e
  then (raise CF_ERR_FORMAT;; mret v) else mret v.

Definition bootstrap_result (r : cf_rpc) (payload : cf_cp_value) : RM (cf_result * cf_rpc) :=
  content ← cf_cp_field payload 0;
  caps ← cf_cp_field payload 1;
  if negb (bool_decide (v_kind content = CF_CP_CAP)) || negb (bool_decide (v_kind caps = CF_CP_LIST))
     || negb (v_element_size caps =? 7) || negb (v_count caps =? 1) || negb (v_cap content =? 0)
  then mret (CF_ERR_UNSUPPORTED, r) else
  desc ← cf_cp_at caps 0;
  kind ← cf_cp_uint desc 0 2;
  if negb (kind =? 1) then mret (CF_ERR_UNSUPPORTED, r) else
  cap ← cf_cp_uint desc 4 4;
  let r := set_capability r (u32 cap) (have_capability r) in
  e ← get_error;
  if negb (is_ok e) then mret (e, r) else
  mret (CF_OK, set_rpc_state (set_capability r (capability r) true) CF_RPC_READY).

(** [r->location[i] = ...]: the whole array after the two stores. *)
Definition store_location (loc text : list Z) : option (list Z) :=
  loc ← blit loc 0 text; wr loc (zlen text) 0.

Definition registration_result (r : cf_rpc) (payload : cf_cp_value) : RM (cf_result * cf_rpc) :=
  results ← cf_cp_field payload 0; results ← required_struct results;
  response ← cf_cp_field results 0; response ← required_struct response;
  kind ← cf_cp_uint response 0 2;
  details ← cf_cp_field response 0; details ← required_struct details;
  e ← get_error;
  if negb (is_ok e) then mret (e, r) else
  if kind =? 0 then
    ns ← cf_cp_uint details 0 8;
    cause ← cf_cp_field details 0;
    cf_cp_data cause true;;
    retry ← cf_cp_uint details 8 1;
    let after := if negb (Z.shiftr ns 63 =? 0) then 0
                 else u64 (ns / 1000000 + (if ns mod 1000000 =? 0 then 0 else 1)) in
    let r := set_rejection r (negb (Z.land retry 1 =? 0)) after in
    e ← get_error;
    if negb (is_ok e) then mret (e, r) else
    mret (CF_OK, set_rpc_state r CF_RPC_REJECTED)
  else if negb (kind =? 1) then mret (CF_ERR_UNSUPPORTED, r) else
  idv ← cf_cp_field details 0; id ← cf_cp_data idv false;
  locv ← cf_cp_field details 1; loc ← cf_cp_data locv true;
  managed ← cf_cp_uint details 0 1;
  let r := set_managed r (negb (Z.land managed 1 =? 0)) in
  e ← get_error;
  if negb (is_ok e) then mret (e, r) else
  printable ← lift (ascii loc 31);
  if negb (len id =? 16) || negb printable then mret (CF_ERR_FORMAT, r) else
  if negb (remotely_managed r) then mret (CF_ERR_UNSUPPORTED, r) else
  idp ← lift (ptr id); idb ← lift (slice idp 0 16);
  locp ← lift (ptr loc); locb ← lift (slice locp 0 (len loc));
  ids ← lift (blit (connection_id r) 0 idb);
  locs ← lift (store_location (location r) locb);
  mret (CF_OK, set_rpc_state (set_identity r ids locs) CF_RPC_REGISTERED).

(** What an answer asks for. *)
Inductive verdict :=
| VFail (error : cf_result) (abort_peer : bool) (r : cf_rpc)
| VException (answer : Z) (error : cf_result)
| VAnswer (answer : Z) (boot : bool) (r : cf_rpc).

Definition unregister_result (r : cf_rpc) (payload : cf_cp_value) : RM (cf_result * cf_rpc) :=
  content ← cf_cp_field payload 0;
  mret (if bool_decide (v_kind content = CF_CP_NULL) || bool_decide (v_kind content = CF_CP_STRUCT)
        then CF_OK else CF_ERR_FORMAT, set_rpc_state r CF_RPC_CLOSED).

(** The dispatch on the session state once the payload is known. *)
Definition payload_result (r : cf_rpc) (boot : bool) (expected : Z) (payload : cf_cp_value)
    : RM (cf_result * cf_rpc) :=
  if boot then bootstrap_result r payload else
  caps ← cf_cp_field payload 1;
  if negb (bool_decide (v_kind caps = CF_CP_NULL)) &&
     (negb (bool_decide (v_kind caps = CF_CP_LIST)) || negb (v_element_size caps =? 7)
      || negb (v_count caps =? 0))
  then mret (CF_ERR_UNSUPPORTED, r)
  else if expected =? 1 then registration_result r payload
  else unregister_result r payload.

(** The part of [cf_rpc_receive] that reads the message. *)
Definition read_answer (r : cf_rpc) : RM verdict :=
  root ← cf_cp_root; root ← required_struct root;
  kind ← cf_cp_uint root 0 2;
  ret ← cf_cp_field root 0; ret ← required_struct ret;
  e ← get_error;
  if negb (is_ok e) then mret (VFail e true r) else
  if kind =? 1 then
    why ← cf_cp_field ret 0; cf_cp_data why true;;
    e ← get_error;
    mret (VFail (if is_ok e then CF_ERR_STATE else e) false r)
  else if negb (kind =? 3) then mret (VFail CF_ERR_UNSUPPORTED true r) else
  let boot := bool_decide (rpc_state r = CF_RPC_BOOTSTRAPPING) in
  if negb boot && negb (bool_decide (rpc_state r = CF_RPC_REGISTERING))
     && negb (bool_decide (rpc_state r = CF_RPC_UNREGISTERING))
  then mret (VFail CF_ERR_STATE true r) else
  let expected := if boot then 0 else if bool_decide (rpc_state r = CF_RPC_REGISTERING) then 1 else 2 in
  answer ← cf_cp_uint ret 0 4;
  result_kind ← cf_cp_uint ret 6 2;
  e ← get_error;
  if negb (is_ok e) then mret (VFail e true r) else
  if negb (u32 answer =? expected) then mret (VFail CF_ERR_STATE true r) else
  if result_kind =? 1 then
    ex ← cf_cp_field ret 0; ex ← required_struct ex;
    why ← cf_cp_field ex 0; cf_cp_data why true;;
    e ← get_error;
    mret (VException (u32 answer) (if is_ok e then CF_ERR_STATE else e))
  else if negb (result_kind =? 0) then mret (VFail CF_ERR_UNSUPPORTED true r) else
  payload ← cf_cp_field ret 0; payload ← required_struct payload;
  '(rc, r) ← payload_result r boot expected payload;
  e ← get_error;
  let rc := if negb (is_ok e) then e else rc in
  mret (if negb (is_ok rc) then VFail rc true r else VAnswer (u32 answer) boot r).

Definition cf_rpc_receive (r : option cf_rpc) (frame : cf_bytes) (out : option (list Z)) (cap : Z) (n : option Z) :=
  with_output r out cap n (λ r out,
    if bool_decide (rpc_state r = CF_RPC_IDLE) || bool_decide (rpc_state r = CF_RPC_FAILED)
       || bool_decide (rpc_state r = CF_RPC_CLOSED) || bool_decide (rpc_state r = CF_RPC_REJECTED)
    then Some (CF_ERR_STATE, r, out, 0) else
    '(rc, rdr) ← cf_cp_read_init (Some (CpReader no_segments 0 0 CF_OK)) frame;
    rdr ← rdr;
    if negb (is_ok rc) then fail r rc true out else
    '(v, _) ← read_answer r rdr;
    match v with
    | VFail error abort_peer r => fail r error abort_peer out
    | VException answer error =>
        '(_, out, n) ← finish answer true out CF_RPC_TX_MAX 0;
        Some (error, set_rpc_error (set_rpc_state r CF_RPC_FAILED) error, out, n)
    | VAnswer answer boot r =>
        '(rc, out, n) ← finish answer (negb boot) out CF_RPC_TX_MAX 0;
        if is_ok rc && bool_decide (rpc_state r = CF_RPC_CLOSED) then
          '(rc, tail, extra) ← release_cap r (drop (Z.to_nat n) out) (CF_RPC_TX_MAX - n) 0;
          Some (rc, set_capability r (capability r) false, take (Z.to_nat n) out ++ tail, n + extra)
        else Some (rc, r, out, n)
    end).

(** ** The recorded handshake

    The answers of the reference implementation (tests/fixtures/rpc). *)

Definition rpc_bootstrap : list Z := unhex (lit "000000000b000000000000000100010003000000000000000000000002000100000000000000" ++
  lit "0000000000000000000000000000000002000300000000000000010000001700000004000000" ++
  lit "0100010001000000250000000000000000000000").

Definition rpc_success : list Z := unhex (lit "0000000011000000000000000100010003000000000000000000000002000100010000000000" ++
  lit "0000000000000000000000000000000002000400000000000100000000000000000000000000" ++
  lit "0100010001000000000000000000000001000200010000000000000005000000820000000900" ++
  lit "000022000000000102030405060708090a0b0c0d0e0f534f460000000000").

Definition rpc_success_multi : list Z := unhex (lit "0100000001000000110000000000000012000000010000000300000000000000040000000200" ++
  lit "0100f4ffffff0100010001000000000000000000000000000000000000000000020004000000" ++
  lit "0000010000000000000000000000000001000100010000000000000000000000010002000100" ++
  lit "00000000000005000000820000000900000022000000000102030405060708090a0b0c0d0e0f" ++
  lit "534f460000000000").

Definition rpc_retry_multi : list Z := unhex (lit "0100000001000000130000000000000012000000010000000300000000000000040000000200" ++
  lit "0100f4ffffff0100010001000000000000000000000000000000000000000000020004000000" ++
  lit "000001000000000000000000000000000100010000000000000000000000000002000100012f" ++
  lit "6859000000000100000000000000010000000a01000053796e74686574696320726567697374" ++
  lit "726174696f6e2072656a656374696f6e0000000000000000").

Definition rpc_unregister_multi : list Z := unhex (lit "0100000001000000080000000000000012000000010000000300000000000000040000000200" ++
  lit "0100f4ffffff01000100020000000000000000000000000000000000000000000200fcffffff" ++
  lit "000000000000000000000000").

Definition rpc_exception : list Z := unhex (lit "000000000b000000000000000100010003000000000000000000000002000100010000000000" ++
  lit "010000000000000000000000000001000100000000000000000001000000b200000053796e74" ++
  lit "686574696320525043206661696c757265000000").

Definition sample_credentials : cf_credentials :=
  Credentials (lit "0123456789abcdef0123456789abcdef" ++ [0]) (seqZ 0 16)
    (seqZ 0 36 ++ replicate 92 0) 36.

Definition sample_options : cf_rpc_options :=
  RpcOptions (seqZ 0 16) (view [192; 0; 2; 1]) (view (lit "esp-cf-test")) (view (lit "host-test")) 2 3 false 3.

Definition after {A} (x : option (A * option cf_rpc * option (list Z) * option Z)) : option cf_rpc :=
  '(_, r, _, _) ← x; r.

Definition sample_out : list Z := replicate 1024 0.

(** The session after each exchange. *)
Definition sample_begun : option cf_rpc :=
  after (cf_rpc_begin (Some zero_rpc) (Some sample_out) 1024 (Some 0)).
Definition sample_ready : option cf_rpc :=
  after (cf_rpc_receive sample_begun (view rpc_bootstrap) (Some sample_out) 1024 (Some 0)).
Definition sample_registering : option cf_rpc :=
  after (cf_rpc_register sample_ready (Some sample_credentials) (Some sample_options) (Some sample_out) 1024 (Some 0)).
Definition sample_registered : option cf_rpc :=
  after (cf_rpc_receive sample_registering (view rpc_success_multi) (Some sample_out) 1024 (Some 0)).
Definition sample_unregistering : option cf_rpc :=
  after (cf_rpc_unregister sample_registered (Some sample_out) 1024 (Some 0)).
Definition sample_closed : option cf_rpc :=
  after (cf_rpc_receive sample_unregistering (view rpc_unregister_multi) (Some sample_out) 1024 (Some 0)).

Example handshake :
  (rpc_state <$> sample_ready, capability <$> sample_ready, rpc_state <$> sample_registered,
   take 4 ∘ location <$> sample_registered, rpc_state <$> sample_closed, have_capability <$> sample_closed)
  = (Some CF_RPC_READY, Some 37, Some CF_RPC_REGISTERED, Some (lit "SOF" ++ [0]), Some CF_RPC_CLOSED, Some false).
Proof. vm_compute. reflexivity. Qed.

Example retry_answer :
  match after (cf_rpc_receive sample_registering (view rpc_retry_multi) (Some sample_out) 1024 (Some 0)) with
  | Some r => rpc_state r = CF_RPC_REJECTED /\ should_retry r = true /\ retry_after_ms r = 1501
  | None => False
  end.
Proof. vm_compute. split_and!; reflexivity. Qed.

(** ** Building a message *)

Lemma emit_spec {A} (build : BM A) out cap n (Q : list Z -> Prop) :
  16 <= cap <= CF_CAPNP_MESSAGE_MAX -> cap <= zlen out ->
  (forall b, built cap (zlen out) (zeros 8) 1 b ->
     bwp build (λ _ b', exists body w, built cap (zlen out) body w b' /\ Q body) b) ->
  exists body rest, emit build out cap n = Some (CF_OK, frame_of [body] ++ rest, zlen (frame_of [body])) /\
    zlen (frame_of [body] ++ rest) = zlen out /\ zlen (frame_of [body]) <= cap /\
    segs_ok CF_CAPNP_MESSAGE_MAX [body] /\ Q body.
Proof.
  intros Hc Ho Hb; destruct (build_init_spec (CpBuilder None 0 0 CF_OK) out cap Hc Ho) as (b & Hi & Hr & Hw).
  destruct (Hb b) as (x & b' & Hrun & body & w & (Hr' & Hw' & H1) & HQ); [split; [done|split; [done|lia]]|].
  destruct (build_end_spec cap (zlen out) b' body n Hr') as (b2 & m & rest & He & Hm & -> & Hz & Hn); [lia|].
  exists body, rest; unfold emit; rewrite Hi; cbn [mbind option_bind]; rewrite Hrun; cbn [mbind option_bind].
  rewrite He; cbn [mbind option_bind]; rewrite Hm; cbn [default from_option id].
  split_and!; try done; eapply body_segs; [done|lia].
Qed.

(** Lengths of the regions a message is made of. *)
Ltac region_len := rewrite ?zlen_le_bytes, ?zlen_blob_words, ?zlen_blob_ptr; unfold zeros; rewrite ?zlen_replicate.

(** Carry the known regions of the body over a write; drop those it touches. *)
Ltac carry K :=
  lazymatch type of K with
  | keeps ?bd _ _ _ =>
      unfold keeps in K;
      repeat match goal with
      | H : has bd _ _ |- _ =>
          first [ apply K in H; [| solve [region_len; lia] ] | clear H ]
      end
  end; clear K.

Ltac bstep_with tac :=
  let b := fresh "b" in let body := fresh "body" in
  let Hb := fresh "Hb" in let Hp := fresh "Hp" in let Hd := fresh "Hd" in let K := fresh "K" in
  lazymatch goal with
  | H : built _ _ _ _ ?b0 |- bwp (cf_cp_struct _ _ _) _ ?b0 =>
      eapply (bwp_struct _ _ _ _ _ _ _ _ _ H); [done|done|tac|tac|];
      intros b body Hb Hp Hd K; carry K; clear H
  | H : built _ _ _ _ ?b0 |- bwp (cf_cp_pointer_list _ _) _ ?b0 =>
      eapply (bwp_list _ _ _ _ _ _ _ _ H); [done|tac|tac|];
      intros b body Hb Hp K; carry K; clear H
  | H : built _ _ _ _ ?b0 |- bwp (cf_cp_set_uint _ _ _ _) _ ?b0 =>
      eapply (bwp_set_uint _ _ _ _ _ _ _ _ _ _ H); [tac|done|done|tac|];
      intros b body Hb Hp K; carry K; clear H
  | H : built _ _ _ _ ?b0, Hv : denotes ?v ?l |- bwp (cf_cp_blob _ ?v _) _ ?b0 =>
      eapply (bwp_blob _ _ _ _ _ _ _ _ _ _ H Hv); [tac|tac|];
      intros b body Hb Hp Hd K; carry K; clear H
  end.

(** Run the calls of a builder computation one by one. *)
Ltac bsteps tac :=
  repeat lazymatch goal with
  | |- bwp (_ ≫= _) _ _ => apply bwp_bind
  | |- bwp (mret _) _ _ => apply bwp_ret
  | |- bwp _ _ _ => bstep_with tac
  end.

(** Navigate a finished body; [tac] settles positions, sizes and budget. *)
Ltac rstep_with tac :=
  let R := fresh "R" in let r := fresh "r" in let Hd := fresh "Hden" in
  match goal with
  | H : reading [?bd] ?n ?r0, Hp : has ?bd _ (le_bytes 8 (struct_word ?at_ 0 _ _)) |- wp cf_cp_root _ ?r0 =>
      eapply (wp_root_struct n bd at_ _ _ _ _ H Hp); [done|done|tac|tac|tac|tac|]; intros r R; clear H
  | H : reading [?bd] ?n ?r0, Hp : has ?bd (?slot * 8) (le_bytes 8 (struct_word ?a2 ?slot _ _))
    |- wp (cf_cp_field (svalue _ _ _ _) _) _ ?r0 =>
      eapply (wp_field_struct n bd _ _ _ _ _ slot a2 _ _ _ _ H Hp);
      [solve [tac]|tac|tac|tac|tac|done|done|tac|tac|tac|tac|]; intros r R; clear H
  | H : reading [?bd] ?n ?r0, Hp : has ?bd (?slot * 8) (le_bytes 8 (list_word ?a2 ?slot 6 _))
    |- wp (cf_cp_field (svalue _ _ _ _) _) _ ?r0 =>
      eapply (wp_field_list n bd _ _ _ _ _ slot a2 _ _ _ H Hp);
      [solve [tac]|tac|tac|tac|tac|tac|tac|tac|tac|]; intros r R; clear H
  | H : reading [?bd] ?n ?r0, Hp : has ?bd (?slot * 8) (blob_ptr ?a2 ?slot ?l ?t),
      Hw : has ?bd (?a2 * 8) (blob_words ?l ?t)
    |- wp (field_data (svalue _ _ _ _) _ ?t) _ ?r0 =>
      eapply (wp_field_data n bd _ _ _ _ _ slot a2 l t _ _ H Hp Hw);
      [solve [tac]|tac|tac|tac|tac|tac|tac|]; intros ? r R Hd; clear H
  | H : reading [?bd] ?n ?r0, Hp : has ?bd (?slot * 8) (blob_ptr ?a2 ?slot ?l ?t),
      Hw : has ?bd (?a2 * 8) (blob_words ?l ?t)
    |- wp (element_data (lvalue _ _ _ _) _ ?t) _ ?r0 =>
      eapply (wp_element_data n bd _ _ _ _ slot a2 l t _ _ H Hp Hw);
      [solve [tac]|tac|tac|tac|tac|tac|]; intros ? r R Hd; clear H
  | H : reading [?bd] ?n ?r0, Hp : has ?bd ?o (le_bytes ?k ?v)
    |- wp (cf_cp_uint (svalue _ _ _ _) _ _) _ ?r0 =>
      eapply (wp_uint_has n bd _ _ _ _ _ _ k v o _ _ H Hp);
      [solve [tac]|reflexivity|tac|done|tac|tac|reflexivity|tac|tac|tac|]; intros r R; clear H
  end.

Ltac rsteps tac :=
  repeat lazymatch goal with
  | |- wp (_ ≫= _) _ _ => apply wp_bind
  | |- wp (mret _) _ _ => apply wp_ret
  | |- wp _ _ _ => rstep_with tac
  end.

(** ** What the peer reads

    The fields of a call, read back with the reader of [Capnp]. *)

Definition message_kind : RM Z := root ← cf_cp_root; cf_cp_uint root 0 2.

Record request := Request {
  q_kind : Z; q_question : Z; q_method : Z; q_interface : Z; q_target : Z;
  q_index : Z; q_replace : Z; q_attempts : Z;
  q_account : cf_bytes; q_secret : cf_bytes; q_tunnel : cf_bytes;
  q_connector : cf_bytes; q_version : cf_bytes; q_arch : cf_bytes; q_ip : cf_bytes;
  q_features : list cf_bytes
}.

(** The elements of the feature list, in order. *)
Fixpoint read_features (v : cf_cp_value) (k : nat) (i : Z) : RM (list cf_bytes) :=
  match k with
  | O => mret []
  | S k' => b ← element_data v i true; bs ← read_features v k' (i + 1); mret (b :: bs)
  end.

Definition read_request (count : nat) : RM request :=
  root ← cf_cp_root;
  kind ← cf_cp_uint root 0 2;
  c ← cf_cp_field root 0;
  question ← cf_cp_uint c 0 4; method ← cf_cp_uint c 4 2; interface ← cf_cp_uint c 8 8;
  target ← cf_cp_field c 0; cap ← cf_cp_uint target 0 4;
  payload ← cf_cp_field c 1; params ← cf_cp_field payload 0;
  index ← cf_cp_uint params 0 1;
  auth ← cf_cp_field params 0;
  account ← field_data auth 0 true; secret ← field_data auth 1 false;
  tunnel ← field_data params 1 false;
  options ← cf_cp_field params 2;
  replace ← cf_cp_uint options 0 1; attempts ← cf_cp_uint options 2 1;
  client ← cf_cp_field options 0;
  connector ← field_data client 0 false;
  feats ← match count with O => mret [] | S _ => list ← cf_cp_field client 1; read_features list count 0 end;
  version ← field_data client 2 true; arch ← field_data client 3 true;
  ip ← field_data options 1 false;
  mret (Request kind question method interface cap index replace attempts
          account secret tunnel connector version arch ip feats).

(** The features in the order they are sent. *)
Definition feature_names (f : Z) : list (list Z) :=
  (if Z.land f CF_RPC_REMOTE_CONFIG =? 0 then [] else [lit "allow_remote_config"]) ++
  (if Z.land f CF_RPC_SERIALIZED_HEADERS =? 0 then [] else [lit "serialized_headers"]).

(** The arguments of [cf_rpc_register] that pass its validation, with the bytes
    their views denote. *)
Record register_args (cred : cf_credentials) (opt : cf_rpc_options) (tag secret tid ver ar ip con : list Z)
    : Prop := {
  ra_tag : account_tag cred = tag ++ [0] /\ zlen tag = 32 /\ bytes_ok tag /\
           Forall (λ c, 0 <= hex c) tag;
  ra_secret : denotes (Bytes (Some (tunnel_secret cred)) (tunnel_secret_len cred)) secret /\
              CF_TUNNEL_SECRET_MIN <= zlen secret <= CF_TUNNEL_SECRET_MAX;
  ra_tunnel : tunnel_id cred = tid /\ zlen tid = 16 /\ bytes_ok tid;
  ra_connector : connector_id opt = con /\ zlen con = 16 /\ bytes_ok con;
  ra_version : denotes (version opt) ver /\ 1 <= zlen ver <= 63 /\ Forall (λ c, 32 <= c <= 126) ver;
  ra_arch : denotes (arch opt) ar /\ 1 <= zlen ar <= 63 /\ Forall (λ c, 32 <= c <= 126) ar;
  ra_ip : denotes (local_ip opt) ip /\ (zlen ip = 4 \/ zlen ip = 16);
  ra_features : 0 <= features opt < 4;
  ra_bytes : is_byte (connection_index opt) /\ is_byte (previous_attempts opt)
}.

(** The request carries exactly the arguments. *)
Record request_carries (q : request) (cap : Z) (opt : cf_rpc_options) (tag secret tid ver ar ip con : list Z)
    : Prop := {
  rc_call : q_kind q = 2 /\ q_question q = 1 /\ q_method q = 0 /\
            q_interface q = CF_REGISTRATION_INTERFACE /\ q_target q = cap;
  rc_scalars : q_index q = connection_index opt /\ q_replace q = (if replace_existing opt then 1 else 0) /\
               q_attempts q = previous_attempts opt;
  rc_auth : denotes (q_account q) tag /\ denotes (q_secret q) secret /\ denotes (q_tunnel q) tid;
  rc_client : denotes (q_connector q) con /\ denotes (q_version q) ver /\ denotes (q_arch q) ar /\
              denotes (q_ip q) ip;
  rc_features : Forall2 denotes (q_features q) (feature_names (features opt))
}.

(** Sizes of the variable parts, in words. *)
Lemma ceil8_range l text lo hi :
  lo <= blob_len l text <= hi -> ceil8 lo <= ceil8 (blob_len l text) <= ceil8 hi.
Proof. unfold ceil8; intros; zdm. Qed.

Lemma denotes_array l tail n : bytes_ok l -> n = zlen l -> denotes (Bytes (Some (l ++ tail)) n) l.
Proof. intros Hl ->; split_and!; [done|done|by exists tail]. Qed.

Lemma denotes_whole l n : bytes_ok l -> n = zlen l -> denotes (Bytes (Some l) n) l.
Proof. intros Hl ->; split_and!; [done|done|exists []; by rewrite app_nil_r]. Qed.

Lemma register_message_spec r cred opt tag secret tid ver ar ip con size b :
  register_args cred opt tag secret tid ver ar ip con -> 0 <= capability r < 4294967296 ->
  built 1024 size (zeros 8) 1 b ->
  bwp (register_message r cred opt) (λ _ b', exists body w, built 1024 size body w b' /\
    forall rd, reading [body] CF_CAPNP_TRAVERSAL_WORDS rd ->
      wp (read_request (length (feature_names (features opt))))
        (λ q _, request_carries q (capability r) opt tag secret tid ver ar ip con) rd) b.
Proof.
  intros [(Htag & Htag32 & Htagok & Htaghex) (Hsec & Hsecl) (Htid & Htid16 & Htidok) (Hcon & Hcon16 & Hconok)
    (Hver & Hverl & Hverp) (Har & Harl & Harp) (Hip & Hipl) Hf (Hidx & Hatt)] Hcap Hb.
  unfold CF_TUNNEL_SECRET_MIN, CF_TUNNEL_SECRET_MAX in *.
  assert (denotes (Bytes (Some (account_tag cred)) 32) tag) as Hdtag by (rewrite Htag; by apply denotes_array).
  assert (denotes (Bytes (Some (tunnel_id cred)) 16) tid) as Hdtid.
  { rewrite Htid; by apply denotes_whole. }
  assert (denotes (Bytes (Some (connector_id opt)) 16) con) as Hdcon.
  { rewrite Hcon; by apply denotes_whole. }
  pose proof (ceil8_range tag true 33 33 ltac:(unfold blob_len; lia)) as Ctag.
  pose proof (ceil8_range secret false 32 128 ltac:(unfold blob_len; lia)) as Csec.
  pose proof (ceil8_range tid false 16 16 ltac:(unfold blob_len; lia)) as Ctid.
  pose proof (ceil8_range con false 16 16 ltac:(unfold blob_len; lia)) as Ccon.
  pose proof (ceil8_range ver true 2 64 ltac:(unfold blob_len; lia)) as Cver.
  pose proof (ceil8_range ar true 2 64 ltac:(unfold blob_len; lia)) as Car.
  pose proof (ceil8_range ip false 4 16 ltac:(unfold blob_len; lia)) as Cip.
  change (ceil8 33) with 5 in *; change (ceil8 32) with 4 in *; change (ceil8 128) with 16 in *.
  change (ceil8 16) with 2 in *; change (ceil8 2) with 1 in *; change (ceil8 64) with 8 in *.
  change (ceil8 4) with 1 in *; change ((1024 - 8) / 8) with 127 in *.
  assert (denotes (Bytes (Some (lit "allow_remote_config" ++ [0])) 19) (lit "allow_remote_config")) as Hrem
    by (apply denotes_array; [bytes_by_compute|done]).
  assert (denotes (Bytes (Some (lit "serialized_headers" ++ [0])) 18) (lit "serialized_headers")) as Hser
    by (apply denotes_array; [bytes_by_compute|done]).
  assert (ceil8 (blob_len (lit "allow_remote_config") true) = 3) as Crem by done.
  assert (ceil8 (blob_len (lit "serialized_headers") true) = 3) as Cser by done.
  assert (features opt = 0 \/ features opt = 1 \/ features opt = 2 \/ features opt = 3) as Hfs by lia.
  unfold register_message, call, message, has_feature, CF_RPC_REMOTE_CONFIG, CF_RPC_SERIALIZED_HEADERS.
  destruct Hfs as [Hfv|[Hfv|[Hfv|Hfv]]]; rewrite Hfv.
  all: repeat match goal with |- context [negb (?e =? 0)] =>
         let v := eval vm_compute in (negb (e =? 0)) in change (negb (e =? 0)) with v end; cbv iota zeta.
  all: bsteps ltac:(change ((1024 - 8) / 8) with 127; lia).
  all: eexists _, _; split; [eassumption|]; intros rd Hrd.
  all: match goal with H : built _ _ _ _ _ |- _ => pose proof (built_len _ _ _ _ _ H) as Hlen; clear H end.
  all: unfold is_byte, read_request, CF_CAPNP_TRAVERSAL_WORDS in *.
  all: match goal with |- context [length (feature_names ?f)] =>
         let k := eval vm_compute in (length (feature_names f)) in
         change (length (feature_names f)) with k end; cbn [read_features].
  all: rsteps ltac:(unfold CF_CAPNP_DEPTH_MAX, CF_REGISTRATION_INTERFACE; simpl (256 ^ _); first [lia | case_if; lia]).
  all: split; cbn; try done; rewrite ?Hfv; repeat first [eassumption | econstructor].
Qed.

(** ** The small messages *)

(** The peer finds this kind in the message with this body. *)
Definition message_of (body : list Z) (kind : Z) : Prop :=
  segs_ok CF_CAPNP_MESSAGE_MAX [body] /\
  forall rd, reading [body] CF_CAPNP_TRAVERSAL_WORDS rd -> wp message_kind (λ x _, x = kind) rd.

(** The first [n] bytes of [out] are messages of these kinds, one frame each. *)
Definition sends (out : list Z) (n : Z) (kinds : list Z) : Prop :=
  exists bodies rest,
    out = concat ((λ b, frame_of [b]) <$> bodies) ++ rest /\
    n = zlen (concat ((λ b, frame_of [b]) <$> bodies)) /\ Forall2 message_of bodies kinds.

Lemma sends_nil out : sends out 0 [].
Proof. by exists [], out. Qed.

Lemma sends_one body rest kind :
  message_of body kind -> sends (frame_of [body] ++ rest) (zlen (frame_of [body])) [kind].
Proof.
  intros H; exists [body], rest; rewrite fmap_cons; cbn [fmap list_fmap concat]; rewrite app_nil_r.
  split_and!; try done; by constructor.
Qed.

(** The first field of every message: the root struct and its kind. *)
Definition headed (body : list Z) (kind : Z) : Prop :=
  has body (0 * 8) (le_bytes 8 (struct_word 1 0 1 1)) /\ has body (1 * 8 + 0) (le_bytes (Z.to_nat 2) kind).

Lemma message_kind_spec body kind :
  headed body kind -> 24 <= zlen body -> 0 <= kind < 65536 ->
  forall rd, reading [body] CF_CAPNP_TRAVERSAL_WORDS rd -> wp message_kind (λ x _, x = kind) rd.
Proof.
  intros [Hp Hk] Hl Hkind rd R; unfold message_kind, CF_CAPNP_TRAVERSAL_WORDS in *.
  rsteps ltac:(simpl (256 ^ _); lia); done.
Qed.

Lemma zlen_frame1 body : zlen (frame_of [body]) = 8 + zlen body.
Proof.
  unfold frame_of; rewrite zlen_app, zlen_frame_head by done; cbn [concat]; by rewrite app_nil_r.
Qed.

(** A message built by these calls is sent; it is [w] words long. *)
Lemma emit_message {A} (build : BM A) out cap n kind w :
  16 <= cap <= CF_CAPNP_MESSAGE_MAX -> cap <= zlen out -> 0 <= kind < 65536 -> 3 <= w ->
  (forall b, built cap (zlen out) (zeros 8) 1 b ->
     bwp build (λ _ b', exists body w', built cap (zlen out) body w' b' /\ w' = w /\ headed body kind) b) ->
  exists out', emit build out cap n = Some (CF_OK, out', 8 + 8 * w) /\ zlen out' = zlen out /\
    sends out' (8 + 8 * w) [kind] /\ 8 + 8 * w <= cap.
Proof.
  intros Hc Ho Hk Hw Hb.
  destruct (emit_spec build out cap n (λ body, zlen body = 8 * w /\ headed body kind) Hc Ho)
    as (body & rest & He & Hz & Hn & Hs & Hl & Hh).
  { intros b Hbt; destruct (Hb b Hbt) as (x & b' & Hr & body & w' & Hbt' & -> & Hh).
    exists x, b'; split; [done|]; exists body, w; split; [done|]; split; [by eapply built_len|done]. }
  exists (frame_of [body] ++ rest); rewrite zlen_frame1, Hl in *; split_and!; try done.
  replace (8 + 8 * w) with (zlen (frame_of [body])) by (rewrite zlen_frame1; lia).
  apply sends_one; split; [done|]; apply message_kind_spec; [done|lia|done].
Qed.

Ltac message_by tac := intros b Hb; unfold call, message; bsteps tac; eexists _, _; split; [eassumption|];
  split; [lia|split; assumption].

Lemma finish_spec id release out cap n :
  40 <= cap <= CF_CAPNP_MESSAGE_MAX -> cap <= zlen out ->
  exists out', finish id release out cap n = Some (CF_OK, out', 40) /\ zlen out' = zlen out /\ sends out' 40 [4].
Proof.
  intros Hc Ho; unfold finish.
  destruct (emit_message (s ← message 4 1 0; cf_cp_set_uint s 0 4 id;; cf_cp_set_uint s 4 1 (if release then 0 else 1))
    out cap n 4 4) as (out' & He & Hz & Hs & _); try done; [lia|message_by zdm|by exists out'].
Qed.

Lemma release_spec r out cap n :
  40 <= cap <= CF_CAPNP_MESSAGE_MAX -> cap <= zlen out ->
  exists out', release_cap r out cap n = Some (CF_OK, out', 40) /\ zlen out' = zlen out /\ sends out' 40 [6].
Proof.
  intros Hc Ho; unfold release_cap.
  destruct (emit_message (s ← message 6 1 0; cf_cp_set_uint s 0 4 (capability r);; cf_cp_set_uint s 4 4 1)
    out cap n 6 4) as (out' & He & Hz & Hs & _); try done; [lia|message_by zdm|by exists out'].
Qed.

(** The session after a protocol failure. *)
Definition failed_with (r : cf_rpc) (e : cf_result) : cf_rpc := set_rpc_state (set_rpc_error r e) CF_RPC_FAILED.

Lemma fail_spec r e abort_peer out :
  CF_RPC_TX_MAX <= zlen out ->
  exists out' n, fail r e abort_peer out = Some (e, failed_with r e, out', n) /\ zlen out' = zlen out /\
    0 <= n <= CF_RPC_TX_MAX /\ sends out' n (if abort_peer then [1] else []).
Proof.
  intros Ho; unfold fail, failed_with, CF_RPC_TX_MAX in *; destruct abort_peer;
    [|exists out, 0; split_and!; try done; apply sends_nil].
  assert (denotes (Bytes (Some (reason ++ [0])) (zlen reason)) reason) as Hr
    by (apply denotes_array; [bytes_by_compute|done]).
  assert (ceil8 (blob_len reason true) = 5) as Hl by done.
  destruct (emit_message (s ← message 1 1 1; cf_cp_blob (s + 1) (Bytes (Some (reason ++ [0])) (zlen reason)) true)
    out 1024 0 1 10) as (out' & He & Hz & Hs & _); try done; [message_by ltac:(change ((1024 - 8) / 8) with 127; lia)|].
  exists out', (8 + 8 * 10); rewrite He; cbn [mbind option_bind]; split_and!; done.
Qed.
