(* ===== verification/RpcSession.v ===== *)
(** The life of a registration session: what [cf_rpc_receive] accepts, and the
    states a session can reach. *)
From S2P Require Export Rpc.

(** ** Sessions *)

(** The fields hold values of their types. *)
Definition rpc_typed (r : cf_rpc) : Prop :=
  u32_ok (capability r) /\ zlen (connection_id r) = 16 /\ zlen (location r) = 32 /\ 0 ∈ location r.

(** What the states before the end stand for. *)
Definition rpc_content (r : cf_rpc) : Prop :=
  match rpc_state r with
  | CF_RPC_READY | CF_RPC_REGISTERING => have_capability r = true
  | CF_RPC_REGISTERED | CF_RPC_UNREGISTERING =>
      have_capability r = true /\ remotely_managed r = true /\
      exists loc rest, location r = loc ++ 0 :: rest /\ 1 <= zlen loc <= 31 /\ Forall (λ c, 32 <= c <= 126) loc
  | _ => True
  end.

(** A closed session holds no capability. *)
Definition rpc_inv (r : cf_rpc) : Prop :=
  rpc_typed r /\ rpc_content r /\ (rpc_state r = CF_RPC_CLOSED -> have_capability r = false).

(** States in which no answer is expected. *)
Definition rpc_dead (s : cf_rpc_state) : bool :=
  bool_decide (s = CF_RPC_IDLE) || bool_decide (s = CF_RPC_FAILED)
  || bool_decide (s = CF_RPC_CLOSED) || bool_decide (s = CF_RPC_REJECTED).

(** An accepted answer moves the session along; nothing else does. *)
Inductive rpc_accepts : cf_rpc_state -> cf_rpc_state -> Prop :=
| accept_bootstrap : rpc_accepts CF_RPC_BOOTSTRAPPING CF_RPC_READY
| accept_registered : rpc_accepts CF_RPC_REGISTERING CF_RPC_REGISTERED
| accept_rejected : rpc_accepts CF_RPC_REGISTERING CF_RPC_REJECTED
| accept_unregistered : rpc_accepts CF_RPC_UNREGISTERING CF_RPC_CLOSED.

(** ** Reading an answer *)

(** [m] is safe on every reader over [ss] and its results satisfy [P]. *)
Definition safe {A} (ss : list (list Z)) (m : RM A) (P : A -> Prop) : Prop :=
  forall r, reader_ok ss r -> wp m (λ x r', reader_ok ss r' /\ P x) r.

Lemma safe_ret {A} ss (x : A) (P : A -> Prop) : P x -> safe ss (mret x) P.
Proof. intros HP r Hr; by apply wp_ret. Qed.

Lemma safe_bind {A B} ss (m : RM A) (k : A -> RM B) (P : A -> Prop) (Q : B -> Prop) :
  safe ss m P -> (forall x, P x -> safe ss (k x) Q) -> safe ss (m ≫= k) Q.
Proof.
  intros Hm Hk r Hr; apply wp_bind; eapply wp_mono; [by apply Hm|].
  intros x r' [Hr' HP]; by apply Hk.
Qed.

Lemma safe_mono {A} ss (m : RM A) (P P' : A -> Prop) : safe ss m P -> (forall x, P x -> P' x) -> safe ss m P'.
Proof.
  intros Hm HP r Hr; eapply wp_mono; [by apply Hm|]; intros x r' [? ?]; split; [done|by apply HP].
Qed.

Lemma safe_error ss : safe ss get_error (λ _, True).
Proof. intros r Hr; by apply wp_gets. Qed.

Lemma safe_raise ss e : safe ss (raise e) (λ _, True).
Proof. intros r Hr; by apply wp_raise. Qed.

Lemma safe_lift {A} ss (o : option A) x (P : A -> Prop) : o = Some x -> P x -> safe ss (lift o) P.
Proof. intros Ho HP r Hr; by apply (wp_lift _ x). Qed.

Lemma safe_root ss : safe ss cf_cp_root (value_ok ss).
Proof. intros r Hr; eapply wp_mono; [by apply wp_root|]; by intros x r' (? & _ & ? & _). Qed.

Lemma safe_field ss v i : value_ok ss v -> safe ss (cf_cp_field v i) (value_ok ss).
Proof.
  intros [Ht _] r Hr; eapply wp_mono; [by apply (wp_field ss)|]; by intros x r' (? & _ & ? & _).
Qed.

Lemma safe_at ss v i : value_ok ss v -> 0 <= i -> safe ss (cf_cp_at v i) (value_ok ss).
Proof.
  intros Hv Hi r Hr; eapply wp_mono; [by apply (wp_at ss)|]; by intros x r' (? & _ & ? & _).
Qed.

Lemma safe_uint ss v byte width : value_ok ss v -> u16_ok byte -> is_byte width ->
  safe ss (cf_cp_uint v byte width) (λ _, True).
Proof.
  intros [Ht _] Hb Hw r Hr; eapply wp_mono; [by apply (wp_uint ss)|]; by intros x r' (? & _).
Qed.

Lemma safe_data ss v text : value_ok ss v -> safe ss (cf_cp_data v text) (λ b, exists d, denotes b d).
Proof.
  intros [Ht _] r Hr; eapply wp_mono; [by apply (wp_data ss)|].
  intros b r' (Hr' & _ & _ & [->|(s & x & d & y & _ & _ & _ & Hd & _)]); split; try done; [|by exists d].
  by exists []; split_and!.
Qed.

Lemma safe_required ss v : value_ok ss v -> safe ss (required_struct v) (value_ok ss).
Proof.
  intros Hv; apply (safe_bind ss _ _ (λ _, True)); [apply safe_error|]; intros e _; case_if; [|by apply safe_ret].
  apply (safe_bind ss _ _ (λ _, True)); [apply safe_raise|]; intros; by apply safe_ret.
Qed.

(** Step through an answer: safety of every call comes from the values. *)
Ltac safe_step :=
  lazymatch goal with
  | |- safe _ (_ ≫= _) _ => eapply safe_bind; [safe_step|cbv beta; intros ? ?]
  | |- safe _ (mret _) _ => apply safe_ret
  | |- safe _ cf_cp_root _ => apply safe_root
  | |- safe _ (cf_cp_field _ _) _ => apply safe_field; assumption
  | |- safe _ (cf_cp_at _ _) _ => apply safe_at; [assumption|lia]
  | |- safe _ (cf_cp_uint _ _ _) _ => apply safe_uint; [assumption|done|done]
  | |- safe _ (cf_cp_data _ _) _ => apply safe_data; assumption
  | |- safe _ (required_struct _) _ => apply safe_required; assumption
  | |- safe _ get_error _ => apply safe_error
  | |- safe _ (raise _) _ => apply safe_raise
  | |- safe _ (if ?b then _ else _) _ => let E := fresh "E" in destruct b eqn:E
  end.

Lemma ascii_spec b d max :
  denotes b d -> 0 <= max ->
  exists ok, ascii b max = Some ok /\
    (ok = true -> 1 <= zlen d <= max /\ Forall (λ c, 32 <= c <= 126) d) /\
    (1 <= zlen d <= max -> Forall (λ c, 32 <= c <= 126) d -> ok = true).
Proof.
  intros Hb Hmax; unfold ascii; rewrite (denotes_len _ _ Hb).
  assert (forall k x y, d = x ++ y -> length y = k -> exists ok, ascii_loop b k (zlen x) = Some ok /\
    (ok = true <-> Forall (λ c, 32 <= c <= 126) y)) as Hloop.
  { induction k as [|k IH]; intros x y E Hk.
    - exists true; destruct y; [|done]; split; [done|]; split; [constructor|done].
    - destruct y as [|c y]; [done|]; cbn [ascii_loop]; injection Hk as Hk.
      rewrite (denotes_get _ _ _ Hb) by (rewrite E, zlen_app, zlen_cons; pose proof (zlen_nonneg x); pose proof (zlen_nonneg y); lia).
      rewrite E, <- (Z.add_0_r (zlen x)), rd_app_r by done; change (rd (c :: y) 0) with (Some c).
      cbn [mbind option_bind]; case_if.
      + exists false; split; [done|]; split; [done|]; intros [? _]%Forall_cons; lia.
      + destruct (IH (x ++ [c]) y) as (ok & Hok & Hiff); [by rewrite <- app_assoc|done|].
        rewrite zlen_snoc in Hok; rewrite Z.add_0_r; exists ok; split; [done|].
        rewrite Forall_cons, Hiff; intuition lia. }
  destruct (Hloop (length d) [] d eq_refl eq_refl) as (ok & Hok & Hiff).
  destruct Hb as (_ & _ & Hp); destruct (ptr b) as [m|] eqn:Ep.
  - rewrite bool_decide_eq_false_2 by done; cbn [orb].
    destruct (Z.eqb_spec (zlen d) 0); [exists false; split_and!; try done; lia|].
    destruct (Z.ltb_spec max (zlen d)); [exists false; split_and!; try done; lia|]; cbn [orb].
    replace (Z.to_nat (zlen d)) with (length d) by (unfold zlen; lia); exists ok.
    pose proof (zlen_nonneg d); change (zlen (@nil Z)) with 0 in Hok; rewrite Hok; split; [done|]; split; [intros Ht; split; [lia|by apply Hiff]|by intros _ ?%Hiff].
  - rewrite bool_decide_eq_true_2 by done; subst d; exists false; split_and!; try done; rewrite zlen_nil; lia.
Qed.

(** What an answer makes of the session [r]. *)
Definition result_post (r : cf_rpc) (x : cf_result * cf_rpc) : Prop :=
  rpc_typed (snd x) /\
  (fst x = CF_OK -> rpc_accepts (rpc_state r) (rpc_state (snd x)) /\ rpc_content (snd x)).

Lemma result_error r r' e : rpc_typed r' -> e <> CF_OK -> result_post r (e, r').
Proof. by split. Qed.

Lemma not_ok e : negb (is_ok e) = true -> e <> CF_OK.
Proof. unfold is_ok; intros H ->; by rewrite bool_decide_eq_true_2 in H. Qed.

(** An answer that is refused. *)
Ltac refused :=
  lazymatch goal with
  | |- result_post _ (_, _) => apply result_error; [first [assumption|split_and!; first [done|apply u32_wrap]]|first [done|by apply not_ok]]
  end.

Lemma safe_bootstrap ss r v :
  rpc_typed r -> rpc_state r = CF_RPC_BOOTSTRAPPING -> value_ok ss v ->
  safe ss (bootstrap_result r v) (result_post r).
Proof.
  intros (Hc & Hid & Hl & Hnul) Hs Hv; unfold bootstrap_result.
  repeat safe_step; try refused.
  split; [split_and!; try done; apply u32_wrap|]; intros _; simpl; rewrite Hs; split; [constructor|done].
Qed.

Lemma store_location_spec loc text :
  zlen loc = 32 -> zlen text <= 31 ->
  exists loc', store_location loc text = Some loc' /\ zlen loc' = 32 /\ exists rest, loc' = text ++ 0 :: rest.
Proof.
  intros Hl Ht; unfold store_location; rewrite blit_0_intro by lia; cbn [mbind option_bind].
  pose proof (zlen_nonneg text).
  assert (zlen (drop (length text) loc) = 32 - zlen text) as Hd by (unfold zlen in *; rewrite length_drop; lia).
  destruct (drop (length text) loc) as [|c rest]; [rewrite zlen_nil in Hd; lia|].
  rewrite zlen_cons in Hd; exists (text ++ 0 :: rest); split; [|split; [rewrite zlen_app, zlen_cons; lia|by exists rest]].
  apply (blit_app text [c] rest [0]); done.
Qed.

(** The source of a [memcpy] out of a view. *)
Lemma denotes_copy b d :
  denotes b d -> 0 < zlen d -> exists m, ptr b = Some m /\ slice m 0 (zlen d) = Some d.
Proof.
  intros (_ & _ & Hp) Hd; destruct (ptr b) as [m|]; [|subst d; rewrite zlen_nil in Hd; lia].
  destruct Hp as [rest ->]; exists (d ++ rest); split; [done|].
  pose proof (zlen_nonneg rest); rewrite slice_sub by (rewrite ?zlen_app; lia); by rewrite sub_head.
Qed.

(** The next call is a lifted access with this value. *)
Ltac safe_value y :=
  eapply safe_bind; [eapply (safe_lift _ _ y (λ z, z = y)); [try done|reflexivity]|cbv beta; intros ? ->].

Lemma safe_registration ss r v :
  rpc_typed r -> rpc_content r -> rpc_state r = CF_RPC_REGISTERING -> value_ok ss v ->
  safe ss (registration_result r v) (result_post r).
Proof.
  intros (Hc & Hid & Hl & Hnul) Hinv Hs Hv; unfold registration_result; unfold rpc_content in Hinv; rewrite Hs in Hinv.
  repeat safe_step; try refused.
  - split; [split_and!; assumption|]; intros _; cbn [fst snd set_rpc_state set_rejection rpc_state]; rewrite Hs; split; [constructor|exact I].
  - match goal with H : exists d, denotes ?b d |- context [ascii ?b] => destruct H as [loc Hloc] end.
    match goal with H : exists d, denotes ?b d |- _ => destruct H as [ident Hident] end.
    destruct (ascii_spec _ _ 31 Hloc) as (ok & Hok & Hprint & _); [done|].
    eapply safe_bind; [by apply (safe_lift ss _ ok (λ y, y = ok))|]; cbv beta; intros ? ->.
    rewrite (denotes_len _ _ Hident).
    repeat safe_step; try refused.
    apply orb_false_iff in E3 as [Hlen Hp]; bool_to_prop; destruct ok; [|done].
    destruct Hprint as [Hll Hlp]; [done|].
    destruct (denotes_copy _ _ Hident) as (mi & Hmi & Hsi); [lia|]; rewrite Hlen in Hsi.
    destruct (denotes_copy _ _ Hloc) as (ml & Hml & Hsl); [lia|].
    destruct (store_location_spec (location r) loc) as (locs & Hlocs & Hlocl & rest & Hrest); [done|lia|].
    rewrite (denotes_len _ _ Hloc).
    safe_value mi; safe_value ident; safe_value ml; safe_value loc.
    safe_value (ident ++ drop (length ident) (connection_id r)); [apply blit_0_intro; cbn [connection_id set_managed]; lia|].
    safe_value locs; apply safe_ret; split.
    + split_and!; [assumption|cbn [snd connection_id set_rpc_state set_identity]|assumption|].
      * unfold zlen in *; rewrite length_app, length_drop; lia.
      * cbn [snd location set_rpc_state set_identity]; rewrite Hrest, elem_of_app, elem_of_cons; auto.
    + intros _; unfold rpc_content; cbn [fst snd set_rpc_state set_identity set_managed rpc_state have_capability remotely_managed location].
      rewrite Hs; split; [constructor|]; split_and!; [done|by destruct (negb _)|by exists loc, rest].
Qed.

Lemma safe_unregister ss r v :
  rpc_typed r -> rpc_state r = CF_RPC_UNREGISTERING -> value_ok ss v ->
  safe ss (unregister_result r v) (result_post r).
Proof.
  intros Hr Hs Hv; unfold unregister_result; repeat safe_step.
  split; [done|]; intros _; cbn [fst snd set_rpc_state rpc_state]; rewrite Hs; split; [constructor|exact I].
Qed.

(** The states that expect an answer. *)
Definition rpc_waiting (s : cf_rpc_state) : bool :=
  bool_decide (s = CF_RPC_BOOTSTRAPPING) || bool_decide (s = CF_RPC_REGISTERING)
  || bool_decide (s = CF_RPC_UNREGISTERING).

Definition expected_answer (s : cf_rpc_state) : Z :=
  if bool_decide (s = CF_RPC_BOOTSTRAPPING) then 0 else if bool_decide (s = CF_RPC_REGISTERING) then 1 else 2.

Lemma safe_payload ss r v :
  rpc_typed r -> rpc_content r -> rpc_waiting (rpc_state r) = true -> value_ok ss v ->
  safe ss (payload_result r (bool_decide (rpc_state r = CF_RPC_BOOTSTRAPPING)) (expected_answer (rpc_state r)) v)
    (result_post r).
Proof.
  intros Hr Hc Hw Hv; unfold payload_result, rpc_waiting, expected_answer in *.
  destruct (rpc_state r) eqn:Hs; try done; cbn [bool_decide].
  all: rewrite ?bool_decide_eq_true_2, ?bool_decide_eq_false_2 by done; cbv iota.
  - by apply safe_bootstrap.
  - do 2 safe_step; [safe_step; refused|].
    change (1 =? 1) with true; by apply safe_registration.
  - do 2 safe_step; [safe_step; refused|].
    change (2 =? 1) with false; by apply safe_unregister.
Qed.

(** What reading an answer decides. *)
Definition verdict_post (r : cf_rpc) (v : verdict) : Prop :=
  match v with
  | VFail error abort_peer r' => error <> CF_OK /\ rpc_typed r'
  | VException answer error => error <> CF_OK
  | VAnswer answer boot r' => rpc_typed r' /\ rpc_accepts (rpc_state r) (rpc_state r') /\ rpc_content r'
  end.

Lemma safe_answer ss r :
  rpc_typed r -> rpc_content r -> safe ss (read_answer r) (verdict_post r).
Proof.
  intros Hr Hc; unfold read_answer; cbv zeta.
  repeat lazymatch goal with
  | |- safe _ (payload_result _ _ _ _ ≫= _) _ => fail
  | |- safe _ _ _ => safe_step
  end.
  all: try (split; [first [done|by apply not_ok]|done]).
  - split; [|done]; by destruct (is_ok x7) eqn:E7; [|apply not_ok; rewrite E7].
  - by destruct (is_ok x12) eqn:E12; [|apply not_ok; rewrite E12].
  - eapply safe_bind; [apply safe_payload; try done|].
    { by unfold rpc_waiting; repeat case_bool_decide. }
    intros [rc r'] [Hr' Hok]; cbn [fst snd] in *; safe_step; rename x10 into e; apply safe_ret.
    destruct (negb (is_ok e)) eqn:Ee; [rewrite Ee; by split; [apply not_ok|]|].
    destruct (negb (is_ok rc)) eqn:Erc; [by split; [apply not_ok|]|].
    split; [done|]; apply Hok; unfold is_ok in Erc; by case_bool_decide.
Qed.

(** ** The specification of [cf_rpc_receive] *)

(** What an entry into the session leaves: everything is sound, and the session
    moved only by an accepted answer. *)
Definition received (r : cf_rpc) (out : list Z) (rc : cf_result) (r' : cf_rpc) (out' : list Z) (n : Z) : Prop :=
  if rpc_dead (rpc_state r) then rc = CF_ERR_STATE /\ r' = r /\ out' = out /\ n = 0
  else match rc with
       | CF_OK => rpc_accepts (rpc_state r) (rpc_state r') /\
                  sends out' n (if bool_decide (rpc_state r' = CF_RPC_CLOSED) then [4; 6] else [4])
       | _ => rpc_state r' = CF_RPC_FAILED /\ rpc_error r' = rc /\
              exists kinds, sends out' n kinds /\ (kinds = [] \/ kinds = [1] \/ kinds = [4])
       end.

Lemma received_failed r out e r' out' n kinds :
  rpc_dead (rpc_state r) = false -> e <> CF_OK -> sends out' n kinds ->
  kinds = [] \/ kinds = [1] \/ kinds = [4] ->
  rpc_state r' = CF_RPC_FAILED -> rpc_error r' = e -> received r out e r' out' n.
Proof. intros Hd He Hs Hk Hst Her; unfold received; rewrite Hd; destruct e; try done; eauto 10. Qed.

Lemma failed_inv r e : rpc_typed r -> rpc_inv (failed_with r e).
Proof. by intros Hr; split. Qed.

Lemma receive_failed r r1 out e abort_peer :
  rpc_dead (rpc_state r) = false -> e <> CF_OK -> rpc_typed r1 -> CF_RPC_TX_MAX <= zlen out ->
  exists rc r' out' n, fail r1 e abort_peer out = Some (rc, r', out', n) /\ rpc_inv r' /\
    zlen out' = zlen out /\ 0 <= n <= CF_RPC_TX_MAX /\ received r out rc r' out' n.
Proof.
  intros Hd He Hr Hz; destruct (fail_spec r1 e abort_peer out Hz) as (out' & n & -> & Hl & Hn & Hs).
  exists e, (failed_with r1 e), out', n; split; [done|]; split; [by apply failed_inv|].
  split; [done|]; split; [done|]; eapply received_failed; try done; destruct abort_peer; auto.
Qed.

(** Frames one after the other. *)
Lemma sends_then out n k tail m ks :
  sends out n [k] -> sends tail m ks ->
  sends (take (Z.to_nat n) out ++ tail) (n + m) (k :: ks).
Proof.
  intros (bodies & rest & -> & -> & Hb) (bodies' & rest' & -> & -> & Hb').
  inversion Hb as [|body k' bodies0 ks0 Hm Hnil]; inversion Hnil; subst.
  exists (body :: bodies'), rest'; rewrite !fmap_cons; cbn [fmap list_fmap concat]; rewrite app_nil_r.
  unfold zlen at 1; rewrite Nat2Z.id, take_app_length, <- app_assoc, zlen_app; by split_and!; [| |constructor].
Qed.

Lemma with_output_ok r out cap n body :
  CF_RPC_TX_MAX <= cap -> with_output (Some r) (Some out) cap (Some n) body =
    ('(rc, r, out, n) ← body r out; Some (rc, Some r, Some out, Some n)).
Proof.
  intros Hc; unfold with_output, output_ok; rewrite !bool_decide_eq_false_2 by done; cbn [negb andb].
  by replace (CF_RPC_TX_MAX <=? cap) with true by lia.
Qed.

(** An answer is acknowledged; closing also releases the capability. *)
Lemma answer_spec r r1 out id rel :
  rpc_dead (rpc_state r) = false -> verdict_post r (VAnswer id rel r1) -> CF_RPC_TX_MAX <= zlen out ->
  exists rc r' out' n,
    ('(rc, out, n) ← finish id rel out CF_RPC_TX_MAX 0;
     if is_ok rc && bool_decide (rpc_state r1 = CF_RPC_CLOSED) then
       '(rc, tail, extra) ← release_cap r1 (drop (Z.to_nat n) out) (CF_RPC_TX_MAX - n) 0;
       Some (rc, set_capability r1 (capability r1) false, take (Z.to_nat n) out ++ tail, n + extra)
     else Some (rc, r1, out, n)) = Some (rc, r', out', n) /\ rpc_inv r' /\
    zlen out' = zlen out /\ 0 <= n <= CF_RPC_TX_MAX /\ received r out rc r' out' n.
Proof.
  intros Hd (Hr & Ha & Hc) Hz; unfold CF_RPC_TX_MAX in *; unfold received; rewrite Hd.
  destruct (finish_spec id rel out 1024 0) as (out1 & He & Hz1 & Hs1); [unfold CF_CAPNP_MESSAGE_MAX; lia|lia|].
  rewrite He; cbn [mbind option_bind]; change (is_ok CF_OK) with true; cbn [andb].
  case_bool_decide as Hst.
  - assert (zlen (drop (Z.to_nat 40) out1) = zlen out - 40) as Hzd.
    { unfold zlen in *; rewrite length_drop; lia. }
    destruct (release_spec r1 (drop (Z.to_nat 40) out1) (1024 - 40) 0) as (tail & He2 & Hz2 & Hs2);
      [unfold CF_CAPNP_MESSAGE_MAX; lia|lia|].
    rewrite He2; cbn [mbind option_bind]; do 4 eexists; split; [done|]; split.
    { split; [done|]; split; [by unfold rpc_content; cbn [rpc_state set_capability]; rewrite Hst|done]. }
    split; [unfold zlen in *; rewrite length_app, length_take; lia|]; split; [lia|]; split; [done|].
    cbn [rpc_state set_capability]; rewrite bool_decide_eq_true_2 by done; by apply sends_then.
  - do 4 eexists; split; [done|]; split; [by split|]; split; [done|]; split; [lia|]; split; [done|].
    by rewrite bool_decide_eq_false_2.
Qed.

Lemma receive_spec r frame l out cap n :
  rpc_inv r -> denotes frame l -> CF_RPC_TX_MAX <= cap -> CF_RPC_TX_MAX <= zlen out ->
  exists rc r' out' n', cf_rpc_receive (Some r) frame (Some out) cap (Some n) =
      Some (rc, Some r', Some out', Some n') /\ rpc_inv r' /\
    zlen out' = zlen out /\ 0 <= n' <= CF_RPC_TX_MAX /\ received r out rc r' out' n'.
Proof.
  intros Hi Hf Hcap Hz; unfold cf_rpc_receive; rewrite with_output_ok by done.
  fold (rpc_dead (rpc_state r)); destruct (rpc_dead (rpc_state r)) eqn:Hd.
  { exists CF_ERR_STATE, r, out, 0; split; [done|]; split; [done|]; split; [done|]; split; [done|].
    by unfold received; rewrite Hd. }
  destruct Hi as (Hr & Hc & _).
  destruct (read_init_spec frame l (CpReader no_segments 0 0 CF_OK) Hf) as (rc & rdr & -> & _ & Hm).
  cbn [mbind option_bind].
  assert (forall o, (exists rc r' out' n', o = Some (rc, r', out', n') /\ rpc_inv r' /\ zlen out' = zlen out /\
            0 <= n' <= CF_RPC_TX_MAX /\ received r out rc r' out' n') ->
    exists rc r' out' n', ('(rc, r, out, n) ← o; Some (rc, Some r, Some out, Some n)) =
        Some (rc, Some r', Some out', Some n') /\ rpc_inv r' /\
      zlen out' = zlen out /\ 0 <= n' <= CF_RPC_TX_MAX /\ received r out rc r' out' n') as Hwrap.
  { intros o (e & r' & out' & n' & -> & H); by exists e, r', out', n'. }
  apply Hwrap; destruct (segment_ref l 0) as [e|s].
  - destruct Hm as [-> He]; rewrite He; cbn [negb].
    apply receive_failed; try done; apply not_ok; by rewrite He.
  - destruct Hm as (-> & Hrd & _); change (is_ok CF_OK) with true; cbn [negb].
    destruct (safe_answer (segments_of l) r Hr Hc rdr Hrd) as (v & rdr' & -> & _ & Hv); cbn [mbind option_bind].
    destruct v as [e a r1|id e|id b r1].
    + destruct Hv; by apply receive_failed.
    + unfold CF_RPC_TX_MAX in *; destruct (finish_spec id true out 1024 0) as (out1 & -> & Hz1 & Hs1);
        [unfold CF_CAPNP_MESSAGE_MAX; lia|lia|]; cbn [mbind option_bind].
      do 4 eexists; split; [done|]; split; [by split|]; split; [done|]; split; [lia|].
      eapply received_failed; try done; auto.
    + by apply (answer_spec r r1 out id (negb b)).
Qed.

(** ** Requests *)

(** The arguments as the compiler types them: the arrays have their lengths and
    the views denote bytes. *)
Record typed_args (cred : cf_credentials) (opt : cf_rpc_options) (tag : list Z) (nul : Z) (secret pad ver ar ip : list Z)
    : Prop := {
  ta_tag : account_tag cred = tag ++ [nul] /\ zlen tag = 32 /\ bytes_ok tag;
  ta_secret : tunnel_secret cred = secret ++ pad /\ zlen secret <= CF_TUNNEL_SECRET_MAX /\ bytes_ok secret /\
    (0 <= tunnel_secret_len cred <= CF_TUNNEL_SECRET_MAX -> zlen secret = tunnel_secret_len cred);
  ta_tunnel : zlen (tunnel_id cred) = 16 /\ bytes_ok (tunnel_id cred);
  ta_connector : zlen (connector_id opt) = 16 /\ bytes_ok (connector_id opt);
  ta_views : denotes (version opt) ver /\ denotes (arch opt) ar /\ denotes (local_ip opt) ip;
  ta_ints : u32_ok (features opt) /\ is_byte (connection_index opt) /\ is_byte (previous_attempts opt)
}.

Definition printable (l : list Z) (max : Z) : bool :=
  (1 <=? zlen l) && (zlen l <=? max) && forallb (λ c, (32 <=? c) && (c <=? 126)) l.

(** The arguments [cf_rpc_register] takes. *)
Definition args_valid (cred : cf_credentials) (opt : cf_rpc_options) (tag : list Z) (nul : Z) (ver ar ip : list Z) : bool :=
  printable ver 63 && printable ar 63 && ((zlen ip =? 4) || (zlen ip =? 16)) && (nul =? 0)
  && (CF_TUNNEL_SECRET_MIN <=? tunnel_secret_len cred) && (tunnel_secret_len cred <=? CF_TUNNEL_SECRET_MAX)
  && (features opt <? 4) && forallb (λ c, 0 <=? hex c) tag.

Lemma forallb_range l : forallb (λ c, (32 <=? c) && (c <=? 126)) l = true <-> Forall (λ c, 32 <= c <= 126) l.
Proof.
  rewrite forallb_forall, Forall_forall; setoid_rewrite list_elem_of_In.
  split; intros H c Hc; specialize (H c Hc); lia.
Qed.

Lemma ascii_printable b d max : denotes b d -> 0 <= max -> ascii b max = Some (printable d max).
Proof.
  intros Hb Hm; destruct (ascii_spec b d max Hb Hm) as (ok & -> & H1 & H2); f_equal; unfold printable.
  pose proof (forallb_range d) as Hf; apply eq_bool_prop_intro; split.
  - intros [Hl Hp%Hf]%Is_true_true_1%H1; rewrite Hp; apply Is_true_true_2; lia.
  - intros [[Hl1 Hl2]%andb_true_iff Hp%Hf]%Is_true_true_1%andb_true_iff; apply Is_true_true_2, H2; [lia|done].
Qed.

Lemma tag_loop_spec tag nul :
  forall x y, tag = x ++ y -> tag_loop (tag ++ [nul]) (length y) (zlen x) = Some (forallb (λ c, 0 <=? hex c) y).
Proof.
  intros x y; revert x; induction y as [|c y IH]; intros x E; [done|]; cbn [length tag_loop forallb].
  rewrite E at 1; rewrite <- app_assoc, <- (Z.add_0_r (zlen x)), rd_app_r by done; cbn [mbind option_bind app].
  change (rd (c :: y ++ [nul]) 0) with (Some c); cbn [mbind option_bind].
  rewrite Z.add_0_r, <- (zlen_snoc x c), (IH (x ++ [c])) by (by rewrite <- app_assoc).
  match goal with |- (if ?b then _ else _) = _ => assert (b = (0 <=? hex c)) as -> end.
  { unfold hex; destruct ((48 <=? c) && _) eqn:E1, ((97 <=? c) && _) eqn:E2, ((65 <=? c) && _) eqn:E3; cbn [orb]; lia. }
  by destruct (0 <=? hex c).
Qed.

(** Only the two known feature bits may be set. *)
Lemma features_mask f : u32_ok f ->
  (Z.land f (u32 (Z.lnot (Z.lor CF_RPC_REMOTE_CONFIG CF_RPC_SERIALIZED_HEADERS))) =? 0) = (f <? 4).
Proof.
  unfold u32_ok; intros Hf; change (u32 _) with (Z.shiftl (Z.ones 30) 2).
  assert (Z.land f (Z.shiftl (Z.ones 30) 2) = (f / 4) * 4) as ->; [|zdm].
  replace ((f / 4) * 4) with (Z.shiftl (Z.land (Z.shiftr f 2) (Z.ones 30)) 2).
  - apply Z.bits_inj'; intros i Hi; rewrite Z.land_spec, !Z.shiftl_spec by lia.
    destruct (Z.ltb_spec i 2); [by rewrite !(Z.testbit_neg_r _ (i - 2)), andb_false_r by lia|].
    rewrite Z.land_spec, Z.shiftr_spec by lia; by rewrite Z.sub_add.
  - rewrite Z.land_ones, Z.shiftl_mul_pow2, Z.shiftr_div_pow2 by lia.
    change (2 ^ 2) with 4; rewrite Z.mod_small; [done|]; change (2 ^ 30) with 1073741824; zdm.
Qed.

Lemma features_low f : (0 <=? f) && (f <? 4) = true -> f = 0 \/ f = 1 \/ f = 2 \/ f = 3.
Proof. lia. Qed.

Lemma forallb_hex tag : forallb (λ c, 0 <=? hex c) tag = true -> Forall (λ c, 0 <= hex c) tag.
Proof. rewrite forallb_forall, Forall_forall; setoid_rewrite list_elem_of_In; intros H c Hc; specialize (H c Hc); lia. Qed.

(** Valid arguments are what the message builder expects. *)
Lemma valid_register_args cred opt tag nul secret pad ver ar ip :
  typed_args cred opt tag nul secret pad ver ar ip -> args_valid cred opt tag nul ver ar ip = true ->
  register_args cred opt tag secret (tunnel_id cred) ver ar ip (connector_id opt).
Proof.
  intros [(Htag & H32 & Htb) (Hs & Hsm & Hsb & Hsl) [Ht16 Htok] [Hc16 Hcok] (Hv & Ha & Hip) ([Hf0 _] & Hi & Hp)] Hval.
  unfold args_valid, printable in Hval; repeat (apply andb_true_iff in Hval as [Hval ?]).
  repeat match goal with H : _ && _ = true |- _ => apply andb_true_iff in H as [? ?] end.
  repeat match goal with H : forallb _ _ = true |- _ => first [apply forallb_range in H|apply forallb_hex in H] end.
  unfold CF_TUNNEL_SECRET_MIN, CF_TUNNEL_SECRET_MAX in *; specialize (Hsl ltac:(lia)).
  assert (nul = 0) by lia; subst nul; split; try done.
  - split; [split; [done|split; [cbn [len]; lia|cbn [ptr]; by exists pad]]|unfold CF_TUNNEL_SECRET_MIN, CF_TUNNEL_SECRET_MAX; lia].
  - split; [done|]; split; [lia|done].
  - split; [done|]; split; [lia|done].
  - split; [done|lia].
  - lia.
Qed.

(** The peer that opens [body] finds a registration with these arguments. *)
Definition registers (body : list Z) (r : cf_rpc) (cred : cf_credentials) (opt : cf_rpc_options)
    (tag secret ver ar ip : list Z) : Prop :=
  segs_ok CF_CAPNP_MESSAGE_MAX [body] /\
  forall rd, reading [body] CF_CAPNP_TRAVERSAL_WORDS rd ->
    wp (read_request (length (feature_names (features opt))))
      (λ q _, request_carries q (capability r) opt tag secret (tunnel_id cred) ver ar ip (connector_id opt)) rd.

Lemma register_spec r cred opt tag nul secret pad ver ar ip out cap n :
  rpc_typed r -> typed_args cred opt tag nul secret pad ver ar ip ->
  CF_RPC_TX_MAX <= cap -> CF_RPC_TX_MAX <= zlen out ->
  let ready := bool_decide (rpc_state r = CF_RPC_READY) && have_capability r in
  let call := cf_rpc_register (Some r) (Some cred) (Some opt) (Some out) cap (Some n) in
  if negb ready then call = Some (CF_ERR_STATE, Some r, Some out, Some 0)
  else if negb (args_valid cred opt tag nul ver ar ip) then call = Some (CF_ERR_ARGUMENT, Some r, Some out, Some 0)
  else exists body rest, call = Some (CF_OK, Some (set_rpc_state r CF_RPC_REGISTERING),
           Some (frame_of [body] ++ rest), Some (zlen (frame_of [body]))) /\
         zlen (frame_of [body] ++ rest) = zlen out /\ zlen (frame_of [body]) <= CF_RPC_TX_MAX /\
         registers body r cred opt tag secret ver ar ip.
Proof.
  intros (Hcap & _) Hta Hc Hz ready; subst ready; cbv zeta; unfold cf_rpc_register.
  rewrite with_output_ok by done; rewrite negb_andb.
  destruct (negb (bool_decide (rpc_state r = CF_RPC_READY)) || negb (have_capability r)); [done|].
  pose proof Hta as [(Htag & H32 & _) _ _ _ (Hv & Ha & Hip) (Hf & _)].
  rewrite (ascii_printable _ _ _ Hv), (ascii_printable _ _ _ Ha) by done; cbn [mbind option_bind].
  rewrite Htag, <- H32, <- (Z.add_0_r (zlen tag)), rd_app_r by done; change (rd [nul] 0) with (Some nul).
  rewrite Z.add_0_r, H32, (denotes_len _ _ Hip), features_mask by done; cbn [mbind option_bind].
  pose proof (tag_loop_spec tag nul [] tag eq_refl) as Htl; change (zlen (@nil Z)) with 0 in Htl.
  replace (length tag) with 32%nat in Htl by (unfold zlen in H32; lia); rewrite Htl; cbn [mbind option_bind].
  destruct (negb (args_valid cred opt tag nul ver ar ip)) eqn:Hval.
  - match goal with |- (if ?c then _ else _) ≫= _ = _ => destruct c eqn:Hrej end; [done|].
    unfold args_valid in Hval; replace (negb (forallb (λ c, 0 <=? hex c) tag)) with true by lia; done.
  - pose proof (valid_register_args _ _ _ _ _ _ _ _ _ Hta ltac:(by apply negb_false_iff)) as Hargs.
    unfold args_valid in Hval; match goal with |- exists _ _, (if ?c then _ else _) ≫= _ = _ /\ _ => replace c with false end.
    2: { assert (ptr (local_ip opt) = None -> zlen ip = 0) as Hnull by (destruct Hip as (_ & _ & Hp); intros E; rewrite E in Hp; by subst ip).
         case_bool_decide as E; [specialize (Hnull E)|]; lia. }
    replace (negb (forallb (λ c, 0 <=? hex c) tag)) with false by lia.
    destruct (emit_spec (register_message r cred opt) out CF_RPC_TX_MAX 0 (λ body, forall rd,
      reading [body] CF_CAPNP_TRAVERSAL_WORDS rd -> wp (read_request (length (feature_names (features opt))))
      (λ q _, request_carries q (capability r) opt tag secret (tunnel_id cred) ver ar ip (connector_id opt)) rd))
      as (body & rest & He & Hl & Hn & Hs & Hread); [done|done| |].
    { intros b Hb; destruct (register_message_spec r cred opt _ _ _ _ _ _ _ _ _ Hargs Hcap Hb) as (x & b' & Hr & body & w & Hbt & Hq).
      exists x, b'; split; [done|]; by exists body, w. }
    exists body, rest; rewrite He; cbn [mbind option_bind]; change (is_ok CF_OK) with true; cbn [mbind option_bind].
    by split_and!.
Qed.

(** ** The answer of a server

    A registration answer with the layout of the peer, built with the verified
    builder; the payload has no capability table. *)
Definition registration_reply (ident loc : list Z) (managed : bool) : BM () :=
  ret ← message 3 1 1;
  cf_cp_set_uint ret 0 4 1;;
  cf_cp_set_uint ret 6 2 0;;
  payload ← cf_cp_struct (ret + 1) 0 1;
  results ← cf_cp_struct payload 0 1;
  response ← cf_cp_struct results 1 1;
  cf_cp_set_uint response 0 2 1;;
  details ← cf_cp_struct (response + 1) 1 2;
  cf_cp_set_uint details 0 1 (if managed then 1 else 0);;
  cf_cp_blob (details + 1) (view ident) false;;
  cf_cp_blob (details + 2) (view loc) true.

(** What a registered session holds. *)
Definition registered_as (r r' : cf_rpc) (ident loc : list Z) : Prop :=
  exists locs rest, locs = loc ++ 0 :: rest /\ zlen locs = 32 /\
    r' = set_rpc_state (set_identity (set_managed r true) ident locs) CF_RPC_REGISTERED.

(** A connection id of 16 bytes and a printable location that fits. *)
Definition registration_valid (ident loc : list Z) : bool := (zlen ident =? 16) && printable loc 31.

(** How a registering session takes the details. *)
Definition details_taken (r : cf_rpc) (ident loc : list Z) (managed : bool) (rc : cf_result) (r' : cf_rpc) : Prop :=
  if negb (registration_valid ident loc) then rc = CF_ERR_FORMAT /\ r' = set_managed r managed
  else if negb managed then rc = CF_ERR_UNSUPPORTED /\ r' = set_managed r false
  else rc = CF_OK /\ registered_as r r' ident loc.

Lemma wp_error n ss r Q : reading ss n r -> Q CF_OK r -> wp get_error Q r.
Proof. intros (_ & He & _) HQ; apply wp_gets; by rewrite He. Qed.

Lemma wp_required n ss at_ dw pc depth r Q :
  reading ss n r -> Q (svalue at_ dw pc depth) r -> wp (required_struct (svalue at_ dw pc depth)) Q r.
Proof.
  intros Hr HQ; unfold required_struct; apply wp_bind, (wp_error n ss); [done|]; cbn [v_kind svalue].
  rewrite bool_decide_eq_true_2 by done; by apply wp_ret.
Qed.

Lemma wp_absent n ss at_ dw pc depth index r Q :
  reading ss n r -> pc <= index -> Q null_value r -> wp (cf_cp_field (svalue at_ dw pc depth) index) Q r.
Proof.
  intros Hr Hi HQ; unfold cf_cp_field; apply wp_bind, (wp_error n ss); [done|].
  change (is_ok CF_OK) with true; cbn [v_kind svalue v_pointers negb].
  rewrite bool_decide_eq_false_2, bool_decide_eq_true_2 by done; cbn [orb negb].
  replace (pc <=? index) with true by lia; by apply wp_ret.
Qed.

Lemma wp_field_then_data {B} v i t (K : cf_bytes -> RM B) Q r :
  wp (field_data v i t) (λ b r', wp (K b) Q r') r -> wp (x ← cf_cp_field v i; b ← cf_cp_data x t; K b) Q r.
Proof.
  intros (b & r2 & H & HQ); unfold field_data in H; destruct HQ as (y & r3 & HK & HQ).
  exists y, r3; split; [|done]; revert H; unfold mbind, RM_bind; simpl.
  destruct (cf_cp_field v i r) as [[x r1]|]; [|done]; simpl; intros ->; exact HK.
Qed.

(** Read an answer whose words are known. *)
Ltac answer_step tac :=
  lazymatch goal with
  | |- wp (cf_cp_field _ _ ≫= (λ x, cf_cp_data x _ ≫= _)) _ _ => apply wp_field_then_data
  | |- wp (_ ≫= _) _ _ => apply wp_bind
  | |- wp (mret _) _ _ => apply wp_ret
  | H : reading _ _ ?r |- wp get_error _ ?r => apply (wp_error _ _ _ _ H); change (is_ok CF_OK) with true; cbn [negb]
  | H : reading _ _ ?r |- wp (required_struct (svalue _ _ _ _)) _ ?r => apply (wp_required _ _ _ _ _ _ _ _ H)
  | H : reading _ _ ?r |- wp (cf_cp_field (svalue _ _ ?pc _) ?i) _ ?r =>
      first [apply (wp_absent _ _ _ _ _ _ _ _ _ H); [lia|]|rstep_with tac]
  | |- wp (if ?b then _ else _) _ _ => let v := eval vm_compute in b in change b with v; cbv iota
  | |- wp _ _ _ => rstep_with tac
  end.

Lemma reply_spec r ident loc managed size b :
  zlen ident <= 64 -> bytes_ok ident -> zlen loc <= 64 -> bytes_ok loc ->
  rpc_typed r -> rpc_state r = CF_RPC_REGISTERING -> built 1024 size (zeros 8) 1 b ->
  bwp (registration_reply ident loc managed) (λ _ b', exists body w, built 1024 size body w b' /\
    forall rd, reading [body] CF_CAPNP_TRAVERSAL_WORDS rd ->
      wp (read_answer r) (λ v _, exists rc r', details_taken r ident loc managed rc r' /\ v = if is_ok rc then VAnswer 1 false r' else VFail rc true r') rd) b.
Proof.
  intros Hi Hib Hl Hlb (_ & Hid & Hloc & _) Hs Hb.
  pose proof (denotes_view ident Hib) as Hdi; pose proof (denotes_view loc Hlb) as Hdl; pose proof (zlen_nonneg ident); pose proof (zlen_nonneg loc).
  pose proof (ceil8_range ident false 0 64 ltac:(unfold blob_len; lia)) as Ci.
  pose proof (ceil8_range loc true 1 65 ltac:(unfold blob_len; lia)) as Cl.
  change (ceil8 0) with 0 in *; change (ceil8 64) with 8 in *; change (ceil8 1) with 1 in *; change (ceil8 65) with 9 in *.
  assert (0 <= (if managed then 1 else 0) < 256 ^ 1) as Hm by (destruct managed; done).
  unfold registration_reply, message; bsteps ltac:(change ((1024 - 8) / 8) with 127; lia).
  eexists _, _; split; [eassumption|]; intros rd Hrd.
  match goal with H : built _ _ _ _ _ |- _ => pose proof (built_len _ _ _ _ _ H) as Hlen; clear H end.
  unfold read_answer, CF_CAPNP_TRAVERSAL_WORDS in *; cbv zeta; rewrite Hs.
  rewrite !bool_decide_eq_false_2, !bool_decide_eq_true_2 by done; cbn [negb andb].
  do 60 try answer_step ltac:(unfold CF_CAPNP_DEPTH_MAX; simpl (256 ^ _); first [lia | case_if; lia]).
  unfold payload_result, registration_result; cbv zeta.
  do 60 try answer_step ltac:(unfold CF_CAPNP_DEPTH_MAX; simpl (256 ^ _); first [lia | case_if; lia]).
  replace (negb (Z.land (if managed then 1 else 0) 1 =? 0)) with managed by (by destruct managed).
  apply (wp_lift _ (printable loc 31)); [by apply ascii_printable|].
  rewrite (denotes_len _ _ Hden), (denotes_len _ _ Hden0); unfold details_taken, registration_valid.
  destruct (Z.eqb_spec (zlen ident) 16) as [Hi16|Hi16]; cbn [negb orb andb];
    [|apply wp_ret; answer_step lia; answer_step lia; answer_step lia; by exists CF_ERR_FORMAT, (set_managed r managed)].
  destruct (printable loc 31) eqn:Hprint; cbn [negb orb andb];
    [|apply wp_ret; answer_step lia; answer_step lia; answer_step lia; by exists CF_ERR_FORMAT, (set_managed r managed)].
  destruct managed; cbn [negb remotely_managed set_managed];
    [|apply wp_ret; answer_step lia; answer_step lia; answer_step lia; by exists CF_ERR_UNSUPPORTED, (set_managed r false)].
  apply andb_true_iff in Hprint as [[Hlo Hhi]%andb_true_iff _].
  destruct (denotes_copy _ _ Hden) as (mi & Hmi & Hsi); [lia|].
  destruct (denotes_copy _ _ Hden0) as (ml & Hml & Hsl); [lia|].
  destruct (store_location_spec (location r) loc) as (locs & Hlocs & Hlocl & rest & Hrest); [done|lia|].
  apply wp_bind, (wp_lift _ mi); [done|]; apply wp_bind, (wp_lift _ ident); [by rewrite <- Hi16|].
  apply wp_bind, (wp_lift _ ml); [done|]; apply wp_bind, (wp_lift _ loc); [done|].
  apply wp_bind, (wp_lift _ ident).
  { cbn [connection_id set_managed]; rewrite blit_0_intro by lia.
    rewrite drop_ge, app_nil_r; [done|unfold zlen in *; lia]. }
  apply wp_bind, (wp_lift _ locs); [done|]; apply wp_ret.
  answer_step lia; answer_step lia; answer_step lia.
  eexists CF_OK, _; split; [split; [done|]; by exists locs, rest|done].
Qed.

Lemma begin_spec r out cap n :
  CF_RPC_TX_MAX <= cap -> CF_RPC_TX_MAX <= zlen out ->
  exists rc r' out' n', cf_rpc_begin (Some r) (Some out) cap (Some n) = Some (rc, Some r', Some out', Some n') /\
    zlen out' = zlen out /\ 0 <= n' <= CF_RPC_TX_MAX /\
    if bool_decide (rpc_state r = CF_RPC_IDLE)
    then rc = CF_OK /\ r' = set_rpc_state r CF_RPC_BOOTSTRAPPING /\ sends out' n' [8]
    else rc = CF_ERR_STATE /\ r' = r /\ out' = out /\ n' = 0.
Proof.
  intros Hc Hz; unfold cf_rpc_begin; rewrite with_output_ok by done; unfold CF_RPC_TX_MAX in *.
  case_bool_decide as Hs; cbn [negb]; [|by exists CF_ERR_STATE, r, out, 0].
  destruct (emit_message (message 8 1 1) out 1024 0 8 5) as (out' & -> & Hl & Hsent & _); try done; [message_by ltac:(zdm)|].
  cbn [mbind option_bind]; change (is_ok CF_OK) with true; do 4 eexists; by split.
Qed.

(** The header of a call. *)
Definition read_call : RM (Z * Z * Z * Z * Z) :=
  root ← cf_cp_root;
  kind ← cf_cp_uint root 0 2;
  c ← cf_cp_field root 0;
  question ← cf_cp_uint c 0 4; method ← cf_cp_uint c 4 2; interface ← cf_cp_uint c 8 8;
  target ← cf_cp_field c 0; cap ← cf_cp_uint target 0 4;
  mret (kind, question, method, interface, cap).

(** One frame with a call of this question and method on the capability. *)
Definition calls (out : list Z) (n : Z) (question method cap : Z) : Prop :=
  exists body rest, out = frame_of [body] ++ rest /\ n = zlen (frame_of [body]) /\
    segs_ok CF_CAPNP_MESSAGE_MAX [body] /\
    forall rd, reading [body] CF_CAPNP_TRAVERSAL_WORDS rd ->
      wp read_call (λ x _, x = (2, question, method, CF_REGISTRATION_INTERFACE, cap)) rd.

Lemma unregister_spec r out cap n :
  rpc_typed r -> CF_RPC_TX_MAX <= cap -> CF_RPC_TX_MAX <= zlen out ->
  exists rc r' out' n', cf_rpc_unregister (Some r) (Some out) cap (Some n) = Some (rc, Some r', Some out', Some n') /\
    zlen out' = zlen out /\ 0 <= n' <= CF_RPC_TX_MAX /\
    if bool_decide (rpc_state r = CF_RPC_REGISTERED) && have_capability r
    then rc = CF_OK /\ r' = set_rpc_state r CF_RPC_UNREGISTERING /\ calls out' n' 2 1 (capability r)
    else rc = CF_ERR_STATE /\ r' = r /\ out' = out /\ n' = 0.
Proof.
  intros (Hcap & _) Hc Hz; unfold cf_rpc_unregister; rewrite with_output_ok by done; unfold CF_RPC_TX_MAX in *.
  case_bool_decide as Hs; cbn [negb orb andb]; [|by exists CF_ERR_STATE, r, out, 0].
  destruct (have_capability r) eqn:Hh; cbn [negb orb andb]; [|by exists CF_ERR_STATE, r, out, 0].
  destruct (emit_spec (payload ← call (capability r) 2 1; cf_cp_struct payload 0 0) out 1024 0 (λ body, forall rd,
    reading [body] CF_CAPNP_TRAVERSAL_WORDS rd ->
    wp read_call (λ x _, x = (2, 2, 1, CF_REGISTRATION_INTERFACE, capability r)) rd))
    as (body & rest & -> & Hl & Hn & Hsg & Hread); [done|done| |].
  { intros b Hb; unfold call, message; unfold u32_ok in Hcap.
    bsteps ltac:(change ((1024 - 8) / 8) with 127; lia); eexists _, _; split; [eassumption|]; intros rd Hrd.
    match goal with H : built _ _ _ _ _ |- _ => pose proof (built_len _ _ _ _ _ H) as Hlen; clear H end.
    unfold read_call, CF_CAPNP_TRAVERSAL_WORDS in *.
    rsteps ltac:(unfold CF_CAPNP_DEPTH_MAX, CF_REGISTRATION_INTERFACE; simpl (256 ^ _); lia); done. }
  cbn [mbind option_bind]; change (is_ok CF_OK) with true; do 4 eexists; split; [done|]; split; [done|].
  split; [split; [apply zlen_nonneg|done]|]; split; [done|]; split; [done|]; by exists body, rest.
Qed.

(** ** Sessions as a machine *)

Lemma zero_rpc_inv : rpc_inv zero_rpc.
Proof. split; [|by split]; split; [done|]; split; [done|]; split; [done|left]. Qed.

(** A call of the session's owner, with its arguments. *)
Inductive rpc_call :=
| RBegin | RRegister (cred : cf_credentials) (opt : cf_rpc_options) | RUnregister | RReceive (frame : cf_bytes).

Definition call_typed (c : rpc_call) : Prop :=
  match c with
  | RBegin | RUnregister => True
  | RRegister cred opt => exists tag nul secret pad ver ar ip, typed_args cred opt tag nul secret pad ver ar ip
  | RReceive frame => exists l, denotes frame l
  end.

Definition run_call (c : rpc_call) (r : cf_rpc) (out : list Z)
    : option (cf_result * option cf_rpc * option (list Z) * option Z) :=
  match c with
  | RBegin => cf_rpc_begin (Some r) (Some out) CF_RPC_TX_MAX (Some 0)
  | RRegister cred opt => cf_rpc_register (Some r) (Some cred) (Some opt) (Some out) CF_RPC_TX_MAX (Some 0)
  | RUnregister => cf_rpc_unregister (Some r) (Some out) CF_RPC_TX_MAX (Some 0)
  | RReceive frame => cf_rpc_receive (Some r) frame (Some out) CF_RPC_TX_MAX (Some 0)
  end.

(** The states a run goes through, the last one first, and the session. *)
Fixpoint run_calls (cs : list rpc_call) (r : cf_rpc) (out : list Z) (seen : list cf_rpc_state)
    : option (list cf_rpc_state * cf_rpc) :=
  match cs with
  | [] => Some (seen, r)
  | c :: cs =>
      '(_, r', out', _) ← run_call c r out; r' ← r'; out' ← out';
      run_calls cs r' out' (rpc_state r' :: seen)
  end.

(** How far a session has come. *)
Definition rank (s : cf_rpc_state) : Z :=
  match s with
  | CF_RPC_IDLE => 0 | CF_RPC_BOOTSTRAPPING => 1 | CF_RPC_READY => 2 | CF_RPC_REGISTERING => 3
  | CF_RPC_REGISTERED => 4 | CF_RPC_UNREGISTERING => 5
  | CF_RPC_CLOSED | CF_RPC_REJECTED | CF_RPC_FAILED => 6
  end.

(** A call keeps the state, moves it one step, or ends the session. *)
Definition rpc_edge (s s' : cf_rpc_state) : Prop :=
  s' = s \/ rank s' = rank s + 1 \/ rank s < 6 /\ (s' = CF_RPC_FAILED \/ s = CF_RPC_REGISTERING /\ s' = CF_RPC_REJECTED).

Lemma accepts_edge s s' : rpc_accepts s s' -> rpc_edge s s'.
Proof. intros [| | |]; unfold rpc_edge; cbn [rank]; [by right; left|by right; left| |by right; left]; right; right; split; [done|by right]. Qed.

Lemma register_step r cred opt out :
  rpc_inv r -> call_typed (RRegister cred opt) -> CF_RPC_TX_MAX <= zlen out ->
  exists rc r' out' n, run_call (RRegister cred opt) r out = Some (rc, Some r', Some out', Some n) /\
    zlen out' = zlen out /\ 0 <= n <= CF_RPC_TX_MAX /\ rpc_inv r' /\ rpc_edge (rpc_state r) (rpc_state r') /\
    (rpc_state r = CF_RPC_IDLE -> r' = r).
Proof.
  intros (Hr & Hc & Hcl) (tag & nul & secret & pad & ver & ar & ip & Hta) Hz; cbn [run_call].
  pose proof (register_spec r cred opt _ _ _ _ _ _ _ out CF_RPC_TX_MAX 0 Hr Hta ltac:(done) Hz) as H; cbv zeta in H.
  destruct (negb (bool_decide (rpc_state r = CF_RPC_READY) && have_capability r)) eqn:E.
  { do 4 eexists; split; [exact H|]; split; [done|]; split; [done|]; split; [done|]; split; [by left|done]. }
  apply negb_false_iff, andb_true_iff in E as [Hs%bool_decide_eq_true_1 Hh].
  destruct (negb (args_valid cred opt tag nul ver ar ip)).
  { do 4 eexists; split; [exact H|]; split; [done|]; split; [done|]; split; [done|]; split; [by left|done]. }
  destruct H as (body & rest & -> & Hl & Hn & _); do 4 eexists; split; [done|]; split; [done|].
  split; [split; [apply zlen_nonneg|done]|].
  split; [split; [done|]; split; [done|discriminate]|]; split; [right; left; by rewrite Hs|congruence].
Qed.

(** A session only leaves its first state by its first call. *)
Lemma call_step c r out :
  rpc_inv r -> call_typed c -> CF_RPC_TX_MAX <= zlen out ->
  exists rc r' out' n, run_call c r out = Some (rc, Some r', Some out', Some n) /\
    zlen out' = zlen out /\ 0 <= n <= CF_RPC_TX_MAX /\ rpc_inv r' /\ rpc_edge (rpc_state r) (rpc_state r') /\
    (rpc_state r = CF_RPC_IDLE -> c <> RBegin -> r' = r).
Proof.
  intros Hi Hc Hz; pose proof Hi as (Hr & Hcont & Hcl); destruct c as [|cred opt| |frame]; cbn [run_call].
  - destruct (begin_spec r out CF_RPC_TX_MAX 0 ltac:(done) Hz) as (rc & r' & out' & n & -> & Hl & Hn & H).
    exists rc, r', out', n; split; [done|]; split; [done|]; split; [done|]; case_bool_decide as Hs.
    + destruct H as (_ & -> & _); split; [split; [done|]; split; [exact I|discriminate]|]; split; [right; left; by rewrite Hs|done].
    + destruct H as (_ & -> & _); split; [done|]; split; [by left|done].
  - destruct (register_step r cred opt out Hi Hc Hz) as (rc & r' & out' & n & H); exists rc, r', out', n; tauto.
  - destruct (unregister_spec r out CF_RPC_TX_MAX 0 Hr ltac:(done) Hz) as (rc & r' & out' & n & -> & Hl & Hn & H).
    exists rc, r', out', n; split; [done|]; split; [done|]; split; [done|].
    destruct (bool_decide _ && _) eqn:E; destruct H as (_ & -> & _); [|split; [done|]; split; [by left|done]].
    apply andb_true_iff in E as [Hs%bool_decide_eq_true_1 Hh]; unfold rpc_content in Hcont; rewrite Hs in Hcont.
    split; [split; [done|]; split; [done|discriminate]|]; split; [right; left; by rewrite Hs|congruence].
  - destruct Hc as (l & Hf).
    destruct (receive_spec r frame l out CF_RPC_TX_MAX 0 Hi Hf ltac:(done) Hz) as (rc & r' & out' & n & -> & Hi' & Hl & Hn & H).
    exists rc, r', out', n; split; [done|]; split; [done|]; split; [done|]; split; [done|]; unfold received in H.
    destruct (rpc_dead (rpc_state r)) eqn:Hd; [destruct H as (_ & -> & _); split; [by left|done]|].
    split; [|intros Hs; by rewrite Hs in Hd]; destruct rc; [destruct H as [Ha _]; by apply accepts_edge|..]; destruct H as [-> _]; right; right.
    all: split; [destruct (rpc_state r); done|by left].
Qed.

(** Consecutive states, the last one first, follow the edges. *)
Fixpoint follows (seen : list cf_rpc_state) : Prop :=
  match seen with
  | s' :: ((s :: _) as rest) => rpc_edge s s' /\ follows rest
  | _ => True
  end.

Lemma run_calls_spec cs : forall r out seen,
  rpc_inv r -> Forall call_typed cs -> CF_RPC_TX_MAX <= zlen out -> follows (rpc_state r :: seen) ->
  exists seen' r', run_calls cs r out (rpc_state r :: seen) = Some (rpc_state r' :: seen', r') /\
    rpc_inv r' /\ follows (rpc_state r' :: seen') /\ length seen' = (length seen + length cs)%nat.
Proof.
  induction cs as [|c cs IH]; intros r out seen Hi Hc Hz Hf; cbn [run_calls].
  - exists seen, r; split; [done|]; split; [done|]; split; [done|]; cbn [length]; lia.
  - apply Forall_cons in Hc as [Hc Hcs].
    destruct (call_step c r out Hi Hc Hz) as (rc & r' & out' & n & -> & Hl & _ & Hi' & He & _); cbn [mbind option_bind].
    destruct (IH r' out' (rpc_state r :: seen) Hi' Hcs) as (seen' & r2 & -> & Hi2 & Hf2 & Hlen); [lia|done|].
    exists seen', r2; split; [done|]; split; [done|]; split; [done|]; rewrite Hlen; cbn [length]; lia.
Qed.

(** ** Properties *)

(** C31. On any frame, from any session that satisfies the invariant and with an
    output buffer of the documented size, [cf_rpc_receive] returns, touches no
    byte outside its objects and keeps the invariant.  A session that expects
    nothing is left alone with [CF_ERR_STATE].  Otherwise either the answer is
    accepted, the session moves along the protocol and the output is a Finish
    message (followed by a Release when the session closes), or the session is
    failed with the code returned and the output is empty, one Abort or one
    Finish. *)
Theorem receive_total r frame l out cap n :
  rpc_inv r -> denotes frame l -> CF_RPC_TX_MAX <= cap -> CF_RPC_TX_MAX <= zlen out ->
  exists rc r' out' n', cf_rpc_receive (Some r) frame (Some out) cap (Some n) =
      Some (rc, Some r', Some out', Some n') /\ rpc_inv r' /\
    zlen out' = zlen out /\ 0 <= n' <= CF_RPC_TX_MAX /\ received r out rc r' out' n'.
Proof. apply receive_spec. Qed.

Lemma receive_total_witness :
  exists rc r' out' n',
    cf_rpc_receive (Some (set_rpc_state zero_rpc CF_RPC_BOOTSTRAPPING)) (view rpc_bootstrap)
      (Some sample_out) 1024 (Some 7) = Some (rc, Some r', Some out', Some n') /\ rpc_inv r' /\
    zlen out' = zlen sample_out /\ 0 <= n' <= CF_RPC_TX_MAX /\
    received (set_rpc_state zero_rpc CF_RPC_BOOTSTRAPPING) sample_out rc r' out' n'.
Proof.
  apply (receive_total _ (view rpc_bootstrap) rpc_bootstrap sample_out 1024 7).
  - split; [split; [split; [discriminate|reflexivity]|split; [reflexivity|split; [reflexivity|left]]]|split; [exact I|discriminate]].
  - apply denotes_view; bytes_by_compute.
  - discriminate.
  - vm_compute; discriminate.
Defined.

(** C32. [cf_rpc_register] in every case: without a bootstrapped session it
    reports [CF_ERR_STATE], with invalid arguments [CF_ERR_ARGUMENT], both
    leaving session and output alone; valid arguments always fit the 1024-byte
    output, and the peer that opens the message finds exactly the method, the
    capability, the credentials and the options, each byte for byte. *)
Theorem register_request r cred opt tag nul secret pad ver ar ip out cap n :
  rpc_typed r -> typed_args cred opt tag nul secret pad ver ar ip ->
  CF_RPC_TX_MAX <= cap -> CF_RPC_TX_MAX <= zlen out ->
  let ready := bool_decide (rpc_state r = CF_RPC_READY) && have_capability r in
  let call := cf_rpc_register (Some r) (Some cred) (Some opt) (Some out) cap (Some n) in
  if negb ready then call = Some (CF_ERR_STATE, Some r, Some out, Some 0)
  else if negb (args_valid cred opt tag nul ver ar ip) then call = Some (CF_ERR_ARGUMENT, Some r, Some out, Some 0)
  else exists body rest, call = Some (CF_OK, Some (set_rpc_state r CF_RPC_REGISTERING),
           Some (frame_of [body] ++ rest), Some (zlen (frame_of [body]))) /\
         zlen (frame_of [body] ++ rest) = zlen out /\ zlen (frame_of [body]) <= CF_RPC_TX_MAX /\
         registers body r cred opt tag secret ver ar ip.
Proof. apply register_spec. Qed.

Definition sample_session : cf_rpc :=
  set_rpc_state (set_capability zero_rpc 37 true) CF_RPC_READY.

Lemma register_request_witness :
  exists body rest,
    cf_rpc_register (Some sample_session) (Some sample_credentials) (Some sample_options) (Some sample_out) 1024 (Some 0) =
      Some (CF_OK, Some (set_rpc_state sample_session CF_RPC_REGISTERING),
            Some (frame_of [body] ++ rest), Some (zlen (frame_of [body]))) /\
    zlen (frame_of [body] ++ rest) = zlen sample_out /\ zlen (frame_of [body]) <= CF_RPC_TX_MAX /\
    registers body sample_session sample_credentials sample_options (lit "0123456789abcdef0123456789abcdef")
      (seqZ 0 36) (lit "esp-cf-test") (lit "host-test") [192; 0; 2; 1].
Proof.
  apply (register_request sample_session sample_credentials sample_options
           (lit "0123456789abcdef0123456789abcdef") 0 (seqZ 0 36) (replicate 92 0)
           (lit "esp-cf-test") (lit "host-test") [192; 0; 2; 1] sample_out 1024 0).
  - split; [split; [discriminate|reflexivity]|split; [reflexivity|split; [reflexivity|left]]].
  - split.
    + split; [reflexivity|split; [reflexivity|bytes_by_compute]].
    + split; [reflexivity|split; [discriminate|split; [bytes_by_compute|reflexivity]]].
    + split; [reflexivity|bytes_by_compute].
    + split; [reflexivity|bytes_by_compute].
    + split; [|split]; apply denotes_view; bytes_by_compute.
    + split; [split; [discriminate|reflexivity]|split; split; first [discriminate|reflexivity]].
  - discriminate.
  - vm_compute; discriminate.
Defined.

(** C29. The answer of a server to the registration, laid out in one segment as
    [registration_reply] builds it, with any connection id and location of up to
    64 bytes: a registering session that receives it is registered with exactly
    that id and location, NUL terminated, and sends one Finish, if and only if
    the id has 16 bytes, the location is printable and has 1 to 31, and the
    tunnel is remotely managed.  Otherwise the session fails, with a format error
    or, where the tunnel is managed locally, as unsupported, keeps nothing of the
    details, and sends one Abort. *)
Theorem registration_accepted r ident loc managed server out cap n :
  rpc_inv r -> rpc_state r = CF_RPC_REGISTERING ->
  zlen ident <= 64 -> bytes_ok ident -> zlen loc <= 64 -> bytes_ok loc ->
  1024 <= zlen server -> bytes_ok server -> CF_RPC_TX_MAX <= cap -> CF_RPC_TX_MAX <= zlen out ->
  exists frame rest rc r' out' n',
    emit (registration_reply ident loc managed) server 1024 0 = Some (CF_OK, frame ++ rest, zlen frame) /\
    cf_rpc_receive (Some r) (Bytes (Some (frame ++ rest)) (zlen frame)) (Some out) cap (Some n) =
      Some (rc, Some r', Some out', Some n') /\
    if registration_valid ident loc && managed then rc = CF_OK /\ registered_as r r' ident loc /\ sends out' n' [4]
    else rc = (if registration_valid ident loc then CF_ERR_UNSUPPORTED else CF_ERR_FORMAT) /\
      r' = failed_with (set_managed r managed) rc /\ sends out' n' [1].
Proof.
  intros (Hr & _) Hs Hi Hib Hl Hlb Hsv Hsvb Hc Hz.
  destruct (emit_spec (registration_reply ident loc managed) server 1024 0 (λ body, forall rd,
    reading [body] CF_CAPNP_TRAVERSAL_WORDS rd ->
    wp (read_answer r) (λ v _, exists rc r', details_taken r ident loc managed rc r' /\ v = if is_ok rc then VAnswer 1 false r' else VFail rc true r') rd))
    as (body & rest & He & _ & _ & Hsg & Hread); [unfold CF_CAPNP_MESSAGE_MAX; lia|done| |].
  { intros b Hb; destruct (reply_spec r ident loc managed (zlen server) b Hi Hib Hl Hlb Hr Hs Hb) as (x & b' & Hx & body & w & Hbt & Hq).
    exists x, b'; split; [done|]; by exists body, w. }
  destruct (read_message (Bytes (Some (frame_of [body] ++ rest)) (zlen (frame_of [body]))) body
    (CpReader no_segments 0 0 CF_OK) Hsg) as (rdr & Hinit & Hrd).
  { split; [|by split; [|exists rest]]; destruct Hsg as (_ & Hok & _); by apply frame_of_bytes. }
  destruct (Hread rdr Hrd) as (v & rdr' & Hv & rc & r' & Htaken & ->).
  assert (forall P : cf_rpc -> list Z -> Z -> Prop,
    (exists r2 out2 n2, (if is_ok rc then '(rc, out, n) ← finish 1 true out CF_RPC_TX_MAX 0; Some (rc, r', out, n) else fail r' rc true out) = Some (rc, r2, out2, n2) /\ P r2 out2 n2) ->
    exists r2 out2 n2, cf_rpc_receive (Some r) (Bytes (Some (frame_of [body] ++ rest)) (zlen (frame_of [body]))) (Some out) cap (Some n) = Some (rc, Some r2, Some out2, Some n2) /\ P r2 out2 n2) as Hrun.
  { intros P (r2 & out2 & n2 & E & HP); exists r2, out2, n2; split; [|done].
    unfold cf_rpc_receive; rewrite with_output_ok by done; rewrite Hs, !bool_decide_eq_false_2 by done; cbn [orb].
    rewrite Hinit; cbn [mbind option_bind]; change (is_ok CF_OK) with true; cbn [negb]; rewrite Hv; cbn [mbind option_bind].
    revert E; destruct (is_ok rc) eqn:Erc; [|by intros ->].
    assert (bool_decide (rpc_state r' = CF_RPC_CLOSED) = false) as Hopen.
    { apply is_ok_true in Erc as ->; revert Htaken; unfold details_taken; destruct (negb _); [by intros []|]; destruct (negb _); [by intros []|]; intros (_ & ? & ? & _ & _ & ->); done. }
    cbn [negb]; destruct (finish 1 true out CF_RPC_TX_MAX 0) as [[[rc1 out1] n1]|]; [|done]; cbn [mbind option_bind]; intros [= -> -> -> ->]; by rewrite Hopen, andb_false_r. }
  exists (frame_of [body]), rest, rc; destruct (Hrun (λ r2 out2 n2, if registration_valid ident loc && managed then rc = CF_OK /\ registered_as r r2 ident loc /\ sends out2 n2 [4]
    else rc = (if registration_valid ident loc then CF_ERR_UNSUPPORTED else CF_ERR_FORMAT) /\ r2 = failed_with (set_managed r managed) rc /\ sends out2 n2 [1]))
    as (r2 & out2 & n2 & E & HP); [|by exists r2, out2, n2].
  revert Htaken; unfold details_taken; destruct (registration_valid ident loc), managed; cbn [negb andb]; intros [-> Ht].
  1: { destruct (finish_spec 1 true out CF_RPC_TX_MAX 0) as (out1 & Hf & _ & Hs1); [done|done|]; rewrite Hf; by exists r', out1, 40. }
  all: rewrite Ht; match goal with |- context [fail ?r ?e true ?o] => destruct (fail_spec r e true o Hz) as (out1 & n1 & Hf & _ & _ & Hs1) end; by do 3 eexists.
Qed.

Lemma registration_accepted_witness :
  let r := set_rpc_state (set_capability zero_rpc 37 true) CF_RPC_REGISTERING in
  exists frame rest rc r' out' n',
    emit (registration_reply (seqZ 0 16) (lit "SOF") true) sample_out 1024 0 = Some (CF_OK, frame ++ rest, zlen frame) /\
    cf_rpc_receive (Some r) (Bytes (Some (frame ++ rest)) (zlen frame)) (Some sample_out) 1024 (Some 0) =
      Some (rc, Some r', Some out', Some n') /\
    rc = CF_OK /\ registered_as r r' (seqZ 0 16) (lit "SOF") /\ sends out' n' [4].
Proof.
  apply (registration_accepted (set_rpc_state (set_capability zero_rpc 37 true) CF_RPC_REGISTERING)
           (seqZ 0 16) (lit "SOF") true sample_out sample_out 1024 0).
  - split; [split; [split; [discriminate|reflexivity]|split; [reflexivity|split; [reflexivity|left]]]|split; [reflexivity|discriminate]].
  - reflexivity.
  - vm_compute; discriminate.
  - bytes_by_compute.
  - vm_compute; discriminate.
  - bytes_by_compute.
  - vm_compute; discriminate.
  - bytes_by_compute.
  - discriminate.
  - vm_compute; discriminate.
Defined.

(** C30. A session driven by any sequence of calls with any arguments, from the
    zeroed object on: every call returns, the invariant holds at the end, and
    the states passed through follow the protocol: bootstrap, registration,
    registered, unregistering, closed, with failure and rejection as the only
    other moves and no way back. *)
Theorem session_machine cs out :
  Forall call_typed cs -> CF_RPC_TX_MAX <= zlen out ->
  exists seen r, run_calls cs zero_rpc out [CF_RPC_IDLE] = Some (rpc_state r :: seen, r) /\
    rpc_inv r /\ follows (rpc_state r :: seen) /\ length seen = length cs.
Proof.
  intros Hc Hz; destruct (run_calls_spec cs zero_rpc out []) as (seen & r & H & Hi & Hf & Hl); try done; [apply zero_rpc_inv|].
  by exists seen, r.
Qed.

Lemma session_machine_witness :
  exists seen r, run_calls [RBegin; RReceive (view rpc_bootstrap); RUnregister] zero_rpc sample_out [CF_RPC_IDLE]
      = Some (rpc_state r :: seen, r) /\
    rpc_inv r /\ follows (rpc_state r :: seen) /\ length seen = 3%nat.
Proof.
  apply (session_machine [RBegin; RReceive (view rpc_bootstrap); RUnregister] sample_out).
  - constructor; [exact I|]; constructor; [exists rpc_bootstrap; apply denotes_view; bytes_by_compute|]; constructor; [exact I|constructor].
  - vm_compute; discriminate.
Defined.
