(* ===== verification/Dns.v ===== *)
(** The DNS stub codec (src/protocol/cf_dns.c): queries, compressed names and
    answers of the edge discovery. *)
From S2P Require Export CString.

Definition CF_EDGE_DISCOVERY : list Z := cstring "_v2-origintunneld._tcp.argotunnel.com".
Definition CF_EDGE_PORT : Z := 7844.
Definition CF_DNS_PACKET_MAX : Z := 1232.
Definition CF_DNS_RECORD_MAX : Z := 16.
Definition CF_DNS_NAME_MAX : Z := 253.

(** [cf_dns_type]: an [int] that is one of these when it is valid. *)
Definition CF_DNS_A : Z := 1.
Definition CF_DNS_SRV : Z := 33.

Record cf_dns_record := DnsRecord {
  target : list Z;           (* char[CF_DNS_NAME_MAX + 1] *)
  ip : list Z;               (* uint8_t[4] *)
  priority : Z; weight : Z; port : Z;
  ttl : Z
}.

Record cf_dns_answer := DnsAnswer {
  records : list cf_dns_record;   (* [CF_DNS_RECORD_MAX] *)
  count : Z
}.

Definition zero_record : cf_dns_record := DnsRecord (replicate 254 0) (replicate 4 0) 0 0 0 0.
Definition zero_answer : cf_dns_answer := DnsAnswer (replicate 16 zero_record) 0.

(** Big-endian integers at [p + i]. *)
Definition be16 (p : cf_bytes) (i : Z) : option Z :=
  a ← bget p i; b ← bget p (i + 1); Some (u16 (Z.lor (Z.shiftl a 8) b)).
Definition be32 (p : cf_bytes) (i : Z) : option Z :=
  a ← be16 p i; b ← be16 p (i + 2); Some (Z.lor (u32 (Z.shiftl a 16)) b).

Definition put16 (p : list Z) (i n : Z) : option (list Z) :=
  p ← wr p i (u8 (Z.shiftr n 8)); wr p (i + 1) (u8 n).

Definition lower (c : Z) : Z := if (65 <=? c) && (c <=? 90) then u8 (c + 32) else c.

Definition name_char (c : Z) : bool :=
  ((97 <=? c) && (c <=? 122)) || ((48 <=? c) && (c <=? 57)) || (c =? 45) || (c =? 95).

Definition suffix : list Z := cstring ".argotunnel.com".

Definition cf_dns_edge_target (name : option (list Z)) : option bool :=
  match name with
  | None => Some false
  | Some name =>
      n ← strlen name;
      if negb ((zlen suffix - 1 <? n) && (n <=? CF_DNS_NAME_MAX)) then Some false
      else streq (drop (Z.to_nat (n - (zlen suffix - 1))) name) suffix
  end.

(** ** Queries *)

(** [while (start < i) out[offset++] = lower(name[start++])]; [k] is [i - start]. *)
Fixpoint query_label (name : list Z) (k : nat) (start offset : Z) (out : list Z) : option (Z * Z * list Z) :=
  match k with
  | O => Some (start, offset, out)
  | S k' => c ← rd name start; out ← wr out offset (lower c); query_label name k' (start + 1) (offset + 1) out
  end.

(** The loop over the name; [k] is [n + 1 - i]. *)
Fixpoint query_loop (name : list Z) (n : Z) (k : nat) (i label start offset : Z) (out : list Z)
    : option (cf_result * Z * list Z) :=
  match k with
  | O => Some (CF_OK, offset, out)
  | S k' =>
      dot ← (if i =? n then Some true else c ← rd name i; Some (c =? 46));
      if (dot : bool) then
        if (label =? 0) || (63 <? label) then Some (CF_ERR_ARGUMENT, offset, out) else
        out ← wr out offset (u8 label);
        '(start, offset, out) ← query_label name (Z.to_nat (i - start)) start (offset + 1) out;
        query_loop name n k' (i + 1) 0 (i + 1) offset out
      else
        c ← rd name i;
        if negb (name_char (lower c)) then Some (CF_ERR_ARGUMENT, offset, out)
        else query_loop name n k' (i + 1) (label + 1) start offset out
  end.

Definition cf_dns_query (name : option (list Z)) (type id : Z) (out : option (list Z)) (cap : Z) (written : option Z)
    : option (cf_result * option (list Z) * option Z) :=
  match written with
  | None => Some (CF_ERR_ARGUMENT, out, None)
  | Some _ =>
    match name, out with
    | Some name, Some out =>
      if negb (type =? CF_DNS_A) && negb (type =? CF_DNS_SRV) then Some (CF_ERR_ARGUMENT, Some out, Some 0) else
      n ← strlen name;
      if (n =? 0) || (CF_DNS_NAME_MAX <? n) || (cap <? n + 29) then Some (CF_ERR_LIMIT, Some out, Some 0) else
      out ← zero_fill out 0 12;
      out ← put16 out 0 id;
      out ← wr out 2 1; out ← wr out 5 1; out ← wr out 11 1;
      '(rc, offset, out) ← query_loop name n (Z.to_nat (n + 1)) 0 0 0 12 out;
      if negb (is_ok rc) then Some (rc, Some out, Some 0) else
      out ← wr out offset 0;
      let offset := offset + 1 in
      out ← put16 out offset (u16 type);
      out ← put16 out (offset + 2) 1;
      let offset := offset + 4 in
      out ← zero_fill out offset 11;
      out ← put16 out (offset + 1) 41;
      out ← put16 out (offset + 3) CF_DNS_PACKET_MAX;
      Some (CF_OK, Some out, Some (offset + 11))
    | _, _ => Some (CF_ERR_ARGUMENT, out, Some 0)
    end
  end.

(** ** Answers *)

(** [while (n--)] over a label; [k] is [n]. *)
Fixpoint name_label (packet : cf_bytes) (k : nat) (at_ used : Z) (out : list Z)
    : option (cf_result * Z * Z * list Z) :=
  match k with
  | O => Some (CF_OK, at_, used, out)
  | S k' =>
      c ← bget packet at_;
      let c := lower c in
      if negb (name_char c) then Some (CF_ERR_FORMAT, at_ + 1, used, out) else
      out ← wr out used c;
      name_label packet k' (at_ + 1) (used + 1) out
  end.

(** The [while (true)] of [read_name], with fuel; the result is the code, the
    text buffer and [*offset]. *)
Fixpoint name_loop (fuel : nat) (packet : cf_bytes) (offset at_ used resume hops labels : Z) (out : list Z)
    : option (cf_result * Z * list Z) :=
  match fuel with
  | O => None
  | S fuel =>
      if len packet <=? at_ then Some (CF_ERR_TRUNCATED, offset, out) else
      n ← bget packet at_;
      let at_ := at_ + 1 in
      if Z.land n 192 =? 192 then
        if len packet <=? at_ then Some (CF_ERR_TRUNCATED, offset, out) else
        low ← bget packet at_;
        let target := Z.land n 63 * 256 + low in
        let at_ := at_ + 1 in
        if (16 <? hops + 1) || (at_ - 2 <=? target) then Some (CF_ERR_FORMAT, offset, out) else
        name_loop fuel packet offset target used (if resume =? 0 then at_ else resume) (hops + 1) labels out
      else if 63 <? n then Some (CF_ERR_FORMAT, offset, out)
      else if n =? 0 then
        out ← wr out used 0;
        Some (CF_OK, if negb (resume =? 0) then resume else at_, out)
      else if (127 <? labels + 1) || (len packet - at_ <? n)
              || (CF_DNS_NAME_MAX <? used + n + (if negb (used =? 0) then 1 else 0))
      then Some (CF_ERR_LIMIT, offset, out) else
        out ← (if negb (used =? 0) then wr out used 46 else Some out);
        let used := if negb (used =? 0) then used + 1 else used in
        '(rc, at_, used, out) ← name_label packet (Z.to_nat n) at_ used out;
        if negb (is_ok rc) then Some (rc, offset, out) else
        name_loop fuel packet offset at_ used resume hops (labels + 1) out
  end.

(** Enough for 16 pointers, 127 labels and the end. *)
Definition NAME_FUEL : nat := 145.

Definition read_name (packet : cf_bytes) (offset : Z) (out : list Z) : option (cf_result * Z * list Z) :=
  name_loop NAME_FUEL packet offset offset 0 0 0 0 out.

(** Proofs never unfold the loop. *)
#[global] Strategy opaque [name_loop].

Definition set_record (a : cf_dns_answer) (r : cf_dns_record) : option cf_dns_answer :=
  if count a <? zlen (records a)
  then Some (DnsAnswer (<[Z.to_nat (count a) := r]> (records a)) (count a + 1)) else None.

(** The part of the loop body that fills [out->records[out->count]]: the code,
    [at] and the record. *)
Definition fill_record (packet : cf_bytes) (type at_ len_ end_ ttl_ : Z) (record : cf_dns_record)
    : option (cf_result * cf_dns_record) :=
  let record := DnsRecord (target record) (ip record) (priority record) (weight record) (port record) ttl_ in
  if type =? CF_DNS_A then
    if negb (len_ =? 4) then Some (CF_ERR_FORMAT, record) else
    m ← ptr packet; bs ← slice m at_ 4;
    addr ← blit (ip record) 0 bs;
    let record := DnsRecord (target record) addr (priority record) (weight record) (port record) (ttl record) in
    a ← rd (ip record) 0;
    if (a =? 0) || (224 <=? a) || (a =? 127) then Some (CF_ERR_FORMAT, record) else Some (CF_OK, record)
  else
    if len_ <? 7 then Some (CF_ERR_FORMAT, record) else
    prio ← be16 packet at_; wt ← be16 packet (at_ + 2); po ← be16 packet (at_ + 4);
    let at_ := at_ + 6 in
    '(rc, at_, text) ← read_name packet at_ (target record);
    let record := DnsRecord text (ip record) prio wt po (ttl record) in
    if negb (is_ok rc) then Some (rc, record) else
    edge ← cf_dns_edge_target (Some (target record));
    if negb (at_ =? end_) || negb (port record =? CF_EDGE_PORT) || negb edge
    then Some (CF_ERR_UNSUPPORTED, record) else Some (CF_OK, record).

(** The loop over the records; [k] is [count - i].  An error leaves the loop for
    [failed]. *)
Fixpoint records_loop (packet : cf_bytes) (name : list Z) (type answers : Z) (k : nat) (i at_ : Z)
    (owner : list Z) (out : cf_dns_answer) : option (cf_result * Z * cf_dns_answer) :=
  match k with
  | O => Some (CF_OK, at_, out)
  | S k' =>
      '(rc, at_, owner) ← read_name packet at_ owner;
      if negb (is_ok rc) then Some (rc, at_, out) else
      if len packet <? at_ + 10 then Some (CF_ERR_TRUNCATED, at_, out) else
      record_type ← be16 packet at_; record_class ← be16 packet (at_ + 2);
      ttl ← be32 packet (at_ + 4); len_ ← be16 packet (at_ + 8);
      let at_ := at_ + 10 in
      if len packet - at_ <? len_ then Some (CF_ERR_TRUNCATED, at_, out) else
      let end_ := at_ + len_ in
      same ← (if (i <? answers) && (record_type =? type) && (record_class =? 1) then streq owner name else Some false);
      if (same : bool) then
        if CF_DNS_RECORD_MAX <=? count out then Some (CF_ERR_LIMIT, at_, out) else
        record ← records out !! Z.to_nat (count out);
        '(rc, record) ← fill_record packet type at_ len_ end_ ttl record;
        if negb (is_ok rc) then Some (rc, at_, out) else
        out ← set_record out record;
        records_loop packet name type answers k' (i + 1) end_ owner out
      else records_loop packet name type answers k' (i + 1) end_ owner out
  end.

(** [owner0] is what the automatic array [owner] holds at the start. *)
Definition cf_dns_parse (owner0 : list Z) (packet : cf_bytes) (name : option (list Z)) (type id : Z)
    (out : option cf_dns_answer) : option (cf_result * option cf_dns_answer) :=
  match out with
  | None => Some (CF_ERR_ARGUMENT, None)
  | Some _ =>
    let out := zero_answer in
    match ptr packet, name with
    | Some _, Some name =>
      if negb (type =? CF_DNS_A) && negb (type =? CF_DNS_SRV) then Some (CF_ERR_ARGUMENT, Some out) else
      if len packet <? 12 then Some (CF_ERR_TRUNCATED, Some out) else
      if CF_DNS_PACKET_MAX <? len packet then Some (CF_ERR_LIMIT, Some out) else
      ident ← be16 packet 0; flags ← bget packet 2; questions ← be16 packet 4;
      if negb (ident =? id) || negb (Z.land flags 248 =? 128) || negb (questions =? 1)
      then Some (CF_ERR_FORMAT, Some out) else
      if negb (Z.land flags 2 =? 0) then Some (CF_ERR_TRUNCATED, Some out) else
      code ← bget packet 3;
      if negb (Z.land code 15 =? 0) then Some (CF_ERR_STATE, Some out) else
      '(rc, at_, owner) ← read_name packet 12 owner0;
      if negb (is_ok rc) then Some (rc, Some out) else
      same ← streq owner name;
      if negb same || (len packet <? at_ + 4) then Some (CF_ERR_FORMAT, Some out) else
      qtype ← be16 packet at_; qclass ← be16 packet (at_ + 2);
      if negb (qtype =? type) || negb (qclass =? 1) then Some (CF_ERR_FORMAT, Some out) else
      let at_ := at_ + 4 in
      answers ← be16 packet 6; authority ← be16 packet 8; additional ← be16 packet 10;
      let total := answers + authority + additional in
      if 64 <? total then Some (CF_ERR_LIMIT, Some out) else
      '(rc, at_, out) ← records_loop packet name type answers (Z.to_nat total) 0 at_ owner out;
      if negb (is_ok rc) then Some (rc, Some zero_answer) else
      if negb (at_ =? len packet) then Some (CF_ERR_FORMAT, Some zero_answer) else
      Some (if negb (count out =? 0) then CF_OK else CF_ERR_STATE, Some out)
    | _, _ => Some (CF_ERR_ARGUMENT, Some out)
    end
  end.

(** ** Names

    A name is a list of labels; on the wire each label is preceded by its
    length. *)
Definition label_ok (l : list Z) : bool :=
  (1 <=? zlen l) && (zlen l <=? 63) && forallb (λ c, name_char (lower c)) l.

Definition wire_label (l : list Z) : list Z := zlen l :: map lower l.
Definition wire_labels (ls : list (list Z)) : list Z := concat (map wire_label ls).

(** The text of a name. *)
Definition dotted (ls : list (list Z)) : list Z :=
  match ls with [] => [] | l :: ls => l ++ concat (map (cons 46) ls) end.

(** The labels of a text; [p] is the part of the current label seen so far. *)
Fixpoint labels_from (p y : list Z) : option (list (list Z)) :=
  match y with
  | [] => if label_ok p then Some [p] else None
  | c :: y =>
      if c =? 46 then if label_ok p then cons p <$> labels_from [] y else None
      else if name_char (lower c) then labels_from (p ++ [c]) y else None
  end.

Definition labels_of (text : list Z) : option (list (list Z)) := labels_from [] text.

(** The question for a name. *)
Definition be_bytes (n : Z) : list Z := [u8 (Z.shiftr n 8); u8 n].
Definition query_ref (ls : list (list Z)) (type id : Z) : list Z :=
  be_bytes id ++ [1; 0; 0; 1; 0; 0; 0; 0; 0; 1] ++ wire_labels ls ++ [0] ++
  be_bytes (u16 type) ++ [0; 1] ++ [0; 0; 41; 4; 208; 0; 0; 0; 0; 0; 0].

Example query_gold :
  cf_dns_query (Some CF_EDGE_DISCOVERY) CF_DNS_SRV 0x1234 (Some (replicate 66 255)) 66 (Some 0) =
    Some (CF_OK, Some [
      0x12; 0x34; 0x01; 0x00; 0x00; 0x01; 0x00; 0x00; 0x00; 0x00; 0x00; 0x01; 0x11; 0x5f; 0x76; 0x32;
      0x2d; 0x6f; 0x72; 0x69; 0x67; 0x69; 0x6e; 0x74; 0x75; 0x6e; 0x6e; 0x65; 0x6c; 0x64; 0x04; 0x5f;
      0x74; 0x63; 0x70; 0x0a; 0x61; 0x72; 0x67; 0x6f; 0x74; 0x75; 0x6e; 0x6e; 0x65; 0x6c; 0x03; 0x63;
      0x6f; 0x6d; 0x00; 0x00; 0x21; 0x00; 0x01; 0x00; 0x00; 0x29; 0x04; 0xd0; 0x00; 0x00; 0x00; 0x00;
      0x00; 0x00], Some 66).
Proof. vm_compute. reflexivity. Qed.

Definition gold_dns_srv : list Z := [
  0x12; 0x34; 0x81; 0x80; 0x00; 0x01; 0x00; 0x02; 0x00; 0x00; 0x00; 0x00; 0x11; 0x5f; 0x76; 0x32;
  0x2d; 0x6f; 0x72; 0x69; 0x67; 0x69; 0x6e; 0x74; 0x75; 0x6e; 0x6e; 0x65; 0x6c; 0x64; 0x04; 0x5f;
  0x74; 0x63; 0x70; 0x0a; 0x61; 0x72; 0x67; 0x6f; 0x74; 0x75; 0x6e; 0x6e; 0x65; 0x6c; 0x03; 0x63;
  0x6f; 0x6d; 0x00; 0x00; 0x21; 0x00; 0x01; 0xc0; 0x0c; 0x00; 0x21; 0x00; 0x01; 0x00; 0x01; 0x51;
  0x80; 0x00; 0x21; 0x00; 0x01; 0x00; 0x01; 0x1e; 0xa4; 0x07; 0x72; 0x65; 0x67; 0x69; 0x6f; 0x6e;
  0x31; 0x02; 0x76; 0x32; 0x0a; 0x61; 0x72; 0x67; 0x6f; 0x74; 0x75; 0x6e; 0x6e; 0x65; 0x6c; 0x03;
  0x63; 0x6f; 0x6d; 0x00; 0xc0; 0x0c; 0x00; 0x21; 0x00; 0x01; 0x00; 0x01; 0x51; 0x80; 0x00; 0x21;
  0x00; 0x02; 0x00; 0x01; 0x1e; 0xa4; 0x07; 0x72; 0x65; 0x67; 0x69; 0x6f; 0x6e; 0x32; 0x02; 0x76;
  0x32; 0x0a; 0x61; 0x72; 0x67; 0x6f; 0x74; 0x75; 0x6e; 0x6e; 0x65; 0x6c; 0x03; 0x63; 0x6f; 0x6d;
  0x00].

Definition sample_stack : list Z := replicate 254 170.

Example parse_gold :
  match cf_dns_parse sample_stack (view gold_dns_srv) (Some CF_EDGE_DISCOVERY) CF_DNS_SRV 0x1234 (Some zero_answer) with
  | Some (CF_OK, Some a) =>
      count a = 2 /\
      (λ r, (take 27 (target r), port r, priority r, ttl r)) <$> take 2 (records a) =
        [(cstring "region1.v2.argotunnel.com" ++ [0], 7844, 1, 86400);
         (cstring "region2.v2.argotunnel.com" ++ [0], 7844, 2, 86400)]
  | _ => False
  end.
Proof. vm_compute. split; reflexivity. Qed.

(** *** Queries *)

Lemma wr_mid a x c v : wr (a ++ x :: c) (zlen a) v = Some (a ++ v :: c).
Proof. by apply (blit_app a [x] c [v]). Qed.

Lemma query_label_spec p : forall x r base mid tail,
  zlen mid = zlen p ->
  query_label (x ++ p ++ r) (length p) (zlen x) (zlen base) (base ++ mid ++ tail) =
    Some (zlen x + zlen p, zlen base + zlen p, base ++ map lower p ++ tail).
Proof.
  induction p as [|c p IH]; intros x r base mid tail Hm.
  - destruct mid; [|rewrite zlen_cons, zlen_nil in Hm; pose proof (zlen_nonneg mid); lia].
    cbn [length query_label]; change (zlen []) with 0; by rewrite !Z.add_0_r.
  - destruct mid as [|y mid]; [rewrite zlen_cons, zlen_nil in Hm; pose proof (zlen_nonneg p); lia|].
    rewrite !zlen_cons in Hm; cbn [length query_label app].
    rewrite <- (Z.add_0_r (zlen x)) at 1; rewrite rd_app_r by done.
    change (rd (c :: p ++ r) 0) with (Some c); cbn [mbind option_bind].
    rewrite wr_mid; cbn [mbind option_bind].
    specialize (IH (x ++ [c]) r (base ++ [lower c]) mid tail ltac:(lia)).
    rewrite !zlen_app, <- !app_assoc in IH; change (zlen [_]) with 1 in IH; cbn [app] in IH.
    rewrite IH, zlen_cons; cbn [map app]; f_equal; f_equal; f_equal; lia.
Qed.

Lemma label_len l : label_ok l = true -> 1 <= zlen l <= 63.
Proof. unfold label_ok; intros H; bool_to_prop; lia. Qed.

(** A label ends: its length and its bytes are stored. *)
Lemma query_cut {A} x p r base t m tail (K : Z -> list Z -> option A) :
  label_ok p = true -> zlen m = zlen p ->
  (out ← wr (base ++ t :: m ++ tail) (zlen base) (u8 (zlen p));
   '(start, offset, out) ← query_label (x ++ p ++ r) (Z.to_nat (zlen x + zlen p - zlen x)) (zlen x) (zlen base + 1) out;
   K offset out) = K (zlen base + 1 + zlen p) ((base ++ wire_label p) ++ tail).
Proof.
  intros Hp Hm; pose proof (label_len _ Hp) as Hl.
  rewrite wr_mid; cbn [mbind option_bind]; rewrite (wrap_small 8) by (simpl; lia).
  replace (Z.to_nat (zlen x + zlen p - zlen x)) with (length p) by (unfold zlen; lia).
  pose proof (query_label_spec p x r (base ++ [zlen p]) m tail Hm) as Hq.
  rewrite zlen_app, <- !app_assoc in Hq; change (zlen [_]) with 1 in Hq; cbn [app] in Hq.
  rewrite Hq; cbn [mbind option_bind]; unfold wire_label; by rewrite <- app_assoc.
Qed.

Lemma cut_label (p y tail : list Z) : zlen p + zlen y + 1 <= zlen tail ->
  exists t m r, tail = t :: m ++ r /\ zlen m = zlen p /\ zlen y <= zlen r.
Proof.
  intros Ht; destruct tail as [|t tail]; [zlia|]; rewrite zlen_cons in Ht.
  destruct (cut_at tail 0 (zlen p)) as (a & m & r & -> & Ha & Hm); [lia|zlia|zlia|].
  destruct a; [|zlia]; exists t, m, r; split; [done|]; split; [done|]; cbn [app] in *; zlia.
Qed.

Lemma zlen_wire_label l : zlen (wire_label l) = 1 + zlen l.
Proof. unfold wire_label; rewrite zlen_cons; unfold zlen; by rewrite length_map. Qed.

(** The names of a text are its labels between dots. *)
Lemma query_loop_spec y : forall x p base tail rest n,
  n = zlen (x ++ p ++ y) -> forallb (λ c, name_char (lower c)) p = true -> zlen p + zlen y + 1 <= zlen tail ->
  exists o out', query_loop (x ++ p ++ y ++ 0 :: rest) n (S (length y))
      (zlen x + zlen p) (zlen p) (zlen x) (zlen base) (base ++ tail) =
    Some (if labels_from p y is Some _ then CF_OK else CF_ERR_ARGUMENT, o, out') /\ zlen out' = zlen (base ++ tail) /\
    forall ls, labels_from p y = Some ls ->
      o = zlen base + zlen p + zlen y + 1 /\
      out' = base ++ wire_labels ls ++ drop (length p + length y + 1) tail.
Proof.
  induction y as [|c y IH]; intros x p base tail rest n Hn Hp Ht; destruct (cut_label _ _ _ Ht) as (t & m & r & -> & Hm & Hr);
    pose proof (zlen_nonneg p).
  - cbn [length query_loop labels_from app]; rewrite app_nil_r in Hn; rewrite Hn, zlen_app, Z.eqb_refl; cbn [mbind option_bind].
    unfold label_ok; rewrite Hp, andb_true_r; destruct (_ && _) eqn:Hl.
    + replace ((zlen p =? 0) || (63 <? zlen p)) with false by lia.
      rewrite query_cut by (first [done|unfold label_ok; by rewrite Hp, andb_true_r]).
      do 2 eexists; split; [done|]; split; [rewrite !zlen_app, zlen_wire_label, zlen_cons, zlen_app; lia|].
      intros ls [= <-]; split; [rewrite zlen_nil; lia|].
      unfold wire_labels; cbn [map concat]; rewrite app_nil_r, <- app_assoc; do 2 f_equal.
      replace (length p + 0 + 1)%nat with (S (length m)) by (unfold zlen in *; simpl; lia); cbn [drop].
      by rewrite drop_app_length.
    + replace ((zlen p =? 0) || (63 <? zlen p)) with true by lia; by do 2 eexists.
  - cbn [length]; remember (S (length y)) as k eqn:Hk; cbn [query_loop labels_from app].
    replace (zlen x + zlen p =? n) with false by (subst n; zlia).
    assert (rd (x ++ p ++ c :: y ++ 0 :: rest) (zlen x + zlen p) = Some c) as Hc.
    { rewrite app_assoc, <- zlen_app, <- (Z.add_0_r (zlen _)), rd_app_r by done; done. }
    rewrite Hc; cbn [mbind option_bind]; destruct (Z.eqb_spec c 46) as [->|Hdot].
    + unfold label_ok; rewrite Hp, andb_true_r; destruct (_ && _) eqn:Hl.
      * replace ((zlen p =? 0) || (63 <? zlen p)) with false by lia.
        rewrite query_cut by (first [done|unfold label_ok; by rewrite Hp, andb_true_r]).
        destruct (IH (x ++ p ++ [46]) [] (base ++ wire_label p) r rest n) as (o & out' & Heq & Hz & Hls); try rewrite <- Hk in Heq;
          [by rewrite <- !app_assoc|done|rewrite zlen_cons in Hr; rewrite zlen_nil; lia|].
        rewrite !zlen_app, zlen_wire_label, <- !app_assoc in Heq; change (zlen [46]) with 1 in Heq.
        rewrite zlen_nil in Heq; cbn [app] in Heq.
        replace (zlen x + (zlen p + 1) + 0) with (zlen x + zlen p + 1) in Heq by lia.
        replace (zlen x + (zlen p + 1)) with (zlen x + zlen p + 1) in Heq by lia.
        replace (zlen base + (1 + zlen p)) with (zlen base + 1 + zlen p) in Heq by lia.
        rewrite <- (app_assoc base), Heq; subst k.
        exists o, out'; split; [by destruct (labels_from [] y)|].
        split; [rewrite Hz, !zlen_app, zlen_wire_label, zlen_cons, zlen_app; lia|].
        intros ls; destruct (labels_from [] y) as [ls'|]; [|done]; intros [= <-].
        destruct (Hls ls' eq_refl) as [-> ->]; rewrite zlen_app, zlen_wire_label, zlen_cons, zlen_nil; split; [lia|].
        unfold wire_labels; cbn [map concat]; rewrite <- !app_assoc; do 3 f_equal.
        replace (length p + S (length y) + 1)%nat with (S (length m + (length y + 1))) by (unfold zlen in *; lia).
        cbn [drop length]; by rewrite drop_app_add.
      * replace ((zlen p =? 0) || (63 <? zlen p)) with true by lia; by do 2 eexists.
    + destruct (name_char (lower c)) eqn:Hch; cbn [negb]; [|by do 2 eexists].
      destruct (IH x (p ++ [c]) base (t :: m ++ r) rest n) as (o & out' & Heq & Hz & Hls); try rewrite <- Hk in Heq;
        [by rewrite <- !app_assoc|rewrite forallb_app, Hp; cbn [forallb]; by rewrite Hch|zlia|].
      rewrite zlen_app, <- !app_assoc in Heq; change (zlen [c]) with 1 in Heq; cbn [app] in Heq.
      rewrite Z.add_assoc in Heq; rewrite Heq; subst k; exists o, out'; split; [done|]; split; [done|].
      intros ls Hsome; destruct (Hls ls Hsome) as [-> ->]; split; [zlia|].
      rewrite length_app; cbn [length]; do 3 f_equal; lia.
Qed.

Lemma wr_at a x c o v : o = zlen a -> wr (a ++ x :: c) o v = Some (a ++ v :: c).
Proof. intros ->; apply wr_mid. Qed.

(** Store at a constant offset behind the bytes [p]. *)
Ltac wr_behind p :=
  lazymatch goal with
  | |- context [wr ?m ?o ?v] =>
      let E := fresh in
      eassert (wr m o v = Some _) as E by (apply (wr_at p); reflexivity);
      rewrite E; clear E; cbn [mbind option_bind app]
  end.

(** The fixed header of a query. *)
Lemma query_header out id :
  12 <= zlen out ->
  (out ← zero_fill out 0 12; out ← put16 out 0 id; out ← wr out 2 1; out ← wr out 5 1; wr out 11 1) =
    Some (be_bytes id ++ [1; 0; 0; 1; 0; 0; 0; 0; 0; 1] ++ drop 12 out).
Proof.
  intros H; unfold zero_fill; change (12 <? 0) with false; rewrite blit_0_intro by done; cbn [mbind option_bind].
  unfold put16; change (replicate (Z.to_nat 12) 0) with [0; 0; 0; 0; 0; 0; 0; 0; 0; 0; 0; 0]; cbn [length app].
  generalize (drop 12 out); intros tl; cbn [mbind option_bind].
  wr_behind (@nil Z); wr_behind [u8 (Z.shiftr id 8)]; wr_behind (be_bytes id).
  wr_behind (be_bytes id ++ [1; 0; 0]); by wr_behind (be_bytes id ++ [1; 0; 0; 1; 0; 0; 0; 0; 0]).
Qed.

Lemma blit_app_r a m k bs : 0 <= k -> blit (a ++ m) (zlen a + k) bs = app a <$> blit m k bs.
Proof.
  intros Hk; unfold blit; rewrite zlen_app; pose proof (zlen_nonneg a).
  replace (0 <=? zlen a + k) with true by lia; replace (0 <=? k) with true by lia; cbn [andb].
  replace (zlen a + k + zlen bs <=? zlen a + zlen m) with (k + zlen bs <=? zlen m) by lia.
  destruct (k + zlen bs <=? zlen m); [|done]; cbn [fmap option_fmap option_map]; f_equal.
  replace (Z.to_nat (zlen a + k)) with (length a + Z.to_nat k)%nat by (unfold zlen; lia).
  by rewrite take_app_add, <- Nat.add_assoc, drop_app_add, <- app_assoc.
Qed.

Lemma wr_app_r a m k v : 0 <= k -> wr (a ++ m) (zlen a + k) v = app a <$> wr m k v.
Proof. apply blit_app_r. Qed.

(** The same behind any bytes. *)
Ltac store p := rewrite <- ?Z.add_assoc, wr_app_r by done; wr_behind p; cbn [fmap option_fmap option_map mbind option_bind].

(** Type, class and the OPT record. *)
Lemma query_trailer a tl type :
  16 <= zlen tl ->
  (out ← wr (a ++ tl) (zlen a) 0; out ← put16 out (zlen a + 1) type; out ← put16 out (zlen a + 3) 1;
   out ← zero_fill out (zlen a + 5) 11; out ← put16 out (zlen a + 6) 41; put16 out (zlen a + 8) CF_DNS_PACKET_MAX) =
    Some (a ++ [0] ++ be_bytes type ++ [0; 1] ++ [0; 0; 41; 4; 208; 0; 0; 0; 0; 0; 0] ++ drop 16 tl).
Proof.
  intros Hl; do 16 (destruct tl as [|? tl]; [exfalso; zlia|]); clear Hl.
  unfold put16, zero_fill; rewrite <- (Z.add_0_r (zlen a)) at 1; change (11 <? 0) with false.
  change (replicate (Z.to_nat 11) 0) with [0; 0; 0; 0; 0; 0; 0; 0; 0; 0; 0].
  store (@nil Z); store [0]; store [0; u8 (Z.shiftr type 8)].
  store ([0] ++ be_bytes type); store ([0] ++ be_bytes type ++ [0]).
  rewrite blit_app_r by done.
  match goal with |- context [blit ?m 5 ?bs] =>
    let E := fresh in eassert (blit m 5 bs = Some _) as E
      by (apply (blit_app ([0] ++ be_bytes type ++ [0; 1]) [_; _; _; _; _; _; _; _; _; _; _]); reflexivity);
    rewrite E; clear E end; cbn [fmap option_fmap option_map mbind option_bind app].
  store ([0] ++ be_bytes type ++ [0; 1; 0]); store ([0] ++ be_bytes type ++ [0; 1; 0; 0]).
  store ([0] ++ be_bytes type ++ [0; 1; 0; 0; 41]); store ([0] ++ be_bytes type ++ [0; 1; 0; 0; 41; 4]).
  done.
Qed.

Lemma query_spec name text type id out cap w :
  cstr name text -> type = CF_DNS_A \/ type = CF_DNS_SRV -> cap <= zlen out ->
  exists rc out' n, cf_dns_query (Some name) type id (Some out) cap (Some w) = Some (rc, Some out', Some n) /\
    zlen out' = zlen out /\
    if (zlen text =? 0) || (CF_DNS_NAME_MAX <? zlen text) || (cap <? zlen text + 29)
    then rc = CF_ERR_LIMIT /\ out' = out /\ n = 0
    else match labels_of text with
         | None => rc = CF_ERR_ARGUMENT /\ n = 0
         | Some ls => rc = CF_OK /\ n = zlen text + 29 /\
             out' = query_ref ls type id ++ drop (length text + 29) out
         end.
Proof.
  intros Hs Ht Hcap; unfold cf_dns_query; replace (negb (type =? CF_DNS_A) && _) with false by (unfold CF_DNS_A, CF_DNS_SRV in *; lia).
  rewrite (strlen_spec _ _ Hs); cbn [mbind option_bind].
  destruct ((zlen text =? 0) || _ || _) eqn:Hlim; [by exists CF_ERR_LIMIT, out, 0|].
  unfold CF_DNS_NAME_MAX in *; pose proof (zlen_nonneg text).
  pose proof (query_header out id ltac:(lia)) as Hhead; revert Hhead.
  destruct (zero_fill out 0 12) as [o1|]; cbn [mbind option_bind]; [|done].
  destruct (put16 o1 0 id) as [o2|]; cbn [mbind option_bind]; [|done].
  destruct (wr o2 2 1) as [o3|]; cbn [mbind option_bind]; [|done].
  destruct (wr o3 5 1) as [o4|]; cbn [mbind option_bind]; [|done].
  intros ->; cbn [mbind option_bind]; destruct Hs as (rest & -> & _).
  set (head := be_bytes id ++ [1; 0; 0; 1; 0; 0; 0; 0; 0; 1]).
  assert (zlen (drop 12 out) = zlen out - 12) as Hd by (unfold zlen in *; rewrite length_drop; lia).
  destruct (query_loop_spec text [] [] head (drop 12 out) rest (zlen text)) as (o & out' & Hq & Hz & Hls);
    [done|done|rewrite zlen_nil; lia|].
  change (head ++ drop 12 out) with (be_bytes id ++ [1; 0; 0; 1; 0; 0; 0; 0; 0; 1] ++ drop 12 out) in Hq.
  replace (Z.to_nat (zlen text + 1)) with (S (length text)) by (unfold zlen; lia).
  change (zlen (@nil Z) + zlen (@nil Z)) with 0 in Hq; change (zlen (@nil Z)) with 0 in Hq; change (zlen head) with 12 in *.
  cbn [app] in Hq; cbn [app]; rewrite Hq; cbn [mbind option_bind].
  fold (labels_of text) in *; destruct (labels_of text) as [ls|].
  - destruct (Hls ls eq_refl) as [-> ->]; clear Hls; change (is_ok CF_OK) with true; cbn [negb].
    cbn [length] in *; change (zlen (@nil Z)) with 0; rewrite drop_drop in *.
    set (tl := drop (12 + (0 + length text + 1)) out) in *.
    assert (zlen tl = zlen out - 13 - zlen text) as Htl by (unfold tl, zlen in *; rewrite length_drop; lia).
    rewrite !zlen_app in Hz; change (zlen head) with 12 in Hz.
    pose proof (query_trailer (head ++ wire_labels ls) tl (u16 type) ltac:(lia)) as Htr; revert Htr.
    assert (zlen (head ++ wire_labels ls) = 13 + zlen text) as -> by (rewrite zlen_app; change (zlen head) with 12; lia).
    rewrite <- (app_assoc head).
    replace (12 + 0 + zlen text + 1) with (13 + zlen text) by lia; rewrite <- !(Z.add_assoc (13 + zlen text)); cbn [Z.add Pos.add].
    destruct (wr _ (13 + zlen text) 0) as [o1'|]; cbn [mbind option_bind]; [|done].
    destruct (put16 o1' _ _) as [o2'|]; cbn [mbind option_bind]; [|done].
    destruct (put16 o2' _ _) as [o3'|]; cbn [mbind option_bind]; [|done].
    destruct (zero_fill o3' _ _) as [o4'|]; cbn [mbind option_bind]; [|done].
    destruct (put16 o4' _ _) as [o5'|]; cbn [mbind option_bind]; [|done].
    change (1 + 4 + 3) with 8; intros ->; cbn [mbind option_bind]; do 3 eexists; split; [done|].
    split; [|split; [done|split; [lia|]]].
    + rewrite !zlen_app; change (zlen head) with 12; change (zlen (be_bytes _)) with 2.
      unfold tl; rewrite drop_drop; unfold zlen in *; rewrite length_drop; simpl; lia.
    + unfold query_ref, head, tl; rewrite drop_drop, <- !app_assoc; do 8 f_equal; lia.
  - change (is_ok CF_ERR_ARGUMENT) with false; cbn [negb]; do 3 eexists; split; [done|].
    split; [|done]; rewrite Hz, zlen_app; change (zlen head) with 12; lia.
Qed.

(** *** Compressed names

    What a name at [at_] denotes: its labels, where the reader resumes, and the
    number of pointers followed.  Pointers lead backward. *)
Inductive name_at (l : list Z) : Z -> list (list Z) -> Z -> Z -> Prop :=
| NameRoot at_ : rd l at_ = Some 0 -> name_at l at_ [] (at_ + 1) 0
| NameLabel at_ p ls e h :
    rd l at_ = Some (zlen p) -> 1 <= zlen p <= 63 -> at_ + 1 + zlen p <= zlen l ->
    sub l (at_ + 1) (zlen p) = p -> name_at l (at_ + 1 + zlen p) ls e h ->
    name_at l at_ (p :: ls) e h
| NamePointer at_ b c ls e h :
    rd l at_ = Some b -> 192 <= b -> rd l (at_ + 1) = Some c -> (b - 192) * 256 + c < at_ ->
    name_at l ((b - 192) * 256 + c) ls e h -> name_at l at_ ls (at_ + 2) (h + 1).

(** Append a label to a text. *)
Definition extend (s p : list Z) : list Z := if bool_decide (s = []) then p else s ++ 46 :: p.
Definition join (s : list Z) (ls : list (list Z)) : list Z := fold_left extend (map (map lower) ls) s.

Definition chars_ok (p : list Z) : bool := forallb (λ c, name_char (lower c)) p.

(** The names [read_name] takes, and the text it makes of them. *)
Definition name_ok (ls : list (list Z)) (h : Z) : Prop :=
  Forall (λ p, chars_ok p = true) ls /\ h <= 16 /\ zlen (join [] ls) <= CF_DNS_NAME_MAX.

Lemma for_bytes (P : Z -> bool) : forallb P (seqZ 0 256) = true -> forall n, is_byte n -> P n = true.
Proof.
  rewrite forallb_forall; intros H n Hn; apply H, list_elem_of_In, elem_of_seqZ; unfold is_byte in Hn; lia.
Qed.

Lemma pointer_bits n : is_byte n -> (Z.land n 192 =? 192) = (192 <=? n) /\ Z.land n 63 = n mod 64.
Proof.
  intros Hn; split; [|by apply (land_mask n 6)].
  apply eqb_true_iff; revert n Hn; apply for_bytes; vm_compute; reflexivity.
Qed.

Lemma lower_char_byte c : is_byte c -> is_byte (lower c).
Proof. unfold lower; intros Hc; destruct (_ && _); [by apply (wrap_range 8)|done]. Qed.

Lemma rd_at x y i : i = zlen x -> rd (x ++ y) i = rd y 0.
Proof. intros ->; rewrite <- (Z.add_0_r (zlen x)); by apply rd_app_r. Qed.

Lemma name_label_spec p : forall b x r s mid tail,
  denotes b (x ++ p ++ r) -> zlen mid = zlen p ->
  exists rc at_ used out', name_label b (length p) (zlen x) (zlen s) (s ++ mid ++ tail) = Some (rc, at_, used, out') /\
    zlen out' = zlen (s ++ mid ++ tail) /\
    if chars_ok p then rc = CF_OK /\ at_ = zlen x + zlen p /\ used = zlen s + zlen p /\ out' = s ++ map lower p ++ tail
    else rc = CF_ERR_FORMAT.
Proof.
  induction p as [|c p IH]; intros b x r s mid tail Hb Hm.
  - destruct mid; [|zlia]; do 4 eexists; split; [done|]; split; [done|]; split; [done|].
    rewrite zlen_nil; split; [lia|]; split; [lia|done].
  - destruct mid as [|y mid]; [zlia|]; rewrite !zlen_cons in Hm; cbn [length name_label].
    rewrite (denotes_get _ _ _ Hb) by zlia.
    rewrite (rd_at x) by done.
    change (rd ((c :: p) ++ r) 0) with (Some c); cbn [mbind option_bind chars_ok forallb].
    destruct (name_char (lower c)); cbn [negb andb]; [|by do 4 eexists].
    cbn [app]; rewrite wr_mid; cbn [mbind option_bind app].
    destruct (IH b (x ++ [c]) r (s ++ [lower c]) mid tail) as (rc & at_ & used & out' & Heq & Hz & Hok);
      [by rewrite <- app_assoc|lia|].
    rewrite !zlen_app, <- !app_assoc in Heq; change (zlen [_]) with 1 in Heq; cbn [app] in Heq.
    exists rc, at_, used, out'; split; [done|]; split; [rewrite Hz; zlia|].
    fold (chars_ok p); destruct (chars_ok p); [|done].
    destruct Hok as (-> & -> & -> & ->); rewrite <- app_assoc; split; [done|].
    split; [zlia|]; split; [zlia|done].
Qed.

Lemma zlen_lower p : zlen (map lower p) = zlen p.
Proof. unfold zlen; by rewrite length_map. Qed.

Lemma join_cons s p ls : join s (p :: ls) = join (extend s (map lower p)) ls.
Proof. done. Qed.

Lemma extend_len s p : 1 <= zlen p -> zlen (extend s p) = zlen s + zlen p + (if zlen s =? 0 then 0 else 1).
Proof.
  intros Hp; unfold extend; case_bool_decide as E; [subst s; rewrite zlen_nil; simpl; lia|].
  assert (zlen s <> 0) by (destruct s; [done|rewrite zlen_cons; pose proof (zlen_nonneg s); lia]).
  replace (zlen s =? 0) with false by lia; rewrite zlen_app, zlen_cons; lia.
Qed.

Lemma join_len s ls : zlen s <= zlen (join s ls).
Proof.
  revert s; induction ls as [|p ls IH]; intros s; [unfold join; cbn; lia|]; rewrite join_cons.
  etransitivity; [|apply IH]; unfold extend; case_bool_decide; [subst s; apply zlen_nonneg|].
  rewrite zlen_app, zlen_cons; pose proof (zlen_nonneg (map lower p)); lia.
Qed.

(** One label of the loop: the separator and the bytes. *)
Lemma step_label b l at_ p s tail labels :
  denotes b l -> 1 <= zlen p <= 63 -> 0 <= at_ -> at_ + zlen p <= zlen l -> sub l at_ (zlen p) = p ->
  zlen (extend s (map lower p)) <= CF_DNS_NAME_MAX -> 254 <= zlen (s ++ tail) -> 2 * labels <= zlen s + 1 ->
  exists out, (if negb (zlen s =? 0) then wr (s ++ tail) (zlen s) 46 else Some (s ++ tail)) = Some out /\
  exists rc at' used out', name_label b (length p) at_ (if negb (zlen s =? 0) then zlen s + 1 else zlen s) out =
      Some (rc, at', used, out') /\ zlen out' = zlen (s ++ tail) /\
    if chars_ok p
    then rc = CF_OK /\ at' = at_ + zlen p /\ used = zlen (extend s (map lower p)) /\
      (exists tail', out' = extend s (map lower p) ++ tail' /\ tail' = drop (length (extend s (map lower p))) (s ++ tail))
      /\ 2 * (labels + 1) <= used + 1
    else rc = CF_ERR_FORMAT.
Proof.
  intros Hb Hp Hat Hl Hsub Hext Hlen Hlab.
  destruct (cut_at l at_ (zlen p)) as (x & y & r & -> & <- & Hy); [lia|lia|lia|].
  rewrite <- Hy, sub_app in Hsub; subst y; clear Hy.
  pose proof (extend_len s (map lower p)) as Hel; rewrite zlen_lower in Hel; specialize (Hel (proj1 Hp)).
  unfold CF_DNS_NAME_MAX in *; unfold extend in *; case_bool_decide as Hs.
  - subst s; change (zlen [] =? 0) with true; cbn [negb]; eexists; split; [done|].
    cbn [app] in *; destruct (cut_at tail 0 (zlen p)) as (a & m & t & -> & Ha & Hm); [lia|lia|rewrite zlen_lower in Hext; lia|].
    destruct a; [|zlia]; cbn [app] in *.
    destruct (name_label_spec p b x r [] m t Hb Hm) as (rc & at' & used & out' & Heq & Hz & Hok).
    exists rc, at', used, out'; split; [exact Heq|]; split; [done|]; destruct (chars_ok p); [|done].
    destruct Hok as (-> & -> & -> & ->); split; [done|]; split; [done|]; rewrite zlen_lower, zlen_nil in *; split; [lia|].
    split; [|lia]; eexists; split; [done|]; rewrite length_map.
    replace (length p) with (length m) by (unfold zlen in *; lia); by rewrite drop_app_length.
  - assert (zlen s <> 0) as Hs0 by (destruct s; [done|rewrite zlen_cons; pose proof (zlen_nonneg s); lia]).
    replace (zlen s =? 0) with false in * by lia; cbn [negb]; rewrite zlen_app, zlen_cons, zlen_lower in Hext.
    rewrite zlen_app in Hlen; destruct tail as [|z tail]; [rewrite zlen_nil in Hlen; lia|].
    rewrite wr_mid; eexists; split; [done|]; rewrite zlen_cons in Hlen.
    destruct (cut_at tail 0 (zlen p)) as (a & m & t & -> & Ha & Hm); [lia|lia|lia|].
    destruct a; [|zlia]; cbn [app] in *.
    destruct (name_label_spec p b x r (s ++ [46]) m t Hb Hm) as (rc & at' & used & out' & Heq & Hz & Hok).
    rewrite zlen_app, <- !app_assoc in Heq; change (zlen [46]) with 1 in Heq; cbn [app] in Heq.
    exists rc, at', used, out'; split; [exact Heq|]; split; [rewrite Hz; zlia|]; destruct (chars_ok p); [|done].
    destruct Hok as (-> & -> & -> & ->); rewrite !zlen_app, !zlen_cons, zlen_lower, zlen_nil.
    split; [done|]; split; [done|]; split; [lia|].
    split; [|lia]; eexists; split; [by rewrite <- !app_assoc|].
    rewrite length_app; cbn [length]; rewrite length_map, drop_app_add; cbn [drop].
    replace (length p) with (length m) by (unfold zlen in *; lia); by rewrite drop_app_length.
Qed.

(** The state of the loop: the text so far is [s]; [tail] is the rest of the
    output array. *)
Record name_state (l : list Z) (at_ : Z) (s tail : list Z) (resume hops labels : Z) : Prop := {
  ns_at : 0 <= at_; ns_resume : 0 <= resume; ns_hops : 0 <= hops <= 16;
  ns_labels : 0 <= labels /\ 2 * labels <= zlen s + 1;
  ns_text : zlen s <= CF_DNS_NAME_MAX; ns_out : 254 <= zlen (s ++ tail)
}.

(** What the loop leaves in the array. *)
Definition name_out (s tail text : list Z) : list Z := text ++ 0 :: drop (S (length text)) (s ++ tail).

Definition resumed (resume e : Z) : Z := if negb (resume =? 0) then resume else e.

Lemma zlen_name_out s tail text : zlen text < zlen (s ++ tail) -> zlen (name_out s tail text) = zlen (s ++ tail).
Proof. unfold name_out; intros H; rewrite zlen_app, zlen_cons; unfold zlen in *; rewrite length_drop; lia. Qed.

Lemma step_root f b l offset at_ s tail resume hops labels :
  denotes b l -> name_state l at_ s tail resume hops labels -> rd l at_ = Some 0 ->
  name_loop (S f) b offset at_ (zlen s) resume hops labels (s ++ tail) =
    Some (CF_OK, resumed resume (at_ + 1), name_out s tail s).
Proof.
  intros Hb [] Hrd; pose proof (rd_inv _ _ _ Hrd); cbn [name_loop]; rewrite (denotes_len _ _ Hb).
  replace (zlen l <=? at_) with false by lia; rewrite (denotes_get b l at_ Hb), Hrd by lia; cbn [mbind option_bind].
  change (Z.land 0 192 =? 192) with false; change (63 <? 0) with false; cbv iota; change (0 =? 0) with true; cbv iota.
  unfold CF_DNS_NAME_MAX in *; destruct tail as [|x tail]; [rewrite app_nil_r in *; lia|].
  rewrite wr_mid; unfold name_out, resumed; cbn [mbind option_bind]; do 3 f_equal.
  replace (S (length s)) with (length s + 1)%nat by lia; by rewrite drop_app_add.
Qed.

Lemma step_pointer f b l offset at_ s tail resume hops labels x c :
  denotes b l -> name_state l at_ s tail resume hops labels ->
  rd l at_ = Some x -> 192 <= x -> rd l (at_ + 1) = Some c ->
  name_loop (S f) b offset at_ (zlen s) resume hops labels (s ++ tail) =
    if (16 <? hops + 1) || (at_ <=? (x - 192) * 256 + c) then Some (CF_ERR_FORMAT, offset, s ++ tail)
    else name_loop f b offset ((x - 192) * 256 + c) (zlen s) (resumed resume (at_ + 2)) (hops + 1) labels (s ++ tail).
Proof.
  intros Hb [] Hx H192 Hc; pose proof (rd_inv _ _ _ Hx); pose proof (rd_inv _ _ _ Hc).
  pose proof (rd_byte _ _ _ (denotes_bytes _ _ Hb) Hx) as Hbx; destruct (pointer_bits x Hbx) as [Hp Hl].
  cbn [name_loop]; rewrite (denotes_len _ _ Hb); replace (zlen l <=? at_) with false by lia.
  rewrite (denotes_get b l at_ Hb), (denotes_get b l (at_ + 1) Hb), Hx by lia; cbn [mbind option_bind]; rewrite Hp.
  replace (192 <=? x) with true by lia; replace (zlen l <=? at_ + 1) with false by lia; rewrite Hc; cbn [mbind option_bind].
  unfold is_byte in Hbx; rewrite Hl; replace (x mod 64) with (x - 192) by zdm.
  replace (at_ + 1 + 1) with (at_ + 2) by lia; replace (at_ + 2 - 2) with at_ by lia.
  unfold resumed; by destruct (resume =? 0).
Qed.

(** A label that fits. *)
Lemma step_fits f b l offset at_ p s tail resume hops labels :
  denotes b l -> name_state l at_ s tail resume hops labels ->
  rd l at_ = Some (zlen p) -> 1 <= zlen p <= 63 -> at_ + 1 + zlen p <= zlen l -> sub l (at_ + 1) (zlen p) = p ->
  zlen (extend s (map lower p)) <= CF_DNS_NAME_MAX ->
  if chars_ok p then
    let s' := extend s (map lower p) in let tail' := drop (length s') (s ++ tail) in
    name_loop (S f) b offset at_ (zlen s) resume hops labels (s ++ tail) =
      name_loop f b offset (at_ + 1 + zlen p) (zlen s') resume hops (labels + 1) (s' ++ tail') /\
    name_state l (at_ + 1 + zlen p) s' tail' resume hops (labels + 1) /\ zlen (s' ++ tail') = zlen (s ++ tail)
  else exists out', name_loop (S f) b offset at_ (zlen s) resume hops labels (s ++ tail) = Some (CF_ERR_FORMAT, offset, out') /\
    zlen out' = zlen (s ++ tail).
Proof.
  intros Hb [] Hx Hp Hl Hsub Hext.
  destruct (step_label b l (at_ + 1) p s tail labels) as (o1 & Ho1 & rc & at' & used & out' & Heq & Hz & Hok); try done; [lia|tauto|].
  pose proof (extend_len s (map lower p)) as Hel; rewrite zlen_lower in Hel; specialize (Hel ltac:(lia)).
  assert (name_loop (S f) b offset at_ (zlen s) resume hops labels (s ++ tail) =
    '(rc, at_, used, out) ← name_label b (length p) (at_ + 1) (if negb (zlen s =? 0) then zlen s + 1 else zlen s) o1;
    if negb (is_ok rc) then Some (rc, offset, out) else name_loop f b offset at_ used resume hops (labels + 1) out) as ->.
  { cbn [name_loop]; rewrite (denotes_len _ _ Hb); replace (zlen l <=? at_) with false by lia.
    rewrite (denotes_get b l at_ Hb), Hx by lia; cbn [mbind option_bind].
    destruct (pointer_bits (zlen p)) as [-> _]; [unfold is_byte; lia|].
    replace (192 <=? zlen p) with false by lia; replace (63 <? zlen p) with false by lia.
    replace (zlen p =? 0) with false by lia; unfold CF_DNS_NAME_MAX in *.
    replace (_ || _ || _) with false by (destruct (zlen s =? 0) eqn:E; cbn [negb]; lia).
    by rewrite Ho1; replace (Z.to_nat (zlen p)) with (length p) by (unfold zlen; lia). }
  rewrite Heq; cbn [mbind option_bind]; destruct (chars_ok p).
  - destruct Hok as (-> & -> & -> & (tail' & -> & ->) & Hlab); change (is_ok CF_OK) with true; cbv zeta; cbn [negb].
    split; [done|]; split; [|done]; split; try done; [lia| |lia]; split; [lia|done].
  - subst rc; change (is_ok CF_ERR_FORMAT) with false; cbn [negb]; by exists out'.
Qed.

Lemma join_ext_out s tail p ls :
  let s' := extend s p in zlen s' <= zlen (s ++ tail) ->
  name_out s' (drop (length s') (s ++ tail)) (join s' ls) = name_out s tail (join s' ls).
Proof.
  intros s' Hl; unfold name_out; do 2 f_equal; pose proof (join_len s' ls).
  assert (drop (S (length (join s' ls))) (s' ++ drop (length s') (s ++ tail)) =
          drop (S (length (join s' ls)) - length s') (drop (length s') (s ++ tail))) as ->
    by (rewrite drop_app_ge; [done|unfold zlen in *; lia]).
  rewrite drop_drop; f_equal; unfold zlen in *; lia.
Qed.

Lemma state_pointer l at_ s tail resume hops labels t :
  name_state l at_ s tail resume hops labels -> 0 <= t -> hops + 1 <= 16 ->
  name_state l t s tail (resumed resume (at_ + 2)) (hops + 1) labels.
Proof. intros [] Ht Hh; split; try done; [|lia]; unfold resumed; destruct (negb (resume =? 0)); lia. Qed.

(** The outcome of the loop: an error, or a name that is there. *)
Definition name_outcome (l : list Z) (offset at_ : Z) (s tail : list Z) (resume hops : Z) (rc : cf_result) (o : Z) (out' : list Z) : Prop :=
  match rc with
  | CF_OK => exists ls e h, name_at l at_ ls e h /\ Forall (λ p, chars_ok p = true) ls /\ 0 <= h /\ hops + h <= 16 /\
      zlen (join s ls) <= CF_DNS_NAME_MAX /\ o = resumed resume e /\ out' = name_out s tail (join s ls)
  | _ => o = offset
  end.

Lemma name_loop_sound f : forall b l offset at_ s tail resume hops labels,
  denotes b l -> name_state l at_ s tail resume hops labels ->
  (16 - hops) + (127 - labels) < Z.of_nat f ->
  exists rc o out', name_loop f b offset at_ (zlen s) resume hops labels (s ++ tail) = Some (rc, o, out') /\
    zlen out' = zlen (s ++ tail) /\ name_outcome l offset at_ s tail resume hops rc o out'.
Proof.
  induction f as [|f IH]; intros b l offset at_ s tail resume hops labels Hb Hs Hf.
  { exfalso; destruct Hs; unfold CF_DNS_NAME_MAX in *; lia. }
  pose proof (denotes_bytes _ _ Hb) as Hbl; pose proof Hs as [Hat _ Hh [Hl0 Hl1] Ht Ho]; unfold CF_DNS_NAME_MAX in Ht.
  assert (forall rc out', rc <> CF_OK -> zlen out' = zlen (s ++ tail) ->
    exists rc' o out'', Some (rc, offset, out') = Some (rc', o, out'') /\ zlen out'' = zlen (s ++ tail) /\
      name_outcome l offset at_ s tail resume hops rc' o out'') as Herr.
  { intros rc out' Hrc Hz; exists rc, offset, out'; split; [done|]; split; [done|]; by destruct rc. }
  destruct (Z.leb_spec (zlen l) at_) as [Hend|Hin].
  { cbn [name_loop]; rewrite (denotes_len _ _ Hb); replace (zlen l <=? at_) with true by lia; by apply Herr. }
  destruct (rd_Some l at_) as (x & Hx & _); [lia|]; pose proof (rd_byte _ _ _ Hbl Hx) as Hbx; unfold is_byte in Hbx.
  destruct (pointer_bits x Hbx) as [Hp192 _].
  destruct (Z.leb_spec 192 x) as [H192|H192].
  - destruct (rd l (at_ + 1)) as [c|] eqn:Hc; [|].
    + rewrite (step_pointer f b l offset at_ s tail resume hops labels x c Hb Hs Hx H192 Hc).
      destruct ((16 <? hops + 1) || _) eqn:E; [by apply Herr|]; apply orb_false_iff in E as [E1 E2].
      pose proof (rd_byte _ _ _ Hbl Hc) as Hbc; unfold is_byte in Hbc.
      destruct (IH b l offset ((x - 192) * 256 + c) s tail (resumed resume (at_ + 2)) (hops + 1) labels Hb)
        as (rc & o & out' & -> & Hz & Hout); [apply state_pointer; [done|lia|lia]|lia|].
      exists rc, o, out'; split; [done|]; split; [done|]; destruct rc; try done.
      destruct Hout as (ls & e & h & Hn & Hch & Hh0 & Hhops & Hlen & -> & ->).
      exists ls, (at_ + 2), (h + 1); split; [by apply (NamePointer l at_ x c ls e h); try done; lia|].
      split; [done|]; split; [lia|]; split; [lia|]; split; [done|]; split; [|done].
      unfold resumed; destruct (Z.eqb_spec resume 0); cbn [negb]; [|by replace (resume =? 0) with false by lia].
      by replace (at_ + 2 =? 0) with false by lia.
    + cbn [name_loop]; rewrite (denotes_len _ _ Hb); replace (zlen l <=? at_) with false by lia.
      rewrite (denotes_get b l at_ Hb), Hx by lia; cbn [mbind option_bind]; rewrite Hp192.
      replace (192 <=? x) with true by lia; destruct (Z.leb_spec (zlen l) (at_ + 1)); [by apply Herr|].
      destruct (rd_Some l (at_ + 1)) as (c & Hc' & _); [lia|congruence].
  - destruct (Z.eqb_spec x 0) as [->|Hx0].
    { rewrite (step_root f b l offset at_ s tail resume hops labels Hb Hs Hx).
      do 3 eexists; split; [done|]; split; [apply zlen_name_out; lia|].
      exists [], (at_ + 1), 0; split; [by constructor|]; split; [constructor|]; by split_and!; try lia. }
    destruct (decide (x <= 63 /\ at_ + 1 + x <= zlen l /\ zlen s + x + (if zlen s =? 0 then 0 else 1) <= 253)) as [(H63 & Hfit & Htext)|Hbad].
    + set (p := sub l (at_ + 1) x); assert (zlen p = x) as Hpl by (apply zlen_sub; lia).
      pose proof (extend_len s (map lower p)) as Hel; rewrite zlen_lower, Hpl in Hel; specialize (Hel ltac:(lia)).
      rewrite <- Hpl in Hx; pose proof (step_fits f b l offset at_ p s tail resume hops labels Hb Hs Hx) as Hstep.
      rewrite Hpl in Hstep; specialize (Hstep ltac:(lia) ltac:(lia) eq_refl ltac:(unfold CF_DNS_NAME_MAX; lia)).
      destruct (chars_ok p) eqn:Hch; cbv zeta in Hstep.
      * destruct Hstep as (-> & Hs' & Hz'); pose proof Hs' as [_ _ _ [_ Hl1'] Ht' _]; unfold CF_DNS_NAME_MAX in *.
        destruct (IH b l offset (at_ + 1 + x) _ _ resume hops (labels + 1) Hb Hs' ltac:(lia)) as (rc & o & out' & -> & Hz & Hout).
        exists rc, o, out'; split; [done|]; split; [lia|]; destruct rc; try done.
        destruct Hout as (ls & e & h & Hn & Hchs & Hh0 & Hhops & Hlen & -> & ->).
        exists (p :: ls), e, h; split; [apply NameLabel; [done|lia|lia|by rewrite Hpl|by rewrite Hpl]|]; split; [by constructor|].
        split; [done|]; split; [done|]; rewrite join_cons; split; [done|]; split; [done|]; apply join_ext_out; lia.
      * destruct Hstep as (out' & -> & Hz); by apply Herr.
    + cbn [name_loop]; rewrite (denotes_len _ _ Hb); replace (zlen l <=? at_) with false by lia.
      rewrite (denotes_get b l at_ Hb), Hx by lia; cbn [mbind option_bind]; rewrite Hp192.
      replace (192 <=? x) with false by lia; destruct (Z.ltb_spec 63 x); [by apply Herr|].
      replace (x =? 0) with false by lia; unfold CF_DNS_NAME_MAX; replace (_ || _ || _) with true; [by apply Herr|].
      destruct (zlen s =? 0); cbn [negb]; lia.
Qed.

Lemma name_loop_complete l at_ ls e h : name_at l at_ ls e h ->
  forall f b offset s tail resume hops labels,
  denotes b l -> name_state l at_ s tail resume hops labels ->
  Forall (λ p, chars_ok p = true) ls -> hops + h <= 16 -> zlen (join s ls) <= CF_DNS_NAME_MAX ->
  h + zlen ls < Z.of_nat f ->
  name_loop f b offset at_ (zlen s) resume hops labels (s ++ tail) =
    Some (CF_OK, resumed resume e, name_out s tail (join s ls)).
Proof.
  intros Hn; assert (0 <= h) as Hh by (induction Hn; lia); revert Hh.
  induction Hn as [at_ Hrd|at_ p ls e h Hrd Hp Hl Hsub Hn IH|at_ x c ls e h Hx H192 Hc Hback Hn IH];
    intros Hh f b offset s tail resume hops labels Hb Hs Hch Hhops Hlen Hf;
    (destruct f as [|f]; [exfalso; change (Z.of_nat 0) with 0 in Hf; zlia|]); pose proof Hs as [Hat _ Hh' _ Ht Ho].
  - by apply (step_root f b l).
  - apply Forall_cons in Hch as [Hcp Hch]; rewrite join_cons in *; rewrite zlen_cons in Hf.
    pose proof (join_len (extend s (map lower p)) ls).
    pose proof (step_fits f b l offset at_ p s tail resume hops labels Hb Hs Hrd Hp Hl Hsub ltac:(lia)) as Hstep.
    rewrite Hcp in Hstep; cbv zeta in Hstep; destruct Hstep as (-> & Hs' & Hz').
    rewrite (IH Hh) by first [done|lia]; do 2 f_equal; apply join_ext_out; unfold CF_DNS_NAME_MAX in *; lia.
  - assert (0 <= h) as Hh0 by (clear -Hn; induction Hn; lia).
    pose proof (rd_byte _ _ _ (denotes_bytes _ _ Hb) Hc) as Hbc; unfold is_byte in Hbc.
    rewrite (step_pointer f b l offset at_ s tail resume hops labels x c Hb Hs Hx H192 Hc).
    replace ((16 <? hops + 1) || _) with false by lia.
    rewrite (IH Hh0); [|done|apply state_pointer; [done|lia|lia]|done|lia|done|lia].
    do 3 f_equal; unfold resumed; destruct (Z.eqb_spec resume 0); cbn [negb]; [|by replace (resume =? 0) with false by lia].
    by replace (at_ + 2 =? 0) with false by lia.
Qed.

Lemma name_at_labels l at_ ls e h : name_at l at_ ls e h -> Forall (λ p, 1 <= zlen p <= 63) ls /\ 0 <= h.
Proof. induction 1 as [|at_ p ls e h _ Hp _ _ _ [IH Hh]|at_ b c ls e h _ _ _ _ _ [IH Hh]]; split; try done; [by constructor|lia]. Qed.

Lemma name_at_end l at_ ls e h : name_at l at_ ls e h -> at_ < e.
Proof. induction 1; lia. Qed.

Lemma join_count s ls :
  Forall (λ p, 1 <= zlen p <= 63) ls -> zlen s + 2 * zlen ls <= zlen (join s ls) + (if zlen s =? 0 then 1 else 0).
Proof.
  revert s; induction ls as [|p ls IH]; intros s Hl.
  - change (zlen []) with 0; unfold join; cbn; destruct (zlen s =? 0); lia.
  - apply Forall_cons in Hl as [Hp Hl]; rewrite join_cons, zlen_cons; specialize (IH (extend s (map lower p)) Hl).
    rewrite extend_len, zlen_lower in IH by (rewrite zlen_lower; lia).
    pose proof (zlen_nonneg s); revert IH; destruct (Z.eqb_spec (zlen s) 0); case_if; lia.
Qed.

Lemma name_at_det l at_ ls e h : name_at l at_ ls e h ->
  forall ls' e' h', name_at l at_ ls' e' h' -> ls = ls' /\ e = e' /\ h = h'.
Proof.
  induction 1 as [at_ H|at_ p ls e h H Hp Hl Hs Hn IH|at_ x c ls e h Hx H192 Hc Hb Hn IH]; intros ls' e' h' Hn';
    inversion Hn' as [? H'|? p' ls0 e0 h0 H' Hp' Hl' Hs' Hn0|? x' c' ls0 e0 h0 H' H192' Hc' Hb' Hn0]; subst;
    try (exfalso; match goal with A : rd l ?a = Some ?u, B : rd l ?a = Some ?v |- _ =>
      assert (u = v) by congruence; lia end).
  - done.
  - assert (zlen p = zlen p') as E by congruence; rewrite E in *.
    destruct (IH _ _ _ Hn0) as (-> & -> & ->); split; [congruence|done].
  - assert (x' = x) as -> by congruence; rewrite Hc in Hc'; injection Hc' as <-; by destruct (IH _ _ _ Hn0) as (-> & _ & ->).
Qed.

(** The loop with its fuel hidden from conversion. *)
Lemma read_name_eq : exists f, 143 < Z.of_nat f /\
  forall b at_ out, read_name b at_ out = name_loop f b at_ at_ 0 0 0 0 out.
Proof. exists NAME_FUEL; split; [by vm_compute|done]. Qed.

Lemma init_state l at_ out : 0 <= at_ -> 254 <= zlen out -> name_state l at_ [] out 0 0 0.
Proof. intros; split; try done; rewrite ?zlen_nil; unfold CF_DNS_NAME_MAX; try lia. Qed.

Lemma read_name_complete b l at_ ls e h out :
  denotes b l -> 0 <= at_ -> 254 <= zlen out -> name_at l at_ ls e h -> name_ok ls h ->
  read_name b at_ out = Some (CF_OK, e, name_out [] out (join [] ls)).
Proof.
  intros Hb Hat Ho Hn (Hch & Hh & Hlen); destruct (name_at_labels _ _ _ _ _ Hn) as [Hls _].
  pose proof (join_count [] ls Hls) as Hc; rewrite zlen_nil in Hc; change (0 =? 0) with true in Hc; cbv iota in Hc.
  unfold CF_DNS_NAME_MAX in *; destruct read_name_eq as (f & Hf & ->).
  apply (name_loop_complete l at_ ls e h Hn f b at_ [] out 0 0 0); first [done|by apply init_state|lia].
Qed.

Lemma read_name_spec b l at_ out :
  denotes b l -> 0 <= at_ -> 254 <= zlen out ->
  exists rc o out', read_name b at_ out = Some (rc, o, out') /\ zlen out' = zlen out /\
    match rc with
    | CF_OK => exists ls h, name_at l at_ ls o h /\ name_ok ls h /\ out' = name_out [] out (join [] ls)
    | _ => o = at_ /\ ~ exists ls e h, name_at l at_ ls e h /\ name_ok ls h
    end.
Proof.
  intros Hb Hat Ho; pose proof (λ ls e h, read_name_complete b l at_ ls e h out Hb Hat Ho) as Hcomp.
  destruct read_name_eq as (f & Hf & E); rewrite E.
  destruct (name_loop_sound f b l at_ at_ [] out 0 0 0 Hb) as (rc & o & out' & Heq & Hz & Hout);
    [by apply init_state|lia|].
  exists rc, o, out'; split; [exact Heq|]; split; [done|].
  assert (rc <> CF_OK -> ~ exists ls e h, name_at l at_ ls e h /\ name_ok ls h) as Hno.
  { intros Hrc (ls & e & h & Hn & Hok); specialize (Hcomp ls e h Hn Hok).
    rewrite E in Hcomp; change (zlen (@nil Z)) with 0 in Heq; cbn [app] in Heq; congruence. }
  unfold name_outcome in Hout; destruct rc; try (by split; [|by apply Hno]).
  destruct Hout as (ls & e & h & Hn & Hch & Hh & Hhops & Hlen & -> & ->); exists ls, h; split; [done|]; by split; [split|].
Qed.

(** *** Records *)

Definition byte_at (l : list Z) (i : Z) : Z := default 0 (rd l i).
Definition u16_at (l : list Z) (i : Z) : Z := byte_at l i * 256 + byte_at l (i + 1).
Definition u32_at (l : list Z) (i : Z) : Z := u16_at l i * 65536 + u16_at l (i + 2).

Lemma get_byte b l i : denotes b l -> 0 <= i < zlen l -> bget b i = Some (byte_at l i) /\ is_byte (byte_at l i).
Proof.
  intros Hb Hi; rewrite (denotes_get _ _ _ Hb) by done; unfold byte_at.
  destruct (rd_Some l i Hi) as (x & Hx & _); rewrite Hx; split; [done|].
  by apply (rd_byte l i); [eauto with cf|].
Qed.

Lemma be16_spec b l i : denotes b l -> 0 <= i -> i + 2 <= zlen l ->
  be16 b i = Some (u16_at l i) /\ 0 <= u16_at l i < 65536.
Proof.
  intros Hb Hi Hl; unfold be16, u16_at.
  destruct (get_byte b l i Hb) as [-> H0]; [lia|]; destruct (get_byte b l (i + 1) Hb) as [-> H1]; [lia|].
  unfold is_byte in *; cbn [mbind option_bind]; rewrite (lor_shiftl _ _ 8) by (simpl; lia).
  change (2 ^ 8) with 256; split; [f_equal; apply (wrap_small 16); simpl; lia|lia].
Qed.

Lemma be32_spec b l i : denotes b l -> 0 <= i -> i + 4 <= zlen l -> be32 b i = Some (u32_at l i).
Proof.
  intros Hb Hi Hl; unfold be32, u32_at.
  destruct (be16_spec b l i Hb) as [-> H0]; [lia|lia|]; destruct (be16_spec b l (i + 2) Hb) as [-> H1]; [lia|lia|].
  cbn [mbind option_bind]; rewrite (wrap_small 32) by (rewrite Z.shiftl_mul_pow2 by lia; simpl; lia).
  rewrite (lor_shiftl _ _ 16) by (simpl; lia); done.
Qed.

Lemma name_chars ls : Forall (λ p, chars_ok p = true) ls -> Forall (λ p, 1 <= zlen p <= 63) ls ->
  forall s, 0 ∉ s -> 0 ∉ join s ls.
Proof.
  induction 1 as [|p ls Hp _ IH]; intros Hl s Hs; [done|]; apply Forall_cons in Hl as [Hpl Hl].
  rewrite join_cons; apply IH; [done|].
  assert (0 ∉ map lower p) as H0.
  { intros (c & Hc & Hin)%list_elem_of_fmap; unfold chars_ok in Hp; rewrite forallb_forall in Hp.
    apply list_elem_of_In in Hin; specialize (Hp c Hin); rewrite <- Hc in Hp; done. }
  unfold extend; case_bool_decide; [done|]; rewrite not_elem_of_app, not_elem_of_cons; done.
Qed.

Lemma name_cstr l at_ ls e h s tail :
  name_at l at_ ls e h -> name_ok ls h -> cstr (name_out s tail (join [] ls)) (join [] ls).
Proof.
  intros Hn (Hch & _); destruct (name_at_labels _ _ _ _ _ Hn) as [Hl _].
  apply cstr_intro, name_chars; try done; apply not_elem_of_nil.
Qed.

(** The names of edge servers. *)
Definition edge_name (text : list Z) : Prop :=
  zlen text <= CF_DNS_NAME_MAX /\ exists host, host <> [] /\ text = host ++ lit ".argotunnel.com".

Lemma edge_target_spec s text :
  cstr s text -> exists r, cf_dns_edge_target (Some s) = Some r /\ (r = true <-> edge_name text).
Proof.
  intros Hs; unfold cf_dns_edge_target; rewrite (strlen_spec _ _ Hs); cbn [mbind option_bind].
  change (zlen suffix - 1) with 15; unfold edge_name; destruct ((15 <? zlen text) && _) eqn:E; cbn [negb].
  - assert (cstr (drop (Z.to_nat (zlen text - 15)) s) (drop (Z.to_nat (zlen text - 15)) text)) as Hd
      by (apply cstr_drop; [done|unfold zlen in *; lia]).
    assert (cstr suffix (lit ".argotunnel.com")) as Hsuf by (exists []; split; [done|no_nul]).
    eexists; split; [by apply (streq_spec _ _ _ _ Hd Hsuf)|]; rewrite bool_decide_eq_true; split.
    + intros Heq; split; [lia|]; exists (take (Z.to_nat (zlen text - 15)) text); rewrite <- Heq, take_drop; split; [|done].
      intros Hnil; apply (f_equal length) in Hnil; rewrite length_take in Hnil; unfold zlen in *; simpl in Hnil; lia.
    + intros (_ & host & _ & ->); rewrite drop_app_length'; [done|].
      rewrite zlen_app; change (zlen (lit ".argotunnel.com")) with 15; unfold zlen; lia.
  - exists false; split; [done|]; split; [done|]; intros (Hl & host & Hne & ->).
    rewrite zlen_app in *; change (zlen (lit ".argotunnel.com")) with 15 in *.
    destruct host as [|c host]; [done|]; rewrite zlen_cons in *; pose proof (zlen_nonneg host); unfold CF_DNS_NAME_MAX in *; lia.
Qed.

(** A resource record of a message. *)
Record rr := RR { rr_owner : list (list Z); rr_type : Z; rr_class : Z; rr_ttl : Z; rr_at : Z; rr_len : Z }.

Definition record_at (l : list Z) (at_ : Z) (r : rr) (e : Z) : Prop :=
  exists n h, name_at l at_ (rr_owner r) n h /\ name_ok (rr_owner r) h /\ n + 10 <= zlen l /\
    rr_type r = u16_at l n /\ rr_class r = u16_at l (n + 2) /\ rr_ttl r = u32_at l (n + 4) /\
    rr_len r = u16_at l (n + 8) /\ rr_at r = n + 10 /\ e = rr_at r + rr_len r /\ e <= zlen l.

Inductive records_at (l : list Z) : Z -> list rr -> Z -> Prop :=
| NoRecords at_ : records_at l at_ [] at_
| MoreRecords at_ r e rs e' : record_at l at_ r e -> records_at l e rs e' -> records_at l at_ (r :: rs) e'.

(** Addresses a peer may have. *)
Definition unicast (a : list Z) : Prop := byte_at a 0 <> 0 /\ byte_at a 0 < 224 /\ byte_at a 0 <> 127.

(** The answer a record stands for. *)
Inductive record_of (l : list Z) (type : Z) (r : rr) : cf_dns_record -> Prop :=
| RecordA : type = CF_DNS_A -> rr_len r = 4 -> unicast (sub l (rr_at r) 4) ->
    record_of l type r (DnsRecord (replicate 254 0) (sub l (rr_at r) 4) 0 0 0 (rr_ttl r))
| RecordSRV ls h : type = CF_DNS_SRV -> 7 <= rr_len r ->
    name_at l (rr_at r + 6) ls (rr_at r + rr_len r) h -> name_ok ls h ->
    u16_at l (rr_at r + 4) = CF_EDGE_PORT -> edge_name (join [] ls) ->
    record_of l type r (DnsRecord (name_out [] (replicate 254 0) (join [] ls)) (replicate 4 0)
      (u16_at l (rr_at r)) (u16_at l (rr_at r + 2)) CF_EDGE_PORT (rr_ttl r)).

Lemma fill_address b l at_ r :
  denotes b l -> rr_at r = at_ -> 0 <= at_ -> at_ + rr_len r <= zlen l ->
  exists rc rec, fill_record b CF_DNS_A at_ (rr_len r) (at_ + rr_len r) (rr_ttl r) zero_record = Some (rc, rec) /\
    match rc with
    | CF_OK => record_of l CF_DNS_A r rec
    | _ => forall rec', ~ record_of l CF_DNS_A r rec'
    end.
Proof.
  intros Hb Hr Hat Hlen; unfold fill_record.
  change (CF_DNS_A =? CF_DNS_A) with true; cbv iota zeta; destruct (Z.eqb_spec (rr_len r) 4) as [H4|H4]; cbn [negb].
  2: { do 2 eexists; split; [done|]; intros rec' Hrec; inversion Hrec; [done|discriminate]. }
  rewrite H4 in *; pose proof (denotes_bytes _ _ Hb) as Hbl.
  destruct (cut_at l at_ 4) as (x & y & z & -> & Hx & Hy); [lia..|]; destruct Hb as (_ & Hbn & Hp).
  destruct (ptr b) as [m|]; [|exfalso; apply (f_equal zlen) in Hp; rewrite !zlen_app, zlen_nil in Hp; pose proof (zlen_nonneg x); pose proof (zlen_nonneg z); lia].
  destruct Hp as [rest ->]; cbn [mbind option_bind].
  rewrite slice_sub by (rewrite ?zlen_app in *; pose proof (zlen_nonneg rest); lia); cbn [mbind option_bind].
  rewrite <- app_assoc, <- app_assoc; subst at_; rewrite <- Hy, <- Hx, sub_app; cbn [ip zero_record].
  rewrite blit_0_intro by (rewrite Hy; done); cbn [mbind option_bind ip].
  replace (drop (length y) (replicate 4 0)) with (@nil Z) by (replace (length y) with 4%nat by (unfold zlen in Hy; lia); done).
  rewrite app_nil_r; destruct y as [|a y]; [done|]; change (rd (a :: y) 0) with (Some a); cbn [mbind option_bind].
  assert (sub (x ++ (a :: y) ++ z) (rr_at r) 4 = a :: y) as Hsub by (rewrite <- Hx, <- Hy; apply sub_app).
  destruct ((a =? 0) || (224 <=? a) || (a =? 127)) eqn:Ea; do 2 eexists; (split; [done|]).
  + intros rec' Hrec; inversion Hrec as [_ _ Hu|]; [|discriminate]; rewrite Hsub in Hu; unfold unicast, byte_at in Hu.
    change (rd (a :: y) 0) with (Some a) in Hu; simpl in Hu; lia.
  + pose proof (RecordA (x ++ (a :: y) ++ z) CF_DNS_A r eq_refl H4) as HA; rewrite Hsub in HA; apply HA.
    unfold unicast, byte_at; change (rd (a :: y) 0) with (Some a); simpl; lia.
Qed.

Lemma fill_service b l at_ r :
  denotes b l -> rr_at r = at_ -> 0 <= at_ -> at_ + rr_len r <= zlen l ->
  exists rc rec, fill_record b CF_DNS_SRV at_ (rr_len r) (at_ + rr_len r) (rr_ttl r) zero_record = Some (rc, rec) /\
    match rc with
    | CF_OK => record_of l CF_DNS_SRV r rec
    | _ => forall rec', ~ record_of l CF_DNS_SRV r rec'
    end.
Proof.
  intros Hb Hr Hat Hlen; unfold fill_record; pose proof (λ a o, read_name_spec b l a o Hb) as Hrn.
  revert Hrn; generalize read_name; intros rn Hrn.
  change (CF_DNS_SRV =? CF_DNS_A) with false; cbv iota zeta; destruct (Z.ltb_spec (rr_len r) 7) as [H7|H7].
  { do 2 eexists; split; [done|]; intros rec' Hrec; inversion Hrec; [discriminate|lia]. }
  destruct (be16_spec b l at_ Hb) as [-> _]; [lia|lia|]; destruct (be16_spec b l (at_ + 2) Hb) as [-> _]; [lia|lia|].
  destruct (be16_spec b l (at_ + 4) Hb) as [-> _]; [lia|lia|]; cbn [mbind option_bind target ip priority weight port ttl].
  destruct (Hrn (at_ + 6) (target zero_record)) as (rc & o & text & -> & Hz & Hn); [lia|done|].
  cbn [mbind option_bind]; destruct rc; cbn [negb].
  2-8: do 2 eexists; (split; [done|]); destruct Hn as [_ Hno]; intros rec' Hrec; inversion Hrec; [discriminate|];
       apply Hno; rewrite <- Hr; eauto.
  change (is_ok CF_OK) with true; cbn [negb]; destruct Hn as (ls & h & Hn & Hok & ->).
  cbn [target]; destruct (edge_target_spec _ _ (name_cstr _ _ _ _ _ [] (target zero_record) Hn Hok)) as (edge & -> & Hedge).
  cbn [mbind option_bind port]; destruct (negb (o =? at_ + rr_len r) || _ || _) eqn:Ebad; do 2 eexists; (split; [done|]).
  + intros rec' Hrec; inversion Hrec as [|ls' h' _ _ Hn' Hok' Hport He']; [discriminate|].
    rewrite <- Hr in Hn; destruct (name_at_det _ _ _ _ _ Hn _ _ _ Hn') as (-> & -> & _).
    apply Hedge in He'; subst edge; unfold CF_EDGE_PORT in *; rewrite Hr in *; lia.
  + destruct edge; [|unfold CF_EDGE_PORT in *; lia].
    assert (o = at_ + rr_len r) as -> by lia; assert (u16_at l (at_ + 4) = CF_EDGE_PORT) as -> by lia.
    rewrite <- Hr in *; apply (RecordSRV l CF_DNS_SRV r ls h); try done; try lia; by apply Hedge.
Qed.

Lemma fill_record_spec b l type at_ r :
  denotes b l -> type = CF_DNS_A \/ type = CF_DNS_SRV ->
  rr_at r = at_ -> 0 <= at_ -> at_ + rr_len r <= zlen l ->
  exists rc rec, fill_record b type at_ (rr_len r) (at_ + rr_len r) (rr_ttl r) zero_record = Some (rc, rec) /\
    match rc with
    | CF_OK => record_of l type r rec
    | _ => forall rec', ~ record_of l type r rec'
    end.
Proof. intros Hb [-> | ->]; [by apply fill_address|by apply fill_service]. Qed.

(** *** Messages *)

Definition answer_of (recs : list cf_dns_record) : cf_dns_answer :=
  DnsAnswer (recs ++ replicate (16 - length recs) zero_record) (zlen recs).

(** The records that answer the question. *)
Definition matches (type : Z) (text : list Z) (r : rr) : bool :=
  (rr_type r =? type) && (rr_class r =? 1) && bool_decide (join [] (rr_owner r) = text).

(** The next [k] records at [at_], the first [n] of them answers, end at [e]
    and stand for [recs]. *)
Definition answers_at (l : list Z) (type : Z) (text : list Z) (n k : nat) (at_ : Z) (recs : list cf_dns_record) (e : Z) : Prop :=
  exists rrs, records_at l at_ rrs e /\ length rrs = k /\
    Forall2 (record_of l type) (filter (λ r, matches type text r = true) (take n rrs)) recs.

Lemma answers_at_step l type text n k at_ r e recs e' :
  record_at l at_ r e ->
  answers_at l type text n (S k) at_ recs e' <->
  if (bool_decide (n <> 0%nat)) && matches type text r
  then exists rec recs', recs = rec :: recs' /\ record_of l type r rec /\ answers_at l type text (pred n) k e recs' e'
  else answers_at l type text (pred n) k e recs e'.
Proof.
  intros Hr.
  assert (answers_at l type text n (S k) at_ recs e' <-> exists rs, records_at l e rs e' /\ length rs = k /\
    Forall2 (record_of l type) (filter (λ r, matches type text r = true) (take n (r :: rs))) recs) as ->.
  { split; intros (rs & H).
    - destruct H as (H & Hk & Hf); inversion H as [|? r' e1 rs' e2 Hr' Hrs]; subst; [discriminate|].
      assert (r' = r /\ e1 = e) as [-> ->].
      { destruct Hr as (n1 & h1 & Hn1 & _ & _ & ? & ? & ? & ? & ? & -> & _), Hr' as (n2 & h2 & Hn2 & _ & _ & ? & ? & ? & ? & ? & -> & _).
        destruct (name_at_det _ _ _ _ _ Hn1 _ _ _ Hn2) as (Ho & -> & _); destruct r, r'; cbn in *; split; congruence. }
      exists rs'; split; [done|]; split; [by injection Hk|done].
    - destruct H as (H & Hk & Hf); exists (r :: rs); split; [by econstructor|]; split; [cbn; lia|done]. }
  destruct n as [|n]; cbn [take pred].
  - rewrite bool_decide_eq_false_2 by (intros []; done); cbn [andb]; by unfold answers_at; setoid_rewrite take_0.
  - rewrite bool_decide_eq_true_2 by done; cbn [andb]; destruct (matches type text r) eqn:Hm.
    + setoid_rewrite filter_cons_True; [|done]; split.
      * intros (rs & Hrs & Hk & Hf); inversion Hf as [|? rec ? recs' Hrec Hf']; subst; exists rec, recs'; split; [done|]; split; [done|]; by exists rs.
      * intros (rec & recs' & -> & Hrec & rs & Hrs & Hk & Hf); exists rs; split; [done|]; split; [done|]; by constructor.
    + setoid_rewrite filter_cons_False; [done|by rewrite Hm].
Qed.

Lemma answers_at_first l type text n k at_ recs e :
  answers_at l type text n (S k) at_ recs e -> exists r e', record_at l at_ r e'.
Proof. intros (rs & H & Hk & _); inversion H; subst; [discriminate|eauto]. Qed.

Lemma answer_room recs : zlen recs < 16 ->
  records (answer_of recs) !! Z.to_nat (count (answer_of recs)) = Some zero_record.
Proof.
  intros H; cbn [records count answer_of]; rewrite lookup_app_r by (unfold zlen in *; lia).
  apply lookup_replicate_2; unfold zlen in *; lia.
Qed.

Lemma set_record_spec recs rec : zlen recs < 16 ->
  set_record (answer_of recs) rec = Some (answer_of (recs ++ [rec])).
Proof.
  intros H; unfold set_record, answer_of; cbn [records count].
  rewrite zlen_app, zlen_replicate, zlen_app; replace (zlen recs <? _) with true by (unfold zlen in *; lia).
  do 2 f_equal; rewrite insert_app_r_alt by (unfold zlen; lia); rewrite <- app_assoc; f_equal.
  replace (Z.to_nat (zlen recs) - length recs)%nat with 0%nat by (unfold zlen; lia).
  rewrite length_app; cbn [length app]; replace (16 - length recs)%nat with (S (16 - (length recs + 1))) by (unfold zlen in *; lia).
  done.
Qed.

Lemma record_of_det l type r rec rec' : record_of l type r rec -> record_of l type r rec' -> rec = rec'.
Proof.
  intros H1 H2; destruct H1 as [Ht _ _|ls h Ht _ Hn _ _ _], H2 as [Ht' _ _|ls' h' Ht' _ Hn' _ _ _]; try done; try (exfalso; subst type; discriminate).
  by destruct (name_at_det _ _ _ _ _ Hn _ _ _ Hn') as (-> & _).
Qed.

(** The outcome of the loop: the answers, or an error when there is no such
    list of records. *)
Definition records_outcome (l : list Z) (type : Z) (text : list Z) (n k : nat) (at_ : Z) (recs : list cf_dns_record)
    (rc : cf_result) (e : Z) (out : cf_dns_answer) : Prop :=
  match rc with
  | CF_OK => exists recs', answers_at l type text n k at_ recs' e /\ zlen (recs ++ recs') <= 16 /\
      out = answer_of (recs ++ recs')
  | _ => forall recs' e', answers_at l type text n k at_ recs' e' -> ~ zlen (recs ++ recs') <= 16
  end.

Lemma records_outcome_none l type text n k at_ recs rc e out :
  rc <> CF_OK -> (forall r e', ~ record_at l at_ r e') -> records_outcome l type text n (S k) at_ recs rc e out.
Proof.
  intros Hrc Hno; assert (forall recs' e', ~ answers_at l type text n (S k) at_ recs' e') as H.
  { intros recs' e' Ha; destruct (answers_at_first _ _ _ _ _ _ _ _ Ha) as (r & e1 & Hr); by apply (Hno r e1). }
  unfold records_outcome; destruct rc; try done; intros recs' e' Ha; by apply H in Ha.
Qed.

Lemma records_loop_spec b l name text type answers k : forall i at_ owner recs,
  denotes b l -> cstr name text -> type = CF_DNS_A \/ type = CF_DNS_SRV ->
  0 <= at_ -> 254 <= zlen owner -> zlen recs <= 16 -> 0 <= i ->
  exists rc e out, records_loop b name type answers k i at_ owner (answer_of recs) = Some (rc, e, out) /\
    records_outcome l type text (Z.to_nat (answers - i)) k at_ recs rc e out.
Proof.
  induction k as [|k IH]; intros i at_ owner recs Hb Hs Ht Hat Ho Hrecs Hi.
  { do 3 eexists; split; [done|]; exists []; rewrite app_nil_r; split; [|done]; exists []; repeat split; [constructor|].
    rewrite take_nil; constructor. }
  specialize (λ a o w x r, IH (i + 1) a o r Hb Hs Ht w x); cbn [records_loop].
  pose proof (read_name_spec b l at_ owner Hb Hat Ho) as Hrn.
  pose proof (λ a r, fill_record_spec b l type a r Hb Ht) as Hfill.
  revert Hrn Hfill IH; generalize (records_loop b name type answers k (i + 1)) (read_name b at_ owner) (fill_record b type).
  intros loop rn fill (rc & n1 & owner' & -> & Hz & Hn) Hfill IH; cbn [mbind option_bind].
  destruct rc; cbn [negb].
  2-8: do 3 eexists; (split; [done|]); destruct Hn as [_ Hno]; apply records_outcome_none; [done|];
       intros r e' (n' & h & Hn' & Hok & _); apply Hno; eauto.
  change (is_ok CF_OK) with true; cbn [negb]; destruct Hn as (ls & h & Hn & Hok & ->); rewrite (denotes_len _ _ Hb).
  pose proof (name_at_end _ _ _ _ _ Hn) as Hn1.
  destruct (Z.ltb_spec (zlen l) (n1 + 10)) as [Hshort|Hfit].
  { do 3 eexists; split; [done|]; apply records_outcome_none; [done|].
    intros r e' (n' & h' & Hn' & _ & Hl & _); destruct (name_at_det _ _ _ _ _ Hn _ _ _ Hn') as (_ & -> & _); lia. }
  destruct (be16_spec b l n1 Hb) as [-> _]; [lia|lia|]; destruct (be16_spec b l (n1 + 2) Hb) as [-> _]; [lia|lia|].
  rewrite (be32_spec b l (n1 + 4) Hb) by lia; destruct (be16_spec b l (n1 + 8) Hb) as [-> Hlen]; [lia|lia|].
  cbn [mbind option_bind]; set (r := RR ls (u16_at l n1) (u16_at l (n1 + 2)) (u32_at l (n1 + 4)) (n1 + 10) (u16_at l (n1 + 8))).
  destruct (Z.ltb_spec (zlen l - (n1 + 10)) (u16_at l (n1 + 8))) as [Hover|Hin].
  { do 3 eexists; split; [done|]; apply records_outcome_none; [done|].
    intros r' e' (n' & h' & Hn' & _ & _ & _ & _ & _ & Hlen' & Hat' & -> & Hl).
    destruct (name_at_det _ _ _ _ _ Hn _ _ _ Hn') as (_ & -> & _); lia. }
  assert (record_at l at_ r (n1 + 10 + rr_len r)) as Hrec.
  { exists n1, h; do 9 (split; [first [done|cbn; lia]|]); cbn; lia. }
  set (n := Z.to_nat (answers - i)).
  assert ((if (i <? answers) && (u16_at l n1 =? type) && (u16_at l (n1 + 2) =? 1)
     then streq (name_out [] owner (join [] ls)) name else Some false) =
     Some (bool_decide (n <> 0%nat) && matches type text r)) as ->.
  { rewrite (streq_spec _ _ _ _ (name_cstr _ _ _ _ _ [] owner Hn Hok) Hs); unfold matches; cbn [rr_type rr_class rr_owner r].
    replace (bool_decide (n <> 0%nat)) with (i <? answers) by (unfold n; case_bool_decide; lia).
    destruct (i <? answers), (u16_at l n1 =? type), (u16_at l (n1 + 2) =? 1); done. }
  assert (Z.to_nat (answers - (i + 1)) = pred n) as Hpred by (unfold n; lia); rewrite Hpred in IH.
  cbn [mbind option_bind]; pose proof (λ recs' e', answers_at_step l type text n k at_ r _ recs' e' Hrec) as Hstep.
  destruct (bool_decide (n <> 0%nat) && matches type text r).
  - change (count (answer_of recs)) with (zlen recs); unfold CF_DNS_RECORD_MAX; destruct (Z.leb_spec 16 (zlen recs)) as [Hfull|Hroom].
    { do 3 eexists; split; [done|]; intros recs' e' (rec & recs1 & -> & _)%Hstep; rewrite zlen_app, zlen_cons; pose proof (zlen_nonneg recs1); lia. }
    pose proof (answer_room recs Hroom) as Hlook; cbn [count answer_of] in Hlook; rewrite Hlook; cbn [mbind option_bind].
    destruct (Hfill (n1 + 10) r eq_refl) as (rc & rec & Heq & Hrc); [lia|cbn; lia|].
    cbn [rr_len rr_ttl r] in Heq; rewrite Heq; cbn [mbind option_bind].
    destruct (is_ok rc) eqn:Erc; cbn [negb].
    2: { do 3 eexists; split; [done|]; unfold records_outcome.
         destruct rc; try done; intros recs' e' (rec' & recs1 & -> & Hro & _)%Hstep; by apply Hrc in Hro. }
    apply bool_decide_eq_true_1 in Erc as ->; rewrite set_record_spec by done; cbn [mbind option_bind].
    destruct (IH (n1 + 10 + u16_at l (n1 + 8)) (name_out [] owner (join [] ls)) ltac:(lia) ltac:(lia) (recs ++ [rec]))
      as (rc & e & out & -> & Hout); [rewrite zlen_app; change (zlen [rec]) with 1; lia|lia|].
    exists rc, e, out; split; [done|]; unfold records_outcome in *; destruct rc;
      [|intros recs' e' (rec' & recs1 & -> & Hro & Ha)%Hstep Hl; assert (rec' = rec) as -> by (by eapply record_of_det);
        apply (Hout _ _ Ha); by rewrite <- app_assoc..].
    destruct Hout as (recs' & Ha & Hl & ->); exists (rec :: recs'); rewrite <- app_assoc in *; split; [|by split].
    apply Hstep; by exists rec, recs'.
  - destruct (IH (n1 + 10 + u16_at l (n1 + 8)) (name_out [] owner (join [] ls)) ltac:(lia) ltac:(lia) recs Hrecs ltac:(lia))
      as (rc & e & out & -> & Hout).
    exists rc, e, out; split; [done|]; unfold records_outcome in *; destruct rc; [|intros recs' e' Ha%Hstep; by apply (Hout _ _ Ha)..].
    destruct Hout as (recs' & Ha & Hl & ->); exists recs'; split; [by apply Hstep|by split].
Qed.

Lemma answers_at_det l type text n k at_ recs e recs' e' :
  answers_at l type text n k at_ recs e -> answers_at l type text n k at_ recs' e' -> recs = recs' /\ e = e'.
Proof.
  revert n at_ recs recs'; induction k as [|k IH]; intros n at_ recs recs' H H'.
  - destruct H as (rs & H & Hk & Hf), H' as (rs' & H' & Hk' & Hf').
    destruct rs; [|discriminate]; destruct rs'; [|discriminate]; inversion H; inversion H'; subst.
    rewrite take_nil in *; inversion Hf; inversion Hf'; by subst.
  - destruct (answers_at_first _ _ _ _ _ _ _ _ H) as (r & e1 & Hr); pose proof (λ a b, answers_at_step l type text n k at_ r e1 a b Hr) as Hstep.
    apply Hstep in H, H'; destruct (_ && _).
    + destruct H as (rec & recs1 & -> & Hro & H), H' as (rec' & recs1' & -> & Hro' & H').
      destruct (IH _ _ _ _ H H') as [-> ->]; by rewrite (record_of_det _ _ _ _ _ Hro Hro').
    + by apply (IH _ _ _ _ H H').
Qed.

(** A response to the question that answers it with [recs]. *)
Definition response (l text : list Z) (type id : Z) (recs : list cf_dns_record) : Prop :=
  12 <= zlen l <= CF_DNS_PACKET_MAX /\ u16_at l 0 = id /\ Z.land (byte_at l 2) 248 = 128 /\
  Z.land (byte_at l 2) 2 = 0 /\ u16_at l 4 = 1 /\ Z.land (byte_at l 3) 15 = 0 /\
  exists q n h, name_at l 12 q n h /\ name_ok q h /\ join [] q = text /\ n + 4 <= zlen l /\
    u16_at l n = type /\ u16_at l (n + 2) = 1 /\ u16_at l 6 + u16_at l 8 + u16_at l 10 <= 64 /\
    answers_at l type text (Z.to_nat (u16_at l 6)) (Z.to_nat (u16_at l 6 + u16_at l 8 + u16_at l 10)) (n + 4) recs (zlen l) /\
    1 <= zlen recs <= CF_DNS_RECORD_MAX.

Definition parse_post (l text : list Z) (type id : Z) (rc : cf_result) (out : cf_dns_answer) : Prop :=
  match rc with
  | CF_OK => exists recs, response l text type id recs /\ out = answer_of recs
  | _ => out = zero_answer /\ forall recs, ~ response l text type id recs
  end.

Lemma parse_refused l text type id rc :
  rc <> CF_OK -> (forall recs, ~ response l text type id recs) ->
  exists rc' out, Some (rc, Some zero_answer) = Some (rc', Some out) /\ parse_post l text type id rc' out.
Proof. intros Hrc Hno; exists rc, zero_answer; split; [done|]; by destruct rc. Qed.

Ltac parse_refuse := apply parse_refused; [done|]; intros recs (? & ? & ? & ? & ? & ? & q' & n' & h' & ? & ? & ? & ? & ? & ? & ? & ? & ?).

Lemma parse_spec owner0 b l name text type id :
  denotes b l -> cstr name text -> type = CF_DNS_A \/ type = CF_DNS_SRV -> zlen owner0 = 254 ->
  forall out0, exists rc out, cf_dns_parse owner0 b (Some name) type id (Some out0) = Some (rc, Some out) /\
    parse_post l text type id rc out.
Proof.
  intros Hb Hs Ht Ho out0; unfold cf_dns_parse.
  pose proof (read_name_spec b l 12 owner0 Hb ltac:(lia) ltac:(lia)) as Hrn.
  pose proof (λ a k at_ owner, records_loop_spec b l name text type a k 0 at_ owner []) as Hloop.
  revert Hrn Hloop; generalize (read_name b 12 owner0) records_loop; intros rn loop (rc & n & owner & -> & Hz & Hn) Hloop.
  destruct (ptr b) as [m|] eqn:Ep.
  2: { destruct Hb as (_ & _ & Hp); rewrite Ep in Hp; subst l; parse_refuse; rewrite zlen_nil in *; lia. }
  replace (negb (type =? CF_DNS_A) && _) with false by (unfold CF_DNS_A, CF_DNS_SRV in *; lia).
  rewrite (denotes_len _ _ Hb); destruct (Z.ltb_spec (zlen l) 12); [parse_refuse; lia|].
  destruct (Z.ltb_spec CF_DNS_PACKET_MAX (zlen l)); [parse_refuse; lia|].
  destruct (be16_spec b l 0 Hb) as [-> _]; [lia|lia|]; destruct (get_byte b l 2 Hb) as [-> _]; [lia|].
  destruct (be16_spec b l 4 Hb) as [-> _]; [lia|lia|]; cbn [mbind option_bind].
  destruct (negb (u16_at l 0 =? id) || _ || _) eqn:E1; [parse_refuse; lia|].
  destruct (negb (Z.land (byte_at l 2) 2 =? 0)) eqn:E2; [parse_refuse; lia|].
  destruct (get_byte b l 3 Hb) as [-> _]; [lia|]; cbn [mbind option_bind].
  destruct (negb (Z.land (byte_at l 3) 15 =? 0)) eqn:E3; [parse_refuse; lia|].
  destruct (is_ok rc) eqn:Erc; cbn [negb].
  2: { apply parse_refused; [by intros ->|]; intros recs (_ & _ & _ & _ & _ & _ & q & n' & h & Hq & Hqok & _).
       destruct rc; try done; apply Hn; eauto. }
  apply bool_decide_eq_true_1 in Erc as ->; destruct Hn as (q & h & Hn & Hok & ->).
  pose proof (name_at_end _ _ _ _ _ Hn) as Hend.
  rewrite (streq_spec _ _ _ _ (name_cstr _ _ _ _ _ [] owner0 Hn Hok) Hs); cbn [mbind option_bind].
  assert (forall q' n' h', name_at l 12 q' n' h' -> q' = q /\ n' = n) as Hdet.
  { intros q' n' h' Hn'; by destruct (name_at_det _ _ _ _ _ Hn _ _ _ Hn') as (-> & -> & _). }
  destruct (negb (bool_decide (join [] q = text)) || (zlen l <? n + 4)) eqn:E4.
  { parse_refuse; destruct (Hdet q' n' h') as [-> ->]; [done|]; case_bool_decide; [cbn in E4; lia|done]. }
  apply orb_false_iff in E4 as [E4 E5]; apply negb_false_iff, bool_decide_eq_true_1 in E4.
  destruct (be16_spec b l n Hb) as [-> _]; [lia|lia|]; destruct (be16_spec b l (n + 2) Hb) as [-> _]; [lia|lia|].
  cbn [mbind option_bind]; destruct (negb (u16_at l n =? type) || _) eqn:E6.
  { parse_refuse; destruct (Hdet q' n' h') as [-> ->]; [done|]; lia. }
  destruct (be16_spec b l 6 Hb) as [-> ?]; [lia|lia|]; destruct (be16_spec b l 8 Hb) as [-> ?]; [lia|lia|].
  destruct (be16_spec b l 10 Hb) as [-> ?]; [lia|lia|]; cbn [mbind option_bind].
  destruct (Z.ltb_spec 64 (u16_at l 6 + u16_at l 8 + u16_at l 10)); [parse_refuse; lia|].
  destruct (Hloop (u16_at l 6) (Z.to_nat (u16_at l 6 + u16_at l 8 + u16_at l 10)) (n + 4) (name_out [] owner0 (join [] q)) Hb Hs Ht)
    as (rc & e & out & Heq & Hout); [lia|lia|done|done|].
  change (answer_of []) with zero_answer in Heq; rewrite Heq; cbn [mbind option_bind]; rewrite Z.sub_0_r in Hout.
  destruct (is_ok rc) eqn:Erc; cbn [negb].
  2: { apply parse_refused; [by intros ->|]; intros recs (_ & _ & _ & _ & _ & _ & q' & n' & h' & Hn' & _ & _ & _ & _ & _ & _ & Ha & Hl).
       destruct (Hdet q' n' h' Hn') as [-> ->]; unfold CF_DNS_RECORD_MAX in *; destruct rc; try done; apply (Hout _ _ Ha); cbn [app]; lia. }
  apply bool_decide_eq_true_1 in Erc as ->; destruct Hout as (recs & Ha & Hl & ->); cbn [app] in *.
  destruct (Z.eqb_spec e (zlen l)) as [->|He]; cbn [negb].
  2: { apply parse_refused; [done|]; intros recs' (_ & _ & _ & _ & _ & _ & q' & n' & h' & Hn' & _ & _ & _ & _ & _ & _ & Ha' & Hl').
       destruct (Hdet q' n' h' Hn') as [-> ->]; by destruct (answers_at_det _ _ _ _ _ _ _ _ _ _ Ha Ha') as [_ ->]. }
  change (count (answer_of recs)) with (zlen recs); destruct (Z.eqb_spec (zlen recs) 0) as [Hnil|Hsome]; cbn [negb].
  - destruct recs; [|rewrite zlen_cons in Hnil; pose proof (zlen_nonneg recs); lia].
    apply parse_refused; [done|]; intros recs' (_ & _ & _ & _ & _ & _ & q' & n' & h' & Hn' & _ & _ & _ & _ & _ & _ & Ha' & Hl').
    destruct (Hdet q' n' h' Hn') as [-> ->]; destruct (answers_at_det _ _ _ _ _ _ _ _ _ _ Ha Ha') as [<- _]; change (zlen []) with 0 in Hl'; lia.
  - exists CF_OK, (answer_of recs); split; [done|]; exists recs; split; [|done].
    split; [lia|]; split; [lia|]; split; [lia|]; split; [lia|]; split; [lia|]; split; [lia|].
    exists q, n, h; split; [done|]; split; [done|]; split; [done|]; split; [lia|]; split; [lia|]; split; [lia|].
    split; [lia|]; split; [done|]; unfold CF_DNS_RECORD_MAX; pose proof (zlen_nonneg recs); lia.
Qed.

(** *** A query read back *)

Lemma labels_from_spec y : forall p ls,
  chars_ok p = true -> labels_from p y = Some ls -> Forall (λ q, label_ok q = true) ls /\ dotted ls = p ++ y /\ ls <> [].
Proof.
  induction y as [|c y IH]; intros p ls Hp H; cbn [labels_from] in H.
  - destruct (label_ok p) eqn:E; [|done]; injection H as <-; by repeat constructor.
  - destruct (Z.eqb_spec c 46) as [->|_].
    + destruct (label_ok p) eqn:E; [|done]; destruct (labels_from [] y) as [ls'|] eqn:El; [|done]; injection H as <-.
      destruct (IH [] ls' eq_refl El) as (Hl & Hd & Hne); split; [by constructor|]; split; [|done].
      cbn [app] in Hd; rewrite <- Hd; destruct ls' as [|q ls']; [done|]; done.
    + destruct (name_char (lower c)) eqn:E; [|done]; destruct (IH (p ++ [c]) ls) as (Hl & Hd & Hne); try done.
      * unfold chars_ok in *; rewrite forallb_app, Hp; cbn; by rewrite E.
      * split; [done|]; split; [by rewrite Hd, <- app_assoc|done].
Qed.

Lemma join_dotted ls : Forall (λ p, 1 <= zlen p <= 63) ls -> join [] ls = map lower (dotted ls).
Proof.
  intros Hl; destruct ls as [|p ls]; [done|]; apply Forall_cons in Hl as [Hp Hl]; cbn [dotted].
  rewrite join_cons; unfold extend at 1; rewrite bool_decide_eq_true_2 by done.
  assert (map lower p <> []) as Hne by (destruct p; [rewrite zlen_nil in Hp; lia|done]); rewrite map_app.
  revert Hne; generalize (map lower p); clear Hp; induction Hl as [|q ls Hq _ IH]; intros s Hs; [by rewrite app_nil_r|].
  rewrite join_cons; unfold extend; rewrite bool_decide_eq_false_2 by done; rewrite IH by (by destruct s).
  cbn [map concat]; rewrite map_app; cbn [map]; by rewrite <- app_assoc.
Qed.

Lemma lower_idem c : lower (lower c) = lower c.
Proof.
  unfold lower; destruct ((65 <=? c) && (c <=? 90)) eqn:E; [|by rewrite E].
  rewrite (wrap_small 8) by (simpl; lia); by replace ((65 <=? c + 32) && _) with false by lia.
Qed.

Lemma map_lower_idem p : map lower (map lower p) = map lower p.
Proof. rewrite map_map; apply map_ext, lower_idem. Qed.

Lemma join_lower s ls : join s (map (map lower) ls) = join s ls.
Proof. unfold join; f_equal; rewrite map_map; apply map_ext, map_lower_idem. Qed.

Lemma wire_name_at ls : forall a z, Forall (λ p, 1 <= zlen p <= 63) ls ->
  name_at (a ++ wire_labels ls ++ 0 :: z) (zlen a) (map (map lower) ls) (zlen a + zlen (wire_labels ls) + 1) 0.
Proof.
  induction ls as [|p ls IH]; intros a z Hl.
  - replace (zlen a + _ + 1) with (zlen a + 1) by (unfold wire_labels; cbn; rewrite zlen_nil; lia).
    constructor; by rewrite (rd_at a).
  - apply Forall_cons in Hl as [Hp Hl]; cbn [map]; set (q := map lower p); assert (zlen q = zlen p) as Hq by apply zlen_lower.
    unfold wire_labels; cbn [map concat]; fold (wire_labels ls); unfold wire_label; fold q; rewrite <- Hq.
    cbn [app]; rewrite zlen_cons, zlen_app, <- app_assoc.
    specialize (IH (a ++ zlen q :: q) z Hl); rewrite <- app_assoc in IH; cbn [app] in IH.
    rewrite zlen_app, zlen_cons in IH.
    replace (zlen a + (1 + (zlen q + _)) + 1) with (zlen a + (1 + zlen q) + zlen (wire_labels ls) + 1) by lia.
    apply NameLabel; [by rewrite (rd_at a)|lia| | |].
    + rewrite !zlen_app, zlen_cons, zlen_app; pose proof (zlen_nonneg (wire_labels ls ++ 0 :: z)); lia.
    + change (a ++ zlen q :: q ++ wire_labels ls ++ 0 :: z) with (a ++ [zlen q] ++ q ++ wire_labels ls ++ 0 :: z).
      rewrite app_assoc; apply sub_mid; [rewrite zlen_app; by change (zlen [_]) with 1|done].
    + by replace (zlen a + 1 + zlen q) with (zlen a + (1 + zlen q)) by lia.
Qed.

(** The name of a query, as the resolver reads it. *)
Lemma query_name_at text ls type id z :
  labels_of text = Some ls -> zlen text <= CF_DNS_NAME_MAX ->
  name_at (query_ref ls type id ++ z) 12 (map (map lower) ls) (12 + zlen (wire_labels ls) + 1) 0 /\
  name_ok (map (map lower) ls) 0 /\ join [] (map (map lower) ls) = map lower text.
Proof.
  intros H Ht; destruct (labels_from_spec text [] ls eq_refl H) as (Hl & Hd & Hne); cbn [app] in Hd.
  assert (Forall (λ p, 1 <= zlen p <= 63) ls) as Hlen by (eapply Forall_impl; [exact Hl|]; intros p; apply label_len).
  assert (join [] (map (map lower) ls) = map lower text) as Hj by (by rewrite join_lower, join_dotted, Hd).
  split; [|split; [|done]].
  - unfold query_ref; rewrite !(app_assoc (be_bytes id)), <- !app_assoc; cbn [app].
    by apply (wire_name_at ls (be_bytes id ++ [1; 0; 0; 1; 0; 0; 0; 0; 0; 1])).
  - split; [|split; [lia|by rewrite Hj, zlen_lower]]; apply Forall_map; eapply Forall_impl; [exact Hl|].
    unfold label_ok, chars_ok; intros p Hp; bool_to_prop; rewrite forallb_forall in *.
    intros c Hc; apply in_map_iff in Hc as (d & <- & Hd'); rewrite lower_idem; auto.
Qed.

Lemma wire_labels_len ls : ls <> [] -> zlen (wire_labels ls) = zlen (dotted ls) + 1.
Proof.
  intros Hne; destruct ls as [|p ls]; [done|]; unfold wire_labels; cbn [map concat dotted].
  rewrite !zlen_app, zlen_wire_label.
  assert (zlen (concat (map wire_label ls)) = zlen (concat (map (cons 46) ls))) as ->; [|lia].
  clear Hne; induction ls as [|q ls IH]; [done|]; cbn [map concat]; rewrite !zlen_app, zlen_wire_label, zlen_cons, IH; lia.
Qed.

Lemma be_bytes_ok n : bytes_ok (be_bytes n).
Proof. repeat constructor; try (by apply (wrap_range 8)); apply (wrap_range 8); lia. Qed.

Lemma name_char_byte c : name_char c = true -> is_byte c.
Proof. unfold name_char, is_byte; lia. Qed.

Lemma query_ref_denotes text ls type id rest :
  labels_of text = Some ls -> zlen text <= CF_DNS_NAME_MAX ->
  denotes (Bytes (Some (query_ref ls type id ++ rest)) (zlen text + 29)) (query_ref ls type id).
Proof.
  intros H Ht; destruct (labels_from_spec text [] ls eq_refl H) as (Hl & Hd & Hne); cbn [app] in Hd.
  split; [|split; [|by exists rest]].
  - unfold query_ref; repeat (apply Forall_app; split); try apply be_bytes_ok; try bytes_by_compute.
    unfold wire_labels; apply Forall_concat, Forall_map; eapply Forall_impl; [exact Hl|]; intros p Hp.
    pose proof (label_len _ Hp); constructor; [unfold is_byte; lia|]; apply Forall_map.
    unfold label_ok in Hp; bool_to_prop; rewrite forallb_forall in *; apply Forall_forall; intros c Hc%list_elem_of_In.
    apply name_char_byte; auto.
  - cbn [len]; unfold query_ref; rewrite !zlen_app, wire_labels_len, Hd by done; change (zlen (be_bytes _)) with 2.
    change (zlen [1; 0; 0; 1; 0; 0; 0; 0; 0; 1]) with 10; change (zlen [0]) with 1; change (zlen [0; 1]) with 2.
    change (zlen [0; 0; 41; 4; 208; 0; 0; 0; 0; 0; 0]) with 11; cbn [len]; lia.
Qed.

(** ** Properties *)

(** [cf_dns_query] for any name, type, id and output buffer: it returns,
    keeps the buffer's size and writes exactly the question packet, or reports
    the limit or the malformed name with nothing counted as written; and a
    resolver that reads the name of the packet with [read_name] gets the name
    back in lower case. *)
Theorem query_roundtrip name text type id out cap w :
  cstr name text -> type = CF_DNS_A \/ type = CF_DNS_SRV -> cap <= zlen out ->
  exists rc out' n, cf_dns_query (Some name) type id (Some out) cap (Some w) = Some (rc, Some out', Some n) /\
    zlen out' = zlen out /\
    if (zlen text =? 0) || (CF_DNS_NAME_MAX <? zlen text) || (cap <? zlen text + 29)
    then rc = CF_ERR_LIMIT /\ out' = out /\ n = 0
    else match labels_of text with
         | None => rc = CF_ERR_ARGUMENT /\ n = 0
         | Some ls => rc = CF_OK /\ n = zlen text + 29 /\
             out' = query_ref ls type id ++ drop (length text + 29) out /\
             forall owner, zlen owner = 254 -> exists owner',
               read_name (Bytes (Some out') n) 12 owner = Some (CF_OK, zlen text + 14, owner') /\
               cstr owner' (map lower text)
         end.
Proof.
  intros Hs Ht Hcap; destruct (query_spec name text type id out cap w Hs Ht Hcap) as (rc & out' & n & -> & Hz & H).
  exists rc, out', n; split; [done|]; split; [done|]; destruct (_ || _ || _) eqn:E; [done|].
  destruct (labels_of text) as [ls|] eqn:El; [|done]; destruct H as (-> & -> & ->); do 3 (split; [done|]).
  intros owner Ho; assert (zlen text <= CF_DNS_NAME_MAX) as Hl by lia.
  destruct (query_name_at text ls type id [] El Hl) as (Hn & Hok & Hj); rewrite app_nil_r in Hn.
  destruct (labels_from_spec text [] ls eq_refl El) as (_ & Hd & Hne); cbn [app] in Hd.
  rewrite (read_name_complete _ _ 12 _ _ _ _ (query_ref_denotes _ _ _ _ _ El Hl)) with (3 := Hn) by (try done; lia).
  eexists; split; [rewrite wire_labels_len, Hd by done; do 3 f_equal; lia|]; rewrite <- Hj; by apply (name_cstr _ _ _ _ _ _ _ Hn).
Qed.

Lemma query_roundtrip_witness :
  exists rc out' n, cf_dns_query (Some CF_EDGE_DISCOVERY) CF_DNS_SRV 0x1234 (Some (replicate 66 255)) 66 (Some 9)
      = Some (rc, Some out', Some n) /\ zlen out' = 66 /\
    rc = CF_OK /\ n = 66 /\ forall owner, zlen owner = 254 -> exists owner',
      read_name (Bytes (Some out') n) 12 owner = Some (CF_OK, 51, owner') /\
      cstr owner' (lit "_v2-origintunneld._tcp.argotunnel.com").
Proof.
  destruct (query_roundtrip CF_EDGE_DISCOVERY (lit "_v2-origintunneld._tcp.argotunnel.com") CF_DNS_SRV 0x1234
    (replicate 66 255) 66 9) as (rc & out' & n & H & Hz & Hrest).
  - apply cstr_cstring; no_nul.
  - by right.
  - done.
  - exists rc, out', n; split; [exact H|]; split; [exact Hz|]; destruct Hrest as (Hrc & Hn & _ & Hread); auto.
Defined.

(** C28. [read_name] on any packet, offset and text array: it returns, writes
    only the array, and succeeds exactly when a name is encoded there with
    backward pointers, at most 16 of them, legal characters and at most 253
    bytes of text; the array then holds that text in lower case, NUL terminated,
    and the offset is the one behind the name.  Pointer loops cannot hang it. *)
Theorem names_decoded b l at_ out :
  denotes b l -> 0 <= at_ -> 254 <= zlen out ->
  exists rc o out', read_name b at_ out = Some (rc, o, out') /\ zlen out' = zlen out /\
    match rc with
    | CF_OK => exists ls h, name_at l at_ ls o h /\ name_ok ls h /\ out' = name_out [] out (join [] ls)
    | _ => o = at_ /\ ~ exists ls e h, name_at l at_ ls e h /\ name_ok ls h
    end.
Proof. apply read_name_spec. Qed.

Lemma names_decoded_witness :
  exists rc o out', read_name (view [192; 0]) 0 sample_stack = Some (rc, o, out') /\ zlen out' = 254 /\
    match rc with
    | CF_OK => exists ls h, name_at [192; 0] 0 ls o h /\ name_ok ls h /\ out' = name_out [] sample_stack (join [] ls)
    | _ => o = 0 /\ ~ exists ls e h, name_at [192; 0] 0 ls e h /\ name_ok ls h
    end.
Proof. apply (names_decoded (view [192; 0]) [192; 0] 0 sample_stack); [apply denotes_view; bytes_by_compute|done|done]. Defined.

(** C25. [cf_dns_parse] decides exactly whether a datagram is a response to the
    question: it accepts when, and only when, the packet is a complete
    well-formed response with the expected id, question, counts and records
    whose answers are unicast addresses or edge servers on port 7844, and then
    the answer holds exactly those records in order; any refusal leaves the
    answer zeroed.  It returns on every input, reads only the packet, and does
    not depend on what its stack held. *)
Theorem parse_exact owner0 b l name text type id out0 :
  denotes b l -> cstr name text -> type = CF_DNS_A \/ type = CF_DNS_SRV -> zlen owner0 = 254 ->
  exists rc out, cf_dns_parse owner0 b (Some name) type id (Some out0) = Some (rc, Some out) /\
    match rc with
    | CF_OK => exists recs, response l text type id recs /\ out = answer_of recs
    | _ => out = zero_answer /\ forall recs, ~ response l text type id recs
    end.
Proof. intros; by apply (parse_spec owner0 b l name text type id). Qed.

Lemma parse_exact_witness :
  exists rc out, cf_dns_parse sample_stack (view gold_dns_srv) (Some CF_EDGE_DISCOVERY) CF_DNS_SRV 0x1234 (Some zero_answer)
      = Some (rc, Some out) /\
    match rc with
    | CF_OK => exists recs, response gold_dns_srv (lit "_v2-origintunneld._tcp.argotunnel.com") CF_DNS_SRV 0x1234 recs /\ out = answer_of recs
    | _ => out = zero_answer /\ forall recs, ~ response gold_dns_srv (lit "_v2-origintunneld._tcp.argotunnel.com") CF_DNS_SRV 0x1234 recs
    end.
Proof.
  apply parse_exact.
  - apply denotes_view; bytes_by_compute.
  - apply cstr_cstring; no_nul.
  - by right.
  - done.
Defined.
