(* ===== verification/Json.v ===== *)
(** Strict JSON in front of the vendored parser (src/protocol/cf_json.c): the
    bounded erasing heap, the lexeme filter, the parse entry point and the key
    check.  The parser of third_party/cjson is an interface. *)
From stdpp Require Import gmap.
From Stdlib Require Import SpecFloat.
From S2P Require Export CString Blocks.
#[local] Open Scope Z_scope.

(** ** The heap of the parser *)

Definition JSON_HEAP_LIMIT : Z := 32768.

(** A block of [malloc]: the header's [size] field, and all its bytes. *)
Record json_allocation := Allocation { a_size : Z; a_bytes : list Z }.

(** The two static variables, the live blocks by address, and what was handed
    back to the system allocator. *)
Record json_heap := Heap {
  json_live_bytes : Z;
  json_allocation_failed : bool;
  blocks : gmap Z json_allocation;
  released : list (list Z)
}.

Definition empty_heap : json_heap := Heap 0 false ∅ [].

Section Heap.
Context (header : Z).   (* [sizeof(json_allocation)], 8 on the targets *)

Definition alloc_failed (h : json_heap) : json_heap :=
  Heap (json_live_bytes h) true (blocks h) (released h).

(** [got] is what [malloc(charge)] returns: an address and the block's bytes.
    The result points behind the header. *)
Definition json_alloc (size : Z) (got : option (Z * list Z)) (h : json_heap) : option Z * json_heap :=
  if usize (JSON_HEAP_LIMIT - header) <? size then (None, alloc_failed h) else
  let charge := usize (size + header) in
  if usize (JSON_HEAP_LIMIT - json_live_bytes h) <? charge then (None, alloc_failed h) else
  match got with
  | None => (None, alloc_failed h)
  | Some (p, bytes) =>
      (Some (p + header),
       Heap (usize (json_live_bytes h + charge)) (json_allocation_failed h)
         (<[p := Allocation charge bytes]> (blocks h)) (released h))
  end.

Definition json_free (pointer : option Z) (h : json_heap) : option json_heap :=
  match pointer with
  | None => Some h
  | Some pointer =>
      let p := pointer - header in
      block ← blocks h !! p;
      let charge := a_size block in
      bytes ← cf_secure_zero (a_bytes block) charge;
      Some (Heap (usize (json_live_bytes h - charge)) (json_allocation_failed h)
              (delete p (blocks h)) (bytes :: released h))
  end.

End Heap.

Definition cf_json_failure (h : json_heap) : cf_result :=
  if json_allocation_failed h then CF_ERR_MEMORY else CF_ERR_FORMAT.

(** ** The tree of the parser *)

(** [cf_cJSON]; the sibling list of [child] is a list. *)
#[warnings="-register-all"]
Inductive json := Json {
  j_type : Z;
  j_valuestring : option (list Z);
  j_valuedouble : spec_float;
  j_string : option (list Z);
  j_child : list json
}.

Definition cf_cJSON_False : Z := 1.
Definition cf_cJSON_Number : Z := 8.
Definition cf_cJSON_String : Z := 16.
Definition cf_cJSON_Array : Z := 32.
Definition cf_cJSON_Object : Z := 64.

Definition has_type (t : Z) (item : option json) : bool :=
  match item with None => false | Some j => Z.land (j_type j) 255 =? t end.

Definition cf_cJSON_IsFalse := has_type cf_cJSON_False.
Definition cf_cJSON_IsNumber := has_type cf_cJSON_Number.
Definition cf_cJSON_IsString := has_type cf_cJSON_String.
Definition cf_cJSON_IsArray := has_type cf_cJSON_Array.
Definition cf_cJSON_IsObject := has_type cf_cJSON_Object.

(** [get_object_item] with [case_sensitive]. *)
Fixpoint get_object_item (children : list json) (name : list Z) : option (option json) :=
  match children with
  | [] => Some None
  | c :: cs =>
      match j_string c with
      | None => Some None
      | Some s => same ← streq name s; if (same : bool) then Some (Some c) else get_object_item cs name
      end
  end.

Definition cf_cJSON_GetObjectItemCaseSensitive (object : option json) (name : list Z) : option (option json) :=
  match object with None => Some None | Some o => get_object_item (j_child o) name end.

Definition cf_cJSON_GetArraySize (a : option json) : Z :=
  match a with None => 0 | Some a => zlen (j_child a) end.

Definition cf_cJSON_GetArrayItem (a : option json) (index : Z) : option json :=
  if index <? 0 then None else match a with None => None | Some a => j_child a !! Z.to_nat index end.

(** ** The lexeme filter *)

Definition number_digit (c : Z) : bool := (48 <=? c) && (c <=? 57).

(** [while (p < in.len && number_digit(in.ptr[p])) ++p]; [k] is [in.len - p]. *)
Fixpoint skip_digits (b : cf_bytes) (k : nat) (p : Z) : option Z :=
  match k with
  | O => Some p
  | S k' => c ← bget b p; if number_digit c then skip_digits b k' (p + 1) else Some p
  end.

Definition digits_from (b : cf_bytes) (p : Z) : option Z := skip_digits b (Z.to_nat (len b - p)) p.

(** [p < in.len && test(in.ptr[p])]. *)
Definition at_char (b : cf_bytes) (p : Z) (test : Z -> bool) : option bool :=
  if p <? len b then c ← bget b p; Some (test c) else Some false.

(** The steps of a number: [None] is [return false]. *)
Definition number_int (b : cf_bytes) (p : Z) : option (option Z) :=
  c ← bget b p;
  if (c =? 45) && (p + 1 =? len b) then Some None else
  let p := if c =? 45 then p + 1 else p in
  c ← bget b p;
  if negb (number_digit c) then Some None else
  if c =? 48 then Some (Some (p + 1)) else p ← digits_from b p; Some (Some p).

Definition number_frac (b : cf_bytes) (p : Z) : option (option Z) :=
  dot ← at_char b p (λ c, c =? 46);
  if (dot : bool) then
    let p := p + 1 in
    if p =? len b then Some None else
    c ← bget b p; if negb (number_digit c) then Some None else
    p ← digits_from b p; Some (Some p)
  else Some (Some p).

Definition number_exp (b : cf_bytes) (p : Z) : option (option Z) :=
  e ← at_char b p (λ c, (c =? 101) || (c =? 69));
  if (e : bool) then
    let p := p + 1 in
    if p =? len b then Some None else
    c ← bget b p;
    let p := if (c =? 43) || (c =? 45) then p + 1 else p in
    if p =? len b then Some None else
    c ← bget b p; if negb (number_digit c) then Some None else
    p ← digits_from b p; Some (Some p)
  else Some (Some p).

Definition delimiter (c : Z) : bool :=
  (c =? 44) || (c =? 125) || (c =? 93) || (c =? 32) || (c =? 9) || (c =? 13) || (c =? 10).

(** The offset behind a number that starts at [i]. *)
Definition scan_number (b : cf_bytes) (i : Z) : option (option Z) :=
  p ← number_int b i;
  match p with None => Some None | Some p =>
  p ← number_frac b p;
  match p with None => Some None | Some p =>
  p ← number_exp b p;
  match p with None => Some None | Some p =>
  bad ← at_char b p (λ c, negb (delimiter c));
  Some (if (bad : bool) then None else Some p)
  end end end.

(** The loop over the input, with fuel. *)
Fixpoint lexeme_loop (fuel : nat) (b : cf_bytes) (string escaped : bool) (i : Z) : option bool :=
  match fuel with
  | O => None
  | S fuel =>
      if len b <=? i then Some (negb string) else
      c ← bget b i;
      if string then
        if c <? 32 then Some false else
        if escaped then lexeme_loop fuel b true false (i + 1) else
        lexeme_loop fuel b (negb (c =? 34)) (c =? 92) (i + 1)
      else if c =? 34 then lexeme_loop fuel b true escaped (i + 1)
      else if (c <? 32) && negb (c =? 9) && negb (c =? 13) && negb (c =? 10) then Some false
      else if (c =? 45) || number_digit c then
        p ← scan_number b i;
        match p with None => Some false | Some p => lexeme_loop fuel b string escaped (p - 1 + 1) end
      else lexeme_loop fuel b string escaped (i + 1)
  end.

Definition valid_lexemes (b : cf_bytes) : option bool :=
  lexeme_loop (S (Z.to_nat (len b))) b false false 0.

(** ** Parsing *)

(** The vendored parser with the two hooks installed: it takes the bytes and
    returns the tree with the offset where it stopped, or nothing; [Delete]
    frees a tree. *)
Class JsonParser := {
  ParseWithLengthOpts : list Z -> json_heap -> option (json * Z) * json_heap;
  cf_cJSON_Delete : option json -> json_heap -> json_heap
}.

(** The escape "\u0000". *)
Definition escaped_nul : list Z := [92; 117; 48; 48; 48; 48].

(** The loop that refuses NULs; [k] is [in.len - i]. *)
Fixpoint nul_loop (b : cf_bytes) (k : nat) (i : Z) : option bool :=
  match k with
  | O => Some true
  | S k' =>
      c ← bget b i;
      if c =? 0 then Some false else
      same ← (if i + 6 <=? len b then m ← ptr b; s ← slice m i 6; Some (bool_decide (s = escaped_nul)) else Some false);
      if (same : bool) then Some false else nul_loop b k' (i + 1)
  end.

Definition space (c : Z) : bool := (c =? 32) || (c =? 9) || (c =? 13) || (c =? 10).

(** The [while] loop that moves [end] over white space; [k] is what is left. *)
Fixpoint skip_space (b : cf_bytes) (k : nat) (p : Z) : option Z :=
  match k with
  | O => Some p
  | S k' => c ← bget b p; if space c then skip_space b k' (p + 1) else Some p
  end.

(** [wipe_tree] on one item and its children. *)
Fixpoint wipe_tree (item : json) : option json :=
  match item with
  | Json t v d s cs =>
      v ← match v with
          | None => Some None
          | Some x => n ← strlen x; y ← cf_secure_zero x n; Some (Some y)
          end;
      cs ← mapM wipe_tree cs;
      Some (Json t v d s cs)
  end.

Section Parse.
Context `{JsonParser}.

Definition cf_json_delete_secret (root : option json) (h : json_heap) : option json_heap :=
  match root with
  | None => Some (cf_cJSON_Delete None h)
  | Some root => root ← wipe_tree root; Some (cf_cJSON_Delete (Some root) h)
  end.

Definition reset_failure (h : json_heap) : json_heap :=
  Heap (json_live_bytes h) false (blocks h) (released h).

Definition cf_json_parse (b : cf_bytes) (h : json_heap) : option (option json * json_heap) :=
  let h := reset_failure h in
  if bool_decide (ptr b = None) || (len b =? 0) || (8192 <? len b) then Some (None, h) else
  ok ← valid_lexemes b;
  if negb ok then Some (None, h) else
  ok ← nul_loop b (Z.to_nat (len b)) 0;
  if negb ok then Some (None, h) else
  m ← ptr b; text ← slice m 0 (len b);
  let '(result, h) := ParseWithLengthOpts text h in
  match result with
  | None => Some (None, h)
  | Some (root, end_) =>
      end_ ← skip_space b (Z.to_nat (len b - end_)) end_;
      if negb (end_ =? len b) then h ← cf_json_delete_secret (Some root) h; Some (None, h)
      else Some (Some root, h)
  end.

End Parse.

(** ** The key check *)

(** [for (i = 0; i < count; ++i) if (strcmp(...) == 0) break], and [i == count]. *)
Fixpoint allowed_key (key : list Z) (allowed : list (list Z)) : option bool :=
  match allowed with
  | [] => Some false
  | a :: allowed => same ← streq key a; if (same : bool) then Some true else allowed_key key allowed
  end.

(** The loop over the later siblings: is the key repeated? *)
Fixpoint repeated_key (key : list Z) (later : list json) : option bool :=
  match later with
  | [] => Some false
  | b :: later =>
      same ← match j_string b with None => Some false | Some s => streq key s end;
      if (same : bool) then Some true else repeated_key key later
  end.

Fixpoint keys_loop (children : list json) (allowed : list (list Z)) : option bool :=
  match children with
  | [] => Some true
  | a :: later =>
      match j_string a with
      | None => Some false
      | Some key =>
          ok ← allowed_key key allowed;
          if negb ok then Some false else
          again ← repeated_key key later;
          if (again : bool) then Some false else keys_loop later allowed
      end
  end.

Definition cf_json_keys (object : option json) (allowed : list (list Z)) : option bool :=
  if negb (cf_cJSON_IsObject object) then Some false else
  match object with None => Some false | Some o => keys_loop (j_child o) allowed end.

(** ** The heap *)

Definition charges : gmap Z json_allocation -> Z := total a_size.

(** The accounts are right, and everything handed back is erased. *)
Record heap_ok (header : Z) (h : json_heap) : Prop := {
  ho_live : json_live_bytes h = charges (blocks h);
  ho_limit : 0 <= json_live_bytes h <= JSON_HEAP_LIMIT;
  ho_blocks : map_Forall (λ _ a, header <= a_size a /\ zlen (a_bytes a) = a_size a) (blocks h);
  ho_erased : Forall (Forall (λ c, c = 0)) (released h)
}.

(** What a client of the hooks can do: allocate, where [malloc] may fail and
    gives a fresh block; write into a block; free a live pointer. *)
Inductive heap_step (header : Z) : json_heap -> json_heap -> Prop :=
| StepAlloc size got h :
    0 <= size <= SIZE_MAX ->
    (forall p bytes, got = Some (p, bytes) -> blocks h !! p = None /\ zlen bytes = size + header) ->
    heap_step header h (snd (json_alloc header size got h))
| StepWrite p a bytes h :
    blocks h !! p = Some a -> zlen bytes = zlen (a_bytes a) ->
    heap_step header h (Heap (json_live_bytes h) (json_allocation_failed h) (<[p := Allocation (a_size a) bytes]> (blocks h)) (released h))
| StepFree p a h h' :
    blocks h !! p = Some a -> json_free header (Some (p + header)) h = Some h' -> heap_step header h h'.

Lemma sizes_nonneg (m : gmap Z json_allocation) header : 0 <= header -> map_Forall (λ _ a, header <= a_size a /\ zlen (a_bytes a) = a_size a) m ->
  map_Forall (λ _ a, 0 <= a_size a) m.
Proof. intros Hh H; eapply map_Forall_impl; [exact H|]; cbn; intros p a [? _]; lia. Qed.

Section HeapSpec.
Context (header : Z) (Hheader : 0 < header <= 64).

Lemma free_spec h p a :
  heap_ok header h -> blocks h !! p = Some a ->
  json_free header (Some (p + header)) h =
    Some (Heap (json_live_bytes h - a_size a) (json_allocation_failed h) (delete p (blocks h))
            (replicate (length (a_bytes a)) 0 :: released h)) /\
  a_size a <= json_live_bytes h.
Proof.
  intros [Hl Hm Hb He] Hp; unfold json_free; replace (p + header - header) with p by lia; rewrite Hp; cbn [mbind option_bind].
  destruct (Hb p a Hp) as [Hs Hz]; rewrite <- Hz, secure_zero_all; cbn [mbind option_bind].
  assert (a_size a <= json_live_bytes h) as Hle
    by (rewrite Hl; apply (total_ge a_size p); [by apply (sizes_nonneg _ header); [lia|]|done]).
  split; [|lia]; rewrite (wrap_small 32) by (unfold JSON_HEAP_LIMIT in *; simpl; lia); done.
Qed.

Lemma heap_step_ok h h' : heap_step header h h' -> heap_ok header h -> heap_ok header h'.
Proof.
  intros Hstep Hok; destruct Hstep as [size got h Hsize Hgot|p a bytes h Hp Hz|p a h h' Hp Hfree].
  - destruct Hok as [Hl Hm Hb He]; unfold json_alloc, JSON_HEAP_LIMIT, SIZE_MAX in *.
    rewrite !(wrap_small 32) by (simpl; lia); destruct (Z.ltb_spec (32768 - header) size); [by split|].
    rewrite (wrap_small 32 (size + header)) by (simpl; lia).
    destruct (Z.ltb_spec (32768 - json_live_bytes h) (size + header)); [by split|].
    destruct got as [[p bytes]|]; [|by split]; destruct (Hgot p bytes eq_refl) as [Hp Hlen].
    rewrite (wrap_small 32) by (simpl; lia); split; cbn [snd json_live_bytes blocks released].
    + unfold charges; rewrite total_insert by done; cbn [a_size]; unfold charges in Hl; lia.
    + unfold JSON_HEAP_LIMIT; lia.
    + apply map_Forall_insert_2; [|done]; cbn; lia.
    + done.
  - destruct Hok as [Hl Hm Hb He]; destruct (Hb p a Hp) as [Hs Hlen]; split; cbn [json_live_bytes blocks released]; try done.
    + rewrite Hl; symmetry; by apply (total_update a_size p a).
    + apply map_Forall_insert_2; [|done]; cbn; lia.
  - destruct (free_spec h p a Hok Hp) as [E Hle]; rewrite E in Hfree; injection Hfree as <-.
    destruct Hok as [Hl Hm Hb He]; destruct (Hb p a Hp) as [Hs Hlen]; split; cbn [json_live_bytes blocks released].
    + rewrite Hl; unfold charges; rewrite (total_delete a_size p a) by done; lia.
    + lia.
    + by apply map_Forall_delete.
    + constructor; [|done]; by apply Forall_replicate.
Qed.

Lemma heap_steps_ok h h' : rtc (heap_step header) h h' -> heap_ok header h -> heap_ok header h'.
Proof. induction 1; [done|]; intros; by eauto using heap_step_ok. Qed.

Lemma empty_heap_ok : heap_ok header empty_heap.
Proof. split; [done|done|apply map_Forall_empty|constructor]. Qed.

End HeapSpec.

(** ** The lexical grammar *)

Definition digits (l : list Z) : Prop := l <> [] /\ Forall (λ c, number_digit c = true) l.

(** The numbers of RFC 8259. *)
Inductive number : list Z -> Prop :=
| Number sign int frac exp :
    sign = [] \/ sign = [45] ->
    int = [48] \/ digits int /\ head int <> Some 48 ->
    frac = [] \/ (exists d, digits d /\ frac = 46 :: d) ->
    exp = [] \/ (exists e s d, (e = 101 \/ e = 69) /\ (s = [] \/ s = [43] \/ s = [45]) /\ digits d /\ exp = e :: s ++ d) ->
    number (sign ++ int ++ frac ++ exp).

Definition delimited (r : list Z) : Prop := match r with [] => True | c :: _ => delimiter c = true end.

(** The inside of a string: no control characters, escapes in pairs. *)
Inductive string_body : list Z -> Prop :=
| BodyEnd : string_body []
| BodyChar c s : 32 <= c -> c <> 34 -> c <> 92 -> string_body s -> string_body (c :: s)
| BodyEscape c s : 32 <= c -> string_body s -> string_body (92 :: c :: s).

(** Other characters between lexemes; structure is left to the parser. *)
Definition plain (c : Z) : bool :=
  negb (c =? 34) && negb (c =? 45) && negb (number_digit c) && ((32 <=? c) || (c =? 9) || (c =? 13) || (c =? 10)).

Inductive lexemes : list Z -> Prop :=
| LexEnd : lexemes []
| LexString s r : string_body s -> lexemes r -> lexemes (34 :: s ++ 34 :: r)
| LexNumber n r : number n -> delimited r -> lexemes r -> lexemes (n ++ r)
| LexPlain c r : plain c = true -> lexemes r -> lexemes (c :: r).

(** The leading digits and the rest. *)
Fixpoint span_digits (l : list Z) : list Z * list Z :=
  match l with
  | [] => ([], [])
  | c :: r => if number_digit c then (c :: fst (span_digits r), snd (span_digits r)) else ([], l)
  end.

Lemma span_app l : l = fst (span_digits l) ++ snd (span_digits l).
Proof. induction l as [|c r IH]; [done|]; cbn [span_digits]; destruct (number_digit c); [|done]; cbn; by f_equal. Qed.

Lemma span_digit l : Forall (λ c, number_digit c = true) (fst (span_digits l)).
Proof. induction l as [|c r IH]; [constructor|]; cbn [span_digits]; destruct (number_digit c) eqn:E; by constructor. Qed.

Definition no_digit (r : list Z) : Prop := match r with [] => True | c :: _ => number_digit c = false end.

Lemma span_stop l : no_digit (snd (span_digits l)).
Proof. induction l as [|c r IH]; [done|]; cbn [span_digits]; destruct (number_digit c) eqn:E; [done|exact E]. Qed.

Lemma span_unique d r : Forall (λ c, number_digit c = true) d -> no_digit r -> span_digits (d ++ r) = (d, r).
Proof.
  induction 1 as [|c d Hc _ IH]; intros Hr; cbn [app span_digits].
  - destruct r as [|c r]; [done|]; cbn [span_digits]; by rewrite Hr.
  - by rewrite Hc, IH.
Qed.

Lemma bget_at b x c r i : denotes b (x ++ c :: r) -> i = zlen x -> bget b i = Some c.
Proof.
  intros Hb ->; rewrite (denotes_get _ _ _ Hb) by (rewrite zlen_app, zlen_cons; pose proof (zlen_nonneg x); pose proof (zlen_nonneg r); lia).
  rewrite <- (Z.add_0_r (zlen x)), rd_app_r by done; done.
Qed.

Lemma skip_digits_spec b x r : denotes b (x ++ r) ->
  digits_from b (zlen x) = Some (zlen x + zlen (fst (span_digits r))).
Proof.
  intros Hb; unfold digits_from; rewrite (denotes_len _ _ Hb), zlen_app.
  replace (Z.to_nat (zlen x + zlen r - zlen x)) with (length r) by (unfold zlen; lia).
  revert x Hb; induction r as [|c r IH]; intros x Hb; [cbn; by rewrite zlen_nil, Z.add_0_r|].
  cbn [length skip_digits span_digits]; rewrite (bget_at _ _ _ _ _ Hb eq_refl); cbn [mbind option_bind].
  destruct (number_digit c); cbn [fst]; [|by rewrite zlen_nil, Z.add_0_r].
  specialize (IH (x ++ [c])); rewrite <- app_assoc, zlen_app in IH; change (zlen [c]) with 1 in IH; rewrite IH by done; rewrite zlen_cons.
  f_equal; lia.
Qed.

Lemma at_char_spec b x r test : denotes b (x ++ r) ->
  at_char b (zlen x) test = Some (match r with [] => false | c :: _ => test c end).
Proof.
  intros Hb; unfold at_char; rewrite (denotes_len _ _ Hb), zlen_app; destruct r as [|c r].
  - by replace (zlen x <? _) with false by (rewrite zlen_nil; lia).
  - replace (zlen x <? _) with true by (rewrite zlen_cons; pose proof (zlen_nonneg r); lia).
    by rewrite (bget_at _ _ _ _ _ Hb eq_refl).
Qed.

(** The parts of a number at the head of a list, with the rest. *)
Definition uint_ref (r : list Z) : option (list Z * list Z) :=
  match r with
  | [] => None
  | c :: r' => if negb (number_digit c) then None else if c =? 48 then Some ([48], r') else Some (span_digits r)
  end.
Definition int_ref (r : list Z) : option (list Z * list Z) :=
  match r with
  | c :: r' => if c =? 45 then '(n, r) ← uint_ref r'; Some (45 :: n, r) else uint_ref r
  | [] => None
  end.
Definition digits_ref (r : list Z) : option (list Z * list Z) :=
  match r with c :: _ => if number_digit c then Some (span_digits r) else None | [] => None end.
Definition frac_ref (r : list Z) : option (list Z * list Z) :=
  match r with
  | c :: r' => if c =? 46 then '(n, r) ← digits_ref r'; Some (46 :: n, r) else Some ([], r)
  | [] => Some ([], [])
  end.
Definition exp_ref (r : list Z) : option (list Z * list Z) :=
  match r with
  | e :: r' =>
      if (e =? 101) || (e =? 69) then
        match r' with
        | s :: r'' => if (s =? 43) || (s =? 45) then '(n, r) ← digits_ref r''; Some (e :: s :: n, r)
                      else '(n, r) ← digits_ref r'; Some (e :: n, r)
        | [] => None
        end
      else Some ([], r)
  | [] => Some ([], [])
  end.

(** What a part means for the offset behind it. *)
Definition part (x : list Z) (o : option (list Z * list Z)) : option (option Z) :=
  Some (match o with None => None | Some (n, _) => Some (zlen x + zlen n) end).

Lemma digits_ref_spec b x r : denotes b (x ++ r) -> r <> [] ->
  (c ← bget b (zlen x); if negb (number_digit c) then Some None else p ← digits_from b (zlen x); Some (Some p)) = part x (digits_ref r).
Proof.
  intros Hb Hr; destruct r as [|c r]; [done|]; rewrite (bget_at _ _ _ _ _ Hb eq_refl); cbn [mbind option_bind digits_ref].
  destruct (number_digit c) eqn:E; cbn [negb]; [|done]; rewrite (skip_digits_spec _ _ _ Hb); unfold part; cbn [mbind option_bind].
  by destruct (span_digits (c :: r)).
Qed.

Lemma int_ref_spec b x r : denotes b (x ++ r) -> r <> [] -> number_int b (zlen x) = part x (int_ref r).
Proof.
  intros Hb Hr; destruct r as [|c r]; [done|]; unfold number_int; rewrite (bget_at _ _ _ _ _ Hb eq_refl); cbn [mbind option_bind int_ref].
  rewrite (denotes_len _ _ Hb), zlen_app, zlen_cons; destruct (Z.eqb_spec c 45) as [->|Hc]; cbn [andb].
  - destruct r as [|d r]; [replace (_ =? _) with true by (rewrite zlen_nil; lia); done|].
    replace (_ =? _) with false by (rewrite zlen_cons; pose proof (zlen_nonneg r); lia).
    assert (denotes b ((x ++ [45]) ++ d :: r)) as Hb' by (by rewrite <- app_assoc).
    assert (zlen x + 1 = zlen (x ++ [45])) as -> by (rewrite zlen_app; done).
    rewrite (bget_at _ _ _ _ _ Hb' eq_refl); cbn [mbind option_bind uint_ref].
    destruct (number_digit d) eqn:E; cbn [negb]; [|done]; destruct (Z.eqb_spec d 48) as [->|Hd].
    + cbn [mbind option_bind]; unfold part; do 2 f_equal; zlia.
    + rewrite (skip_digits_spec _ _ _ Hb'); unfold part; cbn [mbind option_bind].
      destruct (span_digits (d :: r)); cbn [fst]; do 2 f_equal; zlia.
  - rewrite (bget_at _ _ _ _ _ Hb eq_refl); cbn [mbind option_bind uint_ref].
    destruct (number_digit c) eqn:E; cbn [negb]; [|done]; destruct (Z.eqb_spec c 48) as [->|Hd]; [done|].
    rewrite (skip_digits_spec _ _ _ Hb); unfold part; cbn [mbind option_bind]; by destruct (span_digits (c :: r)).
Qed.

Lemma frac_ref_spec b x r : denotes b (x ++ r) -> number_frac b (zlen x) = part x (frac_ref r).
Proof.
  intros Hb; unfold number_frac; rewrite (at_char_spec _ _ _ _ Hb); cbn [mbind option_bind].
  destruct r as [|c r]; [unfold part; cbn; by rewrite zlen_nil, Z.add_0_r|]; cbn [frac_ref].
  destruct (Z.eqb_spec c 46) as [->|Hc]; [|unfold part; by rewrite zlen_nil, Z.add_0_r].
  rewrite (denotes_len _ _ Hb), zlen_app, zlen_cons.
  destruct r as [|d r]; [replace (_ =? _) with true by (rewrite zlen_nil; lia); done|].
  replace (_ =? _) with false by (rewrite zlen_cons; pose proof (zlen_nonneg r); lia).
  assert (denotes b ((x ++ [46]) ++ d :: r)) as Hb' by (by rewrite <- app_assoc).
  assert (zlen x + 1 = zlen (x ++ [46])) as -> by (rewrite zlen_app; done).
  rewrite (digits_ref_spec _ _ _ Hb') by done; unfold part; destruct (digits_ref (d :: r)) as [[n r']|]; [|done]; cbn [mbind option_bind].
  do 2 f_equal; zlia.
Qed.

Lemma exp_ref_spec b x r : denotes b (x ++ r) -> number_exp b (zlen x) = part x (exp_ref r).
Proof.
  intros Hb; unfold number_exp; rewrite (at_char_spec _ _ _ _ Hb); cbn [mbind option_bind].
  destruct r as [|e r]; [unfold part; cbn; by rewrite zlen_nil, Z.add_0_r|]; cbn [exp_ref].
  destruct ((e =? 101) || (e =? 69)); [|unfold part; by rewrite zlen_nil, Z.add_0_r].
  rewrite (denotes_len _ _ Hb), zlen_app, zlen_cons.
  destruct r as [|s r]; [replace (_ =? _) with true by (rewrite zlen_nil; lia); done|].
  replace (zlen x + 1 =? _) with false by (rewrite zlen_cons; pose proof (zlen_nonneg r); lia).
  assert (denotes b ((x ++ [e]) ++ s :: r)) as Hb' by (by rewrite <- app_assoc).
  assert (zlen x + 1 = zlen (x ++ [e])) as Hx by (rewrite zlen_app; done).
  rewrite (bget_at _ _ _ _ _ Hb' Hx); cbn [mbind option_bind]; destruct ((s =? 43) || (s =? 45)).
  - rewrite zlen_cons; destruct r as [|d r]; [replace (_ =? _) with true by (rewrite zlen_nil; lia); done|].
    replace (_ =? _) with false by (rewrite zlen_cons; pose proof (zlen_nonneg r); lia).
    assert (denotes b ((x ++ [e; s]) ++ d :: r)) as Hb2 by (by rewrite <- app_assoc).
    assert (zlen x + 1 + 1 = zlen (x ++ [e; s])) as -> by (rewrite zlen_app; change (zlen [e; s]) with 2; lia).
    rewrite (digits_ref_spec _ _ _ Hb2) by done; unfold part; destruct (digits_ref (d :: r)) as [[n r']|]; [|done]; cbn [mbind option_bind].
    do 2 f_equal; zlia.
  - replace (_ =? _) with false by (rewrite zlen_cons; pose proof (zlen_nonneg r); lia).
    rewrite Hx, (digits_ref_spec _ _ _ Hb') by done; unfold part; destruct (digits_ref (s :: r)) as [[n r']|]; [|done]; cbn [mbind option_bind].
    do 2 f_equal; zlia.
Qed.

Definition number_ref (r : list Z) : option (list Z * list Z) :=
  '(i, r) ← int_ref r; '(f, r) ← frac_ref r; '(e, r) ← exp_ref r;
  if match r with [] => true | c :: _ => delimiter c end then Some (i ++ f ++ e, r) else None.

Lemma digits_ref_sound r n r' : digits_ref r = Some (n, r') -> r = n ++ r' /\ digits n /\ no_digit r'.
Proof.
  destruct r as [|c r]; [done|]; cbn [digits_ref]; destruct (number_digit c) eqn:E; [|done]; intros H.
  pose proof (span_app (c :: r)) as Ha; pose proof (span_digit (c :: r)) as Hd; pose proof (span_stop (c :: r)) as Hs.
  assert (span_digits (c :: r) = (n, r')) as Hsp by congruence; rewrite Hsp in *; cbn [fst snd] in *; split; [done|]; split; [split; [|done]|done].
  intros ->; cbn [span_digits] in Hsp; rewrite E in Hsp; discriminate.
Qed.

Lemma digits_ref_complete n r : digits n -> no_digit r -> digits_ref (n ++ r) = Some (n, r).
Proof.
  intros [Hne Hd] Hr; destruct n as [|c n]; [done|]; pose proof Hd as [Hc _]%Forall_cons; cbn [app digits_ref].
  rewrite Hc; f_equal; by apply (span_unique (c :: n)).
Qed.

Lemma uint_ref_sound r n r' : uint_ref r = Some (n, r') -> r = n ++ r' /\ (n = [48] \/ digits n /\ head n <> Some 48).
Proof.
  destruct r as [|c r]; [done|]; cbn [uint_ref]; destruct (number_digit c) eqn:E; cbn [negb]; [|done].
  destruct (Z.eqb_spec c 48) as [->|Hc]; intros H; [injection H as <- <-; split; [done|by left]|].
  destruct (digits_ref_sound (c :: r) n r') as (Ha & Hd & _); [cbn [digits_ref]; by rewrite E|].
  split; [done|]; right; split; [done|]; destruct n as [|d n]; [by destruct Hd|]; injection Ha as <- _; cbn; congruence.
Qed.

Lemma uint_ref_complete n r : n = [48] \/ digits n /\ head n <> Some 48 -> no_digit r -> uint_ref (n ++ r) = Some (n, r).
Proof.
  intros [->|[Hd Hh]] Hr; [done|]; pose proof (digits_ref_complete n r Hd Hr) as H.
  destruct n as [|c n]; [by destruct Hd|]; cbn [app uint_ref digits_ref] in *; destruct (number_digit c); [|done]; cbn [negb].
  replace (c =? 48) with false; [done|]; cbn in Hh; symmetry; apply Z.eqb_neq; congruence.
Qed.

Lemma int_ref_sound r i r1 : int_ref r = Some (i, r1) -> r = i ++ r1 /\
  exists sign int, i = sign ++ int /\ (sign = [] \/ sign = [45]) /\ (int = [48] \/ digits int /\ head int <> Some 48).
Proof.
  destruct r as [|c r]; [done|]; cbn [int_ref]; destruct (Z.eqb_spec c 45) as [->|Hc]; intros H.
  - destruct (uint_ref r) as [[n1 r1']|] eqn:Eu; [|done]; injection H as <- <-.
    apply uint_ref_sound in Eu as [-> Hn]; split; [done|]; exists [45], n1; auto.
  - apply uint_ref_sound in H as [-> Hn]; split; [done|]; exists [], i; auto.
Qed.

Lemma frac_ref_sound r f r' : frac_ref r = Some (f, r') -> r = f ++ r' /\ (f = [] \/ exists d, digits d /\ f = 46 :: d).
Proof.
  destruct r as [|c r]; cbn [frac_ref]; intros H; [injection H as <- <-; auto|].
  destruct (Z.eqb_spec c 46) as [->|Hc]; [|injection H as <- <-; auto].
  destruct (digits_ref r) as [[d r2]|] eqn:Ed; [|done]; injection H as <- <-.
  apply digits_ref_sound in Ed as (-> & Hd & _); split; [done|]; right; eauto.
Qed.

Lemma exp_ref_sound r e r' : exp_ref r = Some (e, r') -> r = e ++ r' /\
  (e = [] \/ exists c s d, (c = 101 \/ c = 69) /\ (s = [] \/ s = [43] \/ s = [45]) /\ digits d /\ e = c :: s ++ d).
Proof.
  destruct r as [|c r]; cbn [exp_ref]; intros H; [injection H as <- <-; auto|].
  destruct ((c =? 101) || (c =? 69)) eqn:Ec; [|injection H as <- <-; auto]; assert (c = 101 \/ c = 69) as Hc by lia.
  destruct r as [|s r]; [done|]; destruct ((s =? 43) || (s =? 45)) eqn:Es.
  - destruct (digits_ref r) as [[d r2]|] eqn:Ed; [|done]; injection H as <- <-.
    apply digits_ref_sound in Ed as (-> & Hd & _); split; [done|]; right; exists c, [s], d; split; [done|]; split; [|done].
    right; assert (s = 43 \/ s = 45) as [-> | ->] by lia; auto.
  - destruct (digits_ref (s :: r)) as [[d r2]|] eqn:Ed; [|done]; injection H as <- <-.
    apply digits_ref_sound in Ed as (-> & Hd & _); split; [done|]; right; exists c, [], d; auto.
Qed.

Lemma number_ref_sound r n r' : number_ref r = Some (n, r') -> r = n ++ r' /\ number n /\ delimited r'.
Proof.
  unfold number_ref; intros H; destruct (int_ref r) as [[i r1]|] eqn:Ei; [|done]; cbn [mbind option_bind] in H.
  destruct (frac_ref r1) as [[f r2]|] eqn:Ef; [|done]; cbn [mbind option_bind] in H.
  destruct (exp_ref r2) as [[e r3]|] eqn:Ee; [|done]; cbn [mbind option_bind] in H.
  apply int_ref_sound in Ei as (-> & sign & int & -> & Hsign & Hint); apply frac_ref_sound in Ef as [-> Hf].
  apply exp_ref_sound in Ee as [-> He].
  assert (delimited r3 /\ n = (sign ++ int) ++ f ++ e /\ r' = r3) as (Hr & -> & ->).
  { unfold delimited; destruct r3 as [|c r3]; [injection H as <- <-; auto|]; destruct (delimiter c); [injection H as <- <-; auto|done]. }
  rewrite <- !app_assoc; split; [done|]; split; [by constructor|done].
Qed.

Lemma delimited_no_digit r : delimited r -> no_digit r.
Proof. destruct r as [|c r]; [done|]; unfold delimited, no_digit, delimiter, number_digit; lia. Qed.

Lemma exp_ref_complete exp r : delimited r ->
  exp = [] \/ (exists e s d, (e = 101 \/ e = 69) /\ (s = [] \/ s = [43] \/ s = [45]) /\ digits d /\ exp = e :: s ++ d) ->
  exp_ref (exp ++ r) = Some (exp, r).
Proof.
  intros Hr [->|(e & s & d & He & Hs & Hd & ->)].
  - destruct r as [|c r]; [done|]; cbn [app exp_ref]; unfold delimited, delimiter in Hr.
    by replace ((c =? 101) || (c =? 69)) with false by lia.
  - cbn [app exp_ref]; replace ((e =? 101) || (e =? 69)) with true by lia; rewrite <- app_assoc.
    pose proof (digits_ref_complete d r Hd (delimited_no_digit r Hr)) as H.
    destruct Hs as [->|[->| ->]]; cbn [app]; [|by rewrite H..].
    destruct d as [|c d]; [by destruct Hd|]; cbn [app]; destruct Hd as [_ [Hc _]%Forall_cons]; unfold number_digit in Hc.
    replace ((c =? 43) || (c =? 45)) with false by lia; cbn [app] in H; by rewrite H.
Qed.

Lemma number_ref_complete n r : number n -> delimited r -> number_ref (n ++ r) = Some (n, r).
Proof.
  intros [sign int frac exp Hsign Hint Hfrac Hexp] Hr; unfold number_ref; rewrite <- !app_assoc.
  pose proof (exp_ref_complete exp r Hr Hexp) as He.
  assert (frac_ref (frac ++ exp ++ r) = Some (frac, exp ++ r) /\ no_digit (frac ++ exp ++ r)) as [Hf Hnd].
  { assert (no_digit (exp ++ r) /\ match exp ++ r with c :: _ => c <> 46 | [] => True end) as [Hn1 Hn2].
    { destruct Hexp as [->|(e & s & d & He' & _ & _ & ->)]; cbn [app].
      - split; [by apply delimited_no_digit|]; destruct r; [done|]; unfold delimited, delimiter in Hr; lia.
      - unfold no_digit, number_digit; lia. }
    destruct Hfrac as [->|(d & Hd & ->)]; cbn [app].
    - split; [|done]; destruct (exp ++ r) as [|c l]; [done|]; cbn [frac_ref]; by replace (c =? 46) with false by lia.
    - cbn [frac_ref]; change (46 =? 46) with true; cbv iota; by rewrite digits_ref_complete. }
  assert (int_ref (sign ++ int ++ frac ++ exp ++ r) = Some (sign ++ int, frac ++ exp ++ r)) as ->.
  { pose proof (uint_ref_complete int _ Hint Hnd) as Hu; destruct Hsign as [->| ->]; cbn [app].
    - destruct int as [|c int]; [destruct Hint as [?|[[? _] _]]; done|]; cbn [app int_ref] in *.
      replace (c =? 45) with false; [done|]; destruct Hint as [[= ->]|[[_ [Hc _]%Forall_cons] _]]; [done|unfold number_digit in Hc; lia].
    - cbn [int_ref]; change (45 =? 45) with true; cbv iota; by rewrite Hu. }
  cbn [mbind option_bind]; rewrite Hf; cbn [mbind option_bind]; rewrite He; cbn [mbind option_bind].
  rewrite <- !app_assoc; destruct r as [|c r]; [done|]; unfold delimited in Hr; by rewrite Hr.
Qed.

Lemma number_head n : number n -> exists c n', n = c :: n' /\ ((c =? 45) || number_digit c) = true.
Proof.
  intros [sign int frac exp Hsign Hint _ _]; destruct Hsign as [->| ->]; [|by do 2 eexists].
  destruct Hint as [->|[[Hne Hd] _]]; [by do 2 eexists|]; destruct int as [|c int]; [done|].
  apply Forall_cons in Hd as [Hc _]; cbn [app]; do 2 eexists; split; [done|]; by rewrite Hc, orb_true_r.
Qed.

Lemma scan_number_spec b x r : denotes b (x ++ r) -> r <> [] ->
  scan_number b (zlen x) = Some (match number_ref r with None => None | Some (n, _) => Some (zlen x + zlen n) end).
Proof.
  intros Hb Hr; unfold scan_number, number_ref; rewrite (int_ref_spec _ _ _ Hb Hr); unfold part; cbn [mbind option_bind].
  destruct (int_ref r) as [[i r1]|] eqn:Ei; [|done]; cbn [mbind option_bind]; apply int_ref_sound in Ei as [-> _].
  rewrite app_assoc in Hb; rewrite <- zlen_app, (frac_ref_spec _ _ _ Hb); unfold part; cbn [mbind option_bind].
  destruct (frac_ref r1) as [[f r2]|] eqn:Ef; [|done]; cbn [mbind option_bind]; apply frac_ref_sound in Ef as [-> _].
  rewrite app_assoc in Hb; rewrite <- zlen_app, (exp_ref_spec _ _ _ Hb); unfold part; cbn [mbind option_bind].
  destruct (exp_ref r2) as [[e r3]|] eqn:Ee; [|done]; cbn [mbind option_bind]; apply exp_ref_sound in Ee as [-> _].
  rewrite app_assoc in Hb; rewrite <- zlen_app, (at_char_spec _ _ _ _ Hb); cbn [mbind option_bind].
  destruct r3 as [|c r3]; [|destruct (delimiter c); cbn [negb]]; try done; by rewrite <- !app_assoc, zlen_app.
Qed.

(** ** The filter decides the grammar *)

Definition in_string (escaped : bool) (r : list Z) : Prop :=
  exists s t, r = s ++ 34 :: t /\ lexemes t /\
    if escaped then exists c s', s = c :: s' /\ 32 <= c /\ string_body s' else string_body s.

Lemma lexemes_number r : lexemes r -> forall c r', r = c :: r' -> (c =? 45) || number_digit c = true ->
  exists n t, r = n ++ t /\ number n /\ delimited t /\ lexemes t.
Proof.
  intros H c r' -> Hc; inversion H as [|s t Hs Ht E|n t Hn Hd Ht E|c' t Hp Ht E]; subst.
  - discriminate.
  - by exists n, t.
  - unfold plain in Hp; lia.
Qed.

Lemma lexemes_plain c r : lexemes (c :: r) -> c <> 34 -> (c =? 45) || number_digit c = false -> plain c = true /\ lexemes r.
Proof.
  intros H H34 Hc; inversion H as [|s t Hs Ht E|n t Hn Hd Ht E|c' t Hp Ht E]; subst; [done| |done].
  destruct (number_head n Hn) as (d & n' & -> & Hd'); injection E as -> _; congruence.
Qed.

Lemma lexemes_string r : lexemes (34 :: r) -> in_string false r.
Proof.
  intros H; inversion H as [|s t Hs Ht E|n t Hn Hd Ht E|c' t Hp Ht E]; subst.
  - by exists s, t.
  - destruct (number_head n Hn) as (d & n' & -> & Hd'); injection E as -> _; discriminate.
  - discriminate.
Qed.

(** One character inside a string. *)
Lemma in_string_cons e c r : in_string e (c :: r) <->
  if e then 32 <= c /\ in_string false r
  else c = 34 /\ lexemes r \/ 32 <= c /\ c <> 34 /\ in_string (c =? 92) r.
Proof.
  split.
  - intros (s & t & E & Ht & Hs); destruct e.
    + destruct Hs as (d & s' & -> & Hd & Hs); injection E as <- ->; split; [done|]; by exists s', t.
    + destruct Hs as [|d s Hd H34 H92 Hs|d s Hd Hs]; injection E as -> ->; [by left| |]; right.
      * split; [done|]; split; [done|]; replace (d =? 92) with false by lia; by exists s, t.
      * split; [lia|]; split; [lia|]; change (92 =? 92) with true; exists (d :: s), t; split; [done|]; split; [done|]; eauto.
  - destruct e.
    + intros (Hc & s & t & -> & Ht & Hs); exists (c :: s), t; split; [done|]; split; [done|]; eauto.
    + intros [(-> & Ht)|(Hc & H34 & s & t & -> & Ht & Hs)]; [exists [], r; split; [done|]; split; [done|constructor]|].
      exists (c :: s), t; split; [done|]; split; [done|]; destruct (Z.eqb_spec c 92) as [->|H92]; [|by constructor].
      destruct Hs as (d & s' & -> & Hd & Hs); by constructor.
Qed.

Lemma lexeme_loop_spec r : forall fuel b x, denotes b (x ++ r) -> zlen r < Z.of_nat fuel ->
  (exists v, lexeme_loop fuel b false false (zlen x) = Some v /\ (v = true <-> lexemes r)) /\
  (forall e, exists v, lexeme_loop fuel b true e (zlen x) = Some v /\ (v = true <-> in_string e r)).
Proof.
  induction r as [r IH] using list_len_ind; intros fuel b x Hb Hf.
  destruct fuel as [|fuel]; [pose proof (zlen_nonneg r); lia|].
  cbn [lexeme_loop]; rewrite (denotes_len _ _ Hb), zlen_app; destruct r as [|c r].
  { replace (_ <=? zlen x) with true by (rewrite zlen_nil; lia); split; [|intros e]; eexists; (split; [done|]).
    - split; [intros _; constructor|done].
    - split; [done|]; intros (s & t & E & _); by destruct s. }
  replace (_ <=? zlen x) with false by (rewrite zlen_cons; pose proof (zlen_nonneg r); lia).
  rewrite (bget_at _ _ _ _ _ Hb eq_refl); cbn [mbind option_bind]; rewrite zlen_cons in Hf.
  assert (zlen x + 1 = zlen (x ++ [c])) as Hx by (rewrite zlen_app; done).
  assert (denotes b ((x ++ [c]) ++ r)) as Hb' by (by rewrite <- app_assoc).
  destruct (IH r ltac:(cbn; lia) fuel b (x ++ [c]) Hb' ltac:(lia)) as [(v & Hout & Hv) Hin]; rewrite <- Hx in *.
  split; [|intros e].
  - destruct (Z.eqb_spec c 34) as [->|H34].
    { destruct (Hin false) as (w & Hw & Hiff); exists w; split; [done|]; rewrite Hiff; split; [|apply lexemes_string].
      intros (s & t & -> & Ht & Hs); by constructor. }
    destruct ((c <? 32) && negb (c =? 9) && negb (c =? 13) && negb (c =? 10)) eqn:Ectl.
    { eexists; split; [done|]; split; [done|]; intros [Hp _]%lexemes_plain; [|done|unfold number_digit; lia]; unfold plain in Hp; lia. }
    destruct ((c =? 45) || number_digit c) eqn:Enum.
    + rewrite (scan_number_spec _ _ _ Hb) by done; cbn [mbind option_bind].
      destruct (number_ref (c :: r)) as [[n t]|] eqn:En.
      * pose proof (number_ref_sound _ _ _ En) as (E & Hn & Hd); pose proof E as E'.
        destruct (number_head n Hn) as (d & n' & -> & _); injection E' as _ E'.
        rewrite E, app_assoc in Hb.
        destruct (IH t ltac:(rewrite E'; cbn; rewrite length_app; lia) fuel b (x ++ d :: n') Hb) as [(w & Hw & Hiff) _];
          [rewrite E', zlen_app in Hf; pose proof (zlen_nonneg n'); lia|].
        rewrite zlen_app in Hw; exists w; rewrite Z.sub_add; split; [done|]; rewrite Hiff, E; split.
        -- intros Ht; by apply LexNumber.
        -- intros H; destruct (lexemes_number _ H d (n' ++ t) eq_refl) as (n2 & t2 & E2 & Hn2 & Hd2 & Ht2).
           { destruct (number_head _ Hn) as (d' & n2 & [= <- _] & Hd'); done. }
           rewrite E in En; rewrite E2, (number_ref_complete _ _ Hn2 Hd2) in En; by injection En as _ <-.
      * eexists; split; [done|]; split; [done|]; intros H.
        destruct (lexemes_number _ H c r eq_refl Enum) as (n2 & t2 & E2 & Hn2 & Hd2 & Ht2).
        rewrite E2, (number_ref_complete _ _ Hn2 Hd2) in En; discriminate.
    + exists v; split; [done|]; rewrite Hv; split.
      * intros Ht; apply LexPlain; [|done]; unfold plain; unfold number_digit in *; lia.
      * intros H; by apply lexemes_plain in H as [_ Ht].
  - destruct (Z.ltb_spec c 32) as [Hlow|Hlow].
    { eexists; split; [done|]; split; [done|]; intros H; apply in_string_cons in H; destruct e; lia. }
    destruct e.
    + destruct (Hin false) as (w & Hw & Hiff); exists w; split; [done|]; rewrite Hiff; symmetry; rewrite in_string_cons; intuition.
    + destruct (Z.eqb_spec c 34) as [->|H34]; cbn [negb].
      { exists v; split; [done|]; rewrite Hv; symmetry; rewrite in_string_cons; cbn; intuition lia. }
      destruct (Hin (c =? 92)) as (w & Hw & Hiff); exists w; split; [done|]; rewrite Hiff; symmetry; rewrite in_string_cons; intuition lia.
Qed.

(** [valid_lexemes] returns on every input and decides the grammar. *)
Lemma valid_lexemes_spec b l : denotes b l -> exists v, valid_lexemes b = Some v /\ (v = true <-> lexemes l).
Proof.
  intros Hb; unfold valid_lexemes.
  destruct (lexeme_loop_spec l (S (Z.to_nat (len b))) b [] Hb) as [H _]; [|exact H].
  rewrite (denotes_len _ _ Hb); unfold zlen; lia.
Qed.

(** ** NULs and white space *)

Definition has_escaped_nul (l : list Z) : Prop := exists x y, l = x ++ escaped_nul ++ y.

Lemma nul_loop_spec b r : forall x, denotes b (x ++ r) ->
  exists v, nul_loop b (length r) (zlen x) = Some v /\ (v = true <-> (0 ∉ r) /\ ~ has_escaped_nul r).
Proof.
  induction r as [|c r IH]; intros x Hb; cbn [length nul_loop].
  - exists true; split; [done|]; split; [|done]; intros _; split; [apply not_elem_of_nil|].
    intros (y & z & E); by destruct y.
  - rewrite (bget_at _ _ _ _ _ Hb eq_refl); cbn [mbind option_bind]; destruct (Z.eqb_spec c 0) as [->|Hc].
    { exists false; split; [done|]; split; [done|]; intros [H _]; exfalso; apply H; by left. }
    assert ((if zlen x + 6 <=? len b then m ← ptr b; s ← slice m (zlen x) 6; Some (bool_decide (s = escaped_nul)) else Some false) =
      Some (bool_decide (take 6 (c :: r) = escaped_nul))) as ->.
    { rewrite (denotes_len _ _ Hb), zlen_app; destruct (Z.leb_spec (zlen x + 6) (zlen x + zlen (c :: r))) as [Hfit|Hshort].
      - destruct Hb as (_ & _ & Hp); destruct (ptr b) as [m|]; [|exfalso; by destruct x].
        destruct Hp as [rest ->]; cbn [mbind option_bind].
        rewrite slice_sub by (rewrite ?zlen_app; pose proof (zlen_nonneg x); pose proof (zlen_nonneg rest); lia); cbn [mbind option_bind].
        do 3 f_equal; rewrite <- app_assoc; unfold sub; replace (Z.to_nat (zlen x)) with (length x) by (unfold zlen; lia); change (Z.to_nat 6) with 6%nat; rewrite drop_app_length.
        rewrite take_app_le; [done|unfold zlen in *; lia].
      - symmetry; f_equal; apply bool_decide_eq_false_2; intros E; apply (f_equal length) in E.
        rewrite length_take in E; unfold zlen in *; cbn [length] in *; change (length escaped_nul) with 6%nat in E; lia. }
    cbn [mbind option_bind]; case_bool_decide as Hesc.
    { exists false; split; [done|]; split; [done|]; intros [_ H]; exfalso; apply H; exists [], (drop 6 (c :: r)).
      by rewrite <- Hesc; cbn [app]; rewrite take_drop. }
    destruct (IH (x ++ [c])) as (v & Hv & Hiff); [by rewrite <- app_assoc|].
    rewrite zlen_app in Hv; change (zlen [c]) with 1 in Hv; exists v; split; [done|]; rewrite Hiff, not_elem_of_cons; split.
    + intros [H0 Hn]; split; [split; [congruence|done]|]; intros (y & z & E); destruct y as [|d y].
      * apply Hesc; cbn [app] in E; by rewrite E.
      * injection E as _ ->; apply Hn; by exists y, z.
    + intros [[_ H0] Hn]; split; [done|]; intros (y & z & ->); apply Hn; by exists (c :: y), z.
Qed.

Lemma skip_space_spec b r : forall x, denotes b (x ++ r) ->
  exists p, skip_space b (length r) (zlen x) = Some p /\ (p = zlen x + zlen r <-> Forall (λ c, space c = true) r).
Proof.
  induction r as [|c r IH]; intros x Hb; cbn [length skip_space].
  - exists (zlen x); split; [done|]; rewrite zlen_nil, Z.add_0_r; split; [constructor|done].
  - rewrite (bget_at _ _ _ _ _ Hb eq_refl); cbn [mbind option_bind]; rewrite zlen_cons.
    destruct (space c) eqn:Espace.
    + destruct (IH (x ++ [c])) as (p & Hp & Hiff); [by rewrite <- app_assoc|].
      rewrite zlen_app in *; change (zlen [c]) with 1 in *; exists p; split; [done|]; rewrite Forall_cons, <- Hiff; intuition lia.
    + exists (zlen x); split; [done|]; pose proof (zlen_nonneg r); split; [lia|]; intros [E _]%Forall_cons; congruence.
Qed.

(** ** Trees *)

(** Every double but NaN: a mantissa of at most 53 bits. *)
Definition double_ok (d : spec_float) : Prop :=
  match d with S754_nan => False | S754_finite _ m _ => Z.pos m < 2 ^ 53 | _ => True end.

(** What the parser builds: strings end inside their objects, an item of the
    string type has one, and numbers are doubles but never NaN. *)
#[warnings="-register-all"]
Inductive json_ok : json -> Prop :=
| JsonOk t v d s cs :
    (forall x, v = Some x -> exists y, cstr x y /\ bytes_ok y) -> (forall x, s = Some x -> exists y, cstr x y) ->
    (Z.land t 255 = cf_cJSON_String -> v <> None) -> double_ok d ->
    Forall json_ok cs -> json_ok (Json t v d s cs).

(** The same tree with its string values erased. *)
#[warnings="-register-all"]
Inductive wiped : json -> json -> Prop :=
| Wiped t v v' d s cs cs' :
    match v with
    | None => v' = None
    | Some x => exists y rest, x = y ++ 0 :: rest /\ (0 ∉ y) /\ v' = Some (replicate (length y) 0 ++ 0 :: rest)
    end ->
    Forall2 wiped cs cs' -> wiped (Json t v d s cs) (Json t v' d s cs').

Fixpoint json_induction (P : json -> Prop)
    (H : forall t v d s cs, Forall P cs -> P (Json t v d s cs)) (j : json) : P j :=
  match j with
  | Json t v d s cs => H t v d s cs
      ((fix go (l : list json) : Forall P l :=
          match l with [] => Forall_nil_2 P | c :: l => Forall_cons_2 P c l (json_induction P H c) (go l) end) cs)
  end.

Lemma wipe_tree_spec j : json_ok j -> exists j', wipe_tree j = Some j' /\ wiped j j'.
Proof.
  induction j as [t v d s cs IH] using json_induction; intros Hok; inversion Hok as [? ? ? ? ? Hv Hs _ _ Hcs]; subst; cbn [wipe_tree].
  assert (exists cs', mapM wipe_tree cs = Some cs' /\ Forall2 wiped cs cs') as (cs' & Hm & Hw).
  { clear Hok; induction IH as [|c cs Hc _ IHcs]; [by exists []|]; apply Forall_cons in Hcs as [Hcok Hcs].
    destruct (Hc Hcok) as (c' & Hc' & Hwc), (IHcs Hcs) as (cs' & Hcs' & Hw).
    exists (c' :: cs'); split; [by cbn; rewrite Hc'; cbn; rewrite Hcs'|by constructor]. }
  destruct v as [x|].
  - destruct (Hv x eq_refl) as (y & Hy & _); rewrite (strlen_spec _ _ Hy); cbn [mbind option_bind].
    destruct Hy as (rest & -> & Hn); rewrite cf_secure_zero_spec by (rewrite zlen_app, zlen_cons; pose proof (zlen_nonneg y); pose proof (zlen_nonneg rest); lia).
    unfold zlen; rewrite Nat2Z.id, blit_0_intro by (rewrite zlen_replicate, zlen_app, zlen_cons; pose proof (zlen_nonneg rest); unfold zlen; lia).
    rewrite length_replicate, drop_app_length; cbn [mbind option_bind]; rewrite Hm; cbn [mbind option_bind].
    eexists; split; [done|]; constructor; [|done]; by exists y, rest.
  - cbn [mbind option_bind]; rewrite Hm; cbn [mbind option_bind]; eexists; split; [done|]; by constructor.
Qed.

(** ** The parse entry point *)

(** What the development relies on in the vendored parser: it uses the heap
    through the hooks only; its trees hold C strings, and it stops inside the
    input; a failed parse frees what it allocated, and [Delete] frees what the
    parse of the tree allocated, erased strings or not. *)
Class JsonParserLaws (header : Z) `{JsonParser} := {
  parse_steps l h r h' : ParseWithLengthOpts l h = (r, h') -> rtc (heap_step header) h h';
  parse_tree l h root e h' : ParseWithLengthOpts l h = (Some (root, e), h') -> json_ok root /\ 0 <= e <= zlen l;
  parse_failed l h h' : ParseWithLengthOpts l h = (None, h') -> json_live_bytes h' = json_live_bytes h;
  delete_steps j h : rtc (heap_step header) h (cf_cJSON_Delete j h);
  delete_tree l h root e h' j : ParseWithLengthOpts l h = (Some (root, e), h') -> j = root \/ wiped root j ->
    json_live_bytes (cf_cJSON_Delete (Some j) h') = json_live_bytes h;
  delete_null h : cf_cJSON_Delete None h = h
}.

(** The inputs that reach the parser. *)
Definition screened (l : list Z) : Prop :=
  1 <= zlen l <= 8192 /\ lexemes l /\ (0 ∉ l) /\ ~ has_escaped_nul l.

Section ParseSpec.
Context (header : Z) (Hheader : 0 < header <= 64) `{JsonParserLaws header}.

(** The document is accepted with this tree and heap. *)
Definition accepts (l : list Z) (h : json_heap) (root : json) (h' : json_heap) : Prop :=
  screened l /\ exists e, ParseWithLengthOpts l (reset_failure h) = (Some (root, e), h') /\
    Forall (λ c, space c = true) (drop (Z.to_nat e) l).

Lemma reset_ok h : heap_ok header h -> heap_ok header (reset_failure h).
Proof. by intros []. Qed.

Lemma cf_json_parse_spec b l h :
  heap_ok header h -> denotes b l ->
  exists r h', cf_json_parse b h = Some (r, h') /\ heap_ok header h' /\
    match r with
    | Some root => accepts l h root h' /\ json_ok root
    | None => json_live_bytes h' = json_live_bytes h /\ forall root h1, ~ accepts l h root h1
    end.
Proof.
  intros Hh Hb; unfold cf_json_parse; pose proof (reset_ok h Hh) as Hr.
  assert (~ screened l -> exists r h', Some (@None json, reset_failure h) = Some (r, h') /\ heap_ok header h' /\
    match r with
    | Some root => accepts l h root h' /\ json_ok root
    | None => json_live_bytes h' = json_live_bytes h /\ forall root h1, ~ accepts l h root h1
    end) as Hrefuse.
  { intros Hs; do 2 eexists; split; [done|]; split; [done|]; split; [done|]; by intros root h1 [? _]. }
  rewrite (denotes_len _ _ Hb); destruct (bool_decide (ptr b = None) || (zlen l =? 0) || (8192 <? zlen l)) eqn:Esize.
  { apply Hrefuse; intros (Hl & _); case_bool_decide as Hp; [|lia].
    destruct Hb as (_ & _ & Hn); rewrite Hp in Hn; subst l; rewrite zlen_nil in Hl; lia. }
  destruct (valid_lexemes_spec b l Hb) as (v & -> & Hv); cbn [mbind option_bind].
  destruct v; cbn [negb]; [|apply Hrefuse; intros (_ & Hl & _); by apply Hv in Hl].
  replace (Z.to_nat (zlen l)) with (length l) by (unfold zlen; lia).
  destruct (nul_loop_spec b l [] Hb) as (w & Hw & Hwiff); change (zlen []) with 0 in Hw; rewrite Hw; cbn [mbind option_bind].
  destruct w; cbn [negb]; [|apply Hrefuse; intros (_ & _ & Hn); by apply Hwiff in Hn].
  assert (screened l) as Hscreen by (split; [pose proof (zlen_nonneg l); lia|]; split; [by apply Hv|by apply Hwiff]).
  assert (exists m, ptr b = Some m /\ slice m 0 (zlen l) = Some l) as (m & -> & Hslice).
  { destruct Hb as (_ & _ & Hp); destruct (ptr b) as [m|]; [|subst l; rewrite zlen_nil in Esize; simpl in Esize; done].
    destruct Hp as [rest ->]; eexists; split; [done|]; pose proof (zlen_nonneg l); pose proof (zlen_nonneg rest).
    rewrite slice_sub by (rewrite ?zlen_app; lia); f_equal; by apply sub_head. }
  cbn [mbind option_bind]; rewrite Hslice; cbn [mbind option_bind].
  destruct (ParseWithLengthOpts l (reset_failure h)) as [r h'] eqn:Eparse.
  pose proof (heap_steps_ok header Hheader _ _ (parse_steps _ _ _ _ Eparse) Hr) as Hh'.
  destruct r as [[root e]|].
  2: { do 2 eexists; split; [done|]; split; [done|]; split; [by rewrite (parse_failed _ _ _ Eparse)|].
       intros root h1 (_ & e & E & _); congruence. }
  destruct (parse_tree _ _ _ _ _ Eparse) as [Htree He].
  destruct (cut_at l 0 e) as (a & x & y & El & Ha & Hx); [lia|lia|lia|]; destruct a; [|rewrite zlen_cons in Ha; pose proof (zlen_nonneg a); lia].
  cbn [app] in El; rewrite El in Hb; destruct (skip_space_spec b y x Hb) as (p & Hp & Hpiff).
  replace (Z.to_nat (zlen l - e)) with (length y) by (rewrite El, zlen_app; unfold zlen in *; lia); rewrite <- Hx, Hp; cbn [mbind option_bind].
  assert (drop (Z.to_nat e) l = y) as Hdrop by (rewrite El, <- Hx; unfold zlen; by rewrite Nat2Z.id, drop_app_length).
  assert (zlen x + zlen y = zlen l) as Hsum by (by rewrite El, zlen_app); rewrite Hsum in Hpiff.
  destruct (Z.eqb_spec p (zlen l)) as [->|Hne]; cbn [negb].
  - do 2 eexists; split; [done|]; split; [done|]; split; [|done]; split; [done|]; exists e; split; [done|]; rewrite Hdrop; by apply Hpiff.
  - destruct (wipe_tree_spec root Htree) as (j & Hj & Hwiped); cbn [cf_json_delete_secret]; rewrite Hj; cbn [mbind option_bind].
    do 2 eexists; split; [done|]; split; [by apply (heap_steps_ok header Hheader _ _ (delete_steps (Some j) h'))|].
    split; [by rewrite (delete_tree _ _ _ _ _ j Eparse (or_intror Hwiped))|].
    intros root' h1 (_ & e' & E & Hsp); rewrite E in Eparse; injection Eparse as -> -> ->; rewrite Hdrop in Hsp; by apply Hpiff in Hsp.
Qed.

End ParseSpec.

(** ** The key check *)

(** The children carry these names. *)
Definition named (c : json) (n : list Z) : Prop := exists s, j_string c = Some s /\ cstr s n.

Lemma named_unique c n n' : named c n -> named c n' -> n = n'.
Proof.
  intros (s & Hs & Hn) (s' & Hs' & Hn'); rewrite Hs in Hs'; injection Hs' as <-; by eapply cstr_unique.
Qed.

Lemma child_named c : json_ok c -> j_string c = None \/ exists n, named c n.
Proof. intros [t v d s cs _ Hs _ _ _]; destruct s as [s|]; [right|by left]; destruct (Hs s eq_refl) as [n Hn]; by exists n, s. Qed.

Lemma allowed_key_spec key n allowed names :
  cstr key n -> Forall2 cstr allowed names -> allowed_key key allowed = Some (bool_decide (n ∈ names)).
Proof.
  intros Hk; induction 1 as [|a m allowed names Ha _ IH]; cbn [allowed_key].
  - by rewrite bool_decide_eq_false_2 by apply not_elem_of_nil.
  - rewrite (streq_spec _ _ _ _ Hk Ha); cbn [mbind option_bind]; destruct (decide (n = m)) as [->|Hne].
    + rewrite bool_decide_eq_true_2 by done; by rewrite (bool_decide_eq_true_2 (m ∈ m :: names)) by (apply elem_of_cons; by left).
    + rewrite bool_decide_eq_false_2, IH by done; f_equal; apply bool_decide_ext; rewrite elem_of_cons; tauto.
Qed.

Lemma repeated_key_spec key n later :
  cstr key n -> Forall json_ok later ->
  exists v, repeated_key key later = Some v /\ (v = true <-> Exists (λ c, named c n) later).
Proof.
  intros Hk; induction 1 as [|c later Hc _ (v & Hv & IH)]; cbn [repeated_key].
  - exists false; split; [done|]; by rewrite Exists_nil.
  - destruct (child_named c Hc) as [Es|(m & s & Hs & Hm)].
    + rewrite Es; cbn [mbind option_bind]; exists v; split; [done|]; rewrite Exists_cons, IH; split; [by right|].
      intros [(s & Hs & _)|?]; [congruence|done].
    + rewrite Hs, (streq_spec _ _ _ _ Hk Hm); cbn [mbind option_bind]; case_bool_decide as E.
      * exists true; split; [done|]; split; [|done]; intros _; apply Exists_cons; left; subst m; by exists s.
      * exists v; split; [done|]; rewrite Exists_cons, IH; split; [by right|].
        intros [Hn|?]; [|done]; exfalso; apply E; eapply named_unique; [exact Hn|by exists s].
Qed.

Lemma names_of n later names : Forall2 named later names -> Exists (λ c, named c n) later <-> n ∈ names.
Proof.
  induction 1 as [|c m later names Hc _ IH]; [rewrite Exists_nil, elem_of_nil; done|].
  rewrite Exists_cons, elem_of_cons, IH; split; intros [H|H]; auto; left; [by eapply named_unique|by subst n].
Qed.

(** Every child is named, no name is given twice, and only allowed ones are. *)
Definition keys_ok (children : list json) (allowed : list (list Z)) : Prop :=
  exists names, Forall2 named children names /\ NoDup names /\ Forall (λ n, n ∈ allowed) names.

Lemma keys_loop_spec children allowed names :
  Forall json_ok children -> Forall2 cstr allowed names ->
  exists v, keys_loop children allowed = Some v /\ (v = true <-> keys_ok children names).
Proof.
  intros Hc Ha; induction Hc as [|c later Hc Hlater (v & Hv & IH)]; cbn [keys_loop].
  - exists true; split; [done|]; split; [|done]; intros _; exists []; repeat constructor.
  - destruct (child_named c Hc) as [Es|(n & s & Hs & Hn)].
    { rewrite Es; exists false; split; [done|]; split; [done|]; intros (ns & Hns & _); inversion Hns as [|? ? ? ? (s & Hs & _)]; congruence. }
    rewrite Hs, (allowed_key_spec _ _ _ _ Hn Ha); cbn [mbind option_bind].
    assert (forall ns, Forall2 named (c :: later) ns -> exists ms, ns = n :: ms /\ Forall2 named later ms) as Hhead.
    { intros ns Hns; inversion Hns as [|? m ? ms Hm Hms]; subst; exists ms; split; [|done]; f_equal; eapply named_unique; [exact Hm|by exists s]. }
    case_bool_decide as Hin; cbn [negb].
    2: { exists false; split; [done|]; split; [done|]; intros (ns & Hns & _ & Hall); destruct (Hhead _ Hns) as (ms & -> & _).
         by apply Forall_cons in Hall as [? _]. }
    destruct (repeated_key_spec s n later Hn Hlater) as (w & Hw & Hrep); rewrite Hw; cbn [mbind option_bind]; destruct w.
    + exists false; split; [done|]; split; [done|]; intros (ns & Hns & Hnd & _); destruct (Hhead _ Hns) as (ms & -> & Hms).
      apply NoDup_cons in Hnd as [Hnin _]; exfalso; apply Hnin; apply (names_of n _ _ Hms); by apply Hrep.
    + exists v; split; [done|]; rewrite IH; split.
      * intros (ms & Hms & Hnd & Hall); exists (n :: ms); split; [constructor; [by exists s|done]|]; split; [|by constructor].
        apply NoDup_cons; split; [|done]; intros Hnin; apply (names_of n _ _ Hms) in Hnin; by apply Hrep in Hnin.
      * intros (ns & Hns & Hnd & Hall); destruct (Hhead _ Hns) as (ms & -> & Hms); exists ms.
        apply NoDup_cons in Hnd as [_ Hnd]; by apply Forall_cons in Hall as [_ Hall].
Qed.

Lemma cf_json_keys_spec object allowed names :
  (forall o, object = Some o -> json_ok o) -> Forall2 cstr allowed names ->
  exists v, cf_json_keys object allowed = Some v /\
    (v = true <-> cf_cJSON_IsObject object = true /\ exists o, object = Some o /\ keys_ok (j_child o) names).
Proof.
  intros Ho Ha; unfold cf_json_keys; destruct (cf_cJSON_IsObject object) eqn:E; cbn [negb].
  2: { exists false; split; [done|]; split; [done|]; by intros [? _]. }
  destruct object as [o|]; [|done]; specialize (Ho o eq_refl); destruct Ho as [t0 v0 d0 s0 cs _ _ _ _ Hcs]; cbn [j_child].
  destruct (keys_loop_spec cs allowed names Hcs Ha) as (w & Hw & Hiff); exists w; split; [done|]; rewrite Hiff; split.
  - intros Hk; split; [done|]; by eexists.
  - intros (_ & o & [= <-] & Hk); done.
Qed.

(** ** A parser for a table of documents *)

(** It gives the tree of a document it knows, and allocates nothing. *)
Definition table_parser (docs : list (list Z * json)) : JsonParser := {|
  ParseWithLengthOpts l h :=
    (match list_find (λ d, d.1 = l) docs with Some (_, (_, j)) => Some (j, zlen l) | None => None end, h);
  cf_cJSON_Delete _ h := h
|}.

Lemma table_parser_laws header docs :
  Forall (λ d, json_ok d.2) docs -> @JsonParserLaws header (table_parser docs).
Proof.
  intros Hdocs.
  assert (forall l h r h', @ParseWithLengthOpts (table_parser docs) l h = (r, h') -> h' = h) as Hsame by (by intros l h r h' [= _ <-]).
  split.
  - intros l h r h' H; by rewrite (Hsame _ _ _ _ H).
  - intros l h root e h' H; cbn [ParseWithLengthOpts table_parser] in H.
    destruct (list_find _ docs) as [[i [l' j]]|] eqn:E; [|discriminate]; injection H as -> <- _.
    apply list_find_Some in E as (E & _); split; [exact (Forall_lookup_1 _ _ _ _ Hdocs E)|]; pose proof (zlen_nonneg l); lia.
  - intros l h h' H; by rewrite (Hsame _ _ _ _ H).
  - done.
  - intros l h root e h' j H _; cbn [cf_cJSON_Delete table_parser]; by rewrite (Hsame _ _ _ _ H).
  - done.
Qed.

(** The document {"a":1} and its tree. *)
Definition sample_text : list Z := [123; 34; 97; 34; 58; 49; 125].
Definition sample_tree : json :=
  Json cf_cJSON_Object None (S754_zero false) None
    [Json cf_cJSON_Number None (S754_finite false 4503599627370496 (-52)) (Some [97; 0]) []].

#[export] Hint Extern 0 (0 ∉ _) => no_nul : cf.

Lemma sample_tree_ok : json_ok sample_tree.
Proof.
  assert (double_ok (S754_finite false 4503599627370496 (-52))) as Hd by (cbn; lia).
  constructor; [done|done|done|done|]; constructor; [|constructor]; constructor; [done| |done|exact Hd|constructor].
  intros x [= <-]; exists [97]; apply (cstr_intro [97] []); no_nul.
Qed.

Definition sample_parser : JsonParser := table_parser [(sample_text, sample_tree)].

#[global] Instance sample_parser_laws : @JsonParserLaws 8 sample_parser.
Proof. apply table_parser_laws; constructor; [apply sample_tree_ok|constructor]. Qed.

(** ** Properties *)

(** The parser's heap: after any sequence of allocations (with a [malloc]
    that may fail), writes and frees of live blocks, from the start of the
    program, the account equals the bytes of the live blocks, headers included,
    and never exceeds 32768; every block handed back to the system was erased;
    freeing any live block is defined and gives back exactly its charge. *)
Theorem heap_accounted header h :
  0 < header <= 64 -> rtc (heap_step header) empty_heap h ->
  json_live_bytes h = charges (blocks h) /\ 0 <= json_live_bytes h <= JSON_HEAP_LIMIT /\
  Forall (Forall (λ c, c = 0)) (released h) /\
  forall p a, blocks h !! p = Some a ->
    exists h', json_free header (Some (p + header)) h = Some h' /\
      json_live_bytes h' = json_live_bytes h - a_size a /\ blocks h' = delete p (blocks h).
Proof.
  intros Hh Hrun; assert (heap_ok header h) as Hok by (by eapply heap_steps_ok; [..|apply empty_heap_ok]).
  pose proof Hok as [? ? ? ?]; split; [done|]; split; [done|]; split; [done|]; intros p a Hp.
  destruct (free_spec header Hh h p a Hok Hp) as [E _]; rewrite E; by eexists.
Qed.

Lemma heap_accounted_witness :
  let h := snd (json_alloc 8 2 (Some (100, replicate 10 7)) empty_heap) in
  rtc (heap_step 8) empty_heap h /\ json_live_bytes h = 10 /\ json_live_bytes h = charges (blocks h).
Proof.
  intros h.
  assert (rtc (heap_step 8) empty_heap h) as Hrun.
  { apply rtc_once, StepAlloc; [unfold SIZE_MAX; lia|]; intros p bytes [= <- <-]; done. }
  split; [done|]; split; [done|]; by destruct (heap_accounted 8 h ltac:(lia) Hrun) as [? _].
Defined.

(** C39. [cf_json_parse], over any vendored parser that keeps its contract, for
    any input: it returns, reads only the input, and gives a tree exactly when
    the input has 1 to 8192 bytes, its lexemes are strict (numbers of RFC 8259,
    no control characters, closed strings), it holds no NUL, plain or escaped,
    and the parser accepts all of it up to trailing white space.  The tree is
    the parser's; on a refusal nothing stays allocated. *)
Theorem parse_strict header b l h `{JsonParserLaws header} :
  0 < header <= 64 -> heap_ok header h -> denotes b l ->
  exists r h', cf_json_parse b h = Some (r, h') /\ heap_ok header h' /\
    match r with
    | Some root => accepts l h root h' /\ json_ok root
    | None => json_live_bytes h' = json_live_bytes h /\ forall root h1, ~ accepts l h root h1
    end.
Proof. intros; by apply (cf_json_parse_spec header). Qed.

Lemma parse_strict_witness :
  exists r h', @cf_json_parse sample_parser (view sample_text) empty_heap = Some (r, h') /\ r = Some sample_tree /\ heap_ok 8 h'.
Proof.
  destruct (@parse_strict 8 (view sample_text) sample_text empty_heap sample_parser sample_parser_laws) as (r & h' & E & Hh & _).
  - lia.
  - apply empty_heap_ok.
  - apply denotes_view; bytes_by_compute.
  - exists r, h'; split; [exact E|]; split; [|exact Hh]; vm_compute in E; by injection E as <- _.
Defined.

(** [cf_json_keys] for any tree of the parser and any table of names: it
    returns, and is true exactly for an object whose members are all named,
    with names of the table, and no name twice. *)
Theorem keys_exact object allowed names :
  (forall o, object = Some o -> json_ok o) -> Forall2 cstr allowed names ->
  exists v, cf_json_keys object allowed = Some v /\
    (v = true <-> cf_cJSON_IsObject object = true /\ exists o, object = Some o /\ keys_ok (j_child o) names).
Proof. apply cf_json_keys_spec. Qed.

Lemma keys_exact_witness :
  exists v, cf_json_keys (Some sample_tree) [[97; 0]] = Some v /\ v = true /\ keys_ok (j_child sample_tree) [[97]].
Proof.
  destruct (keys_exact (Some sample_tree) [[97; 0]] [[97]]) as (v & E & Hiff).
  - intros o [= <-]; apply sample_tree_ok.
  - constructor; [apply (cstr_intro [97] []); no_nul|constructor].
  - exists v; split; [exact E|]; assert (v = true) as -> by (vm_compute in E; by injection E).
    split; [done|]; by destruct (proj1 Hiff eq_refl) as (_ & o & [= <-] & Hk).
Defined.
