(* ===== verification/Config.v ===== *)
(** The remote ingress policy (src/protocol/cf_config.c). *)
From stdpp Require Import gmap.
From Stdlib Require Import SpecFloat.
From S2P Require Export Json.
#[local] Open Scope Z_scope.

Definition CF_CONFIG_MESSAGE_MAX : Z := 8192.
Definition CF_HOSTNAME_MAX : Z := 253.
Definition CF_LOCAL_SERVICE_MAX : Z := 63.

(** The arrays have their declared lengths, 254 and 64. *)
Record cf_remote_config := RemoteConfig {
  valid : bool;
  version : Z;
  hostname : list Z;
  service : list Z
}.

Definition cf_config_init (config : option cf_remote_config) : option cf_remote_config :=
  match config with
  | None => None
  | Some _ => Some (RemoteConfig false (-1) (replicate 254 0) (replicate 64 0))
  end.

(** ** Doubles *)

(** [(double)n] of a 32-bit integer; exact, with a mantissa of 53 bits. *)
Definition double_of_int32 (n : Z) : spec_float :=
  if n =? 0 then S754_zero false else
  let k := 52 - Z.log2 (Z.abs n) in
  S754_finite (n <? 0) (Z.to_pos (Z.shiftl (Z.abs n) k)) (- k).

(** [(int32_t)d]: truncation, undefined when the result does not fit. *)
Definition int32_of_double (d : spec_float) : option Z :=
  n ← match d with
      | S754_zero _ => Some 0
      | S754_finite s m e => let n := Z.shiftl (Z.pos m) e in Some (if s then - n else n)
      | _ => None
      end;
  if (-2147483648 <=? n) && (n <=? INT32_MAX) then Some n else None.

(** ** Helpers of the check *)

Definition empty_object (item : option json) : bool :=
  match item with
  | None => true
  | Some j => cf_cJSON_IsObject item && bool_decide (j_child j = [])
  end.

Definition same_string (s : option json) (expected : list Z) : option bool :=
  if negb (cf_cJSON_IsString s) then Some false else
  j ← s; text ← j_valuestring j; streq text expected.

Definition host_char (c : Z) : bool :=
  ((97 <=? c) && (c <=? 122)) || ((48 <=? c) && (c <=? 57)) || (c =? 45).

(** The loop over the characters; [k] is [n - i]. *)
Fixpoint host_loop (s : list Z) (k : nat) (i label : Z) : option bool :=
  match k with
  | O => Some (negb (label =? 0))
  | S k =>
      c ← rd s i;
      if c =? 46 then
        if label =? 0 then Some false else
        before ← rd s (i - 1); if before =? 45 then Some false else
        after ← rd s (i + 1); if after =? 45 then Some false else
        host_loop s k (i + 1) 0
      else
        if negb (host_char c) then Some false else
        if 63 <? usize (label + 1) then Some false else
        host_loop s k (i + 1) (usize (label + 1))
  end.

Definition hostname_valid (s : list Z) : option bool :=
  n ← strlen s;
  if (n =? 0) || (CF_HOSTNAME_MAX <? n) then Some false else
  first ← rd s 0; if first =? 45 then Some false else
  last ← rd s (n - 1); if last =? 45 then Some false else
  host_loop s (Z.to_nat n) 0 0.

(** ** Applying an update *)

Definition top : list (list Z) := [cstring "version"; cstring "config"].
Definition config_keys : list (list Z) := [cstring "ingress"; cstring "originRequest"; cstring "warp-routing"].
Definition ingress_keys : list (list Z) := [cstring "hostname"; cstring "service"; cstring "originRequest"].
Definition fallback_keys : list (list Z) := [cstring "service"].
Definition warp_keys : list (list Z) := [cstring "enabled"].

(** The checks between the parse and [done]: a refusal carries the result and
    the reason set last, a success goes on. *)
Abbreviation check A := (option ((cf_result * string) + A)).

(** [REASON(text); if (!ok) goto done;] *)
Definition require {A} (rc : cf_result) (text : string) (ok : option bool) (next : check A) : check A :=
  ok ← ok; if (ok : bool) then next else Some (inl (rc, text)).

Definition version_valid (item : option json) : option bool :=
  if negb (cf_cJSON_IsNumber item) then Some false else
  v ← item; let d := j_valuedouble v in
  if SFltb d (S754_zero false) || SFltb (double_of_int32 INT32_MAX) d then Some false else
  n ← int32_of_double d; Some (SFeqb (double_of_int32 n) d).

(** [!warp || (keys && enabled=false)]. *)
Definition warp_valid (warp : option json) : option bool :=
  match warp with
  | None => Some true
  | Some _ =>
      ok ← cf_json_keys warp warp_keys;
      if negb ok then Some false else
      enabled ← cf_cJSON_GetObjectItemCaseSensitive warp (cstring "enabled");
      Some (cf_cJSON_IsFalse enabled)
  end.

(** The two rules of the array. *)
Definition rule_checks (first last : option json) (hostname service : list Z) : check unit :=
  require CF_ERR_UNSUPPORTED "Unknown or duplicate fields in the hostname ingress rule."
    (cf_json_keys first ingress_keys) (
  require CF_ERR_UNSUPPORTED "Unknown or duplicate fields in the fallback ingress rule."
    (cf_json_keys last fallback_keys) (
  require CF_ERR_UNSUPPORTED "Ingress hostname differs from the hostname saved on this device."
    (item ← cf_cJSON_GetObjectItemCaseSensitive first (cstring "hostname"); same_string item hostname) (
  require CF_ERR_UNSUPPORTED "Ingress service differs from the permitted local service (http://localhost:80 for ESP Monitor)."
    (item ← cf_cJSON_GetObjectItemCaseSensitive first (cstring "service"); same_string item service) (
  require CF_ERR_UNSUPPORTED "The final ingress service must be http_status:404."
    (item ← cf_cJSON_GetObjectItemCaseSensitive last (cstring "service"); same_string item (cstring "http_status:404")) (
  require CF_ERR_UNSUPPORTED "Hostname originRequest options are unsupported."
    (item ← cf_cJSON_GetObjectItemCaseSensitive first (cstring "originRequest"); Some (empty_object item))
    (Some (inr ()))))))).

Definition config_checks (config : option json) (hostname service : list Z) : check unit :=
  require CF_ERR_UNSUPPORTED "Unknown or duplicate fields in the tunnel configuration."
    (cf_json_keys config config_keys) (
  require CF_ERR_UNSUPPORTED "Global originRequest options are unsupported."
    (item ← cf_cJSON_GetObjectItemCaseSensitive config (cstring "originRequest"); Some (empty_object item)) (
  require CF_ERR_UNSUPPORTED "WARP routing options are unsupported; only enabled=false is accepted."
    (warp ← cf_cJSON_GetObjectItemCaseSensitive config (cstring "warp-routing"); warp_valid warp) (
  rules ← cf_cJSON_GetObjectItemCaseSensitive config (cstring "ingress");
  require CF_ERR_UNSUPPORTED "Expected one hostname rule followed by one 404 fallback rule."
    (Some (cf_cJSON_IsArray rules && (cf_cJSON_GetArraySize rules =? 2)))
    (rule_checks (cf_cJSON_GetArrayItem rules 0) (cf_cJSON_GetArrayItem rules 1) hostname service)))).

(** The version of an acceptable update. *)
Definition update_checks (root : json) (hostname service : list Z) : check Z :=
  require CF_ERR_UNSUPPORTED "Unknown or duplicate fields in the configuration update envelope."
    (cf_json_keys (Some root) top) (
  version ← cf_cJSON_GetObjectItemCaseSensitive (Some root) (cstring "version");
  config ← cf_cJSON_GetObjectItemCaseSensitive (Some root) (cstring "config");
  require CF_ERR_FORMAT "Invalid configuration version." (version_valid version) (
  result ← config_checks config hostname service;
  match result with
  | inl refusal => Some (inl refusal)
  | inr _ => v ← version; n ← int32_of_double (j_valuedouble v); Some (inr n)
  end)).

(** [memcpy(array, s, strlen(s) + 1)]. *)
Definition copy_string (array s : list Z) : option (list Z) :=
  n ← strlen s; text ← slice s 0 (n + 1); blit array 0 text.

Definition publish (state : cf_remote_config) (n : Z) (host label : list Z) : option cf_remote_config :=
  if negb (valid state) || (version state <? n) then
    h ← copy_string (hostname state) host;
    s ← copy_string (service state) label;
    Some (RemoteConfig true n h s)
  else Some state.

(** The guard of the arguments. *)
Definition bad_arguments (state : option cf_remote_config) (update : cf_bytes) (host label : option (list Z)) : option bool :=
  match state, host, label with
  | Some _, Some host, Some label =>
      ok ← hostname_valid host; if negb ok then Some true else
      c ← rd label 0; if c =? 0 then Some true else
      n ← strlen label; Some ((CF_LOCAL_SERVICE_MAX <? n) || null_view update)
  | _, _, _ => Some true
  end.

Section Apply.
Context `{JsonParser}.

(** [reason] is the caller's variable, when there is one. *)
Definition cf_config_apply_ex (state : option cf_remote_config) (update : cf_bytes)
    (host label : option (list Z)) (reason : option string) (h : json_heap) :
    option (cf_result * option cf_remote_config * option string * json_heap) :=
  let REASON text := match reason with None => None | Some _ => Some text end in
  bad ← bad_arguments state update host label;
  if (bad : bool) then Some (CF_ERR_ARGUMENT, state, REASON "Invalid local ingress policy.", h) else
  if (len update =? 0) || (CF_CONFIG_MESSAGE_MAX <? len update)
  then Some (CF_ERR_LIMIT, state, REASON "Ingress update exceeds the message limit.", h) else
  '(root, h) ← cf_json_parse update h;
  match root with
  | None => Some (cf_json_failure h, state, REASON "Invalid ingress JSON or JSON memory limit reached.", h)
  | Some root =>
      host ← host; label ← label; st ← state;
      result ← update_checks root host label;
      match result with
      | inl (rc, text) => Some (rc, state, REASON text, cf_cJSON_Delete (Some root) h)
      | inr n =>
          st ← publish st n host label;
          Some (CF_OK, Some st, REASON "Remote ingress configuration applied.", cf_cJSON_Delete (Some root) h)
      end
  end.

Definition cf_config_apply (state : option cf_remote_config) (update : cf_bytes)
    (host label : option (list Z)) (h : json_heap) : option (cf_result * option cf_remote_config * json_heap) :=
  '(rc, state, _, h) ← cf_config_apply_ex state update host label None h; Some (rc, state, h).

End Apply.

(** ** The reply *)

(** The decimal digits of [%ld], for up to 20 of them. *)
Fixpoint decimal_go (fuel : nat) (n : Z) (acc : list Z) : list Z :=
  match fuel with
  | O => acc
  | S fuel => let acc := 48 + n mod 10 :: acc in if n <? 10 then acc else decimal_go fuel (n / 10) acc
  end.

Definition decimal (n : Z) : list Z := (if n <? 0 then [45] else []) ++ decimal_go 20 (Z.abs n) [].

(** {"lastAppliedVersion":n,"err":null} or {"lastAppliedVersion":n,"err":{}}. *)
Definition response_text (config : cf_remote_config) (result : cf_result) : list Z :=
  [123; 34] ++ lit "lastAppliedVersion" ++ [34; 58] ++
  decimal (if valid config then version config else -1) ++
  [44; 34] ++ lit "err" ++ [34; 58] ++ (if is_ok result then lit "null" else [123; 125]) ++ [125].

(** Result, object behind [out], and [*written] when the pointer is given. *)
Definition cf_config_response (config : option cf_remote_config) (result : cf_result)
    (out : option (list Z)) (cap : Z) (written : bool) : option (cf_result * option (list Z) * option Z) :=
  if negb written then Some (CF_ERR_ARGUMENT, out, None) else
  match config, out with
  | Some config, Some m =>
      if cap =? 0 then Some (CF_ERR_ARGUMENT, out, Some 0) else
      let text := response_text config result in
      m ← snprintf m cap text;
      let n := zlen text in
      if cap <=? n then m ← wr m 0 0; Some (CF_ERR_LIMIT, Some m, Some 0)
      else Some (CF_OK, Some m, Some n)
  | _, _ => Some (CF_ERR_ARGUMENT, out, Some 0)
  end.

(** ** Lemmas on doubles *)

(** The double is this integer; zero has two signs. *)
Definition is_integer (d : spec_float) (n : Z) : Prop := d = double_of_int32 n \/ n = 0 /\ d = S754_zero true.

Lemma double_pos n : 0 < n <= INT32_MAX ->
  exists m k, double_of_int32 n = S754_finite false m (- k) /\ 22 <= k <= 52 /\ Z.pos m = n * 2 ^ k.
Proof.
  unfold INT32_MAX; intros Hn; unfold double_of_int32; replace (n =? 0) with false by lia; rewrite Z.abs_eq by lia.
  assert (0 <= Z.log2 n <= 30) as Hlog.
  { split; [apply Z.log2_nonneg|]; assert (Z.log2 n < 31); [|lia]; apply Z.log2_lt_pow2; lia. }
  replace (n <? 0) with false by lia; do 2 eexists; split; [done|]; split; [lia|].
  rewrite Z.shiftl_mul_pow2 by lia; rewrite Z2Pos.id; [done|]; apply Z.mul_pos_pos; [lia|apply Z.pow_pos_nonneg; lia].
Qed.

Lemma SFcompare_pos m e m' e' :
  SFcompare (S754_finite false m e) (S754_finite false m' e') =
    Some (match (e ?= e') with Eq => (Z.pos m ?= Z.pos m') | c => c end).
Proof. done. Qed.

(** The greatest 32-bit integer. *)
Lemma double_max : double_of_int32 INT32_MAX = S754_finite false (Z.to_pos (INT32_MAX * 2 ^ 22)) (-22).
Proof. done. Qed.

Lemma integer_value d n : 0 <= n <= INT32_MAX -> is_integer d n -> int32_of_double d = Some n.
Proof.
  intros Hn [->|[-> ->]]; [|done]; destruct (Z.eqb_spec n 0) as [->|H0]; [done|].
  destruct (double_pos n) as (m & k & -> & Hk & Hm); [lia|]; cbn [int32_of_double mbind option_bind].
  rewrite Hm, Z.shiftl_opp_r, Z.shiftr_div_pow2, Z.div_mul by lia; by replace (_ && _) with true by (unfold INT32_MAX in *; lia).
Qed.

Lemma integer_unique d n n' : 0 <= n <= INT32_MAX -> 0 <= n' <= INT32_MAX -> is_integer d n -> is_integer d n' -> n = n'.
Proof. intros Hn Hn' H H'; apply integer_value in H, H'; [congruence|done..]. Qed.

(** An integer of the range passes the comparisons. *)
Lemma integer_passes d n : 0 <= n <= INT32_MAX -> is_integer d n ->
  SFltb d (S754_zero false) || SFltb (double_of_int32 INT32_MAX) d = false /\ SFeqb (double_of_int32 n) d = true.
Proof.
  intros Hn [->|[-> ->]]; [|done]; destruct (Z.eqb_spec n 0) as [->|H0]; [done|].
  destruct (double_pos n) as (m & k & -> & Hk & Hm); [lia|]; rewrite double_max; unfold SFltb, SFeqb; rewrite !SFcompare_pos.
  rewrite !Z.compare_refl; split; [|done]; cbn [SFcompare orb]; destruct (Z.compare_spec (-22) (- k)) as [E|E|E]; [|lia|done].
  assert (k = 22) as -> by lia; destruct (Z.compare_spec (Z.pos (Z.to_pos (INT32_MAX * 2 ^ 22))) (Z.pos m)); [done| |done].
  exfalso; rewrite Z2Pos.id in * by done; unfold INT32_MAX in *; lia.
Qed.

(** Between the bounds, the truncation is defined, and equality with it holds
    of integers only. *)
Lemma between_truncates d : double_ok d ->
  SFltb d (S754_zero false) || SFltb (double_of_int32 INT32_MAX) d = false ->
  exists n, int32_of_double d = Some n /\ 0 <= n <= INT32_MAX /\ (SFeqb (double_of_int32 n) d = true -> is_integer d n).
Proof.
  destruct d as [s|[]| |[] m e]; try done.
  { intros _ _; exists 0; split; [done|]; split; [unfold INT32_MAX; lia|]; intros _; destruct s; [by right|by left]. }
  cbn [double_ok]; rewrite double_max; unfold SFltb; rewrite SFcompare_pos; cbn [SFcompare orb]; intros Hm Hle.
  assert (e <= -22 /\ (e = -22 -> Z.pos m <= INT32_MAX * 2 ^ 22)) as [He Hmax].
  { destruct (Z.compare_spec (-22) e) as [E|E|E]; [|done|lia]; split; [lia|]; intros _.
    destruct (Z.compare_spec (Z.pos (Z.to_pos (INT32_MAX * 2 ^ 22))) (Z.pos m)) as [Em|Em|Em]; [|done|]; rewrite Z2Pos.id in Em by done; lia. }
  assert (0 <= Z.shiftl (Z.pos m) e <= INT32_MAX) as Hn.
  { rewrite <- (Z.opp_involutive e), Z.shiftl_opp_r, Z.shiftr_div_pow2 by lia; split; [apply Z.div_pos; [lia|apply Z.pow_pos_nonneg; lia]|].
    destruct (Z.eqb_spec e (-22)) as [->|Hne].
    - apply Z.div_le_upper_bound; [done|]; specialize (Hmax eq_refl); change (- -22) with 22; lia.
    - assert (2 ^ 23 <= 2 ^ (- e)) as Hpow by (apply Z.pow_le_mono_r; lia).
      apply Z.div_le_upper_bound; [lia|]; unfold INT32_MAX; nia. }
  exists (Z.shiftl (Z.pos m) e); cbn [int32_of_double mbind option_bind].
  replace (_ && _) with true by (unfold INT32_MAX in *; lia); split; [done|]; split; [done|]; set (n := Z.shiftl _ _) in *; intros Heq; left.
  destruct (Z.eqb_spec n 0) as [E|E]; [rewrite E in Heq; done|].
  destruct (double_pos n) as (m' & k & Hd & _ & _); [lia|]; rewrite Hd in Heq |- *; unfold SFeqb in Heq; rewrite SFcompare_pos in Heq.
  destruct (Z.compare_spec (- k) e) as [->|?|?]; [|done..].
  destruct (Z.compare_spec (Z.pos m') (Z.pos m)) as [[= ->]|?|?]; done.
Qed.

(** The version of an update: an integer of the range. *)
Definition version_is (item : option json) (n : Z) : Prop :=
  exists j, item = Some j /\ cf_cJSON_IsNumber item = true /\ 0 <= n <= INT32_MAX /\ is_integer (j_valuedouble j) n.

Lemma version_valid_spec item : (forall j, item = Some j -> json_ok j) ->
  exists v, version_valid item = Some v /\ (v = true <-> exists n, version_is item n).
Proof.
  intros Hok; unfold version_valid; destruct (cf_cJSON_IsNumber item) eqn:Enum; cbn [negb].
  2: { exists false; split; [done|]; split; [done|]; intros (n & j & _ & H & _); congruence. }
  destruct item as [j|]; [|done]; cbn [mbind option_bind].
  assert (double_ok (j_valuedouble j)) as Hd by (destruct (Hok j eq_refl); done).
  destruct (_ || _) eqn:E.
  { exists false; split; [done|]; split; [done|]; intros (n & ? & [= <-] & _ & Hn & Hi).
    destruct (integer_passes _ _ Hn Hi) as [E' _]; congruence. }
  destruct (between_truncates _ Hd E) as (n & Etr & Hn & Hint); rewrite Etr; cbn [mbind option_bind]; eexists; split; [done|]; split.
  - intros Heq; exists n, j; auto.
  - intros (n' & ? & [= <-] & _ & Hn' & Hi); pose proof (integer_value _ _ Hn' Hi) as E2; rewrite Etr in E2; injection E2 as ->.
    by destruct (integer_passes _ _ Hn' Hi).
Qed.

(** ** Host names *)

(** A label: 1 to 63 lower-case letters, digits and inner hyphens. *)
Definition host_label (l : list Z) : Prop :=
  1 <= zlen l <= 63 /\ Forall (λ c, host_char c = true) l /\ head l <> Some 45 /\ last l <> Some 45.

Fixpoint dots (ls : list (list Z)) : list Z :=
  match ls with [] => [] | [l] => l | l :: ls => l ++ 46 :: dots ls end.

(** The host names: labels with dots between them, at most 253 characters. *)
Definition is_hostname (t : list Z) : Prop :=
  zlen t <= CF_HOSTNAME_MAX /\ exists ls, ls <> [] /\ Forall host_label ls /\ t = dots ls.

Definition no_dot (l : list Z) : Prop := Forall (λ c, c <> 46) l.

Lemma dots_cons l ls : dots (l :: ls) = l ++ match ls with [] => [] | _ => 46 :: dots ls end.
Proof. destruct ls; [by rewrite app_nil_r|done]. Qed.

Lemma host_char_no_dot l : Forall (λ c, host_char c = true) l -> no_dot l.
Proof. intros H; eapply Forall_impl; [exact H|]; intros c Hc ->; done. Qed.

Lemma host_label_no_dot l : host_label l -> no_dot l.
Proof. intros (_ & H & _); by apply host_char_no_dot. Qed.

(** The text before the first dot is inside the first label. *)
Lemma dots_prefix l ls x y : no_dot x -> dots (l :: ls) = x ++ y -> exists z, l = x ++ z.
Proof.
  rewrite dots_cons; intros Hx; revert l; induction Hx as [|c x Hc _ IH]; intros l E; [by exists l|].
  destruct l as [|d l]; [destruct ls; [done|]; injection E as E _; congruence|].
  injection E as -> E; destruct (IH l E) as [z ->]; by exists z.
Qed.

Lemma dots_first l ls x y : no_dot l -> no_dot x -> dots (l :: ls) = x ++ 46 :: y -> l = x /\ ls <> [] /\ dots ls = y.
Proof.
  intros Hl Hx E; destruct (dots_prefix l ls x (46 :: y) Hx E) as [z ->]; rewrite dots_cons, <- app_assoc in E; simplify_list_eq.
  apply Forall_app in Hl as [_ Hz]; destruct z as [|c z]; [|injection E as -> _; by apply Forall_cons in Hz as [? _]].
  rewrite app_nil_r; destruct ls; [done|]; by injection E.
Qed.

Lemma dots_chars ls : Forall host_label ls -> Forall (λ c, host_char c = true \/ c = 46) (dots ls).
Proof.
  induction 1 as [|l ls (_ & Hl & _) _ IH]; [constructor|]; rewrite dots_cons; apply Forall_app; split.
  - eapply Forall_impl; [exact Hl|]; auto.
  - destruct ls; [constructor|]; constructor; auto.
Qed.

(** What the rest of the text must be, behind the characters [l] of the
    current label. *)
Definition host_rest (l r : list Z) : Prop := exists ls, ls <> [] /\ Forall host_label ls /\ l ++ r = dots ls.

Lemma host_rest_dot l r : no_dot l -> host_rest l (46 :: r) <-> host_label l /\ host_rest [] r.
Proof.
  intros Hl; split.
  - intros ([|l1 ls] & Hne & Hls & E); [done|]; apply Forall_cons in Hls as [H1 Hls].
    destruct (dots_first l1 ls l r (host_label_no_dot _ H1) Hl (eq_sym E)) as (-> & Hne' & <-); split; [done|]; by exists ls.
  - intros [H1 (ls & Hne & Hls & E)]; exists (l :: ls); split; [done|]; split; [by constructor|]; rewrite dots_cons.
    destruct ls; [done|]; by rewrite <- E.
Qed.

Lemma host_rest_end l : host_rest l [] -> l <> [].
Proof.
  intros ([|l1 ls] & Hne & Hls & E) ->; [done|]; apply Forall_cons in Hls as [(Hlen & _) _].
  rewrite dots_cons in E; destruct l1; [rewrite zlen_nil in Hlen; lia|done].
Qed.

Lemma host_rest_char l c r : no_dot l -> c <> 46 -> host_rest l (c :: r) -> host_char c = true /\ zlen l < 63.
Proof.
  intros Hl Hc ([|l1 ls] & Hne & Hls & E); [done|]; split.
  - pose proof (dots_chars _ Hls) as Hch; rewrite <- E in Hch; apply Forall_app in Hch as [_ Hch].
    apply Forall_cons in Hch as [[?|?] _]; done.
  - apply Forall_cons in Hls as [(Hlen & _) _]; destruct (dots_prefix l1 ls (l ++ [c]) r) as [z ->].
    + apply Forall_app; split; [done|by repeat constructor].
    + by rewrite <- app_assoc.
    + rewrite !zlen_app in Hlen; change (zlen [c]) with 1 in Hlen; pose proof (zlen_nonneg z); lia.
Qed.

Lemma host_rest_head r : ~ host_rest [] (45 :: r).
Proof.
  intros ([|l1 ls] & Hne & Hls & E); [done|]; apply Forall_cons in Hls as [(Hlen & _ & Hh & _) _]; rewrite dots_cons in E.
  destruct l1; [rewrite zlen_nil in Hlen; lia|]; injection E as <- _; done.
Qed.

Lemma host_loop_spec r : forall x l rest,
  Forall (λ c, host_char c = true) l -> zlen l <= 63 -> head (l ++ r) <> Some 45 -> last (l ++ r) <> Some 45 ->
  exists v, host_loop ((x ++ l ++ r) ++ 0 :: rest) (length r) (zlen (x ++ l)) (zlen l) = Some v /\ (v = true <-> host_rest l r).
Proof.
  induction r as [|c r IH]; intros x l rest Hl Hlen Hhead Hlast; cbn [length host_loop].
  - eexists; split; [done|]; rewrite app_nil_r in *; split.
    + intros Hne; exists [l]; split; [done|]; split; [|by rewrite app_nil_r]; constructor; [|constructor].
      split; [|done]; pose proof (zlen_nonneg l); destruct (Z.eqb_spec (zlen l) 0); [done|lia].
    + intros H%host_rest_end; destruct l; [done|]; rewrite zlen_cons; pose proof (zlen_nonneg l); lia.
  - set (s := (x ++ l ++ c :: r) ++ 0 :: rest).
    assert (s = (x ++ l) ++ c :: r ++ 0 :: rest) as Hs by (unfold s; by rewrite (app_assoc x l), <- app_assoc).
    assert (rd s (zlen (x ++ l)) = Some c) as -> by (rewrite Hs, <- (Z.add_0_r (zlen (x ++ l))); by rewrite rd_app_r by done).
    cbn [mbind option_bind].
    destruct (Z.eqb_spec c 46) as [->|Hc].
    + pose proof (host_rest_dot l r (host_char_no_dot l Hl)) as Hdot; destruct l as [|d l' _] using rev_ind.
      { exists false; split; [done|]; rewrite Hdot; split; [done|]; intros [(H & _) _]; rewrite zlen_nil in H; lia. }
      replace (zlen (l' ++ [d]) =? 0) with false by (rewrite zlen_app; change (zlen [d]) with 1; pose proof (zlen_nonneg l'); lia).
      assert (rd s (zlen (x ++ l' ++ [d]) - 1) = Some d) as ->.
      { rewrite Hs, (app_assoc x l'), <- app_assoc, (zlen_app _ [d]); change (zlen [d]) with 1.
        replace (zlen (x ++ l') + 1 - 1) with (zlen (x ++ l') + 0) by lia; by rewrite rd_app_r by done. }
      cbn [mbind option_bind]; destruct (Z.eqb_spec d 45) as [->|Hd].
      { exists false; split; [done|]; rewrite Hdot; split; [done|]; intros [(_ & _ & _ & H) _]; by rewrite last_snoc in H. }
      assert (rd s (zlen (x ++ l' ++ [d]) + 1) = rd (r ++ 0 :: rest) 0) as -> by (rewrite Hs; by rewrite rd_app_r by done).
      assert (exists e, rd (r ++ 0 :: rest) 0 = Some e /\ (e = 45 -> exists r', r = 45 :: r') /\ (e <> 45 -> head r <> Some 45)) as (e & -> & He & He').
      { destruct r as [|e r]; [by exists 0|]; exists e; split; [done|]; split; [intros ->; by exists r|]; intros H [= ->]; done. }
      cbn [mbind option_bind]; destruct (Z.eqb_spec e 45) as [E45|H45].
      { destruct (He E45) as [r' ->]; exists false; split; [done|]; rewrite Hdot; split; [done|]; by intros [_ H%host_rest_head]. }
      destruct (IH (x ++ (l' ++ [d]) ++ [46]) [] rest) as (v & Hv & Hiff); [constructor|done|by apply He'|..].
      { destruct r as [|e' r]; [done|]; intros E; apply Hlast; rewrite app_nil_l in E; by rewrite last_app, last_cons, E. }
      exists v; split.
      * rewrite <- Hv; unfold s; do 2 f_equal; [by rewrite <- !app_assoc|]; rewrite app_nil_r, !zlen_app; change (zlen [46]) with 1; lia.
      * rewrite Hdot, Hiff; split; [|by intros [_ ?]]; intros Hr; split; [|done]; split; [|split; [done|]].
        -- rewrite zlen_app in *; change (zlen [d]) with 1 in *; pose proof (zlen_nonneg l'); lia.
        -- split; [intros E; apply Hhead; destruct l'; done|]; rewrite last_snoc; congruence.
    + destruct (host_char c) eqn:Echar; cbn [negb].
      2: { exists false; split; [done|]; split; [done|]; intros H; apply host_rest_char in H as [H _]; [congruence|by apply host_char_no_dot|done]. }
      pose proof (zlen_nonneg l); rewrite (wrap_small 32) by (simpl; lia); destruct (Z.ltb_spec 63 (zlen l + 1)).
      { exists false; split; [done|]; split; [done|]; intros Hr; apply host_rest_char in Hr as [_ Hr]; [lia|by apply host_char_no_dot|done]. }
      assert (zlen (l ++ [c]) = zlen l + 1) as Hl1 by (rewrite zlen_app; done).
      destruct (IH x (l ++ [c]) rest) as (v & Hv & Hiff); rewrite <- ?app_assoc; [apply Forall_app; by repeat constructor|lia|done|done|].
      exists v; split; [|rewrite Hiff; unfold host_rest; by rewrite <- app_assoc].
      rewrite <- Hv; unfold s; f_equal; [by rewrite <- !app_assoc|rewrite !zlen_app; change (zlen [c]) with 1; lia|done].
Qed.

Lemma host_rest_last t : ~ host_rest [] (t ++ [45]).
Proof.
  intros (ls & Hne & Hls & E); cbn [app] in E; assert (last (dots ls) = Some 45) as Hlast by (by rewrite <- E, last_snoc).
  clear E; induction Hls as [|l ls (Hlen & _ & _ & Hl) Hls IH]; [done|]; rewrite dots_cons in Hlast; destruct ls as [|l2 ls]; [by rewrite app_nil_r in Hlast|].
  apply IH; [done|]; rewrite last_app, last_cons in Hlast; destruct (last (dots (l2 :: ls))); congruence.
Qed.

(** [hostname_valid] decides the grammar. *)
Lemma hostname_valid_spec s t : cstr s t -> exists v, hostname_valid s = Some v /\ (v = true <-> is_hostname t).
Proof.
  intros Ht; unfold hostname_valid; rewrite (strlen_spec _ _ Ht); destruct Ht as (rest & -> & _); cbn [mbind option_bind].
  assert (is_hostname t <-> zlen t <= CF_HOSTNAME_MAX /\ host_rest [] t) as Hdef by done.
  destruct ((zlen t =? 0) || (CF_HOSTNAME_MAX <? zlen t)) eqn:Elen.
  { exists false; split; [done|]; rewrite Hdef; split; [done|]; intros [Hmax Hrest]; destruct (Z.eqb_spec (zlen t) 0) as [E|E]; [|lia].
    assert (t = []) as -> by (destruct t; [done|]; rewrite zlen_cons in E; pose proof (zlen_nonneg t); lia).
    exfalso; by apply (host_rest_end []). }
  destruct t as [|d t _] using rev_ind; [done|].
  assert (exists c, rd ((t ++ [d]) ++ 0 :: rest) 0 = Some c /\ head (t ++ [d]) = Some c) as (c & -> & Hc) by (destruct t; by eexists).
  cbn [mbind option_bind]; destruct (Z.eqb_spec c 45) as [->|Hne].
  { exists false; split; [done|]; rewrite Hdef; split; [done|]; intros [_ H]; destruct (t ++ [d]) as [|c' t']; [done|].
    injection Hc as ->; by apply host_rest_head in H. }
  assert (rd ((t ++ [d]) ++ 0 :: rest) (zlen (t ++ [d]) - 1) = Some d) as ->.
  { rewrite <- app_assoc, zlen_app; change (zlen [d]) with 1; replace (zlen t + 1 - 1) with (zlen t + 0) by lia; by rewrite rd_app_r by done. }
  cbn [mbind option_bind]; destruct (Z.eqb_spec d 45) as [->|Hd].
  { exists false; split; [done|]; rewrite Hdef; split; [done|]; by intros [_ H%host_rest_last]. }
  destruct (host_loop_spec (t ++ [d]) [] [] rest) as (v & Hv & Hiff); [constructor|done|cbn [app]; congruence|cbn [app]; rewrite last_snoc; congruence|].
  exists v; split; [|rewrite Hdef, Hiff; split; [|by intros [_ ?]]; intros; split; [lia|done]].
  rewrite <- Hv; f_equal; unfold zlen; lia.
Qed.

(** ** The policy of a document *)

Definition member (o : json) (name : list Z) (c : json) : Prop := c ∈ j_child o /\ named c name.

(** An object with distinct members of these names only. *)
Definition object_with (o : json) (allowed : list (list Z)) : Prop :=
  cf_cJSON_IsObject (Some o) = true /\ keys_ok (j_child o) allowed.

Definition is_empty_object (o : json) : Prop := cf_cJSON_IsObject (Some o) = true /\ j_child o = [].

Definition string_is (c : json) (t : list Z) : Prop :=
  cf_cJSON_IsString (Some c) = true /\ exists s, j_valuestring c = Some s /\ cstr s t.

(** Member [name] of [o] is the string [t]. *)
Definition string_member (o : json) (name t : list Z) : Prop := exists c, member o name c /\ string_is c t.

Definition rule_policy (first last : json) (host label : list Z) : Prop :=
  object_with first [lit "hostname"; lit "service"; lit "originRequest"] /\ object_with last [lit "service"] /\
  string_member first (lit "hostname") host /\ string_member first (lit "service") label /\
  string_member last (lit "service") (lit "http_status:404") /\
  (forall o, member first (lit "originRequest") o -> is_empty_object o).

Definition config_policy (config : json) (host label : list Z) : Prop :=
  object_with config [lit "ingress"; lit "originRequest"; lit "warp-routing"] /\
  (forall o, member config (lit "originRequest") o -> is_empty_object o) /\
  (forall w, member config (lit "warp-routing") w ->
     object_with w [lit "enabled"] /\ exists e, member w (lit "enabled") e /\ cf_cJSON_IsFalse (Some e) = true) /\
  exists rules first last, member config (lit "ingress") rules /\ cf_cJSON_IsArray (Some rules) = true /\
    j_child rules = [first; last] /\ rule_policy first last host label.

(** The document grants the policy at version [n]. *)
Definition update_policy (root : json) (host label : list Z) (n : Z) : Prop :=
  object_with root [lit "version"; lit "config"] /\
  (exists v, member root (lit "version") v /\ version_is (Some v) n) /\
  exists config, member root (lit "config") config /\ config_policy config host label.

(** ** The checks decide it *)

(** A check that returns, and passes exactly when [Q] holds of something. *)
Definition decides {A} (c : check A) (Q : A -> Prop) : Prop :=
  exists r, c = Some r /\ match r with
    | inr a => Q a
    | inl (rc, _) => (rc = CF_ERR_UNSUPPORTED \/ rc = CF_ERR_FORMAT) /\ forall a, ~ Q a
    end.

(** A condition that returns, and is true exactly when [P] holds. *)
Definition tests (c : option bool) (P : Prop) : Prop := exists v, c = Some v /\ (v = true <-> P).

Lemma require_decides {A} rc text ok P (next : check A) Q :
  rc = CF_ERR_UNSUPPORTED \/ rc = CF_ERR_FORMAT -> tests ok P -> (P -> decides next Q) -> (forall a, Q a -> P) ->
  decides (require rc text ok next) Q.
Proof.
  intros Hrc (v & -> & Hv) Hnext Himp; unfold require; cbn [mbind option_bind]; destruct v.
  - by apply Hnext, Hv.
  - eexists; split; [done|]; split; [done|]; intros a Ha; by apply Himp, Hv in Ha.
Qed.

Lemma tests_true b (P : Prop) : (b = true <-> P) -> tests (Some b) P.
Proof. intros H; by exists b. Qed.

Lemma tests_bind {A} (o : option A) (x : A) (f : A -> option bool) P : o = Some x -> tests (f x) P -> tests (o ≫= f) P.
Proof. by intros ->. Qed.

Lemma children_ok o : json_ok o -> Forall json_ok (j_child o).
Proof. by intros []. Qed.

Lemma member_ok o name c : json_ok o -> member o name c -> json_ok c.
Proof. intros Ho [Hc _]; eapply Forall_forall; [by apply children_ok|done]. Qed.

(** What a lookup finds: the only member of that name, or nothing. *)
Definition found (o : json) (name : list Z) (r : option json) : Prop :=
  match r with
  | Some c => member o name c /\ forall c', member o name c' -> c' = c
  | None => forall c, ~ member o name c
  end.

Lemma get_object_item_spec key name children names :
  cstr key name -> Forall2 named children names -> NoDup names ->
  exists r, get_object_item children key = Some r /\
    match r with
    | Some c => (c ∈ children /\ named c name) /\ forall c', c' ∈ children /\ named c' name -> c' = c
    | None => forall c, ~ (c ∈ children /\ named c name)
    end.
Proof.
  intros Hkey; induction 1 as [|c n children names Hc Hcs IH]; intros Hnd; cbn [get_object_item].
  - exists None; split; [done|]; intros c [H _]; by apply not_elem_of_nil in H.
  - apply NoDup_cons in Hnd as [Hn Hnd]; pose proof Hc as (s & Hs & Hsn); rewrite Hs, (streq_spec _ _ _ _ Hkey Hsn); cbn [mbind option_bind].
    destruct (decide (name = n)) as [->|Hne].
    + rewrite bool_decide_eq_true_2 by done; exists (Some c); split; [done|]; split; [split; [by apply elem_of_cons; left|done]|].
      intros c' [[->|Hin]%elem_of_cons Hc']; [done|]; exfalso; apply Hn, (names_of n _ _ Hcs), Exists_exists; by exists c'.
    + rewrite bool_decide_eq_false_2 by done; destruct (IH Hnd) as (r & -> & Hr); exists r; split; [done|].
      assert (forall c', c' ∈ c :: children /\ named c' name -> c' ∈ children /\ named c' name) as Htail.
      { intros c' [[->|Hin]%elem_of_cons Hc']; [|done]; destruct Hne; by eapply named_unique. }
      destruct r as [c'|]; [|intros c' H; by eapply Hr, Htail].
      destruct Hr as [[Hin Hc'] Huniq]; split; [split; [by apply elem_of_cons; right|done]|]; intros; by apply Huniq, Htail.
Qed.

Lemma lookup_member o allowed key name : object_with o allowed -> cstr key name ->
  exists r, cf_cJSON_GetObjectItemCaseSensitive (Some o) key = Some r /\ found o name r.
Proof.
  intros [_ (names & Hn & Hnd & _)] Hkey; destruct (get_object_item_spec key name _ names Hkey Hn Hnd) as (r & H & Hr).
  exists r; split; [exact H|]; destruct r; exact Hr.
Qed.

Lemma found_ok o name r c : json_ok o -> found o name r -> r = Some c -> json_ok c.
Proof. intros Ho Hr ->; destruct Hr as [Hc _]; by eapply member_ok. Qed.

Lemma keys_tests item allowed names : (forall o, item = Some o -> json_ok o) -> Forall2 cstr allowed names ->
  tests (cf_json_keys item allowed) (exists o, item = Some o /\ object_with o names).
Proof.
  intros Ho Ha; destruct (cf_json_keys_spec item allowed names Ho Ha) as (v & Hv & Hiff); exists v; split; [done|]; rewrite Hiff; split.
  - intros (H & o & -> & Hk); by exists o.
  - intros (o & -> & H & Hk); split; [done|]; by exists o.
Qed.

Lemma same_string_tests item s t : (forall c, item = Some c -> json_ok c) -> cstr s t ->
  tests (same_string item s) (exists c, item = Some c /\ string_is c t).
Proof.
  intros Hok Hs; unfold same_string; destruct (cf_cJSON_IsString item) eqn:E; cbn [negb].
  2: { apply tests_true; split; [done|]; intros (c & -> & H & _); congruence. }
  destruct item as [c|]; [|done]; cbn [mbind option_bind].
  destruct (Hok c eq_refl) as [ty v d name cs Hv _ Hstr _ _]; cbn [j_valuestring].
  destruct v as [x|]; [|by destruct Hstr; [apply Z.eqb_eq in E|]].
  destruct (Hv x eq_refl) as (y & Hy & _); cbn [mbind option_bind]; rewrite (streq_spec _ _ _ _ Hy Hs); apply tests_true; rewrite bool_decide_eq_true; split.
  - intros ->; eexists; split; [done|]; split; [done|]; by exists x.
  - intros (c & [= <-] & _ & x' & [= <-] & Hx'); by eapply cstr_unique.
Qed.

Lemma empty_object_true c : empty_object (Some c) = true <-> is_empty_object c.
Proof. unfold empty_object, is_empty_object; rewrite andb_true_iff, bool_decide_eq_true; done. Qed.

(** The two conditions on a member. *)
Lemma string_member_tests o allowed key name s t :
  json_ok o -> object_with o allowed -> cstr key name -> cstr s t ->
  tests (item ← cf_cJSON_GetObjectItemCaseSensitive (Some o) key; same_string item s) (string_member o name t).
Proof.
  intros Ho Hobj Hkey Hs; destruct (lookup_member o allowed key name Hobj Hkey) as (r & E & Hr); apply (tests_bind _ _ _ _ E).
  destruct (same_string_tests r s t) as (v & Hv & Hiff); [intros; by eapply found_ok|done|]; exists v; split; [done|]; rewrite Hiff; split.
  - intros (c & -> & Hc); exists c; split; [by destruct Hr|done].
  - intros (c & Hm & Hc); destruct r as [c'|]; [|by destruct (Hr c)]; destruct Hr as [_ Huniq]; rewrite (Huniq _ Hm) in Hc; by exists c'.
Qed.

Lemma empty_member_tests o allowed key name :
  object_with o allowed -> cstr key name ->
  tests (item ← cf_cJSON_GetObjectItemCaseSensitive (Some o) key; Some (empty_object item))
    (forall c, member o name c -> is_empty_object c).
Proof.
  intros Hobj Hkey; destruct (lookup_member o allowed key name Hobj Hkey) as (r & E & Hr); apply (tests_bind _ _ _ _ E), tests_true.
  destruct r as [c|].
  - rewrite empty_object_true; destruct Hr as [Hm Huniq]; split; [intros Hc c' Hc'; by rewrite (Huniq _ Hc')|auto].
  - split; [|done]; intros _ c Hc; by destruct (Hr c).
Qed.

Lemma warp_tests config allowed : json_ok config -> object_with config allowed ->
  tests (warp ← cf_cJSON_GetObjectItemCaseSensitive (Some config) (cstring "warp-routing"); warp_valid warp)
    (forall w, member config (lit "warp-routing") w ->
       object_with w [lit "enabled"] /\ exists e, member w (lit "enabled") e /\ cf_cJSON_IsFalse (Some e) = true).
Proof.
  intros Ho Hobj; destruct (lookup_member config allowed (cstring "warp-routing") (lit "warp-routing") Hobj) as (r & E & Hr); [apply cstr_cstring; no_nul|].
  apply (tests_bind _ _ _ _ E); destruct r as [w|]; cbn [warp_valid]; [|apply tests_true; split; [intros _ w Hw; by destruct (Hr w)|done]].
  destruct Hr as [Hm Huniq]; pose proof (member_ok _ _ _ Ho Hm) as Hw.
  destruct (keys_tests (Some w) warp_keys [lit "enabled"]) as (v & -> & Hv); [by intros ? [= <-]|repeat constructor; apply cstr_cstring; no_nul|].
  cbn [mbind option_bind]; destruct v; cbn [negb].
  2: { apply tests_true; split; [done|]; intros H; destruct (H w Hm) as [Hobj' _]; apply Hv; by exists w. }
  destruct (proj1 Hv eq_refl) as (? & [= <-] & Hobj').
  destruct (lookup_member w _ (cstring "enabled") (lit "enabled") Hobj') as (e & E' & He); [apply cstr_cstring; no_nul|]; rewrite E'; cbn [mbind option_bind].
  apply tests_true; split.
  - intros Hfalse w' Hw'; rewrite (Huniq _ Hw'); split; [done|]; destruct e as [e|]; [|done]; exists e; split; [by destruct He|done].
  - intros H; destruct (H w Hm) as (_ & e' & He' & Hfalse); destruct e as [e|]; [|by destruct (He e')].
    destruct He as [_ Hu]; by rewrite (Hu _ He') in Hfalse.
Qed.

(** The tables of names, and the names themselves. *)
Ltac literal := apply cstr_cstring; no_nul.
Ltac table := repeat constructor; literal.

(** The keys of an item, for one that is there. *)
Lemma object_tests o allowed names : json_ok o -> Forall2 cstr allowed names ->
  tests (cf_json_keys (Some o) allowed) (object_with o names).
Proof.
  intros Ho Ha; destruct (keys_tests (Some o) allowed names) as (v & Hv & Hiff); [by intros ? [= <-]|done|].
  exists v; split; [done|]; rewrite Hiff; split; [by intros (? & [= <-] & ?)|intros; by exists o].
Qed.

Lemma rule_checks_spec first last hosts labels host label :
  json_ok first -> json_ok last -> cstr hosts host -> cstr labels label ->
  decides (rule_checks (Some first) (Some last) hosts labels) (λ _, rule_policy first last host label).
Proof.
  intros Hf Hl Hhost Hlabel; unfold rule_checks.
  eapply require_decides; [by left|apply object_tests; [done|table]|intros Hfk|by intros _ (H & _)].
  eapply require_decides; [by left|apply object_tests; [done|table]|intros Hlk|by intros _ (_ & H & _)].
  eapply require_decides; [by left|eapply string_member_tests; [done|exact Hfk|literal|exact Hhost]|intros H1|by intros _ (_ & _ & H & _)].
  eapply require_decides; [by left|eapply string_member_tests; [done|exact Hfk|literal|exact Hlabel]|intros H2|by intros _ (_ & _ & _ & H & _)].
  eapply require_decides; [by left|eapply string_member_tests; [done|exact Hlk|literal|literal]|intros H3|by intros _ (_ & _ & _ & _ & H & _)].
  eapply require_decides; [by left|eapply empty_member_tests; [exact Hfk|literal]|intros H4|by intros _ (_ & _ & _ & _ & _ & H)].
  by eexists.
Qed.

Lemma config_checks_spec config hosts labels host label :
  (forall c, config = Some c -> json_ok c) -> cstr hosts host -> cstr labels label ->
  decides (config_checks config hosts labels) (λ _, exists c, config = Some c /\ config_policy c host label).
Proof.
  intros Hc Hhost Hlabel; unfold config_checks.
  eapply require_decides; [by left|apply (keys_tests _ _ [lit "ingress"; lit "originRequest"; lit "warp-routing"]); [done|table]| |].
  2: { intros _ (c & -> & (H & _)); by exists c. }
  intros (c & -> & Hk); specialize (Hc c eq_refl).
  eapply require_decides; [by left|eapply empty_member_tests; [exact Hk|literal]|intros H1|by intros _ (? & [= <-] & _ & H & _)].
  eapply require_decides; [by left|eapply warp_tests; [done|exact Hk]|intros H2|by intros _ (? & [= <-] & _ & _ & H & _)].
  destruct (lookup_member c _ (cstring "ingress") (lit "ingress") Hk) as (r & -> & Hr); [literal|]; cbn [mbind option_bind].
  apply (require_decides _ _ _ (exists rules first last, r = Some rules /\ cf_cJSON_IsArray (Some rules) = true /\ j_child rules = [first; last])); [by left| | |].
  - apply tests_true; rewrite andb_true_iff; destruct r as [j|]; [|split; [by intros []|by intros (? & ? & ? & ? & _)]]; cbn [cf_cJSON_GetArraySize]; split.
    + intros [Ha Hs]; destruct (j_child j) as [|first [|last [|]]] eqn:E; try (exfalso; rewrite ?zlen_cons, ?zlen_nil in Hs; unfold zlen in Hs; simpl in Hs; lia).
      by exists j, first, last.
    + intros (? & first & last & [= <-] & Ha & ->); done.
  - intros (rules & first & last & -> & Ha & Hch); cbn [cf_cJSON_GetArrayItem Z.ltb Z.compare]; rewrite Hch; cbn [lookup list_lookup Z.to_nat Pos.to_nat Pos.iter_op].
    destruct Hr as [Hm Huniq]; pose proof (children_ok _ (member_ok _ _ _ Hc Hm)) as Hrules; rewrite Hch in Hrules.
    apply Forall_cons in Hrules as [Hf Hl]; apply Forall_cons in Hl as [Hl _].
    destruct (rule_checks_spec first last hosts labels host label Hf Hl Hhost Hlabel) as (res & Hres & Hout); exists res; split; [exact Hres|].
    assert (rule_policy first last host label <-> exists c', Some c = Some c' /\ config_policy c' host label) as Hiff.
    { split.
      - intros Hp; exists c; split; [done|]; split; [done|]; split; [done|]; split; [done|]; by exists rules, first, last.
      - intros (? & [= <-] & _ & _ & _ & rules' & f' & l' & Hm' & _ & Hch' & Hp); rewrite (Huniq _ Hm') in *; rewrite Hch in Hch'; by injection Hch' as -> ->. }
    destruct res as [[rc text]|u]; [destruct Hout as [? Hout]; split; [done|]; intros a Ha'; by apply (Hout a), Hiff|by apply Hiff].
  - intros _ (? & [= <-] & _ & _ & _ & rules & first & last & Hm & Ha & Hch & _); destruct r as [j|]; [|by destruct (Hr rules)].
    destruct Hr as [_ Huniq]; rewrite <- (Huniq _ Hm); by exists rules, first, last.
Qed.

Lemma update_checks_spec root hosts labels host label :
  json_ok root -> cstr hosts host -> cstr labels label ->
  decides (update_checks root hosts labels) (update_policy root host label).
Proof.
  intros Hok Hhost Hlabel; unfold update_checks.
  eapply require_decides; [by left|apply (object_tests _ _ [lit "version"; lit "config"]); [done|table]|intros Hk|by intros n (H & _)].
  destruct (lookup_member root _ (cstring "version") (lit "version") Hk) as (v & -> & Hv); [literal|]; cbn [mbind option_bind].
  destruct (lookup_member root _ (cstring "config") (lit "config") Hk) as (c & -> & Hc); [literal|]; cbn [mbind option_bind].
  eapply require_decides; [by right|apply version_valid_spec; intros j Hj; by apply (found_ok _ _ _ _ Hok Hv)| |].
  2: { intros n (_ & (j & Hm & Hn) & _); exists n; destruct v as [j'|]; [|by destruct (Hv j)]; destruct Hv as [_ Huniq]; by rewrite <- (Huniq _ Hm). }
  intros (n & j & -> & Hnum & Hn & Hint); destruct Hv as [Hvm Hvu].
  destruct (config_checks_spec c hosts labels host label) as (res & -> & Hres); [intros j' Hj; by apply (found_ok _ _ _ _ Hok Hc)|done|done|].
  cbn [mbind option_bind]; destruct res as [[rc text]|u].
  - eexists; split; [done|]; destruct Hres as [Hrc Hno]; split; [done|]; intros n' (_ & _ & c' & Hm & Hp); apply (Hno tt).
    destruct c as [c''|]; [|by destruct (Hc c')]; destruct Hc as [_ Hu]; rewrite <- (Hu _ Hm); by exists c'.
  - rewrite (integer_value _ _ Hn Hint); cbn [mbind option_bind]; eexists; split; [done|]; destruct Hres as (c' & -> & Hp); destruct Hc as [Hcm _].
    split; [done|]; split; [exists j; split; [done|]; by exists j|by exists c'].
Qed.

(** ** The application of an update *)

(** The arrays have their lengths. *)
Definition config_ok (st : cf_remote_config) : Prop := zlen (hostname st) = 254 /\ zlen (service st) = 64.

(** The caller's policy. *)
Definition policy_ok (host label : list Z) : Prop := is_hostname host /\ label <> [] /\ zlen label <= CF_LOCAL_SERVICE_MAX.

(** The state after an accepted version. *)
Definition advance (st : cf_remote_config) (n : Z) (host label : list Z) : cf_remote_config :=
  if valid st && (n <=? version st) then st
  else RemoteConfig true n (host ++ 0 :: drop (S (length host)) (hostname st)) (label ++ 0 :: drop (S (length label)) (service st)).

Lemma copy_string_spec array s t : cstr s t -> zlen t < zlen array ->
  copy_string array s = Some (t ++ 0 :: drop (S (length t)) array).
Proof.
  intros Ht Hlen; unfold copy_string; rewrite (strlen_spec _ _ Ht); destruct Ht as (rest & -> & _); cbn [mbind option_bind].
  pose proof (zlen_nonneg t); pose proof (zlen_nonneg rest).
  rewrite slice_sub by (rewrite ?zlen_app, ?zlen_cons; lia).
  replace (t ++ 0 :: rest) with ((t ++ [0]) ++ rest) by (by rewrite <- app_assoc).
  rewrite sub_head by (rewrite zlen_app; done); cbn [mbind option_bind].
  rewrite blit_0_intro by (rewrite zlen_app; change (zlen [0]) with 1; lia); f_equal.
  rewrite <- app_assoc, length_app; cbn [app length]; by rewrite Nat.add_1_r.
Qed.

Lemma publish_spec st n hosts labels host label :
  config_ok st -> cstr hosts host -> cstr labels label -> policy_ok host label ->
  publish st n hosts labels = Some (advance st n host label).
Proof.
  intros [Hh Hs] Hhost Hlabel ([Hmax _] & _ & Hlen); unfold publish, advance, CF_HOSTNAME_MAX, CF_LOCAL_SERVICE_MAX in *.
  destruct (valid st); cbn [negb orb andb].
  2: { by rewrite (copy_string_spec _ _ _ Hhost), (copy_string_spec _ _ _ Hlabel) by lia. }
  destruct (Z.ltb_spec (version st) n), (Z.leb_spec n (version st)); try lia; [|done].
  by rewrite (copy_string_spec _ _ _ Hhost), (copy_string_spec _ _ _ Hlabel) by lia.
Qed.

Lemma advance_ok st n host label : config_ok st -> policy_ok host label -> config_ok (advance st n host label).
Proof.
  intros [Hh Hs] ([Hmax _] & _ & Hlen); unfold advance, config_ok, CF_HOSTNAME_MAX, CF_LOCAL_SERVICE_MAX in *.
  destruct (_ && _); [done|]; cbn [hostname service]; rewrite !zlen_app, !zlen_cons; unfold zlen in *; rewrite !length_drop; lia.
Qed.

Lemma bad_arguments_spec st update l hosts labels host label :
  denotes update l -> cstr hosts host -> cstr labels label ->
  exists v, bad_arguments (Some st) update (Some hosts) (Some labels) = Some v /\ (v = false <-> policy_ok host label).
Proof.
  intros Hu Hhost Hlabel; unfold bad_arguments, policy_ok; destruct (hostname_valid_spec _ _ Hhost) as (v & -> & Hv); cbn [mbind option_bind].
  destruct v; cbn [negb]; [|exists true; split; [done|]; split; [done|]; intros [H _]; by apply Hv in H].
  rewrite (strlen_spec _ _ Hlabel), (denotes_null_view _ _ Hu); destruct Hlabel as (rest & -> & Hn).
  destruct label as [|c label]; cbn [app].
  { exists true; split; [done|]; split; [done|]; by intros (_ & ? & _). }
  change (rd (c :: label ++ 0 :: rest) 0) with (Some c); cbn [mbind option_bind].
  destruct (Z.eqb_spec c 0) as [->|Hc]; [exfalso; apply Hn; by left|].
  eexists; split; [done|]; rewrite orb_false_r, Z.ltb_ge; split; [intros; split; [by apply Hv|done]|by intros (_ & _ & ?)].
Qed.

Section ApplySpec.
Context (header : Z) (Hheader : 0 < header <= 64) `{JsonParserLaws header}.

(** The update is accepted, at version [n]. *)
Definition admitted (l : list Z) (host label : list Z) (h : json_heap) (n : Z) : Prop :=
  policy_ok host label /\ exists root h1, accepts l h root h1 /\ update_policy root host label n.

Lemma admitted_unique l host label h n n' : admitted l host label h n -> admitted l host label h n' -> n = n'.
Proof.
  intros (_ & root & h1 & (_ & e & E & _) & (Hk & (v & Hv & (j & [= <-] & _ & Hn & Hi)) & _))
    (_ & root' & h1' & (_ & e' & E' & _) & (_ & (v' & Hv' & (j' & [= <-] & _ & Hn' & Hi')) & _)).
  rewrite E in E'; injection E' as <- _ _.
  destruct (lookup_member root _ (cstring "version") (lit "version") Hk) as (r & _ & Hr); [literal|].
  destruct r as [c|]; [|by destruct (Hr v)]; destruct Hr as [_ Huniq]; rewrite (Huniq _ Hv) in Hi; rewrite (Huniq _ Hv') in Hi'.
  by eapply integer_unique.
Qed.

Lemma apply_spec st update l hosts labels host label reason h :
  config_ok st -> heap_ok header h -> denotes update l -> cstr hosts host -> cstr labels label ->
  exists rc st' reason' h',
    cf_config_apply_ex (Some st) update (Some hosts) (Some labels) reason h = Some (rc, Some st', reason', h') /\
    heap_ok header h' /\ json_live_bytes h' = json_live_bytes h /\
    match rc with
    | CF_OK => exists n, admitted l host label h n /\ st' = advance st n host label
    | _ => st' = st /\ forall n, ~ admitted l host label h n
    end.
Proof.
  intros Hst Hh Hu Hhost Hlabel; unfold cf_config_apply_ex.
  destruct (bad_arguments_spec st update l hosts labels host label Hu Hhost Hlabel) as (bad & -> & Hbad); cbn [mbind option_bind].
  destruct bad.
  { do 4 eexists; split; [done|]; split; [done|]; split; [done|]; split; [done|]; intros n [Hp _]; by apply Hbad in Hp. }
  pose proof (proj1 Hbad eq_refl) as Hpol; rewrite (denotes_len _ _ Hu).
  destruct ((zlen l =? 0) || (CF_CONFIG_MESSAGE_MAX <? zlen l)) eqn:Elen.
  { do 4 eexists; split; [done|]; split; [done|]; split; [done|]; split; [done|]; intros n (_ & root & h1 & ((Hl & _) & _) & _).
    unfold CF_CONFIG_MESSAGE_MAX in *; lia. }
  destruct (cf_json_parse_spec header Hheader update l h Hh Hu) as (r & h' & -> & Hh' & Hr); cbn [mbind option_bind].
  destruct r as [root|].
  2: { destruct Hr as [Hlive Hno]; exists (cf_json_failure h'), st; do 2 eexists; split; [done|]; split; [done|]; split; [done|].
       assert (forall n, ~ admitted l host label h n) as Hnone by (intros n (_ & root & h1 & Ha & _); by apply (Hno root h1)).
       unfold cf_json_failure; by destruct (json_allocation_failed h'). }
  destruct Hr as [Hacc Hroot]; pose proof Hacc as (Hscreen & e & Eparse & _).
  assert (heap_ok header (cf_cJSON_Delete (Some root) h') /\ json_live_bytes (cf_cJSON_Delete (Some root) h') = json_live_bytes h) as [Hdel Hlive].
  { split; [exact (heap_steps_ok header Hheader _ _ (delete_steps (Some root) h') Hh')|].
    exact (delete_tree _ _ _ _ _ root Eparse (or_introl eq_refl)). }
  destruct (update_checks_spec root hosts labels host label Hroot Hhost Hlabel) as (res & -> & Hres); cbn [mbind option_bind].
  destruct res as [[rc text]|n].
  - destruct Hres as [Hrc Hno]; exists rc, st; do 2 eexists; split; [done|]; split; [done|]; split; [done|].
    assert (forall n, ~ admitted l host label h n) as Hnone.
    { intros n (_ & root' & h1 & (_ & e' & E' & _) & Hp); rewrite Eparse in E'; injection E' as <- _ _; by apply (Hno n). }
    by destruct Hrc as [-> | ->].
  - rewrite (publish_spec st n hosts labels host label Hst Hhost Hlabel Hpol); cbn [mbind option_bind].
    do 4 eexists; split; [done|]; split; [done|]; split; [done|]; exists n; split; [|done]; split; [done|]; by exists root, h'.
Qed.

End ApplySpec.

(** ** Sequences of updates *)

Section Runs.
Context (header : Z) (Hheader : 0 < header <= 64) `{JsonParserLaws header}.

(** Updates applied one after the other under one policy, with the results. *)
Fixpoint apply_all (updates : list cf_bytes) (hosts labels : list Z) (st : cf_remote_config) (h : json_heap) :
    option (list cf_result * cf_remote_config * json_heap) :=
  match updates with
  | [] => Some ([], st, h)
  | u :: updates =>
      '(rc, st, h) ← cf_config_apply (Some st) u (Some hosts) (Some labels) h; st ← st;
      '(rcs, st, h) ← apply_all updates hosts labels st h; Some (rc :: rcs, st, h)
  end.

(** A state under the policy: nothing is published yet, or exactly the policy. *)
Definition grants (st : cf_remote_config) (host label : list Z) : Prop :=
  config_ok st /\ (valid st = false -> version st = -1) /\
  (valid st = true -> cstr (hostname st) host /\ cstr (service st) label).

(** The version is one that an update of the list grants. *)
Definition granted (updates : list cf_bytes) (host label : list Z) (n : Z) : Prop :=
  exists u l h, u ∈ updates /\ denotes u l /\ admitted l host label h n.

Definition accepted (rcs : list cf_result) : list cf_result := filter (λ rc, rc = CF_OK) rcs.

Lemma advance_grants st n host label : 0 <= n -> (0 ∉ host) -> (0 ∉ label) -> policy_ok host label -> grants st host label ->
  grants (advance st n host label) host label /\ version (advance st n host label) = Z.max n (version st) /\
  valid (advance st n host label) = true.
Proof.
  intros Hn Hh Hl Hpol (Hok & Hinv & Hval); pose proof (advance_ok st n host label Hok Hpol) as Hok'; unfold advance in *.
  destruct (valid st) eqn:Ev; cbn [andb] in *.
  - destruct (Z.leb_spec n (version st)); [split; [split; [done|]; split; [congruence|intros _; by apply Hval]|]; split; [lia|done]|].
    split; [|cbn; lia]; split; [done|]; split; [done|]; intros _; split; by apply cstr_intro.
  - rewrite Hinv by done; split; [|cbn; lia]; split; [done|]; split; [done|]; intros _; split; by apply cstr_intro.
Qed.

Lemma apply_all_spec updates hosts labels host label : Forall (λ u, exists l, denotes u l) updates ->
  cstr hosts host -> cstr labels label -> forall st h, grants st host label -> heap_ok header h ->
  exists rcs st' h' ns, apply_all updates hosts labels st h = Some (rcs, st', h') /\
    heap_ok header h' /\ json_live_bytes h' = json_live_bytes h /\ grants st' host label /\
    Forall (granted updates host label) ns /\ length ns = length (accepted rcs) /\ version st' = foldr Z.max (version st) ns /\ valid st' = valid st || bool_decide (ns <> []).
Proof.
  intros Hus Hhost Hlabel; induction Hus as [|u updates [l Hu] _ IH]; intros st h Hg Hh; cbn [apply_all].
  { exists [], st, h, []; split; [done|]; split; [done|]; split; [done|]; split; [done|]; split; [constructor|]; split; [done|]; split; [done|].
    by rewrite orb_false_r. }
  unfold cf_config_apply.
  destruct (apply_spec header Hheader st u l hosts labels host label None h (proj1 Hg) Hh Hu Hhost Hlabel) as (rc & st1 & reason & h1 & -> & Hh1 & Hlive & Hst).
  cbn [mbind option_bind].
  assert (exists ns1, grants st1 host label /\ Forall (granted (u :: updates) host label) ns1 /\ length ns1 = length (accepted [rc]) /\ version st1 = foldr Z.max (version st) ns1 /\
    valid st1 = valid st || bool_decide (ns1 <> [])) as (ns1 & Hg1 & Hgr1 & Hlen1 & Hv1 & Hval1).
  { destruct rc; try (exists []; destruct Hst as [-> _]; split; [done|]; split; [constructor|]; split; [done|]; split; [done|]; by rewrite orb_false_r).
    destruct Hst as (n & Hadm & ->); exists [n]; pose proof Hadm as (Hpol & root & ? & _ & (_ & (? & _ & (? & _ & _ & Hn & _)) & _)).
    assert (Forall (granted (u :: updates) host label) [n]) as Hgr by (constructor; [exists u, l, h; split; [apply elem_of_cons; by left|done]|constructor]).
    destruct Hhost as (? & _ & Hnh), Hlabel as (? & _ & Hnl).
    destruct (advance_grants st n host label ltac:(lia) Hnh Hnl Hpol Hg) as (Hg1 & Hv1 & Hval1); split; [done|]; split; [done|]; split; [done|]; split; [done|].
    by rewrite Hval1, orb_true_r. }
  destruct (IH st1 h1 Hg1 Hh1) as (rcs & st' & h' & ns & -> & Hh' & Hlive' & Hg' & Hgr & Hlen & Hv & Hval); cbn [mbind option_bind].
  exists (rc :: rcs), st', h', (ns ++ ns1); split; [done|]; split; [done|]; split; [congruence|]; split; [done|]; split; [|split].
  - apply Forall_app; split; [|done]; eapply Forall_impl; [exact Hgr|]; intros n (u' & l' & h2 & Hin & ?).
    exists u', l', h2; split; [apply elem_of_cons; by right|done].
  - change (rc :: rcs) with ([rc] ++ rcs); unfold accepted in *; rewrite filter_app, !length_app; lia.
  - split; [by rewrite foldr_app, <- Hv1|]; rewrite Hval, Hval1, <- orb_assoc; f_equal.
    destruct ns, ns1; by rewrite ?app_nil_r.
Qed.

End Runs.

(** ** The text of the reply *)

Definition dec_val (d : list Z) : Z := fold_left (λ a c, a * 10 + (c - 48)) d 0.

Lemma decimal_go_spec fuel : forall n acc, 0 <= n < 10 ^ Z.of_nat fuel -> (0 < fuel)%nat ->
  exists d, decimal_go fuel n acc = d ++ acc /\ digits d /\ (d = [48] \/ head d <> Some 48) /\ dec_val d = n /\
    forall k, 0 < k -> n < 10 ^ k -> zlen d <= k.
Proof.
  induction fuel as [|fuel IH]; intros n acc Hn Hfuel; [lia|]; cbn [decimal_go]; destruct (Z.ltb_spec n 10) as [Hlt|Hge].
  - rewrite Z.mod_small by lia; exists [48 + n]; split; [done|]; split.
    + split; [done|]; repeat constructor; unfold number_digit; lia.
    + split; [|split; [unfold dec_val; cbn; lia|intros; change (zlen [48 + n]) with 1; lia]].
      destruct (Z.eqb_spec n 0) as [->|H]; [by left|right; cbn; intros [= E]; lia].
  - rewrite Nat2Z.inj_succ, Z.pow_succ_r in Hn by lia; pose proof (Z.div_mod n 10) as Hdm; pose proof (Z.mod_pos_bound n 10).
    destruct fuel as [|fuel]; [cbn in Hn; lia|].
    destruct (IH (n / 10) (48 + n mod 10 :: acc)) as (d & -> & [Hne Hd] & Hhead & Hval & Hlen); [split; [apply Z.div_pos; lia|apply Z.div_lt_upper_bound; [lia|exact (proj2 Hn)]]|lia|].
    exists (d ++ [48 + n mod 10]); rewrite <- app_assoc; split; [done|]; split; [split; [by destruct d|]|].
    { apply Forall_app; split; [done|]; repeat constructor; unfold number_digit; lia. }
    split; [|split].
    + right; destruct Hhead as [->|Hhead]; [unfold dec_val in Hval; cbn in Hval; lia|by destruct d].
    + unfold dec_val in *; rewrite fold_left_app, Hval; cbn; lia.
    + intros k Hk Hnk; rewrite zlen_app; change (zlen [_]) with 1.
      assert (1 < k) as Hk1 by (destruct (Z.eqb_spec k 1) as [->|]; [cbn in Hnk; lia|lia]).
      enough (zlen d <= k - 1) by lia; apply Hlen; [lia|]; apply Z.div_lt_upper_bound; [lia|].
      rewrite <- Z.pow_succ_r by lia; by replace (Z.succ (k - 1)) with k by lia.
Qed.

(** The value [%ld] prints is the one a reader gets back. *)
Definition read_decimal (t : list Z) : Z :=
  match t with c :: d => if c =? 45 then - dec_val d else dec_val t | [] => 0 end.

Lemma decimal_spec n : -2147483648 <= n <= INT32_MAX ->
  number (decimal n) /\ read_decimal (decimal n) = n /\ 1 <= zlen (decimal n) <= 11 /\ (0 ∉ decimal n).
Proof.
  unfold INT32_MAX; intros Hn; unfold decimal.
  destruct (decimal_go_spec 20 (Z.abs n) []) as (d & -> & [Hne Hd] & Hhead & Hval & Hlen); [simpl; lia|lia|]; rewrite app_nil_r.
  specialize (Hlen 10 ltac:(lia) ltac:(simpl; lia)).
  assert (1 <= zlen d) by (destruct d; [done|]; rewrite zlen_cons; pose proof (zlen_nonneg d); lia).
  split; [|split; [|split]].
  - replace ((if n <? 0 then [45] else []) ++ d) with ((if n <? 0 then [45] else []) ++ d ++ [] ++ []) by (by rewrite app_nil_r).
    apply Number; [destruct (n <? 0); auto| |by left|by left]; destruct Hhead as [->|Hhead]; [by left|right; by split].
  - destruct (Z.ltb_spec n 0); cbn [app read_decimal].
    + rewrite Z.eqb_refl, Hval; lia.
    + destruct d as [|c d]; [done|]; apply Forall_cons in Hd as [Hc _]; cbn [read_decimal].
      destruct (Z.eqb_spec c 45) as [->|_]; [done|rewrite Hval; lia].
  - rewrite zlen_app; destruct (n <? 0); [change (zlen [45]) with 1|rewrite zlen_nil]; lia.
  - rewrite not_elem_of_app; split; [destruct (n <? 0); no_nul|]; intros Hin; rewrite Forall_forall in Hd; by apply Hd in Hin.
Qed.

(** A member name and its colon. *)
Lemma name_token s r : forallb (λ c, (32 <=? c) && negb (c =? 34) && negb (c =? 92)) s = true -> lexemes r ->
  lexemes (34 :: s ++ 34 :: 58 :: r).
Proof.
  intros Hs Hr; apply LexString; [|by constructor]; induction s as [|c s IH]; [constructor|].
  cbn [forallb] in Hs; apply andb_true_iff in Hs as [Hc Hs]; apply BodyChar; [lia..|by apply IH].
Qed.

(** The reply passes the strict lexer, for either verdict. *)
Lemma response_lexemes st rc : -2147483648 <= version st <= INT32_MAX -> lexemes (response_text st rc).
Proof.
  intros Hv; unfold response_text; cbn [app].
  apply LexPlain; [done|]; apply (name_token (lit "lastAppliedVersion")); [done|].
  apply LexNumber; [|done|].
  - apply (decimal_spec (if valid st then version st else -1)); unfold INT32_MAX in *; destruct (valid st); lia.
  - apply LexPlain; [done|]; apply (name_token (lit "err")); [done|].
    destruct (is_ok rc); cbn [lit app]; repeat (apply LexPlain; [done|]); constructor.
Qed.

Lemma response_no_nul st rc : -2147483648 <= version st <= INT32_MAX -> 0 ∉ response_text st rc.
Proof.
  intros Hv; assert (0 ∉ decimal (if valid st then version st else -1)) as Hd.
  { destruct (decimal_spec (if valid st then version st else -1)) as (_ & _ & _ & H0); [unfold INT32_MAX in *; destruct (valid st); lia|done]. }
  unfold response_text; rewrite !not_elem_of_app; do 3 (split; [no_nul|]); split; [exact Hd|]; do 3 (split; [no_nul|]); split; [destruct (is_ok rc)|]; no_nul.
Qed.

Lemma response_length st rc : -2147483648 <= version st <= INT32_MAX -> zlen (response_text st rc) <= 45.
Proof.
  intros Hv; unfold response_text; rewrite !zlen_app.
  pose proof (decimal_spec (if valid st then version st else -1)) as (_ & _ & Hd & _); [unfold INT32_MAX in *; destruct (valid st); lia|].
  assert (zlen (if is_ok rc then lit "null" else [123; 125]) <= 4) by (by destruct (is_ok rc)).
  change (zlen [123; 34]) with 2; change (zlen (lit "lastAppliedVersion")) with 18; change (zlen [34; 58]) with 2.
  change (zlen [44; 34]) with 2; change (zlen (lit "err")) with 3; change (zlen [125]) with 1.
  lia.
Qed.

Lemma response_spec st rc m cap :
  -2147483648 <= version st <= INT32_MAX -> 0 <= cap <= zlen m ->
  exists out n, cf_config_response (Some st) rc (Some m) cap true =
      Some (if cap =? 0 then CF_ERR_ARGUMENT else if zlen (response_text st rc) <? cap then CF_OK else CF_ERR_LIMIT, Some out, Some n) /\
    zlen out = zlen m /\
    (if zlen (response_text st rc) <? cap then cstr out (response_text st rc) /\ n = zlen (response_text st rc)
     else n = 0 /\ (0 < cap -> cstr out [])).
Proof.
  intros Hv Hcap; unfold cf_config_response; cbn [negb]; pose proof (zlen_nonneg (response_text st rc)).
  destruct (Z.eqb_spec cap 0) as [->|Hne].
  { exists m, 0; split; [done|]; split; [done|]; replace (zlen _ <? 0) with false by lia; split; [done|lia]. }
  set (t := response_text st rc) in *; unfold snprintf.
  assert (zlen (take (Z.to_nat (cap - 1)) t) = Z.min (cap - 1) (zlen t)) as Htake by (unfold zlen in *; rewrite length_take; lia).
  rewrite blit_0_intro by (rewrite zlen_app, Htake; change (zlen [0]) with 1; lia); cbn [mbind option_bind].
  assert (zlen ((take (Z.to_nat (cap - 1)) t ++ [0]) ++ drop (length (take (Z.to_nat (cap - 1)) t ++ [0])) m) = zlen m) as Hout.
  { unfold zlen in *; rewrite length_app, length_drop, !length_app in *; cbn [length] in *; lia. }
  set (rest := drop _ m) in *; destruct (Z.ltb_spec (zlen t) cap), (Z.leb_spec cap (zlen t)); try lia.
  - do 2 eexists; split; [done|]; split; [done|]; split; [|done]; rewrite take_ge by (unfold zlen in *; lia); rewrite <- app_assoc.
    by apply cstr_intro, response_no_nul.
  - destruct (take (Z.to_nat (cap - 1)) t ++ [0]) as [|c x] eqn:Ex; [by destruct (take (Z.to_nat (cap - 1)) t)|].
    unfold wr; cbn [app] in *; rewrite blit_0_intro by (change (zlen [0]) with 1; rewrite Hout; lia); cbn [app length drop mbind option_bind].
    do 2 eexists; split; [done|]; rewrite drop_0; split; [rewrite zlen_cons in Hout |- *; lia|]; split; [done|]; intros _; apply (cstr_intro []), not_elem_of_nil.
Qed.

(** ** A sample document *)

Definition quoted (s : string) : list Z := 34 :: lit s ++ [34].

(** {"version":7,"config":{"ingress":[{"hostname":"h","service":"s"},{"service":"http_status:404"}]}} *)
Definition sample_update : list Z :=
  [123] ++ quoted "version" ++ [58; 55; 44] ++ quoted "config" ++ [58; 123] ++ quoted "ingress" ++ [58; 91; 123] ++
  quoted "hostname" ++ [58] ++ quoted "h" ++ [44] ++ quoted "service" ++ [58] ++ quoted "s" ++ [125; 44; 123] ++
  quoted "service" ++ [58] ++ quoted "http_status:404" ++ [125; 93; 125; 125].

Definition sample_string (name value : string) : json :=
  Json cf_cJSON_String (Some (cstring value)) (S754_zero false) (Some (cstring name)) [].
Definition sample_object (name : option string) (cs : list json) : json :=
  Json cf_cJSON_Object None (S754_zero false) (option_map cstring name) cs.

Definition sample_document : json :=
  sample_object None [
    Json cf_cJSON_Number None (double_of_int32 7) (Some (cstring "version")) [];
    sample_object (Some "config"%string) [
      Json cf_cJSON_Array None (S754_zero false) (Some (cstring "ingress")) [
        sample_object None [sample_string "hostname" "h"; sample_string "service" "s"];
        sample_object None [sample_string "service" "http_status:404"]]]].

Lemma lit_bytes s : bytes_ok (lit s).
Proof. induction s as [|c s IH]; constructor; [|done]; pose proof (Ascii.nat_ascii_bounded c); unfold is_byte; lia. Qed.

Lemma sample_string_ok name value : (0 ∉ lit name) -> (0 ∉ lit value) -> json_ok (sample_string name value).
Proof. intros Hn Hv; constructor; [| |done|done|constructor]; intros x [= <-]; eexists; [split; [by apply cstr_cstring|apply lit_bytes]|by apply cstr_cstring]. Qed.

Lemma sample_node_ok ty d name cs : (ty =? cf_cJSON_String) = false -> Z.land ty 255 = ty -> double_ok d ->
  match name with Some n => 0 ∉ lit n | None => True end -> Forall json_ok cs ->
  json_ok (Json ty None d (option_map cstring name) cs).
Proof.
  intros Ht Hl Hd Hn Hcs; constructor; [done| |intros H; lia|done|done].
  destruct name as [n|]; [|done]; intros x [= <-]; eexists; by apply cstr_cstring.
Qed.

Lemma sample_document_ok : json_ok sample_document.
Proof.
  assert (double_ok (S754_zero false) /\ double_ok (double_of_int32 7)) as [H0 H7] by done.
  apply (sample_node_ok _ _ None); [done|done|exact H0|done|].
  apply Forall_cons_2; [apply (sample_node_ok _ _ (Some "version"%string)); [done|done|exact H7|no_nul|by constructor]|].
  apply Forall_cons_2; [|constructor]; apply (sample_node_ok _ _ (Some "config"%string)); [done|done|exact H0|no_nul|].
  apply Forall_cons_2; [|constructor]; apply (sample_node_ok _ _ (Some "ingress"%string)); [done|done|exact H0|no_nul|].
  apply Forall_cons_2; [|apply Forall_cons_2; [|constructor]]; apply (sample_node_ok _ _ None); try done; apply Forall_cons_2; try apply Forall_cons_2.
  all: first [constructor; fail|apply sample_string_ok; no_nul].
Qed.

Definition config_parser : JsonParser := table_parser [(sample_update, sample_document)].

#[global] Instance config_parser_laws : @JsonParserLaws 8 config_parser.
Proof. apply table_parser_laws; constructor; [apply sample_document_ok|constructor]. Qed.

Definition sample_config : cf_remote_config := RemoteConfig false (-1) (replicate 254 0) (replicate 64 0).

(** ** Properties *)

(** C18. [cf_config_apply_ex] for any state, update, policy and reason pointer:
    it returns, gives back all memory it took, and answers [CF_OK] exactly when
    the policy is well formed and the update is a strict JSON document that
    grants this very policy, at a version that is an integer of 0 to 2^31 - 1;
    then the state moves to that version unless it already is at one as high.
    Every other answer leaves the state as it was. *)
Theorem config_atomic header st update l hosts labels host label reason h `{JsonParserLaws header} :
  0 < header <= 64 -> config_ok st -> heap_ok header h -> denotes update l -> cstr hosts host -> cstr labels label ->
  exists rc st' reason' h',
    cf_config_apply_ex (Some st) update (Some hosts) (Some labels) reason h = Some (rc, Some st', reason', h') /\
    heap_ok header h' /\ json_live_bytes h' = json_live_bytes h /\
    match rc with
    | CF_OK => exists n, admitted l host label h n /\ st' = advance st n host label
    | _ => st' = st /\ forall n, ~ admitted l host label h n
    end.
Proof. intros Hheader; by apply (apply_spec header Hheader). Qed.

Lemma config_atomic_witness :
  exists st' h', @cf_config_apply_ex config_parser (Some sample_config) (view sample_update) (Some (cstring "h")) (Some (cstring "s"))
      (Some "old"%string) empty_heap = Some (CF_OK, Some st', Some "Remote ingress configuration applied."%string, h') /\
    st' = advance sample_config 7 (lit "h") (lit "s") /\ json_live_bytes h' = 0.
Proof.
  destruct (@config_atomic 8 sample_config (view sample_update) sample_update (cstring "h") (cstring "s") (lit "h") (lit "s")
    (Some "old"%string) empty_heap config_parser config_parser_laws) as (rc & st' & reason' & h' & E & _ & Hlive & _).
  - lia.
  - by split.
  - apply empty_heap_ok.
  - apply denotes_view; bytes_by_compute.
  - literal.
  - literal.
  - assert (exists h2, @cf_config_apply_ex config_parser (Some sample_config) (view sample_update) (Some (cstring "h")) (Some (cstring "s"))
      (Some "old"%string) empty_heap = Some (CF_OK, Some (advance sample_config 7 (lit "h") (lit "s")), Some "Remote ingress configuration applied."%string, h2))
      as [h2 E2] by (eexists; vm_compute; reflexivity).
    rewrite E in E2; injection E2 as -> -> -> ->; eexists _, h2; split; [exact E|]; split; [done|exact Hlive].
Defined.

(** Any sequence of updates from [cf_config_init] under one policy: the
    state stays unpublished until an update is accepted, then holds exactly the
    local host name and service, never text of an update, and its version is
    the maximum of the versions accepted; no memory is lost. *)
Theorem config_history header updates hosts labels host label st0 `{JsonParserLaws header} :
  0 < header <= 64 -> Forall (λ u, exists l, denotes u l) updates -> cstr hosts host -> cstr labels label ->
  exists st rcs st' h' ns, cf_config_init (Some st0) = Some st /\
    apply_all updates hosts labels st empty_heap = Some (rcs, st', h') /\ json_live_bytes h' = 0 /\
    Forall (granted updates host label) ns /\ length ns = length (accepted rcs) /\ version st' = foldr Z.max (-1) ns /\ valid st' = bool_decide (ns <> []) /\
    (valid st' = true -> cstr (hostname st') host /\ cstr (service st') label).
Proof.
  intros Hheader Hus Hhost Hlabel; set (st := RemoteConfig false (-1) (replicate 254 0) (replicate 64 0)).
  destruct (apply_all_spec header Hheader updates hosts labels host label Hus Hhost Hlabel st empty_heap)
    as (rcs & st' & h' & ns & Hrun & _ & Hlive & (_ & _ & Hg) & Hrest); [done|apply empty_heap_ok|].
  destruct Hrest as (Hgr & Hlen & Hv & Hval); exists st, rcs, st', h', ns.
  split; [done|]; split; [exact Hrun|]; split; [exact Hlive|]; auto.
Qed.

Lemma config_history_witness :
  exists rcs st' h', @apply_all config_parser [view [123]; view sample_update] (cstring "h") (cstring "s") sample_config empty_heap = Some (rcs, st', h') /\
    rcs = [CF_ERR_FORMAT; CF_OK] /\ version st' = 7 /\ json_live_bytes h' = 0 /\ cstr (hostname st') (lit "h").
Proof.
  destruct (@config_history 8 [view [123]; view sample_update] (cstring "h") (cstring "s") (lit "h") (lit "s") sample_config config_parser config_parser_laws)
    as (st & rcs & st' & h' & ns & Hinit & Hrun & Hlive & _ & _ & _ & _ & Hg).
  - lia.
  - constructor; [eexists; apply denotes_view; bytes_by_compute|]; constructor; [eexists; apply denotes_view; bytes_by_compute|constructor].
  - literal.
  - literal.
  - injection Hinit as <-.
    assert (exists h2, @apply_all config_parser [view [123]; view sample_update] (cstring "h") (cstring "s") sample_config empty_heap =
      Some ([CF_ERR_FORMAT; CF_OK], advance sample_config 7 (lit "h") (lit "s"), h2)) as [h2 E2] by (eexists; vm_compute; reflexivity).
    change (RemoteConfig false (-1) _ _) with sample_config in Hrun; rewrite Hrun in E2; injection E2 as -> -> ->.
    eexists _, _, h2; split; [exact Hrun|]; split; [done|]; split; [done|]; split; [exact Hlive|by apply Hg].
Defined.

(** [hostname_valid] returns on every string and decides: labels of 1 to 63
    lower-case letters, digits and inner hyphens, dots between them, 253
    characters at most. *)
Theorem hostname_exact s t : cstr s t -> exists v, hostname_valid s = Some v /\ (v = true <-> is_hostname t).
Proof. apply hostname_valid_spec. Qed.

Lemma hostname_exact_witness :
  exists v, hostname_valid (cstring "a-b.example") = Some v /\ (v = true <-> is_hostname (lit "a-b.example")).
Proof. apply (hostname_exact (cstring "a-b.example") (lit "a-b.example")); literal. Defined.

(** [cf_config_response] for any state and buffer: it writes inside the
    capacity only, and either the whole reply fits, with its length reported,
    or it answers the limit error with an empty string.  45 bytes are enough
    for every 32-bit version; the reply is lexically strict JSON and its number
    reads back as the version. *)
Theorem response_exact st rc m cap :
  -2147483648 <= version st <= INT32_MAX -> 0 <= cap <= zlen m ->
  (exists out n, cf_config_response (Some st) rc (Some m) cap true =
      Some (if cap =? 0 then CF_ERR_ARGUMENT else if zlen (response_text st rc) <? cap then CF_OK else CF_ERR_LIMIT, Some out, Some n) /\
    zlen out = zlen m /\
    (if zlen (response_text st rc) <? cap then cstr out (response_text st rc) /\ n = zlen (response_text st rc)
     else n = 0 /\ (0 < cap -> cstr out []))) /\
  zlen (response_text st rc) <= 45 /\ lexemes (response_text st rc) /\
  read_decimal (decimal (if valid st then version st else -1)) = if valid st then version st else -1.
Proof.
  intros Hv Hcap; split; [by apply response_spec|]; split; [by apply response_length|]; split; [by apply response_lexemes|].
  apply decimal_spec; unfold INT32_MAX in *; destruct (valid st); lia.
Qed.

Lemma response_exact_witness :
  exists out, cf_config_response (Some (RemoteConfig true 7 [] [])) CF_OK (Some (replicate 64 255)) 64 true = Some (CF_OK, Some out, Some 35) /\
    cstr out (response_text (RemoteConfig true 7 [] []) CF_OK).
Proof.
  destruct (response_exact (RemoteConfig true 7 [] []) CF_OK (replicate 64 255) 64) as ((out & n & E & _ & Hc & Hn) & _);
    [done|done|exists out; rewrite Hn in E; split; [exact E|exact Hc]].
Defined.
