(* ===== verification/Token.v ===== *)
(** Tunnel tokens: [cf_credentials_parse_ex] and the diagnostic texts of
    src/protocol/cf_credentials.c.  The record is in Credentials.v. *)
From stdpp Require Import gmap.
From Stdlib Require Import SpecFloat.
From S2P Require Export Credentials Config.
#[local] Open Scope Z_scope.

Inductive cf_token_diagnostic :=
| CF_TOKEN_VALID | CF_TOKEN_INPUT_SIZE | CF_TOKEN_BASE64 | CF_TOKEN_JSON
| CF_TOKEN_FIELDS | CF_TOKEN_ACCOUNT | CF_TOKEN_UUID | CF_TOKEN_SECRET_BASE64
| CF_TOKEN_SECRET_SIZE | CF_TOKEN_ENDPOINT | CF_TOKEN_MEMORY.

#[global] Instance cf_token_diagnostic_eq_dec : EqDecision cf_token_diagnostic.
Proof. solve_decision. Defined.

(** ** UUIDs *)

Definition hyphen_at (i : Z) : bool := (i =? 8) || (i =? 13) || (i =? 18) || (i =? 23).

(** The loop, with fuel; the array as it is left. *)
Fixpoint uuid_loop (fuel : nat) (s : list Z) (i n nonzero : Z) (out : list Z) : option (bool * list Z) :=
  if negb (i <? 36) then Some ((n =? 16) && negb (nonzero =? 0), out) else
  match fuel with
  | O => None
  | S fuel =>
      if hyphen_at i then
        c ← rd s i; if negb (c =? 45) then Some (false, out) else uuid_loop fuel s (i + 1) n nonzero out
      else
        a ← rd s i; let a := hex a in
        b ← rd s (i + 1); let b := hex b in
        if (a <? 0) || (b <? 0) || (16 <=? n) then Some (false, out) else
        let v := u8 (u32 (u32 (a * 16) + b)) in
        out ← wr out n v;
        uuid_loop fuel s (i + 2) (n + 1) (Z.lor nonzero v) out
  end.

Definition uuid (s out : list Z) : option (bool * list Z) :=
  n ← strlen s;
  if negb (n =? 36) then Some (false, out) else uuid_loop 36 s 0 0 0 out.

(** ** The fields of a token *)

Definition keys : list (list Z) := [cstring "a"; cstring "s"; cstring "t"; cstring "e"].

(** [for (i = 0; i < 32; ++i) if (hex(...) < 0) goto done]; [k] is [32 - i]. *)
Fixpoint hex_loop (s : list Z) (k : nat) (i : Z) : option bool :=
  match k with
  | O => Some true
  | S k => c ← rd s i; if hex c <? 0 then Some false else hex_loop s k (i + 1)
  end.

(** The checks from the fields on: what [goto done] carries, or the candidate. *)
Abbreviation stage A := (option ((cf_result * cf_token_diagnostic) + A)).

Definition ensure {A} (rc : cf_result) (why : cf_token_diagnostic) (ok : option bool) (next : stage A) : stage A :=
  ok ← ok; if (ok : bool) then next else Some (inl (rc, why)).

(** The secret, into the candidate's array. *)
Definition secret_stage (s : list Z) : stage (list Z * Z) :=
  n ← strlen s;
  '(rc, n, m) ← cf_base64_decode (Bytes (Some s) n) true (Some (tunnel_secret zero_credentials)) CF_TUNNEL_SECRET_MAX (Some 0);
  n ← n; m ← m;
  if negb (is_ok rc) then Some (inl (rc, if bool_decide (rc = CF_ERR_LIMIT) then CF_TOKEN_SECRET_SIZE else CF_TOKEN_SECRET_BASE64)) else
  if n <? CF_TUNNEL_SECRET_MIN then Some (inl (CF_ERR_FORMAT, CF_TOKEN_SECRET_SIZE)) else
  Some (inr (m, n)).

Definition field_stage (root : json) : stage cf_credentials :=
  ensure CF_ERR_FORMAT CF_TOKEN_FIELDS (cf_json_keys (Some root) keys) (
  a ← cf_cJSON_GetObjectItemCaseSensitive (Some root) (cstring "a");
  s ← cf_cJSON_GetObjectItemCaseSensitive (Some root) (cstring "s");
  t ← cf_cJSON_GetObjectItemCaseSensitive (Some root) (cstring "t");
  e ← cf_cJSON_GetObjectItemCaseSensitive (Some root) (cstring "e");
  ensure CF_ERR_FORMAT CF_TOKEN_FIELDS (Some (cf_cJSON_IsString a && cf_cJSON_IsString s && cf_cJSON_IsString t)) (
  ensure CF_ERR_FORMAT CF_TOKEN_FIELDS (Some (match e with None => true | Some _ => cf_cJSON_IsString e end)) (
  ensure CF_ERR_UNSUPPORTED CF_TOKEN_ENDPOINT
    (match e with None => Some true | Some e => v ← j_valuestring e; c ← rd v 0; Some (c =? 0) end) (
  a ← a; s ← s; t ← t; a ← j_valuestring a; s ← j_valuestring s; t ← j_valuestring t;
  '(ok, id) ← uuid t (tunnel_id zero_credentials);
  ensure CF_ERR_FORMAT CF_TOKEN_UUID (Some ok) (
  ensure CF_ERR_FORMAT CF_TOKEN_ACCOUNT (n ← strlen a; Some (n =? 32)) (
  ensure CF_ERR_FORMAT CF_TOKEN_ACCOUNT (hex_loop a 32 0) (
  text ← slice a 0 32; tag ← blit (account_tag zero_credentials) 0 text;
  secret ← secret_stage s;
  match secret with
  | inl refusal => Some (inl refusal)
  | inr (m, n) => Some (inr (Credentials tag id m n))
  end))))))).

(** ** The parse *)

(** Result, the scratch and output objects, the diagnostic and the heap. *)
Record token_run := TokenRun {
  tr_rc : cf_result;
  tr_scratch : option (list Z);
  tr_out : option cf_credentials;
  tr_diagnostic : option cf_token_diagnostic;
  tr_heap : json_heap
}.

Section Parse.
Context `{JsonParser}.

(** From [done] on.  The candidate is erased with the frame. *)
Definition token_done (root : option json) (rc : cf_result) (why : cf_token_diagnostic) (scratch : list Z) (cap : Z)
    (out : cf_credentials) (diagnostic : option cf_token_diagnostic) (h : json_heap) : option token_run :=
  h ← cf_json_delete_secret root h;
  scratch ← cf_secure_zero scratch cap;
  let why := if is_ok rc then CF_TOKEN_VALID else if bool_decide (rc = CF_ERR_MEMORY) then CF_TOKEN_MEMORY else why in
  Some (TokenRun rc (Some scratch) (Some out) (option_map (λ _, why) diagnostic) h).

Definition cf_credentials_parse_ex (token : cf_bytes) (scratch : option (list Z)) (cap : Z)
    (out : option cf_credentials) (diagnostic : option cf_token_diagnostic) (h : json_heap) : option token_run :=
  let diagnostic := option_map (λ _, CF_TOKEN_FIELDS) diagnostic in
  match out with
  | None => Some (TokenRun CF_ERR_ARGUMENT scratch None diagnostic h)
  | Some _ =>
      let out := zero_credentials in
      match scratch with
      | None => Some (TokenRun CF_ERR_ARGUMENT None (Some out) diagnostic h)
      | Some m =>
          if (cap <? CF_TOKEN_JSON_MAX + 1) || null_view token
          then Some (TokenRun CF_ERR_ARGUMENT scratch (Some out) diagnostic h) else
          if (len token =? 0) || (CF_TOKEN_MAX <? len token)
          then token_done None CF_ERR_LIMIT CF_TOKEN_INPUT_SIZE m cap out diagnostic h else
          '(rc, n, m) ← cf_base64_decode token true (Some m) CF_TOKEN_JSON_MAX (Some 0);
          n ← n; m ← m;
          if negb (is_ok rc) then token_done None rc CF_TOKEN_BASE64 m cap out diagnostic h else
          m ← wr m n 0;
          '(root, h) ← cf_json_parse (Bytes (Some m) n) h;
          match root with
          | None => token_done None (cf_json_failure h) CF_TOKEN_JSON m cap out diagnostic h
          | Some root =>
              fields ← field_stage root;
              match fields with
              | inl (rc, why) => token_done (Some root) rc why m cap out diagnostic h
              | inr candidate => token_done (Some root) CF_OK CF_TOKEN_SECRET_SIZE m cap candidate diagnostic h
              end
          end
      end
  end.

Definition cf_credentials_parse (token : cf_bytes) (scratch : option (list Z)) (cap : Z) (out : option cf_credentials)
    (h : json_heap) : option token_run :=
  cf_credentials_parse_ex token scratch cap out None h.

End Parse.

Definition cf_token_diagnostic_message (why : cf_token_diagnostic) : string :=
  match why with
  | CF_TOKEN_VALID => "Tunnel token accepted."
  | CF_TOKEN_INPUT_SIZE => "Tunnel token must contain 1 to 1024 characters."
  | CF_TOKEN_BASE64 => "Invalid token encoding. Paste only the tunnel token from the connector install command, without the command, quotes, or an API key."
  | CF_TOKEN_JSON => "This value is not a named tunnel token: its decoded content is not valid JSON."
  | CF_TOKEN_FIELDS => "The token must contain account (a), tunnel ID (t), and secret (s), with no duplicate or unsupported fields."
  | CF_TOKEN_ACCOUNT => "The token account ID must be 32 hexadecimal characters."
  | CF_TOKEN_UUID => "The token tunnel ID must be a nonzero UUID in the standard format."
  | CF_TOKEN_SECRET_BASE64 => "The token contains an invalid Base64 tunnel secret."
  | CF_TOKEN_SECRET_SIZE => "This firmware supports tunnel secrets of 32 to 128 decoded bytes."
  | CF_TOKEN_ENDPOINT => "Custom tunnel endpoints are not supported by this firmware."
  | CF_TOKEN_MEMORY => "Not enough memory to validate the tunnel token. Please retry."
  end.

(** ** UUIDs *)

Definition is_hex (c : Z) : Prop := 0 <= hex c.

Lemma hex_range c : -1 <= hex c <= 15.
Proof. unfold hex; repeat case_if; lia. Qed.

(** The hexadecimal digits of a UUID text. *)
Definition uuid_hex (t : list Z) : list Z := sub t 0 8 ++ sub t 9 4 ++ sub t 14 4 ++ sub t 19 4 ++ sub t 24 12.

(** 8-4-4-4-12 digits, not all zero. *)
Definition uuid_text (t id : list Z) : Prop :=
  zlen t = 36 /\ rd t 8 = Some 45 /\ rd t 13 = Some 45 /\ rd t 18 = Some 45 /\ rd t 23 = Some 45 /\
  Forall is_hex (uuid_hex t) /\ id = unhex (uuid_hex t) /\ ~ Forall (λ b, b = 0) id.

Definition or_all : list Z -> Z := foldr Z.lor 0.

Lemma or_all_app a b : or_all (a ++ b) = Z.lor (or_all a) (or_all b).
Proof. induction a as [|x a IH]; cbn; [done|]; by rewrite <- Z.lor_assoc, <- IH. Qed.

Lemma or_all_zero l : or_all l = 0 <-> Forall (λ b, b = 0) l.
Proof. induction l as [|x l IH]; cbn; [split; [constructor|done]|]; rewrite Z.lor_eq_0_iff, Forall_cons, IH; done. Qed.

Lemma uuid_hyphen fuel x c y n nz out : hyphen_at (zlen x) = true ->
  uuid_loop (S fuel) (x ++ c :: y) (zlen x) n nz out =
    if c =? 45 then uuid_loop fuel (x ++ c :: y) (zlen (x ++ [c])) n nz out else Some (false, out).
Proof.
  intros Hh; cbn [uuid_loop]; assert (zlen x < 36) by (unfold hyphen_at in Hh; lia); replace (zlen x <? 36) with true by lia; cbn [negb].
  rewrite Hh, <- (Z.add_0_r (zlen x)), rd_app_r by done; change (rd (c :: y) 0) with (Some c); cbn [mbind option_bind].
  rewrite Z.add_0_r, zlen_app; change (zlen [c]) with 1; by destruct (c =? 45).
Qed.

(** A run of digit pairs. *)
Lemma uuid_group k : forall fuel x g y n nz out,
  length g = (2 * k)%nat -> (forall j, 0 <= j < Z.of_nat k -> hyphen_at (zlen x + 2 * j) = false) ->
  zlen x + zlen g <= 36 -> 0 <= n -> n + Z.of_nat k <= 16 -> zlen out = 16 ->
  if forallb (λ c, 0 <=? hex c) g then
    exists out', blit out n (unhex g) = Some out' /\
      uuid_loop (k + fuel) (x ++ g ++ y) (zlen x) n nz out =
        uuid_loop fuel (x ++ g ++ y) (zlen (x ++ g)) (n + Z.of_nat k) (Z.lor nz (or_all (unhex g))) out'
  else exists out', uuid_loop (k + fuel) (x ++ g ++ y) (zlen x) n nz out = Some (false, out') /\ zlen out' = 16.
Proof.
  induction k as [|k IH]; intros fuel x g y n nz out Hg Hh Hx Hn Hnk Hout.
  - destruct g; [|done]; cbn [forallb]; exists out; split; [apply blit_nil; lia|].
    cbn [unhex or_all foldr Nat.add Nat.mul app]; by rewrite Z.lor_0_r, app_nil_r, Z.add_0_r.
  - destruct g as [|a [|b g]]; [done|cbn in Hg; lia|]; cbn [Nat.add uuid_loop].
    rewrite !zlen_cons in Hx; pose proof (zlen_nonneg g); replace (zlen x <? 36) with true by lia; cbn [negb].
    assert (hyphen_at (zlen x) = false) as -> by (rewrite <- (Hh 0 ltac:(lia)); f_equal; lia).
    assert (rd (x ++ (a :: b :: g) ++ y) (zlen x) = Some a) as -> by (rewrite <- (Z.add_0_r (zlen x)); by rewrite rd_app_r by done).
    assert (rd (x ++ (a :: b :: g) ++ y) (zlen x + 1) = Some b) as -> by (by rewrite rd_app_r by done).
    cbn [mbind option_bind forallb unhex or_all foldr]; pose proof (hex_range a); pose proof (hex_range b).
    destruct (Z.leb_spec 0 (hex a)) as [Ha|Ha]; cbn [andb].
    2: { exists out; replace (hex a <? 0) with true by lia; done. }
    destruct (Z.leb_spec 0 (hex b)) as [Hb|Hb]; cbn [andb].
    2: { exists out; replace (hex b <? 0) with true by lia; by rewrite orb_true_r. }
    replace ((hex a <? 0) || (hex b <? 0) || (16 <=? n)) with false by lia.
    rewrite !(wrap_small 32), (wrap_small 8) by (rewrite ?(wrap_small 32) by (simpl; lia); simpl; lia).
    unfold wr; destruct (blit_Some out n [hex a * 16 + hex b]) as [out1 Hout1]; [lia|change (zlen [_]) with 1; lia|].
    rewrite Hout1; cbn [mbind option_bind].
    specialize (IH fuel (x ++ [a; b]) g y (n + 1) (Z.lor nz (hex a * 16 + hex b)) out1).
    rewrite <- !app_assoc, !zlen_app in IH; change (zlen [a; b]) with 2 in IH; cbn [app] in IH.
    destruct (forallb (λ c, 0 <=? hex c) g).
    + destruct IH as (out2 & Hout2 & IH); [cbn in Hg; lia| |lia|lia|lia|by rewrite (zlen_blit _ _ _ _ Hout1)|].
      { intros j Hj; rewrite <- (Hh (j + 1)) by lia; f_equal; lia. }
      exists out2; split; [exact (blit_seq _ _ _ _ _ _ (n + 1) Hout1 eq_refl Hout2)|].
      cbn [app]; rewrite IH, Z.lor_assoc, !zlen_app, !zlen_cons; f_equal; lia.
    + destruct IH as (out2 & IH & Hz); [cbn in Hg; lia| |lia|lia|lia|by rewrite (zlen_blit _ _ _ _ Hout1)|by exists out2].
      intros j Hj; rewrite <- (Hh (j + 1)) by lia; f_equal; lia.
Qed.

Lemma hexes g : forallb (λ c, 0 <=? hex c) g = true <-> Forall is_hex g.
Proof.
  rewrite forallb_forall, Forall_forall; unfold is_hex; split; intros H x Hx.
  - apply Z.leb_le, H; by apply list_elem_of_In.
  - apply Z.leb_le, H; by apply list_elem_of_In.
Qed.

Lemma unhex_app a b k : length a = (2 * k)%nat -> unhex (a ++ b) = unhex a ++ unhex b.
Proof.
  revert a; induction k as [|k IH]; intros a Ha; [by destruct a|].
  destruct a as [|x [|y a]]; [done|cbn in Ha; lia|]; cbn [app unhex]; f_equal; apply IH; cbn in Ha; lia.
Qed.

Lemma zlen_unhex g k : length g = (2 * k)%nat -> zlen (unhex g) = Z.of_nat k.
Proof.
  revert g; induction k as [|k IH]; intros g Hg; [by destruct g|].
  destruct g as [|x [|y g]]; [done|cbn in Hg; lia|]; cbn [unhex]; rewrite zlen_cons, IH by (cbn in Hg; lia); lia.
Qed.

(** The loop from a group of digits on, up to the hyphen behind it, when [pre]
    is what was stored before. *)
Lemma uuid_part k fuel x g c y pre out0 out :
  length g = (2 * k)%nat -> (forall j, 0 <= j < Z.of_nat k -> hyphen_at (zlen x + 2 * j) = false) ->
  hyphen_at (zlen x + 2 * Z.of_nat k) = true -> zlen x + 2 * Z.of_nat k <= 36 -> zlen pre + Z.of_nat k <= 16 ->
  zlen out0 = 16 -> blit out0 0 pre = Some out ->
  exists out', zlen out' = 16 /\
    ((Forall is_hex g /\ c = 45) /\ blit out0 0 (pre ++ unhex g) = Some out' /\
       uuid_loop (k + S fuel) (x ++ g ++ c :: y) (zlen x) (zlen pre) (or_all pre) out =
         uuid_loop fuel ((x ++ g ++ [c]) ++ y) (zlen (x ++ g ++ [c])) (zlen (pre ++ unhex g)) (or_all (pre ++ unhex g)) out' \/
     uuid_loop (k + S fuel) (x ++ g ++ c :: y) (zlen x) (zlen pre) (or_all pre) out = Some (false, out') /\ ~ (Forall is_hex g /\ c = 45)).
Proof.
  intros Hg Hh Hhyp Hx Hnk Hout Hpre; pose proof (zlen_blit _ _ _ _ Hpre) as Hz; pose proof (zlen_nonneg pre).
  assert (zlen g = 2 * Z.of_nat k) as Hzg by (unfold zlen; lia).
  pose proof (uuid_group k (S fuel) x g (c :: y) (zlen pre) (or_all pre) out Hg Hh ltac:(lia) ltac:(lia) Hnk ltac:(lia)) as Hgr.
  destruct (forallb (λ c, 0 <=? hex c) g) eqn:E.
  - apply hexes in E; destruct Hgr as (out' & Hb & H'); rewrite H', app_assoc, uuid_hyphen by (by rewrite zlen_app, Hzg); rewrite <- app_assoc.
    exists out'; pose proof (zlen_blit _ _ _ _ Hb); split; [lia|]; destruct (Z.eqb_spec c 45) as [->|Hc]; [left|right; split; [done|by intros [_ ?]]].
    split; [done|]; split; [exact (blit_seq _ _ _ _ _ _ _ Hpre eq_refl Hb)|].
    rewrite or_all_app, (zlen_app pre), (zlen_unhex g k Hg), <- !app_assoc; done.
  - destruct Hgr as (out' & H' & Hz'); exists out'; split; [done|]; right; split; [done|]; intros [Hhex _]; apply hexes in Hhex; congruence.
Qed.

(** A text of 36 characters in its parts. *)
Lemma uuid_cut (t : list Z) : zlen t = 36 -> exists g1 c1 g2 c2 g3 c3 g4 c4 g5,
  t = g1 ++ c1 :: g2 ++ c2 :: g3 ++ c3 :: g4 ++ c4 :: g5 /\
  length g1 = 8%nat /\ length g2 = 4%nat /\ length g3 = 4%nat /\ length g4 = 4%nat /\ length g5 = 12%nat.
Proof.
  unfold zlen; intros Ht; do 36 (destruct t as [|? t]; [cbn in Ht; lia|]); destruct t; [|cbn in Ht; lia].
  match goal with |- context [?a0 :: ?a1 :: ?a2 :: ?a3 :: ?a4 :: ?a5 :: ?a6 :: ?a7 :: ?a8 :: ?b0 :: ?b1 :: ?b2 :: ?b3 :: ?b4 :: ?d0 :: ?d1 :: ?d2 :: ?d3 :: ?d4 :: ?e0 :: ?e1 :: ?e2 :: ?e3 :: ?e4 :: ?r] =>
    by exists [a0; a1; a2; a3; a4; a5; a6; a7], a8, [b0; b1; b2; b3], b4, [d0; d1; d2; d3], d4, [e0; e1; e2; e3], e4, r end.
Qed.

Lemma uuid_hex_parts g1 c1 g2 c2 g3 c3 g4 c4 g5 :
  length g1 = 8%nat -> length g2 = 4%nat -> length g3 = 4%nat -> length g4 = 4%nat -> length g5 = 12%nat ->
  let t := g1 ++ c1 :: g2 ++ c2 :: g3 ++ c3 :: g4 ++ c4 :: g5 in
  uuid_hex t = g1 ++ g2 ++ g3 ++ g4 ++ g5 /\ zlen t = 36 /\ rd t 8 = Some c1 /\ rd t 13 = Some c2 /\ rd t 18 = Some c3 /\ rd t 23 = Some c4.
Proof.
  intros H1 H2 H3 H4 H5.
  do 8 (destruct g1 as [|? g1]; [done|]); destruct g1; [|done]; do 4 (destruct g2 as [|? g2]; [done|]); destruct g2; [|done].
  do 4 (destruct g3 as [|? g3]; [done|]); destruct g3; [|done]; do 4 (destruct g4 as [|? g4]; [done|]); destruct g4; [|done].
  do 12 (destruct g5 as [|? g5]; [done|]); destruct g5; [|done]; done.
Qed.

Lemma uuid_text_parts g1 c1 g2 c2 g3 c3 g4 c4 g5 :
  length g1 = 8%nat -> length g2 = 4%nat -> length g3 = 4%nat -> length g4 = 4%nat -> length g5 = 12%nat ->
  forall id, uuid_text (g1 ++ c1 :: g2 ++ c2 :: g3 ++ c3 :: g4 ++ c4 :: g5) id <->
    (Forall is_hex g1 /\ c1 = 45) /\ (Forall is_hex g2 /\ c2 = 45) /\ (Forall is_hex g3 /\ c3 = 45) /\ (Forall is_hex g4 /\ c4 = 45) /\
    Forall is_hex g5 /\ id = unhex g1 ++ unhex g2 ++ unhex g3 ++ unhex g4 ++ unhex g5 /\ or_all id <> 0.
Proof.
  intros H1 H2 H3 H4 H5 id; destruct (uuid_hex_parts g1 c1 g2 c2 g3 c3 g4 c4 g5 H1 H2 H3 H4 H5) as (Eh & Ez & E1 & E2 & E3 & E4).
  unfold uuid_text; rewrite Eh, Ez, E1, E2, E3, E4, or_all_zero, !Forall_app.
  rewrite (unhex_app g1 _ 4), (unhex_app g2 _ 2), (unhex_app g3 _ 2), (unhex_app g4 _ 2) by done; split.
  - intros (_ & [= ->] & [= ->] & [= ->] & [= ->] & ? & ? & ?); tauto.
  - intros ((? & ->) & (? & ->) & (? & ->) & (? & ->) & ? & ? & ?); tauto.
Qed.

(** One part of a UUID: the loop goes on behind it, or stops. *)
Ltac uuid_step k fuel x g c y pre out0 out Hg Htext Hbad :=
  let o := fresh "o" in let Hz := fresh "Hz" in let Hp := fresh "Hp" in let Hb := fresh "Hb" in let E := fresh "E" in
  let x' := fresh "x" in let Hx' := fresh "Hx" in let p' := fresh "p" in let Hp' := fresh "Hp" in
  destruct (uuid_part k fuel x g c y pre out0 out) as (o & Hz & [(Hp & Hb & E)|(E & Hp)]);
  [exact Hg|unfold hyphen_at; intros; lia|unfold hyphen_at; lia|lia|lia|done|done
  |cbn [Nat.add] in E; rewrite E; clear E; set (x' := x ++ g ++ [c]) in *; set (p' := pre ++ unhex g) in *;
   assert (zlen x' = zlen x + 2 * Z.of_nat k + 1) as Hx' by (unfold x'; rewrite !zlen_app; change (zlen [c]) with 1; unfold zlen; lia);
   assert (zlen p' = zlen pre + Z.of_nat k) as Hp' by (unfold p'; by rewrite zlen_app, (zlen_unhex g k Hg))
  |cbn [Nat.add] in E; rewrite E; apply (Hbad o g c Hz Hp); intros ? Hid; apply Htext in Hid; tauto].

(** [uuid] on any string. *)
Lemma uuid_spec s t out : cstr s t -> zlen out = 16 ->
  exists ok id, uuid s out = Some (ok, id) /\ zlen id = 16 /\
    if ok then uuid_text t id else forall id', ~ uuid_text t id'.
Proof.
  intros Ht Hout; unfold uuid; rewrite (strlen_spec _ _ Ht); destruct Ht as (rest & -> & _); cbn [mbind option_bind].
  destruct (Z.eqb_spec (zlen t) 36) as [Hlen|Hlen]; cbn [negb].
  2: { exists false, out; split; [done|]; split; [done|]; by intros id' [? _]. }
  destruct (uuid_cut t Hlen) as (g1 & c1 & g2 & c2 & g3 & c3 & g4 & c4 & g5 & -> & H1 & H2 & H3 & H4 & H5); clear Hlen.
  pose proof (uuid_text_parts g1 c1 g2 c2 g3 c3 g4 c4 g5 H1 H2 H3 H4 H5) as Htext.
  set (t := g1 ++ c1 :: _) in *.
  assert (forall o g c, zlen o = 16 -> ~ (Forall is_hex g /\ c = 45) -> (forall id, uuid_text t id -> Forall is_hex g /\ c = 45) ->
    exists ok id, Some (false, o) = Some (ok, id) /\ zlen id = 16 /\ if ok then uuid_text t id else forall id', ~ uuid_text t id') as Hbad.
  { intros o g c Hz Hn Hgc; exists false, o; split; [done|]; split; [done|]; intros id' Hid; by apply Hn, (Hgc id'). }
  assert (t ++ 0 :: rest = [] ++ g1 ++ c1 :: g2 ++ c2 :: g3 ++ c3 :: g4 ++ c4 :: g5 ++ 0 :: rest) as Et
    by (unfold t; repeat (rewrite <- app_assoc; cbn [app]); done).
  rewrite Et; change 0 with (zlen (@nil Z)) at 2; change 0 with (zlen (@nil Z)) at 2; change 0 with (or_all []) at 2.
  pose proof zlen_nil as Hnil; assert (blit out 0 [] = Some out) as Hb0 by (apply blit_nil; lia).
  uuid_step 4%nat 31%nat (@nil Z) g1 c1 (g2 ++ c2 :: g3 ++ c3 :: g4 ++ c4 :: g5 ++ 0 :: rest) (@nil Z) out out H1 Htext Hbad.
  uuid_step 2%nat 28%nat x g2 c2 (g3 ++ c3 :: g4 ++ c4 :: g5 ++ 0 :: rest) p out o H2 Htext Hbad.
  uuid_step 2%nat 25%nat x0 g3 c3 (g4 ++ c4 :: g5 ++ 0 :: rest) p0 out o0 H3 Htext Hbad.
  uuid_step 2%nat 22%nat x1 g4 c4 (g5 ++ 0 :: rest) p1 out o1 H4 Htext Hbad.
  assert (zlen g5 = 12) as Hz5 by (unfold zlen; lia).
  pose proof (uuid_group 6 16 x2 g5 (0 :: rest) (zlen p2) (or_all p2) o2 H5) as Hgr; change (6 + 16)%nat with 22%nat in Hgr.
  destruct (forallb (λ c, 0 <=? hex c) g5) eqn:E5.
  - apply hexes in E5; destruct Hgr as (id & Hid & ->); [unfold hyphen_at; intros; lia|lia|lia|lia|lia|].
    pose proof (blit_seq _ _ _ _ _ _ (zlen p2) Hb3 eq_refl Hid) as Hfull; pose proof (zlen_blit _ _ _ _ Hfull) as Hzid.
    assert (zlen (p2 ++ unhex g5) = 16) as Hz16 by (rewrite zlen_app, (zlen_unhex g5 6 H5); lia).
    apply blit_0 in Hfull; rewrite drop_ge, app_nil_r in Hfull by (unfold zlen in *; lia).
    assert (zlen (x2 ++ g5) = 36) as Hend by (rewrite zlen_app; lia); rewrite Hend; replace (zlen p2 + Z.of_nat 6) with 16 by lia.
    cbn [uuid_loop Z.ltb Z.compare Pos.compare Pos.compare_cont negb Z.eqb Pos.eqb andb]; rewrite <- or_all_app, <- Hfull.
    do 2 eexists; split; [done|]; split; [lia|]; assert (id = unhex g1 ++ unhex g2 ++ unhex g3 ++ unhex g4 ++ unhex g5) as Eid.
    { rewrite Hfull; unfold p2, p1, p0, p; by rewrite <- !app_assoc. }
    destruct (Z.eqb_spec (or_all id) 0) as [E|E]; cbn [negb]; [intros id' Hid'; apply Htext in Hid'|apply Htext; tauto].
    assert (id' = id) as -> by (rewrite Eid; tauto); tauto.
  - destruct Hgr as (id & -> & Hid); [unfold hyphen_at; intros; lia|lia|lia|lia|lia|].
    exists false, id; split; [done|]; split; [done|]; intros id' Hid'; apply Htext in Hid'.
    assert (Forall is_hex g5) as H by tauto; apply hexes in H; congruence.
Qed.

(** ** The fields *)

Lemma hex_loop_spec t : forall x rest, exists v,
  hex_loop (x ++ t ++ rest) (length t) (zlen x) = Some v /\ (v = true <-> Forall is_hex t).
Proof.
  induction t as [|c t IH]; intros x rest; cbn [length hex_loop].
  - exists true; split; [done|]; split; [constructor|done].
  - assert (rd (x ++ (c :: t) ++ rest) (zlen x) = Some c) as -> by (rewrite <- (Z.add_0_r (zlen x)); by rewrite rd_app_r by done).
    cbn [mbind option_bind].
    destruct (Z.ltb_spec (hex c) 0) as [Hc|Hc].
    + exists false; split; [done|]; split; [done|]; intros [H _]%Forall_cons; unfold is_hex in H; lia.
    + destruct (IH (x ++ [c]) rest) as (v & Hv & Hiff); rewrite <- app_assoc, zlen_app in Hv; change (zlen [c]) with 1 in Hv.
      exists v; split; [exact Hv|]; rewrite Forall_cons, Hiff; split; [by split|by intros [_ ?]].
Qed.

(** The secret in its array, with its length. *)
Definition secret_of (sec secret : list Z) : Prop :=
  decode_ref true sec CF_TUNNEL_SECRET_MAX = (CF_OK, secret) /\ CF_TUNNEL_SECRET_MIN <= zlen secret.

Definition secret_array (secret : list Z) : list Z := secret ++ replicate (128 - length secret) 0.

(** A refusal names a failed check. *)
Definition failure (rc : cf_result) (why : cf_token_diagnostic) : Prop :=
  rc <> CF_OK /\ why <> CF_TOKEN_VALID /\ why <> CF_TOKEN_MEMORY.

Lemma secret_stage_spec s sec : cstr s sec -> bytes_ok sec ->
  exists r, secret_stage s = Some r /\
    match r with
    | inr (m, n) => exists secret, secret_of sec secret /\ m = secret_array secret /\ n = zlen secret
    | inl (rc, why) => failure rc why /\ forall secret, ~ secret_of sec secret
    end.
Proof.
  intros Hs Hbytes; unfold secret_stage; rewrite (strlen_spec _ _ Hs); destruct Hs as (rest & -> & _); cbn [mbind option_bind].
  assert (denotes (Bytes (Some (sec ++ 0 :: rest)) (zlen sec)) sec) as Hd by (split; [done|]; split; [done|]; by eexists).
  destruct (decode_spec _ sec true (tunnel_secret zero_credentials) CF_TUNNEL_SECRET_MAX 0 Hd) as (m & -> & Hm & Hok); [by split|].
  cbn [mbind option_bind]; unfold secret_of; destruct (decode_ref true sec CF_TUNNEL_SECRET_MAX) as [rc secret] eqn:E; cbn [fst snd] in *.
  unfold is_ok; case_bool_decide as Hrc; cbn [negb].
  2: { eexists; split; [done|]; split; [split; [done|]; by destruct (bool_decide _)|]; intros secret' [[= ? _] _]; congruence. }
  subst rc; destruct (Z.ltb_spec (zlen secret) CF_TUNNEL_SECRET_MIN) as [Hlt|Hge].
  { eexists; split; [done|]; split; [done|]; intros secret' [[= <-] ?]; lia. }
  eexists; split; [done|]; exists secret; split; [by split|]; split; [|done]; specialize (Hok eq_refl); apply blit_0 in Hok as ->.
  unfold secret_array; f_equal; change (tunnel_secret zero_credentials) with (replicate 128 0); by rewrite drop_replicate.
Qed.

(** What a token document says, and the record it gives. *)
Definition token_fields (root : json) (c : cf_credentials) : Prop :=
  object_with root [lit "a"; lit "s"; lit "t"; lit "e"] /\ (forall e, member root (lit "e") e -> string_is e []) /\
  exists acc sec tid id secret,
    string_member root (lit "a") acc /\ string_member root (lit "s") sec /\ string_member root (lit "t") tid /\
    uuid_text tid id /\ (zlen acc = 32 /\ Forall is_hex acc) /\ secret_of sec secret /\
    c = Credentials (acc ++ [0]) id (secret_array secret) (zlen secret).

(** A stage that returns, and passes exactly when [Q] holds of something. *)
Definition settles {A} (c : stage A) (Q : A -> Prop) : Prop :=
  exists r, c = Some r /\ match r with inr a => Q a | inl (rc, why) => failure rc why /\ forall a, ~ Q a end.

Lemma ensure_settles {A} rc why ok P (next : stage A) Q :
  failure rc why -> tests ok P -> (P -> settles next Q) -> (forall a, Q a -> P) -> settles (ensure rc why ok next) Q.
Proof.
  intros Hrc (v & -> & Hv) Hnext Himp; unfold ensure; cbn [mbind option_bind]; destruct v.
  - by apply Hnext, Hv.
  - eexists; split; [done|]; split; [done|]; intros a Ha; by apply Himp, Hv in Ha.
Qed.

(** The string of a member that was looked up. *)
Definition holds_string (root : json) (name : list Z) (r : option json) : Prop :=
  exists j x t, r = Some j /\ j_valuestring j = Some x /\ cstr x t /\ bytes_ok t /\
    forall t', string_member root name t' <-> t' = t.

Lemma string_value j : json_ok j -> cf_cJSON_IsString (Some j) = true ->
  exists x t, j_valuestring j = Some x /\ cstr x t /\ bytes_ok t.
Proof.
  intros [ty v d n cs Hv _ Hty _ _] Hs; apply Z.eqb_eq in Hs; cbn [j_valuestring j_type] in *.
  destruct v as [x|]; [|by destruct (Hty Hs)]; destruct (Hv x eq_refl) as (t & Ht & Hb); by exists x, t.
Qed.

Lemma found_string root name r : json_ok root -> found root name r -> cf_cJSON_IsString r = true -> holds_string root name r.
Proof.
  intros Hroot Hr Hs; destruct r as [j|]; [|done]; destruct Hr as [Hm Huniq].
  destruct (string_value j (member_ok _ _ _ Hroot Hm) Hs) as (x & t & Hx & Ht & Hb); exists j, x, t.
  split; [done|]; split; [done|]; split; [done|]; split; [done|]; intros t'; split.
  - intros (c & Hc & _ & x' & Hx' & Ht'); rewrite (Huniq _ Hc), Hx in Hx'; injection Hx' as <-; by eapply cstr_unique.
  - intros ->; exists j; split; [done|]; split; [done|]; by exists x.
Qed.

Lemma string_found root name r t : found root name r -> string_member root name t -> cf_cJSON_IsString r = true.
Proof. intros Hr (c & Hc & Hs & _); destruct r as [j|]; [|by destruct (Hr c)]; destruct Hr as [_ Huniq]; by rewrite <- (Huniq _ Hc). Qed.

(** The optional endpoint: a string, and empty. *)
Lemma endpoint_tests root r : json_ok root -> found root (lit "e") r ->
  tests (Some (match r with None => true | Some _ => cf_cJSON_IsString r end))
    (forall e, member root (lit "e") e -> cf_cJSON_IsString (Some e) = true) /\
  ((forall e, member root (lit "e") e -> cf_cJSON_IsString (Some e) = true) ->
   tests (match r with None => Some true | Some e => v ← j_valuestring e; c ← rd v 0; Some (c =? 0) end)
    (forall e, member root (lit "e") e -> string_is e [])).
Proof.
  intros Hroot Hr; destruct r as [j|]; [destruct Hr as [Hm Huniq]|].
  2: { split; [|intros _]; apply tests_true; split; try done; intros _ e He; by destruct (Hr e). }
  split; [apply tests_true; split; [intros Hs e He; by rewrite (Huniq _ He)|auto]|]; intros Hs.
  destruct (string_value j (member_ok _ _ _ Hroot Hm) (Hs j Hm)) as (x & t & Ex & Ht & _); rewrite Ex; cbn [mbind option_bind].
  assert (tests (c ← rd x 0; Some (c =? 0)) (t = [])) as (v & Hv & Hiff).
  { destruct Ht as (rest & -> & Hn); destruct t as [|c t]; cbn [app]; [by apply tests_true|].
    change (rd (c :: t ++ 0 :: rest) 0) with (Some c); apply tests_true; split; [|done]; intros Hc; apply Z.eqb_eq in Hc as ->; exfalso; apply Hn; by left. }
  exists v; split; [exact Hv|]; rewrite Hiff; split.
  - intros -> e He; rewrite (Huniq _ He); split; [by apply Hs|]; by exists x.
  - intros H; destruct (H j Hm) as [_ (x' & Hx' & Ht')]; rewrite Ex in Hx'; injection Hx' as <-; by eapply cstr_unique.
Qed.

Lemma account_tests x acc : cstr x acc ->
  tests (n ← strlen x; Some (n =? 32)) (zlen acc = 32) /\ (zlen acc = 32 -> tests (hex_loop x 32 0) (Forall is_hex acc)) /\
  (zlen acc = 32 -> exists text, slice x 0 32 = Some text /\ blit (account_tag zero_credentials) 0 text = Some (acc ++ [0])).
Proof.
  intros Hx; rewrite (strlen_spec _ _ Hx); destruct Hx as (rest & -> & _); split; [|split].
  - apply tests_true; lia.
  - intros Hlen; destruct (hex_loop_spec acc [] (0 :: rest)) as (v & Hv & Hiff); exists v; split; [|done].
    rewrite <- Hv; f_equal; unfold zlen in Hlen; lia.
  - intros Hlen; exists acc; pose proof (zlen_nonneg rest); rewrite slice_sub by (rewrite ?zlen_app, ?zlen_cons; lia).
    rewrite sub_head by done; split; [done|]; rewrite blit_0_intro by (change (zlen (account_tag zero_credentials)) with 33; lia).
    change (account_tag zero_credentials) with (replicate 33 0); rewrite drop_replicate; replace (33 - length acc)%nat with 1%nat by (unfold zlen in Hlen; lia).
    done.
Qed.

Lemma field_stage_spec root : json_ok root -> settles (field_stage root) (token_fields root).
Proof.
  intros Hroot; unfold field_stage.
  eapply ensure_settles; [done|apply (object_tests _ _ [lit "a"; lit "s"; lit "t"; lit "e"]); [done|table]|intros Hk|by intros c (H & _)].
  destruct (lookup_member root _ (cstring "a") (lit "a") Hk) as (ra & -> & Ha); [literal|].
  destruct (lookup_member root _ (cstring "s") (lit "s") Hk) as (rs & -> & Hs); [literal|].
  destruct (lookup_member root _ (cstring "t") (lit "t") Hk) as (rt & -> & Ht); [literal|].
  destruct (lookup_member root _ (cstring "e") (lit "e") Hk) as (re & -> & He); [literal|]; cbn [mbind option_bind].
  apply (ensure_settles _ _ _ (cf_cJSON_IsString ra = true /\ cf_cJSON_IsString rs = true /\ cf_cJSON_IsString rt = true)); [done| | |].
  { apply tests_true; rewrite !andb_true_iff; tauto. }
  2: { intros c (_ & _ & acc & sec & tid & id & secret & Hma & Hms & Hmt & _); split; [|split]; eapply string_found; eassumption. }
  intros (Hsa & Hss & Hst); destruct (endpoint_tests root re Hroot He) as [Htype Hempty].
  eapply ensure_settles; [done|exact Htype|intros Hes|intros c (_ & H & _) e Hm; by destruct (H e Hm)].
  eapply ensure_settles; [done|by apply Hempty|intros Hee|by intros c (_ & H & _)].
  destruct (found_string _ _ _ Hroot Ha Hsa) as (ja & xa & acc & -> & Exa & Hca & _ & Hacc).
  destruct (found_string _ _ _ Hroot Hs Hss) as (js & xs & sec & -> & Exs & Hcs & Hbs & Hsec).
  destruct (found_string _ _ _ Hroot Ht Hst) as (jt & xt & tid & -> & Ext & Hct & _ & Htid).
  cbn [mbind option_bind]; rewrite Exa, Exs, Ext; cbn [mbind option_bind].
  destruct (uuid_spec xt tid (tunnel_id zero_credentials) Hct) as (ok & id & -> & Hzid & Hid); [done|]; cbn [mbind option_bind].
  assert (forall c, token_fields root c -> exists id', uuid_text tid id' /\ (zlen acc = 32 /\ Forall is_hex acc) /\ exists secret, secret_of sec secret /\
    c = Credentials (acc ++ [0]) id' (secret_array secret) (zlen secret)) as Hinv.
  { intros c (_ & _ & acc' & sec' & tid' & id' & secret & Hma & Hms & Hmt & Hid' & Hacc' & Hsec' & ->).
    apply Hacc in Hma as ->; apply Hsec in Hms as ->; apply Htid in Hmt as ->; exists id'; split; [done|]; split; [done|]; by exists secret. }
  apply (ensure_settles _ _ _ (ok = true)); [done|by apply tests_true| |].
  2: { intros c Hc; destruct (Hinv c Hc) as (id' & H & _); destruct ok; [done|by destruct (Hid id')]. }
  intros ->; destruct (account_tests xa acc Hca) as (Hlen & Hhex & Htag).
  eapply ensure_settles; [done|exact Hlen|intros H32|intros c Hc; by destruct (Hinv c Hc) as (? & _ & (? & _) & _)].
  eapply ensure_settles; [done|by apply Hhex|intros Hh|intros c Hc; by destruct (Hinv c Hc) as (? & _ & (_ & ?) & _)].
  destruct (Htag H32) as (text & -> & Htext); cbn [mbind option_bind]; rewrite Htext; cbn [mbind option_bind].
  destruct (secret_stage_spec xs sec Hcs Hbs) as (r & -> & Hr); cbn [mbind option_bind]; destruct r as [[rc why]|[m n]].
  - eexists; split; [done|]; destruct Hr as [Hrc Hno]; split; [done|]; intros c Hc; destruct (Hinv c Hc) as (_ & _ & _ & secret & H & _); by apply (Hno secret).
  - eexists; split; [done|]; destruct Hr as (secret & Hsecret & -> & ->); split; [done|]; split; [done|].
    exists acc, sec, tid, id, secret; split; [by apply Hacc|]; split; [by apply Hsec|]; split; [by apply Htid|]; auto.
Qed.

(** ** The parse *)

(** A write behind a prefix leaves it. *)
Lemma take_blit_before m off bs m' pre :
  blit m off bs = Some m' -> take (length pre) m = pre -> off = zlen pre -> take (length pre) m' = pre.
Proof.
  unfold blit; case_if; [|done]; intros [= <-] Hpre ->; unfold zlen; rewrite Nat2Z.id, Hpre; by rewrite take_app_length.
Qed.

Section ParseSpec.
Context (header : Z) (Hheader : 0 < header <= 64) `{JsonParserLaws header}.

(** The token's text gives this record. *)
Definition token_valid (l : list Z) (h : json_heap) (c : cf_credentials) : Prop :=
  1 <= zlen l <= CF_TOKEN_MAX /\ exists doc root h1,
    decode_ref true l CF_TOKEN_JSON_MAX = (CF_OK, doc) /\ accepts doc h root h1 /\ token_fields root c.

(** What a run leaves: scratch erased, no memory kept, and a result, a
    diagnostic and an output that agree. *)
Definition token_post (l m : list Z) (cap : Z) (asked : bool) (h : json_heap) (run : token_run) : Prop :=
  (exists s, tr_scratch run = Some s /\ zlen s = zlen m /\ take (Z.to_nat cap) s = replicate (Z.to_nat cap) 0) /\
  heap_ok header (tr_heap run) /\ json_live_bytes (tr_heap run) = json_live_bytes h /\
  match tr_diagnostic run with
  | None => asked = false
  | Some why => asked = true /\ (why = CF_TOKEN_VALID <-> tr_rc run = CF_OK) /\ (why = CF_TOKEN_MEMORY <-> tr_rc run = CF_ERR_MEMORY)
  end /\
  match tr_rc run with
  | CF_OK => exists c, tr_out run = Some c /\ token_valid l h c
  | _ => tr_out run = Some zero_credentials /\ forall c, ~ token_valid l h c
  end.

Lemma token_done_spec l m0 root rc why m cap out diagnostic h0 h :
  heap_ok header h -> 0 <= cap <= zlen m -> zlen m = zlen m0 -> why <> CF_TOKEN_VALID /\ why <> CF_TOKEN_MEMORY ->
  match root with
  | None => json_live_bytes h = json_live_bytes h0
  | Some j => json_ok j /\ forall j', wiped j j' -> json_live_bytes (cf_cJSON_Delete (Some j') h) = json_live_bytes h0
  end ->
  match rc with CF_OK => token_valid l h0 out | _ => out = zero_credentials /\ forall c, ~ token_valid l h0 c end ->
  exists run, token_done root rc why m cap out diagnostic h = Some run /\ token_post l m0 cap (bool_decide (is_Some diagnostic)) h0 run.
Proof.
  intros Hh Hcap Hm [Hw1 Hw2] Hroot Hout; unfold token_done.
  assert (exists h', cf_json_delete_secret root h = Some h' /\ heap_ok header h' /\ json_live_bytes h' = json_live_bytes h0) as (h' & -> & Hh' & Hlive).
  { unfold cf_json_delete_secret; destruct root as [j|].
    - destruct Hroot as [Hj Hdel]; destruct (wipe_tree_spec j Hj) as (j' & -> & Hw); eexists; split; [done|]; split; [|by apply Hdel].
      by apply (heap_steps_ok header Hheader _ _ (delete_steps (Some j') h)).
    - eexists; split; [done|]; by rewrite delete_null. }
  cbn [mbind option_bind]; rewrite cf_secure_zero_spec by lia; rewrite blit_0_intro by (rewrite zlen_replicate; lia); cbn [mbind option_bind].
  eexists; split; [done|]; split; cbn [tr_scratch tr_heap tr_diagnostic tr_rc tr_out].
  { eexists; split; [done|]; rewrite length_replicate; split; [rewrite zlen_app, zlen_replicate; unfold zlen in *; rewrite length_drop; lia|].
    apply take_app_length'; by rewrite length_replicate. }
  split; [done|]; split; [done|]; split.
  - destruct diagnostic as [d|]; cbn [option_map]; [|by rewrite bool_decide_eq_false_2 by (by intros [])].
    rewrite bool_decide_eq_true_2 by done; split; [done|]; unfold is_ok; destruct rc; cbn; by repeat split.
  - destruct rc; [by exists out|..]; by destruct Hout as [-> ?].
Qed.

(** [cf_credentials_parse_ex] with an output and a large enough scratch. *)
Lemma parse_token_spec token l m cap out diagnostic h :
  heap_ok header h -> denotes token l -> CF_TOKEN_JSON_MAX + 1 <= cap <= zlen m ->
  exists run, cf_credentials_parse_ex token (Some m) cap (Some out) diagnostic h = Some run /\
    token_post l m cap (bool_decide (is_Some diagnostic)) h run.
Proof.
  intros Hh Ht Hcap; unfold cf_credentials_parse_ex.
  replace (bool_decide (is_Some diagnostic)) with (bool_decide (is_Some (option_map (λ _ : cf_token_diagnostic, CF_TOKEN_FIELDS) diagnostic)))
    by (apply bool_decide_ext; destruct diagnostic; cbn; split; intros []; by eexists).
  set (asked := option_map _ diagnostic); unfold CF_TOKEN_JSON_MAX in *.
  rewrite (denotes_null_view _ _ Ht), orb_false_r; replace (cap <? 768 + 1) with false by lia; rewrite (denotes_len _ _ Ht).
  destruct ((zlen l =? 0) || (CF_TOKEN_MAX <? zlen l)) eqn:Elen.
  { apply (token_done_spec l m); [done|lia|done|done|done|]; split; [done|]; intros c [Hl _]; lia. }
  destruct (decode_spec token l true m 768 0 Ht) as (m1 & -> & Hm1 & Hok); [lia|]; cbn [mbind option_bind].
  destruct (decode_ref true l 768) as [rc doc] eqn:Edec; cbn [fst snd] in *; unfold is_ok; case_bool_decide as Hrc; cbn [negb].
  2: { assert (forall c, ~ token_valid l h c) as Hno by (intros c (_ & d & root & h1 & E & _); unfold CF_TOKEN_JSON_MAX in E; congruence).
       apply (token_done_spec l m); [done|lia|done|done|done|]; by destruct rc. }
  subst rc; specialize (Hok eq_refl); pose proof (decode_ref_fits _ _ _ _ Edec) as Hfit; destruct (encode_decode_ref _ _ _ _ Edec) as [_ Hbytes].
  apply blit_0 in Hok; pose proof (zlen_nonneg doc).
  destruct (blit_Some m1 (zlen doc) [0]) as [m2 Hm2]; [lia|change (zlen [0]) with 1; lia|]; unfold wr at 1; rewrite Hm2; cbn [mbind option_bind].
  pose proof (zlen_blit _ _ _ _ Hm2) as Hz2.
  assert (denotes (Bytes (Some m2) (zlen doc)) doc) as Hdoc.
  { split; [done|]; split; [done|]; exists (drop (length doc) m2).
    rewrite <- (take_drop (length doc) m2) at 1; f_equal; apply (take_blit_before _ _ _ _ _ Hm2); [by rewrite Hok, take_app_length|done]. }
  destruct (cf_json_parse_spec header Hheader _ doc h Hh Hdoc) as (r & h' & -> & Hh' & Hr); cbn [mbind option_bind]; destruct r as [root|].
  2: { destruct Hr as [Hlive Hno]; apply (token_done_spec l m); [done|lia|lia|done|exact Hlive|].
       assert (forall c, ~ token_valid l h c) as Hnone.
       { intros c (_ & d & root & h1 & E & Ha & _); unfold CF_TOKEN_JSON_MAX in E; rewrite Edec in E; injection E as <-; by apply (Hno root h1). }
       unfold cf_json_failure; by destruct (json_allocation_failed h'). }
  destruct Hr as [Hacc Hroot]; pose proof Hacc as (_ & e & Eparse & _).
  assert (forall j', wiped root j' -> json_live_bytes (cf_cJSON_Delete (Some j') h') = json_live_bytes h) as Hdel
    by (intros j' Hw; exact (delete_tree _ _ _ _ _ j' Eparse (or_intror Hw))).
  destruct (field_stage_spec root Hroot) as (res & -> & Hres); cbn [mbind option_bind]; destruct res as [[rc why]|c].
  - destruct Hres as [[Hrc Hwhy] Hno]; apply (token_done_spec l m); [done|lia|lia|done|by split|].
    assert (forall c, ~ token_valid l h c) as Hnone.
    { intros c (_ & d & root' & h1 & E & (_ & e' & E' & _) & Hf); unfold CF_TOKEN_JSON_MAX in E; rewrite Edec in E; injection E as <-.
      rewrite Eparse in E'; injection E' as <- _ _; by apply (Hno c). }
    by destruct rc.
  - apply (token_done_spec l m); [done|lia|lia|done|by split|]; split; [pose proof (zlen_nonneg l); lia|]; by exists doc, root, h'.
Qed.

End ParseSpec.

(** ** A sample token *)

Definition sample_account : string := "00112233445566778899aabbccddeeff".
Definition sample_uuid : string := "01234567-89ab-cdef-0123-456789ABCDEF".
Definition sample_secret : string := "QUFBQUFBQUFBQUFBQUFBQUFBQUFBQUFBQUFBQUFBQUE=".

(** {"a":"...","t":"...","s":"..."} *)
Definition token_document : list Z :=
  [123] ++ quoted "a" ++ [58] ++ quoted sample_account ++ [44] ++ quoted "t" ++ [58] ++ quoted sample_uuid ++ [44] ++
  quoted "s" ++ [58] ++ quoted sample_secret ++ [125].

Definition token_tree : json :=
  sample_object None [sample_string "a" sample_account; sample_string "t" sample_uuid; sample_string "s" sample_secret].

Definition token_parser : JsonParser := table_parser [(token_document, token_tree)].

#[global] Instance token_parser_laws : @JsonParserLaws 8 token_parser.
Proof.
  apply table_parser_laws; constructor; [|constructor]; apply (sample_node_ok _ _ None); try done.
  do 3 (apply Forall_cons_2; [apply sample_string_ok; no_nul|]); constructor.
Qed.

(** Its encoding. *)
Definition sample_token : list Z := encode_ref true token_document.

Definition sample_record : cf_credentials :=
  Credentials (lit sample_account ++ [0]) [1; 35; 69; 103; 137; 171; 205; 239; 1; 35; 69; 103; 137; 171; 205; 239]
    (secret_array (replicate 32 65)) 32.

(** ** Properties *)

(** C17. [cf_credentials_parse_ex] for any token, scratch of at least 769 bytes
    and output: it returns; it accepts exactly the tokens of 1 to 1024
    characters that decode to a strict JSON document with an account of 32
    hexadecimal digits, a nonzero UUID, a secret of 32 to 128 bytes and no
    custom endpoint, and then the output is exactly that record; after every
    other answer the output is zero.  The scratch is erased and all memory given
    back either way, and the diagnostic agrees with the result. *)
Theorem token_parsed header token l m cap out diagnostic h `{JsonParserLaws header} :
  0 < header <= 64 -> heap_ok header h -> denotes token l -> CF_TOKEN_JSON_MAX + 1 <= cap <= zlen m ->
  exists run, cf_credentials_parse_ex token (Some m) cap (Some out) diagnostic h = Some run /\
    token_post header l m cap (bool_decide (is_Some diagnostic)) h run.
Proof. intros Hheader; by apply (parse_token_spec header Hheader). Qed.

Lemma token_parsed_witness :
  exists run, @cf_credentials_parse_ex token_parser (view sample_token) (Some (replicate 800 255)) 800 (Some zero_credentials)
      (Some CF_TOKEN_FIELDS) empty_heap = Some run /\
    tr_rc run = CF_OK /\ tr_out run = Some sample_record /\ tr_diagnostic run = Some CF_TOKEN_VALID /\
    json_live_bytes (tr_heap run) = 0 /\ @token_valid token_parser sample_token empty_heap sample_record.
Proof.
  destruct (@token_parsed 8 (view sample_token) sample_token (replicate 800 255) 800 zero_credentials (Some CF_TOKEN_FIELDS) empty_heap
    token_parser token_parser_laws) as (run & E & Hpost).
  - lia.
  - apply empty_heap_ok.
  - apply denotes_view; bytes_by_compute.
  - done.
  - exists run; split; [exact E|].
    assert (exists s h2, @cf_credentials_parse_ex token_parser (view sample_token) (Some (replicate 800 255)) 800 (Some zero_credentials)
      (Some CF_TOKEN_FIELDS) empty_heap = Some (TokenRun CF_OK s (Some sample_record) (Some CF_TOKEN_VALID) h2)) as (s & h2 & E2)
      by (do 2 eexists; vm_compute; reflexivity).
    rewrite E in E2; injection E2 as ->; destruct Hpost as (_ & _ & Hlive & _ & Hout); cbn in Hlive, Hout |- *.
    do 4 (split; [done|]); destruct Hout as (c & [= <-] & Hv); exact Hv.
Defined.

(** [uuid] on any string: it returns, stays inside the array, and decides
    the 8-4-4-4-12 format with a nonzero value; the array then holds the sixteen
    bytes. *)
Theorem uuid_exact s t out : cstr s t -> zlen out = 16 ->
  exists ok id, uuid s out = Some (ok, id) /\ zlen id = 16 /\
    if ok then uuid_text t id else forall id', ~ uuid_text t id'.
Proof. apply uuid_spec. Qed.

Lemma uuid_exact_witness :
  exists id, uuid (cstring sample_uuid) (replicate 16 255) = Some (true, id) /\ uuid_text (lit sample_uuid) id.
Proof.
  destruct (uuid_exact (cstring sample_uuid) (lit sample_uuid) (replicate 16 255)) as (ok & id & E & _ & Hid); [literal|done|].
  exists id; destruct ok; [by split|vm_compute in E; discriminate].
Defined.
