(* ===== verification/Effects.v ===== *)
(** Computations of the tunnel task: they read and change a state, and [None] is
    undefined behaviour; postconditions for them. *)
From S2P Require Export Core.

Definition SM (S A : Type) : Type := S -> option (A * S).

#[global] Instance SM_ret S : MRet (SM S) := λ A x s, Some (x, s).
#[global] Instance SM_bind S : MBind (SM S) := λ A B k m s, '(x, s) ← m s; k x s.

Section Operations.
Context {S : Type}.

Definition asks {A} (f : S -> A) : SM S A := λ s, Some (f s, s).
Definition modify (f : S -> S) : SM S () := λ s, Some (tt, f s).
Definition checked {A} (o : option A) : SM S A := λ s, x ← o; Some (x, s).
Definition when (b : bool) (m : SM S ()) : SM S () := if b then m else mret tt.
(** A call that takes the state and gives a result with the next one. *)
Definition calling {A} (f : S -> A * S) : SM S A := λ s, Some (f s).
(** A call that may be undefined. *)
Definition performing {A} (f : S -> option (A * S)) : SM S A := f.

(** ** Postconditions *)

(** [m] runs from [s] and ends with [Q]. *)
Definition runs {A} (m : SM S A) (s : S) (Q : A -> S -> Prop) : Prop := exists x s', m s = Some (x, s') /\ Q x s'.

Lemma runs_ret {A} (x : A) s Q : Q x s -> runs (mret x) s Q.
Proof. intros HQ; by exists x, s. Qed.

Lemma runs_bind {A B} (m : SM S A) (k : A -> SM S B) s Q : runs m s (λ x s', runs (k x) s' Q) -> runs (m ≫= k) s Q.
Proof. intros (x & s1 & Hm & y & s2 & Hk & HQ); exists y, s2; unfold mbind, SM_bind; by rewrite Hm. Qed.

Lemma runs_mono {A} (m : SM S A) s (Q Q' : A -> S -> Prop) : runs m s Q -> (forall x s', Q x s' -> Q' x s') -> runs m s Q'.
Proof. intros (x & s' & Hm & HQ) Himp; exists x, s'; auto. Qed.

Lemma runs_asks {A} (f : S -> A) s Q : Q (f s) s -> runs (asks f) s Q.
Proof. intros HQ; by exists (f s), s. Qed.

Lemma runs_modify (f : S -> S) s (Q : () -> S -> Prop) : Q tt (f s) -> runs (modify f) s Q.
Proof. intros HQ; by exists tt, (f s). Qed.

Lemma runs_checked {A} (o : option A) x s Q : o = Some x -> Q x s -> runs (checked o) s Q.
Proof. intros -> HQ; by exists x, s. Qed.

Lemma runs_when b m s (Q : () -> S -> Prop) : (b = true -> runs m s Q) -> (b = false -> Q tt s) -> runs (when b m) s Q.
Proof. destruct b; intros Ht Hf; [by apply Ht|apply runs_ret; by apply Hf]. Qed.

Lemma runs_calling {A} (f : S -> A * S) s (Q : A -> S -> Prop) : Q (f s).1 (f s).2 -> runs (calling f) s Q.
Proof. intros HQ; exists (f s).1, (f s).2; unfold calling; by destruct (f s). Qed.

Lemma runs_performing {A} (f : S -> option (A * S)) x s' s (Q : A -> S -> Prop) : f s = Some (x, s') -> Q x s' -> runs (performing f) s Q.
Proof. intros E HQ; by exists x, s'. Qed.

Lemma runs_Some {A} (m : SM S A) s Q : runs m s Q -> exists x s', m s = Some (x, s') /\ Q x s'.
Proof. done. Qed.

(** [m] keeps [I]. *)
Definition preserves {A} (I : S -> Prop) (m : SM S A) (Q : A -> Prop) : Prop := forall s, I s -> runs m s (λ x s', I s' /\ Q x).

End Operations.

(** One step of a computation. *)
Ltac run_step :=
  lazymatch goal with
  | |- runs (mbind _ _) _ _ => apply runs_bind
  | |- runs (mret _) _ _ => apply runs_ret
  | |- runs (asks _) _ _ => apply runs_asks
  | |- runs (modify _) _ _ => apply runs_modify
  | |- runs (calling _) _ _ => apply runs_calling
  end; cbn beta.
Ltac run_steps := repeat run_step.
