(* ===== verification/TunnelState.v ===== *)
(** The tunnel task (src/transport/esp_cf_tunnel.c): its state, and what it asks
    of the application that uses it. *)
From stdpp Require Import gmap.
From S2P Require Export Effects H2Exact Lifecycle Framing RpcSession Dns Config.
#[local] Open Scope Z_scope.

Definition RPC_QUEUE : Z := 4096.

Inductive esp_cf_connect_stage :=
| ESP_CF_CONNECT_UNKNOWN | ESP_CF_CONNECT_TCP | ESP_CF_CONNECT_TLS_SETUP
| ESP_CF_CONNECT_TLS_HANDSHAKE | ESP_CF_CONNECT_DEADLINE | ESP_CF_CONNECT_VERIFIED.

#[global] Instance esp_cf_connect_stage_eq_dec : EqDecision esp_cf_connect_stage.
Proof. solve_decision. Defined.

Record esp_cf_connect_diagnostic := ConnectDiagnostic {
  d_valid : bool;
  d_errors_available : bool;
  d_stage : esp_cf_connect_stage;
  d_rc : Z;
  d_state_before : Z;
  d_state_after : Z;
  d_esp_error : Z;
  d_tls_error : Z;
  d_verify_flags : Z;
  d_system_error : Z;
  d_errno_context : Z;
  d_tls_alert : Z;
  d_tls_version : Z;
  d_elapsed_ms : Z;
  d_at_ms : Z;
  d_utc_s : Z;
  d_attempt : Z;
  d_heap_free : Z;
  d_heap_largest : Z;
  d_edge_ip : list Z;
  d_edge_port : Z
}.

Definition zero_diagnostic : esp_cf_connect_diagnostic :=
  ConnectDiagnostic false false ESP_CF_CONNECT_UNKNOWN 0 0 0 0 0 0 0 0 0 0 0 0 0 0 0 0 (replicate 16 0) 0.

(** The arrays have four bytes. *)
Record esp_cf_environment := Environment {
  e_network_ready : bool;
  e_time_valid : bool;
  e_local_ip : list Z;
  e_dns_ip : list Z
}.

(** The control stream: the frame buffer is the object behind the framer once the framer is initialised. *)
Record rpc_link := RpcLink {
  control_stream : Z;
  framer : cf_capnp_framer;
  rpc_frame : list Z;
  rpc_queue : list Z;
  rpc_queued : Z
}.

Definition with_control_stream (x : Z) (l : rpc_link) : rpc_link := RpcLink x (framer l) (rpc_frame l) (rpc_queue l) (rpc_queued l).
Definition with_framer (x : cf_capnp_framer) (l : rpc_link) : rpc_link := RpcLink (control_stream l) x (rpc_frame l) (rpc_queue l) (rpc_queued l).
Definition with_rpc_frame (x : list Z) (l : rpc_link) : rpc_link := RpcLink (control_stream l) (framer l) x (rpc_queue l) (rpc_queued l).
Definition with_rpc_queue (x : list Z) (l : rpc_link) : rpc_link := RpcLink (control_stream l) (framer l) (rpc_frame l) x (rpc_queued l).
Definition with_rpc_queued (x : Z) (l : rpc_link) : rpc_link := RpcLink (control_stream l) (framer l) (rpc_frame l) (rpc_queue l) x.

(** The configuration stream. *)
Record config_link := ConfigLink {
  config_stream : Z;
  config_bytes : list Z;
  config_used : Z;
  config_reply : list Z;
  config_reply_used : Z;
  config_reply_sent : Z;
  config_pending : bool;
  config_response : bool
}.

Definition with_config_stream (x : Z) (l : config_link) : config_link := ConfigLink x (config_bytes l) (config_used l) (config_reply l) (config_reply_used l) (config_reply_sent l) (config_pending l) (config_response l).
Definition with_config_bytes (x : list Z) (l : config_link) : config_link := ConfigLink (config_stream l) x (config_used l) (config_reply l) (config_reply_used l) (config_reply_sent l) (config_pending l) (config_response l).
Definition with_config_used (x : Z) (l : config_link) : config_link := ConfigLink (config_stream l) (config_bytes l) x (config_reply l) (config_reply_used l) (config_reply_sent l) (config_pending l) (config_response l).
Definition with_config_reply (x : list Z) (l : config_link) : config_link := ConfigLink (config_stream l) (config_bytes l) (config_used l) x (config_reply_used l) (config_reply_sent l) (config_pending l) (config_response l).
Definition with_config_reply_used (x : Z) (l : config_link) : config_link := ConfigLink (config_stream l) (config_bytes l) (config_used l) (config_reply l) x (config_reply_sent l) (config_pending l) (config_response l).
Definition with_config_reply_sent (x : Z) (l : config_link) : config_link := ConfigLink (config_stream l) (config_bytes l) (config_used l) (config_reply l) (config_reply_used l) x (config_pending l) (config_response l).
Definition with_config_pending (x : bool) (l : config_link) : config_link := ConfigLink (config_stream l) (config_bytes l) (config_used l) (config_reply l) (config_reply_used l) (config_reply_sent l) x (config_response l).
Definition with_config_response (x : bool) (l : config_link) : config_link := ConfigLink (config_stream l) (config_bytes l) (config_used l) (config_reply l) (config_reply_used l) (config_reply_sent l) (config_pending l) x.

(** The discovery of an edge. *)
Record dns_link := DnsLink {
  dns_socket : Z;
  dns_answer : option cf_dns_answer;
  dns_packet : list Z;
  dns_name : list Z;
  dns_id : Z;
  dns_stage : Z
}.

Definition with_dns_socket (x : Z) (l : dns_link) : dns_link := DnsLink x (dns_answer l) (dns_packet l) (dns_name l) (dns_id l) (dns_stage l).
Definition with_dns_answer (x : option cf_dns_answer) (l : dns_link) : dns_link := DnsLink (dns_socket l) x (dns_packet l) (dns_name l) (dns_id l) (dns_stage l).
Definition with_dns_packet (x : list Z) (l : dns_link) : dns_link := DnsLink (dns_socket l) (dns_answer l) x (dns_name l) (dns_id l) (dns_stage l).
Definition with_dns_name (x : list Z) (l : dns_link) : dns_link := DnsLink (dns_socket l) (dns_answer l) (dns_packet l) x (dns_id l) (dns_stage l).
Definition with_dns_id (x : Z) (l : dns_link) : dns_link := DnsLink (dns_socket l) (dns_answer l) (dns_packet l) (dns_name l) x (dns_stage l).
Definition with_dns_stage (x : Z) (l : dns_link) : dns_link := DnsLink (dns_socket l) (dns_answer l) (dns_packet l) (dns_name l) (dns_id l) x.

(** Counters and times. *)
Record progress := Progress {
  attempts : Z;
  deadline_ms : Z;
  write_stalled_ms : Z;
  connect_started_ms : Z
}.

Definition with_attempts (x : Z) (p : progress) : progress := Progress x (deadline_ms p) (write_stalled_ms p) (connect_started_ms p).
Definition with_deadline_ms (x : Z) (p : progress) : progress := Progress (attempts p) x (write_stalled_ms p) (connect_started_ms p).
Definition with_write_stalled_ms (x : Z) (p : progress) : progress := Progress (attempts p) (deadline_ms p) x (connect_started_ms p).
Definition with_connect_started_ms (x : Z) (p : progress) : progress := Progress (attempts p) (deadline_ms p) (write_stalled_ms p) x.

(** What is told to the outside. *)
Record report := Report {
  message_text : list Z;
  last_failure : list Z;
  last_failure_ms : Z;
  failure_count : Z;
  last_connect : esp_cf_connect_diagnostic;
  last_connect_failure : esp_cf_connect_diagnostic
}.

Definition with_message_text (x : list Z) (r : report) : report := Report x (last_failure r) (last_failure_ms r) (failure_count r) (last_connect r) (last_connect_failure r).
Definition with_last_failure (x : list Z) (r : report) : report := Report (message_text r) x (last_failure_ms r) (failure_count r) (last_connect r) (last_connect_failure r).
Definition with_last_failure_ms (x : Z) (r : report) : report := Report (message_text r) (last_failure r) x (failure_count r) (last_connect r) (last_connect_failure r).
Definition with_failure_count (x : Z) (r : report) : report := Report (message_text r) (last_failure r) (last_failure_ms r) x (last_connect r) (last_connect_failure r).
Definition with_last_connect (x : esp_cf_connect_diagnostic) (r : report) : report := Report (message_text r) (last_failure r) (last_failure_ms r) (failure_count r) x (last_connect_failure r).
Definition with_last_connect_failure (x : esp_cf_connect_diagnostic) (r : report) : report := Report (message_text r) (last_failure r) (last_failure_ms r) (failure_count r) (last_connect r) x.

(** The flags. *)
Record flags := Flags {
  settings_ready : bool;
  attempt_started : bool;
  fault : bool;
  stopping : bool;
  goaway_sent : bool;
  closing : bool
}.

Definition with_settings_ready (x : bool) (f : flags) : flags := Flags x (attempt_started f) (fault f) (stopping f) (goaway_sent f) (closing f).
Definition with_attempt_started (x : bool) (f : flags) : flags := Flags (settings_ready f) x (fault f) (stopping f) (goaway_sent f) (closing f).
Definition with_fault (x : bool) (f : flags) : flags := Flags (settings_ready f) (attempt_started f) x (stopping f) (goaway_sent f) (closing f).
Definition with_stopping (x : bool) (f : flags) : flags := Flags (settings_ready f) (attempt_started f) (fault f) x (goaway_sent f) (closing f).
Definition with_goaway_sent (x : bool) (f : flags) : flags := Flags (settings_ready f) (attempt_started f) (fault f) (stopping f) x (closing f).
Definition with_closing (x : bool) (f : flags) : flags := Flags (settings_ready f) (attempt_started f) (fault f) (stopping f) (goaway_sent f) x.

(** The fields of [struct esp_cf_tunnel] the task works on. *)
Record tunnel := Tunnel {
  t_life : cf_lifecycle;
  t_rpc : cf_rpc;
  t_remote : cf_remote_config;
  t_credentials : cf_credentials;
  t_options : cf_rpc_options;
  t_hostname : list Z;
  t_edge_ip : list Z;
  t_environment : esp_cf_environment;
  t_rpc_link : rpc_link;
  t_config_link : config_link;
  t_dns : dns_link;
  t_progress : progress;
  t_report : report;
  t_flags : flags
}.

Definition with_t_life (x : cf_lifecycle) (t : tunnel) : tunnel := Tunnel x (t_rpc t) (t_remote t) (t_credentials t) (t_options t) (t_hostname t) (t_edge_ip t) (t_environment t) (t_rpc_link t) (t_config_link t) (t_dns t) (t_progress t) (t_report t) (t_flags t).
Definition with_t_rpc (x : cf_rpc) (t : tunnel) : tunnel := Tunnel (t_life t) x (t_remote t) (t_credentials t) (t_options t) (t_hostname t) (t_edge_ip t) (t_environment t) (t_rpc_link t) (t_config_link t) (t_dns t) (t_progress t) (t_report t) (t_flags t).
Definition with_t_remote (x : cf_remote_config) (t : tunnel) : tunnel := Tunnel (t_life t) (t_rpc t) x (t_credentials t) (t_options t) (t_hostname t) (t_edge_ip t) (t_environment t) (t_rpc_link t) (t_config_link t) (t_dns t) (t_progress t) (t_report t) (t_flags t).
Definition with_t_credentials (x : cf_credentials) (t : tunnel) : tunnel := Tunnel (t_life t) (t_rpc t) (t_remote t) x (t_options t) (t_hostname t) (t_edge_ip t) (t_environment t) (t_rpc_link t) (t_config_link t) (t_dns t) (t_progress t) (t_report t) (t_flags t).
Definition with_t_options (x : cf_rpc_options) (t : tunnel) : tunnel := Tunnel (t_life t) (t_rpc t) (t_remote t) (t_credentials t) x (t_hostname t) (t_edge_ip t) (t_environment t) (t_rpc_link t) (t_config_link t) (t_dns t) (t_progress t) (t_report t) (t_flags t).
Definition with_t_hostname (x : list Z) (t : tunnel) : tunnel := Tunnel (t_life t) (t_rpc t) (t_remote t) (t_credentials t) (t_options t) x (t_edge_ip t) (t_environment t) (t_rpc_link t) (t_config_link t) (t_dns t) (t_progress t) (t_report t) (t_flags t).
Definition with_t_edge_ip (x : list Z) (t : tunnel) : tunnel := Tunnel (t_life t) (t_rpc t) (t_remote t) (t_credentials t) (t_options t) (t_hostname t) x (t_environment t) (t_rpc_link t) (t_config_link t) (t_dns t) (t_progress t) (t_report t) (t_flags t).
Definition with_t_environment (x : esp_cf_environment) (t : tunnel) : tunnel := Tunnel (t_life t) (t_rpc t) (t_remote t) (t_credentials t) (t_options t) (t_hostname t) (t_edge_ip t) x (t_rpc_link t) (t_config_link t) (t_dns t) (t_progress t) (t_report t) (t_flags t).
Definition with_t_rpc_link (x : rpc_link) (t : tunnel) : tunnel := Tunnel (t_life t) (t_rpc t) (t_remote t) (t_credentials t) (t_options t) (t_hostname t) (t_edge_ip t) (t_environment t) x (t_config_link t) (t_dns t) (t_progress t) (t_report t) (t_flags t).
Definition with_t_config_link (x : config_link) (t : tunnel) : tunnel := Tunnel (t_life t) (t_rpc t) (t_remote t) (t_credentials t) (t_options t) (t_hostname t) (t_edge_ip t) (t_environment t) (t_rpc_link t) x (t_dns t) (t_progress t) (t_report t) (t_flags t).
Definition with_t_dns (x : dns_link) (t : tunnel) : tunnel := Tunnel (t_life t) (t_rpc t) (t_remote t) (t_credentials t) (t_options t) (t_hostname t) (t_edge_ip t) (t_environment t) (t_rpc_link t) (t_config_link t) x (t_progress t) (t_report t) (t_flags t).
Definition with_t_progress (x : progress) (t : tunnel) : tunnel := Tunnel (t_life t) (t_rpc t) (t_remote t) (t_credentials t) (t_options t) (t_hostname t) (t_edge_ip t) (t_environment t) (t_rpc_link t) (t_config_link t) (t_dns t) x (t_report t) (t_flags t).
Definition with_t_report (x : report) (t : tunnel) : tunnel := Tunnel (t_life t) (t_rpc t) (t_remote t) (t_credentials t) (t_options t) (t_hostname t) (t_edge_ip t) (t_environment t) (t_rpc_link t) (t_config_link t) (t_dns t) (t_progress t) x (t_flags t).
Definition with_t_flags (x : flags) (t : tunnel) : tunnel := Tunnel (t_life t) (t_rpc t) (t_remote t) (t_credentials t) (t_options t) (t_hostname t) (t_edge_ip t) (t_environment t) (t_rpc_link t) (t_config_link t) (t_dns t) (t_progress t) (t_report t) x.

Definition over_life (g : cf_lifecycle -> cf_lifecycle) (t : tunnel) : tunnel := with_t_life (g (t_life t)) t.
Definition over_rpc (g : cf_rpc -> cf_rpc) (t : tunnel) : tunnel := with_t_rpc (g (t_rpc t)) t.
Definition over_remote (g : cf_remote_config -> cf_remote_config) (t : tunnel) : tunnel := with_t_remote (g (t_remote t)) t.
Definition over_credentials (g : cf_credentials -> cf_credentials) (t : tunnel) : tunnel := with_t_credentials (g (t_credentials t)) t.
Definition over_options (g : cf_rpc_options -> cf_rpc_options) (t : tunnel) : tunnel := with_t_options (g (t_options t)) t.
Definition over_hostname (g : list Z -> list Z) (t : tunnel) : tunnel := with_t_hostname (g (t_hostname t)) t.
Definition over_edge_ip (g : list Z -> list Z) (t : tunnel) : tunnel := with_t_edge_ip (g (t_edge_ip t)) t.
Definition over_environment (g : esp_cf_environment -> esp_cf_environment) (t : tunnel) : tunnel := with_t_environment (g (t_environment t)) t.
Definition over_rpc_link (g : rpc_link -> rpc_link) (t : tunnel) : tunnel := with_t_rpc_link (g (t_rpc_link t)) t.
Definition over_config_link (g : config_link -> config_link) (t : tunnel) : tunnel := with_t_config_link (g (t_config_link t)) t.
Definition over_dns (g : dns_link -> dns_link) (t : tunnel) : tunnel := with_t_dns (g (t_dns t)) t.
Definition over_progress (g : progress -> progress) (t : tunnel) : tunnel := with_t_progress (g (t_progress t)) t.
Definition over_report (g : report -> report) (t : tunnel) : tunnel := with_t_report (g (t_report t)) t.
Definition over_flags (g : flags -> flags) (t : tunnel) : tunnel := with_t_flags (g (t_flags t)) t.


(** ** Texts *)

(** [message(t, text)] of a literal. *)
Definition message (text : list Z) (t : tunnel) : option tunnel :=
  m ← snprintf (message_text (t_report t)) 128 text; Some (over_report (with_message_text m) t).

(** ** The application *)

(** The functions of the application ([esp_cf_tunnel_config]) and of the system
    that the callbacks of a session use, on the state of everything outside the
    task.  The heap of cf_json.c is shared with the application. *)
Class Application `{Nghttp2} := {
  world : Type;
  esp_timer_get_time : world -> Z * world;
  automatic : world -> Z -> list Z;                (* what an automatic array holds *)
  heap_now : world -> json_heap;
  put_heap : json_heap -> world -> world;
  app_service : list Z;                            (* a C string *)
  json_try_lock : world -> bool * world;
  json_unlock : world -> world;
  app_request : world -> cf_h2 -> cf_h2_request -> option (cf_result * world * cf_h2);
  app_data : world -> cf_h2 -> Z -> cf_bytes -> bool -> option (cf_result * world * cf_h2);
  app_read : world -> cf_h2 -> Z -> list Z -> Z -> option (cf_result * list Z * Z * bool * world * cf_h2);
  app_closed : world -> cf_h2 -> Z -> Z -> option (world * cf_h2)
}.
