(* ===== verification/TunnelClient.v ===== *)
(** The tunnel as the client of its HTTP/2 session (the callbacks of
    src/transport/esp_cf_tunnel.c): the control stream with the registration RPC,
    the configuration stream, and the requests that go to the application. *)
From stdpp Require Import gmap.
From S2P Require Export TunnelState.
#[local] Open Scope Z_scope.

Section Callbacks.
Context `{Application} `{JsonParser}.

(** The task's own state while the session is lent to nobody. *)
Record owner := Owner { o_tunnel : tunnel; o_world : world }.

(** The state in a callback: [t->h2] is the session that makes it. *)
Record lent := Lent { l_tunnel : tunnel; l_world : world; l_h2 : cf_h2 }.

Abbreviation TM := (SM lent).

(** ** Steps *)

Definition tunnel_is {A} (f : tunnel -> A) : TM A := asks (λ s, f (l_tunnel s)).
Definition change (f : tunnel -> tunnel) : TM () := modify (λ s, Lent (f (l_tunnel s)) (l_world s) (l_h2 s)).
Definition say (text : string) : TM () :=
  t ← asks l_tunnel; t ← checked (message (lit text) t); change (λ _, t).
Definition now_ms : TM Z :=
  calling (λ s, let '(us, w) := esp_timer_get_time (l_world s) in (u64 us / 1000, Lent (l_tunnel s) w (l_h2 s))).
Definition stack_array (size : Z) : TM (list Z) := asks (λ s, automatic (l_world s) size).
Definition on_h2 {A} (f : option cf_h2 -> A * option cf_h2) : TM A :=
  calling (λ s, let '(x, h) := f (Some (l_h2 s)) in (x, Lent (l_tunnel s) (l_world s) (default (l_h2 s) h))).
Definition respond (id status : Z) (headers : option (list cf_header)) (count : Z) (origin : bool) : TM cf_result :=
  performing (λ s, '(rc, h) ← cf_h2_respond (Some (l_h2 s)) id status headers count origin;
                   Some (rc, Lent (l_tunnel s) (l_world s) (default (l_h2 s) h))).
Definition fail_connection : TM () := change (over_flags (with_fault true)).
Definition advance_life (event : cf_lifecycle_event) : TM () :=
  change (over_life (λ l, default l (snd (cf_lifecycle_advance (Some l) event)))).
(** [t->deadline_ms = now_ms() + 30000]. *)
Definition set_deadline (ms : Z) : TM () :=
  now ← now_ms; change (over_progress (with_deadline_ms (u64 (now + ms)))).

(** ** The control stream *)

Definition append_rpc (bytes : list Z) (size : Z) : TM cf_result :=
  l ← tunnel_is t_rpc_link;
  if usize (RPC_QUEUE - rpc_queued l) <? size then mret CF_ERR_LIMIT else
  text ← checked (slice bytes 0 size);
  queue ← checked (blit (rpc_queue l) (rpc_queued l) text);
  change (over_rpc_link (λ l, with_rpc_queued (usize (rpc_queued l + size)) (with_rpc_queue queue l)));;
  when (negb (control_stream l =? 0)) (on_h2 (λ h, cf_h2_resume h (control_stream l));; mret tt);;
  mret CF_OK.

(** A call of the registration session with a fresh output array: the code, the
    output and its length. *)
Definition rpc_call_with (f : cf_rpc -> option (list Z) -> option (cf_result * option cf_rpc * option (list Z) * option Z))
    (out : list Z) : TM (cf_result * list Z * Z) :=
  r ← tunnel_is t_rpc;
  '(rc, r, out, n) ← checked (f r (Some out));
  r ← checked r; out ← checked out; n ← checked n;
  change (with_t_rpc r);; mret (rc, out, n).

(** The options of the registration: [local_ip] points into the environment. *)
Definition registration_options (t : tunnel) : cf_rpc_options :=
  let o := t_options t in
  RpcOptions (connector_id o) (Bytes (Some (e_local_ip (t_environment t))) 4) (Rpc.version o) (arch o) (connection_index o)
    (if 256 <? attempts (t_progress t) then 255 else u8 (attempts (t_progress t) - 1)) (replace_existing o) (features o).

Definition register_now (out : list Z) : TM cf_result :=
  change (λ t, with_t_options (registration_options t) t);;
  cred ← tunnel_is t_credentials; opt ← tunnel_is t_options;
  '(rc, out, n) ← rpc_call_with (λ r out, cf_rpc_register (Some r) (Some cred) (Some opt) out CF_RPC_TX_MAX (Some 0)) out;
  change (with_t_credentials zero_credentials);;
  rc ← (if is_ok rc then append_rpc out n else mret rc);
  checked (cf_secure_zero out CF_RPC_TX_MAX);;
  mret rc.

Definition rpc_message (frame : cf_bytes) : TM cf_result :=
  out ← stack_array CF_RPC_TX_MAX;
  '(rc, out, n) ← rpc_call_with (λ r out, cf_rpc_receive (Some r) frame out CF_RPC_TX_MAX (Some 0)) out;
  added ← append_rpc out n;
  let rc := if is_ok added then rc else CF_ERR_LIMIT in
  out ← checked (cf_secure_zero out CF_RPC_TX_MAX);
  if negb (is_ok rc) then say "Registration RPC failed or used an unsupported message.";; fail_connection;; mret rc else
  r ← tunnel_is t_rpc;
  rc ← match rpc_state r with
       | CF_RPC_READY => register_now out
       | CF_RPC_REGISTERED =>
           advance_life CF_EVENT_REGISTERED;;
           ready ← tunnel_is (λ t, configured (t_life t));
           say (if (ready : bool) then "Tunnel is serving the configured hostname."
                else "Registered. Waiting for remote ingress configuration.");;
           set_deadline 30000;; mret rc
       | CF_RPC_REJECTED =>
           say (if should_retry r then "Cloudflare rejected registration; retry requested."
                else "Cloudflare rejected the tunnel credentials.");;
           fail_connection;; mret rc
       | _ => mret rc
       end;
  when (negb (is_ok rc)) fail_connection;;
  mret rc.

(** The framer with its buffer, which is [t->rpc_frame] once it is initialised. *)
Definition framer_of (l : rpc_link) : cf_capnp_framer :=
  let f := framer l in
  Framer (match buffer f with Some _ => Some (rpc_frame l) | None => None end)
    (capacity f) (used f) (Framing.target f) (segments f) (phase f) (error f).
Definition store_framer (f : cf_capnp_framer) (l : rpc_link) : rpc_link :=
  with_framer f (with_rpc_frame (default (rpc_frame l) (buffer f)) l).

(** ** Requests *)

(** [equal(b, s)] of a C string in an array. *)
Definition equal (b : cf_bytes) (s : list Z) : option bool := text ← c_string s; equals b text.

Definition control_request (request : cf_h2_request) : TM cf_result :=
  control ← tunnel_is (λ t, control_stream (t_rpc_link t));
  if negb (control =? 0) || r_end_stream request then mret CF_ERR_STATE else
  change (over_rpc_link (with_control_stream (r_stream request)));;
  state ← tunnel_is (λ t, state (t_life t));
  when (bool_decide (state = CF_HTTP2)) (advance_life CF_EVENT_HTTP2_READY);;
  change (λ t, with_t_rpc (default (t_rpc t) (cf_rpc_init (Some (t_rpc t)))) t);;
  change (over_rpc_link (λ l, store_framer
    (default (framer_of l) (snd (cf_capnp_framer_init (Some (framer_of l)) (Some (rpc_frame l)) CF_CAPNP_MESSAGE_MAX))) l));;
  out ← stack_array CF_RPC_TX_MAX;
  '(rc, out, n) ← rpc_call_with (λ r out, cf_rpc_begin (Some r) out CF_RPC_TX_MAX (Some 0)) out;
  rc ← (if is_ok rc then append_rpc out n else mret rc);
  checked (cf_secure_zero out CF_RPC_TX_MAX);;
  if negb (is_ok rc) then mret rc else
  set_deadline 30000;;
  respond (r_stream request) 200 None 0 false.

Definition config_request (request : cf_h2_request) : TM cf_result :=
  busy ← tunnel_is (λ t, config_stream (t_config_link t));
  if negb (busy =? 0) then mret CF_ERR_STATE else
  change (over_config_link (λ l, ConfigLink (r_stream request) (config_bytes l) 0 (config_reply l) 0 0 false false));;
  mret CF_OK.

Definition h2_request (request : cf_h2_request) : TM cf_result :=
  stop ← tunnel_is (λ t, stopping (t_flags t));
  if (stop : bool) then mret CF_ERR_STATE else
  match r_kind request with
  | CF_H2_CONTROL => control_request request
  | CF_H2_CONFIG => config_request request
  | CF_H2_HTTP =>
      t ← asks l_tunnel;
      if negb (bool_decide (state (t_life t) = CF_ONLINE)) then mret CF_ERR_STATE else
      authority ← checked (cf_h2_header request (lit ":authority"));
      same ← checked (equal authority (hostname (t_remote t)));
      if negb same then mret CF_ERR_STATE else
      performing (λ s, '(rc, w, h) ← app_request (l_world s) (l_h2 s) request; Some (rc, Lent (l_tunnel s) w h))
  end.

(** ** Data *)

Definition control_data (data : cf_bytes) (end_ : bool) : TM cf_result :=
  r ← tunnel_is t_rpc;
  if end_ && negb (bool_decide (rpc_state r = CF_RPC_CLOSED))
  then fail_connection;; say "The control stream ended unexpectedly.";; mret CF_ERR_TRUNCATED else
  if len data =? 0 then mret CF_OK else
  l ← tunnel_is t_rpc_link;
  '(rc, f, used) ← performing (λ s,
    '(rc, f, used, s) ← cf_capnp_feed (Some (framer_of l)) data (Some 0) (Some (λ s b, rpc_message b s)) s; Some ((rc, f, used), s));
  f ← checked f; used ← checked used;
  change (over_rpc_link (store_framer f));;
  if negb (is_ok rc) || negb (used =? len data)
  then fail_connection;; mret (if is_ok rc then CF_ERR_STATE else rc)
  else mret CF_OK.

Definition config_data (data : cf_bytes) (end_ : bool) : TM cf_result :=
  l ← tunnel_is t_config_link;
  if config_pending l || config_response l || (usize (CF_CONFIG_MESSAGE_MAX - config_used l) <? len data) then mret CF_ERR_LIMIT else
  bytes ← (if negb (len data =? 0) then
             m ← checked (ptr data); text ← checked (slice m 0 (len data)); checked (blit (config_bytes l) (config_used l) text)
           else mret (config_bytes l));
  change (over_config_link (λ l, with_config_used (usize (config_used l + len data)) (with_config_bytes bytes l)));;
  when end_ (change (over_config_link (with_config_pending true)));;
  mret CF_OK.

Definition h2_data (id : Z) (data : cf_bytes) (end_ : bool) : TM cf_result :=
  t ← asks l_tunnel;
  if id =? control_stream (t_rpc_link t) then control_data data end_ else
  if id =? config_stream (t_config_link t) then config_data data end_ else
  performing (λ s, '(rc, w, h) ← app_data (l_world s) (l_h2 s) id data end_; Some (rc, Lent (l_tunnel s) w h)).

(** ** Responses *)

(** The code, the output, the length and the end. *)
Definition control_read (out : list Z) (cap : Z) : TM (cf_result * list Z * Z * bool) :=
  l ← tunnel_is t_rpc_link;
  let n := if rpc_queued l <? cap then rpc_queued l else cap in
  out ← (if negb (n =? 0) then
           text ← checked (slice (rpc_queue l) 0 n);
           out ← checked (blit out 0 text);
           let left := usize (rpc_queued l - n) in
           rest ← checked (slice (rpc_queue l) n left);
           queue ← checked (blit (rpc_queue l) 0 rest);
           queue ← checked (zero_fill queue left n);
           change (over_rpc_link (λ l, with_rpc_queued left (with_rpc_queue queue l)));;
           mret out
         else mret out);
  t ← asks l_tunnel;
  let eof := bool_decide (rpc_state (t_rpc t) = CF_RPC_CLOSED) && (rpc_queued (t_rpc_link t) =? 0) in
  mret (if negb (n =? 0) || eof then CF_OK else CF_ERR_STATE, out, n, eof).

Definition config_read (out : list Z) (cap : Z) : TM (cf_result * list Z * Z * bool) :=
  l ← tunnel_is t_config_link;
  if negb (config_response l) then mret (CF_ERR_STATE, out, 0, false) else
  let n := usize (config_reply_used l - config_reply_sent l) in
  let n := if cap <? n then cap else n in
  text ← checked (slice (config_reply l) (config_reply_sent l) n);
  out ← checked (blit out 0 text);
  let sent := usize (config_reply_sent l + n) in
  change (over_config_link (with_config_reply_sent sent));;
  mret (CF_OK, out, n, sent =? config_reply_used l).

Definition h2_read (id : Z) (out : list Z) (cap : Z) : TM (cf_result * list Z * Z * bool) :=
  t ← asks l_tunnel;
  if id =? control_stream (t_rpc_link t) then control_read out cap else
  if id =? config_stream (t_config_link t) then config_read out cap else
  performing (λ s, '(rc, out, n, eof, w, h) ← app_read (l_world s) (l_h2 s) id out cap; Some ((rc, out, n, eof), Lent (l_tunnel s) w h)).

Definition h2_closed (id error : Z) : TM () :=
  t ← asks l_tunnel;
  if id =? control_stream (t_rpc_link t) then
    when (negb (closing (t_flags t)) && (negb (stopping (t_flags t)) || negb (bool_decide (rpc_state (t_rpc t) = CF_RPC_CLOSED))))
      (fail_connection;; say "Cloudflare closed the control stream.");;
    change (over_rpc_link (with_control_stream 0))
  else if id =? config_stream (t_config_link t) then
    bytes ← checked (cf_secure_zero (config_bytes (t_config_link t)) CF_CONFIG_MESSAGE_MAX);
    change (over_config_link (λ l, ConfigLink 0 bytes 0 (config_reply l) (config_reply_used l) (config_reply_sent l) false false))
  else performing (λ s, '(w, h) ← app_closed (l_world s) (l_h2 s) id error; Some (tt, Lent (l_tunnel s) w h)).

(** ** The configuration *)

Definition config_header : cf_header := Header (view (lit "content-type")) (view (lit "application/json")).

(** The update is applied under the application's JSON lock. *)
Definition apply_locked : TM (cf_result * string) :=
  t ← asks l_tunnel; h ← asks (λ s, heap_now (l_world s));
  let l := t_config_link t in
  '(rc, remote, reason, h) ← checked (cf_config_apply_ex (Some (t_remote t)) (Bytes (Some (config_bytes l)) (config_used l))
     (Some (t_hostname t)) (Some app_service) (Some EmptyString) h);
  remote ← checked remote; reason ← checked reason;
  change (with_t_remote remote);;
  modify (λ s, Lent (l_tunnel s) (json_unlock (put_heap h (l_world s))) (l_h2 s));;
  mret (rc, reason).

Definition apply_config : TM () :=
  pending ← tunnel_is (λ t, config_pending (t_config_link t));
  if negb pending then mret tt else
  locked ← calling (λ s, let '(locked, w) := json_try_lock (l_world s) in (locked, Lent (l_tunnel s) w (l_h2 s)));
  if negb (locked : bool) then mret tt else
  '(rc, reason) ← apply_locked;
  t ← asks l_tunnel;
  let l := t_config_link t in
  '(_, reply, n) ← checked (cf_config_response (Some (t_remote t)) rc (Some (config_reply l)) 128 true);
  reply ← checked reply; n ← checked n;
  bytes ← checked (cf_secure_zero (config_bytes l) CF_CONFIG_MESSAGE_MAX);
  change (over_config_link (λ l, ConfigLink (config_stream l) bytes 0 reply n (config_reply_sent l) false true));;
  sent ← respond (config_stream l) 200 (Some [config_header]) 1 false;
  when (negb (is_ok sent)) fail_connection;;
  advance_life (if is_ok rc then CF_EVENT_CONFIG_APPLIED else CF_EVENT_CONFIG_REJECTED);;
  say reason.

(** ** The session's client *)

#[export] Instance tunnel_client : H2Client := {|
  H2.client := owner;
  H2.client_request a h r := '(rc, s) ← h2_request r (Lent (o_tunnel a) (o_world a) h); Some (rc, Owner (l_tunnel s) (l_world s), l_h2 s);
  H2.client_data a h id data e := '(rc, s) ← h2_data id data e (Lent (o_tunnel a) (o_world a) h); Some (rc, Owner (l_tunnel s) (l_world s), l_h2 s);
  H2.client_read a h id out cap :=
    '(rc, out, n, eof, s) ← h2_read id out cap (Lent (o_tunnel a) (o_world a) h);
    Some (rc, out, n, eof, Owner (l_tunnel s) (l_world s), l_h2 s);
  H2.client_closed a h id e := '(_, s) ← h2_closed id e (Lent (o_tunnel a) (o_world a) h); Some (Owner (l_tunnel s) (l_world s), l_h2 s)
|}.

End Callbacks.
