(* ===== verification/TunnelClientSpec.v ===== *)
(** The tunnel's callbacks keep the tunnel in order, whatever the peer sends:
    they are a client of the session of H2. *)
From stdpp Require Import gmap.
From S2P Require Export TunnelClient.
#[local] Open Scope Z_scope.

(** ** The invariant *)

(** What the arrays of the credentials are. *)
Definition credentials_ok (c : cf_credentials) : Prop :=
  zlen (account_tag c) = 33 /\ bytes_ok (account_tag c) /\ zlen (tunnel_id c) = 16 /\ bytes_ok (tunnel_id c) /\
  zlen (tunnel_secret c) = CF_TUNNEL_SECRET_MAX /\ bytes_ok (tunnel_secret c).

Definition options_ok (o : cf_rpc_options) : Prop :=
  zlen (connector_id o) = 16 /\ bytes_ok (connector_id o) /\ (exists ver, denotes (Rpc.version o) ver) /\ (exists ar, denotes (arch o) ar) /\
  u32_ok (features o) /\ is_byte (connection_index o).

(** A configuration that is valid names a host. *)
Definition remote_ok (r : cf_remote_config) : Prop :=
  config_ok r /\ (valid r = true -> exists host, host <> [] /\ cstr (hostname r) host) /\ -2147483648 <= version r <= INT32_MAX.

(** The framer is in order while there is a control stream. *)
Definition rpc_link_ok (l : rpc_link) : Prop :=
  zlen (rpc_frame l) = CF_CAPNP_MESSAGE_MAX /\ zlen (rpc_queue l) = RPC_QUEUE /\ 0 <= rpc_queued l <= RPC_QUEUE /\
  (control_stream l <> 0 -> buffer (framer l) <> None /\ framer_ok CF_CAPNP_MESSAGE_MAX (framer_of l)).

(** A reply that was not made is not sent; an update is pending before its
    reply, and only on a stream. *)
Definition config_link_ok (l : config_link) : Prop :=
  zlen (config_bytes l) = CF_CONFIG_MESSAGE_MAX /\ bytes_ok (config_bytes l) /\ 0 <= config_used l <= CF_CONFIG_MESSAGE_MAX /\
  zlen (config_reply l) = 128 /\ 0 <= config_reply_sent l <= config_reply_used l /\ config_reply_used l < 128 /\
  (config_stream l <> 0 -> config_response l = false -> config_reply_sent l = 0) /\
  (config_pending l = true -> config_stream l <> 0 /\ config_response l = false).

(** The states with a session. *)
Definition session_state (s : cf_state) : bool :=
  match s with
  | CF_HTTP2 | CF_REGISTERING | CF_WAIT_CONFIG | CF_ONLINE | CF_CONFIG_FAILED | CF_STOPPING => true
  | _ => false
  end.

(** Whether the tunnel has a session: one it serves, one it says goodbye on, or
    one that is being destroyed and may outlive its state. *)
Inductive mode := Unconnected | Connected | Stopping | Closing.

#[global] Instance mode_eq_dec : EqDecision mode.
Proof. solve_decision. Defined.

Definition has_session (m : mode) : bool := match m with Connected | Stopping => true | _ => false end.

Definition dns_ok (l : dns_link) : Prop :=
  zlen (dns_packet l) = CF_DNS_PACKET_MAX /\ text_array 254 (dns_name l).

(** The tunnel in order. *)
Record tunnel_ok (m : mode) (t : tunnel) : Prop := {
  tk_life : life_inv (t_life t);
  tk_closing : closing (t_flags t) = bool_decide (m = Closing);
  tk_started : m <> Unconnected -> attempt_started (t_flags t) = true;
  tk_session : has_session m = true -> session_state (state (t_life t)) = true /\
    bool_decide (state (t_life t) = CF_STOPPING) = bool_decide (m = Stopping) /\ stopping (t_flags t) = bool_decide (m = Stopping);
  tk_fresh : state (t_life t) = CF_HTTP2 -> rpc_state (t_rpc t) = CF_RPC_IDLE;
  tk_configured : configured (t_life t) = true -> valid (t_remote t) = true;
  tk_rpc : rpc_inv (t_rpc t);
  tk_remote : remote_ok (t_remote t);
  tk_credentials : credentials_ok (t_credentials t);
  tk_options : options_ok (t_options t);
  tk_hostname : zlen (t_hostname t) = 254 /\ (attempt_started (t_flags t) = true -> 0 ∈ t_hostname t);
  tk_local_ip : zlen (e_local_ip (t_environment t)) = 4 /\ bytes_ok (e_local_ip (t_environment t));
  tk_rpc_link : rpc_link_ok (t_rpc_link t);
  tk_config_link : config_link_ok (t_config_link t);
  tk_message : text_array 128 (message_text (t_report t));
  tk_texts : text_array 16 (t_edge_ip t) /\ text_array 128 (last_failure (t_report t));
  tk_dns : dns_ok (t_dns t);
  tk_dns_ip : zlen (e_dns_ip (t_environment t)) = 4
}.

(** ** What the tunnel relies on in the application *)

(** The application keeps its state in order, returns, and only calls
    operations of the session; the lock and the clock return; [malloc] works. *)
Class ApplicationLaws (header : Z) `{Application} := {
  world_ok : world -> Prop;
  time_law w : world_ok w -> world_ok (snd (esp_timer_get_time w));
  automatic_law w n : 0 <= n -> zlen (automatic w n) = n;
  heap_law w : world_ok w -> heap_ok header (heap_now w);
  put_heap_law h w : world_ok w -> heap_ok header h -> world_ok (put_heap h w);
  service_law : exists label, cstr app_service label;
  lock_law w : world_ok w -> world_ok (snd (json_try_lock w));
  unlock_law w : world_ok w -> world_ok (json_unlock w);
  app_request_law w h r hs : world_ok w -> h2_inv h -> r_stream r <> 0 -> Forall2 entry_denotes (r_headers r) hs ->
    exists rc w' h', app_request w h r = Some (rc, w', h') /\ world_ok w' /\ rtc client_op h h';
  app_data_law w h id b l e : world_ok w -> h2_inv h -> id <> 0 -> denotes b l -> zlen l <= CF_H2_CHUNK ->
    exists rc w' h', app_data w h id b e = Some (rc, w', h') /\ world_ok w' /\ rtc client_op h h';
  app_read_law w h id out cap : world_ok w -> h2_inv h -> id <> 0 -> 0 <= cap <= zlen out ->
    exists rc out' n eof w' h', app_read w h id out cap = Some (rc, out', n, eof, w', h') /\
      world_ok w' /\ rtc client_op h h' /\ zlen out' = zlen out;
  app_closed_law w h id e : world_ok w -> h2_inv h -> id <> 0 ->
    exists w' h', app_closed w h id e = Some (w', h') /\ world_ok w' /\ rtc client_op h h'
}.

(** ** Lemmas on the parts *)

Lemma message_spec text t : zlen (message_text (t_report t)) = 128 ->
  exists m, message text t = Some (over_report (with_message_text m) t) /\ text_array 128 m.
Proof.
  intros Hm; unfold message; destruct (snprintf_spec (message_text (t_report t)) 128 text) as (m & -> & Hz & H0); [lia|].
  exists m; split; [done|]; split; [lia|done].
Qed.

Lemma credentials_typed c o ip : credentials_ok c -> options_ok o -> denotes (local_ip o) ip -> is_byte (previous_attempts o) ->
  call_typed (RRegister c o).
Proof.
  intros (Ht & Htb & Hi & Hib & Hs & Hsb) (Hc & Hcb & (ver & Hv) & (ar & Ha) & Hf & Hx) Hip Hp.
  assert (exists n, 0 <= n <= CF_TUNNEL_SECRET_MAX /\ (0 <= tunnel_secret_len c <= CF_TUNNEL_SECRET_MAX -> n = tunnel_secret_len c)) as (n & Hn & Hnl).
  { destruct (decide (0 <= tunnel_secret_len c <= CF_TUNNEL_SECRET_MAX)) as [Hd|Hd]; [by exists (tunnel_secret_len c)|exists 0; split; [done|tauto]]. }
  destruct (lookup_lt_is_Some_2 (account_tag c) 32) as [nul En]; [unfold zlen in Ht; lia|].
  exists (take 32 (account_tag c)), nul, (take (Z.to_nat n) (tunnel_secret c)), (drop (Z.to_nat n) (tunnel_secret c)), ver, ar, ip; split.
  - split; [|split; [unfold zlen in *; rewrite length_take; lia|by apply Forall_take]].
    rewrite <- (take_S_r _ _ _ En); symmetry; apply take_ge; unfold zlen in Ht; lia.
  - rewrite take_drop; split; [done|]; assert (zlen (take (Z.to_nat n) (tunnel_secret c)) = n) as -> by (unfold zlen in *; rewrite length_take; lia).
    split; [lia|]; split; [by apply Forall_take|done].
  - done.
  - done.
  - done.
  - done.
Qed.

Lemma zero_credentials_ok : credentials_ok zero_credentials.
Proof.
  split; [done|]; split; [apply Forall_replicate; done|]; split; [done|]; split; [apply Forall_replicate; done|]; split; [done|apply Forall_replicate; done].
Qed.

Lemma advance_configured l e : configured (snd (Lifecycle.advance l e)) = true -> configured l = true \/ e = CF_EVENT_CONFIG_APPLIED.
Proof.
  destruct (configured l) eqn:Ec; [by left|]; destruct e; try (by right); unfold Lifecycle.advance; repeat case_match; cbn; congruence.
Qed.

(** A reason is given when there is a place for it. *)
Lemma apply_reason `{JsonParser} st update host label reason h rc st' reason' h' :
  cf_config_apply_ex st update host label (Some reason) h = Some (rc, st', reason', h') -> exists text, reason' = Some text.
Proof. unfold cf_config_apply_ex; intros E; inv_bind; repeat first [case_match|inv_bind|progress simplify_eq]; eauto. Qed.

(** ** Updates that keep the invariant *)

Lemma ok_flags {m} g t : tunnel_ok m t -> attempt_started (g (t_flags t)) = attempt_started (t_flags t) -> closing (g (t_flags t)) = closing (t_flags t) ->
  stopping (g (t_flags t)) = stopping (t_flags t) -> tunnel_ok m (over_flags g t).
Proof. intros [] Hg Hc Hs; split; try done; cbn; by rewrite ?Hg, ?Hc, ?Hs. Qed.

Lemma ok_progress {m} g t : tunnel_ok m t -> tunnel_ok m (over_progress g t).
Proof. by intros []. Qed.

Lemma ok_message {m} text t : tunnel_ok m t -> text_array 128 text -> tunnel_ok m (over_report (with_message_text text) t).
Proof. intros [] Hm; by split. Qed.

Lemma ok_rpc {m} r t : tunnel_ok m t -> rpc_inv r -> (state (t_life t) = CF_HTTP2 -> rpc_state r = CF_RPC_IDLE) -> tunnel_ok m (with_t_rpc r t).
Proof. intros [] Hr Hi; by split. Qed.

Lemma ok_rpc_link {m} g t : tunnel_ok m t -> rpc_link_ok (g (t_rpc_link t)) -> tunnel_ok m (over_rpc_link g t).
Proof. intros [] Hl; by split. Qed.

Lemma ok_config_link {m} g t : tunnel_ok m t -> config_link_ok (g (t_config_link t)) -> tunnel_ok m (over_config_link g t).
Proof. intros [] Hl; by split. Qed.

Lemma ok_options {m} o t : tunnel_ok m t -> options_ok o -> tunnel_ok m (with_t_options o t).
Proof. intros [] Ho; by split. Qed.

Lemma ok_credentials {m} c t : tunnel_ok m t -> credentials_ok c -> tunnel_ok m (with_t_credentials c t).
Proof. intros [] Ho; by split. Qed.

(** Events of a session. *)
Definition session_event (e : cf_lifecycle_event) : bool :=
  match e with
  | CF_EVENT_HTTP2_READY | CF_EVENT_REGISTERED | CF_EVENT_CONFIG_APPLIED | CF_EVENT_CONFIG_REJECTED => true
  | _ => false
  end.

Lemma advance_session l e : session_event e = true -> session_state (state l) = true ->
  session_state (state (snd (Lifecycle.advance l e))) = true /\
  bool_decide (state (snd (Lifecycle.advance l e)) = CF_STOPPING) = bool_decide (state l = CF_STOPPING).
Proof.
  intros He Hl; destruct l as [s n tr r c f x]; destruct s; try done; destruct e; try done; destruct n, tr; try done; destruct r, c; done.
Qed.

(** No event leads back to the start of a session. *)
Lemma advance_http2 l e : e <> CF_EVENT_TLS_READY -> state (snd (Lifecycle.advance l e)) = CF_HTTP2 -> state l = CF_HTTP2.
Proof. intros He; unfold Lifecycle.advance; repeat case_match; try done; cbn; repeat case_match; done. Qed.

Lemma advance_ready l : life_inv l -> state l = CF_HTTP2 -> state (snd (Lifecycle.advance l CF_EVENT_HTTP2_READY)) = CF_REGISTERING.
Proof.
  unfold life_inv, Lifecycle.advance; intros Hl Hs; rewrite Hs in *; destruct Hl as ([-> ->] & _); done.
Qed.

Lemma advance_eq l e : default l (snd (cf_lifecycle_advance (Some l) e)) = snd (Lifecycle.advance l e).
Proof. cbn [cf_lifecycle_advance]; by destruct (Lifecycle.advance l e). Qed.

Lemma ok_advance {m} e t : tunnel_ok m t -> (has_session m = true -> session_event e = true) -> e <> CF_EVENT_TLS_READY ->
  (e = CF_EVENT_CONFIG_APPLIED -> valid (t_remote t) = true) ->
  tunnel_ok m (over_life (λ l, default l (snd (cf_lifecycle_advance (Some l) e))) t).
Proof.
  intros [Hl Hcl Hst Hsess Hfr Hc] Hse Htls He; unfold over_life; rewrite advance_eq; split; try done; cbn.
  - by apply advance_inv.
  - intros Hm; destruct (Hsess Hm) as [Hs Hstop]; destruct (advance_session (t_life t) e (Hse Hm) Hs) as [? ->]; by split.
  - intros Hs; by apply Hfr, (advance_http2 _ e).
  - intros Hc'; destruct (advance_configured _ _ Hc'); auto.
Qed.

(** ** Steps *)

(** Reads of the tunnel are steps too. *)
Ltac read_step := first [run_step|lazymatch goal with |- runs (tunnel_is _) _ _ => apply runs_asks; cbn beta end].
Ltac read_steps := repeat read_step.

Section Keeps.
Context (header : Z) (Hheader : 0 < header <= 64) `{ApplicationLaws header} `{JsonParserLaws header}.
Context (m : mode) (Hm : m <> Unconnected) (h0 : cf_h2) (Hh0 : h2_inv h0).

(** The tunnel and the world in order; the session as operations left it. *)
Definition lent_ok (s : lent) : Prop := tunnel_ok m (l_tunnel s) /\ world_ok (l_world s) /\ rtc client_op h0 (l_h2 s).

Lemma lent_h2_inv s : lent_ok s -> h2_inv (l_h2 s).
Proof. intros (_ & _ & Hops); eapply inv_rel; [eapply client_ops_rel; [exact Hops|apply Hh0]|done]. Qed.

Lemma keep_change f s (Q : () -> lent -> Prop) : lent_ok s -> tunnel_ok m (f (l_tunnel s)) ->
  (forall s', lent_ok s' -> l_tunnel s' = f (l_tunnel s) -> l_h2 s' = l_h2 s -> Q tt s') -> runs (change f) s Q.
Proof. intros (Ht & Hw & Hops) Hf HQ; apply runs_modify, HQ; by split_and?. Qed.

Lemma keep_say text s (Q : () -> lent -> Prop) : lent_ok s ->
  (forall s' x, lent_ok s' -> l_tunnel s' = over_report (with_message_text x) (l_tunnel s) -> Q tt s') -> runs (say text) s Q.
Proof.
  intros Hs HQ; unfold say; read_steps; destruct (message_spec (lit text) (l_tunnel s)) as (x & E & Hx); [apply Hs|].
  eapply runs_checked; [exact E|]; apply keep_change; [done|by apply ok_message; [apply Hs|]|]; intros s' Hs' Et _; by eapply HQ.
Qed.

Lemma keep_now s (Q : Z -> lent -> Prop) : lent_ok s -> (forall now s', lent_ok s' -> l_tunnel s' = l_tunnel s -> Q now s') -> runs now_ms s Q.
Proof.
  intros (Ht & Hw & Hops) HQ; apply runs_calling; pose proof (time_law _ Hw); destruct (esp_timer_get_time (l_world s)) as [us w]; apply HQ; [|done].
  by split_and?.
Qed.

Lemma keep_deadline ms s (Q : () -> lent -> Prop) : lent_ok s ->
  (forall s' x, lent_ok s' -> l_tunnel s' = over_progress (with_deadline_ms x) (l_tunnel s) -> Q tt s') -> runs (set_deadline ms) s Q.
Proof.
  intros Hs HQ; unfold set_deadline; apply runs_bind, keep_now; [done|]; intros now s1 Hs1 E1.
  apply keep_change; [done|apply ok_progress, Hs1|]; intros s2 Hs2 E2 _; apply (HQ s2 (u64 (now + ms))); [done|]; by rewrite E2, E1.
Qed.

Lemma keep_fail s (Q : () -> lent -> Prop) : lent_ok s ->
  (forall s', lent_ok s' -> l_tunnel s' = over_flags (with_fault true) (l_tunnel s) -> Q tt s') -> runs fail_connection s Q.
Proof. intros Hs HQ; apply keep_change; [done|apply ok_flags; [apply Hs|done..]|]; auto. Qed.

Lemma keep_advance e s (Q : () -> lent -> Prop) : lent_ok s -> session_event e = true -> (e = CF_EVENT_CONFIG_APPLIED -> valid (t_remote (l_tunnel s)) = true) ->
  (forall s', lent_ok s' -> Q tt s') -> runs (advance_life e) s Q.
Proof. intros Hs Hse He HQ; apply keep_change; [done|apply ok_advance; [apply Hs|done|by intros ->|done]|]; auto. Qed.

Lemma keep_resume id s (Q : cf_result -> lent -> Prop) : lent_ok s ->
  (forall rc s', lent_ok s' -> l_tunnel s' = l_tunnel s -> Q rc s') -> runs (on_h2 (λ h, cf_h2_resume h id)) s Q.
Proof.
  intros (Ht & Hw & Hops) HQ; apply runs_calling; destruct (cf_h2_resume (Some (l_h2 s)) id) as [rc h] eqn:E; apply HQ; [|done].
  split; [done|]; split; [done|]; eapply rtc_r; [exact Hops|]; pose proof (OpResume (l_h2 s) id) as Hop; by rewrite E in Hop.
Qed.

Lemma keep_respond id status hs count origin s (Q : cf_result -> lent -> Prop) : lent_ok s -> given_headers hs count ->
  (forall rc s', lent_ok s' -> l_tunnel s' = l_tunnel s -> Q rc s') -> runs (respond id status hs count origin) s Q.
Proof.
  intros Hs Hg HQ; pose proof (lent_h2_inv s Hs) as Hi; destruct Hs as (Ht & Hw & Hops).
  destruct (respond_rel (l_h2 s) id status hs count origin (hi_serialized _ Hi) Hg) as (rc & h' & E & _).
  eapply runs_performing; [cbv beta; by rewrite E|]; apply HQ; [|done]; split; [done|]; split; [done|]; eapply rtc_r; [exact Hops|]; by eapply OpRespond.
Qed.

Lemma keep_stack n s (Q : list Z -> lent -> Prop) : lent_ok s -> 0 <= n -> (forall array, zlen array = n -> Q array s) -> runs (stack_array n) s Q.
Proof. intros Hs Hn HQ; apply runs_asks, HQ; by apply automatic_law. Qed.

(** The end of a computation. *)
Lemma keep_done {A} (x : A) s : lent_ok s -> runs (mret x) s (λ _ s', lent_ok s').
Proof. intros Hs; by apply runs_ret. Qed.

(** ** The control stream *)

Lemma keep_append bytes size s (Q : cf_result -> lent -> Prop) : lent_ok s -> 0 <= size <= zlen bytes ->
  (forall rc s', lent_ok s' -> Q rc s') -> runs (append_rpc bytes size) s Q.
Proof.
  intros Hs Hz HQ; unfold append_rpc; read_steps; pose proof (tk_rpc_link _ _ (proj1 Hs)) as (Hf & Hq & Hn & Hc).
  set (l := t_rpc_link (l_tunnel s)) in *; unfold RPC_QUEUE in *; rewrite wrap_small by (change (2 ^ 32) with 4294967296; lia).
  destruct (Z.ltb_spec (4096 - rpc_queued l) size) as [|Hroom]; [by apply runs_ret, HQ|].
  apply runs_bind; eapply runs_checked; [apply slice_sub; lia|]; assert (zlen (sub bytes 0 size) = size) as Hsub by (apply zlen_sub; lia).
  destruct (blit_Some (rpc_queue l) (rpc_queued l) (sub bytes 0 size)) as [queue Eq]; [lia|lia|].
  apply runs_bind; eapply runs_checked; [exact Eq|]; apply runs_bind, keep_change; [done| |].
  { apply ok_rpc_link; [apply Hs|]; split; [done|]; cbn [with_rpc_queue with_rpc_queued rpc_queue rpc_queued]; fold l.
    rewrite wrap_small by (change (2 ^ 32) with 4294967296; lia); split; [rewrite (zlen_blit _ _ _ _ Eq); done|]; split; [unfold RPC_QUEUE; lia|exact Hc]. }
  intros s1 Hs1 _ _; apply runs_bind, runs_when; [intros _|intros _; by apply runs_ret, HQ].
  apply runs_bind, keep_resume; [done|]; intros rc s2 Hs2 _; read_steps; by apply HQ.
Qed.

(** A call of the registration session. *)
Lemma keep_rpc_call c f out s (Q : cf_result * list Z * Z -> lent -> Prop) : lent_ok s -> call_typed c -> (c = RBegin -> state (t_life (l_tunnel s)) <> CF_HTTP2) -> zlen out = CF_RPC_TX_MAX ->
  (forall r, f r (Some out) = run_call c r out) ->
  (forall rc out' n s', lent_ok s' -> zlen out' = CF_RPC_TX_MAX -> 0 <= n <= CF_RPC_TX_MAX -> Q (rc, out', n) s') ->
  runs (rpc_call_with f out) s Q.
Proof.
  intros Hs Hc Hb Hz Hf HQ; unfold rpc_call_with; read_steps.
  destruct (call_step c (t_rpc (l_tunnel s)) out) as (rc & r' & out' & n & E & Hl & Hn & Hr & _ & Hidle); [apply (tk_rpc _ _ (proj1 Hs))|done|lia|].
  eapply runs_checked; [by rewrite Hf|]; do 3 (apply runs_bind; eapply runs_checked; [reflexivity|]).
  apply runs_bind, keep_change; [done|apply ok_rpc; [apply Hs|done|]|].
  { intros Hst; pose proof (tk_fresh _ _ (proj1 Hs) Hst) as Hi; rewrite Hidle; [done..|]; intros ->; by apply Hb. }
  intros s' Hs' _ _; apply runs_ret, HQ; [done|lia|done].
Qed.

Lemma options_registration t : tunnel_ok m t -> call_typed (RRegister (t_credentials t) (registration_options t)) /\ options_ok (registration_options t).
Proof.
  intros Ht; destruct (tk_local_ip _ _ Ht) as [Hz Hb]; pose proof (tk_options _ _ Ht) as (Ho1 & Ho2 & Ho3 & Ho4 & Ho5 & Ho6).
  assert (options_ok (registration_options t)) as Ho by (by split_and?); split; [|done].
  apply (credentials_typed _ _ (e_local_ip (t_environment t))); [apply (tk_credentials _ _ Ht)|done| |].
  - split; [done|]; split; [done|]; exists []; by rewrite app_nil_r.
  - cbn; case_if; [done|]; by apply (wrap_range 8).
Qed.

Lemma keep_register out s (Q : cf_result -> lent -> Prop) : lent_ok s -> zlen out = CF_RPC_TX_MAX ->
  (forall rc s', lent_ok s' -> Q rc s') -> runs (register_now out) s Q.
Proof.
  intros Hs Hz HQ; destruct (options_registration (l_tunnel s) (proj1 Hs)) as [Hc Ho].
  unfold register_now; apply runs_bind, keep_change; [done|by apply ok_options; [apply Hs|]|]; intros s1 Hs1 E1 _; read_steps.
  rewrite E1; cbn [t_credentials t_options with_t_options].
  apply (keep_rpc_call (RRegister (t_credentials (l_tunnel s)) (registration_options (l_tunnel s)))); [done|done|discriminate|done|done|].
  intros rc out' n s2 Hs2 Hz' Hn; apply runs_bind, keep_change; [done|by apply ok_credentials; [apply Hs2|apply zero_credentials_ok]|]; intros s3 Hs3 _ _.
  apply runs_bind; assert (forall rc s', lent_ok s' -> runs (checked (cf_secure_zero out' CF_RPC_TX_MAX) ;; mret rc) s' Q) as Hend.
  { intros rc' s' Hs'; destruct (erase_spec out' CF_RPC_TX_MAX) as (x & E & _); [unfold CF_RPC_TX_MAX in *; lia|].
    apply runs_bind; eapply runs_checked; [exact E|]; apply runs_ret; auto. }
  destruct (is_ok rc); [apply keep_append; [done|lia|auto]|apply runs_ret; auto].
Qed.

Lemma keep_rpc_message frame l s : lent_ok s -> denotes frame l ->
  exists rc s', rpc_message frame s = Some (rc, s') /\ lent_ok s'.
Proof.
  intros Hs Hf; change (runs (rpc_message frame) s (λ _ s', lent_ok s')).
  unfold rpc_message; apply runs_bind, keep_stack; [done|done|]; intros out Hz; apply runs_bind.
  apply (keep_rpc_call (RReceive frame)); [done|by exists l|discriminate|done|done|]; intros rc out' n s1 Hs1 Hz' Hn.
  apply runs_bind, keep_append; [done|lia|]; intros added s2 Hs2; destruct (erase_spec out' CF_RPC_TX_MAX) as (x & E & Hx & _); [unfold CF_RPC_TX_MAX in *; lia|].
  set (rc' := if is_ok added then rc else CF_ERR_LIMIT); apply runs_bind; eapply runs_checked; [exact E|].
  destruct (negb (is_ok rc')).
  { apply runs_bind, keep_say; [done|]; intros s3 t3 Hs3 _; apply runs_bind, keep_fail; [done|]; intros s4 Hs4 _; by apply keep_done. }
  read_steps; apply runs_mono with (Q := λ _ s', lent_ok s').
  - destruct (rpc_state (t_rpc (l_tunnel s2))); try (by apply keep_done).
    + apply keep_register; [done|lia|auto].
    + apply runs_bind, keep_advance; [done|done|done|]; intros s3 Hs3; read_steps; apply keep_say; [done|]; intros s4 x4 Hs4 _.
      apply runs_bind, keep_deadline; [done|]; intros s5 x5 Hs5 _; by apply keep_done.
    + apply runs_bind, keep_say; [done|]; intros s3 x3 Hs3 _; apply runs_bind, keep_fail; [done|]; intros s4 Hs4 _; by apply keep_done.
  - intros rc2 s3 Hs3; apply runs_bind, runs_when; intros _; [apply keep_fail; [done|]; intros s4 Hs4 _|]; by apply keep_done.
Qed.

(** ** Requests *)

Lemma framer_start l : rpc_link_ok l -> forall x,
  rpc_link_ok (store_framer (default (framer_of l) (snd (cf_capnp_framer_init (Some (framer_of l)) (Some (rpc_frame l)) CF_CAPNP_MESSAGE_MAX))) (with_control_stream x l)).
Proof.
  intros (Hf & Hq & Hn & _) x; destruct (init_rep (framer_of l) (rpc_frame l) CF_CAPNP_MESSAGE_MAX) as (f & E & Hrep); [done|lia|].
  rewrite E; cbn [snd default from_option id]; pose proof Hrep as ((rest & Hb & _) & _).
  assert (buffer f = Some (rpc_frame l)) as Hbuf by (unfold cf_capnp_framer_init in E; cbn in E; by simplify_eq).
  unfold store_framer; split; [cbn; by rewrite Hbuf|]; split; [done|]; split; [done|]; intros _; cbn [with_control_stream with_framer with_rpc_frame framer].
  rewrite Hbuf; split; [done|]; right; exists []; unfold framer_of; cbn [framer rpc_frame default from_option id with_framer with_rpc_frame].
  rewrite Hbuf; rewrite <- Hbuf; by destruct f.
Qed.

(** The start of a control stream, as one update. *)
Definition control_start (r : Z) (first : bool) (t : tunnel) : tunnel :=
  over_rpc_link (λ l, store_framer
    (default (framer_of l) (snd (cf_capnp_framer_init (Some (framer_of l)) (Some (rpc_frame l)) CF_CAPNP_MESSAGE_MAX))) (with_control_stream r l))
    (with_t_rpc zero_rpc (if first then over_life (λ l, default l (snd (cf_lifecycle_advance (Some l) CF_EVENT_HTTP2_READY))) t else t)).

Lemma control_started r t : tunnel_ok m t ->
  tunnel_ok m (control_start r (bool_decide (state (t_life t) = CF_HTTP2)) t) /\
  state (t_life (control_start r (bool_decide (state (t_life t) = CF_HTTP2)) t)) <> CF_HTTP2.
Proof.
  intros Ht; unfold control_start; case_bool_decide as Hs.
  - split; [apply ok_rpc_link; [apply ok_rpc; [by apply ok_advance|apply zero_rpc_inv|done]|apply framer_start, Ht]|].
    unfold over_life; rewrite advance_eq; cbn; by rewrite (advance_ready _ (tk_life _ _ Ht) Hs).
  - split; [apply ok_rpc_link; [apply ok_rpc; [done|apply zero_rpc_inv|done]|apply framer_start, Ht]|done].
Qed.

Lemma keep_control_request r s : lent_ok s -> runs (control_request r) s (λ _ s', lent_ok s').
Proof.
  intros Hs; unfold control_request; read_steps; destruct (_ || _); [by apply keep_done|]; destruct Hs as (Ht & Hw & Hops).
  apply runs_bind, runs_modify; read_steps; cbn [l_tunnel l_world l_h2 t_life over_rpc_link with_t_rpc_link].
  destruct (control_started (r_stream r) (l_tunnel s) Ht) as [Hok Hne]; unfold control_start in Hok, Hne.
  destruct (bool_decide _); unfold when, advance_life; [apply runs_modify|apply runs_ret]; do 2 (apply runs_bind, runs_modify); cbn [l_tunnel l_world l_h2].
  all: match goal with |- runs _ ?st _ => assert (lent_ok st /\ state (t_life (l_tunnel st)) <> CF_HTTP2) as Hs1;
    [by split; [split; [exact Hok|]|exact Hne]|revert Hs1; generalize st; clear Hok Hne; intros s1 [Hs1 Hne]] end.
  all: apply runs_bind, keep_stack; [done|done|]; intros out Hz; apply runs_bind, (keep_rpc_call RBegin); [done|done|done|done|done|].
  all: intros rc out' n s2 Hs2 Hz' Hn; apply runs_bind, runs_mono with (Q := λ _ s', lent_ok s'); [destruct (is_ok rc); [apply keep_append; [done|lia|auto]|by apply keep_done]|].
  all: intros rc2 s3 Hs3; destruct (erase_spec out' CF_RPC_TX_MAX) as (x & E & _); [unfold CF_RPC_TX_MAX in *; lia|].
  all: apply runs_bind; eapply runs_checked; [exact E|]; destruct (negb _); [by apply keep_done|].
  all: apply runs_bind, keep_deadline; [done|]; intros s4 x4 Hs4 _; apply keep_respond; auto; done.
Qed.

Lemma keep_config_request r s : lent_ok s -> runs (config_request r) s (λ _ s', lent_ok s').
Proof.
  intros Hs; unfold config_request; read_steps; destruct (negb _); [by apply keep_done|]; apply runs_bind, keep_change; [done| |intros s1 Hs1 _ _; by apply keep_done].
  apply ok_config_link; [apply Hs|]; destruct (tk_config_link _ _ (proj1 Hs)) as (Hz & Hb & _ & Hr & _); by split_and?.
Qed.

(** The tunnel only forwards requests for the host of its configuration. *)
Lemma online_host t : tunnel_ok m t -> state (t_life t) = CF_ONLINE ->
  exists host, host <> [] /\ cstr (hostname (t_remote t)) host.
Proof.
  intros Ht Hst; pose proof (tk_life _ _ Ht) as Hl; unfold life_inv in Hl; rewrite Hst in Hl; destruct Hl as (_ & _ & Hc).
  by apply (tk_remote _ _ Ht), (tk_configured _ _ Ht).
Qed.

Lemma keep_h2_request r hs s : lent_ok s -> r_stream r <> 0 -> Forall2 entry_denotes (r_headers r) hs -> runs (h2_request r) s (λ _ s', lent_ok s').
Proof.
  intros Hs Hr Hes; unfold h2_request; read_steps; destruct (stopping _); [by apply keep_done|].
  destruct (r_kind r); [|by apply keep_control_request|by apply keep_config_request]; read_steps.
  case_bool_decide as Hst; cbn [negb]; [|by apply keep_done]; destruct (online_host _ (proj1 Hs) Hst) as (host & Hne & Hhost).
  destruct (header_loop_spec (r_headers r) hs (lit ":authority") Hes) as (b & Eb & Hb); [done|].
  apply runs_bind; eapply runs_checked; [exact Eb|]; unfold equal; rewrite (c_string_spec _ _ Hhost); cbn [mbind option_bind].
  rewrite (equals_spec _ _ _ Hb Hne); apply runs_bind; eapply runs_checked; [reflexivity|]; destruct (negb _); [by apply keep_done|].
  pose proof (lent_h2_inv s Hs); destruct Hs as (Ht & Hw & Hops).
  destruct (app_request_law (l_world s) (l_h2 s) r hs) as (rc & w & h & E & Hw' & Hops'); [done..|].
  eapply runs_performing; [cbv beta; by rewrite E|]; split; [done|]; split; [done|]; by etrans.
Qed.

(** ** Data *)

Lemma store_framer_ok f l : rpc_link_ok l -> framer_ok CF_CAPNP_MESSAGE_MAX f ->
  (exists m, buffer f = Some m /\ zlen m = CF_CAPNP_MESSAGE_MAX) -> rpc_link_ok (store_framer f l).
Proof.
  intros (Hf & Hq & Hn & _) Hok (obj & Hb & Hobj); unfold store_framer; split; [cbn; by rewrite Hb|]; split; [done|]; split; [done|]; intros _.
  cbn [with_framer with_rpc_frame framer]; rewrite Hb; split; [done|].
  unfold framer_of; cbn [framer rpc_frame default from_option id with_framer with_rpc_frame]; rewrite Hb; rewrite <- Hb; by destruct f.
Qed.

Lemma keep_control_data data l end_ s : lent_ok s -> control_stream (t_rpc_link (l_tunnel s)) <> 0 -> denotes data l -> zlen l <= SIZE_MAX ->
  runs (control_data data end_) s (λ _ s', lent_ok s').
Proof.
  intros Hs Hc Hd Hz; unfold control_data; read_steps; destruct (_ && _).
  { apply runs_bind, keep_fail; [done|]; intros s1 Hs1 _; apply runs_bind, keep_say; [done|]; intros s2 x Hs2 _; by apply keep_done. }
  destruct (len data =? 0); [by apply keep_done|]; read_steps; destruct (tk_rpc_link _ _ (proj1 Hs)) as (Hf & _ & _ & Hfr); destruct (Hfr Hc) as [Hb Hok].
  assert (exists m, buffer (framer_of (t_rpc_link (l_tunnel s))) = Some m /\ zlen m = CF_CAPNP_MESSAGE_MAX) as (x & Hx & Hmz).
  { unfold framer_of; cbn; destruct (buffer (framer (t_rpc_link (l_tunnel s)))); [|done]; eauto. }
  destruct (feed_safe (λ s b, rpc_message b s) lent_ok (λ ctx b l Hk Hb, keep_rpc_message b l ctx Hk Hb) CF_CAPNP_MESSAGE_MAX
    (framer_of (t_rpc_link (l_tunnel s))) data l 0 s Hok) as (rc & f & k & s1 & E & Hs1 & Hf1 & m1 & Hb1 & Hz1); [by rewrite Hx|done..|].
  eapply runs_performing; [cbv beta; rewrite E; cbn [mbind option_bind]; reflexivity|].
  do 2 (apply runs_bind; eapply runs_checked; [reflexivity|]); apply runs_bind, keep_change; [done| |].
  { apply ok_rpc_link; [apply Hs1|]; apply store_framer_ok; [apply (tk_rpc_link _ _ (proj1 Hs1))|done|]; exists m1; split; [done|].
    rewrite Hz1, Hx; done. }
  intros s2 Hs2 _ _; destruct (_ || _); [apply runs_bind, keep_fail; [done|]; intros s3 Hs3 _|]; by apply keep_done.
Qed.

Lemma keep_config_data data l end_ s : lent_ok s -> config_stream (t_config_link (l_tunnel s)) <> 0 -> denotes data l ->
  runs (config_data data end_) s (λ _ s', lent_ok s').
Proof.
  intros Hs Hc Hd; unfold config_data; read_steps; destruct (tk_config_link _ _ (proj1 Hs)) as (Hz & Hb & Hu & Hrest); set (c := t_config_link (l_tunnel s)) in *.
  destruct (config_pending c || config_response c || _) eqn:E; [by apply keep_done|].
  apply orb_false_iff in E as [E Eu]; apply orb_false_iff in E as [Ep Er]; unfold CF_CONFIG_MESSAGE_MAX in *.
  rewrite wrap_small in Eu by (change (2 ^ 32) with 4294967296; lia); rewrite (denotes_len _ _ Hd) in *; pose proof (zlen_nonneg l).
  assert (exists bytes, zlen bytes = 8192 /\ bytes_ok bytes /\ forall (Q : list Z -> lent -> Prop), Q bytes s ->
    runs (if negb (zlen l =? 0) then m ← checked (ptr data); text ← checked (slice m 0 (zlen l)); checked (blit (config_bytes c) (config_used c) text)
          else mret (config_bytes c)) s Q) as (bytes & Hbz & Hbb & Hrun).
  { destruct (Z.eqb_spec (zlen l) 0) as [E0|E0]; cbn [negb]; [exists (config_bytes c); split; [done|]; split; [done|]; intros Q HQ; by apply runs_ret|].
    destruct Hd as (Hlb & _ & Hp); destruct (ptr data) as [obj|]; [destruct Hp as [rest ->]|by subst l].
    destruct (blit_Some (config_bytes c) (config_used c) l) as [bytes Eb]; [lia|lia|]; exists bytes; split; [rewrite (zlen_blit _ _ _ _ Eb); done|].
    split; [by eapply blit_bytes|]; intros Q HQ; apply runs_bind; eapply runs_checked; [reflexivity|].
    apply runs_bind; eapply runs_checked; [apply slice_sub; rewrite ?zlen_app; pose proof (zlen_nonneg rest); lia|].
    rewrite sub_head by done; eapply runs_checked; [exact Eb|done]. }
  apply runs_bind, Hrun, runs_bind, keep_change; [done| |].
  { apply ok_config_link; [apply Hs|]; fold c; split; [done|]; split; [done|]; split; [|exact Hrest]; cbn [config_used with_config_used]; unfold CF_CONFIG_MESSAGE_MAX.
    rewrite wrap_small by (change (2 ^ 32) with 4294967296; lia); lia. }
  intros s1 Hs1 E1 _; apply runs_bind, runs_when; intros _; [|by apply keep_done].
  apply keep_change; [done| |intros s2 Hs2 _ _; by apply keep_done]; apply ok_config_link; [apply Hs1|].
  destruct (tk_config_link _ _ (proj1 Hs1)) as (C1 & C2 & C3 & C4 & C5 & C6 & C7 & _); refine (conj C1 (conj C2 (conj C3 (conj C4 (conj C5 (conj C6 (conj C7 _))))))); intros _.
  rewrite E1; by split.
Qed.

Lemma keep_h2_data id data l end_ s : lent_ok s -> id <> 0 -> denotes data l -> zlen l <= CF_H2_CHUNK -> runs (h2_data id data end_) s (λ _ s', lent_ok s').
Proof.
  intros Hs Hid Hd Hz; unfold h2_data; read_steps.
  destruct (Z.eqb_spec id (control_stream (t_rpc_link (l_tunnel s)))) as [Ec|_]; [apply (keep_control_data data l); try done; [congruence|unfold CF_H2_CHUNK, SIZE_MAX in *; lia]|].
  destruct (Z.eqb_spec id (config_stream (t_config_link (l_tunnel s)))) as [Ec|_]; [apply (keep_config_data data l); try done; congruence|].
  pose proof (lent_h2_inv s Hs); destruct Hs as (Ht & Hw & Hops).
  destruct (app_data_law (l_world s) (l_h2 s) id data l end_) as (rc & w & h & E & Hw' & Hops'); [done..|].
  eapply runs_performing; [cbv beta; by rewrite E|]; split; [done|]; split; [done|]; by etrans.
Qed.

(** ** Responses *)

Lemma keep_control_read out cap s : lent_ok s -> 0 <= cap <= zlen out ->
  runs (control_read out cap) s (λ x s', lent_ok s' /\ zlen x.1.1.2 = zlen out).
Proof.
  intros Hs Hcap; unfold control_read; read_steps; destruct (tk_rpc_link _ _ (proj1 Hs)) as (Hf & Hq & Hn & Hc); set (l := t_rpc_link (l_tunnel s)) in *.
  set (n := if rpc_queued l <? cap then rpc_queued l else cap); unfold RPC_QUEUE in *.
  assert (0 <= n <= cap /\ n <= rpc_queued l) as [Hn1 Hn2] by (unfold n; case_if; lia).
  apply runs_mono with (Q := λ out' s', lent_ok s' /\ zlen out' = zlen out); [|intros out' s' [Hs' Hz]; read_steps; by split].
  destruct (Z.eqb_spec n 0) as [|Hne]; cbn [negb]; [by apply runs_ret|].
  rewrite wrap_small by (change (2 ^ 32) with 4294967296; lia).
  apply runs_bind; eapply runs_checked; [apply slice_sub; lia|]; assert (zlen (sub (rpc_queue l) 0 n) = n) as Hz1 by (apply zlen_sub; lia).
  destruct (blit_Some out 0 (sub (rpc_queue l) 0 n)) as [out' Eo]; [lia|lia|]; apply runs_bind; eapply runs_checked; [exact Eo|].
  apply runs_bind; eapply runs_checked; [apply slice_sub; lia|]; assert (zlen (sub (rpc_queue l) n (rpc_queued l - n)) = rpc_queued l - n) as Hz2 by (apply zlen_sub; lia).
  destruct (blit_Some (rpc_queue l) 0 (sub (rpc_queue l) n (rpc_queued l - n))) as [q1 Eq1]; [lia|lia|]; apply runs_bind; eapply runs_checked; [exact Eq1|].
  pose proof (zlen_blit _ _ _ _ Eq1) as Hq1; destruct (blit_Some q1 (rpc_queued l - n) (replicate (Z.to_nat n) 0)) as [q2 Eq2]; [lia|unfold zlen in *; rewrite length_replicate; lia|].
  apply runs_bind; eapply runs_checked; [unfold zero_fill; replace (n <? 0) with false by lia; exact Eq2|].
  apply runs_bind, keep_change; [done| |intros s1 Hs1 _ _; apply runs_ret; split; [done|by eapply zlen_blit]].
  apply ok_rpc_link; [apply Hs|]; split; [done|]; split; [cbn; rewrite (zlen_blit _ _ _ _ Eq2); unfold RPC_QUEUE; lia|]; split; [cbn; unfold RPC_QUEUE; lia|exact Hc].
Qed.

Lemma keep_config_read out cap s : lent_ok s -> 0 <= cap <= zlen out ->
  runs (config_read out cap) s (λ x s', lent_ok s' /\ zlen x.1.1.2 = zlen out).
Proof.
  intros Hs Hcap; unfold config_read; read_steps.
  destruct (tk_config_link _ _ (proj1 Hs)) as (C1 & C2 & C3 & C4 & C5 & C6 & C7 & C8); set (c := t_config_link (l_tunnel s)) in *.
  destruct (config_response c) eqn:Er; cbn [negb]; [|by apply runs_ret]; rewrite wrap_small by (change (2 ^ 32) with 4294967296; lia).
  set (n := if cap <? _ then cap else _); assert (0 <= n <= cap /\ config_reply_sent c + n <= config_reply_used c) as [Hn1 Hn2] by (unfold n; case_if; lia).
  rewrite wrap_small by (change (2 ^ 32) with 4294967296; lia).
  apply runs_bind; eapply runs_checked; [apply slice_sub; lia|]; assert (zlen (sub (config_reply c) (config_reply_sent c) n) = n) as Hz by (apply zlen_sub; lia).
  destruct (blit_Some out 0 (sub (config_reply c) (config_reply_sent c) n)) as [out' Eo]; [lia|lia|]; apply runs_bind; eapply runs_checked; [exact Eo|].
  apply runs_bind, keep_change; [done| |intros s1 Hs1 _ _; apply runs_ret; split; [done|by eapply zlen_blit]].
  apply ok_config_link; [apply Hs|]; fold c; refine (conj C1 (conj C2 (conj C3 (conj C4 (conj _ (conj C6 (conj _ _))))))); cbn; [lia|congruence|by rewrite Er].
Qed.

Lemma keep_h2_read id out cap s : lent_ok s -> id <> 0 -> 0 <= cap <= zlen out ->
  runs (h2_read id out cap) s (λ x s', lent_ok s' /\ zlen x.1.1.2 = zlen out).
Proof.
  intros Hs Hid Hcap; unfold h2_read; read_steps; destruct (id =? _); [by apply keep_control_read|]; destruct (id =? _); [by apply keep_config_read|].
  pose proof (lent_h2_inv s Hs); destruct Hs as (Ht & Hw & Hops).
  destruct (app_read_law (l_world s) (l_h2 s) id out cap) as (rc & out' & n & eof & w & h & E & Hw' & Hops' & Hz); [done..|].
  eapply runs_performing; [cbv beta; by rewrite E|]; split; [|done]; split; [done|]; split; [done|]; by etrans.
Qed.

(** A closing stream leaves the lifecycle and the discovery alone. *)
Definition still (t t' : tunnel) : Prop :=
  t_life t' = t_life t /\ stopping (t_flags t') = stopping (t_flags t) /\ t_dns t' = t_dns t.

Lemma keep_h2_closed id e s : lent_ok s -> id <> 0 -> runs (h2_closed id e) s (λ _ s', lent_ok s' /\ still (l_tunnel s) (l_tunnel s')).
Proof.
  intros Hs Hid; unfold h2_closed; read_steps; destruct (id =? _).
  { apply runs_bind, runs_mono with (Q := λ _ s', lent_ok s' /\ still (l_tunnel s) (l_tunnel s')).
    - apply runs_when; intros _; [|done]; apply runs_bind, keep_fail; [done|]; intros s1 Hs1 E1; apply keep_say; [done|].
      intros s2 x Hs2 E2; split; [done|]; by rewrite E2, E1.
    - intros _ s1 [Hs1 Hst]; apply keep_change; [done| |intros s2 Hs2 E2 _; split; [done|]; by rewrite E2]; apply ok_rpc_link; [apply Hs1|].
      destruct (tk_rpc_link _ _ (proj1 Hs1)) as (Hf & Hq & Hn & _); by split_and?. }
  destruct (id =? _).
  { destruct (tk_config_link _ _ (proj1 Hs)) as (C1 & C2 & C3 & C4 & C5 & C6 & _); destruct (erase_spec (config_bytes (t_config_link (l_tunnel s))) CF_CONFIG_MESSAGE_MAX) as (x & E & Hx & Hmb & _); [by rewrite C1|].
    apply runs_bind; eapply runs_checked; [exact E|]; apply keep_change; [done| |intros s2 Hs2 E2 _; split; [done|]; by rewrite E2]; apply ok_config_link; [apply Hs|].
    refine (conj _ (conj (Hmb C2) (conj _ (conj C4 (conj C5 (conj C6 (conj _ _))))))); cbn; try done; by rewrite Hx. }
  pose proof (lent_h2_inv s Hs); destruct Hs as (Ht & Hw & Hops).
  destruct (app_closed_law (l_world s) (l_h2 s) id e) as (w & h & E & Hw' & Hops'); [done..|].
  eapply runs_performing; [cbv beta; by rewrite E|]; split; [|done]; split; [done|]; split; [done|]; by etrans.
Qed.

(** ** The configuration *)

Lemma remote_advance st n host label : remote_ok st -> policy_ok host label -> 0 <= n <= INT32_MAX -> (0 ∉ host) ->
  remote_ok (Config.advance st n host label) /\ valid (Config.advance st n host label) = true.
Proof.
  intros (Hc & Hv & Hn) Hp Hr Hnul; split; [|unfold Config.advance; destruct (valid st) eqn:E; [case_if|]; done].
  split; [by apply advance_ok|]; unfold Config.advance; case_if; [done|]; cbn; split; [intros _|unfold INT32_MAX in *; lia].
  exists host; split; [|by apply cstr_intro]; destruct Hp as ([_ (ls & Hne & Hls & ->)] & _); destruct ls as [|l ls]; [done|].
  rewrite dots_cons; apply Forall_cons in Hls as [(Hl & _) _]; destruct l as [|x l]; [rewrite zlen_nil in Hl; lia|]; by destruct ls.
Qed.

Lemma keep_apply_locked s : lent_ok s ->
  runs apply_locked s (λ x s', lent_ok s' /\ (is_ok x.1 = true -> valid (t_remote (l_tunnel s')) = true) /\
    t_config_link (l_tunnel s') = t_config_link (l_tunnel s)).
Proof.
  intros Hs; pose proof (tk_started _ _ (proj1 Hs) Hm) as Hat; unfold apply_locked; read_steps; destruct Hs as (Ht & Hw & Hops).
  destruct (tk_hostname _ _ Ht) as [_ Hnul]; destruct (terminated_cstr _ (Hnul Hat)) as [host Hhost]; destruct service_law as [label Hlabel].
  destruct (tk_config_link _ _ Ht) as (C1 & C2 & C3 & _); pose proof (tk_remote _ _ Ht) as (Hcfg & Hval & Hver).
  set (c := t_config_link (l_tunnel s)) in *; unfold CF_CONFIG_MESSAGE_MAX in *.
  assert (denotes (Bytes (Some (config_bytes c)) (config_used c)) (take (Z.to_nat (config_used c)) (config_bytes c))) as Hd.
  { split; [by apply Forall_take|]; split; [cbn; unfold zlen in *; rewrite length_take; lia|]; cbn; exists (drop (Z.to_nat (config_used c)) (config_bytes c)); by rewrite take_drop. }
  destruct (apply_spec header Hheader (t_remote (l_tunnel s)) (Bytes (Some (config_bytes c)) (config_used c)) _ (t_hostname (l_tunnel s)) app_service host label
    (Some EmptyString) (heap_now (l_world s)) Hcfg (heap_law _ Hw) Hd Hhost Hlabel) as (rc & st & reason & h & E & Hh & _ & Hrc).
  destruct (apply_reason _ _ _ _ _ _ _ _ _ _ E) as [text ->]; eapply runs_checked; [exact E|].
  do 2 (apply runs_bind; eapply runs_checked; [reflexivity|]).
  assert (remote_ok st /\ (valid (t_remote (l_tunnel s)) = true -> valid st = true) /\ (rc = CF_OK -> valid st = true)) as (Hst & Hkeep & Hv).
  { destruct (decide (rc = CF_OK)) as [->|Hne].
    - destruct Hrc as (n & (Hp & root & h1 & _ & Hu) & ->); destruct Hu as (_ & (v & _ & (j & _ & _ & Hn & _)) & _).
      destruct (remote_advance (t_remote (l_tunnel s)) n host label) as [? ?]; auto; by destruct Hhost as (? & _ & ?).
    - assert (st = t_remote (l_tunnel s)) as -> by (destruct rc; [done|..]; by destruct Hrc). by split. }
  apply runs_bind, runs_modify, runs_bind, runs_modify, runs_ret; cbn [l_tunnel l_world l_h2].
  split; [|split; [|done]]; [|intros Ho; apply Hv; by apply bool_decide_eq_true in Ho].
  split; [|split; [by apply unlock_law, put_heap_law|done]]; destruct Ht; split; try done; cbn; auto.
Qed.

Lemma keep_apply_config s : lent_ok s -> runs apply_config s (λ _ s', lent_ok s').
Proof.
  intros Hs; unfold apply_config; read_steps; destruct (config_pending _) eqn:Ep; cbn [negb]; [|by apply keep_done]; read_steps.
  pose proof (lock_law _ (proj1 (proj2 Hs))) as Hlock; destruct (json_try_lock (l_world s)) as [locked w]; cbn [fst snd].
  assert (lent_ok (Lent (l_tunnel s) w (l_h2 s))) as Hs1 by (split; [apply Hs|]; split; [done|apply Hs]).
  destruct locked; cbn [negb]; [|by apply keep_done].
  apply runs_bind; eapply runs_mono; [by apply keep_apply_locked|]; intros [rc reason] s2 (Hs2 & Hv & Ec); cbn [l_tunnel fst] in *; read_steps.
  destruct (tk_config_link _ _ (proj1 Hs2)) as (C1 & C2 & C3 & C4 & C5 & C6 & C7 & C8); rewrite Ec in *.
  destruct (C8 Ep) as [Hst Hre]; pose proof (C7 Hst Hre) as Hsent; set (c := t_config_link (l_tunnel s)) in *.
  destruct (tk_remote _ _ (proj1 Hs2)) as (_ & _ & Hver).
  destruct (response_spec (t_remote (l_tunnel s2)) rc (config_reply c) 128 Hver) as (out & n & E & Hz & Hn); [lia|].
  pose proof (response_length (t_remote (l_tunnel s2)) rc Hver) as Hlen; replace (zlen (response_text (t_remote (l_tunnel s2)) rc) <? 128) with true in Hn by lia.
  eapply runs_checked; [exact E|]; do 2 (apply runs_bind; eapply runs_checked; [reflexivity|]).
  destruct (erase_spec (config_bytes c) CF_CONFIG_MESSAGE_MAX) as (x & Em & Hx & Hmb & _); [by rewrite C1|].
  apply runs_bind; eapply runs_checked; [exact Em|]; apply runs_bind, keep_change; [done| |].
  { apply ok_config_link; [apply Hs2|]; rewrite Ec; assert (0 <= n <= 45) as Hn45 by (rewrite (proj2 Hn); split; [apply zlen_nonneg|done]).
    refine (conj _ (conj (Hmb C2) (conj _ (conj _ (conj _ (conj _ (conj _ _))))))); cbn; try done; try lia. }
  intros s3 Hs3 E3 _; apply runs_bind, keep_respond; [done| |].
  { exists [(lit "content-type", lit "application/json")]; split; [|done]; constructor; [|done]; split; apply denotes_view, lit_bytes. }
  intros sent s4 Hs4 E4; apply runs_bind, runs_mono with (Q := λ _ s', lent_ok s' /\ t_remote (l_tunnel s') = t_remote (l_tunnel s2)).
  { apply runs_when; intros _; [apply keep_fail; [done|]; intros s5 Hs5 E5|]; (split; [done|]); by rewrite ?E5, ?E4, ?E3. }
  intros _ s5 [Hs5 E5]; apply runs_bind, keep_advance; [done|by destruct (is_ok rc)| |intros s6 Hs6; apply keep_say; auto].
  destruct (is_ok rc); [rewrite E5; auto|done].
Qed.

End Keeps.

(** ** The client of the session *)

Section Laws.
Context (header : Z) (Hheader : 0 < header <= 64) `{ApplicationLaws header} `{JsonParserLaws header} (m : mode) (Hm : m <> Unconnected).

Definition owner_ok (a : owner) : Prop := tunnel_ok m (o_tunnel a) /\ world_ok (o_world a).

Lemma owner_lent a h : owner_ok a -> lent_ok header m h (Lent (o_tunnel a) (o_world a) h).
Proof. by intros [Ht Hw]. Qed.

Lemma lent_owner h s : lent_ok header m h s -> owner_ok (Owner (l_tunnel s) (l_world s)) /\ rtc client_op h (l_h2 s).
Proof. by intros (Ht & Hw & Hops). Qed.

#[export, program] Instance tunnel_client_laws : H2ClientLaws := { client_ok := owner_ok }.
Next Obligation.
  intros a h r hs Ha Hi Hr Hes; destruct (keep_h2_request header m h Hi r hs _ (owner_lent a h Ha) Hr Hes) as (rc & s & E & Hs).
  cbn [H2.client_request tunnel_client]; rewrite E; cbn [mbind option_bind]; do 3 eexists; split; [done|by apply lent_owner].
Qed.
Next Obligation.
  intros a h id b l e Ha Hi Hid Hd Hz; destruct (keep_h2_data header m h Hi id b l e _ (owner_lent a h Ha) Hid Hd Hz) as (rc & s & E & Hs).
  cbn [H2.client_data tunnel_client]; rewrite E; cbn [mbind option_bind]; do 3 eexists; split; [done|by apply lent_owner].
Qed.
Next Obligation.
  intros a h id buf cap Ha Hi Hid Hcap _; destruct (keep_h2_read header m h Hi id buf cap _ (owner_lent a h Ha) Hid Hcap) as ([[[rc buf'] n] eof] & s & E & Hs & Hz).
  cbn [H2.client_read tunnel_client]; rewrite E; cbn [mbind option_bind]; destruct (lent_owner h s Hs); do 6 eexists; split; [done|]; by split_and?.
Qed.
Next Obligation.
  intros a h id e Ha Hi Hid; destruct (keep_h2_closed header m h Hi id e _ (owner_lent a h Ha) Hid) as ([] & s & E & Hs & _).
  cbn [H2.client_closed tunnel_client]; rewrite E; cbn [mbind option_bind]; do 2 eexists; split; [done|by apply lent_owner].
Qed.

End Laws.
