(* ===== verification/EdgePick.v ===== *)
(** The choice of an edge among the service records of a DNS answer (the first
    half of [discover] in src/transport/esp_cf_tunnel.c): by priority, then by
    weight, with a rotation over reconnects. *)
From S2P Require Export Dns.

(** ** The code *)

(** The body of the inner loop: the record at [j] comes before the one at [i]. *)
Definition swap_smaller (rs : list cf_dns_record) (i j : nat) : option (list cf_dns_record) :=
  a ← rs !! i; b ← rs !! j;
  Some (if priority b <? priority a then <[j:=a]> (<[i:=b]> rs) else rs).

(** [for (j = i + 1; j < count; ++j)], with [n] rounds left. *)
Fixpoint sort_row (rs : list cf_dns_record) (i j n : nat) : option (list cf_dns_record) :=
  match n with
  | O => Some rs
  | S n => rs ← swap_smaller rs i j; sort_row rs i (S j) n
  end.

(** [for (i = 0; i < count; ++i)], with [n] rounds left. *)
Fixpoint sort_records (rs : list cf_dns_record) (i n : nat) : option (list cf_dns_record) :=
  match n with
  | O => Some rs
  | S n => rs ← sort_row rs i (S i) n; sort_records rs (S i) n
  end.

(** [while (first && records[first - 1].priority == priority) --first]. *)
Fixpoint group_first (rs : list cf_dns_record) (p : Z) (first : nat) : option nat :=
  match first with
  | O => Some O
  | S f => r ← rs !! f; if priority r =? p then group_first rs p f else Some first
  end.

(** [while (last + 1 < count && records[last + 1].priority == priority) ++last],
    with [n] records after [last]. *)
Fixpoint group_last (rs : list cf_dns_record) (p : Z) (last n : nat) : option nat :=
  match n with
  | O => Some last
  | S n => r ← rs !! S last; if priority r =? p then group_last rs p (S last) n else Some last
  end.

(** [for (i = first; i <= last; ++i) weights += records[i].weight], [n] left. *)
Fixpoint group_weight (rs : list cf_dns_record) (i n : nat) (weights : Z) : option Z :=
  match n with
  | O => Some weights
  | S n => r ← rs !! i; group_weight rs (S i) n (u32 (weights + weight r))
  end.

(** The last loop, with [n = last - pick]. *)
Fixpoint weighted_pick (rs : list cf_dns_record) (pick n : nat) (value : Z) : option nat :=
  match n with
  | O => Some pick
  | S n => r ← rs !! pick; if value <? weight r then Some pick else weighted_pick rs (S pick) n (u32 (value - weight r))
  end.

(** The sorted records, the record whose turn it is, and its group of equal
    priority with the sum of its weights. *)
Record candidates := Candidates { c_records : list cf_dns_record; c_turn : nat; c_first : nat; c_last : nat; c_weights : Z }.

Definition edge_candidates (answer : cf_dns_answer) (attempts : Z) : option candidates :=
  let n := Z.to_nat (count answer) in
  rs ← sort_records (records answer) 0 n;
  let turn := Z.to_nat (u32 (attempts - 1) mod count answer) in
  r ← rs !! turn;
  first ← group_first rs (priority r) turn;
  last ← group_last rs (priority r) turn (n - S turn);
  weights ← group_weight rs first (S last - first) 0;
  Some (Candidates rs turn first last weights).

(** [random] is drawn only when there are weights. *)
Definition choose_edge (c : candidates) (random : Z) : option nat :=
  if negb (c_weights c =? 0) then weighted_pick (c_records c) (c_first c) (c_last c - c_first c) (random mod c_weights c)
  else Some (c_turn c).

(** ** Specifications *)

(** Positions [i] and after hold no smaller priority than position [i]. *)
Definition before (rs : list cf_dns_record) (n i : nat) (q : nat) : Prop :=
  forall a b, rs !! i = Some a -> rs !! q = Some b -> (q < n)%nat -> priority a <= priority b.

Definition sorted_to (rs : list cf_dns_record) (n i : nat) : Prop := forall p q, (p < i)%nat -> (p < q)%nat -> before rs n p q.

(** The same records in another order, the rest of the array untouched. *)
Definition reordered (n : nat) (rs rs' : list cf_dns_record) : Prop :=
  take n rs' ≡ₚ take n rs /\ drop n rs' = drop n rs.

(** The weight of the first [k] records from [i]. *)
Fixpoint weight_sum (rs : list cf_dns_record) (i k : nat) : Z :=
  match k with O => 0 | S k => from_option weight 0 (rs !! i) + weight_sum rs (S i) k end.

Lemma reordered_refl n rs : reordered n rs rs.
Proof. by split. Qed.

Lemma reordered_trans n a b c : reordered n a b -> reordered n b c -> reordered n a c.
Proof. intros [H1 H2] [H3 H4]; split; [by rewrite H3|by rewrite H4]. Qed.

Lemma reordered_length n a b : reordered n a b -> length b = length a.
Proof.
  intros [H1 H2]; rewrite <- (take_drop n a), <- (take_drop n b), !length_app, H2; apply Permutation_length in H1; lia.
Qed.

Lemma swap_permutation (rs : list cf_dns_record) i j a b : (i < j)%nat -> rs !! i = Some a -> rs !! j = Some b ->
  <[j:=a]> (<[i:=b]> rs) ≡ₚ rs.
Proof.
  intros Hij Hi Hj; pose proof (lookup_lt_Some _ _ _ Hi); pose proof (lookup_lt_Some _ _ _ Hj).
  destruct (list_elem_of_split_length rs i a Hi) as (l1 & l2 & -> & Hl1).
  rewrite lookup_app_r in Hj by lia; replace (j - length l1)%nat with (S (j - S i)) in Hj by lia; cbn in Hj.
  destruct (list_elem_of_split_length l2 _ b Hj) as (l3 & l4 & -> & Hl3).
  rewrite (insert_app_r_alt l1) by lia; replace (i - length l1)%nat with 0%nat by lia; cbn [list_insert insert].
  change (<[0%nat:=b]> (a :: l3 ++ b :: l4)) with (b :: l3 ++ b :: l4).
  rewrite (insert_app_r_alt l1) by lia; replace (j - length l1)%nat with (S (length l3)) by lia.
  change (<[S (length l3):=a]> (b :: l3 ++ b :: l4)) with (b :: <[length l3:=a]> (l3 ++ b :: l4)).
  rewrite (insert_app_r_alt l3) by lia; rewrite Nat.sub_diag; cbn.
  apply Permutation_app_head; rewrite <- !Permutation_middle; apply Permutation_swap.
Qed.

Lemma swap_reordered n rs i j a b : (i < j < n)%nat -> rs !! i = Some a -> rs !! j = Some b -> reordered n rs (<[j:=a]> (<[i:=b]> rs)).
Proof.
  intros Hij Hi Hj; split.
  - rewrite !take_insert_lt by lia; apply swap_permutation; [lia|by rewrite lookup_take_lt by lia..].
  - by rewrite !drop_insert_lt by lia.
Qed.

Lemma swap_spec rs i j n : (i < j < n)%nat -> (n <= length rs)%nat -> sorted_to rs n i -> (forall q, (i < q < j)%nat -> before rs n i q) ->
  exists rs', swap_smaller rs i j = Some rs' /\ reordered n rs rs' /\ sorted_to rs' n i /\ forall q, (i < q < S j)%nat -> before rs' n i q.
Proof.
  intros Hij Hn Hs Hrow; destruct (lookup_lt_is_Some_2 rs i) as [a Ha]; [lia|]; destruct (lookup_lt_is_Some_2 rs j) as [b Hb]; [lia|].
  unfold swap_smaller; rewrite Ha, Hb; cbn [mbind option_bind]; destruct (Z.ltb_spec (priority b) (priority a)) as [Hlt|Hle].
  - exists (<[j:=a]> (<[i:=b]> rs)); split; [done|]; split; [by apply swap_reordered|].
    assert (forall q x, (<[j:=a]> (<[i:=b]> rs)) !! q = Some x ->
      (q = i /\ x = b) \/ (q = j /\ x = a) \/ (q <> i /\ q <> j /\ rs !! q = Some x)) as Hat.
    { intros q x Hq; destruct (decide (q = j)) as [->|]; [rewrite list_lookup_insert_eq in Hq by (rewrite length_insert; lia); simplify_eq; tauto|].
      rewrite list_lookup_insert_ne in Hq by done; destruct (decide (q = i)) as [->|]; [rewrite list_lookup_insert_eq in Hq by lia; simplify_eq; tauto|].
      rewrite list_lookup_insert_ne in Hq by done; tauto. }
    split.
    + intros p q Hp Hpq x y Hx Hy Hqn; destruct (Hat p x Hx) as [[-> _]|[[-> _]|(_ & _ & Hx')]]; [lia|lia|].
      destruct (Hat q y Hy) as [[-> ->]|[[-> ->]|(_ & _ & Hy')]]; [apply (Hs p j)|apply (Hs p i)|apply (Hs p q)]; first [done|lia].
    + intros q Hq x y Hx Hy Hqn; destruct (Hat i x Hx) as [[_ ->]|[[? _]|(? & _)]]; [|lia|done].
      destruct (Hat q y Hy) as [[? _]|[[_ ->]|(_ & ? & Hy')]]; [lia|lia|]; pose proof (Hrow q ltac:(lia) a y Ha Hy' Hqn); lia.
  - exists rs; split; [done|]; split; [apply reordered_refl|]; split; [done|]; intros q Hq; destruct (decide (q = j)) as [->|]; [|apply Hrow; lia].
    intros x y Hx Hy _; by simplify_eq.
Qed.

Lemma sort_row_spec i n k : forall rs j, (i < j)%nat -> (j + k = n)%nat -> (n <= length rs)%nat -> sorted_to rs n i ->
  (forall q, (i < q < j)%nat -> before rs n i q) ->
  exists rs', sort_row rs i j k = Some rs' /\ reordered n rs rs' /\ sorted_to rs' n (S i).
Proof.
  induction k as [|k IH]; intros rs j Hij Hj Hn Hs Hrow; cbn [sort_row].
  - exists rs; split; [done|]; split; [apply reordered_refl|]; intros p q Hp Hpq; destruct (decide (p = i)) as [->|]; [|apply Hs; lia].
    intros x y Hx Hy Hq; apply (Hrow q ltac:(lia) x y Hx Hy Hq).
  - destruct (swap_spec rs i j n) as (rs1 & -> & Hr1 & Hs1 & Hrow1); [lia|done..|]; cbn [mbind option_bind].
    destruct (IH rs1 (S j)) as (rs2 & E & Hr2 & Hs2); [lia|lia|rewrite (reordered_length _ _ _ Hr1); lia|done|done|].
    exists rs2; split; [done|]; split; [by eapply reordered_trans|done].
Qed.

Lemma sort_records_spec n k : forall rs i, (i + k = n)%nat -> (n <= length rs)%nat -> sorted_to rs n i ->
  exists rs', sort_records rs i k = Some rs' /\ reordered n rs rs' /\ sorted_to rs' n n.
Proof.
  induction k as [|k IH]; intros rs i Hi Hn Hs; cbn [sort_records].
  - exists rs; split; [done|]; split; [apply reordered_refl|]; assert (i = n) as -> by lia; done.
  - destruct (sort_row_spec i n k rs (S i)) as (rs1 & -> & Hr1 & Hs1); [lia|lia|done|done|lia|]; cbn [mbind option_bind].
    destruct (IH rs1 (S i)) as (rs2 & E & Hr2 & Hs2); [lia|rewrite (reordered_length _ _ _ Hr1); lia|done|].
    exists rs2; split; [done|]; split; [by eapply reordered_trans|done].
Qed.

(** The priority at a position. *)
Definition priority_at (rs : list cf_dns_record) (i : nat) : option Z := priority <$> rs !! i.

Lemma group_first_spec rs p t : (t < length rs)%nat -> exists f, group_first rs p t = Some f /\ (f <= t)%nat /\
  (forall k, (f <= k < t)%nat -> priority_at rs k = Some p) /\ (f = 0%nat \/ priority_at rs (pred f) <> Some p).
Proof.
  induction t as [|t IH]; intros Ht; cbn [group_first]; [exists 0%nat; split; [done|]; split; [done|]; split; [lia|by left]|].
  destruct (lookup_lt_is_Some_2 rs t) as [r Hr]; [lia|]; rewrite Hr; cbn [mbind option_bind]; destruct (Z.eqb_spec (priority r) p) as [E|E].
  - destruct IH as (f & -> & Hf & Hk & Hm); [lia|]; exists f; split; [done|]; split; [lia|]; split; [|done].
    intros k Hkt; destruct (decide (k = t)) as [->|]; [unfold priority_at; rewrite Hr; cbn; by rewrite E|apply Hk; lia].
  - exists (S t); split; [done|]; split; [lia|]; split; [lia|]; right; unfold priority_at; cbn; rewrite Hr; cbn; congruence.
Qed.

Lemma group_last_spec rs p n k : forall t, (t + k = n)%nat -> (n < length rs)%nat -> exists l, group_last rs p t k = Some l /\ (t <= l <= n)%nat /\
  (forall q, (t < q <= l)%nat -> priority_at rs q = Some p) /\ (l = n \/ priority_at rs (S l) <> Some p).
Proof.
  induction k as [|k IH]; intros t Ht Hn; cbn [group_last]; [exists t; split; [done|]; split; [lia|]; split; [lia|left; lia]|].
  destruct (lookup_lt_is_Some_2 rs (S t)) as [r Hr]; [lia|]; rewrite Hr; cbn [mbind option_bind]; destruct (Z.eqb_spec (priority r) p) as [E|E].
  - destruct (IH (S t)) as (l & -> & Hl & Hq & Hm); [lia|lia|]; exists l; split; [done|]; split; [lia|]; split; [|done].
    intros q Hqt; destruct (decide (q = S t)) as [->|]; [unfold priority_at; rewrite Hr; cbn; by rewrite E|apply Hq; lia].
  - exists t; split; [done|]; split; [lia|]; split; [lia|]; right; unfold priority_at; rewrite Hr; cbn; congruence.
Qed.

Lemma weight_sum_bounds rs i k : Forall (λ r, 0 <= weight r < 65536) rs -> 0 <= weight_sum rs i k <= 65535 * Z.of_nat k.
Proof.
  intros Hw; revert i; induction k as [|k IH]; intros i; cbn [weight_sum]; [lia|]; specialize (IH (S i)).
  assert (0 <= from_option weight 0 (rs !! i) < 65536) as Hi by (destruct (rs !! i) as [r|] eqn:Er; [apply (Forall_lookup_1 _ _ _ _ Hw Er)|done]); lia.
Qed.

Lemma group_weight_spec rs k : forall i w, (i + k <= length rs)%nat -> (k <= 16)%nat -> Forall (λ r, 0 <= weight r < 65536) rs ->
  0 <= w <= 65535 * (16 - Z.of_nat k) -> group_weight rs i k w = Some (w + weight_sum rs i k).
Proof.
  induction k as [|k IH]; intros i w Hi Hk Hw Hb; cbn [group_weight weight_sum]; [f_equal; lia|].
  destruct (lookup_lt_is_Some_2 rs i) as [r Hr]; [lia|]; rewrite Hr; cbn [mbind option_bind from_option].
  assert (0 <= weight r < 65536) as Hwr by (apply (Forall_lookup_1 _ _ _ _ Hw Hr)).
  rewrite wrap_small by (change (2 ^ 32) with 4294967296; lia); rewrite IH by (first [lia|done]); f_equal; lia.
Qed.

(** The pick is the record in whose share of the weights the value falls. *)
Lemma weighted_pick_spec rs k : forall i v, (i + k < length rs)%nat -> Forall (λ r, 0 <= weight r < 65536) rs ->
  0 <= v < weight_sum rs i (S k) -> v < 2 ^ 32 ->
  exists p, weighted_pick rs i k v = Some p /\ (i <= p <= i + k)%nat /\ weight_sum rs i (p - i) <= v < weight_sum rs i (S (p - i)).
Proof.
  induction k as [|k IH]; intros i v Hi Hw Hv Hm; cbn [weighted_pick].
  - exists i; split; [done|]; split; [lia|]; rewrite Nat.sub_diag; change (weight_sum rs i 0) with 0; lia.
  - destruct (lookup_lt_is_Some_2 rs i) as [r Hr]; [lia|]; rewrite Hr; cbn [mbind option_bind].
    assert (0 <= weight r < 65536) as Hwr by (apply (Forall_lookup_1 _ _ _ _ Hw Hr)).
    assert (forall q, weight_sum rs i (S q) = weight r + weight_sum rs (S i) q) as Hstep by (intros q; cbn [weight_sum]; by rewrite Hr).
    destruct (Z.ltb_spec v (weight r)) as [Hlt|Hge].
    + exists i; split; [done|]; split; [lia|]; rewrite Nat.sub_diag, Hstep; change (weight_sum rs i 0) with 0; change (weight_sum rs (S i) 0) with 0; lia.
    + rewrite Hstep in Hv; rewrite wrap_small by (change (2 ^ 32) with 4294967296 in *; lia).
      destruct (IH (S i) (v - weight r)) as (p & E & Hp & Hin); [lia|done|lia|lia|]; exists p; split; [done|]; split; [lia|].
      replace (p - i)%nat with (S (p - S i)) by lia; rewrite !Hstep; lia.
Qed.

(** ** Answers *)

(** The records an accepted answer holds. *)
Record edge_record (r : cf_dns_record) : Prop := {
  er_weight : 0 <= weight r < 65536;
  er_target : exists host, edge_name host /\ cstr (target r) host
}.

Definition address_record (r : cf_dns_record) : Prop := zlen (ip r) = 4 /\ bytes_ok (ip r).

Lemma byte_at_range l i : bytes_ok l -> 0 <= byte_at l i < 256.
Proof.
  intros Hl; unfold byte_at; destruct (rd l i) as [c|] eqn:E; [|done]; cbn; unfold rd in E; destruct (i <? 0); [done|].
  apply (Forall_lookup_1 _ _ _ _ Hl E).
Qed.

Lemma record_fields l type r rec : bytes_ok l -> record_of l type r rec ->
  (type = CF_DNS_SRV -> edge_record rec) /\ (type = CF_DNS_A -> 0 <= rr_at r -> rr_at r + rr_len r <= zlen l -> address_record rec).
Proof.
  intros Hl [-> Hlen Hu|ls h -> Hlen Hn Hok Hport He]; (split; [|]).
  - discriminate.
  - intros _ Hat Hend; split; cbn; [apply zlen_sub; lia|by apply sub_ok].
  - intros _; split; cbn [weight target]; [unfold u16_at; pose proof (byte_at_range l (rr_at r + 2) Hl); pose proof (byte_at_range l (rr_at r + 2 + 1) Hl); lia|].
    exists (join [] ls); split; [done|]; by eapply name_cstr.
  - discriminate.
Qed.

Lemma records_within l at_ rrs e : bytes_ok l -> 0 <= at_ -> records_at l at_ rrs e -> Forall (λ r, 0 <= rr_at r /\ rr_at r + rr_len r <= zlen l) rrs.
Proof.
  intros Hl H0; induction 1 as [|at_ r e rs e' (n & h & Hn & _ & _ & _ & _ & _ & Hlen & Hat & -> & Hend) _ IH]; [constructor|].
  pose proof (name_at_end _ _ _ _ _ Hn); constructor; [lia|]; apply IH.
  unfold u16_at in Hlen; pose proof (byte_at_range l (n + 8) Hl); pose proof (byte_at_range l (n + 8 + 1) Hl); lia.
Qed.

(** The answer of an accepted message. *)
Definition answer_ok (type : Z) (a : cf_dns_answer) : Prop :=
  exists recs, a = answer_of recs /\ 1 <= zlen recs <= CF_DNS_RECORD_MAX /\
    Forall (λ r, (type = CF_DNS_SRV -> edge_record r) /\ (type = CF_DNS_A -> address_record r)) recs.

Lemma response_answer l text type id recs : bytes_ok l -> response l text type id recs -> answer_ok type (answer_of recs).
Proof.
  intros Hl (_ & _ & _ & _ & _ & _ & q & n & h & Hn & _ & _ & _ & _ & _ & _ & (rrs & Hat & _ & Hrec) & Hcount).
  exists recs; split; [done|]; split; [done|]; pose proof (name_at_end _ _ _ _ _ Hn).
  pose proof (records_within l (n + 4) rrs _ Hl ltac:(lia) Hat) as Hin; rewrite Forall_forall in Hin.
  apply Forall_lookup; intros i r Hr; destruct (Forall2_lookup_r _ _ _ _ _ Hrec Hr) as (x & Hx & Hxr).
  apply list_elem_of_lookup_2 in Hx; apply list_elem_of_filter in Hx as [_ Hx]; apply subseteq_take, Hin in Hx.
  destruct (record_fields l type x r Hl Hxr); intuition.
Qed.

(** Sums over an array and over its front. *)
Lemma weight_sum_ext rs rs' i k : (forall q, (i <= q < i + k)%nat -> rs !! q = rs' !! q) -> weight_sum rs i k = weight_sum rs' i k.
Proof.
  revert i; induction k as [|k IH]; intros i Hq; cbn [weight_sum]; [done|]; rewrite (Hq i) by lia; f_equal; apply IH; intros q Hqi; apply Hq; lia.
Qed.

(** The candidates of an accepted answer, and the choice among them. *)
Definition chosen (recs : list cf_dns_record) (attempts random : Z) (c : candidates) (i : nat) : Prop :=
  let n := length recs in let rs := take n (c_records c) in
  rs ≡ₚ recs /\ sorted_to rs n n /\ length (c_records c) = 16%nat /\
  c_turn c = Z.to_nat (u32 (attempts - 1) mod Z.of_nat n) /\
  (forall q, (c_first c <= q <= c_last c)%nat <-> (q < n)%nat /\ priority_at rs q = priority_at rs (c_turn c)) /\
  (c_first c <= i <= c_last c)%nat /\ (c_last c < n)%nat /\
  c_weights c = weight_sum rs (c_first c) (S (c_last c) - c_first c) /\
  if c_weights c =? 0 then i = c_turn c
  else weight_sum rs (c_first c) (i - c_first c) <= random mod c_weights c < weight_sum rs (c_first c) (S (i - c_first c)).

Lemma group_exact rs n t f l p : sorted_to rs n n -> (n <= length rs)%nat -> (f <= t <= l)%nat -> (l < n)%nat -> priority_at rs t = Some p ->
  (forall k, (f <= k < t)%nat -> priority_at rs k = Some p) -> (f = 0%nat \/ priority_at rs (pred f) <> Some p) ->
  (forall k, (t < k <= l)%nat -> priority_at rs k = Some p) -> (S l = n \/ priority_at rs (S l) <> Some p) ->
  forall q, (f <= q <= l)%nat <-> (q < n)%nat /\ priority_at rs q = Some p.
Proof.
  intros Hs Hn Hft Hl Ht Hf Hfm Hla Hlm q; split.
  - intros Hq; split; [lia|]; destruct (Nat.lt_trichotomy q t) as [?|[->|?]]; [apply Hf; lia|done|apply Hla; lia].
  - intros [Hqn Hq]; assert (forall x y, (x < y < n)%nat -> forall a b, priority_at rs x = Some a -> priority_at rs y = Some b -> a <= b) as Hord.
    { intros x y Hxy a b Ha Hb; unfold priority_at in *; apply fmap_Some in Ha as (ra & Ha & ->), Hb as (rb & Hb & ->); apply (Hs x y ltac:(lia) ltac:(lia) ra rb Ha Hb); lia. }
    destruct (lookup_lt_is_Some_2 rs (pred f)) as [ra Ha]; [lia|].
    split; apply Nat.nlt_ge; intros Hlt.
    + destruct Hfm as [->|Hfm]; [lia|]; apply Hfm; unfold priority_at; rewrite Ha; cbn; f_equal.
      assert (priority_at rs (pred f) = Some (priority ra)) as Hp by (unfold priority_at; by rewrite Ha).
      destruct (decide (q = pred f)) as [->|]; [congruence|].
      pose proof (Hord q (pred f) ltac:(lia) _ _ Hq Hp); pose proof (Hord (pred f) t ltac:(lia) _ _ Hp Ht); lia.
    + destruct Hlm as [|Hlm]; [lia|]; destruct (lookup_lt_is_Some_2 rs (S l)) as [rb Hb]; [lia|]; apply Hlm; unfold priority_at; rewrite Hb; cbn; f_equal.
      assert (priority_at rs (S l) = Some (priority rb)) as Hp by (unfold priority_at; by rewrite Hb).
      destruct (decide (q = S l)) as [->|]; [congruence|].
      pose proof (Hord (S l) q ltac:(lia) _ _ Hp Hq); pose proof (Hord t (S l) ltac:(lia) _ _ Ht Hp); lia.
Qed.

Lemma choice_spec recs attempts random : 1 <= zlen recs <= CF_DNS_RECORD_MAX -> Forall (λ r, 0 <= weight r < 65536) recs ->
  exists c i, edge_candidates (answer_of recs) attempts = Some c /\ choose_edge c random = Some i /\ chosen recs attempts random c i.
Proof.
  intros Hn Hw; unfold CF_DNS_RECORD_MAX in Hn; unfold edge_candidates, answer_of; cbn [records count].
  set (n := length recs); set (rs0 := recs ++ replicate (16 - n) zero_record).
  assert (zlen recs = Z.of_nat n) as Hz by done; rewrite Hz in *; rewrite Nat2Z.id.
  assert (length rs0 = 16%nat) as Hl0 by (unfold rs0; rewrite length_app, length_replicate; lia).
  destruct (sort_records_spec n n rs0 0) as (rs & -> & Hr & Hs); [lia|lia|intros p q Hp; lia|]; cbn [mbind option_bind].
  pose proof (reordered_length _ _ _ Hr) as Hl; destruct Hr as [Hperm Hdrop].
  assert (take n rs0 = recs) as Htake by (by apply take_app_length').
  rewrite Htake in Hperm; assert (Forall (λ r, 0 <= weight r < 65536) rs) as Hwr.
  { rewrite <- (take_drop n rs); apply Forall_app; split; [by rewrite Hperm|]; rewrite Hdrop; unfold rs0; rewrite drop_app_length' by done; by apply Forall_replicate. }
  set (t := Z.to_nat (u32 (attempts - 1) mod Z.of_nat n)).
  assert (t < n)%nat as Ht by (unfold t; pose proof (Z.mod_pos_bound (u32 (attempts - 1)) (Z.of_nat n)); lia).
  destruct (lookup_lt_is_Some_2 rs t) as [r Hrt]; [lia|]; rewrite Hrt; cbn [mbind option_bind].
  destruct (group_first_spec rs (priority r) t) as (f & -> & Hf & Hfk & Hfm); [lia|]; cbn [mbind option_bind].
  destruct (group_last_spec rs (priority r) (pred n) (n - S t) t) as (l & -> & Hla & Hlk & Hlm); [lia|lia|]; cbn [mbind option_bind].
  rewrite (group_weight_spec rs) by (first [done|lia]); cbn [mbind option_bind]; rewrite Z.add_0_l.
  set (c := Candidates rs t f l (weight_sum rs f (S l - f))); exists c.
  assert (forall i k, (i + k <= n)%nat -> weight_sum rs i k = weight_sum (take n rs) i k) as Hsum.
  { intros i k Hik; apply weight_sum_ext; intros q Hq; by rewrite lookup_take_lt by lia. }
  assert (forall q, (q < n)%nat -> priority_at (take n rs) q = priority_at rs q) as Hpa by (intros q Hq; unfold priority_at; by rewrite lookup_take_lt by lia).
  assert (exists i, choose_edge c random = Some i /\ (f <= i <= l)%nat /\
    if c_weights c =? 0 then i = t else weight_sum rs f (i - f) <= random mod c_weights c < weight_sum rs f (S (i - f))) as (i & Hi & Hil & Hshare).
  { unfold choose_edge, c; cbn [c_weights c_records c_first c_last c_turn]; set (W := weight_sum rs f (S l - f)); pose proof (weight_sum_bounds rs f (S l - f) Hwr) as HW; fold W in HW.
    destruct (Z.eqb_spec W 0) as [E|E]; cbn [negb]; [exists t; split; [done|]; split; [lia|done]|].
    pose proof (Z.mod_pos_bound random W ltac:(lia)) as Hv; destruct (weighted_pick_spec rs (l - f) f (random mod W)) as (i & -> & Hi & Hin); [lia|done| |change (2 ^ 32) with 4294967296; lia|].
    - replace (S (l - f)) with (S l - f)%nat by lia; fold W; lia.
    - exists i; split; [done|]; split; [lia|done]. }
  exists i; split; [done|]; split; [done|]; unfold chosen; cbn [c_records c_turn c_first c_last c_weights c] in *; fold n; fold t.
  split; [done|]; split; [|split; [lia|]].
  { intros p q Hp Hpq a b Ha Hb Hq; rewrite lookup_take_lt in Ha, Hb by lia; by apply (Hs p q). }
  split; [done|]; split; [|split; [lia|]].
  { intros q; assert ((q < n)%nat /\ priority_at (take n rs) q = priority_at (take n rs) t <-> (q < n)%nat /\ priority_at rs q = Some (priority r)) as ->.
    { split; intros [Hq Hp]; (split; [done|]); rewrite !Hpa in * by lia; unfold priority_at in *; rewrite Hrt in *; done. }
    apply (group_exact rs n t f l); [done|lia|lia|lia|unfold priority_at; by rewrite Hrt|done|done|done|].
    destruct Hlm as [->|?]; [left; lia|by right]. }
  split; [lia|]; split; [apply Hsum; lia|].
  destruct (_ =? 0); [done|]; rewrite <- !Hsum by lia; done.
Qed.

(** ** Properties *)

(** C27. The edge that is contacted: whatever message of the resolver is accepted
    as the answer for service records, the choice returns, sorts the records by
    priority without losing one, and picks a record of the message whose target
    is a host under argotunnel.com.  The pick belongs to the group of equal
    priority whose turn it is at this attempt, and inside the group to the share
    of the weights in which the random number falls; without weights it is the
    record whose turn it is. *)
Theorem edge_choice owner0 b l name text id out0 a attempts random :
  denotes b l -> cstr name text -> zlen owner0 = 254 ->
  cf_dns_parse owner0 b (Some name) CF_DNS_SRV id (Some out0) = Some (CF_OK, Some a) ->
  exists recs c i r, response l text CF_DNS_SRV id recs /\ edge_candidates a attempts = Some c /\ choose_edge c random = Some i /\
    chosen recs attempts random c i /\ c_records c !! i = Some r /\ r ∈ recs /\ exists host, edge_name host /\ cstr (target r) host.
Proof.
  intros Hb Hname Ho E; destruct (parse_spec owner0 b l name text CF_DNS_SRV id Hb Hname ltac:(by right) Ho out0) as (rc & out & E' & Hpost).
  rewrite E in E'; injection E' as <- <-; destruct Hpost as (recs & Hresp & ->).
  destruct (response_answer l text CF_DNS_SRV id recs (denotes_bytes _ _ Hb) Hresp) as (recs' & Hrecs & Hn & Hok).
  assert (recs' = recs) as ->.
  { unfold answer_of in Hrecs; injection Hrecs as Hrecs Hz; apply Nat2Z.inj in Hz; apply (f_equal (take (length recs))) in Hrecs.
    rewrite take_app_length, take_app_length' in Hrecs by done; done. }
  destruct (choice_spec recs attempts random Hn) as (c & i & Ec & Ei & Hc).
  { eapply Forall_impl; [exact Hok|]; intros r [Hr _]; apply (er_weight r (Hr eq_refl)). }
  pose proof Hc as (Hperm & _ & Hl & _ & _ & Hi & Hin & _); destruct (lookup_lt_is_Some_2 (c_records c) i) as [r Hr]; [unfold CF_DNS_RECORD_MAX, zlen in Hn; lia|].
  exists recs, c, i, r; split; [done|]; split; [done|]; split; [done|]; split; [done|]; split; [done|].
  assert (r ∈ recs) as Hel by (rewrite <- Hperm; apply list_elem_of_lookup_2 with i; rewrite lookup_take_lt by lia; done).
  split; [done|]; rewrite Forall_forall in Hok; apply (er_target r), (Hok r Hel); done.
Qed.

Lemma edge_choice_witness :
  exists a recs c i r, cf_dns_parse sample_stack (view gold_dns_srv) (Some CF_EDGE_DISCOVERY) CF_DNS_SRV 0x1234 (Some zero_answer) = Some (CF_OK, Some a) /\
    edge_candidates a 2 = Some c /\ choose_edge c 7 = Some i /\ chosen recs 2 7 c i /\ c_records c !! i = Some r /\
    exists host, edge_name host /\ cstr (target r) host.
Proof.
  assert (exists a, cf_dns_parse sample_stack (view gold_dns_srv) (Some CF_EDGE_DISCOVERY) CF_DNS_SRV 0x1234 (Some zero_answer) = Some (CF_OK, Some a)) as [a Ha]
    by (eexists; vm_compute; reflexivity).
  destruct (edge_choice sample_stack (view gold_dns_srv) gold_dns_srv CF_EDGE_DISCOVERY (lit "_v2-origintunneld._tcp.argotunnel.com") 0x1234 zero_answer a 2 7)
    as (recs & c & i & r & _ & Hc & Hi & Hch & Hr & _ & Ht).
  - apply denotes_view; bytes_by_compute.
  - apply cstr_cstring; no_nul.
  - done.
  - exact Ha.
  - exists a, recs, c, i, r; split; [exact Ha|]; split; [exact Hc|]; split; [exact Hi|]; split; [exact Hch|]; split; [exact Hr|exact Ht].
Defined.
