(* ===== verification/Network.v ===== *)
(** What the tunnel task asks of the system: sockets, TLS (esp-tls over mbedTLS),
    randomness, memory, the clock and FreeRTOS, and the library runs of its
    session; and the diagnostic of a connection attempt
    (src/transport/cf_tls_diag.c). *)
From stdpp Require Import gmap.
From S2P Require Export TunnelClientSpec EdgePick.
#[local] Open Scope Z_scope.

(** The states of a TLS connection, as numbers, and the errors of esp-tls the
    code names. *)
Definition ESP_TLS_INIT : Z := 0.
Definition ESP_TLS_HANDSHAKE : Z := 2.
Definition ESP_ERR_NO_MEM : Z := 0x101.
Definition ESP_ERR_ESP_TLS_CANNOT_RESOLVE_HOSTNAME : Z := 0x8001.
Definition ESP_ERR_ESP_TLS_CONNECTION_TIMEOUT : Z := 0x8006.
Definition ESP_ERR_MBEDTLS_SSL_HANDSHAKE_FAILED : Z := 0x801a.

(** The functions outside the repository the task calls.  Handles are opaque;
    what is behind them is part of the world.  A function that fills a buffer
    gives the bytes it wrote at its start. *)
Class Network `{Application} := {
  (* sockets: [socket], [close], [fcntl] with [O_NONBLOCK], [connect] to port 53, [send], [recv] *)
  udp_socket : world -> Z * world;
  close_socket : Z -> world -> world;
  set_nonblocking : Z -> world -> Z * world;
  connect_resolver : Z -> list Z -> world -> Z * world;
  send_packet : Z -> list Z -> world -> Z * world;
  recv_packet : Z -> Z -> world -> Z * bool * list Z * world;  (* the size, [errno] means "not yet", the bytes *)
  (* esp-tls *)
  tls : Type;
  ssl : Type;
  ESP_TLS_ERR_SSL_WANT_READ : Z;
  ESP_TLS_ERR_SSL_WANT_WRITE : Z;
  esp_tls_init : world -> option tls * world;
  esp_tls_conn_destroy : tls -> world -> world;
  esp_tls_get_conn_state : tls -> world -> option Z;           (* [None] unless ESP_OK *)
  esp_tls_conn_new_async : list Z -> Z -> list Z -> tls -> world -> Z * Z * world;   (* address, port, certificate name; the code and [errno] *)
  esp_tls_conn_read : tls -> Z -> world -> Z * list Z * world;
  esp_tls_conn_write : tls -> list Z -> world -> Z * world;
  esp_tls_get_conn_sockfd : tls -> world -> option Z;
  set_no_delay : Z -> world -> world;
  wait_ready : Z -> bool -> world -> world;                    (* [select], for reading and perhaps writing *)
  esp_tls_get_ssl_context : tls -> world -> option ssl;
  mbedtls_ssl_get_fatal_alert : ssl -> world -> Z;
  mbedtls_ssl_get_version_number : ssl -> world -> Z;
  has_error_handle : tls -> world -> bool;
  get_and_clear_system_error : tls -> world -> bool * Z * world;      (* ESP_OK, and the error *)
  get_and_clear_last_error : tls -> world -> Z * Z * Z * world;       (* ESP, TLS and verification errors *)
  (* the system *)
  esp_random : world -> Z * world;
  time_of_day : world -> Z * world;
  heap_free_size : world -> Z;
  heap_largest_block : world -> Z;
  stack_minimum : world -> Z;
  allocate_answer : world -> bool * world;
  free_answer : world -> world;
  allocate_session : world -> bool * option session * world;   (* the memory, and the library's session *)
  sizeof_cf_h2 : Z;
  delay_ms : Z -> world -> world;
  (* the rest of [esp_cf_tunnel_config] *)
  app_environment : world -> esp_cf_environment -> esp_cf_environment * world;
  app_credentials : world -> cf_credentials -> list Z -> cf_result * cf_credentials * list Z * world;
  app_streams : Z;
  (* what nghttp2 does when it receives bytes, and when it is asked for output *)
  receive_run : owner -> cf_h2 -> list Z -> library_run;
  output_run : owner -> cf_h2 -> library_run * option (list Z)
}.

(** ** The diagnostic *)

Definition esp_cf_connect_stage_name (stage : esp_cf_connect_stage) : string :=
  match stage with
  | ESP_CF_CONNECT_UNKNOWN => "unknown" | ESP_CF_CONNECT_TCP => "tcp_connect" | ESP_CF_CONNECT_TLS_SETUP => "tls_setup"
  | ESP_CF_CONNECT_TLS_HANDSHAKE => "tls_handshake" | ESP_CF_CONNECT_DEADLINE => "application_deadline"
  | ESP_CF_CONNECT_VERIFIED => "verified"
  end.

(** The stage of an attempt. *)
Definition diagnosed_stage (rc before after esp_error tls_error verify_flags : Z) (deadline : bool) : esp_cf_connect_stage :=
  if rc =? 1 then ESP_CF_CONNECT_VERIFIED else
  if (rc =? 0) && deadline then ESP_CF_CONNECT_DEADLINE else
  if rc <? 0 then
    if (before =? ESP_TLS_HANDSHAKE) || (after =? ESP_TLS_HANDSHAKE) || (esp_error =? ESP_ERR_MBEDTLS_SSL_HANDSHAKE_FAILED)
    then ESP_CF_CONNECT_TLS_HANDSHAKE
    else if (ESP_ERR_ESP_TLS_CANNOT_RESOLVE_HOSTNAME <=? esp_error) && (esp_error <=? ESP_ERR_ESP_TLS_CONNECTION_TIMEOUT)
    then ESP_CF_CONNECT_TCP
    else if negb (esp_error =? 0) || negb (tls_error =? 0) || negb (verify_flags =? 0) then ESP_CF_CONNECT_TLS_SETUP
    else ESP_CF_CONNECT_UNKNOWN
  else ESP_CF_CONNECT_UNKNOWN.

Section Diagnostic.
Context `{Network}.

(** The alert and the version mbedTLS knows. *)
Definition ssl_details (t : option tls) (rc : Z) (w : world) : Z * Z :=
  match t with
  | None => (-1, -1)
  | Some t =>
      match esp_tls_get_ssl_context t w with
      | None => (-1, -1)
      | Some s =>
          (if rc <? 0 then let alert := mbedtls_ssl_get_fatal_alert s w in if 0 <=? alert then alert else -1 else -1,
           if rc =? 1 then mbedtls_ssl_get_version_number s w else -1)
      end
  end.

(** Whether the errors are available, and the system, ESP, TLS and
    verification errors.  The system error is read before the accessor that
    clears them all. *)
Definition recorded_errors (t : option tls) (w : world) : bool * Z * Z * Z * Z * world :=
  match t with
  | None => (false, 0, 0, 0, 0, w)
  | Some t =>
      if has_error_handle t w then
        let '(ok, system, w) := get_and_clear_system_error t w in
        let '(esp, tls_error, verify, w) := get_and_clear_last_error t w in
        (ok, system, esp, tls_error, verify, w)
      else (false, 0, 0, 0, 0, w)
  end.

Definition cf_tls_diag_capture (t : option tls) (rc errno_context before after : Z) (deadline : bool) (w : world) :
    esp_cf_connect_diagnostic * world :=
  let '(alert, ver) := ssl_details t rc w in
  let '(available, system, esp, tls_error, verify, w) := recorded_errors t w in
  (ConnectDiagnostic true available (diagnosed_stage rc before after esp tls_error verify deadline)
     rc before after esp tls_error verify system errno_context alert ver 0 0 0 0 0 0 (replicate 16 0) 0, w).

End Diagnostic.
