(* ===== verification/Tunnel.v ===== *)
(** The tunnel task (src/transport/esp_cf_tunnel.c): discovery, connection,
    traffic, the body of its loop, and the calls of other tasks. *)
From stdpp Require Import gmap.
From S2P Require Export Network.
#[local] Open Scope Z_scope.

(** What [esp_cf_tunnel_get_snapshot] gives; no statistics stand for zeros. *)
Record esp_cf_tunnel_snapshot := Snapshot {
  n_state : cf_state;
  n_settings_ready : bool;
  n_registered : bool;
  n_configured : bool;
  n_config_version : Z;
  n_attempts : Z;
  n_retry_at_ms : Z;
  n_edge_ip : list Z;
  n_location : list Z;
  n_message : list Z;
  n_last_failure : list Z;
  n_last_failure_ms : Z;
  n_failures : Z;
  n_http2 : option (cf_h2_stats * ngheap);
  n_task_stack_min : Z;
  n_last_connect : esp_cf_connect_diagnostic;
  n_last_connect_failure : esp_cf_connect_diagnostic
}.

Definition esp_cf_tunnel_state_name (s : cf_state) : string :=
  match s with
  | CF_STOPPED => "Stopped" | CF_WAIT_NETWORK => "Waiting for network" | CF_WAIT_TIME => "Waiting for clock"
  | CF_DISCOVERY => "Discovering edge" | CF_CONNECT => "Connecting" | CF_TLS => "TLS handshake"
  | CF_HTTP2 => "HTTP/2 negotiation" | CF_REGISTERING => "Registering" | CF_WAIT_CONFIG => "Waiting for configuration"
  | CF_ONLINE => "Online" | CF_BACKOFF => "Retry backoff" | CF_AUTH_FAILED => "Authentication rejected"
  | CF_CONFIG_FAILED => "Configuration rejected" | CF_STOPPING => "Stopping"
  end.

Section Task.
Context `{Network} `{JsonParser}.

(** What no session and no callback touches: what the task and its callers
    share under the lock ([running] is [t->task != NULL]), and the end of a
    graceful shutdown. *)
Record shared := Shared {
  stop_requested : bool;
  reload_requested : bool;
  running : bool;
  shutdown_ms : Z;
  snapshot : esp_cf_tunnel_snapshot
}.

Definition with_reload_requested (b : bool) (s : shared) : shared := Shared (stop_requested s) b (running s) (shutdown_ms s) (snapshot s).
Definition with_stop_requested (b : bool) (s : shared) : shared := Shared b (reload_requested s) (running s) (shutdown_ms s) (snapshot s).
Definition with_running (b : bool) (s : shared) : shared := Shared (stop_requested s) (reload_requested s) b (shutdown_ms s) (snapshot s).
Definition with_shutdown_ms (x : Z) (s : shared) : shared := Shared (stop_requested s) (reload_requested s) (running s) x (snapshot s).
Definition with_snapshot (n : esp_cf_tunnel_snapshot) (s : shared) : shared := Shared (stop_requested s) (reload_requested s) (running s) (shutdown_ms s) n.

Record task := Task {
  k_tunnel : tunnel;
  k_world : world;
  k_tls : option tls;
  k_h2 : option cf_h2;
  k_shared : shared
}.

Abbreviation KM := (SM task).

(** ** Steps *)

Definition reads {A} (f : tunnel -> A) : KM A := asks (λ k, f (k_tunnel k)).
Definition sets (f : tunnel -> tunnel) : KM () := modify (λ k, Task (f (k_tunnel k)) (k_world k) (k_tls k) (k_h2 k) (k_shared k)).
Definition system {A} (f : world -> A * world) : KM A :=
  calling (λ k, let '(x, w) := f (k_world k) in (x, Task (k_tunnel k) w (k_tls k) (k_h2 k) (k_shared k))).
Definition does (f : world -> world) : KM () := system (λ w, (tt, f w)).
Definition set_tls (t : option tls) : KM () := modify (λ k, Task (k_tunnel k) (k_world k) t (k_h2 k) (k_shared k)).
Definition set_h2 (h : option cf_h2) : KM () := modify (λ k, Task (k_tunnel k) (k_world k) (k_tls k) h (k_shared k)).
Definition set_shared (f : shared -> shared) : KM () := modify (λ k, Task (k_tunnel k) (k_world k) (k_tls k) (k_h2 k) (f (k_shared k))).
Definition clock : KM Z := us ← system esp_timer_get_time; mret (u64 us / 1000).
Definition note (text : list Z) : KM () := t ← asks k_tunnel; t ← checked (message text t); sets (λ _, t).
Definition advance_to (event : cf_lifecycle_event) : KM () :=
  sets (over_life (λ l, default l (snd (cf_lifecycle_advance (Some l) event)))).
Definition deadline_in (ms : Z) : KM () := now ← clock; sets (over_progress (with_deadline_ms (u64 (now + ms)))).

(** An operation of the tunnel on its session, which calls the tunnel back. *)
Definition in_session {A} (m : SM lent A) : KM A :=
  performing (λ k, h ← k_h2 k; '(x, s) ← m (Lent (k_tunnel k) (k_world k) h);
                   Some (x, Task (l_tunnel s) (l_world s) (k_tls k) (Some (l_h2 s)) (k_shared k))).

Definition session_receive (bytes : list Z) (now : Z) : KM (cf_result * Z) :=
  performing (λ k, h ← k_h2 k; let a := Owner (k_tunnel k) (k_world k) in
    '(rc, used, a, h) ← cf_h2_receive a (Some h) (view bytes) true now (receive_run a h bytes);
    used ← used; Some ((rc, used), Task (o_tunnel a) (o_world a) (k_tls k) h (k_shared k))).

Definition session_output : KM (cf_result * cf_bytes) :=
  performing (λ k, h ← k_h2 k; let a := Owner (k_tunnel k) (k_world k) in
    let '(run, p) := output_run a h in
    '(rc, out, a, h) ← cf_h2_output a (Some h) true run p;
    Some ((rc, out), Task (o_tunnel a) (o_world a) (k_tls k) h (k_shared k))).

Definition session_sent (n : Z) : KM cf_result :=
  performing (λ k, '(rc, h) ← cf_h2_sent (k_h2 k) n; Some (rc, Task (k_tunnel k) (k_world k) (k_tls k) h (k_shared k))).

Definition session_destroy : KM () :=
  performing (λ k, a ← cf_h2_destroy (Owner (k_tunnel k) (k_world k)) (k_h2 k);
    Some (tt, Task (o_tunnel a) (o_world a) (k_tls k) None (k_shared k))).

(** ** Reports *)

Definition publish : KM () :=
  t ← asks k_tunnel; h ← asks k_h2;
  ip ← checked (c_string (t_edge_ip t)); ip ← checked (snprintf (replicate 16 0) 16 ip);
  place ← checked (c_string (location (t_rpc t))); place ← checked (snprintf (replicate 32 0) 32 place);
  text ← checked (c_string (message_text (t_report t))); text ← checked (snprintf (replicate 128 0) 128 text);
  why ← checked (c_string (last_failure (t_report t))); why ← checked (snprintf (replicate 128 0) 128 why);
  stack ← asks (λ k, stack_minimum (k_world k));
  let l := t_life t in let r := t_report t in
  set_shared (with_snapshot
    (Snapshot (state l) (settings_ready (t_flags t)) (registered l) (configured l)
       (if valid (t_remote t) then version (t_remote t) else -1) (attempts (t_progress t)) (retry_at_ms l) ip place text why
       (last_failure_ms r) (failure_count r) (h ≫= λ h, cf_h2_get_stats (Some h)) (u32 stack) (last_connect r) (last_connect_failure r))).

(** ** Closing *)

Definition wipe_rpc (l : rpc_link) : option rpc_link :=
  frame ← cf_secure_zero (rpc_frame l) CF_CAPNP_MESSAGE_MAX; queue ← cf_secure_zero (rpc_queue l) RPC_QUEUE;
  Some (RpcLink 0 (framer l) frame queue 0).

Definition wipe_config (l : config_link) : option config_link :=
  bytes ← cf_secure_zero (config_bytes l) CF_CONFIG_MESSAGE_MAX;
  Some (ConfigLink 0 bytes 0 (config_reply l) 0 0 false false).

Definition close_resolver : KM () :=
  l ← reads t_dns;
  when (0 <=? dns_socket l) (does (close_socket (dns_socket l));; sets (over_dns (with_dns_socket (-1)))).

Definition release_answer : KM () :=
  l ← reads t_dns;
  when (bool_decide (is_Some (dns_answer l))) (does free_answer);; sets (over_dns (with_dns_answer None)).

Definition drop_session : KM () :=
  sets (over_flags (with_closing true));;
  h ← asks k_h2;
  when (bool_decide (is_Some h)) session_destroy;;
  sets (over_flags (with_closing false)).

Definition drop_tls : KM () :=
  c ← asks k_tls;
  match c with Some c => does (esp_tls_conn_destroy c);; set_tls None | None => mret tt end.

(** The session's state and every secret. *)
Definition forget : KM () :=
  sets (λ t, with_t_rpc (default (t_rpc t) (cf_rpc_reset (Some (t_rpc t)))) t);;
  sets (λ t, with_t_remote (default (t_remote t) (cf_config_init (Some (t_remote t)))) t);;
  sets (with_t_credentials zero_credentials);;
  l ← reads t_rpc_link; l ← checked (wipe_rpc l); sets (with_t_rpc_link l);;
  c ← reads t_config_link; c ← checked (wipe_config c); sets (with_t_config_link c);;
  sets (over_flags (λ f, Flags (settings_ready f) false false (stopping f) false (closing f)));;
  sets (over_progress (with_write_stalled_ms 0)).

Definition close_connection : KM () := close_resolver;; release_answer;; drop_session;; drop_tls;; forget.

(** The text of a failure on a session, with what its statistics say. *)
Definition failure_text (why : list Z) (stats : cf_h2_stats) : list Z :=
  take 60 why ++ lit " [h2=" ++ decimal (last_error stats) ++ lit ", goaway=" ++
  lit (if negb (goaway stats) then "none" else if local_goaway stats then "local" else "peer") ++ lit ":" ++ decimal (goaway_error stats) ++
  lit ", peer=" ++ decimal (peer_goaway_error stats) ++ lit "/" ++ decimal (peer_goaway_last_stream stats) ++ lit "]".

(** [retry(t, t->message)]: the message stays as it is. *)
Definition retry : KM () :=
  t ← asks k_tunnel; h ← asks k_h2;
  let rejected := bool_decide (rpc_state (t_rpc t) = CF_RPC_REJECTED) in
  let permanent := rejected && negb (should_retry (t_rpc t)) in
  let hint := if rejected then retry_after_ms (t_rpc t) else 0 in
  why ← checked (c_string (message_text (t_report t)));
  text ← checked (snprintf (last_failure (t_report t)) 128
    (match h with Some h => failure_text why (h_stats h) | None => why end));
  sets (over_report (with_last_failure text));;
  now ← clock;
  sets (over_report (λ r, with_failure_count (u32 (failure_count r + 1)) (with_last_failure_ms now r)));;
  (if permanent then advance_to CF_EVENT_AUTH_REJECTED
   else now ← clock; random ← system esp_random;
        sets (over_life (λ l, default l (snd (cf_lifecycle_retry (Some l) now (if UINT32_MAX <? hint then UINT32_MAX else u32 hint) random)))));;
  close_connection.

(** ** Discovery *)

Definition dns_send (name : list Z) (type : Z) : KM cf_result :=
  l ← reads t_dns;
  when (0 <=? dns_socket l) (does (close_socket (dns_socket l)));;
  fd ← system udp_socket;
  sets (over_dns (with_dns_socket fd));;
  if fd <? 0 then mret CF_ERR_STATE else
  environment ← reads t_environment;
  address ← checked (slice (e_dns_ip environment) 0 4);
  blocking ← system (set_nonblocking fd);
  if blocking <? 0 then mret CF_ERR_STATE else
  refused ← system (connect_resolver fd address);
  if negb (refused =? 0) then mret CF_ERR_STATE else
  random ← system esp_random;
  sets (over_dns (with_dns_id (u16 random)));;
  text ← checked (c_string name);
  copy ← checked (snprintf (dns_name l) 254 text);
  sets (over_dns (with_dns_name copy));;
  '(rc, packet, n) ← checked (cf_dns_query (Some name) type (u16 random) (Some (dns_packet l)) CF_DNS_PACKET_MAX (Some 0));
  packet ← checked packet; n ← checked n;
  sets (over_dns (with_dns_packet packet));;
  if negb (is_ok rc) then mret rc else
  bytes ← checked (slice packet 0 n);
  sent ← system (send_packet fd bytes);
  if negb (sent =? n) then mret CF_ERR_STATE else
  deadline_in 5000;; mret CF_OK.

Definition connect_diagnostic (rc saved_errno before_ after : Z) (deadline : bool) : KM () :=
  c ← asks k_tls;
  d ← system (cf_tls_diag_capture c rc saved_errno before_ after deadline);
  now ← clock; utc ← system time_of_day;
  t ← asks k_tunnel; w ← asks k_world;
  ip ← checked (c_string (t_edge_ip t)); ip ← checked (snprintf (d_edge_ip d) 16 ip);
  let setup := bool_decide (c = None) in
  let d := ConnectDiagnostic (d_valid d) (d_errors_available d) (if setup then ESP_CF_CONNECT_TLS_SETUP else d_stage d)
    (d_rc d) (d_state_before d) (d_state_after d) (if setup then ESP_ERR_NO_MEM else d_esp_error d) (d_tls_error d) (d_verify_flags d)
    (d_system_error d) (d_errno_context d) (d_tls_alert d) (d_tls_version d) (u64 (now - connect_started_ms (t_progress t))) now utc
    (attempts (t_progress t)) (u32 (heap_free_size w)) (u32 (heap_largest_block w)) ip CF_EDGE_PORT in
  sets (over_report (with_last_connect d));;
  when (negb (bool_decide (d_stage d = ESP_CF_CONNECT_VERIFIED))) (sets (over_report (with_last_connect_failure d))).

(** The start of an attempt: [Some b] returns [b] from [discover]. *)
Definition begin_discovery : KM (option bool) :=
  locked ← system json_try_lock;
  if negb (locked : bool) then mret (Some true) else
  t ← asks k_tunnel;
  '(rc, cred, host) ← system (λ w, app_credentials w (t_credentials t) (t_hostname t));
  sets (λ t, with_t_credentials cred (with_t_hostname host t));;
  does json_unlock;;
  first ← checked (rd host 0);
  let ready := is_ok rc && negb (first =? 0) && bool_decide (0 ∈ host) in
  sets (over_flags (with_settings_ready ready));;
  if negb ready then
    sets (with_t_credentials zero_credentials);;
    note (lit "Save a named tunnel token and public hostname in Settings.");; mret (Some true)
  else
  sets (over_flags (with_attempt_started true));;
  sets (over_progress (λ p, with_attempts (u32 (attempts p + 1)) p));;
  sets (over_dns (with_dns_stage 0));;
  memory ← system allocate_answer;
  sets (over_dns (with_dns_answer (if (memory : bool) then Some zero_answer else None)));;
  rc ← (if (memory : bool) then dns_send CF_EDGE_DISCOVERY CF_DNS_SRV else mret CF_ERR_MEMORY);
  if negb (is_ok rc) then note (lit "Unable to start edge DNS discovery.");; mret (Some false) else
  note (lit "Resolving Cloudflare edge service records.");; mret None.

(** The answer to the first question. *)
Definition service_records : KM bool :=
  l ← reads t_dns; p ← reads t_progress;
  a ← checked (dns_answer l); c ← checked (edge_candidates a (attempts p));
  random ← (if negb (c_weights c =? 0) then system esp_random else mret 0);
  i ← checked (choose_edge c random);
  sets (over_dns (λ l, with_dns_stage 1 (with_dns_answer (Some (DnsAnswer (c_records c) (count a))) l)));;
  r ← checked (c_records c !! i);
  text ← checked (c_string (Dns.target r));
  array ← asks (λ k, automatic (k_world k) 254);
  array ← checked (snprintf array 254 text);
  rc ← dns_send array CF_DNS_A;
  if negb (is_ok rc) then note (lit "Unable to resolve the discovered edge hostname.");; mret false else mret true.

Definition dotted (ip : list Z) : list Z :=
  match ip with
  | a :: b :: c :: d :: _ => decimal a ++ [46] ++ decimal b ++ [46] ++ decimal c ++ [46] ++ decimal d
  | _ => []
  end.

(** The answer to the second question. *)
Definition edge_address : KM bool :=
  l ← reads t_dns; a ← checked (dns_answer l);
  random ← system esp_random;
  r ← checked (records a !! Z.to_nat (random mod count a));
  t ← asks k_tunnel;
  ip ← checked (snprintf (t_edge_ip t) 16 (dotted (ip r)));
  sets (with_t_edge_ip ip);;
  does (close_socket (dns_socket l));; sets (over_dns (with_dns_socket (-1)));;
  release_answer;;
  now ← clock; sets (over_progress (with_connect_started_ms now));;
  c ← system esp_tls_init; set_tls c;;
  if bool_decide (c = None) then
    connect_diagnostic (-1) 0 (-1) (-1) false;; note (lit "TLS context allocation failed.");; mret false
  else
  deadline_in 30000;;
  advance_to CF_EVENT_DISCOVERED;;
  note (lit "Connecting to the discovered edge on TCP 7844.");; mret true.

(** After the start: the answer to the query that is under way. *)
Definition discover_answer : KM bool :=
  l ← reads t_dns;
  '(n, again, bytes) ← system (recv_packet (dns_socket l) CF_DNS_PACKET_MAX);
  packet ← checked (blit (dns_packet l) 0 bytes);
  sets (over_dns (with_dns_packet packet));;
  if (n <? 0) && again then
    now ← clock; p ← reads t_progress;
    if now <? deadline_ms p then mret true else note (lit "DNS query timed out.");; mret false
  else if n <=? 0 then note (lit "DNS query failed.");; mret false
  else
  owner0 ← asks (λ k, automatic (k_world k) 254);
  '(rc, a) ← checked (cf_dns_parse owner0 (Bytes (Some packet) n) (Some (dns_name l))
    (if negb (dns_stage l =? 0) then CF_DNS_A else CF_DNS_SRV) (dns_id l) (dns_answer l));
  sets (over_dns (with_dns_answer a));;
  if negb (is_ok rc) then note (lit "DNS response is invalid, truncated, or unsupported.");; mret false
  else if dns_stage l =? 0 then service_records else edge_address.

Definition discover : KM bool :=
  started ← reads (λ t, attempt_started (t_flags t));
  early ← (if negb (started : bool) then begin_discovery else mret None);
  match early with Some b => mret b | None => discover_answer end.

(** ** Connection *)

Definition CF_EDGE_TLS_NAME : list Z := lit "h2.cftunnel.com".

(** [t->tls] where the code uses it without a test. *)
Definition connection : KM tls := c ← asks k_tls; checked c.

Definition connect_failed (stage : esp_cf_connect_stage) : list Z :=
  lit "Connect failed at " ++ lit (esp_cf_connect_stage_name stage) ++ lit "; see structured connect diagnostics.".

Definition connected : KM bool :=
  c ← connection;
  fd ← asks (λ k, esp_tls_get_conn_sockfd c (k_world k));
  match fd with Some fd => does (set_no_delay fd) | None => mret tt end;;
  '(memory, upstream) ← system (λ w, let '(m, u, w) := allocate_session w in ((m, u), w));
  let '(rc, h) := cf_h2_create true true app_streams CF_H2_NGHEAP_MAX sizeof_cf_h2 memory upstream in
  set_h2 h;;
  if negb (is_ok rc) then note (lit "Not enough memory for HTTP/2.");; mret false else
  advance_to CF_EVENT_TLS_READY;;
  deadline_in 30000;;
  note (lit "TLS verified. Waiting for the edge HTTP/2 control stream.");; mret true.

Definition connect_tls : KM bool :=
  c ← connection;
  before_ ← asks (λ k, esp_tls_get_conn_state c (k_world k));
  t ← asks k_tunnel; host ← checked (c_string (t_edge_ip t));
  '(rc, saved_errno) ← system (λ w, let '(rc, e, w) := esp_tls_conn_new_async host CF_EDGE_PORT CF_EDGE_TLS_NAME c w in ((rc, e), w));
  after ← asks (λ k, esp_tls_get_conn_state c (k_world k));
  when (bool_decide (state (t_life t) = CF_CONNECT) && ((default ESP_TLS_INIT after =? ESP_TLS_HANDSHAKE) || (rc =? 1)))
    (advance_to CF_EVENT_CONNECTED);;
  now ← clock; p ← reads t_progress;
  let deadline := deadline_ms p <=? now in
  if (rc <? 0) || ((rc =? 0) && deadline) then
    connect_diagnostic rc saved_errno (default (-1) before_) (default (-1) after) deadline;;
    r ← reads t_report;
    note (connect_failed (d_stage (last_connect r)));; mret false
  else if rc =? 0 then mret true
  else connect_diagnostic rc saved_errno (default (-1) before_) (default (-1) after) false;; connected.

(** ** Traffic *)

Definition wants (n : Z) : bool := (n =? ESP_TLS_ERR_SSL_WANT_READ) || (n =? ESP_TLS_ERR_SSL_WANT_WRITE).

Definition code_text (text : string) (n : Z) : list Z := lit text ++ lit " (code " ++ decimal n ++ lit ").".

(** The loop that reads, at most [rounds] times; [None] ends the connection,
    otherwise TLS may wait to write. *)
Fixpoint read_input (rounds : nat) : KM (option bool) :=
  match rounds with
  | O => mret (Some false)
  | S rounds =>
      p ← reads t_progress;
      if negb (write_stalled_ms p =? 0) then mret (Some false) else
      c ← connection;
      '(n, bytes) ← system (λ w, let '(n, bytes, w) := esp_tls_conn_read c CF_H2_CHUNK w in ((n, bytes), w));
      if wants n then mret (Some (n =? ESP_TLS_ERR_SSL_WANT_WRITE)) else
      if n <=? 0 then note (code_text "Edge TLS read ended" n);; mret None else
      now ← clock;
      '(rc, used) ← session_receive bytes now;
      if negb (is_ok rc) || negb (used =? n) then note (lit "HTTP/2 protocol or memory limit reached.");; mret None
      else read_input rounds
  end.

(** The loop that writes; the second flag is set when the write waits for input. *)
Fixpoint write_output (rounds : nat) (waits : bool) : KM (option (bool * bool)) :=
  match rounds with
  | O => mret (Some (waits, false))
  | S rounds =>
      '(rc, out) ← session_output;
      if negb (is_ok rc) then note (lit "Unable to encode the HTTP/2 response.");; mret None else
      if len out =? 0 then mret (Some (waits, false)) else
      let chunk := if len out <? CF_H2_CHUNK then len out else CF_H2_CHUNK in
      c ← connection;
      m ← checked (ptr out); bytes ← checked (slice m 0 chunk);
      n ← system (esp_tls_conn_write c bytes);
      if wants n then
        p ← reads t_progress;
        when (write_stalled_ms p =? 0) (now ← clock; sets (over_progress (with_write_stalled_ms now)));;
        now ← clock; p ← reads t_progress;
        if 15000 <? u64 (now - write_stalled_ms p) then note (lit "TLS output stalled.");; mret None
        else mret (Some (n =? ESP_TLS_ERR_SSL_WANT_WRITE, n =? ESP_TLS_ERR_SSL_WANT_READ))
      else
      rc ← (if n <=? 0 then mret CF_ERR_STATE else session_sent n);
      if negb (is_ok rc) then note (code_text "TLS write failed" n);; mret None else
      sets (over_progress (with_write_stalled_ms 0));; write_output rounds waits
  end.

(** The session is over: the message, unless the tunnel stops itself. *)
Definition goaway_text (stats : cf_h2_stats) : option (list Z) :=
  if local_goaway stats then
    first ← rd (local_goaway_reason stats) 0;
    if negb (first =? 0) then reason ← c_string (local_goaway_reason stats); Some (lit "HTTP/2: " ++ reason)
    else Some (lit "Local HTTP/2 ended the connection (GOAWAY).")
  else Some (lit "The edge requested a new connection (GOAWAY).").

(** Timeouts of the registration: a message, or none. *)
Definition timed_out : KM (option string) :=
  t ← asks k_tunnel;
  early ← (if negb (registered (t_life t)) then now ← clock; mret (deadline_ms (t_progress t) <=? now) else mret false);
  if (early : bool) then mret (Some "Edge registration timed out.") else
  late ← (if bool_decide (state (t_life t) = CF_WAIT_CONFIG) then now ← clock; mret (deadline_ms (t_progress t) <=? now) else mret false);
  mret (if (late : bool) then Some "No ingress configuration received. Check the tunnel public hostname." else None).

(** The wait for the socket. *)
Definition wait_socket (waits needs_read : bool) : KM () :=
  c ← connection;
  fd ← asks (λ k, esp_tls_get_conn_sockfd c (k_world k));
  match fd with
  | Some fd => '(_, out) ← session_output; does (wait_ready fd ((negb (len out =? 0) && negb needs_read) || waits))
  | None => mret tt
  end.

(** After input was read. *)
Definition communicate_out (waits : bool) : KM bool :=
  in_session apply_config;;
  now ← clock;
  h ← asks k_h2; set_h2 (cf_h2_tick h now);;
  t ← asks k_tunnel;
  when (stopping (t_flags t) && bool_decide (rpc_state (t_rpc t) = CF_RPC_CLOSED) && (rpc_queued (t_rpc_link t) =? 0) && negb (goaway_sent (t_flags t)))
    (h ← asks k_h2; set_h2 (snd (cf_h2_shutdown h));; sets (over_flags (with_goaway_sent true)));;
  written ← write_output 8 waits;
  match written with
  | None => mret false
  | Some (waits, needs_read) =>
      late ← timed_out;
      match late with
      | Some text => note (lit text);; mret false
      | None => wait_socket waits needs_read;; mret true
      end
  end.

Definition communicate : KM bool :=
  input ← read_input 8;
  match input with
  | None => mret false
  | Some waits =>
      h ← asks k_h2; h ← checked h;
      t ← asks k_tunnel;
      when (peer_settings (h_stats h) && bool_decide (state (t_life t) = CF_HTTP2)) (advance_to CF_EVENT_HTTP2_READY);;
      if goaway (h_stats h) && negb (stopping (t_flags t)) then
        text ← checked (goaway_text (h_stats h)); note text;; mret false
      else if fault (t_flags t) then mret false
      else communicate_out waits
  end.

(** ** The loop *)

(** [reload]: start over with the new settings. *)
Definition reload_now : KM () :=
  close_connection;;
  sets (over_life (λ l, default l (cf_lifecycle_stop (Some l))));;
  sets (over_life (λ l, default l (snd (cf_lifecycle_start (Some l)))));;
  sets (over_flags (λ f, with_stopping false (with_settings_ready false f))).

(** [stop] with a registered session: say goodbye first. *)
Definition stop_gracefully : KM () :=
  array ← asks (λ k, automatic (k_world k) CF_RPC_TX_MAX);
  r ← reads t_rpc;
  '(rc, r, out, n) ← checked (cf_rpc_unregister (Some r) (Some array) CF_RPC_TX_MAX (Some 0));
  r ← checked r; out ← checked out; n ← checked n;
  sets (with_t_rpc r);;
  when (is_ok rc) (in_session (append_rpc out n);; mret tt);;
  checked (cf_secure_zero out CF_RPC_TX_MAX);;
  sets (over_flags (with_stopping true));;
  now ← clock; set_shared (with_shutdown_ms (u64 (now + 2000)));;
  sets (over_life (λ l, set_state l CF_STOPPING)).

(** The requests of the other tasks; [false] leaves the loop. *)
Definition take_requests : KM bool :=
  s ← asks k_shared;
  let reload := reload_requested s in let stop := stop_requested s in
  set_shared (with_reload_requested false);;
  when (reload && negb stop) reload_now;;
  t ← asks k_tunnel; h ← asks k_h2;
  if stop && negb (stopping (t_flags t)) then
    if bool_decide (is_Some h) && bool_decide (rpc_state (t_rpc t) = CF_RPC_REGISTERED) then stop_gracefully;; mret true
    else mret false
  else mret true.

(** The environment; [false] leaves the loop. *)
Definition observe_environment : KM bool :=
  t ← asks k_tunnel;
  e ← system (λ w, app_environment w (t_environment t));
  sets (with_t_environment e);;
  t ← asks k_tunnel; c ← asks k_tls;
  let ready := e_network_ready e && e_time_valid e in
  if negb ready && stopping (t_flags t) then mret false else
  when (negb ready && (bool_decide (is_Some c) || (0 <=? dns_socket (t_dns t)))) close_connection;;
  sets (over_life (λ l, default l (cf_lifecycle_environment (Some l) (e_network_ready e) (e_time_valid e))));;
  now ← clock;
  sets (over_life (λ l, default l (cf_lifecycle_tick (Some l) now)));;
  mret true.

Definition retry_unless (done_ : bool) : KM () := when (negb done_) retry.

(** The work of the state; [false] leaves the loop. *)
Definition work : KM bool :=
  t ← asks k_tunnel; h ← asks k_h2;
  match state (t_life t) with
  | CF_DISCOVERY => ok ← discover; retry_unless ok;; mret true
  | CF_CONNECT | CF_TLS => ok ← connect_tls; retry_unless ok;; mret true
  | _ =>
      if bool_decide (is_Some h) then
        ok ← communicate;
        if negb (ok : bool) then
          stop ← reads (λ t, stopping (t_flags t));
          if (stop : bool) then mret false else retry;; mret true
        else mret true
      else mret true
  end.

(** The end of an iteration; [false] leaves the loop. *)
Definition finish_iteration : KM bool :=
  t ← asks k_tunnel; s ← asks k_shared;
  over ← (if stopping (t_flags t) then
            now ← clock;
            mret ((shutdown_ms s <=? now) || (goaway_sent (t_flags t) && (control_stream (t_rpc_link t) =? 0)))
          else mret false);
  if (over : bool) then mret false else
  publish;;
  h ← asks k_h2;
  when (bool_decide (h = None)) (does (delay_ms (if attempt_started (t_flags t) then 10 else 250)));;
  mret true.

(** One iteration of the loop of [run]; [false] leaves it. *)
Definition run_iteration : KM bool :=
  go ← take_requests; if negb (go : bool) then mret false else
  go ← observe_environment; if negb (go : bool) then mret false else
  go ← work; if negb (go : bool) then mret false else
  finish_iteration.

(** Before and after the loop. *)
Definition run_start : KM () := sets (over_life (λ l, default l (snd (cf_lifecycle_start (Some l))))).

Definition run_end : KM () :=
  close_connection;;
  sets (over_life (λ l, default l (cf_lifecycle_stop (Some l))));;
  note (lit "Tunnel stopped.");;
  publish;;
  set_shared (with_running false).

End Task.
