(* ===== verification/TunnelApi.v ===== *)
(** The functions of the tunnel's owner (include/esp_cf_tunnel.h): creation,
    start, requests, destruction; and the life of the task among them. *)
From stdpp Require Import gmap.
From S2P Require Export Tunnel.
#[local] Open Scope Z_scope.

Definition ESP_OK : Z := 0.
Definition ESP_ERR_INVALID_ARG : Z := 0x102.
Definition ESP_ERR_INVALID_STATE : Z := 0x103.

(** The strings of [esp_cf_tunnel_config] and whether all its callbacks are
    set; its service and its number of streams are the application's. *)
Record tunnel_config := TunnelConfig { callbacks_set : bool; config_version : option (list Z); config_arch : option (list Z) }.

(** [!*s || strlen(s) > max]. *)
Definition bad_text (s : list Z) (max : Z) : option bool :=
  first ← rd s 0; if first =? 0 then Some true else n ← strlen s; Some (max <? n).

(** The fields after [calloc]. *)
Definition zero_tunnel : tunnel :=
  Tunnel zero_lifecycle zero_rpc (RemoteConfig false 0 (replicate 254 0) (replicate 64 0)) zero_credentials
    (RpcOptions (replicate 16 0) null_bytes null_bytes null_bytes 0 0 false 0)
    (replicate 254 0) (replicate 16 0) (Environment false false (replicate 4 0) (replicate 4 0))
    (RpcLink 0 (Framer None 0 0 0 0 0 CF_OK) (replicate (Z.to_nat CF_CAPNP_MESSAGE_MAX) 0) (replicate (Z.to_nat RPC_QUEUE) 0) 0)
    (ConfigLink 0 (replicate (Z.to_nat CF_CONFIG_MESSAGE_MAX) 0) 0 (replicate 128 0) 0 0 false false)
    (DnsLink 0 None (replicate (Z.to_nat CF_DNS_PACKET_MAX) 0) (replicate 254 0) 0 0)
    (Progress 0 0 0 0)
    (Report (replicate 128 0) (replicate 128 0) 0 0 zero_diagnostic zero_diagnostic)
    (Flags false false false false false false).

Definition zero_snapshot : esp_cf_tunnel_snapshot :=
  Snapshot CF_STOPPED false false false 0 0 0 (replicate 16 0) (replicate 32 0) (replicate 128 0) (replicate 128 0) 0 0 None 0 zero_diagnostic zero_diagnostic.

(** A random identifier, marked as a UUID of version 4. *)
Definition connector_uuid (random : list Z) : option (list Z) :=
  six ← rd random 6; id ← wr random 6 (Z.lor (Z.land six 15) 64);
  eight ← rd id 8; wr id 8 (Z.lor (Z.land eight 63) 128).

Section Api.
Context `{Network} `{JsonParser}.

(** The arguments that [esp_cf_tunnel_init] refuses. *)
Definition invalid_config (config : tunnel_config) : option bool :=
  if negb (callbacks_set config) then Some true else
  match config_version config, config_arch config with
  | Some ver, Some ar =>
      bad ← bad_text ver 63; if (bad : bool) then Some true else
      bad ← bad_text ar 63; if (bad : bool) then Some true else
      bad ← bad_text app_service CF_LOCAL_SERVICE_MAX; if (bad : bool) then Some true else
      Some (negb (app_streams =? 2) && negb (app_streams =? 4))
  | _, _ => Some true
  end.

(** [memory]: [calloc] succeeds; [random]: what [esp_fill_random] gives. *)
Definition esp_cf_tunnel_init (config : option tunnel_config) (out memory : bool) (random : list Z) (w : world) : option (Z * option task) :=
  if negb out then Some (ESP_ERR_INVALID_ARG, None) else
  match config with
  | None => Some (ESP_ERR_INVALID_ARG, None)
  | Some config =>
      invalid ← invalid_config config;
      if (invalid : bool) then Some (ESP_ERR_INVALID_ARG, None) else
      if negb memory then Some (ESP_ERR_NO_MEM, None) else
      let t := over_dns (with_dns_socket (-1)) zero_tunnel in
      let t := over_life (λ l, default l (cf_lifecycle_init (Some l))) t in
      let t := over_remote (λ r, default r (cf_config_init (Some r))) t in
      id ← connector_uuid random;
      ver ← config_version config; ar ← config_arch config;
      vn ← strlen ver; an ← strlen ar;
      let o := RpcOptions id null_bytes (Bytes (Some ver) vn) (Bytes (Some ar) an) 0 0 false (Z.lor CF_RPC_REMOTE_CONFIG CF_RPC_SERIALIZED_HEADERS) in
      let s := zero_snapshot in
      let s := Snapshot (n_state s) (n_settings_ready s) (n_registered s) (n_configured s) (-1) (n_attempts s) (n_retry_at_ms s) (n_edge_ip s)
        (n_location s) (n_message s) (n_last_failure s) (n_last_failure_ms s) (n_failures s) (n_http2 s) (n_task_stack_min s)
        (n_last_connect s) (n_last_connect_failure s) in
      Some (ESP_OK, Some (Task (with_t_options o t) w None None (Shared false false false 0 s)))
  end.

(** [created]: [xTaskCreate] succeeds. *)
Definition esp_cf_tunnel_start (k : option task) (created : bool) : Z * option task :=
  match k with
  | None => (ESP_ERR_INVALID_ARG, None)
  | Some k =>
      if running (k_shared k) then (ESP_ERR_INVALID_STATE, Some k) else
      let t := over_flags (with_stopping false) (k_tunnel k) in
      let s := k_shared k in
      (if created then ESP_OK else ESP_ERR_NO_MEM, Some (Task t (k_world k) (k_tls k) (k_h2 k) (with_running created (with_reload_requested false (with_stop_requested false s)))))
  end.

Definition esp_cf_tunnel_reload (k : option task) : option task :=
  match k with
  | None => None
  | Some k => let s := k_shared k in
      Some (Task (k_tunnel k) (k_world k) (k_tls k) (k_h2 k) (with_reload_requested true s))
  end.

Definition esp_cf_tunnel_stop (k : option task) : option task :=
  match k with
  | None => None
  | Some k => let s := k_shared k in
      Some (Task (k_tunnel k) (k_world k) (k_tls k) (k_h2 k) (with_stop_requested true s))
  end.

(** On success the tunnel is erased and freed: the task is gone, the world stays. *)
Definition esp_cf_tunnel_deinit (k : option task) : option (Z * option task * option world) :=
  match k with
  | None => Some (ESP_ERR_INVALID_ARG, None, None)
  | Some k =>
      if running (k_shared k) then Some (ESP_ERR_INVALID_STATE, Some k, Some (k_world k)) else
      '(_, k) ← close_connection k; Some (ESP_OK, None, Some (k_world k))
  end.

Definition esp_cf_tunnel_get_snapshot (k : option task) (out : option esp_cf_tunnel_snapshot) : option esp_cf_tunnel_snapshot :=
  match k, out with
  | Some k, Some _ => Some (snapshot (k_shared k))
  | _, _ => out
  end.

(** ** The task among its callers *)

(** Where the task is: not running, in its loop, or past it. *)
Inductive phase_of_task := Idle | Looping | Leaving.

(** One step of the system: an iteration of the loop, its start and end, or a
    call of another task between two iterations. *)
Inductive task_step : phase_of_task * task -> phase_of_task * task -> Prop :=
| StepStart k k' : snd (esp_cf_tunnel_start (Some k) true) = Some k' -> running (k_shared k) = false -> forall u k'',
    run_start k' = Some (u, k'') -> task_step (Idle, k) (Looping, k'')
| StepIterate k k' : run_iteration k = Some (true, k') -> task_step (Looping, k) (Looping, k')
| StepLeave k k' : run_iteration k = Some (false, k') -> task_step (Looping, k) (Leaving, k')
| StepEnd k u k' : run_end k = Some (u, k') -> task_step (Leaving, k) (Idle, k')
| StepReload p k k' : esp_cf_tunnel_reload (Some k) = Some k' -> task_step (p, k) (p, k')
| StepStop p k k' : esp_cf_tunnel_stop (Some k) = Some k' -> task_step (p, k) (p, k').

End Api.
