(* ===== verification/TunnelSpec.v ===== *)
(** The tunnel task keeps itself in order: whatever the network, the peer and
    the application do, an iteration returns, touches no byte outside its
    objects, and leaves the tunnel in a state that fits its resources. *)
From stdpp Require Import gmap.
From S2P Require Export TunnelApi.
#[local] Open Scope Z_scope.

(** ** What the task relies on in the system *)

(** The world stays in order; what is read fits the buffer; what the
    application fills keeps its size; nghttp2 makes callbacks as documented,
    and the output it hands out is an object. *)
Class NetworkLaws (header : Z) `{Network} `{!ApplicationLaws header} `{JsonParser} := {
  udp_socket_law w : world_ok w -> world_ok (snd (udp_socket w));
  close_socket_law fd w : world_ok w -> world_ok (close_socket fd w);
  set_nonblocking_law fd w : world_ok w -> world_ok (snd (set_nonblocking fd w));
  connect_resolver_law fd a w : world_ok w -> world_ok (snd (connect_resolver fd a w));
  send_packet_law fd bytes w : world_ok w -> world_ok (snd (send_packet fd bytes w));
  recv_packet_law fd cap w n again bytes w' : recv_packet fd cap w = (n, again, bytes, w') -> world_ok w -> 0 <= cap ->
    world_ok w' /\ bytes_ok bytes /\ zlen bytes = Z.max 0 n /\ n <= cap;
  tls_init_law w : world_ok w -> world_ok (snd (esp_tls_init w));
  tls_destroy_law c w : world_ok w -> world_ok (esp_tls_conn_destroy c w);
  tls_new_law host port name c w rc e w' : esp_tls_conn_new_async host port name c w = (rc, e, w') -> world_ok w -> world_ok w' /\ rc <= 1;
  tls_read_law c cap w n bytes w' : esp_tls_conn_read c cap w = (n, bytes, w') -> world_ok w -> 0 <= cap ->
    world_ok w' /\ bytes_ok bytes /\ zlen bytes = Z.max 0 n /\ n <= cap;
  tls_write_law c bytes w : world_ok w -> world_ok (snd (esp_tls_conn_write c bytes w));
  no_delay_law fd w : world_ok w -> world_ok (set_no_delay fd w);
  wait_ready_law fd b w : world_ok w -> world_ok (wait_ready fd b w);
  system_error_law c w : world_ok w -> world_ok (snd (get_and_clear_system_error c w));
  last_error_law c w : world_ok w -> world_ok (snd (get_and_clear_last_error c w));
  random_law w : world_ok w -> world_ok (snd (esp_random w));
  time_of_day_law w : world_ok w -> world_ok (snd (time_of_day w));
  allocate_answer_law w : world_ok w -> world_ok (snd (allocate_answer w));
  free_answer_law w : world_ok w -> world_ok (free_answer w);
  allocate_session_law w : world_ok w -> world_ok (snd (allocate_session w));
  delay_law ms w : world_ok w -> world_ok (delay_ms ms w);
  environment_law w e e' w' : app_environment w e = (e', w') -> world_ok w -> zlen (e_local_ip e) = 4 -> zlen (e_dns_ip e) = 4 ->
    world_ok w' /\ zlen (e_local_ip e') = 4 /\ bytes_ok (e_local_ip e') /\ zlen (e_dns_ip e') = 4;
  credentials_law w c host rc c' host' w' : app_credentials w c host = (rc, c', host', w') -> world_ok w -> credentials_ok c -> zlen host = 254 ->
    world_ok w' /\ credentials_ok c' /\ zlen host' = 254;
  receive_run_law m a h bytes now : has_session m = true -> owner_ok header m a -> session_ok h -> is_ok (h_error h) = true -> bytes_ok bytes ->
    run_ok a (with_now now h) (lib_events (receive_run a h bytes));
  output_run_law m a h run p : output_run a h = (run, p) -> has_session m = true -> owner_ok header m a -> session_ok h ->
    (is_ok (h_error h) = true -> len (h_pending h) = 0 -> run_ok a h (lib_events run)) /\
    (0 <= lib_result run -> in_object (Bytes p (lib_result run)))
}.

(** ** The invariant *)

(** All bytes are zero. *)
Definition zeroed (m : list Z) : Prop := Forall (λ c, c = 0) m.

(** Nothing of a session is left: no registration, no configuration, and no
    byte of what was received or queued. *)
Record wiped (t : tunnel) : Prop := {
  wi_rpc : t_rpc t = zero_rpc;
  wi_remote : valid (t_remote t) = false;
  wi_frame : zeroed (rpc_frame (t_rpc_link t));
  wi_queue : zeroed (rpc_queue (t_rpc_link t)) /\ rpc_queued (t_rpc_link t) = 0;
  wi_config : zeroed (config_bytes (t_config_link t)) /\ config_used (t_config_link t) = 0;
  wi_streams : control_stream (t_rpc_link t) = 0 /\ config_stream (t_config_link t) = 0
}.

(** No attempt is under way: no credentials, no socket, no answer. *)
Record at_rest (t : tunnel) : Prop := {
  ar_started : attempt_started (t_flags t) = false;
  ar_credentials : t_credentials t = zero_credentials;
  ar_socket : dns_socket (t_dns t) < 0;
  ar_answer : dns_answer (t_dns t) = None
}.

(** Without a session the state says which resources there are. *)
Definition state_fits (t : tunnel) (connecting : bool) : Prop :=
  match state (t_life t) with
  | CF_STOPPED | CF_WAIT_NETWORK | CF_WAIT_TIME | CF_BACKOFF | CF_AUTH_FAILED => connecting = false /\ at_rest t
  | CF_DISCOVERY => connecting = false /\ (if attempt_started (t_flags t) then 0 <= dns_socket (t_dns t) else at_rest t)
  | CF_CONNECT | CF_TLS => connecting = true /\ attempt_started (t_flags t) = true
  | _ => False
  end.

Section Invariant.
Context `{Network} `{JsonParser} {header : Z} `{!ApplicationLaws header}.

Definition mode_of (k : task) : mode :=
  match k_h2 k with Some _ => if stopping (t_flags (k_tunnel k)) then Stopping else Connected | None => Unconnected end.

(** The parts in order, each for itself. *)
Record parts_ok (k : task) : Prop := {
  po_world : world_ok (k_world k);
  po_tunnel : tunnel_ok (mode_of k) (k_tunnel k);
  po_session : forall h, k_h2 k = Some h -> session_ok h /\ is_Some (k_tls k)
}.

(** The state fits the resources. *)
Record task_ok (k : task) : Prop := {
  to_parts : parts_ok k;
  to_idle : k_h2 k = None -> wiped (k_tunnel k) /\ stopping (t_flags (k_tunnel k)) = false /\
    state_fits (k_tunnel k) (bool_decide (is_Some (k_tls k)))
}.
End Invariant.

(** What a step without traffic leaves alone. *)
Definition frame (t t' : tunnel) : Prop :=
  t_life t' = t_life t /\ t_rpc t' = t_rpc t /\ t_remote t' = t_remote t /\ t_credentials t' = t_credentials t /\
  t_rpc_link t' = t_rpc_link t /\ t_config_link t' = t_config_link t /\ t_flags t' = t_flags t.

#[export] Instance frame_refl : Reflexive frame.
Proof. by intros t. Qed.

#[export] Instance frame_trans : Transitive frame.
Proof. intros t1 t2 t3 (? & ? & ? & ? & ? & ? & ?) (? & ? & ? & ? & ? & ? & ?); repeat split; congruence. Qed.

(** ** Updates of a tunnel in order *)

Lemma ok_report {m} g t : tunnel_ok m t -> message_text (g (t_report t)) = message_text (t_report t) -> text_array 128 (last_failure (g (t_report t))) ->
  tunnel_ok m (over_report g t).
Proof. intros [] Hg Hl; split; try done; cbn; [by rewrite Hg|]; split; [tauto|done]. Qed.

Lemma ok_edge_ip {m} x t : tunnel_ok m t -> text_array 16 x -> tunnel_ok m (with_t_edge_ip x t).
Proof. intros [] Hx; split; try done; split; [done|tauto]. Qed.

Lemma ok_dns {m} g t : tunnel_ok m t -> dns_ok (g (t_dns t)) -> tunnel_ok m (over_dns g t).
Proof. intros [] Hg; by split. Qed.

Lemma dns_socket_ok {m} x t : tunnel_ok m t -> tunnel_ok m (over_dns (with_dns_socket x) t).
Proof. intros Ht; apply ok_dns; [done|apply Ht]. Qed.

Lemma dns_answer_ok {m} x t : tunnel_ok m t -> tunnel_ok m (over_dns (with_dns_answer x) t).
Proof. intros Ht; apply ok_dns; [done|apply Ht]. Qed.

Lemma dns_packet_ok {m} x t : tunnel_ok m t -> zlen x = CF_DNS_PACKET_MAX -> tunnel_ok m (over_dns (with_dns_packet x) t).
Proof. intros Ht Hz; apply ok_dns; [done|]; split; [done|apply Ht]. Qed.

Lemma dns_name_ok {m} x t : tunnel_ok m t -> text_array 254 x -> tunnel_ok m (over_dns (with_dns_name x) t).
Proof. intros Ht Hx; apply ok_dns; [done|]; split; [apply Ht|done]. Qed.

(** ** Steps *)

Section Steps.
Context (header : Z) `{Network} `{!ApplicationLaws header} `{!JsonParser} `{!JsonParserLaws header} `{!NetworkLaws header}.

(** The state after a step: the parts in order, the same connection, this tunnel. *)
Definition moved (k k' : task) (t : tunnel) : Prop :=
  parts_ok (header := header) k' /\ k_tls k' = k_tls k /\ k_h2 k' = k_h2 k /\ k_shared k' = k_shared k /\ k_tunnel k' = t /\ mode_of k' = mode_of k.

Abbreviation parts := (parts_ok (header := header)).

Lemma moved_here k : parts k -> moved k k (k_tunnel k).
Proof. by intros Hk. Qed.

Lemma on_reads {A} (f : tunnel -> A) k0 k t (Q : A -> task -> Prop) : moved k0 k t -> Q (f t) k -> runs (reads f) k Q.
Proof. intros (_ & _ & _ & _ & Et & _) HQ; apply runs_asks; by rewrite Et. Qed.

Lemma on_tunnel k0 k t (Q : tunnel -> task -> Prop) : moved k0 k t -> Q t k -> runs (asks k_tunnel) k Q.
Proof. intros (_ & _ & _ & _ & Et & _) HQ; apply runs_asks; by rewrite Et. Qed.

Lemma on_tls k0 k t (Q : option tls -> task -> Prop) : moved k0 k t -> Q (k_tls k0) k -> runs (asks k_tls) k Q.
Proof. intros (_ & Et & _) HQ; apply runs_asks; by rewrite Et. Qed.

Lemma on_h2 k0 k t (Q : option cf_h2 -> task -> Prop) : moved k0 k t -> Q (k_h2 k0) k -> runs (asks k_h2) k Q.
Proof. intros (_ & _ & Et & _) HQ; apply runs_asks; by rewrite Et. Qed.

Lemma moved_parts k0 k t : moved k0 k t -> parts k /\ tunnel_ok (mode_of k0) t /\ world_ok (k_world k).
Proof.
  intros (Hk & _ & _ & _ & Et & Em); pose proof (po_tunnel _ Hk) as Ht; rewrite Em, Et in Ht; split; [done|]; split; [done|apply Hk].
Qed.

(** The tunnel says which mode it is in. *)
Lemma mode_same k0 t w c s : tunnel_ok (mode_of k0) t -> mode_of (Task t w c (k_h2 k0) s) = mode_of k0.
Proof.
  unfold mode_of; cbn; destruct (k_h2 k0); [|done]; intros Ht; destruct (stopping (t_flags (k_tunnel k0))); destruct (tk_session _ _ Ht eq_refl) as (_ & _ & ->); done.
Qed.

Lemma on_sets f k0 k t (Q : () -> task -> Prop) : moved k0 k t -> tunnel_ok (mode_of k0) (f t) ->
  (forall k', moved k0 k' (f t) -> Q tt k') -> runs (sets f) k Q.
Proof.
  intros (Hk & Etls & Eh & Es & Et & Em) Hf HQ; apply runs_modify, HQ; rewrite Et, Eh; pose proof (mode_same k0 (f t) (k_world k) (k_tls k) (k_shared k) Hf) as E2.
  split; [|by split_and?]; destruct Hk as [Hw Ht Hs]; split; cbn; [done|by rewrite E2|]; intros h Eh'; rewrite <- Eh in Eh'; by apply Hs.
Qed.

Lemma on_system {A} (f : world -> A * world) k0 k t (Q : A -> task -> Prop) : moved k0 k t -> (world_ok (k_world k) -> world_ok (snd (f (k_world k)))) ->
  (forall k', moved k0 k' t -> Q (fst (f (k_world k))) k') -> runs (system f) k Q.
Proof.
  intros (Hk & Etls & Eh & Es & Et & Em) Hf HQ; apply runs_calling; specialize (Hf (po_world _ Hk)); destruct (f (k_world k)) as [x w]; cbn [fst snd] in *; apply HQ.
  split; [|by split_and?]; destruct Hk as [Hw Ht Hs]; by split.
Qed.

Lemma on_does f k0 k t (Q : () -> task -> Prop) : moved k0 k t -> (world_ok (k_world k) -> world_ok (f (k_world k))) ->
  (forall k', moved k0 k' t -> Q tt k') -> runs (does f) k Q.
Proof. intros Hk Hf HQ; by apply (on_system _ k0 k t). Qed.

Lemma on_clock k0 k t (Q : Z -> task -> Prop) : moved k0 k t -> (forall now k', moved k0 k' t -> Q now k') -> runs clock k Q.
Proof.
  intros Hk HQ; unfold clock; apply runs_bind, (on_system _ k0 k t); [done|apply time_law|]; intros k' Hm; by apply runs_ret, HQ.
Qed.

Lemma on_note text k0 k t (Q : () -> task -> Prop) : moved k0 k t ->
  (forall k' x, moved k0 k' (over_report (with_message_text x) t) -> Q tt k') -> runs (note text) k Q.
Proof.
  intros Hk HQ; destruct (moved_parts _ _ _ Hk) as (_ & Ht & _); unfold note; apply runs_bind, (on_tunnel k0 k t); [done|].
  destruct (message_spec text t) as (x & E & Hx); [apply Ht|]; apply runs_bind; eapply runs_checked; [exact E|].
  apply (on_sets _ k0 k t); [done|by apply ok_message|]; intros k' Hk'; by eapply HQ.
Qed.

Lemma on_deadline ms k0 k t (Q : () -> task -> Prop) : moved k0 k t ->
  (forall k' x, moved k0 k' (over_progress (with_deadline_ms x) t) -> Q tt k') -> runs (deadline_in ms) k Q.
Proof.
  intros Hk HQ; unfold deadline_in; apply runs_bind, (on_clock k0 k t); [done|]; intros now k1 Hk1; destruct (moved_parts _ _ _ Hk1) as (_ & Ht & _).
  apply (on_sets _ k0 k1 t); [done|by apply ok_progress|]; intros k2 Hk2; by eapply HQ.
Qed.

(** A C string of an array can be read. *)
Lemma on_c_string size m k (Q : list Z -> task -> Prop) : text_array size m -> (forall text, Q text k) -> runs (checked (c_string m)) k Q.
Proof.
  intros [_ Hnul] HQ; destruct (terminated_cstr m Hnul) as [text Ht]; eapply runs_checked; [by apply c_string_spec|done].
Qed.

Lemma on_snprintf m size text k (Q : list Z -> task -> Prop) : zlen m = size -> 1 <= size -> (forall x, text_array size x -> Q x k) ->
  runs (checked (snprintf m size text)) k Q.
Proof.
  intros Hm Hs HQ; destruct (snprintf_spec m size text) as (x & E & Hz & Hnul); [lia|]; eapply runs_checked; [exact E|]; apply HQ; split; [lia|done].
Qed.

(** ** Reports *)

Lemma on_publish k0 k t (Q : () -> task -> Prop) : moved k0 k t ->
  (forall k', parts k' -> k_tls k' = k_tls k0 -> k_h2 k' = k_h2 k0 -> k_tunnel k' = t ->
     stop_requested (k_shared k') = stop_requested (k_shared k0) -> running (k_shared k') = running (k_shared k0) -> shutdown_ms (k_shared k') = shutdown_ms (k_shared k0) -> Q tt k') ->
  runs publish k Q.
Proof.
  intros Hk HQ; destruct (moved_parts _ _ _ Hk) as (Hp & Ht & _); destruct (tk_texts _ _ Ht) as [Hip Hf]; pose proof (tk_message _ _ Ht) as Hm.
  destruct (tk_rpc _ _ Ht) as ((_ & _ & Hl & Hln) & _); unfold publish.
  apply runs_bind, (on_tunnel k0 k t), runs_bind, (on_h2 k0 k t); [done..|].
  apply runs_bind, (on_c_string _ _ _ _ Hip); intros ip; apply runs_bind, on_snprintf; [done|done|]; intros ip' _.
  apply runs_bind, (on_c_string 32 _ _ _ (conj Hl Hln)); intros place; apply runs_bind, on_snprintf; [done|done|]; intros place' _.
  apply runs_bind, (on_c_string _ _ _ _ Hm); intros text; apply runs_bind, on_snprintf; [done|done|]; intros text' _.
  apply runs_bind, (on_c_string _ _ _ _ Hf); intros why; apply runs_bind, on_snprintf; [done|done|]; intros why' _.
  apply runs_bind, runs_asks, runs_modify; destruct Hk as (_ & Et & Eh & Es & Ek & _); destruct Hp; apply HQ; cbn; rewrite ?Es; try done; by split.
Qed.

(** ** Discovery *)

Lemma on_dns_send name type k0 k t (Q : cf_result -> task -> Prop) : moved k0 k t -> 0 ∈ name -> type = CF_DNS_A \/ type = CF_DNS_SRV ->
  (forall rc k' t', moved k0 k' t' -> frame t t' -> (rc = CF_OK -> 0 <= dns_socket (t_dns t')) -> Q rc k') ->
  runs (dns_send name type) k Q.
Proof.
  intros Hk Hname Htype HQ; destruct (moved_parts _ _ _ Hk) as (_ & Ht & _); destruct (tk_dns _ _ Ht) as (Hpz & Hnz & Hn0); pose proof (tk_dns_ip _ _ Ht) as Hip.
  unfold dns_send; apply runs_bind, (on_reads _ k0 k t); [done|]; apply runs_bind, runs_mono with (Q := λ _ k', moved k0 k' t).
  { apply runs_when; [intros _|done]; apply (on_does _ k0 k t); [done|apply close_socket_law|done]. }
  intros _ k1 Hk1; apply runs_bind, (on_system _ k0 k1 t); [done|apply udp_socket_law|]; intros k2 Hk2; set (fd := fst (udp_socket (k_world k1))).
  apply runs_bind, (on_sets _ k0 k2 t); [done|by apply dns_socket_ok|]; intros k3 Hk3; destruct (Z.ltb_spec fd 0) as [|Hfd]; [by eapply runs_ret, HQ|].
  apply runs_bind; eapply on_reads; [exact Hk3|]; apply runs_bind; eapply runs_checked; [apply slice_sub; cbn; lia|].
  apply runs_bind; eapply on_system; [exact Hk3|apply set_nonblocking_law|]; intros k4 Hk4; destruct (_ <? 0); [by eapply runs_ret, HQ|].
  apply runs_bind; eapply on_system; [exact Hk4|apply connect_resolver_law|]; intros k5 Hk5; destruct (negb _); [by eapply runs_ret, HQ|].
  apply runs_bind; eapply on_system; [exact Hk5|apply random_law|]; intros k6 Hk6; set (random := fst (esp_random (k_world k5))).
  destruct (moved_parts _ _ _ Hk6) as (_ & Ht6 & _); apply runs_bind; eapply on_sets; [exact Hk6|apply ok_dns; [done|apply Ht6]|]; intros k7 Hk7.
  destruct (moved_parts _ _ _ Hk7) as (_ & Ht7 & _); destruct (terminated_cstr name Hname) as [text Htext].
  apply runs_bind; eapply runs_checked; [by apply c_string_spec|]; apply runs_bind, on_snprintf; [done|done|]; intros copy Hcopy.
  apply runs_bind; eapply on_sets; [exact Hk7|by apply dns_name_ok|]; intros k8 Hk8; destruct (moved_parts _ _ _ Hk8) as (_ & Ht8 & _).
  destruct (query_spec name text type (u16 random) (dns_packet (t_dns t)) CF_DNS_PACKET_MAX 0 Htext Htype) as (rc & packet & n & E & Hz & Hq); [lia|].
  apply runs_bind; eapply runs_checked; [exact E|]; do 2 (apply runs_bind; eapply runs_checked; [reflexivity|]).
  apply runs_bind; eapply on_sets; [exact Hk8|apply dns_packet_ok; [done|lia]|]; intros k9 Hk9.
  destruct (negb (is_ok rc)) eqn:Erc; [eapply runs_ret, HQ; [exact Hk9|done|by intros ->]|].
  assert (0 <= n <= CF_DNS_PACKET_MAX) as Hn.
  { unfold CF_DNS_PACKET_MAX, CF_DNS_NAME_MAX in *; destruct (_ || _) eqn:El; [lia|]; apply orb_false_iff in El as [_ El]; pose proof (zlen_nonneg text).
    destruct (labels_of text); destruct Hq as (_ & ? & _) || destruct Hq as (_ & ?); lia. }
  apply runs_bind; eapply runs_checked; [apply slice_sub; lia|].
  apply runs_bind; eapply on_system; [exact Hk9|apply send_packet_law|]; intros k10 Hk10; destruct (negb (_ =? n)); [by eapply runs_ret, HQ|].
  apply runs_bind; eapply on_deadline; [exact Hk10|]; intros k11 x Hk11; eapply runs_ret, HQ; [exact Hk11|done|done].
Qed.

Lemma capture_world c rc e b a d w : world_ok w -> world_ok (snd (cf_tls_diag_capture c rc e b a d w)).
Proof.
  intros Hw; unfold cf_tls_diag_capture; destruct (ssl_details c rc w) as [alert ver]; unfold recorded_errors; destruct c as [c|]; [|done].
  destruct (has_error_handle c w); [|done]; pose proof (system_error_law c w Hw) as Hw1; destruct (get_and_clear_system_error c w) as [[ok sys] w1].
  pose proof (last_error_law c w1 Hw1) as Hw2; destruct (get_and_clear_last_error c w1) as [[[e1 e2] e3] w2]; done.
Qed.

Lemma capture_ip c rc e b a d w : d_edge_ip (fst (cf_tls_diag_capture c rc e b a d w)) = replicate 16 0.
Proof.
  unfold cf_tls_diag_capture; destruct (ssl_details c rc w) as [alert ver]; by destruct (recorded_errors c w) as [[[[[? ?] ?] ?] ?] ?].
Qed.

Lemma on_diagnostic rc e b a d k0 k t (Q : () -> task -> Prop) : moved k0 k t ->
  (forall k' t', moved k0 k' t' -> frame t t' -> t_dns t' = t_dns t -> Q tt k') -> runs (connect_diagnostic rc e b a d) k Q.
Proof.
  intros Hk HQ; destruct (moved_parts _ _ _ Hk) as (_ & Ht & _); unfold connect_diagnostic; apply runs_bind; eapply on_tls; [exact Hk|].
  apply runs_bind; eapply on_system; [exact Hk|apply capture_world|]; intros k1 Hk1; set (diag := fst (cf_tls_diag_capture _ _ _ _ _ _ _)).
  assert (d_edge_ip diag = replicate 16 0) as Hip by apply capture_ip.
  apply runs_bind; eapply on_clock; [exact Hk1|]; intros now k2 Hk2; apply runs_bind; eapply on_system; [exact Hk2|apply time_of_day_law|]; intros k3 Hk3.
  apply runs_bind; eapply on_tunnel; [exact Hk3|]; apply runs_bind, runs_asks, runs_bind, (on_c_string 16); [apply Ht|]; intros ip.
  apply runs_bind, on_snprintf; [by rewrite Hip|done|]; intros ip' _.
  apply runs_bind; eapply on_sets; [exact Hk3|apply ok_report; [done|done|apply Ht]|]; intros k4 Hk4; destruct (moved_parts _ _ _ Hk4) as (_ & Ht4 & _).
  apply runs_when; intros _; [|by eapply HQ]; eapply on_sets; [exact Hk4|apply ok_report; [done|done|apply Ht4]|]; intros k5 Hk5; by eapply HQ.
Qed.

(** ** Closing *)

(** A tunnel without its session. *)
Record closed (t t' : tunnel) : Prop := {
  cl_life : t_life t' = t_life t;
  cl_stopping : stopping (t_flags t') = stopping (t_flags t);
  cl_wiped : wiped t';
  cl_rest : at_rest t';
  cl_ok l : life_inv l -> configured l = false -> tunnel_ok Unconnected (with_t_life l t')
}.

(** The parts of a tunnel that do not depend on its flags and its life. *)
Definition fields_ok (t : tunnel) : Prop := exists m l f, tunnel_ok m (with_t_life l (with_t_flags f t)).

Lemma wipe_rpc_spec l : rpc_link_ok l -> exists frame queue, wipe_rpc l = Some (RpcLink 0 (framer l) frame queue 0) /\
  zlen frame = CF_CAPNP_MESSAGE_MAX /\ zlen queue = RPC_QUEUE /\ zeroed frame /\ zeroed queue.
Proof.
  intros (Hf & Hq & _); unfold wipe_rpc; destruct (erase_spec (rpc_frame l) CF_CAPNP_MESSAGE_MAX) as (m & E & Hm & _ & Em); [by rewrite Hf|].
  destruct (erase_spec (rpc_queue l) RPC_QUEUE) as (q & Eq & Hq' & _ & Emq); [by rewrite Hq|].
  rewrite E, Eq; cbn [mbind option_bind]; exists m, q; split; [done|]; split; [lia|]; split; [lia|].
  rewrite Em, Emq, !drop_ge, !app_nil_r by (unfold zlen in *; lia); split; by apply Forall_replicate.
Qed.

Lemma wipe_config_spec l : config_link_ok l -> exists bytes, wipe_config l = Some (ConfigLink 0 bytes 0 (config_reply l) 0 0 false false) /\
  zlen bytes = CF_CONFIG_MESSAGE_MAX /\ zeroed bytes.
Proof.
  intros (Hz & Hb & _); unfold wipe_config; destruct (erase_spec (config_bytes l) CF_CONFIG_MESSAGE_MAX) as (m & E & Hm & _ & Em); [by rewrite Hz|].
  rewrite E; cbn [mbind option_bind]; exists m; split; [done|]; split; [lia|]; rewrite Em, drop_ge, app_nil_r by (unfold zlen in *; lia); by apply Forall_replicate.
Qed.

Lemma on_forget k (Q : () -> task -> Prop) : world_ok (k_world k) -> k_h2 k = None -> fields_ok (k_tunnel k) -> closing (t_flags (k_tunnel k)) = false ->
  dns_socket (t_dns (k_tunnel k)) < 0 -> dns_answer (t_dns (k_tunnel k)) = None ->
  (forall k', k_world k' = k_world k -> k_tls k' = k_tls k -> k_h2 k' = None -> k_shared k' = k_shared k -> closed (k_tunnel k) (k_tunnel k') -> Q tt k') ->
  runs forget k Q.
Proof.
  intros Hw Hh (m & l0 & f0 & Ht) Hcl Hsock Hans HQ; destruct Ht as [_ _ _ _ _ _ _ _ _ Hopt Hhost Hip Hrl Hcfg Hmsg Htxt Hdns Hdip]; cbn in *.
  unfold forget; do 3 apply runs_bind, runs_modify; apply runs_bind, runs_asks; cbn.
  destruct (wipe_rpc_spec _ Hrl) as (fr & q & E & Hf & Hq & Hzf & Hzq); apply runs_bind; eapply runs_checked; [exact E|].
  apply runs_bind, runs_modify, runs_bind, runs_asks; cbn; destruct (wipe_config_spec _ Hcfg) as (bytes & Ec & Hb & Hzb).
  apply runs_bind; eapply runs_checked; [exact Ec|]; apply runs_bind, runs_modify, runs_bind, runs_modify, runs_modify, HQ; [reflexivity|reflexivity|exact Hh|reflexivity|].
  split; [reflexivity|reflexivity| | |]; cbn.
  - by split.
  - by split.
  - intros l Hl Hconf; apply Build_tunnel_ok; cbn [t_life t_rpc t_remote t_credentials t_options t_hostname t_environment t_rpc_link t_config_link t_dns t_report t_flags
      with_t_life with_t_rpc with_t_remote with_t_credentials with_t_rpc_link with_t_config_link over_flags with_t_flags over_progress with_t_progress t_edge_ip].
    + exact Hl.
    + exact Hcl.
    + done.
    + done.
    + done.
    + by rewrite Hconf.
    + apply zero_rpc_inv.
    + split; [split; reflexivity|]; by split.
    + apply zero_credentials_ok.
    + exact Hopt.
    + split; [apply Hhost|discriminate].
    + exact Hip.
    + split; [exact Hf|]; split; [exact Hq|]; split; [done|]; by intros [].
    + destruct Hcfg as (_ & _ & _ & Hr & _); split; [exact Hb|]; split; [eapply Forall_impl; [exact Hzb|]; intros ? ->; done|].
      split; [done|]; split; [exact Hr|]; by repeat (split; [done|]).
    + exact Hmsg.
    + exact Htxt.
    + exact Hdns.
    + exact Hdip.
Qed.

(** Destroying the session closes its streams, one after another. *)
Lemma destroy_spec i n : forall a h, owner_ok header Closing a -> h2_inv h ->
  exists a' h', destroy_loop a h n i = Some (a', h') /\ owner_ok header Closing a' /\ still (o_tunnel a) (o_tunnel a').
Proof.
  revert i; induction n as [|n IH]; intros i a h Ha Hi; cbn [destroy_loop]; [by exists a, h|].
  destruct (Z.eqb_spec (s_id (slot h i)) 0) as [|Hid]; [by apply IH|].
  destruct (keep_h2_closed header Closing h Hi (s_id (slot h i)) NGHTTP2_CANCEL _ (owner_lent header Closing a h Ha) Hid) as ([] & s & E & Hs & Hst).
  cbn [H2.client_closed tunnel_client]; rewrite E; cbn [mbind option_bind]; destruct (lent_owner header Closing h s Hs) as [Ha' Hops].
  destruct (IH (S i) (Owner (l_tunnel s) (l_world s)) (l_h2 s) Ha') as (a2 & h2 & -> & Ha2 & Hst2).
  { eapply inv_rel; [eapply client_ops_rel; [exact Hops|apply Hi]|done]. }
  exists a2, h2; split; [done|]; split; [done|]; destruct Hst as (? & ? & ?), Hst2 as (? & ? & ?); cbn in *; repeat split; congruence.
Qed.

(** The connection can be closed: what its session does then is harmless. *)
Definition closable (k : task) : Prop :=
  world_ok (k_world k) /\ closing (t_flags (k_tunnel k)) = false /\
  match k_h2 k with
  | Some h => h2_inv h /\ tunnel_ok Closing (over_flags (with_closing true) (k_tunnel k))
  | None => fields_ok (k_tunnel k)
  end.

Lemma parts_closable k : parts k -> closable k.
Proof.
  intros [Hw Ht Hs]; split; [done|]; split; [rewrite (tk_closing _ _ Ht); unfold mode_of; by repeat case_match|].
  destruct (k_h2 k) as [h|] eqn:E.
  - split; [by apply (Hs h)|]; assert (mode_of k <> Unconnected) as Hm by (unfold mode_of; rewrite E; by case_match).
    destruct Ht as [Hl _ Hst _ Hf Hc Hr Hrm Hcr Ho Hh Hip Hrl Hcl Htm Htx Hd Hdi]; apply Build_tunnel_ok; try assumption; try done.
    intros _; by apply Hst.
  - exists (mode_of k), (t_life (k_tunnel k)), (t_flags (k_tunnel k)); by destruct k as [[]].
Qed.

(** Closing does not depend on the state the attempt ends in. *)
Lemma closable_life l k : closable k -> life_inv l -> configured l = false -> state l <> CF_HTTP2 ->
  closable (Task (with_t_life l (k_tunnel k)) (k_world k) (k_tls k) (k_h2 k) (k_shared k)).
Proof.
  intros (Hw & Hc & Hs) Hl Hconf Hst; split; [done|]; split; [done|]; cbn; destruct (k_h2 k) as [h|].
  - destruct Hs as [Hi [? ? ? ? ? ? ? ? ? ? ? ? ? ? ? ? ? ?]]; split; [done|]; apply Build_tunnel_ok; try assumption; try done; cbn.
    by rewrite Hconf.
  - destruct Hs as (m & l0 & f0 & Ht); by exists m, l0, f0.
Qed.

Lemma closable_dns g k w : closable k -> world_ok w -> (forall l, dns_ok l -> dns_ok (g l)) ->
  closable (Task (over_dns g (k_tunnel k)) w (k_tls k) (k_h2 k) (k_shared k)).
Proof.
  intros (Hw & Hc & Hs) Hw' Hg; split; [done|]; split; [done|]; cbn; destruct (k_h2 k) as [h|].
  - destruct Hs as [Hi Ht]; split; [done|]; apply (ok_dns g (over_flags (with_closing true) (k_tunnel k)) Ht), Hg, (tk_dns _ _ Ht).
  - destruct Hs as (m & l0 & f0 & Ht); exists m, l0, f0; apply (ok_dns g _ Ht), Hg, (tk_dns _ _ Ht).
Qed.

Lemma on_drop_session k (Q : () -> task -> Prop) : closable k ->
  (forall k', world_ok (k_world k') -> k_tls k' = k_tls k -> k_h2 k' = None -> k_shared k' = k_shared k ->
     fields_ok (k_tunnel k') -> closing (t_flags (k_tunnel k')) = false -> still (k_tunnel k) (k_tunnel k') -> Q tt k') ->
  runs drop_session k Q.
Proof.
  intros (Hw & Hc & Hs) HQ; unfold drop_session; apply runs_bind, runs_modify, runs_bind, runs_asks; cbn [k_h2].
  destruct (k_h2 k) as [h|] eqn:E0.
  - rewrite bool_decide_eq_true_2 by done; cbn [when]; apply runs_bind; destruct Hs as [Hinv Htc].
    destruct (destroy_spec 0 STREAMS (Owner (over_flags (with_closing true) (k_tunnel k)) (k_world k)) h (conj Htc Hw) Hinv) as (a & h' & E & [Hta Hwa] & Hstill).
    eapply runs_performing; [cbv beta; cbn [k_tunnel k_world k_h2 k_tls k_shared cf_h2_destroy]; rewrite E; reflexivity|].
    apply runs_modify, HQ; cbn [k_world k_tls k_h2 k_shared k_tunnel]; [done|done|done|done| |done|exact Hstill].
    exists Closing, (t_life (o_tunnel a)), (t_flags (o_tunnel a)); by destruct a as [[] w].
  - rewrite bool_decide_eq_false_2 by (by intros []); apply runs_bind, runs_ret, runs_modify, HQ; cbn [k_world k_tls k_h2 k_shared k_tunnel]; done.
Qed.

Lemma on_close k (Q : () -> task -> Prop) : closable k ->
  (forall k', world_ok (k_world k') -> k_tls k' = None -> k_h2 k' = None -> k_shared k' = k_shared k -> closed (k_tunnel k) (k_tunnel k') -> Q tt k') ->
  runs close_connection k Q.
Proof.
  intros Hk HQ; unfold close_connection; apply runs_bind.
  apply runs_mono with (Q := λ _ k', closable k' /\ k_shared k' = k_shared k /\ dns_socket (t_dns (k_tunnel k')) < 0 /\
    t_life (k_tunnel k') = t_life (k_tunnel k) /\ t_flags (k_tunnel k') = t_flags (k_tunnel k)).
  { unfold close_resolver; apply runs_bind, runs_asks, runs_when; intros Hfd; [|split; [done|]; split; [done|]; split; [lia|done]].
    apply runs_bind, runs_calling, runs_modify; cbn; split; [|by split]; by apply closable_dns; [|apply close_socket_law; destruct Hk|]. }
  intros _ k1 (Hk1 & Es1 & Hfd & El & Efl).
  apply runs_bind, runs_mono with (Q := λ _ k', closable k' /\ k_shared k' = k_shared k /\ dns_socket (t_dns (k_tunnel k')) < 0 /\ dns_answer (t_dns (k_tunnel k')) = None /\
    t_life (k_tunnel k') = t_life (k_tunnel k) /\ t_flags (k_tunnel k') = t_flags (k_tunnel k)).
  { unfold release_answer; apply runs_bind, runs_asks, runs_bind, runs_mono with (Q := λ _ k', k_tunnel k' = k_tunnel k1 /\ k_h2 k' = k_h2 k1 /\ k_shared k' = k_shared k1 /\ world_ok (k_world k')).
    - apply runs_when; intros _; [apply runs_calling; cbn|]; (split; [done|]; split; [done|]; split; [done|]); [apply free_answer_law|]; apply Hk1.
    - intros _ k2 (Et & Eh & Es & Hw); apply runs_modify; cbn; rewrite Et, Eh, Es; split; [|by split_and?].
      by apply (closable_dns (with_dns_answer None) k1). }
  intros _ k2 (Hk2 & Es2 & Hfd2 & Hans2 & El2 & Efl2); apply runs_bind, on_drop_session; [done|]; intros k3 Hw3 Htls3 Hh3 Hs3 Hf3 Hc3 (Hl3 & Hst3 & Hd3).
  apply runs_bind, runs_mono with (Q := λ _ k', world_ok (k_world k') /\ k_tls k' = None /\ k_h2 k' = None /\ k_shared k' = k_shared k /\ k_tunnel k' = k_tunnel k3).
  { unfold drop_tls; apply runs_bind, runs_asks; destruct (k_tls k3) as [c|] eqn:Ec; [|apply runs_ret; split; [done|]; split; [done|]; split; [done|]; split; [congruence|done]].
    apply runs_bind; unfold does, system; apply runs_calling, runs_modify; cbn; split; [by apply tls_destroy_law|]; split; [done|]; split; [done|]; split; [congruence|done]. }
  intros _ k4 (Hw4 & Htls4 & Hh4 & Hs4 & Et4); apply on_forget; [exact Hw4|exact Hh4|by rewrite Et4|by rewrite Et4| | |].
  - rewrite Et4, Hd3; exact Hfd2.
  - rewrite Et4, Hd3; exact Hans2.
  - intros k5 Hw5 Htls5 Hh5 Hs5 [C1 C2 C3 C4 C5]; rewrite Et4 in C1, C2; apply HQ; [by rewrite Hw5|congruence|exact Hh5|congruence|].
    split; [| |exact C3|exact C4|exact C5].
    + rewrite C1, Hl3; exact El2.
    + rewrite C2, Hst3; by rewrite Efl2.
Qed.

End Steps.
