(* ===== verification/TunnelRun.v ===== *)
(** The iterations of the tunnel task: every one returns, and leaves the tunnel
    with the resources its state stands for. *)
From stdpp Require Import gmap.
From S2P Require Export TunnelSpec.
#[local] Open Scope Z_scope.

Section Run.
Context (header : Z) `{Network} `{!ApplicationLaws header} `{!JsonParser} `{!JsonParserLaws header} `{!NetworkLaws header}.

Abbreviation parts := (parts_ok (header := header)).
Abbreviation in_order := (task_ok (header := header)).

(** ** The end of an attempt *)

(** The states without an attempt, or before it. *)
Definition resting (s : cf_state) : bool :=
  match s with
  | CF_STOPPED | CF_WAIT_NETWORK | CF_WAIT_TIME | CF_DISCOVERY | CF_BACKOFF | CF_AUTH_FAILED => true
  | _ => false
  end.

Lemma resting_configured l : life_inv l -> resting (state l) = true -> configured l = false.
Proof. unfold life_inv; intros Hl Hs; destruct (state l); try done; tauto. Qed.

(** A closed connection, and the life it continues with. *)
Lemma closed_task t l k : closed t (k_tunnel k) -> world_ok (k_world k) -> k_tls k = None -> k_h2 k = None ->
  stopping (t_flags t) = false -> life_inv l -> resting (state l) = true ->
  in_order (Task (with_t_life l (k_tunnel k)) (k_world k) (k_tls k) (k_h2 k) (k_shared k)).
Proof.
  intros [_ Hst Hwi Har Hok] Hw Htls Hh Hs Hl Hr; split; cbn [k_tunnel k_world k_tls k_h2].
  - split; cbn [k_tunnel k_world k_tls k_h2]; [done| |by rewrite Hh].
    unfold mode_of; cbn [k_h2]; rewrite Hh; apply Hok; [done|by apply resting_configured].
  - intros _; split; [by destruct Hwi|]; split; [cbn; congruence|]; unfold state_fits; cbn [t_life with_t_life]; rewrite Htls.
    assert (at_rest (with_t_life l (k_tunnel k))) as Hrest by (by destruct Har).
    destruct (state l); try done; split; try done; cbn [t_flags with_t_life]; by rewrite (ar_started _ Har).
Qed.

(** An attempt that can be given up. *)
Definition retry_ready (k : task) : Prop :=
  parts k /\ stopping (t_flags (k_tunnel k)) = false /\ retryable (state (t_life (k_tunnel k))) = true /\
  (rpc_state (t_rpc (k_tunnel k)) = CF_RPC_REJECTED -> serving (state (t_life (k_tunnel k))) = true).

Lemma serving_rejected l : life_inv l -> serving (state l) = true ->
  snd (Lifecycle.advance l CF_EVENT_AUTH_REJECTED) = set_state (set_flags l false false) CF_AUTH_FAILED.
Proof.
  unfold life_inv, Lifecycle.advance; intros Hl Hs; destruct l as [s n tr r c f x]; cbn in *; destruct s; try done; cbn in *;
    destruct Hl as ([-> ->] & _); done.
Qed.

Definition given_up (k k' : task) : Prop := in_order k' /\ k_h2 k' = None /\ k_shared k' = k_shared k.

Lemma on_retry k : retry_ready k -> runs retry k (λ _ k', given_up k k').
Proof.
  intros (Hp & Hst & Hre & Hrej); unfold retry; pose proof (moved_here header k Hp) as Hk; set (t := k_tunnel k) in *.
  destruct (moved_parts header k k t Hk) as (_ & Ht & _); destruct (tk_texts _ _ Ht) as [_ [Hlf _]].
  apply runs_bind; eapply on_tunnel; [exact Hk|]; apply runs_bind; eapply on_h2; [exact Hk|].
  apply runs_bind, (on_c_string 128); [apply Ht|]; intros why; apply runs_bind, on_snprintf; [exact Hlf|done|]; intros text Htext.
  apply runs_bind; eapply on_sets; [exact Hk|by apply ok_report|]; intros k1 Hk1; destruct (moved_parts _ _ _ _ Hk1) as (_ & Ht1 & _).
  apply runs_bind; eapply on_clock; [exact Hk1|]; intros now k2 Hk2.
  apply runs_bind; eapply on_sets; [exact Hk2|by apply ok_report|]; intros k3 Hk3; destruct (moved_parts _ _ _ _ Hk3) as (_ & Ht3 & _); match type of Ht3 with tunnel_ok _ ?x => set (t3 := x) in * end.
  apply runs_bind, runs_mono with (Q := λ _ k', exists l, resting (state l) = true /\ life_inv l /\ state l <> CF_HTTP2 /\
    exists k4, moved header k k4 t3 /\ k' = Task (with_t_life l t3) (k_world k4) (k_tls k4) (k_h2 k4) (k_shared k4)).
  - destruct (bool_decide _ && negb _) eqn:Eperm.
    + apply andb_true_iff in Eperm as [Er _]; apply bool_decide_eq_true in Er; pose proof (tk_life _ _ Ht) as Hl.
      apply runs_modify; unfold over_life; rewrite advance_eq; pose proof Hk3 as (_ & _ & _ & _ & Et3 & _); rewrite Et3.
      change (t_life t3) with (t_life t); rewrite (serving_rejected _ Hl (Hrej Er)); eexists; split; [|split; [|split; [|exists k3; split; [exact Hk3|reflexivity]]]]; done.
    + apply runs_bind; eapply on_clock; [exact Hk3|]; intros now2 k4 Hk4; apply runs_bind; eapply on_system; [exact Hk4|apply random_law|]; intros k5 Hk5.
      apply runs_modify; unfold over_life; pose proof Hk5 as (_ & _ & _ & _ & Et5 & _); rewrite Et5; rewrite retry_spec by exact Hre; cbn [snd default].
      eexists; split; [|split; [|split; [|exists k5; split; [exact Hk5|reflexivity]]]]; done.
  - intros _ k4 (l & Hr & Hl & Hne & k5 & Hk5 & ->); destruct Hk5 as (Hp5 & Htls5 & Hh5 & Hs5 & Et5 & _).
    pose proof (closable_life header l k5 (parts_closable header k5 Hp5) Hl (resting_configured _ Hl Hr) Hne) as Hc; rewrite Et5 in Hc.
    apply (on_close header _ _ Hc); intros k6 Hw6 Htls6 Hh6 Hs6 Hcl; cbn [k_tunnel] in Hcl.
    assert (k6 = Task (with_t_life l (k_tunnel k6)) (k_world k6) (k_tls k6) (k_h2 k6) (k_shared k6)) as E6.
    { destruct Hcl as [Hl6 _ _ _ _]; cbn in Hl6; rewrite <- Hl6; by destruct k6 as [[] ? ? ? ?]. }
    split; [|split; [done|cbn in Hs6; congruence]]; rewrite E6; by eapply closed_task.
Qed.

(** ** Discovery *)

(** A call of the system, with what is known of its result. *)
Lemma on_call {A} (f : world -> A * world) k0 k t (R : A -> Prop) (Q : A -> task -> Prop) : moved header k0 k t ->
  (forall x w', f (k_world k) = (x, w') -> world_ok (k_world k) -> world_ok w' /\ R x) ->
  (forall x k', moved header k0 k' t -> R x -> Q x k') -> runs (system f) k Q.
Proof.
  intros Hk Hf HQ; destruct (moved_parts _ _ _ _ Hk) as (_ & _ & Hw); destruct (f (k_world k)) as [x w'] eqn:E; destruct (Hf _ _ eq_refl Hw) as [Hw' HR].
  eapply on_system; [exact Hk|by rewrite E|]; intros k' Hk'; rewrite E; by apply HQ.
Qed.

(** What discovery leaves alone. *)
Definition quiet (t t' : tunnel) : Prop :=
  t_life t' = t_life t /\ t_rpc t' = t_rpc t /\ t_remote t' = t_remote t /\ t_rpc_link t' = t_rpc_link t /\ t_config_link t' = t_config_link t /\
  stopping (t_flags t') = stopping (t_flags t).

#[export] Instance quiet_trans : Transitive quiet.
Proof. intros t1 t2 t3 (? & ? & ? & ? & ? & ?) (? & ? & ? & ? & ? & ?); repeat split; congruence. Qed.

Lemma frame_quiet t t' : frame t t' -> quiet t t'.
Proof. intros (? & ? & ? & ? & ? & ? & E); repeat split; by rewrite ?E. Qed.

Lemma quiet_wiped t t' : quiet t t' -> wiped t -> wiped t'.
Proof. intros (_ & E1 & E2 & E3 & E4 & _) []; by split; rewrite ?E1, ?E2, ?E3, ?E4. Qed.

(** A query is under way. *)
Definition asking (t : tunnel) : Prop := attempt_started (t_flags t) = true /\ 0 <= dns_socket (t_dns t).

Lemma idle_state k : in_order k -> resting (state (t_life (k_tunnel k))) = true -> k_h2 k = None /\ k_tls k = None.
Proof.
  intros [Hp Hi] Hs; assert (k_h2 k = None) as Eh.
  { destruct (k_h2 k) as [h|] eqn:E; [|done]; destruct (tk_session _ _ (po_tunnel _ Hp)) as [Hss _]; [unfold mode_of; rewrite E; by case_match|].
    by destruct (state (t_life (k_tunnel k))). }
  split; [done|]; destruct (Hi Eh) as (_ & _ & Hf); unfold state_fits in Hf; destruct (k_tls k); [|done].
  destruct (state (t_life (k_tunnel k))); try done; by destruct Hf.
Qed.

(** The two ends of a step of discovery. *)
Lemma discovery_waits k k' t' : in_order k -> state (t_life (k_tunnel k)) = CF_DISCOVERY -> moved header k k' t' -> quiet (k_tunnel k) t' ->
  at_rest t' \/ asking t' -> in_order k'.
Proof.
  intros Hk Hs (Hp & Htls & Hh & _ & Et & _) Hq Hend; destruct (idle_state k Hk) as [Eh Etls]; [by rewrite Hs|]; split; [done|]; intros _; rewrite Et.
  destruct (to_idle _ Hk Eh) as (Hw & Hst & _); split; [by eapply quiet_wiped|]; destruct Hq as (El & _ & _ & _ & _ & Est); split; [congruence|].
  unfold state_fits; rewrite El, Hs, Htls, Etls; split; [done|]; destruct Hend as [Hr|[-> ?]]; [|done]; by rewrite (ar_started _ Hr).
Qed.

Lemma discovery_fails k k' : in_order k -> resting (state (t_life (k_tunnel k))) = true -> state (t_life (k_tunnel k)) = CF_DISCOVERY ->
  parts k' -> quiet (k_tunnel k) (k_tunnel k') -> retry_ready k'.
Proof.
  intros Hk Hr Hs Hp (El & Er & _ & _ & _ & Est); destruct (idle_state k Hk Hr) as [Eh _]; destruct (to_idle _ Hk Eh) as (Hw & Hst & _).
  split; [done|]; split; [congruence|]; split; [by rewrite El, Hs|]; by rewrite Er, (wi_rpc _ Hw).
Qed.

Lemma ok_attempt {m} t : tunnel_ok m t -> 0 ∈ t_hostname t -> tunnel_ok m (over_flags (with_attempt_started true) t).
Proof.
  intros [? ? ? ? ? ? ? ? ? ? [Hz _] ? ? ? ? ? ? ?] Hnul; apply Build_tunnel_ok; try assumption; try done; by split.
Qed.

Lemma on_begin_discovery k : in_order k -> state (t_life (k_tunnel k)) = CF_DISCOVERY -> attempt_started (t_flags (k_tunnel k)) = false ->
  runs begin_discovery k (λ r k', exists t', moved header k k' t' /\ quiet (k_tunnel k) t' /\
    match r with None => asking t' | Some true => at_rest t' | Some false => True end).
Proof.
  intros Hin Hs Hst; pose proof (moved_here header k (to_parts _ Hin)) as Hk; set (t := k_tunnel k) in *.
  assert (at_rest t) as Hrest.
  { destruct (idle_state k Hin) as [Eh _]; [by fold t; rewrite Hs|]; destruct (to_idle _ Hin Eh) as (_ & _ & Hf); unfold state_fits in Hf; fold t in Hf.
    rewrite Hs, Hst in Hf; by destruct Hf. }
  unfold begin_discovery; apply runs_bind; eapply on_system; [exact Hk|apply lock_law|]; intros k1 Hk1.
  destruct (fst (json_try_lock _)); cbn [negb]; [|apply runs_ret; exists t; by split].
  destruct (moved_parts _ _ _ _ Hk1) as (_ & Ht & _); apply runs_bind; eapply on_tunnel; [exact Hk1|].
  apply runs_bind, (on_call _ k k1 t (λ x, credentials_ok x.1.2 /\ zlen x.2 = 254)); [done| |].
  { intros [[rc c] host] w' E Hw; eapply credentials_law; [exact E|done|apply Ht..]. }
  intros [[rc cred] host] k2 Hk2 [Hcred Hhost]; cbn [fst snd] in Hcred, Hhost.
  apply runs_bind; eapply on_sets; [exact Hk2| |].
  { apply (ok_credentials cred (with_t_hostname host t)); [|done]; destruct Ht; split; try done; split; [done|]; cbn; congruence. }
  intros k3 Hk3; apply runs_bind; eapply on_does; [exact Hk3|apply unlock_law|]; intros k4 Hk4.
  destruct (rd_Some host 0) as (first & Ef & _); [lia|]; apply runs_bind; eapply runs_checked; [exact Ef|].
  set (ready := is_ok rc && _ && _); destruct (moved_parts _ _ _ _ Hk4) as (_ & Ht4 & _); set (t4 := with_t_credentials _ _) in *.
  apply runs_bind; eapply on_sets; [exact Hk4|by apply ok_flags|]; intros k5 Hk5; destruct (moved_parts _ _ _ _ Hk5) as (_ & Ht5 & _).
  destruct ready eqn:Eready; cbn [negb].
  2: { apply runs_bind; eapply on_sets; [exact Hk5|by apply ok_credentials, zero_credentials_ok|]; intros k6 Hk6; apply runs_bind; eapply on_note; [exact Hk6|].
       intros k7 x Hk7; eapply runs_ret; eexists; split; [exact Hk7|]; split; [done|]; destruct Hrest; by split. }
  apply andb_true_iff in Eready as [_ Hnul%bool_decide_eq_true].
  apply runs_bind; eapply on_sets; [exact Hk5| |].
  { by apply ok_attempt. }
  intros k6 Hk6; destruct (moved_parts _ _ _ _ Hk6) as (_ & Ht6 & _); apply runs_bind; eapply on_sets; [exact Hk6|by apply ok_progress|]; intros k7 Hk7.
  destruct (moved_parts _ _ _ _ Hk7) as (_ & Ht7 & _); apply runs_bind; eapply on_sets; [exact Hk7|apply ok_dns; [done|apply Ht7]|]; intros k8 Hk8.
  apply runs_bind; eapply on_system; [exact Hk8|apply allocate_answer_law|]; intros k9 Hk9; destruct (moved_parts _ _ _ _ Hk9) as (_ & Ht9 & _).
  apply runs_bind; eapply on_sets; [exact Hk9|by apply dns_answer_ok|]; intros k10 Hk10; match type of Hk10 with moved _ _ _ ?x => set (t10 := x) in * end.
  apply runs_bind, runs_mono with (Q := λ rc k', exists t', moved header k k' t' /\ frame t10 t' /\ (rc = CF_OK -> 0 <= dns_socket (t_dns t'))).
  { destruct (fst (allocate_answer _)); [|apply runs_ret; exists t10; split; [exact Hk10|]; by split].
    eapply (on_dns_send header); [exact Hk10|by apply (bool_decide_unpack _)|by right|]; intros rc' k11 t11 Hk11 Hfr Hok; eauto. }
  intros rc' k11 (t11 & Hk11 & Hfr & Hok); assert (quiet t t11) as Hq by (etrans; [|by apply frame_quiet]; done).
  destruct (is_ok rc') eqn:Erc; cbn [negb]; apply runs_bind; (eapply on_note; [exact Hk11|]); intros k12 x Hk12; eapply runs_ret; eexists; (split; [exact Hk12|]);
    (split; [exact Hq|]); [|done].
  split; [destruct Hfr as (_ & _ & _ & _ & _ & _ & Efl); cbn; by rewrite Efl|]; apply bool_decide_eq_true in Erc; by apply Hok.
Qed.

Lemma on_service_records k0 k t a : moved header k0 k t -> asking t -> dns_answer (t_dns t) = Some a -> answer_ok CF_DNS_SRV a ->
  runs service_records k (λ b k', exists t', moved header k0 k' t' /\ quiet t t' /\ (b = true -> asking t')).
Proof.
  intros Hk Hask Ha (recs & -> & Hn & Hrecs); destruct (moved_parts _ _ _ _ Hk) as (_ & Ht & _); unfold service_records.
  assert (Forall (λ r, 0 <= weight r < 65536) recs) as Hweights by (eapply Forall_impl; [exact Hrecs|]; intros r [Hr _]; by apply Hr).
  apply runs_bind; eapply on_reads; [exact Hk|]; apply runs_bind; eapply on_reads; [exact Hk|].
  apply runs_bind; eapply runs_checked; [exact Ha|]; destruct (choice_spec recs (attempts (t_progress t)) 0 Hn Hweights) as (c & _ & Ec & _).
  apply runs_bind; eapply runs_checked; [exact Ec|]; apply runs_bind, runs_mono with (Q := λ _ k', moved header k0 k' t).
  { destruct (negb _); [eapply on_system; [exact Hk|apply random_law|done]|by apply runs_ret]. }
  intros random k1 Hk1; destruct (choice_spec recs (attempts (t_progress t)) random Hn Hweights) as (c' & i & Ec' & Ei & Hch).
  rewrite Ec in Ec'; injection Ec' as <-; apply runs_bind; eapply runs_checked; [exact Ei|].
  apply runs_bind; eapply on_sets; [exact Hk1|apply ok_dns; [done|apply Ht]|]; intros k2 Hk2.
  destruct Hch as (Hperm & _ & Hlen & _ & _ & Hi & Hlast & _); destruct (lookup_lt_is_Some_2 (c_records c) i) as [r Er]; [unfold CF_DNS_RECORD_MAX, zlen in *; lia|].
  assert (edge_record r) as [_ Htarget].
  { assert (r ∈ recs) as Hin by (rewrite <- Hperm; eapply (list_elem_of_lookup_2 _ i); rewrite lookup_take_lt by lia; exact Er).
    rewrite Forall_forall in Hrecs; by apply (Hrecs r Hin). }
  apply runs_bind; eapply runs_checked; [exact Er|]; destruct Htarget as (text & _ & Htext).
  apply runs_bind; eapply runs_checked; [by apply c_string_spec|]; apply runs_bind, runs_asks, runs_bind, on_snprintf; [by apply automatic_law|done|]; intros array [Hz Hnul].
  apply runs_bind; eapply (on_dns_send header); [exact Hk2|exact Hnul|by left|]; intros rc k3 t3 Hk3 Hfr Hok.
  assert (quiet t t3) as Hq by (etrans; [|by apply frame_quiet]; done).
  destruct (is_ok rc) eqn:Erc; cbn [negb].
  - apply runs_ret; exists t3; split; [done|]; split; [done|]; intros _; split; [destruct Hfr as (_ & _ & _ & _ & _ & _ & Efl); rewrite Efl; apply Hask|].
    apply bool_decide_eq_true in Erc; by apply Hok.
  - apply runs_bind; eapply on_note; [exact Hk3|]; intros k4 x Hk4; eapply runs_ret; eexists; split; [exact Hk4|]; by split.
Qed.

Lemma on_edge_address k0 k t a : in_order k0 -> state (t_life (k_tunnel k0)) = CF_DISCOVERY -> quiet (k_tunnel k0) t ->
  moved header k0 k t -> asking t -> dns_answer (t_dns t) = Some a -> answer_ok CF_DNS_A a ->
  runs edge_address k (λ b k', k_shared k' = k_shared k0 /\ if (b : bool) then in_order k' else parts k' /\ quiet (k_tunnel k0) (k_tunnel k')).
Proof.
  intros Hin Hs0 Hq Hk Hask Ha (recs & -> & Hn & Hrecs); destruct (moved_parts _ _ _ _ Hk) as (_ & Ht & _); unfold edge_address.
  destruct (idle_state k0 Hin) as [Eh0 Etls0]; [by rewrite Hs0|]; destruct (to_idle _ Hin Eh0) as (Hw0 & Hst0 & _).
  apply runs_bind; eapply on_reads; [exact Hk|]; apply runs_bind; eapply runs_checked; [exact Ha|].
  apply runs_bind; eapply on_system; [exact Hk|apply random_law|]; intros k1 Hk1; set (random := fst (esp_random _)); cbn [records count answer_of].
  pose proof (Z.mod_pos_bound random (zlen recs) ltac:(lia)) as Hmod; destruct (lookup_lt_is_Some_2 recs (Z.to_nat (random mod zlen recs))) as [r Er]; [unfold zlen in *; lia|].
  apply runs_bind; eapply runs_checked; [by apply lookup_app_l_Some|]; apply runs_bind; eapply on_tunnel; [exact Hk1|].
  destruct (tk_texts _ _ Ht) as [[Hip _] _]; apply runs_bind, on_snprintf; [exact Hip|done|]; intros ip' Hip'.
  apply runs_bind; eapply on_sets; [exact Hk1|by apply ok_edge_ip|]; intros k2 Hk2; destruct (moved_parts _ _ _ _ Hk2) as (_ & Ht2 & _).
  apply runs_bind; eapply on_does; [exact Hk2|apply close_socket_law|]; intros k3 Hk3; destruct (moved_parts _ _ _ _ Hk3) as (_ & Ht3 & _).
  apply runs_bind; eapply on_sets; [exact Hk3|by apply dns_socket_ok|]; intros k4 Hk4; destruct (moved_parts _ _ _ _ Hk4) as (_ & Ht4 & _).
  apply runs_bind, runs_mono with (Q := λ _ k', exists t', moved header k0 k' t' /\ frame t t').
  { unfold release_answer; apply runs_bind; eapply on_reads; [exact Hk4|]; apply runs_bind, runs_mono with (Q := λ _ k', moved header k0 k' (over_dns (with_dns_socket (-1)) (with_t_edge_ip ip' t))).
    - apply runs_when; intros _; [|done]; eapply on_does; [exact Hk4|apply free_answer_law|done].
    - intros _ k5 Hk5; eapply on_sets; [exact Hk5|by apply dns_answer_ok|]; intros k6 Hk6; eexists; split; [exact Hk6|done]. }
  intros _ k6 (t6 & Hk6 & Hfr6); apply runs_bind; eapply on_clock; [exact Hk6|]; intros now k7 Hk7; destruct (moved_parts _ _ _ _ Hk7) as (_ & Ht7 & _).
  apply runs_bind; eapply on_sets; [exact Hk7|by apply ok_progress|]; intros k8 Hk8; match type of Hk8 with moved _ _ _ ?x => set (t8 := x) in * end.
  assert (quiet (k_tunnel k0) t8 /\ attempt_started (t_flags t8) = true) as [Hq8 Hst8].
  { split; [etrans; [exact Hq|]; etrans; [by apply frame_quiet|done]|]; destruct Hfr6 as (_ & _ & _ & _ & _ & _ & Efl); cbn; rewrite Efl; apply Hask. }
  apply runs_bind; eapply on_system; [exact Hk8|apply tls_init_law|]; intros k9 Hk9; set (c := fst (esp_tls_init _)); apply runs_bind, runs_modify.
  destruct Hk9 as (Hp9 & _ & Eh9 & Es9 & Et9 & _); set (k10 := Task _ _ c _ _).
  assert (parts k10) as Hp10.
  { destruct Hp9 as [Hw9 Htu9 Hse9]; split; [exact Hw9|exact Htu9|]; intros h E; cbn in E; congruence. }
  assert (k_tunnel k10 = t8 /\ k_shared k10 = k_shared k0 /\ k_h2 k10 = None /\ k_tls k10 = c) as (Et10 & Es10 & Eh10 & Etls10) by (cbn; split_and!; congruence).
  pose proof (moved_here header k10 Hp10) as Hk10; rewrite Et10 in Hk10; clearbody k10.
  case_bool_decide as Hc.
  - apply runs_bind; eapply (on_diagnostic header); [exact Hk10|]; intros k11 t11 Hk11 Hfr11 _; apply runs_bind; eapply on_note; [exact Hk11|].
    intros k12 x Hk12; destruct Hk12 as (Hp12 & _ & _ & Es12 & Et12 & _); apply runs_ret; split; [congruence|]; split; [done|]; rewrite Et12.
    etrans; [exact Hq8|]; etrans; [by apply frame_quiet|done].
  - apply runs_bind; eapply on_deadline; [exact Hk10|]; intros k11 x Hk11; destruct (moved_parts _ _ _ _ Hk11) as (_ & Ht11 & _).
    apply runs_bind; eapply on_sets; [exact Hk11| |].
    { apply ok_advance; [exact Ht11| |done|done]; unfold mode_of; by rewrite Eh10. }
    intros k12 Hk12; apply runs_bind; eapply on_note; [exact Hk12|]; intros k13 y Hk13; destruct Hk13 as (Hp13 & Etls13 & Eh13 & Es13 & Et13 & _).
    apply runs_ret; split; [congruence|]; split; [done|]; intros _; rewrite Et13, Etls13.
    assert (wiped t8 /\ stopping (t_flags t8) = false) as [Hw8 Hs8] by (split; [by eapply quiet_wiped|destruct Hq8 as (_ & _ & _ & _ & _ & ->); done]).
    split; [by destruct Hw8|]; split; [done|].
    pose proof (tk_life _ _ Ht) as Hlife; destruct Hq as (El & _); destruct Hq8 as (El8 & _); unfold state_fits, over_life; rewrite advance_eq; cbn [t_life over_report with_t_report with_t_life over_progress with_t_progress].
    rewrite El8; rewrite El in Hlife; unfold life_inv in Hlife; rewrite Hs0 in Hlife; destruct Hlife as ([Hn1 Hn2] & _).
    unfold Lifecycle.advance; rewrite Hs0, Hn1, Hn2; cbn; split; [|done]; apply bool_decide_eq_true; rewrite Etls10; by destruct c.
Qed.

(** What a step of the work leaves: the tunnel in order, or an attempt to give up. *)
Definition worked (k : task) (b : bool) (k' : task) : Prop :=
  k_shared k' = k_shared k /\ if b then in_order k' else retry_ready k'.

Lemma discovery_fails_here k k' t' : in_order k -> state (t_life (k_tunnel k)) = CF_DISCOVERY -> moved header k k' t' -> quiet (k_tunnel k) t' -> worked k false k'.
Proof.
  intros Hin Hs (Hp & _ & _ & Es & Et & _) Hq; split; [done|]; eapply discovery_fails; [exact Hin|by rewrite Hs|done|done|by rewrite Et].
Qed.

(** Reading the answer to a query that is under way. *)
Lemma on_answer k k1 t : in_order k -> state (t_life (k_tunnel k)) = CF_DISCOVERY -> moved header k k1 t -> quiet (k_tunnel k) t -> asking t ->
  runs discover_answer k1 (worked k).
Proof.
  intros Hin Hs Hk Hq Hask; destruct (moved_parts _ _ _ _ Hk) as (_ & Ht & _); destruct (tk_dns _ _ Ht) as (Hpz & Hname); unfold discover_answer.
  assert (forall text k2 t2, moved header k k2 t2 -> quiet (k_tunnel k) t2 -> runs (note text;; mret false) k2 (worked k)) as Hfail.
  { intros text k2 t2 Hk2 Hq2; apply runs_bind; eapply on_note; [exact Hk2|]; intros k3 x Hk3; apply runs_ret; eapply discovery_fails_here; [done..|exact Hk3|].
    by etrans. }
  assert (forall k2, moved header k k2 t -> worked k true k2) as Hwait.
  { intros k2 Hk2; split; [by destruct Hk2 as (_ & _ & _ & -> & _)|]; eapply discovery_waits; [done|done|exact Hk2|done|by right]. }
  apply runs_bind; eapply on_reads; [exact Hk|]; apply runs_bind.
  apply (on_call _ k k1 t (λ x, bytes_ok x.2 /\ zlen x.2 = Z.max 0 x.1.1 /\ x.1.1 <= CF_DNS_PACKET_MAX)); [done| |].
  { intros [[n again] bytes] w' E Hw; by eapply recv_packet_law. }
  intros [[n again] bytes] k2 Hk2 (Hb & Hz & Hn); cbn [fst snd] in Hb, Hz, Hn.
  destruct (blit_Some (dns_packet (t_dns t)) 0 bytes) as [packet Ep]; [done|unfold CF_DNS_PACKET_MAX in *; lia|].
  apply runs_bind; eapply runs_checked; [exact Ep|]; pose proof (zlen_blit _ _ _ _ Ep) as Hpz2.
  apply runs_bind; eapply on_sets; [exact Hk2|apply dns_packet_ok; [done|congruence]|]; intros k3 Hk3; destruct (moved_parts _ _ _ _ Hk3) as (_ & Ht3 & _).
  set (t3 := over_dns (with_dns_packet packet) t) in *; assert (quiet (k_tunnel k) t3) as Hq3 by (by etrans).
  destruct ((n <? 0) && again).
  { apply runs_bind; eapply on_clock; [exact Hk3|]; intros now k4 Hk4; apply runs_bind; eapply on_reads; [exact Hk4|].
    destruct (now <? _); [|by eapply Hfail]; apply runs_ret; split; [by destruct Hk4 as (_ & _ & _ & -> & _)|].
    eapply discovery_waits; [done|done|exact Hk4|done|by right]. }
  destruct (Z.leb_spec n 0); [by eapply Hfail|]; apply runs_bind, runs_asks.
  assert (denotes (Bytes (Some packet) n) bytes) as Hd.
  { split; [done|]; split; [cbn; lia|]; cbn; exists (drop (length bytes) (dns_packet (t_dns t))); by apply blit_0. }
  destruct Hname as [Hnz Hnul]; destruct (terminated_cstr _ Hnul) as [text Htext].
  set (type := if negb (dns_stage (t_dns t) =? 0) then CF_DNS_A else CF_DNS_SRV); set (owner0 := automatic _ 254).
  assert (exists rc a, cf_dns_parse owner0 (Bytes (Some packet) n) (Some (dns_name (t_dns t))) type (dns_id (t_dns t)) (dns_answer (t_dns t)) = Some (rc, a) /\
    (rc = CF_OK -> exists x, a = Some x /\ answer_ok type x)) as (rc & a & Eparse & Hans).
  { destruct (dns_answer (t_dns t)) as [out0|]; [|by exists CF_ERR_ARGUMENT, None].
    destruct (parse_spec owner0 (Bytes (Some packet) n) bytes (dns_name (t_dns t)) text type (dns_id (t_dns t)) Hd Htext) with (out0 := out0) as (rc & out & E & Hpost).
    - unfold type; destruct (negb _); auto.
    - by apply automatic_law.
    - exists rc, (Some out); split; [done|]; intros ->; destruct Hpost as (recs & Hresp & ->); eexists; split; [done|]; by eapply response_answer. }
  apply runs_bind; eapply runs_checked; [exact Eparse|]; apply runs_bind; eapply on_sets; [exact Hk3|by apply dns_answer_ok|]; intros k4 Hk4.
  set (t4 := over_dns (with_dns_answer a) t3) in *; assert (quiet (k_tunnel k) t4) as Hq4 by (by etrans).
  destruct (is_ok rc) eqn:Erc; cbn [negb]; [|by eapply Hfail]; apply bool_decide_eq_true in Erc; destruct (Hans Erc) as (x & -> & Hx); subst type.
  destruct (Z.eqb_spec (dns_stage (t_dns t)) 0) as [Estage|Estage]; cbn [negb] in Hx.
  - eapply runs_mono; [eapply on_service_records; [exact Hk4|exact Hask|done|done]|]; intros b k5 (t5 & Hk5 & Hq5 & Hb5); assert (quiet (k_tunnel k) t5) as Hq5' by (by etrans).
    destruct b; [|by eapply discovery_fails_here]; split; [by destruct Hk5 as (_ & _ & _ & -> & _)|]; eapply discovery_waits; [done|done|exact Hk5|done|right; by apply Hb5].
  - eapply runs_mono; [eapply on_edge_address; [done|done|exact Hq4|exact Hk4|exact Hask|done|done]|]; intros b k5 [Es5 Hb5]; split; [done|].
    destruct b; [done|]; destruct Hb5; eapply discovery_fails; [exact Hin|by rewrite Hs|done..].
Qed.

Lemma on_discover k : in_order k -> state (t_life (k_tunnel k)) = CF_DISCOVERY -> runs discover k (worked k).
Proof.
  intros Hin Hs; pose proof (moved_here header k (to_parts _ Hin)) as Hk; unfold discover; apply runs_bind; eapply on_reads; [exact Hk|]; apply runs_bind.
  destruct (attempt_started (t_flags (k_tunnel k))) eqn:Est; cbn [negb].
  - apply runs_ret; eapply on_answer; [done|done|exact Hk|done|]; split; [done|]; destruct (idle_state k Hin) as [Eh _]; [by rewrite Hs|].
    destruct (to_idle _ Hin Eh) as (_ & _ & Hf); unfold state_fits in Hf; rewrite Hs, Est in Hf; by destruct Hf.
  - eapply runs_mono; [by apply on_begin_discovery|]; intros r k1 (t1 & Hk1 & Hq1 & Hr); destruct r as [[]|].
    + apply runs_ret; split; [by destruct Hk1 as (_ & _ & _ & -> & _)|]; eapply discovery_waits; [done|done|exact Hk1|done|by left].
    + apply runs_ret; by eapply discovery_fails_here.
    + by eapply on_answer.
Qed.

(** ** Connection *)

Definition connecting (s : cf_state) : bool := bool_decide (s = CF_CONNECT) || bool_decide (s = CF_TLS).

(** What connecting leaves alone. *)
Definition linking (t t' : tunnel) : Prop :=
  t_rpc t' = t_rpc t /\ t_remote t' = t_remote t /\ t_rpc_link t' = t_rpc_link t /\ t_config_link t' = t_config_link t /\ t_flags t' = t_flags t /\
  connecting (state (t_life t')) = true.

Lemma frame_linking t t1 t2 : linking t t1 -> frame t1 t2 -> linking t t2.
Proof. intros (? & ? & ? & ? & ? & ?) (E & ? & ? & ? & ? & ? & ?); unfold linking; rewrite E; split_and!; congruence. Qed.

Lemma connecting_resources k : in_order k -> connecting (state (t_life (k_tunnel k))) = true ->
  k_h2 k = None /\ is_Some (k_tls k) /\ wiped (k_tunnel k) /\ stopping (t_flags (k_tunnel k)) = false /\ attempt_started (t_flags (k_tunnel k)) = true.
Proof.
  intros [Hp Hi] Hs; assert (k_h2 k = None) as Eh.
  { destruct (k_h2 k) as [h|] eqn:E; [|done]; destruct (tk_session _ _ (po_tunnel _ Hp)) as [Hss _]; [unfold mode_of; rewrite E; by case_match|].
    by destruct (state (t_life (k_tunnel k))). }
  split; [done|]; destruct (Hi Eh) as (Hw & Hst & Hf); unfold state_fits in Hf.
  destruct (state (t_life (k_tunnel k))); try done; destruct Hf as [Hf1%bool_decide_eq_true Hf2]; by split_and!.
Qed.

Lemma connect_goes_on k k' t' b : in_order k -> connecting (state (t_life (k_tunnel k))) = true -> moved header k k' t' -> linking (k_tunnel k) t' -> worked k b k'.
Proof.
  intros Hin Hs (Hp & Etls & Eh & Es & Et & _) (E1 & E2 & E3 & E4 & E5 & E6); destruct (connecting_resources k Hin Hs) as (Hh & Htls & [W1 W2 W3 W4 W5 W6] & Hst & Hat).
  split; [done|]; destruct b.
  - split; [done|]; intros _; rewrite Et, Etls; split; [by split; rewrite ?E1, ?E2, ?E3, ?E4|]; split; [by rewrite E5|]; unfold state_fits.
    unfold connecting in E6; destruct (state (t_life t')); try done; (split; [by apply bool_decide_eq_true|by rewrite E5]).
  - split; [done|]; rewrite Et; split; [by rewrite E5|]; split; [unfold connecting in E6; by destruct (state (t_life t'))|].
    by rewrite E1, W1.
Qed.

Lemma ok_connected l t : tunnel_ok Unconnected t -> state l = CF_HTTP2 -> life_inv l -> configured l = false ->
  attempt_started (t_flags t) = true -> stopping (t_flags t) = false -> t_rpc t = zero_rpc -> tunnel_ok Connected (with_t_life l t).
Proof.
  intros [? ? ? ? ? ? ? ? ? ? ? ? ? ? ? ? ? ?] Hs Hl Hc Hat Hst Hr; apply Build_tunnel_ok; try assumption; try done; cbn.
  - intros _; by rewrite Hs.
  - intros _; by rewrite Hr.
  - by rewrite Hc.
Qed.

Lemma create_cases streams limit size memory upstream rc h : cf_h2_create true true streams limit size memory upstream = (rc, h) ->
  if is_ok rc then exists x, h = Some x /\ session_ok x else h = None.
Proof.
  intros E; destruct (is_ok rc) eqn:Erc.
  - apply bool_decide_eq_true in Erc as ->; destruct memory, upstream as [x|]; try (exfalso; revert E; unfold cf_h2_create; cbn [negb orb]; repeat case_match; congruence).
    destruct h as [h|]; [exists h; split; [done|by eapply create_ok]|]; exfalso; revert E; unfold cf_h2_create; cbn [negb orb]; case_match; congruence.
  - revert E; unfold cf_h2_create; cbn [negb orb]; repeat case_match; intros [= <- <-]; done.
Qed.

Lemma on_connected k k1 t : in_order k -> connecting (state (t_life (k_tunnel k))) = true -> moved header k k1 t -> linking (k_tunnel k) t ->
  state (t_life t) = CF_TLS -> runs connected k1 (worked k).
Proof.
  intros Hin Hs Hk Hl Htls; destruct (connecting_resources k Hin Hs) as (Hh & [c Ec] & Hw & Hst & Hat); unfold connected, connection.
  apply runs_bind, runs_bind; eapply on_tls; [exact Hk|]; eapply runs_checked; [exact Ec|]; apply runs_bind, runs_asks, runs_bind.
  apply runs_mono with (Q := λ _ k', moved header k k' t).
  { destruct (esp_tls_get_conn_sockfd _ _); [eapply on_does; [exact Hk|apply no_delay_law|done]|by apply runs_ret]. }
  intros _ k2 Hk2; apply runs_bind; eapply on_call with (R := λ _, True); [exact Hk2| |].
  { intros x w' E Hw2; split; [|done]; pose proof (allocate_session_law _ Hw2) as Hw3; destruct (allocate_session (k_world k2)) as [[m u] w]; by injection E as _ <-. }
  intros [memory upstream] k3 Hk3 _; destruct (cf_h2_create _ _ _ _ _ _ _) as [rc h] eqn:E; pose proof (create_cases _ _ _ _ _ _ _ E) as Hcr.
  apply runs_bind, runs_modify; destruct (is_ok rc); cbn [negb].
  - destruct Hcr as (x & -> & Hx); apply runs_bind, runs_modify; unfold over_life; rewrite advance_eq; cbn [k_tunnel k_world k_tls k_h2 k_shared].
    destruct (moved_parts _ _ _ _ Hk3) as (_ & Ht & Hw3); unfold mode_of in Ht; rewrite Hh in Ht; destruct Hk3 as (_ & Etls & _ & Es & Et & _); rewrite Et.
    pose proof (tk_life _ _ Ht) as Hlife; pose proof Hlife as Hflags; unfold life_inv in Hflags; rewrite Htls in Hflags; destruct Hflags as ([Hn1 Hn2] & Hn3 & Hn4).
    pose proof (advance_inv (t_life t) CF_EVENT_TLS_READY Hlife) as Hinv.
    assert (state (snd (Lifecycle.advance (t_life t) CF_EVENT_TLS_READY)) = CF_HTTP2 /\ configured (snd (Lifecycle.advance (t_life t) CF_EVENT_TLS_READY)) = false) as [Hs2 Hc2].
    { unfold Lifecycle.advance; rewrite Htls, Hn1, Hn2; cbn; by split. }
    destruct Hl as (L1 & L2 & L3 & L4 & L5 & _); pose proof (ok_connected _ t Ht Hs2 Hinv Hc2 ltac:(by rewrite L5) ltac:(by rewrite L5) ltac:(by rewrite L1, (wi_rpc _ Hw))) as Hok.
    set (k4 := Task _ _ _ _ _); assert (parts k4) as Hp4.
    { split; [done|unfold mode_of; cbn [k_h2 k_tunnel k4 t_flags with_t_life]; by rewrite L5, Hst|]; intros h [= <-]; split; [done|]; cbn; by rewrite Etls, Ec. }
    pose proof (moved_here header k4 Hp4) as Hk4; apply runs_bind; eapply on_deadline; [exact Hk4|]; intros k5 y Hk5.
    apply runs_bind; eapply on_note; [exact Hk5|]; intros k6 z (Hp6 & _ & Eh6 & Es6 & _); apply runs_ret; split; [by rewrite Es6|].
    split; [done|]; rewrite Eh6; discriminate.
  - subst h; assert (Task (k_tunnel k3) (k_world k3) (k_tls k3) None (k_shared k3) = k3) as ->.
    { destruct Hk3 as (_ & _ & Eh & _); rewrite Hh in Eh; rewrite <- Eh; by destruct k3. }
    apply runs_bind; eapply on_note; [exact Hk3|]; intros k4 x Hk4; apply runs_ret; by eapply connect_goes_on.
Qed.

Lemma on_connect_tls k : in_order k -> connecting (state (t_life (k_tunnel k))) = true -> runs connect_tls k (worked k).
Proof.
  intros Hin Hs; pose proof (moved_here header k (to_parts _ Hin)) as Hk; destruct (connecting_resources k Hin Hs) as (Hh & [c Ec] & _).
  unfold connect_tls, connection; apply runs_bind, runs_bind; eapply on_tls; [exact Hk|]; eapply runs_checked; [exact Ec|].
  apply runs_bind, runs_asks, runs_bind; eapply on_tunnel; [exact Hk|]; destruct (moved_parts _ _ _ _ Hk) as (_ & Ht & _).
  apply runs_bind, (on_c_string 16); [apply Ht|]; intros host; apply runs_bind; eapply on_call with (R := λ x, x.1 <= 1); [exact Hk| |].
  { intros x w' E Hw; destruct (esp_tls_conn_new_async _ _ _ _ _) as [[rc e] w] eqn:E2; injection E as <- <-; by eapply tls_new_law. }
  intros [rc saved] k1 Hk1 Hrc; cbn [fst] in Hrc; apply runs_bind, runs_asks, runs_bind.
  apply runs_mono with (Q := λ _ k', exists t', moved header k k' t' /\ linking (k_tunnel k) t' /\ (rc = 1 -> state (t_life t') = CF_TLS)).
  { assert (linking (k_tunnel k) (k_tunnel k)) as Hl by done; apply runs_when; intros Hadv.
    - apply andb_true_iff in Hadv as [Hc%bool_decide_eq_true _]; eapply on_sets; [exact Hk1| |].
      + apply ok_advance; [exact Ht| |done|done]; unfold mode_of; by rewrite Hh.
      + intros k2 Hk2; eexists; split; [exact Hk2|]; pose proof (tk_life _ _ Ht) as Hlife; unfold life_inv in Hlife; rewrite Hc in Hlife; destruct Hlife as ([Hn1 Hn2] & _).
        assert (state (t_life (over_life (λ l, default l (snd (cf_lifecycle_advance (Some l) CF_EVENT_CONNECTED))) (k_tunnel k))) = CF_TLS) as Es.
        { unfold over_life; rewrite advance_eq; cbn; unfold Lifecycle.advance; by rewrite Hc, Hn1, Hn2. }
        split; [|done]; do 5 (split; [done|]); by rewrite Es.
    - exists (k_tunnel k); split; [done|]; split; [done|]; intros ->; rewrite Z.eqb_refl, orb_true_r, andb_true_r in Hadv; apply bool_decide_eq_false in Hadv.
      unfold connecting in Hs; by destruct (state (t_life (k_tunnel k))). }
  intros _ k2 (t2 & Hk2 & Hl2 & Hone); apply runs_bind; eapply on_clock; [exact Hk2|]; intros now k3 Hk3; apply runs_bind; eapply on_reads; [exact Hk3|].
  destruct ((rc <? 0) || _) eqn:Efail.
  { apply runs_bind; eapply (on_diagnostic header); [exact Hk3|]; intros k4 t4 Hk4 Hfr _; apply runs_bind; eapply on_reads; [exact Hk4|].
    apply runs_bind; eapply on_note; [exact Hk4|]; intros k5 x Hk5; apply runs_ret; eapply connect_goes_on; [done|done|exact Hk5|]; by eapply frame_linking. }
  destruct (Z.eqb_spec rc 0) as [|Hne]; [apply runs_ret; by eapply connect_goes_on|].
  apply runs_bind; eapply (on_diagnostic header); [exact Hk3|]; intros k4 t4 Hk4 Hfr _; eapply on_connected; [done|done|exact Hk4|by eapply frame_linking|].
  destruct Hfr as (-> & _); apply Hone; apply orb_false_iff in Efail as [? _]; lia.
Qed.

(** ** Traffic *)

(** A session is open. *)
Definition live (k : task) : Prop := parts k /\ is_Some (k_h2 k).

(** The session goes on. *)
Definition serves (k k' : task) : Prop := live k' /\ k_shared k' = k_shared k /\ mode_of k' = mode_of k.

#[export] Instance serves_trans : Transitive serves.
Proof. intros k1 k2 k3 (? & ? & ?) (? & ? & ?); split; [done|]; split; congruence. Qed.

Lemma serves_here k : live k -> serves k k.
Proof. done. Qed.

Lemma live_start k : live k -> moved header k k (k_tunnel k).
Proof. intros [Hp _]; by apply moved_here. Qed.

Lemma live_moved k k' t : live k -> moved header k k' t -> serves k k'.
Proof. intros [_ Hh] (Hp & _ & Eh & Es & _ & Em); split; [split; [done|by rewrite Eh]|done]. Qed.

Lemma live_parts k : live k -> exists h c, k_h2 k = Some h /\ k_tls k = Some c /\ session_ok h /\ tunnel_ok (mode_of k) (k_tunnel k) /\
  has_session (mode_of k) = true /\ world_ok (k_world k).
Proof.
  intros [[Hw Ht Hs] [h E]]; destruct (Hs h E) as [Hok [c Ec]]; exists h, c; split; [done|]; split; [done|]; split; [done|]; split; [done|].
  split; [unfold mode_of; rewrite E; by case_match|done].
Qed.

(** The session after it was lent or used. *)
Lemma live_again k h t w s : live k -> session_ok h -> tunnel_ok (mode_of k) t -> world_ok w -> s = k_shared k ->
  serves k (Task t w (k_tls k) (Some h) s).
Proof.
  intros Hk Hh Ht Hw ->; destruct (live_parts k Hk) as (h0 & c & Eh & Ec & _); assert (mode_of (Task t w (k_tls k) (Some h) (k_shared k)) = mode_of k) as Em.
  { pose proof (mode_same k t w (k_tls k) (k_shared k) Ht) as Em; rewrite Eh in Em; exact Em. }
  split; [|by split]; split; [|done]; split; [done|by rewrite Em|]; intros h' [= <-]; by rewrite Ec.
Qed.

Lemma linked m : has_session m = true -> m <> Unconnected.
Proof. by destruct m. Qed.

Lemma on_session {A} (f : SM lent A) k (Q : A -> task -> Prop) : live k ->
  (forall h, h2_inv h -> runs f (Lent (k_tunnel k) (k_world k) h) (λ _ s, lent_ok header (mode_of k) h s)) ->
  (forall x k', serves k k' -> Q x k') -> runs (in_session f) k Q.
Proof.
  intros Hk Hf HQ; destruct (live_parts k Hk) as (h & c & Eh & Ec & Hh & Ht & Hm & Hw); destruct (Hf h (proj1 Hh)) as (x & s & E & Hs & Hws & Hops).
  eapply runs_performing; [cbv beta; rewrite Eh; cbn [mbind option_bind]; rewrite E; reflexivity|]; apply HQ; apply live_again; try done.
  eapply ok_rel; [|exact Hh]; apply client_ops_rel; [exact Hops|apply Hh].
Qed.

Lemma on_receive bytes now k : live k -> bytes_ok bytes -> runs (session_receive bytes now) k (λ _ k', serves k k').
Proof.
  intros Hk Hb; destruct (live_parts k Hk) as (h & c & Eh & Ec & Hh & Ht & Hm & Hw); unfold session_receive; set (a := Owner (k_tunnel k) (k_world k)).
  assert (owner_ok header (mode_of k) a) as Ha by done.
  assert (exists rc n a' h', cf_h2_receive a (Some h) (view bytes) true now (receive_run a h bytes) = Some (rc, Some n, a', Some h') /\
    owner_ok header (mode_of k) a' /\ session_ok h') as (rc & n & a' & h' & E & [Ht' Hw'] & Hh').
  { destruct (receive_post (H1 := tunnel_client_laws header (mode_of k)) a h (view bytes) now (receive_run a h bytes) Ha Hh) as ([rc n] & a' & h' & E & Ha' & Hh').
    - intros He; by apply (receive_run_law (mode_of k)).
    - assert (is_Some n) as [x ->]; [|by exists rc, x, a', h']; revert E; unfold cf_h2_receive; cbn [negb orb null_view view ptr].
      destruct (negb (is_ok _)); [intros [= _ <-]; by eexists|]; destruct (callbacks _ _ _) as [[a2 h2]|]; [|done]; cbn [mbind option_bind].
      destruct (_ <? 0); intros [= _ <-]; by eexists. }
  eapply runs_performing; [cbv beta; rewrite Eh; cbn [mbind option_bind]; fold a; rewrite E; reflexivity|]; by apply live_again.
Qed.

Lemma on_output k : live k -> runs session_output k (λ x k', serves k k' /\ (is_ok x.1 = true -> len x.2 <> 0 ->
  exists m h, ptr x.2 = Some m /\ 0 <= len x.2 <= zlen m /\ k_h2 k' = Some h)).
Proof.
  intros Hk; destruct (live_parts k Hk) as (h & c & Eh & Ec & Hh & Ht & Hm & Hw); unfold session_output; set (a := Owner (k_tunnel k) (k_world k)).
  assert (owner_ok header (mode_of k) a) as Ha by done; destruct (output_run a h) as [run p] eqn:Er; destruct (output_run_law (mode_of k) a h run p Er Hm Ha Hh) as [Hrun Hp].
  destruct (output_post (H1 := tunnel_client_laws header (mode_of k)) a h run p Ha Hh Hrun Hp) as ([rc b] & a' & h' & E & [Ht' Hw'] & Hh').
  destruct (cf_h2_output _ _ _ _ _) as [[[[rc' b'] a2] h2]|] eqn:E2; [|done]; injection E as -> -> -> ->.
  eapply runs_performing; [cbv beta; rewrite Eh; cbn [mbind option_bind]; fold a; rewrite Er; rewrite E2; reflexivity|]; split; [by apply live_again|].
  cbn [fst snd]; intros Hrc Hlen; assert (in_object b) as [Hl Hobj].
  { revert E2; unfold cf_h2_output; cbn [negb]; destruct (is_ok (h_error h)) eqn:Ee; cbn [negb]; [|by intros [= <- <- _ _]].
    destruct (Z.eqb_spec (len (h_pending h)) 0) as [Ep|Ep]; [|intros [= _ <- _ _]; apply Hh].
    destruct (callbacks _ _ _) as [[a3 h3]|]; [|done]; cbn [mbind option_bind]; destruct (Z.ltb_spec (lib_result run) 0); [intros [= <- <- _ _]|intros [= _ <- _ _]; auto].
    by destruct (_ =? _). }
  destruct (ptr b) as [m|]; [|lia]; exists m, h'; split; [done|]; split; [lia|done].
Qed.

Lemma on_sent n k : live k -> 0 <= n -> runs (session_sent n) k (λ _ k', serves k k').
Proof.
  intros Hk Hn; destruct (live_parts k Hk) as (h & c & Eh & Ec & Hh & Ht & Hm & Hw); unfold session_sent; pose proof (hi_pending h (proj1 Hh)) as [Hp _].
  destruct (sent_spec h n (proj1 Hh) Hn) as (rc & h' & E & Hspec); [unfold SIZE_MAX in Hp; change (2 ^ 32) with 4294967296; lia|].
  eapply runs_performing; [cbv beta; rewrite Eh; rewrite E; reflexivity|]; apply live_again; try done.
  destruct (_ <? n); [by destruct Hspec as [_ ->]|]; destruct Hspec as (_ & -> & Hin); by apply ok_pending.
Qed.

(** Steps of the task while a session is open. *)
Lemma live_note text k (Q : () -> task -> Prop) : live k -> (forall k', serves k k' -> Q tt k') -> runs (note text) k Q.
Proof. intros Hk HQ; eapply on_note; [by apply live_start|]; intros k' x Hk'; by eapply HQ, live_moved. Qed.

Lemma live_clock k (Q : Z -> task -> Prop) : live k -> (forall now k', serves k k' -> k_tunnel k' = k_tunnel k -> k_h2 k' = k_h2 k -> Q now k') -> runs clock k Q.
Proof. intros Hk HQ; eapply on_clock; [by apply live_start|]; intros now k' Hk'; apply HQ; [by eapply live_moved|apply Hk'..]. Qed.

Lemma live_sets f k (Q : () -> task -> Prop) : live k -> tunnel_ok (mode_of k) (f (k_tunnel k)) ->
  (forall k', serves k k' -> k_tunnel k' = f (k_tunnel k) -> k_h2 k' = k_h2 k -> Q tt k') -> runs (sets f) k Q.
Proof.
  intros Hk Hf HQ; eapply on_sets; [by apply live_start|done|]; intros k' Hk'.
  apply HQ; [by eapply live_moved|apply Hk'..].
Qed.

Lemma live_call {A} (f : world -> A * world) k (R : A -> Prop) (Q : A -> task -> Prop) : live k ->
  (forall x w', f (k_world k) = (x, w') -> world_ok (k_world k) -> world_ok w' /\ R x) ->
  (forall x k', serves k k' -> R x -> Q x k') -> runs (system f) k Q.
Proof. intros Hk Hf HQ; eapply on_call; [by apply live_start|exact Hf|]; intros x k' Hk' HR; apply HQ; [by eapply live_moved|done]. Qed.

Lemma live_connection k (Q : tls -> task -> Prop) : live k -> (forall c, Q c k) -> runs connection k Q.
Proof. intros Hk HQ; destruct (live_parts k Hk) as (h & c & _ & Ec & _); apply runs_bind, runs_asks; eapply runs_checked; [exact Ec|done]. Qed.

Lemma on_read_input rounds : forall k, live k -> runs (read_input rounds) k (λ _ k', serves k k').
Proof.
  induction rounds as [|rounds IH]; intros k Hk; cbn [read_input]; [by apply runs_ret|].
  apply runs_bind, runs_asks; destruct (negb _); [by apply runs_ret|]; apply runs_bind, live_connection; [done|]; intros c.
  apply runs_bind; apply (live_call _ _ (λ x, bytes_ok x.2)); [done| |].
  { intros x w' E Hw; destruct (esp_tls_conn_read c CF_H2_CHUNK (k_world k)) as [[n bytes] w2] eqn:E2; injection E as <- <-.
    destruct (tls_read_law c CF_H2_CHUNK (k_world k) n bytes w2 E2 Hw) as (? & ? & _); done. }
  intros [n bytes] k1 Hk1 Hb; destruct (wants n); [by apply runs_ret|]; destruct (n <=? 0).
  { apply runs_bind, live_note; [apply Hk1|]; intros k2 Hk2; apply runs_ret; by etrans. }
  apply runs_bind, live_clock; [apply Hk1|]; intros now k2 Hk2 _ _; apply runs_bind; eapply runs_mono; [apply on_receive; [apply Hk2|exact Hb]|].
  intros [rc used] k3 Hk3; assert (serves k k3) as H03 by (etrans; [exact Hk1|]; by etrans); destruct (negb (is_ok rc) || _).
  - apply runs_bind, live_note; [apply Hk3|]; intros k4 Hk4; apply runs_ret; by etrans.
  - eapply runs_mono; [apply IH, Hk3|]; intros r k4 Hk4; by etrans.
Qed.

Lemma on_write_output rounds : forall waits k, live k -> runs (write_output rounds waits) k (λ _ k', serves k k').
Proof.
  induction rounds as [|rounds IH]; intros waits k Hk; cbn [write_output]; [by apply runs_ret|].
  apply runs_bind; eapply runs_mono; [by apply on_output|]; intros [rc out] k1 [Hk1 Hout]; cbn [fst snd] in Hout; destruct (is_ok rc); cbn [negb].
  2: { apply runs_bind, live_note; [apply Hk1|]; intros k2 Hk2; apply runs_ret; by etrans. }
  destruct (Z.eqb_spec (len out) 0) as [|Hne]; [by apply runs_ret|]; destruct (Hout eq_refl Hne) as (m & h & Em & Hlen & _).
  set (chunk := if len out <? CF_H2_CHUNK then len out else CF_H2_CHUNK); assert (0 <= chunk <= zlen m) as Hchunk by (unfold chunk, CF_H2_CHUNK; case_if; lia).
  apply runs_bind, live_connection; [apply Hk1|]; intros c; apply runs_bind; eapply runs_checked; [exact Em|].
  apply runs_bind; eapply runs_checked; [apply slice_sub; lia|]; apply runs_bind; apply (live_call _ _ (λ _, True)); [apply Hk1| |].
  { intros n w' E Hw; split; [|done]; pose proof (tls_write_law c (sub m 0 chunk) _ Hw) as Hw2; by rewrite E in Hw2. }
  intros n k2 Hk2 _; assert (serves k k2) as H02 by (by etrans); destruct (wants n).
  - apply runs_bind, runs_asks, runs_bind, runs_mono with (Q := λ _ k', serves k k').
    { apply runs_when; intros _; [|done]; apply runs_bind, live_clock; [apply Hk2|]; intros now k3 Hk3 _ _; destruct (live_parts k3) as (_ & _ & _ & _ & _ & Ht3 & _); [apply Hk3|].
      apply live_sets; [apply Hk3|by apply ok_progress|]; intros k4 Hk4 _ _; etrans; [exact H02|]; by etrans. }
    intros _ k3 Hk3; apply runs_bind, live_clock; [apply Hk3|]; intros now k4 Hk4 _ _; apply runs_bind, runs_asks; assert (serves k k4) as H04 by (by etrans).
    destruct (15000 <? _); [|by apply runs_ret]; apply runs_bind, live_note; [apply Hk4|]; intros k5 Hk5; apply runs_ret; by etrans.
  - apply runs_bind, runs_mono with (Q := λ _ k', serves k k').
    { destruct (Z.leb_spec n 0); [by apply runs_ret|]; eapply runs_mono; [apply on_sent; [apply Hk2|lia]|]; intros r k3 Hk3; by etrans. }
    intros rc2 k3 Hk3; destruct (negb _).
    + apply runs_bind, live_note; [apply Hk3|]; intros k4 Hk4; apply runs_ret; by etrans.
    + destruct (live_parts k3) as (_ & _ & _ & _ & _ & Ht3 & _); [apply Hk3|]; apply runs_bind, live_sets; [apply Hk3|by apply ok_progress|]; intros k4 Hk4 _ _.
      eapply runs_mono; [apply IH, Hk4|]; intros r k5 Hk5; etrans; [exact Hk3|]; by etrans.
Qed.

Lemma on_timed_out k : live k -> runs timed_out k (λ _ k', serves k k').
Proof.
  intros Hk; unfold timed_out; apply runs_bind, runs_asks, runs_bind, runs_mono with (Q := λ _ k', serves k k').
  { destruct (negb _); [|by apply runs_ret]; apply runs_bind, live_clock; [done|]; intros now k1 Hk1 _ _; by apply runs_ret. }
  intros early k1 Hk1; destruct early; [by apply runs_ret|]; apply runs_bind, runs_mono with (Q := λ _ k', serves k k').
  { destruct (bool_decide _); [|by apply runs_ret]; apply runs_bind, live_clock; [apply Hk1|]; intros now k2 Hk2 _ _; apply runs_ret; by etrans. }
  intros late k2 Hk2; by apply runs_ret.
Qed.

Lemma on_wait_socket waits needs k : live k -> runs (wait_socket waits needs) k (λ _ k', serves k k').
Proof.
  intros Hk; unfold wait_socket; apply runs_bind, live_connection; [done|]; intros c; apply runs_bind, runs_asks; destruct (esp_tls_get_conn_sockfd _ _); [|by apply runs_ret].
  apply runs_bind; eapply runs_mono; [by apply on_output|]; intros [rc out] k1 [Hk1 _]; apply (live_call _ _ (λ _, True)); [apply Hk1| |].
  - intros x w' [= _ <-] Hw; split; [by apply wait_ready_law|done].
  - intros x k2 Hk2 _; by etrans.
Qed.

Context (Hheader : 0 < header <= 64).

Lemma on_communicate_out waits k : live k -> runs (communicate_out waits) k (λ _ k', serves k k').
Proof.
  intros Hk; unfold communicate_out; apply runs_bind, on_session; [done| |].
  { intros h Hh; destruct (live_parts k Hk) as (_ & _ & _ & _ & _ & Ht & Hm & Hw); apply (keep_apply_config header Hheader (mode_of k) (linked _ Hm) h Hh).
    by split; [|split]. }
  intros _ k1 Hk1; apply runs_bind, live_clock; [apply Hk1|]; intros now k2 Hk2 _ _; assert (serves k k2) as H02 by (by etrans).
  destruct (live_parts k2) as (h & c & Eh & Ec & Hh & Ht & Hm & Hw); [apply H02|]; apply runs_bind, runs_asks, runs_bind, runs_modify; rewrite Eh; cbn [cf_h2_tick].
  match goal with |- runs _ ?k _ => assert (serves k2 k) as Hk3 end.
  { apply live_again; [apply H02| |done|done|done]; eapply ok_rel; [apply tick_rel|]; by apply ok_now. }
  revert Hk3; match goal with |- serves _ ?k -> _ => generalize k end; clear Eh Ec Hh Ht Hw h c; intros k3 Hk3'; assert (serves k k3) as Hk3 by (by etrans).
  apply runs_bind, runs_asks, runs_bind, runs_mono with (Q := λ _ k', serves k k').
  { apply runs_when; intros _; [|done]; destruct (live_parts k3) as (h & c & Eh & Ec & Hh & Ht & _ & Hw); [apply Hk3|]; apply runs_bind, runs_asks, runs_bind, runs_modify; rewrite Eh.
    destruct (shutdown_rel h) as (rc & h' & -> & Hrel); cbn [snd]; pose proof (live_again k3 h' (k_tunnel k3) (k_world k3) (k_shared k3) (proj1 Hk3) (ok_rel _ _ Hrel Hh) Ht Hw eq_refl) as Hk4.
    apply live_sets; [apply Hk4|destruct (live_parts _ (proj1 Hk4)) as (_ & _ & _ & _ & _ & Ht4 & _); by apply ok_flags|]; intros k5 Hk5 _ _; etrans; [exact Hk3|]; etrans; [exact Hk4|exact Hk5]. }
  intros _ k4 Hk4; apply runs_bind; eapply runs_mono; [apply on_write_output, Hk4|]; intros written k5 Hk5; assert (serves k k5) as H05 by (by etrans).
  destruct written as [[w n]|]; [|by apply runs_ret]; apply runs_bind; eapply runs_mono; [apply on_timed_out, H05|]; intros late k6 Hk6; destruct late.
  - apply runs_bind, live_note; [apply Hk6|]; intros k7 Hk7; apply runs_ret; etrans; [exact H05|]; by etrans.
  - apply runs_bind; eapply runs_mono; [apply on_wait_socket, Hk6|]; intros u k7 Hk7; apply runs_ret; etrans; [exact H05|]; etrans; [exact Hk6|exact Hk7].
Qed.

Lemma on_communicate k : live k -> runs communicate k (λ _ k', serves k k').
Proof.
  intros Hk; unfold communicate; apply runs_bind; eapply runs_mono; [by apply on_read_input|]; intros input k1 Hk1; destruct input as [waits|]; [|by apply runs_ret].
  destruct (live_parts k1) as (h & c & Eh & Ec & Hh & Ht & Hm & Hw); [apply Hk1|]; apply runs_bind, runs_asks, runs_bind; rewrite Eh; eapply runs_checked; [done|].
  apply runs_bind, runs_asks, runs_bind, runs_mono with (Q := λ _ k', serves k k').
  { apply runs_when; intros _; [|done]; apply live_sets; [apply Hk1|by apply ok_advance|]; intros k2 Hk2 _ _; by etrans. }
  intros _ k2 Hk2; destruct (goaway (h_stats h) && _).
  - assert (exists text, goaway_text (h_stats h) = Some text) as [text E].
    { unfold goaway_text; destruct (local_goaway _); [|by eexists]; destruct (hi_reason h (proj1 Hh)) as [Hz Hnul].
      destruct (rd_Some (local_goaway_reason (h_stats h)) 0) as (first & -> & _); [lia|]; cbn [mbind option_bind]; destruct (negb _); [|by eexists].
      destruct (terminated_cstr _ Hnul) as [reason Hr]; rewrite (c_string_spec _ _ Hr); by eexists. }
    apply runs_bind; eapply runs_checked; [exact E|]; apply runs_bind, live_note; [apply Hk2|]; intros k3 Hk3; apply runs_ret; by etrans.
  - destruct (fault _); [by apply runs_ret|]; eapply runs_mono; [apply on_communicate_out, Hk2|]; intros b k3 Hk3; by etrans.
Qed.

End Run.
