(* ===== verification/TunnelLoop.v ===== *)
(** The loop of the tunnel task, and the task among its callers. *)
From stdpp Require Import gmap.
From S2P Require Export TunnelRun.
#[local] Open Scope Z_scope.

Section Loop.
Context (header : Z) `{Network} `{!ApplicationLaws header} `{!JsonParser} `{!JsonParserLaws header} `{!NetworkLaws header}.

Abbreviation parts := (parts_ok (header := header)).
Abbreviation in_order := (task_ok (header := header)).

(** ** The task *)

(** A session with a registration, to say goodbye on. *)
Definition registered_session (k : task) : bool :=
  bool_decide (is_Some (k_h2 k)) && bool_decide (rpc_state (t_rpc (k_tunnel k)) = CF_RPC_REGISTERED).

Definition is_stopping (k : task) : bool := stopping (t_flags (k_tunnel k)).

Lemma mode_stopping k k' : is_Some (k_h2 k) -> is_Some (k_h2 k') -> mode_of k' = mode_of k -> is_stopping k' = is_stopping k.
Proof. unfold mode_of, is_stopping; intros [h ->] [h' ->]; by destruct (stopping (t_flags (k_tunnel k))), (stopping (t_flags (k_tunnel k'))). Qed.

(** A session that is served can be given up. *)
Lemma live_retry k : live header k -> is_stopping k = false -> retry_ready header k.
Proof.
  intros Hk Hst; destruct (live_parts header k Hk) as (h & c & _ & _ & _ & Ht & Hm & _); destruct (tk_session _ _ Ht Hm) as (Hs & Hstop & Ef).
  unfold is_stopping in Hst; rewrite Hst in Ef; split; [by destruct Hk|]; split; [done|]; rewrite <- Ef in Hstop; apply bool_decide_eq_false in Hstop.
  pose proof (tk_fresh _ _ Ht) as Hfresh; destruct (state (t_life (k_tunnel k))); try done; (split; [done|]); intros Hr; try done.
  by rewrite (Hfresh eq_refl) in Hr.
Qed.

(** The idle task does not stop. *)
Lemma stopping_live k : in_order k -> is_stopping k = true -> live header k.
Proof.
  intros [Hp Hi] Hst; split; [done|]; destruct (k_h2 k) as [h|]; [done|]; destruct (Hi eq_refl) as (_ & E & _); unfold is_stopping in Hst; congruence.
Qed.

Lemma live_order k : live header k -> in_order k.
Proof. intros [Hp [h E]]; split; [done|]; by rewrite E. Qed.

(** ** Requests *)

(** Only the flags of the requests change. *)
Lemma shared_order f k : in_order k -> in_order (Task (k_tunnel k) (k_world k) (k_tls k) (k_h2 k) (f (k_shared k))).
Proof. intros [[Hw Ht Hs] Hi]; by split. Qed.

(** The flags a closed connection leaves. *)
Lemma closed_flags t t' g : closed t t' -> attempt_started (g (t_flags t')) = attempt_started (t_flags t') -> closing (g (t_flags t')) = closing (t_flags t') ->
  stopping (g (t_flags t')) = false -> closed (over_flags (with_stopping false) t) (over_flags g t').
Proof.
  intros [Hl _ Hw Hr Hok] Ha Hc Hs; split; [exact Hl|exact Hs|by destruct Hw| |].
  - destruct Hr as [R1 R2 R3 R4]; split; [cbn; by rewrite Ha|exact R2|exact R3|exact R4].
  - intros l Hli Hconf; destruct (Hok l Hli Hconf) as [? Hcl ? ? ? ? ? ? ? ? [Hz Hh] ? ? ? ? ? ? ?]; apply Build_tunnel_ok; try assumption; try done; cbn.
    + by rewrite Hc.
    + split; [done|]; by rewrite Ha.
Qed.

Lemma on_reload k : in_order k -> runs reload_now k (λ _ k', in_order k' /\ k_shared k' = k_shared k).
Proof.
  intros [Hp _]; unfold reload_now; apply runs_bind, (on_close header _ _ (parts_closable header k Hp)); intros k1 Hw Htls Hh Hs Hc.
  do 3 (first [apply runs_bind, runs_modify|apply runs_modify]); unfold over_life; cbn [k_tunnel k_world k_tls k_h2 k_shared t_life with_t_life].
  set (l := life_step (life_step (t_life (k_tunnel k)) OpStop) OpStart).
  assert (life_inv l /\ resting (state l) = true) as [Hl Hr].
  { split; [do 2 apply life_step_inv; apply (tk_life _ _ (po_tunnel _ Hp))|]; unfold l, life_step, cf_lifecycle_start, cf_lifecycle_stop; cbn.
    unfold waiting; cbn; by repeat case_match. }
  split; [|exact Hs].
  pose proof (closed_flags (k_tunnel k) (k_tunnel k1) (λ f, with_stopping false (with_settings_ready false f)) Hc eq_refl eq_refl eq_refl) as Hc2.
  pose proof (closed_task header _ l (Task (over_flags (λ f, with_stopping false (with_settings_ready false f)) (k_tunnel k1)) (k_world k1) (k_tls k1) (k_h2 k1) (k_shared k1))
    Hc2 Hw Htls Hh eq_refl Hl Hr) as Hend.
  unfold l in Hend; rewrite <- (cl_life _ _ Hc) in Hend; exact Hend.
Qed.

(** What the clock reads. *)
Definition reading (w : world) : Z := u64 (fst (esp_timer_get_time w)) / 1000.

(** Tunnels that say goodbye. *)
Lemma ok_stopping m t : tunnel_ok m t -> has_session m = true ->
  tunnel_ok Stopping (over_life (λ l, set_state l CF_STOPPING) (over_flags (with_stopping true) t)).
Proof.
  intros [Hl Hcl Hst Hsess Hfr Hconf ? ? ? ? ? ? ? ? ? ? ? ?] Hm; apply Build_tunnel_ok; try assumption; try done; cbn.
  - rewrite Hcl; by destruct m.
  - intros _; apply Hst; by apply linked.
Qed.

Lemma on_stop_gracefully k : live header k -> runs stop_gracefully k (λ _ k', live header k' /\ is_stopping k' = true /\
  exists w, world_ok w /\ k_world k' = snd (esp_timer_get_time w) /\ k_shared k' = with_shutdown_ms (u64 (reading w + 2000)) (k_shared k)).
Proof.
  intros Hk; destruct (live_parts header k Hk) as (h & c & _ & _ & _ & Ht & Hm & _); unfold stop_gracefully; apply runs_bind, runs_asks, runs_bind, runs_asks.
  set (array := automatic (k_world k) CF_RPC_TX_MAX); assert (zlen array = CF_RPC_TX_MAX) as Hz by (by apply automatic_law).
  destruct (call_step RUnregister (t_rpc (k_tunnel k)) array) as (rc & r' & out & n & E & Hl & Hn & Hr & _ & Hidle); [apply (tk_rpc _ _ Ht)|done|lia|].
  apply runs_bind; eapply runs_checked; [exact E|]; do 3 (apply runs_bind; eapply runs_checked; [reflexivity|]).
  apply runs_bind, (live_sets header); [done| |].
  { apply ok_rpc; [done|done|]; intros Hst; pose proof (tk_fresh _ _ Ht Hst) as Hi; by rewrite (Hidle Hi). }
  intros k1 Hk1 _ _; apply runs_bind, runs_mono with (Q := λ _ k', serves header k k').
  { apply runs_when; intros _; [|done]; apply runs_bind, (on_session header); [apply Hk1| |].
    - intros h1 Hh1; destruct (live_parts header k1) as (_ & _ & _ & _ & _ & Ht1 & Hm1 & Hw1); [apply Hk1|].
      eapply (keep_append header (mode_of k1) h1); [split; [exact Ht1|by split]|lia|auto].
    - intros rc' k2 Hk2; apply runs_ret; by etrans. }
  intros _ k2 Hk2; destruct (erase_spec out CF_RPC_TX_MAX) as (x & Ex & _); [unfold CF_RPC_TX_MAX in *; lia|]; apply runs_bind; eapply runs_checked; [exact Ex|].
  destruct Hk2 as (Hk2 & Es2 & _); destruct (live_parts header k2 Hk2) as (h2 & c2 & Eh2 & Ec2 & Hh2 & Ht2 & Hm2 & Hw2).
  apply runs_bind, runs_modify; apply runs_bind; unfold clock; apply runs_bind, runs_calling; cbn [k_world k_tunnel k_tls k_h2 k_shared].
  pose proof (time_law _ Hw2) as Hw3; destruct (esp_timer_get_time (k_world k2)) as [us w] eqn:Etime; cbn [fst snd] in *.
  apply runs_ret, runs_bind, runs_modify, runs_modify; cbn [k_world k_tunnel k_tls k_h2 k_shared]; split; [|split; [done|]].
  2: { exists (k_world k2); split; [done|]; unfold reading; by rewrite Etime, Es2. }
  split; [|cbn; by rewrite Eh2]; split; [done| |]; cbn [k_h2 k_tunnel k_tls k_world].
  - unfold mode_of; cbn [k_h2 k_tunnel]; rewrite Eh2; by apply (ok_stopping (mode_of k2)).
  - intros h' E'; rewrite Ec2; split; [|done]; congruence.
Qed.

Definition requests_post (k : task) (go : bool) (k' : task) : Prop :=
  in_order k' /\ stop_requested (k_shared k') = stop_requested (k_shared k) /\ running (k_shared k') = running (k_shared k) /\
  go = negb (stop_requested (k_shared k)) || is_stopping k || registered_session k /\
  (stop_requested (k_shared k) = true -> go = true -> is_stopping k' = true) /\
  (stop_requested (k_shared k) = true -> is_stopping k = true -> shutdown_ms (k_shared k') = shutdown_ms (k_shared k)) /\
  (stop_requested (k_shared k) = true -> is_stopping k = false -> go = true ->
    exists w, world_ok w /\ k_world k' = snd (esp_timer_get_time w) /\ shutdown_ms (k_shared k') = u64 (reading w + 2000)).

Lemma on_take_requests k : in_order k -> runs take_requests k (requests_post k).
Proof.
  intros Hin; unfold take_requests; apply runs_bind, runs_asks, runs_bind, runs_modify; pose proof (shared_order (with_reload_requested false) k Hin) as Hin1.
  set (k1 := Task _ _ _ _ _) in *; assert (is_stopping k1 = is_stopping k /\ registered_session k1 = registered_session k) as [E1 E2] by done.
  assert (stop_requested (k_shared k1) = stop_requested (k_shared k) /\ running (k_shared k1) = running (k_shared k) /\ shutdown_ms (k_shared k1) = shutdown_ms (k_shared k)) as (E3 & E4 & E5) by done.
  rewrite <- E3; unfold requests_post; rewrite <- E1, <- E2, <- E3, <- E4, <- E5; revert Hin1; generalize k1, (reload_requested (k_shared k)); clear dependent k1; clear k Hin; intros k reload Hin.
  destruct (stop_requested (k_shared k)) eqn:Estop; cbn [negb andb orb]; rewrite ?andb_false_r, ?andb_true_r.
  - apply runs_bind, runs_ret, runs_bind, runs_asks, runs_bind, runs_asks; cbn [when].
    change (stopping (t_flags (k_tunnel k))) with (is_stopping k); destruct (is_stopping k) eqn:Es; cbn [negb orb].
    { apply runs_ret; by split_and!. }
    fold (registered_session k); destruct (registered_session k) eqn:Er; [|apply runs_ret; by split_and!].
    apply andb_true_iff in Er as [Eh%bool_decide_eq_true _]; apply runs_bind; eapply runs_mono; [apply on_stop_gracefully; split; [apply Hin|done]|].
    intros _ k2 (Hk2 & Hs2 & w & Hw & Ew & Ex); apply runs_ret; split; [by apply live_order|]; rewrite Ex; split_and!; try done.
    intros _ _ _; by exists w.
  - apply runs_bind, runs_mono with (Q := λ _ k', in_order k' /\ k_shared k' = k_shared k).
    { apply runs_when; intros _; [by apply on_reload|done]. }
    intros _ k2 [Hk2 E]; apply runs_bind, runs_asks, runs_bind, runs_asks; apply runs_ret; rewrite E; by split_and!.
Qed.

(** ** The environment *)

Lemma environment_inv l n v : life_inv l -> life_inv (default l (cf_lifecycle_environment (Some l) n v)).
Proof. apply (life_step_inv l (OpEnvironment n v)). Qed.

Lemma tick_inv l now : life_inv l -> life_inv (default l (cf_lifecycle_tick (Some l) now)).
Proof. apply (life_step_inv l (OpTick now)). Qed.

(** The environment and the timer, as one update. *)
Definition observed (e : esp_cf_environment) (now : Z) (l : cf_lifecycle) : cf_lifecycle :=
  let l := default l (cf_lifecycle_environment (Some l) (e_network_ready e) (e_time_valid e)) in default l (cf_lifecycle_tick (Some l) now).

Lemma observed_inv e now l : life_inv l -> life_inv (observed e now l).
Proof. intros Hl; by apply tick_inv, environment_inv. Qed.

(** Without network or clock a connection that was closed waits. *)
Lemma observed_waits e now l : e_network_ready e && e_time_valid e = false -> state l <> CF_STOPPING -> resting (state (observed e now l)) = true.
Proof.
  unfold observed, cf_lifecycle_environment, cf_lifecycle_tick, waiting, terminal; intros He Hs; cbn [default].
  destruct l as [s n tr r c f x]; destruct s; try done; destruct (e_network_ready e), (e_time_valid e); try done; cbn; by repeat case_match.
Qed.

(** With both, a session goes on as it was. *)
Lemma observed_session e now l : e_network_ready e && e_time_valid e = true -> session_state (state l) = true ->
  state (observed e now l) = state l /\ configured (observed e now l) = configured l.
Proof.
  unfold observed; intros [-> ->]%andb_true_iff Hs; destruct l as [s n tr r c f x]; by destruct s.
Qed.

(** The states without a session, before and after. *)
Lemma observed_connecting e now l : e_network_ready e && e_time_valid e = true -> connecting (state l) = true -> state (observed e now l) = state l.
Proof. unfold observed; intros [-> ->]%andb_true_iff Hs; destruct l as [s n tr r c f x]; by destruct s. Qed.

Lemma observed_resting e now l : resting (state l) = true -> resting (state (observed e now l)) = true.
Proof.
  unfold observed, cf_lifecycle_environment, cf_lifecycle_tick, waiting, terminal; cbn [default].
  destruct l as [s n tr r c f x]; destruct s; try done; destruct (e_network_ready e), (e_time_valid e); intros _; cbn; by repeat case_match.
Qed.

(** A query goes on only where both are there. *)
Lemma observed_discovery e now l : state l = CF_DISCOVERY -> e_network_ready e && e_time_valid e = true -> state (observed e now l) = CF_DISCOVERY.
Proof. unfold observed; intros Hs [-> ->]%andb_true_iff; destruct l as [s n tr r c f x]; cbn in Hs; by subst s. Qed.

Lemma ok_environment m e t : tunnel_ok m t -> zlen (e_local_ip e) = 4 -> bytes_ok (e_local_ip e) -> zlen (e_dns_ip e) = 4 -> tunnel_ok m (with_t_environment e t).
Proof. intros [] Hl Hb Hd; by split. Qed.

(** A life under which the tunnel is what it was. *)
Lemma ok_life m l t : tunnel_ok m t -> life_inv l -> state l = state (t_life t) -> configured l = configured (t_life t) -> tunnel_ok m (with_t_life l t).
Proof.
  intros [? ? ? ? ? ? ? ? ? ? ? ? ? ? ? ? ? ?] Hl Hs Hc; apply Build_tunnel_ok; try assumption; try done; cbn; by rewrite ?Hs, ?Hc.
Qed.

Lemma ok_life_idle l t : tunnel_ok Unconnected t -> life_inv l -> resting (state l) = true -> tunnel_ok Unconnected (with_t_life l t).
Proof.
  intros [? ? ? ? ? ? ? ? ? ? ? ? ? ? ? ? ? ?] Hl Hr; apply Build_tunnel_ok; try assumption; try done; cbn; [by destruct (state l)|].
  by rewrite (resting_configured _ Hl Hr).
Qed.

(** An idle task that is at rest. *)
Lemma rest_order l k : parts k -> k_h2 k = None -> k_tls k = None -> wiped (k_tunnel k) -> at_rest (k_tunnel k) -> is_stopping k = false ->
  life_inv l -> resting (state l) = true -> in_order (Task (with_t_life l (k_tunnel k)) (k_world k) (k_tls k) (k_h2 k) (k_shared k)).
Proof.
  intros [Hw Ht Hs] Hh Htls Hwi Hr Hst Hl Hre; unfold mode_of in Ht; rewrite Hh in Ht; split; cbn [k_tunnel k_world k_tls k_h2].
  - split; cbn [k_tunnel k_world k_tls k_h2]; [done|unfold mode_of; cbn [k_h2]; rewrite Hh; by apply ok_life_idle|by rewrite Hh].
  - intros _; split; [by destruct Hwi|]; split; [exact Hst|]; unfold state_fits; cbn [t_life with_t_life]; rewrite Htls.
    assert (at_rest (with_t_life l (k_tunnel k))) as Hr2 by (by destruct Hr).
    destruct (state l); try done; split; try done; cbn [t_flags with_t_life]; by rewrite (ar_started _ Hr).
Qed.

(** A life with the same state. *)
Lemma same_order l k : in_order k -> life_inv l -> state l = state (t_life (k_tunnel k)) -> configured l = configured (t_life (k_tunnel k)) ->
  in_order (Task (with_t_life l (k_tunnel k)) (k_world k) (k_tls k) (k_h2 k) (k_shared k)).
Proof.
  intros [[Hw Ht Hs] Hi] Hl Es Ec; split.
  - split; [done|by apply (ok_life (mode_of k))|done].
  - intros Hh; destruct (Hi Hh) as ([? ? ? ? ? ?] & Hst & Hf); split; [by split|]; split; [done|]; unfold state_fits in *; cbn; rewrite Es.
    destruct (state (t_life (k_tunnel k))); try done; destruct Hf as [Hf1 Hf2]; split; try done; try (by destruct Hf2); case_match; [done|]; by destruct Hf2.
Qed.

Lemma observed_order e now k : in_order k -> e_network_ready e && e_time_valid e = true \/ (k_tls k = None /\ dns_socket (t_dns (k_tunnel k)) < 0) ->
  in_order (Task (with_t_life (observed e now (t_life (k_tunnel k))) (k_tunnel k)) (k_world k) (k_tls k) (k_h2 k) (k_shared k)).
Proof.
  intros Hin He; remember (observed e now (t_life (k_tunnel k))) as l eqn:El; assert (life_inv l) as Hl by (rewrite El; apply observed_inv, (tk_life _ _ (po_tunnel _ (to_parts _ Hin)))).
  destruct (k_h2 k) as [h|] eqn:Eh.
  - destruct He as [He|[Etls _]]; [|destruct (po_session _ (to_parts _ Hin) h Eh) as [_ [c Ec]]; congruence].
    destruct (live_parts header k) as (_ & _ & _ & _ & _ & Ht & Hm & _); [split; [apply Hin|by rewrite Eh]|]; destruct (tk_session _ _ Ht Hm) as (Hs & _).
    destruct (observed_session e now _ He Hs) as [E1 E2]; rewrite <- El in E1, E2; rewrite <- Eh; by apply same_order.
  - destruct (to_idle _ Hin Eh) as (Hw & Hst & Hf); rewrite <- Eh.
    assert (resting (state (t_life (k_tunnel k))) = true -> k_tls k = None -> at_rest (k_tunnel k) -> in_order (Task (with_t_life l (k_tunnel k)) (k_world k) (k_tls k) (k_h2 k) (k_shared k))) as Hrest.
    { intros Hr Htls Har; apply rest_order; [apply Hin|exact Eh|exact Htls|exact Hw|exact Har|exact Hst|exact Hl|rewrite El; by apply observed_resting]. }
    assert (e_network_ready e && e_time_valid e = true -> connecting (state (t_life (k_tunnel k))) = true \/ state (t_life (k_tunnel k)) = CF_DISCOVERY ->
      in_order (Task (with_t_life l (k_tunnel k)) (k_world k) (k_tls k) (k_h2 k) (k_shared k))) as Hsame.
    { intros Hr Hs; assert (state l = state (t_life (k_tunnel k))) as Es.
      { rewrite El; destruct Hs as [Hs|Hs]; [by apply observed_connecting|rewrite Hs; by apply observed_discovery]. }
      apply same_order; [done|done|done|]; pose proof (tk_life _ _ (po_tunnel _ (to_parts _ Hin))) as Hl0; clear El; unfold life_inv in Hl0, Hl; rewrite Es in Hl.
      destruct Hs as [Hs|Hs]; [|rewrite Hs in *; intuition congruence]; destruct (state (t_life (k_tunnel k))); try done; intuition congruence. }
    unfold state_fits in Hf; destruct (k_tls k) as [c|] eqn:Etls.
    + destruct He as [He|[? _]]; [|done]; apply Hsame; [done|]; destruct (state (t_life (k_tunnel k))); auto; by destruct Hf.
    + destruct (state (t_life (k_tunnel k))) eqn:Es; try (apply Hrest; [done|done|by destruct Hf]); try (by destruct Hf).
      destruct Hf as [_ Hf]; destruct (attempt_started (t_flags (k_tunnel k))) eqn:Ea; [|by apply Hrest].
      destruct He as [He|[_ He]]; [apply Hsame; auto|lia].
Qed.

(** ** The steps of the loop *)

Definition observe_post (k : task) (go : bool) (k' : task) : Prop :=
  k_shared k' = k_shared k /\ if go then in_order k' /\ is_stopping k' = is_stopping k else parts k' /\ is_stopping k = true.

Lemma on_observe_environment k : in_order k -> runs observe_environment k (observe_post k).
Proof.
  intros Hin; pose proof (moved_here header k (to_parts _ Hin)) as Hk; destruct (moved_parts header k k _ Hk) as (_ & Ht & _); unfold observe_environment.
  apply runs_bind; eapply on_tunnel; [exact Hk|]; apply runs_bind.
  apply (on_call header _ k k (k_tunnel k) (λ e, zlen (e_local_ip e) = 4 /\ bytes_ok (e_local_ip e) /\ zlen (e_dns_ip e) = 4)); [done| |].
  { intros e w' E Hw; eapply environment_law; [exact E|done|apply Ht..]. }
  intros e k1 Hk1 (He1 & He2 & He3); apply runs_bind; eapply on_sets; [exact Hk1|by apply ok_environment|]; intros k2 (Hp2 & Etls2 & Eh2 & Es2 & Et2 & Em2).
  assert (in_order k2 /\ is_stopping k2 = is_stopping k) as [Hin2 Hst2].
  { split; [|unfold is_stopping; by rewrite Et2]; split; [done|]; rewrite Eh2, Et2, Etls2; intros Hh; destruct (to_idle _ Hin Hh) as ([? ? ? ? ? ?] & ? & Hf).
    split; [by split|]; split; [done|]; unfold state_fits in *; cbn; destruct (state (t_life (k_tunnel k))); try done; destruct Hf as [Hf1 Hf2]; split; try done;
      try (case_match; [done|]); by destruct Hf2. }
  unfold observe_post; rewrite <- Es2, <- Hst2; clear - Hin2 NetworkLaws0; apply runs_bind, runs_asks, runs_bind, runs_asks; set (ready := e_network_ready e && e_time_valid e).
  change (stopping (t_flags (k_tunnel k2))) with (is_stopping k2); destruct (negb ready && is_stopping k2) eqn:Eleave.
  { apply andb_true_iff in Eleave as [_ Hst]; apply runs_ret; split; [done|]; split; [apply Hin2|done]. }
  apply runs_bind; unfold when; destruct (negb ready && (_ || _)) eqn:Eclose.
  - apply andb_true_iff in Eclose as [Hr _]; rewrite Hr in Eleave; cbn [andb] in Eleave; apply negb_true_iff in Hr.
    apply (on_close header _ _ (parts_closable header k2 (to_parts _ Hin2))); intros k3 Hw3 Htls3 Hh3 Hs3 Hc3.
    apply runs_bind, runs_modify, runs_bind; unfold clock; apply runs_bind, runs_calling; cbn [k_world k_tunnel k_tls k_h2 k_shared].
    pose proof (time_law _ Hw3) as Hw4; destruct (esp_timer_get_time (k_world k3)) as [us w]; cbn [fst snd] in *.
    apply runs_ret, runs_bind, runs_modify, runs_ret; cbn [k_world k_tunnel k_tls k_h2 k_shared]; split; [done|].
    assert (state (t_life (k_tunnel k2)) <> CF_STOPPING) as Hne.
    { intros Hs; destruct (k_h2 k2) as [h|] eqn:Eh.
      - destruct (live_parts header k2) as (_ & _ & _ & _ & _ & Ht & Hm & _); [split; [apply Hin2|by rewrite Eh]|]; destruct (tk_session _ _ Ht Hm) as (_ & E1 & E2).
        unfold is_stopping in Eleave; rewrite Hs, <- E2, Eleave in E1; done.
      - destruct (to_idle _ Hin2 Eh) as (_ & _ & Hf); unfold state_fits in Hf; by rewrite Hs in Hf. }
    pose proof (cl_life _ _ Hc3) as El; split.
    + pose proof (closed_task header _ (observed e (u64 us / 1000) (t_life (k_tunnel k3))) (Task (k_tunnel k3) w (k_tls k3) (k_h2 k3) (k_shared k3)) Hc3 Hw4 Htls3 Hh3 Eleave) as Hend.
      apply Hend; rewrite El; [apply observed_inv, (tk_life _ _ (po_tunnel _ (to_parts _ Hin2)))|by apply observed_waits].
    + unfold is_stopping; cbn; by rewrite (cl_stopping _ _ Hc3).
  - apply runs_ret, runs_bind, runs_modify, runs_bind; unfold clock; apply runs_bind, runs_calling; cbn [k_world k_tunnel k_tls k_h2 k_shared].
    pose proof (time_law _ (po_world _ (to_parts _ Hin2))) as Hw4; destruct (esp_timer_get_time (k_world k2)) as [us w]; cbn [fst snd] in *.
    apply runs_ret, runs_bind, runs_modify, runs_ret; cbn [k_world k_tunnel k_tls k_h2 k_shared]; split; [done|]; split; [|done].
    assert (in_order (Task (k_tunnel k2) w (k_tls k2) (k_h2 k2) (k_shared k2))) as Hin3 by (destruct Hin2 as [[? ? ?] ?]; by split).
    apply (observed_order e (u64 us / 1000) _ Hin3); cbn [k_tls k_tunnel]; destruct ready eqn:Er; [by left|right]; cbn [negb andb] in Eclose.
    apply orb_false_iff in Eclose as [E1%bool_decide_eq_false E2]; split; [destruct (k_tls k2); [by destruct E1|done]|lia].
Qed.

Definition finish_post (k : task) (go : bool) (k' : task) : Prop :=
  stop_requested (k_shared k') = stop_requested (k_shared k) /\ running (k_shared k') = running (k_shared k) /\
  shutdown_ms (k_shared k') = shutdown_ms (k_shared k) /\ parts k' /\ (go = true -> in_order k' /\ is_stopping k' = is_stopping k).

Lemma on_finish k : in_order k -> runs finish_iteration k (λ go k', finish_post k go k' /\
  (is_stopping k = true -> shutdown_ms (k_shared k) <= reading (k_world k) -> go = false)).
Proof.
  intros Hin; unfold finish_iteration; apply runs_bind, runs_asks, runs_bind, runs_asks, runs_bind.
  apply runs_mono with (Q := λ over k', moved header k k' (k_tunnel k) /\ (is_stopping k = true -> shutdown_ms (k_shared k) <= reading (k_world k) -> over = true)).
  { pose proof (moved_here header k (to_parts _ Hin)) as Hk; change (stopping (t_flags (k_tunnel k))) with (is_stopping k); destruct (is_stopping k).
    - apply runs_bind; unfold clock; apply runs_bind, runs_calling; unfold reading; destruct (esp_timer_get_time (k_world k)) as [us w] eqn:E; cbn [fst snd].
      apply runs_ret, runs_ret; split; [|intros _ Hr; by apply orb_true_iff; left; apply Z.leb_le].
      destruct Hk as ([Hw Ht Hs] & _); split; [|done]; split; [|done|done]; cbn; pose proof (time_law _ Hw) as Hw2; by rewrite E in Hw2.
    - apply runs_ret; split; [done|]; by intros [=]. }
  intros over k1 [Hk1 Hover]; destruct over.
  { apply runs_ret; split; [|done]; destruct Hk1 as (Hp & _ & _ & Es & _); split_and!; try congruence; done. }
  apply runs_bind; eapply on_publish; [exact Hk1|]; intros k2 Hp2 Etls2 Eh2 Et2 E1 E2 E3.
  assert (in_order k2) as Hin2 by (destruct Hin as [_ Hi]; split; [done|]; by rewrite Eh2, Et2, Etls2).
  apply runs_bind, runs_asks, runs_bind, runs_mono with (Q := λ _ k', in_order k' /\ k_tunnel k' = k_tunnel k2 /\ k_shared k' = k_shared k2).
  { apply runs_when; intros _; [apply runs_calling; cbn|by split]; split; [|by split]; destruct Hin2 as [[? ? ?] ?]; split; [split; [by apply delay_law|done|done]|done]. }
  intros _ k3 (Hin3 & Et3 & Es3); apply runs_ret; split.
  - rewrite <- Es3 in E1, E2, E3; unfold finish_post; rewrite E1, E2, E3; split_and!; try done; [apply Hin3|].
    intros _; split; [done|]; unfold is_stopping; congruence.
  - intros Hst Hr; discriminate (Hover Hst Hr).
Qed.

(** ** Work *)

Context (Hheader : 0 < header <= 64).

Definition work_post (k : task) (go : bool) (k' : task) : Prop :=
  k_shared k' = k_shared k /\ if go then in_order k' /\ (is_stopping k = true -> is_stopping k' = true) else parts k' /\ is_stopping k' = true.

Lemma on_work k : in_order k -> runs work k (work_post k).
Proof.
  intros Hin; unfold work; apply runs_bind, runs_asks, runs_bind, runs_asks.
  assert (forall f : SM task bool, is_stopping k = false -> runs f k (worked header k) -> runs (ok ← f; retry_unless ok;; mret true) k (work_post k)) as Hattempt.
  { intros f Hst Hf; apply runs_bind; eapply runs_mono; [exact Hf|]; intros b k1 [Es Hb]; apply runs_bind; destruct b; cbn [retry_unless when negb].
    - apply runs_ret, runs_ret; split; [done|]; split; [done|]; by rewrite Hst.
    - eapply runs_mono; [by eapply on_retry|]; intros _ k2 (Hk2 & _ & Es2); apply runs_ret; split; [congruence|]; split; [done|]; by rewrite Hst. }
  assert (forall s, state (t_life (k_tunnel k)) = s -> resting s = true -> is_stopping k = false) as Hrest.
  { intros s <- Hr; destruct (idle_state header k Hin Hr) as [Eh _]; destruct (to_idle _ Hin Eh) as (_ & E & _); exact E. }
  assert (runs (if bool_decide (is_Some (k_h2 k)) then
     ok ← communicate; if negb (ok : bool) then stop ← reads (λ t, stopping (t_flags t)); if (stop : bool) then mret false else retry;; mret true else mret true
     else mret true) k (work_post k)) as Htraffic.
  { case_bool_decide as Eh; [|by apply runs_ret]; assert (live header k) as Hk by (split; [apply Hin|done]).
    apply runs_bind; eapply runs_mono; [by apply on_communicate|]; intros b k1 (Hk1 & Es & Em); pose proof (mode_stopping k k1 Eh (proj2 Hk1) Em) as Hst.
    destruct b; cbn [negb]; [apply runs_ret; split; [done|]; split; [by apply live_order|congruence]|]; apply runs_bind, runs_asks.
    destruct (stopping (t_flags (k_tunnel k1))) eqn:E1; [apply runs_ret; split; [done|]; by destruct Hk1|]; apply runs_bind.
    eapply runs_mono; [apply (on_retry header), live_retry; [exact Hk1|exact E1]|]; intros _ k2 (Hk2 & _ & Es2); apply runs_ret; split; [congruence|]; split; [done|].
    unfold is_stopping in *; congruence. }
  destruct (state (t_life (k_tunnel k))) eqn:Estate; try exact Htraffic.
  - apply Hattempt; [by apply (Hrest CF_DISCOVERY)|by apply (on_discover header)].
  - apply Hattempt; [|apply (on_connect_tls header); [done|by rewrite Estate]].
    destruct (connecting_resources header k Hin) as (_ & _ & _ & E & _); [by rewrite Estate|done].
  - apply Hattempt; [|apply (on_connect_tls header); [done|by rewrite Estate]].
    destruct (connecting_resources header k Hin) as (_ & _ & _ & E & _); [by rewrite Estate|done].
Qed.

(** ** The loop *)

(** What is left of an iteration after the requests. *)
Definition after_requests : SM task bool :=
  go ← observe_environment; if negb (go : bool) then mret false else
  go ← work; if negb (go : bool) then mret false else
  finish_iteration.

Record continued (k : task) (go : bool) (k' : task) : Prop := {
  co_parts : parts k';
  co_order : go = true -> in_order k';
  co_requests : stop_requested (k_shared k') = stop_requested (k_shared k) /\ running (k_shared k') = running (k_shared k);
  co_deadline : shutdown_ms (k_shared k') = shutdown_ms (k_shared k);
  co_stops : go = true -> is_stopping k = true -> is_stopping k' = true;
  co_in_time : go = true -> is_stopping k = true -> exists w, world_ok w /\ reading w < shutdown_ms (k_shared k)
}.

Lemma on_after_requests k : in_order k -> runs after_requests k (continued k).
Proof.
  intros Hin; apply runs_bind; eapply runs_mono; [by apply on_observe_environment|]; intros go2 k2 [E2 H2]; destruct go2; cbn [negb].
  2: { apply runs_ret; destruct H2 as [Hp2 Hst2]; split; rewrite ?E2; done. }
  destruct H2 as [Hin2 Hst2]; apply runs_bind; eapply runs_mono; [by apply on_work|]; intros go3 k3 [E3 H3']; destruct go3; cbn [negb].
  2: { apply runs_ret; destruct H3' as [Hp3 Hst3]; split; rewrite ?E3, ?E2; done. }
  destruct H3' as [Hin3 Hst3]; eapply runs_mono; [by apply on_finish|]; intros go k4 [(F1 & F2 & F3 & F4 & F5) Hlate].
  rewrite E3, E2 in F1, F2, F3, Hlate; split; try done.
  - intros Hgo; by apply F5.
  - intros Hgo Hst; destruct (F5 Hgo) as [_ ->]; apply Hst3; by rewrite Hst2.
  - intros Hgo Hst; exists (k_world k3); split; [apply Hin3|]; apply Z.nle_gt; intros Hle; rewrite Hlate in Hgo; [done| |done]; apply Hst3; by rewrite Hst2.
Qed.

(** What an iteration does; [go] says whether the loop goes on. *)
Record iterated (k : task) (go : bool) (k' : task) : Prop := {
  it_parts : parts k';
  it_order : go = true -> in_order k';
  it_requested : stop_requested (k_shared k') = stop_requested (k_shared k);
  it_running : running (k_shared k') = running (k_shared k);
  it_leaves : stop_requested (k_shared k) = true -> is_stopping k || registered_session k = false -> go = false;
  it_stops : stop_requested (k_shared k) = true -> go = true -> is_stopping k' = true;
  it_deadline : stop_requested (k_shared k) = true -> is_stopping k = true ->
    shutdown_ms (k_shared k') = shutdown_ms (k_shared k) /\ (go = true -> exists w, world_ok w /\ reading w < shutdown_ms (k_shared k));
  it_goodbye : stop_requested (k_shared k) = true -> is_stopping k = false -> go = true ->
    exists w k1, world_ok w /\ in_order k1 /\ k_world k1 = snd (esp_timer_get_time w) /\
      shutdown_ms (k_shared k') = u64 (reading w + 2000) /\ after_requests k1 = Some (true, k')
}.

Lemma on_iteration k : in_order k -> runs run_iteration k (iterated k).
Proof.
  intros Hin; unfold run_iteration; apply runs_bind; eapply runs_mono; [by apply on_take_requests|]; intros go1 k1 (Hin1 & R1 & R2 & R3 & R4 & R5 & R6).
  destruct go1; cbn [negb].
  2: { apply runs_ret; split; try done; [apply Hin1|]; intros Hs Hst; split; [by apply R5|done]. }
  assert (stop_requested (k_shared k) = true -> is_stopping k || registered_session k = true) as Hleft by (intros Hs; by rewrite Hs in R3).
  fold after_requests; destruct (on_after_requests k1 Hin1) as (go & k' & E & [C1 C2 [C3 C3b] C4 C5 C6]); exists go, k'; split; [exact E|]; split; try congruence; try done.
  - intros Hs Hno; rewrite (Hleft Hs) in Hno; done.
  - intros Hs Hgo; apply C5; [done|by apply R4].
  - intros Hs Hst; rewrite C4, (R5 Hs Hst); split; [done|]; intros Hgo; destruct (C6 Hgo (R4 Hs eq_refl)) as (w & Hw & Hr); exists w; by rewrite <- (R5 Hs Hst).
  - intros Hs Hst Hgo; destruct (R6 Hs Hst eq_refl) as (w & Hw & Ew & Er); exists w, k1; rewrite C4; split_and!; try done; by rewrite <- Hgo.
Qed.

(** The task is not running: nothing is left of a connection. *)
Record off (k : task) : Prop := {
  off_parts : parts k;
  off_session : k_h2 k = None /\ k_tls k = None;
  off_wiped : wiped (k_tunnel k);
  off_rest : at_rest (k_tunnel k);
  off_state : state (t_life (k_tunnel k)) = CF_STOPPED
}.

Lemma on_end k : parts k -> runs run_end k (λ _ k', off k' /\ stop_requested (k_shared k') = stop_requested (k_shared k) /\ running (k_shared k') = false).
Proof.
  intros Hp; unfold run_end; apply runs_bind, (on_close header _ _ (parts_closable header k Hp)); intros k1 Hw Htls Hh Hs Hc.
  apply runs_bind, runs_modify; set (k2 := Task _ _ _ _ _); pose proof (life_step_inv (t_life (k_tunnel k)) OpStop (tk_life _ _ (po_tunnel _ Hp))) as Hl.
  rewrite <- (cl_life _ _ Hc) in Hl; assert (parts k2) as Hp2.
  { split; cbn; [done| |by rewrite Hh]; unfold mode_of; cbn; rewrite Hh; by apply (cl_ok _ _ Hc). }
  apply runs_bind; eapply on_note; [apply (moved_here header k2 Hp2)|]; intros k3 x Hk3; apply runs_bind; eapply on_publish; [exact Hk3|].
  intros k4 Hp4 Etls4 Eh4 Et4 E1 _ _; apply runs_modify; cbn [k_shared k_tunnel with_running stop_requested running]; split; [|split; [by rewrite E1, <- Hs|done]].
  destruct Hc as [_ _ [? ? ? ? ? ?] [? ? ? ?] _]; destruct Hp4 as [? ? ?]; split; cbn [k_tunnel k_tls k_h2 k_world k_shared]; [by split|by rewrite Eh4, Etls4|rewrite Et4; by split|rewrite Et4; by split|by rewrite Et4].
Qed.

Lemma on_start k : off k -> is_stopping k = false -> runs run_start k (λ _ k', in_order k' /\ k_shared k' = k_shared k).
Proof.
  intros [Hp [Hh Htls] Hw Hr Hs] Hst; apply runs_modify; split; [|done]; unfold over_life; pose proof (life_step_inv (t_life (k_tunnel k)) OpStart (tk_life _ _ (po_tunnel _ Hp))) as Hl.
  apply (rest_order _ k Hp Hh Htls Hw Hr Hst Hl); unfold life_step, cf_lifecycle_start, waiting; rewrite Hs; cbn; by repeat case_match.
Qed.

End Loop.
