(* ===== verification/TunnelSafe.v ===== *)
(** The tunnel among its callers, from its creation to its destruction: no step
    is undefined, and a request to stop is honoured. *)
From stdpp Require Import gmap.
From S2P Require Export TunnelLoop.
#[local] Open Scope Z_scope.

(** ** Creation *)

(** The strings of a configuration, where they are given. *)
Definition given_text (s : option (list Z)) : Prop := forall m, s = Some m -> bytes_ok m /\ exists text, cstr m text.

Lemma bad_text_spec s text max : cstr s text -> bad_text s max = Some (bool_decide (text = []) || (max <? zlen text)).
Proof.
  intros Hs; unfold bad_text; destruct text as [|c text].
  - destruct Hs as (rest & -> & _); done.
  - rewrite (strlen_spec _ _ Hs); destruct Hs as (rest & -> & Hn); rewrite bool_decide_eq_false_2 by done.
    change (rd ((c :: text) ++ 0 :: rest) 0) with (Some c); cbn [mbind option_bind]; destruct (Z.eqb_spec c 0) as [->|]; [|done].
    exfalso; apply Hn, list_elem_of_here.
Qed.

Lemma uuid_bytes : Forall (λ x, is_byte (Z.lor (Z.land x 15) 64) /\ is_byte (Z.lor (Z.land x 63) 128)) (seqZ 0 256).
Proof. apply (bool_decide_unpack _); vm_compute; exact I. Qed.

Lemma uuid_byte x : is_byte x -> is_byte (Z.lor (Z.land x 15) 64) /\ is_byte (Z.lor (Z.land x 63) 128).
Proof. intros Hx; apply (proj1 (Forall_forall _ _) uuid_bytes), elem_of_seqZ; unfold is_byte in Hx; lia. Qed.

Lemma connector_uuid_spec random : zlen random = 16 -> bytes_ok random -> exists id, connector_uuid random = Some id /\ zlen id = 16 /\ bytes_ok id.
Proof.
  intros Hz Hb; unfold connector_uuid, wr; destruct (rd_Some random 6) as (six & E6 & _); [lia|]; rewrite E6; cbn [mbind option_bind].
  pose proof (uuid_byte six (rd_byte _ _ _ Hb E6)) as [H6 _].
  destruct (blit_Some random 6 [Z.lor (Z.land six 15) 64]) as [id1 E1]; [lia|rewrite Hz; done|]; rewrite E1; cbn [mbind option_bind].
  pose proof (zlen_blit _ _ _ _ E1) as Hz1; assert (bytes_ok id1) as Hb1 by (eapply blit_bytes; [exact E1|done|by constructor]).
  destruct (rd_Some id1 8) as (eight & E8 & _); [lia|]; rewrite E8; cbn [mbind option_bind]; pose proof (uuid_byte eight (rd_byte _ _ _ Hb1 E8)) as [_ H8].
  destruct (blit_Some id1 8 [Z.lor (Z.land eight 63) 128]) as [id2 E2]; [lia|rewrite Hz1, Hz; done|]; rewrite E2.
  exists id2; split; [done|]; split; [rewrite (zlen_blit _ _ _ _ E2); lia|]; eapply blit_bytes; [exact E2|done|by constructor].
Qed.

Section Safe.
Context (header : Z) `{Network} `{!ApplicationLaws header} `{!JsonParser} `{!JsonParserLaws header} `{!NetworkLaws header}.

Abbreviation parts := (parts_ok (header := header)).
Abbreviation in_order := (task_ok (header := header)).

Lemma zlen_zeros n : 0 <= n -> zlen (replicate (Z.to_nat n) 0) = n.
Proof. intros Hn; unfold zlen; rewrite length_replicate; lia. Qed.

Lemma zeros_zeroed n : zeroed (replicate n 0).
Proof. by apply Forall_replicate. Qed.

(** The tunnel as it is created. *)
Definition new_tunnel (o : cf_rpc_options) : tunnel :=
  with_t_options o (over_remote (λ r, default r (cf_config_init (Some r))) (over_life (λ l, default l (cf_lifecycle_init (Some l))) (over_dns (with_dns_socket (-1)) zero_tunnel))).

Lemma new_tunnel_ok o : options_ok o -> tunnel_ok Unconnected (new_tunnel o) /\ wiped (new_tunnel o) /\ at_rest (new_tunnel o).
Proof.
  intros Ho; split; [|split].
  - apply Build_tunnel_ok; try done; cbn [new_tunnel zero_tunnel with_t_options over_remote with_t_remote over_life with_t_life over_dns with_t_dns t_life t_rpc t_remote t_credentials t_options
      t_hostname t_environment t_rpc_link t_config_link t_dns t_report t_flags t_edge_ip].
    + apply zero_rpc_inv.
    + apply zero_credentials_ok.
    + split; [reflexivity|by apply Forall_replicate].
    + split; [by apply zlen_zeros|]; split; [by apply Forall_replicate|]; split; [done|]; split; [reflexivity|]; by repeat (split; [done|]).
    + split; [reflexivity|]; by apply (bool_decide_unpack _).
    + split; split; try reflexivity; by apply (bool_decide_unpack _).
    + split; [by apply zlen_zeros|]; split; [reflexivity|]; by apply (bool_decide_unpack _).
  - split; [reflexivity|reflexivity|apply zeros_zeroed|split; [apply zeros_zeroed|reflexivity]|split; [apply zeros_zeroed|reflexivity]|by split].
  - by split.
Qed.

(** A task that is not running. *)
Definition idle (k : task) : Prop := off header k /\ running (k_shared k) = false.

Lemma init_spec config memory random w : given_text (config_version config) -> given_text (config_arch config) ->
  zlen random = 16 -> bytes_ok random -> world_ok w ->
  exists rc k, esp_cf_tunnel_init (Some config) true memory random w = Some (rc, k) /\ (rc = ESP_OK <-> is_Some k) /\
    (forall k', k = Some k' -> idle k' /\ is_stopping k' = false /\ stop_requested (k_shared k') = false /\ k_world k' = w).
Proof.
  intros Hver Har Hz Hb Hw; unfold esp_cf_tunnel_init; cbn [negb].
  assert (exists bad, invalid_config config = Some bad /\ (bad = false -> is_Some (config_version config) /\ is_Some (config_arch config))) as (bad & Ebad & Hgood).
  { unfold invalid_config; destruct (callbacks_set config); cbn [negb]; [|by exists true]; destruct (config_version config) as [ver|]; [|by exists true].
    destruct (config_arch config) as [ar|]; [|by exists true]; destruct (Hver ver eq_refl) as [_ [vt Hv]], (Har ar eq_refl) as [_ [at_ Ha]], service_law as [label Hl].
    rewrite (bad_text_spec _ _ _ Hv); cbn [mbind option_bind]; destruct (_ || _); [by exists true|]; rewrite (bad_text_spec _ _ _ Ha); cbn [mbind option_bind].
    destruct (_ || _); [by exists true|]; rewrite (bad_text_spec _ _ _ Hl); cbn [mbind option_bind]; destruct (_ || _); [by exists true|]; eexists; split; [done|]; by split. }
  rewrite Ebad; cbn [mbind option_bind]; assert (forall e, e <> ESP_OK -> e = ESP_OK <-> is_Some (@None task)) as Hno by (intros e He; split; [done|by intros []]).
  destruct bad; [do 2 eexists; split; [done|]; split; [by apply Hno|done]|]; destruct memory; cbn [negb]; [|do 2 eexists; split; [done|]; split; [by apply Hno|done]].
  destruct (Hgood eq_refl) as [[ver Ever] [ar Ear]]; rewrite Ever, Ear; destruct (Hver ver Ever) as [Hvb [vt Hv]], (Har ar Ear) as [Hab [at_ Ha]].
  destruct (connector_uuid_spec random Hz Hb) as (id & -> & Hid & Hidb); cbn [mbind option_bind]; rewrite (strlen_spec _ _ Hv), (strlen_spec _ _ Ha); cbn [mbind option_bind].
  do 2 eexists; split; [reflexivity|]; split; [by split|]; intros k' [= <-]; split; [|done]; split; [|done].
  assert (forall m t, bytes_ok m -> cstr m t -> denotes (Bytes (Some m) (zlen t)) t) as Htext.
  { intros m t Hm (rest & -> & _); apply Forall_app in Hm as [Hm _]; split; [done|]; split; [done|]; by exists (0 :: rest). }
  match goal with |- off _ (Task (with_t_options ?o _) _ _ _ _) => destruct (new_tunnel_ok o) as (Hok & Hwi & Hre) end.
  { split; [done|]; split; [done|]; split; [exists vt; by apply Htext|]; split; [exists at_; by apply Htext|]; by split. }
  by split.
Qed.

(** ** Phases *)

Context (Hheader : 0 < header <= 64).

(** What holds of the task in each phase. *)
Definition phase_ok (x : phase_of_task * task) : Prop :=
  running (k_shared (snd x)) = match fst x with Idle => false | _ => true end /\
  match fst x with Idle => off header (snd x) | Looping => in_order (snd x) | Leaving => parts (snd x) end.

Lemma off_flags k b s : off header k -> off header (Task (over_flags (with_stopping b) (k_tunnel k)) (k_world k) (k_tls k) (k_h2 k) s).
Proof.
  intros [[Hw Ht Hs] [Hh Htls] [? ? ? ? ? ?] [? ? ? ?] Hst]; split; cbn [k_tunnel k_world k_tls k_h2]; [|by split|by split|by split|done].
  split; cbn [k_tunnel k_world k_tls k_h2]; [done| |done]; unfold mode_of in *; cbn [k_h2]; rewrite Hh in *.
  destruct Ht as [? ? ? ? ? ? ? ? ? ? ? ? ? ? ? ? ? ?]; by apply Build_tunnel_ok.
Qed.

(** The requests of other tasks change nothing else. *)
Lemma phase_request p k f : (forall s, running (f s) = running s) -> phase_ok (p, k) ->
  phase_ok (p, Task (k_tunnel k) (k_world k) (k_tls k) (k_h2 k) (f (k_shared k))).
Proof.
  intros Hf [Hr Hp]; split; cbn [fst snd k_shared] in *; [by rewrite Hf|]; destruct p.
  - destruct Hp as [[Hw Ht Hs] ? [? ? ? ? ? ?] [? ? ? ?] ?]; by split.
  - by apply (shared_order header f).
  - by destruct Hp.
Qed.

Lemma phase_step x y : task_step x y -> phase_ok x -> phase_ok y.
Proof.
  intros Hstep Hx; destruct Hstep as [k k' Estart Hrun u k'' E|k k' E|k k' E|k u k' E|p k k' E|p k k' E].
  - destruct Hx as [_ Hoff]; cbn [fst snd] in Hoff; unfold esp_cf_tunnel_start in Estart; rewrite Hrun in Estart; cbn [snd] in Estart; injection Estart as <-.
    match type of E with run_start ?k0 = _ => destruct (on_start header k0) as (u' & k2 & E2 & Hin & Es); [by apply off_flags|done|] end.
    rewrite E in E2; injection E2 as <- <-; split; cbn [fst snd]; [by rewrite Es|done].
  - destruct Hx as [Hr Hin]; cbn [fst snd] in *; destruct (on_iteration header Hheader k Hin) as (go & k2 & E2 & []); rewrite E in E2; injection E2 as <- <-.
    split; cbn [fst snd]; [congruence|auto].
  - destruct Hx as [Hr Hin]; cbn [fst snd] in *; destruct (on_iteration header Hheader k Hin) as (go & k2 & E2 & []); rewrite E in E2; injection E2 as <- <-.
    split; cbn [fst snd]; [congruence|auto].
  - destruct Hx as [Hr Hp]; cbn [fst snd] in *; destruct (on_end header k Hp) as (u2 & k2 & E2 & Hoff & _ & Er); rewrite E in E2; injection E2 as <- <-.
    split; cbn [fst snd]; [by rewrite Er|done].
  - injection E as <-; by apply phase_request.
  - injection E as <-; by apply phase_request.
Qed.

Lemma phases_ok x y : rtc task_step x y -> phase_ok x -> phase_ok y.
Proof. induction 1; eauto using phase_step. Qed.

Lemma init_phase config memory random w k : given_text (config_version config) -> given_text (config_arch config) ->
  zlen random = 16 -> bytes_ok random -> world_ok w -> esp_cf_tunnel_init (Some config) true memory random w = Some (ESP_OK, Some k) -> phase_ok (Idle, k).
Proof.
  intros Hv Ha Hz Hb Hw E; destruct (init_spec config memory random w Hv Ha Hz Hb Hw) as (rc & k' & E2 & _ & Hk); rewrite E in E2; injection E2 as <- <-.
  by destruct (Hk k eq_refl) as [[? ?] _].
Qed.

Lemma deinit_spec k : idle k -> exists w, esp_cf_tunnel_deinit (Some k) = Some (ESP_OK, None, Some w).
Proof.
  intros [[Hp _ _ _ _] Hr]; unfold esp_cf_tunnel_deinit; rewrite Hr.
  destruct (on_close header k (λ _ k', True) (parts_closable header k Hp) ltac:(done)) as ([] & k' & -> & _); by eexists.
Qed.

(** A task in its loop is in order. *)
Lemma looping_order config memory random w k0 k : given_text (config_version config) -> given_text (config_arch config) ->
  zlen random = 16 -> bytes_ok random -> world_ok w -> esp_cf_tunnel_init (Some config) true memory random w = Some (ESP_OK, Some k0) ->
  rtc task_step (Idle, k0) (Looping, k) -> in_order k.
Proof. intros Hv Ha Hz Hb Hw E Hsteps; by destruct (phases_ok _ _ Hsteps (init_phase _ _ _ _ _ Hv Ha Hz Hb Hw E)). Qed.

End Safe.

(** ** Time *)

(** [esp_timer_get_time] does not go back: whatever keeps the world in order also
    keeps a time in the past that has passed.  So the laws hold as well of those
    worlds in order whose clock reads at least [T]. *)
Class SteadyClock (header : Z) `{Network} `{L : !ApplicationLaws header} `{JsonParser} : Prop :=
  steady (T : Z) : exists (A : ApplicationLaws header) (_ : NetworkLaws (ApplicationLaws0 := A) header),
    forall w, world_ok (ApplicationLaws := A) w <-> world_ok (ApplicationLaws := L) w /\ T <= reading w.

Section Time.
Context (header : Z) (Hheader : 0 < header <= 64) `{Network} `{L : !ApplicationLaws header} `{!JsonParser} `{!JsonParserLaws header} `{!NetworkLaws header} `{!SteadyClock header}.

Abbreviation in_order := (task_ok (header := header) (ApplicationLaws0 := L)).

(** A task in order at a time that has come is in order for the laws from then on. *)
Lemma order_from (A : ApplicationLaws header) T k : (forall w, world_ok (ApplicationLaws := A) w <-> world_ok (ApplicationLaws := L) w /\ T <= reading w) ->
  in_order k -> T <= reading (k_world k) -> task_ok (ApplicationLaws0 := A) k.
Proof. intros HA [[Hw Ht Hs] Hi] HT; split; [split; [by apply HA|exact Ht|exact Hs]|exact Hi]. Qed.

(** While the task is stopping it goes on only before the deadline. *)
Lemma leaves_in_time k k' : in_order k -> stop_requested (k_shared k) = true -> is_stopping k = true -> run_iteration k = Some (true, k') ->
  reading (k_world k) < shutdown_ms (k_shared k).
Proof.
  intros Hk Hstop Hst E; destruct (steady (reading (k_world k))) as (A & N & HA).
  destruct (on_iteration (ApplicationLaws0 := A) header Hheader k) as (go & k2 & E2 & Hi); [apply (order_from A _ k HA Hk); lia|].
  rewrite E in E2; injection E2 as <- <-; destruct (it_deadline _ _ _ _ Hi Hstop Hst) as [_ (w & Hw & Hr)]; [done|].
  apply HA in Hw as [_ Hw]; lia.
Qed.

(** The goodbye sets the deadline two seconds after a time during the iteration. *)
Lemma goodbye_now k k' : in_order k -> stop_requested (k_shared k) = true -> is_stopping k = false -> run_iteration k = Some (true, k') ->
  exists now, reading (k_world k) <= now <= reading (k_world k') /\ shutdown_ms (k_shared k') = now + 2000.
Proof.
  intros Hk Hstop Hst E; destruct (steady (reading (k_world k))) as (A & N & HA).
  destruct (on_iteration (ApplicationLaws0 := A) header Hheader k) as (go & k2 & E2 & Hi); [apply (order_from A _ k HA Hk); lia|].
  rewrite E in E2; injection E2 as <- <-; destruct (it_goodbye _ _ _ _ Hi Hstop Hst eq_refl) as (w & k1 & Hw & [[Hw1 Ht1 Hs1] Hi1] & Ew & -> & Erest).
  apply HA in Hw as [Hw Hr]; apply HA in Hw1 as [Hw1 _]; destruct (steady (reading w)) as (B & M & HB); assert (task_ok (ApplicationLaws0 := B) k1) as Hk1.
  { split; [split; [|exact Ht1|exact Hs1]|exact Hi1]; rewrite Ew; apply (time_law (ApplicationLaws := B)), HB; by split. }
  destruct (on_after_requests (ApplicationLaws0 := B) header Hheader k1 Hk1) as (go & k2 & E2 & [[Hw2 _ _] _ _ _ _ _]).
  rewrite Erest in E2; injection E2 as <- <-; apply HB in Hw2 as [_ Hlate]; exists (reading w); split; [done|].
  unfold reading; pose proof (wrap_range 64 (fst (esp_timer_get_time w))); apply wrap_small; zdm.
Qed.

End Time.

(** ** Properties *)

(** C1. The tunnel task is safe, whatever happens: after a successful creation,
    through every sequence of starts, iterations of the loop, requests of other
    tasks and ends, with any network, any peer and any application that do what
    they document, no step is undefined, and every one returns.  In its loop
    the task is in order: without a session the state says which of the
    credentials, the resolver's socket, its answer and the TLS connection there
    are, with one the session is sound and the tunnel its client; a tunnel that
    is not running has neither a connection nor a secret left, and can be
    destroyed, which it refuses while it runs. *)
Theorem tunnel_task_safe header (Hheader : 0 < header <= 64) `{Network} `{!ApplicationLaws header} `{!JsonParser} `{!JsonParserLaws header}
    `{!NetworkLaws header} config memory random w k0 p k :
  given_text (config_version config) -> given_text (config_arch config) -> zlen random = 16 -> bytes_ok random -> world_ok w ->
  esp_cf_tunnel_init (Some config) true memory random w = Some (ESP_OK, Some k0) -> rtc task_step (Idle, k0) (p, k) ->
  match p with
  | Idle => k_h2 k = None /\ k_tls k = None /\ wiped (k_tunnel k) /\ at_rest (k_tunnel k) /\
            exists w', esp_cf_tunnel_deinit (Some k) = Some (ESP_OK, None, Some w')
  | Looping => task_ok (header := header) k /\ (exists go k', run_iteration k = Some (go, k')) /\
               esp_cf_tunnel_deinit (Some k) = Some (ESP_ERR_INVALID_STATE, Some k, Some (k_world k))
  | Leaving => exists u k', run_end k = Some (u, k') /\ off header k'
  end.
Proof.
  intros Hv Ha Hz Hb Hw Hinit Hsteps; pose proof (init_phase header config memory random w k0 Hv Ha Hz Hb Hw Hinit) as Hstart.
  destruct (phases_ok header Hheader _ _ Hsteps Hstart) as [Hr Hp]; destruct p; cbn [fst snd] in *.
  - pose proof Hp as [_ [? ?] ? ? _]; split_and!; try done; apply (deinit_spec header); by split.
  - split; [done|]; split; [destruct (on_iteration header Hheader k Hp) as (go & k' & E & _); eauto|]; unfold esp_cf_tunnel_deinit; by rewrite Hr.
  - destruct (on_end header k Hp) as (u & k' & E & Hoff & _); eauto.
Qed.

(** C5. A request to stop is honoured, by any task in order (which [tunnel_task_safe]
    shows of every task in its loop).  With no registered session the next
    iteration leaves the loop.  With one the task says goodbye: unless the
    iteration already leaves, the tunnel is stopping, with a deadline two
    seconds after a time during that iteration, which later iterations keep.
    A stopping task goes on only while the deadline lies ahead: an iteration that
    begins at the deadline or later leaves, whatever the edge does.  After the
    loop the task ends, and leaves nothing of a connection behind. *)
Theorem stop_honoured header (Hheader : 0 < header <= 64) `{Network} `{!ApplicationLaws header} `{!JsonParser} `{!JsonParserLaws header}
    `{!NetworkLaws header} `{!SteadyClock header} k :
  task_ok (header := header) k -> stop_requested (k_shared k) = true ->
  exists go k', run_iteration k = Some (go, k') /\
    (is_stopping k || registered_session k = false -> go = false) /\
    (go = true -> is_stopping k' = true /\
       if is_stopping k then shutdown_ms (k_shared k') = shutdown_ms (k_shared k)
       else exists now, reading (k_world k) <= now <= reading (k_world k') /\ shutdown_ms (k_shared k') = now + 2000) /\
    (is_stopping k = true -> shutdown_ms (k_shared k) <= reading (k_world k) -> go = false) /\
    (go = true -> task_ok (header := header) k' /\ stop_requested (k_shared k') = true) /\
    (go = false -> exists u k'', run_end k' = Some (u, k'') /\ off header k'' /\ running (k_shared k'') = false).
Proof.
  intros Hin Hstop; destruct (on_iteration header Hheader k Hin) as (go & k' & E & [Hparts Hord Hreq _ Hleaves Hstops Hdead _]).
  exists go, k'; split; [done|]; split; [by apply Hleaves|]; split_and!.
  - intros ->; split; [by apply Hstops|]; destruct (is_stopping k) eqn:Hst; [by apply Hdead|by apply (goodbye_now header Hheader)].
  - intros Hst Hlate; destruct go; [|done]; pose proof (leaves_in_time header Hheader k k' Hin Hstop Hst E); lia.
  - intros Hgo; split; [by apply Hord|congruence].
  - intros _; destruct (on_end header k' Hparts) as (u & k2 & E2 & ? & _ & ?); eauto 10.
Qed.

(** ** Witnesses *)

(** A network on a bench: a clock that advances by a millisecond at each
    reading, to the end of its range, a resolver that answers from a list, a peer that says nothing. *)
Module Bench.

Record bench := At { b_time : Z; b_inbox : list (list Z); b_json : json_heap }.

Definition later (w : bench) : bench := At (Z.min (b_time w + 1000) (2 ^ 62)) (b_inbox w) (b_json w).

#[export] Instance library : Nghttp2 := Quiet.library.

#[export] Instance application : Application := {|
  world := bench;
  esp_timer_get_time w := (b_time w, later w);
  automatic _ n := replicate (Z.to_nat n) 170;
  heap_now := b_json;
  put_heap h w := At (b_time w) (b_inbox w) h;
  app_service := cstring "http://localhost";
  json_try_lock w := (true, w);
  json_unlock w := w;
  app_request w h _ := Some (CF_ERR_STATE, w, h);
  app_data w h _ _ _ := Some (CF_OK, w, h);
  app_read w h _ out _ := Some (CF_ERR_STATE, out, 0, false, w, h);
  app_closed w h _ _ := Some (w, h)
|}.

#[export] Instance parser : JsonParser := sample_parser.

(** A bench in order, from a time on. *)
Definition bench_ok (T : Z) (w : bench) : Prop :=
  heap_ok 8 (b_json w) /\ Forall bytes_ok (b_inbox w) /\ 0 <= b_time w <= 2 ^ 62 /\ T <= b_time w / 1000.

Lemma later_ok T w : bench_ok T w -> bench_ok T (later w).
Proof. intros (Hh & Hb & Ht & HT); split; [done|]; split; [done|]; unfold later; cbn [b_time]; split; [lia|]; etrans; [exact HT|]; apply Z.div_le_mono; lia. Qed.

#[program] Definition laws_from (T : Z) : ApplicationLaws 8 := {| world_ok := bench_ok T |}.
Next Obligation. intros T w Hw; by apply later_ok. Qed.
Next Obligation. intros T w n Hn; cbn; unfold zlen; rewrite length_replicate; lia. Qed.
Next Obligation. by intros T w [? ?]. Qed.
Next Obligation. intros T h w [? ?] ?; by split. Qed.
Next Obligation. exists (lit "http://localhost"); apply cstr_cstring; no_nul. Qed.
Next Obligation. by intros T w ?. Qed.
Next Obligation. by intros T w ?. Qed.
Next Obligation. intros T w h r hs ? ? ? ?; by do 3 eexists. Qed.
Next Obligation. intros T w h id b l e ? ? ? ? ?; by do 3 eexists. Qed.
Next Obligation. intros T w h id out cap ? ? ? ?; by do 6 eexists. Qed.
Next Obligation. intros T w h id e ? ? ?; by do 2 eexists. Qed.

#[export] Instance application_laws : ApplicationLaws 8 := laws_from 0.

#[export] Instance network : Network := {|
  udp_socket w := (3, w);
  close_socket _ w := w;
  set_nonblocking _ w := (0, w);
  connect_resolver _ _ w := (0, w);
  send_packet _ bytes w := (zlen bytes, w);
  recv_packet _ cap w :=
    match b_inbox w with
    | [] => (-1, true, [], w)
    | m :: rest => (zlen (take (Z.to_nat cap) m), false, take (Z.to_nat cap) m, At (b_time w) rest (b_json w))
    end;
  tls := unit;
  ssl := unit;
  ESP_TLS_ERR_SSL_WANT_READ := -0x6900;
  ESP_TLS_ERR_SSL_WANT_WRITE := -0x6880;
  esp_tls_init w := (Some tt, w);
  esp_tls_conn_destroy _ w := w;
  esp_tls_get_conn_state _ _ := Some 3;
  esp_tls_conn_new_async _ _ _ _ w := (1, 0, w);
  esp_tls_conn_read _ _ w := (-0x6900, [], w);
  esp_tls_conn_write _ bytes w := (zlen bytes, w);
  esp_tls_get_conn_sockfd _ _ := Some 4;
  set_no_delay _ w := w;
  wait_ready _ _ w := w;
  esp_tls_get_ssl_context _ _ := None;
  mbedtls_ssl_get_fatal_alert _ _ := -1;
  mbedtls_ssl_get_version_number _ _ := 0x304;
  has_error_handle _ _ := true;
  get_and_clear_system_error _ w := (true, 0, w);
  get_and_clear_last_error _ w := (0, 0, 0, w);
  esp_random w := (0x1234, w);
  time_of_day w := (0, w);
  heap_free_size _ := 100000;
  heap_largest_block _ := 50000;
  stack_minimum _ := 4000;
  allocate_answer w := (true, w);
  free_answer w := w;
  allocate_session w := (true, Some Quiet.heap, w);
  sizeof_cf_h2 := 20000;
  delay_ms _ w := later w;
  app_environment w e := (Environment true true [10; 0; 0; 2] [10; 0; 0; 1], w);
  app_credentials w c host := (CF_OK, c, lit "a.example" ++ replicate 245 0, w);
  app_streams := 4;
  receive_run _ h bytes := LibraryRun [] (h_session h) (zlen bytes);
  output_run _ h := (LibraryRun [] (h_session h) 0, None)
|}.


Lemma network_laws_from T : NetworkLaws (ApplicationLaws0 := laws_from T) 8.
Proof.
  constructor; try (by intros).
  - intros fd cap w n again bytes w' E (Hh & Hb & Ht) Hcap; cbn in E; destruct (b_inbox w) as [|m rest] eqn:Ei; injection E as <- <- <- <-.
    + split; [split; [done|by rewrite Ei]|]; split; [done|]; split; [done|lia].
    + apply Forall_cons in Hb as [Hm Hr]; split; [by split|]; split; [by apply Forall_take|]; unfold zlen; rewrite length_take; lia.
  - intros host port name c w rc e w' [= <- <- <-] Hw; by split.
  - intros c cap w n bytes w' [= <- <- <-] Hw Hcap; split; [done|]; split; [done|]; split; [done|lia].
  - intros ms w Hw; by apply later_ok.
  - intros w e e' w' [= <- <-] Hw Hl Hd; split; [done|]; split; [done|]; split; [|done]; by apply (bool_decide_unpack _).
  - intros w c host rc c' host' w' [= <- <- <- <-] Hw Hc Hh; by split.
  - intros m a h run p [= <- <-] Hm Ha Hh; by split.
Qed.

#[export] Instance network_laws : NetworkLaws 8 := network_laws_from 0.

#[export] Instance clock : SteadyClock 8.
Proof.
  intros T; exists (laws_from T), (network_laws_from T); intros w; unfold reading; cbn.
  assert (forall w, 0 <= b_time w <= 2 ^ 62 -> u64 (b_time w) = b_time w) as Hu by (intros w0 Hw0; apply wrap_small; lia).
  split; [intros (Hh & Hb & Ht & HT)|intros [(Hh & Hb & Ht & _) HT]; rewrite (Hu w Ht) in HT]; [|exact (conj Hh (conj Hb (conj Ht HT)))].
  rewrite (Hu w Ht); split; [|exact HT]; refine (conj Hh (conj Hb (conj Ht _))); apply Z.div_pos; lia.
Qed.

(** The answers of the resolver: gold_dns_srv, then an address of its first record. *)
Definition address_answer : list Z :=
  [0x12; 0x34; 0x81; 0x80; 0; 1; 0; 1; 0; 0; 0; 0; 7] ++ lit "region1" ++ [2] ++ lit "v2" ++ [10] ++ lit "argotunnel" ++ [3] ++ lit "com" ++
  [0; 0; 1; 0; 1; 0xc0; 12; 0; 1; 0; 1; 0; 1; 0x51; 0x80; 0; 4; 198; 41; 192; 7].

Definition start_world : world := At 1000000 [gold_dns_srv; address_answer] empty_heap.
Definition config : tunnel_config := TunnelConfig true (Some (cstring "2024.1.0")) (Some (cstring "esp32")).
Definition random_id : list Z := replicate 16 0xff.

Definition created : task :=
  match esp_cf_tunnel_init (Some config) true true random_id start_world with Some (_, Some k) => k | _ => Task zero_tunnel start_world None None (Shared false false false 0 zero_snapshot) end.

Definition next (k : task) : task := match run_iteration k with Some (_, k') => k' | None => k end.
Definition started : task := match esp_cf_tunnel_start (Some created) true with (_, Some k) => match run_start k with Some (_, k') => k' | None => k end | _ => created end.

(** Four iterations: a query for service records and one for an address, the
    connection, and the first traffic. *)
Definition connected_task : task := next (next (next (next started))).

Lemma next_step k : fst <$> run_iteration k = Some true -> task_step (Looping, k) (Looping, next k).
Proof. unfold next; destruct (run_iteration k) as [[go k']|] eqn:E; [|done]; intros [= ->]; by apply StepIterate. Qed.

Lemma created_by_init : esp_cf_tunnel_init (Some config) true true random_id start_world = Some (ESP_OK, Some created).
Proof. vm_cast_no_check (eq_refl (Some (ESP_OK, Some created))). Qed.

Lemma reached : rtc task_step (Idle, created) (Looping, connected_task).
Proof.
  apply (rtc_l _ _ (Looping, started)); [eapply (StepStart created _ eq_refl eq_refl tt started); vm_cast_no_check (eq_refl (Some (tt, started)))|].
  assert (forall k, Some true = fst <$> run_iteration k -> forall y, rtc task_step (Looping, next k) y -> rtc task_step (Looping, k) y) as Hnext.
  { intros k E y; by apply rtc_l, next_step. }
  unfold connected_task; do 4 (apply Hnext; [vm_cast_no_check (eq_refl (Some true))|]); apply rtc_refl.
Qed.

Lemma texts_given : given_text (config_version config) /\ given_text (config_arch config) /\ zlen random_id = 16 /\ bytes_ok random_id /\ world_ok start_world.
Proof.
  split; [intros m [= <-]; split; [bytes_by_compute|exists (lit "2024.1.0"); apply cstr_cstring; no_nul]|].
  split; [intros m [= <-]; split; [bytes_by_compute|exists (lit "esp32"); apply cstr_cstring; no_nul]|]; split; [done|]; split; [bytes_by_compute|].
  split; [apply empty_heap_ok|]; split; [repeat (apply Forall_cons_2; [bytes_by_compute|]); constructor|]; by apply (bool_decide_unpack _).
Qed.

(** The connected task after its goodbye, when the deadline has come. *)
Definition late (k : task) : task :=
  Task (over_life (λ l, set_state l CF_STOPPING) (over_flags (with_stopping true) (k_tunnel k))) (k_world k) (k_tls k) (k_h2 k) (Shared true false true 0 (snapshot (k_shared k))).

Lemma stopped_order k : task_ok (header := 8) k -> is_Some (k_h2 k) -> task_ok (header := 8) (late k).
Proof.
  intros [[Hw Ht Hs] _] [h Eh]; split; [split; [exact Hw| |exact Hs]|cbn [k_h2 late]; by rewrite Eh].
  unfold mode_of in *; cbn [k_h2 late k_tunnel]; rewrite Eh in *; eapply ok_stopping; [exact Ht|by case_match].
Qed.

Definition stopping_task : task := late connected_task.

Lemma connected_order : task_ok (header := 8) connected_task.
Proof.
  destruct texts_given as (Hv & Ha & Hz & Hb & Hw).
  exact (looping_order 8 ltac:(lia) config true random_id start_world created connected_task Hv Ha Hz Hb Hw created_by_init reached).
Qed.

Lemma connected_session : is_Some (k_h2 connected_task).
Proof.
  assert (match k_h2 connected_task with Some _ => true | None => false end = true) as E by (vm_cast_no_check (eq_refl true)).
  revert E; generalize (k_h2 connected_task); intros [h|]; [by exists h|discriminate].
Qed.

Lemma stopping_order : task_ok (header := 8) stopping_task.
Proof. exact (stopped_order _ connected_order connected_session). Qed.

End Bench.
#[local] Existing Instances Bench.library Bench.application Bench.application_laws Bench.network Bench.network_laws Bench.clock Bench.parser.

Lemma tunnel_task_safe_witness :
  state (t_life (k_tunnel Bench.connected_task)) = CF_HTTP2 /\ rtc task_step (Idle, Bench.created) (Looping, Bench.connected_task) /\
  task_ok (header := 8) Bench.connected_task /\ exists go k', run_iteration Bench.connected_task = Some (go, k').
Proof.
  split; [vm_compute; reflexivity|]; split; [apply Bench.reached|]; destruct Bench.texts_given as (Hv & Ha & Hz & Hb & Hw).
  destruct (tunnel_task_safe 8 ltac:(lia) Bench.config true Bench.random_id Bench.start_world Bench.created Looping Bench.connected_task Hv Ha Hz Hb Hw
    Bench.created_by_init Bench.reached) as (Hok & Hrun & _); split; [exact Hok|exact Hrun].
Defined.

Lemma stop_honoured_witness :
  let k := Bench.stopping_task in
  is_stopping k = true /\ shutdown_ms (k_shared k) <= reading (k_world k) /\
  exists k' u k'', run_iteration k = Some (false, k') /\ run_end k' = Some (u, k'') /\ off 8 k'' /\ running (k_shared k'') = false.
Proof.
  intros k; assert (is_stopping k = true) as Hst by reflexivity.
  assert (shutdown_ms (k_shared k) <= reading (k_world k)) as Hlate by (apply Z.div_pos; [apply wrap_range|]; lia).
  split; [exact Hst|]; split; [exact Hlate|]; destruct (stop_honoured 8 ltac:(lia) k Bench.stopping_order eq_refl) as (go & k' & E & _ & _ & Hleave & _ & Hend).
  rewrite (Hleave Hst Hlate) in E; destruct (Hend (Hleave Hst Hlate)) as (u & k'' & E2 & Hoff & Hr).
  exists k', u, k''; split; [exact E|]; split; [exact E2|]; split; [exact Hoff|exact Hr].
Defined.
