(* ===== verification/MonitorRemote.v ===== *)
(** The head of a request of the system monitor
    (src/examples/system_monitor/main/monitor_remote.c): the fields of an HTTP/2
    request, those serialized into one field included, checked and collected. *)
From S2P Require Export Effects H2Spec Config.

Definition MONITOR_BODY_MAX : Z := 2048.

(** Memory from the system.  [malloc] gives a block with what it held before;
    [free] gets the block with what it holds then, so that what is left in freed
    memory can be told.  An automatic array holds anything at first. *)
Class Memory := {
  memory : Type;
  malloc : Z -> memory -> option (list Z) * memory;
  free : list Z -> memory -> memory;
  uninitialized : Z -> list Z
}.

(** [path] has 128 bytes, [authorization] 80. *)
Record monitor_remote_head := RemoteHead {
  rh_path : list Z;
  rh_authorization : list Z;
  rh_post : bool;
  rh_head : bool;
  rh_json_content : bool;
  rh_origin_allowed : bool;
  rh_has_length : bool;
  rh_content_length : Z
}.

Definition zero_head : monitor_remote_head := RemoteHead (replicate 128 0) (replicate 80 0) false false false false false 0.

Definition set_method (post head : bool) (o : monitor_remote_head) : monitor_remote_head :=
  RemoteHead (rh_path o) (rh_authorization o) post head (rh_json_content o) (rh_origin_allowed o) (rh_has_length o) (rh_content_length o).
Definition set_path (path : list Z) (o : monitor_remote_head) : monitor_remote_head :=
  RemoteHead path (rh_authorization o) (rh_post o) (rh_head o) (rh_json_content o) (rh_origin_allowed o) (rh_has_length o) (rh_content_length o).
Definition set_authorization (a : list Z) (o : monitor_remote_head) : monitor_remote_head :=
  RemoteHead (rh_path o) a (rh_post o) (rh_head o) (rh_json_content o) (rh_origin_allowed o) (rh_has_length o) (rh_content_length o).
Definition set_content_length (n : Z) (o : monitor_remote_head) : monitor_remote_head :=
  RemoteHead (rh_path o) (rh_authorization o) (rh_post o) (rh_head o) (rh_json_content o) (rh_origin_allowed o) true n.
Definition set_checks (json origin : bool) (o : monitor_remote_head) : monitor_remote_head :=
  RemoteHead (rh_path o) (rh_authorization o) (rh_post o) (rh_head o) json origin (rh_has_length o) (rh_content_length o).

(** ** Byte strings *)

Fixpoint name_bytes (b : cf_bytes) (s : list Z) (i : Z) : option bool :=
  match s with
  | [] => Some true
  | x :: s => c ← bget b i; if negb (ascii_lower c =? x) then Some false else name_bytes b s (i + 1)
  end.

Definition name_is (b : cf_bytes) (s : list Z) : option bool :=
  if negb (len b =? zlen s) then Some false else name_bytes b s 0.

(** The bytes of a view that may be null when it is empty. *)
Definition view_bytes (b : cf_bytes) : option (list Z) := if len b =? 0 then Some [] else m ← ptr b; slice m 0 (len b).

Definition copy (b : cf_bytes) (out : list Z) (cap : Z) : option (cf_result * list Z) :=
  if cap <=? len b then Some (CF_ERR_LIMIT, out) else
  text ← view_bytes b;
  if bool_decide (0 ∈ text) then Some (CF_ERR_LIMIT, out) else
  out ← blit out 0 text; out ← wr out (len b) 0; Some (CF_OK, out).

(** ** Fields *)

(** [origin] has 272 bytes, [type] 64; [f_out] is what [out] points to. *)
Record fields := Fields {
  f_seen : Z;
  f_origin : list Z;
  f_type : list Z;
  f_out : monitor_remote_head
}.

(** The bit of a field that is collected; an error for one that is refused. *)
Definition field_bit (h : cf_header) : option (cf_result * Z) :=
  is_authorization ← name_is (h_name h) (lit "authorization");
  if (is_authorization : bool) then Some (CF_OK, 1) else
  is_origin ← name_is (h_name h) (lit "origin");
  if (is_origin : bool) then Some (CF_OK, 2) else
  is_type ← name_is (h_name h) (lit "content-type");
  if (is_type : bool) then Some (CF_OK, 4) else
  is_length ← name_is (h_name h) (lit "content-length");
  if (is_length : bool) then Some (CF_OK, 8) else
  chunked ← name_is (h_name h) (lit "transfer-encoding");
  if (chunked : bool) then Some (CF_ERR_UNSUPPORTED, 0) else
  encoding ← name_is (h_name h) (lit "content-encoding");
  identity ← (if (encoding : bool) then equals (h_value h) (lit "identity") else Some true);
  if negb identity then Some (CF_ERR_UNSUPPORTED, 0) else
  proxied ← name_is (h_name h) (lit "cf-cloudflared-proxy-src");
  if (proxied : bool) && negb (len (h_value h) =? 0) then Some (CF_ERR_UNSUPPORTED, 0) else
  Some (CF_OK, 0).

Fixpoint length_digits (b : cf_bytes) (k : nat) (i n : Z) : option (cf_result * Z) :=
  match k with
  | O => Some (CF_OK, n)
  | S k =>
      c ← bget b i;
      if (c <? 48) || (57 <? c) then Some (CF_ERR_FORMAT, n) else
      let n := usize (n * 10 + c - 48) in
      if MONITOR_BODY_MAX <? n then Some (CF_ERR_LIMIT, n) else length_digits b k (i + 1) n
  end.

Definition field_length (f : fields) (b : cf_bytes) : option (cf_result * fields) :=
  if len b =? 0 then Some (CF_ERR_FORMAT, f) else
  '(rc, n) ← length_digits b (Z.to_nat (len b)) 0 0;
  if negb (is_ok rc) then Some (rc, f) else
  Some (CF_OK, Fields (f_seen f) (f_origin f) (f_type f) (set_content_length n (f_out f))).

Definition field (f : fields) (h : cf_header) : option (cf_result * fields) :=
  '(rc, bit) ← field_bit h;
  if negb (is_ok rc) then Some (rc, f) else
  if bit =? 0 then Some (CF_OK, f) else
  if negb (Z.land (f_seen f) bit =? 0) then Some (CF_ERR_FORMAT, f) else
  let f := Fields (Z.lor (f_seen f) bit) (f_origin f) (f_type f) (f_out f) in
  if bit =? 1 then
    '(rc, a) ← copy (h_value h) (rh_authorization (f_out f)) 80;
    Some (rc, Fields (f_seen f) (f_origin f) (f_type f) (set_authorization a (f_out f)))
  else if bit =? 2 then '(rc, a) ← copy (h_value h) (f_origin f) 272; Some (rc, Fields (f_seen f) a (f_type f) (f_out f))
  else if bit =? 4 then '(rc, a) ← copy (h_value h) (f_type f) 64; Some (rc, Fields (f_seen f) (f_origin f) a (f_out f))
  else field_length f (h_value h).

(** The loop over the headers; the last component is [packed] once [has_packed]. *)
Fixpoint plain_loop (hs : list cf_header) (f : fields) (packed : option cf_bytes) : option (cf_result * fields * option cf_bytes) :=
  match hs with
  | [] => Some (CF_OK, f, packed)
  | h :: hs =>
      serialized ← name_is (h_name h) (lit "cf-cloudflared-request-headers");
      if (serialized : bool) then
        match packed with Some _ => Some (CF_ERR_FORMAT, f, packed) | None => plain_loop hs f (Some (h_value h)) end
      else '(rc, f) ← field f h; if negb (is_ok rc) then Some (rc, f, packed) else plain_loop hs f packed
  end.

(** [decoded->items[i]]: views of the arena. *)
Definition item (arena : list Z) (e : arena_entry) : option cf_header :=
  n ← badd (view arena) (fst (e_name e)) (snd (e_name e));
  v ← badd (view arena) (fst (e_value e)) (snd (e_value e));
  Some (Header n v).

Fixpoint decoded_loop (arena : list Z) (es : list arena_entry) (f : fields) : option (cf_result * fields) :=
  match es with
  | [] => Some (CF_OK, f)
  | e :: es => h ← item arena e; '(rc, f) ← field f h; if negb (is_ok rc) then Some (rc, f) else decoded_loop arena es f
  end.

(** Size of the decoder's block: the arena and 32 items of 16 bytes. *)
Definition DECODED_SIZE : Z := CF_HEADER_DECODED_MAX + 16 * CF_HEADER_COUNT_MAX.

(** The fields inside [packed], decoded in the block [block]; the block after. *)
Definition decoded_fields (packed : cf_bytes) (block : list Z) (f : fields) : option (cf_result * fields * list Z) :=
  '(rc, count, es, arena) ← cf_headers_decode packed (Some (replicate 32 (Entry (0, 0) (0, 0)))) CF_HEADER_COUNT_MAX
    (Some (take 4096 block)) CF_HEADER_DECODED_MAX (Some 0);
  count ← count; es ← es; arena ← arena;
  '(rc, f) ← (if is_ok rc then decoded_loop arena (take (Z.to_nat count) es) f else Some (rc, f));
  block ← cf_secure_zero (arena ++ drop 4096 block) DECODED_SIZE;
  Some (rc, f, block).

(** ** The checks *)

(** [strcat(out, text)]. *)
Definition strcat (out text : list Z) : option (list Z) := n ← strlen out; blit out n (text ++ [0]).

(** Whether [origin] names the host the request is for; [expected] is an
    automatic array. *)
Definition origin_check (expected origin : list Z) (seen : Z) (authority : cf_bytes) : option bool :=
  bytes ← view_bytes authority;
  let text := lit "https://" ++ until_nul bytes in
  expected ← snprintf expected 272 text;
  let n := zlen text in
  allowed ← (if Z.land seen 2 =? 0 then Some true else
             if (0 <? n) && (n <? 272) then streq origin expected else Some false);
  if negb allowed && (0 <? n) && (n + 4 <? 272) then
    expected ← strcat expected (lit ":443"); streq origin expected
  else Some allowed.

Definition type_check (type : list Z) : option bool :=
  json ← strneq 16 type (cstring "application/json");
  if negb json then Some false else c ← rd type 16; Some ((c =? 0) || (c =? 59)).

(** [memchr(path.ptr, '?', path.len)]: the bytes before it. *)
Fixpoint before_query (l : list Z) : list Z :=
  match l with [] => [] | c :: l => if c =? 63 then [] else c :: before_query l end.

(** ** The parser *)

Section Parser.
Context `{Memory}.

(** The end of the parser, with the fields: on an error nothing of the head
    remains. *)
Definition conclude (rc : cf_result) (f : fields) (authority : cf_bytes) : option (cf_result * monitor_remote_head) :=
  '(rc, o) ← (if is_ok rc then
      origin ← origin_check (uninitialized 272) (f_origin f) (f_seen f) authority;
      json ← type_check (f_type f);
      let o := set_checks json origin (f_out f) in
      Some (if negb (rh_post o) && negb (rh_content_length o =? 0) then CF_ERR_FORMAT else CF_OK, o)
    else Some (rc, f_out f));
  Some (rc, if is_ok rc then o else zero_head).

(** The fields of the request, with the block for the serialized ones. *)
Definition collect (hs : list cf_header) (f : fields) : SM memory (cf_result * fields) :=
  '(rc, f, packed) ← checked (plain_loop hs f None);
  match packed with
  | Some packed =>
      if negb (is_ok rc) then mret (rc, f) else
      block ← calling (malloc DECODED_SIZE);
      match block with
      | None => mret (CF_ERR_MEMORY, f)
      | Some block => '(rc, f, block) ← checked (decoded_fields packed block f); modify (free block);; mret (rc, f)
      end
  | None => mret (rc, f)
  end.

Definition monitor_remote_parse (r : option cf_h2_request) (out : option monitor_remote_head) :
    SM memory (cf_result * option monitor_remote_head) :=
  match r, out with
  | Some r, Some _ =>
      method ← checked (cf_h2_header r (lit ":method"));
      path ← checked (cf_h2_header r (lit ":path"));
      authority ← checked (cf_h2_header r (lit ":authority"));
      post ← checked (equals method (lit "POST"));
      head ← checked (equals method (lit "HEAD"));
      let out := set_method post head zero_head in
      get ← checked (equals method (lit "GET"));
      if negb post && negb head && negb get then mret (CF_ERR_UNSUPPORTED, Some out) else
      slash ← (if len path =? 0 then mret false else c ← checked (bget path 0); mret (c =? 47));
      if negb slash || (len authority =? 0) || (253 <? len authority) then mret (CF_ERR_FORMAT, Some out) else
      bytes ← checked (view_bytes path);
      '(rc, text) ← checked (copy (Bytes (ptr path) (zlen (before_query bytes))) (rh_path out) 128);
      let out := set_path text out in
      if negb (is_ok rc) then mret (rc, Some out) else
      '(rc, f) ← collect (r_headers r) (Fields 0 (replicate 272 0) (replicate 64 0) out);
      '(rc, out) ← checked (conclude rc f authority);
      mret (rc, Some out)
  | _, _ => mret (CF_ERR_ARGUMENT, out)
  end.

End Parser.

(** ** Byte strings, exactly *)

Definition lowered (l : list Z) : list Z := map ascii_lower l.

Lemma name_bytes_spec b s : forall p q, denotes b (p ++ q) -> zlen q = zlen s -> name_bytes b s (zlen p) = Some (bool_decide (lowered q = s)).
Proof.
  induction s as [|x s IH]; intros p q Hb Hq; cbn [name_bytes].
  - destruct q as [|c q]; [done|rewrite zlen_cons, zlen_nil in Hq; pose proof (zlen_nonneg q); lia].
  - destruct q as [|c q]; [rewrite zlen_cons, zlen_nil in Hq; pose proof (zlen_nonneg s); lia|]; rewrite !zlen_cons in Hq.
    replace (bget b (zlen p)) with (Some c) by (symmetry; rewrite <- (Z.add_0_r (zlen p)); apply (denotes_nth b p (c :: q) []); rewrite ?app_nil_r; done).
    cbn [mbind option_bind]; change (lowered (c :: q)) with (ascii_lower c :: lowered q); destruct (Z.eqb_spec (ascii_lower c) x) as [Ex|Ex]; cbn [negb].
    + replace (zlen p + 1) with (zlen (p ++ [c])) by zlia; rewrite (IH _ q) by (rewrite <- ?app_assoc; done || lia).
      f_equal; apply bool_decide_ext; rewrite Ex; split; [by intros ->|by intros [= ?]].
    + rewrite bool_decide_eq_false_2; [done|]; by intros [= ? ?].
Qed.

Lemma name_is_spec b n s : denotes b n -> name_is b s = Some (bool_decide (lowered n = s)).
Proof.
  intros Hb; unfold name_is; rewrite (denotes_len _ _ Hb); destruct (Z.eqb_spec (zlen n) (zlen s)) as [E|E]; cbn [negb].
  - by apply (name_bytes_spec b s []).
  - rewrite bool_decide_eq_false_2; [done|]; intros <-; apply E; unfold zlen, lowered; by rewrite length_map.
Qed.

Lemma view_bytes_spec b l : denotes b l -> view_bytes b = Some l.
Proof.
  intros Hb; unfold view_bytes; rewrite (denotes_len _ _ Hb); destruct Hb as (_ & _ & Hp); pose proof (zlen_nonneg l).
  destruct (Z.eqb_spec (zlen l) 0) as [E|E]; [destruct l; [done|rewrite zlen_cons in E; pose proof (zlen_nonneg l); lia]|].
  destruct (ptr b) as [m|]; [|by subst l]; destruct Hp as [rest ->]; cbn [mbind option_bind]; pose proof (zlen_nonneg rest).
  rewrite slice_sub by (rewrite ?zlen_app; lia); by rewrite sub_head.
Qed.

(** What fits an array as a C string. *)
Definition fits (cap : Z) (v : list Z) : Prop := zlen v < cap /\ 0 ∉ v.

#[global] Instance fits_dec cap v : Decision (fits cap v).
Proof. unfold fits; apply _. Defined.

Lemma copy_spec b v out cap : denotes b v -> cap <= zlen out ->
  exists rc out', copy b out cap = Some (rc, out') /\ zlen out' = zlen out /\
    (rc = CF_OK <-> fits cap v) /\ (rc = CF_OK -> cstr out' v) /\ (rc <> CF_OK -> out' = out).
Proof.
  intros Hb Hcap; unfold copy, fits; rewrite (denotes_len _ _ Hb), (view_bytes_spec _ _ Hb); pose proof (zlen_nonneg v).
  destruct (Z.leb_spec cap (zlen v)); [do 2 eexists; split; [done|]; split; [done|]; split; [split; [done|lia]|done]|]; cbn [mbind option_bind].
  destruct (decide (0 ∈ v)) as [E|E].
  { rewrite bool_decide_eq_true_2 by done; do 2 eexists; split; [done|]; split; [done|]; split; [split; [done|tauto]|done]. }
  rewrite bool_decide_eq_false_2 by done.
  destruct (blit_Some out 0 v) as [m Hm]; [lia|lia|]; destruct (blit_Some m (zlen v) [0]) as [m' Hm']; [lia|rewrite (zlen_blit _ _ _ _ Hm); change (zlen [0]) with 1; lia|].
  rewrite Hm; cbn [mbind option_bind]; unfold wr; rewrite Hm'; cbn [mbind option_bind].
  exists CF_OK, m'; split; [done|]; split; [by rewrite (zlen_blit _ _ _ _ Hm'), (zlen_blit _ _ _ _ Hm)|]; split; [tauto|]; split; [intros _|done].
  rewrite <- (Z.add_0_l (zlen v)), (blit_blit _ _ _ _ _ Hm) in Hm'.
  rewrite (blit_0 _ _ _ Hm'), <- app_assoc; by apply cstr_intro.
Qed.

Lemma cstr_zeros n : (0 < n)%nat -> cstr (replicate n 0) [].
Proof. intros Hn; destruct n as [|n]; [lia|]; exists (replicate n 0); split; [done|apply not_elem_of_nil]. Qed.

(** ** The fields, exactly *)

Abbreviation header_list := (list (list Z * list Z)).

(** The values of the fields with a name, whatever its case. *)
Definition values (name : list Z) (fs : header_list) : list (list Z) := map snd (filter (λ h, lowered h.1 = name) fs).

Lemma values_app name fs gs : values name (fs ++ gs) = values name fs ++ values name gs.
Proof. unfold values; by rewrite filter_app, map_app. Qed.

Lemma values_one name n v : values name [(n, v)] = if bool_decide (lowered n = name) then [v] else [].
Proof. unfold values; rewrite filter_cons, filter_nil; cbn [fst]; case_decide; [rewrite bool_decide_eq_true_2 by done|rewrite bool_decide_eq_false_2 by done]; done. Qed.

Definition is_number (v : list Z) : Prop := digits v /\ dec_val v <= MONITOR_BODY_MAX.

(** At most one field, and it is well-formed. *)
Definition single (ok : list Z -> Prop) (vs : list (list Z)) : Prop := vs = [] \/ exists v, vs = [v] /\ ok v.

(** The value of such a field; nothing when there is none. *)
Definition value_of (name : list Z) (fs : header_list) : list Z := default [] (head (values name fs)).
Definition has_field (name : list Z) (fs : header_list) : bool := negb (bool_decide (values name fs = [])).

(** A field that does not make the request one this server refuses. *)
Definition permitted (h : list Z * list Z) : Prop :=
  lowered h.1 <> lit "transfer-encoding" /\
  (lowered h.1 = lit "content-encoding" -> h.2 = lit "identity") /\
  (lowered h.1 = lit "cf-cloudflared-proxy-src" -> h.2 = []).

Record fields_ok (fs : header_list) : Prop := {
  fo_permitted : Forall permitted fs;
  fo_authorization : single (fits 80) (values (lit "authorization") fs);
  fo_origin : single (fits 272) (values (lit "origin") fs);
  fo_type : single (fits 64) (values (lit "content-type") fs);
  fo_length : single is_number (values (lit "content-length") fs)
}.

(** What the collector holds after the fields [fs]. *)
Record collected (o : monitor_remote_head) (fs : header_list) (f : fields) : Prop := {
  co_seen : f_seen f = b2z (has_field (lit "authorization") fs) + 2 * b2z (has_field (lit "origin") fs)
            + 4 * b2z (has_field (lit "content-type") fs) + 8 * b2z (has_field (lit "content-length") fs);
  co_authorization : cstr (rh_authorization (f_out f)) (value_of (lit "authorization") fs) /\ zlen (rh_authorization (f_out f)) = 80;
  co_origin : cstr (f_origin f) (value_of (lit "origin") fs) /\ zlen (f_origin f) = 272;
  co_type : cstr (f_type f) (value_of (lit "content-type") fs) /\ zlen (f_type f) = 64;
  co_length : rh_has_length (f_out f) = has_field (lit "content-length") fs /\
              rh_content_length (f_out f) = dec_val (value_of (lit "content-length") fs);
  co_rest : rh_path (f_out f) = rh_path o /\ rh_post (f_out f) = rh_post o /\ rh_head (f_out f) = rh_head o
}.

Lemma single_snoc ok vs v : single ok (vs ++ [v]) <-> vs = [] /\ ok v.
Proof.
  unfold single; split.
  - intros [H|(w & H & Hw)]; [by destruct vs|]; destruct vs as [|x [|y vs]]; [injection H as ->; done|done|done].
  - intros [-> Hv]; right; by exists v.
Qed.

Lemma single_app ok vs ws : single ok (vs ++ ws) -> single ok vs.
Proof.
  unfold single; intros [H|(w & H & Hw)].
  - left; by destruct vs.
  - destruct vs as [|x vs]; [by left|]; injection H as -> H; destruct vs; [|done]; right; by exists w.
Qed.

(** A good beginning. *)
Lemma fields_ok_app fs gs : fields_ok (fs ++ gs) -> fields_ok fs.
Proof.
  intros [Hp Ha Ho Ht Hl]; rewrite !values_app in *; apply Forall_app in Hp as [Hp _].
  constructor; [done|by eapply single_app..].
Qed.

(** The bit of a name. *)
Definition bit_of (n : list Z) : Z :=
  if bool_decide (lowered n = lit "authorization") then 1 else if bool_decide (lowered n = lit "origin") then 2 else
  if bool_decide (lowered n = lit "content-type") then 4 else if bool_decide (lowered n = lit "content-length") then 8 else 0.

Lemma field_bit_spec h n v : entry_denotes h (n, v) ->
  exists rc, field_bit h = Some (rc, if is_ok rc then bit_of n else 0) /\ (rc = CF_OK <-> permitted (n, v)).
Proof.
  intros [Hn Hv]; cbn [fst snd] in *; unfold field_bit, bit_of, permitted; cbn [fst snd].
  rewrite !(name_is_spec _ _ _ Hn), (equals_spec _ _ _ Hv), (denotes_len _ _ Hv) by done; cbn [mbind option_bind].
  repeat match goal with |- context [if bool_decide (lowered n = ?s) then _ else _] =>
    destruct (decide (lowered n = s)) as [E|?];
    [rewrite (bool_decide_eq_true_2 _ E), E; exists CF_OK; split; [done|]; split; [by intros _; split_and!|done]
    |rewrite (bool_decide_eq_false_2 (lowered n = s)) by done] end.
  destruct (decide (lowered n = lit "transfer-encoding")) as [E|?].
  { rewrite (bool_decide_eq_true_2 _ E); exists CF_ERR_UNSUPPORTED; split; [done|]; split; [done|tauto]. }
  rewrite (bool_decide_eq_false_2 (lowered n = lit "transfer-encoding")) by done.
  destruct (decide (lowered n = lit "content-encoding")) as [E|?].
  - rewrite (bool_decide_eq_true_2 _ E), E; cbn [mbind option_bind]; destruct (decide (v = lit "identity")) as [->|Hv'].
    + exists CF_OK; split; [done|]; by split.
    + rewrite (bool_decide_eq_false_2 (v = _)) by done; exists CF_ERR_UNSUPPORTED; split; [done|]; split; [done|]; intros (_ & H & _); by destruct Hv'; apply H.
  - rewrite (bool_decide_eq_false_2 (lowered n = lit "content-encoding")) by done; cbn [mbind option_bind negb].
    destruct (decide (lowered n = lit "cf-cloudflared-proxy-src")) as [E|?].
    + rewrite (bool_decide_eq_true_2 _ E); destruct v as [|c v]; [exists CF_OK; split; [done|]; by split_and!|].
      exists CF_ERR_UNSUPPORTED; split; [rewrite zlen_cons; pose proof (zlen_nonneg v); by replace (1 + zlen v =? 0) with false by lia|].
      split; [done|]; intros (_ & _ & H); by specialize (H E).
    + rewrite (bool_decide_eq_false_2 (lowered n = lit "cf-cloudflared-proxy-src")) by done; exists CF_OK; split; [done|]; by split_and!.
Qed.

Lemma values_same name fs n v : lowered n = name -> values name (fs ++ [(n, v)]) = values name fs ++ [v].
Proof. intros E; by rewrite values_app, values_one, bool_decide_eq_true_2. Qed.

Lemma values_other name fs n v : lowered n <> name -> values name (fs ++ [(n, v)]) = values name fs.
Proof. intros E; by rewrite values_app, values_one, bool_decide_eq_false_2, app_nil_r. Qed.

Lemma dec_val_ge q : forall a, 0 <= a -> Forall (λ c, number_digit c = true) q -> a <= fold_left (λ a c, a * 10 + (c - 48)) q a.
Proof.
  induction q as [|c q IH]; intros a Ha Hq; cbn [fold_left]; [lia|]; apply Forall_cons in Hq as [Hc Hq].
  unfold number_digit in Hc; bool_to_prop; specialize (IH (a * 10 + (c - 48))); lia || (etrans; [|apply IH; [lia|done]]; lia).
Qed.

Lemma length_digits_spec b l : denotes b l -> forall q p, l = p ++ q -> 0 <= dec_val p <= MONITOR_BODY_MAX ->
  exists rc k, length_digits b (length q) (zlen p) (dec_val p) = Some (rc, k) /\ (rc = CF_OK -> k = dec_val l) /\
    (rc = CF_OK <-> Forall (λ c, number_digit c = true) q /\ dec_val l <= MONITOR_BODY_MAX).
Proof.
  intros Hb; induction q as [|c q IH]; intros p E Hp; cbn [length length_digits].
  - rewrite app_nil_r in E; subst p; exists CF_OK, (dec_val l); split; [done|]; split; [done|]; split; [intros _; split; [constructor|lia]|done].
  - assert (bget b (zlen p) = Some c) as ->.
    { rewrite <- (Z.add_0_r (zlen p)); apply (denotes_nth b p (c :: q) []); [by rewrite app_nil_r, <- E|lia|done]. }
    cbn [mbind option_bind]; destruct ((c <? 48) || (57 <? c)) eqn:Ed.
    { do 2 eexists; split; [done|]; split; [done|]; split; [done|]; intros [[Hc _]%Forall_cons _]; unfold number_digit in Hc; lia. }
    apply orb_false_iff in Ed as [Ed1 Ed2]; apply Z.ltb_ge in Ed1, Ed2; unfold MONITOR_BODY_MAX in *.
    assert (usize (dec_val p * 10 + c - 48) = dec_val (p ++ [c])) as ->.
    { unfold dec_val at 2; rewrite fold_left_app; cbn [fold_left]; fold (dec_val p); rewrite wrap_small; lia. }
    assert (dec_val (p ++ [c]) = dec_val p * 10 + (c - 48)) as Hv by (unfold dec_val; by rewrite fold_left_app).
    destruct (Z.ltb_spec 2048 (dec_val (p ++ [c]))) as [Hlt|Hge].
    + do 2 eexists; split; [done|]; split; [done|]; split; [done|]; intros [[_ Hq]%Forall_cons Hl].
      pose proof (dec_val_ge q (dec_val (p ++ [c]))) as Hm; unfold dec_val in Hm at 3; rewrite <- fold_left_app, <- app_assoc in Hm.
      cbn [app] in Hm; rewrite <- E in Hm; fold (dec_val l) in Hm; specialize (Hm ltac:(lia) Hq); lia.
    + destruct (IH (p ++ [c])) as (rc & k & Hk & Hr & Hiff); [by rewrite <- app_assoc|lia|].
      replace (zlen p + 1) with (zlen (p ++ [c])) by zlia; exists rc, k; split; [done|]; split; [done|].
      rewrite Hiff, Forall_cons; unfold number_digit; split; intros; split_and?; tauto || lia.
Qed.

(** The number of a content length. *)
Lemma field_length_spec f b v : denotes b v ->
  exists rc f', field_length f b = Some (rc, f') /\ (rc = CF_OK <-> is_number v) /\
    (rc = CF_OK -> f' = Fields (f_seen f) (f_origin f) (f_type f) (set_content_length (dec_val v) (f_out f))) /\ (rc <> CF_OK -> f' = f).
Proof.
  intros Hb; unfold field_length, is_number, digits; rewrite (denotes_len _ _ Hb); destruct v as [|c v].
  { change (zlen [] =? 0) with true; cbn iota; exists CF_ERR_FORMAT, f; split; [done|]; split; [by split; [|intros [[? _] _]]|done]. }
  replace (zlen (c :: v) =? 0) with false by (rewrite zlen_cons; pose proof (zlen_nonneg v); lia).
  replace (Z.to_nat (zlen (c :: v))) with (length (c :: v)) by (unfold zlen; lia).
  destruct (length_digits_spec b (c :: v) Hb (c :: v) []) as (rc & k & Hk & Hr & Hiff); [done|vm_compute; split; discriminate|].
  change (zlen []) with 0 in Hk; change (dec_val []) with 0 in Hk; rewrite Hk; cbn [mbind option_bind].
  destruct (decide (rc = CF_OK)) as [->|Hrc].
  - rewrite (Hr eq_refl); exists CF_OK; eexists; split; [done|]; split; [|done]; rewrite Hiff; split; [by intros [? ?]|by intros [[_ ?] ?]].
  - replace (is_ok rc) with false by (symmetry; by apply bool_decide_eq_false_2); exists rc, f; split; [done|].
    split; [rewrite Hiff; split; [by intros [? ?]|by intros [[_ ?] ?]]|done].
Qed.

Lemma seen_bits a b c d : let s := b2z a + 2 * b2z b + 4 * b2z c + 8 * b2z d in
  Z.land s 1 = b2z a /\ Z.land s 2 = 2 * b2z b /\ Z.land s 4 = 4 * b2z c /\ Z.land s 8 = 8 * b2z d /\
  Z.lor s 1 = b2z true + 2 * b2z b + 4 * b2z c + 8 * b2z d /\ Z.lor s 2 = b2z a + 2 * b2z true + 4 * b2z c + 8 * b2z d /\
  Z.lor s 4 = b2z a + 2 * b2z b + 4 * b2z true + 8 * b2z d /\ Z.lor s 8 = b2z a + 2 * b2z b + 4 * b2z c + 8 * b2z true.
Proof. by destruct a, b, c, d. Qed.

Lemma has_false name fs : has_field name fs = false <-> values name fs = [].
Proof. unfold has_field; rewrite negb_false_iff; apply bool_decide_eq_true. Qed.

Lemma has_snoc name fs n v : lowered n = name -> has_field name (fs ++ [(n, v)]) = true.
Proof. intros E; unfold has_field; rewrite (values_same _ _ _ _ E), bool_decide_eq_false_2; [done|]; by destruct (values name fs). Qed.

Lemma value_snoc name fs n v : lowered n = name -> values name fs = [] -> value_of name (fs ++ [(n, v)]) = v.
Proof. intros E Hv; unfold value_of; by rewrite (values_same _ _ _ _ E), Hv. Qed.

(** A second field of a name is refused. *)
Lemma single_twice ok name fs n v : lowered n = name -> has_field name fs = true -> ~ single ok (values name (fs ++ [(n, v)])).
Proof. intros E Hh; rewrite (values_same _ _ _ _ E), single_snoc; intros [Hv _]; apply has_false in Hv; congruence. Qed.

Lemma single_first ok name fs n v : lowered n = name -> has_field name fs = false -> single ok (values name (fs ++ [(n, v)])) <-> ok v.
Proof. intros E Hh; apply has_false in Hh; rewrite (values_same _ _ _ _ E), single_snoc; tauto. Qed.

(** The names differ. *)
Ltac other_name E := rewrite E; vm_compute; discriminate.

(** A field of none of the four names. *)
Lemma field_passed o fs f h n v : entry_denotes h (n, v) -> permitted (n, v) -> bit_of n = 0 -> fields_ok fs -> collected o fs f ->
  field_bit h = Some (CF_OK, bit_of n) ->
  field f h = Some (CF_OK, f) /\ fields_ok (fs ++ [(n, v)]) /\ collected o (fs ++ [(n, v)]) f.
Proof.
  intros Hh Hperm Hbit [Hp Ha Ho Ht Hl] [Cs Ca Co Ct Cl Cr] Hfb.
  assert (lowered n <> lit "authorization" /\ lowered n <> lit "origin" /\ lowered n <> lit "content-type" /\ lowered n <> lit "content-length") as (N1 & N2 & N3 & N4).
  { unfold bit_of in Hbit; repeat (case_bool_decide; [done|]); done. }
  unfold field; rewrite Hfb, Hbit; split; [done|].
  split; constructor; unfold value_of, has_field in *; rewrite ?values_other by done; try done.
  apply Forall_app; split; [done|by constructor].
Qed.

(** The values of the names other than the field's. *)
Ltac others E :=
  rewrite ?(values_other (lit "authorization")), ?(values_other (lit "origin")), ?(values_other (lit "content-type")),
    ?(values_other (lit "content-length")) by other_name E.

Lemma permitted_name n v s : lowered n = s -> s ∈ [lit "authorization"; lit "origin"; lit "content-type"; lit "content-length"] -> permitted (n, v).
Proof.
  intros E Hs; unfold permitted; cbn [fst snd]; rewrite E; clear E; rewrite !elem_of_cons, elem_of_nil in Hs.
  destruct Hs as [->|[->|[->|[->|[]]]]]; by vm_compute.
Qed.

(** Whether a first field of its name is accepted. *)
Ltac first_field_ok E Eh :=
  split; [intros ?; constructor|intros [? ? ? ? ?]; eapply (single_first _ _ _ _ _ E Eh); eassumption];
  [apply Forall_app; split; [done|]; constructor; [|done]; eapply permitted_name; [exact E|rewrite !elem_of_cons; tauto]
  |first [by apply (single_first _ _ _ _ _ E Eh) | by others E]..].

Lemma snoc_not_empty {A} `{EqDecision A} (l : list A) x : bool_decide (l ++ [x] = []) = false.
Proof. apply bool_decide_eq_false_2; by destruct l. Qed.

(** What is collected after it. *)
Ltac first_field_collected E Eh :=
  constructor; cbn [f_seen f_out f_origin f_type set_authorization set_content_length rh_authorization rh_has_length rh_content_length rh_path rh_post rh_head];
  unfold value_of, has_field in *; others E; rewrite ?(values_same _ _ _ _ E), ?snoc_not_empty;
  try done; try match goal with H : Z.lor ?s ?b = _ |- Z.lor ?s ?b = _ => rewrite H; done end; rewrite (proj1 (has_false _ _) Eh); split; done || lia.

Definition takes (o : monitor_remote_head) (fs : header_list) (f : fields) (h : cf_header) (p : list Z * list Z) : Prop :=
  exists rc f', field f h = Some (rc, f') /\ (rc = CF_OK <-> fields_ok (fs ++ [p])) /\ (rc = CF_OK -> collected o (fs ++ [p]) f').

(** A field that was there. *)
Lemma field_again o fs f h n v name bit : lowered n = name -> has_field name fs = true ->
  (forall gs, fields_ok gs -> exists ok, single ok (values name gs)) ->
  field_bit h = Some (CF_OK, bit) -> bit <> 0 -> Z.land (f_seen f) bit <> 0 -> takes o fs f h (n, v).
Proof.
  intros E Hh Hs Hfb Hb Hl; exists CF_ERR_FORMAT, f; split; [unfold field; rewrite Hfb; cbn [mbind option_bind]|].
  - by rewrite (proj2 (Z.eqb_neq bit 0) Hb), (proj2 (Z.eqb_neq _ 0) Hl).
  - split; [|done]; split; [done|]; intros Hf; destruct (Hs _ Hf) as [ok Hok]; by eapply single_twice in Hok.
Qed.

(** The test and the setting of a bit. *)
Ltac test_seen Cs :=
  match type of Cs with f_seen ?f = b2z ?a + 2 * b2z ?b + 4 * b2z ?c + 8 * b2z ?d =>
    destruct (seen_bits a b c d) as (L1 & L2 & L3 & L4 & R1 & R2 & R3 & R4); rewrite <- Cs in L1, L2, L3, L4, R1, R2, R3, R4
  end.

(** The four collected fields. *)
Lemma field_authorization o fs f h n v : entry_denotes h (n, v) -> lowered n = lit "authorization" -> fields_ok fs -> collected o fs f ->
  field_bit h = Some (CF_OK, 1) -> takes o fs f h (n, v).
Proof.
  intros [_ Hv] E [Hp Ha Ho Ht Hl] [Cs [Ca1 Ca2] Co Ct Cl Cr] Hfb; cbn [fst snd] in *.
  test_seen Cs; destruct (has_field (lit "authorization") fs) eqn:Eh.
  { eapply field_again; try done; [intros gs []; by eexists|by rewrite L1]. }
  unfold takes, field; rewrite Hfb; cbn [mbind option_bind]; change (1 =? 0) with false; rewrite L1; cbn [negb Z.eqb is_ok b2z Z.mul f_out f_seen f_origin f_type].
  destruct (copy_spec (h_value h) v (rh_authorization (f_out f)) 80 Hv) as (rc & a & -> & Hz & Hiff & Hc & _); [lia|]; cbn [mbind option_bind].
  exists rc; eexists; split; [done|]; split; [rewrite Hiff; first_field_ok E Eh|].
  intros Hrc; specialize (Hc Hrc); first_field_collected E Eh.
Qed.

Lemma field_origin o fs f h n v : entry_denotes h (n, v) -> lowered n = lit "origin" -> fields_ok fs -> collected o fs f ->
  field_bit h = Some (CF_OK, 2) -> takes o fs f h (n, v).
Proof.
  intros [_ Hv] E [Hp Ha Ho Ht Hl] [Cs Ca [Co1 Co2] Ct Cl Cr] Hfb; cbn [fst snd] in *.
  test_seen Cs; destruct (has_field (lit "origin") fs) eqn:Eh.
  { eapply field_again; try done; [intros gs []; by eexists|by rewrite L2]. }
  unfold takes, field; rewrite Hfb; cbn [mbind option_bind]; change (2 =? 0) with false; rewrite L2; cbn [negb Z.eqb is_ok b2z Z.mul f_out f_seen f_origin f_type].
  destruct (copy_spec (h_value h) v (f_origin f) 272 Hv) as (rc & a & -> & Hz & Hiff & Hc & _); [lia|]; cbn [mbind option_bind].
  exists rc; eexists; split; [done|]; split; [rewrite Hiff; first_field_ok E Eh|].
  intros Hrc; specialize (Hc Hrc); first_field_collected E Eh.
Qed.

Lemma field_type o fs f h n v : entry_denotes h (n, v) -> lowered n = lit "content-type" -> fields_ok fs -> collected o fs f ->
  field_bit h = Some (CF_OK, 4) -> takes o fs f h (n, v).
Proof.
  intros [_ Hv] E [Hp Ha Ho Ht Hl] [Cs Ca Co [Ct1 Ct2] Cl Cr] Hfb; cbn [fst snd] in *.
  test_seen Cs; destruct (has_field (lit "content-type") fs) eqn:Eh.
  { eapply field_again; try done; [intros gs []; by eexists|by rewrite L3]. }
  unfold takes, field; rewrite Hfb; cbn [mbind option_bind]; change (4 =? 0) with false; rewrite L3; cbn [negb Z.eqb is_ok b2z Z.mul f_out f_seen f_origin f_type].
  destruct (copy_spec (h_value h) v (f_type f) 64 Hv) as (rc & a & -> & Hz & Hiff & Hc & _); [lia|]; cbn [mbind option_bind].
  exists rc; eexists; split; [done|]; split; [rewrite Hiff; first_field_ok E Eh|].
  intros Hrc; specialize (Hc Hrc); first_field_collected E Eh.
Qed.

Lemma field_content_length o fs f h n v : entry_denotes h (n, v) -> lowered n = lit "content-length" -> fields_ok fs -> collected o fs f ->
  field_bit h = Some (CF_OK, 8) -> takes o fs f h (n, v).
Proof.
  intros [_ Hv] E [Hp Ha Ho Ht Hl] [Cs Ca Co Ct Cl Cr] Hfb; cbn [fst snd] in *.
  test_seen Cs; destruct (has_field (lit "content-length") fs) eqn:Eh.
  { eapply field_again; try done; [intros gs []; by eexists|by rewrite L4]. }
  unfold takes, field; rewrite Hfb; cbn [mbind option_bind]; change (8 =? 0) with false; rewrite L4; cbn [negb Z.eqb is_ok b2z Z.mul f_out f_seen f_origin f_type].
  destruct (field_length_spec (Fields (Z.lor (f_seen f) 8) (f_origin f) (f_type f) (f_out f)) (h_value h) v Hv) as (rc & f' & -> & Hiff & Hc & _).
  exists rc, f'; split; [done|]; split; [rewrite Hiff; first_field_ok E Eh|].
  intros Hrc; rewrite (Hc Hrc); first_field_collected E Eh.
Qed.

Lemma field_spec o fs f h p : entry_denotes h p -> fields_ok fs -> collected o fs f -> takes o fs f h p.
Proof.
  destruct p as [n v]; intros Hh Hok Hc; destruct (field_bit_spec h n v Hh) as (rc & Hfb & Hiff); unfold takes.
  destruct (decide (permitted (n, v))) as [Hp|Hp].
  - rewrite (proj2 Hiff Hp) in Hfb; cbn [is_ok] in Hfb; change (is_ok CF_OK) with true in Hfb; cbn iota in Hfb.
    destruct (decide (bit_of n = 0)) as [Hz|Hz]; [destruct (field_passed o fs f h n v) as (Hf & Hok' & Hc'); [done..|]; exists CF_OK, f; done|].
    unfold bit_of in *; repeat case_bool_decide; [by eapply field_authorization|by eapply field_origin|by eapply field_type|by eapply field_content_length|done].
  - exists rc, f; assert (rc <> CF_OK) as Hrc by tauto.
    unfold field; rewrite Hfb; cbn [mbind option_bind]; replace (is_ok rc) with false by (symmetry; by apply bool_decide_eq_false_2).
    split; [done|]; split; [|done]; split; [done|]; intros [Hall _ _ _ _]; apply Forall_app in Hall as [_ Hall]; by apply Forall_inv in Hall.
Qed.
