(* ===== verification/MonitorHead.v ===== *)
(** Requests the system monitor takes (monitor_remote.c, continued): the fields a
    request carries, the checks, and the parser of heads exactly. *)
From S2P Require Export MonitorRemote.

(** A defined value passes through. *)
Lemma run_checked {S A B} (x : A) (k : A -> SM S B) s : (checked (Some x) ≫= k) s = k x s.
Proof. done. Qed.

Lemma run_first {S A B} (c : SM S A) (k : A -> SM S B) s x s' : c s = Some (x, s') -> (c ≫= k) s = k x s'.
Proof. intros E; unfold mbind, SM_bind; by rewrite E. Qed.

(** ** Requests, exactly *)

Definition packed_name : list Z := lit "cf-cloudflared-request-headers".

(** The fields that are not the serialized ones. *)
Definition plain_fields (hs : header_list) : header_list := filter (λ h, lowered h.1 <> packed_name) hs.

(** The fields a request carries: its own, then those inside the one
    serialized field, of which there may be one. *)
Definition carried (hs fs : header_list) : Prop :=
  (values packed_name hs = [] /\ fs = plain_fields hs) \/
  exists v ds, values packed_name hs = [v] /\ headers_ref v CF_HEADER_COUNT_MAX CF_HEADER_DECODED_MAX = (CF_OK, ds) /\ fs = plain_fields hs ++ ds.

Lemma values_cons name n v hs : values name ((n, v) :: hs) = (if bool_decide (lowered n = name) then [v] else []) ++ values name hs.
Proof. rewrite <- values_one; apply (values_app name [(n, v)] hs). Qed.

Lemma plain_cons n v hs : plain_fields ((n, v) :: hs) = (if bool_decide (lowered n = packed_name) then [] else [(n, v)]) ++ plain_fields hs.
Proof. unfold plain_fields; rewrite filter_cons; cbn [fst]; repeat case_bool_decide; case_decide; tauto || done. Qed.

(** The serialized fields that may still come. *)
Definition room (packed : option cf_bytes) : nat := match packed with Some _ => 0 | None => 1 end.

Lemma plain_loop_spec o es hs : Forall2 entry_denotes es hs -> forall fs f packed, fields_ok fs -> collected o fs f ->
  exists rc f' packed', plain_loop es f packed = Some (rc, f', packed') /\
    (rc = CF_OK <-> fields_ok (fs ++ plain_fields hs) /\ (length (values packed_name hs) <= room packed)%nat) /\
    (rc = CF_OK -> collected o (fs ++ plain_fields hs) f' /\
       match values packed_name hs with [] => packed' = packed | v :: _ => exists b, packed' = Some b /\ denotes b v end).
Proof.
  induction 1 as [|e [n v] es hs He _ IH]; intros fs f packed Hok Hc; cbn [plain_loop].
  { exists CF_OK, f, packed; split; [done|]; change (plain_fields []) with ([] : header_list); rewrite app_nil_r; change (values packed_name []) with ([] : list (list Z)).
    split; [split; [intros _; split; [done|destruct packed; cbn; lia]|done]|done]. }
  pose proof He as [Hn Hv]; cbn [fst snd] in Hn, Hv; rewrite (name_is_spec _ _ _ Hn), values_cons, plain_cons; cbn [mbind option_bind]; fold packed_name.
  destruct (bool_decide (lowered n = packed_name)); cbn [app length].
  - destruct packed as [b|].
    + exists CF_ERR_FORMAT, f, (Some b); split; [done|]; split; [|done]; split; [done|]; cbn [room]; intros [_ H]; lia.
    + destruct (IH fs f (Some (h_value e)) Hok Hc) as (rc & f' & packed' & Hl & Hiff & Hd); exists rc, f', packed'; split; [done|].
      split; [rewrite Hiff; cbn [room]; split; intros [? ?]; (split; [done|lia])|]; intros Hrc; destruct (Hd Hrc) as [Hd1 Hd2]; split; [done|].
      pose proof (proj1 Hiff Hrc) as [_ Hlen]; cbn [room] in Hlen; destruct (values packed_name hs); [|cbn in Hlen; lia]; by exists (h_value e).
  - destruct (field_spec o fs f e (n, v) He Hok Hc) as (rc & f1 & -> & Hiff & Hcol); cbn [mbind option_bind].
    destruct (decide (rc = CF_OK)) as [->|Hrc].
    + change (is_ok CF_OK) with true; cbn [negb]; destruct (IH (fs ++ [(n, v)]) f1 packed) as (rc & f' & packed' & Hl & Hiff' & Hd); [tauto|auto|].
      rewrite <- app_assoc in Hiff', Hd; exists rc, f', packed'; done.
    + replace (is_ok rc) with false by (symmetry; by apply bool_decide_eq_false_2); cbn [negb]; exists rc, f1, packed; split; [done|]; split; [|done].
      split; [done|]; intros [Hf _]; destruct Hrc; apply Hiff; rewrite cons_middle, app_assoc in Hf; by apply fields_ok_app in Hf.
Qed.

(** ** The serialized fields *)

Lemma item_spec m e p : pair_bytes_ok p -> entry_holds m e p -> exists h, item m e = Some h /\ entry_denotes h p.
Proof.
  intros [Hpn Hpv] [Hn Hv]; unfold item; destruct e as [[n1 n2] [v1 v2]]; cbn [e_name e_value fst snd] in *.
  assert (forall o n l, slice m o n = Some l -> bytes_ok l -> exists b, badd (view m) o n = Some b /\ denotes b l) as Hview.
  { intros o n l Hs Hl; unfold slice in Hs; destruct ((0 <=? o) && (0 <=? n) && (o + n <=? zlen m)) eqn:E; [|done]; injection Hs as <-; bool_to_prop.
    unfold badd; cbn [view ptr]; replace ((0 <=? o) && (o <=? zlen m)) with true by lia; eexists; split; [done|].
    split; [done|]; cbn [len ptr]; split; [unfold zlen in *; rewrite length_take, length_drop; lia|].
    exists (drop (Z.to_nat n) (drop (Z.to_nat o) m)); by rewrite take_drop. }
  destruct (Hview _ _ _ Hn Hpn) as (bn & -> & Hbn), (Hview _ _ _ Hv Hpv) as (bv & -> & Hbv); exists (Header bn bv); split; [done|]; by split.
Qed.

Lemma decoded_loop_spec o m es ds : Forall2 (entry_holds m) es ds -> Forall pair_bytes_ok ds -> forall fs f, fields_ok fs -> collected o fs f ->
  exists rc f', decoded_loop m es f = Some (rc, f') /\ (rc = CF_OK <-> fields_ok (fs ++ ds)) /\ (rc = CF_OK -> collected o (fs ++ ds) f').
Proof.
  induction 1 as [|e p es ds He _ IH]; intros Hb fs f Hok Hc; cbn [decoded_loop].
  { exists CF_OK, f; rewrite app_nil_r; done. }
  apply Forall_cons in Hb as [Hp Hb]; specialize (IH Hb); destruct (item_spec m e p Hp He) as (h & -> & Hh); cbn [mbind option_bind].
  destruct (field_spec o fs f h p Hh Hok Hc) as (rc & f1 & -> & Hiff & Hcol); cbn [mbind option_bind].
  destruct (decide (rc = CF_OK)) as [->|Hrc].
  - change (is_ok CF_OK) with true; cbn [negb]; destruct (IH (fs ++ [p]) f1) as (rc & f' & Hl & Hiff' & Hd); [tauto|auto|].
    rewrite <- app_assoc in Hiff', Hd; by exists rc, f'.
  - replace (is_ok rc) with false by (symmetry; by apply bool_decide_eq_false_2); cbn [negb]; exists rc, f1; split; [done|]; split; [|done].
    split; [done|]; intros Hf; destruct Hrc; apply Hiff; rewrite cons_middle, app_assoc in Hf; by apply fields_ok_app in Hf.
Qed.

Lemma headers_ref_bytes s ds : headers_ref s CF_HEADER_COUNT_MAX CF_HEADER_DECODED_MAX = (CF_OK, ds) -> Forall pair_bytes_ok ds /\ zlen ds <= 32.
Proof.
  unfold headers_ref; destruct (CF_HEADER_WIRE_MAX <? zlen s); [done|]; intros Hd.
  apply decode_segs_ok in Hd; [|by vm_compute..]; destruct Hd as (_ & Hb & Hn & _); split; [done|]; exact Hn.
Qed.

(** Decoding fields: what the code accepts, and the block is zero in the end. *)
Lemma decoded_fields_spec o b v block fs f : denotes b v -> zlen block = DECODED_SIZE -> fields_ok fs -> collected o fs f ->
  exists rc f', decoded_fields b block f = Some (rc, f', replicate (Z.to_nat DECODED_SIZE) 0) /\
    (rc = CF_OK <-> exists ds, headers_ref v CF_HEADER_COUNT_MAX CF_HEADER_DECODED_MAX = (CF_OK, ds) /\ fields_ok (fs ++ ds)) /\
    (rc = CF_OK -> exists ds, headers_ref v CF_HEADER_COUNT_MAX CF_HEADER_DECODED_MAX = (CF_OK, ds) /\ collected o (fs ++ ds) f').
Proof.
  intros Hb Hz Hok Hc; unfold decoded_fields.
  assert (zlen (take 4096 block) = 4096) as Ht by (unfold zlen, DECODED_SIZE, CF_HEADER_DECODED_MAX, CF_HEADER_COUNT_MAX in *; rewrite length_take; lia).
  destruct (headers_decode_spec b v (replicate 32 (Entry (0, 0) (0, 0))) CF_HEADER_COUNT_MAX (take 4096 block) CF_HEADER_DECODED_MAX 0 Hb)
    as (es & m & -> & _ & Hm & Hes); [vm_compute; split; discriminate|rewrite Ht; vm_compute; split; discriminate|].
  cbn [mbind option_bind].
  assert (forall x : list Z, zlen x = DECODED_SIZE -> cf_secure_zero x DECODED_SIZE = Some (replicate (Z.to_nat DECODED_SIZE) 0)) as Hzero.
  { intros x Hx; rewrite cf_secure_zero_spec by (rewrite Hx; vm_compute; split; discriminate).
    rewrite blit_0_intro by (rewrite zlen_replicate, Hx; vm_compute; discriminate); f_equal.
    rewrite length_replicate, drop_ge, app_nil_r by (unfold zlen in Hx; lia); done. }
  assert (zlen (m ++ drop 4096 block) = DECODED_SIZE) as Hz'.
  { rewrite zlen_app, Hm, Ht; unfold zlen in *; rewrite length_drop; unfold DECODED_SIZE, CF_HEADER_DECODED_MAX, CF_HEADER_COUNT_MAX in *; lia. }
  destruct (headers_ref v CF_HEADER_COUNT_MAX CF_HEADER_DECODED_MAX) as [rc ds] eqn:Er; cbn [fst snd] in *.
  destruct (decide (rc = CF_OK)) as [->|Hrc].
  - change (is_ok CF_OK) with true; cbn iota; replace (Z.to_nat (zlen ds)) with (length ds) by (unfold zlen; lia).
    destruct (headers_ref_bytes v ds Er) as [Hbytes _].
    destruct (decoded_loop_spec o m _ ds (Hes eq_refl) Hbytes fs f Hok Hc) as (rc & f' & -> & Hiff & Hcol); cbn [mbind option_bind].
    rewrite (Hzero _ Hz'); exists rc, f'; split; [done|]; split; [rewrite Hiff; split; [intros; by exists ds|by intros (ds' & [= <-] & ?)]|].
    intros Hrc; exists ds; auto.
  - replace (is_ok rc) with false by (symmetry; by apply bool_decide_eq_false_2); cbn [mbind option_bind]; rewrite (Hzero _ Hz').
    exists rc, f; split; [done|]; split; [split; [done|by intros (ds' & [= ? ?] & ?)]|done].
Qed.

(** ** The checks, exactly *)

Lemma strcat_spec out s text : cstr out s -> 0 ∉ text -> zlen s + zlen text < zlen out -> exists out', strcat out text = Some out' /\ cstr out' (s ++ text).
Proof.
  intros Hs Hn Hl; unfold strcat; rewrite (strlen_spec _ _ Hs); cbn [mbind option_bind]; pose proof (zlen_nonneg s).
  destruct (blit_Some out (zlen s) (text ++ [0])) as [m Hm]; [lia|rewrite zlen_app; change (zlen [0]) with 1; lia|]; exists m; split; [done|].
  destruct (blit_parts _ _ _ _ Hm) as (a & b & c & -> & -> & Ha & _); destruct Hs as (rest & E & Hs).
  assert (a = s) as ->.
  { apply (f_equal (take (length s))) in E; rewrite (take_app_length s) in E; unfold zlen in Ha; rewrite take_app_le, take_ge in E by lia; done. }
  exists c; split; [by rewrite <- !app_assoc|]; rewrite elem_of_app; tauto.
Qed.

(** The origins of the host [authority]. *)
Definition origin_of (authority origin : list Z) : Prop :=
  origin = lit "https://" ++ until_nul authority \/ origin = lit "https://" ++ until_nul authority ++ lit ":443".

Lemma origin_check_spec expected origin t seen b authority : denotes b authority -> zlen authority <= 253 -> zlen expected = 272 -> cstr origin t ->
  exists v, origin_check expected origin seen b = Some v /\ (v = true <-> Z.land seen 2 = 0 \/ origin_of authority t).
Proof.
  intros Hb Hl He Ht; unfold origin_check; rewrite (view_bytes_spec _ _ Hb); cbn [mbind option_bind].
  pose proof (zlen_until_nul authority); pose proof (until_nul_no_nul authority) as Hn; pose proof (zlen_nonneg (until_nul authority)).
  set (text := lit "https://" ++ until_nul authority).
  assert (0 ∉ lit "https://") as Hs by no_nul.
  assert (0 ∉ text) as Hnt by (unfold text; rewrite elem_of_app; tauto).
  assert (zlen text = 8 + zlen (until_nul authority)) as Hzt by (unfold text; rewrite zlen_app; done).
  destruct (snprintf_cstr expected 272 text) as (m & -> & Hm & Hzm); [done|lia|]; cbn [mbind option_bind].
  replace (0 <? zlen text) with true by lia; replace (zlen text <? 272) with true by lia; replace (zlen text + 4 <? 272) with true by lia; cbn [andb].
  assert ((t = text \/ t = text ++ lit ":443") <-> origin_of authority t) as Ho by (unfold origin_of, text; by rewrite <- app_assoc).
  rewrite (streq_spec origin m t text Ht Hm).
  destruct (strcat_spec m text (lit ":443") Hm) as (m' & -> & Hm'); [no_nul|change (zlen (lit ":443")) with 4; lia|]; cbn [mbind option_bind].
  rewrite (streq_spec origin m' _ _ Ht Hm'); destruct (Z.eqb_spec (Z.land seen 2) 0) as [E|E]; cbn [mbind option_bind andb negb].
  - exists true; split; [done|]; tauto.
  - destruct (decide (t = text)) as [Et|Et].
    + rewrite (bool_decide_eq_true_2 _ Et); exists true; split; [done|]; tauto.
    + rewrite (bool_decide_eq_false_2 _ Et); cbn [andb negb]; eexists; split; [done|]; rewrite bool_decide_eq_true; tauto.
Qed.

Lemma strneq_spec n : forall a b s t, cstr a s -> cstr b t -> strneq n a b = Some (bool_decide (take n s = take n t)).
Proof.
  induction n as [|n IH]; intros a b s t Ha Hb; [done|]; destruct a as [|x a]; [by apply cstr_nil in Ha|].
  destruct b as [|y b]; [by apply cstr_nil in Hb|]; cbn [strneq].
  apply cstr_cons in Ha as [[-> ->]|(Hx & s' & -> & Ha)], Hb as [[-> ->]|(Hy & t' & -> & Hb)]; cbn [take]; try done.
  - by replace (0 =? y) with false by lia.
  - by replace (x =? 0) with false by lia.
  - destruct (Z.eqb_spec x y) as [->|Hne]; cbn [negb].
    + replace (y =? 0) with false by lia; rewrite (IH _ _ _ _ Ha Hb); f_equal; apply bool_decide_ext; split; congruence.
    + rewrite bool_decide_eq_false_2; [done|congruence].
Qed.

(** The media types that are JSON. *)
Definition json_type (t : list Z) : Prop := t = lit "application/json" \/ exists rest, t = lit "application/json" ++ 59 :: rest.

Lemma type_check_spec type t : cstr type t -> exists v, type_check type = Some v /\ (v = true <-> json_type t).
Proof.
  intros Ht; unfold type_check; rewrite (strneq_spec 16 type _ t (lit "application/json") Ht) by (apply cstr_cstring; no_nul); cbn [mbind option_bind].
  change (take 16 (lit "application/json")) with (lit "application/json"); destruct (decide (take 16 t = lit "application/json")) as [E|E].
  2: { rewrite (bool_decide_eq_false_2 _ E); exists false; split; [done|]; split; [done|]; intros [->|[rest ->]]; by destruct E. }
  rewrite (bool_decide_eq_true_2 _ E); cbn [negb].
  assert (t = lit "application/json" ++ drop 16 t) as Et by (by rewrite <- E, take_drop).
  destruct Ht as (rest & -> & Hn); rewrite Et, <- app_assoc; unfold rd; change (Z.to_nat 16) with (length (lit "application/json")).
  change (16 <? 0) with false; cbn iota; rewrite lookup_app_r by done; rewrite Nat.sub_diag; unfold json_type.
  destruct (drop 16 t) as [|c r] eqn:Ed; cbn [lookup app list_lookup mbind option_bind].
  - exists true; split; [done|]; split; [intros _; left; by rewrite app_nil_r|done].
  - eexists; split; [done|]; assert (c <> 0) as Hc by (intros ->; apply Hn; rewrite Et, elem_of_app; right; apply elem_of_cons; by left).
    replace (c =? 0) with false by lia; cbn [orb]; rewrite Z.eqb_eq; split.
    + intros ->; right; by exists r.
    + intros [H|[r' H]]; [rewrite <- (app_nil_r (lit "application/json")) in H at 2; by apply app_inv_head in H|apply app_inv_head in H; congruence].
Qed.

Lemma before_query_prefix l : exists rest, l = before_query l ++ rest.
Proof. induction l as [|c l [rest IH]]; cbn [before_query]; [by exists []|]; destruct (c =? 63); [by exists (c :: l)|exists rest; cbn; by rewrite <- IH]. Qed.

Lemma denotes_prefix b p q : denotes b (p ++ q) -> denotes (Bytes (ptr b) (zlen p)) p.
Proof.
  intros (Hb & _ & Hp); apply Forall_app in Hb as [Hb _]; split; [done|]; split; [done|]; cbn [ptr]; destruct (ptr b) as [m|].
  - destruct Hp as [rest ->]; exists (q ++ rest); by rewrite app_assoc.
  - by destruct p.
Qed.

(** The system's memory: a block has the size asked for. *)
Class MemoryLaws `{Memory} := {
  malloc_law n m b m' : 0 <= n -> malloc n m = (Some b, m') -> zlen b = n;
  uninitialized_law n : 0 <= n -> zlen (uninitialized n) = n
}.

Section Exact.
Context `{MemoryLaws}.

(** A request this server takes, with the fields it carries. *)
Record takeable (hs fs : header_list) : Prop := {
  ta_carried : carried hs fs;
  ta_fields : fields_ok fs;
  ta_method : first_field hs (lit ":method") ∈ [lit "GET"; lit "HEAD"; lit "POST"];
  ta_path : head (first_field hs (lit ":path")) = Some 47 /\ fits 128 (before_query (first_field hs (lit ":path")));
  ta_authority : 1 <= zlen (first_field hs (lit ":authority")) <= 253;
  ta_body : first_field hs (lit ":method") <> lit "POST" -> dec_val (value_of (lit "content-length") fs) = 0
}.

(** The head of such a request. *)
Record describes (hs fs : header_list) (o : monitor_remote_head) : Prop := {
  de_path : cstr (rh_path o) (before_query (first_field hs (lit ":path"))) /\ zlen (rh_path o) = 128;
  de_authorization : cstr (rh_authorization o) (value_of (lit "authorization") fs) /\ zlen (rh_authorization o) = 80;
  de_post : rh_post o = bool_decide (first_field hs (lit ":method") = lit "POST");
  de_head : rh_head o = bool_decide (first_field hs (lit ":method") = lit "HEAD");
  de_length : rh_has_length o = has_field (lit "content-length") fs /\ rh_content_length o = dec_val (value_of (lit "content-length") fs);
  de_json : rh_json_content o = true <-> json_type (value_of (lit "content-type") fs);
  de_origin : rh_origin_allowed o = true <->
    has_field (lit "origin") fs = false \/ origin_of (first_field hs (lit ":authority")) (value_of (lit "origin") fs)
}.

(** Memory was not used, was refused, or was given back erased. *)
Definition returned (m m' : memory) : Prop :=
  m' = m \/ malloc DECODED_SIZE m = (None, m') \/
  exists b m1, malloc DECODED_SIZE m = (Some b, m1) /\ m' = free (replicate (Z.to_nat DECODED_SIZE) 0) m1.

(** Memory for the serialized fields, if there are any. *)
Definition enough (hs : header_list) (m : memory) : Prop := values packed_name hs <> [] -> is_Some (fst (malloc DECODED_SIZE m)).

Definition start_fields (o : monitor_remote_head) : fields := Fields 0 (replicate 272 0) (replicate 64 0) o.

Lemma collected_start o : cstr (rh_authorization o) [] -> zlen (rh_authorization o) = 80 -> rh_has_length o = false -> rh_content_length o = 0 ->
  collected o [] (start_fields o).
Proof.
  intros Ha Hz Hh Hl; constructor; cbn [start_fields f_seen f_out f_origin f_type]; try done; split; try done; by apply cstr_zeros; lia.
Qed.

Lemma fields_ok_nil : fields_ok [].
Proof. by constructor; [|left..]. Qed.

Lemma carried_plain hs fs : carried hs fs -> fields_ok fs -> fields_ok (plain_fields hs) /\ (length (values packed_name hs) <= 1)%nat.
Proof. intros [[Hv ->]|(v & ds & Hv & _ & ->)] Hok; rewrite Hv; cbn [length]; (split; [done || by eapply fields_ok_app|lia]). Qed.

Lemma carried_one hs fs v : values packed_name hs = [v] -> carried hs fs ->
  exists ds, headers_ref v CF_HEADER_COUNT_MAX CF_HEADER_DECODED_MAX = (CF_OK, ds) /\ fs = plain_fields hs ++ ds.
Proof. intros Hv [[Hn _]|(w & ds & Hw & Hd & ->)]; [congruence|]; exists ds; split; [congruence|done]. Qed.

(** The serialized field, with the block it is decoded in. *)
Lemma collect_packed o b v hs f m : values packed_name hs = [v] -> denotes b v -> fields_ok (plain_fields hs) -> collected o (plain_fields hs) f ->
  exists rc f' m', (block ← calling (malloc DECODED_SIZE);
      match block with
      | None => mret (CF_ERR_MEMORY, f)
      | Some block => '(rc, f, block) ← checked (decoded_fields b block f); modify (free block);; mret (rc, f)
      end : SM memory _) m = Some ((rc, f'), m') /\ returned m m' /\
    (rc = CF_OK <-> (exists fs, carried hs fs /\ fields_ok fs) /\ enough hs m) /\
    (rc = CF_OK -> exists fs, carried hs fs /\ fields_ok fs /\ collected o fs f').
Proof.
  intros Hv Hb Hok Hc; unfold mbind, SM_bind, checked, mret, SM_ret, calling, modify, returned, enough.
  destruct (malloc DECODED_SIZE m) as [[block|] m1] eqn:Em; cbn [mbind option_bind fst snd].
  - assert (zlen block = DECODED_SIZE) as Hz by (by eapply malloc_law).
    destruct (decoded_fields_spec o b v block (plain_fields hs) f Hb Hz Hok Hc) as (rc & f' & -> & Hiff & Hcol); cbn [mbind option_bind].
    exists rc, f'; eexists; split; [done|]; split; [right; right; by exists block, m1|]; split.
    + rewrite Hiff; split.
      * intros (ds & Hd & Hf); split; [exists (plain_fields hs ++ ds); split; [right; by exists v, ds|done]|done].
      * intros [(fs & Hcar & Hf) _]; destruct (carried_one hs fs v Hv Hcar) as (ds & Hd & ->); by exists ds.
    + intros Hrc; pose proof (proj1 Hiff Hrc) as (ds & Hd & Hf); destruct (Hcol Hrc) as (ds' & Hd' & Hc'); assert (ds' = ds) as -> by congruence.
      exists (plain_fields hs ++ ds); split; [right; by exists v, ds|done].
  - exists CF_ERR_MEMORY, f, m1; split; [done|]; split; [right; by left|]; split; [|done]; split; [done|]; intros [_ He].
    destruct He as [? ?]; [by rewrite Hv|done].
Qed.

Lemma collect_spec o es hs m : Forall2 entry_denotes es hs -> collected o [] (start_fields o) ->
  exists rc f m', collect es (start_fields o) m = Some ((rc, f), m') /\ returned m m' /\
    (rc = CF_OK <-> (exists fs, carried hs fs /\ fields_ok fs) /\ enough hs m) /\
    (rc = CF_OK -> exists fs, carried hs fs /\ fields_ok fs /\ collected o fs f).
Proof.
  intros Hes Hc; destruct (plain_loop_spec o es hs Hes [] (start_fields o) None fields_ok_nil Hc) as (rc & f & packed & Hl & Hiff & Hd).
  cbn [app room] in Hiff, Hd; unfold collect; rewrite Hl, run_checked; cbn beta iota.
  destruct (decide (rc = CF_OK)) as [->|Hrc].
  - change (is_ok CF_OK) with true; cbn [negb]; pose proof (proj1 Hiff eq_refl) as [Hok Hlen]; destruct (Hd eq_refl) as [Hcol Hp].
    destruct (values packed_name hs) as [|v [|v' vs]] eqn:Ev; [|destruct Hp as (b & -> & Hb); by apply (collect_packed o b v)|cbn in Hlen; lia].
    subst packed; exists CF_OK, f, m; split; [done|]; split; [by left|].
    assert (carried hs (plain_fields hs)) as Hcar by (by left).
    split; [split; [intros _; split; [by exists (plain_fields hs)|intros Hne; by destruct Hne]|done]|]; intros _; by exists (plain_fields hs).
  - exists rc, f, m; split; [destruct packed; [unfold is_ok; rewrite bool_decide_eq_false_2 by done|]; done|].
    split; [by left|]; split; [|done]; split; [done|]; intros [(fs & Hcar & Hf) _]; destruct Hrc; apply Hiff; by eapply carried_plain.
Qed.

Lemma conclude_spec rc o fs f b authority : denotes b authority -> zlen authority <= 253 -> (rc = CF_OK -> collected o fs f) ->
  exists rc' o', conclude rc f b = Some (rc', o') /\ (rc' <> CF_OK -> o' = zero_head) /\
    (rc' = CF_OK <-> rc = CF_OK /\ (rh_post o = false -> dec_val (value_of (lit "content-length") fs) = 0)) /\
    (rc' = CF_OK -> exists json origin, o' = set_checks json origin (f_out f) /\ (json = true <-> json_type (value_of (lit "content-type") fs)) /\
       (origin = true <-> has_field (lit "origin") fs = false \/ origin_of authority (value_of (lit "origin") fs))).
Proof.
  intros Hb Hl Hc; unfold conclude; destruct (decide (rc = CF_OK)) as [->|Hrc].
  2: { replace (is_ok rc) with false by (symmetry; by apply bool_decide_eq_false_2); cbn [mbind option_bind].
       replace (is_ok rc) with false by (symmetry; by apply bool_decide_eq_false_2); exists rc, zero_head; split; [done|]; split; [done|]; split; [tauto|done]. }
  change (is_ok CF_OK) with true; cbn iota; destruct (Hc eq_refl) as [Cs Ca [Co1 Co2] [Ct1 Ct2] [Cl1 Cl2] (Cr1 & Cr2 & Cr3)].
  destruct (origin_check_spec (uninitialized 272) (f_origin f) (value_of (lit "origin") fs) (f_seen f) b authority Hb Hl) as (origin & -> & Ho); [by apply uninitialized_law|exact Co1|].
  destruct (type_check_spec (f_type f) _ Ct1) as (json & -> & Hj); cbn [mbind option_bind set_checks rh_post rh_content_length].
  test_seen Cs; rewrite L2 in Ho; rewrite Cr2, Cl2.
  assert (origin = true <-> has_field (lit "origin") fs = false \/ origin_of authority (value_of (lit "origin") fs)) as Ho'.
  { rewrite Ho; destruct (has_field (lit "origin") fs); split; (intros [E|?]; [by first [left|discriminate E]|by right]). }
  destruct (negb (rh_post o) && negb (dec_val (value_of (lit "content-length") fs) =? 0)) eqn:E.
  - exists CF_ERR_FORMAT, zero_head; split; [done|]; split; [done|]; split; [|done]; split; [done|]; intros [_ Hz].
    destruct (rh_post o); [done|]; rewrite (Hz eq_refl) in E; done.
  - exists CF_OK; eexists; split; [done|]; split; [done|]; split; [split; [intros _; split; [done|]|done]|intros _; by exists json, origin].
    intros Hp; rewrite Hp in E; by apply negb_false_iff, Z.eqb_eq in E.
Qed.

Lemma slash_spec b l (m : memory) : denotes b l ->
  (if len b =? 0 then mret false else c ← checked (bget b 0); mret (c =? 47) : SM memory bool) m = Some (bool_decide (head l = Some 47), m).
Proof.
  intros Hb; rewrite (denotes_len _ _ Hb); destruct l as [|c l]; [done|].
  replace (zlen (c :: l) =? 0) with false by (rewrite zlen_cons; pose proof (zlen_nonneg l); lia).
  rewrite (denotes_get b (c :: l) 0 Hb) by (rewrite zlen_cons; pose proof (zlen_nonneg l); lia).
  change (rd (c :: l) 0) with (Some c); rewrite run_checked; unfold mret, SM_ret; do 2 f_equal; cbn [head].
  destruct (Z.eqb_spec c 47) as [->|Hc]; [done|]; rewrite bool_decide_eq_false_2; congruence.
Qed.

(** A request that is not taken. *)
Definition refused (hs : header_list) (rc : cf_result) (o : monitor_remote_head) : Prop :=
  rc <> CF_OK /\ (forall fs, ~ takeable hs fs) /\ rh_authorization o = replicate 80 0 /\ zlen (rh_path o) = 128.

(** The parser of heads, exactly. *)
Definition parses (hs : header_list) (m : memory) (c : SM memory (cf_result * option monitor_remote_head)) : Prop :=
  exists rc o m', c m = Some ((rc, Some o), m') /\ returned m m' /\
    (rc = CF_OK <-> (exists fs, takeable hs fs) /\ enough hs m) /\
    (rc = CF_OK -> exists fs, takeable hs fs /\ describes hs fs o) /\
    (rc <> CF_OK -> rh_authorization o = replicate 80 0 /\ zlen (rh_path o) = 128).

Lemma parses_refused hs m rc o : refused hs rc o -> parses hs m (mret (rc, Some o)).
Proof.
  intros (Hrc & Hno & Ho); exists rc, o, m; split; [done|]; split; [by left|]; split; [|done].
  split; [done|]; intros [[fs Hfs] _]; by apply Hno in Hfs.
Qed.

Lemma parses_first {A} hs m (c : SM memory A) x k : c m = Some (x, m) -> parses hs m (k x) -> parses hs m (c ≫= k).
Proof. intros Hc (rc & o & m' & E & Hrest); exists rc, o, m'; split; [by rewrite (run_first _ _ _ _ _ Hc)|done]. Qed.

Lemma parses_checked {A} hs m (x : A) k : parses hs m (k x) -> parses hs m (checked (Some x) ≫= k).
Proof. by apply parses_first. Qed.

(** After the method, the path and the authority. *)
Lemma carried_unique hs fs fs' : carried hs fs -> carried hs fs' -> fs = fs'.
Proof.
  intros [[Hv ->]|(v & ds & Hv & Hd & ->)] Hc; [destruct Hc as [[_ ->]|(v & ds & Hv' & _)]; [done|congruence]|].
  destruct (carried_one hs fs' v Hv Hc) as (ds' & Hd' & ->); congruence.
Qed.

Lemma parse_fields_spec r hs m post is_head ba path :
  let o := set_path path (set_method post is_head zero_head) in
  Forall2 entry_denotes (r_headers r) hs ->
  post = bool_decide (first_field hs (lit ":method") = lit "POST") -> is_head = bool_decide (first_field hs (lit ":method") = lit "HEAD") ->
  first_field hs (lit ":method") ∈ [lit "GET"; lit "HEAD"; lit "POST"] ->
  head (first_field hs (lit ":path")) = Some 47 -> fits 128 (before_query (first_field hs (lit ":path"))) ->
  1 <= zlen (first_field hs (lit ":authority")) <= 253 -> denotes ba (first_field hs (lit ":authority")) ->
  cstr path (before_query (first_field hs (lit ":path"))) -> zlen path = 128 ->
  parses hs m ('(rc, f) ← collect (r_headers r) (Fields 0 (replicate 272 0) (replicate 64 0) o);
               '(rc, out) ← checked (conclude rc f ba); mret (rc, Some out)).
Proof.
  intros o Hes Hpost Hhead Hmethod Hslash Hfits Hauth Hba Hpath Hz; unfold parses.
  destruct (collect_spec o (r_headers r) hs m Hes) as (rc & f & m' & Hc & Hret & Hiff & Hok).
  { apply collected_start; try done; by apply cstr_zeros; lia. }
  rewrite (run_first _ _ _ _ _ Hc); clear Hc.
  assert (exists fs, (rc = CF_OK -> carried hs fs /\ fields_ok fs /\ collected o fs f)) as [fs Hfs].
  { destruct (decide (rc = CF_OK)) as [Hrc|Hrc]; [destruct (Hok Hrc) as [fs Hfs]; by exists fs|by exists []]. }
  destruct (conclude_spec rc o fs f ba (first_field hs (lit ":authority")) Hba) as (rc' & o' & -> & Hzero & Hiff' & Hdone); [lia|tauto|].
  rewrite run_checked; exists rc', o', m'; split; [done|]; split; [done|].
  assert (rc' = CF_OK -> takeable hs fs) as Htake.
  { intros Hrc'; apply Hiff' in Hrc' as [Hrc Hbody]; destruct (Hfs Hrc) as (Hcar & Hfok & _); constructor; try done.
    intros Hne; apply Hbody; cbn [o set_path set_method rh_post]; rewrite Hpost; by apply bool_decide_eq_false_2. }
  split; [|split; [|by intros Hne; rewrite (Hzero Hne)]].
  - split; [intros Hrc'; split; [exists fs; auto|]; apply Hiff, (proj1 (proj1 Hiff' Hrc'))|].
    intros [[fs' Hfs'] Hen]; pose proof Hfs' as [Hcar' Hfok' _ _ _ Hbody'].
    assert (rc = CF_OK) as Hrc by (apply Hiff; split; [by exists fs'|done]); destruct (Hfs Hrc) as (Hcar & _).
    apply Hiff'; split; [done|]; rewrite (carried_unique hs fs fs') by done; intros Hp; apply Hbody'; revert Hp.
    cbn [o set_path set_method rh_post]; rewrite Hpost; apply bool_decide_eq_false_1.
  - intros Hrc'; exists fs; split; [auto|]; destruct (Hdone Hrc') as (json & origin & -> & Hj & Ho).
    destruct (Hfs (proj1 (proj1 Hiff' Hrc'))) as (_ & _ & [_ Ca _ _ Cl (Cp & Cpost & Chead)]).
    constructor; cbn [set_checks rh_path rh_authorization rh_post rh_head rh_json_content rh_origin_allowed rh_has_length rh_content_length]; try done.
    + rewrite Cp; by split.
    + by rewrite Cpost.
    + by rewrite Chead.
Qed.

Lemma remote_parse_spec r hs out m : Forall2 entry_denotes (r_headers r) hs -> parses hs m (monitor_remote_parse (Some r) (Some out)).
Proof.
  intros Hes; unfold monitor_remote_parse, cf_h2_header.
  destruct (header_loop_spec _ hs (lit ":method") Hes) as (bm & -> & Hm); [done|].
  destruct (header_loop_spec _ hs (lit ":path") Hes) as (bp & -> & Hp); [done|].
  destruct (header_loop_spec _ hs (lit ":authority") Hes) as (ba & -> & Ha); [done|].
  do 3 (apply parses_checked; cbn beta); rewrite !(equals_spec _ _ _ Hm) by done; do 3 (apply parses_checked; cbn beta).
  set (method := first_field hs (lit ":method")) in *; set (path := first_field hs (lit ":path")) in *; set (authority := first_field hs (lit ":authority")) in *.
  set (o := set_method _ _ zero_head).
  assert (forall rc path', rc <> CF_OK -> zlen path' = 128 -> (forall fs, ~ takeable hs fs) -> refused hs rc (set_path path' o)) as Hrefuse by done.
  destruct (negb (bool_decide (method = lit "POST")) && negb (bool_decide (method = lit "HEAD")) && negb (bool_decide (method = lit "GET"))) eqn:Em.
  { apply parses_refused; apply (Hrefuse CF_ERR_UNSUPPORTED (replicate 128 0)); [done..|]; intros fs [_ _ Hmem _ _ _]; fold method in Hmem.
    rewrite !elem_of_cons, elem_of_nil in Hmem; bool_to_prop; repeat match goal with H : bool_decide _ = false |- _ => apply bool_decide_eq_false_1 in H end; tauto. }
  assert (method ∈ [lit "GET"; lit "HEAD"; lit "POST"]) as Hmem.
  { rewrite !elem_of_cons; destruct (decide (method = lit "GET")), (decide (method = lit "HEAD")), (decide (method = lit "POST")); auto.
    by rewrite !bool_decide_eq_false_2 in Em. }
  eapply parses_first; [by apply slash_spec|]; cbn beta; rewrite (denotes_len _ _ Ha).
  destruct (negb (bool_decide (head path = Some 47)) || (zlen authority =? 0) || (253 <? zlen authority)) eqn:Es.
  { apply parses_refused; apply (Hrefuse CF_ERR_FORMAT (replicate 128 0)); [done..|]; intros fs [_ _ _ [Hh _] Hl _]; fold path authority in Hh, Hl.
    rewrite (bool_decide_eq_true_2 _ Hh) in Es; cbn [negb orb] in Es; bool_to_prop; lia. }
  rewrite (view_bytes_spec _ _ Hp); apply parses_checked; cbn beta; destruct (before_query_prefix path) as [rest Hrest].
  assert (denotes (Bytes (ptr bp) (zlen (before_query path))) (before_query path)) as Hq by (eapply denotes_prefix; by rewrite <- Hrest).
  destruct (copy_spec _ _ (replicate 128 0) 128 Hq) as (rc & text & Hcopy & Hzt & Hiff & Hcs & _); [done|].
  change (rh_path o) with (replicate 128 0); rewrite Hcopy; apply parses_checked; cbn beta iota.
  destruct (decide (rc = CF_OK)) as [->|Hrc].
  - change (negb (is_ok CF_OK)) with false; cbn iota; apply orb_false_iff in Es as [Es El]; apply orb_false_iff in Es as [Es Ez].
    apply negb_false_iff, bool_decide_eq_true_1 in Es; pose proof (zlen_nonneg authority); apply parse_fields_spec; try done.
    + by apply Hiff.
    + apply Z.eqb_neq in Ez; apply Z.ltb_ge in El; fold authority; lia.
    + by apply Hcs.
  - replace (is_ok rc) with false by (symmetry; by apply bool_decide_eq_false_2); cbn [negb].
    apply parses_refused, Hrefuse; [done|by rewrite Hzt|]; intros fs [_ _ _ [_ Hf] _ _]; tauto.
Qed.
End Exact.

(** ** The theorem *)

(** A memory that always has room and remembers what was freed. *)
#[export] Instance roomy : Memory := {|
  memory := list (list Z);
  malloc n m := (Some (replicate (Z.to_nat n) 170), m);
  free b m := b :: m;
  uninitialized n := replicate (Z.to_nat n) 85
|}.

#[export] Instance roomy_laws : MemoryLaws.
Proof. constructor; [intros n m b m' Hn [= <- <-]|intros n Hn]; cbn; rewrite zlen_replicate; lia. Qed.

Definition no_blocks : @memory roomy := ([] : list (list Z)).

Definition sample_head : header_list :=
  [(lit ":method", lit "POST"); (lit ":path", lit "/api/login?a=1"); (lit ":authority", lit "a.example"); (lit "Origin", lit "https://a.example:443");
   (lit "Content-Type", lit "application/json"); (lit "Content-Length", lit "7")].

Definition as_request (hs : header_list) : cf_h2_request := Request 1 CF_H2_HTTP (map (λ p, Header (view p.1) (view p.2)) hs) false.

Lemma as_request_denotes hs : Forall pair_bytes_ok hs -> Forall2 entry_denotes (r_headers (as_request hs)) hs.
Proof. induction 1 as [|p hs [Hn Hv] _ IH]; [constructor|]; constructor; [split; by apply denotes_view|done]. Qed.

(** C14. [monitor_remote_parse] returns on every request whatever its fields, and
    takes exactly those it should: a GET, HEAD or POST for an absolute path that
    fits with an authority of 1 to 253 bytes, whose fields (its own, then those
    in the one serialized field) hold at most one authorization, origin, content
    type and content length each, well-formed and within their arrays, and
    nothing it refuses (transfer encodings, content encodings other than
    identity, proxied requests), and no body unless a POST.  The head then says
    what the fields say; the origin is allowed when there is none or it is the
    HTTPS origin of the authority.  Otherwise no credential remains.  The
    decoder's memory is given back erased. *)
Theorem remote_parse_exact `{MemoryLaws} r hs out m : Forall2 entry_denotes (r_headers r) hs ->
  exists rc o m', monitor_remote_parse (Some r) (Some out) m = Some ((rc, Some o), m') /\ returned m m' /\
    (rc = CF_OK <-> (exists fs, takeable hs fs) /\ enough hs m) /\
    (rc = CF_OK -> exists fs, takeable hs fs /\ describes hs fs o) /\
    (rc <> CF_OK -> rh_authorization o = replicate 80 0).
Proof.
  intros Hes; destruct (remote_parse_spec r hs out m Hes) as (rc & o & m' & E & Hret & Hiff & Hok & Hno); exists rc, o, m'.
  split_and!; try done; intros Hrc; by apply Hno.
Qed.

Lemma remote_parse_exact_witness :
  (exists o, monitor_remote_parse (Some (as_request sample_head)) (Some zero_head) no_blocks = Some ((CF_OK, Some o), no_blocks) /\
     rh_origin_allowed o = true /\ rh_json_content o = true /\ rh_content_length o = 7) /\
  exists rc o m', monitor_remote_parse (Some (as_request sample_head)) (Some zero_head) no_blocks = Some ((rc, Some o), m') /\ returned no_blocks m' /\
    (rc = CF_OK <-> (exists fs, takeable sample_head fs) /\ enough sample_head no_blocks) /\
    (rc = CF_OK -> exists fs, takeable sample_head fs /\ describes sample_head fs o) /\
    (rc <> CF_OK -> rh_authorization o = replicate 80 0).
Proof.
  split; [eexists; split; [vm_compute; reflexivity|by vm_compute]|].
  apply (remote_parse_exact (as_request sample_head) sample_head zero_head no_blocks), as_request_denotes.
  repeat (apply Forall_cons_2; [split; bytes_by_compute|]); apply Forall_nil_2.
Defined.
