(* ===== verification/MonitorTunnel.v ===== *)
(** Requests of the tunnel served by the system monitor
    (src/examples/system_monitor/main/monitor_tunnel.c): one response record per
    application stream, from the head of the request to the last byte read. *)
From stdpp Require Import gmap.
From S2P Require Export MonitorHead TunnelClientSpec.
#[local] Open Scope Z_scope.

Definition MONITOR_REPLY_MAX : Z := 6144.

(** The path and the authorization are C strings. *)
Record monitor_api_request := ApiRequest {
  q_path : list Z;
  q_authorization : list Z;
  q_body : cf_bytes;
  q_post : bool;
  q_json_content : bool;
  q_origin_allowed : bool;
  q_setup_access : bool;
  q_remote_access : bool
}.

(** [body] has 6144 bytes. *)
Record monitor_api_reply := ApiReply {
  a_status : Z;
  a_effects : Z;
  a_length : Z;
  a_body : list Z
}.

Definition zero_reply : monitor_api_reply := ApiReply 0 0 0 (replicate (Z.to_nat MONITOR_REPLY_MAX) 0).

(** The bytes of a reply, and how many. *)
Definition reply_block (a : monitor_api_reply) : list Z := le_bytes 4 (a_status a) ++ le_bytes 4 (a_effects a) ++ le_bytes 4 (a_length a) ++ a_body a.
Definition REPLY_SIZE : Z := 12 + MONITOR_REPLY_MAX.

Record monitor_asset := Asset { uri : list Z; type : list Z; data_bytes : list Z }.

(** What the responses ask of the rest of the monitor: its API with the state of
    the device behind it, the lock around both, and the pages. *)
Class Monitor := {
  device : Type;
  monitor_api_dispatch : monitor_api_request -> device -> option (monitor_api_reply * device);
  monitor_api_schedule_effects : Z -> device -> device;
  monitor_lock : device -> bool * device;
  monitor_unlock : device -> device;
  monitor_assets : list monitor_asset
}.

(** What [data] points to: bytes that do not change, or the reply's body. *)
Inductive source := Constant (bytes : list Z) | OwnedBody.

(** [rs_h] is set once [h] is: it is the session the stream belongs to, which is
    the one that makes the calls about it. *)
Record response := Response {
  rs_id : Z;
  rs_data : option source;
  rs_length : Z;
  rs_sent : Z;
  rs_owned : option monitor_api_reply;
  rs_input : option (list Z);
  rs_input_used : Z;
  rs_request : monitor_remote_head;
  rs_h : bool;
  rs_head : bool;
  rs_api : bool;
  rs_complete : bool
}.

Definition free_response : response := Response 0 None 0 0 None None 0 zero_head false false false false.

Definition with_stream (id : Z) (s : response) : response :=
  Response id (rs_data s) (rs_length s) (rs_sent s) (rs_owned s) (rs_input s) (rs_input_used s) (rs_request s) true (rs_head s) (rs_api s) (rs_complete s).
Definition with_data (d : option source) (n : Z) (s : response) : response :=
  Response (rs_id s) d n (rs_sent s) (rs_owned s) (rs_input s) (rs_input_used s) (rs_request s) (rs_h s) (rs_head s) (rs_api s) (rs_complete s).
Definition with_sent (n : Z) (s : response) : response :=
  Response (rs_id s) (rs_data s) (rs_length s) n (rs_owned s) (rs_input s) (rs_input_used s) (rs_request s) (rs_h s) (rs_head s) (rs_api s) (rs_complete s).
Definition with_owned (a : option monitor_api_reply) (s : response) : response :=
  Response (rs_id s) (rs_data s) (rs_length s) (rs_sent s) a (rs_input s) (rs_input_used s) (rs_request s) (rs_h s) (rs_head s) (rs_api s) (rs_complete s).
Definition with_input (m : option (list Z)) (used : Z) (s : response) : response :=
  Response (rs_id s) (rs_data s) (rs_length s) (rs_sent s) (rs_owned s) m used (rs_request s) (rs_h s) (rs_head s) (rs_api s) (rs_complete s).
Definition with_request (q : monitor_remote_head) (s : response) : response :=
  Response (rs_id s) (rs_data s) (rs_length s) (rs_sent s) (rs_owned s) (rs_input s) (rs_input_used s) q (rs_h s) (rs_head s) (rs_api s) (rs_complete s).
Definition with_kind (head api : bool) (s : response) : response :=
  Response (rs_id s) (rs_data s) (rs_length s) (rs_sent s) (rs_owned s) (rs_input s) (rs_input_used s) (rs_request s) (rs_h s) head api (rs_complete s).
Definition with_complete (s : response) : response :=
  Response (rs_id s) (rs_data s) (rs_length s) (rs_sent s) (rs_owned s) (rs_input s) (rs_input_used s) (rs_request s) (rs_h s) (rs_head s) (rs_api s) true.

Section Responses.
Context `{Nghttp2} `{Memory} `{Monitor}.

(** The state of the module and what it uses. *)
Record site := Site { w_slots : list response; w_memory : memory; w_device : device }.

(** The state in a callback, with the session that makes it. *)
Record visit := Visit { v_site : site; v_h2 : cf_h2 }.

Abbreviation VM := (SM visit).

(** ** Steps *)

Definition find_response (id : Z) (slots : list response) : option nat := fst <$> list_find (λ s, rs_id s = id) slots.

Definition over_site (f : site -> site) (v : visit) : visit := Visit (f (v_site v)) (v_h2 v).
Definition over_slot (i : nat) (f : response -> response) (w : site) : site := Site (alter f i (w_slots w)) (w_memory w) (w_device w).
(** [*s], of a pointer into the array. *)
Definition record_of (i : nat) : VM response := asks (λ v, default free_response (w_slots (v_site v) !! i)).
Definition change_record (i : nat) (f : response -> response) : VM () := modify (over_site (over_slot i f)).
Definition with_memory {A} (c : SM memory A) : VM A := performing (λ v,
  '(x, m) ← c (w_memory (v_site v)); Some (x, over_site (λ w, Site (w_slots w) m (w_device w)) v)).
Definition on_device {A} (c : device -> option (A * device)) : VM A := performing (λ v,
  '(x, d) ← c (w_device (v_site v)); Some (x, over_site (λ w, Site (w_slots w) (w_memory w) d) v)).
Definition allocate_block (n : Z) : VM (option (list Z)) := with_memory (calling (malloc n)).
Definition free_block (b : list Z) : VM () := with_memory (modify (free b)).
(** Erase a block and give it back. *)
Definition wipe_and_free (b : list Z) (n : Z) : VM () := b ← checked (cf_secure_zero b n); free_block b.

(** ** Responses *)

Definition field_of (name value : list Z) : cf_header := Header (view name) (view value).

Definition policy : list Z :=
  lit "default-src 'self'; script-src 'self'; style-src 'self'; img-src 'self'; connect-src 'self'; frame-ancestors 'none'; base-uri 'none'; form-action 'self'".

(** [respond]; the type is a C string. *)
Definition respond_with (i : nat) (status : Z) (type : list Z) : VM cf_result :=
  s ← record_of i;
  length ← checked (snprintf (uninitialized 24) 24 (decimal (rs_length s)));
  length ← checked (c_string length);
  type ← checked (c_string type);
  change_record i with_complete;;
  performing (λ v, '(rc, h) ← cf_h2_respond (if rs_h s then Some (v_h2 v) else None) (rs_id s) status
      (Some [field_of (lit "content-type") type; field_of (lit "content-length") length; field_of (lit "Cache-Control") (lit "no-store");
             field_of (lit "X-Content-Type-Options") (lit "nosniff"); field_of (lit "Referrer-Policy") (lit "no-referrer");
             field_of (lit "Content-Security-Policy") policy]) 6 true;
    Some (rc, Visit (v_site v) (default (v_h2 v) h))).

(** The text of an error. *)
Definition error_json (text : string) : list Z := 123 :: quoted "error" ++ 58 :: quoted text ++ [125].

Definition fail_response (i : nat) (status : Z) (json : list Z) : VM cf_result :=
  change_record i (with_data (Some (Constant json)) (zlen json));;
  respond_with i status (cstring "application/json").

Definition invalid_head_text : list Z := error_json "Unsupported method, body size or ambiguous request headers.".

(** The first page with this path. *)
Fixpoint find_asset (path : list Z) (assets : list monitor_asset) : option (option monitor_asset) :=
  match assets with
  | [] => Some None
  | a :: assets => same ← streq path (uri a); if (same : bool) then Some (Some a) else find_asset path assets
  end.

Definition monitor_request (r : cf_h2_request) : VM cf_result :=
  slots ← asks (λ v, w_slots (v_site v));
  match find_response 0 slots with
  | None => mret CF_ERR_LIMIT
  | Some i =>
      change_record i (with_stream (r_stream r));;
      s ← record_of i;
      '(rc, q) ← with_memory (monitor_remote_parse (Some r) (Some (rs_request s)));
      q ← checked q;
      change_record i (with_request q);;
      if negb (is_ok rc) then fail_response i (if bool_decide (rc = CF_ERR_UNSUPPORTED) then 405 else 400) invalid_head_text else
      api ← checked (strneq 5 (rh_path q) (cstring "/api/"));
      change_record i (with_kind (rh_head q) api);;
      if (api : bool) then
        if rh_post q then
          input ← allocate_block MONITOR_BODY_MAX;
          change_record i (λ s, with_input input (rs_input_used s) s);;
          if bool_decide (input = None) then fail_response i 503 (error_json "Not enough memory for this request.") else mret CF_OK
        else mret CF_OK
      else
      if rh_post q then fail_response i 405 (error_json "This page supports GET and HEAD.") else
      page ← checked (find_asset (rh_path q) monitor_assets);
      match page with
      | Some a => change_record i (with_data (Some (Constant (data_bytes a))) (zlen (data_bytes a)));; respond_with i 200 (type a)
      | None => fail_response i 404 (error_json "Page not found.")
      end
  end.

(** The request that the API gets: the body is what was collected. *)
Definition api_request_of (s : response) : monitor_api_request :=
  ApiRequest (rh_path (rs_request s)) (rh_authorization (rs_request s)) (Bytes (rs_input s) (rs_input_used s)) (rh_post (rs_request s))
    (rh_json_content (rs_request s)) (rh_origin_allowed (rs_request s)) false true.

(** The API's answer, under the lock; its effects are scheduled. *)
Definition dispatch_locked (q : monitor_api_request) : VM monitor_api_reply :=
  on_device (λ d, '(a, d) ← monitor_api_dispatch q d; Some (a, monitor_unlock (monitor_api_schedule_effects (a_effects a) d))).

(** [data] at the end of a request. *)
Definition execute (i : nat) : VM cf_result :=
  s ← record_of i;
  if rh_has_length (rs_request s) && negb (rh_content_length (rs_request s) =? rs_input_used s)
  then fail_response i 400 (error_json "Request body length mismatch.") else
  block ← allocate_block REPLY_SIZE;
  change_record i (with_owned (_ ← block; Some zero_reply));;
  if bool_decide (block = None) then fail_response i 503 (error_json "Not enough memory for this response.") else
  locked ← on_device (λ d, Some (monitor_lock d));
  if negb locked then fail_response i 503 (error_json "The device is busy. Please retry.") else
  reply ← dispatch_locked (api_request_of s);
  change_record i (with_owned (Some reply));;
  (match rs_input s with Some b => wipe_and_free b MONITOR_BODY_MAX;; change_record i (λ s, with_input None (rs_input_used s) s) | None => mret tt end);;
  secret ← checked (cf_secure_zero (rh_authorization (rs_request s)) 80);
  change_record i (λ s, with_data (Some OwnedBody) (a_length reply) (with_request (set_authorization secret (rs_request s)) s));;
  respond_with i (a_status reply) (cstring "application/json").

Definition monitor_data (id : Z) (bytes : cf_bytes) (end_ : bool) : VM cf_result :=
  slots ← asks (λ v, w_slots (v_site v));
  match find_response id slots with
  | None => mret CF_ERR_STATE
  | Some i =>
      s ← record_of i;
      if rs_complete s then mret CF_OK else
      stored ← (if len bytes =? 0 then mret true else
        match rs_input s with
        | None => mret false
        | Some input =>
            if usize (MONITOR_BODY_MAX - rs_input_used s) <? len bytes then mret false else
            m ← checked (ptr bytes); text ← checked (slice m 0 (len bytes));
            input ← checked (blit input (rs_input_used s) text);
            change_record i (with_input (Some input) (usize (rs_input_used s + len bytes)));; mret true
        end);
      if negb stored then fail_response i 400 (error_json "Send a JSON object of at most 2048 bytes.") else
      if negb end_ then mret CF_OK else execute i
  end.

(** The bytes behind [data]. *)
Definition source_bytes (s : response) : option (list Z) :=
  match rs_data s with
  | None => None
  | Some (Constant l) => Some l
  | Some OwnedBody => a ← rs_owned s; Some (a_body a)
  end.

(** The code, the output, how much was written, and whether it was all. *)
Definition monitor_read (id : Z) (out : list Z) (cap : Z) : VM (cf_result * list Z * Z * bool) :=
  slots ← asks (λ v, w_slots (v_site v));
  match find_response id slots with
  | None => mret (CF_ERR_STATE, out, 0, false)
  | Some i =>
      s ← record_of i;
      let n := if rs_head s then 0 else usize (rs_length s - rs_sent s) in
      let n := if cap <? n then cap else n in
      out ← (if n =? 0 then mret out else
        m ← checked (source_bytes s); text ← checked (slice m (rs_sent s) n); checked (blit out 0 text));
      let sent := usize (rs_sent s + n) in
      change_record i (with_sent sent);;
      mret (CF_OK, out, n, rs_head s || (sent =? rs_length s))
  end.

Definition monitor_closed (id : Z) : VM () :=
  slots ← asks (λ v, w_slots (v_site v));
  match find_response id slots with
  | None => mret tt
  | Some i =>
      s ← record_of i;
      (match rs_owned s with Some a => wipe_and_free (reply_block a) REPLY_SIZE | None => mret tt end);;
      (match rs_input s with Some b => wipe_and_free b MONITOR_BODY_MAX | None => mret tt end);;
      change_record i (λ _, free_response)
  end.

End Responses.
