(* ===== verification/MonitorServe.v ===== *)
(** The responses of the system monitor, exactly: what each callback does with a
    response record, and that the records stay in order (monitor_tunnel.c). *)
From stdpp Require Import gmap.
From S2P Require Export MonitorTunnel.
#[local] Open Scope Z_scope.

(** What the responses rely on in the rest of the monitor: the API answers every
    request within its reply, the lock and the schedule return, the pages are
    objects. *)
Class MonitorLaws `{Monitor} := {
  device_ok : device -> Prop;
  dispatch_law q body d : device_ok d -> 0 ∈ q_path q -> text_array 80 (q_authorization q) -> denotes (q_body q) body -> zlen body <= MONITOR_BODY_MAX ->
    exists a d', monitor_api_dispatch q d = Some (a, d') /\ device_ok d' /\ zlen (a_body a) = MONITOR_REPLY_MAX /\ 0 <= a_length a <= MONITOR_REPLY_MAX;
  schedule_law e d : device_ok d -> device_ok (monitor_api_schedule_effects e d);
  lock_law d : device_ok d -> device_ok (snd (monitor_lock d));
  unlock_law d : device_ok d -> device_ok (monitor_unlock d);
  assets_law : Forall (λ a, (exists p, cstr (uri a) p) /\ (exists t, cstr (type a) t /\ bytes_ok t) /\ zlen (data_bytes a) <= INT32_MAX) monitor_assets
}.

(** ** The records *)

Definition head_ok (q : monitor_remote_head) : Prop := text_array 128 (rh_path q) /\ text_array 80 (rh_authorization q).

(** [length] bytes are behind [data]. *)
Definition data_ok (s : response) : Prop :=
  match rs_data s with
  | None => rs_length s = 0
  | Some (Constant l) => rs_length s = zlen l
  | Some OwnedBody => exists a, rs_owned s = Some a /\ rs_length s = a_length a
  end.

Definition owned_ok (s : response) : Prop :=
  match rs_owned s with None => True | Some a => zlen (a_body a) = MONITOR_REPLY_MAX /\ 0 <= a_length a <= MONITOR_REPLY_MAX end.

Definition input_ok (s : response) : Prop :=
  0 <= rs_input_used s <= MONITOR_BODY_MAX /\
  match rs_input s with
  | None => rs_complete s = false -> rs_input_used s = 0
  | Some b => zlen b = MONITOR_BODY_MAX /\ bytes_ok (take (Z.to_nat (rs_input_used s)) b)
  end.

(** A record in use. *)
Record live (s : response) : Prop := {
  li_id : rs_id s <> 0;
  li_h : rs_h s = true;
  li_data : data_ok s;
  li_sent : 0 <= rs_sent s <= rs_length s /\ rs_length s <= INT32_MAX;
  li_owned : owned_ok s;
  li_input : input_ok s;
  li_waiting : rs_complete s = false -> rs_data s = None /\ rs_length s = 0 /\ head_ok (rs_request s)
}.

Definition record_ok (s : response) : Prop := s = free_response \/ live s.

Definition slots_ok (slots : list response) : Prop := length slots = Z.to_nat CF_H2_APPLICATION_MAX /\ Forall record_ok slots.

Lemma alter_insert {A} (f : A -> A) i x (l : list A) : alter f i (<[i := x]> l) = (<[i := f x]> l).
Proof. revert i; induction l as [|y l IH]; intros [|i]; [done..|]; cbn; f_equal; apply IH. Qed.

(** The text of a length. *)
Lemma decimal_text n : 0 <= n <= INT32_MAX -> (0 ∉ decimal n) /\ zlen (decimal n) <= 11 /\ bytes_ok (decimal n).
Proof.
  intros Hn; destruct (decimal_spec n) as (_ & _ & Hz & H0); [lia|]; split; [done|]; split; [lia|].
  unfold decimal; replace (n <? 0) with false by lia; cbn [app].
  destruct (decimal_go_spec 20 (Z.abs n) []) as (d & -> & [_ Hd] & _); [unfold INT32_MAX in Hn; simpl; lia|lia|]; rewrite app_nil_r.
  eapply Forall_impl; [exact Hd|]; intros c Hc; unfold number_digit in Hc; unfold is_byte; lia.
Qed.

Section Serve.
Context `{Nghttp2} `{MemoryLaws} `{MonitorLaws}.

Definition site_ok (w : site) : Prop := slots_ok (w_slots w) /\ device_ok (w_device w).

(** ** Steps on one record *)

(** The state with the record [s] at place [i]. *)
Definition here (i : nat) (slots : list response) (s : response) (m : memory) (d : device) (h : cf_h2) : visit :=
  Visit (Site (<[i := s]> slots) m d) h.

Section Record.
Context (i : nat) (slots : list response) (Hi : (i < length slots)%nat).

Lemma runs_record {Q : response -> visit -> Prop} s m d h : Q s (here i slots s m d h) -> runs (record_of i) (here i slots s m d h) Q.
Proof. intros HQ; apply runs_asks; cbn [v_site w_slots here]; by rewrite list_lookup_insert_eq. Qed.

Lemma runs_change {Q : () -> visit -> Prop} f s m d h : Q tt (here i slots (f s) m d h) -> runs (change_record i f) (here i slots s m d h) Q.
Proof.
  intros HQ; apply runs_modify; unfold over_site, over_slot, here in *; cbn [v_site w_slots w_memory w_device v_h2].
  by rewrite alter_insert.
Qed.

Lemma runs_memory {A} {Q : A -> visit -> Prop} (c : SM memory A) x m' s m d h : c m = Some (x, m') ->
  Q x (here i slots s m' d h) -> runs (with_memory c) (here i slots s m d h) Q.
Proof. intros E HQ; eapply runs_performing; [cbn [v_site w_memory here]; by rewrite E|done]. Qed.

Lemma runs_device {A} {Q : A -> visit -> Prop} (c : device -> option (A * device)) x d' s m d h : c d = Some (x, d') ->
  Q x (here i slots s m d' h) -> runs (on_device c) (here i slots s m d h) Q.
Proof. intros E HQ; eapply runs_performing; [cbn [v_site w_device here]; by rewrite E|done]. Qed.

Lemma runs_free {Q : () -> visit -> Prop} b n s m d h : 0 <= n -> zlen b = n ->
  Q tt (here i slots s (free (replicate (Z.to_nat n) 0) m) d h) -> runs (wipe_and_free b n) (here i slots s m d h) Q.
Proof.
  intros Hn Hb HQ; unfold wipe_and_free; destruct (erase_spec b n) as (b' & E & _ & _ & Hb'); [lia|].
  apply runs_bind; eapply runs_checked; [exact E|]; subst b'; rewrite drop_ge, app_nil_r by (unfold zlen in Hb; lia).
  eapply runs_memory; [done|exact HQ].
Qed.

(** ** Answers *)

(** The fields of an answer. *)
Definition answer_fields (type : list Z) (n : Z) : header_list :=
  [(lit "content-type", type); (lit "content-length", decimal n); (lit "Cache-Control", lit "no-store"); (lit "X-Content-Type-Options", lit "nosniff");
   (lit "Referrer-Policy", lit "no-referrer"); (lit "Content-Security-Policy", policy)].

Definition answer_headers (type : list Z) (n : Z) : list cf_header := map (λ p, field_of p.1 p.2) (answer_fields type n).

(** The session is asked to send the head of an answer. *)
Definition answered (id status : Z) (type : list Z) (n : Z) (h : cf_h2) (rc : cf_result) (h' : cf_h2) : Prop :=
  cf_h2_respond (Some h) id status (Some (answer_headers type n)) 6 true = Some (rc, Some h').

Lemma answer_denotes type n : bytes_ok type -> 0 <= n <= INT32_MAX -> Forall2 entry_denotes (answer_headers type n) (answer_fields type n).
Proof. clear Hi slots i.
  intros Ht Hn; destruct (decimal_text n Hn) as (_ & _ & Hd); unfold answer_headers, answer_fields; cbn [map].
  repeat (constructor; [split; cbn [fst snd field_of h_name h_value]; apply denotes_view; done || apply lit_bytes|]); constructor.
Qed.

Lemma answered_op id status type n h rc h' : bytes_ok type -> 0 <= n <= INT32_MAX -> answered id status type n h rc h' -> client_op h h'.
Proof. clear Hi slots i. intros Ht Hn Ha; eapply OpRespond; [|exact Ha]; exists (answer_fields type n); split; [by apply answer_denotes|done]. Qed.

Lemma runs_respond {Q : cf_result -> visit -> Prop} status arr type s m d h : zlen (h_serialized h) = CF_HEADER_WIRE_MAX ->
  cstr arr type -> bytes_ok type -> rs_h s = true -> 0 <= rs_length s <= INT32_MAX ->
  (forall rc h', answered (rs_id s) status type (rs_length s) h rc h' -> Q rc (here i slots (with_complete s) m d h')) ->
  runs (respond_with i status arr) (here i slots s m d h) Q.
Proof.
  intros Hser Harr Htype Hh Hn HQ; unfold respond_with; apply runs_bind, runs_record.
  destruct (decimal_text (rs_length s) Hn) as (Hnul & Hz & _).
  destruct (snprintf_cstr (uninitialized 24) 24 (decimal (rs_length s)) Hnul) as (x & Ex & Hx & _); [rewrite uninitialized_law by lia; lia|].
  apply runs_bind; eapply runs_checked; [exact Ex|]; apply runs_bind; eapply runs_checked; [by apply c_string_spec|].
  apply runs_bind; eapply runs_checked; [by apply c_string_spec|]; apply runs_bind, runs_change; rewrite Hh.
  destruct (respond_rel h (rs_id s) status (Some (answer_headers type (rs_length s))) 6 true Hser) as (rc & h' & E & _).
  { exists (answer_fields type (rs_length s)); split; [by apply answer_denotes|done]. }
  eapply runs_performing; [cbn [v_h2 here]; unfold answer_headers in E; cbn [map answer_fields fst snd] in E; rewrite E; done|].
  by apply (HQ rc h').
Qed.

(** The record of an error. *)
Definition failed (json : list Z) (s : response) : response := with_complete (with_data (Some (Constant json)) (zlen json) s).

Lemma runs_fail {Q : cf_result -> visit -> Prop} status json s m d h : zlen (h_serialized h) = CF_HEADER_WIRE_MAX -> rs_h s = true -> zlen json <= INT32_MAX ->
  (forall rc h', answered (rs_id s) status (lit "application/json") (zlen json) h rc h' -> Q rc (here i slots (failed json s) m d h')) ->
  runs (fail_response i status json) (here i slots s m d h) Q.
Proof.
  intros Hser Hh Hz HQ; unfold fail_response; apply runs_bind, runs_change; pose proof (zlen_nonneg json).
  apply (runs_respond status (cstring "application/json") (lit "application/json")); try done; [apply cstr_cstring; no_nul|apply lit_bytes].
Qed.

(** ** The request *)

Lemma find_asset_spec path p assets : cstr path p -> Forall (λ a, exists u, cstr (uri a) u) assets ->
  exists o, find_asset path assets = Some o /\
    match o with Some a => a ∈ assets /\ cstr (uri a) p | None => Forall (λ a, ~ cstr (uri a) p) assets end.
Proof.
  intros Hp; induction 1 as [|a assets [u Hu] _ (o & Ho & IH)]; cbn [find_asset]; [by exists None|].
  rewrite (streq_spec _ _ _ _ Hp Hu); cbn [mbind option_bind]; destruct (decide (p = u)) as [->|Hne].
  - rewrite bool_decide_eq_true_2 by done; exists (Some a); split; [done|]; split; [left|done].
  - rewrite bool_decide_eq_false_2 by done; exists o; split; [done|]; destruct o as [b|]; [destruct IH; split; [by right|done]|].
    constructor; [|done]; intros Hc; apply Hne; by eapply cstr_unique.
Qed.

(** The record of a stream with its head. *)
Definition started (id : Z) (q : monitor_remote_head) : response := with_request q (with_stream id free_response).

(** Where a request goes: what its record holds, and the answer it gets at once
    (status and type), if any. *)
Inductive routed (hs : header_list) (id : Z) (m : memory) : response -> memory -> option (Z * list Z) -> Prop :=
| RouteRefused q m' status : returned m m' -> ~ ((exists fs, takeable hs fs) /\ enough hs m) -> status = 400 \/ status = 405 ->
    routed hs id m (failed invalid_head_text (started id q)) m' (Some (status, lit "application/json"))
| RouteQuery fs q m' : returned m m' -> takeable hs fs -> describes hs fs q -> take 5 (before_query (first_field hs (lit ":path"))) = lit "/api/" ->
    rh_post q = false -> routed hs id m (with_kind (rh_head q) true (started id q)) m' None
| RouteChange fs q m1 block m' : returned m m1 -> takeable hs fs -> describes hs fs q -> take 5 (before_query (first_field hs (lit ":path"))) = lit "/api/" ->
    rh_post q = true -> malloc MONITOR_BODY_MAX m1 = (Some block, m') ->
    routed hs id m (with_input (Some block) 0 (with_kind (rh_head q) true (started id q))) m' None
| RouteMemory fs q m1 m' : returned m m1 -> takeable hs fs -> describes hs fs q -> take 5 (before_query (first_field hs (lit ":path"))) = lit "/api/" ->
    rh_post q = true -> malloc MONITOR_BODY_MAX m1 = (None, m') ->
    routed hs id m (failed (error_json "Not enough memory for this request.") (with_kind (rh_head q) true (started id q))) m' (Some (503, lit "application/json"))
| RoutePost fs q m' : returned m m' -> takeable hs fs -> describes hs fs q -> take 5 (before_query (first_field hs (lit ":path"))) <> lit "/api/" ->
    rh_post q = true ->
    routed hs id m (failed (error_json "This page supports GET and HEAD.") (with_kind (rh_head q) false (started id q))) m' (Some (405, lit "application/json"))
| RoutePage fs q m' a t : returned m m' -> takeable hs fs -> describes hs fs q -> take 5 (before_query (first_field hs (lit ":path"))) <> lit "/api/" ->
    rh_post q = false -> a ∈ monitor_assets -> cstr (uri a) (before_query (first_field hs (lit ":path"))) -> cstr (type a) t -> bytes_ok t ->
    routed hs id m (with_complete (with_data (Some (Constant (data_bytes a))) (zlen (data_bytes a)) (with_kind (rh_head q) false (started id q)))) m' (Some (200, t))
| RouteNone fs q m' : returned m m' -> takeable hs fs -> describes hs fs q -> take 5 (before_query (first_field hs (lit ":path"))) <> lit "/api/" ->
    rh_post q = false -> Forall (λ a, ~ cstr (uri a) (before_query (first_field hs (lit ":path")))) monitor_assets ->
    routed hs id m (failed (error_json "Page not found.") (with_kind (rh_head q) false (started id q))) m' (Some (404, lit "application/json")).

(** The answer that is due, made. *)
Definition replied (s : response) (h : cf_h2) (due : option (Z * list Z)) (rc : cf_result) (h' : cf_h2) : Prop :=
  match due with
  | None => rc = CF_OK /\ h' = h
  | Some (status, type) => answered (rs_id s) status type (rs_length s) h rc h' /\ bytes_ok type
  end.

Lemma runs_routed {Q : cf_result -> visit -> Prop} hs r q m0 m d h : zlen (h_serialized h) = CF_HEADER_WIRE_MAX ->
  returned m0 m -> (exists fs, takeable hs fs /\ describes hs fs q) ->
  (forall rc s' m' due h', routed hs (r_stream r) m0 s' m' due -> replied s' h due rc h' -> Q rc (here i slots s' m' d h')) ->
  runs (api ← checked (strneq 5 (rh_path q) (cstring "/api/"));
        change_record i (with_kind (rh_head q) api);;
        if (api : bool) then
          if rh_post q then
            input ← allocate_block MONITOR_BODY_MAX;
            change_record i (λ s, with_input input (rs_input_used s) s);;
            if bool_decide (input = None) then fail_response i 503 (error_json "Not enough memory for this request.") else mret CF_OK
          else mret CF_OK
        else
        if rh_post q then fail_response i 405 (error_json "This page supports GET and HEAD.") else
        page ← checked (find_asset (rh_path q) monitor_assets);
        match page with
        | Some a => change_record i (with_data (Some (Constant (data_bytes a))) (zlen (data_bytes a)));; respond_with i 200 (type a)
        | None => fail_response i 404 (error_json "Page not found.")
        end) (here i slots (started (r_stream r) q) m d h) Q.
Proof.
  intros Hser Hret (fs & Ht & Hd) HQ; pose proof (de_path _ _ _ Hd) as [Hpath _].
  apply runs_bind; eapply runs_checked; [apply strneq_spec; [exact Hpath|apply cstr_cstring; no_nul]|].
  apply runs_bind, runs_change; change (take 5 (lit "/api/")) with (lit "/api/"); case_bool_decide as Hapi; destruct (rh_post q) eqn:Hpost.
  - unfold allocate_block; apply runs_bind; destruct (malloc MONITOR_BODY_MAX m) as [[block|] m'] eqn:Em; (eapply runs_memory; [unfold calling; by rewrite Em|]).
    + apply runs_bind, runs_change; rewrite bool_decide_eq_false_2 by done; apply runs_ret, HQ with (due := None); [by eapply RouteChange|done].
    + apply runs_bind, runs_change; rewrite bool_decide_eq_true_2 by done; apply runs_fail; [done|done|by vm_compute|].
      intros rc h' Ha; apply HQ with (due := Some (503, lit "application/json")); [by eapply RouteMemory|]; split; [exact Ha|apply lit_bytes].
  - apply runs_ret, HQ with (due := None); [by eapply RouteQuery|done].
  - apply runs_fail; [done|done|by vm_compute|]; intros rc h' Ha.
    apply HQ with (due := Some (405, lit "application/json")); [by eapply RoutePost|]; split; [exact Ha|apply lit_bytes].
  - pose proof assets_law as Hassets; apply runs_bind; destruct (find_asset_spec (rh_path q) _ monitor_assets Hpath) as (page & Hpage & Hcase).
    { eapply Forall_impl; [exact Hassets|]; by intros a (? & _). }
    eapply runs_checked; [exact Hpage|]; destruct page as [a|].
    + destruct Hcase as [Hin Hu]; rewrite Forall_forall in Hassets; destruct (Hassets a Hin) as (_ & (t & Ht' & Hb) & Hz).
      apply runs_bind, runs_change; apply (runs_respond 200 (type a) t); try done; [split; [apply zlen_nonneg|done]|].
      intros rc h' Ha; apply HQ with (due := Some (200, t)); [by eapply RoutePage|by split].
    + apply runs_fail; [done|done|by vm_compute|]; intros rc h' Ha.
      apply HQ with (due := Some (404, lit "application/json")); [by eapply RouteNone|]; split; [exact Ha|apply lit_bytes].
Qed.

Lemma request_routed r hs m d h : zlen (h_serialized h) = CF_HEADER_WIRE_MAX -> Forall2 entry_denotes (r_headers r) hs ->
  find_response 0 slots = Some i -> slots !! i = Some free_response ->
  runs (monitor_request r) (Visit (Site slots m d) h) (λ rc v', exists s' m' due h',
    v' = here i slots s' m' d h' /\ routed hs (r_stream r) m s' m' due /\ replied s' h due rc h').
Proof.
  intros Hser Hes Hfind Hfree; unfold monitor_request; apply runs_bind, runs_asks; cbn [v_site w_slots]; rewrite Hfind.
  assert (Visit (Site slots m d) h = here i slots free_response m d h) as -> by (unfold here; by rewrite list_insert_id).
  apply runs_bind, runs_change, runs_bind, runs_record, runs_bind.
  destruct (remote_parse_spec r hs (rs_request (with_stream (r_stream r) free_response)) m Hes) as (rc & q & m1 & Ep & Hret & Hiff & Hok & _).
  eapply runs_memory; [exact Ep|]; apply runs_bind; eapply runs_checked; [reflexivity|]; apply runs_bind, runs_change.
  destruct (decide (rc = CF_OK)) as [->|Hrc].
  - change (negb (is_ok CF_OK)) with false; cbn iota; eapply runs_routed; [done|exact Hret|by apply Hok|].
    intros rc s' m' due h' Hr Ha; by exists s', m', due, h'.
  - replace (is_ok rc) with false by (symmetry; by apply bool_decide_eq_false_2); cbn [negb].
    apply runs_fail; [done|done|by vm_compute|]; intros rc' h' Ha; do 2 eexists; exists (Some (if bool_decide (rc = CF_ERR_UNSUPPORTED) then 405 else 400, lit "application/json")), h'.
    split; [done|]; split; [eapply RouteRefused; [done|tauto|case_bool_decide; auto]|]; split; [exact Ha|apply lit_bytes].
Qed.

(** ** The body, and the execution of a request *)

(** What was collected. *)
Definition body_of (s : response) : list Z := match rs_input s with None => [] | Some b => take (Z.to_nat (rs_input_used s)) b end.

(** The announced length is the collected one. *)
Definition length_matches (s : response) : Prop := rh_has_length (rs_request s) = true -> rh_content_length (rs_request s) = rs_input_used s.

(** The record after the API's answer [a]. *)
Definition served (a : monitor_api_reply) (s : response) : response :=
  with_complete (with_data (Some OwnedBody) (a_length a) (with_request (set_authorization (replicate 80 0) (rs_request s))
    (with_input None (rs_input_used s) (with_owned (Some a) s)))).

(** The end of a request: the record, the memory, the device and the status. *)
Inductive executed (s : response) (m : memory) (d : device) : response -> memory -> device -> Z -> Prop :=
| ExecuteMismatch : ~ length_matches s -> executed s m d (failed (error_json "Request body length mismatch.") s) m d 400
| ExecuteMemory m' : length_matches s -> malloc REPLY_SIZE m = (None, m') ->
    executed s m d (failed (error_json "Not enough memory for this response.") (with_owned None s)) m' d 503
| ExecuteBusy block m' d' : length_matches s -> malloc REPLY_SIZE m = (Some block, m') -> monitor_lock d = (false, d') ->
    executed s m d (failed (error_json "The device is busy. Please retry.") (with_owned (Some zero_reply) s)) m' d' 503
| ExecuteDone block m1 d1 a d2 : length_matches s -> malloc REPLY_SIZE m = (Some block, m1) -> monitor_lock d = (true, d1) ->
    monitor_api_dispatch (api_request_of s) d1 = Some (a, d2) -> zlen (a_body a) = MONITOR_REPLY_MAX -> 0 <= a_length a <= MONITOR_REPLY_MAX ->
    executed s m d (served a s) (match rs_input s with Some _ => free (replicate 2048 0) m1 | None => m1 end)
      (monitor_unlock (monitor_api_schedule_effects (a_effects a) d2)) (a_status a).

Lemma body_denotes s : input_ok s -> rs_complete s = false -> denotes (Bytes (rs_input s) (rs_input_used s)) (body_of s) /\ zlen (body_of s) = rs_input_used s.
Proof. clear Hi slots i.
  unfold input_ok, body_of, denotes; cbn [len ptr]; intros [Hu Hin] Hc; destruct (rs_input s) as [b|].
  - destruct Hin as [Hz Hb]; assert (zlen (take (Z.to_nat (rs_input_used s)) b) = rs_input_used s) as Ht by (unfold zlen in *; rewrite length_take; lia).
    rewrite Ht; split; [|done]; split; [done|]; split; [done|]; exists (drop (Z.to_nat (rs_input_used s)) b); by rewrite take_drop.
  - rewrite (Hin Hc), zlen_nil; done.
Qed.

(** The answer of the API goes out; the credential is erased. *)
Lemma runs_answered {Q : cf_result -> visit -> Prop} a auth s m d h : zlen (h_serialized h) = CF_HEADER_WIRE_MAX -> rs_h s = true -> zlen auth = 80 ->
  0 <= a_length a <= MONITOR_REPLY_MAX ->
  (forall rc h', answered (rs_id s) (a_status a) (lit "application/json") (a_length a) h rc h' ->
     Q rc (here i slots (with_complete (with_data (Some OwnedBody) (a_length a) (with_request (set_authorization (replicate 80 0) (rs_request s)) s))) m d h')) ->
  runs (secret ← checked (cf_secure_zero auth 80);
        change_record i (λ s, with_data (Some OwnedBody) (a_length a) (with_request (set_authorization secret (rs_request s)) s));;
        respond_with i (a_status a) (cstring "application/json")) (here i slots s m d h) Q.
Proof.
  intros Hser Hh Wa Hal HQ; destruct (erase_spec auth 80) as (x & E & _ & _ & Hx); [lia|]; apply runs_bind; eapply runs_checked; [exact E|].
  subst x; rewrite drop_ge, app_nil_r by (unfold zlen in Wa; lia); apply runs_bind, runs_change.
  apply (runs_respond (a_status a) (cstring "application/json") (lit "application/json")); try done;
    [apply cstr_cstring; no_nul|apply lit_bytes|unfold MONITOR_REPLY_MAX, INT32_MAX in *; cbn; lia].
Qed.

Lemma runs_execute {Q : cf_result -> visit -> Prop} s m d h : zlen (h_serialized h) = CF_HEADER_WIRE_MAX -> live s -> rs_complete s = false -> device_ok d ->
  (forall rc s' m' d' st h', executed s m d s' m' d' st -> answered (rs_id s) st (lit "application/json") (rs_length s') h rc h' -> device_ok d' ->
     Q rc (here i slots s' m' d' h')) ->
  runs (execute i) (here i slots s m d h) Q.
Proof.
  intros Hser [Lid Lh Ld Ls Lo Li Lw] Hc Hdev HQ; destruct (Lw Hc) as (Wd & Wl & [Wp Wp'] & [Wa Wa']); unfold execute; apply runs_bind, runs_record.
  destruct (rh_has_length (rs_request s) && negb (rh_content_length (rs_request s) =? rs_input_used s)) eqn:El.
  { apply runs_fail; [done|done|by vm_compute|]; intros rc h' Ha; eapply HQ; [apply ExecuteMismatch|exact Ha|done].
    intros Hm; unfold length_matches in Hm; apply andb_true_iff in El as [El1 El2]; rewrite (Hm El1), Z.eqb_refl in El2; done. }
  assert (length_matches s) as Hmatch.
  { intros Hl; rewrite Hl in El; cbn [andb] in El; by apply negb_false_iff, Z.eqb_eq in El. }
  unfold allocate_block; apply runs_bind; destruct (malloc REPLY_SIZE m) as [[block|] m1] eqn:Em; (eapply runs_memory; [unfold calling; by rewrite Em|]); apply runs_bind, runs_change; cbn [mbind option_bind].
  2: { rewrite bool_decide_eq_true_2 by done; apply runs_fail; [done|done|by vm_compute|]; intros rc h' Ha; eapply HQ; [by eapply ExecuteMemory|exact Ha|done]. }
  rewrite bool_decide_eq_false_2 by done; pose proof (lock_law d Hdev) as Hd1; destruct (monitor_lock d) as [locked d1] eqn:El1; cbn [snd] in Hd1.
  apply runs_bind; eapply runs_device; [by rewrite El1|]; destruct locked; cbn [negb].
  2: { apply runs_fail; [done|done|by vm_compute|]; intros rc h' Ha; eapply HQ; [by eapply ExecuteBusy|exact Ha|done]. }
  destruct (body_denotes s Li Hc) as [Hb Hbz].
  destruct (dispatch_law (api_request_of s) (body_of s) d1 Hd1) as (a & d2 & Ed & Hd2 & Haz & Hal); [done|done|done|rewrite Hbz; apply Li|].
  apply runs_bind; unfold dispatch_locked; eapply runs_device; [rewrite Ed; cbn [mbind option_bind]; reflexivity|].
  apply runs_bind, runs_change, runs_bind.
  set (s2 := with_owned (Some a) (with_owned _ s)); set (d3 := monitor_unlock _).
  assert (device_ok d3) as Hd3 by (by apply unlock_law, schedule_law).
  assert (forall b, rs_input s = Some b -> zlen b = MONITOR_BODY_MAX) as Hin by (intros b Eb; destruct Li as [_ Li]; rewrite Eb in Li; apply Li).
  assert (forall m2, m2 = match rs_input s with Some _ => free (replicate 2048 0) m1 | None => m1 end -> forall rc h',
    answered (rs_id s) (a_status a) (lit "application/json") (a_length a) h rc h' -> Q rc (here i slots (served a s) m2 d3 h')) as Hend.
  { intros m2 -> rc h' Ha; exact (HQ rc (served a s) _ d3 (a_status a) h' (ExecuteDone s m d block m1 d1 a d2 Hmatch Em El1 Ed Haz Hal) Ha Hd3). }
  destruct (rs_input s) as [b|] eqn:Ein.
  - apply runs_bind, runs_free; [done|by apply Hin|]; apply runs_change, runs_answered; [done..|]; by apply Hend.
  - apply runs_ret, runs_answered; [done..|]; specialize (Hend m1 eq_refl); unfold served in Hend.
    assert (with_input None (rs_input_used s) (with_owned (Some a) s) = s2) as Es2 by (unfold s2, with_owned, with_input; cbn [rs_id rs_data rs_length rs_sent rs_owned rs_input rs_input_used rs_request rs_h rs_head rs_api rs_complete]; by rewrite Ein).
    rewrite Es2 in Hend; exact Hend.
Qed.

(** ** Data *)

(** The record with the bytes [l] after those it has. *)
Definition grown (l : list Z) (s s' : response) : Prop :=
  l = [] /\ s' = s \/
  exists b b', rs_input s = Some b /\ rs_input_used s + zlen l <= MONITOR_BODY_MAX /\ blit b (rs_input_used s) l = Some b' /\
    s' = with_input (Some b') (rs_input_used s + zlen l) s.

Definition overflows (l : list Z) (s : response) : Prop := l <> [] /\ (rs_input s = None \/ MONITOR_BODY_MAX < rs_input_used s + zlen l).

Lemma grown_body l s s' : grown l s s' -> input_ok s -> rs_complete s = false -> bytes_ok l ->
  body_of s' = body_of s ++ l /\ input_ok s' /\ rs_input_used s' = rs_input_used s + zlen l.
Proof. clear Hi slots i.
  intros [[-> ->]|(b & b' & Eb & Hu & Hblit & ->)] [Hused Hin] Hc Hl; [rewrite app_nil_r, zlen_nil; split; [done|]; split; [done|lia]|].
  rewrite Eb in Hin; destruct Hin as [Hz Hb]; unfold body_of, input_ok; rewrite Eb; cbn [with_input rs_input rs_input_used rs_complete].
  assert (take (Z.to_nat (rs_input_used s + zlen l)) b' = take (Z.to_nat (rs_input_used s)) b ++ l) as Htake.
  { pose proof (zlen_nonneg l); unfold blit in Hblit; destruct ((0 <=? rs_input_used s) && (rs_input_used s + zlen l <=? zlen b)); [|done]; injection Hblit as <-.
    rewrite app_assoc; apply take_app_length'; rewrite length_app, length_take; unfold zlen in *; lia. }
  rewrite Htake; split; [done|]; pose proof (zlen_nonneg l); split; [|lia]; split; [lia|]; split; [by rewrite (zlen_blit _ _ _ _ Hblit)|].
  apply Forall_app; by split.
Qed.

Lemma grown_live l s s' : grown l s s' -> live s -> rs_complete s = false -> bytes_ok l -> live s'.
Proof. clear Hi slots i.
  intros Hg Hlive Hc Hl; destruct (grown_body l s s' Hg (li_input s Hlive) Hc Hl) as (_ & Hi' & _).
  destruct Hg as [[-> ->]|(b & b' & Eb & Hu & Hblit & ->)]; [done|]; by destruct Hlive; constructor.
Qed.

(** What data does. *)
Inductive fed (s : response) (l : list Z) (end_ : bool) (m : memory) (d : device) : response -> memory -> device -> option Z -> Prop :=
| FeedDone : rs_complete s = true -> fed s l end_ m d s m d None
| FeedOverflow : rs_complete s = false -> overflows l s ->
    fed s l end_ m d (failed (error_json "Send a JSON object of at most 2048 bytes.") s) m d (Some 400)
| FeedMore s' : rs_complete s = false -> grown l s s' -> end_ = false -> fed s l end_ m d s' m d None
| FeedEnd s' s'' m' d' st : rs_complete s = false -> grown l s s' -> end_ = true -> executed s' m d s'' m' d' st -> fed s l end_ m d s'' m' d' (Some st).

Definition data_result (s : response) (l : list Z) (end_ : bool) (m : memory) (d : device) (h : cf_h2) (rc : cf_result) (v : visit) : Prop :=
  exists s' m' d' due h', v = here i slots s' m' d' h' /\ device_ok d' /\ fed s l end_ m d s' m' d' due /\
    replied s' h ((λ st, (st, lit "application/json")) <$> due) rc h'.

Lemma data_fed id b l end_ s m d h : zlen (h_serialized h) = CF_HEADER_WIRE_MAX -> find_response id (<[i := s]> slots) = Some i -> live s -> device_ok d ->
  denotes b l -> zlen l <= CF_H2_CHUNK ->
  runs (monitor_data id b end_) (here i slots s m d h) (data_result s l end_ m d h).
Proof.
  intros Hser Hfind Hlive Hdev Hb Hl; unfold monitor_data; apply runs_bind, runs_asks; cbn [v_site w_slots here]; rewrite Hfind.
  apply runs_bind, runs_record; destruct (rs_complete s) eqn:Hc.
  { apply runs_ret; exists s, m, d, None, h; split; [done|]; split; [done|]; split; [by constructor|done]. }
  apply runs_bind; rewrite (denotes_len _ _ Hb).
  assert (forall s1, grown l s s1 -> runs (if negb end_ then mret CF_OK else execute i) (here i slots s1 m d h)
    (data_result s l end_ m d h)) as Hnext.
  { intros s1 Hg; pose proof (grown_live l s s1 Hg Hlive Hc (denotes_bytes _ _ Hb)) as Hlive1.
    assert (rs_complete s1 = false) as Hc1 by (by destruct Hg as [[_ ->]|(? & ? & _ & _ & _ & ->)]).
    destruct end_; cbn [negb].
    - apply runs_execute; [done..|]; intros rc s' m' d' st h' He Ha Hd'; exists s', m', d', (Some st), h'; split; [done|]; split; [done|].
      split; [by eapply FeedEnd|]; split; [|apply lit_bytes].
      replace (rs_id s') with (rs_id s1) by (by destruct He); done.
    - apply runs_ret; exists s1, m, d, None, h; split; [done|]; split; [done|]; split; [by eapply FeedMore|done]. }
  assert (overflows l s -> runs (fail_response i 400 (error_json "Send a JSON object of at most 2048 bytes.")) (here i slots s m d h)
    (data_result s l end_ m d h)) as Hfail.
  { intros Ho; apply runs_fail; [done|apply Hlive|by vm_compute|]; intros rc h' Ha; do 3 eexists; exists (Some 400), h'.
    split; [done|]; split; [done|]; split; [by apply FeedOverflow|]; split; [exact Ha|apply lit_bytes]. }
  destruct (Z.eqb_spec (zlen l) 0) as [E|E].
  { apply runs_ret; cbn [negb]; apply Hnext; left; split; [|done]; destruct l; [done|rewrite zlen_cons in E; pose proof (zlen_nonneg l); lia]. }
  assert (l <> []) as Hne by (by intros ->); destruct (li_input s Hlive) as [Hu Hin]; unfold overflows in Hfail.
  destruct (rs_input s) as [input|] eqn:Ein; [|apply runs_ret; cbn [negb]; apply Hfail; auto].
  rewrite wrap_small by (change (2 ^ 32) with 4294967296; unfold MONITOR_BODY_MAX in *; lia).
  destruct (Z.ltb_spec (MONITOR_BODY_MAX - rs_input_used s) (zlen l)) as [Hlt|Hge]; [apply runs_ret; cbn [negb]; apply Hfail; split; [done|right; lia]|].
  pose proof Hb as (_ & _ & Hp); destruct (ptr b) as [mem|]; [destruct Hp as [rest ->]|done].
  apply runs_bind; eapply runs_checked; [reflexivity|]; pose proof (zlen_nonneg l); pose proof (zlen_nonneg rest).
  apply runs_bind; eapply runs_checked; [by rewrite slice_sub, sub_head by (rewrite ?zlen_app; lia)|].
  destruct Hin as [Hz _]; destruct (blit_Some input (rs_input_used s) l) as [input' Ebl]; [lia|lia|].
  apply runs_bind; eapply runs_checked; [exact Ebl|]; apply runs_bind, runs_change, runs_ret; cbn [negb].
  rewrite wrap_small by (change (2 ^ 32) with 4294967296; unfold MONITOR_BODY_MAX in *; lia); apply Hnext; right; exists input, input'; split_and!; try done; lia.
Qed.

(** ** Reading and closing *)

(** The bytes of the answer. *)
Definition answer_of (s : response) : list Z := take (Z.to_nat (rs_length s)) (default [] (source_bytes s)).

(** How many bytes a read gives. *)
Definition portion (s : response) (cap : Z) : Z := if rs_head s then 0 else Z.min cap (rs_length s - rs_sent s).

Lemma source_length s : data_ok s -> owned_ok s -> 0 <= rs_length s -> zlen (answer_of s) = rs_length s /\
  (0 < rs_length s -> exists l, source_bytes s = Some l /\ rs_length s <= zlen l).
Proof. clear Hi slots i.
  unfold data_ok, owned_ok, answer_of, source_bytes; intros Hd Ho Hl; destruct (rs_data s) as [[l|]|].
  - rewrite Hd in *; cbn [default from_option id]; split; [unfold zlen; rewrite length_take; lia|]; intros _; exists l; split; [done|lia].
  - destruct Hd as (a & Ea & El); rewrite Ea in *; destruct Ho as [Hz Ha]; cbn [mbind option_bind default from_option id]; rewrite El in *.
    split; [unfold zlen in *; rewrite length_take; lia|]; intros _; exists (a_body a); split; [done|lia].
  - rewrite Hd; split; [by cbn|lia].
Qed.

Lemma read_copy s cap out m d h : live s -> 0 <= cap <= zlen out ->
  runs (if portion s cap =? 0 then mret out else
        m ← checked (source_bytes s); text ← checked (slice m (rs_sent s) (portion s cap)); checked (blit out 0 text))
    (here i slots s m d h) (λ x v, x = sub (answer_of s) (rs_sent s) (portion s cap) ++ drop (Z.to_nat (portion s cap)) out /\ v = here i slots s m d h).
Proof.
  intros [Lid Lh Ld [Ls Ll] Lo _ _] Hcap; destruct (source_length s Ld Lo) as [Hz Hsrc]; [lia|].
  assert (0 <= portion s cap <= cap /\ rs_sent s + portion s cap <= rs_length s) as [Hp1 Hp2] by (unfold portion; destruct (rs_head s); lia).
  destruct (Z.eqb_spec (portion s cap) 0) as [E|E]; [apply runs_ret; rewrite E; split; [|done]; unfold sub; by rewrite take_0, drop_0|].
  destruct Hsrc as (l & El & Hl); [lia|]; unfold answer_of in *; rewrite El in *; cbn [default from_option id] in *.
  apply runs_bind; eapply runs_checked; [reflexivity|]; apply runs_bind; eapply runs_checked; [apply slice_sub; lia|].
  assert (sub (take (Z.to_nat (rs_length s)) l) (rs_sent s) (portion s cap) = sub l (rs_sent s) (portion s cap)) as ->.
  { rewrite <- (take_drop (Z.to_nat (rs_length s)) l) at 2; by rewrite sub_app_l by lia. }
  assert (zlen (sub l (rs_sent s) (portion s cap)) = portion s cap) as Hsub by (apply zlen_sub; lia).
  eapply runs_checked; [apply blit_0_intro; lia|]; split; [|done]; do 2 f_equal; unfold zlen in Hsub; lia.
Qed.

Lemma read_exact stream out cap s m d h : find_response stream (<[i := s]> slots) = Some i -> live s -> 0 <= cap <= zlen out ->
  monitor_read stream out cap (here i slots s m d h) =
    Some ((CF_OK, sub (answer_of s) (rs_sent s) (portion s cap) ++ drop (Z.to_nat (portion s cap)) out, portion s cap,
           rs_head s || (rs_sent s + portion s cap =? rs_length s)), here i slots (with_sent (rs_sent s + portion s cap) s) m d h).
Proof.
  intros Hfind Hlive Hcap; pose proof Hlive as [_ _ _ [Ls Ll] _ _ _]; unfold INT32_MAX in *.
  assert (0 <= portion s cap <= cap /\ rs_sent s + portion s cap <= rs_length s) as [Hp1 Hp2] by (unfold portion; destruct (rs_head s); lia).
  assert ((if cap <? (if rs_head s then 0 else usize (rs_length s - rs_sent s)) then cap else (if rs_head s then 0 else usize (rs_length s - rs_sent s))) = portion s cap) as Hn.
  { unfold portion; destruct (rs_head s); [case_if; bool_to_prop; lia|]; rewrite wrap_small by (change (2 ^ 32) with 4294967296; lia); case_if; bool_to_prop; lia. }
  enough (runs (monitor_read stream out cap) (here i slots s m d h) (λ x v, x = (CF_OK, sub (answer_of s) (rs_sent s) (portion s cap) ++ drop (Z.to_nat (portion s cap)) out, portion s cap,
           rs_head s || (rs_sent s + portion s cap =? rs_length s)) /\ v = here i slots (with_sent (rs_sent s + portion s cap) s) m d h)) as (x & v & E & -> & ->) by done.
  unfold monitor_read; apply runs_bind, runs_asks; cbn [v_site w_slots here]; rewrite Hfind; apply runs_bind, runs_record; cbv zeta; rewrite Hn.
  apply runs_bind; eapply runs_mono; [by apply read_copy|]; intros x v [-> ->]; rewrite wrap_small by (change (2 ^ 32) with 4294967296; lia).
  by apply runs_bind, runs_change, runs_ret.
Qed.

Definition freed_owned (s : response) (m : memory) : memory := match rs_owned s with Some _ => free (replicate (Z.to_nat REPLY_SIZE) 0) m | None => m end.
Definition freed_input (s : response) (m : memory) : memory := match rs_input s with Some _ => free (replicate (Z.to_nat MONITOR_BODY_MAX) 0) m | None => m end.

Lemma closed_exact stream s m d h : find_response stream (<[i := s]> slots) = Some i -> live s ->
  monitor_closed stream (here i slots s m d h) = Some (tt, here i slots free_response (freed_input s (freed_owned s m)) d h).
Proof.
  intros Hfind [_ _ _ _ Lo [_ Lin] _].
  enough (runs (monitor_closed stream) (here i slots s m d h) (λ _ v, v = here i slots free_response (freed_input s (freed_owned s m)) d h)) as ([] & v & E & ->) by done.
  unfold monitor_closed; apply runs_bind, runs_asks; cbn [v_site w_slots here]; rewrite Hfind; apply runs_bind, runs_record.
  unfold owned_ok in Lo; apply runs_bind; unfold freed_owned, freed_input.
  assert (forall m', runs ((match rs_input s with Some b => wipe_and_free b MONITOR_BODY_MAX | None => mret tt end);; change_record i (λ _, free_response))
    (here i slots s m' d h) (λ _ v, v = here i slots free_response (match rs_input s with Some _ => free (replicate (Z.to_nat MONITOR_BODY_MAX) 0) m' | None => m' end) d h)) as Hrest.
  { intros m'; apply runs_bind; destruct (rs_input s) as [b|]; [apply runs_free; [done|apply Lin|]|apply runs_ret]; by apply runs_change. }
  destruct (rs_owned s) as [a|]; [|apply runs_ret, Hrest]; apply runs_free; [done| |apply Hrest].
  unfold reply_block, REPLY_SIZE; rewrite !zlen_app, !zlen_le_bytes, (proj1 Lo); lia.
Qed.

End Record.

(** ** The records stay in order *)

Lemma find_response_spec stream slots j : find_response stream slots = Some j -> exists s, slots !! j = Some s /\ rs_id s = stream.
Proof.
  unfold find_response; destruct (list_find _ slots) as [[k s]|] eqn:E; [|done]; intros [= ->]; exists s; by apply list_find_Some in E as (? & ? & _).
Qed.

Lemma found_live stream slots j s : slots_ok slots -> stream <> 0 -> slots !! j = Some s -> rs_id s = stream -> live s.
Proof.
  intros [_ Hall] Hne Hj Hid; rewrite Forall_forall in Hall; destruct (Hall s) as [->|Hs]; [by eapply list_elem_of_lookup_2| |done].
  by cbn in Hid.
Qed.

Lemma found_free slots j : slots_ok slots -> find_response 0 slots = Some j -> slots !! j = Some free_response.
Proof.
  intros [_ Hall] Hf; destruct (find_response_spec 0 slots j Hf) as (s & Hj & Hid); rewrite Forall_forall in Hall.
  destruct (Hall s) as [->|Hs]; [by eapply list_elem_of_lookup_2|done|]; by destruct Hs.
Qed.

Lemma slots_insert slots j s : slots_ok slots -> record_ok s -> slots_ok (<[j := s]> slots).
Proof. intros [Hl Hall] Hs; split; [by rewrite length_insert|]; by apply Forall_insert. Qed.

Lemma describes_ok hs fs q : describes hs fs q -> head_ok q.
Proof.
  intros [[Hp Hpz] [Ha Haz] _ _ _ _ _]; split; (split; [done|]).
  - destruct Hp as (rest & -> & _); apply elem_of_app; right; left.
  - destruct Ha as (rest & -> & _); apply elem_of_app; right; left.
Qed.

(** A record that failed with nothing sent. *)
Lemma live_failed json s : rs_id s <> 0 -> rs_h s = true -> rs_sent s = 0 -> owned_ok s -> input_ok s -> zlen json <= INT32_MAX -> live (failed json s).
Proof.
  intros Hid Hh Hs Ho [Hu Hi] Hz; pose proof (zlen_nonneg json); constructor; cbn; try done; [lia|].
  split; [done|]; cbn; destruct (rs_input s); done.
Qed.

Lemma routed_live hs stream m s m' due : stream <> 0 -> routed hs stream m s m' due -> live s.
Proof.
  intros Hne Hr; destruct Hr as [q m' st Hret Hno Hst|fs q m' Hret Ht Hd Hp Hq|fs q m1 block m' Hret Ht Hd Hp Hq Hm|fs q m1 m' Hret Ht Hd Hp Hq Hm
    |fs q m' Hret Ht Hd Hp Hq|fs q m' a t Hret Ht Hd Hp Hq Hin Hu Hty Htb|fs q m' Hret Ht Hd Hp Hq Hall].
  1, 4, 5, 7: apply live_failed; by vm_compute.
  - pose proof (describes_ok _ _ _ Hd); by constructor.
  - pose proof (describes_ok _ _ _ Hd); constructor; cbn; try done.
    split; [by vm_compute|]; cbn; split; [by eapply malloc_law|constructor].
  - pose proof assets_law as Hassets; rewrite Forall_forall in Hassets; destruct (Hassets a Hin) as (_ & _ & Hz); pose proof (zlen_nonneg (data_bytes a)).
    by constructor; cbn.
Qed.

Lemma executed_live s m d s' m' d' st : live s -> rs_complete s = false -> executed s m d s' m' d' st -> live s'.
Proof.
  intros Hlive Hc He; destruct Hlive as [Lid Lh Ld Ls Lo Li Lw]; destruct (Lw Hc) as (Wd & Wl & _); assert (rs_sent s = 0) as Hs by lia.
  destruct He as [|m' Hl Hm|block m' d' Hl Hm Hk|block m1 d1 a d2 Hl Hm Hk Ha Haz Hal].
  - by apply live_failed; try (by vm_compute).
  - by apply live_failed; try (by vm_compute).
  - by apply live_failed; try (by vm_compute).
  - destruct Li as [Hu _]; constructor; cbn; try done; [by exists a|unfold MONITOR_REPLY_MAX, INT32_MAX in *; lia].
Qed.

Lemma fed_live s l e m d s' m' d' due : live s -> bytes_ok l -> fed s l e m d s' m' d' due -> live s'.
Proof.
  intros Hlive Hl Hf; destruct Hf as [|Hc Ho|s' Hc Hg _|s' s'' m' d' st Hc Hg _ He]; [done| | |].
  - pose proof Hlive as [Lid Lh Ld Ls Lo Li Lw]; destruct (Lw Hc) as (Wd & Wl & _); apply live_failed; done || lia.
  - by eapply grown_live.
  - eapply executed_live; [by eapply grown_live| |exact He]; by destruct Hg as [[_ ->]|(? & ? & _ & _ & _ & ->)].
Qed.

Lemma live_sent s n : live s -> 0 <= n -> rs_sent s + n <= rs_length s -> live (with_sent (rs_sent s + n) s).
Proof. intros [Lid Lh Ld Ls Lo Li Lw] Hn Hl; constructor; cbn; try done; lia. Qed.

End Serve.
