(* ===== verification/MonitorApplication.v ===== *)
(** The system monitor as the application of the tunnel: its callbacks keep to
    what the tunnel asks of an application; a posted request is executed exactly
    once with the body that came; an answer is read back whole. *)
From stdpp Require Import gmap.
From S2P Require Export MonitorServe.
#[local] Open Scope Z_scope.

(** The clock and the JSON heap of the device. *)
Class MonitorSystem `{Monitor} := {
  device_time : device -> Z * device;
  device_heap : device -> json_heap;
  put_device_heap : json_heap -> device -> device
}.

Class MonitorSystemLaws (header : Z) `{MonitorSystem} `{!MonitorLaws} := {
  device_time_law d : device_ok d -> device_ok (snd (device_time d));
  device_heap_law d : device_ok d -> heap_ok header (device_heap d);
  put_device_heap_law h d : device_ok d -> heap_ok header h -> device_ok (put_device_heap h d)
}.

Section Application.
Context `{Nghttp2} `{MemoryLaws} `{MonitorLaws}.

(** ** Every callback returns *)

Definition kept (h : cf_h2) {A} (x : A) (v : visit) : Prop := site_ok (v_site v) /\ rtc client_op h (v_h2 v).

Lemma here_ok i slots s m d h : slots_ok slots -> live s -> device_ok d -> site_ok (v_site (here i slots s m d h)).
Proof. intros Hs Hl Hd; split; [|done]; apply slots_insert; [done|by right]. Qed.

Lemma at_record w h stream i : site_ok w -> stream <> 0 -> find_response stream (w_slots w) = Some i ->
  exists s, (i < length (w_slots w))%nat /\ live s /\ Visit w h = here i (w_slots w) s (w_memory w) (w_device w) h /\
    find_response stream (<[i := s]> (w_slots w)) = Some i.
Proof.
  intros [Hs Hd] Hne Hf; destruct (find_response_spec _ _ _ Hf) as (s & Hi & Hid); exists s; split; [by eapply lookup_lt_Some|].
  split; [by eapply found_live|]; unfold here; rewrite list_insert_id by done; split; [by destruct w|done].
Qed.

Lemma replied_ops s h due rc h' : live s -> replied s h due rc h' -> rtc client_op h h'.
Proof.
  intros [_ _ _ [Hs Hl] _ _ _] Hr; destruct due as [[st type]|]; [destruct Hr as [Ha Ht]|by destruct Hr as [_ ->]].
  apply rtc_once; eapply answered_op; [exact Ht| |exact Ha]; lia.
Qed.

Lemma keep_request w h r hs : site_ok w -> h2_inv h -> r_stream r <> 0 -> Forall2 entry_denotes (r_headers r) hs ->
  runs (monitor_request r) (Visit w h) (λ rc v, kept h rc v).
Proof.
  intros Hw Hh Hr Hes; pose proof Hw as [Hs Hd]; destruct w as [slots m d]; cbn [w_slots w_memory w_device] in *.
  destruct (find_response 0 slots) as [i|] eqn:Ef.
  - pose proof (found_free _ _ Hs Ef) as Hfree; eapply runs_mono; [apply (request_routed i slots (lookup_lt_Some _ _ _ Hfree) r hs); [apply Hh|done..]|].
    intros rc v (s' & m' & due & h' & -> & Hroute & Ha); pose proof (routed_live _ _ _ _ _ _ Hr Hroute); split; [by apply here_ok|by eapply replied_ops].
  - unfold monitor_request; apply runs_bind, runs_asks; cbn [v_site w_slots]; rewrite Ef; by apply runs_ret.
Qed.

Lemma keep_data w h stream b l e : site_ok w -> h2_inv h -> stream <> 0 -> denotes b l -> zlen l <= CF_H2_CHUNK ->
  runs (monitor_data stream b e) (Visit w h) (λ rc v, kept h rc v).
Proof.
  intros Hw Hh Hne Hb Hl; destruct (find_response stream (w_slots w)) as [i|] eqn:Ef.
  - destruct (at_record w h stream i Hw Hne Ef) as (s & Hi & Hlive & -> & Hf); eapply runs_mono; [apply (data_fed i _ Hi stream b l); try done; [apply Hh|apply Hw]|].
    intros rc v (s' & m' & d' & due & h' & -> & Hd' & Hfed & Ha); pose proof (fed_live _ _ _ _ _ _ _ _ _ Hlive (denotes_bytes _ _ Hb) Hfed).
    split; [apply here_ok; [apply Hw|done..]|by eapply replied_ops].
  - unfold monitor_data; apply runs_bind, runs_asks; cbn [v_site]; rewrite Ef; by apply runs_ret.
Qed.

Lemma keep_read w h stream out cap : site_ok w -> stream <> 0 -> 0 <= cap <= zlen out ->
  runs (monitor_read stream out cap) (Visit w h) (λ x v, kept h x v /\ zlen x.1.1.2 = zlen out).
Proof.
  intros Hw Hne Hcap; destruct (find_response stream (w_slots w)) as [i|] eqn:Ef.
  - destruct (at_record w h stream i Hw Hne Ef) as (s & Hi & Hlive & -> & Hf).
    pose proof (read_exact i _ Hi stream out cap s (w_memory w) (w_device w) h Hf Hlive Hcap) as E; do 2 eexists; split; [exact E|].
    destruct Hlive as [Lid Lh Ld [Ls Ll] Lo Li Lw] eqn:El; clear El.
    assert (0 <= portion s cap <= cap /\ rs_sent s + portion s cap <= rs_length s) as [Hp1 Hp2] by (unfold portion; destruct (rs_head s); lia).
    split; [split; [apply here_ok; [apply Hw| |apply Hw]|done]|].
    + apply live_sent; [done|lia|lia].
    + destruct (source_length s Ld Lo) as [Hz _]; [lia|]; cbn [fst snd]; rewrite zlen_app, zlen_sub by lia; unfold zlen in *; rewrite length_drop; lia.
  - unfold monitor_read; apply runs_bind, runs_asks; cbn [v_site]; rewrite Ef; by apply runs_ret.
Qed.

Lemma keep_closed w h stream : site_ok w -> stream <> 0 -> runs (monitor_closed stream) (Visit w h) (λ x v, kept h x v).
Proof.
  intros Hw Hne; destruct (find_response stream (w_slots w)) as [i|] eqn:Ef.
  - destruct (at_record w h stream i Hw Hne Ef) as (s & Hi & Hlive & -> & Hf); do 2 eexists; split; [by apply closed_exact|].
    split; [|done]; split; [apply slots_insert; [apply Hw|by left]|apply Hw].
  - unfold monitor_closed; apply runs_bind, runs_asks; cbn [v_site]; rewrite Ef; by apply runs_ret.
Qed.

(** ** The application *)

Section Instance_.
Context `{!MonitorSystem}.

(** A step of the device. *)
Definition over_device (f : device -> device) (w : site) : site := Site (w_slots w) (w_memory w) (f (w_device w)).

#[export] Instance monitor_application : Application := {|
  world := site;
  esp_timer_get_time w := let '(t, d) := device_time (w_device w) in (t, over_device (λ _, d) w);
  automatic _ n := uninitialized n;
  heap_now w := device_heap (w_device w);
  put_heap heap w := over_device (put_device_heap heap) w;
  app_service := cstring "http://localhost:80";
  json_try_lock w := let '(got, d) := monitor_lock (w_device w) in (got, over_device (λ _, d) w);
  json_unlock w := over_device monitor_unlock w;
  app_request w h r := '(rc, v) ← monitor_request r (Visit w h); Some (rc, v_site v, v_h2 v);
  app_data w h stream b e := '(rc, v) ← monitor_data stream b e (Visit w h); Some (rc, v_site v, v_h2 v);
  app_read w h stream out cap := '(rc, out, n, eof, v) ← monitor_read stream out cap (Visit w h); Some (rc, out, n, eof, v_site v, v_h2 v);
  app_closed w h stream _ := '(_, v) ← monitor_closed stream (Visit w h); Some (v_site v, v_h2 v)
|}.

#[export, program] Instance monitor_application_laws header `{!MonitorSystemLaws header} : ApplicationLaws header := { world_ok := site_ok }.
Next Obligation.
  intros header L w [Hs Hd]; cbn; pose proof (device_time_law _ Hd) as Ht; destruct (device_time (w_device w)); by split.
Qed.
Next Obligation. intros header L w n Hn; by apply uninitialized_law. Qed.
Next Obligation. intros header L w [Hs Hd]; by apply device_heap_law. Qed.
Next Obligation. intros header L heap w [Hs Hd] Hh; split; [done|]; by apply (put_device_heap_law (header := header)). Qed.
Next Obligation. intros header L; exists (lit "http://localhost:80"); apply cstr_cstring; no_nul. Qed.
Next Obligation.
  intros header L w [Hs Hd]; cbn; pose proof (lock_law _ Hd) as Hl; destruct (monitor_lock (w_device w)); by split.
Qed.
Next Obligation. intros header L w [Hs Hd]; split; [done|]; by apply unlock_law. Qed.
Next Obligation.
  intros header L w h r hs Hw Hh Hr Hes; destruct (keep_request w h r hs Hw Hh Hr Hes) as (rc & v & E & Hk & Ho).
  cbn; rewrite E; do 3 eexists; split; [reflexivity|by split].
Qed.
Next Obligation.
  intros header L w h stream b l e Hw Hh Hne Hb Hl; destruct (keep_data w h stream b l e Hw Hh Hne Hb Hl) as (rc & v & E & Hk & Ho).
  cbn; rewrite E; do 3 eexists; split; [reflexivity|by split].
Qed.
Next Obligation.
  intros header L w h stream out cap Hw Hh Hne Hcap; destruct (keep_read w h stream out cap Hw Hne Hcap) as ([[[rc out'] n] eof] & v & E & [Hk Ho] & Hz).
  cbn; rewrite E; do 6 eexists; split; [reflexivity|by split_and!].
Qed.
Next Obligation.
  intros header L w h stream e Hw Hh Hne; destruct (keep_closed w h stream Hw Hne) as ([] & v & E & Hk & Ho).
  cbn; rewrite E; do 2 eexists; split; [reflexivity|by split].
Qed.

End Instance_.

(** ** Sequences of calls *)

Inductive monitor_call :=
| CallRequest (r : cf_h2_request)
| CallData (stream : Z) (data : cf_bytes) (end_ : bool)
| CallRead (stream : Z) (out : list Z) (cap : Z)
| CallClosed (stream : Z).

(** What the session passes. *)
Definition call_typed (c : monitor_call) : Prop :=
  match c with
  | CallRequest r => r_stream r <> 0 /\ exists hs, Forall2 entry_denotes (r_headers r) hs
  | CallData stream b _ => stream <> 0 /\ exists l, denotes b l /\ zlen l <= CF_H2_CHUNK
  | CallRead stream out cap => stream <> 0 /\ 0 <= cap <= zlen out
  | CallClosed stream => stream <> 0
  end.

Definition perform (c : monitor_call) : SM visit () :=
  match c with
  | CallRequest r => monitor_request r;; mret tt
  | CallData stream b e => monitor_data stream b e;; mret tt
  | CallRead stream out cap => monitor_read stream out cap;; mret tt
  | CallClosed stream => monitor_closed stream
  end.

(** Calls one after another; before each, the session is in the given state. *)
Fixpoint performs (calls : list (monitor_call * cf_h2)) : SM visit () :=
  match calls with
  | [] => mret tt
  | (c, h) :: calls => modify (λ v, Visit (v_site v) h);; perform c;; performs calls
  end.

Lemma perform_kept c w h : call_typed c -> site_ok w -> h2_inv h -> runs (perform c) (Visit w h) (λ _ v, site_ok (v_site v)).
Proof.
  intros Hc Hw Hh; destruct c as [r|stream b e|stream out cap|stream]; cbn [perform call_typed] in *.
  - destruct Hc as (Hr & hs & Hes); apply runs_bind; eapply runs_mono; [by apply (keep_request w h r hs)|]; intros x v [Hk _]; by apply runs_ret.
  - destruct Hc as (Hne & l & Hb & Hl); apply runs_bind; eapply runs_mono; [by apply (keep_data w h stream b l e)|]; intros x v [Hk _]; by apply runs_ret.
  - destruct Hc as [Hne Hcap]; apply runs_bind; eapply runs_mono; [by apply keep_read|]; intros x v [[Hk _] _]; by apply runs_ret.
  - eapply runs_mono; [by apply keep_closed|]; by intros x v [Hk _].
Qed.

Lemma performs_kept calls : Forall (λ c, call_typed c.1 /\ h2_inv c.2) calls -> forall v, site_ok (v_site v) -> runs (performs calls) v (λ _ v', site_ok (v_site v')).
Proof.
  induction 1 as [|[c h] calls [Hc Hh] _ IH]; intros v Hv; cbn [performs fst snd] in *; [by apply runs_ret|].
  apply runs_bind, runs_modify, runs_bind; eapply runs_mono; [by apply perform_kept|]; intros x v' Hv'; by apply IH.
Qed.

(** ** A posted request *)

(** The body comes in pieces, the last one with the end of the stream. *)
Fixpoint deliver (stream : Z) (pieces : list (list Z)) (last : list Z) : SM visit cf_result :=
  match pieces with
  | [] => monitor_data stream (view last) true
  | p :: pieces => monitor_data stream (view p) false;; deliver stream pieces last
  end.

Definition piece_ok (l : list Z) : Prop := bytes_ok l /\ zlen l <= CF_H2_CHUNK.

(** The state after the delivery: executed with the whole body, or refused. *)
Definition delivered (i : nat) (slots : list response) (s : response) (total : list Z) (m : memory) (d : device) (rc : cf_result) (v : visit) : Prop :=
  exists s' m' d' h', v = here i slots s' m' d' h' /\
    (zlen (body_of s ++ total) <= MONITOR_BODY_MAX -> exists full st h1, body_of full = body_of s ++ total /\ rs_request full = rs_request s /\ rs_complete full = false /\
       rs_sent full = rs_sent s /\ input_ok full /\ executed full m d s' m' d' st /\ answered (rs_id s) st (lit "application/json") (rs_length s') h1 rc h') /\
    (MONITOR_BODY_MAX < zlen (body_of s ++ total) -> m' = m /\ d' = d /\ rs_complete s' = true).

(** Data for a record that is complete changes nothing. *)
Lemma deliver_complete i slots (Hi : (i < length slots)%nat) stream pieces last s m d h : find_response stream (<[i := s]> slots) = Some i ->
  rs_complete s = true -> runs (deliver stream pieces last) (here i slots s m d h) (λ rc v, v = here i slots s m d h).
Proof.
  intros Hf Hc; assert (forall b e, runs (monitor_data stream b e) (here i slots s m d h) (λ rc v, v = here i slots s m d h)) as Hone.
  { intros b e; unfold monitor_data; apply runs_bind, runs_asks; cbn [v_site w_slots here]; rewrite Hf; apply runs_bind, runs_record; [done|]; rewrite Hc; by apply runs_ret. }
  induction pieces as [|p pieces IH]; cbn [deliver]; [apply Hone|]; apply runs_bind; eapply runs_mono; [apply Hone|]; intros rc v ->; exact IH.
Qed.

Lemma find_response_ids stream slots : find_response stream slots = fst <$> list_find (λ x, x = stream) (rs_id <$> slots).
Proof. unfold find_response; rewrite list_find_fmap; destruct (list_find (λ s, rs_id s = stream) slots) as [[j s]|] eqn:E; setoid_rewrite E; done. Qed.

Lemma find_same stream i s s' slots : rs_id s' = rs_id s -> find_response stream (<[i := s]> slots) = Some i -> find_response stream (<[i := s']> slots) = Some i.
Proof. intros Hid; by rewrite !find_response_ids, !list_fmap_insert, Hid. Qed.

Lemma grown_same l s s' : grown l s s' -> rs_id s' = rs_id s /\ rs_request s' = rs_request s /\ rs_complete s' = rs_complete s /\ (rs_input s <> None -> rs_input s' <> None) /\ rs_sent s' = rs_sent s.
Proof. intros [[_ ->]|(b & b' & _ & _ & _ & ->)]; done. Qed.

Lemma overflow_total l s : overflows l s -> input_ok s -> rs_complete s = false -> rs_input s <> None -> MONITOR_BODY_MAX < zlen (body_of s) + zlen l.
Proof. intros [_ [Hn|Ho]] Hi Hc Hin; [done|]; destruct (body_denotes s Hi Hc) as [_ ->]; lia. Qed.

Lemma deliver_spec i slots (Hi : (i < length slots)%nat) stream pieces last m d : Forall piece_ok pieces -> piece_ok last -> device_ok d -> forall s h,
  find_response stream (<[i := s]> slots) = Some i -> live s -> rs_complete s = false -> rs_input s <> None -> zlen (h_serialized h) = CF_HEADER_WIRE_MAX ->
  runs (deliver stream pieces last) (here i slots s m d h) (delivered i slots s (concat pieces ++ last) m d).
Proof.
  intros Hps [Hlb Hlz] Hd; induction Hps as [|p pieces [Hpb Hpz] _ IH]; intros s h Hf Hlive Hc Hin Hser; cbn [deliver concat].
  - rewrite app_nil_l; eapply runs_mono; [by apply (data_fed i slots Hi stream (view last) last true s m d h); auto with cf|].
    intros rc v (s' & m' & d' & due & h' & -> & Hd' & Hfed & Ha); exists s', m', d', h'; split; [done|].
    destruct Hfed as [Hc'|_ Ho|s1 _ Hg He|s1 s2 m' d' st _ Hg _ Hex]; [congruence| |done|].
    + pose proof (overflow_total _ _ Ho (li_input s Hlive) Hc Hin); rewrite zlen_app; split; [lia|done].
    + destruct (grown_body last s s1 Hg (li_input s Hlive) Hc Hlb) as (Hb & Hi1 & Hu); destruct (grown_same _ _ _ Hg) as (Hid & Hq & Hc1 & _ & Hs1).
      rewrite Hc in Hc1; destruct Ha as [Ha _]; replace (rs_id s2) with (rs_id s) in Ha by (rewrite <- Hid; by destruct Hex).
      destruct (body_denotes s1 Hi1 Hc1) as [_ Hz]; rewrite Hb in Hz; split; [intros _; by exists s1, st, h|]; intros Hlt; destruct Hi1 as [Hi1 _]; lia.
  - apply runs_bind; eapply runs_mono; [by apply (data_fed i slots Hi stream (view p) p false s m d h); auto with cf|].
    intros rc v (s' & m' & d' & due & h' & -> & Hd' & Hfed & Ha); rewrite <- app_assoc.
    destruct Hfed as [Hc'|_ Ho|s1 _ Hg He|s1 s2 m' d' st _ Hg He Hex]; [congruence| | |done].
    + eapply runs_mono; [apply (deliver_complete i slots Hi); [by apply (find_same _ _ s)|done]|]; intros rc' v ->; do 4 eexists; split; [done|].
      pose proof (overflow_total _ _ Ho (li_input s Hlive) Hc Hin); rewrite !zlen_app; pose proof (zlen_nonneg (concat pieces ++ last)).
      rewrite zlen_app in *; split; [lia|done].
    + destruct (grown_body p s s1 Hg (li_input s Hlive) Hc Hpb) as (Hb & Hi1 & Hu); destruct (grown_same _ _ _ Hg) as (Hid & Hq & Hc1 & Hin1 & Hs1).
      destruct Ha as [_ ->]; eapply runs_mono; [apply IH; [by apply (find_same _ _ s)|by eapply grown_live|congruence|auto|done]|].
      intros rc' v (s2 & m2 & d2 & h2 & -> & Hfit & Hover); exists s2, m2, d2, h2; split; [done|].
      rewrite Hb, <- app_assoc in Hfit, Hover; rewrite Hid, Hq, Hs1 in Hfit; by split.
Qed.

Lemma find_new stream slots i s : find_response stream slots = None -> (i < length slots)%nat -> rs_id s = stream ->
  find_response stream (<[i := s]> slots) = Some i.
Proof.
  intros Hn Hi Hs; unfold find_response in *; destruct (list_find _ slots) as [?|] eqn:E; [done|]; apply list_find_None in E.
  replace (list_find _ (<[i := s]> slots)) with (Some (i, s)); [done|]; symmetry; apply list_find_Some.
  rewrite list_lookup_insert_eq by done; split; [done|]; split; [done|]; intros j x Hj Hlt; rewrite list_lookup_insert_ne in Hj by lia.
  rewrite Forall_forall in E; apply E; by eapply list_elem_of_lookup_2.
Qed.

(** What the API is asked on behalf of a posted request. *)
Record asks_for (hs fs : header_list) (total : list Z) (q : monitor_api_request) : Prop := {
  as_path : cstr (q_path q) (before_query (first_field hs (lit ":path")));
  as_authorization : cstr (q_authorization q) (value_of (lit "authorization") fs) /\ zlen (q_authorization q) = 80;
  as_body : denotes (q_body q) total;
  as_post : q_post q = true;
  as_json : q_json_content q = true <-> json_type (value_of (lit "content-type") fs);
  as_origin : q_origin_allowed q = true <->
    has_field (lit "origin") fs = false \/ origin_of (first_field hs (lit ":authority")) (value_of (lit "origin") fs);
  as_access : q_setup_access q = false /\ q_remote_access q = true
}.

(** The body fits and has the announced length. *)
Definition body_fits (fs : header_list) (total : list Z) : Prop :=
  zlen total <= MONITOR_BODY_MAX /\ (has_field (lit "content-length") fs = true -> dec_val (value_of (lit "content-length") fs) = zlen total).

(** Memory is there when it is asked for. *)
Definition plenty : Prop := forall n m, 0 <= n -> is_Some (fst (malloc n m)).

Lemma posted_asks hs fs full total : describes hs fs (rs_request full) -> rh_post (rs_request full) = true -> rs_complete full = false -> input_ok full ->
  body_of full = total -> asks_for hs fs total (api_request_of full).
Proof.
  intros Hd Hp Hc Hi <-; pose proof Hd as [[Dp _] Da _ _ _ Dj Do]; destruct (body_denotes full Hi Hc) as [Hb _]; constructor; try done.
Qed.

(** A posted request that was taken waits for its body, the others are answered. *)
Definition waits (hs fs : header_list) (stream : Z) (s : response) : Prop :=
  takeable hs fs /\ take 5 (before_query (first_field hs (lit ":path"))) = lit "/api/" /\ describes hs fs (rs_request s) /\ rh_post (rs_request s) = true /\
  rs_complete s = false /\ rs_input s <> None /\ body_of s = [].

Lemma routed_post hs stream m s m' due : first_field hs (lit ":method") = lit "POST" -> routed hs stream m s m' due ->
  rs_id s = stream /\ (rs_complete s = true \/ due = None /\ exists fs, waits hs fs stream s).
Proof.
  intros Hm Hr.
  assert (forall fs q, describes hs fs q -> rh_post q = true) as Hpost by (intros fs q Hd; by rewrite (de_post _ _ _ Hd), bool_decide_eq_true_2).
  destruct Hr as [q m' st Hret Hno Hst|fs q m' Hret Ht Hd Hp Hq|fs q m1 block m' Hret Ht Hd Hp Hq Hb|fs q m1 m' Hret Ht Hd Hp Hq Hb
    |fs q m' Hret Ht Hd Hp Hq|fs q m' a t Hret Ht Hd Hp Hq Hin Hu Hty Htb|fs q m' Hret Ht Hd Hp Hq Hall];
    (split; [done|]); try (by left); [by rewrite (Hpost _ _ Hd) in Hq|].
  right; split; [done|]; exists fs; by split_and!.
Qed.

(** It is taken if it is one the server takes and there is memory. *)
Lemma routed_taken hs fs stream m s m' due : plenty -> takeable hs fs -> first_field hs (lit ":method") = lit "POST" ->
  take 5 (before_query (first_field hs (lit ":path"))) = lit "/api/" -> routed hs stream m s m' due -> rs_complete s = false.
Proof.
  intros Hmem Ht Hm Hpath Hr.
  assert (forall fs q, describes hs fs q -> rh_post q = true) as Hpost by (intros fs' q Hd; by rewrite (de_post _ _ _ Hd), bool_decide_eq_true_2).
  destruct Hr as [q m' st Hret Hno Hst|fs' q m' Hret Ht' Hd Hp Hq|fs' q m1 block m' Hret Ht' Hd Hp Hq Hb|fs' q m1 m' Hret Ht' Hd Hp Hq Hb
    |fs' q m' Hret Ht' Hd Hp Hq|fs' q m' a t Hret Ht' Hd Hp Hq Hin Hu Hty Htb|fs' q m' Hret Ht' Hd Hp Hq Hall]; try done.
  - destruct Hno; split; [by exists fs|]; intros _; by apply Hmem.
  - destruct (Hmem MONITOR_BODY_MAX m1) as [? Hs]; [done|]; by rewrite Hb in Hs.
Qed.

(** A request and its body. *)
Definition post (r : cf_h2_request) (pieces : list (list Z)) (last : list Z) : SM visit cf_result :=
  rc ← monitor_request r; if is_ok rc then deliver (r_stream r) pieces last else mret rc.

(** The API was asked once, and its answer is what the stream will read. *)
Definition dispatched (hs fs : header_list) (total : list Z) (i : nat) (d : device) (w : site) : Prop :=
  exists d1 q a d2 s, monitor_lock d = (true, d1) /\ asks_for hs fs total q /\ monitor_api_dispatch q d1 = Some (a, d2) /\
    w_device w = monitor_unlock (monitor_api_schedule_effects (a_effects a) d2) /\
    w_slots w !! i = Some s /\ rs_complete s = true /\ rs_sent s = 0 /\ answer_of s = take (Z.to_nat (a_length a)) (a_body a) /\
    rs_input s = None /\ rh_authorization (rs_request s) = replicate 80 0.

(** The API was not asked: at most its lock was tried, in vain. *)
Definition unasked (d d' : device) : Prop := d' = d \/ monitor_lock d = (false, d').

Definition length_announced (fs : header_list) (total : list Z) : Prop := has_field (lit "content-length") fs = true -> dec_val (value_of (lit "content-length") fs) = zlen total.

Lemma executed_once hs fs total i slots full m d s' m' d' st h : (i < length slots)%nat ->
  describes hs fs (rs_request full) -> rh_post (rs_request full) = true -> rs_complete full = false -> input_ok full -> rs_sent full = 0 -> body_of full = total ->
  executed full m d s' m' d' st ->
  (unasked d d' \/ length_announced fs total /\ dispatched hs fs total i d (v_site (here i slots s' m' d' h))) /\
  (plenty -> fst (monitor_lock d) = true -> length_announced fs total -> dispatched hs fs total i d (v_site (here i slots s' m' d' h))).
Proof.
  intros Hi Hd Hp Hc Hin Hsent Hb He; pose proof (de_length _ _ _ Hd) as [Dh Dl]; destruct (body_denotes full Hin Hc) as [_ Hz]; rewrite Hb in Hz.
  assert (length_matches full <-> length_announced fs total) as Hiff by (unfold length_matches, length_announced; by rewrite Dh, Dl, Hz).
  destruct He as [Hm|m' Hm Ha|block m' d' Hm Ha Hk|block m1 d1 a d2 Hm Ha Hk Hdis Haz Hal].
  - split; [left; by left|]; intros _ _ Hl; destruct Hm; tauto.
  - split; [left; by left|]; intros Hmem; destruct (Hmem REPLY_SIZE m) as [? Hs]; [done|]; by rewrite Ha in Hs.
  - split; [left; by right|]; intros _ Hlock; by rewrite Hk in Hlock.
  - assert (dispatched hs fs total i d (v_site (here i slots (served a full) (match rs_input full with Some _ => free (replicate 2048 0) m1 | None => m1 end)
      (monitor_unlock (monitor_api_schedule_effects (a_effects a) d2)) h))) as Hdone; [|split; [right; split; [tauto|exact Hdone]|done]].
    exists d1, (api_request_of full), a, d2, (served a full); split; [done|]; split; [by apply posted_asks|]; split; [done|]; split; [done|].
    cbn [v_site here w_slots]; rewrite list_lookup_insert_eq by done; by split_and!.
Qed.

(** The answer of the API to a posted request, and the only condition it needs. *)
Definition answered_once (hs : header_list) (total : list Z) (w w' : site) : Prop :=
  exists fs i, takeable hs fs /\ take 5 (before_query (first_field hs (lit ":path"))) = lit "/api/" /\ body_fits fs total /\
    find_response 0 (w_slots w) = Some i /\ dispatched hs fs total i (w_device w) w'.

Lemma post_spec w h r hs pieces last : site_ok w -> h2_inv h -> r_stream r <> 0 -> find_response (r_stream r) (w_slots w) = None ->
  Forall2 entry_denotes (r_headers r) hs -> first_field hs (lit ":method") = lit "POST" -> Forall piece_ok pieces -> piece_ok last ->
  runs (post r pieces last) (Visit w h) (λ _ v,
    (unasked (w_device w) (w_device (v_site v)) \/ answered_once hs (concat pieces ++ last) w (v_site v)) /\
    (forall fs, plenty -> fst (monitor_lock (w_device w)) = true -> is_Some (find_response 0 (w_slots w)) -> takeable hs fs ->
       take 5 (before_query (first_field hs (lit ":path"))) = lit "/api/" -> body_fits fs (concat pieces ++ last) -> answered_once hs (concat pieces ++ last) w (v_site v))).
Proof.
  intros [Hs Hd] Hh Hr Hnew Hes Hm Hps Hlast; destruct w as [slots m d]; cbn [w_slots w_memory w_device] in *; unfold post; apply runs_bind.
  destruct (find_response 0 slots) as [i|] eqn:Hfree.
  2: { unfold monitor_request; apply runs_bind, runs_asks; cbn [v_site w_slots]; rewrite Hfree; apply runs_ret; cbn [is_ok bool_decide decide decide_rel]; apply runs_ret.
       split; [left; by left|]; by intros fs _ _ [? ?]. }
  pose proof (lookup_lt_Some _ _ _ (found_free _ _ Hs Hfree)) as Hi.
  eapply runs_mono; [apply (request_routed i slots Hi r hs); [apply Hh|done|done|by apply found_free]|].
  intros rc v (s & m1 & due & h' & -> & Hroute & Ha); pose proof (routed_live _ _ _ _ _ _ Hr Hroute) as Hlive.
  set (total := concat pieces ++ last) in *; destruct (routed_post hs _ _ _ _ _ Hm Hroute) as (Hid & Hcase).
  assert (find_response (r_stream r) (<[i := s]> slots) = Some i) as Hf by (by apply find_new).
  destruct Hcase as [Hc|(-> & fs & Ht & Hpath & Hdes & Hp & Hc & Hin & Hb)].
  { assert (forall v, v = here i slots s m1 d h' -> (unasked d (w_device (v_site v)) \/ answered_once hs total (Site slots m d) (v_site v)) /\
      (forall fs, plenty -> fst (monitor_lock d) = true -> is_Some (Some i) -> takeable hs fs -> take 5 (before_query (first_field hs (lit ":path"))) = lit "/api/" ->
         body_fits fs total -> answered_once hs total (Site slots m d) (v_site v))) as Hend.
    { intros v ->; split; [left; by left|]; intros fs Hmem _ _ Ht Hpath _; by rewrite (routed_taken hs fs _ _ _ _ _ Hmem Ht Hm Hpath Hroute) in Hc. }
    destruct (is_ok rc); [|by apply runs_ret, Hend]; eapply runs_mono; [by apply (deliver_complete i slots Hi)|]; intros rc' v Ev; by apply Hend. }
  destruct Ha as [-> ->]; change (is_ok CF_OK) with true; cbn iota.
  eapply runs_mono; [apply (deliver_spec i slots Hi); try done; apply Hh|].
  intros rc v (s' & m' & d' & h2 & -> & Hfit & Hover); rewrite Hb, app_nil_l in *; fold total in Hfit, Hover.
  assert (rs_sent s = 0) as Hsent by (destruct (li_waiting s Hlive Hc) as (_ & Hl & _); pose proof (li_sent s Hlive); lia).
  assert (forall fs', takeable hs fs' -> fs' = fs) as Huniq by (intros fs' Ht'; apply (carried_unique hs); [apply Ht'|apply Ht]).
  destruct (decide (zlen total <= MONITOR_BODY_MAX)) as [Hle|Hgt].
  - destruct (Hfit Hle) as (full & st & h1 & Hfb & Hfr & Hfc & Hfs & Hfi & Hex & _); rewrite <- Hfr in Hdes, Hp.
    destruct (executed_once hs fs total i slots full m1 d s' m' d' st h2) as [Hyes Hall]; try done.
    { by rewrite Hfs. }
    split; [destruct Hyes as [Hu|[Hl Hdone]]; [by left|right; exists fs, i; by split_and!]|].
    intros fs' Hmem Hlock _ Ht' _ [_ Hl]; rewrite (Huniq fs' Ht') in Hl; exists fs, i; split; [done|]; split; [done|]; split; [by split|]; split; [done|]; by apply Hall.
  - destruct Hover as (-> & -> & _); [lia|]; split; [left; by left|]; intros fs' _ _ _ _ _ [Hl _]; lia.
Qed.

(** ** An answer read *)

(** The rest of the answer is read into one buffer after the other: what each
    read wrote, and whether it said that this was all. *)
Fixpoint reads (stream : Z) (outs : list (list Z)) : SM visit (list (list Z * bool)) :=
  match outs with
  | [] => mret []
  | out :: outs => '(_, out, n, eof) ← monitor_read stream out (zlen out); rest ← reads stream outs; mret ((take (Z.to_nat n) out, eof) :: rest)
  end.

(** What a stream still has to read: nothing when only the head was asked for. *)
Definition unread (s : response) : list Z := if rs_head s then [] else drop (Z.to_nat (rs_sent s)) (answer_of s).

Lemma unread_sent s cap : live s -> 0 <= cap ->
  sub (answer_of s) (rs_sent s) (portion s cap) = take (Z.to_nat cap) (unread s) /\
  unread (with_sent (rs_sent s + portion s cap) s) = drop (Z.to_nat cap) (unread s) /\
  (rs_head s || (rs_sent s + portion s cap =? rs_length s) = true <-> drop (Z.to_nat cap) (unread s) = []).
Proof.
  intros [_ _ Ld [Ls _] Lo _ _] Hcap; destruct (source_length s Ld Lo) as [Hz _]; [lia|]; unfold unread, portion, sub; cbn [with_sent rs_head rs_sent].
  destruct (rs_head s); [by rewrite take_nil, drop_nil|]; change (answer_of (with_sent _ s)) with (answer_of s); cbn [orb].
  assert (length (drop (Z.to_nat (rs_sent s)) (answer_of s)) = Z.to_nat (rs_length s - rs_sent s)) as Hr by (rewrite length_drop; unfold zlen in Hz; lia).
  set (rest := drop (Z.to_nat (rs_sent s)) (answer_of s)) in *; split; [|split].
  - destruct (decide (cap <= rs_length s - rs_sent s)); [by rewrite Z.min_l by lia|]; by rewrite Z.min_r, !take_ge by lia.
  - replace (Z.to_nat (rs_sent s + Z.min cap (rs_length s - rs_sent s))) with (Z.to_nat (rs_sent s) + Z.to_nat (Z.min cap (rs_length s - rs_sent s)))%nat by lia.
    rewrite <- drop_drop; fold rest; destruct (decide (cap <= rs_length s - rs_sent s)); [by rewrite Z.min_l by lia|]; by rewrite Z.min_r, !drop_ge by lia.
  - rewrite Z.eqb_eq; split; intros Hd; [apply drop_ge; lia|]; apply (f_equal length) in Hd; rewrite length_drop in Hd; cbn in Hd; lia.
Qed.

(** Each read gives what fits of the rest, and says truly whether it was all. *)
Fixpoint read_out (rest : list Z) (outs : list (list Z)) (r : list (list Z * bool)) : Prop :=
  match outs, r with
  | [], [] => True
  | out :: outs, (l, eof) :: r => l = take (length out) rest /\ (eof = true <-> drop (length out) rest = []) /\ read_out (drop (length out) rest) outs r
  | _, _ => False
  end.

Lemma read_out_whole outs : forall rest r, read_out rest outs r -> concat r.*1 = take (length (concat outs)) rest.
Proof.
  induction outs as [|out outs IH]; intros rest [|[l eof] r] Hr; cbn [read_out] in Hr; try done; destruct Hr as (-> & _ & Hr).
  cbn [concat fmap list_fmap fst]; by rewrite (IH _ _ Hr), length_app, take_take_drop.
Qed.

Lemma reads_spec i slots (Hi : (i < length slots)%nat) stream m d h outs : forall s, find_response stream (<[i := s]> slots) = Some i -> live s ->
  runs (reads stream outs) (here i slots s m d h) (λ r v, read_out (unread s) outs r /\ exists s', v = here i slots s' m d h /\ live s' /\ answer_of s' = answer_of s).
Proof.
  induction outs as [|out outs IH]; intros s Hf Hl; cbn [reads]; [apply runs_ret; split; [done|by exists s]|].
  pose proof (zlen_nonneg out); apply runs_bind; do 2 eexists; split; [apply (read_exact i slots Hi stream out (zlen out) s m d h Hf Hl); lia|].
  destruct (unread_sent s (zlen out) Hl ltac:(lia)) as (Ht & Hu & He); assert (0 <= portion s (zlen out) /\ rs_sent s + portion s (zlen out) <= rs_length s) as [Hp1 Hp2].
  { destruct (li_sent s Hl) as [Hs _]; unfold portion; destruct (rs_head s); lia. }
  apply runs_bind; eapply runs_mono; [apply (IH (with_sent (rs_sent s + portion s (zlen out)) s)); [by apply (find_same _ _ s)|by apply live_sent]|].
  intros r v (Hr & s' & -> & Hl' & Ha); apply runs_ret; split; [|by exists s']; rewrite Hu in Hr.
  replace (Z.to_nat (zlen out)) with (length out) in * by (unfold zlen; lia); cbn [read_out]; split; [|by split].
  rewrite <- Ht; apply take_app_length'; pose proof (source_length s (li_data s Hl) (li_owned s Hl)) as [Hz _]; [destruct (li_sent s Hl); lia|].
  assert (zlen (sub (answer_of s) (rs_sent s) (portion s (zlen out))) = portion s (zlen out)) as Hsub by (apply zlen_sub; destruct (li_sent s Hl); lia).
  apply (f_equal Z.to_nat) in Hsub; unfold zlen in Hsub at 1; rewrite Nat2Z.id in Hsub; by symmetry.
Qed.

End Application.

(** ** A monitor on the desk *)

(** A device that keeps the bodies it got, and answers each with itself. *)
Module Desk.

Record desk := Desk { d_bodies : list (list Z); d_locked : bool }.

Definition echo (l : list Z) : monitor_api_reply := ApiReply 200 0 (zlen l) (l ++ replicate (Z.to_nat (MONITOR_REPLY_MAX - zlen l)) 0).

Definition page : monitor_asset := Asset (cstring "/") (cstring "text/html") (lit "<h1>monitor</h1>").

#[export] Instance monitor : Monitor := {|
  device := desk;
  monitor_api_dispatch q d := l ← view_bytes (q_body q); Some (echo l, Desk (d_bodies d ++ [l]) (d_locked d));
  monitor_api_schedule_effects _ d := d;
  monitor_lock d := (negb (d_locked d), Desk (d_bodies d) true);
  monitor_unlock d := Desk (d_bodies d) false;
  monitor_assets := [page]
|}.

Lemma view_denotes b l : denotes b l -> view_bytes b = Some l.
Proof.
  intros (_ & Hl & Hp); unfold view_bytes; rewrite Hl; destruct (ptr b) as [m|]; [|by subst].
  destruct Hp as [rest ->]; destruct (Z.eqb_spec (zlen l) 0) as [E|E]; [f_equal; symmetry; apply length_zero_iff_nil; unfold zlen in E; lia|].
  cbn; pose proof (zlen_nonneg l); pose proof (zlen_nonneg rest); by rewrite slice_sub, sub_head by (rewrite ?zlen_app; lia).
Qed.

#[export, program] Instance monitor_laws : MonitorLaws := { device_ok _ := True }.
Next Obligation.
  intros q l d _ _ _ Hb Hl; do 2 eexists; split; [cbn; by rewrite (view_denotes _ _ Hb)|]; split; [done|]; cbn [echo a_body a_length].
  pose proof (zlen_nonneg l); unfold MONITOR_BODY_MAX, MONITOR_REPLY_MAX in *; rewrite zlen_app, zlen_replicate; lia.
Qed.
Next Obligation. done. Qed.
Next Obligation. done. Qed.
Next Obligation. done. Qed.
Next Obligation.
  constructor; [|constructor]; split; [exists (lit "/"); apply cstr_cstring; no_nul|]; split; [|by vm_compute].
  exists (lit "text/html"); split; [apply cstr_cstring; no_nul|apply lit_bytes].
Qed.

End Desk.
#[local] Existing Instances Quiet.library Desk.monitor Desk.monitor_laws.

(** ** The theorems *)

(** C15. The callbacks of the system monitor are total and safe: from four free
    records, whatever requests, data, reads and closures the session delivers in
    whatever order, for streams known and unknown, every callback returns (no
    access outside an object, no use of a block already given back), and every
    record stays in order: free, or with a stream, its bytes behind its data,
    no more sent than its length, and its input within the block. *)
Theorem monitor_calls_safe `{Nghttp2} `{MemoryLaws} `{MonitorLaws} calls m d h :
  Forall (λ c, call_typed c.1 /\ h2_inv c.2) calls -> device_ok d ->
  exists v, performs calls (Visit (Site (replicate (Z.to_nat CF_H2_APPLICATION_MAX) free_response) m d) h) = Some (tt, v) /\ site_ok (v_site v).
Proof.
  intros Hc Hd; destruct (performs_kept calls Hc (Visit (Site (replicate (Z.to_nat CF_H2_APPLICATION_MAX) free_response) m d) h)) as ([] & v & E & Hv); [|by exists v].
  split; [|done]; split; [done|]; apply Forall_replicate; by left.
Qed.

(** C12. A posted request runs at most once, and never in part: however its body
    is cut into pieces, either the device is as it was (but for a lock that was
    tried in vain), or the request is one the server takes, for a path of the
    API, the whole body has come, fits in 2048 bytes and has the announced
    length, and the API was asked once, about this path, this credential and
    exactly these bytes; then the stream will read the API's answer from its
    start, the input is given back and the credential erased.  It does run if
    all this holds, a record and the lock are free, and memory does not fail. *)
Theorem posted_once `{Nghttp2} `{MemoryLaws} `{MonitorLaws} w h r hs pieces last :
  site_ok w -> h2_inv h -> r_stream r <> 0 -> find_response (r_stream r) (w_slots w) = None ->
  Forall2 entry_denotes (r_headers r) hs -> first_field hs (lit ":method") = lit "POST" -> Forall piece_ok pieces -> piece_ok last ->
  exists rc v, post r pieces last (Visit w h) = Some (rc, v) /\
    (unasked (w_device w) (w_device (v_site v)) \/ answered_once hs (concat pieces ++ last) w (v_site v)) /\
    (forall fs, plenty -> fst (monitor_lock (w_device w)) = true -> is_Some (find_response 0 (w_slots w)) -> takeable hs fs ->
       take 5 (before_query (first_field hs (lit ":path"))) = lit "/api/" -> body_fits fs (concat pieces ++ last) -> answered_once hs (concat pieces ++ last) w (v_site v)).
Proof.
  intros Hw Hh Hr Hnew Hes Hm Hps Hl.
  destruct (post_spec w h r hs pieces last Hw Hh Hr Hnew Hes Hm Hps Hl) as (rc & v & E & Hv); by exists rc, v.
Qed.

(** C21. An answer is read back whole: into buffers of any sizes, each read writes
    what fits of the rest, all the reads together write the answer from where it
    stands, and a read says that this was all exactly when nothing is left; a
    stream that was only asked for the head reads nothing. *)
Theorem answer_read `{Nghttp2} `{MemoryLaws} `{MonitorLaws} w h stream outs i s :
  site_ok w -> stream <> 0 -> find_response stream (w_slots w) = Some i -> w_slots w !! i = Some s ->
  exists r v, reads stream outs (Visit w h) = Some (r, v) /\ read_out (unread s) outs r /\
    concat r.*1 = take (length (concat outs)) (unread s) /\ w_device (v_site v) = w_device w /\ v_h2 v = h.
Proof.
  intros Hw Hne Hf Hi; destruct (at_record w h stream i Hw Hne Hf) as (s' & Hlt & Hl & Ev & Hf').
  assert (s' = s) as -> by (apply (f_equal (λ v, w_slots (v_site v) !! i)) in Ev; cbn in Ev; rewrite Hi, list_lookup_insert_eq in Ev by done; by injection Ev).
  destruct (reads_spec i _ Hlt stream (w_memory w) (w_device w) h outs s Hf' Hl) as (r & v & E & Hr & s' & -> & _); rewrite Ev; do 2 eexists; split; [exact E|].
  split; [done|]; split; [by apply read_out_whole|done].
Qed.

(** ** The theorems at work *)

Definition free_slots : list response := replicate (Z.to_nat CF_H2_APPLICATION_MAX) free_response.
Definition desk : device := Desk.Desk [] false.
Definition desk_site : site := Site free_slots no_blocks desk.

(** A request with its fields in plain. *)
Definition post_head : header_list :=
  [(lit ":method", lit "POST"); (lit ":path", lit "/api/a?b"); (lit ":authority", lit "a.b"); (lit "Content-Length", lit "7")].

(** A stream opened, fed, read and closed, and data for a stream unknown. *)
Definition sample_calls : list monitor_call :=
  [CallRequest (as_request post_head); CallData 1 (view (lit "1234")) false; CallData 3 (view []) true; CallData 1 (view (lit "567")) true;
   CallRead 1 (replicate 8 0) 8; CallClosed 1].

Lemma sample_typed : Forall call_typed sample_calls.
Proof.
  repeat (apply Forall_cons_2); [| | | | | |apply Forall_nil_2]; cbn [call_typed]; try (by vm_compute); split; try done.
  - exists post_head; apply as_request_denotes; repeat (apply Forall_cons_2; [split; bytes_by_compute|]); apply Forall_nil_2.
  - exists (lit "1234"); split; [apply denotes_view, lit_bytes|by vm_compute].
  - exists []; split; [by apply denotes_view|by vm_compute].
  - exists (lit "567"); split; [apply denotes_view, lit_bytes|by vm_compute].
Qed.

Lemma monitor_calls_safe_witness :
  exists v, performs (map (λ c, (c, Quiet.admitted)) sample_calls) (Visit desk_site Quiet.admitted) = Some (tt, v) /\ site_ok (v_site v).
Proof.
  apply (monitor_calls_safe (map (λ c, (c, Quiet.admitted)) sample_calls) no_blocks desk Quiet.admitted); [|done].
  apply Forall_map; eapply Forall_impl; [apply sample_typed|]; intros c Hc; split; [exact Hc|apply Quiet.admitted_ok].
Defined.

Lemma desk_ok : site_ok desk_site.
Proof. split; [|done]; split; [done|]; apply Forall_replicate; by left. Qed.

Lemma roomy_plenty : plenty.
Proof. intros n m Hn; by eexists. Qed.

Lemma sample_denotes : Forall2 entry_denotes (r_headers (as_request post_head)) post_head.
Proof. apply as_request_denotes; repeat (apply Forall_cons_2; [split; bytes_by_compute|]); apply Forall_nil_2. Qed.

Lemma sample_takeable : exists fs, takeable post_head fs /\ has_field (lit "content-length") fs = true /\ dec_val (value_of (lit "content-length") fs) = 7.
Proof.
  destruct (remote_parse_spec (as_request post_head) post_head zero_head no_blocks sample_denotes) as (rc & o & m' & E & _ & _ & Hok & _).
  assert (option_map (λ x, (x.1.1, rh_has_length <$> x.1.2, rh_content_length <$> x.1.2)) (monitor_remote_parse (Some (as_request post_head)) (Some zero_head) no_blocks)
    = Some (CF_OK, Some true, Some 7)) as Er by (by vm_compute); rewrite E in Er; injection Er as -> Eh El.
  destruct Hok as (fs & Ht & Hd); [done|]; exists fs; split; [done|]; destruct (de_length _ _ _ Hd) as [<- <-]; by split.
Qed.

Lemma posted_once_witness :
  exists rc v, post (as_request post_head) [lit "1234"] (lit "567") (Visit desk_site Quiet.admitted) = Some (rc, v) /\
    answered_once post_head (lit "1234567") desk_site (v_site v).
Proof.
  destruct sample_takeable as (fs & Ht & Hh & Hl).
  assert (body_fits fs (concat [lit "1234"] ++ lit "567")) as Hfits by (split; [by vm_compute|]; intros _; rewrite Hl; by vm_compute).
  destruct (posted_once desk_site Quiet.admitted (as_request post_head) post_head [lit "1234"] (lit "567")) as (rc & v & E & _ & Hyes);
    [apply desk_ok|apply Quiet.admitted_ok|done|by vm_compute|apply sample_denotes|by vm_compute| | |].
  - apply Forall_cons_2; [split; [apply lit_bytes|by vm_compute]|apply Forall_nil_2].
  - split; [apply lit_bytes|by vm_compute].
  - exists rc, v; split; [exact E|]; apply (Hyes fs); [apply roomy_plenty|reflexivity|by eexists|exact Ht|by vm_compute|exact Hfits].
Defined.

(** The page is being read: seven bytes of it have gone. *)
Definition page_response : response := with_sent 7 (with_complete (with_data (Some (Constant (data_bytes Desk.page))) (zlen (data_bytes Desk.page)) (with_stream 5 free_response))).
Definition page_site : site := Site (<[1%nat := page_response]> free_slots) no_blocks desk.

Lemma page_ok : site_ok page_site.
Proof.
  split; [|done]; apply slots_insert; [apply desk_ok|]; right; constructor; cbn; try done; by vm_compute.
Qed.

Lemma answer_read_witness :
  option_map (λ x, x.1) (reads 5 [replicate 5 0; replicate 5 0; replicate 5 0] (Visit page_site Quiet.admitted)) =
    Some [(lit "itor<", false); (lit "/h1>", true); ([], true)] /\
  exists r v, reads 5 [replicate 5 0; replicate 5 0; replicate 5 0] (Visit page_site Quiet.admitted) = Some (r, v) /\
    read_out (unread page_response) [replicate 5 0; replicate 5 0; replicate 5 0] r /\
    concat r.*1 = take (length (concat [replicate 5 0; replicate 5 0; replicate 5 0])) (unread page_response) /\ w_device (v_site v) = w_device page_site /\ v_h2 v = Quiet.admitted.
Proof.
  split; [by vm_compute|]; apply (answer_read page_site Quiet.admitted 5 [replicate 5 0; replicate 5 0; replicate 5 0] 1 page_response); [apply page_ok|done|by vm_compute|done].
Defined.
