(* ===== verification/MonitorOta.v ===== *)
(** The firmware update of the system monitor
    (src/examples/system_monitor/main/monitor_ota.c): one upload at a time into the
    inactive slot, checked against the digest it was announced with. *)
From S2P Require Export MonitorRemote.

Definition MONITOR_OTA_CHUNK : Z := 1408.

(** What the update reads of [esp_partition_t]; the label is a C string. *)
Record partition := Partition { p_address : Z; p_size : Z; p_label : list Z }.

(** The formats of firmware images: the SDK's headers, read from their bytes. *)
Class ImageFormat := {
  SIZEOF_IMAGE_HEADER : Z;
  SIZEOF_SEGMENT_HEADER : Z;
  SIZEOF_APP_DESC : Z;
  ESP_IMAGE_HEADER_MAGIC : Z;
  CONFIG_IDF_FIRMWARE_CHIP_ID : Z;
  ESP_APP_DESC_MAGIC_WORD : Z;
  header_magic : list Z -> Z;
  header_chip_id : list Z -> Z;
  header_hash_appended : list Z -> bool;
  app_magic_word : list Z -> Z;
  app_version : list Z -> list Z;
  app_project_name : list Z -> list Z;
  current_project_name : list Z   (* of [esp_app_get_description()] *)
}.

(** The machine: flash, the choice of the next boot, the clock, random numbers;
    and the digests of the PSA library, whose operation objects the caller holds. *)
Class Updater := {
  machine : Type;
  hash : Type;
  ota_timer : machine -> Z * machine;                (* [esp_timer_get_time] *)
  random_bytes : Z -> machine -> list Z * machine;   (* [esp_fill_random] *)
  running_partition : machine -> option partition;
  next_partition : machine -> option partition;
  esp_ota_begin : partition -> machine -> Z * Z * machine;   (* the code and the handle *)
  esp_ota_write : Z -> list Z -> machine -> Z * machine;
  esp_ota_end : Z -> machine -> Z * machine;
  esp_ota_abort : Z -> machine -> machine;
  esp_ota_set_boot_partition : partition -> machine -> Z * machine;
  psa_hash_operation_init : hash;
  psa_crypto_init : machine -> Z * machine;
  psa_hash_setup : hash -> machine -> Z * hash * machine;    (* for SHA-256 *)
  psa_hash_update : hash -> list Z -> machine -> Z * hash * machine;
  psa_hash_finish : hash -> machine -> Z * list Z * Z * hash * machine;   (* code, 32 bytes of output, size *)
  psa_hash_abort : hash -> machine -> hash * machine;
  pending_verify : partition -> machine -> bool;     (* its state is known, and is that *)
  mark_app_valid : machine -> Z * machine
}.

Record monitor_ota_status := OtaStatus {
  s_available : bool;
  s_active : bool;
  s_ready : bool;
  s_received : Z;
  s_total : Z;
  s_capacity : Z;
  s_running : list Z;
  s_target : list Z;
  s_fw_version : list Z;
  s_message : list Z
}.

Definition zero_status : monitor_ota_status :=
  OtaStatus false false false 0 0 0 (replicate 17 0) (replicate 17 0) (replicate 33 0) (replicate 112 0).

Definition set_active (b : bool) (s : monitor_ota_status) : monitor_ota_status :=
  OtaStatus (s_available s) b (s_ready s) (s_received s) (s_total s) (s_capacity s) (s_running s) (s_target s) (s_fw_version s) (s_message s).
Definition set_ready (s : monitor_ota_status) : monitor_ota_status :=
  OtaStatus (s_available s) (s_active s) true (s_received s) (s_total s) (s_capacity s) (s_running s) (s_target s) (s_fw_version s) (s_message s).
Definition set_received (n : Z) (s : monitor_ota_status) : monitor_ota_status :=
  OtaStatus (s_available s) (s_active s) (s_ready s) n (s_total s) (s_capacity s) (s_running s) (s_target s) (s_fw_version s) (s_message s).
Definition set_total (n : Z) (s : monitor_ota_status) : monitor_ota_status :=
  OtaStatus (s_available s) (s_active s) (s_ready s) (s_received s) n (s_capacity s) (s_running s) (s_target s) (s_fw_version s) (s_message s).
Definition set_slot (available : bool) (capacity : Z) (running : list Z) (s : monitor_ota_status) : monitor_ota_status :=
  OtaStatus available (s_active s) (s_ready s) (s_received s) (s_total s) capacity running (s_target s) (s_fw_version s) (s_message s).
Definition set_target (t : list Z) (s : monitor_ota_status) : monitor_ota_status :=
  OtaStatus (s_available s) (s_active s) (s_ready s) (s_received s) (s_total s) (s_capacity s) (s_running s) t (s_fw_version s) (s_message s).
Definition set_fw_version (t : list Z) (s : monitor_ota_status) : monitor_ota_status :=
  OtaStatus (s_available s) (s_active s) (s_ready s) (s_received s) (s_total s) (s_capacity s) (s_running s) (s_target s) t (s_message s).
Definition set_message (t : list Z) (s : monitor_ota_status) : monitor_ota_status :=
  OtaStatus (s_available s) (s_active s) (s_ready s) (s_received s) (s_total s) (s_capacity s) (s_running s) (s_target s) (s_fw_version s) t.

Definition ota_hex (c : Z) : Z :=
  if (48 <=? c) && (c <=? 57) then c - 48 else if (97 <=? c) && (c <=? 102) then c - 97 + 10
  else if (65 <=? c) && (c <=? 70) then c - 65 + 10 else -1.

(** The loop that reads the digest, from digit pair [i]. *)
Fixpoint digest_loop (sha : list Z) (k : nat) (i : Z) (expected : list Z) : option (option (list Z)) :=
  match k with
  | O => Some (Some expected)
  | S k =>
      a ← rd sha (2 * i); b ← rd sha (2 * i + 1);
      let '(a, b) := (ota_hex a, ota_hex b) in
      if (a <? 0) || (b <? 0) then Some None else
      expected ← wr expected i (u8 (Z.lor (Z.shiftl a 4) b)); digest_loop sha k (i + 1) expected
  end.

(** The digit of a value below 16, as ["%x"] prints it. *)
Definition hex_char (n : Z) : Z := if n <? 10 then 48 + n else 87 + n.

(** The loop of [snprintf(id + 2 * i, 3, "%02x", random[i])]. *)
Fixpoint id_loop (random : list Z) (i : Z) (id : list Z) : option (list Z) :=
  match random with
  | [] => Some id
  | r :: random => id ← blit id (2 * i) [hex_char (r / 16); hex_char (r mod 16); 0]; id_loop random (i + 1) id
  end.

(** [!memcmp(a, b, n)]. *)
Definition memeq (a b : list Z) (n : Z) : option bool := x ← slice a 0 n; y ← slice b 0 n; Some (bool_decide (x = y)).

Section Upload.
Context `{Updater} `{ImageFormat}.

(** [id] has 33 bytes, [expected] 32.  An operation object of zeros is an
    initialised one. *)
Record upload := Upload {
  u_status : monitor_ota_status;
  u_partition : option partition;
  u_handle : Z;
  u_open : bool;
  u_id : list Z;
  u_expected : list Z;
  u_hash : hash;
  u_activity_ms : Z
}.

Definition zero_upload : upload := Upload zero_status None 0 false (replicate 33 0) (replicate 32 0) psa_hash_operation_init 0.

Definition over_status (f : monitor_ota_status -> monitor_ota_status) (u : upload) : upload :=
  Upload (f (u_status u)) (u_partition u) (u_handle u) (u_open u) (u_id u) (u_expected u) (u_hash u) (u_activity_ms u).
Definition set_partition (p : option partition) (u : upload) : upload :=
  Upload (u_status u) p (u_handle u) (u_open u) (u_id u) (u_expected u) (u_hash u) (u_activity_ms u).
Definition set_handle (h : Z) (u : upload) : upload :=
  Upload (u_status u) (u_partition u) h (u_open u) (u_id u) (u_expected u) (u_hash u) (u_activity_ms u).
Definition set_open (b : bool) (u : upload) : upload :=
  Upload (u_status u) (u_partition u) (u_handle u) b (u_id u) (u_expected u) (u_hash u) (u_activity_ms u).
Definition set_id (id : list Z) (u : upload) : upload :=
  Upload (u_status u) (u_partition u) (u_handle u) (u_open u) id (u_expected u) (u_hash u) (u_activity_ms u).
Definition set_expected (e : list Z) (u : upload) : upload :=
  Upload (u_status u) (u_partition u) (u_handle u) (u_open u) (u_id u) e (u_hash u) (u_activity_ms u).
Definition set_hash (x : hash) (u : upload) : upload :=
  Upload (u_status u) (u_partition u) (u_handle u) (u_open u) (u_id u) (u_expected u) x (u_activity_ms u).
Definition set_activity (t : Z) (u : upload) : upload :=
  Upload (u_status u) (u_partition u) (u_handle u) (u_open u) (u_id u) (u_expected u) (u_hash u) t.

(** The module's state, on the machine. *)
Record ota := Ota { o_upload : upload; o_machine : machine }.

Abbreviation OM := (SM ota).

Definition the_upload : OM upload := asks o_upload.
Definition change_upload (f : upload -> upload) : OM () := modify (λ o, Ota (f (o_upload o)) (o_machine o)).
Definition on_machine {A} (f : machine -> A * machine) : OM A := calling (λ o, let '(x, m) := f (o_machine o) in (x, Ota (o_upload o) m)).
Definition of_machine {A} (f : machine -> A) : OM A := asks (λ o, f (o_machine o)).

Definition ota_now_ms : OM Z := t ← on_machine ota_timer; mret (u64 t / 1000).

(** [snprintf(upload.status.message, ...)]. *)
Definition ota_message (text : list Z) : OM () :=
  u ← the_upload; m ← checked (snprintf (s_message (u_status u)) 112 text); change_upload (over_status (set_message m)).

Definition ota_fail (reason : string) : OM bool := ota_message (lit reason);; mret false.

Definition release : OM () :=
  u ← the_upload;
  when (u_open u) (on_machine (λ m, (tt, esp_ota_abort (u_handle u) m)));;
  change_upload (λ u, over_status (set_active false) (set_open false u));;
  h ← on_machine (psa_hash_abort (u_hash u));
  change_upload (set_hash h);;
  id ← checked (cf_secure_zero (u_id u) 33); change_upload (set_id id);;
  expected ← checked (cf_secure_zero (u_expected u) 32); change_upload (set_expected expected).

Definition release_and_fail (reason : string) : OM bool := release;; ota_fail reason.

(** The id is a C string, or null. *)
Definition matches (id : option (list Z)) : OM bool :=
  u ← the_upload;
  match id with
  | Some id =>
      if negb (s_active (u_status u)) then mret false else
      n ← checked (strlen id); if negb (n =? 32) then mret false else checked (memeq id (u_id u) 32)
  | None => mret false
  end.

(** Is there an inactive slot? *)
Definition inactive_slot (running next : option partition) : bool :=
  match next, running with Some n, Some r => negb (p_address n =? p_address r) | _, _ => false end.

Definition monitor_ota_snapshot : OM monitor_ota_status :=
  u ← the_upload;
  running ← of_machine running_partition;
  next ← of_machine next_partition;
  let s := u_status u in
  let available := inactive_slot running next in
  label ← checked (match running with Some r => c_string (p_label r) | None => Some (lit "unknown") end);
  name ← checked (snprintf (s_running s) 17 label);
  let s := set_slot available (match next with Some n => p_size n | None => 0 end) name s in
  first ← checked (rd (s_message s) 0);
  if negb (first =? 0) then mret s else
  m ← checked (snprintf (s_message s) 112 (if available then lit "Ready for a firmware image." else lit "Install the OTA partition layout over USB first."));
  mret (set_message m s).

(** The new upload of [size] bytes into the inactive slot. *)
Definition begin_upload (size : Z) (expected : list Z) : OM (bool * list Z) :=
  change_upload (λ _, over_status (λ s, set_total size (set_active true s)) zero_upload);;
  slot ← of_machine next_partition;
  change_upload (λ u, set_expected expected (set_partition slot u));;
  random ← on_machine (random_bytes 16);
  u ← the_upload;
  id ← checked (id_loop random 0 (u_id u)); change_upload (set_id id);;
  p ← checked slot; label ← checked (c_string (p_label p));
  target ← checked (snprintf (s_target (u_status u)) 17 label); change_upload (over_status (set_target target));;
  now ← ota_now_ms;
  change_upload (λ u, set_hash psa_hash_operation_init (set_activity now u));;
  rc ← on_machine psa_crypto_init;
  ready ← (if negb (rc =? 0) then mret false else
    '(rc, h) ← on_machine (psa_hash_setup psa_hash_operation_init); change_upload (set_hash h);; mret (rc =? 0));
  if negb ready then r ← release_and_fail "SHA256 initialization failed."; mret (r, id)
  else ota_message (lit "Upload started.");; mret (true, id).

(** The result, and what was written to [id] when something was. *)
Definition monitor_ota_start (size : Z) (sha256 : option (list Z)) (id : list Z) : OM (bool * list Z) :=
  u ← the_upload;
  if s_active (u_status u) || s_ready (u_status u) then r ← ota_fail "An update is already in progress or awaiting restart."; mret (r, id) else
  status ← monitor_ota_snapshot;
  if negb (s_available status) then r ← ota_fail "OTA partitions unavailable. Install the OTA layout over USB first."; mret (r, id) else
  if (size <? SIZEOF_IMAGE_HEADER + SIZEOF_SEGMENT_HEADER + SIZEOF_APP_DESC) || (s_capacity status <? size)
  then r ← ota_fail "The firmware size is outside the inactive OTA slot capacity."; mret (r, id) else
  match sha256 with
  | None => r ← ota_fail "A 64-character SHA256 digest is required."; mret (r, id)
  | Some sha =>
      n ← checked (strlen sha);
      if negb (n =? 64) then r ← ota_fail "A 64-character SHA256 digest is required."; mret (r, id) else
      expected ← checked (digest_loop sha 32 0 (replicate 32 0));
      match expected with
      | None => r ← ota_fail "Invalid SHA256 digest."; mret (r, id)
      | Some expected => begin_upload size expected
      end
  end.

(** Does the first chunk begin an application image of this project? *)
Definition image_accepted (header app : list Z) : option bool :=
  if negb (header_magic header =? ESP_IMAGE_HEADER_MAGIC) || negb (header_chip_id header =? CONFIG_IDF_FIRMWARE_CHIP_ID) ||
     negb (header_hash_appended header) || negb (app_magic_word app =? ESP_APP_DESC_MAGIC_WORD)
  then Some false else memeq (app_project_name app) current_project_name 32.

(** The first chunk: the image is checked, then the slot opened; the result when
    the upload cannot go on. *)
Definition open_slot (bytes : list Z) (size : Z) : OM (option bool) :=
  let prefix := SIZEOF_IMAGE_HEADER + SIZEOF_SEGMENT_HEADER in
  if size <? prefix + SIZEOF_APP_DESC then r ← ota_fail "The first chunk must include the firmware descriptor."; mret (Some r) else
  header ← checked (slice bytes 0 SIZEOF_IMAGE_HEADER);
  app ← checked (slice bytes prefix SIZEOF_APP_DESC);
  accepted ← checked (image_accepted header app);
  if negb accepted then r ← release_and_fail "Use an ESP32-S3 ESP Monitor application .bin, not a merged flash image."; mret (Some r) else
  u ← the_upload;
  version ← checked (snprintf (s_fw_version (u_status u)) 33 (until_nul (app_version app)));
  change_upload (over_status (set_fw_version version));;
  slot ← checked (u_partition u);
  '(rc, handle) ← on_machine (esp_ota_begin slot);
  change_upload (set_handle handle);;
  if negb (rc =? 0) then r ← release_and_fail "Unable to open the inactive OTA slot."; mret (Some r) else
  change_upload (set_open true);; mret None.

(** The bytes go to the slot and into the digest. *)
Definition write_chunk (bytes : list Z) (size : Z) : OM bool :=
  u ← the_upload;
  text ← checked (slice bytes 0 size);
  rc ← on_machine (esp_ota_write (u_handle u) text);
  stored ← (if negb (rc =? 0) then mret false else
    '(rc, h) ← on_machine (psa_hash_update (u_hash u) text); change_upload (set_hash h);; mret (rc =? 0));
  if negb stored then release_and_fail "Firmware write failed; the running image is unchanged." else
  now ← (change_upload (over_status (set_received (usize (s_received (u_status u) + size))));; ota_now_ms);
  change_upload (set_activity now);; mret true.

Definition monitor_ota_write (id : option (list Z)) (offset : Z) (bytes : option (list Z)) (size : Z) : OM bool :=
  ours ← matches id;
  if negb ours then ota_fail "The upload session is not active." else
  u ← the_upload;
  let s := u_status u in
  match bytes with
  | Some bytes =>
      if negb (offset =? s_received s) || (size =? 0) || (MONITOR_OTA_CHUNK <? size) || (usize (s_total s - s_received s) <? size)
      then ota_fail "Invalid chunk size or offset; upload was not advanced." else
      stop ← (if negb (u_open u) then open_slot bytes size else mret None);
      match stop with Some r => mret r | None => write_chunk bytes size end
  | None => ota_fail "Invalid chunk size or offset; upload was not advanced."
  end.

(** The digest of what was written is the expected one. *)
Definition digest_matches : OM bool :=
  u ← the_upload;
  '(rc, actual, n, h) ← on_machine (λ m, let '(rc, actual, n, h, m) := psa_hash_finish (u_hash u) m in ((rc, actual, n, h), m));
  change_upload (set_hash h);;
  if negb (rc =? 0) || negb (n =? 32) then mret false else checked (memeq actual (u_expected u) 32).

Definition monitor_ota_finish (id : option (list Z)) : OM bool :=
  ours ← matches id;
  u ← the_upload;
  if negb ours || negb (u_open u) || negb (s_received (u_status u) =? s_total (u_status u)) then ota_fail "The firmware upload is incomplete." else
  same ← digest_matches;
  if negb same then release_and_fail "SHA256 mismatch; the running image is unchanged." else
  result ← on_machine (esp_ota_end (u_handle u));
  change_upload (set_open false);;
  if negb (result =? 0) then release_and_fail "ESP image validation failed; the running image is unchanged." else
  slot ← checked (u_partition u);
  result ← on_machine (esp_ota_set_boot_partition slot);
  release;;
  if negb (result =? 0) then ota_fail "Unable to select the verified image for the next boot." else
  change_upload (over_status set_ready);;
  ota_message (lit "Firmware verified. Restarting into the updated image.");; mret true.

Definition monitor_ota_abort (id : option (list Z)) : OM bool :=
  ours ← matches id;
  if negb ours then ota_fail "The upload session is not active." else
  release;; ota_message (lit "Upload cancelled; the running image is unchanged.");; mret true.

Definition monitor_ota_tick : OM () :=
  u ← the_upload;
  if negb (s_active (u_status u)) then mret tt else
  now ← ota_now_ms;
  if 60000 <? u64 (now - u_activity_ms u)
  then release_and_fail "Upload expired after 60 seconds without a chunk.";; mret tt
  else mret tt.

(** [false]: the firmware stops, and the next boot rolls back. *)
Definition monitor_ota_confirm_boot : OM bool :=
  running ← of_machine running_partition;
  match running with
  | Some p =>
      pending ← of_machine (pending_verify p);
      if (pending : bool) then rc ← on_machine mark_app_valid; mret (rc =? 0) else mret true
  | None => mret true
  end.

End Upload.
