(* ===== verification/MonitorUpdate.v ===== *)
(** The firmware update of the system monitor: what it relies on in the machine,
    its invariant, and that only the announced image is ever selected. *)
From S2P Require Export Token MonitorOta.

(** What can be observed of the machine: the partition of the next boot, the
    running image and the image that each slot holds (by its address), what was
    written by an update handle; the digest, and what an operation absorbed. *)
Class MachineView `{Updater} := {
  boot : machine -> option partition;
  contents : machine -> Z -> option (list Z);
  written : machine -> Z -> option (partition * list Z);
  sha256 : list Z -> list Z;
  absorbs : hash -> list Z -> Prop
}.

Section View.
Context `{MachineView}.

(** Nothing but the slot changed. *)
Definition kept (slot : option partition) (m m' : machine) : Prop :=
  running_partition m' = running_partition m /\ next_partition m' = next_partition m /\ boot m' = boot m /\
  forall a, (forall p, slot = Some p -> a <> p_address p) -> contents m' a = contents m a.

(** Nothing changed that can be observed. *)
Definition untouched (m m' : machine) : Prop := kept None m m' /\ (forall h, written m' h = written m h).

Lemma kept_refl slot m : kept slot m m.
Proof. by split_and!. Qed.

Lemma kept_trans slot m1 m2 m3 : kept slot m1 m2 -> kept slot m2 m3 -> kept slot m1 m3.
Proof.
  intros (R1 & N1 & B1 & C1) (R2 & N2 & B2 & C2); split; [congruence|]; split; [congruence|]; split; [congruence|].
  intros a Ha; by rewrite C2, C1.
Qed.

Lemma untouched_kept slot m m' : untouched m m' -> kept slot m m'.
Proof. intros [(R & N & B & C) _]; split_and!; try done; intros a _; by apply C. Qed.

Lemma untouched_trans m1 m2 m3 : untouched m1 m2 -> untouched m2 m3 -> untouched m1 m3.
Proof. intros [K1 W1] [K2 W2]; split; [by eapply kept_trans|]; intros h; by rewrite W2, W1. Qed.

Lemma untouched_refl m : untouched m m.
Proof. split; [apply kept_refl|done]. Qed.

End View.

(** The documented behaviour of the SDK's update functions and of PSA. *)
Class UpdaterLaws `{MachineView} `{ImageFormat} := {
  timer_law m : untouched m (ota_timer m).2;
  random_law n m : 0 <= n -> untouched m (random_bytes n m).2 /\ zlen (random_bytes n m).1 = n /\ bytes_ok (random_bytes n m).1;
  slots_law m p : running_partition m = Some p \/ next_partition m = Some p -> 0 ∈ p_label p /\ 0 <= p_size p <= SIZE_MAX;
  begin_law p m rc h m' : esp_ota_begin p m = (rc, h, m') -> kept (Some p) m m' /\ (rc = 0 -> written m' h = Some (p, []));
  write_law h t m p l rc m' : esp_ota_write h t m = (rc, m') -> written m h = Some (p, l) ->
    kept (Some p) m m' /\ (rc = 0 -> written m' h = Some (p, l ++ t)) /\ (rc <> 0 -> exists l', written m' h = Some (p, l'));
  end_law h m p l rc m' : esp_ota_end h m = (rc, m') -> written m h = Some (p, l) ->
    kept (Some p) m m' /\ (rc = 0 -> contents m' (p_address p) = Some l);
  abort_law h m p l : written m h = Some (p, l) -> kept (Some p) m (esp_ota_abort h m);
  boot_law p m rc m' : esp_ota_set_boot_partition p m = (rc, m') ->
    running_partition m' = running_partition m /\ next_partition m' = next_partition m /\ (forall a, contents m' a = contents m a) /\
    boot m' = if rc =? 0 then Some p else boot m;
  init_law m : untouched m (psa_crypto_init m).2;
  setup_law m rc h m' : psa_hash_setup psa_hash_operation_init m = (rc, h, m') -> untouched m m' /\ (rc = 0 -> absorbs h []);
  update_law h t m rc h' m' : psa_hash_update h t m = (rc, h', m') -> untouched m m' /\ forall l, rc = 0 -> absorbs h l -> absorbs h' (l ++ t);
  finish_law h m rc out n h' m' : psa_hash_finish h m = (rc, out, n, h', m') ->
    untouched m m' /\ zlen out = 32 /\ forall l, rc = 0 -> absorbs h l -> out = sha256 l;
  hash_abort_law h m : untouched m (psa_hash_abort h m).2;
  digest_law l : zlen (sha256 l) = 32;
  format_law : 0 <= SIZEOF_IMAGE_HEADER /\ 0 <= SIZEOF_SEGMENT_HEADER /\ 0 < SIZEOF_APP_DESC /\ 32 <= zlen current_project_name;
  project_law app : zlen app = SIZEOF_APP_DESC -> 32 <= zlen (app_project_name app)
}.

(** ** The digest of an announcement *)

Lemma digest_pair a b : 0 <= ota_hex a -> 0 <= ota_hex b -> u8 (Z.lor (Z.shiftl (ota_hex a) 4) (ota_hex b)) = hex a * 16 + hex b.
Proof.
  assert (forall c, ota_hex c < 16) as Hlt by (intros c; unfold ota_hex; repeat case_if; bool_to_prop; lia).
  intros Ha Hb; pose proof (Hlt a); pose proof (Hlt b); change (hex a) with (ota_hex a); change (hex b) with (ota_hex b).
  rewrite lor_shiftl by (change (2 ^ 4) with 16; lia); apply wrap_small; change (2 ^ 8) with 256; change (2 ^ 4) with 16; lia.
Qed.

Lemma digest_loop_spec sha k : forall a b e, (exists rest, sha = a ++ b ++ rest) -> zlen b = 2 * Z.of_nat k -> zlen a = 2 * zlen e ->
  forall junk, zlen junk = Z.of_nat k -> digest_loop sha k (zlen e) (e ++ junk) = Some (if forallb (λ c, 0 <=? hex c) b then Some (e ++ unhex b) else None).
Proof.
  induction k as [|k IH]; intros a b e [rest ->] Hb Ha junk Hj; cbn [digest_loop].
  { destruct b; [|rewrite zlen_cons in Hb; pose proof (zlen_nonneg b); lia]; destruct junk; [done|rewrite zlen_cons in Hj; pose proof (zlen_nonneg junk); lia]. }
  destruct b as [|x [|y b]]; [rewrite zlen_nil in Hb; lia|rewrite zlen_cons, zlen_nil in Hb; lia|]; rewrite !zlen_cons in Hb.
  destruct junk as [|j junk]; [rewrite zlen_nil in Hj; lia|]; rewrite zlen_cons in Hj.
  rewrite <- Ha, <- (Z.add_0_r (zlen a)), !rd_app_r, <- Z.add_assoc, rd_app_r by lia; cbn [app]; change (rd (x :: y :: b ++ rest) 0) with (Some x); change (rd (x :: y :: b ++ rest) (0 + 1)) with (Some y); cbn [mbind option_bind forallb].
  change (hex x) with (ota_hex x); change (hex y) with (ota_hex y).
  destruct (Z.ltb_spec (ota_hex x) 0) as [|Hx]; [by replace (0 <=? ota_hex x) with false by lia|]; replace (0 <=? ota_hex x) with true by lia.
  destruct (Z.ltb_spec (ota_hex y) 0) as [|Hy]; [by replace (0 <=? ota_hex y) with false by lia|]; replace (0 <=? ota_hex y) with true by lia; cbn [orb andb].
  rewrite digest_pair by done; assert (wr (e ++ j :: junk) (zlen e) (hex x * 16 + hex y) = Some (e ++ (hex x * 16 + hex y) :: junk)) as -> by exact (blit_app e [j] junk [hex x * 16 + hex y] eq_refl); cbn [mbind option_bind].
  replace (zlen e + 1) with (zlen (e ++ [hex x * 16 + hex y])) by (rewrite zlen_app; done).
  replace (e ++ (hex x * 16 + hex y) :: junk) with ((e ++ [hex x * 16 + hex y]) ++ junk) by (by rewrite <- app_assoc).
  rewrite (IH (a ++ [x; y]) b); [|by exists rest; rewrite <- app_assoc|lia|rewrite !zlen_app, !zlen_cons, !zlen_nil; lia|lia].
  cbn [unhex]; by rewrite <- app_assoc.
Qed.

Section Update.
Context `{UpdaterLaws}.

(** ** The arrays *)

Record arrays_ok (u : upload) : Prop := {
  ao_message : text_array 112 (s_message (u_status u));
  ao_running : text_array 17 (s_running (u_status u));
  ao_target : text_array 17 (s_target (u_status u));
  ao_version : text_array 33 (s_fw_version (u_status u));
  ao_id : zlen (u_id u) = 33;
  ao_expected : zlen (u_expected u) = 32
}.

Lemma zero_arrays : arrays_ok zero_upload.
Proof. by constructor; try (split; [done|]; apply list_elem_of_lookup; by exists 0%nat). Qed.

(** ** Steps *)

Lemma runs_upload {Q : upload -> ota -> Prop} u m : Q u (Ota u m) -> runs the_upload (Ota u m) Q.
Proof. intros HQ; by apply runs_asks. Qed.

Lemma runs_upload_change {Q : () -> ota -> Prop} f u m : Q tt (Ota (f u) m) -> runs (change_upload f) (Ota u m) Q.
Proof. intros HQ; by apply runs_modify. Qed.

Lemma runs_machine {A} {Q : A -> ota -> Prop} (f : machine -> A * machine) u m : Q (f m).1 (Ota u (f m).2) -> runs (on_machine f) (Ota u m) Q.
Proof. intros HQ; unfold on_machine; apply runs_calling; cbn; by destruct (f m). Qed.

Lemma runs_of_machine {A} {Q : A -> ota -> Prop} (f : machine -> A) u m : Q (f m) (Ota u m) -> runs (of_machine f) (Ota u m) Q.
Proof. intros HQ; by apply runs_asks. Qed.

Lemma runs_now {Q : Z -> ota -> Prop} u m : (forall t m', untouched m m' -> Q t (Ota u m')) -> runs ota_now_ms (Ota u m) Q.
Proof. intros HQ; unfold ota_now_ms; apply runs_bind, runs_machine, runs_ret, HQ, timer_law. Qed.

(** The upload with another message. *)
Definition said (m : list Z) (u : upload) : upload := over_status (set_message m) u.

Lemma runs_say {Q : () -> ota -> Prop} text u m : arrays_ok u -> (forall x, arrays_ok (said x u) -> Q tt (Ota (said x u) m)) -> runs (ota_message text) (Ota u m) Q.
Proof.
  intros [[Hz Hn] Hr Ht Hv Hi He] HQ; unfold ota_message; apply runs_bind, runs_upload.
  destruct (snprintf_spec (s_message (u_status u)) 112 text) as (x & E & Hzx & Hnx); [lia|]; apply runs_bind; eapply runs_checked; [exact E|].
  apply runs_upload_change, HQ; constructor; try done; split; [cbn; lia|done].
Qed.

Lemma runs_refuse {Q : bool -> ota -> Prop} reason u m : arrays_ok u -> (forall x, arrays_ok (said x u) -> Q false (Ota (said x u) m)) -> runs (ota_fail reason) (Ota u m) Q.
Proof. intros Hu HQ; unfold ota_fail; apply runs_bind, runs_say; [done|]; intros x Hx; apply runs_ret; auto. Qed.

(** The upload given up. *)
Definition released (x : hash) (u : upload) : upload :=
  set_expected (replicate 32 0) (set_id (replicate 33 0) (set_hash x (over_status (set_active false) (set_open false u)))).

Lemma released_arrays x u : arrays_ok u -> arrays_ok (released x u).
Proof. intros [Hm Hr Ht Hv Hi He]; by constructor. Qed.

Lemma runs_zero {Q : list Z -> ota -> Prop} l n u m : 0 <= n -> zlen l = n -> Q (replicate (Z.to_nat n) 0) (Ota u m) -> runs (checked (cf_secure_zero l n)) (Ota u m) Q.
Proof.
  intros Hn Hl HQ; destruct (erase_spec l n) as (l' & E & _ & _ & ->); [lia|]; eapply runs_checked; [exact E|].
  by rewrite drop_ge, app_nil_r by (unfold zlen in Hl; lia).
Qed.

Lemma runs_release {Q : () -> ota -> Prop} slot u m : arrays_ok u -> (u_open u = true -> exists p l, slot = Some p /\ written m (u_handle u) = Some (p, l)) ->
  (forall x m', kept slot m m' -> (u_open u = false -> untouched m m') -> Q tt (Ota (released x u) m')) -> runs release (Ota u m) Q.
Proof.
  intros Hu Ho HQ; unfold release; apply runs_bind, runs_upload, runs_bind.
  assert (forall m1, kept slot m m1 -> (u_open u = false -> untouched m m1) ->
    runs (change_upload (λ u, over_status (set_active false) (set_open false u));; h ← on_machine (psa_hash_abort (u_hash u)); change_upload (set_hash h);;
      id ← checked (cf_secure_zero (u_id u) 33); change_upload (set_id id);;
      expected ← checked (cf_secure_zero (u_expected u) 32); change_upload (set_expected expected)) (Ota u m1) Q) as Hrest.
  { intros m1 K1 U1; apply runs_bind, runs_upload_change, runs_bind, runs_machine, runs_bind, runs_upload_change, runs_bind, runs_zero; [lia|apply Hu|].
    apply runs_bind, runs_upload_change, runs_bind, runs_zero; [lia|apply Hu|]; apply runs_upload_change; pose proof (hash_abort_law (u_hash u) m1) as Hm.
    apply HQ; [eapply kept_trans; [exact K1|by apply untouched_kept]|intros E; eapply untouched_trans; [by apply U1|done]]. }
  apply runs_when; [|intros E; apply Hrest; [apply kept_refl|intros _; apply untouched_refl]].
  intros E; destruct (Ho E) as (p & l & -> & Hw); apply runs_machine; apply Hrest; [by eapply abort_law|congruence].
Qed.

Lemma runs_give_up {Q : bool -> ota -> Prop} slot reason u m : arrays_ok u -> (u_open u = true -> exists p l, slot = Some p /\ written m (u_handle u) = Some (p, l)) ->
  (forall x t m', kept slot m m' -> (u_open u = false -> untouched m m') -> arrays_ok (said t (released x u)) -> Q false (Ota (said t (released x u)) m')) ->
  runs (release_and_fail reason) (Ota u m) Q.
Proof.
  intros Hu Ho HQ; unfold release_and_fail; apply runs_bind, (runs_release slot); [done..|]; intros x m' K U; apply runs_refuse; [by apply released_arrays|auto].
Qed.

(** ** The invariant *)

(** What was announced by the last upload that began (its size, the text of its
    digest), and the bytes accepted since. *)
Definition history : Type := option (Z * list Z * list Z).

(** From the machine [m0] on: the arrays are in order, the slots are the same, and
    the running image is as it was. *)
Record common (m0 : machine) (u : upload) (m : machine) : Prop := {
  cm_arrays : arrays_ok u;
  cm_running : running_partition m = running_partition m0;
  cm_next : next_partition m = next_partition m0;
  cm_image : forall r, running_partition m0 = Some r -> contents m (p_address r) = contents m0 (p_address r)
}.

(** The slot for updates is not the running one. *)
Definition update_slot (m0 : machine) (p : partition) : Prop :=
  next_partition m0 = Some p /\ exists r, running_partition m0 = Some r /\ p_address p <> p_address r.

(** An upload under way. *)
Record busy (m0 : machine) (size : Z) (sha l : list Z) (p : partition) (u : upload) (m : machine) : Prop := {
  bs_active : s_active (u_status u) = true;
  bs_ready : s_ready (u_status u) = false;
  bs_boot : boot m = boot m0;
  bs_slot : update_slot m0 p /\ u_partition u = Some p;
  bs_total : s_total (u_status u) = size /\ 0 <= size <= SIZE_MAX;
  bs_received : s_received (u_status u) = zlen l /\ zlen l <= size;
  bs_expected : u_expected u = unhex sha;
  bs_absorbs : absorbs (u_hash u) l;
  bs_written : if u_open u then written m (u_handle u) = Some (p, l) else l = []
}.

(** The announced image is in the slot and boots next. *)
Record selected (m0 : machine) (size : Z) (sha l : list Z) (p : partition) (m : machine) : Prop := {
  sl_slot : update_slot m0 p;
  sl_boot : boot m = Some p;
  sl_contents : contents m (p_address p) = Some l;
  sl_size : zlen l = size;
  sl_digest : sha256 l = unhex sha
}.

Inductive phase (m0 : machine) : history -> upload -> machine -> Prop :=
| PhaseIdle h u m : s_active (u_status u) = false -> s_ready (u_status u) = false -> u_open u = false -> boot m = boot m0 -> phase m0 h u m
| PhaseBusy size sha l p u m : busy m0 size sha l p u m -> phase m0 (Some (size, sha, l)) u m
| PhaseDone size sha l p u m : s_active (u_status u) = false -> s_ready (u_status u) = true -> u_open u = false -> selected m0 size sha l p m ->
    phase m0 (Some (size, sha, l)) u m.

Definition in_order (m0 : machine) (h : history) (o : ota) : Prop := common m0 (o_upload o) (o_machine o) /\ phase m0 h (o_upload o) (o_machine o).

Lemma common_kept m0 slot u m u' m' : common m0 u m -> kept slot m m' -> (forall p, slot = Some p -> update_slot m0 p) -> arrays_ok u' -> common m0 u' m'.
Proof.
  intros [_ Cr Cn Ci] (R & N & _ & C) Hslot Hu; constructor; [done|congruence|congruence|]; intros r Hr; rewrite C; [by apply Ci|].
  intros p Hp; destruct (Hslot p Hp) as (_ & r' & Hr' & Hne); congruence.
Qed.

Lemma said_common m0 x u m : common m0 u m -> arrays_ok (said x u) -> common m0 (said x u) m.
Proof. by intros [_ Cr Cn Ci] Hu. Qed.

Lemma said_phase m0 h x u m : phase m0 h u m -> phase m0 h (said x u) m.
Proof.
  intros [h' u' m' Ha Hr Ho Hb|size sha l p u' m' [Ba Br Bb Bs Bt Bc Be Bh Bw]|size sha l p u' m' Ha Hr Ho Hs];
    [by apply PhaseIdle|by eapply PhaseBusy; constructor|by eapply PhaseDone].
Qed.

Lemma runs_refused {Q : bool -> ota -> Prop} m0 h reason u m : in_order m0 h (Ota u m) -> (forall o, in_order m0 h o -> Q false o) -> runs (ota_fail reason) (Ota u m) Q.
Proof.
  intros [Hc Hp] HQ; apply runs_refuse; [apply Hc|]; intros x Hx; apply HQ; split; [by apply said_common|by apply said_phase].
Qed.

(** An upload given up leaves the module idle, and nothing selected. *)
Lemma runs_given_up {Q : bool -> ota -> Prop} m0 h reason slot u m : common m0 u m -> s_ready (u_status u) = false -> boot m = boot m0 ->
  (forall p, slot = Some p -> update_slot m0 p) ->
  (u_open u = true -> exists p l, slot = Some p /\ written m (u_handle u) = Some (p, l)) ->
  (forall o, in_order m0 h o -> Q false o) -> runs (release_and_fail reason) (Ota u m) Q.
Proof.
  intros Hc Hr Hb Hslot Ho HQ; apply (runs_give_up slot); [apply Hc|done|]; intros x t m' K U Ha; apply HQ; split; [by eapply common_kept|].
  apply PhaseIdle; try done; destruct K as (_ & _ & Kb & _); cbn [o_machine]; congruence.
Qed.

Lemma busy_given_up {Q : bool -> ota -> Prop} m0 h reason size sha l p u m : common m0 u m -> busy m0 size sha l p u m ->
  (forall o, in_order m0 h o -> Q false o) -> runs (release_and_fail reason) (Ota u m) Q.
Proof.
  intros Hc [Ba Br Bb [Bs Bp] Bt Bc Be Bh Bw] HQ; apply (runs_given_up m0 h reason (Some p)); try done.
  - by intros p' [= <-].
  - intros Eo; rewrite Eo in Bw; by exists p, l.
Qed.

(** ** The calls *)

Definition id_ok (id : option (list Z)) : Prop := forall i, id = Some i -> 0 ∈ i.

(** This is the id of the upload under way. *)
Definition names_upload (id : option (list Z)) (u : upload) : Prop :=
  s_active (u_status u) = true /\ exists i t, id = Some i /\ cstr i t /\ t = take 32 (u_id u).

Lemma runs_matches {Q : bool -> ota -> Prop} id u m : id_ok id -> arrays_ok u ->
  (forall b, (b = true <-> names_upload id u) -> Q b (Ota u m)) -> runs (matches id) (Ota u m) Q.
Proof.
  intros Hid Hu HQ; pose proof (ao_id u Hu) as Hz; unfold matches; apply runs_bind, runs_upload.
  destruct id as [i|]; [|apply runs_ret, HQ; split; [done|]; by intros (_ & i & t & ? & _)].
  destruct (s_active (u_status u)) eqn:Ea; cbn [negb]; [|apply runs_ret, HQ; split; [done|]; intros [? _]; congruence].
  destruct (terminated_cstr i (Hid i eq_refl)) as [t Ht]; apply runs_bind; eapply runs_checked; [by apply strlen_spec|].
  assert (length (take 32 (u_id u)) = 32%nat) as Htake by (rewrite length_take; unfold zlen in Hz; lia).
  destruct (Z.eqb_spec (zlen t) 32) as [E|E]; cbn [negb].
  - pose proof Ht as (rest & -> & _); assert (memeq (t ++ 0 :: rest) (u_id u) 32 = Some (bool_decide (t = take 32 (u_id u)))) as Em.
    { unfold memeq; pose proof (zlen_nonneg rest); rewrite !slice_sub by (rewrite ?zlen_app, ?zlen_cons; lia); rewrite sub_head by done; done. }
    eapply runs_checked; [exact Em|]; apply HQ; rewrite bool_decide_eq_true; split; [intros ->; split; [done|]; by eexists _, _|].
    intros (_ & i & t' & [= <-] & Ht' & ->); by eapply cstr_unique.
  - apply runs_ret, HQ; split; [done|]; intros (_ & i' & t' & [= <-] & Ht' & ->); rewrite (cstr_unique _ _ _ Ht Ht') in E; unfold zlen in E; lia.
Qed.

(** The strings of a snapshot end inside their arrays. *)
Definition texts_ok (s : monitor_ota_status) : Prop :=
  text_array 112 (s_message s) /\ text_array 17 (s_running s) /\ text_array 17 (s_target s) /\ text_array 33 (s_fw_version s).

Lemma runs_snapshot {Q : monitor_ota_status -> ota -> Prop} u m : arrays_ok u ->
  (forall s, s_available s = inactive_slot (running_partition m) (next_partition m) ->
     s_capacity s = match next_partition m with Some n => p_size n | None => 0 end -> texts_ok s -> Q s (Ota u m)) ->
  runs monitor_ota_snapshot (Ota u m) Q.
Proof.
  intros [[Hmz Hmn] [Hrz Hrn] Htar Hver _ _] HQ; unfold monitor_ota_snapshot.
  apply runs_bind, runs_upload, runs_bind, runs_of_machine, runs_bind, runs_of_machine, runs_bind.
  assert (exists label, match running_partition m with Some r => c_string (p_label r) | None => Some (lit "unknown") end = Some label) as [label El].
  { destruct (running_partition m) as [r|] eqn:Er; [|by eexists]; destruct (slots_law m r (or_introl Er)) as [Hl _].
    destruct (terminated_cstr _ Hl) as [t Ht]; exists t; by apply c_string_spec. }
  eapply runs_checked; [exact El|]; destruct (snprintf_spec (s_running (u_status u)) 17 label) as (name & En & Hnz & Hn); [lia|].
  apply runs_bind; eapply runs_checked; [exact En|]; apply runs_bind; cbn [s_message set_slot].
  destruct (rd_Some (s_message (u_status u)) 0) as (first & Ef & _); [lia|]; eapply runs_checked; [exact Ef|].
  destruct (negb (first =? 0)); [apply runs_ret, HQ; try done; split_and!; try done; split; [cbn; lia|done]|]; destruct (snprintf_spec (s_message (u_status u)) 112
    (if inactive_slot (running_partition m) (next_partition m) then lit "Ready for a firmware image." else lit "Install the OTA partition layout over USB first.")) as (x & Ex & Hxz & Hx); [lia|].
  apply runs_bind; eapply runs_checked; [exact Ex|]; apply runs_ret, HQ; try done; split_and!; try done; split; cbn; lia || done.
Qed.

(** The loop that writes the id: after [pre], two digits for each byte and a NUL. *)
Definition hex_text (random : list Z) : list Z := flat_map (λ r, [hex_char (r / 16); hex_char (r mod 16)]) random.

Lemma id_loop_spec random : forall i id pre rest, 0 <= i -> id = pre ++ rest -> zlen pre = 2 * i -> random <> [] -> 2 * (i + zlen random) + 1 <= zlen id ->
  exists id', id_loop random i id = Some id' /\ zlen id' = zlen id /\ exists rest', id' = pre ++ hex_text random ++ 0 :: rest'.
Proof.
  induction random as [|r random IH]; intros i id pre rest Hi Hid Hpre Hne Hz; [done|]; cbn [id_loop]; rewrite zlen_cons in Hz; pose proof (zlen_nonneg random).
  assert (3 <= zlen rest) as Hrest by (rewrite Hid, zlen_app in Hz; lia); set (two := [hex_char (r / 16); hex_char (r mod 16)]).
  assert (blit id (2 * i) [hex_char (r / 16); hex_char (r mod 16); 0] = Some (pre ++ two ++ 0 :: drop 3 rest)) as ->.
  { rewrite Hid, <- (take_drop 3 rest), <- Hpre at 1; apply (blit_app pre (take 3 rest) (drop 3 rest) (two ++ [0])); rewrite length_take; change (length (two ++ [0])) with 3%nat; unfold zlen in Hrest; lia. }
  cbn [mbind option_bind]; assert (zlen (pre ++ two ++ 0 :: drop 3 rest) = zlen id) as Hz1.
  { rewrite Hid, !zlen_app, zlen_cons; change (zlen two) with 2; unfold zlen in *; rewrite length_drop; lia. }
  destruct random as [|r' random].
  - cbn [id_loop]; eexists; split; [done|]; split; [done|]; by exists (drop 3 rest).
  - destruct (IH (i + 1) (pre ++ two ++ 0 :: drop 3 rest) (pre ++ two) (0 :: drop 3 rest)) as (id' & -> & Hz' & rest' & E'); [lia|by rewrite <- app_assoc|rewrite zlen_app; unfold two; rewrite !zlen_cons, zlen_nil; lia|done|lia|].
    exists id'; split; [done|]; split; [lia|]; exists rest'; by rewrite E', <- app_assoc.
Qed.

(** The new upload: accepted, or given up at once. *)
Lemma runs_begin {Q : bool * list Z -> ota -> Prop} m0 h size sha p u m : common m0 u m -> boot m = boot m0 -> update_slot m0 p -> zlen sha = 64 -> 0 <= size <= SIZE_MAX ->
  (forall (r : bool) id o, in_order m0 (if r then Some (size, sha, []) else h) o -> 0 ∈ id -> Q (r, id) o) -> runs (begin_upload size (unhex sha)) (Ota u m) Q.
Proof.
  intros Hc Hb Hslot Hz Hsize HQ; assert (zlen (unhex sha) = 32) as Hez by (apply (Token.zlen_unhex sha 32); unfold zlen in Hz; lia); unfold begin_upload.
  pose proof Hslot as [Hnext _]; rewrite <- (cm_next _ _ _ Hc) in Hnext; destruct (slots_law m p (or_intror Hnext)) as [Hlabel _].
  apply runs_bind, runs_upload_change, runs_bind, runs_of_machine, runs_bind, runs_upload_change, runs_bind, runs_machine.
  destruct (random_law 16 m) as (U1 & Hrz & _); [done|]; set (random := (random_bytes 16 m).1) in *; set (m1 := (random_bytes 16 m).2) in *.
  apply runs_bind, runs_upload, runs_bind; rewrite Hnext.
  destruct (id_loop_spec random 0 (replicate 33 0) [] (replicate 33 0)) as (id & Eid & Hidz & id_rest & Etext); [done|done|done|by intros ->|rewrite Hrz; by vm_compute|]; eapply runs_checked; [exact Eid|].
  assert (0 ∈ id) as Hidn by (rewrite Etext; cbn; apply elem_of_app; right; left).
  apply runs_bind, runs_upload_change, runs_bind; eapply runs_checked; [reflexivity|]; destruct (terminated_cstr _ Hlabel) as [label Hl].
  apply runs_bind; eapply runs_checked; [by apply c_string_spec|]; destruct (snprintf_spec (replicate 17 0) 17 label) as (target & Et & Htz & Htn); [by vm_compute|].
  apply runs_bind; eapply runs_checked; [exact Et|]; apply runs_bind, runs_upload_change, runs_bind, runs_now; intros now m2 U2.
  apply runs_bind, runs_upload_change, runs_bind, runs_machine; set (m3 := (psa_crypto_init m2).2); pose proof (init_law m2 : untouched m2 m3) as U3.
  assert (untouched m m3) as U by (by repeat (eapply untouched_trans; [done|])); clear U1 U2 U3.
  match goal with |- runs _ (Ota ?v _) _ => set (u1 := v) end.
  assert (arrays_ok u1) as Ha1 by (destruct zero_arrays; by constructor).
  assert (forall x, arrays_ok (set_hash x u1)) as Ha2 by (intros x; by destruct Ha1).
  assert (forall v m', arrays_ok v -> untouched m3 m' -> common m0 v m' /\ boot m' = boot m0) as Hcommon.
  { intros v m' Hv U'; pose proof (untouched_trans _ _ _ U U') as Um; split; [by eapply common_kept; [exact Hc|apply (untouched_kept None), Um|..]|].
    destruct Um as [(_ & _ & Kb & _) _]; congruence. }
  assert (forall v m', arrays_ok v -> untouched m3 m' -> s_ready (u_status v) = false -> u_open v = false ->
    runs (r ← release_and_fail "SHA256 initialization failed."; mret (r, id)) (Ota v m') Q) as Hgive.
  { intros v m' Hv U' Hr Ho; destruct (Hcommon v m' Hv U') as [Hc' Hb']; apply runs_bind, (runs_given_up m0 h _ None); try done; [by rewrite Ho|].
    intros o Ho'; by apply runs_ret, HQ. }
  apply runs_bind; destruct (negb ((psa_crypto_init m2).1 =? 0)); [apply runs_ret; cbn [negb]; by apply Hgive; [|apply untouched_refl|..]|].
  apply runs_bind, runs_machine; destruct (psa_hash_setup psa_hash_operation_init m3) as [[rc x] m4] eqn:Es; cbn [fst snd].
  destruct (setup_law _ _ _ _ Es) as [U4 Habs]; apply runs_bind, runs_upload_change, runs_ret; destruct (Z.eqb_spec rc 0) as [Erc|Erc]; cbn [negb]; [|by apply Hgive].
  apply runs_bind, runs_say; [done|]; intros t Ht; apply runs_ret, HQ; [|done]; destruct (Hcommon (set_hash x u1) m4 (Ha2 x) U4) as [Hc4 Hb4].
  split; [by apply said_common|]; apply said_phase, (PhaseBusy _ _ _ _ p); constructor; try done; [by rewrite zlen_nil; split; [|lia]|by apply Habs].
Qed.

Definition text_of (s : list Z) : list Z := default [] (c_string s).

Lemma phase_idle m0 h u m : phase m0 h u m -> s_active (u_status u) || s_ready (u_status u) = false -> boot m = boot m0 /\ u_open u = false.
Proof. by intros [h' u' m' Ha Hr Ho Hb|size sha l p u' m' [Ba Br Bb Bs Bt Bc Be Bh Bw]|size sha l p u' m' Ha Hr Ho Hs] E; [|rewrite Ba in E|rewrite Hr, orb_true_r in E]. Qed.

Lemma inactive_slot_spec m0 : inactive_slot (running_partition m0) (next_partition m0) = true -> exists p, update_slot m0 p.
Proof.
  unfold inactive_slot, update_slot; destruct (next_partition m0) as [p|] eqn:En, (running_partition m0) as [r|] eqn:Er; try done.
  intros Hne; exists p; split; [done|]; exists r; split; [done|lia].
Qed.

Lemma digits_of_text sha t : cstr sha t -> zlen t = 64 ->
  exists o, digest_loop sha 32 0 (replicate 32 0) = Some o /\ (forall e, o = Some e -> e = unhex t).
Proof.
  intros (rest & -> & _) Hz; pose proof (digest_loop_spec (t ++ 0 :: rest) 32 [] t [] (ex_intro _ (0 :: rest) eq_refl) Hz eq_refl (replicate 32 0) eq_refl) as E.
  cbn [app] in E; change (zlen (@nil Z)) with 0 in E; eexists; split; [exact E|]; intros e; destruct (forallb _ t); [by intros [= <-]|done].
Qed.

Lemma runs_start {Q : bool * list Z -> ota -> Prop} m0 h size sha id u m : in_order m0 h (Ota u m) -> 0 <= size <= SIZE_MAX -> (forall s, sha = Some s -> 0 ∈ s) ->
  (forall (r : bool) id o, in_order m0 (if r then Some (size, default [] (text_of <$> sha), []) else h) o -> (r = true -> 0 ∈ id) -> Q (r, id) o) ->
  runs (monitor_ota_start size sha id) (Ota u m) Q.
Proof.
  intros Ho Hsize Hsha HQ; pose proof Ho as [Hc Hp]; cbn [o_upload o_machine] in Hc, Hp; unfold monitor_ota_start; apply runs_bind, runs_upload.
  assert (forall reason, runs (r ← ota_fail reason; mret (r, id)) (Ota u m) Q) as Hrefuse.
  { intros reason; apply runs_bind, (runs_refused m0 h); [done|]; intros o Ho'; by apply runs_ret, HQ. }
  destruct (s_active (u_status u) || s_ready (u_status u)) eqn:Ebusy; [apply Hrefuse|]; destruct (phase_idle _ _ _ _ Hp Ebusy) as [Hb _].
  apply runs_bind, runs_snapshot; [apply Hc|]; intros s Ea _ _; rewrite (cm_running _ _ _ Hc), (cm_next _ _ _ Hc) in Ea.
  destruct (s_available s) eqn:Eav; cbn [negb]; [|apply Hrefuse]; symmetry in Ea; destruct (inactive_slot_spec m0 Ea) as [p Hslot].
  destruct ((size <? _) || _); [apply Hrefuse|]; destruct sha as [sha|]; [|apply Hrefuse]; destruct (terminated_cstr sha (Hsha sha eq_refl)) as [t Ht].
  apply runs_bind; eapply runs_checked; [by apply strlen_spec|]; destruct (Z.eqb_spec (zlen t) 64) as [E|E]; cbn [negb]; [|apply Hrefuse].
  destruct (digits_of_text sha t Ht E) as (o & Ed & Ho'); apply runs_bind; eapply runs_checked; [exact Ed|].
  destruct o as [e|]; [|apply Hrefuse]; rewrite (Ho' e eq_refl); apply (runs_begin m0 h size t p); try done.
  intros r id' o' Hin Hid'; apply HQ; [|done]; change (default [] (text_of <$> Some sha)) with (text_of sha); by unfold text_of; rewrite (c_string_spec _ _ Ht).
Qed.

(** The slot is opened for the first chunk, or the upload does not go on. *)
Lemma runs_open {Q : option bool -> ota -> Prop} m0 total sha p bytes size u m : common m0 u m -> busy m0 total sha [] p u m -> u_open u = false ->
  0 <= size <= zlen bytes -> (forall o, in_order m0 (Some (total, sha, [])) o -> Q (Some false) o) ->
  (forall u' m', common m0 u' m' -> busy m0 total sha [] p u' m' -> u_open u' = true -> u_status u' = set_fw_version (s_fw_version (u_status u')) (u_status u) -> Q None (Ota u' m')) ->
  runs (open_slot bytes size) (Ota u m) Q.
Proof.
  intros Hc Hbusy Hopen Hsize Hstop Hgo; unfold open_slot; destruct format_law as (F1 & F2 & F3 & F4).
  destruct (Z.ltb_spec size (SIZEOF_IMAGE_HEADER + SIZEOF_SEGMENT_HEADER + SIZEOF_APP_DESC)) as [Hlt|Hge].
  { apply runs_bind, (runs_refused m0 (Some (total, sha, []))); [split; [done|by eapply PhaseBusy]|]; intros o Ho; by apply runs_ret, Hstop. }
  set (prefix := SIZEOF_IMAGE_HEADER + SIZEOF_SEGMENT_HEADER) in *.
  apply runs_bind; eapply runs_checked; [apply slice_sub; lia|]; apply runs_bind; eapply runs_checked; [apply slice_sub; lia|].
  set (app := sub bytes prefix SIZEOF_APP_DESC); assert (zlen app = SIZEOF_APP_DESC) as Happ by (apply zlen_sub; lia).
  assert (exists b, image_accepted (sub bytes 0 SIZEOF_IMAGE_HEADER) app = Some b) as [accepted Eacc].
  { unfold image_accepted; case_match; [by eexists|]; pose proof (project_law app Happ); unfold memeq; rewrite !slice_sub by lia; by eexists. }
  assert (forall r o, in_order m0 (Some (total, sha, [])) o -> r = false -> runs (mret (Some r)) o Q) as Hret by (intros r o Ho ->; by apply runs_ret, Hstop).
  apply runs_bind; eapply runs_checked; [exact Eacc|]; destruct accepted; cbn [negb]; [|by apply runs_bind, (busy_given_up m0 (Some (total, sha, [])) _ total sha [] p); auto].
  apply runs_bind, runs_upload; destruct (ao_version _ (cm_arrays _ _ _ Hc)) as [Hvz _].
  destruct (snprintf_spec (s_fw_version (u_status u)) 33 (until_nul (app_version app))) as (v & Ev & Hzv & Hnv); [lia|].
  apply runs_bind; eapply runs_checked; [exact Ev|]; apply runs_bind, runs_upload_change, runs_bind; eapply runs_checked; [apply (bs_slot _ _ _ _ _ _ _ Hbusy)|].
  apply runs_bind, runs_machine; destruct (esp_ota_begin p m) as [[rc handle] m'] eqn:Eb; cbn [fst snd]; destruct (begin_law _ _ _ _ _ Eb) as [K W].
  apply runs_bind, runs_upload_change; set (u1 := set_handle handle (over_status (set_fw_version v) u)).
  assert (arrays_ok u1) as Ha1 by (destruct (cm_arrays _ _ _ Hc); constructor; try done; by split; [cbn; lia|]).
  assert (forall q, Some p = Some q -> update_slot m0 q) as Hslot by (intros q [= <-]; apply Hbusy).
  destruct Hbusy as [Ba Br Bb Bs Bt Bc Be Bh Bw]; assert (boot m' = boot m0) as Hb' by (destruct K as (_ & _ & K & _); congruence).
  destruct (Z.eqb_spec rc 0) as [Erc|Erc]; cbn [negb].
  - apply runs_bind, runs_upload_change, runs_ret, Hgo; [by eapply common_kept; [exact Hc|exact K|..]; [|by destruct Ha1]| |done|done].
    constructor; try done; by apply W.
  - apply runs_bind, (runs_given_up m0 (Some (total, sha, [])) _ None); try done; [by eapply common_kept|cbn; by rewrite Hopen|]; intros o Ho; by apply Hret.
Qed.

(** A chunk goes to the slot, or the upload ends. *)
Lemma runs_chunk {Q : bool -> ota -> Prop} m0 total sha l p bytes size u m : common m0 u m -> busy m0 total sha l p u m -> u_open u = true ->
  0 <= size <= zlen bytes -> zlen l + size <= total ->
  (forall (r : bool) o, in_order m0 (if r then Some (total, sha, l ++ take (Z.to_nat size) bytes) else Some (total, sha, l)) o -> Q r o) ->
  runs (write_chunk bytes size) (Ota u m) Q.
Proof.
  intros Hc Hbusy Hopen Hsize Hfit HQ; pose proof Hbusy as [Ba Br Bb [Bs Bp] [Bt Bz] [Bc Bl] Be Bh Bw]; rewrite Hopen in Bw.
  unfold write_chunk; apply runs_bind, runs_upload, runs_bind; eapply runs_checked; [apply slice_sub; lia|]; set (text := sub bytes 0 size).
  assert (text = take (Z.to_nat size) bytes) as Htext by (unfold text, sub; by rewrite drop_0).
  apply runs_bind, runs_machine; destruct (esp_ota_write (u_handle u) text m) as [rc m1] eqn:Ew; cbn [fst snd]; destruct (write_law _ _ _ _ _ _ _ Ew Bw) as (K1 & W1 & W1').
  assert (forall q, Some p = Some q -> update_slot m0 q) as Hslot by (by intros q [= <-]).
  assert (forall v m' l', arrays_ok v -> kept (Some p) m m' -> s_ready (u_status v) = false -> (u_open v = true -> written m' (u_handle v) = Some (p, l')) ->
    runs (release_and_fail "Firmware write failed; the running image is unchanged.") (Ota v m') Q) as Hgive.
  { intros v m' l' Hv K Hr Hw; apply (runs_given_up m0 (Some (total, sha, l)) _ (Some p)); try done; [by eapply common_kept|destruct K as (_ & _ & K & _); congruence| |intros o Ho; by apply HQ].
    intros Eo; exists p, l'; split; [done|]; by apply Hw. }
  apply runs_bind; destruct (Z.eqb_spec rc 0) as [Erc|Erc]; cbn [negb].
  2: { apply runs_ret; cbn [negb]; destruct (W1' Erc) as [l' Hl']; apply (Hgive _ _ l'); try done; apply Hc. }
  apply runs_bind, runs_machine; destruct (psa_hash_update (u_hash u) text m1) as [[rc' x] m2] eqn:Eh; cbn [fst snd]; destruct (update_law _ _ _ _ _ _ Eh) as [U2 Habs].
  assert (kept (Some p) m m2) as K2 by (eapply kept_trans; [exact K1|by apply untouched_kept]).
  assert (written m2 (u_handle u) = Some (p, l ++ text)) as W2 by (destruct U2 as [_ ->]; auto).
  assert (forall f, arrays_ok (f u) -> arrays_ok (set_hash x (f u))) as Hax by (intros f []; by constructor).
  apply runs_bind, runs_upload_change, runs_ret; destruct (Z.eqb_spec rc' 0) as [Erc'|Erc']; cbn [negb].
  2: { apply (Hgive _ _ (l ++ text)); try done; apply (Hax (λ u, u)), Hc. }
  apply runs_bind, runs_bind, runs_upload_change, runs_now; intros now m3 U3; apply runs_bind, runs_upload_change, runs_ret, HQ; rewrite <- Htext.
  assert (zlen text = size) as Hzt by (apply zlen_sub; lia).
  assert (kept (Some p) m m3) as K3 by (eapply kept_trans; [exact K2|by apply untouched_kept]).
  split; [eapply common_kept; [exact Hc|exact K3|done|]; by destruct (cm_arrays _ _ _ Hc)|].
  eapply (PhaseBusy _ _ _ _ p); constructor; try done.
  - destruct K3 as (_ & _ & K3 & _); cbn [o_machine]; congruence.
  - cbn; rewrite Bc, zlen_app, Hzt; unfold SIZE_MAX in *; split; [apply wrap_small; change (2 ^ 32) with 4294967296; pose proof (zlen_nonneg l); lia|lia].
  - apply Habs; [done|]; exact Bh.
  - cbn [o_upload set_activity over_status set_hash u_open u_handle o_machine]; rewrite Hopen; by destruct U3 as [_ ->].
Qed.

Lemma phase_active m0 h u m : phase m0 h u m -> s_active (u_status u) = true -> exists size sha l p, h = Some (size, sha, l) /\ busy m0 size sha l p u m.
Proof. intros [h' u' m' Ha|size sha l p u' m' Hb|size sha l p u' m' Ha] E; try congruence; by exists size, sha, l, p. Qed.

(** The history after a call with this result. *)
Definition appended (r : bool) (chunk : list Z) (h : history) : history :=
  if r then '(size, sha, l) ← h; Some (size, sha, l ++ chunk) else h.

Lemma runs_write {Q : bool -> ota -> Prop} m0 h id offset bytes size u m : in_order m0 h (Ota u m) -> id_ok id -> 0 <= size -> (forall b, bytes = Some b -> size <= zlen b) ->
  (forall r o, (r = true -> names_upload id u /\ offset = s_received (u_status u)) -> in_order m0 (appended r (take (Z.to_nat size) (default [] bytes)) h) o -> Q r o) ->
  runs (monitor_ota_write id offset bytes size) (Ota u m) Q.
Proof.
  intros Ho Hid Hsize Hbytes HQ; pose proof Ho as [Hc Hp]; cbn [o_upload o_machine] in Hc, Hp; unfold monitor_ota_write.
  assert (forall reason, runs (ota_fail reason) (Ota u m) Q) as Hrefuse by (intros reason; apply (runs_refused m0 h); [done|]; intros o Ho'; by apply HQ).
  apply runs_bind, runs_matches; [done|apply Hc|]; intros ours Hours; destruct ours; cbn [negb]; [|apply Hrefuse]; destruct (proj1 Hours eq_refl) as [Ha Hname].
  apply runs_bind, runs_upload; destruct bytes as [bytes|]; [|apply Hrefuse]; specialize (Hbytes bytes eq_refl).
  destruct (phase_active _ _ _ _ Hp Ha) as (total & sha & l & p & -> & Hbusy); pose proof Hbusy as [_ _ _ _ [Bt Bz] [Bc Bl] _ _ Bw].
  destruct (Z.eqb_spec offset (s_received (u_status u))) as [Eoff|]; cbn [negb orb]; [|apply Hrefuse].
  destruct (Z.eqb_spec size 0); cbn [orb]; [apply Hrefuse|]; destruct (Z.ltb_spec MONITOR_OTA_CHUNK size); cbn [orb]; [apply Hrefuse|].
  rewrite Bt, Bc, wrap_small by (change (2 ^ 32) with 4294967296; unfold SIZE_MAX in *; pose proof (zlen_nonneg l); lia).
  destruct (Z.ltb_spec (total - zlen l) size); [apply Hrefuse|].
  assert (forall v m', common m0 v m' -> busy m0 total sha l p v m' -> u_open v = true -> runs (write_chunk bytes size) (Ota v m') Q) as Hwrite.
  { intros v m' Hcv Hbv Hov; apply (runs_chunk m0 total sha l p); try done; [lia..|]; intros r o Hin; apply HQ; [done|]; by destruct r. }
  apply runs_bind; destruct (u_open u) eqn:Eopen; cbn [negb]; [by apply runs_ret, Hwrite|]; rewrite Bw in *.
  apply (runs_open m0 total sha p); [done..|intros o Hin; by apply runs_ret, HQ|intros v m' Hcv Hbv Hov _; by apply Hwrite].
Qed.

(** The digest is checked. *)
Lemma runs_digest {Q : bool -> ota -> Prop} m0 size sha l p u m : busy m0 size sha l p u m -> arrays_ok u ->
  (forall b x m', (b = true -> sha256 l = unhex sha) -> untouched m m' -> Q b (Ota (set_hash x u) m')) -> runs digest_matches (Ota u m) Q.
Proof.
  intros [Ba Br Bb [Bs Bp] Bt Bc Be Bh Bw] Hu HQ; unfold digest_matches; apply runs_bind, runs_upload, runs_bind, runs_machine.
  destruct (psa_hash_finish (u_hash u) m) as [[[[rc out] n] x] m'] eqn:Ef; destruct (finish_law _ _ _ _ _ _ _ Ef) as (U & Hz & Hout); cbn [fst snd].
  apply runs_bind, runs_upload_change; destruct (Z.eqb_spec rc 0) as [Erc|]; cbn [negb orb]; [|by apply runs_ret, HQ].
  destruct (n =? 32); cbn [negb]; [|by apply runs_ret, HQ]; pose proof (ao_expected u Hu) as Hze.
  assert (memeq out (u_expected u) 32 = Some (bool_decide (out = u_expected u))) as Em.
  { unfold memeq; rewrite !slice_sub by lia; cbn [mbind option_bind]; unfold sub; rewrite !drop_0, !take_ge by (unfold zlen in *; lia); done. }
  eapply runs_checked; [exact Em|]; apply HQ; [|done]; intros Eb; apply bool_decide_eq_true_1 in Eb; rewrite <- Be, <- Eb; symmetry; by apply Hout.
Qed.

Lemma runs_finish {Q : bool -> ota -> Prop} m0 h id u m : in_order m0 h (Ota u m) -> id_ok id ->
  (forall r o, (r = true -> names_upload id u) -> in_order m0 h o -> Q r o) -> runs (monitor_ota_finish id) (Ota u m) Q.
Proof.
  intros Ho Hid HQ; pose proof Ho as [Hc Hp]; cbn [o_upload o_machine] in Hc, Hp; unfold monitor_ota_finish.
  apply runs_bind, runs_matches; [done|apply Hc|]; intros ours Hours; apply runs_bind, runs_upload.
  destruct (negb ours || negb (u_open u) || negb (s_received (u_status u) =? s_total (u_status u))) eqn:Ecase.
  { apply (runs_refused m0 h); [done|]; intros o Ho'; by apply HQ. }
  apply orb_false_iff in Ecase as [[Eours%negb_false_iff Eopen%negb_false_iff]%orb_false_iff Eall%negb_false_iff]; apply Z.eqb_eq in Eall.
  destruct (proj1 Hours Eours) as [Ha Hname]; destruct (phase_active _ _ _ _ Hp Ha) as (size & sha & l & p & -> & Hbusy).
  pose proof Hbusy as [_ Br Bb [Bs Bp] [Bt Bz] [Bc Bl] Be Bh Bw]; rewrite Eopen in Bw.
  apply runs_bind, (runs_digest m0 size sha l p); [done|apply Hc|]; intros same x m1 Hsame U1.
  assert (forall v m' reason, arrays_ok v -> kept (Some p) m m' -> s_ready (u_status v) = false -> (u_open v = true -> written m' (u_handle v) = Some (p, l)) ->
    runs (release_and_fail reason) (Ota v m') Q) as Hgive.
  { intros v m' reason Hv K Hr Hw; apply (runs_given_up m0 (Some (size, sha, l)) _ (Some p)); try done;
      [eapply common_kept; [exact Hc|exact K|by intros q [= <-]|done]|destruct K as (_ & _ & K & _); congruence|by intros q [= <-]|intros Eo; exists p, l; auto|intros o Ho'; by apply HQ]. }
  assert (arrays_ok (set_hash x u)) as Hax by (destruct (cm_arrays _ _ _ Hc); by constructor).
  destruct same; cbn [negb]; [|apply Hgive; [done|by apply untouched_kept|done|]; intros _; by destruct U1 as [_ ->]].
  apply runs_bind, runs_machine; destruct (esp_ota_end (u_handle u) m1) as [rc m2] eqn:Ee; cbn [fst snd].
  destruct (end_law _ _ _ _ _ _ Ee (eq_trans (proj2 U1 _) Bw)) as [K2 Hcont]; pose proof (kept_trans _ _ _ _ (untouched_kept (Some p) _ _ U1) K2) as K.
  apply runs_bind, runs_upload_change; assert (arrays_ok (set_open false (set_hash x u))) as Hao by (by destruct Hax).
  destruct (Z.eqb_spec rc 0) as [Erc|]; cbn [negb]; [|by apply Hgive].
  apply runs_bind; eapply runs_checked; [exact Bp|]; apply runs_bind, runs_machine; destruct (esp_ota_set_boot_partition p m2) as [rc' m3] eqn:Es; cbn [fst snd].
  destruct (boot_law _ _ _ _ Es) as (R3 & N3 & C3 & B3); apply runs_bind, (runs_release None); [done|done|]; intros y m4 _ U4; specialize (U4 eq_refl).
  assert (common m0 (released y (set_open false (set_hash x u))) m4) as Hc4.
  { assert (common m0 u m2) as [_ C2r C2n C2i] by (eapply common_kept; [exact Hc|exact K|by intros q [= <-]|apply Hc]).
    destruct U4 as [(R4 & N4 & B4 & C4) _]; constructor; [by apply released_arrays|congruence|congruence|]; intros r Hr; rewrite C4, C3 by done; by apply C2i. }
  assert (boot m4 = if rc' =? 0 then Some p else boot m0) as B4.
  { destruct U4 as [(_ & _ & -> & _) _]; rewrite B3; destruct K as (_ & _ & K & _); case_match; congruence. }
  destruct (Z.eqb_spec rc' 0) as [Erc'|]; cbn [negb].
  - apply runs_bind, runs_upload_change, runs_bind, runs_say; [destruct (cm_arrays _ _ _ Hc4); by constructor|]; intros t Ht; apply runs_ret, HQ; [by intros _|].
    split; [by destruct Hc4|]; apply said_phase, (PhaseDone _ _ _ _ p); try done; constructor; try done; [|lia|by apply Hsame].
    destruct U4 as [(_ & _ & _ & C4) _]; cbn [o_machine]; rewrite C4, C3 by done; auto.
  - apply (runs_refused m0 (Some (size, sha, l))); [|intros o Ho'; by apply HQ]; split; [done|]; by apply PhaseIdle.
Qed.

Lemma runs_abort {Q : bool -> ota -> Prop} m0 h id u m : in_order m0 h (Ota u m) -> id_ok id ->
  (forall r o, (r = true -> names_upload id u) -> in_order m0 h o -> Q r o) -> runs (monitor_ota_abort id) (Ota u m) Q.
Proof.
  intros Ho Hid HQ; pose proof Ho as [Hc Hp]; cbn [o_upload o_machine] in Hc, Hp; unfold monitor_ota_abort.
  apply runs_bind, runs_matches; [done|apply Hc|]; intros ours Hours; destruct ours; cbn [negb].
  2: { apply (runs_refused m0 h); [done|]; intros o Ho'; by apply HQ. }
  destruct (proj1 Hours eq_refl) as [Ha Hname]; destruct (phase_active _ _ _ _ Hp Ha) as (size & sha & l & p & -> & Hbusy).
  pose proof Hbusy as [_ Br Bb [Bs Bp] _ _ _ _ Bw]; apply runs_bind, (runs_release (Some p)); [apply Hc|intros Eo; rewrite Eo in Bw; by exists p, l|].
  intros x m' K _; apply runs_bind, runs_say; [apply released_arrays, Hc|]; intros t Ht; apply runs_ret, HQ; [by intros _|].
  split; [eapply common_kept; [exact Hc|exact K|by intros q [= <-]|done]|]; apply PhaseIdle; try done; destruct K as (_ & _ & K & _); cbn [o_machine]; congruence.
Qed.

Lemma runs_tick {Q : () -> ota -> Prop} m0 h u m : in_order m0 h (Ota u m) -> (forall o, in_order m0 h o -> Q tt o) -> runs monitor_ota_tick (Ota u m) Q.
Proof.
  intros Ho HQ; pose proof Ho as [Hc Hp]; cbn [o_upload o_machine] in Hc, Hp; unfold monitor_ota_tick; apply runs_bind, runs_upload.
  destruct (s_active (u_status u)) eqn:Ea; cbn [negb]; [|by apply runs_ret, HQ]; destruct (phase_active _ _ _ _ Hp Ea) as (size & sha & l & p & -> & Hbusy).
  apply runs_bind, runs_now; intros now m1 U1.
  assert (common m0 u m1) as Hc1 by (eapply common_kept; [exact Hc|apply (untouched_kept None), U1|done|apply Hc]).
  pose proof Hbusy as [_ Br Bb [Bs Bp] Bt Bc Be Bh Bw]; destruct U1 as [(_ & _ & B1 & _) W1].
  assert (busy m0 size sha l p u m1) as Hb1 by (constructor; try done; [congruence|by rewrite W1]).
  destruct (60000 <? _); [|apply runs_ret, HQ; split; [done|by eapply PhaseBusy]].
  apply runs_bind, (busy_given_up m0 (Some (size, sha, l)) _ size sha l p); try done; intros o Ho'; by apply runs_ret, HQ.
Qed.

(** ** Sequences of calls *)

Inductive ota_call :=
| OtaStart (size : Z) (sha : option (list Z))
| OtaWrite (id : option (list Z)) (offset : Z) (bytes : option (list Z)) (size : Z)
| OtaFinish (id : option (list Z))
| OtaAbort (id : option (list Z))
| OtaTick.

(** Strings are terminated, and sizes are those of objects. *)
Definition ota_typed (c : ota_call) : Prop :=
  match c with
  | OtaStart size sha => 0 <= size <= SIZE_MAX /\ (forall s, sha = Some s -> 0 ∈ s)
  | OtaWrite id offset bytes size => id_ok id /\ 0 <= size /\ forall b, bytes = Some b -> size <= zlen b
  | OtaFinish id | OtaAbort id => id_ok id
  | OtaTick => True
  end.

Definition ota_perform (c : ota_call) : SM ota bool :=
  match c with
  | OtaStart size sha => '(r, _) ← monitor_ota_start size sha (replicate 33 0); mret r
  | OtaWrite id offset bytes size => monitor_ota_write id offset bytes size
  | OtaFinish id => monitor_ota_finish id
  | OtaAbort id => monitor_ota_abort id
  | OtaTick => monitor_ota_tick;; mret true
  end.

(** What was announced and accepted, after a call with this result. *)
Definition recorded (c : ota_call) (r : bool) (h : history) : history :=
  match c with
  | OtaStart size sha => if r then Some (size, default [] (text_of <$> sha), []) else h
  | OtaWrite _ _ bytes size => appended r (take (Z.to_nat size) (default [] bytes)) h
  | _ => h
  end.

Fixpoint ota_session (h : history) (calls : list ota_call) : SM ota history :=
  match calls with
  | [] => mret h
  | c :: calls => r ← ota_perform c; ota_session (recorded c r h) calls
  end.

Lemma ota_step m0 h c o : in_order m0 h o -> ota_typed c -> runs (ota_perform c) o (λ r o', in_order m0 (recorded c r h) o').
Proof.
  destruct o as [u m]; intros Ho Hc; destruct c as [size sha|id offset bytes size|id|id|]; cbn [ota_perform ota_typed recorded] in *.
  - destruct Hc as [Hs Hsha]; apply runs_bind, (runs_start m0 h); try done; intros r id o' Ho' _; by apply runs_ret.
  - destruct Hc as (Hid & Hs & Hb); by apply (runs_write m0 h).
  - by apply (runs_finish m0 h).
  - by apply (runs_abort m0 h).
  - apply runs_bind, (runs_tick m0 h); [done|]; intros o' Ho'; by apply runs_ret.
Qed.

Lemma ota_session_kept m0 calls : Forall ota_typed calls -> forall h o, in_order m0 h o -> runs (ota_session h calls) o (in_order m0).
Proof.
  induction 1 as [|c calls Hc _ IH]; intros h o Ho; cbn [ota_session]; [by apply runs_ret|].
  apply runs_bind; eapply runs_mono; [by apply ota_step|]; intros r o' Ho'; by apply IH.
Qed.

Lemma zero_in_order m0 : in_order m0 None (Ota zero_upload m0).
Proof. split; [constructor; try done; apply zero_arrays|by apply PhaseIdle]. Qed.

(** ** Calls that do not own the upload *)

Lemma foreign_refused id u m : arrays_ok u -> id_ok id -> ~ names_upload id u -> forall c, (exists offset bytes size, c = OtaWrite id offset bytes size) \/ c = OtaFinish id \/ c = OtaAbort id ->
  exists x, ota_perform c (Ota u m) = Some (false, Ota (said x u) m).
Proof.
  intros Hu Hid Hno c Hc; enough (runs (ota_perform c) (Ota u m) (λ r o, r = false /\ exists x, o = Ota (said x u) m)) as (r & o & E & -> & x & ->) by (by exists x).
  destruct Hc as [(offset & bytes & size & ->)|[->| ->]]; apply runs_bind, runs_matches; try done; intros b Hb; destruct b; try (by destruct Hno; apply Hb); cbn [negb orb].
  - apply runs_refuse; [done|]; intros x Hx; split; [done|by exists x].
  - apply runs_bind, runs_upload, runs_refuse; [done|]; intros x Hx; split; [done|by exists x].
  - apply runs_refuse; [done|]; intros x Hx; split; [done|by exists x].
Qed.

(** ** Expiry *)

Lemma expiry_exact u m : arrays_ok u -> s_active (u_status u) = true -> (u_open u = true -> exists p l, u_partition u = Some p /\ written m (u_handle u) = Some (p, l)) ->
  exists u' m', monitor_ota_tick (Ota u m) = Some (tt, Ota u' m') /\
    if 60000 <? u64 (u64 (ota_timer m).1 / 1000 - u_activity_ms u)
    then s_active (u_status u') = false /\ u_open u' = false /\ u_id u' = replicate 33 0 /\ u_expected u' = replicate 32 0 /\ kept (u_partition u) m m'
    else u' = u /\ untouched m m'.
Proof.
  intros Hu Ha Ho; enough (runs monitor_ota_tick (Ota u m) (λ _ o, if 60000 <? u64 (u64 (ota_timer m).1 / 1000 - u_activity_ms u)
    then s_active (u_status (o_upload o)) = false /\ u_open (o_upload o) = false /\ u_id (o_upload o) = replicate 33 0 /\ u_expected (o_upload o) = replicate 32 0 /\ kept (u_partition u) m (o_machine o)
    else o_upload o = u /\ untouched m (o_machine o))) as ([] & [u' m'] & E & HQ) by (by exists u', m').
  pose proof (timer_law m) as U; unfold monitor_ota_tick; apply runs_bind, runs_upload; rewrite Ha; cbn [negb].
  unfold ota_now_ms; apply runs_bind, runs_bind, runs_machine, runs_ret; case_match; [|by apply runs_ret].
  apply runs_bind, (runs_give_up (u_partition u)); [done|intros Eo; destruct (Ho Eo) as (p & l & Hp & Hw); exists p, l; split; [done|]; by destruct U as [_ ->]|].
  intros x t m' K _ _; apply runs_ret; split_and!; try done; eapply kept_trans; [by apply untouched_kept|exact K].
Qed.

End Update.

(** ** A board *)

(** Two slots, a clock that stands still, and a digest that adds up the bytes. *)
Module Board.

Record board := Board { b_boot : option partition; b_images : list (Z * list Z); b_writing : option (partition * list Z) }.

Definition slot0 : partition := Partition 65536 1048576 (cstring "ota_0").
Definition slot1 : partition := Partition 1114112 1048576 (cstring "ota_1").

Definition digest (l : list Z) : list Z := replicate 31 0 ++ [foldr Z.add 0 l mod 256].

#[export] Instance format : ImageFormat := {|
  SIZEOF_IMAGE_HEADER := 2;
  SIZEOF_SEGMENT_HEADER := 1;
  SIZEOF_APP_DESC := 33;
  ESP_IMAGE_HEADER_MAGIC := 233;
  CONFIG_IDF_FIRMWARE_CHIP_ID := 9;
  ESP_APP_DESC_MAGIC_WORD := 50;
  header_magic h := default 0 (rd h 0);
  header_chip_id h := default 0 (rd h 1);
  header_hash_appended _ := true;
  app_magic_word a := default 0 (rd a 0);
  app_version _ := lit "1.0";
  app_project_name a := drop 1 a;
  current_project_name := replicate 32 109
|}.

#[export] Instance updater : Updater := {|
  machine := board;
  hash := list Z;
  ota_timer m := (5000000, m);
  random_bytes n m := (replicate (Z.to_nat n) 171, m);
  running_partition _ := Some slot0;
  next_partition _ := Some slot1;
  esp_ota_begin p m := (0, 1, Board (b_boot m) (b_images m) (Some (p, [])));
  esp_ota_write h t m :=
    match b_writing m with
    | Some (p, l) => if h =? 1 then (0, Board (b_boot m) (b_images m) (Some (p, l ++ t))) else (1, m)
    | None => (1, m)
    end;
  esp_ota_end h m :=
    match b_writing m with
    | Some (p, l) => if h =? 1 then (0, Board (b_boot m) ((p_address p, l) :: b_images m) None) else (1, m)
    | None => (1, m)
    end;
  esp_ota_abort _ m := Board (b_boot m) (b_images m) None;
  esp_ota_set_boot_partition p m := (0, Board (Some p) (b_images m) (b_writing m));
  psa_hash_operation_init := [];
  psa_crypto_init m := (0, m);
  psa_hash_setup _ m := (0, [], m);
  psa_hash_update h t m := (0, h ++ t, m);
  psa_hash_finish h m := (0, digest h, 32, [], m);
  psa_hash_abort _ m := ([], m);
  pending_verify _ _ := true;
  mark_app_valid m := (0, m)
|}.

#[export] Instance view_ : MachineView := {|
  boot := b_boot;
  contents m a := snd <$> list_find (λ i, i.1 = a) (b_images m) ≫= λ i, Some i.2;
  written m h := if h =? 1 then b_writing m else None;
  sha256 := digest;
  absorbs h l := h = l
|}.

Lemma untouched_eq (m m' : board) : m' = m -> untouched m m'.
Proof. intros ->; apply untouched_refl. Qed.

Lemma contents_other (m : board) a a' l b w : a <> a' -> contents (Board b ((a', l) :: b_images m) w) a = contents m a.
Proof.
  intros Hne; cbn; case_decide; [congruence|]; by destruct (list_find _ _) as [[? ?]|].
Qed.

#[export] Instance laws : UpdaterLaws.
Proof.
  constructor.
  - intros m; by apply untouched_eq.
  - intros n m Hn; split; [by apply untouched_eq|]; cbn; rewrite zlen_replicate; split; [lia|]; apply Forall_replicate; by vm_compute.
  - intros m p [[= <-]|[= <-]]; (split; [apply (bool_decide_eq_true_1 (0 ∈ _)); by vm_compute|by vm_compute]).
  - intros p m rc h m' [= <- <- <-]; split; [by split_and!|done].
  - intros h t m p l rc m' E W; cbn in *; destruct (h =? 1) eqn:Eh; [|done]; rewrite W in E; injection E as <- <-; split; [by split_and!|]; split; [done|done].
  - intros h m p l rc m' E W; cbn in *; destruct (h =? 1) eqn:Eh; [|done]; rewrite W in E; injection E as <- <-; split; [|intros _; cbn; by rewrite decide_True].
    split_and!; try done; intros a Ha; apply contents_other; by apply Ha.
  - intros h m p l W; by split_and!.
  - intros p m rc m' [= <- <-]; by split_and!.
  - intros m; by apply untouched_eq.
  - intros m rc h m' [= <- <- <-]; split; [by apply untouched_eq|done].
  - intros h t m rc h' m' [= <- <- <-]; split; [by apply untouched_eq|]; by intros l _ ->.
  - intros h m rc out n h' m' [= <- <- <- <- <-]; split; [by apply untouched_eq|]; split; [done|]; by intros l _ ->.
  - intros h m; by apply untouched_eq.
  - done.
  - by vm_compute.
  - intros app Hz; cbn in *; unfold zlen in *; rewrite length_drop; lia.
Qed.

Definition start : machine := Board None [(65536, lit "running")] None.

(** An image of 40 bytes, and the text of its digest. *)
Definition image : list Z := [233; 9; 0; 50] ++ replicate 32 109 ++ [1; 2; 3; 4].
Definition image_digest : list Z := flat_map (λ c, [hex_char (c / 16); hex_char (c mod 16)]) (digest image) ++ [0].
Definition session_id : list Z := flat_map (λ c, [hex_char (c / 16); hex_char (c mod 16)]) (replicate 16 171) ++ [0].

Definition sample_calls : list ota_call :=
  [OtaStart 40 (Some image_digest); OtaWrite (Some (cstring "other")) 0 (Some image) 36; OtaWrite (Some session_id) 0 (Some image) 36;
   OtaTick; OtaWrite (Some session_id) 36 (Some (drop 36 image)) 4; OtaFinish (Some session_id)].

End Board.
#[local] Existing Instances Board.format Board.updater Board.view_ Board.laws.

(** ** The theorems *)

(** C4. Only the announced image is ever selected: through any sequence of calls
    of the update from the start of the firmware, no call is undefined, the
    running image is as it was, and the partition of the next boot is the one it
    was, unless it is now the slot that is not running, which holds exactly the
    bytes accepted since the last accepted announcement, as many as announced, and
    their SHA-256 is the announced digest. *)
Theorem update_verified `{UpdaterLaws} m0 calls : Forall ota_typed calls ->
  exists h o, ota_session None calls (Ota zero_upload m0) = Some (h, o) /\
    (forall r, running_partition m0 = Some r -> contents (o_machine o) (p_address r) = contents m0 (p_address r)) /\
    (boot (o_machine o) = boot m0 \/ exists size sha l p, h = Some (size, sha, l) /\ selected m0 size sha l p (o_machine o)).
Proof.
  intros Hc; destruct (ota_session_kept m0 calls Hc None (Ota zero_upload m0) (zero_in_order m0)) as (h & o & E & [Hcom Hp]); exists h, o.
  split; [done|]; split; [apply Hcom|]; destruct Hp as [h u m|size sha l p u m Hb|size sha l p u m Ha Hr Ho Hs]; [by left|left; apply Hb|right; by exists size, sha, l, p].
Qed.

Lemma update_verified_witness :
  option_map (λ x, (p_label <$> Board.b_boot (o_machine x.2), contents (o_machine x.2) 1114112)) (ota_session None Board.sample_calls (Ota zero_upload Board.start)) =
    Some (Some (cstring "ota_1"), Some Board.image) /\
  exists h o, ota_session None Board.sample_calls (Ota zero_upload Board.start) = Some (h, o) /\
    (forall r, running_partition Board.start = Some r -> contents (o_machine o) (p_address r) = contents Board.start (p_address r)) /\
    (boot (o_machine o) = boot Board.start \/ exists size sha l p, h = Some (size, sha, l) /\ selected Board.start size sha l p (o_machine o)).
Proof.
  split; [vm_compute; reflexivity|]; apply (update_verified Board.start Board.sample_calls).
  assert (forall l, bool_decide (0 ∈ l) = true -> forall i : list Z, Some l = Some i -> 0 ∈ i) as Hterm by (intros l Hl i [= <-]; by apply bool_decide_eq_true_1 in Hl).
  repeat (apply Forall_cons_2; [|]); [| | | | | |apply Forall_nil_2].
  - split; [by vm_compute|]; refine (Hterm _ _); vm_compute; reflexivity.
  - split; [refine (Hterm _ _); vm_compute; reflexivity|]; split; [done|]; by intros b [= <-].
  - split; [refine (Hterm _ _); vm_compute; reflexivity|]; split; [done|]; by intros b [= <-].
  - exact I.
  - split; [refine (Hterm _ _); vm_compute; reflexivity|]; split; [done|]; by intros b [= <-].
  - refine (Hterm _ _); vm_compute; reflexivity.
Defined.
