(* ===== verification/MonitorStore.v ===== *)
(** The settings of the system monitor in flash
    (src/examples/system_monitor/main/monitor_store.c): the Wi-Fi network, the
    tunnel's token and host name, the device password; and the credentials made
    from them (monitor_store.c and monitor_tunnel.c). *)
From stdpp Require Import gmap.
From S2P Require Export MonitorHead Token TunnelApi.
#[local] Open Scope Z_scope.

Definition ESP_ERR_INVALID_SIZE : Z := 0x104.
Definition ESP_ERR_TIMEOUT : Z := 0x107.

(** Arrays of 33 and 64 characters, and a byte. *)
Record monitor_wifi_config := WifiConfig { wc_ssid : list Z; wc_password : list Z; wc_open : Z }.
(** Arrays of 1025 and 254 characters. *)
Record monitor_tunnel_config := MonitorTunnelConfig { tc_token : list Z; tc_hostname : list Z }.

(** The bytes of the structures, which have no padding. *)
Definition wifi_bytes (c : monitor_wifi_config) : list Z := wc_ssid c ++ wc_password c ++ [wc_open c].
Definition wifi_of_bytes (l : list Z) : option monitor_wifi_config :=
  ssid ← slice l 0 33; password ← slice l 33 64; open ← rd l 97; Some (WifiConfig ssid password open).
Definition tunnel_bytes (c : monitor_tunnel_config) : list Z := tc_token c ++ tc_hostname c.
Definition tunnel_of_bytes (l : list Z) : option monitor_tunnel_config :=
  token ← slice l 0 1025; hostname ← slice l 1025 254; Some (MonitorTunnelConfig token hostname).

Definition SIZEOF_WIFI : Z := 98.
Definition SIZEOF_TUNNEL : Z := 1279.

Definition zero_wifi : monitor_wifi_config := WifiConfig (replicate 33 0) (replicate 64 0) 0.
Definition zero_tunnel_config : monitor_tunnel_config := MonitorTunnelConfig (replicate 1025 0) (replicate 254 0).

(** Non-volatile storage: the partition "monitor_cfg" with the name space
    "monitor", and the lock around it.  A get gives the code, the bytes it writes
    to the buffer and the size of the value. *)
Class Nvs := {
  nvs : Type;
  create_mutex : nvs -> bool * nvs;
  take_store : nvs -> bool * nvs;
  give_store : nvs -> nvs;
  nvs_flash_init : nvs -> Z * nvs;
  nvs_flash_init_partition : list Z -> nvs -> Z * nvs;
  nvs_open_from_partition : bool -> nvs -> Z * Z * nvs;   (* for writing too *)
  nvs_set_blob : Z -> list Z -> list Z -> nvs -> Z * nvs;
  nvs_get_blob : Z -> list Z -> Z -> nvs -> Z * list Z * Z * nvs;
  nvs_get_str : Z -> list Z -> Z -> nvs -> Z * list Z * nvs;
  nvs_commit : Z -> nvs -> Z * nvs;
  nvs_close : Z -> nvs -> nvs
}.

Section Store.
Context `{Nvs}.

Abbreviation NM := (SM nvs).

Definition monitor_store_init : NM Z :=
  lock ← calling create_mutex;
  if negb lock then mret ESP_ERR_NO_MEM else
  rc ← calling nvs_flash_init;
  if negb (rc =? ESP_OK) then mret rc else calling (nvs_flash_init_partition (lit "monitor_cfg")).

(** A value is read into an object, or written from it. *)
Definition read_blob (handle : Z) (key value : list Z) : NM (Z * list Z) :=
  '(rc, bytes, actual) ← calling (nvs_get_blob handle key (zlen value));
  value ← checked (blit value 0 bytes);
  mret (if (rc =? ESP_OK) && negb (actual =? zlen value) then ESP_ERR_INVALID_SIZE else rc, value).

Definition write_blob (handle : Z) (key value : list Z) : NM Z :=
  rc ← calling (nvs_set_blob handle key value);
  if rc =? ESP_OK then calling (nvs_commit handle) else mret rc.

(** The code, and the object. *)
Definition blob (key value : list Z) (write : bool) : NM (Z * list Z) :=
  taken ← calling take_store;
  if negb taken then mret (ESP_ERR_TIMEOUT, value) else
  '(rc, handle) ← calling (nvs_open_from_partition write);
  '(rc, value) ← (if negb (rc =? ESP_OK) then mret (rc, value) else
    '(rc, value) ← (if write then rc ← write_blob handle key value; mret (rc, value) else read_blob handle key value);
    modify (nvs_close handle);; mret (rc, value));
  modify give_store;; mret (rc, value).

(** The code, and [out]. *)
Definition monitor_store_password (out : option (list Z)) (cap : Z) : NM (Z * option (list Z)) :=
  match out with
  | None => mret (ESP_ERR_INVALID_ARG, None)
  | Some out =>
      if cap <? 17 then mret (ESP_ERR_INVALID_ARG, Some out) else
      out ← checked (zero_fill out 0 cap);
      taken ← calling take_store;
      if negb taken then mret (ESP_ERR_TIMEOUT, Some out) else
      '(rc, handle) ← calling (nvs_open_from_partition false);
      '(rc, out) ← (if negb (rc =? ESP_OK) then mret (rc, out) else
        '(rc, bytes) ← calling (nvs_get_str handle (lit "setup_pass") cap);
        out ← checked (blit out 0 bytes); modify (nvs_close handle);; mret (rc, out));
      modify give_store;;
      n ← (if rc =? ESP_OK then checked (strlen out) else mret 12);
      mret (if n <? 12 then ESP_ERR_INVALID_SIZE else rc, Some out)
  end.

(** What is read must hold strings; otherwise nothing of it is kept. *)
Definition accept_blob (rc : Z) (good : bool) (bytes : list Z) (size : Z) : option (Z * list Z) :=
  if (rc =? ESP_OK) && good then Some (ESP_OK, bytes) else
  bytes ← cf_secure_zero bytes size; Some (if rc =? ESP_OK then ESP_ERR_INVALID_ARG else rc, bytes).

(** The code, and [*out]. *)
Definition monitor_store_wifi : NM (Z * monitor_wifi_config) :=
  '(rc, bytes) ← blob (lit "wifi_v1") (wifi_bytes zero_wifi) false;
  c ← checked (wifi_of_bytes bytes);
  '(rc, bytes) ← checked (accept_blob rc (bool_decide (0 ∈ wc_ssid c) && bool_decide (0 ∈ wc_password c) && negb (1 <? wc_open c)) bytes SIZEOF_WIFI);
  c ← checked (wifi_of_bytes bytes); mret (rc, c).

Definition monitor_save_wifi (c : monitor_wifi_config) : NM Z := '(rc, _) ← blob (lit "wifi_v1") (wifi_bytes c) true; mret rc.

Definition monitor_store_tunnel : NM (Z * monitor_tunnel_config) :=
  '(rc, bytes) ← blob (lit "tunnel_v1") (tunnel_bytes zero_tunnel_config) false;
  c ← checked (tunnel_of_bytes bytes);
  '(rc, bytes) ← checked (accept_blob rc (bool_decide (0 ∈ tc_token c) && bool_decide (0 ∈ tc_hostname c)) bytes SIZEOF_TUNNEL);
  c ← checked (tunnel_of_bytes bytes); mret (rc, c).

Definition monitor_save_tunnel (c : monitor_tunnel_config) : NM Z := '(rc, _) ← blob (lit "tunnel_v1") (tunnel_bytes c) true; mret rc.

End Store.

(** ** Credentials *)

Section Vault.
Context `{Nvs} `{Memory} `{JsonParser}.

(** What the providers of credentials work on. *)
Record vault := Vault { va_nvs : nvs; va_memory : memory; va_heap : json_heap }.

Definition in_store {A} (c : SM nvs A) : SM vault A :=
  performing (λ v, '(x, n) ← c (va_nvs v); Some (x, Vault n (va_memory v) (va_heap v))).

(** [calloc(1, n)]: is there a block? *)
Definition calloc (n : Z) : SM vault bool :=
  calling (λ v, let '(b, m) := malloc n (va_memory v) in (bool_decide (is_Some b), Vault (va_nvs v) m (va_heap v))).

(** The settings are erased and their block given back. *)
Definition discard (c : monitor_tunnel_config) : SM vault () :=
  block ← checked (cf_secure_zero (tunnel_bytes c) SIZEOF_TUNNEL);
  modify (λ v, Vault (va_nvs v) (free block (va_memory v)) (va_heap v)).

(** The token's credentials, on an erased [*out]; the scratch array is erased by
    the parser and again here. *)
Definition parse_stored (token : list Z) (out : cf_credentials) : SM vault (cf_result * cf_credentials) :=
  text ← checked (c_string token);
  run ← performing (λ v,
    run ← cf_credentials_parse (Bytes (Some token) (zlen text)) (Some (uninitialized (CF_TOKEN_JSON_MAX + 1))) (CF_TOKEN_JSON_MAX + 1) (Some out) (va_heap v);
    Some (run, Vault (va_nvs v) (va_memory v) (tr_heap run)));
  out ← checked (tr_out run); mret (tr_rc run, out).

(** [monitor_credential_provider]; the code and [*out]. *)
Definition monitor_credential_provider (out : option cf_credentials) : SM vault (cf_result * option cf_credentials) :=
  block ← calloc SIZEOF_TUNNEL;
  match out with
  | None =>
      when block (modify (λ v, Vault (va_nvs v) (free (replicate (Z.to_nat SIZEOF_TUNNEL) 0) (va_memory v)) (va_heap v)));;
      mret (CF_ERR_ARGUMENT, None)
  | Some _ =>
      let out := zero_credentials in
      if negb block then mret (CF_ERR_MEMORY, Some out) else
      '(rc, config) ← in_store monitor_store_tunnel;
      first ← checked (rd (tc_token config) 0);
      '(rc, out) ← (if (rc =? ESP_OK) && negb (first =? 0) then parse_stored (tc_token config) out else mret (CF_ERR_STATE, out));
      discard config;; mret (rc, Some out)
  end.

(** [credentials] of monitor_tunnel.c; the code, [*out] and [hostname]. *)
Definition monitor_credentials (hostname : list Z) : SM vault (cf_result * cf_credentials * list Z) :=
  block ← calloc SIZEOF_TUNNEL;
  hostname ← checked (wr hostname 0 0);
  let out := zero_credentials in
  if negb block then mret (CF_ERR_MEMORY, out, hostname) else
  '(rc, config) ← in_store monitor_store_tunnel;
  host ← checked (rd (tc_hostname config) 0);
  first ← checked (rd (tc_token config) 0);
  '(rc, out, hostname) ← (if (rc =? ESP_OK) && negb (host =? 0) && negb (first =? 0) then
      '(rc, out) ← parse_stored (tc_token config) out;
      hostname ← (if is_ok rc then text ← checked (c_string (tc_hostname config)); checked (blit hostname 0 (text ++ [0])) else mret hostname);
      mret (rc, out, hostname)
    else mret (CF_ERR_STATE, out, hostname));
  discard config;; mret (rc, out, hostname).

End Vault.
