(* ===== verification/MonitorVault.v ===== *)
(** The settings of the system monitor: what is saved is what is read back, and
    nothing else is ever handed out; the credentials made from them. *)
From stdpp Require Import gmap.
From S2P Require Export MonitorStore.
#[local] Open Scope Z_scope.

(** The documented behaviour of non-volatile storage: [stored] is what a later
    boot would read. *)
Class NvsLaws `{Nvs} := {
  stored : nvs -> list Z -> option (list Z);
  take_store_law m k : stored (take_store m).2 k = stored m k;
  give_store_law m k : stored (give_store m) k = stored m k;
  open_store_law w m rc h m' k : nvs_open_from_partition w m = (rc, h, m') -> stored m' k = stored m k;
  close_store_law h m k : stored (nvs_close h m) k = stored m k;
  get_blob_law h key n m rc bytes actual m' : nvs_get_blob h key n m = (rc, bytes, actual, m') -> 0 <= n ->
    zlen bytes <= n /\ bytes_ok bytes /\ (forall k, stored m' k = stored m k) /\ (rc = ESP_OK -> stored m key = Some bytes /\ actual = zlen bytes);
  get_str_law h key n m rc bytes m' : nvs_get_str h key n m = (rc, bytes, m') -> 0 <= n ->
    zlen bytes <= n /\ (forall k, stored m' k = stored m k) /\ (rc = ESP_OK -> 0 ∈ bytes);
  set_blob_law h key v m rc m1 : nvs_set_blob h key v m = (rc, m1) -> (forall k, k <> key -> stored m1 k = stored m k) /\
    (rc = ESP_OK -> forall rc' m2, nvs_commit h m1 = (rc', m2) -> (forall k, k <> key -> stored m2 k = stored m1 k) /\ (rc' = ESP_OK -> stored m2 key = Some v))
}.

(** ** The structures *)

Definition wifi_shape (c : monitor_wifi_config) : Prop := zlen (wc_ssid c) = 33 /\ zlen (wc_password c) = 64.
Definition tunnel_shape (c : monitor_tunnel_config) : Prop := zlen (tc_token c) = 1025 /\ zlen (tc_hostname c) = 254.

Lemma wifi_roundtrip c : wifi_shape c -> zlen (wifi_bytes c) = 98 /\ wifi_of_bytes (wifi_bytes c) = Some c.
Proof.
  destruct c as [s p o]; intros [Hs Hp]; cbn in Hs, Hp; unfold wifi_bytes, wifi_of_bytes; cbn [wc_ssid wc_password wc_open].
  assert (zlen (s ++ p ++ [o]) = 98) as Hz by (rewrite !zlen_app, Hs, Hp; done); split; [done|]; rewrite !slice_sub by lia.
  rewrite sub_head by done; cbn [mbind option_bind]; replace (sub (s ++ p ++ [o]) 33 64) with p.
  - cbn [mbind option_bind]; replace 97 with (zlen s + (zlen p + 0)) by lia; rewrite !rd_app_r by lia; done.
  - symmetry; unfold sub; rewrite drop_app_length' by (unfold zlen in Hs; lia); apply take_app_length'; unfold zlen in Hp; lia.
Qed.

Lemma wifi_split l : zlen l = 98 -> exists c, wifi_of_bytes l = Some c /\ wifi_shape c /\ wifi_bytes c = l.
Proof.
  intros Hl; unfold wifi_of_bytes; rewrite !slice_sub by lia; cbn [mbind option_bind]; destruct (rd_Some l 97) as (o & Eo & _); [lia|]; rewrite Eo; cbn [mbind option_bind].
  eexists; split; [done|]; split; [split; apply zlen_sub; lia|]; unfold wifi_bytes, sub; cbn [wc_ssid wc_password wc_open]; rewrite drop_0.
  unfold rd in Eo; change (97 <? 0) with false in Eo; cbn iota in Eo; change (Z.to_nat 97) with 97%nat in Eo; assert (drop 97 l = [o]) as Ed.
  { destruct (drop 97 l) as [|x r] eqn:E; [apply (f_equal length) in E; rewrite length_drop in E; unfold zlen in Hl; cbn in E; lia|].
    assert (l !! 97%nat = Some x) as Ex by (rewrite <- (Nat.add_0_r 97), <- lookup_drop, E; done); rewrite Ex in Eo; injection Eo as ->.
    apply (f_equal length) in E; rewrite length_drop in E; unfold zlen in Hl; destruct r; [done|cbn in E; lia]. }
  change (Z.to_nat 33) with 33%nat; change (Z.to_nat 64) with 64%nat; rewrite <- Ed.
  replace (drop 97 l) with (drop 64 (drop 33 l)) by (by rewrite drop_drop); by rewrite take_drop, take_drop.
Qed.

Lemma tunnel_roundtrip c : tunnel_shape c -> zlen (tunnel_bytes c) = 1279 /\ tunnel_of_bytes (tunnel_bytes c) = Some c.
Proof.
  destruct c as [t h]; intros [Ht Hh]; cbn in Ht, Hh; unfold tunnel_bytes, tunnel_of_bytes; cbn [tc_token tc_hostname].
  assert (zlen (t ++ h) = 1279) as Hz by (rewrite zlen_app; lia); split; [done|]; rewrite !slice_sub by lia; rewrite sub_head by done; cbn [mbind option_bind].
  do 2 f_equal; unfold sub; rewrite drop_app_length' by (unfold zlen in Ht; lia); apply take_ge; unfold zlen in Hh; lia.
Qed.

Lemma tunnel_split l : zlen l = 1279 -> exists c, tunnel_of_bytes l = Some c /\ tunnel_shape c /\ tunnel_bytes c = l.
Proof.
  intros Hl; unfold tunnel_of_bytes; rewrite !slice_sub by lia; cbn [mbind option_bind]; eexists; split; [done|]; split; [split; apply zlen_sub; lia|].
  unfold tunnel_bytes, sub; cbn [tc_token tc_hostname]; rewrite drop_0, (take_ge (drop _ l)); [apply take_drop|rewrite length_drop; unfold zlen in Hl; lia].
Qed.

Section Settings.
Context `{NvsLaws}.

Lemma runs_unchanged {A} {Q : A -> nvs -> Prop} (f : nvs -> A * nvs) m : (forall k, stored (f m).2 k = stored m k) ->
  (forall x m', (forall k, stored m' k = stored m k) -> Q x m') -> runs (calling f) m Q.
Proof. intros Hf HQ; apply runs_calling; by apply HQ. Qed.

(** A value is read whole, or the code says why not. *)
Lemma runs_read {Q : Z * list Z -> nvs -> Prop} key v m : bytes_ok v ->
  (forall rc v' m', zlen v' = zlen v -> bytes_ok v' -> (forall k, stored m' k = stored m k) -> (rc = ESP_OK -> stored m key = Some v') -> Q (rc, v') m') ->
  runs (blob key v false) m Q.
Proof.
  intros Hv HQ; unfold blob; apply runs_bind, runs_unchanged; [apply take_store_law|]; intros taken m1 E1; destruct taken; cbn [negb]; [|by apply runs_ret, HQ].
  apply runs_bind, runs_calling; destruct (nvs_open_from_partition false m1) as [[rc handle] m2] eqn:Eo; cbn [fst snd].
  assert (forall k, stored m2 k = stored m k) as E2 by (intros k; by rewrite (open_store_law _ _ _ _ _ k Eo)).
  apply runs_bind; destruct (Z.eqb_spec rc ESP_OK) as [->|Hrc]; cbn [negb].
  2: { apply runs_ret, runs_bind, runs_modify, runs_ret, HQ; try done; intros k; by rewrite give_store_law. }
  apply runs_bind; unfold read_blob; apply runs_bind, runs_calling; destruct (nvs_get_blob handle key (zlen v) m2) as [[[rc' bytes] actual] m3] eqn:Eg; cbn [fst snd].
  destruct (get_blob_law _ _ _ _ _ _ _ _ Eg (zlen_nonneg v)) as (Hz & Hb & E3 & Hok).
  destruct (blit_Some v 0 bytes) as [v' Ev]; [lia|lia|]; apply runs_bind; eapply runs_checked; [exact Ev|]; apply runs_ret, runs_bind, runs_modify, runs_ret, runs_bind, runs_modify, runs_ret.
  apply HQ; [by eapply zlen_blit|by eapply blit_bytes|intros k; by rewrite give_store_law, close_store_law, E3, E2|].
  destruct (Z.eqb_spec rc' ESP_OK) as [->|]; cbn [andb]; [|done]; destruct (Hok eq_refl) as [Hs Ha]; rewrite (zlen_blit _ _ _ _ Ev); destruct (Z.eqb_spec actual (zlen v)) as [E|]; cbn [negb]; [|done].
  intros _; rewrite <- E2, Hs, (blit_0 _ _ _ Ev), drop_ge, app_nil_r by (unfold zlen in *; lia); done.
Qed.

Lemma runs_save {Q : Z * list Z -> nvs -> Prop} key v m :
  (forall rc m', (forall k, k <> key -> stored m' k = stored m k) -> (rc = ESP_OK -> stored m' key = Some v) -> Q (rc, v) m') -> runs (blob key v true) m Q.
Proof.
  intros HQ; unfold blob; apply runs_bind, runs_unchanged; [apply take_store_law|]; intros taken m1 E1; destruct taken; cbn [negb]; [|by apply runs_ret, HQ].
  apply runs_bind, runs_calling; destruct (nvs_open_from_partition true m1) as [[rc handle] m2] eqn:Eo; cbn [fst snd].
  assert (forall k, stored m2 k = stored m k) as E2 by (intros k; by rewrite (open_store_law _ _ _ _ _ k Eo)).
  apply runs_bind; destruct (Z.eqb_spec rc ESP_OK) as [->|Hrc]; cbn [negb].
  2: { apply runs_ret, runs_bind, runs_modify, runs_ret, HQ; [|done]; intros k _; by rewrite give_store_law. }
  assert (forall rc m', (forall k, k <> key -> stored m' k = stored m k) -> (rc = ESP_OK -> stored m' key = Some v) ->
    runs (modify (nvs_close handle);; mret (rc, v)) m' (λ x m', runs (let '(rc, value) := x in modify give_store;; mret (rc, value)) m' Q)) as Hend.
  { intros rc m' Ho Hk; apply runs_bind, runs_modify, runs_ret, runs_bind, runs_modify, runs_ret, HQ.
    - intros k Hne; rewrite give_store_law, close_store_law; auto.
    - intros Hrc; rewrite give_store_law, close_store_law; auto. }
  apply runs_bind, runs_bind; unfold write_blob; apply runs_bind, runs_calling; destruct (nvs_set_blob handle key v m2) as [rc' m3] eqn:Es; cbn [fst snd].
  destruct (set_blob_law _ _ _ _ _ _ Es) as [Ho3 Hc]; destruct (Z.eqb_spec rc' ESP_OK) as [->|Hrc'].
  - apply runs_calling; destruct (nvs_commit handle m3) as [rc2 m4] eqn:Ec; cbn [fst snd]; destruct (Hc eq_refl _ _ eq_refl) as [Ho4 Hk4]; apply runs_ret, Hend; [|done].
    intros k Hne; rewrite Ho4, Ho3 by done; apply E2.
  - apply runs_ret, runs_ret, Hend; [|done]; intros k Hne; rewrite Ho3 by done; apply E2.
Qed.

(** ** Wi-Fi and tunnel settings *)

Definition wifi_valid (c : monitor_wifi_config) : Prop := 0 ∈ wc_ssid c /\ 0 ∈ wc_password c /\ wc_open c <= 1.
Definition tunnel_valid (c : monitor_tunnel_config) : Prop := 0 ∈ tc_token c /\ 0 ∈ tc_hostname c.

(** What a load gives: the stored value, valid, or an empty one. *)
Definition wifi_loaded (m : nvs) (rc : Z) (c : monitor_wifi_config) : Prop :=
  wifi_shape c /\ (rc = ESP_OK -> stored m (lit "wifi_v1") = Some (wifi_bytes c) /\ wifi_valid c) /\ (rc <> ESP_OK -> c = zero_wifi).
Definition tunnel_loaded (m : nvs) (rc : Z) (c : monitor_tunnel_config) : Prop :=
  tunnel_shape c /\ bytes_ok (tunnel_bytes c) /\ (rc = ESP_OK -> stored m (lit "tunnel_v1") = Some (tunnel_bytes c) /\ tunnel_valid c) /\ (rc <> ESP_OK -> c = zero_tunnel_config).

Lemma wifi_loaded_valid m rc c : wifi_loaded m rc c -> 0 ∈ wc_ssid c /\ 0 ∈ wc_password c.
Proof. intros (_ & Hyes & Hno); destruct (Z.eq_dec rc ESP_OK) as [E|E]; [by destruct (Hyes E) as [_ (? & ? & _)]|rewrite (Hno E); by split; left]. Qed.

Lemma tunnel_loaded_valid m rc c : tunnel_loaded m rc c -> tunnel_valid c.
Proof. intros (_ & _ & Hyes & Hno); destruct (Z.eq_dec rc ESP_OK) as [E|E]; [by apply Hyes|rewrite (Hno E); by split; left]. Qed.

Lemma erased_all l n : zlen l = n -> cf_secure_zero l n = Some (replicate (Z.to_nat n) 0).
Proof.
  intros Hl; pose proof (zlen_nonneg l); destruct (erase_spec l n) as (l' & -> & _ & _ & ->); [lia|]; by rewrite drop_ge, app_nil_r by (unfold zlen in Hl; lia).
Qed.

Lemma load_wifi {Q : Z * monitor_wifi_config -> nvs -> Prop} m :
  (forall rc c m', wifi_loaded m rc c -> (forall k, stored m' k = stored m k) -> Q (rc, c) m') -> runs monitor_store_wifi m Q.
Proof.
  intros HQ; unfold monitor_store_wifi; apply runs_bind, runs_read; [repeat apply Forall_app_2; [by apply Forall_replicate..|by repeat constructor]|].
  intros rc v m' Hz _ Hk Hs; destruct (wifi_split v Hz) as (c & Ec & Hc & Eb); apply runs_bind; eapply runs_checked; [exact Ec|].
  unfold accept_blob; destruct ((rc =? ESP_OK) && _) eqn:Eg.
  - apply runs_bind; eapply runs_checked; [done|]; apply runs_bind; eapply runs_checked; [exact Ec|]; apply runs_ret, HQ; [|done].
    apply andb_true_iff in Eg as [->%Z.eqb_eq [[Hn1%bool_decide_eq_true Hn2%bool_decide_eq_true]%andb_true_iff Hn3]%andb_true_iff].
    split; [done|]; split; [|done]; intros _; rewrite Eb; split; [by apply Hs|]; split_and!; try done; lia.
  - rewrite erased_all by done; apply runs_bind; eapply runs_checked; [done|]; apply runs_bind; eapply runs_checked; [by apply (wifi_roundtrip zero_wifi)|].
    apply runs_ret, HQ; [|done]; split; [done|]; split; [|done]; destruct (Z.eqb_spec rc ESP_OK); [done|tauto].
Qed.

Lemma load_tunnel {Q : Z * monitor_tunnel_config -> nvs -> Prop} m :
  (forall rc c m', tunnel_loaded m rc c -> (forall k, stored m' k = stored m k) -> Q (rc, c) m') -> runs monitor_store_tunnel m Q.
Proof.
  intros HQ; unfold monitor_store_tunnel; apply runs_bind, runs_read; [by apply Forall_app_2; apply Forall_replicate|].
  intros rc v m' Hz Hv Hk Hs; destruct (tunnel_split v Hz) as (c & Ec & Hc & Eb); apply runs_bind; eapply runs_checked; [exact Ec|].
  unfold accept_blob; destruct ((rc =? ESP_OK) && _) eqn:Eg.
  - apply runs_bind; eapply runs_checked; [done|]; apply runs_bind; eapply runs_checked; [exact Ec|]; apply runs_ret, HQ; [|done].
    apply andb_true_iff in Eg as [->%Z.eqb_eq [Hn1%bool_decide_eq_true Hn2%bool_decide_eq_true]%andb_true_iff].
    split; [done|]; rewrite Eb; split; [done|]; split; [|done]; intros _; split; [by apply Hs|by split].
  - rewrite erased_all by done; apply runs_bind; eapply runs_checked; [done|]; apply runs_bind; eapply runs_checked; [by apply (tunnel_roundtrip zero_tunnel_config)|].
    apply runs_ret, HQ; [|done]; split; [done|]; split; [by apply Forall_app_2; apply Forall_replicate|]; split; [|done]; destruct (Z.eqb_spec rc ESP_OK); [done|tauto].
Qed.

Lemma save_wifi {Q : Z -> nvs -> Prop} c m :
  (forall rc m', (forall k, k <> lit "wifi_v1" -> stored m' k = stored m k) -> (rc = ESP_OK -> stored m' (lit "wifi_v1") = Some (wifi_bytes c)) -> Q rc m') -> runs (monitor_save_wifi c) m Q.
Proof. intros HQ; unfold monitor_save_wifi; apply runs_bind, runs_save; intros rc m' Ho Hk; apply runs_ret; auto. Qed.

Lemma save_tunnel {Q : Z -> nvs -> Prop} c m :
  (forall rc m', (forall k, k <> lit "tunnel_v1" -> stored m' k = stored m k) -> (rc = ESP_OK -> stored m' (lit "tunnel_v1") = Some (tunnel_bytes c)) -> Q rc m') -> runs (monitor_save_tunnel c) m Q.
Proof. intros HQ; unfold monitor_save_tunnel; apply runs_bind, runs_save; intros rc m' Ho Hk; apply runs_ret; auto. Qed.

(** The device password: a string of at least twelve characters, or an error. *)
Lemma load_password {Q : Z * option (list Z) -> nvs -> Prop} out cap m : 17 <= cap <= zlen out ->
  (forall rc out' m', zlen out' = zlen out -> (rc = ESP_OK -> exists t, cstr out' t /\ 12 <= zlen t) -> (forall k, stored m' k = stored m k) -> Q (rc, Some out') m') ->
  runs (monitor_store_password (Some out) cap) m Q.
Proof.
  intros Hcap HQ; unfold monitor_store_password; destruct (Z.ltb_spec cap 17); [lia|].
  assert (exists z, zero_fill out 0 cap = Some z /\ zlen z = zlen out) as (z & Ez & Hz).
  { unfold zero_fill; replace (cap <? 0) with false by lia; destruct (blit_Some out 0 (replicate (Z.to_nat cap) 0)) as [z E]; [lia|rewrite zlen_replicate; lia|].
    exists z; split; [done|by eapply zlen_blit]. }
  apply runs_bind; eapply runs_checked; [exact Ez|]; apply runs_bind, runs_unchanged; [apply take_store_law|]; intros taken m1 E1; destruct taken; cbn [negb]; [|by apply runs_ret, HQ].
  apply runs_bind, runs_calling; destruct (nvs_open_from_partition false m1) as [[rc handle] m2] eqn:Eo; cbn [fst snd].
  assert (forall k, stored m2 k = stored m k) as E2 by (intros k; by rewrite (open_store_law _ _ _ _ _ k Eo)).
  assert (forall rc out' m', zlen out' = zlen out -> (rc = ESP_OK -> 0 ∈ out') -> (forall k, stored m' k = stored m k) ->
    runs (modify give_store;; n ← (if rc =? ESP_OK then checked (strlen out') else mret 12); mret (if n <? 12 then ESP_ERR_INVALID_SIZE else rc, Some out')) m' Q) as Hend.
  { intros rc' out' m' Hz' Hn Hk; apply runs_bind, runs_modify, runs_bind; assert (forall k, stored (give_store m') k = stored m k) as Hk' by (intros k; by rewrite give_store_law).
    destruct (Z.eqb_spec rc' ESP_OK) as [->|Hne]; [|apply runs_ret, runs_ret, HQ; done].
    destruct (terminated_cstr out' (Hn eq_refl)) as [t Ht]; eapply runs_checked; [by apply strlen_spec|]; apply runs_ret; destruct (Z.ltb_spec (zlen t) 12); apply HQ; try done; intros _; by exists t. }
  apply runs_bind; destruct (Z.eqb_spec rc ESP_OK) as [->|Hrc]; cbn [negb]; [|by apply runs_ret, Hend].
  apply runs_bind, runs_calling; destruct (nvs_get_str handle (lit "setup_pass") cap m2) as [[rc bytes] m3] eqn:Eg; cbn [fst snd].
  destruct (get_str_law _ _ _ _ _ _ _ Eg) as (Hzb & E3 & Hn); [lia|]; destruct (blit_Some z 0 bytes) as [z' Ez']; [lia|lia|].
  apply runs_bind; eapply runs_checked; [exact Ez'|]; apply runs_bind, runs_modify, runs_ret, Hend; [rewrite (zlen_blit _ _ _ _ Ez'); lia| |intros k; by rewrite close_store_law, E3, E2].
  intros Hrc; rewrite (blit_0 _ _ _ Ez'), elem_of_app; left; by apply Hn.
Qed.

End Settings.

(** ** Credentials *)

Lemma hex_nonzero c : is_hex c -> is_byte c.
Proof. unfold is_hex, hex, is_byte; repeat case_if; bool_to_prop; lia. Qed.

Lemma unhex_bytes l : Forall is_hex l -> bytes_ok (unhex l).
Proof.
  induction l as [l IH] using (induction_ltof1 _ (@length Z)); unfold ltof in IH; destruct l as [|a [|b l]]; cbn [unhex]; intros Hl; [constructor..|].
  apply Forall_cons_1 in Hl as [Ha Hl]; apply Forall_cons_1 in Hl as [Hb Hl]; constructor; [|by apply IH; [cbn; lia|]].
  unfold is_hex, hex in Ha, Hb; unfold is_byte, hex; repeat case_if; bool_to_prop; lia.
Qed.

(** The credentials of a valid token are in order. *)
Lemma token_credentials `{JsonParser} l h c : token_valid l h c -> credentials_ok c.
Proof.
  intros (_ & doc & root & h1 & _ & _ & _ & _ & acc & sec & tid & id & secret & _ & _ & _ & (Hz & _ & _ & _ & _ & Hx & -> & _) & [Ha Hxa] & [Hd Hs] & ->).
  pose proof (decode_ref_fits _ _ _ _ Hd); destruct (encode_decode_ref _ _ _ _ Hd) as [_ Hb]; unfold credentials_ok; cbn [account_tag tunnel_id tunnel_secret].
  split_and!.
  - rewrite zlen_app, Ha; done.
  - apply Forall_app_2; [by eapply Forall_impl, hex_nonzero|by repeat constructor].
  - apply (zlen_unhex _ 16); unfold uuid_hex; assert (zlen (sub tid 0 8 ++ sub tid 9 4 ++ sub tid 14 4 ++ sub tid 19 4 ++ sub tid 24 12) = 32) as E
      by (rewrite !zlen_app, !zlen_sub by lia; done); unfold zlen in E; lia.
  - by apply unhex_bytes.
  - unfold secret_array; rewrite zlen_app, zlen_replicate; unfold CF_TUNNEL_SECRET_MAX, zlen in *; lia.
  - apply Forall_app_2; [done|by apply Forall_replicate].
Qed.

Section Providers.
Context (header : Z) (Hheader : 0 < header <= 64) `{NvsLaws} `{MemoryLaws} `{JsonParserLaws header}.

(** The block was refused, or given back erased. *)
Definition block_returned (n : Z) (m m' : memory) : Prop :=
  malloc n m = (None, m') \/ exists b m1, malloc n m = (Some b, m1) /\ m' = free (replicate (Z.to_nat n) 0) m1.

(** What a provider leaves as it was. *)
Record vault_kept (v v' : vault) : Prop := {
  vk_stored k : stored (va_nvs v') k = stored (va_nvs v) k;
  vk_heap : heap_ok header (va_heap v') /\ json_live_bytes (va_heap v') = json_live_bytes (va_heap v);
  vk_memory : block_returned SIZEOF_TUNNEL (va_memory v) (va_memory v')
}.

(** The stored settings, with a host name and a token whose credentials are [c]. *)
Definition stored_credentials (v : vault) (h : json_heap) (c : cf_credentials) (host : list Z) : Prop :=
  exists config token, stored (va_nvs v) (lit "tunnel_v1") = Some (tunnel_bytes config) /\ tunnel_shape config /\ cstr (tc_hostname config) host /\
    cstr (tc_token config) token /\ token_valid token h c.

Lemma runs_parse_stored {Q : cf_result * cf_credentials -> vault -> Prop} array token out v : heap_ok header (va_heap v) -> cstr array token -> bytes_ok array ->
  (forall rc c h, heap_ok header h -> json_live_bytes h = json_live_bytes (va_heap v) ->
     (rc = CF_OK -> token_valid token (va_heap v) c) -> (rc <> CF_OK -> c = zero_credentials) -> Q (rc, c) (Vault (va_nvs v) (va_memory v) h)) ->
  runs (parse_stored array out) v Q.
Proof.
  intros Hh Ht Hb HQ; unfold parse_stored; apply runs_bind; eapply runs_checked; [by apply c_string_spec|]; destruct Ht as (rest & -> & _).
  destruct (parse_token_spec header Hheader (Bytes (Some (token ++ 0 :: rest)) (zlen token)) token (uninitialized (CF_TOKEN_JSON_MAX + 1)) (CF_TOKEN_JSON_MAX + 1) out None (va_heap v))
    as (run & E & _ & Hh' & Hl & _ & Hpost); [done|split; [by apply Forall_app in Hb as [? _]|]; split; [done|by exists (0 :: rest)]|rewrite uninitialized_law by done; lia|].
  apply runs_bind; eapply runs_performing; [unfold cf_credentials_parse; rewrite E; reflexivity|]; cbn beta.
  apply runs_bind; destruct (tr_rc run) eqn:Erc; [destruct Hpost as (c & -> & Hv)|destruct Hpost as [-> _]..]; (eapply runs_checked; [reflexivity|]; apply runs_ret, HQ; try done; by intros _).
Qed.

Lemma runs_discard {Q : () -> vault -> Prop} c v : tunnel_shape c -> Q tt (Vault (va_nvs v) (free (replicate (Z.to_nat SIZEOF_TUNNEL) 0) (va_memory v)) (va_heap v)) -> runs (discard c) v Q.
Proof.
  intros Hc HQ; unfold discard; destruct (tunnel_roundtrip c Hc) as [Hz _]; apply runs_bind; eapply runs_checked; [apply erased_all, Hz|]; by apply runs_modify.
Qed.

Lemma runs_in_store {A} {Q : A -> vault -> Prop} (c : SM nvs A) v : runs c (va_nvs v) (λ x n, Q x (Vault n (va_memory v) (va_heap v))) -> runs (in_store c) v Q.
Proof. intros (x & n & E & HQ); by eapply runs_performing; [rewrite E|]. Qed.

(** The callback of the tunnel: whatever is stored, credentials come out only of
    a valid token with a host name; nothing else of the settings remains. *)
Lemma credentials_spec hostname v : heap_ok header (va_heap v) -> zlen hostname = 254 ->
  exists rc c host v', monitor_credentials hostname v = Some ((rc, c, host), v') /\ vault_kept v v' /\ credentials_ok c /\ zlen host = 254 /\
    (rc = CF_OK -> exists name, stored_credentials v (va_heap v) c name /\ name <> [] /\ cstr host name) /\
    (rc <> CF_OK -> c = zero_credentials /\ cstr host []).
Proof.
  intros Hh Hz; set (Q := λ (x : cf_result * cf_credentials * list Z) v', vault_kept v v' /\ credentials_ok x.1.2 /\ zlen x.2 = 254 /\
    (x.1.1 = CF_OK -> exists name, stored_credentials v (va_heap v) x.1.2 name /\ name <> [] /\ cstr x.2 name) /\ (x.1.1 <> CF_OK -> x.1.2 = zero_credentials /\ cstr x.2 [])).
  enough (runs (monitor_credentials hostname) v Q) as ([[rc c] host] & v' & E & Hk & Hc & Hz' & Hyes & Hno) by (by exists rc, c, host, v').
  unfold monitor_credentials, calloc; apply runs_bind, runs_calling; destruct (malloc SIZEOF_TUNNEL (va_memory v)) as [b m1] eqn:Em; cbn [fst snd].
  destruct (blit_Some hostname 0 [0]) as [host0 Eh]; [lia|rewrite Hz; done|]; pose proof (zlen_blit _ _ _ _ Eh) as Hz0.
  assert (cstr host0 []) as Hempty by (rewrite (blit_0 _ _ _ Eh); exists (drop 1 hostname); split; [done|apply not_elem_of_nil]).
  apply runs_bind; eapply runs_checked; [exact Eh|]; destruct b as [b|]; cbn [bool_decide].
  2: { rewrite bool_decide_eq_false_2 by (by intros [? ?]); apply runs_ret; split; [|split_and!; try done; [apply zero_credentials_ok|cbn [snd]; lia]]. by constructor; [|split|left]. }
  rewrite bool_decide_eq_true_2 by done; cbn [negb]; apply runs_bind, runs_in_store, load_tunnel; intros rc config n' (Hshape & Hbytes & Hok & Hno) Hstored.
  assert (forall c h host rc', zlen host = 254 -> heap_ok header h -> json_live_bytes h = json_live_bytes (va_heap v) -> credentials_ok c ->
    (rc' = CF_OK -> exists name, stored_credentials v (va_heap v) c name /\ name <> [] /\ cstr host name) -> (rc' <> CF_OK -> c = zero_credentials /\ cstr host []) ->
    runs (discard config;; mret (rc', c, host)) (Vault n' m1 h) Q) as Hend.
  { intros c h host rc' Hzh Hhh Hlh Hc Hyes Hn; apply runs_bind, runs_discard; [done|]; apply runs_ret; split; [|by split_and!]; constructor; [done|by split|right; by exists b, m1]. }
  destruct Hshape as [Hst Hsh]; destruct (rd_Some (tc_hostname config) 0) as (h0 & Eh0 & _); [lia|]; destruct (rd_Some (tc_token config) 0) as (t0 & Et0 & _); [lia|].
  apply runs_bind; eapply runs_checked; [exact Eh0|]; apply runs_bind; eapply runs_checked; [exact Et0|]; apply runs_bind.
  destruct ((rc =? ESP_OK) && negb (h0 =? 0) && negb (t0 =? 0)) eqn:Eall.
  2: { apply runs_ret, Hend; try done; [lia|apply zero_credentials_ok]. }
  apply andb_true_iff in Eall as [[->%Z.eqb_eq Hh0]%andb_true_iff _]; destruct (Hok eq_refl) as (Hsto & Hnt & Hnh).
  destruct (terminated_cstr _ Hnt) as [token Htoken]; destruct (terminated_cstr _ Hnh) as [name Hname]; apply Forall_app in Hbytes as [Hbt _].
  apply runs_bind, (runs_parse_stored _ token); [done..|]; intros rc c h Hhh Hlh Hvalid Hzc; cbn [va_nvs va_memory va_heap] in *; apply runs_bind.
  destruct (decide (rc = CF_OK)) as [->|Hrc].
  - change (is_ok CF_OK) with true; cbn iota; apply runs_bind; eapply runs_checked; [by apply c_string_spec|].
    destruct Hname as (rest & Er & Hn0); destruct (blit_Some host0 0 (name ++ [0])) as [host1 E1]; [lia|rewrite Er, !zlen_app, !zlen_cons in Hsh; rewrite zlen_app, zlen_cons, zlen_nil; pose proof (zlen_nonneg rest); lia|].
    eapply runs_checked; [exact E1|]; apply runs_ret, Hend; try done; [rewrite (zlen_blit _ _ _ _ E1); lia|by eapply token_credentials, Hvalid|intros _].
    exists name; split; [exists config, token; split_and!; try done; [by exists rest|by apply Hvalid]|]; split; [|rewrite (blit_0 _ _ _ E1), <- app_assoc; by apply cstr_intro].
    intros ->; rewrite Er in Eh0; cbn in Eh0; injection Eh0 as <-; done.
  - replace (is_ok rc) with false by (symmetry; by apply bool_decide_eq_false_2); apply runs_ret, runs_ret, Hend; try done; [lia|rewrite Hzc by done; apply zero_credentials_ok|by intros _; split; [apply Hzc|]].
Qed.

End Providers.

(** ** A shelf of settings *)

Module Shelf.

Definition all_bytes (l : list Z) : bool := forallb (λ b, (0 <=? b) && (b <? 256)) l.

Definition find_value (key : list Z) (m : list (list Z * list Z)) : option (list Z) := snd ∘ snd <$> list_find (λ e, e.1 = key) m.

Definition password : list Z := lit "abcdefghijklmnop" ++ [0].

#[export] Instance storage : Nvs := {|
  nvs := list (list Z * list Z);
  create_mutex m := (true, m);
  take_store m := (true, m);
  give_store m := m;
  nvs_flash_init m := (0, m);
  nvs_flash_init_partition _ m := (0, m);
  nvs_open_from_partition _ m := (0, 1, m);
  nvs_set_blob _ key v m := (0, (key, v) :: m);
  nvs_get_blob _ key n m :=
    match find_value key m with
    | Some v => if all_bytes v && (zlen v <=? n) then (0, v, zlen v, m) else (1, [], 0, m)
    | None => (1, [], 0, m)
    end;
  nvs_get_str _ key n m := if 17 <=? n then (0, password, m) else (1, [], m);
  nvs_commit _ m := (0, m);
  nvs_close _ m := m
|}.

#[export] Instance laws : NvsLaws.
Proof.
  refine {| stored m k := find_value k m |}; try done.
  - by intros w m rc h m' k [= <- <- <-].
  - intros h key n m rc bytes actual m' E Hn; cbn in E; destruct (find_value key m) as [v|] eqn:Ef.
    + destruct (all_bytes v && (zlen v <=? n)) eqn:Ea; injection E as <- <- <- <-; [|by split_and!; [rewrite zlen_nil; lia|constructor|..]].
      apply andb_true_iff in Ea as [Hb Hz]; split; [lia|]; split; [|by split].
      apply Forall_forall; intros x Hx; unfold all_bytes in Hb; rewrite forallb_forall in Hb; specialize (Hb x ltac:(by apply list_elem_of_In)); unfold is_byte; lia.
    + injection E as <- <- <- <-; by split_and!; [rewrite zlen_nil; lia|constructor|..].
  - intros h key n m rc bytes m' E Hn; cbn -[password] in E; destruct (Z.leb_spec 17 n); injection E as <- <- <-; [|by split_and!; [rewrite zlen_nil; lia|..]].
    assert (zlen password = 17) as Ez by done; split; [lia|]; split; [done|]; intros _; apply (bool_decide_eq_true_1 (0 ∈ password)); by vm_compute.
  - intros h key v m rc m1 [= <- <-]; split.
    + intros k Hk; unfold find_value; cbn; case_decide; [cbn in *; congruence|]; by destruct (list_find _ m) as [[? ?]|].
    + intros _ rc' m2 [= <- <-]; split; [done|]; intros _; unfold find_value; cbn; by rewrite decide_True.
Defined.

Definition network : monitor_wifi_config := WifiConfig (lit "home" ++ replicate 29 0) (lit "password" ++ replicate 56 0) 0.
Definition empty : nvs := [].

End Shelf.
#[local] Existing Instances Shelf.storage Shelf.laws.

(** ** The theorems *)

(** C22. The settings read back are those saved: a save that reports success is
    followed by loads that give exactly the saved structure, or an empty one with
    an error; it changes no other setting; and a load never hands out a structure
    whose strings are not terminated. *)
Theorem settings_roundtrip `{NvsLaws} wifi tunnel_ m : wifi_shape wifi -> tunnel_shape tunnel_ ->
  (exists rc m1 rc' c m2, monitor_save_wifi wifi m = Some (rc, m1) /\ monitor_store_wifi m1 = Some ((rc', c), m2) /\
     stored m1 (lit "tunnel_v1") = stored m (lit "tunnel_v1") /\ (rc' = ESP_OK -> wifi_valid c) /\
     (rc = ESP_OK -> if rc' =? ESP_OK then c = wifi else c = zero_wifi)) /\
  (exists rc m1 rc' c m2, monitor_save_tunnel tunnel_ m = Some (rc, m1) /\ monitor_store_tunnel m1 = Some ((rc', c), m2) /\
     stored m1 (lit "wifi_v1") = stored m (lit "wifi_v1") /\ (rc' = ESP_OK -> tunnel_valid c) /\
     (rc = ESP_OK -> if rc' =? ESP_OK then c = tunnel_ else c = zero_tunnel_config)).
Proof.
  intros Hw Ht; split.
  - destruct (save_wifi (Q := λ rc m1, (forall k, k <> lit "wifi_v1" -> stored m1 k = stored m k) /\ (rc = ESP_OK -> stored m1 (lit "wifi_v1") = Some (wifi_bytes wifi))) wifi m)
      as (rc & m1 & E & Ho & Hs); [done|]; destruct (load_wifi (Q := λ x m2, wifi_loaded m1 x.1 x.2) m1) as ([rc' c] & m2 & E' & Hc & Hyes & Hno); [done|].
    exists rc, m1, rc', c, m2; split; [done|]; split; [done|]; split; [by apply Ho|]; cbn [fst snd] in *; split; [by intros ?; apply Hyes|].
    intros Hrc; destruct (Z.eqb_spec rc' ESP_OK) as [->|]; [|by apply Hno]; destruct (Hyes eq_refl) as [Hb _]; rewrite Hs in Hb by done; injection Hb as Hb.
    destruct (wifi_roundtrip c Hc) as [_ E1]; destruct (wifi_roundtrip wifi Hw) as [_ E2]; congruence.
  - destruct (save_tunnel (Q := λ rc m1, (forall k, k <> lit "tunnel_v1" -> stored m1 k = stored m k) /\ (rc = ESP_OK -> stored m1 (lit "tunnel_v1") = Some (tunnel_bytes tunnel_))) tunnel_ m)
      as (rc & m1 & E & Ho & Hs); [done|]; destruct (load_tunnel (Q := λ x m2, tunnel_loaded m1 x.1 x.2) m1) as ([rc' c] & m2 & E' & Hc & _ & Hyes & Hno); [done|].
    exists rc, m1, rc', c, m2; split; [done|]; split; [done|]; split; [by apply Ho|]; cbn [fst snd] in *; split; [by intros ?; apply Hyes|].
    intros Hrc; destruct (Z.eqb_spec rc' ESP_OK) as [->|]; [|by apply Hno]; destruct (Hyes eq_refl) as [Hb _]; rewrite Hs in Hb by done; injection Hb as Hb.
    destruct (tunnel_roundtrip c Hc) as [_ E1]; destruct (tunnel_roundtrip tunnel_ Ht) as [_ E2]; congruence.
Qed.

Lemma settings_roundtrip_witness :
  (exists rc m1 rc' c m2, monitor_save_wifi Shelf.network Shelf.empty = Some (rc, m1) /\ monitor_store_wifi m1 = Some ((rc', c), m2) /\
     stored m1 (lit "tunnel_v1") = stored Shelf.empty (lit "tunnel_v1") /\ (rc' = ESP_OK -> wifi_valid c) /\
     (rc = ESP_OK -> if rc' =? ESP_OK then c = Shelf.network else c = zero_wifi)).
Proof. apply (settings_roundtrip Shelf.network zero_tunnel_config Shelf.empty); by split. Defined.

(** C8. The tunnel gets credentials only from the settings: the callback returns
    on whatever is stored; it succeeds only with a stored token that is valid and
    a host name that is not empty, and gives exactly that token's credentials and
    that name; otherwise the credentials are zero and the name empty.  It writes
    nothing to the settings, leaves no JSON behind, and erases the settings it
    read before it frees them. *)
Theorem credentials_provided header hostname v `{NvsLaws} `{MemoryLaws} `{JsonParserLaws header} : 0 < header <= 64 ->
  heap_ok header (va_heap v) -> zlen hostname = 254 ->
  exists rc c host v', monitor_credentials hostname v = Some ((rc, c, host), v') /\ vault_kept header v v' /\ credentials_ok c /\ zlen host = 254 /\
    (rc = CF_OK -> exists name, stored_credentials v (va_heap v) c name /\ name <> [] /\ cstr host name) /\
    (rc <> CF_OK -> c = zero_credentials /\ cstr host []).
Proof. intros Hheader; by apply (credentials_spec header Hheader). Qed.

#[local] Existing Instances token_parser token_parser_laws.

Lemma credentials_provided_witness :
  let v := Vault Shelf.empty no_blocks empty_heap in
  exists rc c host v', monitor_credentials (replicate 254 7) v = Some ((rc, c, host), v') /\ vault_kept 8 v v' /\ credentials_ok c /\ zlen host = 254 /\
    (rc = CF_OK -> exists name, stored_credentials v (va_heap v) c name /\ name <> [] /\ cstr host name) /\
    (rc <> CF_OK -> c = zero_credentials /\ cstr host []).
Proof. intros v; apply (credentials_provided 8 (replicate 254 7) v); [lia|apply empty_heap_ok|done]. Defined.
