(* ===== verification/MonitorNetwork.v ===== *)
(** The Wi-Fi of the system monitor
    (src/examples/system_monitor/main/monitor_network.c): the station and the setup
    access point, their events, and the tick of the main task. *)
From stdpp Require Import gmap.
From S2P Require Export MonitorVault.
#[local] Open Scope Z_scope.

Definition MONITOR_SETUP_SECONDS : Z := 600.
Definition SCAN_MAX : Z := 12.

(** The arrays have 16, 16, 33 and 33 characters. *)
Record monitor_network_snapshot := NetworkSnapshot {
  ns_connected : bool;
  ns_connecting : bool;
  ns_associated : bool;
  ns_ap_enabled : bool;
  ns_scanning : bool;
  ns_scan_ready : bool;
  ns_retries : Z;
  ns_disconnect_reason : Z;
  ns_ap_clients : Z;
  ns_ap_deadline_ms : Z;
  ns_sntp_sync_count : Z;
  ns_sntp_last_sync_utc : Z;
  ns_ip_text : list Z;
  ns_gateway_text : list Z;
  ns_ssid_text : list Z;
  ns_ap_ssid : list Z;
  ns_rssi : Z;
  ns_channel : Z
}.

(** A network that was found; the name has 33 characters. *)
Record monitor_ap := FoundAp { fa_ssid : list Z; fa_rssi : Z; fa_secure : bool; fa_channel : Z }.

(** What the SDK reports of one; 33 bytes of name, of which 32 are used. *)
Record ap_record := ApRecord { ar_ssid : list Z; ar_rssi : Z; ar_open : bool; ar_primary : Z }.

(** The variables of the module. *)
Record network := NetworkState {
  n_state : monitor_network_snapshot;
  n_scan_list : list monitor_ap;
  n_scan_count : Z;
  n_reload_requested : bool;
  n_scan_requested : bool;
  n_scan_finished : bool;
  n_clock_requested : bool;
  n_has_credentials : bool;
  n_next_retry : Z;
  n_connection_deadline : Z;
  n_button_since : Z;
  n_button_handled : bool
}.

Definition zero_network_snapshot : monitor_network_snapshot :=
  NetworkSnapshot false false false false false false 0 0 0 0 0 0 (replicate 16 0) (replicate 16 0) (replicate 33 0) (replicate 33 0) 0 0.
Definition zero_network : network :=
  NetworkState zero_network_snapshot (replicate 12 (FoundAp (replicate 33 0) 0 false 0)) 0 false false false false false 0 0 0 false.

Definition set_link (c k a : bool) (s : monitor_network_snapshot) : monitor_network_snapshot :=
  NetworkSnapshot c k a (ns_ap_enabled s) (ns_scanning s) (ns_scan_ready s) (ns_retries s) (ns_disconnect_reason s) (ns_ap_clients s) (ns_ap_deadline_ms s) (ns_sntp_sync_count s)
    (ns_sntp_last_sync_utc s) (ns_ip_text s) (ns_gateway_text s) (ns_ssid_text s) (ns_ap_ssid s) (ns_rssi s) (ns_channel s).
Definition set_ap (e : bool) (deadline : Z) (s : monitor_network_snapshot) : monitor_network_snapshot :=
  NetworkSnapshot (ns_connected s) (ns_connecting s) (ns_associated s) e (ns_scanning s) (ns_scan_ready s) (ns_retries s) (ns_disconnect_reason s) (ns_ap_clients s) deadline (ns_sntp_sync_count s)
    (ns_sntp_last_sync_utc s) (ns_ip_text s) (ns_gateway_text s) (ns_ssid_text s) (ns_ap_ssid s) (ns_rssi s) (ns_channel s).
Definition set_scan (b r : bool) (s : monitor_network_snapshot) : monitor_network_snapshot :=
  NetworkSnapshot (ns_connected s) (ns_connecting s) (ns_associated s) (ns_ap_enabled s) b r (ns_retries s) (ns_disconnect_reason s) (ns_ap_clients s) (ns_ap_deadline_ms s) (ns_sntp_sync_count s)
    (ns_sntp_last_sync_utc s) (ns_ip_text s) (ns_gateway_text s) (ns_ssid_text s) (ns_ap_ssid s) (ns_rssi s) (ns_channel s).
Definition set_retries (n reason : Z) (s : monitor_network_snapshot) : monitor_network_snapshot :=
  NetworkSnapshot (ns_connected s) (ns_connecting s) (ns_associated s) (ns_ap_enabled s) (ns_scanning s) (ns_scan_ready s) n reason (ns_ap_clients s) (ns_ap_deadline_ms s) (ns_sntp_sync_count s)
    (ns_sntp_last_sync_utc s) (ns_ip_text s) (ns_gateway_text s) (ns_ssid_text s) (ns_ap_ssid s) (ns_rssi s) (ns_channel s).
Definition set_sync (n utc : Z) (s : monitor_network_snapshot) : monitor_network_snapshot :=
  NetworkSnapshot (ns_connected s) (ns_connecting s) (ns_associated s) (ns_ap_enabled s) (ns_scanning s) (ns_scan_ready s) (ns_retries s) (ns_disconnect_reason s) (ns_ap_clients s) (ns_ap_deadline_ms s) n
    utc (ns_ip_text s) (ns_gateway_text s) (ns_ssid_text s) (ns_ap_ssid s) (ns_rssi s) (ns_channel s).
Definition set_addresses (a g : list Z) (s : monitor_network_snapshot) : monitor_network_snapshot :=
  NetworkSnapshot (ns_connected s) (ns_connecting s) (ns_associated s) (ns_ap_enabled s) (ns_scanning s) (ns_scan_ready s) (ns_retries s) (ns_disconnect_reason s) (ns_ap_clients s) (ns_ap_deadline_ms s)
    (ns_sntp_sync_count s) (ns_sntp_last_sync_utc s) a g (ns_ssid_text s) (ns_ap_ssid s) (ns_rssi s) (ns_channel s).
Definition set_names (name ap : list Z) (s : monitor_network_snapshot) : monitor_network_snapshot :=
  NetworkSnapshot (ns_connected s) (ns_connecting s) (ns_associated s) (ns_ap_enabled s) (ns_scanning s) (ns_scan_ready s) (ns_retries s) (ns_disconnect_reason s) (ns_ap_clients s) (ns_ap_deadline_ms s)
    (ns_sntp_sync_count s) (ns_sntp_last_sync_utc s) (ns_ip_text s) (ns_gateway_text s) name ap (ns_rssi s) (ns_channel s).
Definition set_signal (r c : Z) (s : monitor_network_snapshot) : monitor_network_snapshot :=
  NetworkSnapshot (ns_connected s) (ns_connecting s) (ns_associated s) (ns_ap_enabled s) (ns_scanning s) (ns_scan_ready s) (ns_retries s) (ns_disconnect_reason s) (ns_ap_clients s) (ns_ap_deadline_ms s)
    (ns_sntp_sync_count s) (ns_sntp_last_sync_utc s) (ns_ip_text s) (ns_gateway_text s) (ns_ssid_text s) (ns_ap_ssid s) r c.
Definition set_clients (n : Z) (s : monitor_network_snapshot) : monitor_network_snapshot :=
  NetworkSnapshot (ns_connected s) (ns_connecting s) (ns_associated s) (ns_ap_enabled s) (ns_scanning s) (ns_scan_ready s) (ns_retries s) (ns_disconnect_reason s) n (ns_ap_deadline_ms s)
    (ns_sntp_sync_count s) (ns_sntp_last_sync_utc s) (ns_ip_text s) (ns_gateway_text s) (ns_ssid_text s) (ns_ap_ssid s) (ns_rssi s) (ns_channel s).

Definition over_state (f : monitor_network_snapshot -> monitor_network_snapshot) (n : network) : network :=
  NetworkState (f (n_state n)) (n_scan_list n) (n_scan_count n) (n_reload_requested n) (n_scan_requested n) (n_scan_finished n) (n_clock_requested n) (n_has_credentials n)
    (n_next_retry n) (n_connection_deadline n) (n_button_since n) (n_button_handled n).
Definition set_found (l : list monitor_ap) (k : Z) (n : network) : network :=
  NetworkState (n_state n) l k (n_reload_requested n) (n_scan_requested n) (n_scan_finished n) (n_clock_requested n) (n_has_credentials n)
    (n_next_retry n) (n_connection_deadline n) (n_button_since n) (n_button_handled n).
Definition set_requests (reload scan finished clock : bool) (n : network) : network :=
  NetworkState (n_state n) (n_scan_list n) (n_scan_count n) reload scan finished clock (n_has_credentials n)
    (n_next_retry n) (n_connection_deadline n) (n_button_since n) (n_button_handled n).
Definition set_has_credentials (b : bool) (n : network) : network :=
  NetworkState (n_state n) (n_scan_list n) (n_scan_count n) (n_reload_requested n) (n_scan_requested n) (n_scan_finished n) (n_clock_requested n) b
    (n_next_retry n) (n_connection_deadline n) (n_button_since n) (n_button_handled n).
Definition set_next_retry (t : Z) (n : network) : network :=
  NetworkState (n_state n) (n_scan_list n) (n_scan_count n) (n_reload_requested n) (n_scan_requested n) (n_scan_finished n) (n_clock_requested n) (n_has_credentials n)
    t (n_connection_deadline n) (n_button_since n) (n_button_handled n).
Definition set_connection_deadline (t : Z) (n : network) : network :=
  NetworkState (n_state n) (n_scan_list n) (n_scan_count n) (n_reload_requested n) (n_scan_requested n) (n_scan_finished n) (n_clock_requested n) (n_has_credentials n)
    (n_next_retry n) t (n_button_since n) (n_button_handled n).
Definition set_button (since : Z) (handled : bool) (n : network) : network :=
  NetworkState (n_state n) (n_scan_list n) (n_scan_count n) (n_reload_requested n) (n_scan_requested n) (n_scan_finished n) (n_clock_requested n) (n_has_credentials n)
    (n_next_retry n) (n_connection_deadline n) since handled.

(** What another task does meanwhile: an event of the SDK, or a request. *)
Inductive arrival :=
| GotIp (ip gateway : list Z)
| StationConnected
| StationDisconnected (reason : Z)
| ScanDone
| ClockSynced (seconds : Z)
| ReloadAsked
| ScanAsked.

(** The calls of the start that must succeed ([ESP_ERROR_CHECK]). *)
Inductive setup_step :=
| NetifInit | EventLoopCreate | WifiInit | PowerSaveOff | StorageInRam | WifiEvents | IpEvents | ModeApSta | StationBandwidth | ApBandwidth
| SntpInit | ButtonConfig | WifiStart.

(** The radio, the clock and the button.  After a call of the main task, what
    other tasks did meanwhile is given by [arrivals]. *)
Class Radio := {
  radio : Type;
  radio_timer : radio -> Z * radio;
  radio_random : radio -> Z * radio;
  arrivals : radio -> list arrival * radio;
  setup_call : setup_step -> radio -> Z * radio;
  create_interfaces : radio -> bool * radio;               (* both were created *)
  read_mac : radio -> Z * list Z * radio;                   (* the code and six bytes *)
  (* 32 bytes of name, of which so many are used, and 64 of password *)
  set_ap_config : list Z -> Z -> list Z -> radio -> Z * radio;
  (* 32 bytes of name, 64 of password, and whether it is open; otherwise zeros *)
  set_sta_config : option (list Z * list Z * bool) -> radio -> Z * radio;
  set_mode : bool -> radio -> Z * radio;                    (* with the access point *)
  wifi_connect : radio -> Z * radio;
  wifi_disconnect : radio -> Z * radio;
  scan_start : radio -> Z * radio;
  scan_records : radio -> Z * list ap_record * radio;
  clear_ap_list : radio -> radio;
  sntp_start : radio -> radio;
  ap_info : radio -> option (Z * Z);                        (* signal and channel *)
  sta_list : radio -> option Z;
  button_level : radio -> Z
}.

Section Station.
Context `{Radio} `{Nvs} `{Memory}.

(** The module on the radio and the settings. *)
Record net := Net { x_net : network; x_radio : radio; x_nvs : nvs }.

Abbreviation XM := (SM net).

Definition the_network : XM network := asks x_net.
Definition change_network (f : network -> network) : XM () := modify (λ x, Net (f (x_net x)) (x_radio x) (x_nvs x)).
(** A call inside a critical section: nothing else happens. *)
Definition quietly {A} (f : radio -> A * radio) : XM A := calling (λ x, let '(a, r) := f (x_radio x) in (a, Net (x_net x) r (x_nvs x))).
Definition from_store {A} (c : SM nvs A) : XM A := performing (λ x, '(a, n) ← c (x_nvs x); Some (a, Net (x_net x) (x_radio x) n)).

Definition net_now_ms : XM Z := t ← quietly radio_timer; mret (u64 t / 1000).

(** ** Events *)

Definition clock_synced (seconds : Z) : XM () :=
  change_network (over_state (λ s, set_sync (u32 (ns_sntp_sync_count s + 1)) seconds s)).

Definition got_ip (now : Z) (ip gateway : list Z) : XM () :=
  addr ← checked (snprintf (uninitialized 16) 16 (dotted ip));
  gw ← checked (snprintf (uninitialized 16) 16 (dotted gateway));
  change_network (λ n,
    let s := n_state n in
    let s := set_addresses addr gw (set_retries 0 0 (set_link true false (ns_associated s) s)) in
    let s := if ns_ap_enabled s then set_ap true (u64 (now + MONITOR_SETUP_SECONDS * 1000)) s else s in
    set_requests (n_reload_requested n) (n_scan_requested n) (n_scan_finished n) true (set_connection_deadline 0 (over_state (λ _, s) n))).

Definition station_connected (now : Z) : XM () :=
  change_network (λ n, set_connection_deadline (u64 (now + 20000)) (over_state (λ s, set_link (ns_connected s) true true s) n)).

(** The pause before the next attempt. *)
Definition backoff (retries jitter : Z) : Z := Z.shiftl 1000 (if 5 <? retries then 5 else retries) + jitter.

Definition station_disconnected (now reason : Z) : XM () :=
  random ← quietly radio_random;
  let jitter := random mod 1000 in
  n ← the_network;
  ip ← checked (wr (ns_ip_text (n_state n)) 0 0);
  gw ← checked (wr (ns_gateway_text (n_state n)) 0 0);
  change_network (λ n,
    let s := n_state n in
    let count := if ns_retries s <? 1000000 then ns_retries s + 1 else ns_retries s in
    let s := set_retries count reason (set_addresses ip gw (set_link false false false s)) in
    set_next_retry (u64 (now + backoff count jitter)) (set_connection_deadline 0 (over_state (λ _, set_ap (ns_ap_enabled s) 0 s) n))).

Definition request_scan (n : network) : network :=
  set_requests (n_reload_requested n) true (n_scan_finished n) (n_clock_requested n) (over_state (set_scan true false) n).

Definition monitor_network_scan : XM Z :=
  n ← the_network;
  if ns_scanning (n_state n) || ns_connecting (n_state n) then mret ESP_ERR_INVALID_STATE else change_network request_scan;; mret ESP_OK.

Definition monitor_network_reload : XM () :=
  change_network (λ n, set_requests true (n_scan_requested n) (n_scan_finished n) (n_clock_requested n) n).

(** [wifi_event], [clock_synced], and the requests of other tasks. *)
Definition wifi_event (a : arrival) : XM () :=
  match a with
  | GotIp ip gateway => now ← net_now_ms; got_ip now ip gateway
  | StationConnected => now ← net_now_ms; station_connected now
  | StationDisconnected reason => now ← net_now_ms; station_disconnected now reason
  | ScanDone => net_now_ms;; change_network (λ n, set_requests (n_reload_requested n) (n_scan_requested n) true (n_clock_requested n) n)
  | ClockSynced seconds => clock_synced seconds
  | ReloadAsked => monitor_network_reload
  | ScanAsked => monitor_network_scan;; mret tt
  end.

Fixpoint wifi_events (l : list arrival) : XM () :=
  match l with [] => mret tt | a :: l => wifi_event a;; wifi_events l end.

(** A call of the main task outside its critical sections. *)
Definition radio_call {A} (f : radio -> A * radio) : XM A :=
  x ← quietly f; l ← quietly arrivals; wifi_events l;; mret x.

(** ** Station and access point *)

(** The arrays of the SDK's configuration of an interface, all zero before. *)
Definition SSID_MAX : Z := 32.
Definition PASSWORD_MAX : Z := 64.
Definition sdk_array (n : Z) (text : list Z) : XM (list Z) := checked (blit (replicate (Z.to_nat n) 0) 0 text).

Definition set_station : XM Z :=
  '(rc, saved) ← from_store monitor_store_wifi;
  first ← checked (rd (wc_ssid saved) 0);
  let available := (rc =? ESP_OK) && negb (first =? 0) in
  config ← (if available then
      name ← checked (c_string (wc_ssid saved)); name ← sdk_array SSID_MAX name;
      password ← checked (c_string (wc_password saved)); password ← sdk_array PASSWORD_MAX password;
      mret (Some (name, password, negb (wc_open saved =? 0)))
    else mret None);
  rc ← radio_call (set_sta_config config);
  now ← net_now_ms;
  change_network (λ n, set_next_retry (u64 (now + 1000))
    (over_state (λ s, set_retries 0 (ns_disconnect_reason s) (set_names (wc_ssid saved) (ns_ap_ssid s) s)) (set_has_credentials (available && (rc =? ESP_OK)) n)));;
  mret rc.

Definition setup_enable : XM () :=
  rc ← radio_call (set_mode true);
  if negb (rc =? ESP_OK) then mret tt else
  now ← net_now_ms;
  change_network (over_state (λ s, set_ap true (if ns_connected s then u64 (now + MONITOR_SETUP_SECONDS * 1000) else 0) s)).

(** ** The start *)

(** The firmware stops when a call fails that must not. *)
Inductive start_outcome := Halted | Returned (rc : Z).

Definition must (step : setup_step) (next : XM start_outcome) : XM start_outcome :=
  rc ← radio_call (setup_call step); if rc =? ESP_OK then next else mret Halted.

(** ["%02X"]. *)
Definition hex_upper (n : Z) : list Z := map (λ d, if d <? 10 then 48 + d else 55 + d) [n / 16; n mod 16].

Definition access_point_name (mac : list Z) : list Z :=
  lit "ESP-Monitor-" ++ flat_map hex_upper (take 3 (drop 3 mac)).

Definition configure_access_point (password : list Z) : XM Z :=
  n ← the_network;
  name ← checked (c_string (ns_ap_ssid (n_state n)));
  ssid ← sdk_array SSID_MAX name;
  secret ← checked (c_string password);
  secret ← sdk_array PASSWORD_MAX secret;
  radio_call (set_ap_config ssid (zlen name) secret).

Definition monitor_network_start : XM start_outcome :=
  '(rc, password) ← from_store (monitor_store_password (Some (replicate 64 0)) 64);
  password ← checked password;
  if negb (rc =? ESP_OK) then mret (Returned rc) else
  must NetifInit (must EventLoopCreate (
  created ← radio_call create_interfaces;
  if negb created then mret (Returned ESP_ERR_NO_MEM) else
  must WifiInit (must PowerSaveOff (must StorageInRam (must WifiEvents (must IpEvents (must ModeApSta (must StationBandwidth (must ApBandwidth (
  '(rc, mac) ← radio_call (λ r, let '(rc, mac, r) := read_mac r in ((rc, mac), r));
  if negb (rc =? ESP_OK) then mret Halted else
  n ← the_network;
  name ← checked (snprintf (ns_ap_ssid (n_state n)) 33 (access_point_name mac));
  change_network (over_state (λ s, set_names (ns_ssid_text s) name s));;
  rc ← configure_access_point password;
  if negb (rc =? ESP_OK) then mret (Returned rc) else
  rc ← set_station;
  if negb (rc =? ESP_OK) then mret (Returned rc) else
  must SntpInit (must ButtonConfig (must WifiStart (
  change_network (over_state (λ s, set_ap true (ns_ap_deadline_ms s) s));; mret (Returned ESP_OK)))))))))))))).

(** ** Snapshots *)

(** The networks found, and whether a scan is under way. *)
Definition monitor_network_scan_results (cap : Z) : XM (list monitor_ap * bool) :=
  n ← the_network;
  mret (take (Z.to_nat (if cap <? n_scan_count n then cap else n_scan_count n)) (n_scan_list n), ns_scanning (n_state n)).

Definition monitor_network_snapshot_get : XM monitor_network_snapshot :=
  n ← the_network;
  info ← asks (ap_info ∘ x_radio);
  clients ← asks (sta_list ∘ x_radio);
  let s := n_state n in
  let s := if ns_associated s then match info with Some (r, c) => set_signal r c s | None => s end else s in
  mret (if ns_ap_enabled s then match clients with Some k => set_clients k s | None => s end else s).

(** ** The address a request came to *)

(** What [getsockname] gives: the family, with 4 or 16 bytes of address. *)
Inductive socket_address := AfInet (address : list Z) | AfInet6 (address : list Z) | AfOther.

(** [inet_ntop] of an IPv4 address into [n] bytes; is the result not null? *)
Definition inet_ntop (address out : list Z) (n : Z) : option (bool * list Z) :=
  let text := dotted address ++ [0] in
  if n <? zlen text then Some (false, out) else out ← blit out 0 text; Some (true, out).

Definition mapped_prefix : list Z := replicate 10 0 ++ [255; 255].

(** [ipv6] is the build's CONFIG_LWIP_IPV6; the result, and [out]. *)
Definition monitor_request_local_ip (ipv6 : bool) (local : option socket_address) (out : list Z) : option (bool * list Z) :=
  match local with
  | None => Some (false, out)
  | Some (AfInet address) => inet_ntop address out 16
  | Some (AfInet6 v6) =>
      if negb ipv6 then Some (false, out) else
      prefix ← slice v6 0 12;
      if bool_decide (prefix <> mapped_prefix) then Some (false, out) else
      address ← slice v6 12 4; inet_ntop address out 16
  | Some AfOther => Some (false, out)
  end.

(** [uninitialised] is what the array holds before. *)
Definition monitor_request_on_setup (ipv6 : bool) (local : option socket_address) (uninitialised : list Z) : option bool :=
  '(found, address) ← monitor_request_local_ip ipv6 local uninitialised;
  if (found : bool) then streq address (cstring "192.168.4.1") else Some false.

(** ** The tick *)

(** What the tick finds to do. *)
Record todo := Todo {
  do_reload : bool;
  do_scan : bool;
  do_finished : bool;
  do_clock : bool;
  do_connect : bool;
  do_ap : bool;
  do_expire : bool;
  do_timeout : bool
}.

(** The first critical section. *)
Definition inspect (now : Z) (n : network) : todo :=
  let s := n_state n in
  Todo (n_reload_requested n) (n_scan_requested n) (n_scan_finished n) (n_clock_requested n)
    (n_has_credentials n && negb (ns_connected s) && negb (ns_connecting s) && negb (ns_scanning s) && (n_next_retry n <=? now))
    (negb (ns_connected s) && negb (ns_ap_enabled s))
    (ns_ap_enabled s && ns_connected s && negb (ns_ap_deadline_ms s =? 0) && (ns_ap_deadline_ms s <=? now))
    (ns_connecting s && negb (n_connection_deadline n =? 0) && (n_connection_deadline n <=? now)).

Definition take_work (now : Z) (n : network) : network :=
  let expired := do_timeout (inspect now n) in
  let n := set_requests false false false false n in
  if expired then set_next_retry (u64 (now + 5000)) (set_connection_deadline 0 (over_state (λ s, set_link (ns_connected s) false (ns_associated s) s) n)) else n.

(** A record of a scan, in the list. *)
Definition found_ap (r : ap_record) : option monitor_ap :=
  name ← slice (ar_ssid r) 0 32; Some (FoundAp (name ++ [0]) (ar_rssi r) (negb (ar_open r)) (ar_primary r)).

Fixpoint found_aps (l : list ap_record) : option (list monitor_ap) :=
  match l with [] => Some [] | r :: l => a ← found_ap r; l ← found_aps l; Some (a :: l) end.

(** The records replace the first ones of the list. *)
Definition take_scan : XM () :=
  '(rc, records) ← radio_call (λ r, let '(rc, l, r) := scan_records r in ((rc, l), r));
  radio_call (λ r, (tt, clear_ap_list r));;
  let records := if rc =? ESP_OK then records else [] in
  found ← checked (found_aps records);
  change_network (λ n, over_state (set_scan false (rc =? ESP_OK)) (set_found (found ++ drop (length found) (n_scan_list n)) (zlen found) n)).

Definition connect_station (now : Z) : XM () :=
  rc ← radio_call wifi_connect;
  let ok := rc =? ESP_OK in
  change_network (λ n, set_next_retry (u64 (now + 5000)) (set_connection_deadline (if ok then u64 (now + 30000) else 0)
    (over_state (λ s, set_link (ns_connected s) ok (ns_associated s) s) n))).

(** The button opens the access point when it is held for three seconds. *)
Definition watch_button (now : Z) : XM () :=
  level ← asks (button_level ∘ x_radio);
  if negb (level =? 0) then change_network (set_button 0 false) else
  change_network (λ n, set_button (if n_button_since n =? 0 then now else n_button_since n) (n_button_handled n) n);;
  n ← the_network;
  when (negb (n_button_handled n) && (3000 <=? u64 (now - n_button_since n)))
    (setup_enable;; change_network (λ n, set_button (n_button_since n) true n)).

Definition monitor_network_tick : XM () :=
  now ← net_now_ms;
  n ← the_network;
  let work := inspect now n in
  change_network (take_work now);;
  when (do_reload work) (radio_call wifi_disconnect;; set_station;; setup_enable);;
  when (do_clock work) (radio_call (λ r, (tt, sntp_start r)));;
  when (do_timeout work) (radio_call wifi_disconnect;; mret tt);;
  when (do_ap work) setup_enable;;
  when (do_expire work) (
    rc ← radio_call (set_mode false);
    when (rc =? ESP_OK) (change_network (over_state (λ s, set_ap false (ns_ap_deadline_ms s) s))));;
  when (do_scan work) (
    rc ← radio_call scan_start;
    when (negb (rc =? ESP_OK)) (change_network (over_state (λ s, set_scan false (ns_scan_ready s) s))));;
  when (do_finished work) take_scan;;
  when (do_connect work && negb (do_reload work) && negb (do_timeout work)) (connect_station now);;
  watch_button now.

End Station.
