(* ===== verification/MonitorStation.v ===== *)
(** The Wi-Fi of the system monitor, in every interleaving of its tick with the
    events of the SDK: attempts to connect end, the setup access point closes and
    comes back. *)
From stdpp Require Import gmap.
From S2P Require Export MonitorNetwork.
#[local] Open Scope Z_scope.

(** Addresses have four bytes, a scan reports at most twelve networks. *)
Definition arrival_typed (a : arrival) : Prop :=
  match a with GotIp ip gateway => zlen ip = 4 /\ bytes_ok ip /\ zlen gateway = 4 /\ bytes_ok gateway | _ => True end.

Class RadioLaws `{Radio} := {
  arrivals_law r : Forall arrival_typed (arrivals r).1;
  records_law r rc l r' : scan_records r = (rc, l, r') -> zlen l <= SCAN_MAX /\ Forall (λ a, 32 <= zlen (ar_ssid a)) l;
  mac_law r rc l r' : read_mac r = (rc, l, r') -> zlen l = 6
}.

(** ** What the radio is told *)

(** A call of the tick, with the answer. *)
Inductive radio_act :=
| ActMode (access_point : bool) (rc : Z)
| ActConnect (rc : Z)
| ActDisconnect (rc : Z)
| ActScan (rc : Z)
| ActRecords (rc : Z)
| ActClear
| ActClock
| ActSettings (rc : Z).

(** A radio with a diary of these calls; [recorded] gives one to any radio. *)
Class Diary `{Radio} := {
  diary : radio -> list radio_act;
  timer_diary r : diary (radio_timer r).2 = diary r;
  arrivals_diary r : diary (arrivals r).2 = diary r;
  mode_diary b r : diary (set_mode b r).2 = diary r ++ [ActMode b (set_mode b r).1];
  connect_diary r : diary (wifi_connect r).2 = diary r ++ [ActConnect (wifi_connect r).1];
  disconnect_diary r : diary (wifi_disconnect r).2 = diary r ++ [ActDisconnect (wifi_disconnect r).1];
  scan_diary r : diary (scan_start r).2 = diary r ++ [ActScan (scan_start r).1];
  records_diary r : diary (scan_records r).2 = diary r ++ [ActRecords (scan_records r).1.1];
  clear_diary r : diary (clear_ap_list r) = diary r ++ [ActClear];
  clock_diary r : diary (sntp_start r) = diary r ++ [ActClock]
}.

(** A radio beside the diary of it. *)
Definition noting {A} (R : Radio) (note : A -> list radio_act) (f : @radio R -> A * @radio R) (r : list radio_act * @radio R) : A * (list radio_act * @radio R) :=
  let '(a, r') := f r.2 in (a, (r.1 ++ note a, r')).

Definition recorded (R : Radio) : Radio := {|
  radio := list radio_act * @radio R;
  radio_timer := noting R (λ _, []) radio_timer;
  radio_random := noting R (λ _, []) radio_random;
  arrivals := noting R (λ _, []) arrivals;
  setup_call step := noting R (λ rc, [ActSettings rc]) (setup_call step);
  create_interfaces := noting R (λ _, []) create_interfaces;
  read_mac := noting R (λ _, []) read_mac;
  set_ap_config name n secret := noting R (λ rc, [ActSettings rc]) (set_ap_config name n secret);
  set_sta_config c := noting R (λ rc, [ActSettings rc]) (set_sta_config c);
  set_mode b := noting R (λ rc, [ActMode b rc]) (set_mode b);
  wifi_connect := noting R (λ rc, [ActConnect rc]) wifi_connect;
  wifi_disconnect := noting R (λ rc, [ActDisconnect rc]) wifi_disconnect;
  scan_start := noting R (λ rc, [ActScan rc]) scan_start;
  scan_records := noting R (λ found, [ActRecords found.1]) scan_records;
  clear_ap_list r := (r.1 ++ [ActClear], clear_ap_list r.2);
  sntp_start r := (r.1 ++ [ActClock], sntp_start r.2);
  ap_info r := ap_info r.2;
  sta_list r := sta_list r.2;
  button_level r := button_level r.2
|}.

Lemma noting_note {A} R note (f : @radio R -> A * @radio R) r : (noting R note f r).2.1 = r.1 ++ note (noting R note f r).1.
Proof. unfold noting; by destruct (f r.2). Qed.

Lemma noting_answer {A} R note (f : @radio R -> A * @radio R) r : (noting R note f r).1 = (f r.2).1.
Proof. unfold noting; by destruct (f r.2). Qed.

Definition recorded_diary (R : Radio) : @Diary (recorded R).
Proof. unshelve econstructor; [exact fst|..]; intros; cbn; rewrite ?noting_note, ?app_nil_r; done. Defined.

Lemma recorded_laws R : @RadioLaws R -> @RadioLaws (recorded R).
Proof.
  intros HR; constructor; cbn.
  - intros r; rewrite noting_answer; apply arrivals_law.
  - intros r rc l r' E; apply (f_equal fst) in E; rewrite noting_answer in E; destruct (scan_records r.2) as [[? ?] ?] eqn:Es; injection E as -> ->; by eapply records_law.
  - intros r rc l r' E; apply (f_equal fst) in E; rewrite noting_answer in E; destruct (read_mac r.2) as [[? ?] ?] eqn:Es; injection E as -> ->; by eapply mac_law.
Qed.

(** The clock's milliseconds, with room for every delay. *)
Definition clock_ok (now : Z) : Prop := 0 <= now <= 18446744073709551.

Lemma clock_add now d : clock_ok now -> 0 < d <= 1000000000 -> u64 (now + d) = now + d /\ now + d <> 0.
Proof. unfold clock_ok; intros Hn Hd; split; [apply wrap_small; change (2 ^ 64) with 18446744073709551616; lia|lia]. Qed.

Lemma millis_ok t : clock_ok (u64 t / 1000).
Proof.
  unfold clock_ok; destruct (wrap_range 64 t) as [H1 H2]; [lia|]; change (2 ^ 64) with 18446744073709551616 in *.
  split; [apply Z.div_pos; lia|]; apply Z.lt_succ_r, Z.div_lt_upper_bound; lia.
Qed.

(** ** The invariant *)

(** The arrays and counters. *)
Record arrays_in_order (n : network) : Prop := {
  ai_ip : text_array 16 (ns_ip_text (n_state n));
  ai_gateway : text_array 16 (ns_gateway_text (n_state n));
  ai_names : text_array 33 (ns_ssid_text (n_state n)) /\ text_array 33 (ns_ap_ssid (n_state n));
  ai_found : zlen (n_scan_list n) = SCAN_MAX /\ 0 <= n_scan_count n <= SCAN_MAX /\ Forall (λ a, text_array 33 (fa_ssid a)) (n_scan_list n);
  ai_retries : 0 <= ns_retries (n_state n) <= 1000000
}.

(** An attempt to connect has a deadline. *)
Definition attempt_bounded (n : network) : Prop := ns_connecting (n_state n) = true <-> n_connection_deadline n <> 0.

(** The access point closes some time after the station is connected. *)
Definition window_bounded (n : network) : Prop := ns_connected (n_state n) = true -> ns_ap_enabled (n_state n) = true -> ns_ap_deadline_ms (n_state n) <> 0.

Record station_ok (n : network) : Prop := {
  st_arrays : arrays_in_order n;
  st_attempt : attempt_bounded n;
  st_window : window_bounded n
}.

Section Station.
Context `{RadioLaws} `{NvsLaws} `{MemoryLaws}.

Definition net_ok (x : net) : Prop := station_ok (x_net x).

Lemma runs_network {Q : network -> net -> Prop} x : Q (x_net x) x -> runs the_network x Q.
Proof. intros HQ; by apply runs_asks. Qed.

Lemma runs_network_change {Q : () -> net -> Prop} f x : Q tt (Net (f (x_net x)) (x_radio x) (x_nvs x)) -> runs (change_network f) x Q.
Proof. intros HQ; by apply runs_modify. Qed.

Lemma runs_quietly {A} {Q : A -> net -> Prop} (f : radio -> A * radio) x : Q (f (x_radio x)).1 (Net (x_net x) (f (x_radio x)).2 (x_nvs x)) -> runs (quietly f) x Q.
Proof. intros HQ; unfold quietly; apply runs_calling; cbn; by destruct (f (x_radio x)). Qed.

Lemma runs_net_now {Q : Z -> net -> Prop} x : (forall now r, clock_ok now -> Q now (Net (x_net x) r (x_nvs x))) -> runs net_now_ms x Q.
Proof.
  intros HQ; unfold net_now_ms; apply runs_bind, runs_quietly, runs_ret, HQ, millis_ok.
Qed.

(** ** Events keep the invariant *)

Lemma requests_ok n a b c d : station_ok n -> station_ok (set_requests a b c d n).
Proof. by intros [[] ? ?]. Qed.

Lemma scanning_ok n b r : station_ok n -> station_ok (over_state (set_scan b r) n).
Proof. by intros [[] ? ?]. Qed.

Lemma retry_ok n t : station_ok n -> station_ok (set_next_retry t n).
Proof. by intros [[] ? ?]. Qed.

Lemma button_ok n t b : station_ok n -> station_ok (set_button t b n).
Proof. by intros [[] ? ?]. Qed.

Lemma credentials_flag_ok n b : station_ok n -> station_ok (set_has_credentials b n).
Proof. by intros [[] ? ?]. Qed.

(** The station's link with the deadline of its attempt. *)
Lemma link_ok n c k a t : station_ok n -> (k = true <-> t <> 0) -> (c = true -> ns_ap_enabled (n_state n) = true -> ns_ap_deadline_ms (n_state n) <> 0) ->
  station_ok (set_connection_deadline t (over_state (set_link c k a) n)).
Proof. by intros [[] ? ?] Hk Hc. Qed.

Lemma access_point_ok n e t : station_ok n -> (ns_connected (n_state n) = true -> e = true -> t <> 0) -> station_ok (over_state (set_ap e t) n).
Proof. by intros [[] ? ?] He. Qed.

Lemma counters_ok n k reason : station_ok n -> 0 <= k <= 1000000 -> station_ok (over_state (set_retries k reason) n).
Proof. by intros [[] ? ?] Hk. Qed.

Lemma addresses_ok n a g : station_ok n -> text_array 16 a -> text_array 16 g -> station_ok (over_state (set_addresses a g) n).
Proof. by intros [[] ? ?] Ha Hg. Qed.

Lemma sync_ok n k t : station_ok n -> station_ok (over_state (set_sync k t) n).
Proof. by intros [[] ? ?]. Qed.

Lemma names_ok n a g : station_ok n -> text_array 33 a -> text_array 33 g -> station_ok (over_state (set_names a g) n).
Proof. by intros [[] ? ?] Ha Hg. Qed.

Lemma found_list_ok n l k : station_ok n -> zlen l = SCAN_MAX -> 0 <= k <= SCAN_MAX -> Forall (λ a, text_array 33 (fa_ssid a)) l -> station_ok (set_found l k n).
Proof. by intros [[] ? ?] Hl Hk Hf. Qed.

(** An address as text. *)
Lemma runs_address {Q : list Z -> net -> Prop} text x : (forall a, text_array 16 a -> Q a x) -> runs (checked (snprintf (uninitialized 16) 16 text)) x Q.
Proof.
  intros HQ; assert (zlen (uninitialized 16) = 16) as Hz by (by apply uninitialized_law); destruct (snprintf_spec (uninitialized 16) 16 text) as (a & E & Ha & Hn); [lia|].
  eapply runs_checked; [exact E|]; apply HQ; split; [lia|done].
Qed.

Lemma wr_empty m size : text_array size m -> 0 < size -> exists m', wr m 0 0 = Some m' /\ text_array size m'.
Proof.
  intros [Hz Hn] Hs; destruct (blit_Some m 0 [0]) as [m' E]; [lia|rewrite zlen_cons, zlen_nil; lia|]; exists m'; split; [exact E|]; split; [by rewrite (zlen_blit _ _ _ _ E)|].
  rewrite (blit_0 _ _ _ E); apply elem_of_app; left; apply list_elem_of_singleton; done.
Qed.

Lemma event_kept a x : arrival_typed a -> net_ok x -> runs (wifi_event a) x (λ _ x', net_ok x').
Proof.
  intros Ha Hx; destruct a as [ip gateway| |reason| |seconds| |]; cbn [wifi_event].
  - apply runs_bind, runs_net_now; intros now r Hnow; apply runs_bind, runs_address; intros a1 H1'; apply runs_bind, runs_address; intros a2 H2'; apply runs_network_change.
    destruct (clock_add now 600000 Hnow ltac:(lia)) as [Ea Ene]; unfold net_ok; cbn [x_net]; apply requests_ok.
    set (n := x_net x) in *; destruct Hx as [[Xi Xg Xn Xf Xr] Xa Xw]; destruct (ns_ap_enabled (n_state n)) eqn:Eap; cbn [ns_ap_enabled set_addresses set_retries set_link].
    + rewrite Eap; constructor; [by constructor|by split|]; intros _ _; cbn; change (MONITOR_SETUP_SECONDS * 1000) with 600000; by rewrite Ea.
    + rewrite Eap; constructor; [by constructor|by split|]; intros _; cbn; by rewrite Eap.
  - apply runs_bind, runs_net_now; intros now r Hnow; apply runs_network_change; destruct (clock_add now 20000 Hnow ltac:(lia)) as [Ea Ene].
    unfold net_ok; cbn [x_net]; rewrite Ea; destruct Hx as [[] ? ?]; by constructor.
  - apply runs_bind, runs_net_now; intros now r Hnow; apply runs_bind, runs_quietly, runs_bind, runs_network; cbn [x_net].
    destruct (wr_empty _ _ (ai_ip _ (st_arrays _ Hx))) as (a1 & E1 & H1'); [done|]; destruct (wr_empty _ _ (ai_gateway _ (st_arrays _ Hx))) as (a2 & E2 & H2'); [done|].
    apply runs_bind; eapply runs_checked; [exact E1|]; apply runs_bind; eapply runs_checked; [exact E2|]; apply runs_network_change; unfold net_ok; cbn [x_net].
    apply retry_ok; destruct Hx as [[Xi Xg Xn Xf Xr] Xa Xw]; constructor; [constructor; try done; cbn; destruct (Z.ltb_spec (ns_retries (n_state (x_net x))) 1000000); lia|by split|done].
  - apply runs_bind, runs_net_now; intros now r Hnow; apply runs_network_change; by apply requests_ok.
  - apply runs_network_change; by apply sync_ok.
  - apply runs_network_change; by apply requests_ok.
  - apply runs_bind; unfold monitor_network_scan; apply runs_bind, runs_network; case_match; [by apply runs_ret, runs_ret|].
    apply runs_bind, runs_network_change, runs_ret, runs_ret; by apply requests_ok, scanning_ok.
Qed.

Lemma events_kept l : Forall arrival_typed l -> forall x, net_ok x -> runs (wifi_events l) x (λ _ x', net_ok x').
Proof.
  induction 1 as [|a l Ha _ IH]; intros x Hx; cbn [wifi_events]; [by apply runs_ret|]; apply runs_bind; eapply runs_mono; [by apply event_kept|]; intros [] x' Hx'; by apply IH.
Qed.

(** A call of the main task. *)
Lemma runs_call {A} {Q : A -> net -> Prop} (f : radio -> A * radio) x : net_ok x -> (forall x', net_ok x' -> Q (f (x_radio x)).1 x') -> runs (radio_call f) x Q.
Proof.
  intros Hx HQ; unfold radio_call; apply runs_bind, runs_quietly, runs_bind, runs_quietly, runs_bind; eapply runs_mono; [apply events_kept; [apply arrivals_law|exact Hx]|].
  intros [] x' Hx'; by apply runs_ret, HQ.
Qed.

(** ** The main task keeps the invariant *)

Lemma runs_from_store {A} {Q : A -> net -> Prop} (c : SM nvs A) x : runs c (x_nvs x) (λ a n, Q a (Net (x_net x) (x_radio x) n)) -> runs (from_store c) x Q.
Proof. intros (a & n & E & HQ); by eapply runs_performing; [rewrite E|]. Qed.

Lemma runs_saved {Q : Z * monitor_wifi_config -> net -> Prop} x : (forall rc c n, wifi_loaded (x_nvs x) rc c -> Q (rc, c) (Net (x_net x) (x_radio x) n)) ->
  runs (from_store monitor_store_wifi) x Q.
Proof. intros HQ; apply runs_from_store, load_wifi; intros rc c n Hc _; by apply HQ. Qed.

Lemma cstr_has_nul s t : cstr s t -> 0 ∈ s.
Proof. intros (rest & -> & _); rewrite elem_of_app, elem_of_cons; tauto. Qed.

(** A text fits into an array of the SDK that is at most a byte shorter than its own. *)
Lemma runs_sdk_array {Q : list Z -> net -> Prop} size n s t x : text_array size s -> size <= n + 1 -> cstr s t -> (forall a, Q a x) -> runs (sdk_array n t) x Q.
Proof.
  intros [Hz _] Hn (rest & -> & _) HQ; rewrite zlen_app, zlen_cons in Hz; pose proof (zlen_nonneg t); pose proof (zlen_nonneg rest).
  destruct (blit_Some (replicate (Z.to_nat n) 0) 0 t) as [a E]; [lia|rewrite zlen_replicate; lia|]; eapply runs_checked; [exact E|]; apply HQ.
Qed.

(** The configuration of the station, from settings that were read. *)
Lemma runs_station_config {Q : option (list Z * list Z * bool) -> net -> Prop} m rc c (named : bool) x : wifi_loaded m rc c -> (forall o, Q o x) ->
  runs (if (rc =? ESP_OK) && named then
          name ← checked (c_string (wc_ssid c)); name ← sdk_array SSID_MAX name;
          password ← checked (c_string (wc_password c)); password ← sdk_array PASSWORD_MAX password; mret (Some (name, password, negb (wc_open c =? 0)))
        else mret None) x Q.
Proof.
  intros ([Hs Hp] & Hok & _) HQ; destruct (Z.eqb_spec rc ESP_OK) as [->|]; cbn [andb]; [|by apply runs_ret]; destruct named; [|by apply runs_ret].
  destruct (Hok eq_refl) as (_ & Hn1 & Hn2 & _); destruct (terminated_cstr _ Hn1) as [t1 H1']; destruct (terminated_cstr _ Hn2) as [t2 H2'].
  apply runs_bind; eapply runs_checked; [by apply c_string_spec|]; apply runs_bind; eapply (runs_sdk_array 33); [by split|by vm_compute|exact H1'|]; intros a1.
  apply runs_bind; eapply runs_checked; [by apply c_string_spec|]; apply runs_bind; eapply (runs_sdk_array 64); [by split|by vm_compute|exact H2'|]; intros a2; by apply runs_ret.
Qed.

(** The name read is terminated, whether or not the settings could be read. *)
Lemma loaded_name m rc c : wifi_loaded m rc c -> text_array 33 (wc_ssid c).
Proof.
  intros ([Hz _] & Hok & Hno); split; [done|]; destruct (decide (rc = ESP_OK)) as [E|E]; [by destruct (Hok E) as (_ & Hn & _)|]; rewrite (Hno E); left.
Qed.

Lemma set_station_kept x : net_ok x -> runs set_station x (λ _ x', net_ok x').
Proof.
  intros Hx; unfold set_station; apply runs_bind, runs_saved; intros rc c n Hc; pose proof Hc as [[Hs _] _].
  destruct (rd_Some (wc_ssid c) 0) as (first & Ef & _); [lia|]; apply runs_bind; eapply runs_checked; [exact Ef|].
  apply runs_bind, (runs_station_config _ _ _ _ _ Hc); intros o; set (x1 := Net _ _ n); assert (net_ok x1) as H1' by exact Hx.
  apply runs_bind, runs_call; [done|]; intros x2 H2'; apply runs_bind, runs_net_now; intros now r Hnow; apply runs_bind, runs_network_change, runs_ret.
  unfold net_ok; cbn [x_net]; apply retry_ok; pose proof (st_arrays _ H2') as Ha.
  apply (counters_ok (over_state (set_names (wc_ssid c) (ns_ap_ssid (n_state (x_net x2)))) (set_has_credentials _ (x_net x2)))); [|lia].
  apply names_ok; [by apply credentials_flag_ok|by apply loaded_name in Hc|apply Ha].
Qed.

Lemma setup_enable_kept x : net_ok x -> runs setup_enable x (λ _ x', net_ok x').
Proof.
  intros Hx; unfold setup_enable; apply runs_bind, runs_call; [done|]; intros x1 H1'; case_match; [by apply runs_ret|].
  apply runs_bind, runs_net_now; intros now r Hnow; apply runs_network_change; destruct (clock_add now 600000 Hnow ltac:(lia)) as [Ea Ene].
  unfold net_ok; cbn [x_net]; apply (access_point_ok _ true); [done|]; intros -> _; change (MONITOR_SETUP_SECONDS * 1000) with 600000; by rewrite Ea.
Qed.

Lemma take_work_ok now n : station_ok n -> station_ok (take_work now n).
Proof.
  intros Hn; unfold take_work; destruct (do_timeout (inspect now n)); [|by apply requests_ok]; apply retry_ok, (link_ok _ _ false _ 0); [by apply requests_ok|done|apply Hn].
Qed.

Lemma found_aps_spec l : Forall (λ a, 32 <= zlen (ar_ssid a)) l -> exists f, found_aps l = Some f /\ zlen f = zlen l /\ Forall (λ a, text_array 33 (fa_ssid a)) f.
Proof.
  induction 1 as [|a l Ha _ (f & Ef & Hz & Hf)]; cbn [found_aps]; [by exists []|]; unfold found_ap; rewrite slice_sub by lia; cbn [mbind option_bind]; rewrite Ef; cbn [mbind option_bind].
  eexists; split; [done|]; split; [rewrite !zlen_cons; lia|]; constructor; [|done]; split; cbn [fa_ssid]; [rewrite zlen_app, zlen_sub by lia; done|].
  apply elem_of_app; right; by apply list_elem_of_singleton.
Qed.

Lemma take_scan_kept x : net_ok x -> runs take_scan x (λ _ x', net_ok x').
Proof.
  intros Hx; unfold take_scan; apply runs_bind, runs_call; [done|]; intros x1 H1'; destruct (scan_records (x_radio x)) as [[rc l] r] eqn:Es; cbn [fst].
  destruct (records_law _ _ _ _ Es) as [Hl Hn]; apply runs_bind, runs_call; [done|]; intros x2 H2'.
  destruct (found_aps_spec (if rc =? ESP_OK then l else [])) as (f & Ef & Hz & Hf); [by destruct (rc =? ESP_OK)|].
  assert (zlen f <= SCAN_MAX) as Hfl by (destruct (rc =? ESP_OK); [lia|]; change (zlen (@nil ap_record)) with 0 in Hz; unfold SCAN_MAX; lia); pose proof (zlen_nonneg f).
  apply runs_bind; eapply runs_checked; [exact Ef|]; apply runs_network_change; destruct (ai_found _ (st_arrays _ H2')) as (Hz2 & _ & Hf2).
  unfold net_ok; cbn [x_net]; apply scanning_ok, found_list_ok; [done|rewrite zlen_app; unfold zlen in *; rewrite length_drop; lia|lia|].
  apply Forall_app; split; [done|]; by apply Forall_drop.
Qed.

Lemma connect_kept now x : clock_ok now -> net_ok x -> runs (connect_station now) x (λ _ x', net_ok x').
Proof.
  intros Hnow Hx; unfold connect_station; apply runs_bind, runs_call; [done|]; intros x1 H1'; apply runs_network_change; destruct (clock_add now 30000 Hnow ltac:(lia)) as [Ea Ene].
  unfold net_ok; cbn [x_net]; rewrite Ea; apply retry_ok, link_ok; [done| |apply H1']; by destruct (_ =? ESP_OK).
Qed.

Lemma button_kept now x : net_ok x -> runs (watch_button now) x (λ _ x', net_ok x').
Proof.
  intros Hx; unfold watch_button; apply runs_bind, runs_asks; case_match; [apply runs_network_change; by apply button_ok|].
  apply runs_bind, runs_network_change, runs_bind, runs_network, runs_when; [|intros _; by apply button_ok].
  intros _; apply runs_bind; eapply runs_mono; [apply setup_enable_kept; by apply button_ok|]; intros [] x1 H1'; apply runs_network_change; by apply button_ok.
Qed.

(** An optional part of the tick. *)
Lemma part_kept {Q : () -> net -> Prop} b (c : SM net ()) x : net_ok x -> (forall x, net_ok x -> runs c x (λ _ x', net_ok x')) -> (forall x', net_ok x' -> Q tt x') -> runs (when b c) x Q.
Proof. intros Hx Hc HQ; apply runs_when; [|by intros _; apply HQ]; intros _; eapply runs_mono; [by apply Hc|]; intros [] x' Hx'; auto. Qed.

Lemma tick_kept x : net_ok x -> runs monitor_network_tick x (λ _ x', net_ok x').
Proof.
  intros Hx; unfold monitor_network_tick; apply runs_bind, runs_net_now; intros now r Hnow; apply runs_bind, runs_network, runs_bind, runs_network_change; cbn [x_net].
  set (work := inspect now (x_net x)); assert (net_ok (Net (take_work now (x_net x)) r (x_nvs x))) as H1' by (by apply take_work_ok).
  apply runs_bind, part_kept; [done| |].
  { intros y Hy; apply runs_bind, runs_call; [done|]; intros y1 Hy1; apply runs_bind; eapply runs_mono; [by apply set_station_kept|]; intros rc y2 Hy2; by apply setup_enable_kept. }
  intros x2 H2'; apply runs_bind, part_kept; [done|intros y Hy; apply runs_call; [done|]; auto|].
  intros x3 H3'; apply runs_bind, part_kept; [done|intros y Hy; apply runs_bind, runs_call; [done|]; intros y1 Hy1; by apply runs_ret|].
  intros x4 H4'; apply runs_bind, part_kept; [done|apply setup_enable_kept|].
  intros x5 H5'; apply runs_bind, part_kept; [done| |].
  { intros y Hy; apply runs_bind, runs_call; [done|]; intros y1 Hy1; apply runs_when; [|by intros _]; intros _; apply runs_network_change; by apply (access_point_ok _ false). }
  intros x6 H6'; apply runs_bind, part_kept; [done| |].
  { intros y Hy; apply runs_bind, runs_call; [done|]; intros y1 Hy1; apply runs_when; [|by intros _]; intros _; apply runs_network_change; by apply (scanning_ok _ false (ns_scan_ready (n_state (x_net y1)))). }
  intros x7 H7'; apply runs_bind, part_kept; [done|apply take_scan_kept|].
  intros x8 H8'; apply runs_bind, part_kept; [done|intros y Hy; by apply connect_kept|]; intros x9 H9'; by apply button_kept.
Qed.

(** ** The start *)

Lemma runs_must {Q : start_outcome -> net -> Prop} step next x : net_ok x -> (forall x', net_ok x' -> Q Halted x') -> (forall x', net_ok x' -> runs next x' Q) -> runs (must step next) x Q.
Proof.
  intros Hx Hh Hn; unfold must; apply runs_bind, runs_call; [done|]; intros x1 H1'; case_match; [by apply Hn|by apply runs_ret, Hh].
Qed.

(** After the start: in order, with the access point open when it succeeded;
    nobody connects before the first tick asks for it. *)
Definition started_ok (o : start_outcome) (x : net) : Prop :=
  arrays_in_order (x_net x) /\ attempt_bounded (x_net x) /\
  (o = Returned ESP_OK -> ns_ap_enabled (n_state (x_net x)) = true) /\ (o = Returned ESP_OK -> ns_connected (n_state (x_net x)) = false -> net_ok x).

Lemma started_early o x : net_ok x -> o <> Returned ESP_OK -> started_ok o x.
Proof. by intros [Ha Hb Hc] Ho. Qed.

Lemma start_kept x : net_ok x -> runs monitor_network_start x started_ok.
Proof.
  intros Hx; unfold monitor_network_start; apply runs_bind, runs_from_store, load_password; [done|]; intros rc out n Hz Hok _; rewrite zlen_replicate in Hz.
  apply runs_bind; eapply runs_checked; [reflexivity|]; set (x1 := Net (x_net x) (x_radio x) n); assert (net_ok x1) as H1' by exact Hx.
  assert (forall x, net_ok x -> started_ok Halted x) as Hhalt by (intros y Hy; by apply started_early).
  assert (forall rc y, net_ok y -> rc <> ESP_OK -> runs (mret (Returned rc)) y started_ok) as Hret by (intros rc' y Hy Hne; apply runs_ret, started_early; congruence).
  destruct (Z.eqb_spec rc ESP_OK) as [->|Hrc]; cbn [negb]; [|by apply Hret]; destruct (Hok eq_refl) as (secret & Hsecret & _).
  apply runs_must; [done..|]; intros x2 H2'; apply runs_must; [done..|]; intros x3 H3'; apply runs_bind, runs_call; [done|]; intros x4 H4'; case_match; [by apply Hret|].
  do 8 (apply runs_must; [done..|]; intros ? ?); apply runs_bind, runs_call; [done|]; intros x5 H5'; match goal with |- context [read_mac ?r] => destruct (read_mac r) as [[rc l] r'] eqn:Em end; cbn [fst].
  case_match; [by apply runs_ret, Hhalt|]; apply runs_bind, runs_network; destruct (ai_names _ (st_arrays _ H5')) as [Hs [Hzn Hnn]].
  destruct (snprintf_spec (ns_ap_ssid (n_state (x_net x5))) 33 (access_point_name l)) as (name & En & Hz' & Hn'); [lia|]; apply runs_bind; eapply runs_checked; [exact En|].
  apply runs_bind, runs_network_change; set (x6 := Net _ _ _); assert (net_ok x6) as H6' by (unfold x6, net_ok; cbn [x_net]; by apply (names_ok _ (ns_ssid_text (n_state (x_net x5))) name); [done|done|split; [lia|]]).
  apply runs_bind; unfold configure_access_point; apply runs_bind, runs_network; destruct (ai_names _ (st_arrays _ H6')) as [_ [Hz6 Hn6]]; destruct (terminated_cstr _ Hn6) as [t Ht].
  apply runs_bind; eapply runs_checked; [by apply c_string_spec|]; apply runs_bind; eapply (runs_sdk_array 33); [by split|by vm_compute|exact Ht|]; intros a1.
  apply runs_bind; eapply runs_checked; [by apply c_string_spec|]; apply runs_bind; eapply (runs_sdk_array 64); [split; [exact Hz|by eapply cstr_has_nul]|by vm_compute|exact Hsecret|]; intros a2.
  apply runs_call; [done|]; intros x7 H7'.
  match goal with |- runs (if negb (?rc =? ESP_OK) then _ else _) _ _ => destruct (Z.eqb_spec rc ESP_OK) as [E|E]; cbn [negb]; [|by apply Hret] end.
  apply runs_bind; eapply runs_mono; [by apply set_station_kept|]; intros rc' x8 H8'; destruct (Z.eqb_spec rc' ESP_OK) as [->|]; cbn [negb]; [|by apply Hret].
  do 3 (apply runs_must; [done..|]; intros ? ?); apply runs_bind, runs_network_change, runs_ret; match goal with H : net_ok ?y |- started_ok _ (Net _ (x_radio ?y) _) => destruct H as [[] Hb Hc] end.
  split; [by constructor|]; split; [done|]; split; [done|]; intros _ Hno; constructor; [by constructor|done|]; intros Hyes; cbn in *; congruence.
Qed.

(** ** Ticks and events in any order *)

(** A tick of the main task, or something another task does between two ticks. *)
Fixpoint network_run (steps : list (option arrival)) : SM net () :=
  match steps with
  | [] => mret tt
  | None :: steps => monitor_network_tick;; network_run steps
  | Some a :: steps => wifi_event a;; network_run steps
  end.

Definition step_typed (s : option arrival) : Prop := match s with Some a => arrival_typed a | None => True end.

Lemma run_kept steps : Forall step_typed steps -> forall x, net_ok x -> runs (network_run steps) x (λ _ x', net_ok x').
Proof.
  induction 1 as [|[a|] steps Ha _ IH]; intros x Hx; cbn [network_run]; [by apply runs_ret| |].
  - apply runs_bind; eapply runs_mono; [by apply event_kept|]; intros [] x' Hx'; by apply IH.
  - apply runs_bind; eapply runs_mono; [by apply tick_kept|]; intros [] x' Hx'; by apply IH.
Qed.

Lemma zero_network_ok : station_ok zero_network.
Proof.
  assert (forall n : nat, (0 < n)%nat -> 0 ∈ replicate n 0) as Hzero by (intros [|n] Hn; [lia|left]).
  assert (forall n : nat, (0 < n)%nat -> text_array (Z.of_nat n) (replicate n 0)) as Htext by (intros n Hn; split; [by rewrite zlen_replicate|by apply Hzero]).
  constructor; [|by split|done]; constructor; cbn [zero_network n_state zero_network_snapshot ns_ip_text ns_gateway_text ns_ssid_text ns_ap_ssid n_scan_list n_scan_count ns_retries].
  - apply (Htext 16%nat); lia.
  - apply (Htext 16%nat); lia.
  - split; apply (Htext 33%nat); lia.
  - split; [done|]; split; [done|]; apply Forall_replicate, (Htext 33%nat); lia.
  - lia.
Qed.

(** ** A tick while nothing else happens *)

(** What the tick decides about, and what it was asked for. *)
Record outlook := Outlook {
  ol_connected : bool;
  ol_connecting : bool;
  ol_ap : bool;
  ol_scanning : bool;
  ol_retry : Z;
  ol_deadline : Z;
  ol_asked : bool * bool * bool * bool
}.

Definition look (n : network) : outlook :=
  Outlook (ns_connected (n_state n)) (ns_connecting (n_state n)) (ns_ap_enabled (n_state n)) (ns_scanning (n_state n)) (n_next_retry n) (n_connection_deadline n)
    (n_reload_requested n, n_scan_requested n, n_scan_finished n, n_clock_requested n).

(** An attempt to connect is due; the one under way took too long; the access
    point has to come up; its time is over. *)
Definition attempt_due (now : Z) (n : network) : bool :=
  n_has_credentials n && negb (ns_connected (n_state n)) && negb (ns_connecting (n_state n)) && negb (ns_scanning (n_state n)) && (n_next_retry n <=? now).

Definition attempt_over (now : Z) (n : network) : bool := ns_connecting (n_state n) && (n_connection_deadline n <=? now).

Definition access_wanted (n : network) : bool := negb (ns_connected (n_state n)) && negb (ns_ap_enabled (n_state n)).

Definition access_over (now : Z) (n : network) : bool := ns_ap_enabled (n_state n) && ns_connected (n_state n) && (ns_ap_deadline_ms (n_state n) <=? now).

Definition entry (b : bool) (l : list radio_act) : list radio_act := if b then l else [].

(** The radio is told exactly what is due, in this order; and the state follows
    its answers. *)
Definition ticked `{Diary} (now : Z) (n : network) (r : radio) (n' : network) (r' : radio) : Prop :=
  exists hung_up opened closed scanned read joined : Z,
  diary r' = diary r ++ entry (n_clock_requested n) [ActClock] ++ entry (attempt_over now n) [ActDisconnect hung_up]
    ++ entry (access_wanted n) [ActMode true opened] ++ entry (access_over now n) [ActMode false closed]
    ++ entry (n_scan_requested n) [ActScan scanned] ++ entry (n_scan_finished n) [ActRecords read; ActClear]
    ++ entry (attempt_due now n) [ActConnect joined] /\
  let begun := attempt_due now n && (joined =? ESP_OK) in
  look n' = Outlook (ns_connected (n_state n))
    (if attempt_over now n then false else ns_connecting (n_state n) || begun)
    (if access_wanted n then opened =? ESP_OK else ns_ap_enabled (n_state n) && negb (access_over now n && (closed =? ESP_OK)))
    (negb (n_scan_finished n) && ns_scanning (n_state n) && negb (n_scan_requested n && negb (scanned =? ESP_OK)))
    (if attempt_over now n || attempt_due now n then now + 5000 else n_next_retry n)
    (if attempt_over now n then 0 else if attempt_due now n then (if begun then now + 30000 else 0) else n_connection_deadline n)
    (false, false, false, false).

Section Calm.
Context `{!Diary} (Hcalm : forall r, (arrivals r).1 = []).

(** The state and the diary. *)
Definition seen (x : net) (v : outlook) (l : list radio_act) : Prop := look (x_net x) = v /\ diary (x_radio x) = l.

Lemma runs_calm {A} {Q : A -> net -> Prop} (f : radio -> A * radio) x :
  (forall r, diary r = diary (f (x_radio x)).2 -> Q (f (x_radio x)).1 (Net (x_net x) r (x_nvs x))) -> runs (radio_call f) x Q.
Proof.
  intros HQ; unfold radio_call; apply runs_bind, runs_quietly, runs_bind, runs_quietly; cbn [x_radio x_net x_nvs]; rewrite Hcalm; cbn [wifi_events].
  apply runs_bind, runs_ret, runs_ret, HQ, arrivals_diary.
Qed.

Lemma runs_calm_now {Q : Z -> net -> Prop} x : (forall r, diary r = diary (x_radio x) -> Q (u64 (radio_timer (x_radio x)).1 / 1000) (Net (x_net x) r (x_nvs x))) -> runs net_now_ms x Q.
Proof. intros HQ; unfold net_now_ms; apply runs_bind, runs_quietly, runs_ret, HQ, timer_diary. Qed.

(** A part of the tick that makes calls [a], the answer to which decides about
    the state. *)
Definition does (c : SM net ()) (g : Z -> outlook -> outlook) (a : Z -> list radio_act) : Prop :=
  forall x v l (Q : () -> net -> Prop), seen x v l -> (forall rc x', seen x' (g rc v) (l ++ a rc) -> Q tt x') -> runs c x Q.

Lemma does_when {Q : () -> net -> Prop} (b : bool) c g a x (v : outlook) (l : list radio_act) : does c g a -> seen x v l ->
  (forall (rc : Z) x', seen x' (if b then g rc v else v) (l ++ entry b (a rc)) -> Q tt x') -> runs (when b c) x Q.
Proof.
  intros Hc Hx HQ; apply runs_when; intros ->; [by eapply Hc|]; apply (HQ 0); cbn [entry]; by rewrite app_nil_r.
Qed.

Lemma does_clock : does (radio_call (λ r, (tt, sntp_start r))) (λ _ v, v) (λ _, [ActClock]).
Proof. intros x v l Q [Hv Hl] HQ; apply runs_calm; intros r Hr; apply (HQ 0); split; [done|]; cbn in *; by rewrite Hr, clock_diary, Hl. Qed.

Lemma does_disconnect : does (radio_call wifi_disconnect;; mret tt) (λ _ v, v) (λ rc, [ActDisconnect rc]).
Proof. intros x v l Q [Hv Hl] HQ; apply runs_bind, runs_calm; intros r Hr; apply runs_ret; eapply HQ; split; [done|]; cbn; by rewrite Hr, disconnect_diary, Hl. Qed.

Definition with_ap (b : bool) (v : outlook) : outlook := Outlook (ol_connected v) (ol_connecting v) b (ol_scanning v) (ol_retry v) (ol_deadline v) (ol_asked v).
Definition with_scanning (b : bool) (v : outlook) : outlook := Outlook (ol_connected v) (ol_connecting v) (ol_ap v) b (ol_retry v) (ol_deadline v) (ol_asked v).

Lemma does_setup : does setup_enable (λ rc v, if rc =? ESP_OK then with_ap true v else v) (λ rc, [ActMode true rc]).
Proof.
  intros x v l Q [<- <-] HQ; unfold setup_enable; apply runs_bind, runs_calm; intros r Hr; rewrite mode_diary in Hr; specialize (HQ (set_mode true (x_radio x)).1).
  destruct (_ =? ESP_OK); cbn [negb]; [|by apply runs_ret, HQ].
  apply runs_bind, runs_calm_now; intros r' Hr'; apply runs_network_change, HQ; split; [done|]; cbn in *; by rewrite Hr', Hr.
Qed.

Lemma does_expire : does (rc ← radio_call (set_mode false); when (rc =? ESP_OK) (change_network (over_state (λ s, set_ap false (ns_ap_deadline_ms s) s))))
  (λ rc v, if rc =? ESP_OK then with_ap false v else v) (λ rc, [ActMode false rc]).
Proof.
  intros x v l Q [<- <-] HQ; apply runs_bind, runs_calm; intros r Hr; rewrite mode_diary in Hr; specialize (HQ (set_mode false (x_radio x)).1).
  apply runs_when; intros E; rewrite E in HQ; [apply runs_network_change|]; by apply HQ.
Qed.

Lemma does_scan : does (rc ← radio_call scan_start; when (negb (rc =? ESP_OK)) (change_network (over_state (λ s, set_scan false (ns_scan_ready s) s))))
  (λ rc v, if rc =? ESP_OK then v else with_scanning false v) (λ rc, [ActScan rc]).
Proof.
  intros x v l Q [<- <-] HQ; apply runs_bind, runs_calm; intros r Hr; rewrite scan_diary in Hr; specialize (HQ (scan_start (x_radio x)).1).
  apply runs_when; destruct (_ =? ESP_OK); intros [=]; [apply runs_network_change|]; by apply HQ.
Qed.

Lemma does_take : does take_scan (λ _ v, with_scanning false v) (λ rc, [ActRecords rc; ActClear]).
Proof.
  intros x v l Q [<- <-] HQ; unfold take_scan; apply runs_bind, runs_calm; intros r Hr; pose proof (records_diary (x_radio x)) as Hd; destruct (scan_records (x_radio x)) as [[rc found] r1] eqn:Es; cbn [fst snd] in *.
  destruct (records_law _ _ _ _ Es) as [_ Hn]; apply runs_bind, runs_calm; intros r2 Hr2; destruct (found_aps_spec (if rc =? ESP_OK then found else [])) as (f & Ef & _); [by destruct (rc =? ESP_OK)|].
  apply runs_bind; eapply runs_checked; [exact Ef|]; apply runs_network_change, (HQ rc); split; [done|]; cbn in *; by rewrite Hr2, clear_diary, Hr, Hd, <- app_assoc.
Qed.

Definition with_attempt (now : Z) (ok : bool) (v : outlook) : outlook :=
  Outlook (ol_connected v) ok (ol_ap v) (ol_scanning v) (now + 5000) (if ok then now + 30000 else 0) (ol_asked v).

Lemma does_connect now : clock_ok now -> does (connect_station now) (λ rc, with_attempt now (rc =? ESP_OK)) (λ rc, [ActConnect rc]).
Proof.
  intros Hnow x v l Q [<- <-] HQ; unfold connect_station; apply runs_bind, runs_calm; intros r Hr; rewrite connect_diary in Hr; apply runs_network_change, (HQ (wifi_connect (x_radio x)).1).
  destruct (clock_add now 5000 Hnow ltac:(lia)) as [E5 _]; destruct (clock_add now 30000 Hnow ltac:(lia)) as [E30 _]; split; [|done]; cbn [x_net]; by rewrite E5, E30.
Qed.

Lemma does_watch now : (forall r, button_level r <> 0) -> does (watch_button now) (λ _ v, v) (λ _, []).
Proof.
  intros Hbutton x v l Q [Hv Hl] HQ; unfold watch_button; apply runs_bind, runs_asks; destruct (Z.eqb_spec ((button_level ∘ x_radio) x) 0) as [E0|_]; [by destruct (Hbutton (x_radio x))|].
  cbn [negb]; apply runs_network_change, (HQ 0); rewrite app_nil_r; by split.
Qed.

(** The first critical section. *)
Lemma take_work_look now n : clock_ok now -> do_timeout (inspect now n) = attempt_over now n ->
  look (take_work now n) = Outlook (ns_connected (n_state n)) (if attempt_over now n then false else ns_connecting (n_state n)) (ns_ap_enabled (n_state n)) (ns_scanning (n_state n))
    (if attempt_over now n then now + 5000 else n_next_retry n) (if attempt_over now n then 0 else n_connection_deadline n) (false, false, false, false).
Proof. intros Hnow E; unfold take_work; rewrite E; destruct (clock_add now 5000 Hnow ltac:(lia)) as [E5 _]; rewrite E5; by destruct (attempt_over now n). Qed.

Lemma inspect_over now n : attempt_bounded n -> do_timeout (inspect now n) = attempt_over now n.
Proof.
  intros Hatt; unfold attempt_bounded, attempt_over in *; cbn; destruct (ns_connecting (n_state n)) eqn:Ek; [|done]; cbn [andb]; destruct (Z.eqb_spec (n_connection_deadline n) 0); [tauto|done].
Qed.

Lemma inspect_expire now n : window_bounded n -> do_expire (inspect now n) = access_over now n.
Proof.
  intros Hwin; unfold window_bounded, access_over in *; cbn; destruct (ns_ap_enabled (n_state n)), (ns_connected (n_state n)); try done; cbn [andb].
  by destruct (Z.eqb_spec (ns_ap_deadline_ms (n_state n)) 0); [destruct (Hwin eq_refl eq_refl)|].
Qed.

Lemma due_not_over now n : attempt_due now n && negb (attempt_over now n) = attempt_due now n.
Proof. unfold attempt_due, attempt_over; destruct (ns_connecting (n_state n)); cbn [negb]; [by rewrite andb_false_r|]; by rewrite andb_true_r. Qed.

Lemma due_cases now n : (attempt_due now n = false \/ (ns_connecting (n_state n) = false /\ attempt_over now n = false)) /\
  (access_wanted n = false \/ (ns_ap_enabled (n_state n) = false /\ access_over now n = false)).
Proof.
  unfold attempt_due, attempt_over, access_wanted, access_over; split.
  - destruct (ns_connecting (n_state n)); [left; by rewrite !andb_false_r|by right].
  - destruct (ns_ap_enabled (n_state n)); [left; by rewrite andb_false_r|by right].
Qed.

Lemma tick_calm x : net_ok x -> (forall r, button_level r <> 0) -> n_reload_requested (x_net x) = false ->
  runs monitor_network_tick x (λ _ x', ticked (u64 (radio_timer (x_radio x)).1 / 1000) (x_net x) (x_radio x) (x_net x') (x_radio x')).
Proof.
  intros Hx Hbutton Hreload; unfold monitor_network_tick; apply runs_bind, runs_calm_now; intros r0 Hr0; set (now := u64 _ / 1000); assert (clock_ok now) as Hnow by apply millis_ok.
  apply runs_bind, runs_network, runs_bind, runs_network_change; cbn [x_net x_radio x_nvs]; set (n := x_net x) in *.
  destruct Hx as [_ Hatt Hwin]; fold n in Hatt, Hwin; pose proof (inspect_over now n Hatt) as Hover; pose proof (inspect_expire now n Hwin) as Hexp.
  rewrite Hover, Hexp; change (do_reload (inspect now n)) with (n_reload_requested n); change (do_clock (inspect now n)) with (n_clock_requested n); change (do_ap (inspect now n)) with (access_wanted n).
  change (do_scan (inspect now n)) with (n_scan_requested n); change (do_finished (inspect now n)) with (n_scan_finished n); change (do_connect (inspect now n)) with (attempt_due now n).
  rewrite Hreload; cbn [negb]; rewrite andb_true_r, due_not_over; apply runs_bind, runs_ret.
  set (x0 := Net _ _ _); assert (seen x0 (look (take_work now n)) (diary (x_radio x))) as V by done; rewrite (take_work_look now n Hnow Hover) in V.
  apply runs_bind, (does_when _ _ _ _ _ _ _ does_clock V); intros rc1 x1 V1; apply runs_bind, (does_when _ _ _ _ _ _ _ does_disconnect V1); intros rc2 x2 V2.
  apply runs_bind, (does_when _ _ _ _ _ _ _ does_setup V2); intros rc3 x3 V3; apply runs_bind, (does_when _ _ _ _ _ _ _ does_expire V3); intros rc4 x4 V4.
  apply runs_bind, (does_when _ _ _ _ _ _ _ does_scan V4); intros rc5 x5 V5; apply runs_bind, (does_when _ _ _ _ _ _ _ does_take V5); intros rc6 x6 V6.
  apply runs_bind, (does_when _ _ _ _ _ _ _ (does_connect now Hnow) V6); intros rc7 x7 V7; apply (does_watch now Hbutton _ _ _ _ V7); intros _ x8 [V8 D8].
  exists rc2, rc3, rc4, rc5, rc6, rc7; rewrite app_nil_r in D8; split; [by rewrite D8, <- !app_assoc|]; rewrite V8; clear.
  destruct (due_cases now n) as [Hdue Hwant]; revert Hdue Hwant; generalize (attempt_over now n) (attempt_due now n) (access_wanted n) (access_over now n); intros o d w e Hdue Hwant.
  assert (forall (v : outlook) (b : bool), (if b then v else v) = v) as Hsame by (by intros ? []); rewrite !Hsame; clear Hsame; destruct Hdue as [->|[-> ->]], Hwant as [->|[-> ->]].
  all: destruct (n_scan_requested n), (n_scan_finished n), (rc3 =? ESP_OK), (rc4 =? ESP_OK), (rc5 =? ESP_OK), (rc7 =? ESP_OK); try destruct o; try destruct d; try destruct e; try destruct w; cbn.
  all: rewrite ?andb_false_r, ?andb_true_r, ?orb_false_r; reflexivity.
Qed.

End Calm.

End Station.

(** ** Addresses as text *)

Lemma span_eq (P : Z -> bool) a b x y c : Forall (λ z, P z = true) a -> Forall (λ z, P z = true) b -> P c = false -> a ++ c :: x = b ++ c :: y -> a = b /\ x = y.
Proof.
  intros Ha; revert b; induction Ha as [|z a Hz _ IH]; intros b Hb Hc E; destruct Hb as [|w b Hw Hb]; cbn in E.
  - by injection E.
  - injection E as <- _; congruence.
  - injection E as -> _; congruence.
  - injection E as -> E; destruct (IH b Hb Hc E) as [-> ->]; by split.
Qed.

(** The decimal digits of a byte, and only them. *)
Lemma decimal_digits n : is_byte n -> Forall (λ c, number_digit c = true) (decimal n) /\ read_decimal (decimal n) = n /\ zlen (decimal n) <= 3.
Proof.
  intros Hn; unfold is_byte in Hn; destruct (decimal_spec n) as (_ & Hv & _); [unfold INT32_MAX; lia|]; split; [|split; [exact Hv|]].
  - unfold decimal; replace (n <? 0) with false by lia; cbn [app].
    destruct (decimal_go_spec 20 (Z.abs n) []) as (d & -> & [_ Hd] & _); [simpl; lia|lia|]; by rewrite app_nil_r.
  - unfold decimal; replace (n <? 0) with false by lia; cbn [app].
    destruct (decimal_go_spec 20 (Z.abs n) []) as (d & -> & _ & _ & _ & Hl); [simpl; lia|lia|]; rewrite app_nil_r; apply Hl; [lia|simpl; lia].
Qed.

Lemma dotted_inj p q : zlen p = 4 -> bytes_ok p -> zlen q = 4 -> bytes_ok q -> dotted p = dotted q -> p = q.
Proof.
  intros Hp Bp Hq Bq E; unfold zlen in Hp, Hq; destruct p as [|p1 [|p2 [|p3 [|p4 [|? ?]]]]]; try (cbn in Hp; lia); destruct q as [|q1 [|q2 [|q3 [|q4 [|? ?]]]]]; try (cbn in Hq; lia).
  rewrite !Forall_cons in Bp, Bq; destruct Bp as (P1 & P2 & P3 & P4 & _), Bq as (Q1 & Q2 & Q3 & Q4 & _); cbn [dotted app] in E.
  destruct (decimal_digits p1 P1) as (D1 & R1 & _), (decimal_digits p2 P2) as (D2 & R2 & _), (decimal_digits p3 P3) as (D3 & R3 & _), (decimal_digits p4 P4) as (_ & R4 & _).
  destruct (decimal_digits q1 Q1) as (F1 & S1 & _), (decimal_digits q2 Q2) as (F2 & S2 & _), (decimal_digits q3 Q3) as (F3 & S3 & _), (decimal_digits q4 Q4) as (_ & S4 & _).
  apply (span_eq number_digit) in E as [E1 E]; [|done..]; apply (span_eq number_digit) in E as [E2 E]; [|done..]; apply (span_eq number_digit) in E as [E3 E4]; [|done..].
  congruence.
Qed.

Lemma dotted_text p : zlen p = 4 -> bytes_ok p -> zlen (dotted p) <= 15 /\ (0 ∉ dotted p).
Proof.
  intros Hp Bp; unfold zlen in Hp; destruct p as [|p1 [|p2 [|p3 [|p4 [|? ?]]]]]; try (cbn in Hp; lia).
  rewrite !Forall_cons in Bp; destruct Bp as (P1 & P2 & P3 & P4 & _); cbn [dotted app].
  destruct (decimal_digits p1 P1) as (D1 & _ & L1), (decimal_digits p2 P2) as (D2 & _ & L2), (decimal_digits p3 P3) as (D3 & _ & L3), (decimal_digits p4 P4) as (D4 & _ & L4).
  split; [rewrite !zlen_app, !zlen_cons, !zlen_app, !zlen_cons, zlen_app, zlen_cons; lia|].
  assert (forall l, Forall (λ c, number_digit c = true) l -> 0 ∉ l) as Hno by (intros l Hl H0; rewrite Forall_forall in Hl; by apply Hl in H0).
  apply Hno in D1, D2, D3, D4; rewrite !elem_of_app, !elem_of_cons, !elem_of_app, !elem_of_cons, elem_of_app, elem_of_cons; intuition lia.
Qed.

(** The IPv4 address of a socket, mapped ones included. *)
Definition local_v4 (ipv6 : bool) (local : option socket_address) : option (list Z) :=
  match local with
  | Some (AfInet a) => Some a
  | Some (AfInet6 a) => if ipv6 && bool_decide (take 12 a = mapped_prefix) then Some (drop 12 a) else None
  | _ => None
  end.

Definition address_typed (a : socket_address) : Prop :=
  match a with AfInet l => zlen l = 4 /\ bytes_ok l | AfInet6 l => zlen l = 16 /\ bytes_ok l | AfOther => True end.

Lemma local_v4_typed ipv6 local p : (forall a, local = Some a -> address_typed a) -> local_v4 ipv6 local = Some p -> zlen p = 4 /\ bytes_ok p.
Proof.
  intros Ht E; destruct local as [[l|l|]|]; try done; specialize (Ht _ eq_refl); cbn in Ht, E.
  - by injection E as <-.
  - destruct (_ && _); [|done]; injection E as <-; destruct Ht as [Hz Hb]; split; [unfold zlen in *; rewrite length_drop; lia|by apply Forall_drop].
Qed.

Lemma inet_ntop_spec p out : zlen p = 4 -> bytes_ok p -> zlen out = 16 -> exists out', inet_ntop p out 16 = Some (true, out') /\ cstr out' (dotted p) /\ zlen out' = 16.
Proof.
  intros Hp Bp Hz; destruct (dotted_text p Hp Bp) as [Hl Hn]; unfold inet_ntop; rewrite zlen_app; change (zlen [0]) with 1; replace (16 <? _) with false by lia.
  destruct (blit_Some out 0 (dotted p ++ [0])) as [m E]; [lia|rewrite zlen_app; change (zlen [0]) with 1; lia|]; rewrite E; cbn [mbind option_bind]; exists m.
  split; [done|]; split; [|by rewrite (zlen_blit _ _ _ _ E)]; rewrite (blit_0 _ _ _ E), <- app_assoc; by apply cstr_intro.
Qed.

(** The address a request came to, as text: exactly the IPv4 ones. *)
Lemma local_ip_spec ipv6 local out : (forall a, local = Some a -> address_typed a) -> zlen out = 16 ->
  exists out', zlen out' = 16 /\ match local_v4 ipv6 local with
  | Some p => monitor_request_local_ip ipv6 local out = Some (true, out') /\ cstr out' (dotted p)
  | None => monitor_request_local_ip ipv6 local out = Some (false, out')
  end.
Proof.
  intros Ht Hz; destruct local as [[l|l|]|]; cbn [monitor_request_local_ip local_v4]; [| |by exists out|by exists out]; specialize (Ht _ eq_refl); cbn in Ht.
  - destruct Ht as [Hl Hb]; destruct (inet_ntop_spec l out Hl Hb Hz) as (o & E & Ho & Hzo); by exists o.
  - destruct Ht as [Hl Hb]; destruct ipv6; cbn [negb andb]; [|by exists out].
    rewrite (slice_sub l 0 12) by lia; cbn [mbind option_bind]; change (sub l 0 12) with (take 12 l).
    destruct (decide (take 12 l = mapped_prefix)) as [Ep|Ep]; [|rewrite (bool_decide_eq_true_2 (_ <> _)), (bool_decide_eq_false_2 (_ = _)) by done; by exists out].
    rewrite (bool_decide_eq_false_2 (_ <> _)), (bool_decide_eq_true_2 (_ = _)) by tauto.
    rewrite (slice_sub l 12 4) by lia; cbn [mbind option_bind]; assert (sub l 12 4 = drop 12 l) as -> by (unfold sub; rewrite take_ge; [done|rewrite length_drop; unfold zlen in Hl; lia]).
    destruct (inet_ntop_spec (drop 12 l) out) as (o & E & Ho & Hzo); [unfold zlen in *; rewrite length_drop; lia|by apply Forall_drop|done|]; by exists o.
Qed.

(** A request is on the setup network exactly when it came to the access point's address. *)
Lemma on_setup_spec ipv6 local out : (forall a, local = Some a -> address_typed a) -> zlen out = 16 ->
  monitor_request_on_setup ipv6 local out = Some (bool_decide (local_v4 ipv6 local = Some [192; 168; 4; 1])).
Proof.
  intros Ht Hz; destruct (local_ip_spec ipv6 local out Ht Hz) as (o & _ & Ho); unfold monitor_request_on_setup; destruct (local_v4 ipv6 local) as [p|] eqn:Ep.
  - destruct Ho as [-> Hc]; cbn [mbind option_bind]; rewrite (streq_spec _ _ _ _ Hc (cstr_cstring "192.168.4.1" ltac:(no_nul))); f_equal.
    destruct (local_v4_typed _ _ _ Ht Ep) as [Hp Bp]; apply bool_decide_ext; split; [|by intros [= ->]]; intros E; f_equal; apply dotted_inj; [done|done|done| |].
    + repeat constructor; unfold is_byte; lia.
    + rewrite E; by vm_compute.
  - by rewrite Ho.
Qed.

(** ** A radio *)

Module Air.

(** Every call works; [weather] is what other tasks do meanwhile. *)
Definition air (weather : list arrival) : Radio := {|
  radio := Z;
  radio_timer t := (t, t + 1000);
  radio_random t := (4, t);
  arrivals t := (weather, t + 1000);
  setup_call _ t := (0, t);
  create_interfaces t := (true, t);
  read_mac t := (0, [1; 2; 3; 171; 205; 239], t);
  set_ap_config _ _ _ t := (0, t);
  set_sta_config _ t := (0, t);
  set_mode _ t := (0, t);
  wifi_connect t := (0, t);
  wifi_disconnect t := (0, t);
  scan_start t := (0, t);
  scan_records t := (0, [ApRecord (lit "home" ++ replicate 29 0) (-50) false 6], t);
  clear_ap_list t := t;
  sntp_start t := t;
  ap_info _ := Some (-50, 6);
  sta_list _ := Some 1;
  button_level _ := 1
|}.

Lemma air_laws weather : Forall arrival_typed weather -> @RadioLaws (air weather).
Proof.
  intros Hw; constructor; [intros r; exact Hw| |by intros r rc l r' [= <- <- <-]].
  intros r rc l r' [= <- <- <-]; split; [by vm_compute|]; by repeat constructor.
Qed.

Definition quiet : Radio := air [].
#[export] Instance quiet_laws : @RadioLaws quiet := air_laws [] (Forall_nil_2 _).

Definition busy_weather : list arrival := [ScanAsked; GotIp [192; 168; 0; 9] [192; 168; 0; 1]; ReloadAsked; StationDisconnected 8].
Definition busy : Radio := air busy_weather.
#[export] Instance busy_laws : @RadioLaws busy.
Proof. apply air_laws; repeat constructor; unfold is_byte; lia. Qed.

End Air.
#[local] Existing Instances Shelf.storage Shelf.laws Air.quiet_laws Air.busy_laws.

(** ** The theorems *)

(** C13. The network code is total and keeps its state in order in every
    interleaving: the start returns; it opens the access point if it succeeds;
    and then, unless a station connected meanwhile, any ticks and events in any
    order, with any events and requests during each call of a tick, all return
    and leave terminated texts in their arrays, at most twelve networks found, an
    attempt to connect with its deadline and a connected station's access point
    with the time it closes. *)
Theorem network_in_order `{RadioLaws} `{NvsLaws} `{MemoryLaws} r n steps : Forall step_typed steps ->
  exists o x, monitor_network_start (Net zero_network r n) = Some (o, x) /\
    (o = Returned ESP_OK -> ns_ap_enabled (n_state (x_net x)) = true) /\
    (o = Returned ESP_OK -> ns_connected (n_state (x_net x)) = false -> exists x', network_run steps x = Some (tt, x') /\ station_ok (x_net x')).
Proof.
  intros Hs; destruct (start_kept (Net zero_network r n) zero_network_ok) as (o & x & E & _ & _ & Hap & Hok); exists o, x; split; [exact E|]; split; [exact Hap|].
  intros Ho Hc; destruct (run_kept steps Hs x (Hok Ho Hc)) as ([] & x' & E' & Hx'); by exists x'.
Qed.

(** C24. A tick does what is due, when nothing else happens during it, the
    button is up and there are no new settings: the radio is told, in this order
    and nothing else, to start the clock if that was asked, to end an attempt
    whose deadline has come, to open the access point if the station is not
    connected and it is closed, to close it if its time has come, to scan if that
    was asked, to give what a finished scan found, and to connect if that is due.
    What it answers decides: the access point is open if it could be opened and
    closed if it could be closed; an attempt under way ends only at its deadline,
    a new one ends in thirty seconds if it could be begun, and after both the
    next one is due in five seconds; every request has been served. *)
Theorem network_progress `{RadioLaws, !Diary} `{NvsLaws} `{MemoryLaws} x : (forall r, (arrivals r).1 = []) ->
  (forall r, button_level r <> 0) -> station_ok (x_net x) -> n_reload_requested (x_net x) = false ->
  exists x', monitor_network_tick x = Some (tt, x') /\ ticked (u64 (radio_timer (x_radio x)).1 / 1000) (x_net x) (x_radio x) (x_net x') (x_radio x').
Proof. intros Hcalm Hbutton Hx Hreload; destruct (tick_calm Hcalm x Hx Hbutton Hreload) as ([] & x' & E & Ht); by exists x'. Qed.

(** ** The theorems at work *)

(** The device after a start, with the station's settings saved. *)
Definition saved_network : nvs := [(lit "wifi_v1", wifi_bytes Shelf.network)].

Definition day : list (option arrival) := [None; Some (GotIp [10; 0; 0; 5] [10; 0; 0; 1]); None; Some ScanAsked; None; Some ScanDone; Some (StationDisconnected 2); None].

Lemma day_typed : Forall step_typed day.
Proof. repeat constructor; unfold is_byte; lia. Qed.

Lemma network_in_order_witness : exists o x, @monitor_network_start Air.busy _ _ (@Net Air.busy _ zero_network 5000000 saved_network) = Some (o, x) /\
  (o = Returned ESP_OK -> ns_ap_enabled (n_state (x_net x)) = true) /\
  (o = Returned ESP_OK -> ns_connected (n_state (x_net x)) = false -> exists x', network_run day x = Some (tt, x') /\ station_ok (x_net x')).
Proof. exact (network_in_order (5000000 : @radio Air.busy) saved_network day day_typed). Defined.

(** An attempt whose deadline has passed. *)
Definition stuck : network := set_connection_deadline 3000 (over_state (set_link false true true) (set_has_credentials true zero_network)).

Lemma stuck_ok : station_ok stuck.
Proof. apply link_ok; [apply credentials_flag_ok, zero_network_ok|by split|done]. Qed.

(** The quiet radio with a diary, which is empty at five seconds. *)
Definition noted : Radio := recorded Air.quiet.
Definition at_five : @radio noted := ([], 5000000).

Lemma network_progress_witness : exists x', @monitor_network_tick noted _ _ (@Net noted _ stuck at_five saved_network) = Some (tt, x') /\
  @ticked noted (recorded_diary _) 5000 stuck at_five (x_net x') (x_radio x').
Proof.
  exact (@network_progress noted (recorded_laws _ Air.quiet_laws) (recorded_diary _) _ _ _ _ (@Net noted _ stuck at_five saved_network) ltac:(done) ltac:(done) stuck_ok eq_refl).
Defined.
