(* ===== verification/MonitorDevices.v ===== *)
(** The pins, the temperature sensor and the light of the system monitor
    (src/examples/system_monitor/main/monitor_io.c and monitor_led.c). *)
From Stdlib Require Import SpecFloat.
From S2P Require Export Effects TunnelApi.

(** The drivers.  A level read is 0 or 1; the light has red, green and blue. *)
Class Drivers := {
  wiring : Type;
  gpio_set_level : Z -> Z -> wiring -> Z * wiring;
  gpio_config : Z -> Z -> wiring -> Z * wiring;       (* a pin and its direction; no pulls, no interrupts *)
  gpio_get_level : Z -> wiring -> Z;
  temperature_sensor_install : wiring -> Z * wiring;
  temperature_sensor_enable : wiring -> Z * wiring;
  temperature_sensor_uninstall : wiring -> wiring;
  temperature_sensor_get_celsius : wiring -> Z * spec_float * wiring;
  led_strip_new : wiring -> Z * bool * wiring;        (* the code, and whether the handle is not null *)
  led_strip_clear : wiring -> Z * wiring;
  led_strip_del : wiring -> wiring;
  led_strip_set_pixel : Z -> Z -> Z -> wiring -> Z * wiring;
  led_strip_refresh : wiring -> Z * wiring
}.

Definition GPIO_MODE_DISABLE : Z := 0.
Definition GPIO_MODE_INPUT : Z := 1.
Definition GPIO_MODE_INPUT_OUTPUT : Z := 3.
Definition MONITOR_GPIO_COUNT : Z := 4.

Record monitor_gpio := Gpio { g_pin : Z; g_mode : Z; g_level : Z }.
Record monitor_rgb := Rgb { l_available : bool; l_on : bool; l_red : Z; l_green : Z; l_blue : Z; l_brightness : Z }.

(** The variables of the two modules: the pins, whether there is a sensor and a
    light, and the light's state. *)
Record fixtures := Fixtures { f_pins : list monitor_gpio; f_sensor : bool; f_led : bool; f_rgb : monitor_rgb }.

Definition initial_fixtures : fixtures :=
  Fixtures [Gpio 4 0 (-1); Gpio 5 0 (-1); Gpio 6 0 (-1); Gpio 7 0 (-1)] false false (Rgb false false 0 128 255 20).

Definition set_pins (l : list monitor_gpio) (f : fixtures) : fixtures := Fixtures l (f_sensor f) (f_led f) (f_rgb f).
Definition set_sensor (b : bool) (f : fixtures) : fixtures := Fixtures (f_pins f) b (f_led f) (f_rgb f).
Definition set_light (led : bool) (rgb : monitor_rgb) (f : fixtures) : fixtures := Fixtures (f_pins f) (f_sensor f) led rgb.

Section Devices.
Context `{Drivers}.

Record panel := Panel { pn_fixtures : fixtures; pn_wiring : wiring }.

Abbreviation PM := (SM panel).

Definition the_fixtures : PM fixtures := asks pn_fixtures.
Definition change_fixtures (f : fixtures -> fixtures) : PM () := modify (λ b, Panel (f (pn_fixtures b)) (pn_wiring b)).
Definition on_wiring {A} (f : wiring -> A * wiring) : PM A := calling (λ b, let '(x, r) := f (pn_wiring b) in (x, Panel (pn_fixtures b) r)).

(** ** Pins *)

Definition monitor_io_init : PM () :=
  rc ← on_wiring temperature_sensor_install;
  change_fixtures (set_sensor (rc =? ESP_OK));;
  if negb (rc =? ESP_OK) then mret tt else
  rc ← on_wiring temperature_sensor_enable;
  when (negb (rc =? ESP_OK)) (on_wiring (λ r, (tt, temperature_sensor_uninstall r));; change_fixtures (set_sensor false)).

Definition monitor_io_snapshot : PM (list monitor_gpio) :=
  f ← the_fixtures;
  level ← asks (λ b p, gpio_get_level p (pn_wiring b));
  mret (map (λ g, if g_mode g =? 0 then g else Gpio (g_pin g) (g_mode g) (level (g_pin g))) (f_pins f)).

(** The direction of a mode. *)
Definition direction (mode : Z) : Z := if mode =? 2 then GPIO_MODE_INPUT_OUTPUT else if mode =? 1 then GPIO_MODE_INPUT else GPIO_MODE_DISABLE.

Definition monitor_io_set (pin mode value : Z) : PM Z :=
  if (mode <? 0) || (2 <? mode) || (negb (value =? 0) && negb (value =? 1)) then mret ESP_ERR_INVALID_ARG else
  f ← the_fixtures;
  match list_find (λ g, g_pin g = pin) (f_pins f) with
  | None => mret ESP_ERR_INVALID_ARG
  | Some (i, g) =>
      rc ← (if mode =? 2 then on_wiring (gpio_set_level pin value) else mret ESP_OK);
      if negb (rc =? ESP_OK) then mret rc else
      rc ← on_wiring (gpio_config pin (direction mode));
      level ← asks (λ b, gpio_get_level pin (pn_wiring b));
      when (rc =? ESP_OK) (change_fixtures (λ f, set_pins (<[i := Gpio (g_pin g) mode (if mode =? 0 then -1 else level)]> (f_pins f)) f));;
      mret rc
  end.

(** The value, and whether it is one. *)
Definition monitor_temperature : PM (spec_float * bool) :=
  f ← the_fixtures;
  if negb (f_sensor f) then mret (S754_zero false, false) else
  '(rc, value) ← on_wiring (λ r, let '(rc, v, r) := temperature_sensor_get_celsius r in ((rc, v), r));
  mret (value, rc =? ESP_OK).

(** ** The light *)

Definition with_available (rgb : monitor_rgb) : monitor_rgb := Rgb true (l_on rgb) (l_red rgb) (l_green rgb) (l_blue rgb) (l_brightness rgb).

Definition monitor_led_init : PM () :=
  '(rc, handle) ← on_wiring (λ r, let '(rc, h, r) := led_strip_new r in ((rc, h), r));
  change_fixtures (λ f, set_light handle (f_rgb f) f);;
  rc ← (if rc =? ESP_OK then on_wiring led_strip_clear else mret rc);
  if negb (rc =? ESP_OK) then
    when handle (on_wiring (λ r, (tt, led_strip_del r));; change_fixtures (λ f, set_light false (f_rgb f) f))
  else change_fixtures (λ f, set_light (f_led f) (with_available (f_rgb f)) f).

Definition monitor_led_snapshot : PM monitor_rgb := f ← the_fixtures; mret (f_rgb f).

(** A colour at a brightness of percents. *)
Definition shade (on : bool) (colour brightness : Z) : Z := if on then u32 (colour * brightness) / 100 else 0.

Definition monitor_led_set (on : bool) (red green blue brightness : Z) : PM Z :=
  f ← the_fixtures;
  if negb (f_led f) then mret ESP_ERR_INVALID_STATE else
  if (255 <? red) || (255 <? green) || (255 <? blue) || (100 <? brightness) then mret ESP_ERR_INVALID_ARG else
  rc ← on_wiring (led_strip_set_pixel (shade on red brightness) (shade on green brightness) (shade on blue brightness));
  rc ← (if rc =? ESP_OK then on_wiring led_strip_refresh else mret rc);
  when (rc =? ESP_OK) (change_fixtures (set_light (f_led f) (Rgb true on red green blue brightness)));;
  mret rc.

End Devices.

(** ** The invariant *)

(** A pin that is selected has a level; one that is not has none. *)
Definition pin_ok (g : monitor_gpio) : Prop :=
  0 <= g_mode g <= 2 /\ if g_mode g =? 0 then g_level g = -1 else g_level g = 0 \/ g_level g = 1.

Definition rgb_ok (l : monitor_rgb) : Prop :=
  0 <= l_red l <= 255 /\ 0 <= l_green l <= 255 /\ 0 <= l_blue l <= 255 /\ 0 <= l_brightness l <= 100.

(** The four pins, each in one of three modes; the light within its ranges, and
    available exactly when there is one. *)
Record fixtures_ok (f : fixtures) : Prop := {
  fx_pins : map g_pin (f_pins f) = [4; 5; 6; 7];
  fx_modes : Forall pin_ok (f_pins f);
  fx_rgb : rgb_ok (f_rgb f);
  fx_led : l_available (f_rgb f) = f_led f
}.

Definition exposed (pin : Z) : Prop := 4 <= pin <= 7.

(** What the drivers do elsewhere: [view] is what can be seen of a pin from outside. *)
Class DriversLaws `{Drivers} := {
  pin_view : wiring -> Z -> Z;
  level_law p r : gpio_get_level p r = 0 \/ gpio_get_level p r = 1;
  set_level_law p v r q : q <> p -> pin_view (gpio_set_level p v r).2 q = pin_view r q;
  config_law p d r q : q <> p -> pin_view (gpio_config p d r).2 q = pin_view r q;
  install_law r q : pin_view (temperature_sensor_install r).2 q = pin_view r q;
  enable_law r q : pin_view (temperature_sensor_enable r).2 q = pin_view r q;
  uninstall_law r q : pin_view (temperature_sensor_uninstall r) q = pin_view r q;
  celsius_law r q : pin_view (temperature_sensor_get_celsius r).2 q = pin_view r q;
  led_new_law r rc h r' : led_strip_new r = (rc, h, r') -> rc = ESP_OK -> h = true;
  led_new_view r q : q <> 48 -> pin_view (led_strip_new r).2 q = pin_view r q;
  led_clear_view r q : q <> 48 -> pin_view (led_strip_clear r).2 q = pin_view r q;
  led_del_view r q : q <> 48 -> pin_view (led_strip_del r) q = pin_view r q;
  led_pixel_view a b c r q : q <> 48 -> pin_view (led_strip_set_pixel a b c r).2 q = pin_view r q;
  led_refresh_view r q : q <> 48 -> pin_view (led_strip_refresh r).2 q = pin_view r q
}.

Lemma initial_fixtures_ok : fixtures_ok initial_fixtures.
Proof. constructor; [done| |by repeat split|done]; repeat constructor; cbn; lia. Qed.

Section Fixtures.
Context `{DriversLaws}.

(** From [p] to [p']: in order, and nothing done to a pin that is neither exposed nor the light's. *)
Definition panel_kept (p p' : panel) : Prop :=
  fixtures_ok (pn_fixtures p') /\ forall q, ~ exposed q -> q <> 48 -> pin_view (pn_wiring p') q = pin_view (pn_wiring p) q.

Lemma panel_refl p : fixtures_ok (pn_fixtures p) -> panel_kept p p.
Proof. by split. Qed.

Lemma panel_step p p1 p2 : panel_kept p p1 -> (forall q, ~ exposed q -> q <> 48 -> pin_view (pn_wiring p2) q = pin_view (pn_wiring p1) q) ->
  fixtures_ok (pn_fixtures p2) -> panel_kept p p2.
Proof. intros [_ Hv] Hv2 Hf; split; [done|]; intros q Hq Hl; rewrite Hv2 by done; by apply Hv. Qed.

Lemma runs_wiring {A} {Q : A -> panel -> Prop} (f : wiring -> A * wiring) p0 p : panel_kept p0 p ->
  (forall q, ~ exposed q -> q <> 48 -> pin_view (f (pn_wiring p)).2 q = pin_view (pn_wiring p) q) ->
  (forall p', panel_kept p0 p' -> pn_fixtures p' = pn_fixtures p -> Q (f (pn_wiring p)).1 p') -> runs (on_wiring f) p Q.
Proof.
  intros Hp Hf HQ; unfold on_wiring; apply runs_calling; destruct (f (pn_wiring p)) as [x r] eqn:E; cbn in *; apply HQ; [|done].
  eapply panel_step; [exact Hp|exact Hf|apply Hp].
Qed.

Lemma runs_fixtures {Q : fixtures -> panel -> Prop} p : Q (pn_fixtures p) p -> runs the_fixtures p Q.
Proof. intros HQ; by apply runs_asks. Qed.

Lemma runs_fixtures_change {Q : () -> panel -> Prop} f p0 p : panel_kept p0 p -> fixtures_ok (f (pn_fixtures p)) ->
  (forall p', panel_kept p0 p' -> pn_fixtures p' = f (pn_fixtures p) -> Q tt p') -> runs (change_fixtures f) p Q.
Proof. intros [Hp Hv] Hf HQ; apply runs_modify, HQ; [by split|done]. Qed.

(** An index and its pin. *)
Lemma found_pin f pin i g : fixtures_ok f -> list_find (λ g, g_pin g = pin) (f_pins f) = Some (i, g) -> f_pins f !! i = Some g /\ g_pin g = pin /\ exposed pin.
Proof.
  intros Hf E; apply list_find_Some in E as (Hi & Hg & _); split; [done|]; split; [done|].
  assert (pin ∈ map g_pin (f_pins f)) as Hin by (apply list_elem_of_lookup; exists i; rewrite list_lookup_fmap, Hi; cbn; by rewrite Hg).
  rewrite (fx_pins _ Hf) in Hin; unfold exposed; rewrite !elem_of_cons in Hin; destruct Hin as [?|[?|[?|[?|?%not_elem_of_nil]]]]; lia || done.
Qed.

Lemma select_ok f i g mode level : fixtures_ok f -> f_pins f !! i = Some g -> 0 <= mode <= 2 -> level = 0 \/ level = 1 ->
  fixtures_ok (set_pins (<[i := Gpio (g_pin g) mode (if mode =? 0 then -1 else level)]> (f_pins f)) f).
Proof.
  intros [Hp Hm Hr Hl] Hi Hmode Hlevel; constructor; [|cbn|done|done].
  - rewrite <- Hp; cbn; change (map g_pin) with (fmap (M := list) g_pin); rewrite list_fmap_insert; cbn [g_pin]; apply list_insert_id; by rewrite list_lookup_fmap, Hi.
  - apply Forall_insert; [done|]; split; cbn; [done|]; by destruct (mode =? 0).
Qed.

Lemma io_set_kept pin mode value p : fixtures_ok (pn_fixtures p) -> runs (monitor_io_set pin mode value) p (λ rc p', panel_kept p p' /\
  (rc = ESP_OK -> exposed pin /\ 0 <= mode <= 2 /\ 0 <= value <= 1) /\ (~ (exposed pin /\ 0 <= mode <= 2 /\ 0 <= value <= 1) -> rc = ESP_ERR_INVALID_ARG /\ p' = p)).
Proof.
  intros Hp; pose proof (panel_refl p Hp) as Hk; unfold monitor_io_set; destruct (_ || _) eqn:Earg; [apply runs_ret; split; [done|]; split; [done|]; by intros _|].
  assert (0 <= mode <= 2 /\ 0 <= value <= 1) as [Hmode Hvalue] by lia; apply runs_bind, runs_fixtures; destruct (list_find _ _) as [[i g]|] eqn:Ef.
  - destruct (found_pin _ _ _ _ Hp Ef) as (Hi & Hg & Hex); assert (forall q, ~ exposed q -> q <> pin) as Hne by (intros q Hq ->; done).
    apply runs_bind, runs_mono with (Q := λ _ p1, panel_kept p p1 /\ pn_fixtures p1 = pn_fixtures p).
    { destruct (mode =? 2); [|by apply runs_ret]; apply (runs_wiring _ p); [done|intros; apply set_level_law; by apply Hne|by intros p1]. }
    intros rc p1 [Hk1 E1]; destruct (Z.eqb_spec rc ESP_OK); cbn [negb]; [|apply runs_ret; split; [done|]; split; [done|]; tauto].
    apply runs_bind, (runs_wiring _ p); [done|intros; apply config_law; by apply Hne|]; intros p2 Hk2 E2; apply runs_bind, runs_asks, runs_bind.
    apply runs_when; [|intros _; apply runs_ret; split; [done|]; split; [done|]; tauto]; intros _; apply (runs_fixtures_change _ p); [done| |].
    { rewrite E2, E1; apply select_ok; [done|done|lia|apply level_law]. }
    intros p3 Hk3 _; apply runs_ret; split; [done|]; split; [done|]; tauto.
  - apply runs_ret; split; [done|]; split; [done|]; by intros _.
Qed.

Lemma shade_range on colour brightness : 0 <= colour <= 255 -> 0 <= brightness <= 100 -> 0 <= shade on colour brightness <= colour.
Proof.
  intros Hc Hb; unfold shade; destruct on; [|lia]; assert (0 <= colour * brightness <= 25500) by nia.
  assert (u32 (colour * brightness) = colour * brightness) as -> by (apply wrap_small; change (2 ^ 32) with 4294967296; lia); split; [apply Z.div_pos; lia|]; apply Z.div_le_upper_bound; nia.
Qed.

Lemma led_set_kept on red green blue brightness p : fixtures_ok (pn_fixtures p) -> 0 <= red -> 0 <= green -> 0 <= blue -> 0 <= brightness ->
  runs (monitor_led_set on red green blue brightness) p (λ rc p', panel_kept p p' /\ (rc = ESP_OK -> f_rgb (pn_fixtures p') = Rgb true on red green blue brightness)).
Proof.
  intros Hp Hr Hg Hb Hl; pose proof (panel_refl p Hp) as Hk; unfold monitor_led_set; apply runs_bind, runs_fixtures; destruct (f_led (pn_fixtures p)) eqn:Eled; cbn [negb]; [|by apply runs_ret].
  destruct (_ || _) eqn:Earg; [by apply runs_ret|]; apply runs_bind, (runs_wiring _ p); [done|intros; by apply led_pixel_view|]; intros p1 Hk1 E1.
  apply runs_bind, runs_mono with (Q := λ _ p2, panel_kept p p2 /\ pn_fixtures p2 = pn_fixtures p).
  { match goal with |- runs (if ?b then _ else _) _ _ => destruct b end; [|by apply runs_ret]; apply (runs_wiring _ p); [done|intros; by apply led_refresh_view|]; intros p2 Hk2 E2; by rewrite E2. }
  intros rc p2 [Hk2 E2]; apply runs_bind, runs_when; intros Erc; [|apply runs_ret; split; [done|]; intros ->; done].
  apply (runs_fixtures_change _ p); [done| |intros p3 Hk3 E3; apply runs_ret; split; [done|]; by rewrite E3].
  rewrite E2; destruct Hp; constructor; cbn; [done|done|repeat split; cbn; lia|done].
Qed.

Lemma io_init_kept p : fixtures_ok (pn_fixtures p) -> runs monitor_io_init p (λ _ p', panel_kept p p' /\ f_led (pn_fixtures p') = f_led (pn_fixtures p)).
Proof.
  intros Hp; pose proof (panel_refl p Hp) as Hk; assert (forall b f, fixtures_ok f -> fixtures_ok (set_sensor b f)) as Hsensor by (by intros b f []).
  unfold monitor_io_init; apply runs_bind, (runs_wiring _ p); [done|intros; apply install_law|]; intros p1 Hk1 E1.
  apply runs_bind, (runs_fixtures_change _ p); [done|apply Hsensor, Hk1|]; intros p2 Hk2 E2; case_match; [apply runs_ret; split; [done|]; by rewrite E2, <- E1|].
  apply runs_bind, (runs_wiring _ p); [done|intros; apply enable_law|]; intros p3 Hk3 E3; apply runs_when; [|intros _; split; [done|]; by rewrite E3, E2, <- E1]; intros _.
  apply runs_bind, (runs_wiring _ p); [done|intros; apply uninstall_law|]; intros p4 Hk4 E4; apply (runs_fixtures_change _ p); [done|apply Hsensor, Hk4|].
  intros p5 Hk5 E5; split; [done|]; by rewrite E5, E4, E3, E2, <- E1.
Qed.

Lemma led_init_kept p : fixtures_ok (pn_fixtures p) -> f_led (pn_fixtures p) = false -> runs monitor_led_init p (λ _ p', panel_kept p p').
Proof.
  intros Hp Hoff; pose proof (panel_refl p Hp) as Hk; unfold monitor_led_init; apply runs_bind; unfold on_wiring at 1; apply runs_calling.
  destruct (led_strip_new (pn_wiring p)) as [[rc handle] r] eqn:En; cbn [fst snd]; pose proof (led_new_view (pn_wiring p)) as Hv; rewrite En in Hv; cbn [snd] in Hv.
  set (f := pn_fixtures p) in *; apply runs_bind, runs_modify; cbn [pn_fixtures pn_wiring]; set (p1 := Panel (set_light handle (f_rgb f) f) r).
  assert (forall q, ~ exposed q -> q <> 48 -> pin_view (pn_wiring p1) q = pin_view (pn_wiring p) q) as Hv1 by (intros q _ Hq; by apply Hv).
  apply runs_bind, runs_mono with (Q := λ rc' p2, pn_fixtures p2 = pn_fixtures p1 /\ (rc' = ESP_OK -> rc = ESP_OK) /\
    forall q, ~ exposed q -> q <> 48 -> pin_view (pn_wiring p2) q = pin_view (pn_wiring p) q).
  { destruct (Z.eqb_spec rc ESP_OK); [|by apply runs_ret]; unfold on_wiring; apply runs_calling; destruct (led_strip_clear (pn_wiring p1)) as [rc' r'] eqn:Ec; cbn.
    split; [done|]; split; [done|]; intros q Hq Hl; pose proof (led_clear_view (pn_wiring p1) q Hl) as Hc; rewrite Ec in Hc; cbn in Hc; rewrite Hc; by apply Hv1. }
  intros rc' p2 (E2 & Hrc & Hv2); destruct (Z.eqb_spec rc' ESP_OK) as [->|Hne]; cbn [negb].
  - apply runs_modify; split; cbn; [|exact Hv2]; rewrite E2; unfold p1; cbn; rewrite (led_new_law _ _ _ _ En (Hrc eq_refl)); destruct Hp; by constructor.
  - apply runs_when; intros Hh.
    + apply runs_bind; unfold on_wiring; apply runs_calling; cbn; apply runs_modify; split; cbn; [rewrite E2; unfold p1; cbn; destruct Hp as [? ? ? Hl]; constructor; try done; cbn; congruence|].
      intros q Hq Hl; rewrite led_del_view by done; by apply Hv2.
    + split; [rewrite E2; unfold p1; cbn; destruct Hp as [? ? ? Hl]; constructor; try done; cbn; congruence|exact Hv2].
Qed.

Lemma io_snapshot_spec p : fixtures_ok (pn_fixtures p) -> exists l, monitor_io_snapshot p = Some (l, p) /\ map g_pin l = [4; 5; 6; 7] /\ Forall pin_ok l.
Proof.
  intros [Hp Hm Hr Hl]; eexists; split; [done|]; split.
  - rewrite map_map, <- Hp; apply map_ext; intros g; by destruct (_ =? _).
  - apply Forall_map; eapply Forall_impl; [exact Hm|]; intros g Hg; destruct (Z.eqb_spec (g_mode g) 0) as [E|E]; [done|]; destruct Hg as [Hg _]; split; cbn; [done|].
    destruct (Z.eqb_spec (g_mode g) 0); [done|]; apply level_law.
Qed.

Lemma temperature_kept p : fixtures_ok (pn_fixtures p) -> runs monitor_temperature p (λ _ p', panel_kept p p').
Proof.
  intros Hp; pose proof (panel_refl p Hp) as Hk; unfold monitor_temperature; apply runs_bind, runs_fixtures; case_match; [by apply runs_ret|].
  apply runs_bind, (runs_wiring _ p); [done| |intros p1 Hk1 _; destruct (temperature_sensor_get_celsius _) as [[? ?] ?]; by apply runs_ret].
  intros q _ _; pose proof (celsius_law (pn_wiring p) q) as Hc; by destruct (temperature_sensor_get_celsius _) as [[? ?] ?].
Qed.

(** ** Any use of them *)

(** The calls of the API; the light's values are unsigned. *)
Inductive fixture_call := SetPin (pin mode value : Z) | SetLight (on : bool) (red green blue brightness : Z) | ReadPins | ReadTemperature | ReadLight.

Definition fixture_typed (c : fixture_call) : Prop :=
  match c with SetLight _ red green blue brightness => 0 <= red /\ 0 <= green /\ 0 <= blue /\ 0 <= brightness | _ => True end.

Definition fixture_perform (c : fixture_call) : SM panel () :=
  match c with
  | SetPin pin mode value => monitor_io_set pin mode value;; mret tt
  | SetLight on red green blue brightness => monitor_led_set on red green blue brightness;; mret tt
  | ReadPins => monitor_io_snapshot;; mret tt
  | ReadTemperature => monitor_temperature;; mret tt
  | ReadLight => monitor_led_snapshot;; mret tt
  end.

Fixpoint fixture_session (calls : list fixture_call) : SM panel () :=
  match calls with [] => mret tt | c :: calls => fixture_perform c;; fixture_session calls end.

Lemma panel_trans p p1 p2 : panel_kept p p1 -> panel_kept p1 p2 -> panel_kept p p2.
Proof. intros [_ H1] [Hf H2]; split; [done|]; intros q Hq Hl; by rewrite H2, H1. Qed.

Lemma fixture_perform_kept c p : fixture_typed c -> fixtures_ok (pn_fixtures p) -> runs (fixture_perform c) p (λ _ p', panel_kept p p').
Proof.
  intros Hc Hp; destruct c as [pin mode value|on red green blue brightness| | |]; cbn [fixture_perform]; apply runs_bind.
  - eapply runs_mono; [by apply io_set_kept|]; intros rc p' [Hk _]; by apply runs_ret.
  - destruct Hc as (? & ? & ? & ?); eapply runs_mono; [by apply led_set_kept|]; intros rc p' [Hk _]; by apply runs_ret.
  - destruct (io_snapshot_spec p Hp) as (l & E & _); exists l, p; split; [exact E|]; by apply runs_ret, panel_refl.
  - eapply runs_mono; [by apply temperature_kept|]; intros x p' Hk; by apply runs_ret.
  - unfold monitor_led_snapshot; apply runs_bind, runs_fixtures, runs_ret, runs_ret; by apply panel_refl.
Qed.

Lemma fixture_session_kept calls : Forall fixture_typed calls -> forall p, fixtures_ok (pn_fixtures p) -> runs (fixture_session calls) p (λ _ p', panel_kept p p').
Proof.
  induction 1 as [|c calls Hc _ IH]; intros p Hp; cbn [fixture_session]; [by apply runs_ret, panel_refl|].
  apply runs_bind; eapply runs_mono; [by apply fixture_perform_kept|]; intros [] p1 H1; eapply runs_mono; [apply IH, H1|]; intros [] p2 H2; by eapply panel_trans.
Qed.

End Fixtures.

(** ** A board *)

Module Workbench.

(** Levels by pin; every call works. *)
#[export] Instance drivers : Drivers := {|
  wiring := list (Z * Z);
  gpio_set_level p v r := (0, (p, v) :: r);
  gpio_config _ _ r := (0, r);
  gpio_get_level p r := match list_find (λ x, x.1 = p) r with Some (_, (_, v)) => if v =? 0 then 0 else 1 | None => 0 end;
  temperature_sensor_install r := (0, r);
  temperature_sensor_enable r := (0, r);
  temperature_sensor_uninstall r := r;
  temperature_sensor_get_celsius r := (0, S754_finite false 5066549580791808 (-47), r);
  led_strip_new r := (0, true, r);
  led_strip_clear r := (0, r);
  led_strip_del r := r;
  led_strip_set_pixel a b c r := (0, (48, a + b + c) :: r);
  led_strip_refresh r := (0, r)
|}.

#[export] Instance drivers_laws : DriversLaws.
Proof.
  refine {| pin_view (r : wiring) q := Z.of_nat (length (filter (λ x : Z * Z, x.1 = q) r)) |}; try done.
  - intros p r; cbn; destruct (list_find _ r) as [[? [? v]]|]; [|by left]; destruct (v =? 0); [by left|by right].
  - intros p v r q Hq; cbn; case_decide; [cbn in *; congruence|done].
  - by intros r rc h r' [= <- <- <-].
  - intros a b c r q Hq; cbn; case_decide; [cbn in *; congruence|done].
Defined.

Definition bare : wiring := [].

End Workbench.
#[local] Existing Instances Workbench.drivers Workbench.drivers_laws.

(** ** The theorem *)

(** C37. The fixtures are well-formed whatever is asked of them: after their
    initialization, any sequence of calls with any numbers returns and leaves the
    four exposed pins, each in one of three modes, with a level exactly when it
    is selected, and the light within its ranges and available exactly when
    there is one; and no pin is touched but these four and the light's. *)
Theorem fixtures_typed `{DriversLaws} calls r : Forall fixture_typed calls ->
  exists p, (monitor_io_init;; monitor_led_init;; fixture_session calls) (Panel initial_fixtures r) = Some (tt, p) /\
    fixtures_ok (pn_fixtures p) /\ forall q, ~ exposed q -> q <> 48 -> pin_view (pn_wiring p) q = pin_view r q.
Proof.
  intros Hc; enough (runs (monitor_io_init;; monitor_led_init;; fixture_session calls) (Panel initial_fixtures r) (λ _ p, panel_kept (Panel initial_fixtures r) p))
    as ([] & p & E & Hp) by (by exists p).
  apply runs_bind, runs_mono with (Q := λ _ p', panel_kept (Panel initial_fixtures r) p' /\ f_led (pn_fixtures p') = false); [by apply io_init_kept, initial_fixtures_ok|].
  intros [] p1 [H1 Hoff]; apply runs_bind; eapply runs_mono; [apply led_init_kept; [apply H1|done]|]; intros [] p2 H2; eapply runs_mono; [by apply fixture_session_kept; [|apply H2]|].
  intros [] p3 H3; eapply panel_trans; [exact H1|]; by eapply panel_trans.
Qed.

Lemma fixtures_typed_witness :
  exists p, (monitor_io_init;; monitor_led_init;; fixture_session [SetPin 4 2 1; SetPin 48 2 1; SetPin 5 7 0; ReadPins; SetLight true 300 0 0 50; SetLight true 255 0 9 100; ReadTemperature; ReadLight])
      (Panel initial_fixtures Workbench.bare) = Some (tt, p) /\
    fixtures_ok (pn_fixtures p) /\ forall q, ~ exposed q -> q <> 48 -> pin_view (pn_wiring p) q = pin_view Workbench.bare q.
Proof.
  apply (fixtures_typed [SetPin 4 2 1; SetPin 48 2 1; SetPin 5 7 0; ReadPins; SetLight true 300 0 0 50; SetLight true 255 0 9 100; ReadTemperature; ReadLight] Workbench.bare).
  repeat constructor; lia.
Defined.
