(* ===== verification/MonitorJson.v ===== *)
(** JSON answers: the part of the vendored library that builds and prints a
    document, and the helpers of src/examples/system_monitor/main/monitor_api.c
    around it. *)
From stdpp Require Import gmap.
From Stdlib Require Import SpecFloat.
From S2P Require Export Json Config Effects.
#[local] Open Scope Z_scope.

(** The functions of the library that write.  An item is a pointer, [None] is
    null; a key and a string value are texts; [cf_cJSON_PrintPreallocated] gives
    what it writes to a buffer of that size; [tree_at] is the tree behind a
    pointer. *)
Class JsonWriter := {
  cf_cJSON_CreateObject : json_heap -> option Z * json_heap;
  cf_cJSON_AddStringToObject : option Z -> list Z -> list Z -> json_heap -> bool * json_heap;
  cf_cJSON_AddNumberToObject : option Z -> list Z -> spec_float -> json_heap -> bool * json_heap;
  cf_cJSON_AddBoolToObject : option Z -> list Z -> bool -> json_heap -> bool * json_heap;
  cf_cJSON_AddNullToObject : option Z -> list Z -> json_heap -> bool * json_heap;
  cf_cJSON_AddObjectToObject : option Z -> list Z -> json_heap -> option Z * json_heap;
  cf_cJSON_AddArrayToObject : option Z -> list Z -> json_heap -> option Z * json_heap;
  cf_cJSON_AddItemToArray : Z -> Z -> json_heap -> json_heap;
  cf_cJSON_PrintPreallocated : Z -> Z -> json_heap -> bool * list Z;
  tree_at : json_heap -> Z -> json
}.

(** ** Numbers and types *)

(** The conversion of an integer to a double, to nearest even. *)
Definition double_of (n : Z) : spec_float := binary_normalize 53 1024 n 0 false.

(** [isfinite]. *)
Definition is_finite (d : spec_float) : bool := match d with S754_zero _ | S754_finite _ _ _ => true | _ => false end.

Definition cf_cJSON_True : Z := 2.
Definition cf_cJSON_IsTrue := has_type cf_cJSON_True.
Definition cf_cJSON_IsBool (item : option json) : bool :=
  match item with None => false | Some j => negb (Z.land (j_type j) (Z.lor cf_cJSON_True cf_cJSON_False) =? 0) end.

Definition INT32_MIN : Z := -2147483648.

(** [valueint], which the parser makes of the number: it saturates. *)
Definition valueint (j : json) : option Z :=
  let d := j_valuedouble j in
  if SFleb (double_of_int32 INT32_MAX) d then Some INT32_MAX else
  if SFleb d (double_of_int32 INT32_MIN) then Some INT32_MIN else int32_of_double d.

(** [item->valuedouble != item->valueint] is false; and [item->valueint]. *)
Definition integer_item (item : option json) : option (option Z) :=
  if negb (cf_cJSON_IsNumber item) then Some None else
  j ← item; n ← valueint j;
  Some (if SFeqb (j_valuedouble j) (double_of_int32 n) then Some n else None).

(** [string]: the value of a member, when it is a string. *)
Definition string_member (j : option json) (key : string) : option (option (list Z)) :=
  v ← cf_cJSON_GetObjectItemCaseSensitive j (cstring key);
  if cf_cJSON_IsString v then v ← v; Some (j_valuestring v) else Some None.

Definition member_of (j : option json) (key : string) : option (option json) := cf_cJSON_GetObjectItemCaseSensitive j (cstring key).

Definition keys_of (l : list string) : list (list Z) := map cstring l.

(** ** Building *)

(** One call of [s], [n] or [b], or an explicit null; a string is an object that holds it. *)
Inductive member :=
| MString (key : string) (value : list Z)
| MNumber (key : string) (value : spec_float)
| MBool (key : string) (value : bool)
| MNull (key : string).

Section Build.
Context `{JsonWriter}.

(** The library's call for a member. *)
Definition put_value (j : option Z) (m : member) : SM json_heap bool :=
  match m with
  | MString key value => text ← checked (c_string value); calling (cf_cJSON_AddStringToObject j (lit key) text)
  | MNumber key value => calling (cf_cJSON_AddNumberToObject j (lit key) value)
  | MBool key value => calling (cf_cJSON_AddBoolToObject j (lit key) value)
  | MNull key => calling (cf_cJSON_AddNullToObject j (lit key))
  end.

(** The writer's state: the heap, and the flag [json_ok]. *)
Record paper := Paper { w_heap : json_heap; w_ok : bool }.

Abbreviation WM := (SM paper).

Definition on_json_heap {A} (c : SM json_heap A) : WM A := performing (λ w, '(x, h) ← c (w_heap w); Some (x, Paper h (w_ok w))).
Definition set_json_ok (b : bool) : WM () := modify (λ w, Paper (w_heap w) b).
Definition spoil (good : bool) : WM () := when (negb good) (set_json_ok false).

(** [s], [n] and [b]. *)
Definition put (j : option Z) (m : member) : WM () := good ← on_json_heap (put_value j m); spoil good.

Fixpoint put_all (j : option Z) (l : list member) : WM () :=
  match l with [] => mret tt | m :: l => put j m;; put_all j l end.

(** A document begins: [json_ok] says whether there is one. *)
Definition new_document : WM (option Z) :=
  j ← on_json_heap (calling cf_cJSON_CreateObject); set_json_ok (bool_decide (is_Some j));; mret j.

(** An object, or an array, as a member; the flag falls when it is refused. *)
Definition put_object (j : option Z) (key : string) : WM (option Z) :=
  c ← on_json_heap (calling (cf_cJSON_AddObjectToObject j (lit key))); spoil (bool_decide (is_Some c));; mret c.
Definition put_array (j : option Z) (key : string) : WM (option Z) :=
  c ← on_json_heap (calling (cf_cJSON_AddArrayToObject j (lit key))); spoil (bool_decide (is_Some c));; mret c.

(** Objects in an array, until one is refused. *)
Fixpoint put_rows (a : Z) (rows : list (list member)) : WM () :=
  match rows with
  | [] => mret tt
  | row :: rows =>
      p ← on_json_heap (calling cf_cJSON_CreateObject);
      match p with
      | None => set_json_ok false
      | Some p => on_json_heap (modify (cf_cJSON_AddItemToArray a p));; put_all (Some p) row;; put_rows a rows
      end
  end.

(** [cf_json_delete_secret] of a document that was built. *)
Definition delete_document `{JsonParser} (j : option Z) : WM () :=
  on_json_heap (λ h, h ← cf_json_delete_secret (tree_at h <$> j) h; Some (tt, h)).

End Build.

(** ** What the answers rely on *)

Definition member_ok (m : member) : Prop := match m with MString _ v => 0 ∈ v | _ => True end.

(** The writer uses the heap through its hooks only.  [document h root base items]:
    in the heap [h] there is a document at [root] with these items, and without
    it the heap holds the blocks [base]. *)
Class JsonWriterLaws (header : Z) `{JsonParserLaws header} `{JsonWriter} := {
  document : json_heap -> Z -> gmap Z json_allocation -> list Z -> Prop;
  create_law h r h' : cf_cJSON_CreateObject h = (r, h') -> rtc (heap_step header) h h' /\
    match r with Some p => document h' p (blocks h) [p] | None => blocks h' = blocks h end;
  put_law h root base items a m r h' : document h root base items -> a ∈ items -> put_value (Some a) m h = Some (r, h') ->
    rtc (heap_step header) h h' /\ document h' root base items;
  put_null_law m h r h' : put_value None m h = Some (r, h') -> r = false /\ rtc (heap_step header) h h' /\ blocks h' = blocks h;
  put_object_law h root base items a key r h' : document h root base items -> a ∈ items -> cf_cJSON_AddObjectToObject (Some a) key h = (r, h') ->
    rtc (heap_step header) h h' /\ document h' root base (match r with Some c => c :: items | None => items end);
  put_array_law h root base items a key r h' : document h root base items -> a ∈ items -> cf_cJSON_AddArrayToObject (Some a) key h = (r, h') ->
    rtc (heap_step header) h h' /\ document h' root base (match r with Some c => c :: items | None => items end);
  null_object_law key h r h' : cf_cJSON_AddObjectToObject None key h = (r, h') \/ cf_cJSON_AddArrayToObject None key h = (r, h') ->
    r = None /\ rtc (heap_step header) h h' /\ blocks h' = blocks h;
  item_law h root base items a r h' : document h root base items -> a ∈ items -> cf_cJSON_CreateObject h = (r, h') ->
    match r with
    | Some p => rtc (heap_step header) h' (cf_cJSON_AddItemToArray a p h') /\ document (cf_cJSON_AddItemToArray a p h') root base (p :: items)
    | None => document h' root base items
    end;
  delete_document_law h root base items : document h root base items -> json_ok (tree_at h root) /\
    forall j, j = tree_at h root \/ wiped (tree_at h root) j -> blocks (cf_cJSON_Delete (Some j) h) = base;
  print_law h root n : 0 < n -> zlen (cf_cJSON_PrintPreallocated root n h).2 <= n /\
    ((cf_cJSON_PrintPreallocated root n h).1 = true -> exists t, (cf_cJSON_PrintPreallocated root n h).2 = t ++ [0] /\ 0 ∉ t)
}.

(** The parser gives back what a failed parse allocated, and the deletion of a
    tree what its parse did. *)
Class JsonBlocks `{JsonParser} := {
  failed_blocks l h h' : ParseWithLengthOpts l h = (None, h') -> blocks h' = blocks h;
  deleted_blocks l h root e h1 h2 j : ParseWithLengthOpts l h = (Some (root, e), h1) -> j = root \/ wiped root j -> blocks h2 = blocks h1 ->
    blocks (cf_cJSON_Delete (Some j) h2) = blocks h
}.

Section Sheets.
Context (header : Z) (Hheader : 0 < header <= 64) `{JsonWriterLaws header}.

(** A document that may have been refused, and an item of it. *)
Definition sheet (j : option Z) (base : gmap Z json_allocation) (items : list Z) (h : json_heap) : Prop :=
  heap_ok header h /\ match j with Some root => document h root base items | None => blocks h = base /\ items = [] end.

Definition item_of (j : option Z) (items : list Z) (o : option Z) : Prop := match o with Some a => a ∈ items | None => j = None end.

Lemma runs_json {A} {Q : A -> paper -> Prop} (c : SM json_heap A) w : runs c (w_heap w) (λ x h, Q x (Paper h (w_ok w))) -> runs (on_json_heap c) w Q.
Proof. intros (x & h & E & HQ); by eapply runs_performing; [rewrite E|]. Qed.

Lemma runs_spoil {Q : () -> paper -> Prop} good w : (forall b, Q tt (Paper (w_heap w) b)) -> runs (spoil good) w Q.
Proof. intros HQ; apply runs_when; intros _; [by apply runs_modify|]; destruct w as [h b]; apply (HQ b). Qed.

Lemma put_value_runs j base items o m h : sheet j base items h -> item_of j items o -> member_ok m -> runs (put_value o m) h (λ _ h', sheet j base items h').
Proof.
  intros [Hh Hd] Ho Hm; assert (runs (put_value o m) h (λ _ _, True)) as (r & h' & E & _).
  { destruct m as [key v|key v|key v|key]; cbn [put_value]; [|by apply runs_calling..].
    destruct (terminated_cstr v Hm) as [t Ht]; apply runs_bind; eapply runs_checked; [by apply c_string_spec|]; by apply runs_calling. }
  exists r, h'; split; [exact E|]; destruct o as [a|]; cbn [item_of] in Ho.
  - destruct j as [root|]; [|destruct Hd as [_ ->]; by apply not_elem_of_nil in Ho]; destruct (put_law _ _ _ _ _ _ _ _ Hd Ho E) as [Hs Hd'].
    split; [by apply (heap_steps_ok header Hheader _ _ Hs)|done].
  - subst j; destruct (put_null_law _ _ _ _ E) as (_ & Hs & Hb); split; [by apply (heap_steps_ok header Hheader _ _ Hs)|]; destruct Hd as [<- ->]; by split.
Qed.

Lemma runs_put {Q : () -> paper -> Prop} j base items o m w : sheet j base items (w_heap w) -> item_of j items o -> member_ok m ->
  (forall w', sheet j base items (w_heap w') -> Q tt w') -> runs (put o m) w Q.
Proof.
  intros Hw Ho Hm HQ; unfold put; apply runs_bind, runs_json; eapply runs_mono; [by apply (put_value_runs j base items)|]; intros r h Hh; apply runs_spoil; intros b; by apply HQ.
Qed.

Lemma runs_put_all {Q : () -> paper -> Prop} j base items o l : item_of j items o -> Forall member_ok l -> forall w, sheet j base items (w_heap w) ->
  (forall w', sheet j base items (w_heap w') -> Q tt w') -> runs (put_all o l) w Q.
Proof.
  intros Ho; induction 1 as [|m l Hm _ IH]; intros w Hw HQ; cbn [put_all]; [by apply runs_ret, HQ|].
  apply runs_bind, (runs_put j base items); [done..|]; intros w' Hw'; by apply IH.
Qed.

Lemma runs_new_document {Q : option Z -> paper -> Prop} w : heap_ok header (w_heap w) ->
  (forall j items w', sheet j (blocks (w_heap w)) items (w_heap w') -> item_of j items j -> Q j w') -> runs new_document w Q.
Proof.
  intros Hw HQ; unfold new_document; apply runs_bind, runs_json, runs_calling; destruct (cf_cJSON_CreateObject (w_heap w)) as [r h'] eqn:E; cbn [fst snd].
  destruct (create_law _ _ _ E) as [Hs Hr]; pose proof (heap_steps_ok header Hheader _ _ Hs Hw); apply runs_bind, runs_modify, runs_ret; cbn.
  destruct r as [p|]; [apply (HQ _ [p])|apply (HQ _ [])]; cbn; try done; left.
Qed.

(** A section that may be refused. *)
Lemma runs_section {Q : option Z -> paper -> Prop} (c : json_heap -> option Z * json_heap) key j base items o w :
  (c = cf_cJSON_AddObjectToObject o key \/ c = cf_cJSON_AddArrayToObject o key) -> sheet j base items (w_heap w) -> item_of j items o ->
  (forall w', sheet j base items (w_heap w') -> Q None w') -> (forall a w', sheet j base (a :: items) (w_heap w') -> Q (Some a) w') ->
  runs (x ← on_json_heap (calling c); spoil (bool_decide (is_Some x));; mret x) w Q.
Proof.
  intros Hc [Hh Hd] Ho Hno Hyes; apply runs_bind, runs_json, runs_calling; destruct (c (w_heap w)) as [r h'] eqn:E; cbn [fst snd].
  assert (rtc (heap_step header) (w_heap w) h' /\ match r with Some a => sheet j base (a :: items) h' | None => sheet j base items h' end) as [Hs Hr].
  { destruct o as [a|]; cbn [item_of] in Ho.
    - destruct j as [root|]; [|destruct Hd as [_ ->]; by apply not_elem_of_nil in Ho].
      assert (rtc (heap_step header) (w_heap w) h' /\ document h' root base (match r with Some c => c :: items | None => items end)) as [Hs Hd'] by (destruct Hc as [->| ->]; eauto using put_object_law, put_array_law).
      split; [done|]; pose proof (heap_steps_ok header Hheader _ _ Hs Hh); by destruct r.
    - subst j; destruct (null_object_law key (w_heap w) r h') as (-> & Hs & Hb); [destruct Hc as [->| ->]; auto|]; split; [done|].
      split; [by apply (heap_steps_ok header Hheader _ _ Hs)|]; destruct Hd as [<- ->]; by split. }
  apply runs_bind, runs_spoil; intros b; apply runs_ret; destruct r as [a|]; [by apply Hyes|by apply Hno].
Qed.

Lemma runs_put_rows {Q : () -> paper -> Prop} j base a rows : Forall (Forall member_ok) rows -> forall items w, sheet j base items (w_heap w) -> a ∈ items ->
  (forall items' w', sheet j base (items' ++ items) (w_heap w') -> Q tt w') -> runs (put_rows a rows) w Q.
Proof.
  induction 1 as [|row rows Hrow _ IH]; intros items w Hw Ha HQ; cbn [put_rows]; [apply runs_ret, (HQ []), Hw|].
  apply runs_bind, runs_json, runs_calling; destruct (cf_cJSON_CreateObject (w_heap w)) as [r h'] eqn:E; cbn [fst snd]; destruct Hw as [Hh Hd].
  destruct j as [root|]; [|destruct Hd as [_ ->]; by apply not_elem_of_nil in Ha]; destruct (create_law _ _ _ E) as [Hs _]; pose proof (heap_steps_ok header Hheader _ _ Hs Hh) as Hh'.
  pose proof (item_law _ _ _ _ _ _ _ Hd Ha E) as Hi; destruct r as [p|]; [|apply runs_modify, (HQ []); by split]; destruct Hi as [Hs' Hd'].
  apply runs_bind, runs_json, runs_modify, runs_bind, (runs_put_all (Some root) base (p :: items)); [left|done| |].
  { split; [by apply (heap_steps_ok header Hheader _ _ Hs')|done]. }
  intros w' Hw'; apply (IH (p :: items)); [done|by right|]; intros items' w'' Hw''; apply (HQ (items' ++ [p])); by rewrite <- app_assoc.
Qed.

Lemma runs_delete_document {Q : () -> paper -> Prop} j base items w : sheet j base items (w_heap w) ->
  (forall h, heap_ok header h -> blocks h = base -> Q tt (Paper h (w_ok w))) -> runs (delete_document j) w Q.
Proof.
  intros [Hh Hd] HQ; unfold delete_document; apply runs_json; destruct j as [root|]; cbn [fmap option_fmap option_map].
  - destruct (delete_document_law _ _ _ _ Hd) as [Htree Hdel]; destruct (wipe_tree_spec _ Htree) as (t & Et & Hw).
    eexists tt, _; split; [cbn [cf_json_delete_secret]; rewrite Et; cbn [mbind option_bind]; reflexivity|].
    apply HQ; [by apply (heap_steps_ok header Hheader _ _ (delete_steps (Some t) (w_heap w)))|apply Hdel; by right].
  - destruct Hd as [Hb _]; eexists tt, _; split; [reflexivity|]; rewrite delete_null; by apply HQ.
Qed.

End Sheets.

(** ** Values of requests *)

(** The parser's numbers. *)
Lemma shifted_range m e k : Z.pos m < 2 ^ (31 + k) -> 0 <= k -> e <= - k -> 0 <= Z.shiftl (Z.pos m) e <= INT32_MAX.
Proof.
  intros Hm Hk He; rewrite <- (Z.opp_involutive e), Z.shiftl_opp_r, Z.shiftr_div_pow2 by lia; split; [apply Z.div_pos; [lia|apply Z.pow_pos_nonneg; lia]|].
  assert (Z.pos m / 2 ^ (- e) < 2 ^ 31); [|change (2 ^ 31) with 2147483648 in *; unfold INT32_MAX; lia].
  apply Z.div_lt_upper_bound; [apply Z.pow_pos_nonneg; lia|]; rewrite Z.pow_add_r in Hm by lia.
  assert (2 ^ k <= 2 ^ (- e)) by (apply Z.pow_le_mono_r; lia); nia.
Qed.

Lemma SFleb_negative m e k f : SFleb (S754_finite true m e) (S754_finite true k f) = false -> e < f \/ e = f /\ Z.pos m < Z.pos k.
Proof.
  unfold SFleb; cbn [SFcompare]; change (PosDef.Pos.compare_cont Eq m k) with (Pos.compare m k); destruct (Z.compare_spec e f) as [->|E|E]; [|by left|done].
  destruct (Pos.compare_spec m k) as [->|E|E]; cbn [CompOpp]; [done|right; split; [done|lia]|done].
Qed.

Lemma valueint_total j : double_ok (j_valuedouble j) -> exists n, valueint j = Some n /\ INT32_MIN <= n <= INT32_MAX.
Proof.
  unfold valueint; set (d := j_valuedouble j); intros Hd; destruct (SFleb (double_of_int32 INT32_MAX) d) eqn:Emax; [by exists INT32_MAX|].
  destruct (SFleb d (double_of_int32 INT32_MIN)) eqn:Emin; [by exists INT32_MIN|].
  assert (double_of_int32 INT32_MIN = S754_finite true 4503599627370496 (-21)) as Elow by done; rewrite double_max in Emax; rewrite Elow in Emin.
  destruct d as [s|[]| |s m e]; try done; [by exists 0|]; cbn [double_ok] in Hd; cbn [int32_of_double].
  assert (0 <= Z.shiftl (Z.pos m) e <= INT32_MAX) as Hr.
  { destruct s.
    - destruct (SFleb_negative _ _ _ _ Emin) as [E|[-> E]]; [apply (shifted_range m e 22); change (2 ^ (31 + 22)) with (2 ^ 53); lia|].
      apply (shifted_range m (-21) 21); [exact E|lia|lia].
    - unfold SFleb in Emax; cbn [SFcompare] in Emax; destruct (Z.compare_spec (-22) e) as [E|E|E]; [|done|]; apply (shifted_range m e 22); change (2 ^ (31 + 22)) with (2 ^ 53); lia. }
  clear Emax Emin Elow; unfold int32_of_double; cbn [mbind option_bind]; set (k := Z.shiftl (Z.pos m) e) in *; unfold INT32_MAX, INT32_MIN in *.
  destruct s; replace (_ && _) with true by lia; eexists; (split; [done|lia]).
Qed.

Section Requests.

(** A tree of the parser, or null. *)
Definition item_ok (j : option json) : Prop := forall o, j = Some o -> json_ok o.

Lemma item_some c : json_ok c -> item_ok (Some c).
Proof. by intros Hc o [= <-]. Qed.

Lemma member_total j key : item_ok j -> (0 ∉ lit key) -> exists v, member_of j key = Some v /\ item_ok v.
Proof.
  intros Hj Hkey; unfold member_of; destruct j as [o|]; cbn [cf_cJSON_GetObjectItemCaseSensitive]; [|by exists None].
  pose proof (Hj o eq_refl) as Ho; destruct Ho as [t v d s cs _ _ _ _ Hcs]; cbn [j_child]; clear Hj.
  induction Hcs as [|c cs Hc _ IH]; cbn [get_object_item]; [by exists None|]; assert (forall x, j_string c = Some x -> exists y, cstr x y) as Hs by (by destruct Hc).
  destruct (j_string c) as [s'|]; [|by exists None]; destruct (Hs s' eq_refl) as [n Hn]; rewrite (streq_spec _ _ _ _ (cstr_cstring key Hkey) Hn); cbn [mbind option_bind].
  case_bool_decide; [eexists; split; [done|]; by apply item_some|exact IH].
Qed.

Lemma string_total j key : item_ok j -> (0 ∉ lit key) -> exists v, string_member j key = Some v /\ forall x, v = Some x -> exists t, cstr x t /\ bytes_ok t.
Proof.
  intros Hj Hkey; unfold string_member; destruct (member_total j key Hj Hkey) as (v & E & Hv); unfold member_of in E; rewrite E; cbn [mbind option_bind].
  destruct (cf_cJSON_IsString v) eqn:Es; [|by exists None]; destruct v as [v|]; [|done]; cbn [mbind option_bind]; eexists; split; [done|].
  destruct (Hv v eq_refl) as [t s d n cs Hs _ _ _ _]; cbn [j_valuestring]; exact Hs.
Qed.

Lemma integer_total v : item_ok v -> exists n, integer_item v = Some n /\ forall x, n = Some x -> INT32_MIN <= x <= INT32_MAX.
Proof.
  intros Hv; unfold integer_item; destruct (cf_cJSON_IsNumber v) eqn:E; cbn [negb]; [|by exists None]; destruct v as [j|]; [|done]; cbn [mbind option_bind].
  pose proof (Hv j eq_refl) as Hj; assert (double_ok (j_valuedouble j)) as Hd by (by destruct Hj); destruct (valueint_total j Hd) as (n & -> & Hn); cbn [mbind option_bind].
  eexists; split; [done|]; intros x; by destruct (SFeqb _ _); [intros [= <-]|].
Qed.

Lemma keys_total j l : item_ok j -> Forall (λ k, 0 ∉ lit k) l -> exists b, cf_json_keys j (keys_of l) = Some b.
Proof.
  intros Hj Hl; destruct (cf_json_keys_spec j (keys_of l) (map lit l) Hj) as (b & E & _); [|by exists b].
  induction Hl; constructor; [by apply cstr_cstring|done].
Qed.

End Requests.

(** ** The blocks of the JSON heap *)

Section Blocks.
Context (header : Z) `{JsonParserLaws header} `{!JsonBlocks}.

(** The heap [h] holds the tree [root] of a parse, besides the blocks [base]. *)
Definition parsed (base : gmap Z json_allocation) (root : json) (h : json_heap) : Prop :=
  json_ok root /\ exists text e h0, blocks h0 = base /\ ParseWithLengthOpts text h0 = (Some (root, e), h).

Lemma deleted_parsed base root h1 h2 h3 : parsed base root h1 -> blocks h2 = blocks h1 -> cf_json_delete_secret (Some root) h2 = Some h3 -> blocks h3 = base.
Proof.
  intros (Hok & text & e & h0 & <- & E) Hb Ed; cbn [cf_json_delete_secret] in Ed; destruct (wipe_tree_spec root Hok) as (j & Ej & Hw); rewrite Ej in Ed; injection Ed as <-.
  eapply deleted_blocks; [exact E|by right|exact Hb].
Qed.

Lemma json_parse_blocks b h r h' : cf_json_parse b h = Some (r, h') -> match r with Some root => parsed (blocks h) root h' | None => blocks h' = blocks h end.
Proof.
  unfold cf_json_parse; intros E; destruct (_ || _) in E; [by injection E as <- <-|].
  destruct (valid_lexemes b) as [v|]; [|done]; cbn [mbind option_bind] in E; destruct v; cbn [negb] in E; [|by injection E as <- <-].
  destruct (nul_loop b _ 0) as [v|]; [|done]; cbn [mbind option_bind] in E; destruct v; cbn [negb] in E; [|by injection E as <- <-].
  destruct (ptr b) as [m|]; [|done]; cbn [mbind option_bind] in E; destruct (slice m 0 (len b)) as [text|]; [|done]; cbn [mbind option_bind] in E.
  destruct (ParseWithLengthOpts text (reset_failure h)) as [[[root e]|] h1] eqn:Ep; [|injection E as <- <-; exact (failed_blocks _ _ _ Ep)].
  assert (parsed (blocks h) root h1) as Hp by (split; [by eapply parse_tree|by exists text, e, (reset_failure h)]).
  destruct (skip_space b _ e) as [p|]; [|done]; cbn [mbind option_bind] in E; destruct (p =? len b); cbn [negb] in E; [by injection E as <- <-|].
  destruct (cf_json_delete_secret (Some root) h1) as [h2|] eqn:Ed; [|done]; injection E as <- <-; by eapply deleted_parsed.
Qed.

End Blocks.

