(* ===== verification/MonitorApi.v ===== *)
(** The API of the system monitor (src/examples/system_monitor/main/monitor_api.c):
    the session, its login and its limit; the status; the changes a session may
    make; and the effects that wait for the main task. *)
From stdpp Require Import gmap.
From Stdlib Require Import SpecFloat.
From S2P Require Export MonitorTunnel MonitorUpdate MonitorNetwork MonitorDevices MonitorJson.
#[local] Open Scope Z_scope.

Definition MONITOR_EFFECT_WIFI : Z := 1.
Definition MONITOR_EFFECT_TUNNEL : Z := 2.
Definition MONITOR_EFFECT_REBOOT : Z := 4.
Definition MONITOR_EFFECT_TUNNEL_RESTART : Z := 8.

(** The chip: its clocks, its random numbers, what it can measure, the lock
    [monitor_json_lock], and the decoder of mbedTLS, which gives its code and the
    bytes it writes to a buffer of that size.  Taking the lock also fails while the
    lock does not exist. *)
Class Chip := {
  chip : Type;
  chip_timer : chip -> Z * chip;
  fill_random : Z -> chip -> list Z * chip;
  unix_time : chip -> Z * chip;
  json_take : Z -> chip -> bool * chip;
  json_give : chip -> chip;
  esp_restart : chip -> chip;
  chip_revision : chip -> Z;
  chip_cores : chip -> Z;
  cpu_mhz : Z;
  heap_free : chip -> Z;
  heap_min : chip -> Z;
  heap_largest : chip -> Z;
  psram_total : chip -> Z;
  psram_free : chip -> Z;
  flash_bytes : chip -> Z;
  task_count : chip -> Z;
  reset_reason : chip -> Z;
  mbedtls_base64_decode : Z -> list Z -> Z * list Z
}.

(** The owner of the tunnel (monitor_tunnel.c), as the API and the main task see it. *)
Class Keeper := {
  keeper : Type;
  monitor_tunnel_snapshot : keeper -> esp_cf_tunnel_snapshot;
  monitor_tunnel_reload : keeper -> keeper;
  monitor_tunnel_restart : keeper -> keeper;
  monitor_tunnel_tick : keeper -> option keeper
}.

(** The variables of the module; [session] has 65 characters. *)
Record api := Api {
  p_session : list Z;
  p_session_until : Z;
  p_failure_window : Z;
  p_failures : Z;
  p_json_ok : bool;
  p_pending_effects : Z;
  p_effects_after : Z
}.

Definition zero_api : api := Api (replicate 65 0) 0 0 0 false 0 0.

Definition set_session (s : list Z) (until : Z) (p : api) : api :=
  Api s until (p_failure_window p) (p_failures p) (p_json_ok p) (p_pending_effects p) (p_effects_after p).
Definition set_failures (window n : Z) (p : api) : api :=
  Api (p_session p) (p_session_until p) window n (p_json_ok p) (p_pending_effects p) (p_effects_after p).
Definition set_ok_flag (b : bool) (p : api) : api :=
  Api (p_session p) (p_session_until p) (p_failure_window p) (p_failures p) b (p_pending_effects p) (p_effects_after p).
Definition set_pending (e after : Z) (p : api) : api :=
  Api (p_session p) (p_session_until p) (p_failure_window p) (p_failures p) (p_json_ok p) e after.

(** [strtoul] of the number a status text begins with. *)
Fixpoint leading_number (l : list Z) (n : Z) : Z :=
  match l with
  | c :: l => if number_digit c then leading_number l (n * 10 + (c - 48)) else n
  | [] => n
  end.
Definition code_of (status : string) : Z := leading_number (lit status) 0.

(** The loop of [equal_secret]; [i] runs while [k] bytes are left. *)
Fixpoint secret_loop (a b : list Z) (alen blen : Z) (k : nat) (i diff : Z) : option Z :=
  match k with
  | O => Some diff
  | S k =>
      x ← (if i <? alen then rd a i else Some 0);
      y ← (if i <? blen then rd b i else Some 0);
      secret_loop a b alen blen k (i + 1) (Z.lor diff (Z.lxor x y))
  end.

Definition equal_secret (a b : list Z) (max : Z) : option bool :=
  alen ← strlen a; blen ← strlen b;
  diff ← secret_loop a b alen blen (Z.to_nat max) 0 (u32 (Z.lxor alen blen));
  Some (diff =? 0).

Definition label_char (c : Z) : bool :=
  ((97 <=? c) && (c <=? 122)) || ((65 <=? c) && (c <=? 90)) || ((48 <=? c) && (c <=? 57)) || (c =? 45).

(** The loop of [hostname_valid] from character [i], with [k] left; the result is
    the length of the last label, or nothing when the name is refused. *)
Fixpoint hostname_loop (name : list Z) (k : nat) (i label : Z) : option (option Z) :=
  match k with
  | O => Some (Some label)
  | S k =>
      c ← rd name i;
      if c =? 46 then
        if label =? 0 then Some None else
        before ← rd name (i - 1);
        if before =? 45 then Some None else hostname_loop name k (i + 1) 0
      else if negb (label_char c) || ((label =? 0) && (c =? 45)) || (63 <? label + 1) then Some None
      else hostname_loop name k (i + 1) (label + 1)
  end.

Definition hostname_valid (name : list Z) : option bool :=
  n ← strlen name;
  if n =? 0 then Some true else
  if 253 <? n then Some false else
  last ← rd name (n - 1);
  if last =? 46 then Some false else
  label ← hostname_loop name (Z.to_nat n) 0 0;
  match label with None => Some false | Some label => Some (negb (label =? 0) && negb (last =? 45)) end.

Section Monitor_.
Context `{Chip} `{Keeper} `{Radio} `{Nvs} `{Memory} `{JsonParser} `{JsonWriter} `{Updater} `{ImageFormat} `{Drivers}.

(** The whole device, under the lock. *)
Record appliance := Appliance {
  y_api : api;
  y_network : network;
  y_radio : radio;
  y_nvs : nvs;
  y_memory : memory;
  y_heap : json_heap;
  y_ota : ota;
  y_panel : panel;
  y_keeper : keeper;
  y_chip : chip
}.

(** A request being answered. *)
Record exchange := Exchange { g_device : appliance; g_reply : monitor_api_reply }.

Abbreviation AM := (SM appliance).
Abbreviation GM := (SM exchange).

(** ** Parts of the device *)

Definition the_api : AM api := asks y_api.
Definition change_api (f : api -> api) : AM () := modify (λ y,
  Appliance (f (y_api y)) (y_network y) (y_radio y) (y_nvs y) (y_memory y) (y_heap y) (y_ota y) (y_panel y) (y_keeper y) (y_chip y)).
Definition on_chip {A} (f : chip -> A * chip) : AM A := calling (λ y, let '(x, c) := f (y_chip y) in
  (x, Appliance (y_api y) (y_network y) (y_radio y) (y_nvs y) (y_memory y) (y_heap y) (y_ota y) (y_panel y) (y_keeper y) c)).
Definition in_network {A} (c : SM net A) : AM A := performing (λ y, '(x, n) ← c (Net (y_network y) (y_radio y) (y_nvs y));
  Some (x, Appliance (y_api y) (x_net n) (x_radio n) (x_nvs n) (y_memory y) (y_heap y) (y_ota y) (y_panel y) (y_keeper y) (y_chip y))).
Definition in_vault {A} (c : SM vault A) : AM A := performing (λ y, '(x, v) ← c (Vault (y_nvs y) (y_memory y) (y_heap y));
  Some (x, Appliance (y_api y) (y_network y) (y_radio y) (va_nvs v) (va_memory v) (va_heap v) (y_ota y) (y_panel y) (y_keeper y) (y_chip y))).
Definition in_paper {A} (c : SM paper A) : AM A := performing (λ y, '(x, w) ← c (Paper (y_heap y) (p_json_ok (y_api y)));
  Some (x, Appliance (set_ok_flag (w_ok w) (y_api y)) (y_network y) (y_radio y) (y_nvs y) (y_memory y) (w_heap w) (y_ota y) (y_panel y) (y_keeper y) (y_chip y))).
Definition in_ota {A} (c : SM ota A) : AM A := performing (λ y, '(x, o) ← c (y_ota y);
  Some (x, Appliance (y_api y) (y_network y) (y_radio y) (y_nvs y) (y_memory y) (y_heap y) o (y_panel y) (y_keeper y) (y_chip y))).
Definition in_panel {A} (c : SM panel A) : AM A := performing (λ y, '(x, p) ← c (y_panel y);
  Some (x, Appliance (y_api y) (y_network y) (y_radio y) (y_nvs y) (y_memory y) (y_heap y) (y_ota y) p (y_keeper y) (y_chip y))).
Definition in_keeper (f : keeper -> option keeper) : AM () := performing (λ y, o ← f (y_keeper y);
  Some (tt, Appliance (y_api y) (y_network y) (y_radio y) (y_nvs y) (y_memory y) (y_heap y) (y_ota y) (y_panel y) o (y_chip y))).

Definition milliseconds : AM Z := t ← on_chip chip_timer; mret (u64 t / 1000).

(** A step of the device while a request is answered. *)
Definition at_device {A} (c : AM A) : GM A := performing (λ g, '(x, y) ← c (g_device g); Some (x, Exchange y (g_reply g))).
Definition change_reply (f : monitor_api_reply -> monitor_api_reply) : GM () := modify (λ g, Exchange (g_device g) (f (g_reply g))).
Definition the_reply : GM monitor_api_reply := asks g_reply.
Definition add_effect (e : Z) : GM () := change_reply (λ a, ApiReply (a_status a) (Z.lor (a_effects a) e) (a_length a) (a_body a)).

(** ** Answers *)

(** [error]; the message is a text. *)
Definition error_text (message : list Z) : list Z := 123 :: quoted "error" ++ [58; 34] ++ message ++ [34; 125].

Definition refuse_with (status : string) (message : list Z) : GM () :=
  a ← the_reply;
  let text := error_text message in
  body ← checked (snprintf (a_body a) MONITOR_REPLY_MAX text);
  change_reply (λ a, ApiReply (code_of status) (a_effects a) (if zlen text <? MONITOR_REPLY_MAX then zlen text else 0) body).
Definition refuse (status message : string) : GM () := refuse_with status (lit message).

Definition ok_text : list Z := 123 :: quoted "ok" ++ 58 :: lit "true" ++ [125].

Definition accept : GM () :=
  a ← the_reply;
  body ← checked (blit (a_body a) 0 (ok_text ++ [0]));
  n ← checked (strlen body);
  change_reply (λ a, ApiReply 200 (a_effects a) n body).

Definition send_json (j : option Z) : GM () :=
  ok ← at_device (p ← the_api; mret (p_json_ok p));
  a ← the_reply;
  heap ← asks (λ g, y_heap (g_device g));
  let printing : bool * list Z := match j with Some j => if (ok : bool) then cf_cJSON_PrintPreallocated j MONITOR_REPLY_MAX heap else (false, []) | None => (false, []) end in
  body ← checked (blit (a_body a) 0 printing.2);
  change_reply (λ a, ApiReply (a_status a) (a_effects a) (a_length a) body);;
  at_device (in_paper (delete_document j));;
  if negb printing.1 then refuse "503 Service Unavailable" "Not enough memory for this response." else
  n ← checked (strlen body);
  change_reply (λ a, ApiReply 200 (a_effects a) n body).

(** ** The session *)

Definition authorized (q : monitor_api_request) : AM bool :=
  p ← the_api;
  first ← checked (rd (p_session p) 0);
  if negb (q_origin_allowed q) || (first =? 0) then mret false else
  now ← milliseconds;
  if negb (now <? p_session_until p) then mret false else
  bearer ← checked (strneq 7 (q_authorization q) (cstring "Bearer "));
  if negb bearer then mret false else checked (equal_secret (drop 7 (q_authorization q)) (p_session p) 64).

(** [body]: the parsed body, if it is one. *)
Definition body_json (q : monitor_api_request) : AM (option json) :=
  if q_json_content q && negb (len (q_body q) =? 0) && (len (q_body q) <=? MONITOR_BODY_MAX) then
    in_vault (performing (λ v, '(j, h) ← cf_json_parse (q_body q) (va_heap v); Some (j, Vault (va_nvs v) (va_memory v) h)))
  else mret None.

(** [cf_json_delete_secret] of a parsed body. *)
Definition delete_body (j : option json) : AM () :=
  in_vault (performing (λ v, h ← cf_json_delete_secret j (va_heap v); Some (tt, Vault (va_nvs v) (va_memory v) h))).

(** Is the password the device's? *)
Definition password_matches (j : option json) : AM bool :=
  password ← checked (string_member j "password");
  match j with
  | None => mret false
  | Some _ =>
      good ← checked (cf_json_keys j (keys_of ["password"]));
      if negb good then mret false else
      match password with
      | None => mret false
      | Some password =>
          n ← checked (strlen password);
          if 63 <? n then mret false else
          '(rc, expected) ← in_vault (in_store (monitor_store_password (Some (replicate 64 0)) 64));
          expected ← checked expected;
          if negb (rc =? ESP_OK) then mret false else checked (equal_secret password expected 63)
      end
  end.

(** A new session of ten minutes. *)
Definition open_session (now : Z) : AM () :=
  random ← on_chip (fill_random 32);
  p ← the_api;
  session ← checked (id_loop random 0 (p_session p));
  change_api (λ p, set_failures (p_failure_window p) 0 (set_session session (u64 (now + 600000)) p)).

Definition login_post (q : monitor_api_request) : GM () :=
  if negb (q_origin_allowed q) then refuse "403 Forbidden" "The request origin does not match this device." else
  now ← at_device milliseconds;
  p ← at_device the_api;
  at_device (when (60000 <=? u64 (now - p_failure_window p)) (change_api (set_failures now 0)));;
  p ← at_device the_api;
  if 5 <=? p_failures p then refuse "429 Too Many Requests" "Too many attempts. Try again in one minute." else
  at_device (change_api (set_failures (p_failure_window p) (p_failures p + 1)));;
  j ← at_device (body_json q);
  valid ← at_device (password_matches j);
  at_device (delete_body j);;
  if negb valid then refuse "401 Unauthorized" "Incorrect device password or invalid request." else
  at_device (open_session now);;
  at_device (change_api (set_ok_flag true));;
  j ← at_device (in_paper (on_json_heap (calling cf_cJSON_CreateObject)));
  p ← at_device the_api;
  at_device (in_paper (put_all j [MString "session" (p_session p); MNumber "expires_in" (double_of 600)]));;
  send_json j.

(** ** The status *)

Definition MONITOR_VERSION : list Z := cstring "0.4.0-dev".

(** The members of a connection attempt. *)
Definition connect_members (d : esp_cf_connect_diagnostic) : list member :=
  [MString "stage" (lit (esp_cf_connect_stage_name (d_stage d)) ++ [0]); MBool "errors_available" (d_errors_available d);
   MNumber "rc" (double_of (d_rc d)); MNumber "state_before" (double_of (d_state_before d)); MNumber "state_after" (double_of (d_state_after d));
   MNumber "esp_error" (double_of (d_esp_error d)); MNumber "tls_error" (double_of (d_tls_error d)); MNumber "verify_flags" (double_of (d_verify_flags d));
   MNumber "system_error" (double_of (d_system_error d)); MNumber "errno_context" (double_of (d_errno_context d));
   MNumber "tls_alert" (double_of (d_tls_alert d)); MNumber "tls_version" (double_of (d_tls_version d));
   MNumber "elapsed_ms" (double_of (d_elapsed_ms d)); MNumber "at_ms" (double_of (d_at_ms d)); MNumber "utc_s" (double_of (d_utc_s d));
   MNumber "attempt" (double_of (d_attempt d)); MString "edge_ip" (d_edge_ip d); MNumber "edge_port" (double_of (d_edge_port d));
   MNumber "heap_free" (double_of (d_heap_free d)); MNumber "heap_largest" (double_of (d_heap_largest d))].

Definition connect_status (parent : option Z) (key : string) (d : esp_cf_connect_diagnostic) : SM paper () :=
  j ← put_object parent key;
  match j with
  | None => mret tt
  | Some j => put (Some j) (MBool "valid" (d_valid d));; when (d_valid d) (put_all (Some j) (connect_members d))
  end.

(** The chip and the radio. *)
Definition chip_members (c : chip) (uptime : Z) : list member :=
  [MString "version" MONITOR_VERSION; MString "chip" (cstring "ESP32-S3"); MNumber "revision" (double_of (chip_revision c)); MNumber "cores" (double_of (chip_cores c));
   MNumber "cpu_mhz" (double_of cpu_mhz); MNumber "uptime_ms" (double_of uptime); MNumber "heap_free" (double_of (heap_free c)); MNumber "heap_min" (double_of (heap_min c));
   MNumber "heap_largest" (double_of (heap_largest c)); MNumber "psram_total" (double_of (psram_total c)); MNumber "psram_free" (double_of (psram_free c));
   MNumber "flash_bytes" (double_of (flash_bytes c)); MNumber "tasks" (double_of (task_count c)); MNumber "reset_reason" (double_of (reset_reason c))].

Definition temperature_member (t : spec_float * bool) : member :=
  if t.2 && is_finite t.1 then MNumber "temperature_c" t.1 else MNull "temperature_c".

Definition wifi_members (s : monitor_network_snapshot) : list member :=
  [MBool "wifi_connected" (ns_connected s); MBool "wifi_connecting" (ns_connecting s); MString "ssid" (ns_ssid_text s); MBool "wifi_associated" (ns_associated s);
   MString "ip" (ns_ip_text s); MString "gateway" (ns_gateway_text s); MNumber "rssi" (double_of (ns_rssi s)); MNumber "channel" (double_of (ns_channel s));
   MNumber "retries" (double_of (ns_retries s)); MNumber "disconnect_reason" (double_of (ns_disconnect_reason s)); MBool "ap_enabled" (ns_ap_enabled s);
   MString "ap_ssid" (ns_ap_ssid s); MString "ap_ip" (cstring "192.168.4.1"); MNumber "ap_clients" (double_of (ns_ap_clients s))].

(** What a page needs to know about who asks, and the clock. *)
Definition access_members (s : monitor_network_snapshot) (setup admin remote : bool) (now utc utc' : Z) : list member :=
  [MNumber "ap_remaining_s" (double_of (if now <? ns_ap_deadline_ms s then u64 (ns_ap_deadline_ms s - now) / 1000 else 0));
   MBool "setup_access" setup; MBool "admin_access" admin; MBool "remote_access" remote; MBool "clock_valid" (1704067200 <? utc);
   MString "internet" (cstring "Not checked"); MNumber "utc_s" (double_of utc'); MNumber "sntp_sync_count" (double_of (ns_sntp_sync_count s));
   MNumber "sntp_last_sync_utc" (double_of (ns_sntp_last_sync_utc s))].

(** The tunnel; its HTTP/2 figures are zero without a session. *)
Definition tunnel_members (t : esp_cf_tunnel_snapshot) (now : Z) : list member :=
  let h2 (f : cf_h2_stats * ngheap -> Z) : Z := match n_http2 t with Some x => f x | None => 0 end in
  [MString "tunnel_state" (lit (esp_cf_tunnel_state_name (Tunnel.n_state t)) ++ [0]); MString "tunnel_message" (n_message t); MString "edge_ip" (n_edge_ip t);
   MString "edge_location" (n_location t); MBool "tunnel_registered" (n_registered t); MBool "tunnel_configured" (n_configured t);
   MNumber "config_version" (double_of (n_config_version t)); MNumber "tunnel_attempts" (double_of (n_attempts t));
   MNumber "tunnel_retry_s" (double_of (if now <? n_retry_at_ms t then u64 (n_retry_at_ms t - now + 999) / 1000 else 0));
   MNumber "tunnel_h2_heap" (double_of (h2 (λ x, ngheap_current x.2))); MNumber "tunnel_h2_peak" (double_of (h2 (λ x, ngheap_peak x.2)));
   MNumber "tunnel_streams" (double_of (h2 (λ x, active_streams x.1))); MNumber "tunnel_stack_min" (double_of (n_task_stack_min t));
   MString "tunnel_last_failure" (n_last_failure t); MNumber "tunnel_failures" (double_of (n_failures t));
   MNumber "tunnel_last_failure_ms" (double_of (n_last_failure_ms t)); MNumber "tunnel_rejected_streams" (double_of (h2 (λ x, rejected_streams x.1)))].

Definition ota_members (u : monitor_ota_status) : list member :=
  [MBool "available" (s_available u); MBool "active" (s_active u); MBool "ready" (s_ready u); MNumber "received" (double_of (s_received u)); MNumber "total" (double_of (s_total u));
   MNumber "capacity" (double_of (s_capacity u)); MString "running" (s_running u); MString "target" (s_target u); MString "version" (s_fw_version u); MString "message" (s_message u)].

Definition gpio_members (g : monitor_gpio) : list member :=
  [MNumber "pin" (double_of (g_pin g)); MNumber "mode" (double_of (g_mode g)); MNumber "level" (double_of (g_level g))].

Definition rgb_members (l : monitor_rgb) : list member :=
  [MBool "available" (l_available l); MBool "on" (l_on l); MNumber "pin" (double_of 48); MNumber "red" (double_of (l_red l)); MNumber "green" (double_of (l_green l));
   MNumber "blue" (double_of (l_blue l)); MNumber "brightness" (double_of (l_brightness l))].

(** The members of an object that may have been refused. *)
Definition put_section (j : option Z) (key : string) (l : list member) : SM paper () :=
  c ← put_object j key; match c with Some c => put_all (Some c) l | None => mret tt end.

(** The members of the document [j]; [config] are the tunnel's settings. *)
Definition status_members (j : option Z) (setup admin remote : bool) (net : monitor_network_snapshot) (pins : list monitor_gpio) : AM () :=
  temp ← in_panel monitor_temperature;
  '(_, config) ← in_vault (in_store monitor_store_tunnel);
  uptime ← milliseconds;
  c ← asks y_chip;
  in_paper (put_all j (chip_members c uptime));;
  in_paper (put j (temperature_member temp));;
  in_paper (put_all j (wifi_members net));;
  now ← milliseconds;
  utc ← on_chip unix_time; utc' ← on_chip unix_time;
  in_paper (put_all j (access_members net setup admin remote now utc utc'));;
  t ← asks (λ y, monitor_tunnel_snapshot (y_keeper y));
  in_paper (put_all j (tunnel_members t now));;
  in_paper (connect_status j "tunnel_connect" (n_last_connect t));;
  in_paper (connect_status j "tunnel_connect_failure" (n_last_connect_failure t));;
  update ← in_ota monitor_ota_snapshot;
  in_paper (put_section j "ota" (ota_members update));;
  token ← checked (rd (tc_token config) 0);
  in_paper (put_all j [MBool "token_stored" (negb (token =? 0)); MString "hostname" (tc_hostname config)]);;
  in_vault (discard config);;
  in_paper (a ← put_array j "gpio"; match a with Some a => put_rows a (map gpio_members pins) | None => mret tt end);;
  rgb ← in_panel monitor_led_snapshot;
  in_paper (put_section j "rgb" (rgb_members rgb)).

Definition status_object (setup admin remote : bool) : AM (option Z) :=
  net ← in_network monitor_network_snapshot_get;
  pins ← in_panel monitor_io_snapshot;
  block ← in_vault (calloc SIZEOF_TUNNEL);
  j ← in_paper new_document;
  match j, block with
  | Some _, true => status_members j setup admin remote net pins;; mret j
  | _, _ =>
      when block (in_vault (modify (λ v, Vault (va_nvs v) (free (replicate (Z.to_nat SIZEOF_TUNNEL) 0) (va_memory v)) (va_heap v))));;
      in_paper (delete_document j);; mret None
  end.

Definition status_get (q : monitor_api_request) : GM () :=
  j ← at_device (status_object (q_setup_access q) (q_origin_allowed q) (q_remote_access q)); send_json j.

(** ** Changes *)

Definition wifi_refused : GM () := refuse "400 Bad Request" "Use a network name of 1-32 bytes and a password of up to 63 bytes.".

(** The settings asked for; [saved] are the present ones. *)
Definition wifi_value (ssid pass : list Z) (open : bool) (saved : monitor_wifi_config) : option monitor_wifi_config :=
  name ← c_string ssid;
  array ← blit (wc_ssid zero_wifi) 0 name;
  secret ← (if open then Some (wc_password zero_wifi) else
    first ← rd pass 0;
    same ← (if first =? 0 then streq (wc_ssid saved) ssid else Some false);
    if (same : bool) && (wc_open saved =? 0) then blit (wc_password zero_wifi) 0 (wc_password saved)
    else text ← c_string pass; blit (wc_password zero_wifi) 0 text);
  Some (WifiConfig array secret (if open then 1 else 0)).

Definition wifi_post (j : option json) : GM () :=
  ssid ← checked (string_member j "ssid");
  pass ← checked (string_member j "password");
  open ← checked (member_of j "open");
  good ← checked (cf_json_keys j (keys_of ["ssid"; "password"; "open"]));
  if negb good then wifi_refused else
  match ssid, pass with
  | Some ssid, Some pass =>
      n ← checked (strlen ssid); k ← checked (strlen pass);
      if (n =? 0) || (32 <? n) || (63 <? k) || negb (cf_cJSON_IsBool open) then wifi_refused else
      '(_, saved) ← at_device (in_vault (in_store monitor_store_wifi));
      value ← checked (wifi_value ssid pass (cf_cJSON_IsTrue open) saved);
      secret ← checked (strlen (wc_password value));
      if (wc_open value =? 0) && (secret <? 8) then refuse "400 Bad Request" "A secured network requires a password of 8-63 bytes." else
      rc ← at_device (in_vault (in_store (monitor_save_wifi value)));
      if negb (rc =? ESP_OK) then refuse "500 Internal Server Error" "Unable to save Wi-Fi settings." else
      add_effect MONITOR_EFFECT_WIFI;; accept
  | _, _ => wifi_refused
  end.

Definition tunnel_refused : GM () := refuse "400 Bad Request" "Use a valid hostname and either a tunnel token or Clear stored token.".

(** The token's diagnostic, if it is refused; the credentials are erased at once. *)
Definition token_diagnostic (token : list Z) : AM (option (cf_result * cf_token_diagnostic)) :=
  text ← checked (c_string token);
  run ← in_vault (performing (λ v,
    run ← cf_credentials_parse_ex (Bytes (Some token) (zlen text)) (Some (uninitialized (CF_TOKEN_JSON_MAX + 1))) (CF_TOKEN_JSON_MAX + 1)
      (Some zero_credentials) (Some CF_TOKEN_FIELDS) (va_heap v);
    Some (run, Vault (va_nvs v) (va_memory v) (tr_heap run))));
  why ← checked (tr_diagnostic run);
  mret (if is_ok (tr_rc run) then None else Some (tr_rc run, why)).

(** The settings asked for, from the present ones. *)
Definition tunnel_value (token host : list Z) (clear : bool) (saved : monitor_tunnel_config) : option monitor_tunnel_config :=
  first ← rd token 0;
  stored_token ← (if clear then cf_secure_zero (tc_token saved) 1025
    else if negb (first =? 0) then zeros ← cf_secure_zero (tc_token saved) 1025; text ← c_string token; blit zeros 0 text
    else Some (tc_token saved));
  zeros ← zero_fill (tc_hostname saved) 0 254;
  text ← c_string host;
  name ← blit zeros 0 text;
  Some (MonitorTunnelConfig stored_token name).

(** The settings are loaded, changed, saved, and erased. *)
Definition save_tunnel_change (token host : list Z) (clear : bool) : GM () :=
  block ← at_device (in_vault (calloc SIZEOF_TUNNEL));
  if negb block then refuse "503 Service Unavailable" "Not enough memory." else
  '(_, saved) ← at_device (in_vault (in_store monitor_store_tunnel));
  value ← checked (tunnel_value token host clear saved);
  rc ← at_device (in_vault (in_store (monitor_save_tunnel value)));
  at_device (in_vault (discard value));;
  if rc =? ESP_OK then add_effect MONITOR_EFFECT_TUNNEL;; accept
  else refuse "500 Internal Server Error" "Unable to save tunnel settings.".

Definition tunnel_post (j : option json) : GM () :=
  token ← checked (string_member j "token");
  host ← checked (string_member j "hostname");
  clear ← checked (member_of j "clear");
  good ← checked (cf_json_keys j (keys_of ["token"; "hostname"; "clear"]));
  if negb good then tunnel_refused else
  match token, host with
  | Some token, Some host =>
      if negb (cf_cJSON_IsBool clear) then tunnel_refused else
      n ← checked (strlen token);
      if CF_TOKEN_MAX <? n then tunnel_refused else
      valid ← checked (hostname_valid host);
      first ← checked (rd token 0);
      if negb valid || (cf_cJSON_IsTrue clear && negb (first =? 0)) then tunnel_refused else
      why ← (if first =? 0 then mret None else at_device (token_diagnostic token));
      match why with
      | Some (rc, why) => refuse (if bool_decide (rc = CF_ERR_MEMORY) then "503 Service Unavailable" else "400 Bad Request") (cf_token_diagnostic_message why)
      | None => save_tunnel_change token host (cf_cJSON_IsTrue clear)
      end
  | _, _ => tunnel_refused
  end.

Definition gpio_refused : GM () := refuse "400 Bad Request" "Allowed pins: 4, 5, 6, 7. Mode: 0 disabled, 1 input, 2 output. Value: 0 or 1.".

Definition gpio_post (j : option json) : GM () :=
  pin ← checked (member_of j "pin"); mode ← checked (member_of j "mode"); value ← checked (member_of j "value");
  good ← checked (cf_json_keys j (keys_of ["pin"; "mode"; "value"]));
  if negb good then gpio_refused else
  pin ← checked (integer_item pin); mode ← checked (integer_item mode); value ← checked (integer_item value);
  match pin, mode, value with
  | Some pin, Some mode, Some value =>
      rc ← at_device (in_panel (monitor_io_set pin mode value));
      if negb (rc =? ESP_OK) then gpio_refused else accept
  | _, _, _ => gpio_refused
  end.

(** The four values of a colour: the largest is 255, of the brightness 100. *)
Fixpoint rgb_values (j : option json) (keys : list (string * Z)) : option (option (list Z)) :=
  match keys with
  | [] => Some (Some [])
  | (key, most) :: keys =>
      v ← member_of j key;
      n ← integer_item v;
      rest ← rgb_values j keys;
      Some (match n, rest with Some n, Some rest => if (n <? 0) || (most <? n) then None else Some (n :: rest) | _, _ => None end)
  end.

Definition rgb_post (j : option json) : GM () :=
  let refused := refuse "400 Bad Request" "RGB values must be integers 0-255; brightness 0-100; on must be true or false." in
  on ← checked (member_of j "on");
  good ← checked (cf_json_keys j (keys_of ["on"; "red"; "green"; "blue"; "brightness"]));
  values ← checked (rgb_values j [("red"%string, 255); ("green"%string, 255); ("blue"%string, 255); ("brightness"%string, 100)]);
  match values with
  | Some [red; green; blue; brightness] =>
      if negb (good && cf_cJSON_IsBool on) then refused else
      rc ← at_device (in_panel (monitor_led_set (cf_cJSON_IsTrue on) red green blue brightness));
      if negb (rc =? ESP_OK) then refuse "503 Service Unavailable" "The built-in RGB LED driver is unavailable." else accept
  | _ => refused
  end.

(** ** The firmware upload *)

(** The result of a call, with the id of a new upload; or a refusal that was given. *)
Inductive upload_outcome := Refused | Done (success : bool) (id : option (list Z)).

Definition chunk_refused : GM upload_outcome := refuse "400 Bad Request" "Invalid upload chunk.";; mret Refused.

Definition ota_start_post (j : option json) : GM upload_outcome :=
  size ← checked (member_of j "size");
  good ← checked (cf_json_keys j (keys_of ["size"; "sha256"]));
  n ← checked (integer_item size);
  match n with
  | Some n =>
      if negb good || (n <=? 0) then refuse "400 Bad Request" "Provide the firmware size and SHA256 digest.";; mret Refused else
      sha ← checked (string_member j "sha256");
      '(success, id) ← at_device (in_ota (monitor_ota_start n sha (replicate 33 0)));
      mret (Done success (if (success : bool) then Some id else None))
  | None => refuse "400 Bad Request" "Provide the firmware size and SHA256 digest.";; mret Refused
  end.

Definition ota_chunk_post (j : option json) : GM upload_outcome :=
  offset ← checked (member_of j "offset");
  data ← checked (string_member j "data");
  good ← checked (cf_json_keys j (keys_of ["id"; "offset"; "data"]));
  n ← checked (integer_item offset);
  match n, data with
  | Some n, Some data =>
      k ← checked (strlen data);
      if negb good || (n <? 0) || ((MONITOR_OTA_CHUNK + 2) / 3 * 4 <? k) then chunk_refused else
      text ← checked (c_string data);
      let '(rc, bytes) := mbedtls_base64_decode MONITOR_OTA_CHUNK text in
      buffer ← checked (blit (uninitialized MONITOR_OTA_CHUNK) 0 bytes);
      if negb (rc =? 0) then chunk_refused else
      id ← checked (string_member j "id");
      success ← at_device (in_ota (monitor_ota_write id n (Some buffer) (zlen bytes)));
      checked (cf_secure_zero buffer MONITOR_OTA_CHUNK);;
      mret (Done success None)
  | _, _ => chunk_refused
  end.

(** [finish] and [abort]; a finished upload restarts the device. *)
Definition ota_other_post (uri : list Z) (j : option json) : GM upload_outcome :=
  good ← checked (cf_json_keys j (keys_of ["id"]));
  if negb good then refuse "400 Bad Request" "Provide an upload session id.";; mret Refused else
  id ← checked (string_member j "id");
  finish ← checked (streq uri (cstring "/api/ota/finish"));
  if (finish : bool) then
    success ← at_device (in_ota (monitor_ota_finish id));
    when success (add_effect MONITOR_EFFECT_REBOOT);; mret (Done success None)
  else
  abort ← checked (streq uri (cstring "/api/ota/abort"));
  if (abort : bool) then success ← at_device (in_ota (monitor_ota_abort id)); mret (Done success None)
  else refuse "404 Not Found" "OTA operation not found.";; mret Refused.

Definition ota_post (uri : list Z) (j : option json) : GM () :=
  start ← checked (streq uri (cstring "/api/ota/start"));
  chunk ← checked (streq uri (cstring "/api/ota/chunk"));
  outcome ← (if (start : bool) then ota_start_post j else if (chunk : bool) then ota_chunk_post j else ota_other_post uri j);
  match outcome with
  | Refused => mret tt
  | Done success id =>
      state ← at_device (in_ota monitor_ota_snapshot);
      if negb success then text ← checked (c_string (s_message state)); refuse_with "400 Bad Request" text else
      reply ← at_device (in_paper new_document);
      at_device (in_paper (put_all reply [MBool "ok" true; MNumber "received" (double_of (s_received state)); MNumber "chunk_size" (double_of MONITOR_OTA_CHUNK)]));;
      (match id with Some id => at_device (in_paper (put reply (MString "id" id))) | None => mret tt end);;
      send_json reply
  end.

(** ** Routing *)

Definition logout_post : GM () :=
  p ← at_device the_api;
  session ← checked (cf_secure_zero (p_session p) 65);
  at_device (change_api (set_session session 0));; accept.

Definition scan_post : GM () :=
  rc ← at_device (in_network monitor_network_scan);
  if rc =? ESP_OK then accept else refuse "409 Conflict" "Wi-Fi is busy. Wait for the current connection or scan to finish.".

(** The changes by path, for an authorized request with a JSON body. *)
Definition change_route (uri : list Z) (j : option json) : GM () :=
  wifi ← checked (streq uri (cstring "/api/wifi")); if (wifi : bool) then wifi_post j else
  tunnel ← checked (streq uri (cstring "/api/tunnel")); if (tunnel : bool) then tunnel_post j else
  upload ← checked (strneq 9 uri (cstring "/api/ota/")); if (upload : bool) then ota_post uri j else
  restart ← checked (streq uri (cstring "/api/tunnel/restart"));
  empty ← checked (cf_json_keys j []);
  if restart && empty then add_effect MONITOR_EFFECT_TUNNEL_RESTART;; accept else
  gpio ← checked (streq uri (cstring "/api/gpio")); if (gpio : bool) then gpio_post j else
  rgb ← checked (streq uri (cstring "/api/rgb")); if (rgb : bool) then rgb_post j else
  logout ← checked (streq uri (cstring "/api/logout")); if (logout : bool) then logout_post else
  scan ← checked (streq uri (cstring "/api/scan")); if scan && empty then scan_post else
  refuse "400 Bad Request" "Invalid operation.".

Definition change_post (q : monitor_api_request) : GM () :=
  allowed ← at_device (authorized q);
  if negb allowed then refuse "401 Unauthorized" "Unlock Settings with the device password. Sessions expire after 10 minutes." else
  j ← at_device (body_json q);
  match j with
  | None => refuse "400 Bad Request" "Send a JSON object of at most 2048 bytes."
  | Some _ => change_route (q_path q) j;; at_device (delete_body j)
  end.

Definition ap_members (a : monitor_ap) : list member :=
  [MString "ssid" (fa_ssid a); MNumber "rssi" (double_of (fa_rssi a)); MBool "secure" (fa_secure a); MNumber "channel" (double_of (fa_channel a))].

Definition scan_get (q : monitor_api_request) : GM () :=
  allowed ← at_device (authorized q);
  if negb allowed then refuse "401 Unauthorized" "Unlock Settings with the device password." else
  '(aps, busy) ← at_device (in_network (monitor_network_scan_results 12));
  j ← at_device (in_paper new_document);
  at_device (in_paper (put j (MBool "busy" busy)));;
  at_device (in_paper (a ← put_array j "networks"; match a with Some a => put_rows a (map ap_members aps) | None => mret tt end));;
  send_json j.

Definition api_route (q : monitor_api_request) : GM () :=
  if negb (q_post q) then
    status ← checked (streq (q_path q) (cstring "/api/status")); if (status : bool) then status_get q else
    scan ← checked (streq (q_path q) (cstring "/api/scan")); if (scan : bool) then scan_get q else
    refuse "404 Not Found" "API endpoint not found."
  else
  login ← checked (streq (q_path q) (cstring "/api/login")); if (login : bool) then login_post q else change_post q.

Definition monitor_api_dispatch_ (q : monitor_api_request) : AM monitor_api_reply := performing (λ y,
  '(_, g) ← api_route q (Exchange y zero_reply); Some (g_reply g, g_device g)).

(** ** Effects *)

Definition monitor_api_schedule_effects_ (effects : Z) : AM () :=
  when (negb (effects =? 0)) (
    now ← milliseconds;
    change_api (λ p, set_pending (Z.lor (p_pending_effects p) effects) (u64 (now + 1000)) p)).

(** Is the flag among the effects? *)
Definition has_effect (flag effects : Z) : bool := negb (Z.land effects flag =? 0).

(** The effects that are due, under the lock. *)
Definition due_effects : AM Z :=
  p ← the_api;
  if p_pending_effects p =? 0 then mret 0 else
  now ← milliseconds;
  if negb (p_effects_after p <=? now) then mret 0 else
  change_api (set_pending 0 (p_effects_after p));; mret (p_pending_effects p).

(** The result: does the device restart? *)
Definition monitor_api_tick : AM bool :=
  taken ← on_chip (json_take 0);
  if negb taken then mret false else
  in_ota monitor_ota_tick;;
  in_keeper monitor_tunnel_tick;;
  effects ← due_effects;
  on_chip (λ c, (tt, json_give c));;
  when (has_effect MONITOR_EFFECT_WIFI effects) (in_network monitor_network_reload);;
  when (has_effect MONITOR_EFFECT_TUNNEL effects) (in_keeper (λ o, Some (monitor_tunnel_reload o)));;
  when (has_effect MONITOR_EFFECT_TUNNEL_RESTART effects) (in_keeper (λ o, Some (monitor_tunnel_restart o)));;
  when (has_effect MONITOR_EFFECT_REBOOT effects) (on_chip (λ c, (tt, esp_restart c)));;
  mret (has_effect MONITOR_EFFECT_REBOOT effects).

End Monitor_.
