(* ===== verification/MonitorAccess.v ===== *)
(** The API of the system monitor at work: every request is answered and the
    device stays in order; nothing changes without a session; and a session is
    opened by the device password only, a limited number of times. *)
From stdpp Require Import gmap.
From Stdlib Require Import SpecFloat.
From S2P Require Export MonitorStation MonitorApi.
#[local] Open Scope Z_scope.

Class ChipLaws `{Chip} := {
  fill_law n c : 0 <= n -> zlen (fill_random n c).1 = n /\ bytes_ok (fill_random n c).1;
  base64_law cap text : 0 <= cap -> zlen (mbedtls_base64_decode cap text).2 <= cap
}.

(** The texts of the tunnel's snapshot end inside their arrays. *)
Definition snapshot_texts (s : esp_cf_tunnel_snapshot) : Prop :=
  0 ∈ n_message s /\ 0 ∈ n_edge_ip s /\ 0 ∈ n_location s /\ 0 ∈ n_last_failure s /\ 0 ∈ d_edge_ip (n_last_connect s) /\ 0 ∈ d_edge_ip (n_last_connect_failure s).

Class KeeperLaws `{Keeper} := {
  keeper_ok : keeper -> Prop;
  keeper_snapshot o : keeper_ok o -> snapshot_texts (monitor_tunnel_snapshot o);
  keeper_tick o : keeper_ok o -> exists o', monitor_tunnel_tick o = Some o' /\ keeper_ok o';
  keeper_reload o : keeper_ok o -> keeper_ok (monitor_tunnel_reload o);
  keeper_restart o : keeper_ok o -> keeper_ok (monitor_tunnel_restart o)
}.

(** The session's text: none, or 64 characters. *)
Definition session_is (p : api) (t : list Z) : Prop := cstr (p_session p) t /\ (t = [] \/ zlen t = 64).

Record api_ok (p : api) : Prop := {
  pk_session : zlen (p_session p) = 65 /\ exists t, session_is p t;
  pk_failures : 0 <= p_failures p <= 5
}.

Lemma zero_api_ok : api_ok zero_api.
Proof. constructor; [|done]; split; [done|]; exists []; split; [|by left]; exists (replicate 64 0); split; [done|apply not_elem_of_nil]. Qed.

(** ** Secrets are compared whole *)

(** The loop looks at the first [k] characters from [i], as if NULs followed. *)
Lemma secret_loop_spec a b x y k : cstr a x -> cstr b y -> forall i diff, 0 <= i -> exists d, secret_loop a b (zlen x) (zlen y) k i diff = Some d /\
  (d = 0 <-> diff = 0 /\ forall j, i <= j < i + Z.of_nat k -> nth (Z.to_nat j) x 0 = nth (Z.to_nat j) y 0).
Proof.
  intros Ha Hb; assert (forall s t i, cstr s t -> 0 <= i -> (if i <? zlen t then rd s i else Some 0) = Some (nth (Z.to_nat i) t 0)) as Hrd.
  { intros s t i (rest & -> & _) Hi; destruct (Z.ltb_spec i (zlen t)) as [Hlt|Hge]; [|rewrite nth_overflow by (unfold zlen in Hge; lia); done].
    rewrite rd_app_l by lia; unfold rd; replace (i <? 0) with false by lia; destruct (lookup_lt_is_Some_2 t (Z.to_nat i)) as [c Hc]; [unfold zlen in Hlt; lia|]; rewrite Hc; f_equal; symmetry; by apply nth_lookup_Some. }
  induction k as [|k IH]; intros i diff Hi; cbn [secret_loop].
  - exists diff; split; [done|]; split; [intros ->; split; [done|lia]|by intros [? _]].
  - rewrite (Hrd a x i Ha Hi), (Hrd b y i Hb Hi); cbn [mbind option_bind].
    destruct (IH (i + 1) (Z.lor diff (Z.lxor (nth (Z.to_nat i) x 0) (nth (Z.to_nat i) y 0)))) as (d & E & Hd); [lia|]; exists d; split; [exact E|]; rewrite Hd, Z.lor_eq_0_iff, Z.lxor_eq_0_iff.
    split.
    + intros [[H0 H1] H2]; split; [done|]; intros j Hj; destruct (Z.eq_dec j i) as [->|]; [done|apply H2; lia].
    + intros [H0 H1]; split; [split; [done|apply H1; lia]|]; intros j Hj; apply H1; lia.
Qed.

Lemma lengths_differ m n : 0 <= m <= INT32_MAX -> 0 <= n <= INT32_MAX -> u32 (Z.lxor m n) = 0 <-> m = n.
Proof.
  unfold INT32_MAX; intros Hm Hn; rewrite <- (Z.lxor_eq_0_iff m n); assert (0 <= Z.lxor m n < 2 ^ 32) as Hr.
  { split; [apply Z.lxor_nonneg; lia|]; destruct (Z.eq_dec (Z.lxor m n) 0) as [->|Hne]; [done|].
    assert (0 < Z.lxor m n) as Hpos by (pose proof (proj2 (Z.lxor_nonneg m n) ltac:(lia)); lia); apply Z.log2_lt_pow2; [done|].
    pose proof (Z.log2_lxor m n ltac:(lia) ltac:(lia)); assert (forall z, 0 <= z <= 2147483647 -> Z.log2 z < 32) as Hlog; [|pose proof (Hlog m Hm); pose proof (Hlog n Hn); lia].
    intros z Hz; destruct (Z.eq_dec z 0) as [->|]; [done|]; apply Z.log2_lt_pow2; [lia|]; change (2 ^ 32) with 4294967296; lia. }
  enough (u32 (Z.lxor m n) = Z.lxor m n) as -> by done; by apply wrap_small.
Qed.

Lemma same_characters (x y : list Z) : length x = length y -> (forall j, 0 <= j < zlen x -> nth (Z.to_nat j) x 0 = nth (Z.to_nat j) y 0) -> x = y.
Proof.
  intros Hl Hj; apply (nth_ext x y 0 0 Hl); intros n Hn; specialize (Hj (Z.of_nat n)); rewrite Nat2Z.id in Hj; apply Hj; unfold zlen; lia.
Qed.

(** [equal_secret] is the equality of the texts when one of them fits in [max]. *)
Lemma equal_secret_spec a b x y max : cstr a x -> cstr b y -> zlen x <= INT32_MAX -> zlen y <= max <= INT32_MAX -> equal_secret a b max = Some (bool_decide (x = y)).
Proof.
  intros Ha Hb Hx Hy; pose proof (zlen_nonneg x); pose proof (zlen_nonneg y); unfold equal_secret; rewrite (strlen_spec _ _ Ha), (strlen_spec _ _ Hb); cbn [mbind option_bind].
  destruct (secret_loop_spec a b x y (Z.to_nat max) Ha Hb 0 (u32 (Z.lxor (zlen x) (zlen y)))) as (d & -> & Hd); [done|]; cbn [mbind option_bind]; f_equal.
  rewrite lengths_differ in Hd by lia; apply eq_bool_prop_intro; rewrite bool_decide_spec, Is_true_true, Z.eqb_eq, Hd; split.
  - intros [Hl Hj]; apply same_characters; [unfold zlen in Hl; lia|]; intros j Hj'; apply Hj; lia.
  - by intros ->.
Qed.

(** It always returns. *)
Lemma equal_secret_total a b max : 0 ∈ a -> 0 ∈ b -> exists r, equal_secret a b max = Some r.
Proof.
  intros Ha Hb; destruct (terminated_cstr a Ha) as [x Hx], (terminated_cstr b Hb) as [y Hy]; unfold equal_secret; rewrite (strlen_spec _ _ Hx), (strlen_spec _ _ Hy); cbn [mbind option_bind].
  destruct (secret_loop_spec a b x y (Z.to_nat max) Hx Hy 0 (u32 (Z.lxor (zlen x) (zlen y)))) as (d & -> & _); [done|]; by eexists.
Qed.

(** ** Host names *)

(** The labels between the dots; [cur] is the one under way. *)
Fixpoint labels (t cur : list Z) : list (list Z) :=
  match t with
  | [] => [cur]
  | c :: t => if c =? 46 then cur :: labels t [] else labels t (cur ++ [c])
  end.

(** Letters, digits and hyphens, not first. *)
Definition label_begun (l : list Z) : Prop := zlen l <= 63 /\ Forall (λ c, label_char c = true) l /\ head l <> Some 45.
Definition label_ok (l : list Z) : Prop := l <> [] /\ label_begun l /\ last l <> Some 45.

(** An empty name, or up to 253 characters of labels. *)
Definition host_name (t : list Z) : Prop := t = [] \/ zlen t <= 253 /\ Forall label_ok (labels t []).

Lemma labels_last t : forall cur, exists ls l, labels t cur = ls ++ [l].
Proof.
  induction t as [|c t IH]; intros cur; cbn [labels]; [by exists [], cur|]; case_match; [|apply IH].
  destruct (IH []) as (ls & l & ->); by exists (cur :: ls), l.
Qed.

(** The label that ends a text holds its last character. *)
Lemma last_label t : forall cur ls l, labels t cur = ls ++ [l] -> l = [] /\ (last (cur ++ t) = None \/ last (cur ++ t) = Some 46) \/ l <> [] /\ last l = last (cur ++ t).
Proof.
  induction t as [|c t IH]; intros cur ls l; cbn [labels].
  - intros E; apply (app_inj_tail [] ls) in E as [_ <-]; rewrite app_nil_r; destruct cur; [by left; split; [|left]|by right].
  - destruct (Z.eqb_spec c 46) as [->|Hc]; intros E.
    + destruct ls as [|l0 ls]; [destruct (labels_last t []) as (ls & x & Ex); rewrite Ex in E; by destruct ls|]; injection E as <- E; destruct (IH _ _ _ E) as [[Hl Ht]|[Hl Ht]]; cbn [app] in Ht.
      * left; split; [done|]; right; destruct Ht as [Ht|Ht]; [apply last_None in Ht as ->; by rewrite last_snoc|]; rewrite last_app; destruct t as [|z t]; [done|]; change (last (46 :: z :: t)) with (last (z :: t)); by rewrite Ht.
      * right; split; [done|]; rewrite last_app; destruct t as [|d t]; [cbn in E; by apply (app_inj_tail [] ls) in E as [_ <-]|]; change (last (46 :: d :: t)) with (last (d :: t)); rewrite Ht; by destruct (last (d :: t)) eqn:El; [|apply last_None in El].
    + change (cur ++ c :: t) with (cur ++ [c] ++ t); rewrite app_assoc; by apply IH in E.
Qed.

Lemma label_grown cur c : label_begun cur -> (negb (label_char c) || ((zlen cur =? 0) && (c =? 45)) || (63 <? zlen cur + 1)) = false <-> label_begun cur /\ label_begun (cur ++ [c]).
Proof.
  intros (Hz & Hc & Hh); unfold label_begun; rewrite zlen_app, zlen_cons, zlen_nil, Forall_app, Forall_singleton, !orb_false_iff, negb_false_iff, andb_false_iff, Z.ltb_ge, !Z.eqb_neq.
  pose proof (zlen_nonneg cur); assert (head (cur ++ [c]) <> Some 45 <-> zlen cur <> 0 \/ c <> 45) as ->; [|split; [intros [[H1 H2] H3]; split_and!; try done; lia|intros (_ & H1 & (_ & H2) & H3); split; [split; [done|]|lia]; done]].
  destruct cur as [|x cur]; cbn [app head]; [rewrite zlen_nil; split; [intros H1; right; congruence|intros [?|?]; congruence]|rewrite zlen_cons; pose proof (zlen_nonneg cur); split; [left; lia|done]].
Qed.

Lemma zlen_zero {A} (l : list A) : zlen l = 0 -> l = [].
Proof. destruct l; [done|]; rewrite zlen_cons; pose proof (zlen_nonneg l); lia. Qed.

Lemma last_snoc_ne {A} (l : list A) : zlen l <> 0 -> exists l' x, l = l' ++ [x].
Proof. intros Hl; destruct l as [|x l] using rev_ind; [done|by exists l, x]. Qed.

Lemma rd_app_here (pre rest : list Z) c i : i = zlen pre -> rd (pre ++ c :: rest) i = Some c.
Proof. intros ->; by rewrite <- (Z.add_0_r (zlen pre)), rd_app_r. Qed.

Lemma labels_head t : forall cur, exists more ls, labels t cur = (cur ++ more) :: ls.
Proof.
  induction t as [|c t IH]; intros cur; cbn [labels]; [exists [], []; by rewrite app_nil_r|]; case_match; [exists [], (labels t []); by rewrite app_nil_r|].
  destruct (IH (cur ++ [c])) as (more & ls & E); exists ([c] ++ more), ls; by rewrite app_assoc.
Qed.

Lemma begun_prefix a b : label_begun (a ++ b) -> label_begun a.
Proof.
  unfold label_begun; rewrite zlen_app, Forall_app; intros (Hz & [Ha _] & Hh); pose proof (zlen_nonneg b); split; [lia|]; split; [done|]; by destruct a.
Qed.

Lemma label_closed cur before : label_begun cur -> (before = last cur) -> label_ok cur <-> (zlen cur =? 0) = false /\ before <> Some 45.
Proof.
  intros Hc ->; unfold label_ok; rewrite Z.eqb_neq; destruct cur as [|x cur]; [split; [by intros [? _]|by intros [? _]]|].
  split; [intros (_ & _ & Hl); split; [rewrite zlen_cons; pose proof (zlen_nonneg cur); lia|done]|intros [_ Hl]; by split].
Qed.

(** The loop, at the end of a label begun. *)
Lemma hostname_loop_spec name rest t : forall done_ cur, name = done_ ++ cur ++ t ++ rest -> label_begun cur ->
  exists r, hostname_loop name (length t) (zlen done_ + zlen cur) (zlen cur) = Some r /\
    match r with
    | None => ~ Forall label_ok (labels t cur)
    | Some n => exists ls l, labels t cur = ls ++ [l] /\ Forall label_ok ls /\ label_begun l /\ n = zlen l
    end.
Proof.
  induction t as [|c t IH]; intros pre cur -> Hcur; cbn [labels length hostname_loop]; [by exists (Some (zlen cur)); split; [|exists [], cur]|].
  pose proof (zlen_nonneg pre); pose proof (zlen_nonneg cur); assert (rd (pre ++ cur ++ (c :: t) ++ rest) (zlen pre + zlen cur) = Some c) as -> by (rewrite app_assoc; apply rd_app_here; by rewrite zlen_app); cbn [mbind option_bind].
  destruct (Z.eqb_spec c 46) as [->|Hc].
  - destruct (Z.eqb_spec (zlen cur) 0) as [E0|E0].
    { eexists; split; [done|]; intros [(Hne & _) _]%Forall_cons_1; by apply Hne, zlen_zero. }
    destruct (last_snoc_ne cur E0) as (cur' & x & ->).
    assert (rd (pre ++ (cur' ++ [x]) ++ (46 :: t) ++ rest) (zlen pre + zlen (cur' ++ [x]) - 1) = Some x) as ->.
    { replace (pre ++ (cur' ++ [x]) ++ (46 :: t) ++ rest) with ((pre ++ cur') ++ x :: (46 :: t) ++ rest) by (by rewrite <- !app_assoc); apply rd_app_here; rewrite !zlen_app, zlen_cons, zlen_nil; lia. }
    cbn [mbind option_bind]; destruct (Z.eqb_spec x 45) as [->|Hx].
    { eexists; split; [done|]; intros [(_ & _ & Hl) _]%Forall_cons_1; by rewrite last_snoc in Hl. }
    assert (label_ok (cur' ++ [x])) as Hok by (split; [by destruct cur'|]; split; [done|]; rewrite last_snoc; congruence).
    destruct (IH (pre ++ (cur' ++ [x]) ++ [46]) []) as (r & E & Hr); [by rewrite <- !app_assoc|by split_and!|].
    exists r; split; [rewrite <- E; f_equal; rewrite !zlen_app, !zlen_cons, zlen_nil; lia|].
    destruct r as [n|]; [destruct Hr as (ls & l & El & Hls & Hl); exists ((cur' ++ [x]) :: ls), l; split; [by rewrite El|]; split; [by constructor|done]|].
    by intros [_ ?]%Forall_cons_1.
  - pose proof (label_grown cur c Hcur) as Hg; destruct (negb _ || _ || _) eqn:Eg.
    + exists None; split; [done|]; intros Hall; destruct (labels_head t (cur ++ [c])) as (more & ls & El); rewrite El in Hall; apply Forall_cons_1 in Hall as [(_ & Hb & _) _].
      by specialize (proj2 Hg (conj Hcur (begun_prefix _ _ Hb))).
    + destruct (proj1 Hg eq_refl) as [_ Hb]; destruct (IH pre (cur ++ [c])) as (r & E & Hr); [by rewrite <- !app_assoc|done|]; exists r; split; [|done].
      rewrite <- E; f_equal; rewrite zlen_app, zlen_cons, zlen_nil; lia.
Qed.

Lemma host_name_valid_spec m t : cstr m t -> exists b, hostname_valid m = Some b /\ (b = true <-> host_name t).
Proof.
  intros Ht; unfold hostname_valid; rewrite (strlen_spec _ _ Ht); cbn [mbind option_bind]; destruct (Z.eqb_spec (zlen t) 0) as [E0|E0]; [eexists; split; [done|]; split; [|done]; left; by apply zlen_zero|].
  assert (t <> []) as Hne by (by intros ->); destruct Ht as (rest & -> & Hn).
  destruct (Z.ltb_spec 253 (zlen t)); [eexists; split; [done|]; split; [done|]; intros [?|[? _]]; [done|lia]|].
  destruct (last_snoc_ne t E0) as (t' & x & Et); assert (rd (t ++ 0 :: rest) (zlen t - 1) = Some x) as ->.
  { rewrite Et, <- app_assoc; apply rd_app_here; rewrite zlen_app, zlen_cons, zlen_nil; lia. }
  cbn [mbind option_bind]; destruct (labels_last t []) as (ls & l & El); pose proof (last_label t [] ls l El) as Hlast; cbn [app] in Hlast; assert (last t = Some x) as Hx by (by rewrite Et, last_snoc); rewrite Hx in Hlast.
  destruct (Z.eqb_spec x 46) as [->|Hdot].
  { eexists; split; [done|]; split; [done|]; intros [?|[_ Hall]]; [done|]; rewrite El in Hall; apply Forall_app in Hall as [_ [(Hl & (_ & Hc & _) & _) _]%Forall_cons_1].
    destruct Hlast as [[? _]|[_ Hl']]; [done|]; apply last_Some_elem_of in Hl'; rewrite Forall_forall in Hc; by specialize (Hc 46 Hl'). }
  destruct (hostname_loop_spec (t ++ 0 :: rest) (0 :: rest) t [] []) as (r & E & Hr); [done|by split_and!|]; change (zlen [] + zlen []) with 0 in E; change (zlen (@nil Z)) with 0 in E.
  unfold zlen at 1; rewrite Nat2Z.id, E; cbn [mbind option_bind]; destruct r as [n|].
  2: { eexists; split; [done|]; split; [done|]; by intros [?|[_ ?]]. }
  destruct Hr as (ls' & l' & El' & Hls & Hl & ->); rewrite El in El'; apply app_inj_tail in El' as [<- <-]; eexists; split; [done|].
  rewrite andb_true_iff, !negb_true_iff, !Z.eqb_neq; unfold host_name; rewrite El, Forall_app, Forall_singleton.
  assert (label_ok l <-> zlen l <> 0 /\ x <> 45) as ->; [|split; [intros Hok; right; split; [lia|by split]|by intros [?|(_ & _ & Hok)]]].
  destruct Hlast as [[-> _]|[Hnl Hx']]; [split; [by intros [? _]|by intros [? _]]|].
  rewrite (label_closed l (last l) Hl eq_refl), Hx', Z.eqb_neq; split; intros [? ?]; split; congruence.
Qed.

(** ** The device in order *)

Section Access.
Context (header : Z) (Hheader : 0 < header <= 64).
Context `{ChipLaws} `{KeeperLaws} `{RadioLaws} `{NvsLaws} `{MemoryLaws} `{JsonWriterLaws header} `{!JsonBlocks} `{UpdaterLaws} `{DriversLaws}.

Definition with_api (p : api) (y : appliance) : appliance :=
  Appliance p (y_network y) (y_radio y) (y_nvs y) (y_memory y) (y_heap y) (y_ota y) (y_panel y) (y_keeper y) (y_chip y).
Definition with_chip (c : chip) (y : appliance) : appliance :=
  Appliance (y_api y) (y_network y) (y_radio y) (y_nvs y) (y_memory y) (y_heap y) (y_ota y) (y_panel y) (y_keeper y) c.
Definition with_net (n : net) (y : appliance) : appliance :=
  Appliance (y_api y) (x_net n) (x_radio n) (x_nvs n) (y_memory y) (y_heap y) (y_ota y) (y_panel y) (y_keeper y) (y_chip y).
Definition with_vault (v : vault) (y : appliance) : appliance :=
  Appliance (y_api y) (y_network y) (y_radio y) (va_nvs v) (va_memory v) (va_heap v) (y_ota y) (y_panel y) (y_keeper y) (y_chip y).
Definition with_paper (w : paper) (y : appliance) : appliance :=
  Appliance (set_ok_flag (w_ok w) (y_api y)) (y_network y) (y_radio y) (y_nvs y) (y_memory y) (w_heap w) (y_ota y) (y_panel y) (y_keeper y) (y_chip y).
Definition with_ota (o : ota) (y : appliance) : appliance :=
  Appliance (y_api y) (y_network y) (y_radio y) (y_nvs y) (y_memory y) (y_heap y) o (y_panel y) (y_keeper y) (y_chip y).
Definition with_panel (p : panel) (y : appliance) : appliance :=
  Appliance (y_api y) (y_network y) (y_radio y) (y_nvs y) (y_memory y) (y_heap y) (y_ota y) p (y_keeper y) (y_chip y).
Definition with_keeper (k : keeper) (y : appliance) : appliance :=
  Appliance (y_api y) (y_network y) (y_radio y) (y_nvs y) (y_memory y) (y_heap y) (y_ota y) (y_panel y) k (y_chip y).

(** An upload in order, whatever it was started with. *)
Definition upload_ok (o : ota) : Prop := exists m0 h, in_order m0 h o.

Record appliance_ok (y : appliance) : Prop := {
  yk_api : api_ok (y_api y);
  yk_network : station_ok (y_network y);
  yk_heap : heap_ok header (y_heap y);
  yk_ota : upload_ok (y_ota y);
  yk_panel : fixtures_ok (pn_fixtures (y_panel y));
  yk_keeper : keeper_ok (y_keeper y)
}.

Lemma api_kept p y : appliance_ok y -> api_ok p -> appliance_ok (with_api p y).
Proof. by intros [] ?. Qed.
Lemma chip_kept c y : appliance_ok y -> appliance_ok (with_chip c y).
Proof. by intros []. Qed.
Lemma net_kept n y : appliance_ok y -> station_ok (x_net n) -> appliance_ok (with_net n y).
Proof. by intros [] ?. Qed.
Lemma vault_in_order v y : appliance_ok y -> heap_ok header (va_heap v) -> appliance_ok (with_vault v y).
Proof. by intros [] ?. Qed.
Lemma paper_kept w y : appliance_ok y -> heap_ok header (w_heap w) -> appliance_ok (with_paper w y).
Proof. by intros [[] ? ? ? ? ?] ?. Qed.
Lemma ota_kept o y : appliance_ok y -> upload_ok o -> appliance_ok (with_ota o y).
Proof. by intros [] ?. Qed.
Lemma panel_in_order p y : appliance_ok y -> fixtures_ok (pn_fixtures p) -> appliance_ok (with_panel p y).
Proof. by intros [] ?. Qed.
Lemma keeper_kept k y : appliance_ok y -> keeper_ok k -> appliance_ok (with_keeper k y).
Proof. by intros [] ?. Qed.

(** ** Steps *)

Lemma runs_api {Q : api -> appliance -> Prop} y : Q (y_api y) y -> runs the_api y Q.
Proof. intros HQ; by apply runs_asks. Qed.

Lemma runs_api_change {Q : () -> appliance -> Prop} f y : Q tt (with_api (f (y_api y)) y) -> runs (change_api f) y Q.
Proof. intros HQ; by apply runs_modify. Qed.

Lemma runs_chip {A} {Q : A -> appliance -> Prop} (f : chip -> A * chip) y : Q (f (y_chip y)).1 (with_chip (f (y_chip y)).2 y) -> runs (on_chip f) y Q.
Proof. intros HQ; unfold on_chip; apply runs_calling; cbn; by destruct (f (y_chip y)). Qed.

Lemma runs_network_part {A} {Q : A -> appliance -> Prop} (c : SM net A) y : runs c (Net (y_network y) (y_radio y) (y_nvs y)) (λ x n, Q x (with_net n y)) -> runs (in_network c) y Q.
Proof. intros (x & n & E & HQ); by eapply runs_performing; [rewrite E|]. Qed.

Lemma runs_vault {A} {Q : A -> appliance -> Prop} (c : SM vault A) y : runs c (Vault (y_nvs y) (y_memory y) (y_heap y)) (λ x v, Q x (with_vault v y)) -> runs (in_vault c) y Q.
Proof. intros (x & v & E & HQ); by eapply runs_performing; [rewrite E|]. Qed.

Lemma runs_paper {A} {Q : A -> appliance -> Prop} (c : SM paper A) y : runs c (Paper (y_heap y) (p_json_ok (y_api y))) (λ x w, Q x (with_paper w y)) -> runs (in_paper c) y Q.
Proof. intros (x & w & E & HQ); by eapply runs_performing; [rewrite E|]. Qed.

Lemma runs_ota {A} {Q : A -> appliance -> Prop} (c : SM ota A) y : runs c (y_ota y) (λ x o, Q x (with_ota o y)) -> runs (in_ota c) y Q.
Proof. intros (x & o & E & HQ); by eapply runs_performing; [rewrite E|]. Qed.

Lemma runs_panel {A} {Q : A -> appliance -> Prop} (c : SM panel A) y : runs c (y_panel y) (λ x p, Q x (with_panel p y)) -> runs (in_panel c) y Q.
Proof. intros (x & p & E & HQ); by eapply runs_performing; [rewrite E|]. Qed.

Lemma runs_milliseconds {Q : Z -> appliance -> Prop} y : (forall t c, t = u64 (chip_timer (y_chip y)).1 / 1000 -> c = (chip_timer (y_chip y)).2 -> Q t (with_chip c y)) -> runs milliseconds y Q.
Proof. intros HQ; unfold milliseconds; apply runs_bind, runs_chip, runs_ret; by apply HQ. Qed.

Lemma runs_device_part {A} {Q : A -> exchange -> Prop} (c : SM appliance A) y a : runs c y (λ x y', Q x (Exchange y' a)) -> runs (at_device c) (Exchange y a) Q.
Proof. intros (x & y' & E & HQ); by eapply runs_performing; [cbn [g_device]; rewrite E|]. Qed.

Lemma runs_reply_change {Q : () -> exchange -> Prop} f y a : Q tt (Exchange y (f a)) -> runs (change_reply f) (Exchange y a) Q.
Proof. intros HQ; by apply runs_modify. Qed.

(** ** Replies *)

(** A reply with a status and a text. *)
Definition answers (a : monitor_api_reply) (code : Z) (text : list Z) : Prop :=
  a_status a = code /\ a_length a = zlen text /\ cstr (a_body a) text /\ zlen (a_body a) = MONITOR_REPLY_MAX.

Definition body_room (a : monitor_api_reply) : Prop := zlen (a_body a) = MONITOR_REPLY_MAX.

Lemma runs_refuse_with {Q : () -> exchange -> Prop} status message y a : body_room a -> (0 ∉ message) -> zlen message <= 1000 ->
  (forall a', answers a' (code_of status) (error_text message) -> a_effects a' = a_effects a -> Q tt (Exchange y a')) -> runs (refuse_with status message) (Exchange y a) Q.
Proof.
  intros Ha Hn Hz HQ; unfold refuse_with; apply runs_bind, runs_asks; cbn [g_reply]; pose proof (zlen_nonneg message).
  assert (zlen (error_text message) = 12 + zlen message) as Hl by (unfold error_text; rewrite zlen_cons, !zlen_app, !zlen_cons, zlen_nil; change (zlen (quoted "error")) with 7; lia).
  assert (0 ∉ error_text message) as Hno.
  { unfold error_text; rewrite not_elem_of_cons, !not_elem_of_app; split; [done|]; split; [no_nul|]; split; [no_nul|]; by split; [|no_nul]. }
  unfold body_room, MONITOR_REPLY_MAX in *; destruct (snprintf_cstr (a_body a) 6144 (error_text message) Hno) as (body & E & Hc & Hzb); [lia|].
  apply runs_bind; eapply runs_checked; [exact E|]; apply runs_reply_change, HQ; [|done]; replace (zlen (error_text message) <? 6144) with true by lia.
  split; [done|]; split; [done|]; split; [done|]; cbn [a_body]; unfold MONITOR_REPLY_MAX; lia.
Qed.

Lemma runs_refuse_text {Q : () -> exchange -> Prop} status message y a : body_room a -> (0 ∉ lit message) -> zlen (lit message) <= 1000 ->
  (forall a', answers a' (code_of status) (error_text (lit message)) -> a_effects a' = a_effects a -> Q tt (Exchange y a')) -> runs (refuse status message) (Exchange y a) Q.
Proof. intros Ha Hn Hz HQ; by apply runs_refuse_with. Qed.

Lemma runs_accept {Q : () -> exchange -> Prop} y a : body_room a -> (forall a', answers a' 200 ok_text -> a_effects a' = a_effects a -> Q tt (Exchange y a')) -> runs accept (Exchange y a) Q.
Proof.
  intros Ha HQ; unfold accept; apply runs_bind, runs_asks; cbn [g_reply]; unfold body_room, MONITOR_REPLY_MAX in Ha.
  destruct (blit_Some (a_body a) 0 (ok_text ++ [0])) as [body E]; [lia|rewrite Ha; by vm_compute|]; apply runs_bind; eapply runs_checked; [exact E|].
  assert (cstr body ok_text) as Hc by (rewrite (blit_0 _ _ _ E), <- app_assoc; apply cstr_intro; no_nul).
  apply runs_bind; eapply runs_checked; [by apply strlen_spec|]; apply runs_reply_change, HQ; [|done]; split; [done|]; split; [done|]; split; [done|]; cbn; by rewrite (zlen_blit _ _ _ _ E).
Qed.

Lemma runs_add_effect {Q : () -> exchange -> Prop} e y a : body_room a -> (forall a', body_room a' -> a_effects a' = Z.lor (a_effects a) e -> Q tt (Exchange y a')) ->
  runs (add_effect e) (Exchange y a) Q.
Proof. intros Ha HQ; unfold add_effect; by apply runs_reply_change, HQ. Qed.

(** A document is sent, or the lack of memory; the JSON heap is as before it. *)
Lemma runs_send_json {Q : () -> exchange -> Prop} j base items y a : appliance_ok y -> body_room a -> sheet header j base items (y_heap y) ->
  (forall a' h, heap_ok header h -> blocks h = base -> a_effects a' = a_effects a -> (exists code text, (code = 200 \/ code = 503) /\ answers a' code text) ->
     Q tt (Exchange (with_paper (Paper h (p_json_ok (y_api y))) y) a')) -> runs (send_json j) (Exchange y a) Q.
Proof.
  intros Hy Ha Hs HQ; unfold send_json; apply runs_bind, runs_device_part, runs_bind, runs_api, runs_ret, runs_bind, runs_asks, runs_bind, runs_asks; cbn [g_reply g_device].
  set (printing := match j with Some j0 => if p_json_ok (y_api y) then cf_cJSON_PrintPreallocated j0 MONITOR_REPLY_MAX (y_heap y) else (false, []) | None => (false, []) end).
  assert (zlen printing.2 <= MONITOR_REPLY_MAX /\ (printing.1 = true -> exists t, printing.2 = t ++ [0] /\ 0 ∉ t)) as [Hz Ht].
  { subst printing; destruct j as [root|]; [|by split]; destruct (p_json_ok (y_api y)); [|by split]; apply print_law; done. }
  unfold body_room in Ha; destruct (blit_Some (a_body a) 0 printing.2) as [body E]; [lia|lia|]; apply runs_bind; eapply runs_checked; [exact E|]; pose proof (zlen_blit _ _ _ _ E) as Hzb.
  apply runs_bind, runs_reply_change, runs_bind, runs_device_part, runs_paper, (runs_delete_document header Hheader j base items); [exact Hs|]; intros h Hh Hb; cbn [w_ok].
  destruct printing.1 eqn:Ep; cbn [negb].
  - destruct (Ht eq_refl) as (t & Et & Hnt); assert (cstr body t) as Hc by (rewrite (blit_0 _ _ _ E), Et, <- app_assoc; by apply cstr_intro).
    apply runs_bind; eapply runs_checked; [by apply strlen_spec|]; apply runs_reply_change, HQ; try done; exists 200, t; split; [by left|]; split; [done|]; split; [done|]; split; [done|]; cbn; lia.
  - apply runs_refuse_text; [unfold body_room; cbn; lia|no_nul|by vm_compute|]; intros a' Ha' He; apply HQ; try done; exists 503; eexists; split; [by right|exact Ha'].
Qed.

(** ** Requests *)

Record request_ok (q : monitor_api_request) (body : list Z) : Prop := {
  rq_path : 0 ∈ q_path q;
  rq_credential : text_array 80 (q_authorization q);
  rq_body : denotes (q_body q) body /\ zlen body <= MONITOR_BODY_MAX
}.

Definition now_of (y : appliance) : Z := u64 (chip_timer (y_chip y)).1 / 1000.

(** The request comes with the session that is open. *)
Definition holds_session (q : monitor_api_request) (y : appliance) : Prop :=
  q_origin_allowed q = true /\ exists s, session_is (y_api y) s /\ s <> [] /\ now_of y < p_session_until (y_api y) /\ cstr (q_authorization q) (lit "Bearer " ++ s).

Lemma session_first p t : session_is p t -> exists c, rd (p_session p) 0 = Some c /\ (c = 0 <-> t = []).
Proof.
  intros [(rest & E & Hn) _]; rewrite E; destruct t as [|c t]; [by exists 0|]; exists c; split; [done|]; split; [|done]; intros ->; by destruct Hn; left.
Qed.

Lemma runs_authorized {Q : bool -> appliance -> Prop} q body y : api_ok (y_api y) -> request_ok q body ->
  (forall b c, (b = true <-> holds_session q y) -> Q b (with_chip c y)) -> runs (authorized q) y Q.
Proof.
  intros [[Hz [t Ht]] _] [_ [Haz Han] _] HQ; unfold authorized; apply runs_bind, runs_api; destruct (session_first _ _ Ht) as (c & Ec & Hc); apply runs_bind; eapply runs_checked; [exact Ec|].
  assert (forall b, (b = true <-> holds_session q y) -> runs (mret b) y Q) as Hend by (intros b Hb; apply runs_ret; specialize (HQ b (y_chip y) Hb); by destruct y).
  assert (forall s, session_is (y_api y) s -> s = t) as Huniq by (intros s [Hs _]; destruct Ht as [Ht _]; by eapply cstr_unique).
  destruct (q_origin_allowed q) eqn:Eo; cbn [negb orb]; [|apply Hend; split; [done|]; intros [E _]; congruence].
  destruct (Z.eqb_spec c 0) as [E0|E0]; [apply Hend; split; [done|]; intros (_ & s & Hs & Hne & _); apply Huniq in Hs as ->; by apply Hc in E0|].
  apply runs_bind, runs_milliseconds; intros now ch -> ->; set (y' := with_chip _ y).
  destruct (Z.ltb_spec (u64 (chip_timer (y_chip y)).1 / 1000) (p_session_until (y_api y))) as [Hlt|Hge]; cbn [negb].
  2: { apply runs_ret, HQ; split; [done|]; intros (_ & s & _ & _ & Hlt & _); unfold now_of in Hlt; lia. }
  destruct (terminated_cstr _ Han) as [auth Hauth]; assert (zlen auth <= 80) as Hal by (destruct Hauth as (rest & E & _); rewrite E, zlen_app in Haz; pose proof (zlen_nonneg (0 :: rest)); lia).
  apply runs_bind; eapply runs_checked; [apply strneq_spec; [exact Hauth|apply cstr_cstring; no_nul]|].
  assert (zlen t <= 64) as Htl by (destruct Ht as [_ [->| ->]]; [done|lia]).
  case_bool_decide as Eb; cbn [negb].
  - assert (auth = lit "Bearer " ++ drop 7 auth) as Esplit by (rewrite <- (take_drop 7 auth) at 1; by rewrite Eb).
    assert (cstr (drop 7 (q_authorization q)) (drop 7 auth)) as Hd by (apply cstr_drop; [done|]; apply (f_equal length) in Esplit; rewrite length_app in Esplit; cbn in Esplit; lia).
    eapply runs_checked; [apply (equal_secret_spec _ _ _ _ _ Hd (proj1 Ht)); [unfold zlen, INT32_MAX in *; rewrite length_drop; lia|unfold INT32_MAX; lia]|].
    apply HQ; rewrite bool_decide_eq_true; split.
    + intros Et; split; [done|]; exists t; split; [done|]; split; [by rewrite <- Hc|]; split; [done|]; by rewrite <- Et, <- Esplit.
    + intros (_ & s & Hs & _ & _ & Hs'); apply Huniq in Hs as ->; pose proof (cstr_unique _ _ _ Hauth Hs') as ->; done.
  - apply runs_ret, HQ; split; [done|]; intros (_ & s & _ & _ & _ & Hs'); pose proof (cstr_unique _ _ _ Hauth Hs') as ->; done.
Qed.

(** ** Bodies *)

(** The tree of a body, or none; what its parse allocated is in the heap. *)
Definition body_held (base : gmap Z json_allocation) (j : option json) (h : json_heap) : Prop :=
  match j with Some root => parsed base root h | None => blocks h = base end.

Lemma body_item base j h : body_held base j h -> item_ok j.
Proof. destruct j as [root|]; [intros [Hok _]; by apply item_some|by intros _ o]. Qed.

(** The request's body is this JSON object. *)
Definition posts (q : monitor_api_request) (y : appliance) (root : json) : Prop :=
  q_json_content q = true /\ 0 < len (q_body q) <= MONITOR_BODY_MAX /\ exists h, cf_json_parse (q_body q) (y_heap y) = Some (Some root, h).

Lemma runs_body {Q : option json -> appliance -> Prop} q body y : appliance_ok y -> request_ok q body ->
  (forall j h, heap_ok header h -> body_held (blocks (y_heap y)) j h -> (forall root, j = Some root <-> posts q y root) -> Q j (with_vault (Vault (y_nvs y) (y_memory y) h) y)) -> runs (body_json q) y Q.
Proof.
  intros Hy [_ _ [Hb Hl]] HQ; unfold body_json; pose proof (denotes_len _ _ Hb) as El; pose proof (zlen_nonneg body).
  destruct (q_json_content q && _ && _) eqn:Eg.
  - assert (q_json_content q = true /\ 0 < len (q_body q) <= MONITOR_BODY_MAX) as [Hc Hz] by (apply andb_true_iff in Eg as [[Hc ?]%andb_true_iff ?]; split; [done|lia]).
    destruct (cf_json_parse_spec header Hheader (q_body q) body (y_heap y) (yk_heap _ Hy) Hb) as (r & h' & E & Hh & _).
    apply runs_vault; eapply runs_performing; [cbn [va_heap]; rewrite E; reflexivity|]; apply HQ; [done|by apply (json_parse_blocks header) in E|].
    intros root; split; [intros ->; split; [done|]; split; [done|]; by exists h'|]; intros (_ & _ & h1 & E1); congruence.
  - apply runs_ret; specialize (HQ None (y_heap y) (yk_heap _ Hy) eq_refl); destruct y; apply HQ; intros root; split; [done|]; intros (Hc & Hz & _); rewrite Hc in Eg; cbn in Eg; lia.
Qed.

Lemma runs_delete_body {Q : () -> appliance -> Prop} base j h y : appliance_ok y -> body_held base j h -> blocks (y_heap y) = blocks h ->
  (forall h', heap_ok header h' -> blocks h' = base -> Q tt (with_vault (Vault (y_nvs y) (y_memory y) h') y)) -> runs (delete_body j) y Q.
Proof.
  intros Hy Hj Hb HQ; unfold delete_body; apply runs_vault.
  assert (exists h', cf_json_delete_secret j (y_heap y) = Some h' /\ heap_ok header h' /\ blocks h' = base) as (h' & E & Hh' & Hb').
  { destruct j as [root|]; cbn [body_held] in Hj.
    - pose proof Hj as [Hok _]; destruct (wipe_tree_spec root Hok) as (t & Et & _); eexists; split; [cbn [cf_json_delete_secret]; rewrite Et; cbn [mbind option_bind]; reflexivity|].
      split; [by apply (heap_steps_ok header Hheader _ _ (delete_steps (Some t) _)), yk_heap|]; eapply deleted_parsed; [exact Hj|exact Hb|]; cbn [cf_json_delete_secret]; by rewrite Et.
    - eexists; split; [reflexivity|]; rewrite delete_null; split; [apply Hy|congruence]. }
  eapply runs_performing; [cbn [va_heap]; rewrite E; reflexivity|]; by apply HQ.
Qed.

(** ** Documents of the device *)

Lemma cstring_nul s : 0 ∈ cstring s.
Proof. unfold cstring; apply elem_of_app; right; by apply list_elem_of_singleton. Qed.

Lemma text_nul s : 0 ∈ s ++ [0].
Proof. apply elem_of_app; right; by apply list_elem_of_singleton. Qed.

Section Drawing.
Variable p : api.

(** The device in order, with a document begun; the API is as in [p]. *)
Definition drawing (j : option Z) (base : gmap Z json_allocation) (items : list Z) (y : appliance) : Prop :=
  appliance_ok y /\ sheet header j base items (y_heap y) /\ exists b, y_api y = set_ok_flag b p.

Lemma drawing_on j base items y y' : drawing j base items y -> y_heap y' = y_heap y -> y_api y' = y_api y -> appliance_ok y' -> drawing j base items y'.
Proof. intros (_ & Hs & Hp) E Ea Hy; split; [done|]; by rewrite E, Ea. Qed.

Lemma draw_paper {A} {Q : A -> appliance -> Prop} (c : SM paper A) (R : A -> paper -> Prop) y : appliance_ok y -> runs c (Paper (y_heap y) (p_json_ok (y_api y))) R ->
  (forall x w, R x w -> Q x (with_paper w y)) -> runs (in_paper c) y Q.
Proof. intros Hy Hc HQ; apply runs_paper; eapply runs_mono; [exact Hc|]; intros x w Hw; by apply HQ. Qed.

Lemma paper_drawing j base items w y : appliance_ok y -> (exists b, y_api y = set_ok_flag b p) -> sheet header j base items (w_heap w) -> drawing j base items (with_paper w y).
Proof. intros Hy [b Hp] Hw; split; [apply paper_kept; [done|apply Hw]|]; split; [done|]; exists (w_ok w); cbn; by rewrite Hp. Qed.

(** The same with the items left open; the document itself is one of them. *)
Definition drawn (j : option Z) (base : gmap Z json_allocation) (y : appliance) : Prop := exists items, drawing j base items y /\ item_of j items j.

Lemma drawn_on j base y y' : drawn j base y -> y_heap y' = y_heap y -> y_api y' = y_api y -> appliance_ok y' -> drawn j base y'.
Proof. intros (items & Hd & Hj) E Ea Hy; exists items; split; [|done]; by apply (drawing_on j base items y). Qed.

(** Writing on it keeps it. *)
Lemma draw_writing {Q : () -> appliance -> Prop} (c : SM paper ()) j base y : drawn j base y ->
  (forall items w, sheet header j base items (w_heap w) -> item_of j items j -> runs c w (λ _ w', exists items', sheet header j base (items' ++ items) (w_heap w'))) ->
  (forall y', drawn j base y' -> Q tt y') -> runs (in_paper c) y Q.
Proof.
  intros (items & (Hy & Hs & Hp) & Hj) Hc HQ; apply (draw_paper _ (λ _ w, exists items', sheet header j base (items' ++ items) (w_heap w))); [done|by apply Hc|].
  intros [] w [items' Hw]; apply HQ; exists (items' ++ items); split; [by apply paper_drawing|]; destruct j; [by apply elem_of_app; right|done].
Qed.

Lemma draw_all {Q : () -> appliance -> Prop} j base l y : drawn j base y -> Forall member_ok l -> (forall y', drawn j base y' -> Q tt y') -> runs (in_paper (put_all j l)) y Q.
Proof.
  intros Hd Hl HQ; apply (draw_writing _ j base); [done| |done]; intros items w Hw Hj; apply (runs_put_all header Hheader j base items); [done..|]; intros w' Hw'; by exists [].
Qed.

Lemma draw_one {Q : () -> appliance -> Prop} j base m y : drawn j base y -> member_ok m -> (forall y', drawn j base y' -> Q tt y') -> runs (in_paper (put j m)) y Q.
Proof.
  intros Hd Hm HQ; apply (draw_writing _ j base); [done| |done]; intros items w Hw Hj; apply (runs_put header Hheader j base items); [done..|]; intros w' Hw'; by exists [].
Qed.

Lemma draw_section {Q : () -> appliance -> Prop} j base key l y : drawn j base y -> Forall member_ok l -> (forall y', drawn j base y' -> Q tt y') -> runs (in_paper (put_section j key l)) y Q.
Proof.
  intros Hd Hl HQ; apply (draw_writing _ j base); [done| |done]; intros items w Hw Hj; unfold put_section; apply runs_bind; unfold put_object.
  apply (runs_section header Hheader _ (lit key) j base items j); [by left|done|done|..].
  - intros w' Hw'; apply runs_ret; by exists [].
  - intros a w' Hw'; apply (runs_put_all header Hheader j base (a :: items)); [left|done|done|]; intros w'' Hw''; by exists [a].
Qed.

Lemma draw_connect {Q : () -> appliance -> Prop} j base key d y : drawn j base y -> 0 ∈ d_edge_ip d -> (forall y', drawn j base y' -> Q tt y') -> runs (in_paper (connect_status j key d)) y Q.
Proof.
  intros Hd Hip HQ; apply (draw_writing _ j base); [done| |done]; intros items w Hw Hj; unfold connect_status; apply runs_bind; unfold put_object.
  apply (runs_section header Hheader _ (lit key) j base items j); [by left|done|done|..].
  - intros w' Hw'; apply runs_ret; by exists [].
  - intros a w' Hw'; apply runs_bind, (runs_put header Hheader j base (a :: items)); [done|left|done|]; intros w1 Hw1; apply runs_when; [|intros _; by exists [a]].
    intros _; apply (runs_put_all header Hheader j base (a :: items)); [left| |done|intros w2 Hw2; by exists [a]].
    repeat (apply Forall_cons_2; [by try apply text_nul|]); apply Forall_nil_2.
Qed.

Lemma draw_rows {Q : () -> appliance -> Prop} j base key rows y : drawn j base y -> Forall (Forall member_ok) rows -> (forall y', drawn j base y' -> Q tt y') ->
  runs (in_paper (a ← put_array j key; match a with Some a => put_rows a rows | None => mret tt end)) y Q.
Proof.
  intros Hd Hl HQ; apply (draw_writing _ j base); [done| |done]; intros items w Hw Hj; apply runs_bind; unfold put_array.
  apply (runs_section header Hheader _ (lit key) j base items j); [by right|done|done|..].
  - intros w' Hw'; apply runs_ret; by exists [].
  - intros a w' Hw'; apply (runs_put_rows header Hheader j base a rows Hl (a :: items)); [done|left|]; intros items' w'' Hw''; exists (items' ++ [a]); by rewrite <- app_assoc.
Qed.

Lemma draw_new {Q : option Z -> appliance -> Prop} y : appliance_ok y -> (exists b, y_api y = set_ok_flag b p) -> (forall j y', drawn j (blocks (y_heap y)) y' -> Q j y') -> runs (in_paper new_document) y Q.
Proof.
  intros Hy Hp HQ; apply (draw_paper _ (λ j w, exists items, sheet header j (blocks (y_heap y)) items (w_heap w) /\ item_of j items j)); [done| |].
  - apply (runs_new_document header Hheader); [apply Hy|]; intros j items w' Hw' Hj; by exists items.
  - intros j w (items & Hw & Hj); apply HQ; exists items; split; [by apply paper_drawing|done].
Qed.

End Drawing.

Lemma runs_network_snapshot {Q : monitor_network_snapshot -> appliance -> Prop} y : appliance_ok y ->
  (forall s, 0 ∈ ns_ssid_text s /\ 0 ∈ ns_ip_text s /\ 0 ∈ ns_gateway_text s /\ 0 ∈ ns_ap_ssid s -> Q s y) -> runs (in_network monitor_network_snapshot_get) y Q.
Proof.
  intros Hy HQ; destruct (yk_network _ Hy) as [[[_ Hi] [_ Hg] [[_ Hn] [_ Ha]] _ _] _ _]; apply runs_network_part; unfold monitor_network_snapshot_get.
  apply runs_bind, runs_asks, runs_bind, runs_asks, runs_bind, runs_asks, runs_ret; destruct y; apply HQ; cbn in *.
  by repeat case_match.
Qed.

End Access.

(** ** The theorem *)

(** C38. A host name is accepted exactly if it is empty, or has up to 253 characters
    in labels of 1 to 63 letters, digits and hyphens that neither begin nor end
    with a hyphen. *)
Theorem host_name_exact m t : cstr m t -> exists b, hostname_valid m = Some b /\ (b = true <-> host_name t).
Proof. apply host_name_valid_spec. Qed.

Lemma host_name_exact_witness : exists b, hostname_valid (cstring "monitor.example.com") = Some b /\ b = true /\ (b = true <-> host_name (lit "monitor.example.com")).
Proof.
  destruct (host_name_exact (cstring "monitor.example.com") (lit "monitor.example.com")) as (b & E & Hb); [apply cstr_cstring; no_nul|]; exists b; split; [exact E|]; split; [|exact Hb].
  assert (hostname_valid (cstring "monitor.example.com") = Some true) as E' by (by vm_compute); congruence.
Defined.
