(* ===== verification/MonitorHandlers.v ===== *)
(** The handlers of the API: each answers its request, and leaves the device in
    order, without a block of JSON more than before. *)
From stdpp Require Import gmap.
From Stdlib Require Import SpecFloat.
From S2P Require Export MonitorAccess.
#[local] Open Scope Z_scope.

(** The statuses of the API. *)
Definition reply_codes : list Z := [200; 400; 401; 403; 404; 409; 429; 500; 503].

Ltac reply_code := apply (bool_decide_unpack _); vm_compute; exact I.

(** The texts of members end inside their arrays. *)
Ltac members_ok := repeat (apply Forall_cons_2; [cbn [member_ok]; first [exact I|assumption|apply cstring_nul|apply text_nul]|]); apply Forall_nil_2.

Section Handlers.
Context (header : Z) (Hheader : 0 < header <= 64).
Context `{ChipLaws} `{KeeperLaws} `{RadioLaws} `{NvsLaws} `{MemoryLaws} `{JsonWriterLaws header} `{!JsonBlocks} `{UpdaterLaws} `{DriversLaws}.

Abbreviation device_ok := (appliance_ok header).

(** From [y] to [y']: in order, the same JSON blocks, the same sessions. *)
Record steady (y y' : appliance) : Prop := {
  sd_ok : device_ok y';
  sd_blocks : blocks (y_heap y') = blocks (y_heap y);
  sd_api : exists b, y_api y' = set_ok_flag b (y_api y)
}.

Lemma flag_same p : set_ok_flag (p_json_ok p) p = p.
Proof. by destruct p. Qed.

Lemma steady_refl y : device_ok y -> steady y y.
Proof. intros Hy; split; [done|done|]; exists (p_json_ok (y_api y)); by rewrite flag_same. Qed.

Lemma steady_trans y y1 y2 : steady y y1 -> steady y1 y2 -> steady y y2.
Proof. intros [_ B1 [b1 E1]] [O2 B2 [b2 E2]]; split; [done|congruence|]; exists b2; by rewrite E2, E1. Qed.

(** The request is answered, from [y] on. *)
Definition finished (y : appliance) (g : exchange) : Prop :=
  steady y (g_device g) /\ exists code text, code ∈ reply_codes /\ answers (g_reply g) code text.

Lemma refused_finished status message y y' a : steady y y' -> body_room a -> (0 ∉ lit message) -> zlen (lit message) <= 1000 -> code_of status ∈ reply_codes ->
  runs (refuse status message) (Exchange y' a) (λ _ g, finished y g).
Proof. intros Hy Ha Hn Hz Hc; apply runs_refuse_text; try done; intros a' Ha' _; split; [done|]; by eexists _, _. Qed.

Lemma accepted_finished y y' a : steady y y' -> body_room a -> runs accept (Exchange y' a) (λ _ g, finished y g).
Proof. intros Hy Ha; apply runs_accept; [done|]; intros a' Ha' _; split; [done|]; exists 200; eexists; split; [reply_code|exact Ha']. Qed.

Lemma sent_finished y y' j items a : device_ok y' -> (exists b, y_api y' = set_ok_flag b (y_api y)) -> body_room a -> sheet header j (blocks (y_heap y)) items (y_heap y') ->
  runs (send_json j) (Exchange y' a) (λ _ g, finished y g).
Proof.
  intros Hy [b Eb] Ha Hs; apply (runs_send_json header Hheader j (blocks (y_heap y)) items); try done; intros a' h Hh Hb _ (code & text & Hc & Ha'); split.
  - split; [by apply paper_kept|done|]; exists (p_json_ok (y_api y')); cbn; by rewrite Eb.
  - exists code, text; split; [destruct Hc as [->| ->]; reply_code|done].
Qed.

(** ** Steps that keep the device steady *)

Lemma steady_chip c y : device_ok y -> steady y (with_chip c y).
Proof. intros Hy; split; [by apply chip_kept|done|]; exists (p_json_ok (y_api y)); symmetry; apply flag_same. Qed.

Lemma runs_store {A} {Q : A -> appliance -> Prop} (c : SM nvs A) y : device_ok y -> runs c (y_nvs y) (λ x _, forall y', steady y y' -> Q x y') -> runs (in_vault (in_store c)) y Q.
Proof.
  intros Hy Hc; apply runs_vault, runs_in_store; eapply runs_mono; [exact Hc|]; intros x n HQ; apply HQ; split; [apply vault_in_order; [done|apply Hy]|done|].
  exists (p_json_ok (y_api y)); symmetry; apply flag_same.
Qed.

Lemma runs_fixture {A} {Q : A -> appliance -> Prop} (c : SM panel A) y : device_ok y -> runs c (y_panel y) (λ x p', fixtures_ok (pn_fixtures p') /\ forall y', steady y y' -> Q x y') -> runs (in_panel c) y Q.
Proof.
  intros Hy Hc; apply runs_panel; eapply runs_mono; [exact Hc|]; intros x p [Hp HQ]; apply HQ; split; [by apply panel_in_order|done|].
  exists (p_json_ok (y_api y)); symmetry; apply flag_same.
Qed.

Lemma runs_upload_part {A} {Q : A -> appliance -> Prop} (c : SM ota A) y : device_ok y -> runs c (y_ota y) (λ x o, upload_ok o /\ forall y', steady y y' -> Q x y') -> runs (in_ota c) y Q.
Proof.
  intros Hy Hc; apply runs_ota; eapply runs_mono; [exact Hc|]; intros x o [Ho HQ]; apply HQ; split; [by apply ota_kept|done|].
  exists (p_json_ok (y_api y)); symmetry; apply flag_same.
Qed.

(** The allocator's part of the device. *)
Lemma steady_memory m y : device_ok y -> steady y (with_vault (Vault (y_nvs y) m (y_heap y)) y).
Proof. intros Hy; split; [apply vault_in_order; [done|apply Hy]|done|]; exists (p_json_ok (y_api y)); symmetry; apply flag_same. Qed.

Lemma runs_calloc {Q : bool -> appliance -> Prop} n y : device_ok y -> (forall b y', steady y y' -> Q b y') -> runs (in_vault (calloc n)) y Q.
Proof.
  intros Hy HQ; apply runs_vault; unfold calloc; apply runs_calling; destruct (malloc n _) as [b m]; cbn; apply HQ; by apply (steady_memory m y).
Qed.

Lemma runs_discarded {Q : () -> appliance -> Prop} c y : device_ok y -> tunnel_shape c -> (forall y', steady y y' -> Q tt y') -> runs (in_vault (discard c)) y Q.
Proof. intros Hy Hc HQ; apply runs_vault, runs_discard; [done|]; apply HQ; cbn; by apply (steady_memory _ y). Qed.

(** ** The status *)

(** Steps beside the document. *)
Lemma draw_chip {A} {Q : A -> appliance -> Prop} p (f : chip -> A * chip) j base y : drawn header p j base y -> (forall x y', drawn header p j base y' -> Q x y') -> runs (on_chip f) y Q.
Proof. intros Hd HQ; apply runs_chip, HQ; apply (drawn_on header p j base y); [done..|]; apply chip_kept; by destruct Hd as (items & [] & _). Qed.

Lemma draw_milliseconds {Q : Z -> appliance -> Prop} p j base y : drawn header p j base y -> (forall x y', drawn header p j base y' -> Q x y') -> runs milliseconds y Q.
Proof. intros Hd HQ; unfold milliseconds; apply runs_bind, (draw_chip p _ j base); [done|]; intros t y' Hd'; by apply runs_ret, HQ. Qed.

Lemma drawn_ok p j base y : drawn header p j base y -> device_ok y.
Proof. by intros (items & [] & _). Qed.

Lemma draw_panel {A} {Q : A -> appliance -> Prop} p (c : SM panel A) j base y : drawn header p j base y -> runs c (y_panel y) (λ _ p', panel_kept (y_panel y) p') ->
  (forall x y', drawn header p j base y' -> Q x y') -> runs (in_panel c) y Q.
Proof.
  intros Hd Hc HQ; apply runs_panel; eapply runs_mono; [exact Hc|]; intros x b [Hb _]; apply HQ, (drawn_on header p j base y); [done..|]; apply panel_in_order; [by eapply drawn_ok|done].
Qed.

Lemma draw_vault {A} {Q : A -> appliance -> Prop} p (c : SM vault A) j base y (R : A -> Prop) : drawn header p j base y ->
  runs c (Vault (y_nvs y) (y_memory y) (y_heap y)) (λ x v, R x /\ va_heap v = y_heap y) -> (forall x y', R x -> drawn header p j base y' -> Q x y') -> runs (in_vault c) y Q.
Proof.
  intros Hd Hc HQ; apply runs_vault; eapply runs_mono; [exact Hc|]; intros x v [Hx Ev]; apply HQ; [done|]; apply (drawn_on header p j base y); [done..|].
  pose proof (drawn_ok _ _ _ _ Hd) as Hy; apply vault_in_order; [done|]; rewrite Ev; apply Hy.
Qed.

Lemma draw_snapshot {Q : monitor_ota_status -> appliance -> Prop} p j base y : drawn header p j base y -> (forall s y', texts_ok s -> drawn header p j base y' -> Q s y') -> runs (in_ota monitor_ota_snapshot) y Q.
Proof.
  intros Hd HQ; destruct (yk_ota _ _ (drawn_ok _ _ _ _ Hd)) as (m0 & h & Ho); destruct (y_ota y) as [u m] eqn:Eo; apply runs_ota; rewrite Eo; apply runs_snapshot; [apply (proj1 Ho)|].
  intros s _ _ Hs; apply HQ; [done|]; rewrite <- Eo; by destruct y.
Qed.

Ltac drawing y Hd := clear y Hd; intros y Hd.

(** The members of the status. *)
Lemma runs_status_members {Q : () -> appliance -> Prop} p j base setup admin remote net pins y : drawn header p j base y ->
  0 ∈ ns_ssid_text net /\ 0 ∈ ns_ip_text net /\ 0 ∈ ns_gateway_text net /\ 0 ∈ ns_ap_ssid net ->
  (forall y', drawn header p j base y' -> Q tt y') -> runs (status_members j setup admin remote net pins) y Q.
Proof.
  intros Hd (Hs & Hi & Hg & Ha) HQ; unfold status_members; apply runs_bind, (draw_panel p _ j base); [done|apply temperature_kept, (drawn_ok _ _ _ _ Hd)|]; intros temp; drawing y Hd.
  apply runs_bind, (draw_vault p _ j base _ (λ x, tunnel_shape x.2 /\ tunnel_valid x.2)); [done|apply runs_in_store, load_tunnel; intros rc c n Hl _; split; [split; [apply Hl|by eapply tunnel_loaded_valid]|done]|].
  clear y Hd; intros [rc config] y [Hshape [_ Hhost]] Hd; apply runs_bind, (draw_milliseconds p j base); [done|]; intros uptime; drawing y Hd; apply runs_bind, runs_asks.
  apply runs_bind, (draw_all header Hheader p j base); [done|members_ok|]; drawing y Hd.
  apply runs_bind, (draw_one header Hheader p j base); [done|unfold temperature_member; by case_match|]; drawing y Hd.
  apply runs_bind, (draw_all header Hheader p j base); [done|members_ok|]; drawing y Hd.
  apply runs_bind, (draw_milliseconds p j base); [done|]; intros now; drawing y Hd.
  do 2 (apply runs_bind, (draw_chip p _ j base); [done|]; intros ?; drawing y Hd).
  apply runs_bind, (draw_all header Hheader p j base); [done|members_ok|]; drawing y Hd; apply runs_bind, runs_asks.
  destruct (keeper_snapshot _ (yk_keeper _ _ (drawn_ok _ _ _ _ Hd))) as (Hm & He & Hl & Hf & Hc1 & Hc2); set (t := monitor_tunnel_snapshot _) in *; clearbody t.
  apply runs_bind, (draw_all header Hheader p j base); [done|unfold tunnel_members; members_ok|]; drawing y Hd.
  apply runs_bind, (draw_connect header Hheader p j base); [done..|]; drawing y Hd; apply runs_bind, (draw_connect header Hheader p j base); [done..|]; drawing y Hd.
  apply runs_bind, (draw_snapshot p j base); [done|]; intros update; clear y Hd; intros y ([_ Hum] & [_ Hur] & [_ Hut] & [_ Huv]) Hd.
  apply runs_bind, (draw_section header Hheader p j base); [done|unfold ota_members; members_ok|]; drawing y Hd.
  apply runs_bind; destruct (rd_Some (tc_token config) 0) as (first & Ef & _); [destruct Hshape as [Hz _]; cbn in Hz; lia|]; eapply runs_checked; [exact Ef|].
  apply runs_bind, (draw_all header Hheader p j base); [done|members_ok|]; drawing y Hd.
  apply runs_bind, (draw_vault p _ j base _ (λ _, True)); [done|by apply runs_discard|]; clear y Hd; intros [] y _ Hd.
  apply runs_bind, (draw_rows header Hheader p j base); [done|apply Forall_map, Forall_forall; intros g _; unfold gpio_members; members_ok|]; drawing y Hd.
  apply runs_bind, (draw_panel p _ j base); [done|apply runs_bind, runs_fixtures, runs_ret, panel_refl, (drawn_ok _ _ _ _ Hd)|]; intros rgb; drawing y Hd.
  apply (draw_section header Hheader p j base); [done|unfold rgb_members; members_ok|exact HQ].
Qed.

(** The whole status, or nothing when there is no memory for it. *)
Lemma runs_status_object {Q : option Z -> appliance -> Prop} setup admin remote y : device_ok y ->
  (forall j y', drawn header (y_api y) j (blocks (y_heap y)) y' -> Q j y') -> runs (status_object setup admin remote) y Q.
Proof.
  intros Hy HQ; unfold status_object; apply runs_bind, (runs_network_snapshot header); [done|]; intros net Hnet.
  apply runs_bind; destruct (io_snapshot_spec (y_panel y) (yk_panel _ _ Hy)) as (pins & Ep & _ & _); apply (runs_fixture _ y Hy); exists pins, (y_panel y); split; [exact Ep|].
  split; [apply Hy|]; intros y1 S1; apply runs_bind, runs_calloc; [apply S1|]; intros block y2 S2; pose proof (steady_trans _ _ _ S1 S2) as [O2 B2 A2].
  apply runs_bind, (draw_new header Hheader (y_api y)); [done|done|]; rewrite B2; intros j y3 Hd.
  assert (forall y4, drawn header (y_api y) j (blocks (y_heap y)) y4 -> runs (in_paper (delete_document j);; mret None) y4 Q) as Hdelete.
  { intros y4 (items & (O4 & Hs & b & Ab) & Hj); apply runs_bind, runs_paper, (runs_delete_document header Hheader j (blocks (y_heap y)) items); [done|]; intros h Hh Hb; apply runs_ret, HQ.
    exists []; split; [|done]; split; [by apply paper_kept|]; split; [by split; [|by split]|]; exists (p_json_ok (y_api y4)); cbn; by rewrite Ab. }
  assert (runs (when block (in_vault (modify (λ v, Vault (va_nvs v) (free (replicate (Z.to_nat SIZEOF_TUNNEL) 0) (va_memory v)) (va_heap v))));; in_paper (delete_document j);; mret None) y3 Q) as Hnone.
  { apply runs_bind, runs_when; [|intros _; by apply Hdelete]; intros _; apply (draw_vault (y_api y) _ j (blocks (y_heap y)) _ (λ _, True)); [done|by apply runs_modify|]; intros [] y4 _ Hd4; by apply Hdelete. }
  destruct j as [j|]; [|exact Hnone]; destruct block; [|exact Hnone]; apply runs_bind, (runs_status_members (y_api y) (Some j) (blocks (y_heap y))); [done|done|]; intros y4 Hd4; by apply runs_ret, HQ.
Qed.

Lemma drawn_finished y y' j a : drawn header (y_api y) j (blocks (y_heap y)) y' -> body_room a -> runs (send_json j) (Exchange y' a) (λ _ g, finished y g).
Proof. intros (items & (Hy & Hs & Hp) & _) Ha; by apply (sent_finished y y' j items). Qed.

Lemma status_finished q y a : device_ok y -> body_room a -> runs (status_get q) (Exchange y a) (λ _ g, finished y g).
Proof.
  intros Hy Ha; unfold status_get; apply runs_bind, runs_device_part, runs_status_object; [done|]; intros j y' Hd; by apply drawn_finished.
Qed.

(** ** Changes *)

(** A refusal, or an acceptance, after steady steps. *)
Ltac refused := apply refused_finished; [assumption || (apply steady_refl; assumption)|assumption|no_nul|by vm_compute|reply_code].

(** [string_member], [member_of] and the keys of a body are read. *)
Lemma runs_string {Q : option (list Z) -> exchange -> Prop} j key g : item_ok j -> (0 ∉ lit key) ->
  (forall v, (forall x, v = Some x -> exists t, cstr x t /\ bytes_ok t) -> string_member j key = Some v -> Q v g) -> runs (checked (string_member j key)) g Q.
Proof. intros Hj Hk HQ; destruct (string_total j key Hj Hk) as (v & E & Hv); eapply runs_checked; [exact E|]; by apply HQ. Qed.

Lemma runs_member {Q : option json -> exchange -> Prop} j key g : item_ok j -> (0 ∉ lit key) -> (forall v, item_ok v -> Q v g) -> runs (checked (member_of j key)) g Q.
Proof. intros Hj Hk HQ; destruct (member_total j key Hj Hk) as (v & E & Hv); eapply runs_checked; [exact E|]; by apply HQ. Qed.

Lemma runs_keys {Q : bool -> exchange -> Prop} j l g : item_ok j -> Forall (λ k, 0 ∉ lit k) l -> (forall b, Q b g) -> runs (checked (cf_json_keys j (keys_of l))) g Q.
Proof. intros Hj Hl HQ; destruct (keys_total j l Hj Hl) as [b E]; eapply runs_checked; [exact E|]; by apply HQ. Qed.

Lemma runs_integer {Q : option Z -> exchange -> Prop} v g : item_ok v -> (forall n, (forall x, n = Some x -> INT32_MIN <= x <= INT32_MAX) -> Q n g) -> runs (checked (integer_item v)) g Q.
Proof. intros Hv HQ; destruct (integer_total v Hv) as (n & E & Hn); eapply runs_checked; [exact E|]; by apply HQ. Qed.

Ltac keys_ok := repeat (apply Forall_cons_2; [no_nul|]); apply Forall_nil_2.

Lemma scan_post_finished y a : device_ok y -> body_room a -> runs scan_post (Exchange y a) (λ _ g, finished y g).
Proof.
  intros Hy Ha; unfold scan_post; apply runs_bind, runs_device_part, runs_network_part; unfold monitor_network_scan; apply runs_bind, runs_network; cbn [x_net].
  assert (forall rc n, station_ok n -> runs (if rc =? ESP_OK then accept else refuse "409 Conflict" "Wi-Fi is busy. Wait for the current connection or scan to finish.")
    (Exchange (with_net (Net n (y_radio y) (y_nvs y)) y) a) (λ _ g, finished y g)) as Hend.
  { intros rc n Hn; assert (steady y (with_net (Net n (y_radio y) (y_nvs y)) y)) by (split; [by apply net_kept|done|]; exists (p_json_ok (y_api y)); symmetry; apply flag_same).
    case_match; [by apply accepted_finished|refused]. }
  pose proof (yk_network _ _ Hy) as Hn; case_match; [by apply runs_ret, Hend|].
  apply runs_bind, runs_network_change, runs_ret, Hend; by apply requests_ok, scanning_ok.
Qed.

Lemma gpio_finished j y a : device_ok y -> body_room a -> item_ok j -> runs (gpio_post j) (Exchange y a) (λ _ g, finished y g).
Proof.
  intros Hy Ha Hj; unfold gpio_post; do 3 (apply runs_bind, runs_member; [done|no_nul|]; intros ? ?); apply runs_bind, runs_keys; [done|keys_ok|]; intros good.
  assert (runs gpio_refused (Exchange y a) (λ _ g, finished y g)) as Hno by (unfold gpio_refused; refused).
  destruct good; cbn [negb]; [|exact Hno]; do 3 (apply runs_bind, runs_integer; [done|]; intros [?|] _); try exact Hno.
  apply runs_bind, runs_device_part, runs_fixture; [done|]; eapply runs_mono; [apply io_set_kept, Hy|]; intros rc p [[Hp _] _]; split; [done|]; intros y' S.
  case_match; [unfold gpio_refused; refused|by apply accepted_finished].
Qed.

Lemma rgb_values_total j keys : item_ok j -> Forall (λ k : string * Z, 0 ∉ lit k.1) keys ->
  exists r, rgb_values j keys = Some r /\ forall l, r = Some l -> length l = length keys /\ Forall (λ n, 0 <= n) l.
Proof.
  intros Hj; induction 1 as [|[key most] keys Hk _ (r & E & Hr)]; cbn [rgb_values]; [exists (Some []); split; [done|]; by intros l [= <-]|].
  destruct (member_total j key Hj Hk) as (v & Ev & Hv); destruct (integer_total v Hv) as (n & En & _); unfold member_of in *; rewrite Ev; cbn [mbind option_bind]; rewrite En; cbn [mbind option_bind]; rewrite E; cbn [mbind option_bind].
  eexists; split; [done|]; intros l; destruct n as [n|]; [|done]; destruct r as [rest|]; [|done]; destruct (Z.ltb_spec n 0); [done|]; destruct (Z.ltb_spec most n); [done|].
  intros [= <-]; destruct (Hr rest eq_refl) as [El Hl]; split; [cbn; congruence|by constructor].
Qed.

Lemma rgb_finished j y a : device_ok y -> body_room a -> item_ok j -> runs (rgb_post j) (Exchange y a) (λ _ g, finished y g).
Proof.
  intros Hy Ha Hj; unfold rgb_post; apply runs_bind, runs_member; [done|no_nul|]; intros on Hon; apply runs_bind, runs_keys; [done|keys_ok|]; intros good.
  destruct (rgb_values_total j [("red"%string, 255); ("green"%string, 255); ("blue"%string, 255); ("brightness"%string, 100)] Hj) as (r & E & Hr); [keys_ok|].
  apply runs_bind; eapply runs_checked; [exact E|]; set (refused := refuse _ _).
  assert (runs refused (Exchange y a) (λ _ g, finished y g)) as Hno by (unfold refused; refused).
  destruct r as [l|]; [|exact Hno]; destruct (Hr l eq_refl) as [_ Hl]; destruct l as [|r [|g [|b [|w [|? ?]]]]]; try exact Hno.
  case_match; [exact Hno|]; apply Forall_cons_1 in Hl as [Hl1 Hl]; apply Forall_cons_1 in Hl as [Hl2 Hl]; apply Forall_cons_1 in Hl as [Hl3 Hl]; apply Forall_cons_1 in Hl as [Hl4 _].
  apply runs_bind, runs_device_part, runs_fixture; [done|]; eapply runs_mono; [by apply led_set_kept; [apply Hy|..]|]; intros rc p [[Hp _] _]; split; [done|]; intros y' S.
  case_match; [refused|by apply accepted_finished].
Qed.

(** The Wi-Fi settings. *)
Lemma wifi_value_total ssid pass open saved name secret : cstr ssid name -> cstr pass secret -> 0 < zlen name <= 32 -> zlen secret <= 63 -> wifi_shape saved -> 0 ∈ wc_ssid saved -> 0 ∈ wc_password saved ->
  exists v, wifi_value ssid pass open saved = Some v /\ 0 ∈ wc_password v /\ wifi_shape v /\ cstr (wc_ssid v) name.
Proof.
  intros Hs Hp Hn Hk [_ Hz] Hs' Hp'; unfold wifi_value; rewrite (c_string_spec _ _ Hs), (c_string_spec _ _ Hp); cbn [mbind option_bind].
  destruct (blit_Some (wc_ssid zero_wifi) 0 name) as [array Ea]; [lia|change (zlen (wc_ssid zero_wifi)) with 33; lia|]; rewrite Ea; cbn [mbind option_bind].
  assert (cstr array name /\ zlen array = 33) as [Hname Hza].
  { split; [|exact (zlen_blit _ _ _ _ Ea)]; rewrite (blit_0 _ _ _ Ea); cbn [zero_wifi wc_ssid]; rewrite drop_replicate; replace (33 - length name)%nat with (S (32 - length name)) by (unfold zlen in Hn; lia).
    destruct Hs as (rest & _ & Hno); by exists (replicate (32 - length name) 0). }
  assert (forall text, zlen text <= 63 -> exists s, blit (wc_password zero_wifi) 0 text = Some s /\ 0 ∈ s /\ zlen s = 64) as Hblit.
  { intros text Ht; destruct (blit_Some (wc_password zero_wifi) 0 text) as [s Es]; [lia|change (zlen (wc_password zero_wifi)) with 64; lia|]; exists s; split; [done|]; split; [|exact (zlen_blit _ _ _ _ Es)].
    rewrite (blit_0 _ _ _ Es); apply elem_of_app; right; cbn [zero_wifi wc_password]; rewrite drop_replicate; apply elem_of_replicate; split; [done|unfold zlen in Ht; lia]. }
  destruct open; [cbn [mbind option_bind]; eexists; split; [done|]; cbn; split; [by left|]; by split|].
  destruct Hp as (rest & Epass & Hno); destruct (rd_Some pass 0) as (c & Ec & _); [rewrite Epass, zlen_app, zlen_cons; pose proof (zlen_nonneg rest); pose proof (zlen_nonneg secret); lia|]; rewrite Ec; cbn [mbind option_bind].
  assert (exists same, (if c =? 0 then streq (wc_ssid saved) ssid else Some false) = Some same) as [same ->].
  { destruct (c =? 0); [|by eexists]; destruct (terminated_cstr _ Hs') as [t Ht]; eexists; by apply (streq_spec _ _ t name). }
  cbn [mbind option_bind]; destruct (same && _).
  - destruct (blit_Some (wc_password zero_wifi) 0 (wc_password saved)) as [s Es]; [lia|change (zlen (wc_password zero_wifi)) with 64; lia|]; rewrite Es; cbn [mbind option_bind].
    eexists; split; [done|]; cbn [wc_password wc_ssid]; split; [rewrite (blit_0 _ _ _ Es); apply elem_of_app; by left|]; split; [split; [done|exact (zlen_blit _ _ _ _ Es)]|done].
  - destruct (Hblit secret) as (s & Es & Hs0 & Hzs); [lia|]; rewrite Es; cbn [mbind option_bind]; eexists; split; [done|]; by split.
Qed.

Lemma wifi_finished j y a : device_ok y -> body_room a -> item_ok j -> runs (wifi_post j) (Exchange y a) (λ _ g, finished y g).
Proof.
  intros Hy Ha Hj; unfold wifi_post; apply runs_bind, runs_string; [done|no_nul|]; intros ssid Hssid _; apply runs_bind, runs_string; [done|no_nul|]; intros pass Hpass _.
  apply runs_bind, runs_member; [done|no_nul|]; intros open Hopen; apply runs_bind, runs_keys; [done|keys_ok|]; intros good.
  assert (runs wifi_refused (Exchange y a) (λ _ g, finished y g)) as Hno by (unfold wifi_refused; refused).
  destruct good; cbn [negb]; [|exact Hno]; destruct ssid as [ssid|]; [|exact Hno]; destruct pass as [pass|]; [|exact Hno].
  destruct (Hssid ssid eq_refl) as (name & Hname & _), (Hpass pass eq_refl) as (secret & Hsecret & _).
  apply runs_bind; eapply runs_checked; [by apply strlen_spec|]; apply runs_bind; eapply runs_checked; [by apply strlen_spec|].
  destruct ((zlen name =? 0) || _ || _ || _) eqn:Earg; [exact Hno|]; pose proof (zlen_nonneg name); assert (0 < zlen name <= 32 /\ zlen secret <= 63) as [Hn Hk] by lia.
  apply runs_bind, runs_device_part, runs_store; [done|]; apply load_wifi; intros rc saved n Hl _ y1 S1; pose proof (wifi_loaded_valid _ _ _ Hl) as [Hv1 Hv2].
  destruct (wifi_value_total ssid pass (cf_cJSON_IsTrue open) saved name secret) as (v & Ev & Hvp & _ & _); try done; [apply Hl|]; apply runs_bind; eapply runs_checked; [exact Ev|].
  destruct (terminated_cstr _ Hvp) as [t Ht]; apply runs_bind; eapply runs_checked; [by apply strlen_spec|]; case_match; [refused|].
  apply runs_bind, runs_device_part, runs_store; [apply S1|]; apply save_wifi; intros rc' n' _ _ y2 S2; pose proof (steady_trans _ _ _ S1 S2); case_match; [refused|].
  apply runs_bind, runs_add_effect; [done|]; intros a' Ha' _; by apply accepted_finished.
Qed.

(** The tunnel's settings. *)
Lemma token_blocks token scratch cap out diagnostic h run : cf_credentials_parse_ex token scratch cap out diagnostic h = Some run -> blocks (tr_heap run) = blocks h.
Proof.
  assert (forall root rc why m d h1, match root with Some j => parsed (blocks h) j h1 | None => blocks h1 = blocks h end ->
    forall c, token_done root rc why m cap c d h1 = Some run -> blocks (tr_heap run) = blocks h) as Hdone.
  { intros root rc why m d h1 Hp c E; unfold token_done in E; destruct (cf_json_delete_secret root h1) as [h2|] eqn:Ed; [|done]; cbn [mbind option_bind] in E.
    destruct (cf_secure_zero m cap); [|done]; injection E as <-; cbn [tr_heap]; destruct root as [j|]; [by eapply deleted_parsed|]; injection Ed as <-; by rewrite delete_null. }
  unfold cf_credentials_parse_ex; intros E; destruct out as [out|]; [|by injection E as <-]; destruct scratch as [m|]; [|by injection E as <-].
  destruct (_ || _) in E; [by injection E as <-|]; destruct (_ || _) in E; [by eapply Hdone in E|].
  destruct (cf_base64_decode _ _ _ _ _) as [[[rc n] m1]|]; [|done]; cbn [mbind option_bind] in E; destruct n as [n|]; [|done]; destruct m1 as [m1|]; [|done]; cbn [mbind option_bind] in E.
  destruct (negb _) in E; [by eapply Hdone in E|]; destruct (wr m1 n 0) as [m2|]; [|done]; cbn [mbind option_bind] in E.
  destruct (cf_json_parse _ h) as [[root h1]|] eqn:Ep; [|done]; cbn [mbind option_bind] in E; apply (json_parse_blocks header) in Ep.
  destruct root as [root|]; [|by eapply Hdone in E]; destruct (field_stage root) as [[[rc1 why]|c]|]; [by eapply Hdone in E|by eapply Hdone in E|done].
Qed.

Lemma runs_token {Q : option (cf_result * cf_token_diagnostic) -> appliance -> Prop} token text y : device_ok y -> cstr token text -> bytes_ok text ->
  (forall why y', steady y y' -> Q why y') -> runs (token_diagnostic token) y Q.
Proof.
  intros Hy Ht Hb HQ; unfold token_diagnostic; apply runs_bind; eapply runs_checked; [by apply c_string_spec|]; destruct Ht as (rest & -> & _).
  destruct (parse_token_spec header Hheader (Bytes (Some (text ++ 0 :: rest)) (zlen text)) text (uninitialized (CF_TOKEN_JSON_MAX + 1)) (CF_TOKEN_JSON_MAX + 1) zero_credentials (Some CF_TOKEN_FIELDS) (y_heap y))
    as (run & E & _ & Hh & _ & Hwhy & _); [apply Hy|split; [done|]; split; [done|by exists (0 :: rest)]|rewrite uninitialized_law by done; lia|].
  apply runs_bind, runs_vault; eapply runs_performing; [cbn [va_heap]; rewrite E; reflexivity|]; cbn beta.
  assert (steady y (with_vault (Vault (y_nvs y) (y_memory y) (tr_heap run)) y)) as S.
  { split; [by apply vault_in_order|exact (token_blocks _ _ _ _ _ _ _ E)|]; exists (p_json_ok (y_api y)); symmetry; apply flag_same. }
  destruct (tr_diagnostic run) as [why|]; [|by rewrite bool_decide_eq_true_2 in Hwhy by done]; apply runs_bind; eapply runs_checked; [done|]; by apply runs_ret, HQ.
Qed.

Lemma tunnel_value_total token host clear saved text name : cstr token text -> cstr host name -> zlen text <= CF_TOKEN_MAX -> zlen name <= 253 -> tunnel_shape saved ->
  exists v, tunnel_value token host clear saved = Some v /\ tunnel_shape v.
Proof.
  intros Ht Hn Hz Hzn [Hzt Hzh]; unfold tunnel_value, CF_TOKEN_MAX in *; rewrite (c_string_spec _ _ Ht), (c_string_spec _ _ Hn); cbn [mbind option_bind].
  destruct Ht as (rest & Et & _); destruct (rd_Some token 0) as (c & -> & _); [rewrite Et, zlen_app, zlen_cons; pose proof (zlen_nonneg rest); pose proof (zlen_nonneg text); lia|]; cbn [mbind option_bind].
  rewrite (erased_all _ _ Hzt); cbn [mbind option_bind].
  assert (exists stored, (if clear then Some (replicate (Z.to_nat 1025) 0) else if negb (c =? 0) then blit (replicate (Z.to_nat 1025) 0) 0 text else Some (tc_token saved)) = Some stored /\ zlen stored = 1025) as (stored & -> & Hs).
  { destruct clear; [eexists; split; [done|by rewrite zlen_replicate]|]; case_match; [|by eexists].
    destruct (blit_Some (replicate (Z.to_nat 1025) 0) 0 text) as [s Es]; [lia|rewrite zlen_replicate; lia|]; exists s; split; [done|]; rewrite (zlen_blit _ _ _ _ Es), zlen_replicate; lia. }
  cbn [mbind option_bind]; unfold zero_fill; cbn [Z.ltb Z.compare]; destruct (blit_Some (tc_hostname saved) 0 (replicate (Z.to_nat 254) 0)) as [zeros Ez]; [lia|rewrite zlen_replicate; lia|]; rewrite Ez; cbn [mbind option_bind].
  pose proof (zlen_blit _ _ _ _ Ez); destruct (blit_Some zeros 0 name) as [h Eh]; [lia|lia|]; rewrite Eh; cbn [mbind option_bind]; eexists; split; [done|]; split; [done|]; cbn; rewrite (zlen_blit _ _ _ _ Eh); lia.
Qed.

Lemma save_tunnel_finished token host clear text name y a : device_ok y -> body_room a -> cstr token text -> cstr host name -> zlen text <= CF_TOKEN_MAX -> zlen name <= 253 ->
  runs (save_tunnel_change token host clear) (Exchange y a) (λ _ g, finished y g).
Proof.
  intros Hy Ha Ht Hn Hz Hzn; unfold save_tunnel_change; apply runs_bind, runs_device_part, runs_calloc; [done|]; intros block y1 S1; destruct block; cbn [negb]; [|refused].
  apply runs_bind, runs_device_part, runs_store; [apply S1|]; apply load_tunnel; intros rc saved n Hl _ y2 S2; pose proof (steady_trans _ _ _ S1 S2) as S3.
  destruct (tunnel_value_total token host clear saved text name) as (v & Ev & Hv); try done; [apply Hl|]; apply runs_bind; eapply runs_checked; [exact Ev|].
  apply runs_bind, runs_device_part, runs_store; [apply S3|]; apply save_tunnel; intros rc' n' _ _ y4 S4; pose proof (steady_trans _ _ _ S3 S4) as S5.
  apply runs_bind, runs_device_part, runs_discarded; [apply S5|done|]; intros y6 S6; pose proof (steady_trans _ _ _ S5 S6); case_match; [|refused].
  apply runs_bind, runs_add_effect; [done|]; intros a' Ha' _; by apply accepted_finished.
Qed.

Lemma tunnel_finished j y a : device_ok y -> body_room a -> item_ok j -> runs (tunnel_post j) (Exchange y a) (λ _ g, finished y g).
Proof.
  intros Hy Ha Hj; unfold tunnel_post; apply runs_bind, runs_string; [done|no_nul|]; intros token Htoken _; apply runs_bind, runs_string; [done|no_nul|]; intros host Hhost _.
  apply runs_bind, runs_member; [done|no_nul|]; intros clear Hclear; apply runs_bind, runs_keys; [done|keys_ok|]; intros good.
  assert (runs tunnel_refused (Exchange y a) (λ _ g, finished y g)) as Hno by (unfold tunnel_refused; refused).
  destruct good; cbn [negb]; [|exact Hno]; destruct token as [token|]; [|exact Hno]; destruct host as [host|]; [|exact Hno]; destruct (cf_cJSON_IsBool clear); cbn [negb]; [|exact Hno].
  destruct (Htoken token eq_refl) as (text & Htext & Hbytes), (Hhost host eq_refl) as (name & Hname & _); apply runs_bind; eapply runs_checked; [by apply strlen_spec|].
  destruct (Z.ltb_spec CF_TOKEN_MAX (zlen text)); [exact Hno|]; destruct (host_name_valid_spec host name Hname) as (valid & Evalid & Hvalid); apply runs_bind; eapply runs_checked; [exact Evalid|].
  destruct Htext as (rest & Etoken & Hn); pose proof (zlen_nonneg rest); pose proof (zlen_nonneg text); destruct (rd_Some token 0) as (first & Ef & _); [rewrite Etoken, zlen_app, zlen_cons; lia|].
  apply runs_bind; eapply runs_checked; [exact Ef|]; destruct valid; cbn [negb orb]; [|exact Hno]; destruct (_ && _); [exact Hno|].
  assert (zlen name <= 253) as Hz by (destruct (proj1 Hvalid eq_refl) as [->|[? _]]; [done|done]).
  assert (forall y', steady y y' -> runs (save_tunnel_change token host (cf_cJSON_IsTrue clear)) (Exchange y' a) (λ _ g, finished y g)) as Hsave.
  { intros y' S; eapply runs_mono; [apply (save_tunnel_finished token host _ text name); try done; [apply S|by exists rest]|]; intros [] g [Sg Hg]; split; [by eapply steady_trans|done]. }
  apply runs_bind; destruct (first =? 0); [by apply runs_ret, Hsave, steady_refl|]; apply runs_device_part, (runs_token token text); [done|by exists rest|done|].
  intros [[rc why]|] y' S; [|by apply Hsave]; apply refused_finished; [done|done|by destruct why; no_nul|by destruct why|by case_bool_decide; reply_code].
Qed.

(** ** The firmware upload *)

(** A call of the upload, for this request. *)
Definition upload_answered (y : appliance) (o : upload_outcome) (g : exchange) : Prop :=
  match o with Refused => finished y g | Done _ id => steady y (g_device g) /\ body_room (g_reply g) /\ forall i, id = Some i -> 0 ∈ i end.

Lemma upload_refused status message y a : device_ok y -> body_room a -> (0 ∉ lit message) -> zlen (lit message) <= 1000 -> code_of status ∈ reply_codes ->
  runs (refuse status message;; mret Refused) (Exchange y a) (upload_answered y).
Proof.
  intros Hy Ha Hn Hz Hc; apply runs_bind; eapply runs_mono; [apply (refused_finished status message y y a); try done; by apply steady_refl|]; intros [] g Hg; by apply runs_ret.
Qed.

(** The upload of a device in order. *)
Lemma runs_upload_call {A} {Q : A -> appliance -> Prop} (c : SM ota A) y (R : A -> Prop) : device_ok y ->
  (forall m0 h u m, in_order m0 h (Ota u m) -> runs c (Ota u m) (λ x o, R x /\ exists h', in_order m0 h' o)) -> (forall x y', R x -> steady y y' -> Q x y') -> runs (in_ota c) y Q.
Proof.
  intros Hy Hc HQ; destruct (yk_ota _ _ Hy) as (m0 & h & Ho); apply runs_upload_part; [done|]; destruct (y_ota y) as [u m]; eapply runs_mono; [by eapply Hc|].
  intros x o [Hx [h' Ho']]; split; [by exists m0, h'|]; intros y' S; by apply HQ.
Qed.

Lemma string_id v : (forall x, v = Some x -> exists t, cstr x t /\ bytes_ok t) -> id_ok v.
Proof. intros Hv i E; destruct (Hv i E) as (t & (rest & -> & _) & _); apply elem_of_app; right; by left. Qed.

Ltac upload_refused := apply upload_refused; [assumption|assumption|no_nul|by vm_compute|reply_code].

Lemma ota_start_answered j y a : device_ok y -> body_room a -> item_ok j -> runs (ota_start_post j) (Exchange y a) (upload_answered y).
Proof.
  intros Hy Ha Hj; unfold ota_start_post; apply runs_bind, runs_member; [done|no_nul|]; intros size Hsize; apply runs_bind, runs_keys; [done|keys_ok|]; intros good.
  apply runs_bind, runs_integer; [done|]; intros [n|] Hn; [|upload_refused]; specialize (Hn n eq_refl); destruct (negb good || (n <=? 0)) eqn:Earg; [upload_refused|]; assert (0 < n) by lia.
  apply runs_bind, runs_string; [done|no_nul|]; intros sha Hsha _; apply runs_bind, runs_device_part.
  apply (runs_upload_call _ _ (λ x, x.1 = true -> 0 ∈ x.2)); [done| |].
  - intros m0 h u m Ho; apply (runs_start m0 h); [done|unfold SIZE_MAX, INT32_MAX in *; lia|exact (string_id _ Hsha)|]; intros r id o Hin Hid; by split; [|eexists].
  - intros [[] id] y' Hid S; apply runs_ret; (split; [done|]; split; [done|]); intros i [= <-]; by apply Hid.
Qed.

Lemma ota_chunk_answered j y a : device_ok y -> body_room a -> item_ok j -> runs (ota_chunk_post j) (Exchange y a) (upload_answered y).
Proof.
  intros Hy Ha Hj; unfold ota_chunk_post; apply runs_bind, runs_member; [done|no_nul|]; intros offset Hoff; apply runs_bind, runs_string; [done|no_nul|]; intros data Hdata _.
  apply runs_bind, runs_keys; [done|keys_ok|]; intros good; apply runs_bind, runs_integer; [done|]; intros n _.
  assert (runs chunk_refused (Exchange y a) (upload_answered y)) as Hno by (unfold chunk_refused; upload_refused).
  destruct n as [n|]; [|exact Hno]; destruct data as [data|]; [|exact Hno]; destruct (Hdata data eq_refl) as (text & Htext & _); apply runs_bind; eapply runs_checked; [by apply strlen_spec|].
  case_match; [exact Hno|]; apply runs_bind; eapply runs_checked; [by apply c_string_spec|]; destruct (mbedtls_base64_decode MONITOR_OTA_CHUNK text) as [rc bytes] eqn:Edec.
  assert (zlen bytes <= MONITOR_OTA_CHUNK) as Hz by (pose proof (base64_law MONITOR_OTA_CHUNK text ltac:(done)) as Hl; by rewrite Edec in Hl).
  destruct (blit_Some (uninitialized MONITOR_OTA_CHUNK) 0 bytes) as [buffer Eb]; [lia|rewrite uninitialized_law by done; lia|]; pose proof (zlen_blit _ _ _ _ Eb) as Hzb; rewrite uninitialized_law in Hzb by done.
  apply runs_bind; eapply runs_checked; [exact Eb|]; destruct (rc =? 0); cbn [negb]; [|exact Hno]; apply runs_bind, runs_string; [done|no_nul|]; intros id Hid _.
  apply runs_bind, runs_device_part, (runs_upload_call _ _ (λ _, True)); [done| |].
  - intros m0 h u m Ho; apply (runs_write m0 h); [done|exact (string_id _ Hid)|apply zlen_nonneg|intros b [= <-]; lia|]; intros r o _ Hin; by split; [|eexists].
  - intros success y' _ S; apply runs_bind; eapply runs_checked; [by apply erased_all|]; apply runs_ret; split; [done|]; by split.
Qed.

Lemma runs_uri {Q : bool -> exchange -> Prop} uri text s g : cstr uri text -> (0 ∉ lit s) -> Q (bool_decide (text = lit s)) g -> runs (checked (streq uri (cstring s))) g Q.
Proof. intros Hu Hs HQ; eapply runs_checked; [by apply streq_spec; [|apply cstr_cstring]|done]. Qed.

Lemma ota_other_answered uri text j y a : device_ok y -> body_room a -> item_ok j -> cstr uri text -> runs (ota_other_post uri j) (Exchange y a) (upload_answered y).
Proof.
  intros Hy Ha Hj Huri; unfold ota_other_post; apply runs_bind, runs_keys; [done|keys_ok|]; intros good; destruct good; cbn [negb]; [|upload_refused].
  apply runs_bind, runs_string; [done|no_nul|]; intros id Hid%string_id _; apply runs_bind, (runs_uri _ text); [done|no_nul|]; case_bool_decide.
  - apply runs_bind, runs_device_part, (runs_upload_call _ _ (λ _, True)); [done|intros m0 h u m Ho; apply (runs_finish m0 h); [done..|]; intros r o _ Hin; by split; [|eexists]|].
    intros success y' _ S; apply runs_bind, runs_when; [|intros _; apply runs_ret; by split_and!]; intros _; apply runs_add_effect; [done|]; intros a' Ha' _; apply runs_ret; by split_and!.
  - apply runs_bind, (runs_uri _ text); [done|no_nul|]; case_bool_decide; [|upload_refused].
    apply runs_bind, runs_device_part, (runs_upload_call _ _ (λ _, True)); [done|intros m0 h u m Ho; apply (runs_abort m0 h); [done..|]; intros r o _ Hin; by split; [|eexists]|].
    intros success y' _ S; apply runs_ret; by split_and!.
Qed.

Lemma ota_finished uri text j y a : device_ok y -> body_room a -> item_ok j -> cstr uri text -> runs (ota_post uri j) (Exchange y a) (λ _ g, finished y g).
Proof.
  intros Hy Ha Hj Huri; unfold ota_post; do 2 (apply runs_bind, (runs_uri _ text); [done|no_nul|]); apply runs_bind.
  assert (forall o g, upload_answered y o g -> runs (match o with Refused => mret tt | Done success id =>
      state ← at_device (in_ota monitor_ota_snapshot);
      if negb success then text ← checked (c_string (s_message state)); refuse_with "400 Bad Request" text else
      reply ← at_device (in_paper new_document);
      at_device (in_paper (put_all reply [MBool "ok" true; MNumber "received" (double_of (s_received state)); MNumber "chunk_size" (double_of MONITOR_OTA_CHUNK)]));;
      (match id with Some id => at_device (in_paper (put reply (MString "id" id))) | None => mret tt end);;
      send_json reply end) g (λ _ g, finished y g)) as Hend.
  { intros [|success id] [y1 a1]; [intros Hg; by apply runs_ret|]; cbn [upload_answered g_device g_reply]; intros (S1 & Ha1 & Hid).
    apply runs_bind, runs_device_part, (runs_upload_call _ _ texts_ok); [apply S1|intros m0 h u m Ho; apply runs_snapshot; [apply (proj1 Ho)|]; intros s _ _ Hs; split; [done|by exists h]|].
    intros state y2 ([Hzm Hm] & _) S2; pose proof (steady_trans _ _ _ S1 S2) as S3; destruct success; cbn [negb].
    - apply runs_bind, runs_device_part, (draw_new header Hheader (y_api y)); [apply S3|apply S3|]; rewrite (sd_blocks _ _ S3); intros j' y4 Hd4.
      apply runs_bind, runs_device_part, (draw_all header Hheader (y_api y) j' (blocks (y_heap y))); [done|members_ok|]; intros y5 Hd5.
      apply runs_bind; destruct id as [id|]; [|by apply runs_ret, drawn_finished]; apply runs_device_part, (draw_one header Hheader (y_api y) j' (blocks (y_heap y))); [done|by apply Hid|].
      intros y6 Hd6; by apply drawn_finished.
    - destruct (terminated_cstr _ Hm) as [t Ht]; apply runs_bind; eapply runs_checked; [by apply c_string_spec|].
      destruct Ht as (rest & Et & Hn); rewrite Et, zlen_app, zlen_cons in Hzm; pose proof (zlen_nonneg rest).
      apply runs_refuse_with; [done|done|lia|]; intros a' Ha' _; split; [done|]; exists 400; eexists; split; [reply_code|exact Ha']. }
  eapply runs_mono; [|exact Hend]; case_bool_decide; [by apply ota_start_answered|]; case_bool_decide; [by apply ota_chunk_answered|by eapply ota_other_answered].
Qed.

(** ** Routing *)

(** The session closed. *)
Definition signed_out (p : api) : api := set_session (replicate 65 0) 0 p.

Lemma signed_out_ok p : api_ok p -> api_ok (signed_out p).
Proof. intros [_ Hf]; constructor; [|done]; split; [done|]; exists []; split; [|by left]; exists (replicate 64 0); split; [done|apply not_elem_of_nil]. Qed.

(** Answered, with the session as it was or closed. *)
Definition served (y : appliance) (g : exchange) : Prop := finished y g \/ finished (with_api (signed_out (y_api y)) y) g.

Lemma served_intro {A} (c : SM exchange A) g y : runs c g (λ _ g, finished y g) -> runs c g (λ _ g, served y g).
Proof. intros Hc; eapply runs_mono; [exact Hc|]; intros x g' Hg; by left. Qed.

Lemma logout_served y a : device_ok y -> body_room a -> runs logout_post (Exchange y a) (λ _ g, served y g).
Proof.
  intros Hy Ha; unfold logout_post; apply runs_bind, runs_device_part, runs_api; destruct (yk_api _ _ Hy) as [[Hz _] _].
  apply runs_bind; eapply runs_checked; [by apply erased_all|]; apply runs_bind, runs_device_part, runs_api_change.
  eapply runs_mono; [apply (accepted_finished (with_api (signed_out (y_api y)) y)); [|done]|intros x g Hg; right; exact Hg]; apply steady_refl, api_kept; [done|apply signed_out_ok, Hy].
Qed.

Lemma change_served uri text j y a : device_ok y -> body_room a -> item_ok j -> cstr uri text -> runs (change_route uri j) (Exchange y a) (λ _ g, served y g).
Proof.
  intros Hy Ha Hj Huri; unfold change_route; apply runs_bind, (runs_uri _ text); [done|no_nul|]; case_bool_decide; [by apply served_intro, wifi_finished|].
  apply runs_bind, (runs_uri _ text); [done|no_nul|]; case_bool_decide; [by apply served_intro, tunnel_finished|].
  apply runs_bind; eapply runs_checked; [apply (strneq_spec 9); [exact Huri|apply cstr_cstring; no_nul]|]; case_bool_decide; [by eapply served_intro, ota_finished|].
  apply runs_bind, (runs_uri _ text); [done|no_nul|]; apply runs_bind, (runs_keys j []); [done|keys_ok|]; intros empty; pose proof (steady_refl y Hy).
  destruct (_ && empty); [apply runs_bind, runs_add_effect; [done|]; intros a' Ha' _; by apply served_intro, accepted_finished|].
  apply runs_bind, (runs_uri _ text); [done|no_nul|]; case_bool_decide; [by apply served_intro, gpio_finished|].
  apply runs_bind, (runs_uri _ text); [done|no_nul|]; case_bool_decide; [by apply served_intro, rgb_finished|].
  apply runs_bind, (runs_uri _ text); [done|no_nul|]; case_bool_decide; [by apply logout_served|].
  apply runs_bind, (runs_uri _ text); [done|no_nul|]; destruct (_ && empty); [by apply served_intro, scan_post_finished|apply served_intro; refused].
Qed.

(** A change without the session is refused, with the session it is made. *)
Lemma change_post_spec q body y a : device_ok y -> request_ok q body -> body_room a ->
  runs (change_post q) (Exchange y a) (λ _ g, (finished y g \/ holds_session q y /\ finished (with_api (signed_out (y_api y)) y) g) /\
    (~ holds_session q y -> a_status (g_reply g) = 401 /\ a_effects (g_reply g) = a_effects a /\ exists c, g_device g = with_chip c y)).
Proof.
  intros Hy Hq Ha; unfold change_post; apply runs_bind, runs_device_part, (runs_authorized q body); [apply Hy|done|]; intros allowed c Hallowed; pose proof (steady_chip c y Hy) as S1.
  destruct allowed; cbn [negb].
  2: { apply runs_refuse_text; [done|no_nul|by vm_compute|]; intros a' Ha' He; split; [left; split; [done|]; exists 401; eexists; split; [reply_code|exact Ha']|].
       intros _; split; [apply Ha'|]; split; [done|]; by exists c. }
  pose proof (proj1 Hallowed eq_refl) as Hsession.
  apply runs_mono with (Q := λ _ g, served y g); [|intros [] g Hg; split; [destruct Hg; [by left|by right]|by intros Hno]].
  apply runs_bind, runs_device_part, (runs_body header Hheader q body); [apply S1|done|]; intros j h Hh Hheld _; cbn [with_chip y_heap y_nvs y_memory] in *.
  set (y1 := with_vault _ _); assert (device_ok y1) as Hy1 by (apply vault_in_order; [apply S1|done]).
  destruct j as [root|].
  2: { apply served_intro; assert (steady y y1) by (split; [done|exact Hheld|]; exists (p_json_ok (y_api y)); symmetry; apply flag_same); refused. }
  destruct Hq as [Hpath _ _]; destruct (terminated_cstr _ Hpath) as [path Hp]; apply runs_bind; eapply runs_mono; [by apply (change_served (q_path q) path); [|done|by eapply body_item|]|].
  assert (forall p g, api_ok p -> finished (with_api p y1) g -> (forall g', finished (with_api p y) g' -> served y g') -> runs (at_device (delete_body (Some root))) g (λ _ g, served y g)) as Hend.
  { intros p [y2 a2] Hp' [S2 Hg] Hserved; pose proof S2 as [O2 B2 [b A2]]; cbn [g_device] in *; apply runs_device_part, (runs_delete_body header Hheader (blocks (y_heap y)) (Some root) h); [done|exact Hheld|exact B2|].
    intros h' Hh' Hb; apply Hserved; split; [|exact Hg]; split; [by apply vault_in_order|exact Hb|by exists b]. }
  intros [] g [Hg|Hg].
  - apply (Hend (y_api y1)); [apply Hy1|by destruct y1|]; intros g' Hg'; left; by destruct y.
  - apply (Hend (signed_out (y_api y1))); [apply signed_out_ok, Hy1|exact Hg|]; intros g' Hg'; by right.
Qed.

(** The networks found are for a session only. *)
Lemma found_members_ok aps : Forall (λ a, text_array 33 (fa_ssid a)) aps -> Forall (Forall member_ok) (map ap_members aps).
Proof. intros Ha; apply Forall_map; eapply Forall_impl; [exact Ha|]; intros a [_ Hs]; unfold ap_members; cbn; members_ok. Qed.

Lemma scan_get_spec q body y a : device_ok y -> request_ok q body -> body_room a ->
  runs (scan_get q) (Exchange y a) (λ _ g, finished y g /\
    (~ holds_session q y -> a_status (g_reply g) = 401 /\ a_effects (g_reply g) = a_effects a /\ exists c, g_device g = with_chip c y)).
Proof.
  intros Hy Hq Ha; unfold scan_get; apply runs_bind, runs_device_part, (runs_authorized q body); [apply Hy|done|]; intros allowed c Hallowed; pose proof (steady_chip c y Hy) as S1.
  destruct allowed; cbn [negb].
  2: { apply runs_refuse_text; [done|no_nul|by vm_compute|]; intros a' Ha' He; split; [split; [done|]; exists 401; eexists; split; [reply_code|exact Ha']|].
       intros _; split; [apply Ha'|]; split; [done|]; by exists c. }
  pose proof (proj1 Hallowed eq_refl); apply runs_mono with (Q := λ _ g, finished y g); [|intros [] g Hg; split; [exact Hg|by intros Hno]].
  apply runs_bind, runs_device_part, runs_network_part; unfold monitor_network_scan_results; apply runs_bind, runs_network, runs_ret; cbn [x_net].
  set (y1 := with_net _ _); assert (steady y y1) as S2 by (split; [apply net_kept; [apply S1|apply Hy]|done|]; exists (p_json_ok (y_api y)); symmetry; apply flag_same).
  destruct (yk_network _ _ Hy) as [[_ _ _ (_ & _ & Hfound) _] _ _].
  apply runs_bind, runs_device_part, (draw_new header Hheader (y_api y)); [apply S2|apply S2|]; change (blocks (y_heap y1)) with (blocks (y_heap y)); intros j y2 Hd.
  apply runs_bind, runs_device_part, (draw_one header Hheader (y_api y) j (blocks (y_heap y))); [done|done|]; intros y3 Hd3.
  apply runs_bind, runs_device_part, (draw_rows header Hheader (y_api y) j (blocks (y_heap y))); [done|by apply found_members_ok, Forall_take|]; intros y4 Hd4; by apply drawn_finished.
Qed.

End Handlers.
