(* ===== verification/MonitorSession.v ===== *)
(** The theorems of the monitor's API: every request is answered and the device
    stays in order; a session is needed for anything but the status; it is opened
    by the device password, which can be tried a limited number of times; and the
    effects of a change wait for the main task. *)
From stdpp Require Import gmap.
From Stdlib Require Import SpecFloat Sorted.
From S2P Require Export MonitorHandlers.
#[local] Open Scope Z_scope.

(** The digits of a session. *)
Lemma hex_text_length random : zlen (hex_text random) = 2 * zlen random.
Proof. induction random as [|r random IH]; [done|]; unfold hex_text in *; cbn [flat_map]; rewrite zlen_app, IH, !zlen_cons, zlen_nil; lia. Qed.

Lemma hex_text_nul random : bytes_ok random -> 0 ∉ hex_text random.
Proof.
  intros Hr Hin; apply list_elem_of_In, in_flat_map in Hin as (r & Hr' & Hin); assert (is_byte r) as Hb by (rewrite Forall_forall in Hr; by apply Hr, list_elem_of_In).
  unfold is_byte in Hb; assert (forall n, 0 <= n -> hex_char n <> 0) as Hne by (intros n Hn; unfold hex_char; case_match; lia).
  destruct Hin as [E|[E|[]]]; revert E; apply Hne; [apply Z.div_pos; lia|apply Z.mod_pos_bound; lia].
Qed.

(** ** Attempts *)

(** A log of logins, with the window and the count of failures before it: a wrong
    password counts in the window or begins one; other refusals count nothing; and
    what follows a session that was opened is free. *)
Inductive tried_log : Z -> Z -> list (Z * Z) -> Prop :=
| TriedNone w f : tried_log w f []
| TriedOther w f now code log : code <> 401 -> tried_log w f log -> tried_log w f ((now, code) :: log)
| TriedOpen w f now code log : code = 200 \/ code = 503 -> tried_log w f ((now, code) :: log)
| TriedWrong w f now log : (60000 <=? u64 (now - w)) = false -> f < 5 -> tried_log w (f + 1) log -> tried_log w f ((now, 401) :: log)
| TriedAgain w f now log : (60000 <=? u64 (now - w)) = true -> tried_log now 1 log -> tried_log w f ((now, 401) :: log).

(** The wrong passwords in the minute from [t] on. *)
Fixpoint wrong_in (t : Z) (log : list (Z * Z)) : Z :=
  match log with
  | [] => 0
  | (now, code) :: log => (if (t <=? now) && (now <? t + 60000) && (code =? 401) then 1 else 0) + wrong_in t log
  end.

Definition no_session (log : list (Z * Z)) : Prop := Forall (λ e, e.2 <> 200 /\ e.2 <> 503) log.
Definition in_time (log : list (Z * Z)) : Prop := StronglySorted (λ a b, a.1 <= b.1) log.

(** Of times that a clock of 64 bits gives in milliseconds. *)
Definition clock_times (log : list (Z * Z)) : Prop := Forall (λ e, 0 <= e.1 < 2 ^ 63) log.

Lemma late_none t log : Forall (λ e, t + 60000 <= e.1) log -> wrong_in t log = 0.
Proof. induction 1 as [|[now code] log Hn _ IH]; [done|]; cbn [wrong_in fst] in *; rewrite IH; replace (now <? t + 60000) with false by lia; by rewrite andb_false_r. Qed.

(** Two windows at most lie across a minute. *)
Lemma tried_bound w f log : tried_log w f log -> 0 <= f <= 5 -> 0 <= w -> in_time ((w, 0) :: log) -> clock_times log -> no_session log -> forall t, Forall (λ e, t <= e.1) log ->
  wrong_in t log <= (if t <=? w then 5 - f else 10 - f).
Proof.
  induction 1 as [w f|w f now code log Hc _ IH|w f now code log Hc|w f now log Hw Hf _ IH|w f now log Hw _ IH]; intros Hrange Hw0 Hs Hclock Hno t Ht; cbn [wrong_in].
  - case_match; lia.
  - replace (code =? 401) with false by lia; rewrite andb_false_r; apply Forall_cons_1 in Ht as [_ Ht], Hclock as [_ Hclock], Hno as [_ Hno]; apply IH; try done.
    apply StronglySorted_inv in Hs as [Hs Hall]; apply Forall_cons_1 in Hall as [_ Hall]; apply StronglySorted_inv in Hs as [Hs _]; by constructor.
  - apply Forall_cons_1 in Hno as [[H1 H2] _]; cbn in H1, H2; lia.
  - apply Forall_cons_1 in Ht as [Ht1 Ht], Hclock as [Hc1 Hclock], Hno as [_ Hno]; cbn [fst] in *; apply StronglySorted_inv in Hs as [Hs Hall]; apply Forall_cons_1 in Hall as [Hwn Hall]; cbn [fst] in *.
    apply StronglySorted_inv in Hs as [Hs Hall']; assert (u64 (now - w) = now - w) as Eu by (apply wrap_small; change (2 ^ 64) with (2 * 2 ^ 63); lia); rewrite Eu in Hw.
    assert (wrong_in t log <= (if t <=? w then 5 - (f + 1) else 10 - (f + 1))) as Hrest by (apply IH; [lia|done|by constructor|done..]).
    destruct ((t <=? now) && _ && _); destruct (Z.leb_spec t w); lia.
  - apply Forall_cons_1 in Ht as [Ht1 Ht], Hclock as [Hc1 Hclock], Hno as [_ Hno]; cbn [fst] in *; apply StronglySorted_inv in Hs as [Hs Hall]; apply Forall_cons_1 in Hall as [Hwn Hall]; cbn [fst] in *.
    assert (u64 (now - w) = now - w) as Eu by (apply wrap_small; change (2 ^ 64) with (2 * 2 ^ 63); lia); rewrite Eu in Hw; pose proof Hs as Hs'; apply StronglySorted_inv in Hs as [Hs Hall'].
    assert (in_time ((now, 0) :: log)) as Hin by (by constructor).
    assert (wrong_in t log <= (if t <=? now then 5 - 1 else 10 - 1)) as Hrest by (apply IH; [lia|lia|done..]); replace (t <=? now) with true in Hrest by lia.
    destruct (Z.leb_spec t w); [|destruct ((t <=? now) && _ && _); lia].
    replace (now <? t + 60000) with false by lia; rewrite andb_false_r; cbn [andb]; rewrite late_none; [lia|]; eapply Forall_impl; [exact Hall'|]; cbn; intros e He; lia.
Qed.

Lemma in_time_after w w' now code log : in_time ((w, 0) :: (now, code) :: log) -> w' <= now -> in_time ((w', 0) :: log).
Proof.
  intros Hs Hw; apply StronglySorted_inv in Hs as [Hs _]; apply StronglySorted_inv in Hs as [Hs Hall]; constructor; [done|]; eapply Forall_impl; [exact Hall|]; cbn; intros e He; lia.
Qed.

(** In any minute ten wrong passwords are looked at, at most. *)
Lemma tried_limit w f log : tried_log w f log -> 0 <= f <= 5 -> 0 <= w -> in_time ((w, 0) :: log) -> clock_times log -> no_session log -> forall t, wrong_in t log <= 10.
Proof.
  assert (forall w f now code log, tried_log w f ((now, code) :: log) -> 0 <= f <= 5 -> 0 <= w -> in_time ((w, 0) :: (now, code) :: log) -> clock_times ((now, code) :: log) ->
    no_session ((now, code) :: log) -> forall t, (now < t -> wrong_in t log <= 10) -> wrong_in t ((now, code) :: log) <= 10) as Hstep.
  { intros w' f' now code log' Hl Hf Hw Hs Hclock Hno t Hlater; destruct (Z.lt_ge_cases now t) as [Hlt|Hge].
    - cbn [wrong_in]; replace (t <=? now) with false by lia; cbn [andb]; specialize (Hlater Hlt); lia.
    - assert (wrong_in t ((now, code) :: log') <= (if t <=? w' then 5 - f' else 10 - f')) as Hb; [|destruct (t <=? w'); lia].
      apply (tried_bound w' f'); try done; apply StronglySorted_inv in Hs as [Hs _]; apply StronglySorted_inv in Hs as [_ Hall]; constructor; [done|]; eapply Forall_impl; [exact Hall|]; cbn; intros e He; lia. }
  intros Hl; pose proof Hl as Hl0; induction Hl as [w f|w f now code log Hc Hl IH|w f now code log Hc|w f now log Hw Hf Hl IH|w f now log Hw Hl IH]; intros Hrange Hw0 Hs Hclock Hno t; [done|..].
  - eapply Hstep; try done; intros _; apply Forall_cons_1 in Hclock as [_ Hclock], Hno as [_ Hno]; apply IH; try done; eapply in_time_after; [exact Hs|]; apply StronglySorted_inv in Hs as [_ Hall]; by apply Forall_cons_1 in Hall as [Hall _].
  - apply Forall_cons_1 in Hno as [[H1 H2] _]; cbn in H1, H2; lia.
  - eapply Hstep; try done; intros _; apply Forall_cons_1 in Hclock as [_ Hclock], Hno as [_ Hno]; apply IH; try done; [lia|]; eapply in_time_after; [exact Hs|]; apply StronglySorted_inv in Hs as [_ Hall]; by apply Forall_cons_1 in Hall as [Hall _].
  - eapply Hstep; try done; intros _; pose proof Hclock as [[Hn _] Hclock']%Forall_cons_1; apply Forall_cons_1 in Hno as [_ Hno]; apply IH; try done; eapply in_time_after; [exact Hs|lia].
Qed.

(** What is left of the window under way, and of any minute. *)
Lemma tried_limits w f log : tried_log w f log -> 0 <= f <= 5 -> 0 <= w -> in_time ((w, 0) :: log) -> clock_times log -> no_session log ->
  f + wrong_in w log <= 5 /\ forall t, wrong_in t log <= 10.
Proof.
  intros Hl Hf Hw Hs Hclock Hno; split; [|by eapply tried_limit]; apply StronglySorted_inv in Hs as [Hs Hall].
  pose proof (tried_bound w f log Hl Hf Hw ltac:(by constructor) Hclock Hno w Hall) as Hb; rewrite Z.leb_refl in Hb; lia.
Qed.

Section Sessions.
Context (header : Z) (Hheader : 0 < header <= 64).
Context `{ChipLaws} `{KeeperLaws} `{RadioLaws} `{NvsLaws} `{MemoryLaws} `{JsonWriterLaws header} `{!JsonBlocks} `{UpdaterLaws} `{DriversLaws}.

Abbreviation device_ok := (appliance_ok header).

(** ** The password *)

(** The device's password, as the store gives it. *)
Definition device_password (y : appliance) (t : list Z) : Prop :=
  exists m out, monitor_store_password (Some (replicate 64 0)) 64 (y_nvs y) = Some ((ESP_OK, Some out), m) /\ cstr out t.

(** The password of a body that has nothing else. *)
Definition password_of (j : option json) (t : list Z) : Prop :=
  cf_json_keys j (keys_of ["password"]) = Some true /\ exists v, string_member j "password" = Some (Some v) /\ cstr v t.

(** The request gives the device's password. *)
Definition right_password (q : monitor_api_request) (y : appliance) : Prop :=
  exists root t, posts q y root /\ password_of (Some root) t /\ device_password y t.

Lemma runs_password {Q : bool -> appliance -> Prop} j y : device_ok y -> item_ok j ->
  (forall b y', steady header y y' -> (b = true <-> exists root t, j = Some root /\ password_of j t /\ device_password y t) -> Q b y') -> runs (password_matches j) y Q.
Proof.
  intros Hy Hj HQ; unfold password_matches; pose proof (steady_refl header y Hy) as S0.
  destruct (string_total j "password" Hj) as (v & Ev & Hv); [no_nul|]; apply runs_bind; eapply runs_checked; [exact Ev|].
  destruct j as [root|]; [|apply runs_ret, HQ; [done|]; split; [done|]; by intros (root & t & ? & _)].
  destruct (keys_total (Some root) ["password"%string] Hj) as [good Eg]; [by repeat constructor; no_nul|]; apply runs_bind; eapply runs_checked; [exact Eg|].
  assert (forall b y', steady header y y' -> b = false -> (forall t, password_of (Some root) t -> device_password y t -> False) -> Q b y') as Hno.
  { intros b y' S -> Hnone; apply HQ; [done|]; split; [done|]; intros (r & t & _ & Hp & Hd); by destruct (Hnone t Hp Hd). }
  destruct good; cbn [negb]; [|apply runs_ret, Hno; [done|done|]; intros t [Ek _] _; congruence].
  destruct v as [v|]; [|apply runs_ret, Hno; [done|done|]; intros t (_ & v & E & _) _; congruence].
  destruct (Hv v eq_refl) as (given & Hgiven & _); apply runs_bind; eapply runs_checked; [by apply strlen_spec|].
  assert (exists rc out m, monitor_store_password (Some (replicate 64 0)) 64 (y_nvs y) = Some ((rc, Some out), m) /\ zlen out = 64 /\ (rc = ESP_OK -> exists t, cstr out t /\ 12 <= zlen t)) as (rc & out & m & Em & Hz & Hout).
  { destruct (load_password (Q := λ x _, exists out, x.2 = Some out /\ zlen out = 64 /\ (x.1 = ESP_OK -> exists t, cstr out t /\ 12 <= zlen t)) (replicate 64 0) 64 (y_nvs y)) as ([rc x] & m & E & out & Ex & Hz & Ho); [done| |cbn in Ex; subst x; by exists rc, out, m].
    intros rc out m Hz Ho _; by exists out. }
  assert (forall t, device_password y t -> rc = ESP_OK /\ cstr out t /\ zlen t <= 63) as Hdevice.
  { intros t (m' & out' & E' & Ht); rewrite Em in E'; injection E' as <- <- <-; split; [done|]; split; [done|]; destruct Ht as (rest & -> & _); rewrite zlen_app, zlen_cons in Hz; pose proof (zlen_nonneg rest); lia. }
  assert (forall t, password_of (Some root) t -> t = given) as Hsame.
  { intros t (_ & v' & E' & Ht); rewrite Ev in E'; injection E' as <-; by eapply cstr_unique. }
  destruct (Z.ltb_spec 63 (zlen given)); [apply runs_ret, Hno; [done|done|]; intros t Hp Hd; apply Hsame in Hp as ->; apply Hdevice in Hd as (_ & _ & ?); lia|].
  apply runs_bind, (runs_store header _ y Hy); exists (rc, Some out), m; split; [exact Em|]; intros y' S; apply runs_bind; eapply runs_checked; [done|].
  destruct (Z.eqb_spec rc ESP_OK) as [->|Hrc]; cbn [negb]; [|apply runs_ret, Hno; [done|done|]; intros t _ Hd; by apply Hdevice in Hd as [? _]].
  destruct (Hout eq_refl) as (t & Ht & Hlen); assert (device_password y t) as Hd by (by exists m, out); destruct (Hdevice t Hd) as (_ & _ & Hmax).
  eapply runs_checked; [apply (equal_secret_spec v out given t 63); try done; unfold INT32_MAX; lia|]; apply HQ; [done|]; rewrite bool_decide_eq_true; split.
  - intros ->; exists root, t; split; [done|]; split; [split; [done|by exists v]|done].
  - intros (r & t' & _ & Hp & Hd'); apply Hsame in Hp as ->; destruct (Hdevice _ Hd') as (_ & Ht' & _); by eapply cstr_unique.
Qed.

(** ** Login *)

(** The count of attempts at the time [now]: it begins again after a minute. *)
Definition fresh (now : Z) (p : api) : api := if 60000 <=? u64 (now - p_failure_window p) then set_failures now 0 p else p.

(** A session of ten minutes was opened. *)
Definition opened (now : Z) (p p' : api) : Prop :=
  (exists c, session_is p' (hex_text (fill_random 32 c).1) /\ zlen (hex_text (fill_random 32 c).1) = 64) /\ p_session_until p' = u64 (now + 600000) /\
  p_failures p' = 0 /\ p_failure_window p' = p_failure_window p.

(** What a login does, by its status. *)
Definition login_result (q : monitor_api_request) (y y' : appliance) (code : Z) : Prop :=
  let now := now_of y in let p := fresh now (y_api y) in
  if negb (q_origin_allowed q) then code = 403 /\ y_api y' = y_api y else
  if 5 <=? p_failures p then code = 429 /\ y_api y' = p else
  (right_password q y /\ (code = 200 \/ code = 503) /\ opened now p (y_api y')) \/
  (~ right_password q y /\ code = 401 /\ exists b, y_api y' = set_ok_flag b (set_failures (p_failure_window p) (p_failures p + 1) p)).

(** The answer of a login. *)
Definition login_done (q : monitor_api_request) (y : appliance) (g : exchange) : Prop :=
  device_ok (g_device g) /\ blocks (y_heap (g_device g)) = blocks (y_heap y) /\
  exists code text, code ∈ reply_codes /\ answers (g_reply g) code text /\ login_result q y (g_device g) code.

Lemma fresh_api_ok now p : api_ok p -> api_ok (fresh now p).
Proof. intros [Hs Hf]; unfold fresh; case_match; [|done]; constructor; [exact Hs|done]. Qed.

Lemma fresh_flag now b p : fresh now (set_ok_flag b p) = set_ok_flag b (fresh now p).
Proof. unfold fresh; cbn; by case_match. Qed.

Lemma runs_open_session {Q : () -> appliance -> Prop} now y : device_ok y ->
  (forall p' c, api_ok p' -> opened now (y_api y) p' -> Q tt (with_api p' (with_chip c y))) -> runs (open_session now) y Q.
Proof.
  intros Hy HQ; unfold open_session; apply runs_bind, runs_chip, runs_bind, runs_api; set (random := (fill_random 32 (y_chip y)).1); destruct (fill_law 32 (y_chip y)) as [Hz Hb]; [lia|]; fold random in Hz, Hb.
  destruct (yk_api _ _ Hy) as [[Hzs _] Hf]; cbn [with_chip y_api] in *.
  destruct (id_loop_spec random 0 (p_session (y_api y)) [] (p_session (y_api y))) as (id & E & Hzi & rest & Eid); [lia|done|done|intros Er; rewrite Er in Hz; done|lia|]; cbn [app] in Eid.
  assert (cstr id (hex_text random) /\ zlen (hex_text random) = 64) as [Hid H64].
  { rewrite Eid; split; [apply cstr_intro, hex_text_nul, Hb|]; rewrite hex_text_length; lia. }
  apply runs_bind; eapply runs_checked; [exact E|]; apply runs_api_change; cbn [with_chip y_api].
  set (p' := set_failures _ _ _); apply (HQ p' (fill_random 32 (y_chip y)).2).
  - constructor; [|cbn; lia]; split; [cbn; lia|]; exists (hex_text random); split; [exact Hid|by right].
  - split; [exists (y_chip y); fold random; split; [split; [exact Hid|by right]|done]|]; by split_and!.
Qed.

Lemma opened_flag now p b p' : opened now p p' -> opened now p (set_ok_flag b p').
Proof. by intros ([c [[Hs Hl] H64]] & Hu & Hf & Hw); split; [exists c|]. Qed.

(** The document of a login. *)
Lemma draw_create {Q : option Z -> appliance -> Prop} p y : device_ok y -> (exists b, y_api y = set_ok_flag b p) ->
  (forall j y', drawn header p j (blocks (y_heap y)) y' -> Q j y') -> runs (in_paper (on_json_heap (calling cf_cJSON_CreateObject))) y Q.
Proof.
  intros Hy [b Hb] HQ; apply runs_paper, runs_json, runs_calling; cbn [w_heap w_ok]; destruct (cf_cJSON_CreateObject (y_heap y)) as [r h'] eqn:E; cbn [fst snd]; destruct (create_law _ _ _ E) as [Hs Hr].
  pose proof (heap_steps_ok header Hheader _ _ Hs (yk_heap _ _ Hy)) as Hh'; apply HQ; exists (match r with Some p => [p] | None => [] end); split; [|by destruct r; [left|]].
  split; [by apply paper_kept|]; split; [split; [done|by destruct r]|]; exists (p_json_ok (y_api y)); cbn; by rewrite Hb.
Qed.

(** The right password was given: a session is opened, and told. *)
Lemma session_opened y y1 p a : device_ok y1 -> blocks (y_heap y1) = blocks (y_heap y) -> body_room a -> p_failure_window (y_api y1) = p_failure_window p ->
  runs (at_device (open_session (now_of y));; at_device (change_api (set_ok_flag true));; j ← at_device (in_paper (on_json_heap (calling cf_cJSON_CreateObject)));
        p ← at_device the_api; at_device (in_paper (put_all j [MString "session" (p_session p); MNumber "expires_in" (double_of 600)]));; send_json j) (Exchange y1 a)
    (λ _ g, device_ok (g_device g) /\ blocks (y_heap (g_device g)) = blocks (y_heap y) /\
      exists code text, code ∈ reply_codes /\ answers (g_reply g) code text /\ (code = 200 \/ code = 503) /\ opened (now_of y) p (y_api (g_device g))).
Proof.
  intros Hy Hb Ha Hw; apply runs_bind, runs_device_part, runs_open_session; [done|]; intros p' c Hp' Ho.
  assert (opened (now_of y) p p') as Ho' by (destruct Ho as (? & ? & ? & ?); split_and!; try done; congruence).
  apply runs_bind, runs_device_part, runs_api_change; set (y2 := with_api _ _); assert (device_ok y2) as Hy2.
  { subst y2; cbn [with_api with_chip y_api]; apply api_kept; [apply api_kept; [by apply chip_kept|done]|by destruct Hp']. }
  apply runs_bind, runs_device_part, (draw_create p'); [done|by exists true|]; intros j y3 Hd; change (blocks (y_heap y2)) with (blocks (y_heap y1)) in Hd; rewrite Hb in Hd.
  apply runs_bind, runs_device_part, runs_api; assert (0 ∈ p_session (y_api y3)) as Hn.
  { destruct (yk_api _ _ (drawn_ok header _ _ _ _ Hd)) as [[_ (t & (rest & -> & _) & _)] _]; apply elem_of_app; right; by left. }
  apply runs_bind, runs_device_part, (draw_all header Hheader p' j (blocks (y_heap y))); [done|members_ok|]; intros y4 (items & (Hy4 & Hs & b & Eb) & _).
  apply (runs_send_json header Hheader j (blocks (y_heap y)) items); try done; intros a' h Hh Hbh _ (code & text & Hc & Ha'); split; [by apply paper_kept|]; split; [done|].
  exists code, text; split; [destruct Hc as [->| ->]; reply_code|]; split; [done|]; split; [done|]; cbn [g_device with_paper y_api]; rewrite Eb; by do 2 apply opened_flag.
Qed.

Lemma refused_done status message q y y' a : device_ok y' -> blocks (y_heap y') = blocks (y_heap y) -> body_room a -> (0 ∉ lit message) -> zlen (lit message) <= 1000 ->
  code_of status ∈ reply_codes -> login_result q y y' (code_of status) -> runs (refuse status message) (Exchange y' a) (λ _ g, login_done q y g).
Proof. intros Hy Hb Ha Hn Hz Hc Hr; apply runs_refuse_text; [done..|]; intros a' Ha' _; split; [done|]; split; [done|]; by exists (code_of status), (error_text (lit message)). Qed.

Lemma login_spec q body y a : device_ok y -> request_ok q body -> body_room a -> runs (login_post q) (Exchange y a) (λ _ g, login_done q y g).
Proof.
  intros Hy Hq Ha; unfold login_post; destruct (q_origin_allowed q) eqn:Eo; cbn [negb].
  2: { apply refused_done; [done|done|done|no_nul|by vm_compute|reply_code|]; unfold login_result; by rewrite Eo. }
  apply runs_bind, runs_device_part, runs_milliseconds; intros now c -> ->; fold (now_of y); apply runs_bind, runs_device_part, runs_api; set (y1 := with_chip _ y).
  set (p := fresh (now_of y) (y_api y)); pose proof (fresh_api_ok (now_of y) (y_api y) (yk_api _ _ Hy)) as Hp; fold p in Hp.
  apply runs_bind, runs_device_part, runs_mono with (Q := λ _ y2, y2 = with_api p y1).
  { unfold p, fresh; cbn [with_chip y_api]; change (y_api y1) with (y_api y); apply runs_when; intros E; rewrite E; [by apply runs_api_change|by destruct y]. }
  intros [] y2 ->; apply runs_bind, runs_device_part, runs_api; cbn [with_api y_api]; assert (device_ok (with_api p y1)) as Hy2 by (by apply api_kept; [apply chip_kept|]).
  destruct (5 <=? p_failures p) eqn:Elimit; [apply refused_done; [done|done|done|no_nul|by vm_compute|reply_code|]; unfold login_result; rewrite Eo; fold p; by rewrite Elimit|].
  apply runs_bind, runs_device_part, runs_api_change; cbn [with_api y_api]; set (tried := set_failures _ _ p).
  assert (device_ok (with_api tried (with_api p y1))) as Hy3 by (apply api_kept; [done|]; destruct Hp as [Hs Hf]; constructor; [exact Hs|cbn; lia]).
  apply runs_bind, runs_device_part, (runs_body header Hheader q body); [done|done|]; intros j h Hh Hheld Hj; set (y4 := with_vault _ _); assert (device_ok y4) as Hy4 by (by apply vault_in_order).
  apply runs_bind, runs_device_part, runs_password; [done|by eapply body_item|]; intros valid y5 [Hy5 B5 [b A5]] Hvalid.
  apply runs_bind, runs_device_part, (runs_delete_body header Hheader (blocks (y_heap y)) j h); [done|exact Hheld|exact B5|]; intros h' Hh' Hb'; set (y6 := with_vault _ _); assert (device_ok y6) as Hy6 by (by apply vault_in_order).
  assert (valid = true <-> right_password q y) as Hright.
  { rewrite Hvalid; split; [intros (root & t & -> & Hpw & Hd); exists root, t; split; [by apply Hj|done]|]; intros (root & t & Hr & Hpw & Hd); apply Hj in Hr as ->; by exists root, t. }
  destruct valid; cbn [negb].
  - eapply runs_mono; [apply (session_opened y y6 p a Hy6 Hb' Ha); change (y_api y6) with (y_api y5); by rewrite A5|]; intros [] g (Hg & Hbg & code & text & Hc & Hans & Hcode & Hopen); split; [done|]; split; [done|].
    exists code, text; split; [done|]; split; [done|]; unfold login_result; rewrite Eo; fold p; rewrite Elimit; left; split; [by apply Hright|done].
  - apply refused_done; [done|done|done|no_nul|by vm_compute|reply_code|]; unfold login_result; rewrite Eo; fold p; rewrite Elimit; right; split; [intros Hw; by apply Hright in Hw|]; split; [done|]; exists b; exact A5.
Qed.

(** ** Requests *)

(** Answered, without another block of JSON. *)
Definition answered_well (y : appliance) (a : monitor_api_reply) (y' : appliance) : Prop :=
  device_ok y' /\ blocks (y_heap y') = blocks (y_heap y) /\ exists code text, code ∈ reply_codes /\ answers a code text.

(** The login of a device. *)
Definition is_login (q : monitor_api_request) : Prop := q_post q = true /\ cstr (q_path q) (lit "/api/login").
Definition is_status (q : monitor_api_request) : Prop := q_post q = false /\ cstr (q_path q) (lit "/api/status").

(** Where the session of a device comes from: it stays, is closed, or is opened by a login. *)
Definition session_from (q : monitor_api_request) (y y' : appliance) : Prop :=
  (p_session (y_api y') = p_session (y_api y) /\ p_session_until (y_api y') = p_session_until (y_api y)) \/
  (session_is (y_api y') [] /\ holds_session q y) \/
  (is_login q /\ right_password q y /\ opened (now_of y) (fresh (now_of y) (y_api y)) (y_api y')).

Record request_handled (q : monitor_api_request) (y : appliance) (a : monitor_api_reply) (y' : appliance) : Prop := {
  dd_answered : answered_well y a y';
  dd_guarded : ~ holds_session q y -> is_login q \/ is_status q \/
    (exists c, y' = with_chip c y) /\ a_effects a = 0 /\ (a_status a = 401 \/ a_status a = 404 /\ q_post q = false);
  dd_session : session_from q y y';
  dd_login : is_login q -> login_result q y y' (a_status a)
}.

Lemma zero_reply_room : body_room zero_reply.
Proof. unfold body_room, zero_reply; cbn [a_body]; by rewrite zlen_replicate. Qed.

Lemma finished_session y g : finished header y g -> p_session (y_api (g_device g)) = p_session (y_api y) /\ p_session_until (y_api (g_device g)) = p_session_until (y_api y).
Proof. intros [[_ _ [b ->]] _]; by split. Qed.

Lemma finished_answered y g : finished header y g -> answered_well y (g_reply g) (g_device g).
Proof. intros [[Hy Hb _] Ha]; by split. Qed.

Lemma login_session q y y' code : is_login q -> device_ok y -> login_result q y y' code -> session_from q y y'.
Proof.
  intros Hq Hy; unfold login_result; set (p := fresh _ _).
  assert (p_session p = p_session (y_api y) /\ p_session_until p = p_session_until (y_api y)) as [E1 E2] by (unfold p, fresh; by case_match).
  destruct (negb _); [intros [_ E]; left; by rewrite E|]; destruct (5 <=? _); [intros [_ E]; left; by rewrite E|].
  intros [(Hr & _ & Ho)|(_ & _ & b & E)]; [right; right; by split_and!|left; by rewrite E].
Qed.

Lemma dispatch_spec q body y : device_ok y -> request_ok q body -> exists a y', monitor_api_dispatch_ q y = Some (a, y') /\ request_handled q y a y'.
Proof.
  intros Hy Hq; enough (runs (api_route q) (Exchange y zero_reply) (λ _ g, request_handled q y (g_reply g) (g_device g))) as ([] & [y' a] & E & Hd).
  { exists a, y'; split; [|exact Hd]; unfold monitor_api_dispatch_, performing; by rewrite E. }
  pose proof zero_reply_room as Hz; assert (a_effects zero_reply = 0) as Hz0 by done; revert Hz Hz0; generalize zero_reply as a0; intros a0 Hz Hz0; destruct Hq as [Hpath Hcred Hbody] eqn:Eq; clear Eq; destruct (terminated_cstr _ Hpath) as [path Hp].
  assert (forall s, cstr (q_path q) s -> s = path) as Huniq by (intros s Hs; by eapply cstr_unique).
  unfold api_route; destruct (q_post q) eqn:Epost; cbn [negb].
  - apply runs_bind, (runs_uri _ path); [done|no_nul|]; case_bool_decide as El.
    + assert (is_login q) as Hl by (split; [done|]; by rewrite <- El).
      eapply runs_mono; [by apply (login_spec q body); [|constructor|]|]; intros [] g (Hg & Hb & code & text & Hc & Ha & Hr); pose proof Ha as (Hs & _); rewrite <- Hs in Hr.
      split; [split; [done|]; split; [done|]; by exists code, text|intros _; by left|by eapply login_session|done].
    + assert (~ is_login q) as Hl by (intros [_ Hl]; by apply Huniq in Hl).
      eapply runs_mono; [by apply (change_post_spec header Hheader q body); [|constructor|]|]; intros [] g [Hg Hno'].
      split; [|intros Hh; right; right; destruct (Hno' Hh) as (E1 & E2 & Hc); split; [done|]; split; [congruence|by left]| |done].
      * destruct Hg as [Hg|[_ Hg]]; by apply finished_answered in Hg.
      * destruct Hg as [Hg|[Hh Hg]]; [left; by apply finished_session|]; apply finished_session in Hg as [E1 E2]; cbn in E1, E2.
        right; left; split; [split; [rewrite E1; apply (cstr_zeros 65); lia|by left]|done].
  - assert (~ is_login q) as Hl by (intros [Hl _]; congruence).
    assert (forall g, finished header y g -> (~ holds_session q y -> is_login q \/ is_status q \/ (exists c, g_device g = with_chip c y) /\ a_effects (g_reply g) = 0 /\ (a_status (g_reply g) = 401 \/ a_status (g_reply g) = 404 /\ q_post q = false)) ->
      request_handled q y (g_reply g) (g_device g)) as Hend.
    { intros g Hg Hguard; split; [by apply finished_answered|done|left; by apply finished_session|done]. }
    apply runs_bind, (runs_uri _ path); [done|no_nul|]; case_bool_decide as Es.
    { eapply runs_mono; [by apply (status_finished header Hheader)|]; intros [] g Hg; apply Hend; [done|]; intros _; right; left; split; [done|]; by rewrite <- Es. }
    apply runs_bind, (runs_uri _ path); [done|no_nul|]; case_bool_decide as Eg.
    { eapply runs_mono; [by apply (scan_get_spec header Hheader q body); [|constructor|]|]; intros [] g [Hg Hno]; apply Hend; [done|]; intros Hh; right; right; destruct (Hno Hh) as (E1 & E2 & Hc); split; [done|]; split; [congruence|by left]. }
    apply runs_refuse_text; [done|no_nul|by vm_compute|]; intros a' Ha' He; apply (Hend (Exchange y a')).
    + split; [by apply steady_refl|]; exists 404; eexists; split; [reply_code|exact Ha'].
    + intros _; right; right; split; [exists (y_chip y); by destruct y|]; split; [cbn; congruence|]; right; split; [apply Ha'|done].
Qed.

(** ** Logins, one after another *)

(** The time and the status of each. *)
Fixpoint logins (qs : list monitor_api_request) (y : appliance) : option (list (Z * Z) * appliance) :=
  match qs with
  | [] => Some ([], y)
  | q :: qs =>
      '(a, y1) ← monitor_api_dispatch_ q y;
      '(log, y2) ← logins qs y1;
      Some ((now_of y, a_status a) :: log, y2)
  end.

Lemma logins_tried qs : Forall (λ q, is_login q /\ exists body, request_ok q body) qs -> forall y, device_ok y ->
  exists log y', logins qs y = Some (log, y') /\ tried_log (p_failure_window (y_api y)) (p_failures (y_api y)) log.
Proof.
  induction 1 as [|q qs (Hl & body & Hq) _ IH]; intros y Hy; cbn [logins]; [exists [], y; split; [done|constructor]|].
  destruct (dispatch_spec q body y Hy Hq) as (a & y1 & -> & [(Hy1 & _) _ _ Hr]); cbn [mbind option_bind]; destruct (IH y1 Hy1) as (log & y2 & -> & Hlog); cbn [mbind option_bind].
  eexists _, y2; split; [done|]; specialize (Hr Hl); unfold login_result in Hr; set (now := now_of y) in *; clearbody now.
  destruct (negb _); [destruct Hr as [Hc E]; rewrite E in Hlog; apply TriedOther; [lia|done]|].
  unfold fresh in Hr; destruct (60000 <=? u64 (now - p_failure_window (y_api y))) eqn:Ew; cbn [set_failures p_failures p_failure_window] in Hr.
  - destruct (5 <=? 0) eqn:E5; [done|]; destruct Hr as [(_ & Hc & _)|(_ & Hc & b & E)]; [apply TriedOpen; lia|].
    rewrite E in Hlog; cbn in Hlog; rewrite Hc; by apply TriedAgain.
  - destruct (Z.leb_spec 5 (p_failures (y_api y))); [destruct Hr as [Hc E]; rewrite E in Hlog; apply TriedOther; [lia|done]|].
    destruct Hr as [(_ & Hc & _)|(_ & Hc & b & E)]; [apply TriedOpen; lia|]; rewrite E in Hlog; cbn in Hlog; rewrite Hc; by apply TriedWrong.
Qed.

(** ** Effects *)

(** The time of a tick: the clock after the lock was taken. *)
Definition tick_time (y : appliance) : Z := now_of (with_chip (json_take 0 (y_chip y)).2 y).

(** The effects a tick finds due. *)
Definition due (y : appliance) : Z :=
  if (p_pending_effects (y_api y) =? 0) || (tick_time y <? p_effects_after (y_api y)) then 0 else p_pending_effects (y_api y).

(** What the owner of the tunnel is asked for, in this order. *)
Definition keeper_after (effects : Z) (o : keeper) : keeper :=
  let o := if has_effect MONITOR_EFFECT_TUNNEL effects then monitor_tunnel_reload o else o in
  if has_effect MONITOR_EFFECT_TUNNEL_RESTART effects then monitor_tunnel_restart o else o.

(** What a tick does. *)
Record ticked_device (y : appliance) (restarts : bool) (y' : appliance) : Prop := {
  td_order : device_ok y';
  td_pending : p_pending_effects (y_api y') = (if due y =? 0 then p_pending_effects (y_api y) else 0);
  td_wifi : n_reload_requested (y_network y') = n_reload_requested (y_network y) || has_effect MONITOR_EFFECT_WIFI (due y);
  td_tunnel : exists o, monitor_tunnel_tick (y_keeper y) = Some o /\ y_keeper y' = keeper_after (due y) o;
  td_restart : restarts = has_effect MONITOR_EFFECT_REBOOT (due y) /\ exists c, y_chip y' = if restarts then esp_restart (json_give c) else json_give c;
  td_session : p_session (y_api y') = p_session (y_api y) /\ p_session_until (y_api y') = p_session_until (y_api y) /\ p_failures (y_api y') = p_failures (y_api y)
}.

Lemma pending_ok e after p : api_ok p -> api_ok (set_pending e after p).
Proof. by intros [[Hz [t Ht]] Hf]; constructor; [split; [|exists t]|]. Qed.

(** The effects under the lock. *)
Lemma runs_due {Q : Z -> appliance -> Prop} y : device_ok y ->
  (forall e p c, e = (if (p_pending_effects (y_api y) =? 0) || (now_of y <? p_effects_after (y_api y)) then 0 else p_pending_effects (y_api y)) ->
     p = (if e =? 0 then y_api y else set_pending 0 (p_effects_after (y_api y)) (y_api y)) -> Q e (with_api p (with_chip c y))) -> runs due_effects y Q.
Proof.
  intros Hy HQ; unfold due_effects; apply runs_bind, runs_api; destruct (Z.eqb_spec (p_pending_effects (y_api y)) 0) as [E0|E0]; cbn [orb] in HQ.
  { apply runs_ret; specialize (HQ 0 (y_api y) (y_chip y) eq_refl eq_refl); by destruct y. }
  apply runs_bind, runs_milliseconds; intros now c -> ->; fold (now_of y); destruct (Z.leb_spec (p_effects_after (y_api y)) (now_of y)) as [Hle|Hgt]; cbn [negb].
  - apply runs_bind, runs_api_change, runs_ret; cbn [with_chip y_api]; apply HQ; [by replace (now_of y <? p_effects_after (y_api y)) with false by lia|]; by replace (p_pending_effects (y_api y) =? 0) with false by lia.
  - apply runs_ret; specialize (HQ 0 (y_api y) (chip_timer (y_chip y)).2); replace (now_of y <? p_effects_after (y_api y)) with true in HQ by lia; exact (HQ eq_refl eq_refl).
Qed.

Lemma tick_spec y : device_ok y -> exists r y', monitor_api_tick y = Some (r, y') /\
  ((json_take 0 (y_chip y)).1 = true -> ticked_device y r y') /\ ((json_take 0 (y_chip y)).1 = false -> r = false /\ y' = with_chip (json_take 0 (y_chip y)).2 y).
Proof.
  intros Hy; set (taken := (json_take 0 (y_chip y)).1); enough (runs monitor_api_tick y (λ r y', (taken = true -> ticked_device y r y') /\ (taken = false -> r = false /\ y' = with_chip (json_take 0 (y_chip y)).2 y))) as (r & y' & E & Hr) by (by exists r, y').
  unfold monitor_api_tick; apply runs_bind, runs_chip; fold taken; destruct taken eqn:Et; cbn [negb]; [|by apply runs_ret].
  set (y1 := with_chip _ y); assert (device_ok y1) as Hy1 by (by apply chip_kept).
  apply runs_bind, runs_ota; change (y_ota y1) with (y_ota y); destruct (yk_ota _ _ Hy) as (m0 & h & Ho); destruct (y_ota y) as [u m]; apply (runs_tick m0 h); [done|]; intros o Ho'.
  set (y2 := with_ota o y1); assert (device_ok y2) as Hy2 by (apply ota_kept; [done|by exists m0, h]).
  apply runs_bind; destruct (keeper_tick (y_keeper y2) (yk_keeper _ _ Hy2)) as (k & Ek & Hk); unfold in_keeper; eapply runs_performing; [rewrite Ek; reflexivity|].
  change (Appliance _ _ _ _ _ _ _ _ k _) with (with_keeper k y2); set (y3 := with_keeper k y2); assert (device_ok y3) as Hy3 by (by apply keeper_kept).
  apply runs_bind, runs_due; [done|]; intros e p c He Hp; change (now_of y3) with (tick_time y) in He; change (y_api y3) with (y_api y) in He, Hp; fold (due y) in He; subst e.
  assert (api_ok p) as Hpok by (rewrite Hp; case_match; [apply Hy|apply pending_ok, Hy]); apply runs_bind, runs_chip; set (y4 := with_chip _ _); assert (device_ok y4) as Hy4 by (by apply chip_kept, api_kept; [apply chip_kept|]).
  set (given := y_chip y4); assert (exists c', given = json_give c') as [c' Egiven] by (by eexists).
  apply runs_bind, runs_mono with (Q := λ _ y5, device_ok y5 /\ y_api y5 = p /\ n_reload_requested (y_network y5) = n_reload_requested (y_network y) || has_effect MONITOR_EFFECT_WIFI (due y) /\
    y_keeper y5 = k /\ y_chip y5 = given).
  { apply runs_when; intros E; rewrite E; [|split; [done|]; split; [done|]; by rewrite orb_false_r]; apply runs_network_part, runs_network_change; cbn [x_net].
    split; [apply net_kept; [done|]; apply requests_ok, Hy4|]; split; [done|]; by rewrite orb_true_r. }
  intros [] y5 (Hy5 & A5 & N5 & K5 & C5); set (k6 := if has_effect MONITOR_EFFECT_TUNNEL (due y) then monitor_tunnel_reload k else k).
  apply runs_bind, runs_mono with (Q := λ _ y6, device_ok y6 /\ y_api y6 = p /\ y_network y6 = y_network y5 /\ y_keeper y6 = k6 /\ y_chip y6 = given).
  { unfold k6; apply runs_when; intros E; rewrite E; [|by split_and!]; eapply runs_performing; [cbn; reflexivity|]; split; [apply keeper_kept; [done|]; by apply keeper_reload, Hy5|].
    cbn [y_api y_network y_keeper y_chip with_keeper]; by rewrite K5. }
  intros [] y6 (Hy6 & A6 & N6 & K6 & C6); apply runs_bind, runs_mono with (Q := λ _ y7, device_ok y7 /\ y_api y7 = p /\ y_network y7 = y_network y5 /\ y_keeper y7 = keeper_after (due y) k /\ y_chip y7 = given).
  { unfold keeper_after; fold k6; apply runs_when; intros E; rewrite E; [|by split_and!]; eapply runs_performing; [cbn; reflexivity|]; split; [apply keeper_kept; [done|]; by apply keeper_restart, Hy6|].
    cbn [y_api y_network y_keeper y_chip with_keeper]; by rewrite K6. }
  intros [] y7 (Hy7 & A7 & N7 & K7 & C7); set (restarts := has_effect MONITOR_EFFECT_REBOOT (due y)).
  apply runs_bind, runs_mono with (Q := λ _ y8, device_ok y8 /\ y_api y8 = p /\ y_network y8 = y_network y5 /\ y_keeper y8 = keeper_after (due y) k /\
    y_chip y8 = if restarts then esp_restart (json_give c') else json_give c').
  { apply runs_when; intros E; fold restarts in E; rewrite E; [apply runs_chip; split; [by apply chip_kept|]; cbn [with_chip y_api y_network y_keeper y_chip]; by rewrite C7, Egiven|by rewrite C7, Egiven]. }
  intros [] y8 (Hy8 & A8 & N8 & K8 & C8); apply runs_ret; split; [intros _|done]; split; [done| |by rewrite N8|by exists k|by split; [|exists c']|]; rewrite A8, Hp; by destruct (due y =? 0).
Qed.

(** Effects wait for a second at least. *)
Lemma schedule_spec e y : device_ok y -> exists y', monitor_api_schedule_effects_ e y = Some (tt, y') /\ device_ok y' /\
  (e = 0 -> y' = y) /\ (e <> 0 -> p_pending_effects (y_api y') = Z.lor (p_pending_effects (y_api y)) e /\ p_effects_after (y_api y') = u64 (now_of y + 1000)).
Proof.
  intros Hy; enough (runs (monitor_api_schedule_effects_ e) y (λ _ y', device_ok y' /\ (e = 0 -> y' = y) /\
    (e <> 0 -> p_pending_effects (y_api y') = Z.lor (p_pending_effects (y_api y)) e /\ p_effects_after (y_api y') = u64 (now_of y + 1000)))) as ([] & y' & E & Hr) by (by exists y').
  unfold monitor_api_schedule_effects_; apply runs_when; intros E; [|assert (e = 0) by lia; by split_and!]; apply runs_bind, runs_milliseconds; intros now c -> ->; fold (now_of y).
  apply runs_api_change; split; [apply api_kept; [by apply chip_kept|apply pending_ok, Hy]|]; split; [lia|]; by intros _.
Qed.

End Sessions.

(** ** A device in the office *)

(** A clock that counts its readings in milliseconds, a tunnel that notes what it
    is asked for,
    and a writer whose only document is empty. *)
Module Office.

#[export] Instance chip_ : Chip := {|
  chip := Z;
  chip_timer c := (1000 * c, c + 1);
  fill_random n c := (replicate (Z.to_nat n) 171, c);
  unix_time c := (1800000000, c);
  json_take _ c := (true, c);
  json_give c := c;
  esp_restart c := c;
  chip_revision _ := 2; chip_cores _ := 2; cpu_mhz := 240;
  heap_free _ := 100000; heap_min _ := 90000; heap_largest _ := 60000; psram_total _ := 8000000; psram_free _ := 7000000; flash_bytes _ := 16777216;
  task_count _ := 12; reset_reason _ := 1;
  mbedtls_base64_decode cap text := if zlen text <=? cap then (0, text) else (-42, [])
|}.

#[export] Instance chip_laws : ChipLaws.
Proof.
  constructor.
  - intros n c Hn; cbn; rewrite zlen_replicate; split; [lia|]; apply Forall_replicate; by vm_compute.
  - intros cap text Hc; cbn; destruct (Z.leb_spec (zlen text) cap); cbn; [done|by rewrite zlen_nil].
Qed.

#[export] Instance keeper_ : Keeper := {|
  keeper := list Z;
  monitor_tunnel_snapshot _ := zero_snapshot;
  monitor_tunnel_reload o := MONITOR_EFFECT_TUNNEL :: o;
  monitor_tunnel_restart o := MONITOR_EFFECT_TUNNEL_RESTART :: o;
  monitor_tunnel_tick o := Some (0 :: o)
|}.

#[export, program] Instance keeper_laws : KeeperLaws := { keeper_ok _ := True }.
Next Obligation. intros o _; split_and!; apply (bool_decide_eq_true_1 (0 ∈ _)); by vm_compute. Qed.
Next Obligation. intros o _; by eexists. Qed.
Next Obligation. done. Qed.
Next Obligation. done. Qed.

(** The body of a login, and its tree. *)
Definition login_text : list Z := 123 :: quoted "password" ++ [58] ++ quoted "abcdefghijklmnop" ++ [125].
Definition login_tree : json := sample_object None [sample_string "password" "abcdefghijklmnop"].

#[export] Instance office_parser : JsonParser := table_parser [(login_text, login_tree)].

#[export] Instance office_parser_laws : @JsonParserLaws 8 office_parser.
Proof.
  apply table_parser_laws; constructor; [|constructor]; apply (sample_node_ok _ _ None); try done.
  apply Forall_cons_2; [apply sample_string_ok; no_nul|]; constructor.
Qed.

#[export] Instance office_blocks : @JsonBlocks office_parser.
Proof.
  constructor; [by intros l h h' [= _ <-]|]; intros l h root e h1 h2 j E _ Hb; injection E as _ <-; exact Hb.
Qed.

#[export] Instance office_writer : JsonWriter := {|
  cf_cJSON_CreateObject h := (Some 1, h);
  cf_cJSON_AddStringToObject j _ _ h := (bool_decide (is_Some j), h);
  cf_cJSON_AddNumberToObject j _ _ h := (bool_decide (is_Some j), h);
  cf_cJSON_AddBoolToObject j _ _ h := (bool_decide (is_Some j), h);
  cf_cJSON_AddNullToObject j _ h := (bool_decide (is_Some j), h);
  cf_cJSON_AddObjectToObject j _ h := (j, h);
  cf_cJSON_AddArrayToObject j _ h := (j, h);
  cf_cJSON_AddItemToArray _ _ h := h;
  cf_cJSON_PrintPreallocated _ n h := if 3 <=? n then (true, [123; 125; 0]) else (false, []);
  tree_at _ _ := sample_object None []
|}.

#[export] Instance office_writer_laws : JsonWriterLaws 8.
Proof.
  refine {| document h root base items := blocks h = base |}; try done.
  - intros h r h' [= <- <-]; done.
  - intros h root base items a m r h' Hd _ E; destruct m; cbn [put_value] in E; unfold mbind, SM_bind, checked, calling in E; [destruct (c_string value); [|done]|..]; by injection E as _ <-.
  - intros m h r h' E; destruct m; cbn [put_value] in E; unfold mbind, SM_bind, checked, calling in E; [destruct (c_string value); [|done]|..]; by injection E as <- <-.
  - intros h root base items a key r h' Hd _ [= <- <-]; done.
  - intros h root base items a key r h' Hd _ [= <- <-]; done.
  - intros key h r h' [[= <- <-]|[= <- <-]]; done.
  - intros h root base items a r h' Hd _ [= <- <-]; done.
  - intros h root n Hn; cbn; destruct (Z.leb_spec 3 n); cbn; [split; [rewrite !zlen_cons, zlen_nil; lia|]; intros _; exists [123; 125]; split; [done|no_nul]|split; [rewrite zlen_nil; lia|done]].
Qed.

(** The device as it starts, with a store that has its password. *)
Definition start : appliance :=
  @Appliance chip_ keeper_ Air.quiet Shelf.storage roomy Board.updater _ zero_api zero_network 5000000 Shelf.empty no_blocks empty_heap (Ota zero_upload Board.start) (Panel initial_fixtures Workbench.bare) [] 100000.

End Office.
#[local] Existing Instances Office.chip_ Office.chip_laws Office.keeper_ Office.keeper_laws Office.office_parser Office.office_parser_laws Office.office_blocks Office.office_writer Office.office_writer_laws
  Shelf.storage Shelf.laws Air.quiet_laws Board.format Board.updater Board.view_ Board.laws Workbench.drivers Workbench.drivers_laws.

(** ** The theorems *)

Section Theorems.
Context (header : Z) (Hheader : 0 < header <= 64).
Context `{ChipLaws} `{KeeperLaws} `{RadioLaws} `{NvsLaws} `{MemoryLaws} `{JsonWriterLaws header} `{!JsonBlocks} `{UpdaterLaws} `{DriversLaws}.

(** C7. Every request is answered: whatever a request says and whatever the device
    holds, the API returns (no access outside an object, no tree used after it was
    deleted), with one of nine statuses and a text inside the reply; the device is
    in order again, in all its parts, and no block of JSON is left behind. *)
Theorem api_answers q body y : appliance_ok header y -> request_ok q body ->
  exists a y', monitor_api_dispatch_ q y = Some (a, y') /\ answered_well header y a y'.
Proof. intros Hy Hq; destruct (dispatch_spec header Hheader q body y Hy Hq) as (a & y' & E & [Ha _ _ _]); by exists a, y'. Qed.

(** C3. Only the session changes the device: a request that neither carries the
    session that is open, in time and from an allowed origin, nor logs in, nor asks
    for the status, is refused without an effect, and the device is as it was but
    for the reading of its clock.  And a session comes from nowhere else: after any
    request it is the one from before, or closed by who held it, or opened by a
    login with the device's password. *)
Theorem session_required q body y a y' : appliance_ok header y -> request_ok q body -> monitor_api_dispatch_ q y = Some (a, y') ->
  (~ holds_session q y -> is_login q \/ is_status q \/
    (exists c, y' = with_chip c y) /\ a_effects a = 0 /\ (a_status a = 401 \/ a_status a = 404 /\ q_post q = false)) /\ session_from q y y'.
Proof.
  intros Hy Hq E; destruct (dispatch_spec header Hheader q body y Hy Hq) as (a1 & y1 & E1 & [_ Hg Hs _]); rewrite E in E1; by injection E1 as <- <-.
Qed.

(** C19. A login, exactly: from a foreign origin it changes nothing; the sixth
    attempt of a minute is refused unread; otherwise a session of ten minutes, of
    64 random digits, is opened if and only if the body is the device's password
    and nothing else, and a failure is counted if it is not. *)
Theorem login_exact q body y : appliance_ok header y -> request_ok q body -> is_login q ->
  exists a y', monitor_api_dispatch_ q y = Some (a, y') /\ login_result q y y' (a_status a).
Proof. intros Hy Hq Hl; destruct (dispatch_spec header Hheader q body y Hy Hq) as (a & y' & E & [_ _ _ Hr]); exists a, y'; split; [exact E|by apply Hr]. Qed.

(** C9. The password cannot be searched for: in a run of logins of which none
    opens a session, over which the clock does not go back, at most five wrong
    passwords are looked at in the window under way, with those that were counted
    in it before, and at most ten in any sixty seconds (the end of one window and
    the begin of the next).  A session that is opened begins the count again, as
    [login_exact] says. *)
Theorem login_limited qs y : appliance_ok header y -> Forall (λ q, is_login q /\ exists body, request_ok q body) qs ->
  exists log y', logins qs y = Some (log, y') /\
    (in_time ((p_failure_window (y_api y), 0) :: log) -> 0 <= p_failure_window (y_api y) -> clock_times log -> no_session log ->
     p_failures (y_api y) + wrong_in (p_failure_window (y_api y)) log <= 5 /\ forall t, wrong_in t log <= 10).
Proof.
  intros Hy Hqs; destruct (logins_tried header Hheader qs Hqs y Hy) as (log & y' & E & Hl); exists log, y'; split; [exact E|]; intros Hs Hw Hc Hno.
  apply (tried_limits _ _ _ Hl); try done; apply Hy.
Qed.

(** C23. The effects of a change are applied once, and a second later at the
    earliest: scheduling them adds them to those that wait and sets the time; a
    tick that does not get the lock does nothing; a tick that gets it keeps the
    device in order and lets the owner of the tunnel do its part, and when that
    time has come, and only then, it takes all of the effects off and does what
    they say: it asks for the Wi-Fi settings, reloads the tunnel, restarts the
    tunnel and restarts the device, each exactly if its flag is set. *)
Theorem effects_wait e y : appliance_ok header y ->
  (exists y', monitor_api_schedule_effects_ e y = Some (tt, y') /\ appliance_ok header y' /\ (e = 0 -> y' = y) /\
    (e <> 0 -> p_pending_effects (y_api y') = Z.lor (p_pending_effects (y_api y)) e /\ p_effects_after (y_api y') = u64 (now_of y + 1000))) /\
  (exists r y', monitor_api_tick y = Some (r, y') /\
    if (json_take 0 (y_chip y)).1 then ticked_device header y r y' else r = false /\ y' = with_chip (json_take 0 (y_chip y)).2 y).
Proof.
  intros Hy; split; [by apply (schedule_spec header)|]; destruct (tick_spec header y Hy) as (r & y' & E & Hyes & Hno); exists r, y'; split; [exact E|].
  destruct (json_take 0 (y_chip y)).1; auto.
Qed.

End Theorems.

(** ** The theorems at work *)

Lemma start_ok : appliance_ok 8 Office.start.
Proof.
  constructor; [apply zero_api_ok|apply zero_network_ok|apply empty_heap_ok|eexists _, None; apply zero_in_order|apply initial_fixtures_ok|done].
Qed.

(** A request that posts this text to this path. *)
Definition posting (path : string) (credential text : list Z) : monitor_api_request := ApiRequest (cstring path) credential (view text) true true true false false.
Definition no_credential : list Z := replicate 80 0.

Lemma posting_ok path text : bytes_ok text -> zlen text <= MONITOR_BODY_MAX -> request_ok (posting path no_credential text) text.
Proof. intros Hb Hz; constructor; [apply cstring_nul|split; [done|]; apply (bool_decide_eq_true_1 (0 ∈ _)); by vm_compute|by split; [apply denotes_view|]]. Qed.

Definition sample_login : monitor_api_request := posting "/api/login" no_credential Office.login_text.
Definition sample_change : monitor_api_request := posting "/api/logout" no_credential (lit "{}").

Lemma sample_login_ok : request_ok sample_login Office.login_text.
Proof. apply posting_ok; [bytes_by_compute|by vm_compute]. Qed.
Lemma sample_change_ok : request_ok sample_change (lit "{}").
Proof. apply posting_ok; [apply lit_bytes|by vm_compute]. Qed.
Lemma sample_is_login : is_login sample_login.
Proof. split; [done|apply cstr_cstring; no_nul]. Qed.

Lemma api_answers_witness : exists a y', monitor_api_dispatch_ sample_login Office.start = Some (a, y') /\ answered_well 8 Office.start a y'.
Proof. exact (api_answers 8 ltac:(lia) sample_login Office.login_text Office.start start_ok sample_login_ok). Defined.

(** Nobody has a session at first. *)
Lemma session_required_witness : exists a y', monitor_api_dispatch_ sample_change Office.start = Some (a, y') /\
  (exists c, y' = with_chip c Office.start) /\ a_effects a = 0 /\ (a_status a = 401 \/ a_status a = 404 /\ q_post sample_change = false).
Proof.
  destruct (dispatch_spec 8 ltac:(lia) sample_change (lit "{}") Office.start start_ok sample_change_ok) as (a & y' & E & _); exists a, y'; split; [exact E|].
  destruct (session_required 8 ltac:(lia) sample_change (lit "{}") Office.start a y' start_ok sample_change_ok E) as [Hg _]; destruct Hg as [[_ Hl]|[[Hs _]|Hg]]; [|by destruct Hl as (rest & El & _)|done|exact Hg].
  intros (_ & s & [Hs _] & Hne & _); apply Hne; apply (cstr_unique _ _ _ Hs); apply (cstr_zeros 65); lia.
Defined.

Lemma login_exact_witness : exists a y', monitor_api_dispatch_ sample_login Office.start = Some (a, y') /\ login_result sample_login Office.start y' (a_status a).
Proof. exact (login_exact 8 ltac:(lia) sample_login Office.login_text Office.start start_ok sample_login_ok sample_is_login). Defined.

(** Twenty wrong bodies. *)
Definition guesses : list monitor_api_request := replicate 20 (posting "/api/login" no_credential (lit "{}")).

Lemma guesses_ok : Forall (λ q, is_login q /\ exists body, request_ok q body) guesses.
Proof.
  apply Forall_replicate; split; [split; [done|apply cstr_cstring; no_nul]|].
  exists (lit "{}"); apply posting_ok; [apply lit_bytes|by vm_compute].
Qed.

(** Of twenty guesses in a row five are looked at. *)
Definition guess_log : list (Z * Z) := map (λ n, (100000 + n, if n <? 5 then 401 else 429)) (seqZ 0 20).

Lemma guess_times e : e ∈ guess_log -> 100000 <= e.1 < 100020 /\ e.2 <> 200 /\ e.2 <> 503.
Proof. unfold guess_log; intros (n & -> & Hn%elem_of_seqZ)%list_elem_of_fmap; cbn; case_match; lia. Qed.

Lemma login_limited_witness : exists y', logins guesses Office.start = Some (guess_log, y') /\ wrong_in 100000 guess_log = 5 /\ 0 + wrong_in 0 guess_log <= 5 /\ forall t, wrong_in t guess_log <= 10.
Proof.
  destruct (login_limited 8 ltac:(lia) guesses Office.start start_ok guesses_ok) as (log & y' & E & Hb).
  assert (fst <$> logins guesses Office.start = Some guess_log) as El by (vm_compute; reflexivity).
  rewrite E in El; injection El as ->; exists y'; split; [exact E|]; split; [reflexivity|]; apply Hb.
  - by apply Sorted_StronglySorted; [intros a b c; apply Z.le_trans|repeat constructor].
  - done.
  - apply Forall_forall; intros e He; apply guess_times in He; lia.
  - apply Forall_forall; intros e He; apply guess_times in He; lia.
Defined.

Definition early : @chip Office.chip_ := 59995.
Definition early_device : appliance := with_chip early Office.start.

(** The bound of ten is reached: a device that has been up for 59995 milliseconds
    looks at five guesses, and at five more when the first window is over. *)
Lemma ten_guesses : exists log y', logins guesses early_device = Some (log, y') /\ wrong_in 59995 log = 10.
Proof.
  destruct (logins guesses early_device) as [[log y']|] eqn:E; [|apply (f_equal (λ x, bool_decide (x = None))) in E; vm_compute in E; discriminate E].
  exists log, y'; split; [done|]; assert ((wrong_in 59995 ∘ fst) <$> logins guesses early_device = Some 10) as El by (vm_compute; reflexivity).
  rewrite E in El; by injection El.
Qed.

(** All effects wait, and their time has come. *)
Definition changed : appliance := with_api (set_pending 15 0 (y_api Office.start)) Office.start.

Lemma changed_ok : appliance_ok 8 changed.
Proof. apply api_kept; [apply start_ok|]; apply pending_ok, zero_api_ok. Qed.

Lemma effects_wait_witness : exists r y', monitor_api_tick changed = Some (r, y') /\ r = true /\ p_pending_effects (y_api y') = 0 /\
  y_keeper y' = [MONITOR_EFFECT_TUNNEL_RESTART; MONITOR_EFFECT_TUNNEL; 0] /\ n_reload_requested (y_network y') = true.
Proof.
  destruct (effects_wait 8 MONITOR_EFFECT_REBOOT changed changed_ok) as (_ & r & y' & E & [_ Hpending Hwifi (o & Eo & Hk) [Hr _] _]); exists r, y'; split; [exact E|].
  injection Eo as <-; split; [exact Hr|]; split; [exact Hpending|]; split; [exact Hk|exact Hwifi].
Defined.
