(* ===== verification/MonitorDevice.v ===== *)
(** The device behind the tunnel: its API and the state of all its parts are the
    rest of the monitor that the responses rely on, so that what was shown of the
    callbacks holds of the whole device, from the stream to the settings. *)
From stdpp Require Import gmap.
From S2P Require Export MonitorApplication MonitorSession.
#[local] Open Scope Z_scope.

(** The pages, which the build generates. *)
Class Pages := {
  pages : list monitor_asset;
  pages_law : Forall (λ a, (exists p, cstr (uri a) p) /\ (exists t, cstr (type a) t /\ bytes_ok t) /\ zlen (data_bytes a) <= INT32_MAX) pages
}.

Section Whole.
Context `{Chip} `{Keeper} `{Radio} `{Nvs} `{Memory} `{JsonParser} `{JsonWriter} `{Updater} `{ImageFormat} `{Drivers} `{Pages}.

(** The lock is tried without waiting. *)
#[export] Instance whole_monitor : Monitor := {|
  device := appliance;
  monitor_api_dispatch := monitor_api_dispatch_;
  monitor_api_schedule_effects e y := match monitor_api_schedule_effects_ e y with Some (_, y') => y' | None => y end;
  monitor_lock y := let '(taken, c) := json_take 0 (y_chip y) in (taken, with_chip c y);
  monitor_unlock y := with_chip (json_give (y_chip y)) y;
  monitor_assets := pages
|}.

(** The clock in microseconds, and the JSON heap. *)
#[export] Instance whole_system : MonitorSystem := {|
  device_time (y : device) := let '(t, c) := chip_timer (y_chip y) in (t, with_chip c y);
  device_heap (y : device) := y_heap y;
  put_device_heap h (y : device) := with_vault (Vault (y_nvs y) (y_memory y) h) y
|}.

(** The application when the tunnel starts: no record is in use. *)
Definition idle_site (m : memory) (y : device) : site := Site (replicate (Z.to_nat CF_H2_APPLICATION_MAX) free_response) m y.

(** Nothing of the device changed, but what its clock and its lock count. *)
Definition untouched_device (y y' : device) : Prop := exists c, y' = with_chip c y.

End Whole.

Section Device.
Context (header : Z) (Hheader : 0 < header <= 64).
Context `{ChipLaws} `{KeeperLaws} `{RadioLaws} `{NvsLaws} `{MemoryLaws} `{JsonWriterLaws header} `{!JsonBlocks} `{UpdaterLaws} `{DriversLaws} `{Pages}.

(** The device keeps what the responses rely on. *)
#[export, program] Instance whole_monitor_laws : MonitorLaws := { device_ok := appliance_ok header }.
Next Obligation.
  intros q body y Hy Hpath Hcred Hb Hz; destruct (dispatch_spec header Hheader q body y Hy) as (a & y' & E & [(Hy' & _ & code & text & _ & _ & Hl & Hc & Hzb) _ _ _]); [by constructor|].
  exists a, y'; split; [exact E|]; split; [done|]; split; [done|]; rewrite Hl; destruct Hc as (rest & Er & _); rewrite Er, zlen_app, zlen_cons in Hzb; pose proof (zlen_nonneg rest); pose proof (zlen_nonneg text); lia.
Qed.
Next Obligation. intros e y Hy; cbn; by destruct (schedule_spec header e y Hy) as (y' & -> & Hy' & _). Qed.
Next Obligation. intros y Hy; cbn; destruct (json_take 0 (y_chip y)); by apply chip_kept. Qed.
Next Obligation. intros y Hy; by apply chip_kept. Qed.
Next Obligation. apply pages_law. Qed.

#[export, program] Instance whole_system_laws : MonitorSystemLaws header.
Next Obligation. intros y Hy; cbn; destruct (chip_timer (y_chip y)); by apply chip_kept. Qed.
Next Obligation. intros y Hy; apply Hy. Qed.
Next Obligation. intros h y Hy Hh; by apply vault_in_order. Qed.

(** ** The theorems *)

Context `{Nghttp2}.

(** C2. The whole device is safe behind the tunnel: from four free records and a
    device in order, whatever requests, data, reads and closures the sessions of
    the tunnel deliver in whatever order, every callback returns, every record
    stays in order, and so does every part of the device that the API reaches: its
    session, its network state, its JSON heap, its firmware upload, its pins and
    light, and the owner of the tunnel. *)
Theorem device_served calls m (y : device) h : Forall (λ c : monitor_call * cf_h2, MonitorApplication.call_typed c.1 /\ h2_inv c.2) calls -> appliance_ok header y ->
  exists v, performs calls (Visit (idle_site m y) h) = Some (tt, v) /\
    slots_ok (w_slots (v_site v)) /\ appliance_ok header (w_device (v_site v)).
Proof.
  intros Hc Hy; pose (L := whole_monitor_laws).
  destruct (performs_kept calls Hc (Visit (idle_site m y) h)) as ([] & v & E & [Hs Hd]); [|by exists v].
  split; [split; [done|]; apply Forall_replicate; by left|exact Hy].
Qed.

(** C20. Nothing comes through the tunnel past the session: a request that is posted
    to any path but the login, with a credential that is not the session that is
    open, or that the server does not take at all, leaves the device as it was
    but for its clock and lock, whatever its body is and however it is cut into
    pieces, and whatever memory, records and the lock there are. *)
Theorem remote_guarded w h r hs pieces last :
  slots_ok (w_slots w) -> appliance_ok header (w_device w) -> h2_inv h -> r_stream r <> 0 -> find_response (r_stream r) (w_slots w) = None ->
  Forall2 entry_denotes (r_headers r) hs -> first_field hs (lit ":method") = lit "POST" -> before_query (first_field hs (lit ":path")) <> lit "/api/login" ->
  (forall fs s, takeable hs fs -> session_is (y_api (w_device w)) s -> s <> [] -> value_of (lit "authorization") fs <> lit "Bearer " ++ s) ->
  Forall MonitorApplication.piece_ok pieces -> MonitorApplication.piece_ok last ->
  exists rc v, post r pieces last (Visit w h) = Some (rc, v) /\ untouched_device (w_device w) (w_device (v_site v)).
Proof.
  intros Hs Hy Hh Hr Hnew Hes Hm Hpath Hno Hps Hl; pose (L := whole_monitor_laws).
  assert (site_ok w) as Hw by (by split); destruct (post_spec w h r hs pieces last Hw Hh Hr Hnew Hes Hm Hps Hl) as (rc & v & E & Hcase & _).
  exists rc, v; split; [exact E|]; destruct Hcase as [[->|Hbusy]|(fs & i & Ht & Hp & Hf & _ & d1 & q & a & d2 & s & Elock & Hq & Ed & Ew & _)].
  { exists (y_chip (w_device w)); by destruct (w_device w). }
  { cbn in Hbusy; destruct (json_take 0 _) as [b c]; injection Hbusy as _ <-; by exists c. }
  assert (exists c, d1 = with_chip c (w_device w)) as [c Ec] by (cbn in Elock; destruct (json_take 0 _) as [b c]; injection Elock as _ <-; by exists c).
  assert (appliance_ok header d1) as Hy1 by (rewrite Ec; by apply chip_kept).
  assert (request_ok q (concat pieces ++ last)) as Hqok.
  { destruct Hq as [Qp [Qa Qz] Qb _ _ _ _]; constructor; [destruct Qp as (rest & -> & _)|split; [done|]; destruct Qa as (rest & -> & _)|split; [exact Qb|apply Hf]]; apply elem_of_app; right; by left. }
  assert (q_post q = true) as Hpost by apply Hq; assert (cstr (q_path q) (before_query (first_field hs (lit ":path")))) as Hqp by apply Hq.
  destruct (dispatch_spec header Hheader q _ d1 Hy1 Hqok) as (a' & y' & E' & [_ Hg _ _]); cbn [monitor_api_dispatch whole_monitor] in Ed; rewrite E' in Ed; injection Ed as -> ->.
  assert (~ holds_session q d1) as Hsession.
  { intros (_ & t & Ht1 & Hne & _ & Hcred); rewrite Ec in Ht1; destruct (as_authorization _ _ _ _ Hq) as [Qa _]; exact (Hno fs t Ht Ht1 Hne (cstr_unique _ _ _ Qa Hcred)). }
  destruct (Hg Hsession) as [[_ Hlog]|[[Hg' _]|((c' & ->) & He & _)]]; [by apply (cstr_unique _ _ _ Hqp) in Hlog|congruence|].
  exists (json_give (y_chip (with_chip c' d1))); rewrite Ew, He, Ec; by destruct (w_device w).
Qed.

End Device.

(** ** The theorems at work *)

#[local] Instance one_page : Pages := { pages := [Desk.page]; pages_law := @assets_law _ Desk.monitor_laws }.

#[local] Existing Instances Quiet.library Office.chip_ Office.chip_laws Office.keeper_ Office.keeper_laws Office.office_parser Office.office_parser_laws Office.office_blocks Office.office_writer Office.office_writer_laws
  Shelf.storage Shelf.laws Air.quiet Air.quiet_laws Board.format Board.updater Board.view_ Board.laws Workbench.drivers Workbench.drivers_laws.

Definition office : device := Office.start.

Lemma device_served_witness :
  exists v, performs (map (λ c, (c, Quiet.admitted)) sample_calls) (Visit (idle_site no_blocks office) Quiet.admitted) = Some (tt, v) /\
    slots_ok (w_slots (v_site v)) /\ appliance_ok 8 (w_device (v_site v)).
Proof.
  apply (device_served 8 ltac:(lia) (map (λ c, (c, Quiet.admitted)) sample_calls) no_blocks office Quiet.admitted); [|apply start_ok].
  apply Forall_map; eapply Forall_impl; [apply sample_typed|]; intros c Hc; split; [exact Hc|apply Quiet.admitted_ok].
Defined.

Lemma free_slots_ok : slots_ok free_slots.
Proof. split; [done|]; apply Forall_replicate; by left. Qed.

Lemma start_closed s : session_is (y_api office) s -> s = [].
Proof. intros [Hs _]; apply (cstr_unique _ _ _ Hs), (cstr_zeros 65); lia. Qed.

Lemma remote_guarded_witness :
  exists rc v, post (as_request post_head) [lit "1234"] (lit "567") (Visit (idle_site no_blocks office) Quiet.admitted) = Some (rc, v) /\ untouched_device office (w_device (v_site v)).
Proof.
  apply (remote_guarded 8 ltac:(lia) (idle_site no_blocks office) Quiet.admitted (as_request post_head) post_head [lit "1234"] (lit "567"));
    [apply free_slots_ok|apply start_ok|apply Quiet.admitted_ok|done|by vm_compute|apply sample_denotes|by vm_compute|by vm_compute| | |].
  - intros fs s _ Hs Hne; by apply start_closed in Hs.
  - apply Forall_cons_2; [split; [apply lit_bytes|by vm_compute]|apply Forall_nil_2].
  - split; [apply lit_bytes|by vm_compute].
Defined.
